(* ===== verification/_CoqProject ===== *)
-Q . S2P
Prelude.v
PyFloat.v
Timeframes.v
Signals.v
Fusion.v
Risk.v
Decision.v
Tables.v
Candles.v
SignalStore.v
Decide.v
Costs.v
Positions.v
Paper.v
Ledger.v
Lifecycle.v
MarketConfig.v
LedgerGate.v
Lock.v
Bus.v
Orchestrator.v
PaperCycle.v
Backtest.v
Report.v
MarketHours.v
Breaker.v
Ingest.v
Alerts.v
Accounts.v
Realtime.v
Access.v
Staleness.v
PyFormat.v
Indicators.v
Technical.v
News.v
Content.v
AgentWork.v
Portfolio.v
Synthetic.v
BacktestRun.v
Heartbeat.v
ContentSources.v
Admin.v
Config.v
Oanda.v
Runtime.v
IngestWorker.v
Llm.v
Problems.v
System.v
ReadApi.v
Cli.v
Schema.v
Migrations.v
App.v
DbSession.v
Publisher.v
Feed.v
Delivery.v
Adapter.v
CycleReport.v
Metrics.v
Logging.v
World.v
