(* ===== verification/Prelude.v ===== *)
(** * Verification of the paper-trading core of the Forex AI system

    The program (Python, [src/backend/app]) watches foreign-exchange series, lets agents
    emit signals on closed bars, fuses the signals of a pair into a decision behind a risk
    gate, and trades the decisions that pass on paper, in a ledger that survives restarts.
    A replay of the same code over stored bars (the backtest) reports metrics.  This library
    models that core: the pure functions as functions on their Python values, the code that
    reads and writes tables as functions on an explicit database, the workers as functions
    from a database and a batch to a database and what was sent or acknowledged.

    ** How the program hangs together, and where each part is modelled

    - Bars.  [data/timeframes.py] aligns instants to buckets ([Timeframes]);
      [data/ingest.py] asks a provider for the closed buckets that are missing, behind the
      circuit breaker of [data/breaker.py], and upserts them through [data/repository.py]
      ([Ingest], [Breaker], [Candles]).  [data/market_hours.py] is the FX week
      ([MarketHours]); [data/market_config.py] the configured universe ([MarketConfig]);
      [data/providers/synthetic.py] generates demo bars ([Synthetic]) and
      [data/providers/oanda.py] fetches and streams those of a practice account ([Oanda]).
    - Signals.  The contract of an agent's signal is [agents/base.py] ([Signals]).  The
      technical and the regime agent read indicators off a frame of bars ([Indicators],
      [Technical]); the fundamental and the sentiment agent score events and headlines
      ([News]).  [workers/agent_worker.py] runs the registered agents on the bars it loads
      and publishes what they say ([AgentWork]); signals are stored and read by
      [data/signal_repository.py] ([SignalStore]).
    - Content.  [workers/content_runtime.py] polls the providers of [data/providers/]
      ([ContentSources]) and stores articles and calendar events under deduplication keys
      ([Content]).  The clients of the language model with their daily budget are [llm/]
      ([Llm]); no agent calls them yet.
    - Decisions.  [decisions/fusion.py] scores the votes ([Fusion]), [decisions/risk.py]
      and [data/risk_config.py] size and gate a trade ([Risk]), [decisions/engine.py]
      composes them: its pure function [compute_decision] is in [Decision], its
      [DecisionEngine.decide], which gathers the inputs from the tables and persists the
      outcome with [data/decision_repository.py], is in [Decide].
    - Paper trading.  [broker/costs.py], [broker/positions.py] and [broker/paper.py] are
      the in-memory broker ([Costs], [Positions], [Paper]); [broker/ledger.py] persists it
      through [broker/store.py] ([Ledger]) and keeps the contract of [broker/adapter.py]
      ([Adapter]); [broker/lifecycle.py] resolves pending orders
      bar by bar ([Lifecycle]); [decisions/ledger_gate.py] derives the risk gate from the
      ledger ([LedgerGate]).  [CycleReport] compares what a cycle reports with the ledger.
    - Workers.  [workers/orchestrator_worker.py] holds a Redis lease ([Lock]), turns
      triggers into decisions and orders ([Orchestrator]) and drives the lifecycle
      ([PaperCycle]).  [workers/alert_worker.py] persists what the others publish
      ([Alerts]); [bus/events.py] is the envelope ([Bus]), [bus/publisher.py] puts it on the
      streams ([Publisher]), whose consumer groups hand them to the workers ([Delivery]);
      [monitor/staleness.py] watches the series ([Staleness]) and
      [monitor/heartbeat.py] the workers ([Heartbeat]).  The processes around these parts,
      their loops, signals, heartbeats and clean-up, are the [..._runtime.py] of [workers/]
      with [core/shutdown.py] and [worker_main.py] ([Runtime]) and [workers/ingest_worker.py]
      ([IngestWorker]).
    - Replay.  [backtest/driver.py], [backtest/orchestrator_sim.py] and
      [backtest/agent_runner.py] replay bars through the same fusion, risk and broker
      ([Backtest]); [backtest/report.py] computes the metrics ([Report]);
      [backtest/service.py] and [backtest/repository.py] run it with the shipped agents and
      store the run ([BacktestRun]).
    - People.  [services/auth_service.py] and [core/security.py] keep accounts and sessions
      ([Accounts]); [api/deps.py], [core/ratelimit.py] and [api/v1/auth.py] attribute and
      throttle a caller ([Access]); [ws/] and [api/v1/realtime.py] let a ticket holder
      follow the streams ([Realtime], and over whole streams [Feed]); [api/v1/admin.py] and the other mutating endpoints
      change the configuration under audit and queue backfills ([Admin]);
      [data/portfolio_reader.py] shows the ledger ([Portfolio]); the reading endpoints of
      [api/v1/] are [ReadApi], the probes and the status matrix [System], the commands of
      [cli.py] [Cli].  [core/config.py] are the settings of all processes ([Config]),
      [core/errors.py], [core/logging.py] and the middleware of [core/metrics.py] the answers
      to errors, the redaction of logs and the request metrics ([Problems]); how logging is
      set up is in [Logging]; all collectors of
      that module, where they are recorded and who serves them, are in [Metrics].  [main.py] puts
      the routers and layers together ([App]); [db/session.py] hands out engines and clients
      ([DbSession]).
    - Tables.  What a statement of the data definition language does to a PostgreSQL schema,
      and what a mapped class declares, is in [Schema]; the scripts of
      [migrations/versions/], the commands that run them and the classes of [models/] are in
      [Migrations].
    - The whole.  [World] has one transaction for each way a process changes the trading
      database (ingest, agents, orchestrator, lifecycle, administrator) and the histories of
      them in any order.

    [Prelude] (this file) has the error monad, the tactics, stable sorting, insertion
    ordered dictionaries and strings; [PyFloat] has Python's numbers and [PyFormat] their
    texts and durations; [Tables] the rows and the database record that the trading files
    share.  Accounts, alerts, content and backtest runs have tables of their own, which no
    other part writes, in records of their files.

    ** Conventions

    - A function that may raise returns [Res]; the exceptions are [PyErr].  A [dict] is an
      association list in insertion order, a [list] a list, an instant an integer number
      of microseconds, a [datetime] an instant with its UTC offset, a [float] a binary64
      number of the Standard Library's [SpecFloat] with the interpreter's operations, a
      [Decimal] a coefficient and an exponent.  Integers are unbounded, as Python's.
    - A table is the list of its rows in insertion order; [INSERT ... ON CONFLICT] looks
      its unique key up.  A function that runs in a transaction returns the database it
      leaves; where it raises, the caller keeps the old one, as the session rolls back.
    - What is not under [src/] is a parameter: the class [Platform] of [Tables] (uuids,
      BLAKE2b, SHA-256, [float] of a string, [repr], what a numeric column keeps), and in
      the files that use them the JSON and timestamp parsers, the data provider, the bus
      (which event it accepts), the window sums of pandas (class [Pandas] of [Indicators]),
      cos, log and exp (class [Libm] of [Synthetic]), what a process does to the world and
      what it is told (class [Runtime] of [Runtime], of which the lease in Redis is the
      instance [Lease]), the router and the layers of the web framework with their
      documented behaviour (class [Framework] of [App]), a stream with its consumer group
      (class [ConsumerGroup] of [Delivery]), the client of Prometheus (class [Prometheus] of
      [Metrics]), the answers to a live feed ([Feed.truthful]),
      password hashing, JWT, [ipaddress], HTTP answers and the time zone of the host.  [PlatformOk] states what is
      documented of them (distinct uuids, eight bytes of digest, columns that keep what
      they kept); [demo_platform] is a concrete instance.
    - Redis keys with a lifetime are entries with an expiry, read at an explicit time
      ([Lock], [Realtime], [Heartbeat]).  A request that raises rolls its tables back while
      what it sent to Redis stays sent, and one that returns is answered before its session
      commits, unless its handler commits itself: where the server then refuses a row the
      answer stands and the tables do not change ([Admin.transaction]).
    - Loops over lists are structural.  [iterate_buckets] has one step of fuel for each
      bucket between its bounds and [_next_boundary] one for each week; that this is enough
      is part of [iterate_buckets_exact] and [market_week]; the backfill queue is drained
      with a step per entry ([backfill_fifo]), a provider is asked with a step per attempt,
      pages are walked with more fuel than there are bars ([candle_pages_complete]).  The
      loops of the worker processes end by a signal or an error only: they take fuel for
      their turns, their theorems hold for every amount of it, and [ended] tells an end from
      fuel that ran out; [takeover_within_lease] shows that taking the lease needs no more
      than its own bound.  The shortest decimal of a
      float is searched over at most 18 digit counts (every double has one of at most 17
      digits); its result is only used after it was read back, and should the search fail
      the value stays the float itself.  [ndigits] counts up to 2000 digits, more than a
      coefficient of a float or of a column has.

    ** What the theorems show

    - The whole system: [World.every_position_sponsored] says of every database the processes
      can reach together that each position goes back to a filled order, a stored PAPER
      decision and a passed risk evaluation, that a symbol has one open position at most and
      that no key of bars, signals, decisions and evaluations is stored twice, and
      [World.configuration_in_force] that what an administrator configures is what the
      engine works with until the next such request; both are composed of what each
      component's theorems keep.
    - Trading safety: [Ledger.ledger_consistent] is the invariant of the ledger (one open
      position per symbol, one order per decision, every position owned by a filled order
      of its symbol, the broker in step with the tables) under every operation;
      [Adapter.clients_accounted] says what a client of any such broker can rely on;
      [Lifecycle.process_unit_bar_sound], [PaperCycle.unit_pass_resolves] and
      [PaperCycle.lifecycle_cycle_sound] lift it through one bar, one unit and one cycle, and
      [CycleReport.cycle_report_exact] shows that the cycle's counts are those of the rows;
      [Orchestrator.paper_order_sponsored] shows that an order exists only for a PAPER
      decision of the same transaction, and [Lock.lock_single_owner] that one worker at a
      time acts.
    - Decisions: [Fusion.fuse_correct], [Risk.assess_fail_closed] and
      [Decision.decision_promotion] say exactly when a bar becomes PAPER, BLOCKED or
      ANALYSIS; [Decide.decide_paper_sound] refines the engine to that function, and
      [Decide.decide_first_writer] makes its writes idempotent.
    - Data: idempotence and exactness of candle and signal storage, bucket arithmetic, the
      breaker, the market calendar, the configuration and the alert table.
    - Replay: no look-ahead within the fine timeframe, fills at later opens only, parity of
      the gates, finite metrics.
    - Agents: [Technical.technical_signal_valid], [Technical.regime_signal_total] and
      [News.content_signal_valid] show that every agent answers with a valid signal,
      [Indicators.indicators_causal] that no indicator looks ahead,
      [AgentWork.agent_poll_accounts] what one poll does with its entries.
    - Runs: [BacktestRun.backtest_run_terminal] shows that a run ends with all its rows or
      none, [Synthetic.synthetic_windows_compose] that bars do not depend on how they are
      fetched, [Content.content_first_write] that content is stored once.
    - Access: [Accounts.session_refinement] refines the token tables to an abstract session
      machine, [Accounts.reuse_closes_family] and [Accounts.live_session_continues] are its
      safety and progress; [Realtime.ticket_single_use], [Realtime.topic_isolation],
      [Feed.feed_delivers_log], [Access.limiter_window], [Access.direct_caller_throttled] and
      [Admin.admin_action_audited] bound what a caller can do, [Config.settings_safe] what
      the environment can; [Portfolio.portfolio_shows_ledger] relates what is shown to the
      invariant of the ledger.
    - Processes: [Runtime.orchestrator_works_under_lease] shows that nothing is done without
      a lease just confirmed, [Runtime.takeover_within_lease] that a crashed owner is
      succeeded, [Runtime.what_ends_a_worker] which failures end which loop,
      [IngestWorker.ingest_turn_complete] that a turn serves the whole universe,
      [Oanda.oanda_adapter_sound] what a provider hands on, [Llm.llm_within_budget] what a
      day costs at most, [Publisher.published_events_delivered] what a stream holds,
      [Delivery.alerts_delivered_at_most_once] and
      [Delivery.triggers_delivered_at_most_once] what of it a worker is given and keeps.
    - The web application: [App.routes_guarded] who may do what over all routes,
      [App.routes_reached] that none hides another, [ReadApi.reads_answered],
      [ReadApi.candle_pages_complete] and [ReadApi.prices_shown] what is read,
      [System.readiness_truthful] when it is ready, [Problems.problem_answers],
      [Problems.redaction_exact], [Logging.every_record_redacted] and
      [App.answers_correlated] what errors and logs show,
      [Cli.createuser_bootstraps] what the command line may create.
    - Schema: [Migrations.schema_follows_revision] that every walk over the scripts ends in
      the schema of its revision, [Migrations.upserts_have_keys] and
      [Migrations.writes_fit_columns] that what the repositories write fits it,
      [Migrations.models_declare_head] how the mapped classes differ from it.
    - Several theorems state behaviour the code has and its documentation does not intend.
      Trading: [AgentWork.shipped_agents_never_paper] and
      [BacktestRun.shipped_backtest_never_trades] (from [Decide.no_paper_without_atr14]),
      [AgentWork.agents_stuck_on_oldest], [Paper.round_trip_cash],
      [Lifecycle.same_bar_cash_lost], [PaperCycle.catchup_never_advances].  Replay:
      [Backtest.parent_context_looks_ahead], [BacktestRun.multi_symbol_backtest_fails].
      Data and content: [Ingest.lost_probe_disables_ingest], [Ingest.backlog_is_skipped],
      [Staleness.reopening_alarm], [ContentSources.calendar_never_ahead],
      [Content.news_hash_ambiguous], [News.sentiment_pair_cancels],
      [News.negation_cancels].  Workers and access:
      [Alerts.orchestrator_alerts_collide], [Accounts.concurrent_refresh_forks],
      [Realtime.poison_payload_closes_feed], [Admin.long_backfill_unaudited],
      [Config.nan_loads], [Llm.redirects_escape],
      [Runtime.lease_left_behind], [Runtime.turn_outlives_lease],
      [Oanda.malformed_answer_disables_ingest], [ReadApi.poisoned_price],
      [Cli.backfill_hides_failures], [DbSession.shutdown_keeps_engines],
      [Problems.request_metrics], [Metrics.alert_rules_blind],
      [CycleReport.signal_close_unreported] and parts of
      [Risk.assess_fail_closed] (a flat direction passes), [Risk.risk_params_safe],
      [ReadApi.reads_answered], [Admin.admin_action_audited],
      [Orchestrator.poll_acks_every_entry], [AgentWork.agent_poll_accounts],
      [Alerts.alert_batch], [App.answers_correlated] and [App.routes_reached].

    ** What is not modelled

    The values the timings and gauges of the workers take; the parsing of requests and of
    command lines by the frameworks and the titles of the OpenAPI document (the pages that show
    it are routes of [App]);
    which amounts a [NUMERIC] column is too narrow for: what it keeps of an amount it holds is
    [numeric] of [Platform], and a transaction the server refuses for whatever reason leaves
    the tables as they were, a step of its own in [World];
    [migrations/env.py], which configures Alembic; the audit copies of provider payloads; the
    front end and the infrastructure. *)

From Stdlib Require Import ZArith Lia Sorted.
From stdpp Require Import base list strings gmap sorting.

#[export] Set Default Goal Selector "!".
Open Scope Z_scope.

(** ** Results: Python exceptions as values *)

(** The exceptions the modelled code raises, or relies on a callee raising. *)
Inductive PyErr :=
| ValueError
| KeyError
| ZeroDivisionError
| OverflowError
| IntegrityError      (* a unique or foreign-key constraint of a table *)
| BreakerOpenError
| AuthenticationError
| ConflictError
| PermissionDeniedError
| NotFoundError
| RateLimitError
| ProviderTransientError
| ProviderError
| ContentProviderAuthError
| ContentProviderRateLimitError
| ContentProviderTransientError
| InvalidInputError
| ServiceUnavailableError
| LLMUnavailable
| OtherError.

#[export] Instance PyErr_eq_dec : EqDecision PyErr.
Proof. solve_decision. Defined.

Inductive Res (A : Type) :=
| Ok (a : A)
| Err (e : PyErr).
Arguments Ok {A} a.
Arguments Err {A} e.

Definition res_bind {A B} (r : Res A) (k : A -> Res B) : Res B :=
  match r with
  | Ok a => k a
  | Err e => Err e
  end.

Declare Scope py_scope.
Delimit Scope py_scope with py.
Notation "x <-- c ;; k" := (res_bind c (fun x => k))
  (at level 100, c at next level, right associativity) : py_scope.
Open Scope py_scope.

Definition is_ok {A} (r : Res A) : bool :=
  match r with Ok _ => true | Err _ => false end.

Lemma res_bind_ok {A B} (r : Res A) (k : A -> Res B) b :
  res_bind r k = Ok b <-> exists a, r = Ok a /\ k a = Ok b.
Proof.
  split.
  - destruct r as [a|e]; simpl; [eauto | discriminate].
  - intros (a & -> & H). exact H.
Qed.

(** A loop whose body may raise: [for x in l: s = f(s, x)]. *)
Fixpoint fold_res {A S} (f : S -> A -> Res S) (l : list A) (s : S) : Res S :=
  match l with
  | [] => Ok s
  | x :: l' => s' <-- f s x ;; fold_res f l' s'
  end.

Lemma fold_res_app {A S} (f : S -> A -> Res S) l1 l2 s :
  fold_res f (l1 ++ l2) s = (s' <-- fold_res f l1 s ;; fold_res f l2 s').
Proof.
  revert s. induction l1 as [|x l1 IH]; intros s; [reflexivity|].
  simpl. destruct (f s x) as [s'|e]; [apply IH | reflexivity].
Qed.

(** A loop raises what some turn of it raised. *)
Lemma fold_res_err {A S} (f : S -> A -> Res S) l s e :
  fold_res f l s = Err e -> exists x s', x ∈ l /\ f s' x = Err e.
Proof.
  revert s. induction l as [|x l IH]; simpl; intros s H; [done|].
  destruct (f s x) as [s1|e1] eqn:E; simpl in H.
  - apply IH in H as (y & s' & Hy & H). exists y, s'. split; [by right|done].
  - injection H as ->. exists x, s. split; [by left|done].
Qed.

(** An invariant of the body is an invariant of the loop. *)
Lemma fold_res_inv {A S} (P : S -> Prop) (f : S -> A -> Res S) l s s' :
  (forall s x s', P s -> f s x = Ok s' -> P s') ->
  P s -> fold_res f l s = Ok s' -> P s'.
Proof.
  intros Hf. revert s. induction l as [|x l IH]; simpl; intros s Hs H.
  - by injection H as <-.
  - apply res_bind_ok in H as (s1 & H1 & H2). eauto.
Qed.

Lemma fold_res_inv_in {A S} (P : S -> Prop) (f : S -> A -> Res S) l s s' :
  (forall s x s', x ∈ l -> P s -> f s x = Ok s' -> P s') ->
  P s -> fold_res f l s = Ok s' -> P s'.
Proof.
  revert s. induction l as [|x l IH]; simpl; intros s Hf Hs H.
  - by injection H as <-.
  - apply res_bind_ok in H as (s1 & H1 & H2). apply (IH s1); [|by eapply Hf; [left|..]|done].
    intros s2 y s3 Hy. apply Hf. by right.
Qed.

(** ** Tactics *)

(** Case analysis on the outermost [match]/[if] scrutinee of the goal or of a
    hypothesis, keeping the equation. *)
Ltac dmatch :=
  match goal with
  | |- context [match ?x with _ => _ end] =>
      lazymatch x with context [match _ with _ => _ end] => fail | _ => destruct x eqn:? end
  end.
Ltac dmatch_in H :=
  match type of H with
  | context [match ?x with _ => _ end] =>
      lazymatch x with context [match _ with _ => _ end] => fail | _ => destruct x eqn:? end
  end.
Ltac inv_res :=
  repeat match goal with
  | H : res_bind _ _ = Ok _ |- _ => apply res_bind_ok in H as (? & ? & ?)
  | H : Ok _ = Ok _ |- _ => injection H as H
  | H : Err _ = Ok _ |- _ => discriminate H
  | H : Ok _ = Err _ |- _ => discriminate H
  end; subst.

(** ** Lists *)

(** Python's [sorted(l, key=...)], a stable sort: [leb a b] compares the keys. *)
Section SortBy.
Context {A : Type} (leb : A -> A -> bool).

Fixpoint insert_by (x : A) (l : list A) : list A :=
  match l with
  | [] => [x]
  | y :: l' => if leb x y then x :: y :: l' else y :: insert_by x l'
  end.

Definition sort_by (l : list A) : list A := foldr insert_by [] l.

Lemma insert_by_perm x l : insert_by x l ≡ₚ x :: l.
Proof.
  induction l as [|y l IH]; simpl; [done|].
  destruct (leb x y); [done|]. rewrite IH. apply Permutation_swap.
Qed.

Lemma sort_by_perm l : sort_by l ≡ₚ l.
Proof.
  induction l as [|x l IH]; simpl; [done|]. by rewrite insert_by_perm, IH.
Qed.

Lemma elem_of_sort_by x l : x ∈ sort_by l <-> x ∈ l.
Proof. by rewrite sort_by_perm. Qed.

Lemma length_sort_by l : length (sort_by l) = length l.
Proof. by rewrite sort_by_perm. Qed.

Class TotalLeb : Prop := {
  leb_total : forall a b, leb a b = true \/ leb b a = true;
  leb_trans : forall a b c, leb a b = true -> leb b c = true -> leb a c = true
}.

Definition sorted_by : list A -> Prop :=
  StronglySorted (fun a b => leb a b = true).

Lemma insert_by_sorted `{!TotalLeb} x l :
  sorted_by l -> sorted_by (insert_by x l).
Proof.
  unfold sorted_by. induction 1 as [|y l Hs IH Hy]; simpl.
  - constructor; constructor.
  - destruct (leb x y) eqn:E.
    + constructor; [by constructor|]. constructor; [done|].
      eapply List.Forall_impl; [|exact Hy]. intros z Hz. eauto using leb_trans.
    + constructor; [done|].
      assert (leb y x = true) as Hyx by (destruct (leb_total x y); congruence).
      rewrite insert_by_perm. by constructor.
Qed.

Lemma sort_by_sorted `{!TotalLeb} l : sorted_by (sort_by l).
Proof.
  induction l as [|x l IH]; simpl; [constructor | by apply insert_by_sorted].
Qed.
End SortBy.

#[export] Instance Z_leb_total : TotalLeb Z.leb.
Proof. split; intros; rewrite ?Z.leb_le in *; lia. Qed.

(** Sorting forgets the order of a list whose keys are distinct. *)
Lemma sort_by_unique {A} (leb : A -> A -> bool) `{!TotalLeb leb} l1 l2 :
  (forall a b, a ∈ l1 -> b ∈ l1 -> leb a b = true -> leb b a = true -> a = b) ->
  l1 ≡ₚ l2 -> sort_by leb l1 = sort_by leb l2.
Proof.
  intros Ha Hp.
  eapply (StronglySorted_unique_strong (fun a b => leb a b = true));
    [|apply sort_by_sorted; done|apply sort_by_sorted; done|by rewrite !sort_by_perm].
  intros a b Ha1 Hb1. rewrite elem_of_sort_by in Ha1, Hb1. apply Ha; [done|by rewrite Hp].
Qed.

(** Python's string order (code points). *)
Lemma string_compare_refl s : String.compare s s = Eq.
Proof.
  induction s as [|c s IH]; simpl; [done|]. unfold Ascii.compare. by rewrite N.compare_refl.
Qed.

#[export] Instance string_leb_total : TotalLeb String.leb.
Proof.
  split; [apply String.leb_total|]. unfold String.leb.
  induction a as [|x a IH]; intros [|y b] [|z c]; simpl; try done.
  unfold Ascii.compare.
  destruct (N.compare_spec (Ascii.N_of_ascii x) (Ascii.N_of_ascii y)),
    (N.compare_spec (Ascii.N_of_ascii y) (Ascii.N_of_ascii z)),
    (N.compare_spec (Ascii.N_of_ascii x) (Ascii.N_of_ascii z)); try lia; try done. apply IH.
Qed.

Lemma find_app_Some {A} (f : A -> bool) l k x : List.find f l = Some x -> List.find f (l ++ k) = Some x.
Proof. induction l as [|y l IH]; simpl; [done|]. by destruct (f y). Qed.

(** Rows of a table with a unique key. *)
Lemma unique_by {A K} (key : A -> K) l x y :
  NoDup (map key l) -> x ∈ l -> y ∈ l -> key x = key y -> x = y.
Proof.
  induction l as [|z l IH]; simpl; [by intros _ ?%elem_of_nil|].
  rewrite NoDup_cons, !elem_of_cons. intros [Hz Hn] [->|Hx] [->|Hy] E; [done| | |by apply IH].
  - exfalso. apply Hz. rewrite E. by apply list_elem_of_fmap_2.
  - exfalso. apply Hz. rewrite <- E. by apply list_elem_of_fmap_2.
Qed.

(** Rows of a table whose nullable key is unique where it is set. *)
Lemma unique_omap {A K} (key : A -> option K) (l : list A) x y k :
  NoDup (omap key l) -> x ∈ l -> y ∈ l -> key x = Some k -> key y = Some k -> x = y.
Proof.
  assert (Hin : forall (l0 : list A) z, z ∈ l0 -> key z = Some k -> k ∈ omap key l0).
  { intros l0 z Hz E. apply list_elem_of_omap. by exists z. }
  induction l as [|z l IH]; [by intros _ ?%elem_of_nil|]. intros Hn Hx Hy Ex Ey.
  apply elem_of_cons in Hx as [->|Hx]; apply elem_of_cons in Hy as [->|Hy]; [done| | |].
  - exfalso. cbn in Hn. rewrite Ex in Hn. apply NoDup_cons in Hn as [Hn _]. by apply Hn, (Hin _ y).
  - exfalso. cbn in Hn. rewrite Ey in Hn. apply NoDup_cons in Hn as [Hn _]. by apply Hn, (Hin _ x).
  - apply IH; try done. cbn in Hn. destruct (key z); [by apply NoDup_cons in Hn as [_ ?]|done].
Qed.

(** ** Dictionaries *)

(** A Python [dict]: an association list in insertion order, one entry per key.
    Assigning to a present key keeps its place, to a new key appends. *)
Section Dict.
Context {K V : Type} `{EqDecision K}.

Definition dict := list (K * V).

Fixpoint dget (k : K) (d : dict) : option V :=
  match d with
  | [] => None
  | (k', v) :: d' => if decide (k = k') then Some v else dget k d'
  end.

Fixpoint dset (k : K) (v : V) (d : dict) : dict :=
  match d with
  | [] => [(k, v)]
  | (k', v') :: d' => if decide (k = k') then (k, v) :: d' else (k', v') :: dset k v d'
  end.

Fixpoint ddel (k : K) (d : dict) : dict :=
  match d with
  | [] => []
  | (k', v') :: d' => if decide (k = k') then d' else (k', v') :: ddel k d'
  end.

(** [d.get(k, default)]. *)
Definition dget_or (k : K) (dflt : V) (d : dict) : V :=
  match dget k d with Some v => v | None => dflt end.

(** [d[k]]. *)
Definition dindex (k : K) (d : dict) : Res V :=
  match dget k d with Some v => Ok v | None => Err KeyError end.

Lemma dget_dset k k' v d :
  dget k (dset k' v d) = if decide (k = k') then Some v else dget k d.
Proof.
  induction d as [|[k1 v1] d IH]; simpl; [by destruct (decide _)|].
  destruct (decide (k' = k1)) as [->|]; simpl.
  - by destruct (decide (k = k1)).
  - rewrite IH. by destruct (decide (k = k1)), (decide (k = k')); try congruence.
Qed.

Lemma dget_dset_eq k v d : dget k (dset k v d) = Some v.
Proof. rewrite dget_dset. by rewrite decide_True. Qed.

Lemma dget_dset_ne k k' v d : k <> k' -> dget k (dset k' v d) = dget k d.
Proof. intros. rewrite dget_dset. by rewrite decide_False. Qed.

Lemma dget_Some_in k v d : dget k d = Some v -> (k, v) ∈ d.
Proof.
  induction d as [|[k1 v1] d IH]; simpl; [done|].
  destruct (decide (k = k1)) as [->|]; rewrite elem_of_cons; [|eauto].
  intros [= ->]. by left.
Qed.

Lemma dget_In k v d : NoDup d.*1 -> (k, v) ∈ d -> dget k d = Some v.
Proof.
  induction d as [|[k1 v1] d IH]; simpl; [by intros _ ?%elem_of_nil|].
  rewrite NoDup_cons, elem_of_cons. intros [Hk Hn] [[= -> ->]|Hin]; [by rewrite decide_True|].
  destruct (decide (k = k1)) as [->|]; [|by apply IH].
  exfalso. apply Hk, list_elem_of_fmap. by exists (k1, v).
Qed.

Lemma dget_None k d : dget k d = None <-> k ∉ d.*1.
Proof.
  induction d as [|[k1 v1] d IH]; simpl.
  - split; [intros _ H; by apply elem_of_nil in H | done].
  - rewrite not_elem_of_cons. destruct (decide (k = k1)); naive_solver.
Qed.

Lemma dset_keys k v d x : x ∈ (dset k v d).*1 <-> x = k \/ x ∈ d.*1.
Proof.
  induction d as [|[k1 v1] d IH]; simpl; [set_solver|].
  destruct (decide (k = k1)) as [->|]; simpl; rewrite !elem_of_cons; [naive_solver|].
  rewrite IH. naive_solver.
Qed.

Lemma dset_NoDup k v d : NoDup d.*1 -> NoDup (dset k v d).*1.
Proof.
  induction d as [|[k1 v1] d IH]; simpl; [intros; apply NoDup_singleton|].
  rewrite NoDup_cons. intros [Hn Hd].
  destruct (decide (k = k1)) as [->|]; simpl; rewrite NoDup_cons; [done|].
  rewrite dset_keys. naive_solver.
Qed.

Lemma ddel_sublist k d : (ddel k d).*1 `sublist_of` d.*1.
Proof.
  induction d as [|[k1 v1] d IH]; simpl; [done|]. destruct (decide (k = k1)); simpl; [by apply sublist_cons|by apply sublist_skip].
Qed.

Lemma ddel_NoDup k d : NoDup d.*1 -> NoDup (ddel k d).*1.
Proof. intros Hd. eapply sublist_NoDup; [done|apply ddel_sublist]. Qed.

Lemma dget_ddel k k' d : NoDup d.*1 -> dget k (ddel k' d) = if decide (k = k') then None else dget k d.
Proof.
  induction d as [|[k1 v1] d IH]; simpl; [by intros; destruct (decide _)|].
  rewrite NoDup_cons. intros [Hn Hd]. destruct (decide (k' = k1)) as [->|]; simpl.
  - destruct (decide (k = k1)) as [->|]; [by apply dget_None|done].
  - rewrite IH by done. by destruct (decide (k = k1)), (decide (k = k')); try congruence.
Qed.
End Dict.
Arguments dict K V : clear implicits.
#[export] Hint Resolve dset_NoDup : core.

(** ** Strings *)

Definition ascii_upper (c : Ascii.ascii) : Ascii.ascii :=
  let n := Ascii.nat_of_ascii c in
  if (Nat.leb 97 n && Nat.leb n 122)%bool then Ascii.ascii_of_nat (n - 32) else c.

(** [s.upper()] on ASCII text. *)
Fixpoint str_upper (s : string) : string :=
  match s with
  | EmptyString => EmptyString
  | String c s' => String (ascii_upper c) (str_upper s')
  end.

(** [s[:n]] and [s[n:]]. *)
Fixpoint str_take (n : nat) (s : string) : string :=
  match n, s with
  | S n', String c s' => String c (str_take n' s')
  | _, _ => EmptyString
  end.
Fixpoint str_drop (n : nat) (s : string) : string :=
  match n, s with
  | S n', String _ s' => str_drop n' s'
  | _, _ => s
  end.

Lemma ascii_upper_idem c : ascii_upper (ascii_upper c) = ascii_upper c.
Proof. by destruct c as [[] [] [] [] [] [] [] []]. Qed.

Lemma str_upper_idem s : str_upper (str_upper s) = str_upper s.
Proof. induction s as [|c s IH]; simpl; [done|]. by rewrite ascii_upper_idem, IH. Qed.

(** [s.lower()] on ASCII text. *)
Definition ascii_lower (c : Ascii.ascii) : Ascii.ascii :=
  let n := Ascii.nat_of_ascii c in
  if Nat.leb 65 n && Nat.leb n 90 then Ascii.ascii_of_nat (n + 32) else c.
Fixpoint str_lower (s : string) : string :=
  match s with EmptyString => EmptyString | String c s' => String (ascii_lower c) (str_lower s') end.

Definition is_space (c : Ascii.ascii) : bool :=
  let n := Ascii.nat_of_ascii c in
  (Nat.leb 9 n && Nat.leb n 13) || (Nat.leb 28 n && Nat.leb n 32).

Fixpoint lstrip (s : string) : string :=
  match s with
  | String c s' => if is_space c then lstrip s' else s
  | EmptyString => EmptyString
  end.
(** [s.strip()] on ASCII text. *)
Definition py_strip (s : string) : string := String.rev (lstrip (String.rev (lstrip s))).

(** Stripping and lowering, on the list of characters. *)
Fixpoint drop_spaces (l : list Ascii.ascii) : list Ascii.ascii :=
  match l with
  | c :: l' => if is_space c then drop_spaces l' else l
  | [] => []
  end.

Notation chars := String.list_ascii_of_string.

Lemma chars_inj s t : chars s = chars t -> s = t.
Proof. intros E. by rewrite <- (String.string_of_list_ascii_of_string s), E, String.string_of_list_ascii_of_string. Qed.

Lemma chars_rev s : chars (String.rev s) = rev (chars s).
Proof.
  assert (Hr : forall s t, chars (String.rev_app s t) = rev (chars s) ++ chars t).
  { clear s. induction s as [|c s IH]; intros t; simpl; [done|]. rewrite IH. simpl. by rewrite <- app_assoc. }
  unfold String.rev. rewrite Hr. apply app_nil_r.
Qed.

Lemma chars_lstrip s : chars (lstrip s) = drop_spaces (chars s).
Proof. induction s as [|c s IH]; simpl; [done|]. by destruct (is_space c). Qed.

Lemma chars_strip s : chars (py_strip s) = rev (drop_spaces (rev (drop_spaces (chars s)))).
Proof. unfold py_strip. by rewrite chars_rev, chars_lstrip, chars_rev, chars_lstrip. Qed.

Lemma chars_lower s : chars (str_lower s) = map ascii_lower (chars s).
Proof. induction s as [|c s IH]; simpl; [done|]. by rewrite IH. Qed.

Lemma drop_spaces_suffix l : exists l', l = l' ++ drop_spaces l.
Proof.
  induction l as [|c l [l' IH]]; simpl; [by exists []|]. destruct (is_space c); [|by exists []].
  exists (c :: l'). simpl. by f_equal.
Qed.

Lemma drop_spaces_head l c l' : drop_spaces l = c :: l' -> is_space c = false.
Proof.
  induction l as [|d l IH]; simpl; [done|]. destruct (is_space d) eqn:E; [done|]. by intros [= <- <-].
Qed.

Lemma drop_spaces_idem l : drop_spaces (drop_spaces l) = drop_spaces l.
Proof.
  destruct (drop_spaces l) as [|c l'] eqn:E; [done|]. apply drop_spaces_head in E. simpl. by rewrite E.
Qed.

Lemma py_strip_idem s : py_strip (py_strip s) = py_strip s.
Proof.
  apply chars_inj. rewrite !chars_strip. set (x := drop_spaces (chars s)).
  assert (Hm : drop_spaces (rev (drop_spaces (rev x))) = rev (drop_spaces (rev x))).
  { destruct (rev (drop_spaces (rev x))) as [|c m] eqn:Em; [done|].
    destruct (drop_spaces_suffix (rev x)) as [l' Hl]. apply (f_equal (@rev _)) in Hl.
    rewrite rev_involutive, rev_app_distr, Em in Hl. apply drop_spaces_head in Hl. simpl. by rewrite Hl. }
  by rewrite Hm, rev_involutive, drop_spaces_idem.
Qed.

Lemma ascii_lower_idem c : ascii_lower (ascii_lower c) = ascii_lower c.
Proof. by destruct c as [[] [] [] [] [] [] [] []]. Qed.

Lemma is_space_lower c : is_space (ascii_lower c) = is_space c.
Proof. by destruct c as [[] [] [] [] [] [] [] []]. Qed.

Lemma str_lower_idem s : str_lower (str_lower s) = str_lower s.
Proof. induction s as [|c s IH]; simpl; [done|]. by rewrite ascii_lower_idem, IH. Qed.

Lemma drop_spaces_lower l : drop_spaces (map ascii_lower l) = map ascii_lower (drop_spaces l).
Proof. induction l as [|c l IH]; simpl; [done|]. rewrite is_space_lower. by destruct (is_space c). Qed.

Lemma py_strip_lower s : py_strip (str_lower s) = str_lower (py_strip s).
Proof.
  apply chars_inj. by rewrite chars_strip, chars_lower, drop_spaces_lower, <- map_rev, drop_spaces_lower,
    <- map_rev, chars_lower, chars_strip.
Qed.

(** [[f(x) for x in l]] with an [f] that may raise. *)
Fixpoint map_res {A B} (f : A -> Res B) (l : list A) : Res (list B) :=
  match l with
  | [] => Ok []
  | x :: l' => y <-- f x ;; ys <-- map_res f l' ;; Ok (y :: ys)
  end.

Lemma map_res_ok {A B} (f : A -> Res B) (l : list A) :
  (forall x, x ∈ l -> exists y, f x = Ok y) -> exists ys, map_res f l = Ok ys.
Proof.
  induction l as [|x l IH]; intros H; simpl; [eauto|].
  destruct (H x) as [y ->]; [by left|].
  destruct IH as [ys ->]; [intros; apply H; by right|]. simpl. eauto.
Qed.

Lemma map_res_Forall2 {A B} (f : A -> Res B) l ys : map_res f l = Ok ys -> Forall2 (fun x y => f x = Ok y) l ys.
Proof.
  revert ys. induction l as [|x l IH]; intros ys Hm; simpl in Hm; [by injection Hm as <-|].
  apply res_bind_ok in Hm as (y & Hy & Hm). apply res_bind_ok in Hm as (ys' & Hys & Hm). injection Hm as <-.
  constructor; [done|by apply IH].
Qed.

Lemma map_res_app {A B} (f : A -> Res B) (l1 l2 : list A) :
  map_res f (l1 ++ l2) = (ys <-- map_res f l1 ;; zs <-- map_res f l2 ;; Ok (ys ++ zs)).
Proof.
  induction l1 as [|x l1 IH]; cbn [app map_res res_bind].
  - by destruct (map_res f l2).
  - destruct (f x) as [y|]; cbn [res_bind]; [|done]. rewrite IH.
    destruct (map_res f l1) as [ys|]; cbn [res_bind]; [|done]. by destruct (map_res f l2).
Qed.

Lemma map_res_err {A B} (f : A -> Res B) (l : list A) e :
  (forall x e', f x = Err e' -> e' = e) ->
  map_res f l = Err e <-> exists x, x ∈ l /\ f x = Err e.
Proof.
  intros He. induction l as [|x l IH]; simpl.
  - split; [done|]. intros (y & Hy & _). by apply elem_of_nil in Hy.
  - destruct (f x) as [y|e'] eqn:Ex; simpl.
    + destruct (map_res f l) as [ys|e2]; simpl.
      * split; [done|]. intros (z & [->|Hz]%elem_of_cons & Hf); [congruence|].
        destruct IH as [_ IH]. exfalso. enough (Ok ys = Err e) by done. eauto.
      * rewrite IH. setoid_rewrite elem_of_cons. split.
        -- intros (z & ? & ?). eauto.
        -- intros (z & [->|Hz] & Hf); [congruence|eauto].
    + split; [|intros _; f_equal; by eapply He].
      intros [= ->]. exists x. split; [by left|done].
Qed.

(** ** Retries: [tenacity.retry(retry_if_exception_type, stop_after_attempt, reraise)] *)

Section Retry.
Context {A : Type} (retryable : PyErr -> bool) (call : nat -> Res A).

Definition wants_retry (r : Res A) : bool := match r with Err e => retryable e | Ok _ => false end.

(** The calls are numbered from [n]; at most [attempts] are made, the last result stands.
    Also the number of the next call. *)
Fixpoint retry (attempts n : nat) : Res A * nat :=
  match attempts with
  | O => (Err OtherError, n)
  | S more =>
      let r := call n in
      match more with
      | S _ => if wants_retry r then retry more (S n) else (r, S n)
      | O => (r, S n)
      end
  end.

(** It answers the first call that is not to be retried, or the last one it may make. *)
Lemma retry_spec attempts : forall n, (attempts > 0)%nat ->
  exists k, (k < attempts)%nat /\ retry attempts n = (call (n + k)%nat, (n + S k)%nat) /\
    (forall j, (j < k)%nat -> wants_retry (call (n + j)%nat) = true) /\
    (wants_retry (call (n + k)%nat) = true -> S k = attempts).
Proof.
  induction attempts as [|more IH]; intros n Ha; [lia|]. cbn [retry].
  assert (Hstop : forall b : bool, wants_retry (call n) = b -> (b = true -> more = O) ->
    exists k, (k < S more)%nat /\ (call n, S n) = (call (n + k)%nat, (n + S k)%nat) /\
      (forall j, (j < k)%nat -> wants_retry (call (n + j)%nat) = true) /\
      (wants_retry (call (n + k)%nat) = true -> S k = S more)).
  { intros b Hb Hm. exists O. rewrite Nat.add_0_r, Nat.add_1_r, Hb. split_and!; [lia|done|intros; lia|].
    intros Ht. by rewrite (Hm Ht). }
  destruct more as [|more]; [by eapply Hstop|].
  destruct (wants_retry (call n)) eqn:Et; [|by apply (Hstop false)].
  destruct (IH (S n)) as (k & Hk & Hr & Hall & Hlast); [lia|]. exists (S k). rewrite Hr.
  replace (S n + k)%nat with (n + S k)%nat in * by lia. split_and!; [lia|f_equal; lia| |intros E; by rewrite Hlast].
  intros [|j] Hj; [by rewrite Nat.add_0_r|]. replace (n + S j)%nat with (S n + j)%nat by lia. apply Hall. lia.
Qed.
End Retry.
