(* ===== verification/PyFloat.v ===== *)
(** * Python [float]: IEEE 754 binary64, and the built-ins applied to it

    [float] is the standard library's executable specification of binary64
    (precision 53, maximal exponent 1024), so every arithmetic operation below
    is the correctly rounded one that CPython performs.  On top of it: decimal
    literals, [round], [min]/[max], [sum] (the compensated summation of
    CPython 3.12), [repr]'s shortest round-tripping decimal and [float] of a
    decimal.  The lemmas are about order (complete, through a lexicographic key),
    signs, and the decimal round trip. *)

From Stdlib Require Export Floats.SpecFloat.
From Stdlib Require Import ZArith Lia.
From stdpp Require Import base list.
From S2P Require Import Prelude.

Abbreviation float := spec_float.

#[export] Instance spec_float_eq_dec : EqDecision spec_float.
Proof. solve_decision. Defined.

Definition prec : Z := 53.
Definition emax : Z := 1024.

(** ** Operations *)

Definition fadd : float -> float -> float := SFadd prec emax.
Definition fsub : float -> float -> float := SFsub prec emax.
Definition fmul : float -> float -> float := SFmul prec emax.
Definition fdiv_ieee : float -> float -> float := SFdiv prec emax.
Definition fneg : float -> float := SFopp.
Definition fabs : float -> float := SFabs.
Definition flt : float -> float -> bool := SFltb.
Definition fle : float -> float -> bool := SFleb.
Definition feq : float -> float -> bool := SFeqb.

Declare Scope float_scope.
Delimit Scope float_scope with float.
Open Scope float_scope.
Notation "x +ᶠ y" := (fadd x y) (at level 50, left associativity) : float_scope.
Notation "x -ᶠ y" := (fsub x y) (at level 50, left associativity) : float_scope.
Notation "x *ᶠ y" := (fmul x y) (at level 40, left associativity) : float_scope.
Notation "x <ᶠ y" := (flt x y) (at level 70, no associativity) : float_scope.
Notation "x <=ᶠ y" := (fle x y) (at level 70, no associativity) : float_scope.
Notation "x =ᶠ y" := (feq x y) (at level 70, no associativity) : float_scope.
(** Python's [x > y] and [x >= y]. *)
Notation "x >ᶠ y" := (flt y x) (at level 70, no associativity) : float_scope.
Notation "x >=ᶠ y" := (fle y x) (at level 70, no associativity) : float_scope.

Definition f0 : float := S754_zero false.
Definition finf : float := S754_infinity false.
Definition is_nan (x : float) : bool := match x with S754_nan => true | _ => false end.
Definition is_infinite (x : float) : bool := match x with S754_infinity _ => true | _ => false end.
(** [math.isfinite]. *)
Definition isfinite (x : float) : bool :=
  match x with S754_zero _ | S754_finite _ _ _ => true | _ => false end.

(** The double nearest (ties to even) to the rational [n / d]. *)
Definition of_ratio (n : Z) (d : positive) : float :=
  match n with
  | Z0 => S754_zero false
  | Zpos p =>
      let '(m, e, l) := SFdiv_core_binary prec emax (Zpos p) 0 (Zpos d) 0 in
      binary_round_aux prec emax false m e l
  | Zneg p =>
      let '(m, e, l) := SFdiv_core_binary prec emax (Zpos p) 0 (Zpos d) 0 in
      binary_round_aux prec emax true m e l
  end.

(** [float(n)] of a Python integer. *)
Definition of_Z (n : Z) : float := of_ratio n 1.

Definition pow10 (k : nat) : positive := Pos.pow 10 (Pos.of_nat k) .
Definition p10 (k : nat) : positive := match k with O => 1%positive | _ => pow10 k end.

(** The literal [n * 10^-k], e.g. [lit 15 2] for [0.15]. *)
Definition lit (n : Z) (k : nat) : float := of_ratio n (p10 k).

Definition f1 : float := of_Z 1.
Definition f2 : float := of_Z 2.

(** [x / y] on two floats: Python raises where IEEE 754 gives an infinity. *)
Definition fdiv (x y : float) : Res float :=
  if y =ᶠ f0 then Err ZeroDivisionError else Ok (fdiv_ieee x y).

(** Built-in [min(a, b)] and [max(a, b)]: the first argument wins ties and
    unordered comparisons. *)
Definition fmin (a b : float) : float := if b <ᶠ a then b else a.
Definition fmax (a b : float) : float := if b >ᶠ a then b else a.

(** Truth value of a float. *)
Definition ftruthy (x : float) : bool := negb (x =ᶠ f0).
(** [x or y]. *)
Definition f_or (x y : float) : float := if ftruthy x then x else y.

(** Nearest integer to [n / d], ties to even. *)
Definition rne_div (n : Z) (d : positive) : Z :=
  let q := n / Zpos d in
  let r := n mod Zpos d in
  match Z.compare (2 * r) (Zpos d) with
  | Lt => q
  | Gt => q + 1
  | Eq => if Z.even q then q else q + 1
  end.

(** [round(x, k)]: the exact value of [x] is rounded half-even to [k] decimals,
    and the double nearest to that decimal is returned. *)
Definition fround (x : float) (k : nat) : float :=
  match x with
  | S754_finite s m e =>
      match e with
      | Zneg p =>
          let q := rne_div (Zpos m * Zpos (p10 k)) (Pos.pow 2 p) in
          match of_ratio q (p10 k) with
          | S754_zero _ => S754_zero s
          | y => if s then SFopp y else y
          end
      | _ => x
      end
  | _ => x
  end.

(** One step of CPython 3.12's compensated [sum]: running sum and compensation. *)
Definition sum_step (sc : float * float) (x : float) : float * float :=
  let '(s, c) := sc in
  let t := s +ᶠ x in
  if fabs s >=ᶠ fabs x
  then (t, c +ᶠ ((s -ᶠ t) +ᶠ x))
  else (t, c +ᶠ ((x -ᶠ t) +ᶠ s)).

(** [sum(l)] of a list of floats (the integer start value 0 is added to the
    first element; the compensation is added at the end when finite and
    non-zero). *)
Definition fsum (l : list float) : float :=
  match l with
  | [] => f0
  | x :: l' =>
      let '(s, c) := foldl sum_step (f0 +ᶠ x, f0) l' in
      if ftruthy c && isfinite c then s +ᶠ c else s
  end.

(** ** Decimals *)

(** A [decimal.Decimal]: coefficient times a power of ten, or a special value
    (an infinity or NaN, kept as the float it came from). *)
Inductive Decimal :=
| Dec (coef exp : Z)
| DSpecial (x : float).

#[export] Instance Decimal_eq_dec : EqDecision Decimal.
Proof. solve_decision. Defined.

(** [float(d)]. *)
Definition dec_to_float (d : Decimal) : float :=
  match d with
  | Dec c e =>
      match e with
      | Zneg p => of_ratio c (Pos.pow 10 p)
      | _ => of_ratio (c * 10 ^ e) 1
      end
  | DSpecial x => x
  end.

(** Exact value of a positive finite double as a ratio. *)
Definition ratio_of (m : positive) (e : Z) : Z * positive :=
  match e with
  | Zneg p => (Zpos m, Pos.pow 2 p)
  | _ => (Zpos m * 2 ^ e, 1%positive)
  end.

(** [floor (log10 (n / d))], searched downwards from an upper estimate [k]. *)
Fixpoint mag_search (fuel : nat) (n : Z) (d : positive) (k : Z) : Z :=
  match fuel with
  | O => k
  | S f =>
      let ok := if 0 <=? k then 10 ^ k * Zpos d <=? n else Zpos d <=? n * 10 ^ (- k) in
      if ok then k else mag_search f n d (k - 1)
  end.

(** The decimals with exponent [q] just below and above [n / d]. *)
Definition dec_floor (n : Z) (d : positive) (q : Z) : Z :=
  if 0 <=? q then n / (Zpos d * 10 ^ q) else (n * 10 ^ (- q)) / Zpos d.

(** Is [n/d] closer to [c * 10^q] than to [(c+1) * 10^q]?  Ties go to even. *)
Definition dec_nearer_below (n : Z) (d : positive) (c q : Z) : bool :=
  let '(a, b) := if 0 <=? q then (n, Zpos d * 10 ^ q) else (n * 10 ^ (- q), Zpos d) in
  match Z.compare (2 * a) ((2 * c + 1) * b) with
  | Lt => true
  | Gt => false
  | Eq => Z.even c
  end.

(** Strip trailing zeros of a coefficient. *)
Fixpoint strip0 (fuel : nat) (c e : Z) : Z * Z :=
  match fuel with
  | O => (c, e)
  | S f => if (c mod 10 =? 0) && negb (c =? 0) then strip0 f (c / 10) (e + 1) else (c, e)
  end.

(** The shortest decimal that reads back as the double [x = n / d] and, among
    those of that length, the closest to it: exponents are tried from [q] down. *)
Fixpoint shortest (fuel : nat) (n : Z) (d : positive) (x : float) (q : Z) : option (Z * Z) :=
  match fuel with
  | O => None
  | S f =>
      let c := dec_floor n d q in
      let okl := bool_decide (dec_to_float (Dec c q) = x) in
      let okh := bool_decide (dec_to_float (Dec (c + 1) q) = x) in
      if okl && (negb okh || dec_nearer_below n d c q) then Some (c, q)
      else if okh then Some (c + 1, q)
      else shortest f n d x (q - 1)
  end.

(** [repr] of a positive double as coefficient and exponent.  Every double has a
    decimal of at most 17 significant digits that reads back, so the search finds
    one; trailing zeros of the coefficient are dropped. *)
Definition repr_pos (m : positive) (e : Z) : option (Z * Z) :=
  let '(n, d) := ratio_of m e in
  let x := S754_finite false m e in
  let k := mag_search 4 n d ((Zpos (digits2_pos m) + e) * 30103 / 100000 + 1) in
  match shortest 18 n d x k with
  | Some (c, q) =>
      let '(c', q') := strip0 20 c q in
      if bool_decide (dec_to_float (Dec c' q') = x) then Some (c', q') else Some (c, q)
  | None => None
  end.

(** [Decimal(str(x))] (the ledger's [_d]): [str] of a float prints the shortest
    decimal that reads back as [x].  The sign of a zero is not kept. *)
Definition dec_of_float (x : float) : Decimal :=
  match x with
  | S754_zero _ => Dec 0 0
  | S754_finite s m e =>
      match repr_pos m e with
      | Some (c, q) => if s then
                         if bool_decide (dec_to_float (Dec (- c) q) = x)
                         then Dec (- c) q else DSpecial x
                       else Dec c q
      | None => DSpecial x
      end
  | _ => DSpecial x
  end.

(** Number of decimal digits of a non-negative integer. *)
Fixpoint ndigits (fuel : nat) (n : Z) : Z :=
  match fuel with
  | O => 0
  | S f => if n =? 0 then 0 else 1 + ndigits f (n / 10)
  end.

(** Context rounding of a [Decimal] result to 28 significant digits, half even. *)
Definition dec_fix (c e : Z) : Decimal :=
  let k := ndigits 2000 (Z.abs c) - 28 in
  if k <=? 0 then Dec c e
  else
    let q := rne_div (Z.abs c) (Z.to_pos (10 ^ k)) in
    Dec (if c <? 0 then - q else q) (e + k).

(** [a + b] on decimals; with a special operand the sum is the special value
    the corresponding float sum gives. *)
Definition dec_add (a b : Decimal) : Decimal :=
  match a, b with
  | Dec c1 e1, Dec c2 e2 =>
      let e := Z.min e1 e2 in
      dec_fix (c1 * 10 ^ (e1 - e) + c2 * 10 ^ (e2 - e)) e
  | _, _ => DSpecial (dec_to_float a +ᶠ dec_to_float b)
  end.

Definition dec_zero : Decimal := Dec 0 0.
Definition dec_sum (l : list Decimal) : Decimal := foldl dec_add dec_zero l.

(** ** Order *)

(** The order of non-NaN floats is the lexicographic order of this key. *)
Definition fk1 (x : float) : Z :=
  match x with
  | S754_zero _ | S754_nan => 0
  | S754_infinity s => if s then -2 else 2
  | S754_finite s _ _ => if s then -1 else 1
  end.
Definition fk2 (x : float) : Z :=
  match x with S754_finite s _ e => if s then - e else e | _ => 0 end.
Definition fk3 (x : float) : Z :=
  match x with S754_finite s m _ => if s then Zneg m else Zpos m | _ => 0 end.
(** 1 on NaN, 0 elsewhere, so that order facts are linear arithmetic. *)
Definition fkn (x : float) : Z := if is_nan x then 1 else 0.

Lemma SFcompare_key x y :
  fkn x = 0 -> fkn y = 0 ->
  SFcompare x y =
    Some (match Z.compare (fk1 x) (fk1 y) with
          | Eq => match Z.compare (fk2 x) (fk2 y) with
                  | Eq => Z.compare (fk3 x) (fk3 y)
                  | r => r
                  end
          | r => r
          end).
Proof.
  destruct x as [sx|sx| |sx mx ex], y as [sy|sy| |sy my ey];
    unfold fkn; simpl; try discriminate; intros _ _;
    destruct sx; try (destruct sy); try reflexivity.
  - assert ((- ex ?= - ey) = CompOpp (ex ?= ey)) as ->
      by (rewrite Z.compare_opp; apply Z.compare_antisym).
    by destruct (ex ?= ey).
Qed.

Arguments fkn !x /.

Lemma fkn_01 x : fkn x = 0 \/ fkn x = 1.
Proof. unfold fkn. destruct (is_nan x); lia. Qed.

Lemma SFcompare_nan x y : fkn x = 1 \/ fkn y = 1 -> SFcompare x y = None.
Proof.
  unfold fkn. destruct x, y; simpl; intros [?|?]; try discriminate; reflexivity.
Qed.

Local Ltac compare_cases x y :=
  destruct (fkn_01 x), (fkn_01 y);
  first [ rewrite (SFcompare_key x y) by assumption
        | rewrite (SFcompare_nan x y) by auto ];
  try (destruct (Z.compare_spec (fk1 x) (fk1 y));
       try (destruct (Z.compare_spec (fk2 x) (fk2 y));
            try destruct (Z.compare_spec (fk3 x) (fk3 y))));
  split; intros; try discriminate; try lia; try reflexivity.

Lemma flt_true x y :
  flt x y = true <->
  fkn x = 0 /\ fkn y = 0 /\
  (fk1 x < fk1 y \/ fk1 x = fk1 y /\
    (fk2 x < fk2 y \/ fk2 x = fk2 y /\ fk3 x < fk3 y)).
Proof. unfold flt, SFltb. compare_cases x y. Qed.

Lemma fle_true x y :
  fle x y = true <->
  fkn x = 0 /\ fkn y = 0 /\
  (fk1 x < fk1 y \/ fk1 x = fk1 y /\
    (fk2 x < fk2 y \/ fk2 x = fk2 y /\ fk3 x <= fk3 y)).
Proof. unfold fle, SFleb. compare_cases x y. Qed.

Lemma feq_true x y :
  feq x y = true <->
  fkn x = 0 /\ fkn y = 0 /\ fk1 x = fk1 y /\ fk2 x = fk2 y /\ fk3 x = fk3 y.
Proof. unfold feq, SFeqb. compare_cases x y. Qed.

Lemma fkn_not_nan x : is_nan x = false <-> fkn x = 0.
Proof. unfold fkn. destruct (is_nan x); intuition discriminate. Qed.

Lemma fkn_nan x : is_nan x = true <-> fkn x = 1.
Proof. unfold fkn. destruct (is_nan x); intuition discriminate. Qed.

(** [forder] proves a goal about [flt]/[fle]/[feq]/[is_nan] from hypotheses of
    the same kind, by linear arithmetic on the keys. *)
Ltac fkey_bounds :=
  repeat match goal with
  | _ : context [fkn ?x] |- _ =>
      lazymatch goal with
      | _ : fkn x = 0 \/ fkn x = 1 |- _ => fail
      | _ => pose proof (fkn_01 x)
      end
  | |- context [fkn ?x] =>
      lazymatch goal with
      | _ : fkn x = 0 \/ fkn x = 1 |- _ => fail
      | _ => pose proof (fkn_01 x)
      end
  end.
Ltac forder :=
  rewrite <- ?not_true_iff_false in *;
  rewrite ?flt_true, ?fle_true, ?feq_true, ?fkn_nan in *;
  fkey_bounds; simpl fkn in *; simpl fk1 in *; simpl fk2 in *; simpl fk3 in *; lia.

(** Case analysis on every conditional of the goal. *)
Ltac fcases :=
  repeat match goal with
  | |- context [if ?b then _ else _] =>
      lazymatch b with context [if _ then _ else _] => fail | _ => destruct b eqn:? end
  end.

Lemma flt_irrefl x : flt x x = false.
Proof. forder. Qed.
Lemma flt_trans x y z : flt x y = true -> flt y z = true -> flt x z = true.
Proof. intros. forder. Qed.
Lemma fle_trans x y z : fle x y = true -> fle y z = true -> fle x z = true.
Proof. intros. forder. Qed.
Lemma fle_flt_trans x y z : fle x y = true -> flt y z = true -> flt x z = true.
Proof. intros. forder. Qed.
Lemma flt_asym x y : flt x y = true -> flt y x = false.
Proof. intros. forder. Qed.
Lemma flt_fle x y : flt x y = true -> fle x y = true.
Proof. intros. forder. Qed.
Lemma fle_refl x : is_nan x = false -> fle x x = true.
Proof. intros. forder. Qed.
Lemma flt_false_fle x y :
  is_nan x = false -> is_nan y = false -> flt x y = false -> fle y x = true.
Proof. intros. forder. Qed.

Lemma fmin_le_l a b : is_nan a = false -> fle (fmin a b) a = true.
Proof. unfold fmin. intros. destruct (flt b a) eqn:?; forder. Qed.
Lemma fmin_le_r a b :
  is_nan a = false -> is_nan b = false -> fle (fmin a b) b = true.
Proof. unfold fmin. intros. destruct (flt b a) eqn:?; forder. Qed.
Lemma fmin_not_above a b : flt b (fmin a b) = false.
Proof. unfold fmin. destruct (flt b a) eqn:?; forder. Qed.
Lemma fmax_ge_l a b : is_nan a = false -> fle a (fmax a b) = true.
Proof. unfold fmax. intros. destruct (flt a b) eqn:?; forder. Qed.

(** Evaluate literals so that [forder] sees their keys. *)
Ltac feval_lits :=
  unfold f0, f1, f2, finf in *;
  repeat match goal with
  | |- context [lit ?n ?k] => let v := eval vm_compute in (lit n k) in change (lit n k) with v in *
  | _ : context [lit ?n ?k] |- _ => let v := eval vm_compute in (lit n k) in change (lit n k) with v in *
  | |- context [of_Z ?n] => let v := eval vm_compute in (of_Z n) in change (of_Z n) with v in *
  | _ : context [of_Z ?n] |- _ => let v := eval vm_compute in (of_Z n) in change (of_Z n) with v in *
  end.

Create HintDb pyfloat.

(** ** Signs *)

(** Not negative: a zero, a positive number, [+inf] or NaN. *)
Definition fnn (x : float) : bool :=
  match x with
  | S754_infinity true | S754_finite true _ _ => false
  | _ => true
  end.

Lemma fnn_flt x : fnn x = negb (flt x f0).
Proof. by destruct x as [[]|[]| |[]]. Qed.

Lemma round_aux_sign m e l : fnn (binary_round_aux prec emax false m e l) = true.
Proof.
  unfold binary_round_aux.
  destruct (shr_fexp _ _ m e l) as [a b].
  destruct (shr_fexp _ _ _ b loc_Exact) as [c d].
  destruct (shr_m c); [done| by destruct (_ <=? _) |done].
Qed.

Lemma binary_round_sign m e : fnn (binary_round prec emax false m e) = true.
Proof. unfold binary_round. destruct (shl_align _ _ _). apply round_aux_sign. Qed.

Lemma fnn_mul x y : fnn x = true -> fnn y = true -> fnn (x *ᶠ y) = true.
Proof.
  destruct x as [[]|[]| |[] mx ex], y as [[]|[]| |[] my ey]; simpl; intros; try done;
    apply round_aux_sign.
Qed.

Lemma fnn_div_ieee x y : fnn x = true -> fnn y = true ->
  (y =ᶠ f0) = false -> fnn (fdiv_ieee x y) = true.
Proof.
  destruct x as [[]|[]| |[] mx ex], y as [[]|[]| |[] my ey]; simpl; intros; try done;
    unfold fdiv_ieee, SFdiv; destruct (SFdiv_core_binary _ _ _ _ _ _) as [[a b] c];
    apply round_aux_sign.
Qed.

Lemma fnn_add x y : fnn x = true -> fnn y = true -> fnn (x +ᶠ y) = true.
Proof.
  destruct x as [[]|[]| |[] mx ex], y as [[]|[]| |[] my ey]; simpl; intros; try done.
  apply binary_round_sign.
Qed.

Lemma fnn_of_ratio n d : 0 <= n -> fnn (of_ratio n d) = true.
Proof.
  intros Hn. destruct n as [|p|p]; [done| |lia].
  unfold of_ratio. destruct (SFdiv_core_binary _ _ _ _ _ _) as [[a b] c].
  apply round_aux_sign.
Qed.

Lemma fnn_fmax0 x : fnn (fmax f0 x) = true.
Proof.
  unfold fmax. destruct (flt f0 x) eqn:E; [|done].
  rewrite fnn_flt. apply negb_true_iff. forder.
Qed.

#[export] Hint Resolve fnn_mul fnn_add fnn_of_ratio fnn_fmax0 : pyfloat.

(** ** Decimal round trip *)

(** A zero loses its sign in a [Decimal]; every other float reads back. *)
Definition drop_zero_sign (x : float) : float :=
  match x with S754_zero _ => S754_zero false | _ => x end.

Lemma shortest_reads_back fuel n d x q c q' :
  shortest fuel n d x q = Some (c, q') -> dec_to_float (Dec c q') = x.
Proof.
  revert q. induction fuel as [|f IH]; intros q; simpl; [done|].
  do 2 case_bool_decide; simpl; try (destruct (dec_nearer_below n d _ q));
    intros H'; simplify_eq; eauto.
Qed.

Lemma repr_pos_reads_back m e c q :
  repr_pos m e = Some (c, q) -> dec_to_float (Dec c q) = S754_finite false m e.
Proof.
  unfold repr_pos. destruct (ratio_of m e) as [n d].
  destruct (shortest _ _ _ _ _) as [[c0 q0]|] eqn:E; [|done].
  apply shortest_reads_back in E.
  destruct (strip0 20 c0 q0) as [c' q']. case_bool_decide; intros; by simplify_eq.
Qed.

Lemma dec_round_trip x : dec_to_float (dec_of_float x) = drop_zero_sign x.
Proof.
  destruct x as [s|s| |s m e]; try done. simpl.
  destruct (repr_pos m e) as [[c q]|] eqn:E; [|done].
  apply repr_pos_reads_back in E.
  destruct s; [case_bool_decide; done | done].
Qed.

(** ** Multiplication by a sign *)

(** A float in canonical binary64 form, as every Python float is. *)
Definition is_float (x : float) : bool := valid_binary prec emax x.

Lemma mul_pow52_round s m e :
  bounded prec emax m e = true ->
  binary_round_aux prec emax s (Zpos (4503599627370496 * m)) (-52 + e) loc_Exact
  = S754_finite s m e.
Proof.
  unfold bounded, canonical_mantissa. rewrite andb_true_iff, Z.eqb_eq. intros [Hc He].
  unfold binary_round_aux, shr_fexp.
  assert (Hd : Zdigits2 (Zpos (4503599627370496 * m)) = Zpos (digits2_pos m) + 52).
  { change (Zdigits2 (Zpos (4503599627370496 * m))) with (Zpos (Nat.iter 52 Pos.succ (digits2_pos m))). unfold Nat.iter, nat_rect. rewrite !Pos2Z.inj_succ. lia. }
  rewrite Hd. replace (_ + _ + (_ + e)) with (Zpos (digits2_pos m) + e) by lia.
  rewrite Hc. replace (e - (-52 + e)) with 52 by lia.
  cbn [shr shr_record_of_loc].
  change (SpecFloat.iter_pos shr_1 52 {| shr_m := Zpos (4503599627370496 * m); shr_r := false; shr_s := false |})
    with {| shr_m := Zpos m; shr_r := false; shr_s := false |}.
  cbn [shr_m loc_of_shr_record round_nearest_even].
  replace (-52 + e + 52) with e by lia.
  change (Zdigits2 (Zpos m)) with (Zpos (digits2_pos m)). rewrite Hc.
  replace (e - e) with 0 by lia. cbn [shr shr_m]. by rewrite He.
Qed.

Lemma fmul_sign (s : bool) (x : float) : is_float x = true ->
  of_Z (if s then -1 else 1) *ᶠ x =
    (if s then fneg x else x).
Proof.
  intros Hx.
  replace (of_Z (if s then -1 else 1)) with (S754_finite s 4503599627370496 (-52))
    by (by destruct s).
  destruct x as [sx|sx| |sx m e]; try by destruct s, sx.
  - by destruct s.
  - cbn [fmul SFmul]. unfold fmul, SFmul. rewrite mul_pow52_round by done. by destruct s, sx.
Qed.

(** ** Rounding keeps a value away from zero *)

Lemma shr_1_half r : 0 <= shr_m r -> shr_m (shr_1 r) = shr_m r / 2.
Proof.
  destruct r as [m b1 b2]. simpl. intros Hm.
  destruct m as [|[p|p|]|p]; simpl; try lia; try done.
  - replace (Z.pos p~1) with (1 + Z.pos p * 2) by lia. by rewrite Z.div_add by lia.
  - replace (Z.pos p~0) with (Z.pos p * 2) by lia. by rewrite Z.div_mul by lia.
Qed.

Lemma iter_shr n r : 0 <= shr_m r ->
  shr_m (SpecFloat.iter_pos shr_1 n r) = shr_m r / 2 ^ Zpos n.
Proof.
  revert r. induction n as [n IH|n IH|]; intros r Hr; cbn [SpecFloat.iter_pos].
  - assert (0 <= shr_m (shr_1 r)) by (rewrite shr_1_half by done; apply Z.div_pos; lia).
    assert (0 <= shr_m (SpecFloat.iter_pos shr_1 n (shr_1 r)))
      by (rewrite IH by done; apply Z.div_pos; lia).
    rewrite !IH, shr_1_half, !Z.div_div by lia. f_equal.
    replace (Zpos n~1) with (1 + Zpos n + Zpos n) by lia. rewrite !Z.pow_add_r by lia. lia.
  - assert (0 <= shr_m (SpecFloat.iter_pos shr_1 n r))
      by (rewrite IH by done; apply Z.div_pos; lia).
    rewrite !IH, !Z.div_div by lia. f_equal.
    replace (Zpos n~0) with (Zpos n + Zpos n) by lia. by rewrite Z.pow_add_r by lia.
  - by rewrite shr_1_half.
Qed.

Lemma digits2_lower p : 2 ^ (Zpos (digits2_pos p) - 1) <= Zpos p.
Proof.
  induction p as [p IH|p IH|]; cbn [digits2_pos]; [| |done].
  all: rewrite Pos2Z.inj_succ, <- Z.add_1_r, Z.add_simpl_r.
  all: replace (Zpos (digits2_pos p)) with (1 + (Zpos (digits2_pos p) - 1)) by lia.
  all: rewrite Z.pow_add_r by lia; lia.
Qed.

(** Rounding shifts out fewer bits than the mantissa has. *)
Lemma shr_fexp_pos p e l : -1074 <= e ->
  exists q r s e', shr_fexp prec emax (Zpos p) e l =
    ({| shr_m := Zpos q; shr_r := r; shr_s := s |}, e') /\ -1074 <= e'.
Proof.
  intros He. unfold shr_fexp.
  assert (Hm : shr_m (shr_record_of_loc (Zpos p) l) = Zpos p) by by destruct l as [|[]].
  set (r0 := shr_record_of_loc _ _) in *.
  set (n := fexp prec emax (Zdigits2 (Zpos p) + e) - e).
  assert (Hn : n <= Zpos (digits2_pos p) - 1).
  { unfold n, fexp, emin, prec, emax. simpl Zdigits2. lia. }
  clearbody n. destruct n as [|n|n]; cbn [shr].
  - destruct r0 as [m r s]. simpl in Hm. subst m. eauto 10.
  - pose proof (iter_shr n r0) as Hi. rewrite Hm in Hi. specialize (Hi ltac:(lia)).
    destruct (SpecFloat.iter_pos shr_1 n r0) as [m r s]. simpl in Hi.
    assert (0 < m) as Hpos.
    { rewrite Hi. apply Z.div_str_pos. split; [lia|].
      etrans; [|apply digits2_lower]. apply Z.pow_le_mono_r; lia. }
    destruct m as [|q|q]; [lia| |lia]. exists q, r, s, (e + Zpos n). split; [done|lia].
  - destruct r0 as [m r s]. simpl in Hm. subst m. eauto 10.
Qed.

Definition nonzero (x : float) : bool :=
  match x with S754_zero _ | S754_nan => false | _ => true end.

Lemma round_aux_nonzero sx p e l : -1074 <= e ->
  nonzero (binary_round_aux prec emax sx (Zpos p) e l) = true.
Proof.
  intros He. unfold binary_round_aux.
  destruct (shr_fexp_pos p e l He) as (q & r & s & e1 & -> & He1).
  assert (exists q', round_nearest_even (shr_m {| shr_m := Zpos q; shr_r := r; shr_s := s |})
                       (loc_of_shr_record {| shr_m := Zpos q; shr_r := r; shr_s := s |}) = Zpos q')
    as [q' ->].
  { destruct r, s; cbn [loc_of_shr_record round_nearest_even shr_m]; repeat case_match; eauto;
      exists (q + 1)%positive; lia. }
  destruct (shr_fexp_pos q' e1 loc_Exact He1) as (q2 & r2 & s2 & e2 & -> & _).
  simpl. by destruct (e2 <=? _).
Qed.

Lemma binary_round_nonzero sx p e : -1074 <= e -> nonzero (binary_round prec emax sx p e) = true.
Proof.
  intros He. unfold binary_round, shl_align.
  set (e' := fexp prec emax _). assert (-1074 <= e') by (unfold e', fexp, emin, prec, emax; lia).
  destruct (e' - e); by apply round_aux_nonzero.
Qed.

(** Exponents of rounded results are representable. *)
Definition exp_ok (x : float) : Prop :=
  match x with S754_finite _ _ e => -1074 <= e | _ => True end.

Lemma shr_fexp_emin m e l : -1074 <= (shr_fexp prec emax m e l).2.
Proof.
  unfold shr_fexp, shr. set (n := fexp prec emax _ - e).
  assert (-1074 <= e + n) by (unfold n, fexp, emin, prec, emax; lia).
  clearbody n. destruct n; simpl in *; lia.
Qed.

Lemma round_aux_exp_ok sx m e l : exp_ok (binary_round_aux prec emax sx m e l).
Proof.
  unfold binary_round_aux. destruct (shr_fexp prec emax m e l) as [r1 e1].
  pose proof (shr_fexp_emin (round_nearest_even (shr_m r1) (loc_of_shr_record r1)) e1 loc_Exact) as H.
  destruct (shr_fexp _ _ _ e1 loc_Exact) as [r2 e2]. simpl in H.
  destruct (shr_m r2); simpl; [done| |done]. by destruct (e2 <=? _).
Qed.

Lemma fmul_exp_ok x y : exp_ok (x *ᶠ y).
Proof. destruct x, y; try done. apply round_aux_exp_ok. Qed.

Lemma fadd_nonzero x y :
  flt f0 x = true -> exp_ok x -> fnn y = true -> exp_ok y -> feq (x +ᶠ y) f0 = false.
Proof.
  intros Hx Hex Hy Hey. destruct x as [[]|[]| |[] mx ex], y as [[]|[]| |[] my ey]; try done.
  unfold fadd, SFadd. cbn [cond_Zopp]. cbn [binary_normalize].
  set (p := (_ + _)%Z). assert (0 < p) by (unfold p; lia). clearbody p.
  destruct p as [|p|p]; [lia| |lia]. cbn [binary_normalize].
  pose proof (binary_round_nonzero false p (Z.min ex ey)) as Hn.
  simpl in Hex, Hey. specialize (Hn ltac:(lia)).
  by destruct (binary_round _ _ _ _ _) as [[]|[]| |[] m e].
Qed.
