(* ===== verification/Timeframes.v ===== *)
(** * Candle intervals and UTC bucket alignment ([app/data/timeframes.py]) *)

From Stdlib Require Import ZArith Lia Sorted.
From stdpp Require Import base list strings.
From S2P Require Import Prelude.

(** A Python [datetime]: microseconds since 1970-01-01T00:00 UTC (for a naive
    value, since its own wall-clock epoch) and the UTC offset of its [tzinfo]. *)
Record datetime := mk_datetime { instant : Z; tzinfo : option Z }.

Definition utc (t : Z) : datetime := {| instant := t; tzinfo := Some 0 |}.

Definition us_per_second : Z := 1000000.
(** [timedelta(seconds=n)]. *)
Definition seconds_td (n : Z) : Z := n * us_per_second.
Definition days_td (n : Z) : Z := seconds_td (n * 86400).

(** ** Calendar dates (UTC, proleptic Gregorian) *)

(** Year, month and day of a day number counted from 1970-01-01. *)
Definition civil (days : Z) : Z * Z * Z :=
  let z := days + 719468 in
  let era := z / 146097 in
  let doe := z mod 146097 in
  let yoe := (doe - doe / 1460 + doe / 36524 - doe / 146096) / 365 in
  let doy := doe - (365 * yoe + yoe / 4 - yoe / 100) in
  let mp := (5 * doy + 2) / 153 in
  let d := doy - (153 * mp + 2) / 5 + 1 in
  let m := if mp <? 10 then mp + 3 else mp - 9 in
  (yoe + era * 400 + (if m <=? 2 then 1 else 0), m, d).

Definition digit (n : Z) : Ascii.ascii := Ascii.ascii_of_nat (48 + Z.to_nat (n mod 10)).
Definition two_digits (n : Z) : string := String (digit (n / 10)) (String (digit n) EmptyString).
Definition four_digits (n : Z) : string := (two_digits (n / 100) ++ two_digits n)%string.

Definition us_per_day : Z := 86400 * us_per_second.

(** [ts.strftime("%Y-%m-%d")] of a UTC instant. *)
Definition date_key (t : Z) : string :=
  let '(y, m, d) := civil (t / us_per_day) in
  (four_digits y ++ "-" ++ two_digits m ++ "-" ++ two_digits d)%string.

(** [ts.isoformat()] of a UTC instant. *)
Definition isoformat (t : Z) : string :=
  let s := (t / us_per_second) mod 86400 in
  let us := t mod us_per_second in
  (date_key t ++ "T" ++ two_digits (s / 3600) ++ ":" ++ two_digits (s / 60 mod 60) ++ ":"
   ++ two_digits (s mod 60)
   ++ (if (us =? 0)%Z then "" else "." ++ two_digits (us / 10000) ++ two_digits (us / 100)
                                   ++ two_digits us)
   ++ "+00:00")%string.

Example isoformat_epoch : isoformat 1709210096000001 = "2024-02-29T12:34:56.000001+00:00"%string.
Proof. reflexivity. Qed.

(** ** class Timeframe *)

Definition _ORDERED : list string := ["M5"; "M15"; "H1"; "H4"; "D1"]%string.

Definition _SECONDS : dict string Z :=
  [("M5", 5 * 60); ("M15", 15 * 60); ("H1", 60 * 60); ("H4", 4 * 60 * 60);
   ("D1", 24 * 60 * 60)]%string.

Definition seconds (timeframe : string) : Res Z :=
  match dget timeframe _SECONDS with
  | Some s => Ok s
  | None => Err ValueError
  end.

Definition is_valid (timeframe : string) : bool :=
  match dget timeframe _SECONDS with Some _ => true | None => false end.

Fixpoint index_of (x : string) (l : list string) : option Z :=
  match l with
  | [] => None
  | y :: l' => if String.eqb x y then Some 0 else Z.succ <$> index_of x l'
  end.

Definition rank (timeframe : string) : Res Z :=
  match index_of timeframe _ORDERED with
  | Some i => Ok i
  | None => Err ValueError
  end.

(** ** Buckets *)

(** [epoch] is 1970-01-01T00:00 in the timestamp's own zone. *)
Definition align_to_bucket (ts : datetime) (timeframe : string) : Res datetime :=
  match tzinfo ts with
  | None => Err ValueError
  | Some off =>
      s <-- seconds timeframe ;;
      let epoch := - off in
      let remainder := (instant ts - epoch) mod seconds_td s in
      Ok {| instant := instant ts - remainder; tzinfo := Some off |}
  end.

Definition add_td (ts : datetime) (td : Z) : datetime :=
  {| instant := instant ts + td; tzinfo := tzinfo ts |}.

Definition bucket_start_after (ts : datetime) (timeframe : string) : Res datetime :=
  a <-- align_to_bucket ts timeframe ;;
  s <-- seconds timeframe ;;
  Ok (add_td a (seconds_td s)).

Definition previous_closed_bucket (now : datetime) (timeframe : string) : Res datetime :=
  a <-- align_to_bucket now timeframe ;;
  s <-- seconds timeframe ;;
  Ok (add_td a (- seconds_td s)).

Definition is_bar_closed (bucket_start now : datetime) (timeframe : string) : Res bool :=
  s <-- seconds timeframe ;;
  Ok (instant bucket_start + seconds_td s <=? instant now).

(** The [while cursor < end_exclusive] loop; [fuel] bounds its iterations. *)
Fixpoint bucket_loop (fuel : nat) (cursor step stop : Z) : list Z :=
  match fuel with
  | O => []
  | S f => if cursor <? stop then cursor :: bucket_loop f (cursor + step) step stop else []
  end.

(** [(stop - cursor) / step + 1] iterations reach [stop]. *)
Definition loop_fuel (cursor step stop : Z) : nat :=
  Z.to_nat ((stop - cursor) / step + 1).

Definition iterate_buckets (start_inclusive end_exclusive : datetime) (timeframe : string)
  : Res (list Z) :=
  if instant end_exclusive <? instant start_inclusive then Ok []
  else
    s <-- seconds timeframe ;;
    c <-- align_to_bucket start_inclusive timeframe ;;
    let step := seconds_td s in
    Ok (bucket_loop (loop_fuel (instant c) step (instant end_exclusive))
                    (instant c) step (instant end_exclusive)).

(** ** Lemmas *)

Lemma dget_seconds tf s : seconds tf = Ok s <-> dget tf _SECONDS = Some s.
Proof. unfold seconds. destruct (dget tf _SECONDS); split; congruence. Qed.

Lemma seconds_pos tf s : seconds tf = Ok s -> 0 < s.
Proof.
  rewrite dget_seconds. simpl. intros H.
  repeat (destruct (decide (tf = _)); [injection H as <-; lia|]). discriminate.
Qed.

Lemma seconds_td_pos s : 0 < s -> 0 < seconds_td s.
Proof. unfold seconds_td, us_per_second. lia. Qed.

Lemma seconds_valid tf : is_valid tf = true <-> is_ok (seconds tf) = true.
Proof. unfold is_valid, seconds. by destruct (dget tf _SECONDS). Qed.

Lemma align_inv ts tf r :
  align_to_bucket ts tf = Ok r ->
  exists off s, tzinfo ts = Some off /\ seconds tf = Ok s /\
    tzinfo r = Some off /\ instant r = instant ts - (instant ts + off) mod seconds_td s.
Proof.
  unfold align_to_bucket. destruct (tzinfo ts) as [off|] eqn:E; [|done].
  intros H. inv_res. eexists _, _. repeat split; eauto.
  simpl. by replace (instant ts - - off) with (instant ts + off) by lia.
Qed.

Lemma align_bounds ts tf r s :
  align_to_bucket ts tf = Ok r -> seconds tf = Ok s ->
  instant r <= instant ts < instant r + seconds_td s.
Proof.
  intros (off & s' & _ & Hs & _ & ->)%align_inv Hs'.
  rewrite Hs in Hs'. injection Hs' as <-.
  pose proof (seconds_td_pos _ (seconds_pos _ _ Hs)).
  pose proof (Z.mod_pos_bound (instant ts + off) (seconds_td s')). lia.
Qed.

Lemma bucket_loop_spec fuel cursor step stop :
  0 < step -> (loop_fuel cursor step stop <= fuel)%nat ->
  forall b, b ∈ bucket_loop fuel cursor step stop <->
    cursor <= b < stop /\ (b - cursor) mod step = 0.
Proof.
  intros Hstep. revert cursor. induction fuel as [|f IH]; intros cursor Hf b; simpl.
  - unfold loop_fuel in Hf. split; [by intros ?%elem_of_nil|]. intros [Hb _].
    assert (0 <= (stop - cursor) / step) by (apply Z.div_pos; lia). lia.
  - destruct (Z.ltb_spec cursor stop) as [Hlt|Hge].
    + rewrite elem_of_cons, IH.
      * split.
        -- intros [->|[Hb Hm]]; [split; [lia|by rewrite Z.sub_diag, Z.mod_0_l by lia]|].
           split; [lia|]. replace (b - cursor) with (b - (cursor + step) + 1 * step) by lia.
           by rewrite Z.mod_add by lia.
        -- intros [Hb Hm]. destruct (decide (b = cursor)) as [->|Hne]; [by left|right].
           assert (step <= b - cursor).
           { destruct (Z.le_gt_cases step (b - cursor)); [done|].
             rewrite Z.mod_small in Hm; lia. }
           split; [lia|]. replace (b - (cursor + step)) with (b - cursor + (-1) * step) by lia.
           by rewrite Z.mod_add by lia.
      * unfold loop_fuel in *. replace (stop - (cursor + step)) with (stop - cursor + (-1) * step) by lia.
        rewrite Z.div_add by lia.
        assert (0 <= (stop - cursor) / step) by (apply Z.div_pos; lia). lia.
    + split; [by intros ?%elem_of_nil|]. lia.
Qed.

Lemma bucket_loop_ascending fuel cursor step stop :
  0 < step -> StronglySorted Z.lt (bucket_loop fuel cursor step stop).
Proof.
  intros Hs. revert cursor. induction fuel as [|f IH]; intros cursor; simpl; [constructor|].
  destruct (cursor <? stop); constructor; [apply IH|].
  clear IH. assert (forall f c, cursor < c -> Forall (Z.lt cursor) (bucket_loop f c step stop)) as H.
  { clear f. intros f. induction f as [|f IH]; intros c Hc; simpl; [constructor|].
    destruct (c <? stop); constructor; [done|]. apply IH. lia. }
  apply H. lia.
Qed.

(** ** Properties *)

(** [align_to_bucket] floors an aware timestamp to its bucket: the result is the
    only multiple of the interval (counted from local 1970-01-01) within one
    interval below the timestamp, aligning again changes nothing, and a naive
    timestamp or an unknown timeframe raises [ValueError]. *)
Theorem align_to_bucket_floor (ts : datetime) (tf : string) :
  match tzinfo ts, seconds tf with
  | Some off, Ok s =>
      exists r, align_to_bucket ts tf = Ok r /\ tzinfo r = Some off /\
        (instant r + off) mod seconds_td s = 0 /\
        instant r <= instant ts < instant r + seconds_td s /\
        align_to_bucket r tf = Ok r
  | _, _ => align_to_bucket ts tf = Err ValueError
  end.
Proof.
  unfold align_to_bucket.
  destruct (tzinfo ts) as [off|] eqn:Ez; [|done].
  destruct (seconds tf) as [s|e] eqn:Es; simpl.
  - pose proof (seconds_td_pos _ (seconds_pos _ _ Es)) as Hp.
    set (x := instant ts - - off).
    pose proof (Z.mod_pos_bound x (seconds_td s)).
    assert ((instant ts - x mod seconds_td s + off) mod seconds_td s = 0) as Hm.
    { pose proof (Z.div_mod x (seconds_td s)).
      replace (instant ts - x mod seconds_td s + off) with (x / seconds_td s * seconds_td s)
        by (unfold x in *; lia).
      apply Z.mod_mul. lia. }
    eexists. split; [reflexivity|]. simpl. repeat split; [done|lia|lia|].
    f_equal. f_equal. rewrite Z.sub_opp_r, Hm. lia.
  - unfold seconds in Es. destruct (dget tf _SECONDS); congruence.
Qed.

(** [previous_closed_bucket] returns the most recent closed bar: the bar it names
    has closed at [now], and no aligned bar starting later has. *)
Theorem previous_closed_bucket_latest (now r : datetime) (tf : string) :
  previous_closed_bucket now tf = Ok r ->
  is_bar_closed r now tf = Ok true /\
  forall b, align_to_bucket b tf = Ok b -> tzinfo b = tzinfo now ->
    is_bar_closed b now tf = Ok true -> instant b <= instant r.
Proof.
  unfold previous_closed_bucket, is_bar_closed. intros H. inv_res.
  rename x into a, x0 into s.
  pose proof (seconds_td_pos _ (seconds_pos _ _ H0)) as Hp.
  pose proof (align_bounds _ _ _ _ H H0) as Hb.
  rewrite H0. simpl. split; [f_equal; apply Z.leb_le; lia|].
  intros b Hal Htz Hcl. injection Hcl as Hcl%Z.leb_le.
  apply align_inv in H as (off & s1 & Hz & Hs1 & _ & Ha).
  apply align_inv in Hal as (off2 & s2 & Hz2 & Hs2 & _ & Hb2).
  rewrite H0 in Hs1, Hs2. injection Hs1 as <-. injection Hs2 as <-.
  rewrite Htz, Hz in Hz2. injection Hz2 as <-.
  assert ((instant b + off) mod seconds_td s = 0) as Hm by lia.
  apply Z.mod_divide in Hm as [k Hk]; [|lia].
  pose proof (Z.div_mod (instant now + off) (seconds_td s)) as Hd.
  set (q := (instant now + off) / seconds_td s) in *.
  assert (instant a + off = seconds_td s * q) by lia.
  assert (k <= q - 1); [|nia].
  assert (k * seconds_td s + seconds_td s <= instant now + off) by lia.
  assert (k + 1 <= q); [|lia].
  apply Z.div_le_lower_bound; lia.
Qed.

Lemma previous_closed_bucket_latest_witness :
  instant <$> match previous_closed_bucket (utc 7300000000) "H1" with Ok r => Some r | _ => None end
    = Some 3600000000 /\
  is_bar_closed (utc 3600000000) (utc 7300000000) "H1" = Ok true.
Proof.
  split; [reflexivity|].
  exact (proj1 (previous_closed_bucket_latest (utc 7300000000) (utc 3600000000) "H1" eq_refl)).
Defined.

(** [iterate_buckets] terminates with exactly the bucket starts from the bucket
    containing [start_inclusive] (which may begin before it) up to, and excluding,
    [end_exclusive], in ascending order; an empty range gives no bucket. *)
Theorem iterate_buckets_exact (start stop : datetime) (tf : string) (s off : Z) :
  seconds tf = Ok s -> tzinfo start = Some off ->
  exists l, iterate_buckets start stop tf = Ok l /\ StronglySorted Z.lt l /\
    forall b, b ∈ l <->
      instant start <= instant stop /\ instant start - seconds_td s < b < instant stop /\
      (b + off) mod seconds_td s = 0.
Proof.
  intros Hs Hz. pose proof (seconds_td_pos _ (seconds_pos _ _ Hs)) as Hp.
  unfold iterate_buckets. destruct (Z.ltb_spec (instant stop) (instant start)) as [Hlt|Hge].
  - exists []. split; [done|]. split; [constructor|].
    intros b. split; [by intros ?%elem_of_nil|lia].
  - pose proof (align_to_bucket_floor start tf) as Hf. rewrite Hz, Hs in Hf.
    destruct Hf as (r & Hr & _ & Hm & Hb & _). rewrite Hs, Hr. simpl.
    eexists. split; [reflexivity|]. split; [by apply bucket_loop_ascending|].
    intros b. rewrite (bucket_loop_spec _ _ _ _ Hp (le_n _)).
    assert ((b + off) mod seconds_td s = (b - instant r) mod seconds_td s) as ->.
    { replace (b + off) with (b - instant r + (instant r + off)) by lia.
      rewrite Zplus_mod, Hm, Z.add_0_r. apply Z.mod_mod. lia. }
    split; [intros [? ?]; repeat split; try done; lia|].
    intros (_ & Hb' & Hmod). repeat split; try done; try lia.
    apply Z.mod_divide in Hmod as [k Hk]; [|lia].
    assert (0 <= k) by nia. nia.
Qed.

Lemma iterate_buckets_exact_witness :
  exists l, iterate_buckets (utc 5400000000) (utc 10800000000) "H1" = Ok l /\
    l = [3600000000; 7200000000] /\ StronglySorted Z.lt l.
Proof.
  destruct (iterate_buckets_exact (utc 5400000000) (utc 10800000000) "H1" 3600 0
              eq_refl eq_refl) as (l & Hl & Hsorted & _).
  exists l. split; [exact Hl|]. split; [|exact Hsorted].
  vm_compute in Hl. congruence.
Defined.
