(* ===== verification/Signals.v ===== *)
(** * The agent contract ([app/agents/base.py], [app/agents/registry.py]) *)

From Stdlib Require Import ZArith Lia.
From stdpp Require Import base list strings.
From S2P Require Import Prelude PyFloat Timeframes.

Inductive Direction := LONG | SHORT | FLAT.

#[export] Instance Direction_eq_dec : EqDecision Direction.
Proof. solve_decision. Defined.

Definition opposite (d : Direction) : Direction :=
  match d with LONG => SHORT | SHORT => LONG | FLAT => FLAT end.

(** A value of the JSON-like [features] dictionary of a signal. *)
Inductive pyval :=
| VNone
| VBool (b : bool)
| VInt (n : Z)
| VFloat (x : float)
| VStr (s : string)
| VList (l : list pyval)
| VDict (d : list (string * pyval)).

(** [bool(v)]. *)
Definition truthy (v : pyval) : bool :=
  match v with
  | VNone => false
  | VBool b => b
  | VInt n => negb (n =? 0)
  | VFloat x => ftruthy x
  | VStr s => negb (String.eqb s "")
  | VList l => negb (Nat.eqb (length l) 0)
  | VDict d => negb (Nat.eqb (length d) 0)
  end.

Definition features := dict string pyval.

Record AgentSignal := {
  agent_id : string;
  version : string;
  symbol : string;
  timeframe : string;
  direction : Direction;
  confidence : float;
  bucket_ts : Z;
  rationale : string;
  sig_features : features;
  created_at : Z;
  valid_until : Z;
  run_id : string
}.

(** The field constraints of the pydantic model and its timeframe validator. *)
Definition len_between (lo hi : nat) (s : string) : bool :=
  Nat.leb lo (String.length s) && Nat.leb (String.length s) hi.

Definition validate_signal (s : AgentSignal) : Res AgentSignal :=
  if len_between 1 32 (agent_id s) && len_between 1 16 (version s)
     && len_between 6 12 (symbol s)
     && (confidence s >=ᶠ f0) && (confidence s <=ᶠ f1)
     && is_valid (str_upper (timeframe s))
  then Ok {| agent_id := agent_id s; version := version s; symbol := symbol s;
             timeframe := str_upper (timeframe s); direction := direction s;
             confidence := confidence s; bucket_ts := bucket_ts s;
             rationale := rationale s; sig_features := sig_features s;
             created_at := created_at s; valid_until := valid_until s;
             run_id := run_id s |}
  else Err ValueError.

Definition is_fresh (s : AgentSignal) (now : Z) : bool := now <=? valid_until s.

Definition FRESHNESS_MULTIPLIER : dict string Z := [("technical", 2); ("regime", 4)]%string.
Definition _DEFAULT_FRESHNESS_MULTIPLIER : Z := 2.

Definition valid_until_for (agent_id : string) (bucket_ts : Z) (timeframe : string) : Res Z :=
  let multiplier := dget_or agent_id _DEFAULT_FRESHNESS_MULTIPLIER FRESHNESS_MULTIPLIER in
  s <-- seconds timeframe ;;
  Ok (bucket_ts + seconds_td (s * multiplier)).

(** The part of [AnalysisContext] that [build_signal] reads. *)
Record AnalysisContext := {
  ctx_symbol : string;
  ctx_timeframe : string;
  ctx_bucket_ts : Z;
  ctx_now : Z;
  ctx_run_id : string
}.

(** [max(0.0, min(1.0, confidence))]. *)
Definition clamp01 (c : float) : float := fmax f0 (fmin f1 c).

Definition build_signal (id ver : string) (ctx : AnalysisContext) (dir : Direction)
    (conf : float) (rat : string) (feats : features) : Res AgentSignal :=
  vu <-- valid_until_for id (ctx_bucket_ts ctx) (ctx_timeframe ctx) ;;
  validate_signal
    {| agent_id := id; version := ver; symbol := ctx_symbol ctx;
       timeframe := ctx_timeframe ctx; direction := dir; confidence := clamp01 conf;
       bucket_ts := ctx_bucket_ts ctx; rationale := rat; sig_features := feats;
       created_at := ctx_now ctx; valid_until := vu; run_id := ctx_run_id ctx |}.

(** ** Registry: id -> agent, in registration order *)

Section Registry.
Context {Agent : Type} (agent_id_of : Agent -> string).

Definition registry := dict string Agent.

Definition register (a : Agent) (r : registry) : Res registry :=
  if String.eqb (agent_id_of a) "" then Err ValueError
  else match dget (agent_id_of a) r with
       | Some _ => Err ValueError
       | None => Ok (dset (agent_id_of a) a r)
       end.

Definition registry_get (i : string) (r : registry) : option Agent := dget i r.
Definition registry_all (r : registry) : list Agent := r.*2.
End Registry.

(** ** Lemmas *)

Lemma clamp01_range c : fle f0 (clamp01 c) = true /\ fle (clamp01 c) f1 = true.
Proof.
  unfold clamp01, fmax, fmin. feval_lits. split; fcases; forder.
Qed.

Lemma clamp01_id c : fle f0 c = true -> fle c f1 = true ->
  feq (clamp01 c) c = true.
Proof.
  unfold clamp01, fmax, fmin. feval_lits. intros. fcases; forder.
Qed.

(** A NaN confidence is clamped to full confidence. *)
Lemma clamp01_nan : clamp01 S754_nan = f1.
Proof. reflexivity. Qed.

Lemma validate_signal_ok s t : validate_signal s = Ok t ->
  direction t = direction s /\ confidence t = confidence s /\
  bucket_ts t = bucket_ts s /\ valid_until t = valid_until s /\
  sig_features t = sig_features s /\ agent_id t = agent_id s /\
  timeframe t = str_upper (timeframe s).
Proof. unfold validate_signal. intros H. dmatch_in H; inv_res; simpl; auto 10. Qed.

(** A signal assembled by [build_signal] is valid: its confidence lies in [0, 1]
    whatever float was given (clamped; NaN counts as 1), its timeframe is a known
    upper-case code, and it stays fresh for exactly the agent's multiple of the
    timeframe after its bucket. *)
Theorem build_signal_valid (id ver : string) (ctx : AnalysisContext) (dir : Direction)
    (conf : float) (rat : string) (feats : features) (s : AgentSignal) (sec : Z) :
  build_signal id ver ctx dir conf rat feats = Ok s ->
  seconds (ctx_timeframe ctx) = Ok sec ->
  fle f0 (confidence s) = true /\ fle (confidence s) f1 = true /\
  (fle f0 conf = true -> fle conf f1 = true -> feq (confidence s) conf = true) /\
  is_valid (timeframe s) = true /\
  direction s = dir /\ sig_features s = feats /\
  forall now, is_fresh s now = true <->
    now <= ctx_bucket_ts ctx
           + seconds_td (sec * dget_or id 2 FRESHNESS_MULTIPLIER).
Proof.
  unfold build_signal, valid_until_for. intros H Hsec. rewrite Hsec in H. simpl in H.
  pose proof H as Hv. unfold validate_signal in Hv. dmatch_in Hv; [|done].
  repeat match goal with H : _ && _ = true |- _ => apply andb_prop in H as [? ?] end.
  apply validate_signal_ok in H as (Hd & Hc & _ & Hvu & Hf & _ & Ht). simpl in *.
  rewrite Hc, Hd, Hf, Ht. destruct (clamp01_range conf).
  repeat split; try done.
  - apply clamp01_id.
  - unfold is_fresh. rewrite Hvu. apply Z.leb_le.
  - unfold is_fresh. rewrite Hvu. apply Z.leb_le.
Qed.

Lemma build_signal_valid_witness :
  exists s, build_signal "technical" "1"
      {| ctx_symbol := "EURUSD"; ctx_timeframe := "H1"; ctx_bucket_ts := 0; ctx_now := 0;
         ctx_run_id := "" |} LONG (of_Z 3) "" [] = Ok s /\
    fle (confidence s) f1 = true.
Proof.
  eexists. split; [reflexivity|].
  exact (proj1 (proj2 (build_signal_valid "technical" "1"
    {| ctx_symbol := "EURUSD"; ctx_timeframe := "H1"; ctx_bucket_ts := 0; ctx_now := 0;
       ctx_run_id := "" |} LONG (of_Z 3) "" [] _ 3600 eq_refl eq_refl))).
Defined.

Lemma register_spec {Agent} (idf : Agent -> string) a r r' :
  register idf a r = Ok r' <->
  idf a <> ""%string /\ registry_get (idf a) r = None /\ r' = dset (idf a) a r.
Proof.
  unfold register, registry_get.
  destruct (String.eqb_spec (idf a) "") as [->|Hne].
  - split; [discriminate|naive_solver].
  - destruct (dget (idf a) r); naive_solver.
Qed.
