(* ===== verification/Fusion.v ===== *)
(** * Signal fusion ([app/decisions/fusion.py]) *)

From Stdlib Require Import ZArith Lia.
From stdpp Require Import base list strings.
From S2P Require Import Prelude PyFloat Timeframes Signals.

Definition REGIME_AGENT_ID : string := "regime".
Definition DIRECTIONAL_AGENTS : list string := ["technical"; "fundamental"; "sentiment"]%string.

Definition DEFAULT_WEIGHTS : dict string (dict string float) :=
  [("trending", [("technical", lit 55 2); ("fundamental", lit 20 2); ("sentiment", lit 25 2)]);
   ("weakening_trend",
     [("technical", lit 45 2); ("fundamental", lit 30 2); ("sentiment", lit 25 2)]);
   ("transitional",
     [("technical", lit 50 2); ("fundamental", lit 25 2); ("sentiment", lit 25 2)]);
   ("range", [("technical", lit 60 2); ("fundamental", lit 20 2); ("sentiment", lit 20 2)]);
   ("unknown", [("technical", lit 40 2); ("fundamental", lit 30 2); ("sentiment", lit 30 2)])
  ]%string.

Record FusionParams := {
  fp_threshold : float;
  fp_hysteresis : float;
  fp_weights : dict string (dict string float)
}.

Definition default_fusion_params : FusionParams :=
  {| fp_threshold := lit 15 2; fp_hysteresis := lit 4 2; fp_weights := DEFAULT_WEIGHTS |}.

Record ContextInput := {
  ctxin_direction : Direction;
  ctxin_confidence : float;
  ctxin_weight : float
}.
Definition default_context_weight : float := lit 15 2.

Record FusedResult := {
  score : float;
  fused_direction : Direction;
  fused_confidence : float;
  agreement : float;
  weights : dict string float;
  voting_agents : list string;
  threshold : float;
  pre_context_score : float
}.

Definition has_votes (r : FusedResult) : bool := Nat.ltb 0 (length (voting_agents r)).

Definition sign_of (d : Direction) : Z :=
  match d with FLAT => 0 | LONG => 1 | SHORT => -1 end.

Definition direction_for_score (score threshold : float) : Direction :=
  if score >=ᶠ threshold then LONG
  else if score <=ᶠ fneg threshold then SHORT
  else FLAT.

(** Reconstruct a direction from a signed vote. *)
Definition signs_of (vote : float) : Direction :=
  if vote >ᶠ f0 then LONG else if vote <ᶠ f0 then SHORT else FLAT.

(** The division never raises: its divisor is not [<= 0] (see [div_total_ok]). *)
Definition _renormalized (ws : dict string float) (voting : list string) : dict string float :=
  let chosen := foldl (fun d a => if dget_or a f0 ws >ᶠ f0 then dset a (dget_or a f0 ws) d else d)
                      [] voting in
  let total := fsum chosen.*2 in
  if total <=ᶠ f0 then []
  else prod_map id (fun w => fdiv_ieee w total) <$> chosen.

(** The agents' loop of [fuse]: voters in order and their signed votes. *)
Definition vote_step (signals : dict string AgentSignal)
    (acc : list string * dict string float) (agent : string) : list string * dict string float :=
  match dget agent signals with
  | None => acc
  | Some sg =>
      let s := sign_of (direction sg) in
      if (s =? 0) || (confidence sg <=ᶠ f0) then acc
      else (acc.1 ++ [agent], dset agent (of_Z s *ᶠ confidence sg) acc.2)
  end.

Definition empty_fusion (p : FusionParams) : FusedResult :=
  {| score := f0; fused_direction := FLAT; fused_confidence := f0; agreement := f0;
     weights := []; voting_agents := []; threshold := fp_threshold p;
     pre_context_score := f0 |}.

(** [p.weights.get(regime, DEFAULT_WEIGHTS["unknown"])]. *)
Definition weights_for_regime (regime : string) (p : FusionParams) : dict string float :=
  dget_or regime (dget_or "unknown" [] DEFAULT_WEIGHTS)%string (fp_weights p).

Definition fuse (signals : dict string AgentSignal) (regime : string) (p : FusionParams)
  : Res FusedResult :=
  let '(voters, votes) := foldl (vote_step signals) ([], []) DIRECTIONAL_AGENTS in
  match voters with
  | [] => Ok (empty_fusion p)
  | _ =>
      let ws := _renormalized (weights_for_regime regime p) voters in
      match ws with
      | [] => Ok (empty_fusion p)
      | _ =>
          terms <-- map_res (fun a => w <-- dindex a ws ;; v <-- dindex a votes ;; Ok (w *ᶠ v))
                            voters ;;
          let score := fround (fsum terms) 6 in
          let direction := direction_for_score score (fp_threshold p) in
          let confidence := fmin f1 (fabs score) in
          let target_sign := sign_of direction in
          aligned <-- map_res (fun a => dindex a ws)
            (List.filter (fun a => sign_of (signs_of (dget_or a f0 votes)) =? target_sign) voters) ;;
          let agreement := fround (fsum aligned) 4 in
          Ok {| score := score; fused_direction := direction; fused_confidence := confidence;
                agreement := agreement; weights := ws; voting_agents := voters;
                threshold := fp_threshold p; pre_context_score := f0 |}
      end
  end.

Definition apply_context (r : FusedResult) (context : option ContextInput) : FusedResult :=
  match context with
  | None => r
  | Some c =>
      if ctxin_confidence c <=ᶠ f0 then r
      else
        let nudge := (ctxin_weight c *ᶠ of_Z (sign_of (ctxin_direction c)))
                     *ᶠ fmin f1 (ctxin_confidence c) in
        let new_score := score r +ᶠ nudge in
        {| score := fround new_score 6;
           fused_direction := direction_for_score new_score (threshold r);
           fused_confidence := fmin f1 (fabs new_score);
           agreement := agreement r; weights := weights r;
           voting_agents := voting_agents r; threshold := threshold r;
           pre_context_score := score r |}
  end.

(** ** Lemmas *)

Lemma div_total_ok w total : fle total f0 = false -> fdiv w total = Ok (fdiv_ieee w total).
Proof.
  intros H. unfold fdiv. destruct (feq total f0) eqn:E; [|done].
  assert (fle total f0 = true) by (feval_lits; forder). congruence.
Qed.

(** An agent votes when it has a non-FLAT signal of positive confidence. *)
Definition votes_in (signals : dict string AgentSignal) (a : string) : bool :=
  match dget a signals with
  | Some sg => negb ((sign_of (direction sg) =? 0) || (confidence sg <=ᶠ f0))
  | None => false
  end.

Definition vote_of (signals : dict string AgentSignal) (a : string) : float :=
  match dget a signals with
  | Some sg => of_Z (sign_of (direction sg)) *ᶠ confidence sg
  | None => f0
  end.

Lemma vote_fold signals l vs d :
  (forall a, a ∈ vs -> dget a d = Some (vote_of signals a)) ->
  let r := foldl (vote_step signals) (vs, d) l in
  r.1 = vs ++ List.filter (votes_in signals) l /\
  forall a, a ∈ r.1 -> dget a r.2 = Some (vote_of signals a).
Proof.
  revert vs d. induction l as [|a l IH]; simpl; intros vs d Hd; [by rewrite app_nil_r|].
  unfold vote_step at 2 4 6. unfold votes_in at 1.
  destruct (dget a signals) as [sg|] eqn:Ea; [|by apply IH].
  destruct (_ || _) eqn:Ev; simpl; [by apply IH|].
  rewrite (cons_middle a vs (List.filter _ _)), app_assoc. apply IH.
  intros b [Hb|Hb%list_elem_of_singleton]%elem_of_app; [|subst b].
  - rewrite dget_dset. destruct (decide (b = a)) as [->|]; [|by apply Hd].
    unfold vote_of. by rewrite Ea.
  - rewrite dget_dset_eq. unfold vote_of. by rewrite Ea.
Qed.

Definition voters (signals : dict string AgentSignal) : list string :=
  List.filter (votes_in signals) DIRECTIONAL_AGENTS.

Lemma vote_loop signals :
  (foldl (vote_step signals) ([], []) DIRECTIONAL_AGENTS).1 = voters signals /\
  forall a, a ∈ voters signals ->
    dget a (foldl (vote_step signals) ([], []) DIRECTIONAL_AGENTS).2 = Some (vote_of signals a).
Proof.
  destruct (vote_fold signals DIRECTIONAL_AGENTS [] []) as [H1 H2].
  - by intros a ?%elem_of_nil.
  - change ([] ++ List.filter (votes_in signals) DIRECTIONAL_AGENTS) with (voters signals) in H1.
    rewrite H1 in H2. by split.
Qed.

Lemma chosen_keys (ws : dict string float) l (d : dict string float) a :
  a ∈ (foldl (fun d a => if dget_or a f0 ws >ᶠ f0 then dset a (dget_or a f0 ws) d else d) d l).*1
  <-> a ∈ d.*1 \/ a ∈ l /\ flt f0 (dget_or a f0 ws) = true.
Proof.
  revert d. induction l as [|b l IH]; intros d; simpl.
  - setoid_rewrite elem_of_nil. naive_solver.
  - rewrite IH, elem_of_cons. destruct (flt f0 (dget_or b f0 ws)) eqn:E.
    + rewrite dset_keys. naive_solver.
    + naive_solver congruence.
Qed.

Lemma renormalized_keys ws voting a :
  _renormalized ws voting <> [] ->
  a ∈ (_renormalized ws voting).*1 <-> a ∈ voting /\ flt f0 (dget_or a f0 ws) = true.
Proof.
  unfold _renormalized. destruct (fle _ _); [done|]. intros _.
  rewrite <- list_fmap_compose.
  assert (forall l : dict string float,
    (fst ∘ prod_map id (fun w => fdiv_ieee w
       (fsum (foldl (fun d a => if dget_or a f0 ws >ᶠ f0 then dset a (dget_or a f0 ws) d else d)
                      [] voting).*2))) <$> l = l.*1) as ->.
  { intros l. apply list_fmap_ext. by intros ? [] ?. }
  rewrite chosen_keys. setoid_rewrite elem_of_nil. naive_solver.
Qed.

Lemma dindex_ok {V} k (d : dict string V) : k ∈ d.*1 -> exists v, dindex k d = Ok v.
Proof.
  unfold dindex. destruct (dget k d) eqn:E; [eauto|].
  by apply dget_None in E.
Qed.

Lemma dindex_err {V} k (d : dict string V) e : dindex k d = Err e <-> e = KeyError /\ k ∉ d.*1.
Proof.
  unfold dindex. destruct (dget k d) eqn:E.
  - split; [done|]. intros [_ H]. apply dget_None in H. congruence.
  - apply dget_None in E. split; [intros [= <-]; done|by intros [-> _]].
Qed.

Lemma map_res_spec {A B} (f : A -> Res B) (g : A -> B) l :
  (forall x, x ∈ l -> f x = Ok (g x)) -> map_res f l = Ok (map g l).
Proof.
  induction l as [|x l IH]; intros H; simpl; [done|].
  rewrite (H x) by (by left). simpl. rewrite IH; [done|]. intros; apply H; by right.
Qed.

Lemma dindex_dget_or {V} k (dflt : V) (d : dict string V) :
  k ∈ d.*1 -> dindex k d = Ok (dget_or k dflt d).
Proof.
  intros [v Hv]%dindex_ok. unfold dindex, dget_or in *. by destruct (dget k d).
Qed.

(** ** Reference definition of the fused result *)

(** A voter's renormalised weight, and the weight it was given. *)
Definition weight_in (ws : dict string float) (a : string) : float := dget_or a f0 ws.

Definition fused_score (ws : dict string float) (signals : dict string AgentSignal) : float :=
  fround (fsum (map (fun a => weight_in ws a *ᶠ vote_of signals a) (voters signals))) 6.

Definition aligned_weight (ws : dict string float) (signals : dict string AgentSignal)
    (d : Direction) : float :=
  fround (fsum (map (weight_in ws)
    (List.filter (fun a => sign_of (signs_of (vote_of signals a)) =? sign_of d)
                 (voters signals)))) 4.

Definition fused_spec (ws : dict string float) (signals : dict string AgentSignal)
    (p : FusionParams) : FusedResult :=
  let d := direction_for_score (fused_score ws signals) (fp_threshold p) in
  {| score := fused_score ws signals; fused_direction := d;
     fused_confidence := fmin f1 (fabs (fused_score ws signals));
     agreement := aligned_weight ws signals d; weights := ws;
     voting_agents := voters signals; threshold := fp_threshold p; pre_context_score := f0 |}.

Definition all_weighted (ws : dict string float) (signals : dict string AgentSignal) : bool :=
  forallb (fun a => flt f0 (dget_or a f0 ws)) (voters signals).

Lemma filter_agree {A} (f g : A -> bool) l :
  (forall x, x ∈ l -> f x = g x) -> List.filter f l = List.filter g l.
Proof.
  induction l as [|x l IH]; intros H; simpl; [done|].
  rewrite (H x) by (by left). rewrite IH; [done|]. intros; apply H; by right.
Qed.

Lemma elem_of_filter_sub {A} (f : A -> bool) l x : x ∈ List.filter f l -> x ∈ l.
Proof. rewrite !list_elem_of_In, List.filter_In. by intros [? _]. Qed.

Lemma forallb_exists_false {A} (f : A -> bool) l :
  forallb f l = false -> exists x, x ∈ l /\ f x = false.
Proof.
  induction l as [|x l IH]; simpl; [done|].
  destruct (f x) eqn:E; simpl.
  - intros (y & ? & ?)%IH. exists y. split; [by right|done].
  - intros _. exists x. split; [by left|done].
Qed.

Lemma filter_nil {A} (f : A -> bool) l :
  List.filter f l = [] <-> forall x, x ∈ l -> f x = false.
Proof.
  induction l as [|x l IH]; simpl.
  - split; [by intros _ x ?%elem_of_nil|done].
  - setoid_rewrite elem_of_cons. destruct (f x) eqn:E; [|naive_solver].
    split; [done|]. intros H. rewrite (H x) in E; [done|by left].
Qed.

Lemma match_cons {A B} (l : list A) (x y : B) :
  l <> [] -> match l with [] => x | _ :: _ => y end = y.
Proof. by destruct l. Qed.

Lemma fuse_spec (signals : dict string AgentSignal) (regime : string) (p : FusionParams) :
  let ws := _renormalized (weights_for_regime regime p) (voters signals) in
  fuse signals regime p =
    if bool_decide (voters signals = []) || bool_decide (ws = []) then Ok (empty_fusion p)
    else if all_weighted (weights_for_regime regime p) signals
         then Ok (fused_spec ws signals p)
         else Err KeyError.
Proof.
  intros ws. unfold fuse. destruct (vote_loop signals) as [Hv Hd].
  destruct (foldl _ _ _) as [vs votes]. simpl in Hv, Hd. subst vs.
  case_bool_decide as Hnil; [by rewrite Hnil|]. simpl.
  rewrite (match_cons (voters signals)) by done. fold ws.
  case_bool_decide as Hws; [by rewrite Hws|].
  rewrite (match_cons ws) by done.
  assert (Hk : forall a, a ∈ ws.*1 <->
             a ∈ voters signals /\ flt f0 (dget_or a f0 (weights_for_regime regime p)) = true)
    by (intros a; by apply renormalized_keys).
  clearbody ws. unfold all_weighted.
  destruct (forallb _ _) eqn:Eall.
  - rewrite forallb_forall in Eall. setoid_rewrite <- list_elem_of_In in Eall.
    rewrite (map_res_spec _ (fun a => weight_in ws a *ᶠ vote_of signals a)).
    + simpl. rewrite (filter_agree _ (fun a => sign_of (signs_of (vote_of signals a)) =?
          sign_of (direction_for_score (fused_score ws signals) (fp_threshold p)))).
      * rewrite (map_res_spec _ (weight_in ws)); [done|].
        intros a Ha%elem_of_filter_sub. apply dindex_dget_or, Hk. auto.
      * intros a Ha. unfold dget_or. by rewrite Hd.
    + intros a Ha. rewrite (dindex_dget_or a f0) by (apply Hk; auto). simpl.
      unfold dindex. by rewrite Hd.
  - replace (map_res _ _) with (@Err (list float) KeyError); [done|]. symmetry.
    apply map_res_err.
    + intros a e He. destruct (dindex a ws) eqn:E1; simpl in He.
      * destruct (dindex a votes) eqn:E2; simpl in He; [done|]. injection He as <-.
        by apply dindex_err in E2 as [-> _].
      * injection He as <-. by apply dindex_err in E1 as [-> _].
    + apply forallb_exists_false in Eall as (a & Ha & Hw).
      exists a. split; [done|].
      replace (dindex a ws) with (@Err float KeyError); [done|]. symmetry.
      apply dindex_err. split; [done|]. rewrite Hk. intros [_ ?]. congruence.
Qed.

(** C11: fusion computes the documented score.  With no directional vote, or no
    positive weight among the voters, the result is FLAT, empty and of zero
    confidence; when every voter has a positive weight in the regime's matrix, the
    score is the rounded sum of weight times signed confidence over exactly the
    agents with a non-FLAT, positive-confidence signal, the direction is the
    threshold test of that score, and the agreement is the weight of the voters on
    the fused side; and when some voter (but not all) has no positive weight,
    fusion raises [KeyError]. *)
Theorem fuse_correct (signals : dict string AgentSignal) (regime : string) (p : FusionParams) :
  let ws := _renormalized (weights_for_regime regime p) (voters signals) in
  fuse signals regime p =
    if bool_decide (voters signals = []) || bool_decide (ws = []) then Ok (empty_fusion p)
    else if all_weighted (weights_for_regime regime p) signals
         then Ok (fused_spec ws signals p)
         else Err KeyError.
Proof. exact (fuse_spec signals regime p). Qed.

(** Fusion reads nothing but the three directional agents, the threshold and the
    weights: in particular neither the regime agent's own signal nor the
    [hysteresis] parameter has any effect. *)
Lemma fuse_reads (s1 s2 : dict string AgentSignal) (regime : string) (p1 p2 : FusionParams) :
  (forall a, a ∈ DIRECTIONAL_AGENTS -> dget a s1 = dget a s2) ->
  fp_threshold p1 = fp_threshold p2 -> fp_weights p1 = fp_weights p2 ->
  fuse s1 regime p1 = fuse s2 regime p2.
Proof.
  intros Hs Ht Hw. unfold fuse, weights_for_regime, empty_fusion. rewrite Ht, Hw.
  assert (Hstep : forall acc a, a ∈ DIRECTIONAL_AGENTS -> vote_step s1 acc a = vote_step s2 acc a)
    by (intros acc a Ha; unfold vote_step; by rewrite (Hs a Ha)).
  change (foldl (vote_step ?s) ?x DIRECTIONAL_AGENTS) with
    (vote_step s (vote_step s (vote_step s x "technical") "fundamental") "sentiment")%string.
  by rewrite !Hstep by (unfold DIRECTIONAL_AGENTS; rewrite !elem_of_cons; auto).
Qed.

Lemma unit_confidence x : fle f0 (fmin f1 (fabs x)) = true /\ fle (fmin f1 (fabs x)) f1 = true.
Proof.
  assert (fnn (fabs x) = true) as Hn by by destruct x.
  rewrite fnn_flt, negb_true_iff in Hn.
  unfold fmin. feval_lits. split; fcases; forder.
Qed.

Lemma direction_for_score_spec x t :
  flt f0 t = true -> is_nan x = false ->
  match direction_for_score x t with
  | LONG => fle t x = true
  | SHORT => fle x (fneg t) = true
  | FLAT => flt (fneg t) x = true /\ flt x t = true
  end.
Proof.
  intros Ht Hx. unfold direction_for_score, f0 in *.
  assert (is_nan t = false) by forder.
  assert (is_nan (fneg t) = false) by (by destruct t).
  destruct (fle t x) eqn:?; [done|]. destruct (fle x (fneg t)) eqn:?; [done|].
  split; forder.
Qed.

(** A fused result is well formed: the voters are directional agents with a
    non-FLAT signal, the confidence lies in [0, 1], a result without votes is FLAT
    with zero score and agreement, and the cross-timeframe context only moves
    score, direction and confidence - never the voters, weights or agreement -
    keeping the confidence in [0, 1] and the score before it for audit.  The
    [hysteresis] parameter and signals of non-directional agents never matter. *)
Theorem fuse_well_formed (signals signals' : dict string AgentSignal) (regime : string)
    (p : FusionParams) (h : float) (c : option ContextInput) (r : FusedResult) :
  fuse signals regime p = Ok r ->
  (forall a, a ∈ voting_agents r -> a ∈ DIRECTIONAL_AGENTS /\
     exists s, dget a signals = Some s /\ direction s <> FLAT) /\
  (has_votes r = false -> r = empty_fusion p) /\
  (let r' := apply_context r c in
   fle f0 (fused_confidence r') = true /\ fle (fused_confidence r') f1 = true /\
   weights r' = weights r /\ voting_agents r' = voting_agents r /\
   agreement r' = agreement r /\ (r' = r \/ pre_context_score r' = score r)) /\
  ((forall a, a ∈ DIRECTIONAL_AGENTS -> dget a signals = dget a signals') ->
   fuse signals' regime {| fp_threshold := fp_threshold p; fp_hysteresis := h;
                           fp_weights := fp_weights p |} = Ok r).
Proof.
  intros H. split_and!.
  - pose proof (fuse_spec signals regime p) as Hc. cbv zeta in Hc. rewrite H in Hc.
    destruct (_ || _); [injection Hc as ->; by intros a ?%elem_of_nil|].
    destruct (all_weighted _ _); [injection Hc as ->|done]. simpl.
    intros a Ha%list_elem_of_In%List.filter_In. destruct Ha as [Ha Hv].
    split; [by apply list_elem_of_In|]. unfold votes_in in Hv.
    destruct (dget a signals) as [s|]; [|done]. exists s. split; [done|].
    by intros Hf; rewrite Hf in Hv.
  - pose proof (fuse_spec signals regime p) as Hc. cbv zeta in Hc. rewrite H in Hc.
    case_bool_decide as Hn; [by injection Hc as ->|]. simpl in Hc.
    case_bool_decide; [by injection Hc as ->|].
    destruct (all_weighted _ _); [injection Hc as ->|done].
    unfold has_votes. simpl. by destruct (voters signals).
  - destruct c as [c|]; simpl; [destruct (fle _ f0); simpl|].
    2: { destruct (unit_confidence (score r +ᶠ ctxin_weight c *ᶠ of_Z (sign_of (ctxin_direction c))
                     *ᶠ fmin f1 (ctxin_confidence c))). auto 10. }
    all: cbv zeta; split_and!; try done; try (by left).
    all: pose proof (fuse_spec signals regime p) as Hc; cbv zeta in Hc; rewrite H in Hc;
      destruct (_ || _); [injection Hc as ->; reflexivity|];
      destruct (all_weighted _ _); [injection Hc as ->; apply unit_confidence|done].
  - intros Hs. rewrite <- H. apply fuse_reads; simpl; auto.
    intros a Ha. by rewrite Hs.
Qed.

Definition sample_signal (id : string) (d : Direction) (conf : float) : AgentSignal :=
  {| agent_id := id; version := "1"; symbol := "EURUSD"; timeframe := "H1"; direction := d;
     confidence := conf; bucket_ts := 0; rationale := ""; sig_features := [];
     created_at := 0; valid_until := 7200000000; run_id := "" |}.
Definition sample_signals : dict string AgentSignal :=
  [("technical", sample_signal "technical" LONG (lit 8 1));
   ("regime", sample_signal "regime" FLAT f0);
   ("sentiment", sample_signal "sentiment" SHORT (lit 5 1))]%string.

Lemma fuse_well_formed_witness :
  exists r, fuse sample_signals "trending" default_fusion_params = Ok r /\
    voting_agents r = ["technical"; "sentiment"]%string /\
    fle (fused_confidence r) f1 = true.
Proof.
  eexists. split; [vm_compute; reflexivity|]. split; [reflexivity|].
  eapply (fuse_well_formed sample_signals sample_signals "trending" default_fusion_params
            f0 None).
  vm_compute; reflexivity.
Defined.
