(* ===== verification/Risk.v ===== *)
(** * Risk parameters, paper sizing and the risk gates
    ([app/data/risk_config.py], [app/decisions/risk.py]) *)

From Stdlib Require Import ZArith Lia.
From stdpp Require Import base list strings.
From S2P Require Import Prelude PyFloat Timeframes Signals Fusion.

(** ** Parameters and runtime overrides *)

Record RiskParams := {
  max_risk_pct_account : float;
  max_exposure_pct : float;
  max_daily_loss_pct : float;
  max_drawdown_pct : float;
  min_rr : float;
  sl_atr_multiple : float;
  tp_atr_multiple : float;
  vol_target_pct : float;
  correlation_cap_pct : float;
  risk_enabled : bool;
  paper_equity : float
}.

(** Keys that may be overridden at runtime, with their bounds. *)
Definition _EDITABLE : list (string * (option float * option float)) :=
  [("max_risk_pct_account", (Some f0, Some f1));
   ("max_exposure_pct", (Some f0, Some f1));
   ("max_daily_loss_pct", (Some f0, Some f1));
   ("max_drawdown_pct", (Some f0, Some f1));
   ("min_rr", (Some f0, None));
   ("sl_atr_multiple", (Some f0, None));
   ("tp_atr_multiple", (Some f0, None));
   ("vol_target_pct", (Some f0, Some f1));
   ("correlation_cap_pct", (Some f0, Some f1))]%string.

(** [getattr(params, key)] and the replacement of one editable field. *)
Definition get_param (key : string) (p : RiskParams) : float :=
  if String.eqb key "max_risk_pct_account" then max_risk_pct_account p
  else if String.eqb key "max_exposure_pct" then max_exposure_pct p
  else if String.eqb key "max_daily_loss_pct" then max_daily_loss_pct p
  else if String.eqb key "max_drawdown_pct" then max_drawdown_pct p
  else if String.eqb key "min_rr" then min_rr p
  else if String.eqb key "sl_atr_multiple" then sl_atr_multiple p
  else if String.eqb key "tp_atr_multiple" then tp_atr_multiple p
  else if String.eqb key "vol_target_pct" then vol_target_pct p
  else correlation_cap_pct p.

Definition set_param (key : string) (v : float) (p : RiskParams) : RiskParams :=
  let f k old := if String.eqb key k then v else old in
  {| max_risk_pct_account := f "max_risk_pct_account" (max_risk_pct_account p);
     max_exposure_pct := f "max_exposure_pct" (max_exposure_pct p);
     max_daily_loss_pct := f "max_daily_loss_pct" (max_daily_loss_pct p);
     max_drawdown_pct := f "max_drawdown_pct" (max_drawdown_pct p);
     min_rr := f "min_rr" (min_rr p);
     sl_atr_multiple := f "sl_atr_multiple" (sl_atr_multiple p);
     tp_atr_multiple := f "tp_atr_multiple" (tp_atr_multiple p);
     vol_target_pct := f "vol_target_pct" (vol_target_pct p);
     correlation_cap_pct := f "correlation_cap_pct" (correlation_cap_pct p);
     risk_enabled := risk_enabled p;
     paper_equity := paper_equity p |}%string.

(** A raw JSON override; [float(value)] parses numbers, and numeric strings
    through [parse_float], the parser of [float(str)]. *)
Section Overrides.
Context (parse_float : string -> option float).

(** [float(value)].  What is no number and no numeric text raises [TypeError] or
    [ValueError], which every caller treats alike; an [int] that rounds beyond the
    largest float raises [OverflowError]. *)
Definition py_float (v : pyval) : Res float :=
  match v with
  | VBool b => Ok (if b then f1 else f0)
  | VInt n => if is_infinite (of_Z n) then Err OverflowError else Ok (of_Z n)
  | VFloat x => Ok x
  | VStr s => match parse_float s with Some x => Ok x | None => Err ValueError end
  | VNone | VList _ | VDict _ => Err ValueError
  end.

(** Only [TypeError] and [ValueError] are caught. *)
Definition _clamped (value : pyval) (bounds : option float * option float) (default : float)
  : Res float :=
  match py_float value with
  | Err ValueError => Ok default
  | Err e => Err e
  | Ok parsed =>
      let '(lo, hi) := bounds in
      if match lo with Some l => parsed <ᶠ l | None => false end then Ok default
      else if match hi with Some h => parsed >ᶠ h | None => false end then Ok default
      else Ok parsed
  end.

(** The loop over [_EDITABLE] shared by [load_risk_params] (stored overrides)
    and [set_risk_params] (requested updates). *)
Definition apply_overrides (base : RiskParams) (overrides : dict string pyval) : Res RiskParams :=
  fold_res (fun p '(key, bounds) =>
              match dget key overrides with
              | Some v => x <-- _clamped v bounds (get_param key base) ;; Ok (set_param key x p)
              | None => Ok p
              end) _EDITABLE base.

(** [load_risk_params]: environment defaults overlaid by the stored row, if it is
    a JSON object. *)
Definition load_risk_params (base : RiskParams) (row : option pyval) : Res RiskParams :=
  match row with
  | Some (VDict overrides) => apply_overrides base overrides
  | _ => Ok base
  end.

(** The row [set_risk_params] stores. *)
Definition stored_params (result : RiskParams) : pyval :=
  VDict (map (fun '(key, _) => (key, VFloat (get_param key result))) _EDITABLE).

(** [set_risk_params]: the resolved parameters and the row to store. *)
Definition set_risk_params (settings : RiskParams) (row : option pyval)
    (updates : dict string pyval) : Res (RiskParams * pyval) :=
  base <-- load_risk_params settings row ;;
  result <-- apply_overrides base updates ;;
  Ok (result, stored_params result).
End Overrides.

(** ** Sizing *)

(** [x / y if y > 0 else 0.0]. *)
Definition div_if_pos (x y : float) : float := if y >ᶠ f0 then fdiv_ieee x y else f0.

Record SizingResult := {
  position_size_units : float;
  stop_loss : float;
  take_profit : float;
  rr_ratio : float;
  risk_pct_account : float;
  sz_atr : float;
  sz_price : float
}.

Definition compute_sizing (price atr : float) (direction : Direction) (params : RiskParams)
  : SizingResult :=
  let s := of_Z (sign_of direction) in
  let sl_distance := sl_atr_multiple params *ᶠ atr in
  let tp_distance := tp_atr_multiple params *ᶠ atr in
  let stop_loss := fround (price -ᶠ s *ᶠ sl_distance) 8 in
  let take_profit := fround (price +ᶠ s *ᶠ tp_distance) 8 in
  let rr := if sl_distance >ᶠ f0 then fround (fdiv_ieee tp_distance sl_distance) 4 else f0 in
  let risk_amount := paper_equity params *ᶠ max_risk_pct_account params in
  let units_by_risk := div_if_pos risk_amount sl_distance in
  let notional_cap := paper_equity params *ᶠ max_exposure_pct params in
  let units_by_exposure := div_if_pos notional_cap price in
  let units := fround (fmin units_by_risk units_by_exposure) 6 in
  let notional := units *ᶠ price in
  let risk_pct := if ftruthy (paper_equity params)
                  then fround (fdiv_ieee (notional *ᶠ sl_distance) (paper_equity params)) 4
                  else f0 in
  {| position_size_units := units; stop_loss := stop_loss; take_profit := take_profit;
     rr_ratio := rr; risk_pct_account := fmin risk_pct f1; sz_atr := atr; sz_price := price |}.

(** ** Gates *)

Record GateState := {
  exposure_used_pct : float;
  correlation_used_pct : float;
  daily_loss_used_pct : float;
  drawdown_used_pct : float;
  correlation_triggered : bool
}.
Definition empty_gate_state : GateState :=
  {| exposure_used_pct := f0; correlation_used_pct := f0; daily_loss_used_pct := f0;
     drawdown_used_pct := f0; correlation_triggered := false |}.

(** A formatted text: fixed, [f"{label}={value:.{digits}f}"], or
    [f"{label}={value:.{digits}f} ({word} {bound})"]. *)
Inductive Detail :=
| Text (s : string)
| Labelled (label : string) (digits : nat) (value : float)
| Formatted (label : string) (digits : nat) (value : float) (word : string) (bound : float).

Record GateReason := { code : string; ok : bool; detail : Detail }.

Record RiskOutcome := {
  passed : bool;
  sizing : option SizingResult;
  gates : dict string GateReason;
  paper : bool
}.

Definition reasons (r : RiskOutcome) : list GateReason := (gates r).*2.

Record RiskDeps := { dep_atr : option float; dep_price : option float }.

Definition _GATE_KEYS : list string :=
  ["rr"; "exposure"; "correlation"; "daily_loss"; "drawdown"]%string.

(** [if x is None or x <= 0]. *)
Definition missing (x : option float) : bool :=
  match x with None => true | Some v => v <=ᶠ f0 end.

Definition size_gates (gate : GateState) (params : RiskParams) (sizing : SizingResult)
  : dict string GateReason :=
  let risk := max_risk_pct_account params in
  [("rr", {| code := "rr"; ok := rr_ratio sizing >=ᶠ min_rr params;
             detail := Formatted "rr" 3 (rr_ratio sizing) "min" (min_rr params) |});
   ("exposure", {| code := "exposure";
             ok := (exposure_used_pct gate +ᶠ risk) <=ᶠ max_exposure_pct params;
             detail := Formatted "exposure" 4 (exposure_used_pct gate) "cap"
                                 (max_exposure_pct params) |});
   ("correlation", {| code := "correlation";
             ok := negb (correlation_triggered gate)
                   || ((correlation_used_pct gate +ᶠ risk) <=ᶠ correlation_cap_pct params);
             detail := Formatted "corr_basket" 4 (correlation_used_pct gate) "cap"
                                 (correlation_cap_pct params) |});
   ("daily_loss", {| code := "daily_loss";
             ok := (daily_loss_used_pct gate +ᶠ risk) <=ᶠ max_daily_loss_pct params;
             detail := Formatted "daily_loss" 4 (daily_loss_used_pct gate) "cap"
                                 (max_daily_loss_pct params) |});
   ("drawdown", {| code := "drawdown";
             ok := (drawdown_used_pct gate +ᶠ risk) <=ᶠ max_drawdown_pct params;
             detail := Formatted "drawdown" 4 (drawdown_used_pct gate) "cap"
                                 (max_drawdown_pct params) |})]%string.

Definition all_gates (reason : string -> GateReason) (extra : string * GateReason)
  : dict string GateReason :=
  map (fun k => (k, reason k)) _GATE_KEYS ++ [extra].

(** The fail-closed outcome when ATR or price is unavailable. *)
Definition cannot_size : RiskOutcome :=
  {| passed := false; sizing := None;
     gates := all_gates (fun k => {| code := k; ok := false;
                                     detail := Text "cannot size: ATR/price unavailable" |})
                ("sizing", {| code := "sizing_impossible"; ok := false;
                              detail := Text "ATR/price unavailable; cannot size" |});
     paper := false |}%string.

(** A FLAT direction passes with no sizing. *)
Definition assess (direction : Direction) (deps : RiskDeps) (gate : GateState)
    (params : RiskParams) : RiskOutcome :=
  match direction with
  | FLAT =>
      let flat k := {| code := k; ok := true;
                       detail := Text "flat direction requires no sizing" |} in
      {| passed := true; sizing := None; gates := all_gates flat ("flat", flat "flat");
         paper := false |}%string
  | _ =>
      match dep_atr deps, dep_price deps with
      | Some atr, Some price =>
          if missing (Some atr) || missing (Some price) then cannot_size
          else
            let sizing := compute_sizing price atr direction params in
            let gs := size_gates gate params sizing in
            let all_ok := forallb (fun '(_, g) => ok g) gs in
            {| passed := all_ok; sizing := Some sizing; gates := gs;
               paper := all_ok && risk_enabled params |}
      | _, _ => cannot_size
      end
  end.

(** ** Lemmas *)

Definition editable_keys : list string := _EDITABLE.*1.

Lemma get_set_param k k' v p :
  k ∈ editable_keys -> k' ∈ editable_keys ->
  get_param k (set_param k' v p) = if decide (k = k') then v else get_param k p.
Proof.
  unfold editable_keys, _EDITABLE. simpl. rewrite !elem_of_cons, !elem_of_nil.
  intros Hk Hk'.
  repeat destruct Hk as [->|Hk]; try done;
    repeat destruct Hk' as [->|Hk']; try done; reflexivity.
Qed.

Lemma params_ext p q :
  (forall k, k ∈ editable_keys -> get_param k p = get_param k q) ->
  risk_enabled p = risk_enabled q -> paper_equity p = paper_equity q -> p = q.
Proof.
  intros H He Hq. destruct p, q. simpl in He, Hq. subst.
  assert (H' : Forall (fun k => get_param k _ = get_param k _) editable_keys)
    by (apply Forall_forall; exact H).
  repeat (apply Forall_cons in H' as [? H']). cbn in *. congruence.
Qed.

Section OverrideLemmas.
Context (parse_float : string -> option float).

Notation _clamped := (_clamped parse_float).
Notation apply_overrides := (apply_overrides parse_float).

(** What the loop makes of each knob: the clamped override, or what it was. *)
Lemma overrides_fold base o l p q :
  (forall kb, kb ∈ l -> kb.1 ∈ editable_keys) -> NoDup l.*1 ->
  fold_res (fun p '(key, bounds) =>
              match dget key o with
              | Some v => x <-- _clamped v bounds (get_param key base) ;; Ok (set_param key x p)
              | None => Ok p
              end) l p = Ok q ->
  (forall k, k ∈ editable_keys ->
     match dget k l, dget k o with
     | Some bounds, Some v => _clamped v bounds (get_param k base) = Ok (get_param k q)
     | _, _ => get_param k q = get_param k p
     end) /\
  risk_enabled q = risk_enabled p /\ paper_equity q = paper_equity p.
Proof.
  revert p. induction l as [|[k' b'] l IH]; intros p Hl Hn Hq; simpl in Hq; [by injection Hq as ->|].
  apply NoDup_cons in Hn as [Hk' Hn]. apply dget_None in Hk'. simpl in Hk'.
  apply res_bind_ok in Hq as (p1 & Hp1 & Hq).
  apply IH in Hq as (Hq & Hr & He); [|by intros; apply Hl; right|done]. clear IH.
  assert (k' ∈ editable_keys) by (apply (Hl (k', b')); by left).
  assert (Hstep : (risk_enabled p1 = risk_enabled p /\ paper_equity p1 = paper_equity p) /\
    forall k, k ∈ editable_keys -> match dget k' o with
      | Some v => exists x, _clamped v b' (get_param k' base) = Ok x /\
                    get_param k p1 = if decide (k' = k) then x else get_param k p
      | None => p1 = p end).
  { destruct (dget k' o) as [v|]; [|by injection Hp1 as <-].
    apply res_bind_ok in Hp1 as (x & Hx & [= <-]). split; [done|].
    intros k Hk. exists x. split; [done|]. rewrite get_set_param by done. repeat case_decide; congruence. }
  destruct Hstep as [[Hs1 Hs2] Hstep]. split; [|split; congruence].
  intros k Hk. specialize (Hq k Hk). specialize (Hstep k Hk). cbn [dget].
  destruct (decide (k = k')) as [->|Hne].
  - rewrite Hk' in Hq. destruct (dget k' o) as [v|]; [|by subst].
    destruct Hstep as (x & Hx & Hp). rewrite decide_True in Hp by done. by rewrite Hq, Hp.
  - destruct (dget k l), (dget k o); try done;
      (rewrite Hq; destruct (dget k' o); [|by subst]; destruct Hstep as (x & _ & ->);
       by rewrite decide_False by congruence).
Qed.

Lemma overrides_ok base o q : apply_overrides base o = Ok q ->
  (forall k bounds, dget k _EDITABLE = Some bounds ->
     match dget k o with
     | Some v => _clamped v bounds (get_param k base) = Ok (get_param k q)
     | None => get_param k q = get_param k base
     end) /\
  risk_enabled q = risk_enabled base /\ paper_equity q = paper_equity base.
Proof.
  intros H. apply overrides_fold in H as [H Hf].
  - split; [|done]. intros k bounds Hb. specialize (H k). rewrite Hb in H. apply H.
    apply dget_Some_in in Hb. apply list_elem_of_fmap. exists (k, bounds). by split.
  - intros kb Hin. apply list_elem_of_fmap. eauto.
  - apply (bool_decide_unpack _), I.
Qed.

(** An editable value is acceptable when it is within its bounds, or NaN. *)
Definition within (bounds : option float * option float) (x : float) : bool :=
  is_nan x
  || match bounds.1 with Some l => fle l x | None => true end
     && match bounds.2 with Some h => fle x h | None => true end.

Lemma bounds_not_nan k lo hi : dget k _EDITABLE = Some (lo, hi) ->
  (forall l, lo = Some l -> is_nan l = false) /\ (forall h, hi = Some h -> is_nan h = false).
Proof.
  intros H%dget_Some_in. unfold _EDITABLE in H. rewrite !elem_of_cons, elem_of_nil in H.
  destruct_or?; simplify_eq; split; intros; simplify_eq; reflexivity.
Qed.

(** An integer no float can hold. *)
Definition too_large (v : pyval) : Prop := exists n, v = VInt n /\ is_infinite (of_Z n) = true.

Lemma clamped_spec k v bounds dflt :
  dget k _EDITABLE = Some bounds ->
  match py_float parse_float v with
  | Ok x => _clamped v bounds dflt = Ok (if within bounds x then x else dflt)
  | Err ValueError => _clamped v bounds dflt = Ok dflt
  | Err e => _clamped v bounds dflt = Err e
  end.
Proof.
  intros Hk. destruct bounds as [lo hi]. destruct (bounds_not_nan _ _ _ Hk) as [Hl Hh].
  unfold Risk._clamped, within. destruct (py_float _ _) as [x|[]]; try done. cbn [fst snd].
  destruct lo as [l|], hi as [h|]; try specialize (Hl _ eq_refl); try specialize (Hh _ eq_refl);
    repeat match goal with |- context [if ?b then _ else _] =>
      lazymatch b with context [if _ then _ else _] => fail | _ => destruct b eqn:? end end;
    try done;
    repeat match goal with
      | H : _ || _ = true |- _ => apply orb_prop in H as [?|?]
      | H : _ && _ = true |- _ => apply andb_prop in H as [? ?]
      | H : _ || _ = false |- _ => apply orb_false_elim in H as [? ?]
      | H : _ && _ = false |- _ => apply andb_false_iff in H as [?|?]
      end; try discriminate; exfalso; forder.
Qed.

Lemma clamped_ok k v bounds dflt x :
  dget k _EDITABLE = Some bounds -> _clamped v bounds dflt = Ok x ->
  x = dflt \/ within bounds x = true.
Proof.
  intros Hk H. pose proof (clamped_spec k v bounds dflt Hk) as Hs. rewrite H in Hs.
  destruct (py_float _ v) as [y|[]]; simplify_eq; try by left.
  destruct (within bounds y) eqn:E; [by right|by left].
Qed.

Lemma clamped_err k v bounds dflt e :
  dget k _EDITABLE = Some bounds -> _clamped v bounds dflt = Err e <-> e = OverflowError /\ too_large v.
Proof.
  intros Hk. pose proof (clamped_spec k v bounds dflt Hk) as Hs. unfold too_large.
  destruct v as [|b|n|y|str|l|d]; cbn [py_float] in Hs;
    try destruct (is_infinite (of_Z n)) eqn:E; try destruct (parse_float str); rewrite Hs;
    (split; [intros [=]; subst|intros [-> (m & [=] & ?)]; subst; congruence]).
  split; [done|]. by exists n.
Qed.

Lemma dget_editable_row p k :
  k ∈ editable_keys ->
  dget k (map (fun '(key, _) => (key, VFloat (get_param key p))) _EDITABLE)
  = Some (VFloat (get_param k p)).
Proof.
  unfold editable_keys, _EDITABLE. simpl. rewrite !elem_of_cons, !elem_of_nil.
  intros Hk. by destruct_or? Hk; subst.
Qed.

Lemma editable_bounds k : k ∈ editable_keys -> exists b, dget k _EDITABLE = Some b.
Proof.
  unfold editable_keys. destruct (dget k _EDITABLE) eqn:E; [eauto|].
  by apply dget_None in E.
Qed.
End OverrideLemmas.

Lemma load_within parse_float base o q k b :
  apply_overrides parse_float base o = Ok q ->
  dget k _EDITABLE = Some b -> within b (get_param k base) = true ->
  within b (get_param k q) = true.
Proof.
  intros Hq Hb Hw. apply overrides_ok in Hq as [Hq _]. specialize (Hq k b Hb).
  destruct (dget k o) as [v|]; [|congruence].
  apply (clamped_ok _ k) in Hq as [->|?]; done.
Qed.

(** Overrides fail exactly when an editable knob is given an integer no float can hold. *)
Lemma overrides_err parse_float base o e :
  apply_overrides parse_float base o = Err e ->
  e = OverflowError /\ exists k v, k ∈ editable_keys /\ dget k o = Some v /\ too_large v.
Proof.
  intros H. apply fold_res_err in H as ([k b] & p & Hin & H).
  destruct (dget k o) as [v|] eqn:Ev; [|done].
  destruct (_clamped _ _ _ _) as [x|e'] eqn:E; simpl in H; [done|]. injection H as ->.
  assert (Hk : dget k _EDITABLE = Some b)
    by (apply dget_In; [apply (bool_decide_unpack _), I|done]).
  apply (clamped_err _ k) in E as [-> Hv]; [|done]. split; [done|]. exists k, v. split_and!; try done.
  apply list_elem_of_fmap. exists (k, b). by split.
Qed.

(** The row of acceptable parameters loads back to them. *)
Lemma stored_loads parse_float settings q :
  (forall k b, dget k _EDITABLE = Some b -> within b (get_param k q) = true) ->
  risk_enabled q = risk_enabled settings -> paper_equity q = paper_equity settings ->
  load_risk_params parse_float settings (Some (stored_params q)) = Ok q.
Proof.
  intros Hw Hr He. cbn [load_risk_params stored_params].
  destruct (apply_overrides parse_float settings _) as [p|e] eqn:E.
  - apply overrides_ok in E as (E & Er & Ee). f_equal. apply params_ext; [|congruence..].
    intros k Hk. destruct (editable_bounds k Hk) as [b Hb]. specialize (E k b Hb).
    rewrite dget_editable_row in E by done.
    pose proof (clamped_spec parse_float k (VFloat (get_param k q)) b (get_param k settings) Hb) as Hs.
    simpl in Hs. rewrite (Hw k b Hb) in Hs. congruence.
  - apply overrides_err in E as (_ & k & v & Hk & Hv & n & -> & _). by rewrite dget_editable_row in Hv.
Qed.

(** ATR and price when the candidate can be sized. *)
Definition sizable (deps : RiskDeps) : option (float * float) :=
  match dep_atr deps, dep_price deps with
  | Some atr, Some price =>
      if missing (Some atr) || missing (Some price) then None else Some (atr, price)
  | _, _ => None
  end.

Lemma sizable_Some deps atr price : sizable deps = Some (atr, price) <->
  dep_atr deps = Some atr /\ dep_price deps = Some price /\
  fle atr f0 = false /\ fle price f0 = false.
Proof.
  unfold sizable. destruct (dep_atr deps) as [a|], (dep_price deps) as [q|]; simpl;
    try naive_solver.
  destruct (fle a f0) eqn:Ea, (fle q f0) eqn:Eq; simpl; naive_solver congruence.
Qed.

Lemma assess_sized d deps g p atr price :
  d <> FLAT -> dep_atr deps = Some atr -> dep_price deps = Some price ->
  fle atr f0 = false -> fle price f0 = false ->
  assess d deps g p =
    let sz := compute_sizing price atr d p in
    let gs := size_gates g p sz in
    let all_ok := forallb (fun '(_, g) => ok g) gs in
    {| passed := all_ok; sizing := Some sz; gates := gs; paper := all_ok && risk_enabled p |}.
Proof. intros Hd Ha Hp Ha0 Hp0. unfold assess, missing. rewrite Ha, Hp, Ha0, Hp0. by destruct d. Qed.

Lemma assess_unsized d deps g p :
  d <> FLAT -> sizable deps = None -> assess d deps g p = cannot_size.
Proof.
  unfold sizable, assess. intros Hd Hs.
  destruct d, (dep_atr deps), (dep_price deps); try done; by destruct (_ || _).
Qed.

Lemma gates_all_ok g p sz : let risk := max_risk_pct_account p in
  forallb (fun '(_, x) => ok x) (size_gates g p sz) = true <->
  fle (min_rr p) (rr_ratio sz) = true /\
  fle (exposure_used_pct g +ᶠ risk) (max_exposure_pct p) = true /\
  (correlation_triggered g = true ->
     fle (correlation_used_pct g +ᶠ risk) (correlation_cap_pct p) = true) /\
  fle (daily_loss_used_pct g +ᶠ risk) (max_daily_loss_pct p) = true /\
  fle (drawdown_used_pct g +ᶠ risk) (max_drawdown_pct p) = true.
Proof.
  simpl. rewrite !andb_true_iff, orb_true_iff, negb_true_iff.
  destruct (correlation_triggered g); naive_solver.
Qed.

(** A gate dictionary that starts with the five gates answers each gate key. *)
Lemma gates_keyed a b c d e rest :
  map code [a; b; c; d; e] = _GATE_KEYS ->
  Forall (fun k => exists x, dget k (zip _GATE_KEYS [a; b; c; d; e] ++ rest) = Some x /\ code x = k)
         _GATE_KEYS.
Proof. intros H. injection H as H1 H2 H3 H4 H5. repeat constructor; eexists; by split. Qed.

(** Runtime risk parameters fail safe.  After loading a stored override row each
    editable knob is either its environment default or a float parsed from the row
    that lies within its bounds (or is NaN, which no comparison rejects); knobs
    outside the editable set never change; the row written by [set_risk_params] loads
    back to exactly the parameters it returned; and loading raises only the
    [OverflowError] of an integer override that no float can hold, which nothing catches. *)
Theorem risk_params_safe (parse_float : string -> option float) (settings : RiskParams)
    (row : option pyval) (updates : dict string pyval) :
  (forall p, load_risk_params parse_float settings row = Ok p ->
     (forall k b, dget k _EDITABLE = Some b ->
        (get_param k p = get_param k settings \/ within b (get_param k p) = true) /\
        (forall o v x, row = Some (VDict o) -> dget k o = Some v ->
           py_float parse_float v = Ok x -> within b x = true -> get_param k p = x)) /\
     risk_enabled p = risk_enabled settings /\ paper_equity p = paper_equity settings) /\
  (forall q stored, set_risk_params parse_float settings row updates = Ok (q, stored) ->
     (forall k b, dget k _EDITABLE = Some b -> within b (get_param k settings) = true) ->
     load_risk_params parse_float settings (Some stored) = Ok q) /\
  (forall e, load_risk_params parse_float settings row = Err e ->
     e = OverflowError /\ exists o k v, row = Some (VDict o) /\ k ∈ editable_keys /\ dget k o = Some v /\ too_large v).
Proof.
  split; [|split].
  - intros p Hp. destruct row as [[| | | | | |o]|]; try (cbn [load_risk_params] in Hp; injection Hp as <-; split; [|done]; intros k bd Hk; split; [by left|intros; simplify_eq]).
    apply overrides_ok in Hp as (Hp & Hf). split; [|done]. intros k b Hk. specialize (Hp k b Hk). split.
    + destruct (dget k o) as [v|]; [|by left]. by apply (clamped_ok _ k) in Hp.
    + intros o' v x [= <-] Ho Hv Hx. rewrite Ho in Hp.
      pose proof (clamped_spec parse_float k v b (get_param k settings) Hk) as Hs. rewrite Hv, Hx in Hs. congruence.
  - intros q stored Hs Hset. apply res_bind_ok in Hs as (base & Hb & Hs). apply res_bind_ok in Hs as (q' & Hq & [= <- <-]).
    assert (Hbase : (forall k b, dget k _EDITABLE = Some b -> within b (get_param k base) = true) /\
      risk_enabled base = risk_enabled settings /\ paper_equity base = paper_equity settings).
    { destruct row as [[| | | | | |o]|]; try (cbn [load_risk_params] in Hb; by injection Hb as <-).
      split; [intros k b Hk; by eapply load_within; [exact Hb|..|apply Hset]|].
      apply overrides_ok in Hb. apply Hb. }
    destruct Hbase as (Hw & Hr & He).
    apply stored_loads; [intros k b Hk; by eapply load_within; [exact Hq|..|apply Hw]|..];
      apply overrides_ok in Hq as (_ & ? & ?); congruence.
  - intros e He. destruct row as [[| | | | | |o]|]; try done.
    apply overrides_err in He as (-> & k & v & ? & ? & ?). split; [done|]. by exists o, k, v.
Qed.

(** C10: the risk pass is fail-closed on what it sizes.  A non-FLAT candidate passes
    exactly when ATR and price are both present and not [<= 0] and each of the five gate
    inequalities holds; without ATR or price every gate is recorded as failed; and a paper
    intent is allowed exactly for a passed, non-FLAT candidate while risk is enabled.  A
    FLAT candidate passes unsized, ATR or not: the source's comment on [assess], that
    [passed] is true only if sizing is possible and the direction is not FLAT, describes
    the paper intent, not the code's [passed]. *)
Theorem assess_fail_closed (d : Direction) (deps : RiskDeps) (g : GateState) (p : RiskParams) :
  let r := assess d deps g p in
  (d = FLAT -> passed r = true /\ sizing r = None) /\
  (d <> FLAT -> passed r = true <->
     exists atr price, dep_atr deps = Some atr /\ dep_price deps = Some price /\
       fle atr f0 = false /\ fle price f0 = false /\
       let sz := compute_sizing price atr d p in
       let risk := max_risk_pct_account p in
       sizing r = Some sz /\ fle (min_rr p) (rr_ratio sz) = true /\
       fle (exposure_used_pct g +ᶠ risk) (max_exposure_pct p) = true /\
       (correlation_triggered g = true ->
          fle (correlation_used_pct g +ᶠ risk) (correlation_cap_pct p) = true) /\
       fle (daily_loss_used_pct g +ᶠ risk) (max_daily_loss_pct p) = true /\
       fle (drawdown_used_pct g +ᶠ risk) (max_drawdown_pct p) = true) /\
  (paper r = true <-> d <> FLAT /\ passed r = true /\ risk_enabled p = true) /\
  (d <> FLAT -> sizing r = None -> Forall (fun x => ok x = false) (reasons r)) /\
  (forall k, k ∈ _GATE_KEYS -> exists x, dget k (gates r) = Some x /\ code x = k).
Proof.
  intros r. subst r. destruct (decide (d = FLAT)) as [->|Hd].
  { cbn [assess]. refine (conj _ (conj _ (conj _ (conj _ _)))); try done.
    - simpl. naive_solver.
    - by apply Forall_forall, gates_keyed. }
  destruct (sizable deps) as [[atr price]|] eqn:Es.
  - apply sizable_Some in Es as (Ha & Hp & Ha0 & Hp0).
    rewrite (assess_sized d deps g p atr price) by done. cbn [passed sizing gates paper reasons].
    refine (conj _ (conj _ (conj _ (conj _ _)))); try done.
    + intros _. rewrite gates_all_ok. split.
      * intros H. exists atr, price. naive_solver.
      * intros (a & q & ? & ? & _ & _ & H). simplify_eq. naive_solver.
    + rewrite andb_true_iff. naive_solver.
    + by apply Forall_forall, gates_keyed.
  - rewrite assess_unsized by done. refine (conj _ (conj _ (conj _ (conj _ _)))); try done.
    + intros _. split; [done|]. intros (a & q & Ha & Hp & Ha0 & Hp0 & _).
      exfalso. unfold sizable, missing in Es. by rewrite Ha, Hp, Ha0, Hp0 in Es.
    + simpl. naive_solver.
    + intros _ _. repeat constructor.
    + by apply Forall_forall, gates_keyed.
Qed.

Definition sample_params : RiskParams :=
  {| max_risk_pct_account := lit 1 2; max_exposure_pct := lit 5 1;
     max_daily_loss_pct := lit 3 2; max_drawdown_pct := lit 1 1; min_rr := lit 15 1;
     sl_atr_multiple := lit 15 1; tp_atr_multiple := of_Z 3; vol_target_pct := lit 1 1;
     correlation_cap_pct := lit 4 1; risk_enabled := true; paper_equity := of_Z 10000 |}.

Definition sample_row : option pyval :=
  Some (VDict [("min_rr", VFloat (lit 2 0)); ("max_exposure_pct", VInt 7)])%string.
Definition sample_loaded : RiskParams := set_param "min_rr" (lit 2 0) sample_params.
Definition sample_resolved : RiskParams := set_param "vol_target_pct" (lit 3 1) sample_loaded.

Lemma risk_params_safe_witness :
  let parse := fun _ : string => None in
  get_param "min_rr" sample_loaded = lit 2 0 /\
  load_risk_params parse sample_params (Some (stored_params sample_resolved)) = Ok sample_resolved /\
  exists v, too_large v /\
    load_risk_params parse sample_params (Some (VDict [("min_rr", v)]))%string = Err OverflowError.
Proof.
  intros parse.
  destruct (risk_params_safe parse sample_params sample_row [("vol_target_pct", VFloat (lit 3 1))]%string) as (H1 & H2 & _).
  split; [|split].
  - destruct (H1 sample_loaded) as [H _]; [vm_compute; reflexivity|].
    destruct (H "min_rr"%string _ eq_refl) as [_ Hx]. clear H H1 H2.
    refine (Hx _ (VFloat (lit 2 0)) (lit 2 0) eq_refl _ _ _); vm_compute; reflexivity.
  - apply H2; [vm_compute; reflexivity|].
    intros k b H%dget_Some_in. unfold _EDITABLE in H. rewrite !elem_of_cons, elem_of_nil in H.
    destruct_or?; simplify_eq; vm_compute; reflexivity.
  - exists (VInt (2 ^ 1024)). split; [exists (2 ^ 1024); split; [reflexivity|vm_compute; reflexivity]|].
    vm_compute. reflexivity.
Defined.

(** The reported account risk never exceeds 1 (it may be NaN). *)
Lemma compute_sizing_risk_cap price atr d p :
  flt f1 (risk_pct_account (compute_sizing price atr d p)) = false.
Proof. apply fmin_not_above. Qed.
