(* ===== verification/Decision.v ===== *)
(** * The pure decision function ([app/decisions/engine.py], [compute_decision])
    and the audit hash of its inputs ([app/decisions/hashing.py]) *)

From Stdlib Require Import ZArith Lia Sorted.
From stdpp Require Import base list strings.
From S2P Require Import Prelude PyFloat Timeframes Signals Fusion Risk.

Definition AGENT_FAMILIES : list string :=
  ["technical"; "regime"; "fundamental"; "sentiment"]%string.

Record OrchParams := {
  coverage_min : float;
  agreement_min : float;
  op_threshold : float;
  op_hysteresis : float;
  op_context_weight : float;
  cooldown_seconds : Z;
  op_weights : dict string (dict string float)
}.

Record DecisionInputs := {
  in_symbol : string;
  in_timeframe : string;
  in_bucket_ts : Z;
  in_now : Z;
  in_signals : dict string AgentSignal;
  in_regime : string;
  in_atr : option float;
  in_price : option float;
  in_coverage : float;
  in_gate : GateState;
  in_parent_context : option ContextInput
}.

Record RiskLive := {
  live_equity : float;
  live_peak_equity : float;
  live_cumulative_realized : float
}.

Inductive DecisionAction := SKIP | PERSIST.
Inductive SkipReason := NO_VOTES | INSUFFICIENT_COVERAGE | WEAK_FLAT.
Inductive DecisionStatus := ANALYSIS | PAPER | BLOCKED.

#[export] Instance DecisionStatus_eq_dec : EqDecision DecisionStatus.
Proof. solve_decision. Defined.
#[export] Instance DecisionAction_eq_dec : EqDecision DecisionAction.
Proof. solve_decision. Defined.

Record DecisionOutcome := {
  action : DecisionAction;
  out_fused : FusedResult;
  status : option DecisionStatus;
  out_risk : option RiskOutcome;
  coverage : float;
  skip_reason : option SkipReason;
  veto : option (string * Detail)      (* veto_code and veto_reason, set together *)
}.

Definition _coverage (signals : dict string AgentSignal) : float :=
  let present := length (List.filter (fun a => match dget a signals with
                                               | Some _ => true | None => false end)
                                     AGENT_FAMILIES) in
  fdiv_ieee (of_Z (Z.of_nat present)) (of_Z (Z.of_nat (length AGENT_FAMILIES))).

Definition _first_failing (name : string) (outcome : RiskOutcome) : option (string * Detail) :=
  match dget name (gates outcome) with
  | Some gate => if ok gate then None else Some (name, detail gate)
  | None => None
  end.

(** [x or y] of two optional pairs. *)
Definition opt_or {A} (x y : option A) : option A :=
  match x with Some _ => x | None => y end.

Definition skip (fused : FusedResult) (cov : float) (why : SkipReason) : DecisionOutcome :=
  {| action := SKIP; out_fused := fused; status := None; out_risk := None; coverage := cov;
     skip_reason := Some why; veto := None |}.

Definition fusion_params (orch : OrchParams) : FusionParams :=
  {| fp_threshold := op_threshold orch; fp_hysteresis := op_hysteresis orch;
     fp_weights := match op_weights orch with [] => DEFAULT_WEIGHTS | w => w end |}.

(** The status and veto of a directional, covered decision. *)
Definition verdict (orch : OrchParams) (fused : FusedResult) (r : RiskOutcome)
  : DecisionStatus * option (string * Detail) :=
  if negb (agreement fused >=ᶠ agreement_min orch) then
    (ANALYSIS, Some ("low_agreement", Labelled "agreement" 3 (agreement fused)))
  else if passed r && paper r then (PAPER, None)
  else if passed r then (ANALYSIS, Some ("risk_disabled", Text "risk gate disabled"))
  else
    (BLOCKED,
      opt_or (_first_failing "rr" r)
        (opt_or (_first_failing "exposure" r)
          (opt_or (_first_failing "correlation" r)
            (opt_or (_first_failing "daily_loss" r)
              (opt_or (_first_failing "drawdown" r)
                (Some ("risk", Text "risk gate failed")))))))%string.

Definition compute_decision (inputs : DecisionInputs) (orch : OrchParams) (risk : RiskParams)
  : Res DecisionOutcome :=
  fused0 <-- fuse (in_signals inputs) (in_regime inputs) (fusion_params orch) ;;
  let fused := apply_context fused0 (in_parent_context inputs) in
  Ok (if negb (has_votes fused) then skip fused f0 NO_VOTES
      else if in_coverage inputs <ᶠ coverage_min orch
           then skip fused (in_coverage inputs) INSUFFICIENT_COVERAGE
      else if decide (fused_direction fused = FLAT)
           then skip fused (in_coverage inputs) WEAK_FLAT
      else
        let r := assess (fused_direction fused)
                   {| dep_atr := in_atr inputs; dep_price := in_price inputs |}
                   (in_gate inputs) risk in
        let '(st, v) := verdict orch fused r in
        {| action := PERSIST; out_fused := fused; status := Some st; out_risk := Some r;
           coverage := in_coverage inputs; skip_reason := None; veto := v |}).

(** ** Input hash *)

Section Hash.
(** [hashlib.sha256] of the compact sorted-key JSON text of a payload, in hex. *)
Context (sha256_json : pyval -> string).

Definition key_leb {V} (a b : string * V) : bool := String.leb (fst a) (fst b).

Definition hash_payload (symbol timeframe bucket_ts : string) (agent_versions : dict string string)
    (weights : dict string float) : pyval :=
  VDict [("agent_versions", VDict (sort_by key_leb (prod_map id VStr <$> agent_versions)));
         ("bucket_ts", VStr bucket_ts);
         ("symbol", VStr (str_upper symbol));
         ("timeframe", VStr (str_upper timeframe));
         ("weights", VDict (sort_by key_leb
                              (prod_map id (fun v => VFloat (fround v 6)) <$> weights)))]%string.

Definition inputs_hash (symbol timeframe bucket_ts : string) (agent_versions : dict string string)
    (weights : dict string float) : string :=
  sha256_json (hash_payload symbol timeframe bucket_ts agent_versions weights).
End Hash.

(** ** Lemmas *)

Lemma compute_decision_ok inputs orch risk f :
  fuse (in_signals inputs) (in_regime inputs) (fusion_params orch) = Ok f ->
  exists out, compute_decision inputs orch risk = Ok out /\
    out_fused out = apply_context f (in_parent_context inputs).
Proof.
  intros Hf. unfold compute_decision. rewrite Hf. eexists. split; [reflexivity|].
  repeat case_match; simplify_eq; reflexivity.
Qed.

Lemma apply_context_keeps r c :
  has_votes (apply_context r c) = has_votes r /\ agreement (apply_context r c) = agreement r.
Proof. destruct c as [c|]; simpl; [destruct (fle _ _)|]; done. Qed.

(** When a decision is persisted, and with which verdict. *)
Definition decidable_now (inputs : DecisionInputs) (orch : OrchParams) (f : FusedResult) : bool :=
  has_votes f && negb (in_coverage inputs <ᶠ coverage_min orch)
  && bool_decide (fused_direction (apply_context f (in_parent_context inputs)) <> FLAT).

Lemma compute_decision_persist inputs orch risk f :
  fuse (in_signals inputs) (in_regime inputs) (fusion_params orch) = Ok f ->
  let f' := apply_context f (in_parent_context inputs) in
  let r := assess (fused_direction f') {| dep_atr := in_atr inputs; dep_price := in_price inputs |}
                  (in_gate inputs) risk in
  exists out, compute_decision inputs orch risk = Ok out /\
  if decidable_now inputs orch f
  then action out = PERSIST /\ out_risk out = Some r /\ skip_reason out = None /\
       (status out, veto out) = (Some (verdict orch f' r).1, (verdict orch f' r).2)
  else action out = SKIP /\ status out = None /\ out_risk out = None /\ skip_reason out <> None.
Proof.
  intros Hf f' r. unfold compute_decision, decidable_now. rewrite Hf. simpl. fold f'.
  destruct (apply_context_keeps f (in_parent_context inputs)) as [Hv _]. fold f' in Hv.
  rewrite Hv. eexists. split; [reflexivity|].
  destruct (has_votes f); simpl; [|done].
  destruct (flt _ _); simpl; [done|].
  destruct (decide (fused_direction f' = FLAT)); simpl.
  - by case_bool_decide.
  - case_bool_decide; [|done]. fold r. by destruct (verdict orch f' r).
Qed.

Lemma verdict_paper orch f r :
  (verdict orch f r).1 = PAPER <->
  fle (agreement_min orch) (agreement f) = true /\ passed r = true /\ paper r = true.
Proof.
  unfold verdict. destruct (fle _ _), (passed r), (paper r); simpl; naive_solver.
Qed.

Lemma verdict_blocked orch f r :
  (verdict orch f r).1 = BLOCKED <->
  fle (agreement_min orch) (agreement f) = true /\ passed r = false.
Proof. unfold verdict. destruct (fle _ _), (passed r), (paper r); simpl; naive_solver. Qed.

Lemma assess_paper d deps g p :
  paper (assess d deps g p) = true <->
  d <> FLAT /\ passed (assess d deps g p) = true /\ risk_enabled p = true.
Proof.
  unfold assess. destruct d; [| |simpl; naive_solver].
  all: repeat case_match; simpl; rewrite ?andb_true_iff; naive_solver.
Qed.

(** Without an ATR nothing can be sized, so nothing is promoted. *)
Lemma compute_decision_unsized inputs orch risk out :
  in_atr inputs = None -> compute_decision inputs orch risk = Ok out -> status out <> Some PAPER.
Proof.
  intros Ha Hc Ho. unfold compute_decision in Hc. inv_res. revert Ho.
  destruct (negb _); [done|]. destruct (flt _ _); [done|].
  destruct (decide _) as [|Hd]; [done|].
  rewrite assess_unsized; [|done|by unfold sizable; simpl; rewrite Ha].
  unfold verdict. by destruct (negb _).
Qed.

(** Confidences as the signal model validates them: proper, non-NaN floats. *)
Definition sane_confidences (signals : dict string AgentSignal) : Prop :=
  forall a s, dget a signals = Some s ->
    is_float (confidence s) = true /\ is_nan (confidence s) = false.

Lemma flat_agreement signals regime p r :
  sane_confidences signals -> fuse signals regime p = Ok r -> fused_direction r = FLAT ->
  agreement r = f0.
Proof.
  intros Hs H Hd. pose proof (fuse_spec signals regime p) as Hc. cbv zeta in Hc.
  rewrite H in Hc. destruct (_ || _); [by injection Hc as ->|].
  destruct (all_weighted _ _); [injection Hc as ->|done].
  simpl in *. rewrite Hd. unfold aligned_weight.
  rewrite (proj2 (filter_nil _ (voters signals))); [reflexivity|].
  intros a Ha%list_elem_of_In%List.filter_In. destruct Ha as [_ Ha]. unfold votes_in, vote_of in *.
  destruct (dget a signals) as [s|] eqn:Es; [|done].
  destruct (Hs a s Es) as [Hf Hn].
  apply negb_true_iff, orb_false_elim in Ha as [H0 H1].
  destruct (direction s); [|  |done]; cbn [sign_of].
  - rewrite (fmul_sign false _ Hf). unfold signs_of.
    replace (flt f0 (confidence s)) with true; [done|]. symmetry. feval_lits. forder.
  - rewrite (fmul_sign true _ Hf). unfold signs_of.
    destruct (confidence s) as [[]|[]| |[] m e]; done.
Qed.

(** A gate of a risk outcome that is recorded as failed. *)
Definition gate_fails (r : RiskOutcome) (k : string) : bool :=
  match dget k (gates r) with Some g => negb (ok g) | None => false end.

(** The first gate of the gate order that fails, with its text. *)
Definition first_failing (r : RiskOutcome) : option (string * Detail) :=
  match List.find (gate_fails r) _GATE_KEYS with
  | Some k => Some (k, match dget k (gates r) with Some g => detail g | None => Text "" end)
  | None => None
  end.


Lemma first_failing_step r k rest :
  opt_or (_first_failing k r) rest =
    if gate_fails r k
    then Some (k, match dget k (gates r) with Some g => detail g | None => Text "" end)
    else rest.
Proof.
  unfold _first_failing, gate_fails. destruct (dget k (gates r)) as [g|]; [|done].
  by destruct (ok g).
Qed.

Lemma assess_failed_gate d deps g p :
  passed (assess d deps g p) = false ->
  exists k, List.find (gate_fails (assess d deps g p)) _GATE_KEYS = Some k.
Proof.
  intros H. destruct (List.find _ _) eqn:E; [eauto|]. exfalso.
  assert (Hn : Forall (fun k => gate_fails (assess d deps g p) k = false) _GATE_KEYS)
    by (apply Forall_forall; intros; eapply List.find_none; [done|by apply list_elem_of_In]).
  destruct (decide (d = FLAT)) as [->|Hd]; [done|].
  destruct (sizable deps) as [[atr price]|] eqn:Es.
  - apply sizable_Some in Es as (Ha & Hp & Ha0 & Hp0).
    rewrite (assess_sized d deps g p atr price) in H, Hn by done.
    apply not_true_iff_false in H. apply H. cbv zeta. cbn [passed].
    cbv zeta in Hn. unfold gate_fails in Hn. cbn [gates] in Hn.
    apply forallb_forall. intros [k x] Hk. unfold size_gates in Hk.
    unfold _GATE_KEYS in Hn. repeat (apply Forall_cons in Hn as [? Hn]).
    simpl in Hk. destruct_or? Hk; try done; injection Hk as <- <-; by apply negb_false_iff.
  - rewrite assess_unsized in Hn by done. by apply Forall_cons in Hn as [? _].
Qed.

Lemma verdict_veto orch f d deps g p :
  let r := assess d deps g p in
  (verdict orch f r).1 = BLOCKED ->
  exists k g', (verdict orch f r).2 = Some (k, detail g') /\ dget k (gates r) = Some g' /\
    ok g' = false /\ List.find (gate_fails r) _GATE_KEYS = Some k.
Proof.
  intros r Hb. pose proof Hb as Hb'. apply verdict_blocked in Hb' as [Ha Hp].
  destruct (assess_failed_gate _ _ _ _ Hp) as [k Hk]. fold r in Hk.
  pose proof (List.find_some _ _ Hk) as [_ Hf]. unfold gate_fails in Hf.
  destruct (dget k (gates r)) as [g'|] eqn:Eg; [|done]. apply negb_true_iff in Hf.
  exists k, g'. refine (conj _ (conj Eg (conj Hf Hk))).
  unfold verdict. fold r in Hp. rewrite Ha, Hp. simpl.
  unfold _GATE_KEYS in Hk. simpl in Hk. rewrite !first_failing_step.
  repeat (destruct (gate_fails r _); [injection Hk as <-; by rewrite Eg|]). done.
Qed.

(** C9: the decision function promotes a bar to PAPER exactly when the (context
    adjusted) fusion has votes and a direction, coverage and agreement reach their
    minima, and every risk gate passes with risk enabled.  BLOCKED means the same with
    a failing risk gate, and its veto names the first failing gate of the gate
    order; every other persisted decision is ANALYSIS, and without votes, coverage
    or direction nothing is persisted. *)
Theorem decision_promotion (inputs : DecisionInputs) (orch : OrchParams) (risk : RiskParams)
    (f : FusedResult) :
  fuse (in_signals inputs) (in_regime inputs) (fusion_params orch) = Ok f ->
  let f' := apply_context f (in_parent_context inputs) in
  let r := assess (fused_direction f') {| dep_atr := in_atr inputs; dep_price := in_price inputs |}
                  (in_gate inputs) risk in
  let ready := has_votes f = true /\ flt (in_coverage inputs) (coverage_min orch) = false /\
               fused_direction f' <> FLAT in
  let agreed := fle (agreement_min orch) (agreement f) = true in
  exists out, compute_decision inputs orch risk = Ok out /\ out_fused out = f' /\
    (status out = Some PAPER <->
       ready /\ agreed /\ passed r = true /\ risk_enabled risk = true) /\
    (status out = Some BLOCKED <-> ready /\ agreed /\ passed r = false) /\
    (status out = Some BLOCKED -> exists k g, veto out = Some (k, detail g) /\
       dget k (gates r) = Some g /\ ok g = false /\ List.find (gate_fails r) _GATE_KEYS = Some k) /\
    (action out = PERSIST <-> ready) /\
    (action out = SKIP <-> status out = None).
Proof.
  intros Hf f' r ready agreed.
  destruct (compute_decision_ok inputs orch risk f Hf) as (out & Hout & Hfo).
  destruct (compute_decision_persist inputs orch risk f Hf) as (out' & Hout' & Hp).
  fold f' r in Hp. assert (out' = out) as -> by congruence. clear Hout'.
  exists out. split; [done|]. split; [done|].
  destruct (apply_context_keeps f (in_parent_context inputs)) as [_ Hag]. fold f' in Hag.
  assert (Hr : decidable_now inputs orch f = true <-> ready).
  { unfold decidable_now, ready. rewrite !andb_true_iff, negb_true_iff, bool_decide_eq_true.
    by fold f'; tauto. }
  assert (Hpap : fused_direction f' <> FLAT -> paper r = true <->
            passed r = true /\ risk_enabled risk = true).
  { intros Hd. unfold r. rewrite assess_paper. tauto. }
  destruct (decidable_now inputs orch f).
  - destruct Hp as (Ha & _ & _ & Hs). injection Hs as Hs Hv. rewrite Hs, Hv, Ha.
    assert (Hre : ready) by (by apply Hr). assert (Hd : fused_direction f' <> FLAT) by apply Hre.
    pose proof (verdict_paper orch f' r) as Hvp. pose proof (verdict_blocked orch f' r) as Hvb.
    rewrite Hag in Hvp, Hvb. fold agreed in Hvp, Hvb. specialize (Hpap Hd).
    assert (He : forall x, Some (verdict orch f' r).1 = Some x <-> (verdict orch f' r).1 = x)
      by (intros; split; congruence).
    rewrite !He, Hvp, Hvb. refine (conj _ (conj _ (conj _ (conj _ _)))); try tauto.
    + intros Hb. by apply verdict_veto, Hvb.
    + done.
  - destruct Hp as (Ha & Hs & _ & _). rewrite Hs, Ha.
    assert (Hn : ~ ready) by (intros H; by apply Hr in H). clearbody ready agreed.
    refine (conj _ (conj _ (conj _ (conj _ _)))); try done;
      (split; [discriminate|intros H; exfalso; tauto]).
Qed.

(** The cross-timeframe context can veto but never promote: when fusion itself is
    FLAT, no parent context, risk state or override makes the decision PAPER (or
    BLOCKED): the agreement stays 0, below any positive minimum. *)
Theorem context_never_promotes (inputs : DecisionInputs) (orch : OrchParams) (risk : RiskParams)
    (f : FusedResult) :
  sane_confidences (in_signals inputs) ->
  fuse (in_signals inputs) (in_regime inputs) (fusion_params orch) = Ok f ->
  fused_direction f = FLAT -> flt f0 (agreement_min orch) = true ->
  exists out, compute_decision inputs orch risk = Ok out /\
    (status out = None \/ status out = Some ANALYSIS).
Proof.
  intros Hs Hf Hd Hm.
  destruct (compute_decision_persist inputs orch risk f Hf) as (out & Hout & Hp).
  cbv zeta in Hp. exists out. split; [done|].
  destruct (decidable_now inputs orch f); [|by left; apply Hp]. right.
  destruct Hp as (_ & _ & _ & Hst). injection Hst as -> _.
  destruct (apply_context_keeps f (in_parent_context inputs)) as [_ Hag].
  unfold verdict. rewrite Hag, (flat_agreement _ _ _ _ Hs Hf Hd).
  replace (fle _ f0) with false; [done|]. symmetry. unfold f0 in *. forder.
Qed.

(** ** The input hash *)

#[export] Instance key_leb_total {V} : TotalLeb (@key_leb V).
Proof.
  split; unfold key_leb.
  - intros. apply String.leb_total.
  - intros a b c. apply (@leb_trans _ String.leb _).
Qed.

Lemma keyed_unique {V} (d : dict string V) a b :
  NoDup d.*1 -> a ∈ d -> b ∈ d -> a.1 = b.1 -> a = b.
Proof.
  induction d as [|[k v] d IH]; simpl; [by intros _ ?%elem_of_nil|].
  rewrite NoDup_cons, !elem_of_cons. intros [Hk Hn] [->|Ha] [->|Hb] E; simpl in *; subst; try done.
  - exfalso. apply Hk. apply list_elem_of_fmap. eauto.
  - exfalso. apply Hk. apply list_elem_of_fmap. eauto.
  - by apply IH.
Qed.

Lemma prod_map_keys {V W} (g : V -> W) (d : dict string V) : (prod_map id g <$> d).*1 = d.*1.
Proof. rewrite <- list_fmap_compose. apply list_fmap_ext. by intros ? []. Qed.

Lemma sorted_dict_eq {V} (d e : dict string V) :
  NoDup d.*1 -> sort_by key_leb d = sort_by key_leb e <-> d ≡ₚ e.
Proof.
  intros Hn. split; intros H.
  - by rewrite <- (sort_by_perm key_leb d), H, sort_by_perm.
  - apply sort_by_unique; [apply _| |done].
    intros a b Ha Hb H1 H2. apply (keyed_unique d); try done.
    by apply String.leb_antisym.
Qed.

Lemma VStr_values_perm (d e : dict string string) :
  (prod_map id VStr <$> d) ≡ₚ (prod_map id VStr <$> e) <-> d ≡ₚ e.
Proof.
  split; [|by intros ->].
  intros (l & Hl & Hp)%Permutation_map_inv.
  assert (d = l) as ->; [|by symmetry]. clear -Hl. revert l Hl.
  induction d as [|[k v] d IH]; intros [|[k' v'] l]; simpl; try done.
  intros H. injection H as -> -> H. f_equal. by apply IH.
Qed.

(** The audit hash identifies exactly what fusion consumed.  It does not depend on
    the order in which agents or weights were collected nor on the case of symbol and
    timeframe, and two payloads coincide only for the same symbol, timeframe and
    bucket, the same agent versions and the same weights up to six decimals. *)
Theorem inputs_hash_identity (sha256_json : pyval -> string) (s1 s2 t1 t2 b1 b2 : string)
    (v1 v2 : dict string string) (w1 w2 : dict string float) :
  NoDup v1.*1 -> NoDup w1.*1 ->
  let same := str_upper s1 = str_upper s2 /\ str_upper t1 = str_upper t2 /\ b1 = b2 /\
    v1 ≡ₚ v2 /\
    (prod_map id (fun v => VFloat (fround v 6)) <$> w1)
      ≡ₚ (prod_map id (fun v => VFloat (fround v 6)) <$> w2) in
  (hash_payload s1 t1 b1 v1 w1 = hash_payload s2 t2 b2 v2 w2 <-> same) /\
  (same -> inputs_hash sha256_json s1 t1 b1 v1 w1 = inputs_hash sha256_json s2 t2 b2 v2 w2).
Proof.
  intros Hv Hw same.
  assert (H : hash_payload s1 t1 b1 v1 w1 = hash_payload s2 t2 b2 v2 w2 <-> same).
  { unfold hash_payload, same. rewrite <- VStr_values_perm.
    rewrite <- (sorted_dict_eq (prod_map id VStr <$> v1)) by by rewrite prod_map_keys.
    rewrite <- (sorted_dict_eq (prod_map id (fun v => VFloat (fround v 6)) <$> w1))
      by by rewrite prod_map_keys.
    split; [intros H; injection H; auto 10|intros (-> & -> & -> & -> & ->); done]. }
  split; [exact H|]. intros Hs. unfold inputs_hash. f_equal. by apply H.
Qed.

Definition sample_inputs : DecisionInputs :=
  {| in_symbol := "EURUSD"; in_timeframe := "H1"; in_bucket_ts := 0; in_now := 0;
     in_signals := sample_signals; in_regime := "trending"; in_atr := Some (lit 5 3);
     in_price := Some (lit 11 1); in_coverage := lit 75 2; in_gate := empty_gate_state;
     in_parent_context := None |}.
Definition sample_orch : OrchParams :=
  {| coverage_min := lit 5 1; agreement_min := lit 5 1; op_threshold := lit 15 2;
     op_hysteresis := lit 4 2; op_context_weight := lit 15 2; cooldown_seconds := 1800;
     op_weights := [] |}.

(** The fused result of given inputs (the empty one where fusion raises). *)
Definition fused_of (i : DecisionInputs) : FusedResult :=
  match fuse (in_signals i) (in_regime i) (fusion_params sample_orch) with
  | Ok f => f
  | Err _ => empty_fusion (fusion_params sample_orch)
  end.

Lemma decision_promotion_witness :
  exists out, compute_decision sample_inputs sample_orch sample_params = Ok out /\
    status out = Some PAPER.
Proof.
  destruct (decision_promotion sample_inputs sample_orch sample_params (fused_of sample_inputs))
    as (out & Hout & _ & [_ Hp] & _); [vm_compute; reflexivity|].
  exists out. split; [exact Hout|]. apply Hp.
  repeat split; vm_compute; discriminate || reflexivity.
Defined.

(** Opposite votes of equal weighted confidence: fusion is FLAT, the context LONG. *)
Definition split_inputs : DecisionInputs :=
  {| in_symbol := "EURUSD"; in_timeframe := "H1"; in_bucket_ts := 0; in_now := 0;
     in_signals := [("fundamental", sample_signal "fundamental" LONG (lit 5 1));
                    ("sentiment", sample_signal "sentiment" SHORT (lit 5 1))]%string;
     in_regime := "range"; in_atr := Some (lit 5 3); in_price := Some (lit 11 1);
     in_coverage := lit 5 1; in_gate := empty_gate_state;
     in_parent_context := Some {| ctxin_direction := LONG; ctxin_confidence := f1;
                                  ctxin_weight := lit 2 1 |} |}.

Lemma context_never_promotes_witness :
  exists out, compute_decision split_inputs sample_orch sample_params = Ok out /\
    fused_direction (out_fused out) = LONG /\ status out = Some ANALYSIS.
Proof.
  destruct (context_never_promotes split_inputs sample_orch sample_params
    (fused_of split_inputs))
    as (out & Hout & _).
  - intros a s H%dget_Some_in. simpl in H. rewrite !elem_of_cons, elem_of_nil in H.
    destruct_or?; simplify_eq; split; vm_compute; reflexivity.
  - vm_compute; reflexivity.
  - vm_compute; reflexivity.
  - vm_compute; reflexivity.
  - exists out. split; [exact Hout|]. vm_compute in Hout. injection Hout as <-. split; reflexivity.
Defined.

Lemma inputs_hash_identity_witness :
  inputs_hash (fun _ => ""%string) "eurusd" "h1" "b" [("a", "1"); ("b", "2")]%string []
  = inputs_hash (fun _ => ""%string) "EURUSD" "H1" "b" [("b", "2"); ("a", "1")]%string [].
Proof.
  apply (inputs_hash_identity (fun _ => ""%string)).
  - apply (bool_decide_unpack _); vm_compute; exact I.
  - constructor.
  - split_and!; try reflexivity. apply Permutation_swap.
Defined.
