(* ===== verification/Tables.v ===== *)
(** * The database: rows of the tables, and the platform the program runs on
    ([app/models])

    A table is the list of its rows in insertion order.  Row objects of the ORM are
    shared by everything that loaded them in a session, so a row is referred to by its
    id and mutated in its table.  A flush stores what the columns keep of the written
    values; no operation reads back a row object that it wrote and still holds, so
    the stored value is the one every later read sees. *)

From Stdlib Require Import ZArith Lia.
From stdpp Require Import base list strings pretty.
From S2P Require Import Prelude PyFloat Timeframes Signals Risk Decision.

(** What the program relies on and does not define: [uuid.uuid4] (the n-th call of a
    history), a 64-bit BLAKE2b digest read as a big-endian integer, and the value
    PostgreSQL keeps of a [Decimal] or a [float] written to a [Numeric(p, s)] column
    that can hold it.  A value beyond the precision of its column, like any statement the
    server refuses, raises and ends its transaction without a trace: the operations here
    are those of transactions that were not refused, and the refused ones are steps of
    their own where transactions are put together ([World.transacts]);
    and of the standard library the SHA-256 of a JSON text, [float] of a string and
    the [repr] of a container or float. *)
Class Platform := {
  uuid4 : nat -> Z;
  blake2b_64 : string -> Z;
  numeric : nat -> nat -> Decimal -> Decimal;
  fnumeric : nat -> nat -> float -> Decimal;
  sha256_json : pyval -> string;
  parse_float : string -> option float;
  py_repr : pyval -> string
}.

(** Documented behaviour of the platform: distinct uuids, a digest of eight bytes,
    columns that keep what they kept. *)
Class PlatformOk `{Platform} : Prop := {
  uuid4_inj : forall m n, uuid4 m = uuid4 n -> m = n;
  blake2b_range : forall s, 0 <= blake2b_64 s < 2 ^ 64;
  numeric_idem : forall p s d, numeric p s (numeric p s d) = numeric p s d
}.

(** [str(value)]. *)
Definition py_str `{Platform} (v : pyval) : string :=
  match v with
  | VStr s => s
  | VNone => "None"
  | VBool true => "True"
  | VBool false => "False"
  | VInt n => pretty n
  | _ => py_repr v
  end.

(** ** Rows *)

Record Instrument := {
  ins_id : Z;
  ins_symbol : string;
  ins_base : string;
  ins_quote : string;
  pip_size : Decimal;
  price_decimals : Z;
  active : bool
}.

Record CandleRow := {
  cd_instrument : Z;
  cd_timeframe : string;
  cd_ts : Z;
  cd_open : Decimal;
  cd_high : Decimal;
  cd_low : Decimal;
  cd_close : Decimal;
  cd_volume : Z;
  cd_source : string;
  cd_complete : bool;
  cd_tf_minutes : Z
}.

Record AgentSignalRow := {
  sr_id : Z;
  sr_run_id : string;
  sr_agent_id : string;
  sr_agent_version : string;
  sr_symbol : string;
  sr_timeframe : string;
  sr_direction : Direction;
  sr_confidence : Decimal;
  sr_bucket_ts : Z;
  sr_rationale : option string;
  sr_features : features;
  sr_created_at : Z;
  sr_valid_until : option Z
}.

Record DecisionRow := {
  dr_id : Z;
  dr_run_id : string;
  dr_symbol : string;
  dr_timeframe : string;
  dr_bucket_ts : Z;
  dr_fused_direction : Direction;
  dr_confidence : Decimal;
  dr_agreement : Decimal;
  dr_status : DecisionStatus;
  dr_veto : option (string * Detail);
  dr_inputs_hash : string;
  dr_weights : dict string float;
  dr_code_versions : dict string string;
  dr_decision_at : Z;
  dr_valid_until : option Z
}.

Record RiskEvaluationRow := {
  re_id : Z;
  re_decision_id : option Z;
  re_symbol : string;
  re_timeframe : string;
  re_bucket_ts : Z;
  re_units : option Decimal;
  re_price : option Decimal;
  re_atr : option Decimal;
  re_stop_loss : option Decimal;
  re_take_profit : option Decimal;
  re_rr_ratio : option Decimal;
  re_risk_pct : option Decimal;
  re_exposure_ok : bool;
  re_correlation_ok : bool;
  re_daily_loss_ok : bool;
  re_drawdown_ok : bool;
  re_passed : bool;
  re_reasons : list GateReason;
  re_evaluated_at : Z
}.

Record RiskStateRow := {
  rs_scope : string;
  rs_period_key : string;
  rs_realized_loss : Decimal;
  rs_peak_equity : Decimal;
  rs_max_drawdown : Decimal;
  rs_exposure : Decimal
}.

Inductive PaperOrderStatus := PENDING | FILLED | CANCELLED | REJECTED.
#[export] Instance PaperOrderStatus_eq_dec : EqDecision PaperOrderStatus.
Proof. solve_decision. Defined.

Record PaperOrderRow := {
  o_id : Z;
  o_decision_id : option Z;
  o_symbol : string;
  o_timeframe : string;
  o_side : Direction;
  o_status : PaperOrderStatus;
  o_units : Decimal;
  o_requested_price : option Decimal;
  o_filled_price : option Decimal;
  o_costs : Decimal;
  o_stop_loss : option Decimal;
  o_take_profit : option Decimal;
  o_seed : Z;
  o_filled_at : option Z;
  o_created_at : Z
}.

Inductive PaperPositionStatus := OPEN | CLOSED.
#[export] Instance PaperPositionStatus_eq_dec : EqDecision PaperPositionStatus.
Proof. solve_decision. Defined.

Record PaperPositionRow := {
  p_id : Z;
  p_order_id : Z;
  p_symbol : string;
  p_timeframe : string;
  p_side : Direction;
  p_units : Decimal;
  p_entry_price : Decimal;
  p_entry_ts : Z;
  p_stop_loss : option Decimal;
  p_take_profit : option Decimal;
  p_costs : Decimal;
  p_status : PaperPositionStatus;
  p_exit_price : option Decimal;
  p_exit_ts : option Z;
  p_exit_reason : option string;
  p_gross_pnl : option Decimal;
  p_net_pnl : option Decimal;
  p_updated_at : Z
}.

Record AccountSnapshotRow := {
  sn_ts : Z;
  sn_cash : Decimal;
  sn_equity : Decimal;
  sn_open_pnl : Decimal;
  sn_realized_pnl : Decimal;
  sn_peak_equity : Decimal;
  sn_drawdown_pct : Decimal;
  sn_margin_used : Decimal
}.

(** ** The database of one session *)

Record DB := {
  instruments : list Instrument;
  candles : list CandleRow;
  agent_signals : list AgentSignalRow;
  decisions : list DecisionRow;
  risk_evaluations : list RiskEvaluationRow;
  risk_state : list RiskStateRow;
  orders_paper : list PaperOrderRow;
  positions : list PaperPositionRow;
  account_snapshots : list AccountSnapshotRow;
  system_settings : dict string pyval;
  db_now : Z;      (* [now()] of the current transaction *)
  uuids : nat      (* uuids drawn so far *)
}.

Definition set_instruments v (db : DB) : DB :=
  {| instruments := v; candles := candles db; agent_signals := agent_signals db; decisions :=
     decisions db; risk_evaluations := risk_evaluations db; risk_state := risk_state db;
     orders_paper := orders_paper db; positions := positions db; account_snapshots :=
     account_snapshots db; system_settings := system_settings db; db_now := db_now db; uuids :=
     uuids db |}.
Definition set_candles v (db : DB) : DB :=
  {| instruments := instruments db; candles := v; agent_signals := agent_signals db; decisions
     := decisions db; risk_evaluations := risk_evaluations db; risk_state := risk_state db;
     orders_paper := orders_paper db; positions := positions db; account_snapshots :=
     account_snapshots db; system_settings := system_settings db; db_now := db_now db; uuids :=
     uuids db |}.
Definition set_agent_signals v (db : DB) : DB :=
  {| instruments := instruments db; candles := candles db; agent_signals := v; decisions :=
     decisions db; risk_evaluations := risk_evaluations db; risk_state := risk_state db;
     orders_paper := orders_paper db; positions := positions db; account_snapshots :=
     account_snapshots db; system_settings := system_settings db; db_now := db_now db; uuids :=
     uuids db |}.
Definition set_decisions v (db : DB) : DB :=
  {| instruments := instruments db; candles := candles db; agent_signals := agent_signals db;
     decisions := v; risk_evaluations := risk_evaluations db; risk_state := risk_state db;
     orders_paper := orders_paper db; positions := positions db; account_snapshots :=
     account_snapshots db; system_settings := system_settings db; db_now := db_now db; uuids :=
     uuids db |}.
Definition set_risk_evaluations v (db : DB) : DB :=
  {| instruments := instruments db; candles := candles db; agent_signals := agent_signals db;
     decisions := decisions db; risk_evaluations := v; risk_state := risk_state db; orders_paper
     := orders_paper db; positions := positions db; account_snapshots := account_snapshots db;
     system_settings := system_settings db; db_now := db_now db; uuids := uuids db |}.
Definition set_risk_state v (db : DB) : DB :=
  {| instruments := instruments db; candles := candles db; agent_signals := agent_signals db;
     decisions := decisions db; risk_evaluations := risk_evaluations db; risk_state := v;
     orders_paper := orders_paper db; positions := positions db; account_snapshots :=
     account_snapshots db; system_settings := system_settings db; db_now := db_now db; uuids :=
     uuids db |}.
Definition set_orders_paper v (db : DB) : DB :=
  {| instruments := instruments db; candles := candles db; agent_signals := agent_signals db;
     decisions := decisions db; risk_evaluations := risk_evaluations db; risk_state :=
     risk_state db; orders_paper := v; positions := positions db; account_snapshots :=
     account_snapshots db; system_settings := system_settings db; db_now := db_now db; uuids :=
     uuids db |}.
Definition set_positions v (db : DB) : DB :=
  {| instruments := instruments db; candles := candles db; agent_signals := agent_signals db;
     decisions := decisions db; risk_evaluations := risk_evaluations db; risk_state :=
     risk_state db; orders_paper := orders_paper db; positions := v; account_snapshots :=
     account_snapshots db; system_settings := system_settings db; db_now := db_now db; uuids :=
     uuids db |}.
Definition set_account_snapshots v (db : DB) : DB :=
  {| instruments := instruments db; candles := candles db; agent_signals := agent_signals db;
     decisions := decisions db; risk_evaluations := risk_evaluations db; risk_state :=
     risk_state db; orders_paper := orders_paper db; positions := positions db;
     account_snapshots := v; system_settings := system_settings db; db_now := db_now db; uuids
     := uuids db |}.
Definition set_system_settings v (db : DB) : DB :=
  {| instruments := instruments db; candles := candles db; agent_signals := agent_signals db;
     decisions := decisions db; risk_evaluations := risk_evaluations db; risk_state :=
     risk_state db; orders_paper := orders_paper db; positions := positions db;
     account_snapshots := account_snapshots db; system_settings := v; db_now := db_now db; uuids
     := uuids db |}.
Definition set_db_now v (db : DB) : DB :=
  {| instruments := instruments db; candles := candles db; agent_signals := agent_signals db;
     decisions := decisions db; risk_evaluations := risk_evaluations db; risk_state :=
     risk_state db; orders_paper := orders_paper db; positions := positions db;
     account_snapshots := account_snapshots db; system_settings := system_settings db; db_now :=
     v; uuids := uuids db |}.
Definition set_uuids v (db : DB) : DB :=
  {| instruments := instruments db; candles := candles db; agent_signals := agent_signals db;
     decisions := decisions db; risk_evaluations := risk_evaluations db; risk_state :=
     risk_state db; orders_paper := orders_paper db; positions := positions db;
     account_snapshots := account_snapshots db; system_settings := system_settings db; db_now :=
     db_now db; uuids := v |}.

Definition empty_db : DB :=
  {| instruments := []; candles := []; agent_signals := []; decisions := [];
     risk_evaluations := []; risk_state := []; orders_paper := []; positions := [];
     account_snapshots := []; system_settings := []; db_now := 0; uuids := O |}.

(** [uuid.uuid4()]. *)
Definition new_uuid `{Platform} (db : DB) : Z * DB := (uuid4 (uuids db), set_uuids (S (uuids db)) db).

(** [ORDER BY key DESC]; rows of equal keys stay in table order, an order the
    database does not promise. *)
Definition desc_leb {A} (key : A -> Z) (a b : A) : bool := key b <=? key a.
Definition asc_leb {A} (key : A -> Z) (a b : A) : bool := key a <=? key b.

#[export] Instance desc_leb_total {A} (key : A -> Z) : TotalLeb (desc_leb key).
Proof. split; unfold desc_leb; intros; rewrite ?Z.leb_le in *; lia. Qed.
#[export] Instance asc_leb_total {A} (key : A -> Z) : TotalLeb (asc_leb key).
Proof. split; unfold asc_leb; intros; rewrite ?Z.leb_le in *; lia. Qed.

(** [ORDER BY key DESC LIMIT 1]. *)
Definition latest_by {A} (key : A -> Z) (l : list A) : option A := head (sort_by (desc_leb key) l).

Lemma latest_by_spec {A} (key : A -> Z) l x :
  latest_by key l = Some x -> x ∈ l /\ forall y, y ∈ l -> key y <= key x.
Proof.
  unfold latest_by. pose proof (sort_by_sorted (desc_leb key) l) as Hs.
  destruct (sort_by (desc_leb key) l) as [|y ys] eqn:E; [done|]. intros [= ->].
  assert (Hin : forall z, z ∈ l <-> z = x \/ z ∈ ys)
    by (intros z; by rewrite <- (elem_of_sort_by (desc_leb key)), E, elem_of_cons).
  split; [apply Hin; by left|]. intros z [->|Hz]%Hin; [done|].
  inversion Hs as [|? ? _ Hf]. rewrite Forall_forall in Hf.
  apply Hf in Hz. unfold desc_leb in Hz. by apply Z.leb_le.
Qed.

Lemma latest_by_None {A} (key : A -> Z) l : latest_by key l = None <-> l = [].
Proof.
  unfold latest_by. split; [|by intros ->].
  intros H. apply Permutation_nil. rewrite <- (sort_by_perm (desc_leb key) l).
  by destruct (sort_by _ l).
Qed.

(** ** A concrete platform, for evaluating the model on inputs *)

(** Rounding a decimal to [s] decimals, half away from zero. *)
Definition round_scale (s : nat) (d : Decimal) : Decimal :=
  let e' := - Z.of_nat s in
  match d with
  | Dec c e =>
      if e' <=? e then Dec (c * 10 ^ (e - e')) e'
      else let m := 10 ^ (e' - e) in Dec (Z.sgn c * ((Z.abs c + m / 2) / m)) e'
  | DSpecial x => DSpecial x
  end.

Fixpoint toy_digest (s : string) (acc : Z) : Z :=
  match s with
  | EmptyString => acc
  | String c s' => toy_digest s' ((acc * 6364136223846793005 + Z.of_nat (Ascii.nat_of_ascii c)
                                   + 1442695040888963407) mod 2 ^ 64)
  end.

Definition demo_platform : Platform :=
  {| uuid4 := Z.of_nat; blake2b_64 s := toy_digest s 0 mod 2 ^ 64;
     numeric _ s d := round_scale s d; fnumeric _ s x := round_scale s (dec_of_float x);
     sha256_json _ := EmptyString; parse_float _ := None; py_repr _ := EmptyString |}.

Lemma demo_platform_ok : @PlatformOk demo_platform.
Proof.
  split; simpl.
  - lia.
  - intros s. apply Z.mod_pos_bound. lia.
  - intros _ s [c e|x]; [|done]. unfold round_scale.
    destruct (- Z.of_nat s <=? e); cbv zeta; rewrite Z.leb_refl, Z.sub_diag; f_equal; lia.
Qed.
