(* ===== verification/Candles.v ===== *)
(** * Market-data persistence ([app/data/repository.py], [app/models/instrument.py],
    [Candle] of [app/data/providers/base.py]) *)

From Stdlib Require Import ZArith Lia Sorted.
From stdpp Require Import base list strings sorting.
From S2P Require Import Prelude PyFloat Timeframes Signals Fusion Risk Decision Tables.

Record Candle := {
  c_symbol : string;
  c_timeframe : string;
  bucket_start : datetime;
  c_open : Decimal;
  c_high : Decimal;
  c_low : Decimal;
  c_close : Decimal;
  c_volume : Z;
  complete : bool
}.

(** ** Instruments *)

(** [s.endswith("JPY")]. *)
Definition ends_jpy (s : string) : bool :=
  String.eqb (str_drop (String.length s - 3) s) "JPY".

Definition pip_size_for (symbol : string) : Decimal :=
  if ends_jpy symbol then Dec 1 (-2) else Dec 1 (-4).
Definition price_decimals_for (symbol : string) : Z := if ends_jpy symbol then 3 else 5.

(** [x if x is not None] of a unique-key lookup. *)
Definition find_instrument (sym : string) (db : DB) : option Instrument :=
  List.find (fun i => String.eqb (ins_symbol i) sym) (instruments db).

Section Repository.
Context `{Platform}.

Definition get_or_create_instrument (symbol : string) (db : DB) : Instrument * DB :=
  let normalized := str_upper (py_strip symbol) in
  match find_instrument normalized db with
  | Some i => (i, db)
  | None =>
      let '(id, db) := new_uuid db in
      let i := {| ins_id := id; ins_symbol := normalized; ins_base := str_take 3 normalized;
                  ins_quote := str_take 3 (str_drop 3 normalized);
                  pip_size := pip_size_for normalized;
                  price_decimals := price_decimals_for normalized; active := true |} in
      (i, set_instruments (instruments db ++ [i]) db)
  end.

Definition ensure_instruments (symbols : list string) (db : DB) : dict string Instrument * DB :=
  foldl (fun '(d, db) s => let '(i, db) := get_or_create_instrument s db in (dset s i d, db))
        ([], db) symbols.

Definition list_active_instruments (db : DB) : list Instrument :=
  List.filter active (instruments db).

(** ** Candles *)

Definition in_series (instrument_id : Z) (timeframe : string) (r : CandleRow) : bool :=
  (cd_instrument r =? instrument_id) && String.eqb (cd_timeframe r) timeframe.

Definition series (instrument_id : Z) (timeframe : string) (rows : list CandleRow)
  : list CandleRow := List.filter (in_series instrument_id timeframe) rows.

Definition count_candles (instrument_id : Z) (timeframe : string) (rows : list CandleRow) : Z :=
  Z.of_nat (length (series instrument_id timeframe rows)).

(** The table's unique key and the row written for one bucket. *)
Definition at_key (instrument_id : Z) (timeframe : string) (ts : Z) (r : CandleRow) : bool :=
  in_series instrument_id timeframe r && (cd_ts r =? ts).

Definition candle_row (instrument_id : Z) (timeframe source : string) (tf_minutes ts : Z)
    (c : Candle) : CandleRow :=
  {| cd_instrument := instrument_id; cd_timeframe := timeframe; cd_ts := ts;
     cd_open := numeric 18 8 (c_open c); cd_high := numeric 18 8 (c_high c);
     cd_low := numeric 18 8 (c_low c); cd_close := numeric 18 8 (c_close c);
     cd_volume := c_volume c; cd_source := source; cd_complete := complete c;
     cd_tf_minutes := tf_minutes |}.

Definition refreshed (old new : CandleRow) : CandleRow :=
  {| cd_instrument := cd_instrument old; cd_timeframe := cd_timeframe old; cd_ts := cd_ts old;
     cd_open := cd_open new; cd_high := cd_high new; cd_low := cd_low new;
     cd_close := cd_close new; cd_volume := cd_volume new; cd_source := cd_source new;
     cd_complete := cd_complete old || cd_complete new; cd_tf_minutes := cd_tf_minutes old |}.

(** [INSERT ... ON CONFLICT (instrument_id, timeframe, ts) DO UPDATE]. *)
Fixpoint upsert_row (new : CandleRow) (rows : list CandleRow) : list CandleRow :=
  match rows with
  | [] => [new]
  | r :: rows' =>
      if at_key (cd_instrument new) (cd_timeframe new) (cd_ts new) r
      then refreshed r new :: rows'
      else r :: upsert_row new rows'
  end.

(** [unique_candles.setdefault(bucket, candle)] for each candle. *)
Definition unique_step (timeframe : string) (d : dict Z Candle) (c : Candle) : Res (dict Z Candle) :=
  b <-- align_to_bucket (bucket_start c) timeframe ;;
  Ok (match dget (instant b) d with Some _ => d | None => dset (instant b) c d end).

Definition upsert_candles (instrument_id : Z) (cs : list Candle) (source timeframe : string)
    (db : DB) : Res ((Z * Z) * DB) :=
  match cs with
  | [] => Ok ((0, 0), db)
  | _ =>
      s <-- seconds timeframe ;;
      let tf_minutes := s / 60 in
      unique <-- fold_res (unique_step timeframe) cs [] ;;
      let before := count_candles instrument_id timeframe (candles db) in
      let rows := foldl (fun rows '(bucket, c) =>
                           upsert_row (candle_row instrument_id timeframe source tf_minutes bucket c)
                                      rows) (candles db) unique in
      let after := count_candles instrument_id timeframe rows in
      let inserted := Z.max 0 (after - before) in
      let updated := Z.of_nat (length unique) - inserted in
      Ok ((inserted, Z.max 0 updated), set_candles rows db)
  end.

Definition last_closed_ts (instrument_id : Z) (timeframe : string) (db : DB) : option Z :=
  cd_ts <$> latest_by cd_ts (series instrument_id timeframe (candles db)).

Definition first_closed_ts (instrument_id : Z) (timeframe : string) (db : DB) : option Z :=
  cd_ts <$> head (sort_by (asc_leb cd_ts) (series instrument_id timeframe (candles db))).

(** [if start is not None] and [if end is not None] conditions of a window. *)
Definition in_window (start stop : option Z) (t : Z) : bool :=
  match start with Some s => s <=? t | None => true end
  && match stop with Some e => t <? e | None => true end.

Definition load_candles (instrument_id : Z) (timeframe : string) (start stop : option Z)
    (limit : nat) (db : DB) : list CandleRow :=
  firstn limit
    (sort_by (asc_leb cd_ts)
       (List.filter (fun r => in_window start stop (cd_ts r))
                    (series instrument_id timeframe (candles db)))).
End Repository.

(** ** Lemmas *)

Definition key_of (r : CandleRow) : Z * string * Z := (cd_instrument r, cd_timeframe r, cd_ts r).
Definition row_at (k : Z * string * Z) (rows : list CandleRow) : option CandleRow :=
  List.find (fun r => bool_decide (key_of r = k)) rows.

Lemma at_key_spec i tf t r : at_key i tf t r = bool_decide (key_of r = (i, tf, t)).
Proof.
  apply eq_bool_prop_intro. rewrite bool_decide_spec. unfold at_key, in_series, key_of.
  rewrite !andb_True, !Is_true_true, !Z.eqb_eq, String.eqb_eq. naive_solver.
Qed.

Lemma refreshed_key r n : key_of (refreshed r n) = key_of r.
Proof. done. Qed.

Lemma refreshed_twice r n : refreshed (refreshed r n) n = refreshed r n.
Proof. unfold refreshed. simpl. f_equal. by destruct (cd_complete r), (cd_complete n). Qed.

Lemma row_at_upsert k n rows :
  row_at k (upsert_row n rows) =
    if decide (k = key_of n)
    then Some (match row_at k rows with Some r => refreshed r n | None => n end)
    else row_at k rows.
Proof.
  unfold row_at. induction rows as [|r rows IH]; simpl.
  - case_bool_decide; destruct (decide _); congruence.
  - rewrite at_key_spec. change (cd_instrument n, cd_timeframe n, cd_ts n) with (key_of n).
    case_bool_decide as Hn; simpl.
    + rewrite refreshed_key. case_bool_decide; destruct (decide _); congruence.
    + rewrite IH. case_bool_decide; destruct (decide _); congruence.
Qed.

(** A row that an upsert would not change any more. *)
Definition absorbed (n : CandleRow) (rows : list CandleRow) : Prop :=
  exists r, row_at (key_of n) rows = Some r /\ refreshed r n = r.

Lemma absorbed_noop n rows : absorbed n rows -> upsert_row n rows = rows.
Proof.
  intros (r & Hr & Hn). revert Hr. unfold row_at. induction rows as [|x rows IH]; simpl; [done|].
  rewrite at_key_spec. change (cd_instrument n, cd_timeframe n, cd_ts n) with (key_of n).
  case_bool_decide; [intros [= ->]; by rewrite Hn|]. intros Hr. by rewrite IH.
Qed.

Lemma absorbed_after n rows : absorbed n (upsert_row n rows).
Proof.
  unfold absorbed. rewrite row_at_upsert, decide_True by done. eexists. split; [done|].
  destruct (row_at (key_of n) rows) as [r|]; [apply refreshed_twice|].
  unfold refreshed. destruct n as [? ? ? ? ? ? ? ? ? [] ?]; done.
Qed.

Lemma absorbed_other n m rows :
  key_of n <> key_of m -> absorbed n rows -> absorbed n (upsert_row m rows).
Proof. intros Hne (r & Hr & Hn). exists r. by rewrite row_at_upsert, decide_False. Qed.

Definition upsert_all (l : list CandleRow) (rows : list CandleRow) : list CandleRow :=
  foldl (fun rows n => upsert_row n rows) rows l.

Lemma upsert_all_absorbed l rows n :
  NoDup (map key_of l) -> n ∈ l \/ (absorbed n rows /\ key_of n ∉ map key_of l) ->
  absorbed n (upsert_all l rows).
Proof.
  revert rows. induction l as [|m l IH]; intros rows; simpl.
  - intros _ [?%elem_of_nil|[? _]]; done.
  - rewrite NoDup_cons, elem_of_cons. intros [Hm Hn] [[->|Hin]|[Ha Hk]].
    + apply IH; [done|]. right. split; [apply absorbed_after|done].
    + apply IH; [done|]. by left.
    + rewrite not_elem_of_cons in Hk. apply IH; [done|]. right.
      split; [apply absorbed_other; naive_solver|naive_solver].
Qed.

Lemma upsert_all_noop l rows : (forall n, n ∈ l -> absorbed n rows) -> upsert_all l rows = rows.
Proof.
  induction l as [|m l IH]; intros H; simpl; [done|].
  rewrite absorbed_noop by (apply H; by left). apply IH. intros; apply H; by right.
Qed.

Lemma upsert_all_row_at k l rows : NoDup (map key_of l) ->
  row_at k (upsert_all l rows) =
    match List.find (fun n => bool_decide (key_of n = k)) l with
    | Some n => Some (match row_at k rows with Some r => refreshed r n | None => n end)
    | None => row_at k rows
    end.
Proof.
  revert rows. induction l as [|m l IH]; intros rows; simpl; [done|].
  rewrite NoDup_cons. intros [Hm Hn]. rewrite IH, row_at_upsert by done.
  case_bool_decide as Hk.
  - rewrite decide_True by done. destruct (List.find _ l) as [n|] eqn:E; [|done].
    apply List.find_some in E as [Hin Hb]. apply bool_decide_eq_true in Hb. exfalso. apply Hm.
    rewrite Hk, <- Hb. apply list_elem_of_fmap. exists n. split; [done|]. by apply list_elem_of_In.
  - by rewrite decide_False by congruence.
Qed.

(** The rows of one series are only added to, never removed. *)
Lemma length_series_upsert i tf n rows :
  cd_instrument n = i -> cd_timeframe n = tf ->
  length (series i tf (upsert_row n rows)) =
    (length (series i tf rows) + match row_at (key_of n) rows with Some _ => 0 | None => 1 end)%nat.
Proof.
  intros <- <-. unfold series, row_at. induction rows as [|r rows IH]; simpl.
  - unfold in_series. by rewrite Z.eqb_refl, String.eqb_refl.
  - rewrite at_key_spec. change (cd_instrument n, cd_timeframe n, cd_ts n) with (key_of n).
    case_bool_decide; simpl.
    + unfold in_series at 1. simpl. destruct (_ && _) eqn:E1;
        unfold in_series in *; simpl in *; rewrite ?E1; simpl; lia.
    + destruct (in_series _ _ r); simpl; rewrite IH; lia.
Qed.

Lemma unique_keys cs tf d : fold_res (unique_step tf) cs [] = Ok d -> NoDup d.*1.
Proof.
  apply (fold_res_inv (fun d : dict Z Candle => NoDup d.*1)); [|constructor].
  intros s x s' Hs. unfold unique_step. intros H. inv_res. case_match; auto.
Qed.

Lemma upsert_row_keys k n rows :
  k ∈ map key_of (upsert_row n rows) <-> k = key_of n \/ k ∈ map key_of rows.
Proof.
  induction rows as [|r rows IH]; simpl; [by rewrite !elem_of_cons, elem_of_nil|].
  rewrite at_key_spec. change (cd_instrument n, cd_timeframe n, cd_ts n) with (key_of n).
  case_bool_decide; cbn [map]; rewrite ?refreshed_key, !elem_of_cons, ?IH; [|tauto].
  split; [tauto|]. intros [->|?]; [by left|done].
Qed.

Lemma upsert_row_NoDup n rows : NoDup (map key_of rows) -> NoDup (map key_of (upsert_row n rows)).
Proof.
  induction rows as [|r rows IH]; simpl; [intros; apply NoDup_singleton|].
  rewrite NoDup_cons. intros [Hr Hn].
  rewrite at_key_spec. change (cd_instrument n, cd_timeframe n, cd_ts n) with (key_of n).
  case_bool_decide; simpl; rewrite NoDup_cons, ?refreshed_key; [done|].
  rewrite upsert_row_keys. naive_solver.
Qed.

Lemma upsert_all_keys_NoDup l rows :
  NoDup (map key_of rows) -> NoDup (map key_of (upsert_all l rows)).
Proof.
  revert rows. induction l as [|n l IH]; intros rows Hn; simpl; [done|].
  by apply IH, upsert_row_NoDup.
Qed.

Section Properties.
Context `{Platform}.

(** The rows an upsert of the collected candles writes. *)
Definition new_rows (i : Z) (tf source : string) (m : Z) (unique : dict Z Candle) : list CandleRow :=
  map (fun '(b, c) => candle_row i tf source m b c) unique.

Lemma upsert_fold i tf source m unique rows :
  foldl (fun rows '(bucket, c) => upsert_row (candle_row i tf source m bucket c) rows) rows unique
  = upsert_all (new_rows i tf source m unique) rows.
Proof.
  unfold upsert_all, new_rows. revert rows.
  induction unique as [|[b c] u IH]; intros rows; simpl; [done|]. apply IH.
Qed.

Lemma new_rows_keys i tf source m unique :
  map key_of (new_rows i tf source m unique) = map (fun b => (i, tf, b)) unique.*1.
Proof. induction unique as [|[b c] u IH]; simpl; [done|]. by f_equal. Qed.

Lemma NoDup_keys_of (i : Z) (tf : string) (l : list Z) :
  NoDup l -> NoDup (map (fun b => (i, tf, b)) l).
Proof. intros Hl. apply (NoDup_fmap_2_strong (fun b => (i, tf, b))); [|done]. congruence. Qed.

Lemma length_series_all i tf l rows :
  NoDup (map key_of l) -> (forall n, n ∈ l -> cd_instrument n = i /\ cd_timeframe n = tf) ->
  length (series i tf (upsert_all l rows)) =
    (length (series i tf rows)
     + length (List.filter (fun n => match row_at (key_of n) rows with
                                     | Some _ => false | None => true end) l))%nat.
Proof.
  revert rows. induction l as [|n l IH]; intros rows Hn Hl; simpl; [lia|].
  apply NoDup_cons in Hn as [Hk Hn].
  rewrite IH by (try done; intros; apply Hl; by right).
  destruct (Hl n) as [Hi Ht]; [by left|]. rewrite length_series_upsert by done.
  rewrite (filter_agree _ (fun n => match row_at (key_of n) rows with
                                    | Some _ => false | None => true end)).
  - destruct (row_at (key_of n) rows); simpl; lia.
  - intros x Hx. rewrite row_at_upsert, decide_False; [done|].
    intros E. apply Hk. rewrite <- E. apply list_elem_of_fmap. eauto.
Qed.

(** Candle upserts are idempotent and never lose a completed bar.  Upserting a
    batch whose timestamps are aware, into a table with unique keys, keeps the keys
    unique; each bucket of the batch holds the values of its first candle, with a
    [complete] flag that never regresses; every other row is untouched; the counters
    count the buckets; and ingesting the same batch again reports no insertion and
    changes nothing. *)
Theorem upsert_candles_idempotent (i : Z) (cs : list Candle) (source tf : string) (s : Z)
    (unique : dict Z Candle) (db : DB) :
  cs <> [] -> seconds tf = Ok s -> fold_res (unique_step tf) cs [] = Ok unique ->
  NoDup (map key_of (candles db)) ->
  exists ins upd db', upsert_candles i cs source tf db = Ok ((ins, upd), db') /\
    NoDup (map key_of (candles db')) /\
    0 <= ins /\ 0 <= upd /\ ins + upd = Z.of_nat (length unique) /\
    (forall b c, dget b unique = Some c ->
       let was := match row_at (i, tf, b) (candles db) with Some r => cd_complete r | None => false end in
       exists r, row_at (i, tf, b) (candles db') = Some r /\
         cd_open r = numeric 18 8 (c_open c) /\ cd_high r = numeric 18 8 (c_high c) /\
         cd_low r = numeric 18 8 (c_low c) /\ cd_close r = numeric 18 8 (c_close c) /\
         cd_volume r = c_volume c /\ cd_source r = source /\
         cd_complete r = was || complete c) /\
    (forall k, (forall b, b ∈ unique.*1 -> k <> (i, tf, b)) ->
       row_at k (candles db') = row_at k (candles db)) /\
    upsert_candles i cs source tf db' = Ok ((0, Z.of_nat (length unique)), db').
Proof.
  intros Hcs Hs Hu Hn. pose proof (unique_keys _ _ _ Hu) as Huk.
  set (new := new_rows i tf source (s / 60) unique).
  assert (Hnew : NoDup (map key_of new))
    by (unfold new; rewrite new_rows_keys; by apply NoDup_keys_of).
  assert (Hcount : forall rows,
    let before := count_candles i tf rows in
    let after := count_candles i tf (upsert_all new rows) in
    0 <= after - before <= Z.of_nat (length unique)).
  { intros rows. unfold count_candles. rewrite length_series_all; try done.
    - pose proof (List.filter_length_le (fun n => match row_at (key_of n) rows with
                                     | Some _ => false | None => true end) new).
      assert (length new = length unique) by (unfold new, new_rows; apply length_map). lia.
    - intros n Hn'. unfold new, new_rows in Hn'. apply list_elem_of_fmap in Hn' as ([b c] & -> & _).
      done. }
  assert (Hrun : forall db, upsert_candles i cs source tf db =
    let before := count_candles i tf (candles db) in
    let rows := upsert_all new (candles db) in
    let after := count_candles i tf rows in
    Ok ((Z.max 0 (after - before),
         Z.max 0 (Z.of_nat (length unique) - Z.max 0 (after - before))), set_candles rows db)).
  { intros db0. unfold upsert_candles. rewrite (match_cons cs) by done. rewrite Hs. simpl.
    rewrite Hu. simpl. by rewrite upsert_fold. }
  eexists _, _, _. split; [apply Hrun|]. simpl. pose proof (Hcount (candles db)) as Hc.
  cbv zeta in Hc. split_and!; try lia.
  - by apply upsert_all_keys_NoDup.
  - intros b c Hb. rewrite upsert_all_row_at by done.
    replace (List.find _ new) with (Some (candle_row i tf source (s / 60) b c));
      [destruct (row_at (i, tf, b) (candles db)) as [r|]; eexists; (split; [done|]); by split_and!|].
    symmetry. unfold new, new_rows. clear -Hb. induction unique as [|[b' c'] u IH]; simpl in *; [done|].
    destruct (decide (b = b')) as [->|]; [injection Hb as ->; by rewrite bool_decide_true|].
    rewrite bool_decide_false by (unfold key_of; simpl; congruence). by apply IH.
  - intros k Hk. rewrite upsert_all_row_at by done.
    destruct (List.find _ new) as [n|] eqn:E; [|done]. exfalso.
    apply List.find_some in E as [Hin Hb]. apply bool_decide_eq_true in Hb.
    apply list_elem_of_In, list_elem_of_fmap in Hin as ([b c] & -> & Hin).
    apply (Hk b); [|done]. apply list_elem_of_fmap. by exists (b, c).
  - rewrite Hrun. simpl.
    rewrite (upsert_all_noop new (upsert_all new _))
      by (intros n Hin; apply upsert_all_absorbed; auto).
    rewrite Z.sub_diag. f_equal. f_equal. f_equal; lia.
Qed.

(** Loaded bars are in ascending order, belong to the requested series and
    half-open window, and are the oldest such bars when there are more than the
    limit. *)
Theorem load_candles_window (i : Z) (tf : string) (start stop : option Z) (limit : nat) (db : DB) :
  let l := load_candles i tf start stop limit db in
  StronglySorted (fun a b => cd_ts a <= cd_ts b) l /\ (length l <= limit)%nat /\
  (forall r, r ∈ l -> r ∈ candles db /\ in_series i tf r = true /\
                      in_window start stop (cd_ts r) = true) /\
  (forall r r', r ∈ candles db -> in_series i tf r = true ->
     in_window start stop (cd_ts r) = true -> r ∉ l -> r' ∈ l -> cd_ts r' <= cd_ts r).
Proof.
  intros l. unfold load_candles in l.
  set (rows := List.filter _ _) in l. set (srt := sort_by (asc_leb cd_ts) rows) in l.
  assert (Hs : StronglySorted (fun a b => cd_ts a <= cd_ts b) srt).
  { pose proof (sort_by_sorted (asc_leb cd_ts) rows) as Hs. unfold sorted_by in Hs. fold srt in Hs.
    clear -Hs. induction Hs as [|x xs Hs IH Hx]; constructor; [done|].
    eapply List.Forall_impl; [|exact Hx]. intros y. apply Z.leb_le. }
  assert (Hin : forall r, r ∈ srt <-> r ∈ candles db /\ in_series i tf r = true /\
                      in_window start stop (cd_ts r) = true).
  { intros r. unfold srt, rows. rewrite elem_of_sort_by, !list_elem_of_In. unfold series.
    rewrite !List.filter_In. tauto. }
  pose proof (take_drop limit srt) as Htd. fold l in Htd.
  rewrite <- Htd in Hs. apply StronglySorted_app in Hs as (Hcross & Hl & _).
  split_and!; [done| | |].
  - unfold l. rewrite length_take. lia.
  - intros r Hr. apply Hin. rewrite <- Htd. apply elem_of_app. by left.
  - intros r r' Hr Hsr Hw Hnl Hr'.
    assert (r ∈ srt) as Hrs by (apply Hin; auto). rewrite <- Htd, elem_of_app in Hrs.
    destruct Hrs as [?|Hrs]; [done|]. by apply Hcross.
Qed.
End Properties.

Definition sample_candle (t : Z) (close : Z) : Candle :=
  {| c_symbol := "EURUSD"; c_timeframe := "H1"; bucket_start := utc t; c_open := Dec 110 (-2);
     c_high := Dec 120 (-2); c_low := Dec 100 (-2); c_close := Dec close (-2); c_volume := 10;
     complete := true |}.

Lemma upsert_candles_idempotent_witness :
  let cs := [sample_candle 3600000000 111; sample_candle 7200000000 112] in
  exists db', @upsert_candles demo_platform 7 cs "synthetic" "H1" empty_db = Ok ((2, 0), db') /\
    @upsert_candles demo_platform 7 cs "synthetic" "H1" db' = Ok ((0, 2), db').
Proof.
  intros cs.
  destruct (@upsert_candles_idempotent demo_platform 7 cs "synthetic" "H1" 3600
    [(3600000000, sample_candle 3600000000 111); (7200000000, sample_candle 7200000000 112)]
    empty_db) as (ins & upd & db' & H & _ & _ & _ & _ & _ & _ & Hagain).
  - discriminate.
  - reflexivity.
  - reflexivity.
  - constructor.
  - exists db'. split; [|exact Hagain]. rewrite H. f_equal. f_equal.
    vm_compute in H. injection H as <- <- _. reflexivity.
Defined.
