(* ===== verification/SignalStore.v ===== *)
(** * Signal persistence ([app/data/signal_repository.py]) *)

From Stdlib Require Import ZArith Lia Sorted.
From stdpp Require Import base list strings sorting.
From S2P Require Import Prelude PyFloat Timeframes Signals Fusion Risk Decision Tables.

Section SignalStore.
Context `{Platform}.

(** [_to_row_values], as stored. *)
Definition _to_row_values (s : AgentSignal) (id : Z) : AgentSignalRow :=
  {| sr_id := id; sr_run_id := run_id s; sr_agent_id := agent_id s;
     sr_agent_version := version s; sr_symbol := str_upper (symbol s);
     sr_timeframe := timeframe s; sr_direction := direction s;
     sr_confidence := fnumeric 6 4 (fround (confidence s) 4); sr_bucket_ts := bucket_ts s;
     sr_rationale := Some (rationale s); sr_features := sig_features s;
     sr_created_at := created_at s; sr_valid_until := Some (valid_until s) |}.

(** The unique key of the table. *)
Definition signal_key (r : AgentSignalRow) : string * string * string * Z :=
  (sr_agent_id r, sr_symbol r, sr_timeframe r, sr_bucket_ts r).

(** One insert [ON CONFLICT DO NOTHING]; the flag says whether it stored the row. *)
Definition insert_signal (s : AgentSignal) (db : DB) : bool * DB :=
  let '(id, db) := new_uuid db in
  let row := _to_row_values s id in
  if existsb (fun r => bool_decide (signal_key r = signal_key row)) (agent_signals db)
  then (false, db)
  else (true, set_agent_signals (agent_signals db ++ [row]) db).

Definition save_signals (signals : list AgentSignal) (db : DB) : Z * DB :=
  foldl (fun '(inserted, db) s =>
           let '(stored, db) := insert_signal s db in
           (if stored : bool then inserted + 1 else inserted, db)) (0, db) signals.

Definition signal_matches (symbol timeframe : string) (agent_id : option string)
    (r : AgentSignalRow) : bool :=
  String.eqb (sr_symbol r) (str_upper symbol) && String.eqb (sr_timeframe r) timeframe
  && match agent_id with
     | Some a => String.eqb a "" || String.eqb (sr_agent_id r) a
     | None => true
     end.

Definition newest_step (d : dict string AgentSignalRow) (r : AgentSignalRow)
  : dict string AgentSignalRow :=
  match dget (sr_agent_id r) d with
  | Some c => if sr_created_at c <=? sr_created_at r then dset (sr_agent_id r) r d else d
  | None => dset (sr_agent_id r) r d
  end.

Definition agent_leb (a b : AgentSignalRow) : bool := String.leb (sr_agent_id a) (sr_agent_id b).

Definition still_valid (now : Z) (r : AgentSignalRow) : bool :=
  match sr_valid_until r with None => true | Some v => now <=? v end.

Definition load_latest_per_agent (symbol timeframe : string) (agent_id : option string)
    (now : option Z) (db : DB) : list AgentSignalRow :=
  let rows := List.filter (signal_matches symbol timeframe agent_id) (agent_signals db) in
  let latest := foldl newest_step [] rows in
  let ordered := sort_by agent_leb latest.*2 in
  match now with
  | Some t => List.filter (still_valid t) ordered
  | None => ordered
  end.

(** [ORDER BY created_at DESC, agent_id]. *)
Definition history_leb (a b : AgentSignalRow) : bool :=
  (sr_created_at b <? sr_created_at a)
  || ((sr_created_at a =? sr_created_at b) && agent_leb a b).

Definition load_history (symbol timeframe : string) (limit : nat) (agent_id : option string)
    (db : DB) : list AgentSignalRow :=
  firstn limit (sort_by history_leb
    (List.filter (signal_matches symbol timeframe agent_id) (agent_signals db))).

Definition row_to_signal (r : AgentSignalRow) : Res AgentSignal :=
  validate_signal
    {| agent_id := sr_agent_id r; version := sr_agent_version r; symbol := sr_symbol r;
       timeframe := sr_timeframe r; direction := sr_direction r;
       confidence := dec_to_float (sr_confidence r); bucket_ts := sr_bucket_ts r;
       rationale := match sr_rationale r with Some t => t | None => "" end;
       sig_features := sr_features r; created_at := sr_created_at r;
       valid_until := match sr_valid_until r with Some v => v | None => sr_bucket_ts r end;
       run_id := sr_run_id r |}.

(** ** Properties *)

Lemma insert_signal_spec s db :
  let row := _to_row_values s (uuid4 (uuids db)) in
  let '(stored, db') := insert_signal s db in
  if stored then signal_key row ∉ map signal_key (agent_signals db) /\
                 agent_signals db' = agent_signals db ++ [row]
  else signal_key row ∈ map signal_key (agent_signals db) /\
       agent_signals db' = agent_signals db.
Proof.
  unfold insert_signal. cbn [new_uuid]. destruct (existsb _ _) eqn:E; simpl in *.
  - split; [|done]. apply existsb_exists in E as (r & Hr & Hk).
    apply bool_decide_eq_true in Hk. rewrite <- Hk. apply list_elem_of_fmap.
    exists r. split; [done|]. by apply list_elem_of_In.
  - split; [|done]. intros (r & Hk & Hr)%list_elem_of_fmap.
    apply not_true_iff_false in E. apply E, existsb_exists. exists r.
    split; [by apply list_elem_of_In|]. by apply bool_decide_eq_true.
Qed.

Lemma row_key_id s id id' : signal_key (_to_row_values s id) = signal_key (_to_row_values s id').
Proof. done. Qed.

(** Saving only appends rows of the given signals, under fresh keys. *)
Lemma save_signals_fold signals n db :
  NoDup (map signal_key (agent_signals db)) ->
  let '(n', db') := foldl (fun '(inserted, db) s =>
           let '(stored, db) := insert_signal s db in
           (if stored : bool then inserted + 1 else inserted, db)) (n, db) signals in
  exists new, agent_signals db' = agent_signals db ++ new /\
    NoDup (map signal_key (agent_signals db')) /\
    n' = n + Z.of_nat (length new) /\
    (forall r, r ∈ new -> exists s id, s ∈ signals /\ r = _to_row_values s id) /\
    (forall s id, s ∈ signals -> signal_key (_to_row_values s id) ∈ map signal_key (agent_signals db')).
Proof.
  revert n db. induction signals as [|s signals IH]; intros n db Hn; simpl.
  - exists []. rewrite app_nil_r. split_and!; try done; [simpl; lia| |]; intros; by rewrite elem_of_nil in *.
  - pose proof (insert_signal_spec s db) as Hi. destruct (insert_signal s db) as [stored db1].
    destruct (stored : bool) eqn:Es.
    + destruct Hi as [Hk Hrow].
      specialize (IH (n + 1) db1). rewrite Hrow, map_app in IH. simpl in IH.
      assert (Hn1 : NoDup (map signal_key (agent_signals db)
                ++ [signal_key (_to_row_values s (uuid4 (uuids db)))])).
      { apply NoDup_app. split_and!; [done| |apply NoDup_singleton].
        intros x Hx ->%list_elem_of_singleton. done. }
      specialize (IH Hn1). destruct (foldl _ _ _) as [n' db'].
      destruct IH as (new & Hdb & Hnd & Hn' & Hnew & Hall).
      exists (_to_row_values s (uuid4 (uuids db)) :: new). rewrite Hdb, <- app_assoc.
      rewrite Hdb in Hnd, Hall. rewrite <- app_assoc in Hnd, Hall. simpl in *.
      split_and!; try done; [lia| |].
      * intros r [->|Hr]%elem_of_cons; [exists s; eexists; split; [by left|done]|].
        destruct (Hnew r Hr) as (s' & id & ? & ?). exists s', id. split; [by right|done].
      * intros s' id [->|Hs]%elem_of_cons; [|by apply Hall].
        rewrite (row_key_id s id (uuid4 (uuids db))), map_app, elem_of_app. right. by left.
    + destruct Hi as [Hk Hrow]. specialize (IH n db1). rewrite Hrow in IH. specialize (IH Hn).
      destruct (foldl _ _ _) as [n' db']. destruct IH as (new & Hdb & Hnd & Hn' & Hnew & Hall).
      exists new. split_and!; try done.
      * intros r Hr. destruct (Hnew r Hr) as (s' & id & ? & ?). exists s', id. split; [by right|done].
      * intros s' id [->|Hs]%elem_of_cons; [|by apply Hall].
        rewrite (row_key_id s id (uuid4 (uuids db))), Hdb, map_app, elem_of_app. by left.
Qed.

(** The rows collected per agent: the newest of each agent seen. *)
Definition newest_inv (rows : list AgentSignalRow) (d : dict string AgentSignalRow) : Prop :=
  NoDup d.*1 /\
  (forall a r, dget a d = Some r -> r ∈ rows /\ sr_agent_id r = a /\
     forall r', r' ∈ rows -> sr_agent_id r' = a -> sr_created_at r' <= sr_created_at r) /\
  (forall r, r ∈ rows -> dget (sr_agent_id r) d <> None).

Lemma newest_keep rows d r c :
  newest_inv rows d -> dget (sr_agent_id r) d = Some c -> sr_created_at r < sr_created_at c ->
  newest_inv (rows ++ [r]) d.
Proof.
  intros (Hn & Hd & Hc) E Hlt. assert (Hin : forall x, x ∈ rows ++ [r] <-> x ∈ rows \/ x = r)
    by (intros x; by rewrite elem_of_app, list_elem_of_singleton).
  split_and!; [done| |].
  - intros a x Hx. destruct (Hd _ _ Hx) as (Hxr & Ha & Hm). split_and!; [apply Hin; by left|done|].
    intros r' Hr' Hag. apply Hin in Hr' as [Hr'| ->]; [by apply Hm|].
    assert (x = c) as -> by congruence. lia.
  - intros x Hx. apply Hin in Hx as [Hx| ->]; [by apply Hc|congruence].
Qed.

Lemma newest_replace rows d r :
  newest_inv rows d ->
  (forall c, dget (sr_agent_id r) d = Some c -> sr_created_at c <= sr_created_at r) ->
  newest_inv (rows ++ [r]) (dset (sr_agent_id r) r d).
Proof.
  intros (Hn & Hd & Hc) Hle. assert (Hin : forall x, x ∈ rows ++ [r] <-> x ∈ rows \/ x = r)
    by (intros x; by rewrite elem_of_app, list_elem_of_singleton).
  split_and!; [by apply dset_NoDup| |].
  - intros a x. rewrite dget_dset. case_decide as Ha.
    + intros [= <-]. subst a. split_and!; [apply Hin; by right|done|].
      intros r' Hr' Hag. apply Hin in Hr' as [Hr'| ->]; [|done].
      destruct (dget (sr_agent_id r) d) as [c|] eqn:E.
      * destruct (Hd _ _ E) as (_ & _ & Hm). specialize (Hm r' Hr' Hag).
        specialize (Hle c eq_refl). lia.
      * exfalso. apply (Hc r' Hr'). congruence.
    + intros Hx. destruct (Hd _ _ Hx) as (Hxr & Hxa & Hm). split_and!; [apply Hin; by left|done|].
      intros r' Hr' Hag. apply Hin in Hr' as [Hr'| ->]; [by apply Hm|congruence].
  - intros x Hx. rewrite dget_dset. case_decide; [done|].
    apply Hin in Hx as [Hx| ->]; [by apply Hc|done].
Qed.

Lemma newest_step_inv rows d r :
  newest_inv rows d -> newest_inv (rows ++ [r]) (newest_step d r).
Proof.
  intros Hi. unfold newest_step. destruct (dget (sr_agent_id r) d) as [c|] eqn:E.
  - destruct (Z.leb_spec (sr_created_at c) (sr_created_at r)).
    + apply newest_replace; [done|]. intros c' Hc'. congruence.
    + by eapply newest_keep.
  - apply newest_replace; [done|]. congruence.
Qed.

Lemma newest_fold rows : newest_inv rows (foldl newest_step [] rows).
Proof.
  induction rows as [|r rows IH] using rev_ind; simpl.
  - split_and!; [constructor|done|]. by intros r ?%elem_of_nil.
  - rewrite foldl_app. simpl. by apply newest_step_inv.
Qed.

#[export] Instance agent_leb_total : TotalLeb agent_leb.
Proof.
  split; unfold agent_leb.
  - intros. apply String.leb_total.
  - intros a b c. apply (@leb_trans _ String.leb _).
Qed.

(** Membership in the loaded rows. *)
Lemma load_latest_elem symbol timeframe id now db r :
  r ∈ load_latest_per_agent symbol timeframe id (Some now) db <->
  still_valid now r = true /\ r ∈ load_latest_per_agent symbol timeframe id None db.
Proof.
  unfold load_latest_per_agent. rewrite list_elem_of_In, List.filter_In, <- list_elem_of_In. tauto.
Qed.

Lemma load_latest_spec symbol timeframe id db r :
  r ∈ load_latest_per_agent symbol timeframe id None db <->
  exists a, dget a (foldl newest_step []
     (List.filter (signal_matches symbol timeframe id) (agent_signals db))) = Some r.
Proof.
  unfold load_latest_per_agent. rewrite elem_of_sort_by.
  destruct (newest_fold (List.filter (signal_matches symbol timeframe id) (agent_signals db)))
    as (Hn & _ & _).
  set (d := foldl _ _ _) in *. clearbody d. split.
  - intros ([a x] & -> & Hin)%list_elem_of_fmap. exists a. by apply dget_In.
  - intros (a & Ha). apply dget_Some_in in Ha. apply list_elem_of_fmap. by exists (a, r).
Qed.

(** Loading signals for a pair yields, in agent order, exactly one row per agent that
    ever reported on it - its newest by creation time - and, when a time is given,
    only those still valid at it. *)
Theorem load_latest_newest (symbol timeframe : string) (now : Z) (db : DB) :
  let m := signal_matches symbol timeframe None in
  let l := load_latest_per_agent symbol timeframe None None db in
  StronglySorted (fun a b => agent_leb a b = true) l /\
  (forall r, r ∈ l -> r ∈ agent_signals db /\ m r = true /\
     forall r', r' ∈ agent_signals db -> m r' = true -> sr_agent_id r' = sr_agent_id r ->
       sr_created_at r' <= sr_created_at r) /\
  (forall r r', r ∈ l -> r' ∈ l -> sr_agent_id r = sr_agent_id r' -> r = r') /\
  (forall r, r ∈ agent_signals db -> m r = true -> exists r', r' ∈ l /\ sr_agent_id r' = sr_agent_id r) /\
  (forall r, r ∈ load_latest_per_agent symbol timeframe None (Some now) db <->
     r ∈ l /\ still_valid now r = true).
Proof.
  intros m l.
  assert (Hm : forall r, r ∈ List.filter m (agent_signals db) <-> r ∈ agent_signals db /\ m r = true)
    by (intros r; by rewrite !list_elem_of_In, List.filter_In).
  pose proof (newest_fold (List.filter m (agent_signals db))) as (Hn & Hd & Hc).
  split_and!.
  - unfold l, load_latest_per_agent. apply (sort_by_sorted agent_leb).
  - intros r (a & Ha)%load_latest_spec. fold m in Ha.
    destruct (Hd _ _ Ha) as ((Hr & Hmr)%Hm & Hid & Hmax). split_and!; [done|done|].
    intros r' Hr' Hm' Hag. apply Hmax; [by apply Hm|congruence].
  - intros r r' (a & Ha)%load_latest_spec (a' & Ha')%load_latest_spec Hag. fold m in Ha, Ha'.
    destruct (Hd _ _ Ha) as (_ & Hid & _). destruct (Hd _ _ Ha') as (_ & Hid' & _). congruence.
  - intros r Hr Hmr. destruct (dget (sr_agent_id r) (foldl newest_step []
        (List.filter m (agent_signals db)))) as [x|] eqn:E.
    + exists x. split; [apply load_latest_spec; eauto|]. by apply Hd in E as (_ & ? & _).
    + by apply Hc in E; [|by apply Hm].
  - intros r. rewrite load_latest_elem. tauto.
Qed.

(** Saving signals is idempotent, first writer wins: stored rows are never changed or
    duplicated, the count is the number of new rows, every signal ends up stored
    under its key, and saving the same batch again stores nothing. *)
Theorem save_signals_idempotent (signals : list AgentSignal) (db : DB) :
  NoDup (map signal_key (agent_signals db)) ->
  exists new db', save_signals signals db = (Z.of_nat (length new), db') /\
    agent_signals db' = agent_signals db ++ new /\
    NoDup (map signal_key (agent_signals db')) /\
    (forall r, r ∈ new -> exists s id, s ∈ signals /\ r = _to_row_values s id) /\
    (save_signals signals db').1 = 0 /\
    agent_signals (save_signals signals db').2 = agent_signals db'.
Proof.
  intros Hn. pose proof (save_signals_fold signals 0 db Hn) as H1. unfold save_signals.
  destruct (foldl _ (0, db) signals) as [n db'].
  destruct H1 as (new & Hdb & Hnd & Hn1 & Hnew & Hall). exists new, db'.
  rewrite Hn1. split; [done|]. split; [done|]. split; [done|]. split; [done|].
  pose proof (save_signals_fold signals 0 db' Hnd) as H2.
  destruct (foldl _ (0, db') signals) as [n2 db2].
  destruct H2 as (new2 & Hdb2 & Hnd2 & Hn2 & Hnew2 & _).
  simpl. assert (new2 = []) as ->; [|by rewrite Hdb2, app_nil_r, Hn2].
  destruct new2 as [|r new2]; [done|]. exfalso.
  destruct (Hnew2 r) as (s & id & Hs & ->); [by left|].
  rewrite Hdb2, map_app in Hnd2. apply NoDup_app in Hnd2 as (_ & Hdis & _).
  apply (Hdis (signal_key (_to_row_values s id))); [by apply Hall|by left].
Qed.
End SignalStore.

Lemma save_signals_idempotent_witness :
  let s := sample_signal "technical" LONG (lit 8 1) in
  exists db', @save_signals demo_platform [s; s] empty_db = (1, db') /\
    (@save_signals demo_platform [s; s] db').1 = 0.
Proof.
  intros s.
  destruct (@save_signals_idempotent demo_platform [s; s] empty_db) as (new & db' & H & _ & _ & _ & H0 & _);
    [constructor|].
  exists db'. split; [|exact H0]. vm_compute in H. injection H as Hl <-. reflexivity.
Defined.
