(* ===== verification/Decide.v ===== *)
(** * Decisions over the database ([app/data/decision_repository.py] and the
    database-facing half of [app/decisions/engine.py]) *)

From Stdlib Require Import ZArith Lia Sorted.
From stdpp Require Import base list strings sorting pretty.
From S2P Require Import Prelude PyFloat Timeframes Signals Fusion Risk Decision Tables Candles SignalStore.

Section Repository.
Context `{Platform}.

(** ** [decision_repository] *)

Record PaperSnapshot := { ps_symbol : string; notional : float; basket : string * string }.

(** [{symbol[:3], symbol[3:]}], and whether two such sets meet. *)
Definition basket_of (symbol : string) : string * string := (str_take 3 symbol, str_drop 3 symbol).
Definition baskets_meet (a b : string * string) : bool :=
  String.eqb a.1 b.1 || String.eqb a.1 b.2 || String.eqb a.2 b.1 || String.eqb a.2 b.2.

Definition decision_values (id now : Z) (symbol timeframe : string) (bucket_ts : Z)
    (fused : FusedResult) (status : DecisionStatus) (veto : option (string * Detail))
    (inputs_hash : string) (code_versions : dict string string) (valid_until : option Z)
  : DecisionRow :=
  {| dr_id := id; dr_run_id := ""; dr_symbol := str_upper symbol; dr_timeframe := timeframe;
     dr_bucket_ts := bucket_ts; dr_fused_direction := fused_direction fused;
     dr_confidence := fnumeric 6 4 (fround (fused_confidence fused) 4);
     dr_agreement := fnumeric 6 4 (fround (agreement fused) 4); dr_status := status;
     dr_veto := veto; dr_inputs_hash := inputs_hash; dr_weights := weights fused;
     dr_code_versions := code_versions; dr_decision_at := now; dr_valid_until := valid_until |}.

Definition decision_key (d : DecisionRow) : string * string * Z :=
  (dr_symbol d, dr_timeframe d, dr_bucket_ts d).
Definition evaluation_key (e : RiskEvaluationRow) : string * string * Z :=
  (re_symbol e, re_timeframe e, re_bucket_ts e).

(** [INSERT ... ON CONFLICT (symbol, timeframe, bucket_ts) DO NOTHING]. *)
Definition save_decision (row : DecisionRow) (db : DB) : bool * DB :=
  if existsb (fun d => bool_decide (decision_key d = decision_key row)) (decisions db)
  then (false, db)
  else (true, set_decisions (decisions db ++ [row]) db).

(** [outcome.gates[name].ok]. *)
Definition gate_ok (name : string) (r : RiskOutcome) : Res bool :=
  g <-- dindex name (gates r) ;; Ok (ok g).

Definition risk_evaluation_values (id now : Z) (decision_id : option Z) (symbol timeframe : string)
    (bucket_ts : Z) (outcome : RiskOutcome) : Res RiskEvaluationRow :=
  exposure_ok <-- gate_ok "exposure" outcome ;;
  correlation_ok <-- gate_ok "correlation" outcome ;;
  daily_loss_ok <-- gate_ok "daily_loss" outcome ;;
  drawdown_ok <-- gate_ok "drawdown" outcome ;;
  let col p s f := (fun sz => fnumeric p s (f sz)) <$> sizing outcome in
  Ok {| re_id := id; re_decision_id := decision_id; re_symbol := str_upper symbol;
        re_timeframe := timeframe; re_bucket_ts := bucket_ts;
        re_units := col 20%nat 6%nat position_size_units; re_price := col 18%nat 8%nat sz_price;
        re_atr := col 18%nat 8%nat sz_atr; re_stop_loss := col 18%nat 8%nat stop_loss;
        re_take_profit := col 18%nat 8%nat take_profit; re_rr_ratio := col 8%nat 4%nat rr_ratio;
        re_risk_pct := col 8%nat 4%nat risk_pct_account;
        re_exposure_ok := exposure_ok; re_correlation_ok := correlation_ok;
        re_daily_loss_ok := daily_loss_ok; re_drawdown_ok := drawdown_ok;
        re_passed := passed outcome; re_reasons := reasons outcome; re_evaluated_at := now |}.

Definition save_risk_evaluation (decision_id : option Z) (symbol timeframe : string)
    (bucket_ts : Z) (outcome : RiskOutcome) (db : DB) : Res (bool * DB) :=
  let '(id, db) := new_uuid db in
  row <-- risk_evaluation_values id (db_now db) decision_id symbol timeframe bucket_ts outcome ;;
  Ok (if existsb (fun e => bool_decide (evaluation_key e = evaluation_key row)) (risk_evaluations db)
      then (false, db)
      else (true, set_risk_evaluations (risk_evaluations db ++ [row]) db)).

(** One accumulator: [None] leaves a stored value, and is 0 in a new row. *)
Definition upsert_risk_state (scope period_key : string)
    (realized_loss peak_equity max_drawdown exposure : option float) (db : DB) : DB :=
  let col p s x := fnumeric p s (match x with Some v => v | None => f0 end) in
  let fresh := {| rs_scope := scope; rs_period_key := period_key;
                  rs_realized_loss := col 18%nat 8%nat realized_loss;
                  rs_peak_equity := col 18%nat 8%nat peak_equity;
                  rs_max_drawdown := col 18%nat 8%nat max_drawdown;
                  rs_exposure := col 20%nat 6%nat exposure |} in
  let upd (x : option float) (new old : Decimal) := match x with Some _ => new | None => old end in
  let is_key r := String.eqb (rs_scope r) scope && String.eqb (rs_period_key r) period_key in
  if existsb is_key (risk_state db)
  then set_risk_state
         (map (fun r => if is_key r then
                 {| rs_scope := scope; rs_period_key := rs_period_key r;
                    rs_realized_loss := upd realized_loss (rs_realized_loss fresh) (rs_realized_loss r);
                    rs_peak_equity := upd peak_equity (rs_peak_equity fresh) (rs_peak_equity r);
                    rs_max_drawdown := upd max_drawdown (rs_max_drawdown fresh) (rs_max_drawdown r);
                    rs_exposure := upd exposure (rs_exposure fresh) (rs_exposure r) |} else r)
              (risk_state db)) db
  else set_risk_state (risk_state db ++ [fresh]) db.

Definition decision_matches (symbol timeframe : string) (now : option Z) (d : DecisionRow) : bool :=
  String.eqb (dr_symbol d) (str_upper symbol) && String.eqb (dr_timeframe d) timeframe
  && match now with
     | Some t => match dr_valid_until d with None => true | Some v => t <=? v end
     | None => true
     end.

Definition load_latest_decision (symbol timeframe : string) (now : option Z) (db : DB)
  : option DecisionRow :=
  latest_by dr_decision_at (List.filter (decision_matches symbol timeframe now) (decisions db)).

Definition load_decisions (symbol timeframe : string) (limit : nat) (order : string) (db : DB)
  : list DecisionRow :=
  let rows := List.filter (decision_matches symbol timeframe None) (decisions db) in
  firstn limit (if String.eqb order "desc" then sort_by (desc_leb dr_decision_at) rows
                else sort_by (asc_leb dr_decision_at) rows).

Definition load_risk_evaluations (symbol timeframe : string) (limit : nat) (db : DB)
  : list RiskEvaluationRow :=
  firstn limit (sort_by (desc_leb re_evaluated_at)
    (List.filter (fun e => String.eqb (re_symbol e) (str_upper symbol)
                           && String.eqb (re_timeframe e) timeframe) (risk_evaluations db))).

Definition load_risk_state (scope period_key : string) (db : DB) : option RiskStateRow :=
  List.find (fun r => String.eqb (rs_scope r) scope && String.eqb (rs_period_key r) period_key)
            (risk_state db).

(** The join of valid PAPER decisions with their sized risk evaluations. *)
Definition active_paper (now : Z) (symbol : option string) (db : DB)
  : list (DecisionRow * (Decimal * Decimal)) :=
  flat_map (fun d =>
    if bool_decide (dr_status d = PAPER)
       && match dr_valid_until d with Some v => now <=? v | None => false end
       && match symbol with Some s => String.eqb (dr_symbol d) (str_upper s) | None => true end
    then omap (fun e =>
           match re_decision_id e, re_units e, re_price e with
           | Some id, Some u, Some p => if id =? dr_id d then Some (d, (u, p)) else None
           | _, _, _ => None
           end) (risk_evaluations db)
    else []) (decisions db).

Definition load_active_paper_snapshot (now : Z) (symbol : option string) (db : DB)
  : list PaperSnapshot :=
  map (fun '(d, (u, p)) => {| ps_symbol := dr_symbol d;
                              notional := dec_to_float u *ᶠ dec_to_float p;
                              basket := basket_of (dr_symbol d) |})
      (sort_by (asc_leb (fun x => dr_decision_at x.1)) (active_paper now symbol db)).

(** ** The engine's inputs *)

(** [isinstance(raw, (int, float))] - a [bool] is an [int] - then [float(raw)]. *)
Definition numeric_value (v : option pyval) : option float :=
  match v with
  | Some (VInt n) => Some (of_Z n)
  | Some (VFloat x) => Some x
  | Some (VBool b) => Some (if b then f1 else f0)
  | _ => None
  end.

Definition latest_close (instrument_id : Z) (timeframe : string) (bucket_ts : Z) (db : DB)
  : option float :=
  (fun r => dec_to_float (cd_close r)) <$>
    latest_by cd_ts (List.filter (fun r => cd_ts r <=? bucket_ts)
                                 (series instrument_id timeframe (candles db))).

Definition _resolve_atr_price (symbol timeframe : string) (bucket_ts : Z) (db : DB)
  : Res ((option float * option float) * DB) :=
  atr <-- (match load_latest_per_agent symbol timeframe (Some "technical"%string) None db with
           | [] => Ok None
           | row :: _ =>
               s <-- row_to_signal row ;;
               Ok (numeric_value (dget "atr14"%string (sig_features s)))
           end) ;;
  let '(i, db) := get_or_create_instrument symbol db in
  Ok ((atr, latest_close (ins_id i) timeframe bucket_ts db), db).

(** [x / equity if equity else 0.0]. *)
Definition over_equity (x equity : float) : float :=
  if ftruthy equity then fdiv_ieee x equity else f0.

Definition _gate_state (symbol : string) (now : Z) (equity : float) (db : DB) : GateState :=
  let daily := load_risk_state "daily" (date_key now) db in
  let account := load_risk_state "account" "global" db in
  let snapshots := load_active_paper_snapshot now None db in
  let touching := List.filter (fun s => baskets_meet (basket s) (basket_of symbol)) snapshots in
  {| exposure_used_pct := over_equity (fsum (map notional snapshots)) equity;
     correlation_used_pct := over_equity (fsum (map notional touching)) equity;
     daily_loss_used_pct :=
       match daily with Some r => dec_to_float (rs_realized_loss r) | None => f0 end;
     drawdown_used_pct :=
       match account with Some r => dec_to_float (rs_max_drawdown r) | None => f0 end;
     correlation_triggered := match touching with [] => false | _ => true end |}.

(** [sorted(configured, key=Timeframe.rank)]; an unknown timeframe raises. *)
Definition sort_by_rank (configured : list string) : Res (list string) :=
  ranked <-- map_res (fun tf => r <-- rank tf ;; Ok (r, tf)) configured ;;
  Ok (sort_by (asc_leb fst) ranked).*2.

(** [ordered[idx + 1:]], if [timeframe] is listed. *)
Fixpoint after (timeframe : string) (l : list string) : option (list string) :=
  match l with
  | [] => None
  | x :: l' => if String.eqb timeframe x then Some l' else after timeframe l'
  end.

Definition dec_nonpos (d : Decimal) : bool :=
  match d with Dec c _ => c <=? 0 | DSpecial x => fle x f0 end.

Fixpoint first_parent (symbol : string) (parents : list string) (now : Z) (db : DB)
  : option ContextInput :=
  match parents with
  | [] => None
  | tf :: rest =>
      match load_latest_decision symbol tf (Some now) db with
      | None => first_parent symbol rest now db
      | Some d =>
          if bool_decide (dr_fused_direction d = FLAT) || dec_nonpos (dr_confidence d)
          then first_parent symbol rest now db
          else Some {| ctxin_direction := dr_fused_direction d;
                       ctxin_confidence := dec_to_float (dr_confidence d);
                       ctxin_weight := default_context_weight |}
      end
  end.

Definition _parent_context (symbol timeframe : string) (configured : list string) (now : Z)
    (db : DB) : Res (option ContextInput) :=
  ordered <-- sort_by_rank configured ;;
  Ok (match after timeframe ordered with
      | None => None
      | Some parents => first_parent symbol parents now db
      end).
End Repository.

(** ** [DecisionEngine.decide] *)

Record DecideResult := {
  res_symbol : string;
  res_timeframe : string;
  res_bucket_ts : Z;
  res_action : DecisionAction;
  created : bool;
  res_status : option DecisionStatus;
  res_direction : option Direction;
  res_confidence : float;
  res_agreement : float;
  res_coverage : float;
  res_veto_code : option string;
  res_skip_reason : option SkipReason;
  res_inputs_hash : string
}.

Definition no_votes_result (symbol timeframe : string) (bucket : Z) : DecideResult :=
  {| res_symbol := symbol; res_timeframe := timeframe; res_bucket_ts := bucket;
     res_action := SKIP; created := false; res_status := None; res_direction := None;
     res_confidence := f0; res_agreement := f0; res_coverage := f0; res_veto_code := None;
     res_skip_reason := Some NO_VOTES; res_inputs_hash := "" |}.

Section Engine.
Context `{Platform}.

Definition regime_of (at_bucket : dict string AgentSignal) : string :=
  match dget "regime" at_bucket with
  | Some s => py_str (dget_or "regime" (VStr "unknown") (sig_features s))
  | None => "unknown"
  end%string.

(** [{sig.agent_id: sig}] over the loaded rows. *)
Definition by_agent_of (rows : list AgentSignalRow) : Res (dict string AgentSignal) :=
  fold_res (fun d r => s <-- row_to_signal r ;; Ok (dset (agent_id s) s d)) rows [].

Definition max_bucket (d : dict string AgentSignal) (default : Z) : Z :=
  match d.*2 with
  | [] => default
  | s :: l => foldl (fun m s => Z.max m (bucket_ts s)) (bucket_ts s) l
  end.

Definition at_bucket_of (d : dict string AgentSignal) (b : Z) : dict string AgentSignal :=
  List.filter (fun '(_, s) => bucket_ts s =? b) d.

(** Everything [decide] gathers for the pure function; [None] when no agent reported. *)
Definition gather_inputs (now : Z) (symbol timeframe : string) (configured : list string)
    (risk : RiskParams) (gate : option GateState) (db : DB)
  : Res (option DecisionInputs * DB) :=
  match load_latest_per_agent symbol timeframe None (Some now) db with
  | [] => Ok (None, db)
  | rows =>
      by_agent <-- by_agent_of rows ;;
      let latest_bucket := max_bucket by_agent now in
      let at_bucket := at_bucket_of by_agent latest_bucket in
      ap <-- _resolve_atr_price symbol timeframe latest_bucket db ;;
      let '((atr, price), db) := ap in
      let g := match gate with
               | Some g => g
               | None => _gate_state symbol now (paper_equity risk) db
               end in
      parent <-- _parent_context symbol timeframe configured now db ;;
      Ok (Some {| in_symbol := symbol; in_timeframe := timeframe; in_bucket_ts := latest_bucket;
                  in_now := now; in_signals := at_bucket; in_regime := regime_of at_bucket;
                  in_atr := atr; in_price := price; in_coverage := _coverage at_bucket;
                  in_gate := g; in_parent_context := parent |}, db)
  end.

(** The cooldown: a PAPER outcome is demoted when a recent directional decision exists. *)
Definition apply_cooldown (now : Z) (symbol timeframe : string) (crafts : OrchParams) (db : DB)
    (out : DecisionOutcome) : DecisionOutcome :=
  if bool_decide (status out = Some PAPER) && (0 <? cooldown_seconds crafts) then
    match load_latest_decision symbol timeframe
            (Some (now - seconds_td (cooldown_seconds crafts))) db with
    | Some recent =>
        if bool_decide (dr_fused_direction recent = FLAT) then out
        else {| action := action out; out_fused := out_fused out; status := Some ANALYSIS;
                out_risk := out_risk out; coverage := coverage out; skip_reason := None;
                veto := Some ("cooldown", Text "recent decision within cooldown window") |}%string
    | None => out
    end
  else out.

Definition default_equity : float := of_Z 100000.

Definition _refresh_exposure (now : Z) (settings : RiskParams) (gate : option GateState)
    (live : option RiskLive) (db : DB) : Res DB :=
  let daily_key := date_key now in
  let daily := load_risk_state "daily" daily_key db in
  let account := load_risk_state "account" "global" db in
  match gate, live with
  | Some g, Some l =>
      let exposure_pct := exposure_used_pct g in
      let account_realized :=
        over_equity (fmax f0 (fneg (live_cumulative_realized l))) (live_equity l) in
      let db := upsert_risk_state "account" "global" (Some account_realized)
                  (Some (live_peak_equity l)) (Some (drawdown_used_pct g)) (Some exposure_pct) db in
      Ok (upsert_risk_state "daily" daily_key (Some (daily_loss_used_pct g)) None None
            (Some exposure_pct) db)
  | _, _ =>
      let snapshots := load_active_paper_snapshot now None db in
      let total := fsum (map notional snapshots) in
      risk <-- load_risk_params parse_float settings (dget "risk.params" (system_settings db)) ;;
      let equity := f_or (paper_equity risk) default_equity in
      let exposure_pct := over_equity total equity in
      let num (f : RiskStateRow -> Decimal) o dflt :=
        match o with Some r => dec_to_float (f r) | None => dflt end in
      let db := upsert_risk_state "account" "global" (Some (num rs_realized_loss account f0))
                  (Some (num rs_peak_equity account equity))
                  (Some (num rs_max_drawdown account f0)) (Some exposure_pct) db in
      Ok (upsert_risk_state "daily" daily_key (Some (num rs_realized_loss daily f0)) None None
            (Some exposure_pct) db)
  end%string.

Definition _latest_decision_id (symbol timeframe : string) (bucket : Z) (db : DB) : option Z :=
  dr_id <$> List.find (fun d => bool_decide (decision_key d = (str_upper symbol, timeframe, bucket)))
                      (decisions db).

(** The persisting tail of [decide], for an outcome that is not skipped. *)
Definition persist_outcome (now : Z) (settings : RiskParams) (gate : GateState)
    (live : option RiskLive) (inputs : DecisionInputs) (out : DecisionOutcome) (db : DB)
  : Res (DecideResult * DB) :=
  let symbol := in_symbol inputs in
  let timeframe := in_timeframe inputs in
  let bucket := in_bucket_ts inputs in
  let st := match status out with Some s => s | None => ANALYSIS end in
  let versions := prod_map id version <$> in_signals inputs in
  let hash_value := inputs_hash sha256_json symbol timeframe (isoformat bucket) versions
                      (weights (out_fused out)) in
  s <-- seconds timeframe ;;
  let '(id, db) := new_uuid db in
  let '(created, db) :=
    save_decision (decision_values id (db_now db) symbol timeframe bucket (out_fused out) st
                     (veto out) hash_value versions (Some (bucket + seconds_td (s * 4)))) db in
  db <-- (match out_risk out with
          | None => Ok db
          | Some r =>
              let decision_id := if created : bool then _latest_decision_id symbol timeframe bucket db
                                 else None in
              sv <-- save_risk_evaluation decision_id symbol timeframe bucket r db ;; Ok sv.2
          end) ;;
  db <-- _refresh_exposure now settings (Some gate) live db ;;
  Ok ({| res_symbol := symbol; res_timeframe := timeframe; res_bucket_ts := bucket;
         res_action := action out; created := created; res_status := Some st;
         res_direction := Some (fused_direction (out_fused out));
         res_confidence := fused_confidence (out_fused out);
         res_agreement := agreement (out_fused out); res_coverage := in_coverage inputs;
         res_veto_code := fst <$> veto out; res_skip_reason := None;
         res_inputs_hash := hash_value |}, db).

Definition DecisionEngine_decide (now started : Z) (settings : RiskParams)
    (symbol timeframe : string) (configured : list string) (crafts : OrchParams)
    (risk : RiskParams) (gate : option GateState) (live : option RiskLive) (db : DB)
  : Res (DecideResult * DB) :=
  gathered <-- gather_inputs now symbol timeframe configured risk gate db ;;
  let '(oinputs, db) := gathered in
  match oinputs with
  | None => Ok (no_votes_result symbol timeframe started, db)
  | Some inputs =>
      out <-- compute_decision inputs crafts risk ;;
      match action out with
      | SKIP =>
          Ok ({| res_symbol := symbol; res_timeframe := timeframe;
                 res_bucket_ts := in_bucket_ts inputs; res_action := SKIP; created := false;
                 res_status := None;
                 res_direction := if has_votes (out_fused out)
                                  then Some (fused_direction (out_fused out)) else None;
                 res_confidence := fused_confidence (out_fused out);
                 res_agreement := agreement (out_fused out); res_coverage := in_coverage inputs;
                 res_veto_code := None; res_skip_reason := skip_reason out;
                 res_inputs_hash := "" |}, db)
      | PERSIST =>
          persist_outcome now settings (in_gate inputs) live inputs
            (apply_cooldown now symbol timeframe crafts db out) db
      end
  end.
End Engine.

(** ** Lemmas *)

(** The tables that gathering inputs and refreshing the risk mirror never touch. *)
Definition ledger_of (db : DB) :=
  (orders_paper db, positions db, account_snapshots db, agent_signals db, candles db, db_now db).
Definition core (db : DB) := (decisions db, risk_evaluations db, ledger_of db, system_settings db).

Section Lemmas.
Context `{Platform}.

Lemma get_or_create_core symbol db i db' :
  get_or_create_instrument symbol db = (i, db') -> core db' = core db.
Proof.
  unfold get_or_create_instrument. destruct (find_instrument _ _); [by intros [= _ <-]|].
  simpl. by intros [= _ <-].
Qed.

Lemma upsert_risk_state_core scope key a b c d db :
  core (upsert_risk_state scope key a b c d db) = core db.
Proof. unfold upsert_risk_state. by destruct (existsb _ _). Qed.

Lemma refresh_core now settings gate live db db' :
  _refresh_exposure now settings gate live db = Ok db' -> core db' = core db.
Proof.
  unfold _refresh_exposure. cbv zeta.
  destruct gate, live; intros Href; inv_res; by rewrite !upsert_risk_state_core.
Qed.

Lemma gather_core now symbol tf configured risk gate db o db' :
  gather_inputs now symbol tf configured risk gate db = Ok (o, db') -> core db' = core db.
Proof.
  unfold gather_inputs, _resolve_atr_price. destruct (load_latest_per_agent _ _ _ _ _) as [|r rows].
  { intros H'. by inv_res. }
  intros H'. inv_res. destruct x0 as [[a p] db1]. inv_res.
  destruct (get_or_create_instrument _ _) as [i db2] eqn:E. simplify_eq.
  by eapply get_or_create_core.
Qed.

Lemma gather_reads now symbol tf configured risk gate db inputs db' :
  gather_inputs now symbol tf configured risk gate db = Ok (Some inputs, db') ->
  in_symbol inputs = symbol /\ in_timeframe inputs = tf /\ in_now inputs = now.
Proof.
  unfold gather_inputs. destruct (load_latest_per_agent _ _ _ _ _) as [|r rows].
  { intros H'. by inv_res. }
  intros H'. inv_res. destruct x0 as [[a p] db1]. inv_res. done.
Qed.

Lemma existsb_key {A K} `{EqDecision K} (key : A -> K) k l :
  existsb (fun d => bool_decide (key d = k)) l = true <-> k ∈ map key l.
Proof.
  rewrite existsb_exists, list_elem_of_fmap. split.
  - intros (x & Hx & Hk). exists x. apply bool_decide_eq_true in Hk.
    split; [done|by apply list_elem_of_In].
  - intros (x & -> & Hx). exists x. split; [by apply list_elem_of_In|]. by apply bool_decide_eq_true.
Qed.

Lemma save_decision_spec row db :
  let '(created, db') := save_decision row db in
  risk_evaluations db' = risk_evaluations db /\ ledger_of db' = ledger_of db /\
  if created then decision_key row ∉ map decision_key (decisions db) /\
                  decisions db' = decisions db ++ [row]
  else decision_key row ∈ map decision_key (decisions db) /\ decisions db' = decisions db.
Proof.
  unfold save_decision. destruct (existsb _ _) eqn:E; simpl.
  - split_and!; try done. by apply existsb_key.
  - split_and!; try done. rewrite <- existsb_key. congruence.
Qed.

Lemma NoDup_snoc {A K} (key : A -> K) l x :
  NoDup (map key l) -> key x ∉ map key l -> NoDup (map key (l ++ [x])).
Proof.
  intros Hn Hx. rewrite map_app. apply NoDup_app. split_and!; [done| |apply NoDup_singleton].
  intros y Hy ->%list_elem_of_singleton. done.
Qed.

Lemma save_risk_evaluation_spec id symbol tf bucket r db stored db' :
  save_risk_evaluation id symbol tf bucket r db = Ok (stored, db') ->
  decisions db' = decisions db /\ ledger_of db' = ledger_of db /\
  exists row, evaluation_key row = (str_upper symbol, tf, bucket) /\ re_decision_id row = id /\
    re_passed row = passed r /\
    if stored : bool then evaluation_key row ∉ map evaluation_key (risk_evaluations db) /\
                   risk_evaluations db' = risk_evaluations db ++ [row]
    else evaluation_key row ∈ map evaluation_key (risk_evaluations db) /\
         risk_evaluations db' = risk_evaluations db.
Proof.
  unfold save_risk_evaluation. cbn [new_uuid]. intros H'. inv_res.
  assert (Hk : evaluation_key x = (str_upper symbol, tf, bucket) /\ re_decision_id x = id /\
               re_passed x = passed r).
  { unfold risk_evaluation_values in H0. inv_res. done. }
  destruct Hk as (Hk & Hd & Hp). destruct (existsb _ _) eqn:E; simplify_eq; simpl in *.
  - split_and!; try done. exists x. split_and!; try done. by apply existsb_key in E.
  - split_and!; try done. exists x. split_and!; try done. rewrite <- existsb_key. congruence.
Qed.

Definition out_passed (out : DecisionOutcome) : bool :=
  match out_risk out with Some r => passed r | None => false end.

(** What [decide] does to the tables, and the outcome it persists. *)
Lemma persist_spec now settings g live inputs out db res db' :
  persist_outcome now settings g live inputs out db = Ok (res, db') ->
  out_risk out <> None ->
  let key := (str_upper (in_symbol inputs), in_timeframe inputs, in_bucket_ts inputs) in
  ledger_of db' = ledger_of db /\
  res_bucket_ts res = in_bucket_ts inputs /\ res_action res = action out /\
  res_symbol res = in_symbol inputs /\ res_timeframe res = in_timeframe inputs /\
  res_direction res = Some (fused_direction (out_fused out)) /\
  res_status res = Some (match status out with Some s => s | None => ANALYSIS end) /\
  (exists d, decision_key d = key /\ Some (dr_status d) = res_status res /\
     dr_fused_direction d = fused_direction (out_fused out) /\
     if created res then key ∉ map decision_key (decisions db) /\ decisions db' = decisions db ++ [d]
     else key ∈ map decision_key (decisions db) /\ decisions db' = decisions db) /\
  (exists e, evaluation_key e = key /\ re_passed e = out_passed out /\
     (risk_evaluations db' = risk_evaluations db ++ [e] /\
        key ∉ map evaluation_key (risk_evaluations db) \/
      risk_evaluations db' = risk_evaluations db /\
        key ∈ map evaluation_key (risk_evaluations db))).
Proof.
  intros Hp Hr key. unfold persist_outcome in Hp. cbv zeta in Hp. inv_res. cbn [new_uuid] in H1.
  set (row := decision_values _ _ _ _ _ _ _ _ _ _ _) in H1.
  pose proof (save_decision_spec row (set_uuids (S (uuids db)) db)) as Hs.
  destruct (save_decision row _) as [cr db1]. destruct Hs as (Hre & Hl & Hd).
  inv_res. match goal with E : _refresh_exposure _ _ _ _ _ = Ok _ |- _ => apply refresh_core in E as Hc end.
  unfold out_passed. destruct (out_risk out) as [r|]; [|done]. inv_res.
  match goal with E : save_risk_evaluation _ _ _ _ _ _ = Ok ?sv |- _ =>
    destruct sv as [stored db2]; apply save_risk_evaluation_spec in E
      as (Hd2 & Hl2 & e & Hek & _ & Hpass & He) end.
  unfold core in Hc. injection Hc as Hc1 Hc2 Hc3 Hc4 Hc5 Hc6 Hc7 Hc8 Hc9.
  simpl in *.
  split_and!; try done.
  - unfold ledger_of in *. simpl in *. congruence.
  - exists row. split_and!; try done. rewrite Hc1, Hd2.
    destruct cr; destruct Hd as [Hd ->]; split; done.
  - exists e. split; [done|]. split; [done|]. rewrite Hc2. rewrite Hre in He. rewrite Hek in He.
    destruct (stored : bool); [left|right]; split; try apply He.
Qed.
End Lemmas.

Section Properties.
Context `{Platform}.

Lemma compute_persist_risk inputs orch risk out :
  compute_decision inputs orch risk = Ok out -> action out = PERSIST ->
  out_risk out <> None /\ status out <> None.
Proof.
  unfold compute_decision. intros H' Ha. inv_res. revert Ha. repeat case_match; simplify_eq; done.
Qed.

Lemma cooldown_keeps now symbol tf crafts db out :
  let out' := apply_cooldown now symbol tf crafts db out in
  action out' = action out /\ out_risk out' = out_risk out /\ out_fused out' = out_fused out /\
  (status out' = status out \/ status out = Some PAPER /\ status out' = Some ANALYSIS).
Proof.
  unfold apply_cooldown. case_bool_decide; [|split_and!; auto].
  simpl. repeat case_match; simpl; split_and!; auto.
Qed.

(** Ids are only ever drawn. *)
Lemma upsert_risk_state_uuids scope k a b c d db :
  uuids (upsert_risk_state scope k a b c d db) = uuids db.
Proof. unfold upsert_risk_state. by destruct (existsb _ _). Qed.

Lemma get_or_create_uuids symbol db : (uuids db <= uuids (get_or_create_instrument symbol db).2)%nat.
Proof. unfold get_or_create_instrument. destruct (find_instrument _ _); simpl; lia. Qed.

Lemma gather_uuids now symbol tf configured risk gate db o db' :
  gather_inputs now symbol tf configured risk gate db = Ok (o, db') -> (uuids db <= uuids db')%nat.
Proof.
  unfold gather_inputs, _resolve_atr_price. destruct (load_latest_per_agent _ _ _ _ _) as [|r rows].
  { intros H'. by inv_res. }
  intros H'. inv_res. destruct x0 as [[a p] db1]. inv_res.
  pose proof (get_or_create_uuids symbol db) as Hu.
  destruct (get_or_create_instrument _ _) as [i db2]. by simplify_eq.
Qed.

Lemma refresh_uuids now st gate live db db' :
  _refresh_exposure now st gate live db = Ok db' -> uuids db' = uuids db.
Proof. unfold _refresh_exposure. cbv zeta. destruct gate, live; intros Href; inv_res; by rewrite !upsert_risk_state_uuids. Qed.

Lemma save_risk_uuids id symbol tf bucket r db sv :
  save_risk_evaluation id symbol tf bucket r db = Ok sv -> uuids sv.2 = S (uuids db).
Proof.
  unfold save_risk_evaluation. cbn [new_uuid]. intros H'. inv_res. by destruct (existsb _ _).
Qed.

Lemma persist_uuids now st g live inputs out db res db' :
  persist_outcome now st g live inputs out db = Ok (res, db') -> (uuids db <= uuids db')%nat.
Proof.
  unfold persist_outcome. cbv zeta. cbn [new_uuid]. intros H'. inv_res.
  match type of H1 with (let '(_, _) := save_decision ?row ?d in _) = _ =>
    assert (Hu : uuids (save_decision row d).2 = S (uuids db))
      by (unfold save_decision; by destruct (existsb _ _));
    destruct (save_decision row d) as [cr db1] end.
  inv_res. match goal with E : _refresh_exposure _ _ _ _ _ = Ok _ |- _ => apply refresh_uuids in E as Hr end.
  simpl in Hr, Hu. rewrite Hr.
  destruct (out_risk out) as [r|]; inv_res; [|lia].
  match goal with E : save_risk_evaluation _ _ _ _ _ _ = Ok _ |- _ => apply save_risk_uuids in E end. lia.
Qed.

(** The two ways [decide] ends: nothing persisted, or the outcome persisted. *)
Lemma decide_cases now started settings symbol tf configured crafts risk gate live db res db' :
  DecisionEngine_decide now started settings symbol tf configured crafts risk gate live db
    = Ok (res, db') ->
  (core db' = core db /\ res_action res = SKIP /\ created res = false /\ res_status res = None) \/
  (exists inputs db1 out, gather_inputs now symbol tf configured risk gate db = Ok (Some inputs, db1) /\
     compute_decision inputs crafts risk = Ok out /\ action out = PERSIST /\
     persist_outcome now settings (in_gate inputs) live inputs
       (apply_cooldown now symbol tf crafts db1 out) db1 = Ok (res, db')).
Proof.
  unfold DecisionEngine_decide. intros H'. inv_res. destruct x as [[inputs|] db1].
  - inv_res. destruct (action x) eqn:Ea; [left|right].
    + inv_res. by apply gather_core in H0.
    + eauto 10.
  - left. inv_res. by apply gather_core in H0.
Qed.

Lemma decide_uuids now started settings symbol tf configured crafts risk gate live db res db' :
  DecisionEngine_decide now started settings symbol tf configured crafts risk gate live db
    = Ok (res, db') -> (uuids db <= uuids db')%nat.
Proof.
  unfold DecisionEngine_decide. intros Hd. apply res_bind_ok in Hd as ([[inputs|] db1] & Hg & Hd);
    apply gather_uuids in Hg; [|by simplify_eq].
  apply res_bind_ok in Hd as (out & _ & Hd). destruct (action out); [by simplify_eq|].
  apply persist_uuids in Hd. lia.
Qed.

(** C12: decisions are persisted first-writer-wins.  Over tables with unique keys, a call
    adds at most one decision and one risk evaluation for the evaluated bar, never
    changes or removes a row, keeps the keys unique and leaves orders, positions and
    snapshots alone; [created] tells whether this call stored the decision, which
    then carries the reported status; replaying a bar whose decision exists stores
    nothing new. *)
Theorem decide_first_writer (now started : Z) (settings risk : RiskParams) (symbol tf : string)
    (configured : list string) (crafts : OrchParams) (gate : option GateState)
    (live : option RiskLive) (db db' : DB) (res : DecideResult) :
  DecisionEngine_decide now started settings symbol tf configured crafts risk gate live db
    = Ok (res, db') ->
  NoDup (map decision_key (decisions db)) -> NoDup (map evaluation_key (risk_evaluations db)) ->
  let key := (str_upper symbol, tf, res_bucket_ts res) in
  (exists ds, decisions db' = decisions db ++ ds /\ (length ds <= 1)%nat /\
     Forall (fun d => decision_key d = key /\ Some (dr_status d) = res_status res) ds /\
     (created res = true <-> ds <> [])) /\
  (exists es, risk_evaluations db' = risk_evaluations db ++ es /\ (length es <= 1)%nat /\
     Forall (fun e => evaluation_key e = key) es) /\
  NoDup (map decision_key (decisions db')) /\ NoDup (map evaluation_key (risk_evaluations db')) /\
  ledger_of db' = ledger_of db /\
  (key ∈ map decision_key (decisions db) -> created res = false) /\
  (res_action res = PERSIST -> key ∈ map decision_key (decisions db')) /\
  (created res = true -> res_action res = PERSIST).
Proof.
  intros Hd Hn Hne key.
  apply decide_cases in Hd as [(Hc & Ha & Hcr & Hst)|(inputs & db1 & out & Hg & Hcd & Ha & Hp)].
  - unfold core in Hc. injection Hc as Hc1 Hc2 Hl1 Hl2 Hl3 Hl4 Hl5 Hl6 _. rewrite Hc1, Hc2, Ha, Hcr.
    assert (ledger_of db' = ledger_of db) by (unfold ledger_of; congruence).
    split; [|split]; [exists []; rewrite app_nil_r; naive_solver..|].
    split_and!; done.
  - pose proof (gather_core _ _ _ _ _ _ _ _ _ Hg) as Hc.
    destruct (gather_reads _ _ _ _ _ _ _ _ _ Hg) as (Hs & Ht & _).
    destruct (cooldown_keeps now symbol tf crafts db1 out) as (Ha' & Hr' & Hf' & _).
    destruct (compute_persist_risk _ _ _ _ Hcd Ha) as [Hrisk _].
    apply persist_spec in Hp as (Hl & Hb & Hact & _ & _ & _ & _ & (d & Hk & Hst & _ & Hdd) & (e & Hek & _ & Hee));
      [|congruence].
    rewrite Hs, Ht, <- Hb in Hk, Hdd, Hek, Hee. fold key in Hk, Hdd, Hek, Hee.
    unfold core in Hc. injection Hc as Hc1 Hc2 Hl1 Hl2 Hl3 Hl4 Hl5 Hl6 _.
    rewrite Hc1 in Hdd. rewrite Hc2 in Hee.
    assert (ledger_of db' = ledger_of db) by (unfold ledger_of in *; congruence).
    assert (Hact' : res_action res = PERSIST) by congruence.
    split; [|split].
    + destruct (created res); destruct Hdd as [Hkd ->].
      * exists [d]. split_and!; [done|simpl; lia|by repeat constructor|done].
      * exists []. rewrite app_nil_r. split_and!; [done|simpl; lia|constructor|naive_solver].
    + destruct Hee as [[-> Hke]|[-> Hke]].
      * exists [e]. split_and!; [done|simpl; lia|by repeat constructor].
      * exists []. rewrite app_nil_r. split_and!; [done|simpl; lia|constructor].
    + split_and!; try done.
      * destruct (created res); destruct Hdd as [Hkd ->]; [|done].
        apply NoDup_snoc; [done|by rewrite Hk].
      * destruct Hee as [[-> Hke]|[-> Hke]]; [|done]. apply NoDup_snoc; [done|by rewrite Hek].
      * destruct (created res); [|done]. by destruct Hdd.
      * intros _. destruct (created res); destruct Hdd as [Hkd ->]; [|done].
        rewrite map_app, elem_of_app. right. rewrite <- Hk. by left.
Qed.

Lemma load_latest_decision_core symbol tf t db db1 : core db1 = core db ->
  load_latest_decision symbol tf t db1 = load_latest_decision symbol tf t db.
Proof. intros Hc. unfold core in Hc. injection Hc as Hc _. unfold load_latest_decision. by rewrite Hc. Qed.

(** C32: a reported PAPER decision is one that the pure decision function promoted on the
    inputs gathered from the database, and, with a cooldown configured, no
    directional decision of the pair is the newest among those still valid one
    cooldown ago. *)
Theorem decide_paper_sound (now started : Z) (settings risk : RiskParams) (symbol tf : string)
    (configured : list string) (crafts : OrchParams) (gate : option GateState)
    (live : option RiskLive) (db db' : DB) (res : DecideResult) :
  DecisionEngine_decide now started settings symbol tf configured crafts risk gate live db
    = Ok (res, db') ->
  res_status res = Some PAPER ->
  exists inputs db1 out, gather_inputs now symbol tf configured risk gate db = Ok (Some inputs, db1) /\
    compute_decision inputs crafts risk = Ok out /\ status out = Some PAPER /\
    (0 < cooldown_seconds crafts ->
       forall d, load_latest_decision symbol tf
                   (Some (now - seconds_td (cooldown_seconds crafts))) db = Some d ->
         dr_fused_direction d = FLAT).
Proof.
  intros Hd Hst. apply decide_cases in Hd as [(_ & _ & _ & Hn)|(inputs & db1 & out & Hg & Hcd & Ha & Hp)];
    [congruence|].
  pose proof (gather_core _ _ _ _ _ _ _ _ _ Hg) as Hc.
  destruct (cooldown_keeps now symbol tf crafts db1 out) as (Ha' & Hr' & Hf' & Hs').
  destruct (compute_persist_risk _ _ _ _ Hcd Ha) as [Hrisk Hsome].
  apply persist_spec in Hp as (_ & _ & _ & _ & _ & _ & Hps & _); [|congruence].
  assert (Hpap : status (apply_cooldown now symbol tf crafts db1 out) = Some PAPER).
  { rewrite Hps in Hst. destruct (status (apply_cooldown _ _ _ _ _ _)) eqn:E; [|discriminate]. congruence. }
  assert (Ho : status out = Some PAPER) by (destruct Hs' as [E|[_ E]]; congruence).
  exists inputs, db1, out. split_and!; try done.
  intros Hcool d. rewrite <- (load_latest_decision_core symbol tf _ db db1) by done. intros Hl.
  revert Hpap. unfold apply_cooldown. rewrite Ho, Hl, bool_decide_true by done.
  replace (0 <? cooldown_seconds crafts) with true by (symmetry; by apply Z.ltb_lt). simpl.
  case_bool_decide; [done|]. discriminate.
Qed.

Lemma gather_atr now symbol tf configured risk gate db inputs db' :
  (forall r, r ∈ agent_signals db -> sr_agent_id r = "technical"%string ->
     dget "atr14"%string (sr_features r) = None) ->
  gather_inputs now symbol tf configured risk gate db = Ok (Some inputs, db') -> in_atr inputs = None.
Proof.
  intros Hno. unfold gather_inputs. destruct (load_latest_per_agent symbol tf None _ _) as [|r rows].
  { intros H'. by inv_res. }
  intros H'. inv_res. destruct x0 as [[atr p] db1]. inv_res. simpl.
  unfold _resolve_atr_price in H1. inv_res.
  destruct (get_or_create_instrument _ _) as [i dbi]. inv_res.
  destruct (load_latest_per_agent symbol tf (Some "technical"%string) None db) as [|row rest] eqn:E.
  { by inv_res. }
  inv_res. apply validate_signal_ok in H1 as (_ & _ & _ & _ & -> & _). simpl.
  assert (Hin : row ∈ load_latest_per_agent symbol tf (Some "technical"%string) None db)
    by (rewrite E; by left).
  apply load_latest_spec in Hin as (a & Ha).
  destruct (newest_fold (List.filter (signal_matches symbol tf (Some "technical"%string))
    (agent_signals db))) as (_ & Hd & _).
  destruct (Hd _ _ Ha) as (Hr & _ & _).
  apply list_elem_of_In, List.filter_In in Hr as [Hr Hm]. unfold signal_matches in Hm.
  apply andb_prop in Hm as [_ Hm]. simpl in Hm. apply String.eqb_eq in Hm.
  rewrite Hno; [done|by apply list_elem_of_In|done].
Qed.

(** Without a top-level [atr14] feature on the technical signals no decision is ever
    PAPER: the engine reads the ATR from that key only, so the risk pass cannot size
    and fails closed.  (The technical agent stores its ATR one level deeper, under
    [indicators].) *)
Theorem no_paper_without_atr14 (now started : Z) (settings risk : RiskParams) (symbol tf : string)
    (configured : list string) (crafts : OrchParams) (gate : option GateState)
    (live : option RiskLive) (db db' : DB) (res : DecideResult) :
  (forall r, r ∈ agent_signals db -> sr_agent_id r = "technical"%string ->
     dget "atr14"%string (sr_features r) = None) ->
  DecisionEngine_decide now started settings symbol tf configured crafts risk gate live db
    = Ok (res, db') ->
  res_status res <> Some PAPER.
Proof.
  intros Hno Hd Hst.
  apply decide_cases in Hd as [(_ & _ & _ & Hn)|(inputs & db1 & out & Hg & Hcd & Ha & Hp)];
    [congruence|].
  destruct (cooldown_keeps now symbol tf crafts db1 out) as (Ha' & Hr' & Hf' & Hs').
  destruct (compute_persist_risk _ _ _ _ Hcd Ha) as [Hrisk Hsome].
  apply persist_spec in Hp as (_ & _ & _ & _ & _ & _ & Hps & _); [|congruence].
  assert (Ho : status out = Some PAPER).
  { rewrite Hps in Hst. destruct (status (apply_cooldown _ _ _ _ _ _)) eqn:E; [|discriminate].
    destruct Hs' as [E'|[_ E']]; congruence. }
  apply gather_atr in Hg; [|done]. by apply (compute_decision_unsized _ _ _ _ Hg Hcd).
Qed.
End Properties.

(** ** A concrete database *)

Definition with_features (f : features) (s : AgentSignal) : AgentSignal :=
  {| agent_id := agent_id s; version := version s; symbol := symbol s; timeframe := timeframe s;
     direction := direction s; confidence := confidence s; bucket_ts := bucket_ts s;
     rationale := rationale s; sig_features := f; created_at := created_at s;
     valid_until := valid_until s; run_id := run_id s |}.

Definition demo_signals (technical : features) : list AgentSignal :=
  [with_features technical (sample_signal "technical" LONG (lit 8 1));
   with_features [("regime", VStr "trending")] (sample_signal "regime" FLAT f0);
   sample_signal "sentiment" LONG (lit 5 1)]%string.

(** Signals for EURUSD H1 and one stored candle. *)
Definition demo_db (technical : features) : DB :=
  let db := (@save_signals demo_platform (demo_signals technical) empty_db).2 in
  let '(i, db) := @get_or_create_instrument demo_platform "EURUSD" db in
  set_candles [@candle_row demo_platform (ins_id i) "H1" "synthetic" 60 0 (sample_candle 0 110)] db.

Definition demo_decide (technical : features) :=
  @DecisionEngine_decide demo_platform 0 0 sample_params "EURUSD" "H1" ["H1"; "H4"]%string
    sample_orch sample_params (Some empty_gate_state) None (demo_db technical).

Definition demo_result (technical : features) : DecideResult * DB :=
  match demo_decide technical with
  | Ok r => r
  | Err _ => (no_votes_result "" "" 0, empty_db)
  end.

Definition top_level_atr : features := [("atr14", VFloat (lit 5 3))]%string.
Definition nested_atr : features := [("indicators", VDict top_level_atr)]%string.

Lemma decide_first_writer_witness :
  demo_decide top_level_atr = Ok (demo_result top_level_atr) /\
  NoDup (map decision_key (decisions (demo_result top_level_atr).2)).
Proof.
  split; [vm_compute; reflexivity|].
  eapply (@decide_first_writer demo_platform 0 0 sample_params sample_params "EURUSD" "H1"
            ["H1"; "H4"]%string sample_orch (Some empty_gate_state) None (demo_db top_level_atr)
            (demo_result top_level_atr).2 (demo_result top_level_atr).1).
  - vm_compute; reflexivity.
  - apply (bool_decide_unpack _); vm_compute; exact I.
  - apply (bool_decide_unpack _); vm_compute; exact I.
Defined.

Lemma decide_paper_sound_witness :
  res_status (demo_result top_level_atr).1 = Some PAPER /\
  exists inputs db1, @gather_inputs demo_platform 0 "EURUSD" "H1" ["H1"; "H4"]%string sample_params
    (Some empty_gate_state) (demo_db top_level_atr) = Ok (Some inputs, db1).
Proof.
  split; [vm_compute; reflexivity|].
  destruct (@decide_paper_sound demo_platform 0 0 sample_params sample_params "EURUSD" "H1"
            ["H1"; "H4"]%string sample_orch (Some empty_gate_state) None (demo_db top_level_atr)
            (demo_result top_level_atr).2 (demo_result top_level_atr).1)
    as (inputs & db1 & _ & Hg & _).
  - vm_compute; reflexivity.
  - vm_compute; reflexivity.
  - exists inputs, db1. exact Hg.
Defined.

(** The same signals as the technical agent stores them. *)
Lemma no_paper_without_atr14_witness :
  res_status (demo_result nested_atr).1 = Some BLOCKED /\
  res_status (demo_result nested_atr).1 <> Some PAPER.
Proof.
  split; [vm_compute; reflexivity|].
  apply (@no_paper_without_atr14 demo_platform 0 0 sample_params sample_params "EURUSD" "H1"
            ["H1"; "H4"]%string sample_orch (Some empty_gate_state) None (demo_db nested_atr)
            (demo_result nested_atr).2 (demo_result nested_atr).1).
  - intros r Hr _. revert r Hr. apply Forall_forall. vm_compute. repeat constructor.
  - vm_compute; reflexivity.
Defined.
