(* ===== verification/Costs.v ===== *)
(** * Deterministic transaction costs ([app/broker/costs.py]) *)

From Stdlib Require Import ZArith Lia.
From stdpp Require Import base list strings pretty.
From S2P Require Import Prelude PyFloat Timeframes Signals Risk Decision Tables.

Record CostParams := {
  spread : float;
  commission_per_side : float;
  slippage_pct : float;
  slippage_notional_scale : float
}.

Definition default_cost_params : CostParams :=
  {| spread := lit 1 4; commission_per_side := f0; slippage_pct := lit 2 5;
     slippage_notional_scale := lit 1 7 |}.

(** [Direction.value]. *)
Definition direction_value (d : Direction) : string :=
  match d with LONG => "LONG" | SHORT => "SHORT" | FLAT => "FLAT" end.

Section Costs.
Context `{Platform}.

(** [float(raw) / float(1 << 64)]. *)
Definition _digest (key : string) : float := fdiv_ieee (of_Z (blake2b_64 key)) (of_Z (2 ^ 64)).

(** [f"bt|slip|{seed}|{symbol}|{side}"]. *)
Definition slip_key (seed : Z) (symbol : string) (side : Direction) : string :=
  ("bt|slip|" ++ pretty seed ++ "|" ++ symbol ++ "|" ++ direction_value side)%string.

Definition volume_factor (notional : float) : float := f1 +ᶠ (fabs notional *ᶠ f2) *ᶠ lit 1 9.

(** The divisor is never zero (see [volume_factor_nonzero]). *)
Definition slippage_bps (seed : Z) (symbol : string) (side : Direction) (notional : float)
    (p : CostParams) : float :=
  let draw := _digest (slip_key seed symbol side) in
  let base := fdiv_ieee (draw *ᶠ lit 5 1) (volume_factor notional) in
  fmax f0 (base *ᶠ fdiv_ieee (slippage_pct p) (lit 2 5)).

Definition cost_per_unit (price : float) (seed : Z) (symbol : string) (side : Direction)
    (notional : float) (p : CostParams) : float :=
  let spread_cost := fdiv_ieee (spread p) f2 in
  let slip := slippage_bps seed symbol side notional p in
  let slip_cost := price *ᶠ fdiv_ieee slip (of_Z 10000) in
  spread_cost +ᶠ slip_cost.

(** ** Properties *)

Lemma volume_factor_nonzero notional : feq (volume_factor notional) f0 = false.
Proof.
  unfold volume_factor. apply fadd_nonzero; [done|done| |apply fmul_exp_ok].
  apply fnn_mul; [|done]. apply fnn_mul; [by destruct notional|done].
Qed.

(** The division of [slippage_bps] never raises. *)
Lemma slippage_division draw notional :
  fdiv (draw *ᶠ lit 5 1) (volume_factor notional)
  = Ok (fdiv_ieee (draw *ᶠ lit 5 1) (volume_factor notional)).
Proof. unfold fdiv. by rewrite volume_factor_nonzero. Qed.

(** Trading costs are adverse: with a non-negative spread and price the cost per unit
    is never negative, whatever the seed, symbol, side, notional and slippage
    settings; the volume factor it divides by is never zero, so no cost
    computation raises. *)
Theorem cost_per_unit_adverse (price : float) (seed : Z) (symbol : string) (side : Direction)
    (notional : float) (p : CostParams) :
  fnn (spread p) = true -> fnn price = true ->
  flt (cost_per_unit price seed symbol side notional p) f0 = false /\
  flt (slippage_bps seed symbol side notional p) f0 = false /\
  forall draw, is_ok (fdiv (draw *ᶠ lit 5 1) (volume_factor notional)) = true.
Proof.
  intros Hs Hp.
  assert (Hslip : fnn (slippage_bps seed symbol side notional p) = true) by apply fnn_fmax0.
  split_and!.
  - apply negb_true_iff. rewrite <- fnn_flt. unfold cost_per_unit. apply fnn_add.
    + by apply fnn_div_ieee.
    + apply fnn_mul; [done|]. by apply fnn_div_ieee.
  - apply negb_true_iff. by rewrite <- fnn_flt.
  - intros draw. by rewrite slippage_division.
Qed.
End Costs.

Lemma cost_per_unit_adverse_witness :
  flt (@cost_per_unit demo_platform (lit 11 1) 7 "EURUSD" LONG (of_Z 1000) default_cost_params) f0 = false.
Proof.
  refine (proj1 (@cost_per_unit_adverse demo_platform (lit 11 1) 7 "EURUSD" LONG (of_Z 1000)
                   default_cost_params _ _)); vm_compute; reflexivity.
Defined.

(** The largest digests round up to a draw of exactly 1. *)
Lemma draw_reaches_one : fdiv_ieee (of_Z (2 ^ 64 - 1)) (of_Z (2 ^ 64)) = f1.
Proof. vm_compute. reflexivity. Qed.
