(* ===== verification/Positions.v ===== *)
(** * Paper positions ([app/broker/positions.py]) *)

From Stdlib Require Import ZArith Lia.
From stdpp Require Import base list strings.
From S2P Require Import Prelude PyFloat Timeframes Signals.

Record Position := {
  pos_symbol : string;
  pos_timeframe : string;
  units : float;
  entry_price : float;
  entry_ts : Z;
  side : Direction;
  pos_stop_loss : option float;
  pos_take_profit : option float;
  costs : float
}.

Definition position_notional (p : Position) : float := units p *ᶠ entry_price p.

Definition unrealized (p : Position) (price : float) : float :=
  let delta := match side p with
               | LONG => price -ᶠ entry_price p
               | _ => entry_price p -ᶠ price
               end in
  units p *ᶠ delta.

Definition EXIT_SIGNAL : string := "signal".
Definition EXIT_SL : string := "stop_loss".
Definition EXIT_TP : string := "take_profit".

(** [x is not None and test(x)]. *)
Definition breached (test : float -> bool) (x : option float) : bool :=
  match x with Some v => test v | None => false end.
Definition the (x : option float) : float := match x with Some v => v | None => f0 end.

Definition exit_price_for (p : Position) (price : float) (sl tp : option float)
  : float * string * bool :=
  match side p with
  | LONG =>
      if breached (fun s => price <=ᶠ s) sl then (the sl, EXIT_SL, true)
      else if breached (fun t => price >=ᶠ t) tp then (the tp, EXIT_TP, true)
      else (price, EXIT_SIGNAL, false)
  | _ =>
      if breached (fun s => price >=ᶠ s) sl then (the sl, EXIT_SL, true)
      else if breached (fun t => price <=ᶠ t) tp then (the tp, EXIT_TP, true)
      else (price, EXIT_SIGNAL, false)
  end.

(** ** Position sets *)

Definition PositionSet := list Position.

Definition open_for (symbol : string) (ps : PositionSet) : option Position :=
  List.find (fun p => String.eqb (pos_symbol p) symbol) ps.

Definition total_notional (ps : PositionSet) : float := fsum (map position_notional ps).

(** [bool({p.symbol[:3], p.symbol[3:]} & {symbol[:3], symbol[3:]})]. *)
Definition _touches (p : Position) (symbol : string) : bool :=
  let a := str_take 3 (pos_symbol p) in
  let b := str_drop 3 (pos_symbol p) in
  let c := str_take 3 symbol in
  let d := str_drop 3 symbol in
  String.eqb a c || String.eqb a d || String.eqb b c || String.eqb b d.

Definition long_touching (symbol : string) (ps : PositionSet) : list Position :=
  List.filter (fun p => bool_decide (side p = LONG) && _touches p symbol) ps.

Definition basket_notional (symbol : string) (ps : PositionSet) : float :=
  fsum (map position_notional (long_touching symbol ps)).

Definition ps_correlation_triggered (symbol : string) (ps : PositionSet) : bool :=
  match long_touching symbol ps with [] => false | _ => true end.

(** [close]: delete the first position of the symbol. *)
Fixpoint close_position (symbol : string) (ps : PositionSet) : PositionSet :=
  match ps with
  | [] => []
  | p :: ps' => if String.eqb (pos_symbol p) symbol then ps' else p :: close_position symbol ps'
  end.

(** ** Lemmas *)

(** At most one position per symbol, each with a side. *)
Definition positions_ok (ps : PositionSet) : Prop :=
  NoDup (map pos_symbol ps) /\ Forall (fun p => side p <> FLAT) ps.

Lemma open_for_Some symbol ps p :
  open_for symbol ps = Some p -> p ∈ ps /\ pos_symbol p = symbol.
Proof.
  intros [Hin Hs]%List.find_some. apply String.eqb_eq in Hs.
  split; [by apply list_elem_of_In|done].
Qed.

Lemma open_for_None symbol ps : open_for symbol ps = None <-> symbol ∉ map pos_symbol ps.
Proof.
  unfold open_for. induction ps as [|p ps IH]; simpl; [split; [by intros _ ?%elem_of_nil|done]|].
  rewrite not_elem_of_cons. destruct (String.eqb_spec (pos_symbol p) symbol); [naive_solver|].
  rewrite IH. naive_solver.
Qed.

Lemma open_for_app symbol ps p :
  open_for symbol (ps ++ [p]) =
    match open_for symbol ps with
    | Some q => Some q
    | None => if String.eqb (pos_symbol p) symbol then Some p else None
    end.
Proof.
  unfold open_for. induction ps as [|q ps IH]; simpl; [done|].
  by destruct (String.eqb (pos_symbol q) symbol).
Qed.

Lemma close_position_sub symbol ps p : p ∈ close_position symbol ps -> p ∈ ps.
Proof.
  induction ps as [|q ps IH]; simpl; [done|].
  destruct (String.eqb _ _); rewrite !elem_of_cons; naive_solver.
Qed.

Lemma close_position_symbols symbol ps x : NoDup (map pos_symbol ps) ->
  x ∈ map pos_symbol (close_position symbol ps) <-> x <> symbol /\ x ∈ map pos_symbol ps.
Proof.
  induction ps as [|q ps IH]; simpl; [split; [by intros ?%elem_of_nil|by intros [_ ?]]|].
  rewrite NoDup_cons. intros [Hq Hn].
  destruct (String.eqb_spec (pos_symbol q) symbol) as [<-|Hne]; simpl; rewrite ?elem_of_cons.
  - naive_solver.
  - rewrite IH by done. naive_solver.
Qed.

Lemma close_position_ok symbol ps : positions_ok ps -> positions_ok (close_position symbol ps).
Proof.
  intros [Hn Hf]. split.
  - clear Hf. induction ps as [|q ps IH]; simpl in *; [constructor|].
    apply NoDup_cons in Hn as [Hq Hn].
    destruct (String.eqb _ _); [done|]. simpl. apply NoDup_cons. split; [|by apply IH].
    intros Hc. apply Hq. by apply close_position_symbols in Hc as [_ ?].
  - apply Forall_forall. intros p Hp%close_position_sub. rewrite Forall_forall in Hf. by apply Hf.
Qed.

Lemma open_for_close symbol s ps : NoDup (map pos_symbol ps) ->
  open_for symbol (close_position s ps) = if String.eqb s symbol then None else open_for symbol ps.
Proof.
  intros Hn. destruct (String.eqb_spec s symbol) as [->|Hne].
  - apply open_for_None. rewrite close_position_symbols by done. naive_solver.
  - clear Hn. unfold open_for. induction ps as [|p ps IH]; simpl; [done|].
    destruct (String.eqb_spec (pos_symbol p) s) as [<-|?]; simpl; [|by rewrite IH].
    by destruct (String.eqb_spec (pos_symbol p) symbol).
Qed.

(** A breach exits exactly at the breached threshold; the stop loss wins a bar that
    breaches both. *)
Lemma exit_price_hit p price :
  let '(x, reason, hit) := exit_price_for p price (pos_stop_loss p) (pos_take_profit p) in
  hit = true ->
    (reason = EXIT_SL /\ pos_stop_loss p = Some x /\
       match side p with LONG => fle price x = true | _ => fle x price = true end) \/
    (reason = EXIT_TP /\ pos_take_profit p = Some x /\
       match side p with LONG => fle x price = true | _ => fle price x = true end).
Proof.
  unfold exit_price_for. destruct (side p), (pos_stop_loss p) as [sl|], (pos_take_profit p) as [tp|];
    simpl; repeat case_match; naive_solver.
Qed.
