(* ===== verification/Paper.v ===== *)
(** * The deterministic paper broker ([app/broker/paper.py]) *)

From Stdlib Require Import ZArith Lia.
From stdpp Require Import base list strings.
From S2P Require Import Prelude PyFloat Timeframes Signals Risk Decision Tables Costs Positions.

Definition CASH_START : float := of_Z 100000.

Record Trade := {
  t_symbol : string;
  t_timeframe : string;
  t_side : Direction;
  t_units : float;
  t_entry_ts : Z;
  t_entry_price : float;
  t_exit_ts : Z;
  t_exit_price : float;
  t_gross_pnl : float;
  t_costs : float;
  t_net_pnl : float;
  t_exit_reason : string
}.

Record PaperBroker := {
  start_equity : float;
  cash : float;
  seed : Z;
  cost_params : CostParams;
  equity : float;
  peak_equity : float;
  max_drawdown_pct : float;
  book : PositionSet;
  trades : list Trade;
  last_mark : dict string float
}.

Record BrokerState := {
  bs_ts : Z;
  bs_equity : float;
  bs_cash : float;
  bs_open_positions : PositionSet;
  bs_trades : list Trade
}.

Definition new_broker (start : float) (sd : Z) (params : CostParams) : PaperBroker :=
  {| start_equity := start; cash := start; seed := sd; cost_params := params; equity := start;
     peak_equity := start; max_drawdown_pct := f0; book := []; trades := []; last_mark := [] |}.

Definition set_seed (s : Z) (b : PaperBroker) : PaperBroker :=
  {| start_equity := start_equity b; cash := cash b; seed := s; cost_params := cost_params b;
     equity := equity b; peak_equity := peak_equity b; max_drawdown_pct := max_drawdown_pct b;
     book := book b; trades := trades b; last_mark := last_mark b |}.

Definition mark_position (symbol : string) (price : float) (b : PaperBroker) : PaperBroker :=
  {| start_equity := start_equity b; cash := cash b; seed := seed b; cost_params := cost_params b;
     equity := equity b; peak_equity := peak_equity b; max_drawdown_pct := max_drawdown_pct b;
     book := book b; trades := trades b; last_mark := dset symbol price (last_mark b) |}.

Definition total_equity (b : PaperBroker) : float :=
  cash b +ᶠ foldl (fun acc p => acc +ᶠ unrealized p (dget_or (pos_symbol p) (entry_price p)
                                                             (last_mark b))) f0 (book b).

Section Broker.
Context `{Platform}.

Definition enter_at_next_open (symbol timeframe : string) (direction : Direction)
    (ref_price : float) (ts : Z) (stop_loss take_profit : option float) (u : option float)
    (b : PaperBroker) : PaperBroker :=
  match u with
  | None => b
  | Some n =>
      if bool_decide (direction = FLAT) || (n <=ᶠ f0) then b
      else match open_for symbol (book b) with
      | Some _ => b
      | None =>
          let price := ref_price in
          let cost := cost_per_unit price (seed b) symbol direction (n *ᶠ price) (cost_params b) in
          let cost_total := cost *ᶠ n in
          let pos := {| pos_symbol := symbol; pos_timeframe := timeframe; units := n;
                        entry_price := price; entry_ts := ts; side := direction;
                        pos_stop_loss := stop_loss; pos_take_profit := take_profit;
                        costs := cost_total |} in
          {| start_equity := start_equity b; cash := cash b -ᶠ cost_total; seed := seed b;
             cost_params := cost_params b; equity := equity b; peak_equity := peak_equity b;
             max_drawdown_pct := max_drawdown_pct b; book := book b ++ [pos];
             trades := trades b; last_mark := dset symbol price (last_mark b) |}
      end
  end.

(** Gross result of leaving [pos] at [price], and the costs netted from it. *)
Definition gross_of (pos : Position) (price : float) : float :=
  match side pos with
  | LONG => units pos *ᶠ (price -ᶠ entry_price pos)
  | _ => units pos *ᶠ (entry_price pos -ᶠ price)
  end.
Definition exit_cost (b : PaperBroker) (pos : Position) (price : float) : float :=
  cost_per_unit price (seed b) (pos_symbol pos) (side pos) (units pos *ᶠ price) (cost_params b)
  *ᶠ units pos.

(** [_close], called with the open position of [symbol]. *)
Definition _close (symbol : string) (pos : Position) (price : float) (reason : string) (ts : Z)
    (b : PaperBroker) : Trade * PaperBroker :=
  let cost := cost_per_unit price (seed b) symbol (side pos) (units pos *ᶠ price) (cost_params b) in
  let cost_total := cost *ᶠ units pos +ᶠ f_or (costs pos) f0 in
  let gross := gross_of pos price in
  let net := gross -ᶠ cost_total in
  let trade := {| t_symbol := symbol; t_timeframe := pos_timeframe pos; t_side := side pos;
                  t_units := units pos; t_entry_ts := entry_ts pos;
                  t_entry_price := entry_price pos; t_exit_ts := ts; t_exit_price := price;
                  t_gross_pnl := fround gross 6; t_costs := fround cost_total 6;
                  t_net_pnl := fround net 6; t_exit_reason := reason |} in
  (trade,
   {| start_equity := start_equity b; cash := (cash b +ᶠ gross) -ᶠ cost_total; seed := seed b;
      cost_params := cost_params b; equity := equity b; peak_equity := peak_equity b;
      max_drawdown_pct := max_drawdown_pct b; book := close_position symbol (book b);
      trades := trades b ++ [trade]; last_mark := last_mark b |}).

Definition evaluate_exit (symbol : string) (close : float) (ts : Z) (b : PaperBroker)
  : option Trade * PaperBroker :=
  match open_for symbol (book b) with
  | None => (None, b)
  | Some pos =>
      let '(exit_price, reason, hit) :=
        exit_price_for pos close (pos_stop_loss pos) (pos_take_profit pos) in
      if hit then let '(t, b) := _close symbol pos exit_price reason ts b in (Some t, b)
      else (None, b)
  end.

Definition close_on_signal (symbol : string) (price : float) (ts : Z) (b : PaperBroker)
  : option Trade * PaperBroker :=
  match open_for symbol (book b) with
  | None => (None, b)
  | Some pos => let '(t, b) := _close symbol pos price EXIT_SIGNAL ts b in (Some t, b)
  end.

(** [state]: recomputes equity and tracks its peak and the deepest drawdown. *)
Definition broker_state (ts : Z) (b : PaperBroker) : BrokerState * PaperBroker :=
  let eq := total_equity b in
  let peak := if eq >ᶠ peak_equity b then eq else peak_equity b in
  let dd := fdiv_ieee (peak -ᶠ eq) peak in
  let mdd := if (peak >ᶠ f0) && (dd >ᶠ max_drawdown_pct b) then dd else max_drawdown_pct b in
  ({| bs_ts := ts; bs_equity := eq; bs_cash := cash b; bs_open_positions := book b;
      bs_trades := trades b |},
   {| start_equity := start_equity b; cash := cash b; seed := seed b; cost_params := cost_params b;
      equity := eq; peak_equity := peak; max_drawdown_pct := mdd; book := book b;
      trades := trades b; last_mark := last_mark b |}).

(** ** Histories of operations *)

Inductive paper_op :=
| Enter (symbol timeframe : string) (d : Direction) (price : float) (ts : Z)
        (sl tp : option float) (u : option float)
| EvaluateExit (symbol : string) (close : float) (ts : Z)
| CloseOnSignal (symbol : string) (price : float) (ts : Z)
| Mark (symbol : string) (price : float)
| Snapshot (ts : Z).

Definition paper_step (b : PaperBroker) (op : paper_op) : PaperBroker :=
  match op with
  | Enter s tf d p ts sl tp u => enter_at_next_open s tf d p ts sl tp u b
  | EvaluateExit s c ts => (evaluate_exit s c ts b).2
  | CloseOnSignal s p ts => (close_on_signal s p ts b).2
  | Mark s p => mark_position s p b
  | Snapshot ts => (broker_state ts b).2
  end.

Definition run_ops (ops : list paper_op) (b : PaperBroker) : PaperBroker := foldl paper_step b ops.

(** ** Lemmas *)

(** Positions have distinct symbols, a side and a positive size. *)
Definition broker_ok (b : PaperBroker) : Prop :=
  positions_ok (book b) /\ Forall (fun p => fle (units p) f0 = false) (book b).

Lemma close_book symbol pos price reason ts b :
  book (_close symbol pos price reason ts b).2 = close_position symbol (book b).
Proof. done. Qed.

Lemma close_ok symbol pos price reason ts b :
  broker_ok b -> broker_ok (_close symbol pos price reason ts b).2.
Proof.
  intros [Hp Hu]. split; rewrite close_book; [by apply close_position_ok|].
  apply Forall_forall. intros p Hin%close_position_sub. rewrite Forall_forall in Hu. by apply Hu.
Qed.

Lemma paper_step_ok b op : broker_ok b -> broker_ok (paper_step b op).
Proof.
  intros Hb. destruct op as [s tf d p ts sl tp u|s c ts|s p ts|s p|ts]; simpl; try done.
  - unfold enter_at_next_open. destruct u as [n|]; [|done].
    destruct (bool_decide (d = FLAT)) eqn:Ed; [done|]. destruct (fle n f0) eqn:En; [done|]. simpl.
    destruct (open_for s (book b)) eqn:Eo; [done|]. apply open_for_None in Eo.
    apply bool_decide_eq_false in Ed. destruct Hb as [[Hn Hf] Hu]. split; [split|]; simpl.
    + rewrite map_app. apply NoDup_app. split_and!; [done| |apply NoDup_singleton].
      intros x Hx ->%list_elem_of_singleton. done.
    + apply Forall_app. split; [done|]. by repeat constructor.
    + apply Forall_app. split; [done|]. by repeat constructor.
  - unfold evaluate_exit. destruct (open_for s (book b)) as [pos|]; [|done].
    destruct (exit_price_for _ _ _ _) as [[x r] []]; [|done]. by apply close_ok.
  - unfold close_on_signal. destruct (open_for s (book b)) as [pos|]; [|done]. by apply close_ok.
Qed.

Lemma run_ops_ok ops b : broker_ok b -> broker_ok (run_ops ops b).
Proof.
  unfold run_ops. revert b. induction ops as [|op ops IH]; intros b Hb; simpl; [done|].
  by apply IH, paper_step_ok.
Qed.

(** A tracked maximum stays, or strictly grows. *)
Definition tracks (x y : float) : Prop := y = x \/ flt x y = true.

Lemma tracks_trans x y z : tracks x y -> tracks y z -> tracks x z.
Proof.
  intros [->|H1] [->|H2]; [by left|by right|by right|right; by eapply flt_trans].
Qed.

(** What every operation may do to the account. *)
Definition advances (b b' : PaperBroker) : Prop :=
  tracks (peak_equity b) (peak_equity b') /\ tracks (max_drawdown_pct b) (max_drawdown_pct b') /\
  (exists ts, trades b' = trades b ++ ts) /\ start_equity b' = start_equity b /\
  seed b' = seed b /\ cost_params b' = cost_params b.

Lemma advances_refl b : advances b b.
Proof. split_and!; try (by left); try done. exists []. by rewrite app_nil_r. Qed.

Lemma advances_trans a b c : advances a b -> advances b c -> advances a c.
Proof.
  intros (P1 & D1 & [t1 T1] & S1 & E1 & C1) (P2 & D2 & [t2 T2] & S2 & E2 & C2).
  split_and!; [by eapply tracks_trans|by eapply tracks_trans| |congruence..].
  exists (t1 ++ t2). by rewrite T2, T1, app_assoc.
Qed.

Lemma close_advances symbol pos price reason ts b :
  advances b (_close symbol pos price reason ts b).2.
Proof. split_and!; try (by left); try done. simpl. eauto. Qed.

Lemma paper_step_advances b op : advances b (paper_step b op).
Proof.
  destruct op as [s tf d p ts sl tp u|s c ts|s p ts|s p|ts]; simpl.
  - unfold enter_at_next_open. repeat case_match; try apply advances_refl.
    split_and!; try (by left); try done. exists []. by rewrite app_nil_r.
  - unfold evaluate_exit. destruct (open_for s (book b)) as [pos|]; [|apply advances_refl].
    destruct (exit_price_for _ _ _ _) as [[x r] []]; [apply close_advances|apply advances_refl].
  - unfold close_on_signal.
    destruct (open_for s (book b)) as [pos|]; [apply close_advances|apply advances_refl].
  - split_and!; try (by left); try done. exists []. by rewrite app_nil_r.
  - split_and!; try done; simpl.
    + destruct (flt (peak_equity b) (total_equity b)) eqn:E; [by right|by left].
    + destruct (_ && _) eqn:E; [|by left]. apply andb_prop in E as [_ E]. by right.
    + exists []. by rewrite app_nil_r.
Qed.

Lemma run_ops_advances ops b : advances b (run_ops ops b).
Proof.
  unfold run_ops. revert b. induction ops as [|op ops IH]; intros b; simpl; [apply advances_refl|].
  eapply advances_trans; [apply paper_step_advances|apply IH].
Qed.

(** Over every history of broker operations from a fresh account, at most one
    position is open per symbol, every open position has a side and a size that is
    not [<= 0], the trade log only grows, and the peak equity and the maximal
    drawdown never decrease; a snapshot leaves the peak at or above the equity. *)
Theorem paper_broker_invariant (start : float) (sd : Z) (params : CostParams)
    (ops1 ops2 : list paper_op) :
  let b := run_ops ops1 (new_broker start sd params) in
  let b' := run_ops ops2 b in
  (forall p q, p ∈ book b' -> q ∈ book b' -> pos_symbol p = pos_symbol q -> p = q) /\
  NoDup (map pos_symbol (book b')) /\
  (forall p, p ∈ book b' -> side p <> FLAT /\ fle (units p) f0 = false) /\
  (exists new, trades b' = trades b ++ new) /\
  tracks (peak_equity b) (peak_equity b') /\
  tracks (max_drawdown_pct b) (max_drawdown_pct b') /\
  (forall ts, let s := broker_state ts b' in
     flt (peak_equity s.2) (bs_equity s.1) = false /\
     (is_nan (bs_equity s.1) = false -> is_nan start = false ->
        fle (bs_equity s.1) (peak_equity s.2) = true)).
Proof.
  intros b b'.
  assert (Hok : broker_ok b') by (apply run_ops_ok, run_ops_ok; split; [split|]; constructor).
  destruct (run_ops_advances ops2 b) as (Hp & Hd & Ht & _). fold b' in Hp, Hd, Ht.
  destruct (run_ops_advances ops1 (new_broker start sd params)) as (Hp0 & _). fold b in Hp0.
  destruct Hok as [[Hn Hf] Hu]. rewrite Forall_forall in Hf, Hu.
  split_and!; try done.
  - clear -Hn. induction (book b') as [|x l IH]; [by intros p q ?%elem_of_nil|].
    simpl in Hn. apply NoDup_cons in Hn as [Hx Hn]. intros p q.
    rewrite !elem_of_cons. intros [->|Hp] [->|Hq] E; [done| | |by apply IH].
    + exfalso. apply Hx. rewrite E. by apply list_elem_of_fmap_2.
    + exfalso. apply Hx. rewrite <- E. by apply list_elem_of_fmap_2.
  - intros p Hin. split; [by apply Hf|by apply Hu].
  - intros ts s. subst s. simpl.
    destruct (flt (peak_equity b') (total_equity b')) eqn:E.
    + split; [apply flt_irrefl|]. intros. by apply fle_refl.
    + split; [done|]. intros Hne Hns. apply flt_false_fle; try done.
      assert (Hnp : tracks start (peak_equity b')) by (eapply tracks_trans; [exact Hp0|exact Hp]).
      destruct Hnp as [->|H1]; [done|]. forder.
Qed.

(** Exits are decided on the bar's close alone.  A position is closed exactly when
    the close has reached its stop loss or its take profit; the fill is the
    threshold itself, the stop loss wins when both are reached, exactly that
    position leaves the book, and otherwise nothing changes. *)
Theorem evaluate_exit_exact (symbol : string) (close : float) (ts : Z) (b : PaperBroker) :
  broker_ok b ->
  match open_for symbol (book b) with
  | None => evaluate_exit symbol close ts b = (None, b)
  | Some p =>
      let at_sl := breached (fun s => match side p with LONG => close <=ᶠ s | _ => close >=ᶠ s end)
                            (pos_stop_loss p) in
      let at_tp := breached (fun t => match side p with LONG => close >=ᶠ t | _ => close <=ᶠ t end)
                            (pos_take_profit p) in
      if at_sl || at_tp then
        exists t b', evaluate_exit symbol close ts b = (Some t, b') /\
          trades b' = trades b ++ [t] /\ t_symbol t = symbol /\ t_side t = side p /\
          t_exit_reason t = (if at_sl then EXIT_SL else EXIT_TP) /\
          Some (t_exit_price t) = (if at_sl then pos_stop_loss p else pos_take_profit p) /\
          open_for symbol (book b') = None /\
          (forall s, s <> symbol -> open_for s (book b') = open_for s (book b)) /\ broker_ok b'
      else evaluate_exit symbol close ts b = (None, b)
  end.
Proof.
  intros Hok. unfold evaluate_exit.
  destruct (open_for symbol (book b)) as [p|] eqn:Eo; [|done].
  assert (Hclose : forall x r, exists t b', 
    (let '(t, b) := _close symbol p x r ts b in (Some t, b)) = (Some t, b') /\
    trades b' = trades b ++ [t] /\ t_symbol t = symbol /\ t_side t = side p /\
    t_exit_reason t = r /\ t_exit_price t = x /\ open_for symbol (book b') = None /\
    (forall s, s <> symbol -> open_for s (book b') = open_for s (book b)) /\ broker_ok b').
  { intros x r. eexists _, _. split; [reflexivity|]. split_and!; try done.
    - simpl. rewrite open_for_close, String.eqb_refl by apply Hok. done.
    - intros s Hs. simpl. rewrite open_for_close by apply Hok.
      by destruct (String.eqb_spec symbol s).
    - apply (close_ok symbol p x r ts b Hok). }
  assert (Hthe : forall f v, breached f v = true -> v = Some (the v)) by (by intros f [v|]).
  unfold exit_price_for. destruct (side p) eqn:Ed;
    (destruct (breached _ (pos_stop_loss p)) eqn:Esl; cbn [orb];
     [|destruct (breached _ (pos_take_profit p)) eqn:Etp; [|done]]).
  all: match goal with |- context [_close _ _ ?x ?r _ _] =>
         destruct (Hclose x r) as (t & b' & ? & ? & ? & ? & ? & Hx & ? & ? & ?) end.
  all: exists t, b'; rewrite Hx; split_and!; try done; symmetry; by eapply Hthe.
Qed.

(** Operations that do not trade. *)
Definition quiet (op : paper_op) : Prop :=
  match op with Mark _ _ | Snapshot _ => True | _ => False end.

Lemma quiet_keeps ops b : Forall quiet ops ->
  cash (run_ops ops b) = cash b /\ book (run_ops ops b) = book b.
Proof.
  unfold run_ops. revert b. induction ops as [|op ops IH]; intros b Hq; simpl; [done|].
  apply Forall_cons in Hq as [Hop Hq]. destruct (IH (paper_step b op) Hq) as [-> ->].
  by destruct op.
Qed.

Lemma quiet_trades ops b : Forall quiet ops -> trades (run_ops ops b) = trades b.
Proof.
  unfold run_ops. revert b. induction ops as [|op ops IH]; intros b Hq; simpl; [done|].
  apply Forall_cons in Hq as [Hop Hq]. rewrite (IH (paper_step b op) Hq). by destruct op.
Qed.

Lemma close_position_app symbol ps p : symbol ∉ map pos_symbol ps -> pos_symbol p = symbol ->
  close_position symbol (ps ++ [p]) = ps.
Proof.
  intros Hs Hp. induction ps as [|q ps IH]; simpl in *; [by rewrite Hp, String.eqb_refl|].
  apply not_elem_of_cons in Hs as [Hq Hs].
  destruct (String.eqb_spec (pos_symbol q) symbol); [congruence|]. f_equal. by apply IH.
Qed.

Lemma quiet_seed ops b : seed (run_ops ops b) = seed b /\ cost_params (run_ops ops b) = cost_params b.
Proof. destruct (run_ops_advances ops b) as (_ & _ & _ & _ & ? & ?). done. Qed.

(** A round trip books its entry costs twice.  Opening a position takes its entry
    cost [ce] from cash, and closing it takes the exit cost plus [ce] again, so the
    cash ends at [((cash - ce) + gross) - (cx + ce)] while the trade's reported net
    result subtracts [cx + ce] once. *)
Theorem round_trip_cash (symbol tf : string) (d : Direction) (e x n : float) (ts ts' : Z)
    (sl tp : option float) (ops : list paper_op) (b : PaperBroker) :
  d <> FLAT -> fle n f0 = false -> open_for symbol (book b) = None -> Forall quiet ops ->
  let cost p := cost_per_unit p (seed b) symbol d (n *ᶠ p) (cost_params b) *ᶠ n in
  let ce := cost e in
  let gross := match d with LONG => n *ᶠ (x -ᶠ e) | _ => n *ᶠ (e -ᶠ x) end in
  let total := cost x +ᶠ f_or ce f0 in
  exists t b', close_on_signal symbol x ts'
                 (run_ops ops (enter_at_next_open symbol tf d e ts sl tp (Some n) b)) = (Some t, b') /\
    cash b' = ((cash b -ᶠ ce) +ᶠ gross) -ᶠ total /\
    t_net_pnl t = fround (gross -ᶠ total) 6 /\ t_costs t = fround total 6 /\
    t_gross_pnl t = fround gross 6 /\ book b' = book b /\ trades b' = trades b ++ [t].
Proof.
  intros Hd Hn Ho Hq cost ce gross total. unfold enter_at_next_open.
  rewrite bool_decide_false by done. rewrite Hn, Ho. simpl.
  match goal with |- context [run_ops ops ?b0] => set (b1 := b0) end.
  destruct (quiet_keeps ops b1 Hq) as [Hc Hb]. destruct (quiet_seed ops b1) as [Hs Hp].
  assert (Ht : trades (run_ops ops b1) = trades b1) by by apply quiet_trades.
  unfold close_on_signal. rewrite Hb. unfold b1 at 1. cbn [book].
  rewrite open_for_app, Ho. simpl. rewrite String.eqb_refl.
  eexists _, _. split; [reflexivity|]. simpl. rewrite Hc, Hs, Hp, Hb, Ht. simpl.
  split_and!; try done; try by destruct d.
  apply close_position_app; [by apply open_for_None|done].
Qed.
End Broker.

(** A concrete round trip: 1000 units bought at 1.1 and sold at 1.2. *)
Definition demo_broker : PaperBroker := new_broker CASH_START 7 default_cost_params.
Definition demo_position_broker : PaperBroker :=
  @enter_at_next_open demo_platform "EURUSD" "H1" LONG (lit 11 1) 0 (Some (of_Z 1)) None
    (Some (of_Z 1000)) demo_broker.

Lemma demo_broker_ok : broker_ok demo_position_broker.
Proof.
  split; [split|]; vm_compute; repeat constructor; try done. by intros ?%elem_of_nil.
Qed.

Lemma evaluate_exit_exact_witness :
  exists t b', @evaluate_exit demo_platform "EURUSD" (lit 9 1) 5 demo_position_broker = (Some t, b') /\
    Some (t_exit_price t) = Some (of_Z 1) /\ open_for "EURUSD" (book b') = None.
Proof.
  destruct (@evaluate_exit_exact demo_platform "EURUSD" (lit 9 1) 5 demo_position_broker
              demo_broker_ok) as (t & b' & H & _ & _ & _ & _ & Hx & Ho & _).
  exists t, b'. split; [exact H|]. split; [exact Hx|exact Ho].
Defined.

Lemma round_trip_cash_witness :
  exists t b', @close_on_signal demo_platform "EURUSD" (lit 12 1) 5 demo_position_broker = (Some t, b') /\
    trades b' = [t] /\ flt (cash b') (CASH_START +ᶠ t_net_pnl t) = true.
Proof.
  destruct (@round_trip_cash demo_platform "EURUSD" "H1" LONG (lit 11 1) (lit 12 1) (of_Z 1000) 0 5
              (Some (of_Z 1)) None [] demo_broker)
    as (t & b' & H & Hc & Hn & _ & _ & _ & Ht).
  - discriminate.
  - vm_compute; reflexivity.
  - reflexivity.
  - constructor.
  - exists t, b'. split; [exact H|]. split; [exact Ht|]. rewrite Hc, Hn. vm_compute. reflexivity.
Defined.
