(* ===== verification/Ledger.v ===== *)
(** * The paper ledger: store and broker ([app/broker/store.py],
    [app/broker/ledger.py]) *)

From Stdlib Require Import ZArith Lia Sorted.
From stdpp Require Import base list strings sorting.
From S2P Require Import Prelude PyFloat Timeframes Signals Risk Decision Tables Costs Positions Paper.

(** ** [PostgresLedgerStore] *)

Section Store.
Context `{Platform}.

Definition stored_order (o : PaperOrderRow) : PaperOrderRow :=
  {| o_id := o_id o; o_decision_id := o_decision_id o; o_symbol := o_symbol o;
     o_timeframe := o_timeframe o; o_side := o_side o; o_status := o_status o;
     o_units := numeric 20 6 (o_units o);
     o_requested_price := numeric 18 8 <$> o_requested_price o;
     o_filled_price := numeric 18 8 <$> o_filled_price o; o_costs := numeric 20 6 (o_costs o);
     o_stop_loss := numeric 18 8 <$> o_stop_loss o;
     o_take_profit := numeric 18 8 <$> o_take_profit o; o_seed := o_seed o;
     o_filled_at := o_filled_at o; o_created_at := o_created_at o |}.

Definition stored_position (p : PaperPositionRow) : PaperPositionRow :=
  {| p_id := p_id p; p_order_id := p_order_id p; p_symbol := p_symbol p;
     p_timeframe := p_timeframe p; p_side := p_side p; p_units := numeric 20 6 (p_units p);
     p_entry_price := numeric 18 8 (p_entry_price p); p_entry_ts := p_entry_ts p;
     p_stop_loss := numeric 18 8 <$> p_stop_loss p;
     p_take_profit := numeric 18 8 <$> p_take_profit p; p_costs := numeric 20 6 (p_costs p);
     p_status := p_status p; p_exit_price := numeric 18 8 <$> p_exit_price p;
     p_exit_ts := p_exit_ts p; p_exit_reason := p_exit_reason p;
     p_gross_pnl := numeric 20 6 <$> p_gross_pnl p; p_net_pnl := numeric 20 6 <$> p_net_pnl p;
     p_updated_at := p_updated_at p |}.

Definition stored_snapshot (s : AccountSnapshotRow) : AccountSnapshotRow :=
  {| sn_ts := sn_ts s; sn_cash := numeric 20 6 (sn_cash s); sn_equity := numeric 20 6 (sn_equity s);
     sn_open_pnl := numeric 20 6 (sn_open_pnl s); sn_realized_pnl := numeric 20 6 (sn_realized_pnl s);
     sn_peak_equity := numeric 20 6 (sn_peak_equity s);
     sn_drawdown_pct := numeric 12 8 (sn_drawdown_pct s);
     sn_margin_used := numeric 20 6 (sn_margin_used s) |}.

(** [uq_orders_paper_decision_id]: no two orders share a (non-null) decision. *)
Definition decision_taken (id : option Z) (db : DB) : bool :=
  match id with
  | Some d => existsb (fun o => bool_decide (o_decision_id o = Some d)) (orders_paper db)
  | None => false
  end.

Definition save_order (o : PaperOrderRow) (db : DB) : Res DB :=
  if decision_taken (o_decision_id o) db then Err IntegrityError
  else Ok (set_orders_paper (orders_paper db ++ [stored_order o]) db).

(** The flush of changes [f] made to the row object of order [id]. *)
Definition update_order (id : Z) (f : PaperOrderRow -> PaperOrderRow) (db : DB) : DB :=
  set_orders_paper (map (fun o => if o_id o =? id then stored_order (f o) else o)
                        (orders_paper db)) db.

Definition get_order (id : Z) (db : DB) : option PaperOrderRow :=
  List.find (fun o => o_id o =? id) (orders_paper db).

(** [ORDER BY created_at, id]. *)
Definition order_leb (a b : PaperOrderRow) : bool :=
  (o_created_at a <? o_created_at b)
  || ((o_created_at a =? o_created_at b) && (o_id a <=? o_id b)).

Definition is_pending (o : PaperOrderRow) : bool := bool_decide (o_status o = PENDING).

Definition list_pending_orders (db : DB) : list PaperOrderRow :=
  sort_by order_leb (List.filter is_pending (orders_paper db)).

Definition get_decision (id : Z) (db : DB) : option DecisionRow :=
  List.find (fun d => dr_id d =? id) (decisions db).

Definition get_decision_bucket (id : option Z) (db : DB) : option Z :=
  match id with
  | Some d => dr_bucket_ts <$> get_decision d db
  | None => None
  end.

Definition is_open (p : PaperPositionRow) : bool := bool_decide (p_status p = OPEN).

(** [uq_positions_open_symbol]: one OPEN position per symbol. *)
Definition save_position (p : PaperPositionRow) (db : DB) : Res DB :=
  if is_open p && existsb (fun q => is_open q && String.eqb (p_symbol q) (p_symbol p)) (positions db)
  then Err IntegrityError
  else Ok (set_positions (positions db ++ [stored_position p]) db).

Definition get_open_position (symbol : string) (db : DB) : option PaperPositionRow :=
  List.find (fun p => is_open p && String.eqb (p_symbol p) (str_upper symbol)) (positions db).

Definition list_open_positions (db : DB) : list PaperPositionRow :=
  List.filter is_open (positions db).
Definition load_open_position_rows : DB -> list PaperPositionRow := list_open_positions.

(** Exact sum of numerics. *)
Definition exact_add (a b : Decimal) : Decimal :=
  match a, b with
  | Dec c1 e1, Dec c2 e2 =>
      let e := Z.min e1 e2 in Dec (c1 * 10 ^ (e1 - e) + c2 * 10 ^ (e2 - e)) e
  | _, _ => DSpecial (dec_to_float a +ᶠ dec_to_float b)
  end.

Definition exited_in (start_ts end_ts : Z) (p : PaperPositionRow) : bool :=
  bool_decide (p_status p = CLOSED)
  && match p_exit_ts p with Some t => (start_ts <=? t) && (t <? end_ts) | None => false end.

Definition load_realized_pnl_since (start_ts end_ts : Z) (db : DB) : Decimal :=
  foldl exact_add dec_zero (omap p_net_pnl (List.filter (exited_in start_ts end_ts) (positions db))).

Definition expired (now : Z) (o : PaperOrderRow) (db : DB) : bool :=
  match o_decision_id o with
  | Some id => existsb (fun d => (dr_id d =? id)
                 && match dr_valid_until d with Some v => v <? now | None => false end) (decisions db)
  | None => false
  end.

Definition list_pending_expired (now : Z) (db : DB) : list PaperOrderRow :=
  sort_by order_leb (List.filter (fun o => is_pending o && expired now o db) (orders_paper db)).

(** [ORDER BY exit_ts], nulls last. *)
Definition exit_leb (a b : PaperPositionRow) : bool :=
  match p_exit_ts a, p_exit_ts b with
  | Some x, Some y => x <=? y
  | Some _, None => true
  | None, Some _ => false
  | None, None => true
  end.

Definition list_closed_positions (db : DB) : list PaperPositionRow :=
  sort_by exit_leb (List.filter (fun p => bool_decide (p_status p = CLOSED)) (positions db)).

(** The flush of changes made to the row object of position [id]. *)
Definition update_position (id : Z) (f : PaperPositionRow -> PaperPositionRow) (db : DB) : DB :=
  set_positions (map (fun p => if p_id p =? id then stored_position (f p) else p) (positions db)) db.

Definition save_snapshot (s : AccountSnapshotRow) (db : DB) : DB :=
  set_account_snapshots (account_snapshots db ++ [stored_snapshot s]) db.

Definition latest_snapshot (db : DB) : option AccountSnapshotRow :=
  latest_by sn_ts (account_snapshots db).
End Store.

(** ** [LedgerBroker] *)

(** [_d]. *)
Definition _d (x : float) : Decimal := dec_of_float x.

(** The broker object: its simulated wallet and its queue of pending order rows. *)
Record LedgerBroker := {
  lb_seed : Z;
  lb_paper : PaperBroker;
  lb_pending : list Z
}.

Definition set_paper (b : PaperBroker) (lb : LedgerBroker) : LedgerBroker :=
  {| lb_seed := lb_seed lb; lb_paper := b; lb_pending := lb_pending lb |}.
Definition set_pending (l : list Z) (lb : LedgerBroker) : LedgerBroker :=
  {| lb_seed := lb_seed lb; lb_paper := lb_paper lb; lb_pending := l |}.

Definition new_ledger_broker (start : float) (sd : Z) (params : CostParams) : LedgerBroker :=
  {| lb_seed := sd; lb_paper := new_broker start sd params; lb_pending := [] |}.

Definition lb_open_for (symbol : string) (lb : LedgerBroker) : option Position :=
  open_for (str_upper symbol) (book (lb_paper lb)).
Definition open_symbols (lb : LedgerBroker) : list string := map pos_symbol (book (lb_paper lb)).

Section Broker.
Context `{Platform}.

Definition total_open_notional (db : DB) : float :=
  fsum (map (fun r => dec_to_float (p_units r) *ᶠ dec_to_float (p_entry_price r))
            (load_open_position_rows db)).

Definition realized_pnl_since (start_ts end_ts : Z) (db : DB) : float :=
  dec_to_float (load_realized_pnl_since start_ts end_ts db).

Definition submit_paper_order (symbol timeframe : string) (direction : Direction)
    (ref_price : float) (ts : Z) (u : float) (decision_id : option Z)
    (stop_loss take_profit : option float) (lb : LedgerBroker) (db : DB)
  : Res (option PaperOrderRow * LedgerBroker * DB) :=
  let sym := str_upper symbol in
  if bool_decide (direction = FLAT) || (u <=ᶠ f0) then Ok (None, lb, db)
  else if match open_for sym (book (lb_paper lb)) with
          | Some pos => bool_decide (side pos = direction)
          | None => false
          end then Ok (None, lb, db)
  else if match decision_id with
          | Some d => existsb (fun id => match get_order id db with
                                         | Some o => bool_decide (o_decision_id o = Some d)
                                         | None => false
                                         end) (lb_pending lb)
          | None => false
          end then Ok (None, lb, db)
  else
    let '(id, db) := new_uuid db in
    let order := {| o_id := id; o_decision_id := decision_id; o_symbol := sym;
                    o_timeframe := timeframe; o_side := direction; o_status := PENDING;
                    o_units := _d u; o_requested_price := Some (_d ref_price);
                    o_filled_price := None; o_costs := dec_zero;
                    o_stop_loss := _d <$> stop_loss; o_take_profit := _d <$> take_profit;
                    o_seed := lb_seed lb; o_filled_at := None; o_created_at := db_now db |} in
    db <-- save_order order db ;;
    Ok (Some (stored_order order), set_pending (lb_pending lb ++ [id]) lb, db).

(** The position row of a fresh fill. *)
Definition position_row (id order_id now : Z) (pos : Position) : PaperPositionRow :=
  {| p_id := id; p_order_id := order_id; p_symbol := pos_symbol pos;
     p_timeframe := pos_timeframe pos; p_side := side pos; p_units := _d (units pos);
     p_entry_price := _d (entry_price pos); p_entry_ts := entry_ts pos;
     p_stop_loss := _d <$> pos_stop_loss pos; p_take_profit := _d <$> pos_take_profit pos;
     p_costs := _d (costs pos); p_status := OPEN; p_exit_price := None; p_exit_ts := None;
     p_exit_reason := None; p_gross_pnl := None; p_net_pnl := None; p_updated_at := now |}.

Definition mark_filled (pos : Position) (ts : Z) (o : PaperOrderRow) : PaperOrderRow :=
  {| o_id := o_id o; o_decision_id := o_decision_id o; o_symbol := o_symbol o;
     o_timeframe := o_timeframe o; o_side := o_side o; o_status := FILLED; o_units := o_units o;
     o_requested_price := o_requested_price o; o_filled_price := Some (_d (entry_price pos));
     o_costs := _d (costs pos); o_stop_loss := o_stop_loss o; o_take_profit := o_take_profit o;
     o_seed := o_seed o; o_filled_at := Some ts; o_created_at := o_created_at o |}.

Definition mark_cancelled (o : PaperOrderRow) : PaperOrderRow :=
  {| o_id := o_id o; o_decision_id := o_decision_id o; o_symbol := o_symbol o;
     o_timeframe := o_timeframe o; o_side := o_side o; o_status := CANCELLED; o_units := o_units o;
     o_requested_price := o_requested_price o; o_filled_price := o_filled_price o;
     o_costs := o_costs o; o_stop_loss := o_stop_loss o; o_take_profit := o_take_profit o;
     o_seed := o_seed o; o_filled_at := o_filled_at o; o_created_at := o_created_at o |}.

(** [[o for o in self._pending if o.id != order.id]]. *)
Definition drop_pending (id : Z) (l : list Z) : list Z := List.filter (fun i => negb (i =? id)) l.

(** The wallet after the fill that [fill_pending] asks for. *)
Definition filled_paper (o : PaperOrderRow) (open_price : float) (ts : Z) (b : PaperBroker)
  : PaperBroker :=
  enter_at_next_open (str_upper (o_symbol o)) (o_timeframe o) (o_side o) open_price ts
    (dec_to_float <$> o_stop_loss o) (dec_to_float <$> o_take_profit o)
    (Some (dec_to_float (o_units o))) (set_seed (o_seed o) b).

(** [fill_pending] on the row object of order [id]. *)
Definition fill_pending (id : Z) (open_price : float) (ts : Z) (lb : LedgerBroker) (db : DB)
  : Res (option PaperPositionRow * LedgerBroker * DB) :=
  match get_order id db with
  | None => Ok (None, lb, db)
  | Some order =>
      let sym := str_upper (o_symbol order) in
      if negb (is_pending order) then Ok (None, lb, db)
      else match open_for sym (book (lb_paper lb)) with
      | Some _ => Ok (None, lb, db)
      | None =>
          let paper := filled_paper order open_price ts (lb_paper lb) in
          let lb := set_paper paper lb in
          match open_for sym (book paper) with
          | None => Ok (None, lb, db)
          | Some pos =>
              let '(pid, db) := new_uuid db in
              let row := position_row pid id (db_now db) pos in
              let lb := set_pending (drop_pending id (lb_pending lb)) lb in
              let db := update_order id (mark_filled pos ts) db in
              db <-- save_position row db ;;
              Ok (Some (stored_position row), lb, db)
          end
      end
  end.

Definition cancel_pending (id : Z) (lb : LedgerBroker) (db : DB)
  : option PaperOrderRow * LedgerBroker * DB :=
  match get_order id db with
  | None => (None, lb, db)
  | Some order =>
      if negb (is_pending order) then (None, lb, db)
      else (Some (mark_cancelled order), set_pending (drop_pending id (lb_pending lb)) lb,
            update_order id mark_cancelled db)
  end.

(** The closing values [_persist_close] writes to the open row. *)
Definition mark_closed (t : Trade) (now : Z) (p : PaperPositionRow) : PaperPositionRow :=
  {| p_id := p_id p; p_order_id := p_order_id p; p_symbol := p_symbol p;
     p_timeframe := p_timeframe p; p_side := p_side p; p_units := p_units p;
     p_entry_price := p_entry_price p; p_entry_ts := p_entry_ts p; p_stop_loss := p_stop_loss p;
     p_take_profit := p_take_profit p; p_costs := _d (t_costs t); p_status := CLOSED;
     p_exit_price := Some (_d (t_exit_price t)); p_exit_ts := Some (t_exit_ts t);
     p_exit_reason := Some (t_exit_reason t); p_gross_pnl := Some (_d (t_gross_pnl t));
     p_net_pnl := Some (_d (t_net_pnl t)); p_updated_at := now |}.

Definition _persist_close (symbol : string) (t : Trade) (db : DB) : DB :=
  match get_open_position symbol db with
  | None => db
  | Some row => update_position (p_id row) (mark_closed t (db_now db)) db
  end.

Definition persist_trade (r : option Trade * PaperBroker) (lb : LedgerBroker) (db : DB)
  : option Trade * LedgerBroker * DB :=
  let '(t, paper) := r in
  (t, set_paper paper lb, match t with Some t => _persist_close (t_symbol t) t db | None => db end).

Definition lb_evaluate_exit (symbol : string) (close : float) (ts : Z) (lb : LedgerBroker) (db : DB)
  : option Trade * LedgerBroker * DB :=
  persist_trade (evaluate_exit symbol close ts (lb_paper lb)) lb db.

Definition lb_close_on_signal (symbol : string) (price : float) (ts : Z) (lb : LedgerBroker)
    (db : DB) : option Trade * LedgerBroker * DB :=
  persist_trade (close_on_signal symbol price ts (lb_paper lb)) lb db.

Definition lb_mark_position (symbol : string) (price : float) (lb : LedgerBroker) : LedgerBroker :=
  set_paper (mark_position symbol price (lb_paper lb)) lb.

Definition equity_snapshot (ts : Z) (lb : LedgerBroker) (db : DB) : LedgerBroker * DB :=
  let '(st, paper) := broker_state ts (lb_paper lb) in
  let realized := dec_sum (map (fun t => _d (t_net_pnl t)) (trades paper)) in
  (set_paper paper lb,
   save_snapshot {| sn_ts := ts; sn_cash := _d (bs_cash st); sn_equity := _d (bs_equity st);
                    sn_open_pnl := _d (bs_equity st -ᶠ bs_cash st); sn_realized_pnl := realized;
                    sn_peak_equity := _d (peak_equity paper);
                    sn_drawdown_pct := _d (max_drawdown_pct paper); sn_margin_used := dec_zero |} db).

(** A position and a trade rebuilt from their rows. *)
Definition _to_position (r : PaperPositionRow) : Position :=
  {| pos_symbol := p_symbol r; pos_timeframe := p_timeframe r; units := dec_to_float (p_units r);
     entry_price := dec_to_float (p_entry_price r); entry_ts := p_entry_ts r; side := p_side r;
     pos_stop_loss := dec_to_float <$> p_stop_loss r;
     pos_take_profit := dec_to_float <$> p_take_profit r; costs := dec_to_float (p_costs r) |}.

Definition dec_or (x : option Decimal) (dflt : Decimal) : Decimal :=
  match x with Some d => d | None => dflt end.

Definition row_to_trade (r : PaperPositionRow) : Trade :=
  {| t_symbol := p_symbol r; t_timeframe := p_timeframe r; t_side := p_side r;
     t_units := dec_to_float (p_units r); t_entry_ts := p_entry_ts r;
     t_entry_price := dec_to_float (p_entry_price r);
     t_exit_ts := match p_exit_ts r with Some t => t | None => p_updated_at r end;
     t_exit_price := dec_to_float (dec_or (p_exit_price r) (p_entry_price r));
     t_gross_pnl := dec_to_float (dec_or (p_gross_pnl r) dec_zero);
     t_costs := dec_to_float (p_costs r);
     t_net_pnl := dec_to_float (dec_or (p_net_pnl r) dec_zero);
     t_exit_reason := match p_exit_reason r with Some s => s | None => EXIT_SIGNAL end |}.

Definition restored_paper (b : PaperBroker) (db : DB) : PaperBroker :=
  let snap f dflt := match latest_snapshot db with Some s => dec_to_float (f s) | None => dflt end in
  let open_rows := list_open_positions db in
  {| start_equity := start_equity b; cash := snap sn_cash (cash b); seed := seed b;
     cost_params := cost_params b; equity := snap sn_equity (equity b);
     peak_equity := snap sn_peak_equity (peak_equity b);
     max_drawdown_pct := snap sn_drawdown_pct (max_drawdown_pct b);
     book := map _to_position open_rows;
     trades := map row_to_trade (list_closed_positions db);
     last_mark := foldl (fun m r => dset (p_symbol r) (dec_to_float (p_entry_price r)) m) [] open_rows |}.

Definition restore_state (lb : LedgerBroker) (db : DB) : LedgerBroker :=
  {| lb_seed := lb_seed lb; lb_paper := restored_paper (lb_paper lb) db;
     lb_pending := map o_id (sort_by order_leb (list_pending_orders db)) |}.
End Broker.

(** ** Histories *)

Inductive ledger_op :=
| Submit (symbol timeframe : string) (d : Direction) (ref : float) (ts : Z) (u : float)
         (decision_id : option Z) (sl tp : option float)
| Fill (id : Z) (open_price : float) (ts : Z)
| Cancel (id : Z)
| ExitAt (symbol : string) (close : float) (ts : Z)
| CloseAt (symbol : string) (price : float) (ts : Z)
| MarkAt (symbol : string) (price : float)
| SnapshotAt (ts : Z)
| RestoreState.

Section Histories.
Context `{Platform}.

Definition ledger_step (op : ledger_op) (lb : LedgerBroker) (db : DB) : Res (LedgerBroker * DB) :=
  match op with
  | Submit s tf d ref ts u id sl tp =>
      r <-- submit_paper_order s tf d ref ts u id sl tp lb db ;; Ok (r.1.2, r.2)
  | Fill id p ts => r <-- fill_pending id p ts lb db ;; Ok (r.1.2, r.2)
  | Cancel id => let '(_, lb, db) := cancel_pending id lb db in Ok (lb, db)
  | ExitAt s c ts => let '(_, lb, db) := lb_evaluate_exit s c ts lb db in Ok (lb, db)
  | CloseAt s p ts => let '(_, lb, db) := lb_close_on_signal s p ts lb db in Ok (lb, db)
  | MarkAt s p => Ok (lb_mark_position s p lb, db)
  | SnapshotAt ts => Ok (equity_snapshot ts lb db)
  | RestoreState => Ok (restore_state lb db, db)
  end.

Fixpoint ledger_run (ops : list ledger_op) (lb : LedgerBroker) (db : DB)
  : Res (LedgerBroker * DB) :=
  match ops with
  | [] => Ok (lb, db)
  | op :: ops => r <-- ledger_step op lb db ;; ledger_run ops r.1 r.2
  end.

(** Rows and ids of a consistent ledger. *)
Record ledger_inv (db : DB) : Prop := {
  inv_order_ids : NoDup (map o_id (orders_paper db));
  inv_decisions : NoDup (omap o_decision_id (orders_paper db));
  inv_position_ids : NoDup (map p_id (positions db));
  inv_open_symbols : NoDup (map p_symbol (list_open_positions db));
  inv_position_orders : NoDup (map p_order_id (positions db));
  inv_filled : forall p, p ∈ positions db -> exists o, o ∈ orders_paper db /\
     o_id o = p_order_id p /\ o_status o = FILLED /\ str_upper (o_symbol o) = p_symbol p;
  inv_fresh : forall n, (uuids db <= n)%nat ->
     uuid4 n ∉ map o_id (orders_paper db) /\ uuid4 n ∉ map p_id (positions db)
}.

(** The broker mirrors the ledger: same open symbols, same pending orders. *)
Record in_sync (lb : LedgerBroker) (db : DB) : Prop := {
  sync_open : open_symbols lb = map p_symbol (list_open_positions db);
  sync_pending : forall id, id ∈ lb_pending lb <->
     exists o, o ∈ orders_paper db /\ o_id o = id /\ o_status o = PENDING
}.

(** How rows evolve: only a PENDING order is filled or cancelled, only an OPEN
    position is closed, and rows are never removed. *)
Definition order_le (o o' : PaperOrderRow) : Prop :=
  o' = o \/
  (o_status o = PENDING /\ (o_status o' = FILLED \/ o_status o' = CANCELLED) /\
   o_id o' = o_id o /\ o_decision_id o' = o_decision_id o /\ o_symbol o' = o_symbol o /\
   o_timeframe o' = o_timeframe o /\ o_side o' = o_side o).
Definition position_le (p p' : PaperPositionRow) : Prop :=
  p' = p \/
  (p_status p = OPEN /\ p_status p' = CLOSED /\ p_id p' = p_id p /\
   p_order_id p' = p_order_id p /\ p_symbol p' = p_symbol p /\ p_side p' = p_side p /\
   p_entry_ts p' = p_entry_ts p).

Definition evolves (db db' : DB) : Prop :=
  (exists os new, orders_paper db' = os ++ new /\ Forall2 order_le (orders_paper db) os) /\
  (exists ps new, positions db' = ps ++ new /\ Forall2 position_le (positions db) ps).

Lemma order_le_trans o1 o2 o3 : order_le o1 o2 -> order_le o2 o3 -> order_le o1 o3.
Proof.
  intros [->|H1] [->|H2]; unfold order_le; [by left|by right|by right|].
  right. destruct H1 as (? & [?|?] & ?), H2 as (? & ? & ?); congruence.
Qed.
Lemma position_le_trans p1 p2 p3 : position_le p1 p2 -> position_le p2 p3 -> position_le p1 p3.
Proof.
  intros [->|H1] [->|H2]; unfold position_le; [by left|by right|by right|].
  right. destruct H1 as (? & ? & ?), H2 as (? & ? & ?); congruence.
Qed.

#[export] Instance order_le_refl : Reflexive order_le.
Proof. by left. Qed.
#[export] Instance position_le_refl : Reflexive position_le.
Proof. by left. Qed.
#[export] Instance order_le_transitive : Transitive order_le.
Proof. intros ???. apply order_le_trans. Qed.
#[export] Instance position_le_transitive : Transitive position_le.
Proof. intros ???. apply position_le_trans. Qed.

Lemma grows_trans {A} (R : relation A) `{!Transitive R} (l1 l2 l3 : list A) :
  (exists a b, l2 = a ++ b /\ Forall2 R l1 a) -> (exists a b, l3 = a ++ b /\ Forall2 R l2 a) ->
  exists a b, l3 = a ++ b /\ Forall2 R l1 a.
Proof.
  intros (a & b & -> & Ha) (c & d & -> & Hc).
  apply Forall2_app_inv_l in Hc as (c1 & c2 & H1 & H2 & ->).
  exists c1, (c2 ++ d). split; [by rewrite app_assoc|]. by etrans.
Qed.

Lemma evolves_refl db : evolves db db.
Proof. split; eexists _, []; rewrite app_nil_r; split; reflexivity. Qed.

Lemma evolves_trans db1 db2 db3 : evolves db1 db2 -> evolves db2 db3 -> evolves db1 db3.
Proof. intros [O1 P1] [O2 P2]. split; (eapply grows_trans; [apply _|eassumption..]). Qed.

(** Updating one order by id. *)
Lemma update_order_le id f l :
  (forall o, o ∈ l -> o_id o = id -> order_le o (stored_order (f o))) ->
  Forall2 order_le l (map (fun o => if o_id o =? id then stored_order (f o) else o) l).
Proof.
  induction l as [|o l IH]; intros Hl; simpl; constructor.
  - destruct (Z.eqb_spec (o_id o) id) as [E|]; [|by left]. apply Hl; [by left|done].
  - apply IH. intros. apply Hl; [by right|done].
Qed.

Lemma get_order_Some id db o : get_order id db = Some o ->
  o ∈ orders_paper db /\ o_id o = id.
Proof.
  intros [Hin Hid]%List.find_some. split; [by apply list_elem_of_In|by apply Z.eqb_eq].
Qed.

(** *** Orders *)

Definition keeps_identity (f : PaperOrderRow -> PaperOrderRow) : Prop :=
  forall o, o_id (f o) = o_id o /\ o_decision_id (f o) = o_decision_id o /\
    o_symbol (f o) = o_symbol o /\ o_timeframe (f o) = o_timeframe o /\ o_side (f o) = o_side o.

Definition updated (id : Z) (f : PaperOrderRow -> PaperOrderRow) (l : list PaperOrderRow) :=
  map (fun o => if o_id o =? id then stored_order (f o) else o) l.

Lemma updated_ids id f l : keeps_identity f -> map o_id (updated id f l) = map o_id l.
Proof.
  intros Hf. induction l as [|o l IH]; simpl; [done|]. rewrite IH. f_equal.
  destruct (o_id o =? id); [apply (Hf o)|done].
Qed.

Lemma updated_decisions id f l :
  keeps_identity f -> omap o_decision_id (updated id f l) = omap o_decision_id l.
Proof.
  intros Hf. apply list_omap_ext. unfold updated.
  induction l as [|o l IH]; simpl; constructor; [|done].
  destruct (o_id o =? id); [apply (Hf o)|done].
Qed.

Lemma elem_of_updated id f l o : o ∈ updated id f l <->
  exists x, x ∈ l /\ o = if o_id x =? id then stored_order (f x) else x.
Proof. unfold updated. rewrite list_elem_of_fmap. naive_solver. Qed.

Lemma updated_keep id f l o : o ∈ l -> o_id o <> id -> o ∈ updated id f l.
Proof.
  intros Ho Hne. apply elem_of_updated. exists o. split; [done|].
  by destruct (Z.eqb_spec (o_id o) id).
Qed.

(** Ending a PENDING order takes it, and only it, out of the pending set. *)
Lemma ended_pending id f l st :
  keeps_identity f -> (forall o, o_status (f o) = st) -> st <> PENDING ->
  forall i, (exists o, o ∈ updated id f l /\ o_id o = i /\ o_status o = PENDING) <->
            i <> id /\ exists o, o ∈ l /\ o_id o = i /\ o_status o = PENDING.
Proof.
  intros Hf Hst Hne i. split.
  - intros (o & (x & Hx & ->)%elem_of_updated & Hi & Hp).
    destruct (Z.eqb_spec (o_id x) id) as [E|E].
    + simpl in Hp. rewrite Hst in Hp. done.
    + split; [congruence|]. eauto.
  - intros (Hi & o & Ho & Hid & Hp). exists o. split; [|done]. apply updated_keep; congruence.
Qed.

Lemma elem_of_drop_pending id l i : i ∈ drop_pending id l <-> i <> id /\ i ∈ l.
Proof.
  unfold drop_pending. rewrite list_elem_of_In, List.filter_In, <- list_elem_of_In,
    negb_true_iff, Z.eqb_neq. tauto.
Qed.

(** The invariant only reads orders, positions and drawn ids. *)
Lemma ledger_inv_ext db db' :
  orders_paper db' = orders_paper db -> positions db' = positions db ->
  (uuids db <= uuids db')%nat -> ledger_inv db -> ledger_inv db'.
Proof.
  intros Ho Hp Hu [H1 H2 H3 H4 H5 H6 H7].
  split; unfold list_open_positions; rewrite ?Ho, ?Hp; try done. intros n Hn. apply H7. lia.
Qed.

Lemma in_sync_ext lb lb' db db' :
  orders_paper db' = orders_paper db -> positions db' = positions db ->
  open_symbols lb' = open_symbols lb -> lb_pending lb' = lb_pending lb ->
  in_sync lb db -> in_sync lb' db'.
Proof.
  intros Ho Hp Hs Hl [H1 H2]. split; unfold list_open_positions; rewrite ?Ho, ?Hp, ?Hs, ?Hl; done.
Qed.

Lemma ended_inv id f st db o :
  ledger_inv db -> keeps_identity f -> (forall o, o_status (f o) = st) ->
  get_order id db = Some o -> o_status o = PENDING ->
  ledger_inv (update_order id f db).
Proof.
  intros [H1 H2 H3 H4 H5 H6 H7] Hf Hst [Hin Hid]%get_order_Some Hp.
  split; simpl; try done; fold (updated id f (orders_paper db)).
  - by rewrite updated_ids.
  - by rewrite updated_decisions.
  - intros p Hpp. destruct (H6 p Hpp) as (x & Hx & Hxid & Hxs & Hxy). exists x.
    split; [|done]. apply updated_keep; [done|].
    intros E. assert (x = o) by (eapply unique_by; [exact H1|done|done|congruence]). congruence.
  - intros n Hn. rewrite updated_ids by done. by apply H7.
Qed.

Lemma update_evolves id f db o :
  NoDup (map o_id (orders_paper db)) ->
  get_order id db = Some o -> order_le o (stored_order (f o)) ->
  evolves db (update_order id f db).
Proof.
  intros Hn [Hin Hid]%get_order_Some Hle. split.
  - eexists _, []. rewrite app_nil_r. split; [reflexivity|]. apply update_order_le.
    intros x Hx Hxid. assert (x = o) as -> by (eapply unique_by; [exact Hn|done|done|congruence]). done.
  - eexists _, []. rewrite app_nil_r. split; reflexivity.
Qed.

Lemma mark_cancelled_keeps : keeps_identity mark_cancelled.
Proof. done. Qed.
Lemma mark_filled_keeps pos ts : keeps_identity (mark_filled pos ts).
Proof. done. Qed.

Lemma is_pending_true o : is_pending o = true <-> o_status o = PENDING.
Proof. unfold is_pending. by rewrite bool_decide_eq_true. Qed.

(** *** Cancelling and submitting *)

Lemma cancel_step id lb db :
  ledger_inv db -> in_sync lb db ->
  let '(_, lb', db') := cancel_pending id lb db in
  ledger_inv db' /\ in_sync lb' db' /\ evolves db db'.
Proof.
  intros Hi Hs. unfold cancel_pending. destruct (get_order id db) as [o|] eqn:Eo;
    [|by split_and!; try apply evolves_refl].
  destruct (is_pending o) eqn:Ep; [|by split_and!; try apply evolves_refl]. simpl.
  apply is_pending_true in Ep. split_and!.
  - by eapply (ended_inv id mark_cancelled CANCELLED).
  - destruct Hs as [Hs1 Hs2]. split; [done|]. intros i. simpl.
    rewrite elem_of_drop_pending, Hs2.
    symmetry. by apply (ended_pending id mark_cancelled (orders_paper db) CANCELLED).
  - eapply update_evolves; [apply Hi|done|]. right. by auto 10.
Qed.

Lemma NoDup_app_fresh {A} (l : list A) x : NoDup l -> x ∉ l -> NoDup (l ++ [x]).
Proof.
  intros Hn Hx. apply NoDup_app. split_and!; [done| |apply NoDup_singleton].
  intros y Hy ->%list_elem_of_singleton. done.
Qed.

Context `{!PlatformOk}.

Lemma fresh_next n m : (S n <= m)%nat -> uuid4 n <> uuid4 m.
Proof. intros Hm E. apply uuid4_inj in E. lia. Qed.

Lemma submit_step s tf d ref ts u id sl tp lb db r lb' db' :
  submit_paper_order s tf d ref ts u id sl tp lb db = Ok (r, lb', db') ->
  ledger_inv db -> in_sync lb db ->
  ledger_inv db' /\ in_sync lb' db' /\ evolves db db' /\
  lb_paper lb' = lb_paper lb /\ positions db' = positions db /\
  match r with
  | None => db' = db /\ lb' = lb
  | Some o => o_status o = PENDING /\ o_side o = d /\ o_symbol o = str_upper s /\
      o_decision_id o = id /\ orders_paper db' = orders_paper db ++ [o] /\
      lb_pending lb' = lb_pending lb ++ [o_id o]
  end.
Proof.
  intros Hs Hi Hy. unfold submit_paper_order in Hs.
  destruct (_ || _); [simplify_eq; split_and!; auto using evolves_refl|].
  destruct (match open_for _ _ with Some _ => _ | None => _ end);
    [simplify_eq; split_and!; auto using evolves_refl|].
  destruct (match id with Some _ => _ | None => _ end);
    [simplify_eq; split_and!; auto using evolves_refl|].
  cbn [new_uuid] in Hs. apply res_bind_ok in Hs as (db1 & Hsv & Hs). unfold save_order in Hsv.
  destruct (decision_taken _ _) eqn:Et; [done|]. simplify_eq. simpl in *.
  destruct Hi as [H1 H2 H3 H4 H5 H6 H7]. destruct Hy as [Hy1 Hy2]. split_and!; try done.
  - split; simpl; try done.
    + rewrite map_app. apply NoDup_app_fresh; [done|]. by apply (H7 (uuids db)).
    + rewrite omap_app. simpl. destruct id as [i|]; simpl; [|by rewrite app_nil_r].
      apply NoDup_app_fresh; [done|]. intros (o & Ho & Hid)%list_elem_of_omap.
      simpl in Et. apply not_true_iff_false in Et. apply Et, existsb_exists.
      exists o. split; [by apply list_elem_of_In|by apply bool_decide_eq_true].
    + intros p Hp. destruct (H6 p Hp) as (o & Ho & ?). exists o.
      split; [apply elem_of_app; by left|done].
    + intros n Hn. destruct (H7 n) as [Ha Hb]; [lia|]. split; [|done].
      rewrite map_app, elem_of_app. intros [?|Hc]; [done|]. simpl in Hc.
      apply list_elem_of_singleton in Hc. symmetry in Hc. by apply fresh_next in Hc.
  - split; [done|]. intros i. simpl. rewrite elem_of_app, Hy2, list_elem_of_singleton.
    setoid_rewrite elem_of_app. setoid_rewrite list_elem_of_singleton. naive_solver.
  - split; simpl; [eexists _, [_]; split; reflexivity|].
    eexists _, []. rewrite app_nil_r. split; reflexivity.
Qed.

(** *** Positions *)

Fixpoint remove_first (s : string) (l : list string) : list string :=
  match l with
  | [] => []
  | x :: l' => if String.eqb x s then l' else x :: remove_first s l'
  end.

Lemma close_position_removes s ps :
  map pos_symbol (close_position s ps) = remove_first s (map pos_symbol ps).
Proof.
  induction ps as [|p ps IH]; simpl; [done|]. destruct (String.eqb _ _); simpl; by rewrite ?IH.
Qed.

Definition closed_rows (id : Z) (t : Trade) (now : Z) (l : list PaperPositionRow) :=
  map (fun p => if p_id p =? id then stored_position (mark_closed t now p) else p) l.

Lemma closed_rows_other id t now l :
  id ∉ map p_id l -> closed_rows id t now l = l.
Proof.
  induction l as [|p l IH]; simpl; [done|]. rewrite not_elem_of_cons. intros [Hp Hl].
  rewrite IH by done. by destruct (Z.eqb_spec (p_id p) id).
Qed.

Lemma closed_rows_keys id t now l :
  map p_id (closed_rows id t now l) = map p_id l /\
  map p_order_id (closed_rows id t now l) = map p_order_id l /\
  map p_symbol (closed_rows id t now l) = map p_symbol l.
Proof.
  induction l as [|p l (IH1 & IH2 & IH3)]; simpl; [done|].
  rewrite IH1, IH2, IH3. by destruct (p_id p =? id).
Qed.

Lemma closed_rows_open id t now l s r :
  NoDup (map p_id l) ->
  List.find (fun p => is_open p && String.eqb (p_symbol p) s) l = Some r -> p_id r = id ->
  map p_symbol (List.filter is_open (closed_rows id t now l))
  = remove_first s (map p_symbol (List.filter is_open l)).
Proof.
  intros Hn Hf Hid. induction l as [|p l IH]; simpl in *; [done|].
  apply NoDup_cons in Hn as [Hp Hn].
  destruct (is_open p) eqn:Eo, (String.eqb (p_symbol p) s) eqn:Es; simpl in Hf.
  - injection Hf as ->. rewrite Hid, Z.eqb_refl. cbn [List.filter]. simpl. rewrite Es.
    fold (closed_rows id t now l). rewrite closed_rows_other by congruence. done.
  - assert (p_id p <> id) as Hne.
    { intros E. apply Hp. apply List.find_some in Hf as [Hin _]. rewrite E, <- Hid.
      apply list_elem_of_fmap_2. by apply list_elem_of_In. }
    destruct (Z.eqb_spec (p_id p) id); [done|]. rewrite Eo. simpl. rewrite Es. f_equal. by apply IH.
  - assert (p_id p <> id) as Hne.
    { intros E. apply Hp. apply List.find_some in Hf as [Hin _]. rewrite E, <- Hid.
      apply list_elem_of_fmap_2. by apply list_elem_of_In. }
    destruct (Z.eqb_spec (p_id p) id); [done|]. rewrite Eo. by apply IH.
  - assert (p_id p <> id) as Hne.
    { intros E. apply Hp. apply List.find_some in Hf as [Hin _]. rewrite E, <- Hid.
      apply list_elem_of_fmap_2. by apply list_elem_of_In. }
    destruct (Z.eqb_spec (p_id p) id); [done|]. rewrite Eo. by apply IH.
Qed.

Lemma open_row_upper db p : ledger_inv db -> p ∈ positions db -> str_upper (p_symbol p) = p_symbol p.
Proof. intros Hi Hp. destruct (inv_filled _ Hi p Hp) as (o & _ & _ & _ & <-). apply str_upper_idem. Qed.

Lemma elem_of_open db p : p ∈ list_open_positions db <-> p ∈ positions db /\ p_status p = OPEN.
Proof.
  unfold list_open_positions, is_open.
  rewrite list_elem_of_In, List.filter_In, <- list_elem_of_In, bool_decide_eq_true. done.
Qed.

Lemma get_open_row db s : ledger_inv db -> s ∈ map p_symbol (list_open_positions db) ->
  exists r, get_open_position s db = Some r /\ p_symbol r = s /\ r ∈ positions db /\
    p_status r = OPEN /\ str_upper s = s.
Proof.
  intros Hi (p & -> & Hp)%list_elem_of_fmap. apply elem_of_open in Hp as [Hp Ho].
  pose proof (open_row_upper _ _ Hi Hp) as Hu. unfold get_open_position. rewrite Hu.
  destruct (List.find _ _) as [r|] eqn:E.
  - exists r. apply List.find_some in E as [Hin Hr]. apply andb_prop in Hr as [Hr1 Hr2].
    apply bool_decide_eq_true in Hr1. apply String.eqb_eq in Hr2.
    split_and!; try done. by apply list_elem_of_In.
  - exfalso. apply (List.find_none _ _) with (x := p) in E; [|by apply list_elem_of_In].
    rewrite String.eqb_refl in E. unfold is_open in E. by rewrite bool_decide_true in E.
Qed.

(** Persisting a close keeps the ledger consistent and closes exactly that symbol. *)
Lemma persist_close_step t db :
  ledger_inv db -> t_symbol t ∈ map p_symbol (list_open_positions db) ->
  let db' := _persist_close (t_symbol t) t db in
  ledger_inv db' /\ evolves db db' /\ orders_paper db' = orders_paper db /\
  map p_symbol (list_open_positions db') = remove_first (t_symbol t) (map p_symbol (list_open_positions db)).
Proof.
  intros Hi Hin db'. destruct (get_open_row _ _ Hi Hin) as (r & Hr & Hrs & Hrp & Hro & Hup).
  unfold db', _persist_close. rewrite Hr.
  assert (Hopen : map p_symbol (List.filter is_open (closed_rows (p_id r) t (db_now db) (positions db)))
     = remove_first (t_symbol t) (map p_symbol (List.filter is_open (positions db)))).
  { apply (closed_rows_open _ _ _ _ _ r); [apply Hi| |done].
    unfold get_open_position in Hr. by rewrite Hup in Hr. }
  destruct (closed_rows_keys (p_id r) t (db_now db) (positions db)) as (K1 & K2 & K3).
  destruct Hi as [H1 H2 H3 H4 H5 H6 H7]. split_and!; try done.
  - split; simpl; fold (closed_rows (p_id r) t (db_now db) (positions db)); try done.
    + by rewrite K1.
    + unfold list_open_positions. simpl. fold (closed_rows (p_id r) t (db_now db) (positions db)).
      rewrite Hopen. unfold list_open_positions in H4. clear -H4.
      induction (map p_symbol (List.filter is_open (positions db))) as [|x l IH]; simpl; [constructor|].
      apply NoDup_cons in H4 as [Hx Hl]. destruct (String.eqb x (t_symbol t)); [done|].
      apply NoDup_cons. split; [|by apply IH]. intros Hc. apply Hx.
      clear -Hc. induction l as [|y l IH]; simpl in *; [done|].
      destruct (String.eqb y (t_symbol t)); [by right|].
      apply elem_of_cons in Hc as [->|Hc]; [by left|right; by apply IH].
    + by rewrite K2.
    + intros p Hp. apply list_elem_of_fmap in Hp as (q & -> & Hq).
      destruct (H6 q Hq) as (o & Ho). exists o. by destruct (p_id q =? p_id r).
    + intros n Hn. rewrite K1. by apply H7.
  - split.
    + eexists _, []. rewrite app_nil_r. split; reflexivity.
    + eexists _, []. rewrite app_nil_r. split; [reflexivity|]. simpl.
      assert (Hall : forall q, q ∈ positions db -> p_id q = p_id r -> q = r)
        by (intros; by eapply (unique_by p_id)).
      clear -Hall Hro. induction (positions db) as [|q l IH]; simpl; constructor.
      * destruct (Z.eqb_spec (p_id q) (p_id r)) as [E|]; [|by left].
        rewrite (Hall q) by (done || by left). right. by split_and!.
      * apply IH. intros. apply Hall; [by right|done].
Qed.

(** What an exit of the wallet does to the book. *)
Definition exit_shape (r : option Trade * PaperBroker) (b : PaperBroker) : Prop :=
  match r.1 with
  | None => r.2 = b
  | Some t => (exists pos, open_for (t_symbol t) (book b) = Some pos) /\
      map pos_symbol (book r.2) = remove_first (t_symbol t) (map pos_symbol (book b))
  end.

Lemma evaluate_exit_shape s c ts b : exit_shape (evaluate_exit s c ts b) b.
Proof.
  unfold evaluate_exit, exit_shape. destruct (open_for s (book b)) as [pos|] eqn:E; [|done].
  destruct (exit_price_for _ _ _ _) as [[x r] []]; simpl; [|done].
  split; [eauto|]. apply close_position_removes.
Qed.

Lemma close_on_signal_shape s p ts b : exit_shape (close_on_signal s p ts b) b.
Proof.
  unfold close_on_signal, exit_shape. destruct (open_for s (book b)) as [pos|] eqn:E; [|done].
  simpl. split; [eauto|]. apply close_position_removes.
Qed.

Lemma persist_trade_step r lb db :
  exit_shape r (lb_paper lb) -> ledger_inv db -> in_sync lb db ->
  let '(_, lb', db') := persist_trade r lb db in
  ledger_inv db' /\ in_sync lb' db' /\ evolves db db'.
Proof.
  intros Hr Hi Hs. destruct r as [[t|] paper]; unfold persist_trade, exit_shape in *; simpl in *.
  - destruct Hr as [[pos Hpos] Hb].
    assert (Hin : t_symbol t ∈ map p_symbol (list_open_positions db)).
    { rewrite <- (sync_open _ _ Hs). apply open_for_Some in Hpos as [Hp Hsym].
      rewrite <- Hsym. by apply list_elem_of_fmap_2. }
    destruct (persist_close_step t db Hi Hin) as (Hi' & He & Ho & Hop). split_and!; [done| |done].
    destruct Hs as [Hs1 Hs2]. split.
    + rewrite Hop. unfold open_symbols in *. simpl. by rewrite Hb, Hs1.
    + intros i. simpl. rewrite Hs2. by rewrite Ho.
  - subst paper. split_and!; [done| |apply evolves_refl].
    by destruct Hs; split.
Qed.

(** *** Filling *)

Lemma enter_book s tf d p ts sl tp u b :
  book (enter_at_next_open s tf d p ts sl tp u b) = book b \/
  (exists pos, book (enter_at_next_open s tf d p ts sl tp u b) = book b ++ [pos] /\
     open_for s (book b) = None /\ pos_symbol pos = s /\ side pos = d /\
     pos_timeframe pos = tf /\ entry_ts pos = ts /\ entry_price pos = p).
Proof.
  unfold enter_at_next_open. destruct u as [n|]; [|by left]. destruct (_ || _); [by left|].
  destruct (open_for s (book b)) eqn:E; [by left|]. right. eexists. split; [reflexivity|]. by split_and!.
Qed.

Lemma save_position_ok row db :
  p_symbol row ∉ map p_symbol (list_open_positions db) ->
  save_position row db = Ok (set_positions (positions db ++ [stored_position row]) db).
Proof.
  intros Hn. unfold save_position. destruct (is_open row); [|done]. simpl.
  destruct (existsb _ _) eqn:E; [|done]. exfalso. apply Hn.
  apply existsb_exists in E as (q & Hq & Hb). apply andb_prop in Hb as [Ho Hs].
  apply String.eqb_eq in Hs. rewrite <- Hs. apply list_elem_of_fmap_2. apply elem_of_open.
  unfold is_open in Ho. apply bool_decide_eq_true in Ho. split; [by apply list_elem_of_In|done].
Qed.

Lemma fill_step id price ts lb db :
  ledger_inv db -> in_sync lb db ->
  exists r lb' db', fill_pending id price ts lb db = Ok (r, lb', db') /\
    ledger_inv db' /\ in_sync lb' db' /\ evolves db db' /\
    match r with
    | None => orders_paper db' = orders_paper db /\ positions db' = positions db
    | Some p => exists o, get_order id db = Some o /\ o_status o = PENDING /\
        p_order_id p = id /\ p_status p = OPEN /\ p_symbol p = str_upper (o_symbol o) /\
        p_side p = o_side o /\ p_entry_ts p = ts /\ positions db' = positions db ++ [p] /\
        (forall x, x ∈ orders_paper db' -> o_id x = id -> o_status x = FILLED)
    end.
Proof.
  intros Hi Hs. unfold fill_pending.
  assert (Hnone : forall lb', open_symbols lb' = open_symbols lb -> lb_pending lb' = lb_pending lb ->
    exists r lb'' db', Ok (None, lb', db) = Ok (r, lb'', db') /\ ledger_inv db' /\ in_sync lb'' db' /\
      evolves db db' /\ match r with
      | None => orders_paper db' = orders_paper db /\ positions db' = positions db
      | Some p => exists o, get_order id db = Some o /\ o_status o = PENDING /\
        p_order_id p = id /\ p_status p = OPEN /\ p_symbol p = str_upper (o_symbol o) /\
        p_side p = o_side o /\ p_entry_ts p = ts /\ positions db' = positions db ++ [p] /\
        (forall x, x ∈ orders_paper db' -> o_id x = id -> o_status x = FILLED) end).
  { intros lb' H1 H2. eexists _, _, _. split; [reflexivity|]. split_and!; try done;
      [by eapply in_sync_ext|apply evolves_refl]. }
  destruct (get_order id db) as [o|] eqn:Eo; [|by apply Hnone].
  destruct (is_pending o) eqn:Ep; [|by apply Hnone]. apply is_pending_true in Ep. cbn [negb].
  destruct (open_for _ (book (lb_paper lb))) as [q|] eqn:Eq; [by apply Hnone|].
  set (paper := filled_paper o price ts (lb_paper lb)).
  assert (Hbook : book paper = book (lb_paper lb) \/
    exists pos, pos_symbol pos = str_upper (o_symbol o) /\ side pos = o_side o /\ entry_ts pos = ts /\
      book paper = book (lb_paper lb) ++ [pos]).
  { unfold paper, filled_paper.
    destruct (enter_book (str_upper (o_symbol o)) (o_timeframe o) (o_side o) price ts
      (dec_to_float <$> o_stop_loss o) (dec_to_float <$> o_take_profit o)
      (Some (dec_to_float (o_units o))) (set_seed (o_seed o) (lb_paper lb)))
      as [->|(pos & -> & _ & ? & ? & _ & ? & _)]; [by left|right; exists pos; by split_and!]. }
  destruct Hbook as [Hb|(pos & Hps & Hpd & Hpt & Hb)].
  { rewrite Hb, Eq. apply Hnone; [|done]. unfold open_symbols. simpl. by rewrite Hb. }
  rewrite Hb, open_for_app, Eq, Hps, String.eqb_refl. cbn [new_uuid].
  assert (Hnotin : pos_symbol pos ∉ map p_symbol (list_open_positions db)).
  { rewrite <- (sync_open _ _ Hs), Hps. by apply open_for_None. }
  rewrite save_position_ok by done. simpl.
  eexists _, _, _. split; [reflexivity|].
  pose proof (get_order_Some _ _ _ Eo) as [Hin Hid].
  assert (Hi1 : ledger_inv (update_order id (mark_filled pos ts) (set_uuids (S (uuids db)) db))).
  { eapply (ended_inv id (mark_filled pos ts) FILLED); [|done|done|exact Eo|done].
    eapply ledger_inv_ext; [..|exact Hi]; simpl; try done; lia. }
  assert (Hfilled : forall x, x ∈ updated id (mark_filled pos ts) (orders_paper db) -> o_id x = id ->
            o_status x = FILLED).
  { intros x (y & Hy & ->)%elem_of_updated Hx. destruct (Z.eqb_spec (o_id y) id); done. }
  split_and!.
  - destruct Hi1 as [I1 I2 I3 I4 I5 I6 I7]. split; simpl in *; try done.
    + rewrite map_app. apply NoDup_app_fresh; [done|]. by apply (inv_fresh _ Hi (uuids db)).
    + unfold list_open_positions in *. simpl in *. rewrite List.filter_app, map_app. simpl.
      by apply NoDup_app_fresh.
    + rewrite map_app. apply NoDup_app_fresh; [done|]. simpl.
      intros (p & Hpo & Hpp)%list_elem_of_fmap. destruct (inv_filled _ Hi p Hpp) as (x & Hx & Hxi & Hxs & _).
      assert (x = o) by (eapply (unique_by o_id); [apply Hi|done|done|congruence]). congruence.
    + intros p [Hp|Hp]%elem_of_app; [by apply I6|]. apply list_elem_of_singleton in Hp as ->. simpl.
      exists (stored_order (mark_filled pos ts o)). split_and!; try done.
      * apply elem_of_updated. exists o. split; [done|]. by rewrite Hid, Z.eqb_refl.
    + intros n Hn. destruct (I7 n Hn) as [Ha Hb']. split; [done|].
      rewrite map_app, elem_of_app. intros [?|Hc]; [done|]. simpl in Hc.
      apply list_elem_of_singleton in Hc. symmetry in Hc. by apply fresh_next in Hc.
  - destruct Hs as [Hs1 Hs2]. split; simpl.
    + unfold open_symbols, list_open_positions in *. simpl in *.
      rewrite Hb, List.filter_app, !map_app, Hs1. done.
    + intros i. rewrite elem_of_drop_pending, Hs2. symmetry.
      by apply (ended_pending id (mark_filled pos ts) (orders_paper db) FILLED).
  - eapply evolves_trans.
    + eapply (update_evolves id (mark_filled pos ts) db o); [apply Hi|done|right; by auto 10].
    + split; simpl; [eexists _, []; rewrite app_nil_r; split; reflexivity|].
      eexists _, [_]. split; reflexivity.
  - exists o. by split_and!.
Qed.

(** *** Restoring *)

Lemma map_to_position rows : map pos_symbol (map _to_position rows) = map p_symbol rows.
Proof. rewrite map_map. done. Qed.

#[export] Instance order_leb_total : TotalLeb order_leb.
Proof.
  split; unfold order_leb; intros; rewrite ?orb_true_iff, ?andb_true_iff, ?Z.ltb_lt, ?Z.eqb_eq, ?Z.leb_le in *; lia.
Qed.

Lemma elem_of_pending db o : o ∈ list_pending_orders db <-> o ∈ orders_paper db /\ o_status o = PENDING.
Proof.
  unfold list_pending_orders. rewrite elem_of_sort_by, list_elem_of_In, List.filter_In,
    <- list_elem_of_In, is_pending_true. done.
Qed.

Lemma restore_sync lb db : in_sync (restore_state lb db) db.
Proof.
  split; simpl.
  - unfold open_symbols. simpl. apply map_to_position.
  - intros id. rewrite list_elem_of_fmap. setoid_rewrite elem_of_sort_by.
    setoid_rewrite elem_of_pending. naive_solver.
Qed.

(** One broker operation on a consistent ledger. *)
Lemma ledger_step_spec op lb db :
  ledger_inv db -> in_sync lb db ->
  match ledger_step op lb db with
  | Ok (lb', db') => ledger_inv db' /\ in_sync lb' db' /\ evolves db db'
  | Err e => e = IntegrityError /\
      exists s tf d ref ts u i sl tp, op = Submit s tf d ref ts u (Some i) sl tp /\
        decision_taken (Some i) db = true
  end.
Proof.
  intros Hi Hs. destruct op as [s tf d ref ts u id sl tp|id p ts|id|s c ts|s p ts|s p|ts|]; cbn [ledger_step].
  - destruct (submit_paper_order _ _ _ _ _ _ _ _ _ _ _) as [[[r lb'] db']|e] eqn:E; simpl.
    + by destruct (submit_step _ _ _ _ _ _ _ _ _ _ _ _ _ _ E Hi Hs) as (? & ? & ? & _).
    + unfold submit_paper_order in E. destruct (_ || _); [done|].
      destruct (match open_for _ _ with Some _ => _ | None => _ end); [done|].
      destruct (match id with Some _ => _ | None => _ end); [done|].
      cbn [new_uuid] in E. unfold save_order in E. simpl in E.
      destruct id as [i|]; simpl in E; [|done].
      destruct (existsb _ (orders_paper db)) eqn:Et; simpl in E; [|done]. injection E as <-.
      split; [done|]. by eexists _, _, _, _, _, _, _, _, _.
  - destruct (fill_step id p ts lb db Hi Hs) as (r & lb' & db' & -> & ? & ? & ? & _). done.
  - pose proof (cancel_step id lb db Hi Hs) as Hc.
    destruct (cancel_pending id lb db) as [[o lb'] db']. done.
  - pose proof (persist_trade_step _ lb db (evaluate_exit_shape s c ts (lb_paper lb)) Hi Hs) as Hc.
    unfold lb_evaluate_exit. destruct (persist_trade _ _ _) as [[o lb'] db']. done.
  - pose proof (persist_trade_step _ lb db (close_on_signal_shape s p ts (lb_paper lb)) Hi Hs) as Hc.
    unfold lb_close_on_signal. destruct (persist_trade _ _ _) as [[o lb'] db']. done.
  - split_and!; [done|by destruct Hs; split|apply evolves_refl].
  - unfold equity_snapshot. destruct (broker_state _ _) as [st paper] eqn:E. split_and!.
    + by apply (ledger_inv_ext db).
    + destruct Hs as [H1 H2]. split; [|done]. unfold open_symbols in *. simpl.
      unfold broker_state in E. injection E as _ <-. done.
    + apply (evolves_refl db).
  - split_and!; [done|apply restore_sync|apply evolves_refl].
Qed.

Lemma ledger_run_spec (ops : list ledger_op) (lb : LedgerBroker) (db : DB) :
  ledger_inv db -> in_sync lb db ->
  match ledger_run ops lb db with
  | Ok (lb', db') => ledger_inv db' /\ in_sync lb' db' /\ evolves db db'
  | Err e => e = IntegrityError
  end.
Proof.
  revert lb db. induction ops as [|op ops IH]; intros lb db Hi Hs; simpl.
  { split_and!; [done|done|apply evolves_refl]. }
  pose proof (ledger_step_spec op lb db Hi Hs) as Hstep.
  destruct (ledger_step op lb db) as [[lb1 db1]|e]; simpl; [|by destruct Hstep].
  destruct Hstep as (Hi1 & Hs1 & He1). specialize (IH lb1 db1 Hi1 Hs1).
  destruct (ledger_run ops lb1 db1) as [[lb' db']|e]; [|done].
  destruct IH as (? & ? & ?). split_and!; try done. by eapply evolves_trans.
Qed.

(** C2: the ledger and its broker stay consistent.  Whatever sequence of broker
    operations succeeds on a consistent ledger, afterwards at most one position is
    open per symbol, no two orders share a decision, every position belongs to one
    FILLED order of its symbol, the broker's open symbols and pending queue are
    those of the tables, and rows only moved forward: PENDING orders were filled or
    cancelled, OPEN positions closed, nothing else changed.  The only operation
    that can fail is submitting an order for a decision that already has one. *)
Theorem ledger_consistent (ops : list ledger_op) (lb : LedgerBroker) (db : DB) :
  ledger_inv db -> in_sync lb db ->
  match ledger_run ops lb db with
  | Ok (lb', db') =>
      ledger_inv db' /\ evolves db db' /\
      NoDup (map p_symbol (list_open_positions db')) /\
      NoDup (omap o_decision_id (orders_paper db')) /\
      open_symbols lb' = map p_symbol (list_open_positions db') /\
      (forall id, id ∈ lb_pending lb' <-> id ∈ map o_id (list_pending_orders db'))
  | Err e => e = IntegrityError
  end.
Proof.
  intros Hi Hs.
  pose proof (ledger_run_spec ops lb db Hi Hs) as Hrun.
  destruct (ledger_run _ _ _) as [[lb' db']|e]; [|done]. destruct Hrun as (Hi' & Hs' & He).
  split_and!; try done; [apply Hi'|apply Hi'|apply Hs'|].
  intros id. rewrite (sync_pending _ _ Hs'), list_elem_of_fmap.
  setoid_rewrite elem_of_pending. naive_solver.
Qed.

(** A snapshot newer than all others is the latest. *)
Lemma latest_snapshot_appended (sn : AccountSnapshotRow) (db : DB) :
  (forall s, s ∈ account_snapshots db -> sn_ts s < sn_ts sn) ->
  latest_snapshot (set_account_snapshots (account_snapshots db ++ [sn]) db) = Some sn.
Proof.
  intros Hnew. unfold latest_snapshot. cbn [account_snapshots set_account_snapshots].
  destruct (latest_by sn_ts (account_snapshots db ++ [sn])) as [x|] eqn:Ex.
  - apply latest_by_spec in Ex as [Hx Hmax]. f_equal.
    apply elem_of_app in Hx as [Hx|Hx]; [|by apply list_elem_of_singleton in Hx].
    exfalso. apply Hnew in Hx.
    assert (sn_ts sn <= sn_ts x) by (apply Hmax, elem_of_app; right; by left). lia.
  - apply latest_by_None in Ex. by destruct (account_snapshots db).
Qed.

(** C14: restarting resumes the account.  A broker restored right after a snapshot newer
    than all others holds the snapshot's cash, equity, peak and drawdown as the
    columns kept them - exactly the running values when these are representable in
    the columns - one position per OPEN row marked at its entry price, and one trade
    per CLOSED row. *)
Theorem restore_after_snapshot (ts : Z) (lb fresh : LedgerBroker) (db : DB) :
  (forall s, s ∈ account_snapshots db -> sn_ts s < ts) ->
  let '(lb', db') := equity_snapshot ts lb db in
  let b := lb_paper lb' in
  let r := lb_paper (restore_state fresh db') in
  cash r = dec_to_float (numeric 20 6 (_d (cash b))) /\
  equity r = dec_to_float (numeric 20 6 (_d (equity b))) /\
  peak_equity r = dec_to_float (numeric 20 6 (_d (peak_equity b))) /\
  max_drawdown_pct r = dec_to_float (numeric 12 8 (_d (max_drawdown_pct b))) /\
  (numeric 20 6 (_d (cash b)) = _d (cash b) -> cash r = drop_zero_sign (cash b)) /\
  book r = map _to_position (list_open_positions db) /\
  trades r ≡ₚ map row_to_trade (List.filter (fun p => bool_decide (p_status p = CLOSED)) (positions db)) /\
  (forall p, p ∈ list_open_positions db -> NoDup (map p_symbol (list_open_positions db)) ->
     dget (p_symbol p) (last_mark r) = Some (dec_to_float (p_entry_price p))).
Proof.
  intros Hnew. destruct (equity_snapshot ts lb db) as [lb' db'] eqn:E.
  unfold equity_snapshot in E. destruct (broker_state ts (lb_paper lb)) as [st paper] eqn:Est.
  injection E as <- <-. cbv zeta. cbn [lb_paper set_paper restore_state restored_paper].
  unfold save_snapshot. set (sn := stored_snapshot _).
  assert (Hl : latest_snapshot (set_account_snapshots (account_snapshots db ++ [sn]) db) = Some sn)
    by (by apply latest_snapshot_appended).
  unfold restored_paper. rewrite Hl. cbn [cash equity peak_equity max_drawdown_pct
    book trades last_mark].
  assert (Hst : bs_cash st = cash paper /\ bs_equity st = equity paper)
    by (unfold broker_state in Est; by injection Est as <- <-).
  destruct Hst as [Hc He]. unfold sn. cbn [stored_snapshot sn_cash sn_equity sn_peak_equity sn_drawdown_pct].
  rewrite Hc, He. split_and!; try done.
  - intros ->. apply dec_round_trip.
  - unfold list_closed_positions. simpl. by rewrite sort_by_perm.
  - intros p Hp Hn. change (list_open_positions (set_account_snapshots _ db)) with (list_open_positions db).
    clear -Hp Hn. revert Hp Hn. generalize (list_open_positions db) as rows.
    induction rows as [|x rows IH] using rev_ind; [by intros ?%elem_of_nil|].
    rewrite foldl_app, map_app. simpl. intros Hin (Hn & Hx & _)%NoDup_app.
    rewrite dget_dset. apply elem_of_app in Hin as [Hin|Hin].
    + case_decide as Hsym; [|by apply IH]. exfalso. apply (Hx (p_symbol x)); [|by left].
      rewrite <- Hsym. by apply list_elem_of_fmap_2.
    + apply list_elem_of_singleton in Hin as ->. by rewrite decide_True.
Qed.
End Histories.

(** ** A concrete ledger history *)

Definition demo_lb : LedgerBroker := new_ledger_broker CASH_START 7 default_cost_params.
Definition demo_ops : list ledger_op :=
  [Submit "EURUSD" "H1" LONG (lit 11 1) 0 (of_Z 1000) (Some 42) (Some (of_Z 1)) None;
   Fill 0 (lit 11 1) 3600000000; SnapshotAt 3600000000; RestoreState;
   ExitAt "EURUSD" (lit 9 1) 7200000000; SnapshotAt 7200000000]%string.

Lemma empty_ledger_inv : @ledger_inv demo_platform empty_db.
Proof.
  split; simpl; try constructor; try (by intros p ?%elem_of_nil); by intros ?%elem_of_nil.
Qed.

Lemma empty_in_sync : in_sync demo_lb empty_db.
Proof.
  split; [done|]. intros id. split; [by intros ?%elem_of_nil|]. by intros (o & ?%elem_of_nil & _).
Qed.

Definition demo_run : LedgerBroker * DB :=
  match @ledger_run demo_platform demo_ops demo_lb empty_db with
  | Ok r => r | Err _ => (demo_lb, empty_db) end.

Lemma ledger_consistent_witness :
  @ledger_run demo_platform demo_ops demo_lb empty_db = Ok demo_run /\
  map p_status (positions demo_run.2) = [CLOSED] /\ map o_status (orders_paper demo_run.2) = [FILLED] /\
  NoDup (map p_symbol (list_open_positions demo_run.2)).
Proof.
  assert (E : @ledger_run demo_platform demo_ops demo_lb empty_db = Ok demo_run)
    by (vm_compute; reflexivity).
  pose proof (@ledger_consistent demo_platform demo_platform_ok demo_ops demo_lb empty_db
                empty_ledger_inv empty_in_sync) as Hc.
  rewrite E in Hc. split; [exact E|]. split; [vm_compute; reflexivity|].
  split; [vm_compute; reflexivity|]. destruct demo_run as [lb db]. apply Hc.
Defined.

Definition demo_snapshot : LedgerBroker * DB :=
  @equity_snapshot demo_platform 7200000001 demo_run.1 demo_run.2.

Lemma restore_after_snapshot_witness :
  let r := lb_paper (restore_state demo_lb demo_snapshot.2) in
  cash r = dec_to_float (@numeric demo_platform 20 6 (_d (cash (lb_paper demo_snapshot.1)))) /\
  _d (cash r) = Dec 99899837197 (-6).
Proof.
  assert (Hn : forall s, s ∈ account_snapshots demo_run.2 -> sn_ts s < 7200000001).
  { intros s Hs%list_elem_of_In. apply Z.ltb_lt. revert s Hs.
    apply (proj1 (forallb_forall (fun s => sn_ts s <? 7200000001) _)). vm_compute. reflexivity. }
  pose proof (@restore_after_snapshot demo_platform 7200000001 demo_run.1 demo_lb demo_run.2 Hn) as Hr.
  fold demo_snapshot in Hr. destruct demo_snapshot as [lb' db'] eqn:E. split; [apply Hr|].
  change db' with (lb', db').2. rewrite <- E. vm_compute. reflexivity.
Defined.
