(* ===== verification/Lifecycle.v ===== *)
(** * The paper-trading lifecycle of one unit ([app/broker/lifecycle.py]) *)

From Stdlib Require Import ZArith Lia Sorted.
From stdpp Require Import base list strings sorting.
From S2P Require Import Prelude PyFloat Timeframes Signals Risk Decision Tables Costs Positions Paper Ledger.

Record PendingCandidate := { cand_order : PaperOrderRow; cand_stamp : Z }.
Record Bar := { bar_ts : Z; bar_open : float; bar_close : float }.

Record UnitFrontier := {
  uf_symbol : string;
  uf_timeframe : string;
  uf_pending : list PendingCandidate;
  uf_open_position : option PaperPositionRow
}.

Definition fill_bars (u : UnitFrontier) : list Z := map cand_stamp (uf_pending u).
Definition resume_after (u : UnitFrontier) : option Z := p_entry_ts <$> uf_open_position u.
Definition frontier_active (u : UnitFrontier) : bool :=
  match uf_pending u, uf_open_position u with [], None => false | _, _ => true end.

Record UnitBarResult := {
  ub_symbol : string;
  ub_timeframe : string;
  ub_ts : Z;
  filled : Z;
  exits : Z;
  superseded : Z;
  snapshot_written : bool
}.

Record UnitSummary := {
  us_symbol : string;
  us_timeframe : string;
  bars_processed : Z;
  us_fills : Z;
  us_exits : Z;
  us_superseded : Z;
  us_snapshots : Z;
  depth_remaining : Z
}.

Inductive FillAction := fill | flip | supersede.

(** [_key]: fill bar, then creation time, then id. *)
Definition cand_leb (a b : PendingCandidate) : bool :=
  (cand_stamp a <? cand_stamp b)
  || ((cand_stamp a =? cand_stamp b) && order_leb (cand_order a) (cand_order b)).

Definition fill_stamp (o : PaperOrderRow) (decision_bucket : Z) : Res Z :=
  s <-- seconds (o_timeframe o) ;; Ok (decision_bucket + seconds_td s).

Definition candidates_for_bar (cs : list PendingCandidate) (ts : Z) : list PendingCandidate :=
  sort_by cand_leb (List.filter (fun c => cand_stamp c =? ts) cs).

(** The arbitration loop: [current] side and whether the bar's fill is taken. *)
Fixpoint arbitrate_loop (current : option Direction) (taken : bool) (cs : list PendingCandidate)
  : list (PendingCandidate * FillAction) :=
  match cs with
  | [] => []
  | c :: cs' =>
      let sd := o_side (cand_order c) in
      match current with
      | None => if negb taken then (c, fill) :: arbitrate_loop (Some sd) true cs'
                else (c, supersede) :: arbitrate_loop current taken cs'
      | Some s =>
          if bool_decide (s = sd) then (c, supersede) :: arbitrate_loop current taken cs'
          else if negb taken then (c, flip) :: arbitrate_loop (Some sd) true cs'
          else (c, supersede) :: arbitrate_loop current taken cs'
      end
  end.

Definition arbitrate_fills (open_side : option Direction) (cs : list PendingCandidate)
  : list (PendingCandidate * FillAction) := arbitrate_loop open_side false cs.

(** [sorted(set(l))]. *)
Definition sorted_set (l : list Z) : list Z := sort_by Z.leb (remove_dups l).

Definition catchup_window (stamps : list Z) (max_bars : Z) : list Z * Z :=
  let ordered := sorted_set stamps in
  let to_process := firstn (Z.to_nat (Z.max 1 max_bars)) ordered in
  (to_process, Z.max 0 (Z.of_nat (length ordered) - Z.of_nat (length to_process))).

Definition missing_bar_candidates (cs : list PendingCandidate) (candle_buckets : list Z)
    (latest_closed : Z) : list PendingCandidate :=
  sort_by cand_leb
    (List.filter (fun c => (cand_stamp c <=? latest_closed)
                           && negb (bool_decide (cand_stamp c ∈ candle_buckets))) cs).

Section Lifecycle.
Context `{Platform}.
(** [self._snapshot_interval]. *)
Context (snapshot_interval : option Z).

(** [(order, bucket)] pairs whose decision bucket is known, with their fill bar. *)
Definition pending_candidates (db : DB) : Res (list PendingCandidate) :=
  l <-- fold_res (fun acc o =>
          match get_decision_bucket (o_decision_id o) db with
          | None => Ok acc
          | Some bucket => st <-- fill_stamp o bucket ;;
                           Ok (acc ++ [{| cand_order := o; cand_stamp := st |}])
          end) (list_pending_orders db) [] ;;
  Ok (sort_by cand_leb l).

Definition of_unit (symbol timeframe : string) (c : PendingCandidate) : bool :=
  String.eqb (o_symbol (cand_order c)) symbol && String.eqb (o_timeframe (cand_order c)) timeframe.

Definition frontier (symbol timeframe : string) (candidates : option (list PendingCandidate))
    (open_positions : option (list PaperPositionRow)) (db : DB) : Res UnitFrontier :=
  let sym := str_upper symbol in
  cs <-- match candidates with Some l => Ok l | None => pending_candidates db end ;;
  Ok {| uf_symbol := sym; uf_timeframe := timeframe;
        uf_pending := List.filter (of_unit sym timeframe) cs;
        uf_open_position :=
          match open_positions with
          | Some ps => List.find (fun p => String.eqb (p_symbol p) sym
                                           && String.eqb (p_timeframe p) timeframe) ps
          | None => None
          end |}.

(** Equality of two Python sets given as lists. *)
Definition same_set {A} `{EqDecision A} (a b : list A) : bool :=
  forallb (fun x => bool_decide (x ∈ b)) a && forallb (fun x => bool_decide (x ∈ a)) b.

Definition reconcile (lb : LedgerBroker) (db : DB) : bool :=
  if negb (same_set (map p_symbol (list_open_positions db)) (open_symbols lb)) then false
  else same_set (map o_id (list_pending_orders db)) (lb_pending lb).

Definition _snapshot_due (bar : Bar) (db : DB) : bool :=
  match latest_snapshot db with
  | None => true
  | Some latest =>
      let within := match snapshot_interval with
                    | Some i => bar_ts bar <? sn_ts latest + seconds_td i
                    | None => false
                    end in
      negb ((bar_ts bar <=? sn_ts latest) || within)
  end.

(** Broker, database and the counters of one bar: (filled, superseded). *)
Definition fill_state : Type := LedgerBroker * DB * (Z * Z).

Definition act (sym : string) (bar : Bar) (st : fill_state) (ca : PendingCandidate * FillAction)
  : Res fill_state :=
  let '(lb, db, (nf, ns)) := st in
  let '(cand, action) := ca in
  let id := o_id (cand_order cand) in
  match action with
  | supersede =>
      let '(cancelled, lb, db) := cancel_pending id lb db in
      Ok (lb, db, (nf, match cancelled with Some _ => ns + 1 | None => ns end))
  | _ =>
      let '(lb, db) := match action with
                       | flip => let '(_, lb, db) := lb_close_on_signal sym (bar_open bar)
                                                       (bar_ts bar) lb db in (lb, db)
                       | _ => (lb, db)
                       end in
      r <-- fill_pending id (bar_open bar) (bar_ts bar) lb db ;;
      let '(row, lb, db) := r in
      Ok (lb, db, (match row with Some _ => nf + 1 | None => nf end, ns))
  end.

Definition process_unit_bar (symbol timeframe : string) (bar : Bar)
    (candidates : list PendingCandidate) (lb : LedgerBroker) (db : DB)
  : Res (UnitBarResult * LedgerBroker * DB) :=
  let lb := restore_state lb db in
  let sym := str_upper symbol in
  let open_side := side <$> lb_open_for sym lb in
  st <-- fold_res (act sym bar) (arbitrate_fills open_side (candidates_for_bar candidates (bar_ts bar)))
           (lb, db, (0, 0)) ;;
  let '(lb, db, (nf, ns)) := st in
  let '(trade, lb, db) := lb_evaluate_exit sym (bar_close bar) (bar_ts bar) lb db in
  let ne := match trade with Some _ => 1 | None => 0 end in
  let lb := lb_mark_position sym (bar_close bar) lb in
  let changed := (0 <? nf) || (0 <? ne)
                 || match lb_open_for sym lb with Some _ => true | None => false end in
  let snap := changed && _snapshot_due bar db in
  let '(lb, db) := if snap then equity_snapshot (bar_ts bar) lb db else (lb, db) in
  Ok ({| ub_symbol := sym; ub_timeframe := timeframe; ub_ts := bar_ts bar; filled := nf;
         exits := ne; superseded := ns; snapshot_written := snap |}, lb, db).

Definition add_bar (s : UnitSummary) (r : UnitBarResult) : UnitSummary :=
  {| us_symbol := us_symbol s; us_timeframe := us_timeframe s;
     bars_processed := bars_processed s + 1; us_fills := us_fills s + filled r;
     us_exits := us_exits s + exits r; us_superseded := us_superseded s + superseded r;
     us_snapshots := us_snapshots s + (if snapshot_written r then 1 else 0);
     depth_remaining := depth_remaining s |}.

(** The bars of [bars] with a stamp of [window], one per stamp (the last one), ascending. *)
Definition bars_in (window : list Z) (bars : list Bar) : list Bar :=
  let d := foldl (fun d b => if bool_decide (bar_ts b ∈ window) then dset (bar_ts b) b d else d)
                 [] bars in
  sort_by (asc_leb bar_ts) d.*2.

Definition process_unit (symbol timeframe : string) (bars : list Bar)
    (candidates : option (list PendingCandidate)) (max_bars : option Z)
    (lb : LedgerBroker) (db : DB) : Res (UnitSummary * LedgerBroker * DB) :=
  let summary d := {| us_symbol := str_upper symbol; us_timeframe := timeframe;
                      bars_processed := 0; us_fills := 0; us_exits := 0; us_superseded := 0;
                      us_snapshots := 0; depth_remaining := d |} in
  match bars with
  | [] => Ok (summary 0, lb, db)
  | _ =>
      cs <-- match candidates with Some l => Ok l | None => pending_candidates db end ;;
      let unit_candidates := List.filter (of_unit (str_upper symbol) timeframe) cs in
      let mb := match max_bars with Some m => m | None => Z.of_nat (length bars) end in
      let '(window, depth) := catchup_window (map bar_ts bars) mb in
      fold_res (fun '(s, lb, db) bar =>
                  r <-- process_unit_bar symbol timeframe bar unit_candidates lb db ;;
                  let '(ub, lb, db) := r in Ok (add_bar s ub, lb, db))
               (bars_in window bars) (summary depth, lb, db)
  end.
End Lifecycle.

(** ** Arbitration *)

Definition superseding (cs : list PendingCandidate) : list (PendingCandidate * FillAction) :=
  map (fun c => (c, supersede)) cs.

Lemma arbitrate_taken cur cs : arbitrate_loop cur true cs = superseding cs.
Proof.
  unfold superseding. revert cur. induction cs as [|c cs IH]; intros cur; simpl; [done|].
  destruct cur as [s|]; simpl; [case_bool_decide|]; by rewrite IH.
Qed.

(** The first candidate on the other side of an open position. *)
Fixpoint split_opposing (s : Direction) (cs : list PendingCandidate)
  : list PendingCandidate * list PendingCandidate :=
  match cs with
  | [] => ([], [])
  | c :: cs' => if bool_decide (s = o_side (cand_order c))
                then let '(pre, post) := split_opposing s cs' in (c :: pre, post)
                else ([], cs)
  end.

Lemma arbitrate_shape (open_side : option Direction) (cs : list PendingCandidate) :
  arbitrate_fills open_side cs =
    match open_side with
    | None => match cs with [] => [] | c :: rest => (c, fill) :: superseding rest end
    | Some s =>
        let '(pre, post) := split_opposing s cs in
        superseding pre ++
          match post with [] => [] | c :: rest => (c, flip) :: superseding rest end
    end /\
  map fst (arbitrate_fills open_side cs) = cs /\
  (length (List.filter (fun a => match a.2 with supersede => false | _ => true end)
                       (arbitrate_fills open_side cs)) <= 1)%nat.
Proof.
  assert (Heq : arbitrate_fills open_side cs = match open_side with
    | None => match cs with [] => [] | c :: rest => (c, fill) :: superseding rest end
    | Some s => let '(pre, post) := split_opposing s cs in
        superseding pre ++ match post with [] => [] | c :: rest => (c, flip) :: superseding rest end
    end).
  { unfold arbitrate_fills. destruct open_side as [s|].
    - induction cs as [|c cs IH]; simpl; [done|]. case_bool_decide as Hs.
      + rewrite IH. by destruct (split_opposing s cs).
      + simpl. by rewrite arbitrate_taken.
    - destruct cs as [|c cs]; simpl; [done|]. by rewrite arbitrate_taken. }
  assert (Hf : forall l, List.filter (fun a : PendingCandidate * FillAction =>
      match a.2 with supersede => false | _ => true end) (superseding l) = [])
    by (intros l; induction l; simpl; done).
  split; [exact Heq|]. split.
  - unfold arbitrate_fills. generalize false. revert open_side Heq.
    clear. intros open_side _. revert open_side.
    induction cs as [|c cs IH]; intros s b; simpl; [done|].
    destruct s; simpl; [case_bool_decide|]; destruct b; simpl; by rewrite IH.
  - rewrite Heq. destruct open_side as [s|].
    + destruct (split_opposing s cs) as [pre post]. rewrite List.filter_app, Hf. simpl.
      destruct post; simpl; rewrite ?Hf; simpl; lia.
    + destruct cs; simpl; rewrite ?Hf; simpl; lia.
Qed.

(** Fill arbitration takes at most one candidate per bar.  Without an open position
    the first candidate fills; with one, the first candidate of the opposite side
    flips it; every other candidate is superseded, and none is dropped. *)
Theorem arbitrate_fills_spec (open_side : option Direction) (cs : list PendingCandidate) :
  arbitrate_fills open_side cs =
    match open_side with
    | None => match cs with [] => [] | c :: rest => (c, fill) :: superseding rest end
    | Some s =>
        let '(pre, post) := split_opposing s cs in
        superseding pre ++
          match post with [] => [] | c :: rest => (c, flip) :: superseding rest end
    end /\
  map fst (arbitrate_fills open_side cs) = cs /\
  (length (List.filter (fun a => match a.2 with supersede => false | _ => true end)
                       (arbitrate_fills open_side cs)) <= 1)%nat.
Proof. exact (arbitrate_shape open_side cs). Qed.

(** ** The catch-up window *)

Lemma elem_of_sorted_set x l : x ∈ sorted_set l <-> x ∈ l.
Proof. unfold sorted_set. by rewrite elem_of_sort_by, elem_of_remove_dups. Qed.

Lemma sorted_set_strict l : StronglySorted Z.lt (sorted_set l).
Proof.
  unfold sorted_set.
  assert (Hn : NoDup (sort_by Z.leb (remove_dups l))) by (rewrite sort_by_perm; apply NoDup_remove_dups).
  pose proof (sort_by_sorted Z.leb (remove_dups l)) as Hs. unfold sorted_by in Hs. revert Hn.
  induction Hs as [|x xs Hs IH Hx]; intros Hn; [constructor|].
  apply NoDup_cons in Hn as [Hxn Hn]. constructor; [by apply IH|].
  apply Forall_forall. intros y Hy. rewrite Forall_forall in Hx.
  specialize (Hx y Hy). apply Z.leb_le in Hx.
  assert (x <> y) by (intros ->; by apply Hxn). lia.
Qed.

Lemma catchup_window_spec (stamps : list Z) (max_bars : Z) :
  let '(w, depth) := catchup_window stamps max_bars in
  StronglySorted Z.lt w /\ (forall t, t ∈ w -> t ∈ stamps) /\
  Z.of_nat (length w) <= Z.max 1 max_bars /\ (stamps <> [] -> w <> []) /\
  depth = Z.of_nat (length (sorted_set stamps)) - Z.of_nat (length w) /\
  (forall t t', t ∈ w -> t' ∈ stamps -> t' ∉ w -> t < t') /\
  (depth = 0 -> forall t, t ∈ stamps -> t ∈ w).
Proof.
  unfold catchup_window. set (n := Z.to_nat (Z.max 1 max_bars)). set (o := sorted_set stamps).
  pose proof (sorted_set_strict stamps) as Hs. fold o in Hs.
  pose proof (take_drop n o) as Htd. rewrite <- Htd in Hs.
  apply StronglySorted_app in Hs as (Hcross & Hl & _).
  assert (Ho : forall t, t ∈ o <-> t ∈ take n o \/ t ∈ drop n o)
    by (intros t; by rewrite <- Htd at 1; rewrite elem_of_app).
  assert (Hlen : (length o = length (take n o) + length (drop n o))%nat)
    by (rewrite <- Htd at 1; by rewrite length_app).
  change (firstn n o) with (take n o).
  split_and!; [done| | | | | |].
  - intros t Ht. apply elem_of_sorted_set. fold o. apply Ho. by left.
  - rewrite length_take. lia.
  - intros Hne Hw. destruct stamps as [|x xs]; [done|].
    assert (x ∈ o) as Hx by (apply elem_of_sorted_set; by left).
    apply (f_equal length) in Hw. rewrite length_take in Hw. simpl in Hw.
    destruct o; [by apply elem_of_nil in Hx|]. simpl in Hw. lia.
  - rewrite Hlen. lia.
  - intros t t' Ht Ht' Hn. apply Hcross; [done|].
    apply elem_of_sorted_set, Ho in Ht' as [?|?]; done.
  - intros Hd t Ht. apply elem_of_sorted_set, Ho in Ht as [?|Ht]; [done|].
    destruct (drop n o); [by apply elem_of_nil in Ht|]. simpl in Hlen. lia.
Qed.

(** The catch-up window processes the oldest outstanding bars, ascending, each once,
    at least one and at most the limit; it reports how many remain, and all of those
    are newer than every bar it takes. *)
Theorem catchup_window_oldest (stamps : list Z) (max_bars : Z) :
  let '(w, depth) := catchup_window stamps max_bars in
  StronglySorted Z.lt w /\ (forall t, t ∈ w -> t ∈ stamps) /\
  Z.of_nat (length w) <= Z.max 1 max_bars /\ (stamps <> [] -> w <> []) /\
  depth = Z.of_nat (length (sorted_set stamps)) - Z.of_nat (length w) /\
  (forall t t', t ∈ w -> t' ∈ stamps -> t' ∉ w -> t < t') /\
  (depth = 0 -> forall t, t ∈ stamps -> t ∈ w).
Proof. exact (catchup_window_spec stamps max_bars). Qed.

(** ** Processing one bar *)

Section Processing.
Context `{PlatformOk}.

(** The row of an order in an evolved database. *)
Lemma evolved_order db db' o :
  ledger_inv db' -> evolves db db' -> o ∈ orders_paper db ->
  exists o', get_order (o_id o) db' = Some o' /\ order_le o o'.
Proof.
  intros Hi [(os & new & Hos & Hf) _] Ho.
  apply list_elem_of_lookup in Ho as [i Hl].
  destruct (Forall2_lookup_l _ _ _ _ _ Hf Hl) as (o' & Hl' & Hle).
  assert (Hid : o_id o' = o_id o) by (destruct Hle as [->|(_ & _ & ? & _)]; done).
  assert (Hin : o' ∈ orders_paper db')
    by (rewrite Hos; apply elem_of_app; left; by eapply list_elem_of_lookup_2).
  exists o'. split; [|done]. unfold get_order.
  destruct (List.find _ _) as [x|] eqn:E.
  - apply List.find_some in E as [Hx Hxid]. apply Z.eqb_eq in Hxid. f_equal.
    eapply (unique_by o_id); [apply Hi|by apply list_elem_of_In|done|congruence].
  - apply (List.find_none _ _) with (x := o') in E; [|by apply list_elem_of_In].
    rewrite Hid, Z.eqb_refl in E. done.
Qed.

(** An order is resolved when its row is no longer PENDING; it then stays so. *)
Definition resolved (db : DB) (id : Z) : Prop :=
  exists o, get_order id db = Some o /\ o_status o <> PENDING.

Lemma resolved_evolves db db' id :
  ledger_inv db' -> evolves db db' -> resolved db id -> resolved db' id.
Proof.
  intros Hi He (o & Ho & Hp). apply get_order_Some in Ho as [Hin Hid].
  destruct (evolved_order _ _ _ Hi He Hin) as (o' & Ho' & Hle).
  exists o'. rewrite <- Hid. split; [done|]. destruct Hle as [->|[? _]]; congruence.
Qed.

(** A candidate that can be filled at all. *)
Definition fillable (sym : string) (db : DB) (c : PendingCandidate) : Prop :=
  cand_order c ∈ orders_paper db /\ o_symbol (cand_order c) = sym /\ str_upper sym = sym /\
  o_side (cand_order c) <> FLAT /\ fle (dec_to_float (o_units (cand_order c))) f0 = false.

Definition broker_book (lb : LedgerBroker) : PositionSet := book (lb_paper lb).

Lemma fill_resolves id price ts lb db o :
  ledger_inv db -> in_sync lb db -> get_order id db = Some o -> o_status o = PENDING ->
  open_for (str_upper (o_symbol o)) (broker_book lb) = None ->
  o_side o <> FLAT -> fle (dec_to_float (o_units o)) f0 = false ->
  exists p lb' db', fill_pending id price ts lb db = Ok (Some p, lb', db').
Proof.
  intros Hi Hs Ho Hp Hb Hd Hu.
  assert (Hbook : exists pos, pos_symbol pos = str_upper (o_symbol o) /\
     book (filled_paper o price ts (lb_paper lb)) = broker_book lb ++ [pos]).
  { unfold filled_paper, enter_at_next_open. rewrite bool_decide_false by done.
    change (book (set_seed (o_seed o) (lb_paper lb))) with (broker_book lb).
    rewrite Hu, Hb. simpl. eexists. split; [|reflexivity]. done. }
  destruct Hbook as (pos & Hps & Hbk).
  unfold fill_pending. rewrite Ho. replace (is_pending o) with true
    by (symmetry; by apply is_pending_true). cbn [negb].
  change (book (lb_paper lb)) with (broker_book lb). rewrite Hb, Hbk, open_for_app, Hb.
  rewrite Hps, String.eqb_refl. cbn [new_uuid].
  rewrite save_position_ok; [simpl; eauto|]. simpl. rewrite Hps.
  change (list_open_positions (update_order _ _ _)) with (list_open_positions db).
  rewrite <- (sync_open _ _ Hs). by apply open_for_None.
Qed.

Lemma cancel_resolves id lb db : resolved db id \/ (exists o, get_order id db = Some o) ->
  ledger_inv db -> in_sync lb db -> resolved (cancel_pending id lb db).2 id.
Proof.
  intros Hr Hi Hs. assert (exists o, get_order id db = Some o) as [o Ho]
    by (destruct Hr as [(o & Ho & _)|?]; eauto).
  unfold cancel_pending. rewrite Ho. destruct (is_pending o) eqn:Ep; simpl.
  - exists (stored_order (mark_cancelled o)). split; [|done].
    pose proof (get_order_Some _ _ _ Ho) as [Hin Hid].
    unfold get_order in *. simpl. clear -Ho.
    induction (orders_paper db) as [|x l IH]; simpl in *; [done|].
    destruct (o_id x =? id) eqn:E; simpl; rewrite E; [by injection Ho as ->|by apply IH].
  - exists o. split; [done|]. rewrite <- is_pending_true. congruence.
Qed.

Lemma close_clears sym price ts lb db :
  in_sync lb db -> ledger_inv db ->
  let '(_, lb', db') := lb_close_on_signal sym price ts lb db in
  open_for sym (broker_book lb') = None.
Proof.
  intros Hs Hi. unfold lb_close_on_signal, close_on_signal, persist_trade.
  destruct (open_for sym (book (lb_paper lb))) as [pos|] eqn:E; simpl; [|done].
  unfold broker_book. simpl. rewrite open_for_close, String.eqb_refl; [done|].
  change (map pos_symbol (book (lb_paper lb))) with (open_symbols lb).
  rewrite (sync_open _ _ Hs). apply Hi.
Qed.

Lemma close_len sym price ts lb db :
  let '(_, _, db') := lb_close_on_signal sym price ts lb db in
  length (positions db') = length (positions db).
Proof.
  unfold lb_close_on_signal, close_on_signal, persist_trade.
  destruct (open_for _ _); simpl; [|done]. unfold _persist_close.
  destruct (get_open_position _ _); [|done]. simpl. by rewrite length_map.
Qed.

(** One arbitrated action. *)
Lemma act_step sym bar lb db nf ns c action db0 :
  ledger_inv db -> in_sync lb db -> evolves db0 db -> cand_order c ∈ orders_paper db0 ->
  (action = fill -> open_for sym (broker_book lb) = None) ->
  exists lb' db' nf' ns', act sym bar (lb, db, (nf, ns)) (c, action) = Ok (lb', db', (nf', ns')) /\
    ledger_inv db' /\ in_sync lb' db' /\ evolves db db' /\
    (fillable sym db0 c -> resolved db' (o_id (cand_order c))) /\
    nf <= nf' <= nf + (match action with supersede => 0 | _ => 1 end) /\
    Z.of_nat (length (positions db')) = Z.of_nat (length (positions db)) + (nf' - nf).
Proof.
  intros Hi Hs He Hin Hopen.
  destruct (evolved_order _ _ _ Hi He Hin) as (o & Ho & Hle).
  set (id := o_id (cand_order c)) in *.
  (* filling, once no position of the symbol is open *)
  assert (Hfill : forall lb1 db1, ledger_inv db1 -> in_sync lb1 db1 -> evolves db db1 ->
    length (positions db1) = length (positions db) ->
    open_for sym (broker_book lb1) = None ->
    exists lb' db' nf' ns', (r <-- fill_pending id (bar_open bar) (bar_ts bar) lb1 db1 ;;
        let '(row, lb, db) := r in
        Ok (lb, db, (match row with Some _ => nf + 1 | None => nf end, ns))) = Ok (lb', db', (nf', ns')) /\
      ledger_inv db' /\ in_sync lb' db' /\ evolves db db' /\ (fillable sym db0 c -> resolved db' id) /\
      nf <= nf' <= nf + 1 /\
      Z.of_nat (length (positions db')) = Z.of_nat (length (positions db)) + (nf' - nf)).
  { intros lb1 db1 Hi1 Hs1 He1 Hlen Hb1.
    assert (He01 : evolves db0 db1) by by eapply evolves_trans.
    destruct (evolved_order _ _ _ Hi1 He01 Hin) as (o1 & Ho1 & Hle1). fold id in Ho1.
    destruct (fill_step id (bar_open bar) (bar_ts bar) lb1 db1 Hi1 Hs1)
      as (r & lb' & db' & Hr & Hi' & Hs' & He' & Hrow).
    rewrite Hr. simpl. eexists _, _, _, _. split; [reflexivity|].
    split_and!; try done; [by eapply evolves_trans| | | |].
    - intros (_ & Hsym & Hup & Hd & Hu). destruct (decide (o_status o1 = PENDING)) as [Hp|Hp].
      + assert (o1 = cand_order c) as -> by (destruct Hle1 as [->|(_ & [?|?] & _)]; congruence).
        destruct (fill_resolves id (bar_open bar) (bar_ts bar) lb1 db1 (cand_order c) Hi1 Hs1 Ho1 Hp)
          as (p & lb2 & db2 & E); [by rewrite Hsym, Hup|done|done|].
        rewrite E in Hr. injection Hr as <- <- <-.
        destruct Hrow as (o2 & Ho2 & _ & _ & _ & _ & _ & _ & _ & Hst).
        apply get_order_Some in Ho2 as [Hin2 Hid2].
        destruct (evolved_order _ _ _ Hi' He' Hin2) as (o3 & Ho3 & _). rewrite Hid2 in Ho3.
        exists o3. split; [done|]. apply get_order_Some in Ho3 as [Hin3 Hid3].
        by rewrite (Hst o3 Hin3 Hid3).
      + eapply resolved_evolves; [done|exact He'|]. by exists o1.
    - destruct r; lia.
    - destruct r; lia.
    - destruct r as [p|]; [|destruct Hrow as [_ ->]; lia].
      destruct Hrow as (o2 & _ & _ & _ & _ & _ & _ & _ & -> & _). rewrite length_app. simpl. lia. }
  destruct action; unfold act; fold id.
  - apply Hfill; try done; [apply evolves_refl|by apply Hopen].
  - pose proof (persist_trade_step _ lb db
      (close_on_signal_shape sym (bar_open bar) (bar_ts bar) (lb_paper lb)) Hi Hs) as Hc.
    pose proof (close_clears sym (bar_open bar) (bar_ts bar) lb db Hs Hi) as Hcl.
    pose proof (close_len sym (bar_open bar) (bar_ts bar) lb db) as Hlen.
    unfold lb_close_on_signal in *. destruct (persist_trade _ _ _) as [[t lb1] db1].
    destruct Hc as (? & ? & ?). by apply Hfill.
  - pose proof (cancel_step id lb db Hi Hs) as Hc.
    pose proof (cancel_resolves id lb db) as Hr.
    assert (Hlen : length (positions (cancel_pending id lb db).2) = length (positions db)).
    { unfold cancel_pending. destruct (get_order id db); [|done]. by destruct (is_pending p). }
    destruct (cancel_pending id lb db) as [[x lb1] db1]. destruct Hc as (Hi1 & Hs1 & He1).
    simpl in *. eexists _, _, _, _. split; [reflexivity|]. split_and!; try done; try lia.
    intros _. apply Hr; [|done|done]. right. by exists o.
Qed.

Definition acting (l : list (PendingCandidate * FillAction)) : Z :=
  Z.of_nat (length (List.filter (fun a => match a.2 with supersede => false | _ => true end) l)).

Lemma act_fold sym bar db0 acts : forall lb db nf ns,
  ledger_inv db -> in_sync lb db -> evolves db0 db ->
  (forall c a, (c, a) ∈ acts -> cand_order c ∈ orders_paper db0) ->
  match acts with (_, fill) :: _ => open_for sym (broker_book lb) = None | _ => True end ->
  Forall (fun a => a.2 <> fill) (tail acts) ->
  exists lb' db' nf' ns', fold_res (act sym bar) acts (lb, db, (nf, ns)) = Ok (lb', db', (nf', ns')) /\
    ledger_inv db' /\ in_sync lb' db' /\ evolves db db' /\
    (forall c a, (c, a) ∈ acts -> fillable sym db0 c -> resolved db' (o_id (cand_order c))) /\
    nf <= nf' <= nf + acting acts /\
    Z.of_nat (length (positions db')) = Z.of_nat (length (positions db)) + (nf' - nf).
Proof.
  induction acts as [|[c a] acts IH]; intros lb db nf ns Hi Hs He Hf Hhead Htail; cbn [fold_res].
  { eexists _, _, _, _. split; [reflexivity|]. split_and!; try done; try lia; [apply evolves_refl| |].
    - by intros c a ?%elem_of_nil.
    - unfold acting. simpl. lia. }
  destruct (act_step sym bar lb db nf ns c a db0) as
    (lb1 & db1 & nf1 & ns1 & Ha & Hi1 & Hs1 & He1 & Hr1 & Hn1 & Hp1); try done.
  { apply (Hf c a). by left. }
  { intros ->. done. }
  rewrite Ha. cbn [res_bind]. simpl in Htail.
  destruct (IH lb1 db1 nf1 ns1) as (lb2 & db2 & nf2 & ns2 & Hb & Hi2 & Hs2 & He2 & Hr2 & Hn2 & Hp2);
    try done.
  { by eapply evolves_trans. }
  { intros c' a' Hin. apply (Hf c' a'). by right. }
  { destruct acts as [|[c' []] acts]; try done. by apply Forall_cons in Htail as [? _]. }
  { destruct acts; [done|]. by apply Forall_cons in Htail as [_ ?]. }
  eexists _, _, _, _. split; [exact Hb|]. split_and!; try done; [by eapply evolves_trans| |lia| |lia].
  - intros c' a' [[= -> ->]|Hin]%elem_of_cons Hfc; [|by eapply Hr2].
    eapply resolved_evolves; [done|done|by apply Hr1].
  - unfold acting in *. simpl. destruct a; simpl; lia.
Qed.

Lemma arbitrated_tail open_side cs : Forall (fun a => a.2 <> fill) (tail (arbitrate_fills open_side cs)).
Proof.
  assert (Hsup : forall l, Forall (fun a : PendingCandidate * FillAction => a.2 <> fill) (superseding l))
    by (intros l; induction l; constructor; done).
  unfold arbitrate_fills. destruct open_side as [s|].
  - enough (Forall (fun a => a.2 <> fill) (arbitrate_loop (Some s) false cs)) as Ha
      by (destruct Ha; [constructor|done]).
    induction cs as [|c cs IH]; simpl; [constructor|]. case_bool_decide; constructor; try done.
    by rewrite arbitrate_taken.
  - destruct cs as [|c cs]; simpl; [constructor|]. by rewrite arbitrate_taken.
Qed.

Lemma arbitrated_head open_side cs :
  match arbitrate_fills open_side cs with (_, fill) :: _ => open_side = None | _ => True end.
Proof.
  unfold arbitrate_fills. destruct open_side as [s|], cs as [|c cs]; simpl; try done.
  by case_bool_decide.
Qed.

Lemma exit_len sym close ts lb db :
  let '(_, _, db') := lb_evaluate_exit sym close ts lb db in
  length (positions db') = length (positions db).
Proof.
  unfold lb_evaluate_exit, evaluate_exit, persist_trade.
  destruct (open_for _ _); simpl; [|done]. destruct (exit_price_for _ _ _ _) as [[x r] []]; simpl; [|done].
  unfold _persist_close. destruct (get_open_position _ _); [|done]. simpl. by rewrite length_map.
Qed.

Lemma trade_snapshots r lb db :
  account_snapshots (persist_trade r lb db).2 = account_snapshots db.
Proof.
  unfold persist_trade. destruct r as [[t|] paper]; simpl; [|done].
  unfold _persist_close. by destruct (get_open_position _ _).
Qed.

Lemma fill_snapshots id price ts lb db r :
  fill_pending id price ts lb db = Ok r -> account_snapshots r.2 = account_snapshots db.
Proof.
  unfold fill_pending, new_uuid. repeat case_match; intros Hr; simplify_eq; try done.
  apply res_bind_ok in Hr as (db1 & Hsv & Hr). unfold save_position in Hsv.
  destruct (_ && _); [done|]. by simplify_eq.
Qed.

Lemma fold_snapshots sym bar acts : forall st st',
  fold_res (act sym bar) acts st = Ok st' -> account_snapshots st'.1.2 = account_snapshots st.1.2.
Proof.
  induction acts as [|[c a] acts IH]; intros [[lb db] [nf ns]] st'; cbn [fold_res].
  { by intros [= <-]. }
  intros Hr. apply res_bind_ok in Hr as (st1 & H1 & H2). rewrite (IH _ _ H2). clear IH H2.
  unfold act in H1. destruct a.
  - apply res_bind_ok in H1 as ([[row lb1] db1] & H1 & H2). simplify_eq.
    by apply fill_snapshots in H1.
  - pose proof (trade_snapshots (close_on_signal sym (bar_open bar) (bar_ts bar) (lb_paper lb)) lb db) as Ht.
    unfold lb_close_on_signal in H1. destruct (persist_trade _ _ _) as [[t lb0] db0].
    apply res_bind_ok in H1 as ([[row lb1] db1] & H1 & H2). simplify_eq. simpl in *.
    apply fill_snapshots in H1. simpl in H1. by rewrite H1.
  - unfold cancel_pending in H1. repeat case_match; simplify_eq; done.
Qed.

Lemma same_set_intro {A} `{EqDecision A} (a b : list A) :
  (forall x, x ∈ a <-> x ∈ b) -> same_set a b = true.
Proof.
  intros Hab. unfold same_set. apply andb_true_iff.
  split; apply forallb_forall; intros x Hx%list_elem_of_In; apply bool_decide_eq_true; by apply Hab.
Qed.

(** A mirroring broker passes reconciliation. *)
Lemma reconcile_sync lb db : in_sync lb db -> reconcile lb db = true.
Proof.
  intros [H1 H2]. unfold reconcile. rewrite H1, same_set_intro by done. simpl.
  apply same_set_intro. intros id. rewrite H2, list_elem_of_fmap. setoid_rewrite elem_of_pending.
  naive_solver.
Qed.

(** Processing a bar in a history that started at [db0], where the candidates were read. *)
Lemma process_unit_bar_step (interval : option Z) (symbol timeframe : string) (bar : Bar)
    (cands : list PendingCandidate) (lb : LedgerBroker) (db0 db : DB) :
  ledger_inv db -> evolves db0 db ->
  (forall c, c ∈ cands -> cand_stamp c = bar_ts bar -> cand_order c ∈ orders_paper db0) ->
  exists r lb' db', process_unit_bar interval symbol timeframe bar cands lb db = Ok (r, lb', db') /\
    ledger_inv db' /\ evolves db db' /\ reconcile lb' db' = true /\
    0 <= filled r <= 1 /\ 0 <= exits r <= 1 /\
    Z.of_nat (length (positions db')) = Z.of_nat (length (positions db)) + filled r /\
    (forall c, c ∈ cands -> cand_stamp c = bar_ts bar -> fillable (str_upper symbol) db0 c ->
       resolved db' (o_id (cand_order c))) /\
    (snapshot_written r = true ->
       exists sn, account_snapshots db' = account_snapshots db ++ [sn] /\ sn_ts sn = bar_ts bar) /\
    (snapshot_written r = false -> account_snapshots db' = account_snapshots db).
Proof.
  intros Hi He0 Hf. unfold process_unit_bar.
  set (lb0 := restore_state lb db). pose proof (restore_sync lb db) as Hs0. fold lb0 in Hs0.
  set (os := side <$> lb_open_for (str_upper symbol) lb0).
  set (acts := arbitrate_fills os (candidates_for_bar cands (bar_ts bar))).
  destruct (arbitrate_shape os (candidates_for_bar cands (bar_ts bar))) as (_ & Hfst & Hone).
  fold acts in Hfst, Hone.
  assert (Hdue : forall c, c ∈ candidates_for_bar cands (bar_ts bar) <-> c ∈ cands /\ cand_stamp c = bar_ts bar).
  { intros c. unfold candidates_for_bar.
    by rewrite elem_of_sort_by, list_elem_of_In, List.filter_In, <- list_elem_of_In, Z.eqb_eq. }
  assert (Hacts : forall c a, (c, a) ∈ acts -> c ∈ cands /\ cand_stamp c = bar_ts bar).
  { intros c a Hin. apply Hdue. rewrite <- Hfst. change c with (fst (c, a)). by apply list_elem_of_fmap_2. }
  destruct (act_fold (str_upper symbol) bar db0 acts lb0 db 0 0) as
    (lb1 & db1 & nf & ns & Hrun & Hi1 & Hs1 & He1 & Hres & Hnf & Hpos); try done.
  { intros c a Hin. apply Hf; by eapply Hacts. }
  { pose proof (arbitrated_head os (candidates_for_bar cands (bar_ts bar))) as Hh. fold acts in Hh.
    destruct acts as [|[c []] l]; try done. unfold os, lb_open_for in Hh. rewrite str_upper_idem in Hh.
    unfold broker_book. by destruct (open_for _ _). }
  { apply arbitrated_tail. }
  rewrite Hrun. cbn [res_bind].
  pose proof (fold_snapshots (str_upper symbol) bar acts _ _ Hrun) as Hsn. simpl in Hsn.
  pose proof (persist_trade_step _ lb1 db1
    (evaluate_exit_shape (str_upper symbol) (bar_close bar) (bar_ts bar) (lb_paper lb1)) Hi1 Hs1) as Hx.
  pose proof (exit_len (str_upper symbol) (bar_close bar) (bar_ts bar) lb1 db1) as Hxl.
  pose proof (trade_snapshots (evaluate_exit (str_upper symbol) (bar_close bar) (bar_ts bar) (lb_paper lb1))
                lb1 db1) as Hxs.
  unfold lb_evaluate_exit in *. destruct (persist_trade _ lb1 db1) as [[t lb2] db2].
  destruct Hx as (Hi2 & Hs2 & He2). simpl in Hxs.
  set (lb3 := lb_mark_position _ _ lb2).
  assert (Hs3 : in_sync lb3 db2) by by destruct Hs2; split.
  set (snap := _ && _).
  assert (Hone' : acting acts <= 1) by (unfold acting; lia).
  assert (He12 : evolves db db2) by by eapply evolves_trans.
  assert (Hres2 : forall c, c ∈ cands -> cand_stamp c = bar_ts bar -> fillable (str_upper symbol) db0 c ->
                    resolved db2 (o_id (cand_order c))).
  { intros c Hc Hst Hfc. assert (c ∈ map fst acts) as Hin by (rewrite Hfst; by apply Hdue).
    apply list_elem_of_fmap in Hin as ([c' a] & -> & Hin). eapply resolved_evolves; [done|exact He2|].
    by eapply Hres. }
  assert (Hne : 0 <= (match t with Some _ => 1 | None => 0 end) <= 1) by (destruct t; lia).
  destruct snap.
  - destruct (equity_snapshot (bar_ts bar) lb3 db2) as [lb4 db4] eqn:Esn.
    assert (Hsnap : positions db4 = positions db2 /\ orders_paper db4 = orders_paper db2 /\
        uuids db4 = uuids db2 /\ open_symbols lb4 = open_symbols lb3 /\ lb_pending lb4 = lb_pending lb3 /\
        exists sn, account_snapshots db4 = account_snapshots db2 ++ [sn] /\ sn_ts sn = bar_ts bar).
    { unfold equity_snapshot in Esn. destruct (broker_state _ _) as [st paper] eqn:Eb.
      injection Esn as <- <-. unfold broker_state in Eb. injection Eb as _ <-.
      split_and!; try done. eexists. split; [reflexivity|done]. }
    destruct Hsnap as (Hp4 & Ho4 & Hu4 & Hos4 & Hpe4 & sn & Hsn4 & Hts4).
    eexists _, lb4, db4. split; [reflexivity|]. cbn [filled exits snapshot_written].
    split_and!; try done; try lia.
    + apply (ledger_inv_ext db2); [done|done|lia|done].
    + eapply evolves_trans; [exact He12|]. split; rewrite ?Ho4, ?Hp4; eexists _, [];
        rewrite app_nil_r; split; reflexivity.
    + apply reconcile_sync. by apply (in_sync_ext lb3 lb4 db2 db4).
    + rewrite Hp4, Hxl. lia.
    + intros c Hc Hst Hfc. destruct (Hres2 c Hc Hst Hfc) as (o & Ho & Hop). exists o.
      split; [|done]. unfold get_order in *. by rewrite Ho4.
    + intros _. exists sn. by rewrite Hsn4, Hxs, Hsn.
  - eexists _, lb3, db2. split; [reflexivity|]. cbn [filled exits snapshot_written].
    split_and!; try done; try lia.
    + by apply reconcile_sync.
    + intros _. by rewrite Hxs, Hsn.
Qed.

(** C4: processing a bar never fails on a consistent ledger and keeps it consistent: at
    most one position is created, one fill counted and one exit taken per bar, every
    candidate due at the bar is resolved (filled, or cancelled as superseded) for
    good, the broker mirrors the ledger afterwards and rows only move forward. *)
Theorem process_unit_bar_sound (interval : option Z) (symbol timeframe : string) (bar : Bar)
    (cands : list PendingCandidate) (lb : LedgerBroker) (db : DB) :
  ledger_inv db ->
  (forall c, c ∈ cands -> cand_stamp c = bar_ts bar -> fillable (str_upper symbol) db c) ->
  exists r lb' db', process_unit_bar interval symbol timeframe bar cands lb db = Ok (r, lb', db') /\
    ledger_inv db' /\ evolves db db' /\ reconcile lb' db' = true /\
    0 <= filled r <= 1 /\ 0 <= exits r <= 1 /\
    Z.of_nat (length (positions db')) = Z.of_nat (length (positions db)) + filled r /\
    (forall c, c ∈ cands -> cand_stamp c = bar_ts bar -> resolved db' (o_id (cand_order c))) /\
    (snapshot_written r = true ->
       exists sn, account_snapshots db' = account_snapshots db ++ [sn] /\ sn_ts sn = bar_ts bar) /\
    (snapshot_written r = false -> account_snapshots db' = account_snapshots db).
Proof.
  intros Hi Hf. destruct (process_unit_bar_step interval symbol timeframe bar cands lb db db Hi)
    as (r & lb' & db' & Hr & Hi' & He & Hrec & Hn & Hx & Hp & Hres & Hsn).
  { apply evolves_refl. }
  { intros c Hc Hst. by apply Hf. }
  exists r, lb', db'. split_and!; try done; try lia; try apply Hsn. intros c Hc Hst. apply Hres; auto.
Qed.

(** A bar no newer than the latest snapshot writes none, whatever it fills or closes;
    the next [restore_state] takes the cash of that older snapshot, so the cash such a
    bar moved (a second symbol's fill at the same bar time) is forgotten. *)
Theorem same_bar_cash_lost (interval : option Z) (symbol timeframe : string) (bar : Bar)
    (cands : list PendingCandidate) (lb fresh : LedgerBroker) (db : DB) (sn : AccountSnapshotRow)
    (r : UnitBarResult) (lb' : LedgerBroker) (db' : DB) :
  latest_snapshot db = Some sn -> bar_ts bar <= sn_ts sn ->
  process_unit_bar interval symbol timeframe bar cands lb db = Ok (r, lb', db') ->
  snapshot_written r = false /\ account_snapshots db' = account_snapshots db /\
  cash (lb_paper (restore_state fresh db')) = dec_to_float (sn_cash sn) /\
  equity (lb_paper (restore_state fresh db')) = dec_to_float (sn_equity sn).
Proof.
  intros Hl Hle. unfold process_unit_bar. intros Hr.
  apply res_bind_ok in Hr as ([[lb1 db1] [nf ns]] & Hrun & Hr).
  apply fold_snapshots in Hrun. simpl in Hrun.
  pose proof (trade_snapshots (evaluate_exit (str_upper symbol) (bar_close bar) (bar_ts bar) (lb_paper lb1))
                lb1 db1) as Hxs.
  unfold lb_evaluate_exit in Hr. destruct (persist_trade _ lb1 db1) as [[t lb2] db2]. simpl in Hxs.
  assert (Hdue : _snapshot_due interval bar db2 = false).
  { unfold _snapshot_due, latest_snapshot in *. rewrite Hxs, Hrun, Hl.
    by replace (bar_ts bar <=? sn_ts sn) with true by (symmetry; by apply Z.leb_le). }
  rewrite Hdue, andb_false_r in Hr. injection Hr as <- <- <-. simpl.
  split_and!; [done|congruence| |]; unfold restored_paper, latest_snapshot in *; by rewrite Hxs, Hrun, Hl.
Qed.
End Processing.

(** ** A concrete unit *)

Definition demo_unit_ops : list ledger_op :=
  demo_ops ++ [Submit "GBPUSD" "H1" SHORT (lit 13 1) 0 (of_Z 1000) (Some 43) None None]%string.

Definition demo_unit : LedgerBroker * DB :=
  match @ledger_run demo_platform demo_unit_ops demo_lb empty_db with
  | Ok r => r | Err _ => (demo_lb, empty_db) end.

Definition cands_at (ts : Z) (db : DB) : list PendingCandidate :=
  map (fun o => {| cand_order := o; cand_stamp := ts |}) (list_pending_orders db).

Notation demo_cands := (cands_at 7200000000 demo_unit.2).

Definition demo_bar : Bar :=
  {| bar_ts := 7200000000; bar_open := lit 13 1; bar_close := lit 13 1 |}.

Notation demo_bar_run :=
  (@process_unit_bar demo_platform None "gbpusd" "H1" demo_bar demo_cands demo_unit.1 demo_unit.2).

Lemma demo_unit_inv : @ledger_inv demo_platform demo_unit.2.
Proof.
  pose proof (@ledger_run_spec demo_platform demo_platform_ok demo_unit_ops demo_lb empty_db
                empty_ledger_inv empty_in_sync) as Hc.
  unfold demo_unit. destruct (ledger_run demo_unit_ops demo_lb empty_db) as [[lb db]|e];
    [apply Hc|exact empty_ledger_inv].
Qed.

Definition fillableb (sym : string) (o : PaperOrderRow) : bool :=
  String.eqb (o_symbol o) sym && String.eqb (str_upper sym) sym && negb (bool_decide (o_side o = FLAT))
  && negb (fle (dec_to_float (o_units o)) f0).

Lemma pending_fillable sym ts db c :
  forallb (fillableb sym) (list_pending_orders db) = true ->
  c ∈ cands_at ts db -> fillable sym db c.
Proof.
  intros Hall Hc. unfold cands_at in Hc. apply list_elem_of_fmap in Hc as (o & -> & Ho).
  rewrite forallb_forall in Hall. specialize (Hall _ (proj1 (list_elem_of_In _ _) Ho)).
  unfold fillableb in Hall. rewrite !andb_true_iff in Hall. destruct Hall as [[[H1 H2] H3] H4].
  apply elem_of_pending in Ho as [Ho _]. split; [done|].
  apply String.eqb_eq in H1, H2. apply negb_true_iff in H3, H4. by apply bool_decide_eq_false in H3.
Qed.

Lemma demo_fillable : forallb (fillableb (str_upper "gbpusd")) (list_pending_orders demo_unit.2) = true.
Proof. vm_compute. reflexivity. Qed.

Lemma demo_cands_fillable c :
  c ∈ demo_cands -> cand_stamp c = bar_ts demo_bar -> fillable (str_upper "gbpusd") demo_unit.2 c.
Proof. intros Hc _. exact (pending_fillable _ 7200000000 _ _ demo_fillable Hc). Qed.

Lemma process_unit_bar_sound_witness :
  length demo_cands = 1%nat /\
  exists r lb' db', demo_bar_run = Ok (r, lb', db') /\ reconcile lb' db' = true.
Proof.
  split; [vm_compute; reflexivity|].
  destruct (@process_unit_bar_sound demo_platform demo_platform_ok None "gbpusd" "H1" demo_bar demo_cands
    demo_unit.1 demo_unit.2 demo_unit_inv demo_cands_fillable)
    as (r & lb' & db' & Hr & _ & _ & Hrec & _).
  exists r, lb', db'. split; [exact Hr|exact Hrec].
Defined.

Lemma demo_snapshot_not_older :
  match latest_snapshot demo_unit.2 with
  | Some s => bar_ts demo_bar <=? sn_ts s
  | None => false
  end = true.
Proof. vm_compute. reflexivity. Qed.

(** Cash after the bar and cash after the next restart, when the bar filled an order. *)
Definition cash_differs (x : Res (UnitBarResult * LedgerBroker * DB)) : bool :=
  match x with
  | Ok (r, lb, db) => (filled r =? 1)
      && negb (feq (cash (lb_paper lb)) (cash (lb_paper (restore_state demo_lb db))))
  | Err _ => false
  end.

Lemma demo_cash_differs : cash_differs demo_bar_run = true.
Proof. vm_compute. reflexivity. Qed.

Lemma same_bar_cash_lost_witness :
  exists r lb' db' sn, demo_bar_run = Ok (r, lb', db') /\
    cash (lb_paper (restore_state demo_lb db')) = dec_to_float (sn_cash sn) /\
    feq (cash (lb_paper lb')) (cash (lb_paper (restore_state demo_lb db'))) = false.
Proof.
  pose proof demo_snapshot_not_older as Hle.
  destruct (latest_snapshot demo_unit.2) as [sn|] eqn:Es; [|discriminate Hle].
  apply Z.leb_le in Hle. pose proof demo_cash_differs as Hd.
  destruct (process_unit_bar None "gbpusd" "H1" demo_bar demo_cands demo_unit.1 demo_unit.2)
    as [[[r lb'] db']|e] eqn:E; [|discriminate Hd].
  apply andb_true_iff, proj2, negb_true_iff in Hd.
  pose proof (same_bar_cash_lost None "gbpusd" "H1" demo_bar demo_cands
    demo_unit.1 demo_lb demo_unit.2 sn r lb' db' Es Hle E) as (_ & _ & Hc & _).
  exists r, lb', db', sn. refine (conj eq_refl (conj Hc Hd)).
Defined.
