(* ===== verification/MarketConfig.v ===== *)
(** * The market universe stored in the settings table ([app/data/market_config.py]) *)

From Stdlib Require Import ZArith Lia Sorted.
From stdpp Require Import base list strings sorting.
From S2P Require Import Prelude PyFloat Timeframes Signals Risk Decision Tables Candles Decide.

Definition SYMBOLS_KEY : string := "market.symbols".
Definition TIMEFRAMES_KEY : string := "market.timeframes".

(** [s.isalpha()] on ASCII text: not empty, and letters only. *)
Definition is_letter (c : Ascii.ascii) : bool :=
  let n := Ascii.nat_of_ascii c in
  (Nat.leb 65 n && Nat.leb n 90) || (Nat.leb 97 n && Nat.leb n 122).

Fixpoint all_letters (s : string) : bool :=
  match s with
  | EmptyString => true
  | String c s' => is_letter c && all_letters s'
  end.

Definition isalpha (s : string) : bool :=
  match s with EmptyString => false | _ => all_letters s end.

(** [if x not in l: l.append(x)]. *)
Definition append_new (x : string) (l : list string) : list string :=
  if bool_decide (x ∈ l) then l else l ++ [x].

Definition normalize_symbol (symbol : string) : Res string :=
  let normalized := str_upper (py_strip symbol) in
  if negb (Nat.eqb (String.length normalized) 6) || negb (isalpha normalized) then Err ValueError
  else Ok normalized.

Definition normalize_symbols (symbols : list string) : Res (list string) :=
  cleaned <-- fold_res (fun acc s => n <-- normalize_symbol s ;; Ok (append_new n acc)) symbols [] ;;
  match cleaned with [] => Err ValueError | _ => Ok cleaned end.

Definition normalize_timeframe (timeframe : string) : Res string :=
  let normalized := str_upper (py_strip timeframe) in
  if is_valid normalized then Ok normalized else Err ValueError.

Definition normalize_timeframes (timeframes : list string) : Res (list string) :=
  ordered <-- fold_res (fun acc t => n <-- normalize_timeframe t ;; Ok (append_new n acc)) timeframes [] ;;
  match ordered with [] => Err ValueError | _ => sort_by_rank ordered end.

(** A stored list may hold anything JSON does. *)
Definition _read_setting (key : string) (db : DB) : option (list pyval) :=
  match dget key (system_settings db) with
  | Some (VDict d) => match dget "value"%string d with Some (VList l) => Some l | _ => None end
  | _ => None
  end.

Section Config.
(** The environment's defaults, [settings.market_symbols] and [.market_timeframes]. *)
Context (default_symbols default_timeframes : list string).

Definition get_market_config (db : DB) : list pyval * list pyval :=
  (match _read_setting SYMBOLS_KEY db with Some l => l | None => map VStr default_symbols end,
   match _read_setting TIMEFRAMES_KEY db with Some l => l | None => map VStr default_timeframes end).

Definition write_setting (key : string) (values : list pyval) (db : DB) : DB :=
  set_system_settings (dset key (VDict [("value"%string, VList values)]) (system_settings db)) db.

Definition set_market_config (symbols timeframes : option (list string)) (db : DB)
  : Res ((list pyval * list pyval) * DB) :=
  let '(current_symbols, current_timeframes) := get_market_config db in
  new_symbols <-- match symbols with
                  | Some l => n <-- normalize_symbols l ;; Ok (map VStr n)
                  | None => Ok current_symbols
                  end ;;
  new_timeframes <-- match timeframes with
                     | Some l => n <-- normalize_timeframes l ;; Ok (map VStr n)
                     | None => Ok current_timeframes
                     end ;;
  Ok ((new_symbols, new_timeframes),
      write_setting TIMEFRAMES_KEY new_timeframes (write_setting SYMBOLS_KEY new_symbols db)).
End Config.

(** [x in values] for a string [x]. *)
Definition has_str (x : string) (values : list pyval) : bool :=
  existsb (fun v => match v with VStr s => String.eqb s x | _ => false end) values.

(** ** Lemmas *)

Lemma append_new_NoDup x l : NoDup l -> NoDup (append_new x l).
Proof.
  unfold append_new. case_bool_decide; [done|]. intros. apply NoDup_app. split_and!; try done.
  - intros y Hy ->%list_elem_of_singleton. done.
  - apply NoDup_singleton.
Qed.

Lemma elem_of_append_new y x l : y ∈ append_new x l <-> y = x \/ y ∈ l.
Proof.
  unfold append_new. case_bool_decide; rewrite ?elem_of_app, ?list_elem_of_singleton; naive_solver.
Qed.

(** A normalising loop collects the images of its inputs, each once. *)
Lemma normalize_fold (f : string -> Res string) l : forall acc acc',
  fold_res (fun acc s => n <-- f s ;; Ok (append_new n acc)) l acc = Ok acc' ->
  (NoDup acc -> NoDup acc') /\
  (forall y, y ∈ acc' <-> y ∈ acc \/ exists s, s ∈ l /\ f s = Ok y) /\
  (forall s, s ∈ l -> is_ok (f s) = true).
Proof.
  induction l as [|s l IH]; intros acc acc'; cbn [fold_res].
  - intros [= <-]. split_and!; [done| |by intros ? ?%elem_of_nil].
    intros y. split; [by left|]. intros [?|(s & ?%elem_of_nil & _)]; done.
  - intros Hr. apply res_bind_ok in Hr as (acc1 & Hr & Hl). apply res_bind_ok in Hr as (n & Hn & [= <-]).
    apply IH in Hl as (Hnd & Hin & Hok). split_and!.
    + intros. by apply Hnd, append_new_NoDup.
    + intros y. rewrite Hin, elem_of_append_new. split.
      * intros [[->|?]|(s' & ? & ?)]; [right; exists s|by left|right; exists s']; split; try done; by constructor.
      * intros [?|(s' & [->|?]%elem_of_cons & ?)]; [auto|left; left; congruence|eauto].
    + intros s' [->|?]%elem_of_cons; [by rewrite Hn|by apply Hok].
Qed.

(** What a normalised universe looks like. *)
Definition symbol_ok (s : string) : Prop := String.length s = 6%nat /\ isalpha s = true /\ str_upper s = s.

Lemma normalize_symbol_ok s n : normalize_symbol s = Ok n -> symbol_ok n /\ n = str_upper (py_strip s).
Proof.
  unfold normalize_symbol. destruct (_ || _) eqn:E; [done|]. intros [= <-].
  apply orb_false_iff in E as [E1%negb_false_iff E2%negb_false_iff].
  apply Nat.eqb_eq in E1. split; [|done]. split_and!; try done. apply str_upper_idem.
Qed.

Definition ranked (x : Z * string) : Prop := rank x.2 = Ok x.1.

(** [sort_by_rank] permutes its input into ascending ranks. *)
Lemma sort_by_rank_spec l l' : sort_by_rank l = Ok l' ->
  l' ≡ₚ l /\ exists rs, StronglySorted Z.le rs /\ Forall2 (fun tf r => rank tf = Ok r) l' rs.
Proof.
  unfold sort_by_rank. intros H. apply res_bind_ok in H as (rk & Hr & [= <-]).
  apply map_res_Forall2 in Hr.
  assert (Hrk : Forall ranked rk /\ rk.*2 = l).
  { clear -Hr. induction Hr as [|tf [r tf'] l rk Hx _ [IH1 IH2]]; [done|].
    apply res_bind_ok in Hx as (r' & Hr' & [= -> ->]). split; [by constructor|]. cbn. by rewrite <- IH2. }
  destruct Hrk as [Hrk <-]. rewrite <- (sort_by_perm (asc_leb fst) rk) in Hrk at 1.
  split; [by rewrite (sort_by_perm (asc_leb fst) rk)|].
  pose proof (sort_by_sorted (asc_leb fst) rk) as Hs. unfold sorted_by in Hs.
  exists (sort_by (asc_leb fst) rk).*1. revert Hs Hrk. generalize (sort_by (asc_leb fst) rk). clear.
  intros l Hs Hrk. split.
  - induction Hs as [|x l Hs IH Hx]; [constructor|]. apply Forall_cons in Hrk as [_ Hrk].
    constructor; [by apply IH|]. apply Forall_fmap. eapply Forall_impl; [exact Hx|].
    intros y Hy. by apply Z.leb_le in Hy.
  - clear Hs. induction Hrk; constructor; done.
Qed.

Lemma read_written key values db :
  _read_setting key (write_setting key values db) = Some values.
Proof. unfold _read_setting, write_setting. simpl. by rewrite dget_dset_eq. Qed.

Lemma read_other key key' values db : key <> key' ->
  _read_setting key (write_setting key' values db) = _read_setting key db.
Proof. intros. unfold _read_setting, write_setting. simpl. by rewrite dget_dset_ne. Qed.

Lemma index_of_inj x y l i : index_of x l = Some i -> index_of y l = Some i -> x = y.
Proof.
  revert i. induction l as [|z l IH]; intros i; simpl; [done|].
  assert (Hp : forall w j, index_of w l = Some j -> 0 <= j).
  { clear. induction l as [|z l IH]; intros w j; simpl; [done|].
    destruct (String.eqb w z); [intros [= <-]; lia|].
    destruct (index_of w l) eqn:E; simpl; [|done]. intros [= <-]. apply IH in E. lia. }
  destruct (String.eqb x z) eqn:Ex, (String.eqb y z) eqn:Ey; rewrite ?String.eqb_eq in *.
  - congruence.
  - intros [= <-] (j & Hj & ?)%fmap_Some. apply Hp in Hj. lia.
  - intros (j & Hj & ?)%fmap_Some [= <-]. apply Hp in Hj. lia.
  - intros (j & Hj & ->)%fmap_Some (k & Hk & ?)%fmap_Some. apply (IH j); [done|]. rewrite Hk. f_equal. lia.
Qed.

Lemma rank_inj x y r : rank x = Ok r -> rank y = Ok r -> x = y.
Proof.
  unfold rank. destruct (index_of x _) eqn:Ex; [|done]. destruct (index_of y _) eqn:Ey; [|done].
  intros [= ->] [= ->]. by eapply index_of_inj.
Qed.

Lemma strict_ranks l rs : NoDup l -> StronglySorted Z.le rs ->
  Forall2 (fun tf r => rank tf = Ok r) l rs -> StronglySorted Z.lt rs.
Proof.
  intros Hn Hs Hf. revert Hn Hs. induction Hf as [|x r l rs Hx Hf IH]; intros Hn Hs; [constructor|].
  apply NoDup_cons in Hn as [Hxl Hn]. inversion Hs as [|? ? Hs' Hr]; subst. constructor; [by apply IH|].
  clear IH Hs Hs' Hn. induction Hf as [|y r' l rs Hy Hf IH]; [constructor|].
  apply Forall_cons in Hr as [Hle Hr]. apply not_elem_of_cons in Hxl as [Hne Hxl].
  constructor; [|by apply IH]. enough (r <> r') by lia. intros <-. apply Hne. by eapply rank_inj.
Qed.

Lemma normalize_timeframe_ok t n : normalize_timeframe t = Ok n -> n = str_upper (py_strip t).
Proof. unfold normalize_timeframe. destruct (is_valid _); [|done]. by intros [= <-]. Qed.

(** The images of a successful normalising loop. *)
Lemma normalized_images (f : string -> Res string) (g : string -> string) l ns :
  (forall s n, f s = Ok n -> n = g s) ->
  fold_res (fun acc s => n <-- f s ;; Ok (append_new n acc)) l [] = Ok ns ->
  NoDup ns /\ (forall y, y ∈ ns <-> y ∈ map g l) /\ (forall y, y ∈ ns -> exists s, f s = Ok y).
Proof.
  intros Hf Hc. apply normalize_fold in Hc as (Hnd & Hin & Hok). split_and!; [apply Hnd; constructor| |].
  - intros y. rewrite Hin, list_elem_of_fmap. split.
    + intros [?%elem_of_nil|(s & Hl & Hy)]; [done|]. exists s. split; [by apply Hf|done].
    + intros (s & -> & Hl). right. exists s. split; [done|]. specialize (Hok s Hl).
      destruct (f s) as [y|] eqn:E; [|done]. by rewrite (Hf _ _ E).
  - intros y [?%elem_of_nil|(s & _ & Hy)]%Hin; [done|]. by exists s.
Qed.

(** Admin overrides of the market universe are validated and read back.  A successful
    update stores what it returns, both lists at once; each given symbol list becomes
    a duplicate-free, non-empty list of six-letter upper-case pairs, exactly those of the
    request, and each given timeframe list the request's valid timeframes, once each,
    in ascending length; a list that was not given keeps its effective value. *)
Theorem market_config_roundtrip (dsym dtf : list string) (symbols timeframes : option (list string))
    (db db' : DB) (rs rt : list pyval) :
  set_market_config dsym dtf symbols timeframes db = Ok ((rs, rt), db') ->
  get_market_config dsym dtf db' = (rs, rt) /\
  (forall l, symbols = Some l -> exists ns, rs = map VStr ns /\ ns <> [] /\ NoDup ns /\
     Forall symbol_ok ns /\ forall y, y ∈ ns <-> y ∈ map (fun s => str_upper (py_strip s)) l) /\
  (symbols = None -> rs = (get_market_config dsym dtf db).1) /\
  (forall l, timeframes = Some l -> exists nt, rt = map VStr nt /\ nt <> [] /\ NoDup nt /\
     (forall y, y ∈ nt <-> y ∈ map (fun s => str_upper (py_strip s)) l) /\
     exists ranks, StronglySorted Z.lt ranks /\ Forall2 (fun tf r => rank tf = Ok r) nt ranks) /\
  (timeframes = None -> rt = (get_market_config dsym dtf db).2).
Proof.
  unfold set_market_config. destruct (get_market_config dsym dtf db) as [cs ct].
  intros H. apply res_bind_ok in H as (ns & Hs & H). apply res_bind_ok in H as (nt & Ht & [= -> -> <-]).
  split_and!.
  - unfold get_market_config. rewrite read_written, read_other by done. by rewrite read_written.
  - intros l ->. apply res_bind_ok in Hs as (n & Hn & [= <-]). exists n. split; [done|].
    unfold normalize_symbols in Hn. apply res_bind_ok in Hn as (c & Hc & Hn).
    apply (normalized_images _ (fun s => str_upper (py_strip s))) in Hc as (Hnd & Hin & Hex);
      [|intros s n' Hs'; by apply normalize_symbol_ok in Hs' as [_ ?]].
    destruct c as [|x c]; [done|]. injection Hn as <-. split_and!; try done.
    apply Forall_forall. intros y (s & Hy)%Hex. by apply normalize_symbol_ok in Hy as [? _].
  - intros ->. by injection Hs as <-.
  - intros l ->. apply res_bind_ok in Ht as (n & Hn & [= <-]). exists n. split; [done|].
    unfold normalize_timeframes in Hn. apply res_bind_ok in Hn as (c & Hc & Hn).
    apply (normalized_images _ (fun s => str_upper (py_strip s)) _ _ normalize_timeframe_ok) in Hc
      as (Hnd & Hin & _).
    destruct c as [|x c]; [done|]. apply sort_by_rank_spec in Hn as (Hp & rks & Hsrt & Hrk).
    split_and!.
    + intros ->. by apply Permutation_nil in Hp.
    + by rewrite Hp.
    + intros y. by rewrite Hp.
    + exists rks. split; [|done]. apply (strict_ranks n); [by rewrite Hp|done|done].
  - intros ->. by injection Ht as <-.
Qed.

Lemma market_config_roundtrip_witness :
  exists db', set_market_config ["EURUSD"%string] ["H1"%string] (Some [" gbpusd"; "EURUSD"; "GBPUSD "])%string
    (Some ["d1"; "M5"])%string empty_db = Ok ((map VStr ["GBPUSD"; "EURUSD"], map VStr ["M5"; "D1"])%string, db') /\
    get_market_config [] [] db' = (map VStr ["GBPUSD"; "EURUSD"], map VStr ["M5"; "D1"])%string.
Proof.
  eexists. split; [vm_compute; reflexivity|].
  refine (proj1 (market_config_roundtrip [] [] (Some [" gbpusd"; "EURUSD"; "GBPUSD "])%string
    (Some ["d1"; "M5"])%string empty_db _ _ _ _)). vm_compute. reflexivity.
Defined.
