(* ===== verification/LedgerGate.v ===== *)
(** * The live risk gate derived from the paper ledger ([app/decisions/ledger_gate.py]) *)

From Stdlib Require Import ZArith Lia.
From stdpp Require Import base list strings.
From S2P Require Import Prelude PyFloat Timeframes Signals Risk Decision Tables Decide Costs Positions Paper Ledger.

Record LedgerGateView := {
  gate : GateState;
  gv_equity : float;
  gv_peak_equity : float;
  realized_today : float;
  cumulative_realized : float;
  open_notional : float;
  open_position_count : Z
}.

Definition _position_set (rows : list PaperPositionRow) : PositionSet := map _to_position rows.

(** Midnight UTC of the instant. *)
Definition _utc_day_start (now : Z) : Z := now - now mod us_per_day.

Section Gate.
Context `{Platform}.

Definition build_ledger_gate (lb : LedgerBroker) (symbol : string) (now : Z) (db : DB)
  : LedgerGateView :=
  let sym := str_upper symbol in
  let open_rows := load_open_position_rows db in
  let positions := _position_set open_rows in
  let eq := f_or (equity (lb_paper lb)) (start_equity (lb_paper lb)) in
  let total := total_notional positions in
  let exposure_pct := over_equity total eq in
  let correlation_pct := over_equity (basket_notional sym positions) eq in
  let day_start := _utc_day_start now in
  let day_end := day_start + days_td 1 in
  let today := realized_pnl_since day_start day_end db in
  let cumulative := realized_pnl_since 0 (now + days_td 1) db in
  let daily_loss_pct := over_equity (fmax f0 (fneg today)) eq in
  {| gate := {| exposure_used_pct := exposure_pct; correlation_used_pct := correlation_pct;
                daily_loss_used_pct := daily_loss_pct;
                drawdown_used_pct := max_drawdown_pct (lb_paper lb);
                correlation_triggered := ps_correlation_triggered sym positions |};
     gv_equity := eq; gv_peak_equity := peak_equity (lb_paper lb); realized_today := today;
     cumulative_realized := cumulative; open_notional := total;
     open_position_count := Z.of_nat (length open_rows) |}.

End Gate.

(** ** Lemmas *)

Lemma utc_day_bounds now :
  _utc_day_start now <= now < _utc_day_start now + days_td 1 /\ _utc_day_start now mod us_per_day = 0.
Proof.
  unfold _utc_day_start. change (days_td 1) with us_per_day.
  assert (0 < us_per_day) by (unfold us_per_day, us_per_second; lia).
  pose proof (Z.mod_pos_bound now us_per_day). split; [lia|].
  rewrite Zminus_mod_idemp_r, Z.sub_diag. done.
Qed.
