(* ===== verification/Lock.v ===== *)
(** * The orchestrator's lease ([acquire_lock], [renew_lock] and [release_lock] of
    [app/workers/orchestrator_worker.py])

    The lease is one Redis key with an owner token and a time to live; several
    orchestrators run the operations in any order, and the key may expire between
    two of them. *)

From Stdlib Require Import ZArith Lia.
From stdpp Require Import base list gmap.
From S2P Require Import Prelude Tables.

(** The key's value and when it expires, as the Redis server has it at a time. *)
Record LockKey := { lk_token : Z; lk_expires : Z }.
Definition live (now : Z) (k : option LockKey) : option LockKey :=
  match k with
  | Some l => if now <? lk_expires l then Some l else None
  | None => None
  end.

(** The parts of a worker the lease depends on; the token is [uuid4().hex], or [None]
    for the empty string before the first attempt. *)
Record LockWorker := { owner_token : option Z; lock_ttl : Z }.

(** [max(1, int(lock_ttl_seconds))]. *)
Definition new_lock_worker (lock_ttl_seconds : Z) : LockWorker :=
  {| owner_token := None; lock_ttl := Z.max 1 lock_ttl_seconds |}.

(** [SET key token NX EX ttl] with a fresh token; milliseconds throughout. *)
Definition acquire_lock (token now : Z) (w : LockWorker) (k : option LockKey)
  : bool * LockWorker * option LockKey :=
  let w := {| owner_token := Some token; lock_ttl := lock_ttl w |} in
  match live now k with
  | Some l => (false, w, Some l)
  | None => (true, w, Some {| lk_token := token; lk_expires := now + lock_ttl w * 1000 |})
  end.

(** WATCH, GET, compare, then PEXPIRE in MULTI/EXEC.  [lost] is a connection failure or
    a transaction aborted because the key changed after WATCH: an exception. *)
Definition renew_lock (lost : bool) (now : Z) (w : LockWorker) (k : option LockKey)
  : bool * option LockKey :=
  match owner_token w with
  | None => (false, k)
  | Some token =>
      match live now k with
      | Some l =>
          if negb (lk_token l =? token) then (false, Some l)
          else if lost then (false, Some l)
          else (true, Some {| lk_token := lk_token l; lk_expires := now + lock_ttl w * 1000 |})
      | None => (false, None)
      end
  end.

Definition release_lock (lost : bool) (now : Z) (w : LockWorker) (k : option LockKey)
  : option LockKey :=
  match owner_token w with
  | None => k
  | Some token =>
      match live now k with
      | Some l => if negb (lk_token l =? token) then Some l else if lost then Some l else None
      | None => None
      end
  end.

(** ** Several orchestrators *)

Section Fleet.
Context `{Platform}.

(** The key, the workers by name, the clock, and the uuids drawn so far. *)
Record Fleet := {
  key : option LockKey;
  workers : gmap nat LockWorker;
  clock : Z;
  drawn : nat
}.

Inductive lock_event :=
| Acquired (i : nat) (ok : bool)
| Renewed (i : nat) (ok : bool)
| Released (i : nat)
| Waited.

Inductive lock_step : Fleet -> lock_event -> Fleet -> Prop :=
| step_acquire f i w ok w' k' :
    workers f !! i = Some w ->
    acquire_lock (uuid4 (drawn f)) (clock f) w (key f) = (ok, w', k') ->
    lock_step f (Acquired i ok)
      {| key := k'; workers := <[i:=w']> (workers f); clock := clock f; drawn := S (drawn f) |}
| step_renew f i w lost ok k' :
    workers f !! i = Some w -> renew_lock lost (clock f) w (key f) = (ok, k') ->
    lock_step f (Renewed i ok)
      {| key := k'; workers := workers f; clock := clock f; drawn := drawn f |}
| step_release f i w lost :
    workers f !! i = Some w ->
    lock_step f (Released i)
      {| key := release_lock lost (clock f) w (key f); workers := workers f; clock := clock f;
         drawn := drawn f |}
| step_wait f d : 0 <= d ->
    lock_step f Waited
      {| key := key f; workers := workers f; clock := clock f + d; drawn := drawn f |}.

Inductive lock_run : Fleet -> list lock_event -> Fleet -> Prop :=
| run_nil f : lock_run f [] f
| run_snoc f es f1 e f2 : lock_run f es f1 -> lock_step f1 e f2 -> lock_run f (es ++ [e]) f2.

(** Worker [i] owns the lease: the key is live and holds its token. *)
Definition owns (f : Fleet) (i : nat) : Prop :=
  exists w l, workers f !! i = Some w /\ live (clock f) (key f) = Some l /\
              owner_token w = Some (lk_token l).

(** Tokens were drawn earlier, and no two workers hold the same one. *)
Record fleet_inv (f : Fleet) : Prop := {
  fi_drawn : forall i w t, workers f !! i = Some w -> owner_token w = Some t ->
               exists n, (n < drawn f)%nat /\ t = uuid4 n;
  fi_key : forall l, key f = Some l -> exists n, (n < drawn f)%nat /\ lk_token l = uuid4 n;
  fi_distinct : forall i j wi wj t, workers f !! i = Some wi -> workers f !! j = Some wj ->
                  owner_token wi = Some t -> owner_token wj = Some t -> i = j
}.

Definition start (ttls : list Z) (now : Z) : Fleet :=
  {| key := None; workers := map_seq 0 (map new_lock_worker ttls); clock := now; drawn := O |}.
End Fleet.

Section Safety.
Context `{PlatformOk}.

Lemma live_some now k l : live now k = Some l -> k = Some l /\ now < lk_expires l.
Proof.
  unfold live. destruct k as [l'|]; [|done]. destruct (now <? lk_expires l') eqn:E; [|done].
  intros [= ->]. split; [done|]. by apply Z.ltb_lt.
Qed.

Lemma start_inv ttls now : fleet_inv (start ttls now).
Proof.
  assert (Hnone : forall i w, workers (start ttls now) !! i = Some w -> owner_token w = None).
  { intros i w Hw. simpl in Hw. apply lookup_map_seq_Some in Hw as [_ Hw].
    rewrite list_lookup_fmap in Hw. by apply fmap_Some in Hw as (t & _ & ->). }
  split; try done; intros i; intros; exfalso.
  - by rewrite (Hnone i w) in *.
  - by erewrite Hnone in *.
Qed.

Lemma acquire_key token now w k ok w' k' l :
  acquire_lock token now w k = (ok, w', k') -> k' = Some l ->
  owner_token w' = Some token /\ (lk_token l = token \/ k = Some l).
Proof.
  unfold acquire_lock. destruct (live now k) as [l0|] eqn:E; intros [= <- <- <-] [= <-]; split; auto.
  by apply live_some in E as [-> _]; auto.
Qed.

Lemma renew_key lost now w k ok k' l :
  renew_lock lost now w k = (ok, k') -> k' = Some l ->
  exists l0, k = Some l0 /\ lk_token l0 = lk_token l.
Proof.
  unfold renew_lock. destruct (owner_token w); [|intros [= <- <-] ->; eauto].
  destruct (live now k) as [l0|] eqn:E; [|by intros [= <- <-]].
  apply live_some in E as [-> _].
  destruct (negb _), lost; intros [= <- <-] [= <-]; eauto.
Qed.

Lemma release_key lost now w k l : release_lock lost now w k = Some l -> k = Some l.
Proof.
  unfold release_lock. destruct (owner_token w); [|done].
  destruct (live now k) as [l0|] eqn:E; [|done]. apply live_some in E as [-> _].
  destruct (negb _), lost; by intros [= <-].
Qed.

Lemma step_inv f e f' : fleet_inv f -> lock_step f e f' -> fleet_inv f'.
Proof.
  intros [Hd Hk Hu] Hs. destruct Hs as [f i w ok w' k' Hw Ha|f i w lost ok k' Hw Hr|f i w lost Hw|f d Hd'];
    split; simpl.
  - intros j wj t Hj Ht. apply lookup_insert_Some in Hj as [[-> ->]|[_ Hj]].
    + unfold acquire_lock in Ha. exists (drawn f). split; [lia|].
      destruct (live _ _); simplify_eq; simpl in *; congruence.
    + destruct (Hd _ _ _ Hj Ht) as (n & ? & ?). exists n. split; [lia|done].
  - intros l ->. destruct (acquire_key _ _ _ _ _ _ _ _ Ha eq_refl) as [_ [->|Hl]].
    + exists (drawn f). split; [lia|done].
    + destruct (Hk _ Hl) as (n & ? & ?). exists n. split; [lia|done].
  - assert (Hw' : owner_token w' = Some (uuid4 (drawn f)))
      by (unfold acquire_lock in Ha; destruct (live _ _); by simplify_eq).
    intros j1 j2 w1 w2 t H1 H2 Ht1 Ht2.
    apply lookup_insert_Some in H1 as [[-> ->]|[Hn1 H1]], H2 as [[-> ->]|[Hn2 H2]]; try done.
    + destruct (Hd _ _ _ H2 Ht2) as (n & ? & ->). rewrite Hw' in Ht1.
      injection Ht1 as Ht1. apply uuid4_inj in Ht1. lia.
    + destruct (Hd _ _ _ H1 Ht1) as (n & ? & ->). rewrite Hw' in Ht2.
      injection Ht2 as Ht2. apply uuid4_inj in Ht2. lia.
    + by eapply Hu.
  - done.
  - intros l Hl. destruct (renew_key _ _ _ _ _ _ _ Hr Hl) as (l0 & Hl0 & <-). by apply Hk.
  - done.
  - done.
  - intros l Hl%release_key. by apply Hk.
  - done.
  - done.
  - done.
  - done.
Qed.

Lemma run_inv f es f' : fleet_inv f -> lock_run f es f' -> fleet_inv f'.
Proof. intros Hf Hr. induction Hr; [done|]. eapply step_inv; [|done]. by apply IHHr. Qed.

Lemma live_of k now l : k = Some l -> now < lk_expires l -> live now k = Some l.
Proof. intros -> Hl. unfold live. by rewrite (proj2 (Z.ltb_lt _ _) Hl). Qed.

Lemma live_idem now k : live now (live now k) = live now k.
Proof. unfold live. destruct k as [l|]; [|done]. destruct (now <? lk_expires l) eqn:E; [|done]. by rewrite E. Qed.

(** Renewal and release keep or drop the live key: nothing else. *)
Lemma renew_cases lost now w k ok k' : renew_lock lost now w k = (ok, k') ->
  if ok then exists l, live now k = Some l /\ owner_token w = Some (lk_token l) /\
               k' = Some {| lk_token := lk_token l; lk_expires := now + lock_ttl w * 1000 |}
  else live now k' = live now k.
Proof.
  unfold renew_lock. destruct (owner_token w) as [t|]; [|by intros [= <- <-]].
  destruct (live now k) as [l|] eqn:E; [|by intros [= <- <-]].
  pose proof (live_idem now k) as Hi. rewrite E in Hi.
  destruct (negb (lk_token l =? t)) eqn:Et; [by intros [= <- <-]|].
  apply negb_false_iff, Z.eqb_eq in Et as <-.
  destruct lost; intros [= <- <-]; [done|]. eauto.
Qed.

Lemma release_cases lost now w k :
  live now (release_lock lost now w k) = live now k \/
  release_lock lost now w k = None /\ exists l, live now k = Some l /\ owner_token w = Some (lk_token l).
Proof.
  unfold release_lock. destruct (owner_token w) as [t|]; [|by left].
  destruct (live now k) as [l|] eqn:E; [|by left].
  pose proof (live_idem now k) as Hi. rewrite E in Hi.
  destruct (negb (lk_token l =? t)) eqn:Et; [by left|].
  apply negb_false_iff, Z.eqb_eq in Et as <-. destruct lost; [by left|right; eauto].
Qed.

Lemma owns_unique f i j : fleet_inv f -> owns f i -> owns f j -> i = j.
Proof.
  intros [_ _ Hu] (wi & l & Hi & Hl & Ht) (wj & l' & Hj & Hl' & Ht').
  rewrite Hl in Hl'. injection Hl' as <-. by eapply Hu.
Qed.

(** C15: the lease has at most one owner.  Whatever sequence of acquisitions, renewals,
    releases and pauses the orchestrators run, at most one of them holds the live
    key's token; an acquisition or renewal that reports success leaves its worker the
    owner for its whole time to live; one that reports failure was not the owner's (a
    renewal may also fail on a lost connection); and a release never takes the lease
    from another worker. *)
Theorem lock_single_owner (ttls : list Z) (now : Z) (es : list lock_event) (f f' : Fleet) (e : lock_event) :
  lock_run (start ttls now) es f -> lock_step f e f' ->
  (forall i j, owns f i -> owns f j -> i = j) /\
  match e with
  | Acquired i true => owns f' i /\ (forall j, ~ owns f j) /\
      exists w l, workers f' !! i = Some w /\ key f' = Some l /\
        lk_expires l = clock f + lock_ttl w * 1000
  | Acquired i false => (exists l, live (clock f) (key f) = Some l) /\ ~ owns f' i
  | Renewed i true => owns f i /\ owns f' i /\
      exists w l, workers f' !! i = Some w /\ key f' = Some l /\
        lk_expires l = clock f + lock_ttl w * 1000
  | Renewed i false => (forall j, owns f' j <-> owns f j)
  | Released i => forall j, j <> i -> (owns f' j <-> owns f j)
  | Waited => forall j, owns f' j -> owns f j
  end.
Proof.
  intros Hrun Hs. pose proof (run_inv _ _ _ (start_inv ttls now) Hrun) as Hinv.
  assert (Hpos : forall i w, workers f !! i = Some w -> 0 < lock_ttl w).
  { clear Hs Hinv. assert (Hs0 : forall i w, workers (start ttls now) !! i = Some w -> 0 < lock_ttl w).
    { intros i w Hw. simpl in Hw. apply lookup_map_seq_Some in Hw as [_ Hw].
      rewrite list_lookup_fmap in Hw. apply fmap_Some in Hw as (t & _ & ->). simpl. lia. }
    remember (start ttls now) as f0 eqn:E. clear E. induction Hrun as [|f0 es f1 e1 f2 _ IH Hs]; [done|].
    specialize (IH Hs0). destruct Hs as [f1 i w ok w' k' Hw Ha| | |]; try done. simpl.
    intros j wj Hj. apply lookup_insert_Some in Hj as [[-> ->]|[_ Hj]]; [|by eapply IH].
    specialize (IH _ _ Hw). unfold acquire_lock in Ha. destruct (live _ _); by simplify_eq. }
  split; [intros i j; by apply owns_unique|].
  pose proof (step_inv _ _ _ Hinv Hs) as Hinv'.
  destruct Hs as [f i w ok w' k' Hw Ha|f i w lost ok k' Hw Hr|f i w lost Hw|f d Hd].
  - unfold acquire_lock in Ha. destruct (live (clock f) (key f)) as [l|] eqn:El; injection Ha as <- <- <-.
    + split; [by exists l|]. intros (wi & l' & Hi & Hl & Ht). cbn [key clock workers] in *.
      rewrite lookup_insert_eq in Hi. injection Hi as <-. injection Ht as Ht.
      pose proof (live_idem (clock f) (key f)) as Hid. rewrite El in Hid. rewrite Hid in Hl.
      injection Hl as <-. apply live_some in El as [El _].
      destruct (fi_key _ Hinv _ El) as (n & Hn & Hl). rewrite Hl in Ht. apply uuid4_inj in Ht. lia.
    + pose proof (Hpos _ _ Hw). split_and!.
      * eexists _, _. cbn [key clock workers]. rewrite lookup_insert_eq. split; [reflexivity|].
        split; [apply live_of; [reflexivity|simpl; lia]|done].
      * intros j (wj & l & _ & Hl & _). congruence.
      * eexists _, _. simpl. rewrite lookup_insert_eq. by split_and!.
  - apply renew_cases in Hr. destruct ok.
    + destruct Hr as (l & Hl & Ht & ->). pose proof (Hpos _ _ Hw). split_and!.
      * by exists w, l.
      * eexists w, _. cbn [key clock workers]. split; [done|]. split; [apply live_of; [reflexivity|simpl; lia]|done].
      * by eexists w, _.
    + intros j. unfold owns. cbn [key clock workers]. by rewrite Hr.
  - intros j Hj. destruct (release_cases lost (clock f) w (key f)) as [Hl|(Hl & l & Hlive & Ht)];
      unfold owns at 1; cbn [key clock workers]; rewrite Hl; [done|].
    split; [by intros (? & ? & _ & ? & _)|]. intros Ho. exfalso. apply Hj.
    apply (owns_unique f); [done|done|]. by exists w, l.
  - intros j (wj & l & Hj & Hl & Ht). cbn [key clock workers] in *. exists wj, l. split_and!; try done.
    apply live_some in Hl as [Hk Hl]. apply live_of; [done|lia].
Qed.
End Safety.


(** ** Two orchestrators *)

Definition demo_locked : Fleet :=
  {| key := Some {| lk_token := 0; lk_expires := 120000 |};
     workers := <[0%nat := {| owner_token := Some 0; lock_ttl := 120 |}]>
                  (workers (start [120; 120] 0));
     clock := 0; drawn := 1 |}.

Lemma lock_single_owner_witness :
  exists f', @lock_step demo_platform demo_locked (Acquired 1 false) f' /\ ~ owns f' 1.
Proof.
  assert (Hrun : @lock_run demo_platform (start [120; 120] 0) [Acquired 0 true] demo_locked).
  { refine (@run_snoc demo_platform _ [] _ (Acquired 0 true) _ (@run_nil demo_platform _) _).
    refine (@step_acquire demo_platform (start [120; 120] 0) 0 (new_lock_worker 120) true _ _ _ _);
      vm_compute; reflexivity. }
  assert (Hstep : exists f', @lock_step demo_platform demo_locked (Acquired 1 false) f').
  { eexists. refine (@step_acquire demo_platform demo_locked 1 (new_lock_worker 120) false _ _ _ _);
      [vm_compute; reflexivity|reflexivity]. }
  destruct Hstep as [f' Hstep]. exists f'. split; [exact Hstep|].
  exact (proj2 (proj2 (@lock_single_owner demo_platform demo_platform_ok [120; 120] 0 _ _ _ _ Hrun Hstep))).
Defined.
