(* ===== verification/Bus.v ===== *)
(** * Events on the bus ([app/bus/events.py]) *)

From Stdlib Require Import ZArith Lia.
From stdpp Require Import base list strings.
From S2P Require Import Prelude PyFloat Timeframes Signals.

(** [Event]; no producer here sets a correlation id or another envelope version. *)
Record Event := {
  event_type : string;
  payload : dict string pyval;
  producer : string;
  produced_at : Z
}.

Section Parse.
(** Python's [json.loads], [datetime.fromisoformat] and [int], on which parsing an
    envelope relies; [None] is an exception. *)
Context (json_loads : string -> option pyval) (fromisoformat : pyval -> option Z)
  (py_int : pyval -> option Z).

(** [data[key]] of a parsed value: only a dict with the key has one. *)
Definition getitem (key : string) (data : pyval) : option pyval :=
  match data with VDict d => dget key d | _ => None end.

(** A decoded envelope: nothing checks the types of its fields. *)
Record RawEvent := {
  raw_type : pyval;
  raw_payload : pyval;
  raw_producer : pyval;
  raw_produced_at : Z;
  raw_version : Z;
  raw_correlation : pyval
}.

Definition from_json (raw : string) : option RawEvent :=
  data ← json_loads raw;
  stamp ← getitem "produced_at" data;
  at_ ← fromisoformat stamp;
  ty ← getitem "event_type" data;
  pl ← getitem "payload" data;
  pr ← getitem "producer" data;
  v ← (match getitem "schema_version" data with Some v => py_int v | None => Some 1 end);
  Some {| raw_type := ty; raw_payload := pl; raw_producer := pr; raw_produced_at := at_;
          raw_version := v;
          raw_correlation := match getitem "correlation_id" data with Some c => c | None => VStr "" end |}.
End Parse.
