(* ===== verification/Orchestrator.v ===== *)
(** * The orchestrator: from signals to decisions and paper orders
    ([process_pair], [poll_once] and [scan_all] of [app/workers/orchestrator_worker.py])

    A session is a copy of the database that is kept when the code commits and dropped
    when an exception leaves it; a dropped session's uuids are drawn again. *)

From Stdlib Require Import ZArith Lia.
From stdpp Require Import base list strings.
From S2P Require Import Prelude PyFloat Timeframes Signals Fusion Risk Decision Tables Candles SignalStore Decide Costs Positions Paper Ledger Lifecycle MarketConfig LedgerGate Bus.

(** The part of [Settings] the orchestrator reads. *)
Record Settings := {
  market_symbols : list string;
  market_timeframes : list string;
  orch_min_agent_coverage : float;
  orch_agreement_min : float;
  orch_fusion_threshold : float;
  orch_hysteresis : float;
  orch_pair_cooldown_seconds : Z;
  paper_catchup_max_bars : Z;
  paper_snapshot_interval_seconds : option Z;
  risk_settings : RiskParams
}.

Definition _orch_params (s : Settings) : OrchParams :=
  {| coverage_min := orch_min_agent_coverage s; agreement_min := orch_agreement_min s;
     op_threshold := orch_fusion_threshold s; op_hysteresis := orch_hysteresis s;
     op_context_weight := lit 15 2; cooldown_seconds := orch_pair_cooldown_seconds s;
     op_weights := [] |}.

Record OrchBatchResult := {
  processed : Z;
  replayed : Z;
  errors : Z;
  status_count : dict string Z
}.

Definition status_value (s : DecisionStatus) : string :=
  match s with ANALYSIS => "ANALYSIS" | PAPER => "PAPER" | BLOCKED => "BLOCKED" end.
Definition direction_value (d : Direction) : string :=
  match d with LONG => "LONG" | SHORT => "SHORT" | FLAT => "FLAT" end.

(** [x or y] on optional and plain strings. *)
Definition str_or (x : option string) (y : string) : string :=
  match x with Some EmptyString | None => y | Some s => s end.

(** The instants one [process_pair] reads, and its transaction's [now()]. *)
Record Clock := { tx_now : Z; engine_now : Z; gate_now : Z; decide_started : Z }.

(** What a session leaves behind: its result, the committed database, the events sent. *)
Record Session (A : Type) := { outcome : Res A; committed : DB; sent : list Event }.
Arguments outcome {A} s. Arguments committed {A} s. Arguments sent {A} s.

Section Orchestrator.
Context `{Platform}.
Context (settings : Settings).
(** [self._now], and whether the bus accepts an event or raises. *)
Context (worker_now : Z) (accepts : Event -> bool).
(** [self._broker_factory]: the broker it builds on a session. *)
Context (broker_factory : option LedgerBroker).

(** ** Sponsoring a paper order *)

Definition _load_decision_payload (result : DecideResult) (db : DB)
  : option DecisionRow * option RiskEvaluationRow :=
  let k := (res_symbol result, res_timeframe result, res_bucket_ts result) in
  (List.find (fun d => bool_decide (decision_key d = k)) (decisions db),
   List.find (fun e => bool_decide (evaluation_key e = k)) (risk_evaluations db)).

Definition _wire_paper_decision (broker : option LedgerBroker) (result : DecideResult)
    (decision : option DecisionRow) (risk_eval : option RiskEvaluationRow) (db : DB)
  : Res (option PaperOrderRow * DB) :=
  match broker with
  | None => Ok (None, db)
  | Some lb =>
      if negb (bool_decide (res_status result = Some PAPER)) || negb (created result)
      then Ok (None, db)
      else match decision, risk_eval with
      | Some decision, Some risk_eval =>
          match re_units risk_eval, re_price risk_eval, res_direction result with
          | Some units, Some price, Some direction =>
              r <-- submit_paper_order (res_symbol result) (res_timeframe result) direction
                      (dec_to_float price) (res_bucket_ts result) (dec_to_float units)
                      (Some (dr_id decision)) (dec_to_float <$> re_stop_loss risk_eval)
                      (dec_to_float <$> re_take_profit risk_eval) lb db ;;
              let '(order, _, db) := r in Ok (order, db)
          | _, _, _ => Ok (None, db)
          end
      | _, _ => Ok (None, db)
      end
  end.

(** [broker] is the one [process_pair] restored; without it a fresh one is. *)
Definition _sponsor_paper_order (result : DecideResult) (broker : option LedgerBroker) (db : DB)
  : Res DB :=
  match broker_factory with
  | None => Ok db
  | Some fresh =>
      if negb (bool_decide (res_status result = Some PAPER)) || negb (created result) then Ok db
      else
        let '(decision, risk_eval) := _load_decision_payload result db in
        let lb := match broker with Some lb => lb | None => restore_state fresh db end in
        r <-- _wire_paper_decision (Some lb) result decision risk_eval db ;; Ok r.2
  end.

(** ** Events *)

Definition direction_or_flat (r : DecideResult) : string :=
  match res_direction r with Some d => direction_value d | None => "FLAT" end.

Definition risk_brake_event (r : DecideResult) : Event :=
  {| event_type := "alert.risk_brake";
     payload := [("source", VStr "risk"); ("severity", VStr "warning");
                 ("symbol", VStr (res_symbol r)); ("timeframe", VStr (res_timeframe r));
                 ("bucket_ts", VStr (isoformat (res_bucket_ts r)));
                 ("veto_code", VStr (str_or (res_veto_code r) "blocked"));
                 ("direction", VStr (direction_or_flat r))];
     producer := "orchestrator"; produced_at := worker_now |}%string.

Definition decision_event (r : DecideResult) : Event :=
  {| event_type := "decision.emitted";
     payload := [("symbol", VStr (res_symbol r)); ("timeframe", VStr (res_timeframe r));
                 ("bucket_ts", VStr (isoformat (res_bucket_ts r)));
                 ("direction", VStr (direction_or_flat r));
                 ("status", VStr (match res_status r with Some s => status_value s
                                                        | None => "ANALYSIS" end));
                 ("confidence", VFloat (fround (res_confidence r) 4));
                 ("agreement", VFloat (fround (res_agreement r) 4));
                 ("coverage", VFloat (fround (res_coverage r) 4));
                 ("veto_code", VStr (str_or (res_veto_code r) ""));
                 ("inputs_hash", VStr (res_inputs_hash r))];
     producer := "orchestrator"; produced_at := worker_now |}%string.

(** Alerts are best effort; a refused decision event raises. *)
Definition publish_alert (e : Event) : list Event := if accepts e then [e] else [].
Definition publish_decision (e : Event) : Res (list Event) :=
  if accepts e then Ok [e] else Err OtherError.

Definition _emit_risk_brake_alert (r : DecideResult) : list Event := publish_alert (risk_brake_event r).
Definition _emit_decision (r : DecideResult) : Res (list Event) := publish_decision (decision_event r).

(** ** [process_pair] *)

(** A configured timeframe as the engine sorts it: what is no string is no timeframe. *)
Definition configured_name (v : pyval) : string :=
  match v with VStr s => s | _ => "not a string" end.

(** The transaction of [process_pair]. *)
Definition decide_pair (clk : Clock) (symbol timeframe : string) (tfs : list pyval) (db : DB)
  : Res (DecideResult * DB) :=
  risk <-- load_risk_params parse_float (risk_settings settings)
             (dget "risk.params"%string (system_settings db)) ;;
  let broker := (fun lb => restore_state lb db) <$> broker_factory in
  let view := (fun lb => build_ledger_gate lb (str_upper symbol) (gate_now clk) db) <$> broker in
  r <-- DecisionEngine_decide (engine_now clk) (decide_started clk) (risk_settings settings)
          (str_upper symbol) (str_upper timeframe) (map configured_name tfs) (_orch_params settings)
          risk (gate <$> view)
          ((fun v => {| live_equity := gv_equity v; live_peak_equity := gv_peak_equity v;
                        live_cumulative_realized := cumulative_realized v |}) <$> view) db ;;
  let '(result, db) := r in
  db <-- (match res_action result with
          | PERSIST => _sponsor_paper_order result broker db
          | SKIP => Ok db
          end) ;;
  Ok (result, db).

Definition process_pair (clk : Clock) (symbol timeframe : string) (db0 : DB)
  : Session (option DecideResult) :=
  let db := set_db_now (tx_now clk) db0 in
  let '(syms, tfs) := get_market_config (market_symbols settings) (market_timeframes settings) db in
  if negb (has_str (str_upper symbol) syms) || negb (has_str (str_upper timeframe) tfs)
  then {| outcome := Ok None; committed := db0; sent := [] |}
  else match decide_pair clk symbol timeframe tfs db with
  | Err e => {| outcome := Err e; committed := db0; sent := [] |}
  | Ok (result, db') =>
      match res_action result with
      | SKIP => {| outcome := Ok (Some result); committed := db'; sent := [] |}
      | PERSIST =>
          match _emit_decision result with
          | Err e => {| outcome := Err e; committed := db'; sent := [] |}
          | Ok es => {| outcome := Ok (Some result); committed := db';
                        sent := es ++ (if bool_decide (res_status result = Some BLOCKED)
                                       then _emit_risk_brake_alert result else []) |}
          end
      end
  end.

(** ** [poll_once] *)

(** Python's [json.loads], [datetime.fromisoformat] and [int], on which parsing an
    envelope relies; [None] is an exception. *)
Context (json_loads : string -> option pyval) (fromisoformat : pyval -> option Z)
  (py_int : pyval -> option Z).

(** A payload that is not a dict has no [items]: that exception is not caught. *)
Definition _unwrap (fields : dict string string) : Res (option (dict string string)) :=
  match dget_or "data" EmptyString fields with
  | EmptyString => Ok None
  | raw =>
      match from_json json_loads fromisoformat py_int raw with
      | None => Ok None
      | Some event =>
          match raw_type event with
          | VStr "signal.emitted" =>
              match raw_payload event with
              | VDict [] => Ok None
              | VDict d => Ok (Some (prod_map id py_str <$> d))
              | _ => Err OtherError
              end
          | _ => Ok None
          end
      end
  end%string.

Record PollState := {
  ps_result : OrchBatchResult;
  ps_acks : list (string * string);
  ps_seen : list (string * string);
  ps_calls : nat;
  ps_db : DB;
  ps_sent : list Event
}.

Definition add_processed (n : Z) (r : OrchBatchResult) : OrchBatchResult :=
  {| processed := processed r + n; replayed := replayed r; errors := errors r;
     status_count := status_count r |}.
Definition add_replayed (n : Z) (r : OrchBatchResult) : OrchBatchResult :=
  {| processed := processed r; replayed := replayed r + n; errors := errors r;
     status_count := status_count r |}.
Definition add_error (r : OrchBatchResult) : OrchBatchResult :=
  {| processed := processed r; replayed := replayed r; errors := errors r + 1;
     status_count := status_count r |}.
Definition add_status (s : option DecisionStatus) (r : OrchBatchResult) : OrchBatchResult :=
  match s with
  | Some s => {| processed := processed r; replayed := replayed r; errors := errors r;
                 status_count := dset (status_value s)
                   (dget_or (status_value s) 0 (status_count r) + 1) (status_count r) |}
  | None => r
  end.

(** The clock of the n-th pair of a batch. *)
Context (clocks : nat -> Clock).

(** One entry: [ack] is its stream name and id. *)
Definition skip_entry (ack : string * string) (s : PollState) : PollState :=
  {| ps_result := add_replayed 1 (ps_result s); ps_acks := ps_acks s ++ [ack];
     ps_seen := ps_seen s; ps_calls := ps_calls s; ps_db := ps_db s; ps_sent := ps_sent s |}.

Definition count_outcome (x : Session (option DecideResult)) (r : OrchBatchResult) : OrchBatchResult :=
  match outcome x with
  | Err _ => add_error r
  | Ok None => add_replayed 1 r
  | Ok (Some o) =>
      add_processed 1 (add_status (res_status o) (if created o then r else add_replayed 1 r))
  end.

Definition process_entry (ack : string * string) (symbol timeframe : string) (s : PollState)
  : PollState :=
  let x := process_pair (clocks (ps_calls s)) symbol timeframe (ps_db s) in
  {| ps_result := count_outcome x (ps_result s); ps_acks := ps_acks s ++ [ack];
     ps_seen := (symbol, timeframe) :: ps_seen s; ps_calls := S (ps_calls s);
     ps_db := committed x; ps_sent := ps_sent s ++ sent x |}.

Definition poll_entry (s : PollState) (entry : (string * string) * dict string string)
  : Res PollState :=
  let '(ack, fields) := entry in
  p <-- _unwrap fields ;;
  Ok (match p with
      | None => skip_entry ack s
      | Some payload =>
          let symbol := dget_or "symbol"%string EmptyString payload in
          let timeframe := dget_or "timeframe"%string EmptyString payload in
          if String.eqb symbol "" || String.eqb timeframe "" then skip_entry ack s
          else if bool_decide ((symbol, timeframe) ∈ ps_seen s) then skip_entry ack s
          else process_entry ack symbol timeframe s
      end).

Definition empty_batch : OrchBatchResult :=
  {| processed := 0; replayed := 0; errors := 0; status_count := [] |}.
Definition poll_start (db : DB) : PollState :=
  {| ps_result := empty_batch; ps_acks := []; ps_seen := []; ps_calls := O; ps_db := db; ps_sent := [] |}.

(** The entries of one [XREADGROUP] response, with the stream each came from.  The
    final state holds what the batch did, whether or not it raised; the ids in
    [ps_acks] are acknowledged only when it did not. *)
Fixpoint poll_loop (entries : list ((string * string) * dict string string)) (s : PollState)
  : option PyErr * PollState :=
  match entries with
  | [] => (None, s)
  | e :: rest => match poll_entry s e with
                 | Ok s' => poll_loop rest s'
                 | Err x => (Some x, s)
                 end
  end.

Definition flatten_response
    (response : list (string * list (string * dict string string)))
  : list ((string * string) * dict string string) :=
  flat_map (fun '(stream, es) => map (fun '(id, fields) => ((stream, id), fields)) es) response.

Definition poll_once (response : list (string * list (string * dict string string))) (db : DB)
  : option PyErr * PollState := poll_loop (flatten_response response) (poll_start db).

Definition acked (r : option PyErr * PollState) : list (string * string) :=
  match r.1 with None => ps_acks r.2 | Some _ => [] end.

(** ** [scan_all] *)

(** An exception of any pair ends the scan; a symbol that is no string raises. *)
Definition scan_pair (s : Res OrchBatchResult * nat * DB * list Event) (pair : pyval * pyval)
  : Res OrchBatchResult * nat * DB * list Event :=
  let '(res, n, db, es) := s in
  match res with
  | Err _ => s
  | Ok result =>
      match pair with
      | (VStr symbol, VStr timeframe) =>
          let x := process_pair (clocks n) symbol timeframe db in
          (match outcome x with
           | Err e => Err e
           | Ok None => Ok result
           | Ok (Some o) =>
               Ok (match res_action o with
                   | PERSIST => add_status (res_status o) (add_processed 1 result)
                   | SKIP => result
                   end)
           end, S n, committed x, es ++ sent x)
      | _ => (Err OtherError, n, db, es)
      end
  end.

Definition scan_all (db : DB) : Res OrchBatchResult * nat * DB * list Event :=
  let '(syms, tfs) := get_market_config (market_symbols settings) (market_timeframes settings) db in
  foldl scan_pair (Ok empty_batch, O, db, []) (list_prod syms tfs).
End Orchestrator.

(** ** Lemmas *)

(** Every risk evaluation belongs to the key of a stored decision. *)
Definition evaluations_owned (db : DB) : Prop :=
  forall k, k ∈ map evaluation_key (risk_evaluations db) -> k ∈ map decision_key (decisions db).

Section Lemmas.
Context `{PlatformOk}.

Lemma paper_verdict orch fused r : (verdict orch fused r).1 = PAPER -> passed r = true.
Proof.
  unfold verdict. destruct (negb _); [done|]. destruct (passed r); [done|]. by destruct (paper r).
Qed.

Lemma paper_passed inputs orch risk out :
  compute_decision inputs orch risk = Ok out -> status out = Some PAPER -> out_passed out = true.
Proof.
  unfold compute_decision. intros Hc. apply res_bind_ok in Hc as (f & _ & Hc).
  destruct (negb _); [by simplify_eq|]. destruct (flt _ _); [by simplify_eq|].
  destruct (decide _); [by simplify_eq|].
  destruct (verdict _ _ _) as [st v] eqn:E. simplify_eq. simpl. intros [= ->].
  unfold out_passed. simpl. eapply paper_verdict. by rewrite E.
Qed.

(** What a call of the engine leaves in the tables. *)
Lemma decide_shape now started st symbol tf configured crafts risk gate live db res db' :
  DecisionEngine_decide now started st symbol tf configured crafts risk gate live db = Ok (res, db') ->
  ledger_of db' = ledger_of db /\ (uuids db <= uuids db')%nat /\
  let key := (str_upper symbol, tf, res_bucket_ts res) in
  match res_action res with
  | SKIP => decisions db' = decisions db /\ risk_evaluations db' = risk_evaluations db
  | PERSIST => res_symbol res = symbol /\ res_timeframe res = tf /\
      (exists d, decision_key d = key /\ Some (dr_status d) = res_status res /\
         res_direction res = Some (dr_fused_direction d) /\
         if created res then key ∉ map decision_key (decisions db) /\ decisions db' = decisions db ++ [d]
         else key ∈ map decision_key (decisions db) /\ decisions db' = decisions db) /\
      (exists e, evaluation_key e = key /\ (res_status res = Some PAPER -> re_passed e = true) /\
         (risk_evaluations db' = risk_evaluations db ++ [e] /\
            key ∉ map evaluation_key (risk_evaluations db) \/
          risk_evaluations db' = risk_evaluations db /\
            key ∈ map evaluation_key (risk_evaluations db)))
  end.
Proof.
  intros Hd. pose proof (decide_uuids _ _ _ _ _ _ _ _ _ _ _ _ _ Hd) as Hu.
  apply decide_cases in Hd as [(Hc & Ha & Hcr & Hst)|(inputs & db1 & out & Hg & Hcd & Ha & Hp)].
  - unfold core in Hc. injection Hc as Hc1 Hc2 Hl1 Hl2 Hl3 Hl4 Hl5 Hl6 _. rewrite Ha.
    split_and!; try done. unfold ledger_of. congruence.
  - pose proof (gather_core _ _ _ _ _ _ _ _ _ Hg) as Hc.
    destruct (gather_reads _ _ _ _ _ _ _ _ _ Hg) as (Hs & Ht & _).
    destruct (cooldown_keeps now symbol tf crafts db1 out) as (Ha' & Hr' & Hf' & Hst').
    destruct (compute_persist_risk _ _ _ _ Hcd Ha) as [Hrisk Hsome].
    apply persist_spec in Hp as (Hl & Hb & Hact & Hsy & Htf & Hdir & Hps & (d & Hk & Hst & Hfd & Hdd) &
      (e & Hek & Hpass & Hee)); [|congruence].
    rewrite Hs, Ht, <- Hb in Hk, Hdd, Hek, Hee. rewrite Hs in Hsy. rewrite Ht in Htf.
    unfold core in Hc. injection Hc as Hc1 Hc2 Hl1 Hl2 Hl3 Hl4 Hl5 Hl6 _.
    rewrite Hc1 in Hdd. rewrite Hc2 in Hee. rewrite Hact, Ha', Ha.
    split; [unfold ledger_of in *; congruence|]. split; [done|]. cbv zeta. split_and!; try done.
    + exists d. split_and!; try done. congruence.
    + exists e. split_and!; try done. intros Hpap. rewrite Hpass. unfold out_passed. rewrite Hr'.
      apply (paper_passed inputs crafts risk); [done|].
      rewrite Hps in Hpap. destruct (status (apply_cooldown _ _ _ _ _ _)) eqn:E; [|done].
      destruct Hst' as [E'|[E' _]]; congruence.
Qed.

Lemma submit_frame s tf d ref ts u id sl tp lb db r lb' db' :
  submit_paper_order s tf d ref ts u id sl tp lb db = Ok (r, lb', db') ->
  decisions db' = decisions db /\ risk_evaluations db' = risk_evaluations db /\
  account_snapshots db' = account_snapshots db /\
  match r with Some o => o_timeframe o = tf | None => True end.
Proof.
  unfold submit_paper_order. intros Hs. destruct (_ || _); [by simplify_eq|].
  destruct (match open_for _ _ with Some _ => _ | None => _ end); [by simplify_eq|].
  destruct (match id with Some _ => _ | None => _ end); [by simplify_eq|].
  cbn [new_uuid] in Hs. apply res_bind_ok in Hs as (db1 & Hsv & Hs). unfold save_order in Hsv.
  destruct (decision_taken _ _); [done|]. by simplify_eq.
Qed.

Lemma find_new {A K} `{EqDecision K} (key : A -> K) l x :
  key x ∉ map key l -> List.find (fun y => bool_decide (key y = key x)) (l ++ [x]) = Some x.
Proof.
  intros Hx. induction l as [|y l IH]; simpl in *.
  - by rewrite bool_decide_true.
  - apply not_elem_of_cons in Hx as [Hy Hx]. rewrite bool_decide_false by congruence. by apply IH.
Qed.

(** The order of a PAPER decision, or none. *)
Definition sponsored (db db' : DB) : Prop :=
  orders_paper db' = orders_paper db \/
  exists d e o, decisions db' = decisions db ++ [d] /\ dr_status d = PAPER /\
    risk_evaluations db' = risk_evaluations db ++ [e] /\ evaluation_key e = decision_key d /\
    re_passed e = true /\ orders_paper db' = orders_paper db ++ [o] /\ o_status o = PENDING /\
    o_decision_id o = Some (dr_id d) /\ o_side o = dr_fused_direction d /\
    o_symbol o = dr_symbol d /\ o_timeframe o = dr_timeframe d.

Lemma owned_after db db' k :
  evaluations_owned db ->
  (exists ds, decisions db' = decisions db ++ ds) -> k ∈ map decision_key (decisions db') ->
  (risk_evaluations db' = risk_evaluations db \/
   exists e, risk_evaluations db' = risk_evaluations db ++ [e] /\ evaluation_key e = k) ->
  evaluations_owned db'.
Proof.
  intros Ho [ds Hds] Hk He k' Hk'. rewrite Hds in *. rewrite map_app, elem_of_app.
  destruct He as [He|(e & He & Hek)]; rewrite He in Hk'; [by left; apply Ho|].
  rewrite map_app, elem_of_app in Hk'. destruct Hk' as [?|Hk']; [by left; apply Ho|].
  apply list_elem_of_singleton in Hk' as ->. rewrite Hek. by rewrite map_app, elem_of_app in Hk.
Qed.

(** The transaction of one pair. *)
Lemma decide_pair_spec settings factory clk symbol tf tfs db result db' :
  decide_pair settings factory clk symbol tf tfs db = Ok (result, db') ->
  ledger_inv db -> evaluations_owned db ->
  ledger_inv db' /\ evaluations_owned db' /\ positions db' = positions db /\
  account_snapshots db' = account_snapshots db /\ sponsored db db' /\
  (factory = None -> orders_paper db' = orders_paper db) /\
  (res_status result <> Some PAPER -> orders_paper db' = orders_paper db) /\
  (created result = false -> orders_paper db' = orders_paper db).
Proof.
  intros Hd Hi Ho. unfold decide_pair in Hd. apply res_bind_ok in Hd as (risk & _ & Hd).
  apply res_bind_ok in Hd as ([res db1] & Hdec & Hd).
  apply res_bind_ok in Hd as (db2 & Hsp & Hd). injection Hd as -> ->.
  apply decide_shape in Hdec as (Hl & Hu & Hsh).
  unfold ledger_of in Hl. injection Hl as Hl1 Hl2 Hl3 Hl4 Hl5 Hl6.
  assert (Hi1 : ledger_inv db1) by by apply (ledger_inv_ext db).
  destruct (res_action result) eqn:Ea.
  { simplify_eq. destruct Hsh as [Hd Hr]. split_and!; try done; [|by left].
    intros k. rewrite Hd, Hr. apply Ho. }
  destruct Hsh as (Hsy & Htf & (d & Hk & Hst & Hdir & Hdd) & (e & Hek & Hpass & Hee)).
  assert (Ho1 : evaluations_owned db1).
  { apply (owned_after db db1 (str_upper (str_upper symbol), str_upper tf, res_bucket_ts result)); [done| | |].
    - destruct (created result); destruct Hdd as [_ ->]; [by exists [d]|exists []; by rewrite app_nil_r].
    - destruct (created result); destruct Hdd as [Hin ->]; [|done].
      rewrite map_app, elem_of_app. right. rewrite <- Hk. by left.
    - destruct Hee as [[-> _]|[-> _]]; [right; by exists e|by left]. }
  assert (Hsame : db' = db1 -> ledger_inv db' /\ evaluations_owned db' /\ positions db' = positions db /\
    account_snapshots db' = account_snapshots db /\ sponsored db db' /\
    (factory = None -> orders_paper db' = orders_paper db) /\
    (res_status result <> Some PAPER -> orders_paper db' = orders_paper db) /\
    (created result = false -> orders_paper db' = orders_paper db)).
  { intros ->. split_and!; try done. by left. }
  unfold _sponsor_paper_order in Hsp. destruct factory as [fresh|]; [|apply Hsame; congruence].
  case_bool_decide as Hpap; cbn [negb orb] in Hsp; [|apply Hsame; congruence].
  destruct (created result) eqn:Ecr; cbn [negb] in Hsp; [|apply Hsame; congruence].
  destruct Hdd as [Hkd Hdd].
  assert (He : risk_evaluations db1 = risk_evaluations db ++ [e]).
  { destruct Hee as [[-> _]|[_ Hc]]; [done|]. by apply Ho in Hc. }
  assert (Hke : evaluation_key e ∉ map evaluation_key (risk_evaluations db))
    by (rewrite Hek; intros Hc; by apply Ho in Hc).
  rewrite str_upper_idem in Hk, Hkd, Hek.
  set (k := (str_upper symbol, str_upper tf, res_bucket_ts result)) in *.
  assert (Hload : _load_decision_payload result db1 = (Some d, Some e)).
  { unfold _load_decision_payload. rewrite Hsy, Htf, Hdd, He. fold k. f_equal.
    - rewrite <- Hk. apply find_new. by rewrite Hk.
    - rewrite <- Hek. by apply find_new. }
  rewrite Hload in Hsp. clear Hload.
  apply res_bind_ok in Hsp as ([order db2] & Hw & [= ->]).
  unfold _wire_paper_decision in Hw. rewrite bool_decide_true, Ecr in Hw by done. simpl in Hw.
  destruct (re_units e) as [u|]; [|apply Hsame; by simplify_eq].
  destruct (re_price e) as [pr|]; [|apply Hsame; by simplify_eq]. rewrite Hdir in Hw.
  apply res_bind_ok in Hw as ([[o lb'] db3] & Hsub & Hw). injection Hw as <- <-. cbn [snd] in *.
  set (lb := restore_state fresh db) in *.
  assert (Hsync : in_sync lb db1)
    by (apply (in_sync_ext lb lb db db1); [done..|apply restore_sync]).
  pose proof (submit_frame _ _ _ _ _ _ _ _ _ _ _ _ _ _ Hsub) as (Hf1 & Hf2 & Hf3 & Hf4).
  apply submit_step in Hsub as (Hi2 & _ & _ & _ & Hp2 & Hrow); [|done|done].
  split; [done|]. split; [|split; [congruence|split; [congruence|]]].
  { intros k0. rewrite Hf1, Hf2. apply Ho1. }
  destruct o as [o|]; [|destruct Hrow as [-> _]; split_and!; [by left|done..]].
  destruct Hrow as (Hr1 & Hr2 & Hr3 & Hr4 & Hr5 & _).
  split; [|split; [done|split; [congruence|done]]].
  right. exists d, e, o. unfold decision_key in Hk.
  assert (Hks : dr_symbol d = str_upper symbol /\ dr_timeframe d = str_upper tf) by (by simplify_eq).
  destruct Hks as [Hk1 Hk2].
  split_and!; try congruence.
  - rewrite Hek. by symmetry.
  - by apply Hpass.
  - rewrite Hr3, Hk1, Hsy. by rewrite str_upper_idem.
Qed.

Lemma process_pair_spec (settings : Settings) (worker_now : Z) (accepts : Event -> bool)
    (factory : option LedgerBroker) (clk : Clock) (symbol tf : string) (db : DB) :
  ledger_inv db -> evaluations_owned db ->
  let x := process_pair settings worker_now accepts factory clk symbol tf db in
  ledger_inv (committed x) /\ evaluations_owned (committed x) /\
  positions (committed x) = positions db /\ account_snapshots (committed x) = account_snapshots db /\
  sponsored db (committed x) /\
  (factory = None -> orders_paper (committed x) = orders_paper db) /\
  (forall e, outcome x = Err e -> sent x = [] /\
     (committed x = db \/ exists r, e = OtherError /\ accepts (decision_event worker_now r) = false)) /\
  (forall r, outcome x = Ok (Some r) -> res_status r <> Some PAPER \/ created r = false ->
     orders_paper (committed x) = orders_paper db).
Proof.
  intros Hi Ho x. subst x. unfold process_pair.
  set (db1 := set_db_now (tx_now clk) db).
  assert (Hi1 : ledger_inv db1) by by apply (ledger_inv_ext db).
  destruct (get_market_config _ _ db1) as [syms tfs].
  destruct (_ || _); [cbn; split_and!; try done; by left|].
  destruct (decide_pair _ _ _ _ _ _ _) as [[result db']|e] eqn:E;
    [|cbn; split_and!; try done; [by left|intros e' [= <-]; by split; [|left]]].
  apply decide_pair_spec in E as (Hi' & Ho' & Hp & Hsn & Hsp & Hf & Hst & Hcr); [|done|done].
  assert (Hall : ledger_inv db' /\ evaluations_owned db' /\ positions db' = positions db /\
    account_snapshots db' = account_snapshots db /\ sponsored db db' /\
    (factory = None -> orders_paper db' = orders_paper db)) by by split_and!.
  destruct Hall as (? & ? & ? & ? & ? & ?).
  destruct (res_action result).
  - cbn. split_and!; try done. intros r [= <-] [?|?]; auto.
  - unfold _emit_decision, publish_decision.
    destruct (accepts (decision_event worker_now result)) eqn:Ea; cbn; split_and!; try done.
    + intros r [= <-] [?|?]; auto.
    + intros e' [= <-]. split; [done|]. right. by exists result.
Qed.

(** C8: every paper order is sponsored.  Processing a pair writes at most one order, and
    only together with the PAPER decision and the passed risk evaluation that this very
    call stored: the order is PENDING, carries the decision's id, symbol, timeframe and
    direction, and no position or snapshot changes.  A failed transaction leaves the
    database as it was and sends nothing; only a refused decision event can fail after
    the commit. *)
Theorem paper_order_sponsored (settings : Settings) (worker_now : Z) (accepts : Event -> bool)
    (factory : option LedgerBroker) (clk : Clock) (symbol tf : string) (db : DB) :
  ledger_inv db -> evaluations_owned db ->
  let x := process_pair settings worker_now accepts factory clk symbol tf db in
  ledger_inv (committed x) /\ evaluations_owned (committed x) /\
  positions (committed x) = positions db /\ account_snapshots (committed x) = account_snapshots db /\
  sponsored db (committed x) /\
  (factory = None -> orders_paper (committed x) = orders_paper db) /\
  (forall e, outcome x = Err e -> sent x = [] /\
     (committed x = db \/ exists r, e = OtherError /\ accepts (decision_event worker_now r) = false)) /\
  (forall r, outcome x = Ok (Some r) -> res_status r <> Some PAPER \/ created r = false ->
     orders_paper (committed x) = orders_paper db).
Proof. exact (process_pair_spec settings worker_now accepts factory clk symbol tf db). Qed.

(** *** Batches *)

Lemma no_orders_inv db : orders_paper db = [] -> positions db = [] -> ledger_inv db.
Proof.
  intros Ho Hp. split; unfold list_open_positions; rewrite ?Ho, ?Hp; simpl; try constructor;
    try (by intros p ?%elem_of_nil); by intros ?%elem_of_nil.
Qed.

(** What a batch keeps: the ledger's invariants; positions; and of the orders, new
    PENDING ones only, at most one per pair it processed. *)
Record batch_inv (db : DB) (s : PollState) : Prop := {
  bi_ledger : ledger_inv (ps_db s);
  bi_owned : evaluations_owned (ps_db s);
  bi_positions : positions (ps_db s) = positions db;
  bi_orders : exists os, orders_paper (ps_db s) = orders_paper db ++ os /\
    (length os <= ps_calls s)%nat /\ Forall (fun o => o_status o = PENDING) os;
  bi_seen : NoDup (ps_seen s);
  bi_calls : length (ps_seen s) = ps_calls s;
  bi_acks : Z.of_nat (length (ps_acks s)) <=
              processed (ps_result s) + replayed (ps_result s) + errors (ps_result s);
  bi_counts : processed (ps_result s) + errors (ps_result s) <= Z.of_nat (ps_calls s)
}.

Lemma count_outcome_spec x r :
  let r' := count_outcome x r in
  processed r + replayed r + errors r + 1 <= processed r' + replayed r' + errors r' /\
  processed r' + errors r' <= processed r + errors r + 1.
Proof.
  unfold count_outcome. destruct (outcome x) as [[o|]|]; simpl; [|lia..].
  unfold add_status. destruct (res_status o), (created o); simpl; lia.
Qed.

Lemma process_entry_inv settings wn accepts factory clocks db ack symbol tf s :
  batch_inv db s -> (symbol, tf) ∉ ps_seen s ->
  batch_inv db (process_entry settings wn accepts factory clocks ack symbol tf s).
Proof.
  intros [H1 H2 H3 (os & Ho & Hlen & Hos) H5 H6 H7 H8] Hnew. unfold process_entry.
  destruct (process_pair_spec settings wn accepts factory (clocks (ps_calls s)) symbol tf (ps_db s) H1 H2)
    as (Hi & Hw & Hp & _ & Hsp & _).
  set (x := process_pair _ _ _ _ _ _ _ _) in *.
  pose proof (count_outcome_spec x (ps_result s)) as [Hc1 Hc2].
  split; simpl; try done.
  - congruence.
  - destruct Hsp as [Hsame|(d & e & o & _ & _ & _ & _ & _ & Hnewo & Hpend & _)].
    + exists os. rewrite Hsame. split_and!; try done. lia.
    + exists (os ++ [o]). rewrite Hnewo, Ho, app_assoc, length_app. simpl.
      split_and!; [done|lia|]. apply Forall_app. split; [done|]. by constructor.
  - by apply NoDup_cons.
  - lia.
  - rewrite length_app. simpl. lia.
  - lia.
Qed.

Lemma skip_entry_inv db ack s : batch_inv db s -> batch_inv db (skip_entry ack s).
Proof. intros [H1 H2 H3 H4 H5 H6 H7 H8]. split; simpl; try done; rewrite ?length_app; simpl; lia. Qed.

Section Batches.
Context (settings : Settings) (worker_now : Z) (accepts : Event -> bool)
  (factory : option LedgerBroker) (json_loads : string -> option pyval)
  (fromisoformat py_int : pyval -> option Z) (clocks : nat -> Clock).
Local Notation poll := (poll_loop settings worker_now accepts factory json_loads fromisoformat py_int clocks).
Local Notation unwrap := (_unwrap json_loads fromisoformat py_int).

Lemma poll_entry_spec db s entry s' :
  batch_inv db s ->
  poll_entry settings worker_now accepts factory json_loads fromisoformat py_int clocks s entry = Ok s' ->
  batch_inv db s' /\ ps_acks s' = ps_acks s ++ [entry.1].
Proof.
  intros Hi. destruct entry as [ack fields]. unfold poll_entry. intros Hp.
  apply res_bind_ok in Hp as ([pl|] & _ & [= <-]); [|split; [by apply skip_entry_inv|done]].
  destruct (_ || _); [split; [by apply skip_entry_inv|done]|].
  case_bool_decide; split; try done; [by apply skip_entry_inv|by apply process_entry_inv].
Qed.

Lemma poll_loop_spec db entries : forall s, batch_inv db s ->
  let r := poll entries s in
  batch_inv db r.2 /\
  (r.1 = None <-> forall e, e ∈ entries -> is_ok (unwrap e.2) = true) /\
  (r.1 = None -> ps_acks r.2 = ps_acks s ++ map fst entries).
Proof.
  induction entries as [|e entries IH]; intros s Hi; cbn [poll_loop].
  { split_and!; [done| |by rewrite app_nil_r]. split; [by intros _ ? ?%elem_of_nil|done]. }
  assert (Hok : is_ok (poll_entry settings worker_now accepts factory json_loads fromisoformat py_int clocks s e)
                = is_ok (unwrap e.2)).
  { destruct e as [ack fields]. unfold poll_entry. simpl.
    by destruct (_unwrap _ _ _ fields). }
  destruct (poll_entry _ _ _ _ _ _ _ _ s e) as [s'|err] eqn:E; simpl in Hok.
  - apply (poll_entry_spec db) in E as [Hi' Hacks]; [|done]. destruct (IH s' Hi') as (H1 & H2 & H3).
    split_and!; [done| |].
    + rewrite H2. split.
      * intros Hall x [->|Hx]%elem_of_cons; [by rewrite Hok|by apply Hall].
      * intros Hall x Hx. apply Hall. by right.
    + intros Hn. rewrite H3, Hacks by done. simpl. by rewrite <- app_assoc.
  - split_and!; [done| |done]. split; [done|]. intros Hall. specialize (Hall e). rewrite <- Hok in Hall.
    exfalso. discriminate Hall. by left.
Qed.

(** C39: a batch of triggers is acknowledged as a whole or not at all.  When every
    envelope's payload is readable, each delivered entry is acknowledged once, in
    delivery order, whatever its pair's processing did; a single signal event whose
    payload is not an object raises out of the batch and leaves all its entries
    unacknowledged, also those already processed.  Each pair is processed at most once
    per batch; the counters account for every entry; the ledger's invariants hold
    afterwards, and at most one PENDING order per processed pair was added. *)
Theorem poll_acks_every_entry (response : list (string * list (string * dict string string))) (db : DB) :
  ledger_inv db -> evaluations_owned db ->
  let entries := flatten_response response in
  let r := poll_once settings worker_now accepts factory json_loads fromisoformat py_int clocks response db in
  (r.1 = None <-> forall e, e ∈ entries -> is_ok (_unwrap json_loads fromisoformat py_int e.2) = true) /\
  (r.1 = None -> acked r = map fst entries /\
     Z.of_nat (length entries) <= processed (ps_result r.2) + replayed (ps_result r.2) + errors (ps_result r.2)) /\
  (r.1 <> None -> acked r = []) /\
  NoDup (ps_seen r.2) /\ length (ps_seen r.2) = ps_calls r.2 /\
  processed (ps_result r.2) + errors (ps_result r.2) <= Z.of_nat (ps_calls r.2) /\
  ledger_inv (ps_db r.2) /\ evaluations_owned (ps_db r.2) /\ positions (ps_db r.2) = positions db /\
  exists os, orders_paper (ps_db r.2) = orders_paper db ++ os /\
    (length os <= ps_calls r.2)%nat /\ Forall (fun o => o_status o = PENDING) os.
Proof.
  intros Hi Ho entries r.
  assert (H0' : batch_inv db (poll_start db)).
  { split; simpl; try done; try lia; [|constructor]. exists []. rewrite app_nil_r. split_and!; try done. }
  destruct (poll_loop_spec db entries (poll_start db) H0') as (Hb & Hok & Hacks).
  change (poll entries (poll_start db)) with r in *. destruct Hb as [B1 B2 B3 B4 B5 B6 B7 B8].
  split; [exact Hok|]. split.
  { intros Hn. split; [unfold acked; rewrite Hn; by apply Hacks|].
    rewrite (Hacks Hn) in B7. simpl in B7. by rewrite length_map in B7. }
  split; [|by split_and!]. intros Hn. unfold acked. by destruct r.1.
Qed.
End Batches.
End Lemmas.

(** ** A concrete orchestrator *)

Definition demo_settings : Settings :=
  {| market_symbols := ["EURUSD"]; market_timeframes := ["H1"; "H4"];
     orch_min_agent_coverage := lit 5 1; orch_agreement_min := lit 5 1;
     orch_fusion_threshold := lit 15 2; orch_hysteresis := lit 4 2;
     orch_pair_cooldown_seconds := 0; paper_catchup_max_bars := 24;
     paper_snapshot_interval_seconds := None; risk_settings := sample_params |}%string.

Definition demo_clock : Clock := {| tx_now := 0; engine_now := 0; gate_now := 0; decide_started := 0 |}.

Notation demo_pair := (@process_pair demo_platform demo_settings 0 (fun _ => true) (Some demo_lb)
                         demo_clock "eurusd" "h1" (demo_db top_level_atr)).

Lemma demo_db_inv technical :
  @ledger_inv demo_platform (demo_db technical) /\ evaluations_owned (demo_db technical).
Proof.
  split; [by apply no_orders_inv|]. by intros k ?%elem_of_nil.
Qed.

Lemma paper_order_sponsored_witness :
  map o_status (orders_paper (committed demo_pair)) = [PENDING] /\ sponsored (demo_db top_level_atr) (committed demo_pair).
Proof.
  split; [vm_compute; reflexivity|].
  pose proof (@paper_order_sponsored demo_platform demo_platform_ok demo_settings 0 (fun _ => true) (Some demo_lb)
    demo_clock "eurusd" "h1" (demo_db top_level_atr) (proj1 (demo_db_inv _)) (proj2 (demo_db_inv _)))
    as (_ & _ & _ & _ & Hs & _).
  exact Hs.
Defined.

(** An envelope parser that accepts the text "ok" as a signal for EURUSD H1, and "bad" as a
    signal whose payload is a number. *)
Definition demo_loads (raw : string) : option pyval :=
  let signal pl := Some (VDict [("event_type", VStr "signal.emitted"); ("payload", pl);
                                ("producer", VStr "agents"); ("produced_at", VStr "t")])%string in
  if String.eqb raw "ok" then signal (VDict [("symbol", VStr "EURUSD"); ("timeframe", VStr "H1")])%string
  else if String.eqb raw "bad" then signal (VInt 3)
  else None.

Definition demo_response : list (string * list (string * dict string string)) :=
  [("signals.stream", [("1-0", [("data", "ok")]); ("2-0", [("data", "???")]); ("3-0", [("data", "ok")])])]%string.

Notation demo_poll response := (@poll_once demo_platform demo_settings 0 (fun _ => true) (Some demo_lb)
  demo_loads (fun _ => Some 0) (fun _ => Some 1) (fun _ => demo_clock) response (demo_db top_level_atr)).

Lemma poll_acks_every_entry_witness :
  (demo_poll demo_response).1 = None /\
  acked (demo_poll demo_response) = map fst (flatten_response demo_response).
Proof.
  assert (E : (demo_poll demo_response).1 = None) by (vm_compute; reflexivity).
  split; [exact E|].
  pose proof (@poll_acks_every_entry demo_platform demo_platform_ok demo_settings 0 (fun _ => true)
    (Some demo_lb) demo_loads (fun _ => Some 0) (fun _ => Some 1) (fun _ => demo_clock) demo_response
    (demo_db top_level_atr) (proj1 (demo_db_inv _)) (proj2 (demo_db_inv _))) as (_ & Ha & _).
  exact (proj1 (Ha E)).
Defined.
