(* ===== verification/PaperCycle.v ===== *)
(** * The paper-lifecycle cycle ([process_lifecycle], [_process_unit],
    [_cancel_expired_pending] and [_outstanding_stamps] of
    [app/workers/orchestrator_worker.py])

    A unit commits after its cancellations and after every bar; what an exception
    leaves uncommitted is dropped.  One reading of [now()] stands for the transactions
    of a cycle. *)

From Stdlib Require Import ZArith Lia Sorted.
From stdpp Require Import base list strings sorting.
From S2P Require Import Prelude PyFloat Timeframes Signals Fusion Risk Decision Tables Candles SignalStore Decide Costs Positions Paper Ledger Lifecycle MarketConfig LedgerGate Bus Orchestrator.

Record PaperLifecycleResult := {
  lr_units : Z;
  lr_bars : Z;
  lr_fills : Z;
  lr_exits : Z;
  lr_superseded : Z;
  lr_cancelled_missing : Z;
  lr_expired : Z;
  lr_snapshots : Z;
  lr_depth_remaining : Z;
  lr_errors : Z;
  lr_reconcile_ok : bool
}.

(** [(bars_processed, depth, fills, exits, superseded, cancelled_missing, snapshots)]. *)
Record UnitPass := {
  un_bars : Z;
  un_depth : Z;
  un_fills : Z;
  un_exits : Z;
  un_superseded : Z;
  un_cancelled : Z;
  un_snapshots : Z
}.

Definition pass0 (cancelled depth : Z) : UnitPass :=
  {| un_bars := 0; un_depth := depth; un_fills := 0; un_exits := 0; un_superseded := 0;
     un_cancelled := cancelled; un_snapshots := 0 |}.

Definition pass_bar (r : UnitBarResult) (u : UnitPass) : UnitPass :=
  {| un_bars := un_bars u + 1; un_depth := un_depth u; un_fills := un_fills u + filled r;
     un_exits := un_exits u + exits r; un_superseded := un_superseded u + superseded r;
     un_cancelled := un_cancelled u;
     un_snapshots := un_snapshots u + (if snapshot_written r then 1 else 0) |}.

(** [min(l)] of a non-empty list. *)
Fixpoint list_min (l : list Z) : option Z :=
  match l with
  | [] => None
  | x :: l' => Some (match list_min l' with Some m => Z.min x m | None => x end)
  end.

(** [datetime.min] in UTC. *)
Definition datetime_min : Z := -62135596800 * us_per_second.

(** [limit=100_000] of the candle window. *)
Definition WINDOW_LIMIT : nat := Z.to_nat 100000.

(** Closed bars this unit still owes processing to. *)
Definition _outstanding_stamps (candidates : list PendingCandidate) (candles : dict Z Bar)
    (current : option Position) : list Z :=
  let due := sort_by Z.leb (List.filter (fun s => bool_decide (s ∈ candles.*1))
                                        (map cand_stamp candidates)) in
  let anchors := match due with s :: _ => [s] | [] => [] end
                 ++ match current with Some p => [entry_ts p] | None => [] end in
  match list_min anchors with
  | None => []
  | Some anchor => List.filter (fun ts => anchor <=? ts) candles.*1
  end.

Section Cycle.
Context `{Platform}.
Context (settings : Settings) (worker_now : Z) (accepts : Event -> bool)
  (broker_factory : option LedgerBroker).

(** [async with self._sessions()] of one unit: the result and what was committed. *)
Definition UnitOutcome : Type := Res UnitPass * DB.

(** The bars of the window in order, each committed; [work] is the session's state. *)
Fixpoint process_window (snapshot_interval : option Z) (symbol timeframe : string)
    (cands : list PendingCandidate) (candles : dict Z Bar) (window : list Z) (acc : UnitPass)
    (lb : LedgerBroker) (saved work : DB) : UnitOutcome :=
  match window with
  | [] => (Ok acc, saved)
  | ts :: rest =>
      match (bar <-- dindex ts candles ;;
             process_unit_bar snapshot_interval symbol timeframe bar cands lb work) with
      | Err e => (Err e, saved)
      | Ok (r, lb, db) => process_window snapshot_interval symbol timeframe cands candles rest
                            (pass_bar r acc) lb db db
      end
  end.

Definition candle_dict (rows : list CandleRow) : dict Z Bar :=
  foldl (fun d r => dset (cd_ts r) {| bar_ts := cd_ts r; bar_open := dec_to_float (cd_open r);
                                      bar_close := dec_to_float (cd_close r) |} d) [] rows.

(** Cancelling the candidates whose fill bar never closed. *)
Definition cancel_all (ids : list Z) (st : Z * LedgerBroker * DB) : Z * LedgerBroker * DB :=
  foldl (fun '(n, lb, db) id =>
           let '(c, lb, db) := cancel_pending id lb db in
           (match c with Some _ => n + 1 | None => n end, lb, db)) st ids.

Definition _process_unit (symbol timeframe : string) (max_bars : Z) (snapshot_interval : option Z)
    (db0 : DB) : UnitOutcome :=
  match broker_factory with
  | None => (Ok (pass0 0 0), db0)
  | Some fresh =>
      let lb := restore_state fresh db0 in
      match pending_candidates db0 with
      | Err e => (Err e, db0)
      | Ok all =>
          let cands := List.filter (of_unit symbol timeframe) all in
          let '(instrument, db) := get_or_create_instrument symbol db0 in
          match last_closed_ts (ins_id instrument) timeframe db with
          | None => (Ok (pass0 0 0), db0)
          | Some latest_closed =>
              let current := lb_open_for symbol lb in
              let bases := List.filter (fun s => s <=? latest_closed) (map cand_stamp cands)
                           ++ match current with Some p => [entry_ts p] | None => [] end in
              let start := match list_min bases with Some b => b | None => datetime_min end in
              let candles := candle_dict
                (load_candles (ins_id instrument) timeframe (Some start)
                   (Some (latest_closed + seconds_td 1)) WINDOW_LIMIT db) in
              let doomed := missing_bar_candidates cands candles.*1 latest_closed in
              let '(cancelled, lb, db) :=
                cancel_all (map (fun c => o_id (cand_order c)) doomed) (0, lb, db) in
              let saved := match doomed with [] => db0 | _ => db end in
              match _outstanding_stamps cands candles current with
              | [] => (Ok (pass0 cancelled 0), saved)
              | stamps =>
                  let '(window, depth) := catchup_window stamps max_bars in
                  process_window snapshot_interval symbol timeframe cands candles window
                    (pass0 cancelled depth) lb saved db
              end
          end
      end
  end.

(** The expiry sweep; [now] is [datetime.now]. *)
Definition _cancel_expired_pending (now : Z) (db : DB) : Z * DB :=
  match broker_factory with
  | None => (0, db)
  | Some fresh =>
      let lb := restore_state fresh db in
      let expired := list_pending_expired now db in
      let '(_, _, db) := cancel_all (map o_id expired) (0, lb, db) in
      (Z.of_nat (length expired), db)
  end.

Definition paper_alert_event (ty subject detail : string) : Event :=
  {| event_type := ty;
     payload := [("source", VStr "orchestrator"); ("severity", VStr "warning");
                 ("subject", VStr subject); ("message", VStr detail)];
     producer := "orchestrator"; produced_at := worker_now |}%string.

Definition _emit_paper_alert (ty subject detail : string) : list Event :=
  publish_alert accepts (paper_alert_event ty subject detail).

Definition lifecycle_start : PaperLifecycleResult :=
  {| lr_units := 0; lr_bars := 0; lr_fills := 0; lr_exits := 0; lr_superseded := 0;
     lr_cancelled_missing := 0; lr_expired := 0; lr_snapshots := 0; lr_depth_remaining := 0;
     lr_errors := 0; lr_reconcile_ok := true |}.

Definition add_pass (u : UnitPass) (r : PaperLifecycleResult) : PaperLifecycleResult :=
  {| lr_units := lr_units r + 1; lr_bars := lr_bars r + un_bars u;
     lr_fills := lr_fills r + un_fills u; lr_exits := lr_exits r + un_exits u;
     lr_superseded := lr_superseded r + un_superseded u;
     lr_cancelled_missing := lr_cancelled_missing r + un_cancelled u; lr_expired := lr_expired r;
     lr_snapshots := lr_snapshots r + un_snapshots u;
     lr_depth_remaining := lr_depth_remaining r + un_depth u; lr_errors := lr_errors r;
     lr_reconcile_ok := lr_reconcile_ok r |}.

Definition add_lifecycle_error (r : PaperLifecycleResult) : PaperLifecycleResult :=
  {| lr_units := lr_units r; lr_bars := lr_bars r; lr_fills := lr_fills r; lr_exits := lr_exits r;
     lr_superseded := lr_superseded r; lr_cancelled_missing := lr_cancelled_missing r;
     lr_expired := lr_expired r; lr_snapshots := lr_snapshots r;
     lr_depth_remaining := lr_depth_remaining r; lr_errors := lr_errors r + 1;
     lr_reconcile_ok := lr_reconcile_ok r |}.

Definition set_expired (n : Z) (r : PaperLifecycleResult) : PaperLifecycleResult :=
  {| lr_units := lr_units r; lr_bars := lr_bars r; lr_fills := lr_fills r; lr_exits := lr_exits r;
     lr_superseded := lr_superseded r; lr_cancelled_missing := lr_cancelled_missing r;
     lr_expired := n; lr_snapshots := lr_snapshots r; lr_depth_remaining := lr_depth_remaining r;
     lr_errors := lr_errors r; lr_reconcile_ok := lr_reconcile_ok r |}.

Definition reconcile_failed : PaperLifecycleResult :=
  {| lr_units := 0; lr_bars := 0; lr_fills := 0; lr_exits := 0; lr_superseded := 0;
     lr_cancelled_missing := 0; lr_expired := 0; lr_snapshots := 0; lr_depth_remaining := 0;
     lr_errors := 0; lr_reconcile_ok := false |}.

(** [sorted(units, key=lambda u: (u[0], u[1]))]. *)
Definition unit_leb (a b : string * string) : bool :=
  if String.eqb a.1 b.1 then String.leb a.2 b.2 else String.leb a.1 b.1.

Definition unit_list (all : list PendingCandidate) (db : DB) : list (string * string) :=
  sort_by unit_leb (remove_dups (map (fun c => (o_symbol (cand_order c), o_timeframe (cand_order c))) all
                                 ++ map (fun p => (p_symbol p, p_timeframe p)) (list_open_positions db))).

(** One unit of a cycle: an exception is counted and alerted; [why] is its text. *)
Definition cycle_unit (why : PyErr -> string) (max_bars : Z) (snapshot_interval : option Z)
    (st : PaperLifecycleResult * DB * list Event) (u : string * string)
  : PaperLifecycleResult * DB * list Event :=
  let '(r, db, es) := st in
  match _process_unit u.1 u.2 max_bars snapshot_interval db with
  | (Ok pass, db) => (add_pass pass r, db, es)
  | (Err e, db) => (add_lifecycle_error r, db,
      app es (_emit_paper_alert "alert.paper_lifecycle_degraded" "paper lifecycle unit failed"
                (u.1 ++ " " ++ u.2 ++ ": " ++ why e)))
  end%string.

(** The text of an exception. *)
Context (why : PyErr -> string).

(** One cycle at time [now]: [None] without a broker. *)
Definition process_lifecycle (now : Z) (db : DB)
  : option PaperLifecycleResult * DB * list Event :=
  match broker_factory with
  | None => (None, db, [])
  | Some fresh =>
      let max_bars := Z.max 1 (paper_catchup_max_bars settings) in
      let interval := paper_snapshot_interval_seconds settings in
      let lb := restore_state fresh db in
      if negb (reconcile lb db)
      then (Some reconcile_failed, db,
            _emit_paper_alert "alert.paper_reconcile" "paper ledger/broker reconciliation failed"
              "cycle aborted (fail closed)"%string)
      else match pending_candidates db with
      | Err _ => (Some lifecycle_start, db, [])
      | Ok all =>
          let '(r, db, es) := foldl (cycle_unit why max_bars interval) (lifecycle_start, db, [])
                                    (unit_list all db) in
          let '(n, db) := _cancel_expired_pending now db in
          (Some (set_expired n r), db, es)
      end
  end.
End Cycle.

(** ** Lemmas *)

Lemma list_min_spec l :
  match list_min l with
  | None => l = []
  | Some m => m ∈ l /\ forall x, x ∈ l -> m <= x
  end.
Proof.
  induction l as [|x l IH]; simpl; [done|]. destruct (list_min l) as [m|].
  - destruct IH as [Hin Hle]. destruct (Z.min_spec x m) as [[? ->]|[? ->]]; split.
    + by left.
    + intros y [->|Hy]%elem_of_cons; [lia|]. specialize (Hle y Hy). lia.
    + by right.
    + intros y [->|Hy]%elem_of_cons; [lia|]. by apply Hle.
  - subst. split; [by left|]. intros y ->%list_elem_of_singleton. lia.
Qed.

(** A due candidate's bar is outstanding, and only stored bars are. *)
Lemma outstanding_spec cands (candles : dict Z Bar) current :
  (forall t, t ∈ _outstanding_stamps cands candles current -> t ∈ candles.*1) /\
  (forall c, c ∈ cands -> cand_stamp c ∈ candles.*1 ->
     cand_stamp c ∈ _outstanding_stamps cands candles current).
Proof.
  unfold _outstanding_stamps.
  set (due := sort_by Z.leb _). set (anchors := _ ++ _).
  pose proof (list_min_spec anchors) as Hm. destruct (list_min anchors) as [m|].
  - destruct Hm as [_ Hle]. split.
    + intros t Ht. by apply list_elem_of_In, List.filter_In, proj1, list_elem_of_In in Ht.
    + intros c Hc Hin. apply list_elem_of_In, List.filter_In. split; [by apply list_elem_of_In|].
      apply Z.leb_le.
      assert (Hd : cand_stamp c ∈ due).
      { apply elem_of_sort_by, list_elem_of_In, List.filter_In.
        split; [by apply in_map, list_elem_of_In|by apply bool_decide_eq_true]. }
      pose proof (sort_by_sorted Z.leb (List.filter (fun s => bool_decide (s ∈ candles.*1))
        (map cand_stamp cands))) as Hs. fold due in Hs. unfold sorted_by in Hs.
      destruct due as [|d due']; [by apply elem_of_nil in Hd|].
      assert (m <= d) by (apply Hle; unfold anchors; by left).
      apply elem_of_cons in Hd as [->|Hd]; [done|].
      inversion Hs as [|? ? _ Hf]; subst. rewrite Forall_forall in Hf. apply Hf, Z.leb_le in Hd. lia.
  - split; [by intros t ?%elem_of_nil|]. intros c Hc Hin. exfalso.
    assert (Hd : cand_stamp c ∈ due).
    { apply elem_of_sort_by, list_elem_of_In, List.filter_In.
      split; [by apply in_map, list_elem_of_In|by apply bool_decide_eq_true]. }
    unfold anchors in Hm. destruct due; [by apply elem_of_nil in Hd|]. done.
Qed.

(** The candles of a window, by their own stamps. *)
Lemma candle_dict_spec rows : forall d, (forall t b, dget t d = Some b -> bar_ts b = t) ->
  let d' := foldl (fun d r => dset (cd_ts r) {| bar_ts := cd_ts r; bar_open := dec_to_float (cd_open r);
                                      bar_close := dec_to_float (cd_close r) |} d) d rows in
  forall t, (t ∈ d'.*1 -> exists b, dget t d' = Some b /\ bar_ts b = t).
Proof.
  intros d Hd d' t Ht. assert (Hall : forall t b, dget t d' = Some b -> bar_ts b = t).
  { subst d'. clear Ht. revert d Hd. induction rows as [|r rows IH]; intros d Hd; simpl; [done|].
    apply IH. intros t' b. rewrite dget_dset. destruct (decide _) as [->|]; [|by apply Hd].
    by intros [= <-]. }
  destruct (dget t d') as [b|] eqn:E; [exists b; split; [done|by apply Hall]|].
  apply dget_None in E. done.
Qed.

Section Sound.
Context `{PlatformOk}.

Lemma cancel_all_spec ids : forall n lb db, ledger_inv db -> in_sync lb db ->
  let '(_, lb', db') := cancel_all ids (n, lb, db) in
  ledger_inv db' /\ in_sync lb' db' /\ evolves db db' /\
  (forall id, id ∈ ids -> (exists o, get_order id db = Some o) -> resolved db' id).
Proof.
  induction ids as [|id ids IH]; intros n lb db Hi Hs.
  { split_and!; try done; [apply evolves_refl|by intros id ?%elem_of_nil]. }
  unfold cancel_all. cbn [foldl].
  pose proof (cancel_step id lb db Hi Hs) as Hc. pose proof (cancel_resolves id lb db) as Hr.
  destruct (cancel_pending id lb db) as [[x lb1] db1]. destruct Hc as (Hi1 & Hs1 & He1).
  specialize (IH (match x with Some _ => n + 1 | None => n end) lb1 db1 Hi1 Hs1).
  unfold cancel_all in IH. destruct (foldl _ _ ids) as [[n' lb'] db'].
  destruct IH as (Hi' & Hs' & He' & Hres). split_and!; try done; [by eapply evolves_trans|].
  intros id' [->|Hin]%elem_of_cons Ho.
  - eapply resolved_evolves; [done|exact He'|]. apply Hr; auto.
  - apply Hres; [done|]. destruct Ho as (o & Ho). apply get_order_Some in Ho as [Hin' Hid].
    destruct (evolved_order _ _ _ Hi1 He1 Hin') as (o' & Ho' & _). rewrite Hid in Ho'. by exists o'.
Qed.

(** The candidates are the pending orders whose decision is known, with their fill bars. *)
Lemma pending_candidates_spec db l :
  pending_candidates db = Ok l ->
  (forall c, c ∈ l -> cand_order c ∈ orders_paper db /\ o_status (cand_order c) = PENDING) /\
  (forall o b s, o ∈ orders_paper db -> o_status o = PENDING ->
     get_decision_bucket (o_decision_id o) db = Some b -> fill_stamp o b = Ok s ->
     {| cand_order := o; cand_stamp := s |} ∈ l).
Proof.
  unfold pending_candidates. intros Hl. apply res_bind_ok in Hl as (l' & Hf & [= <-]).
  setoid_rewrite elem_of_sort_by. setoid_rewrite <- elem_of_pending.
  assert (Hgen : forall os acc l',
    fold_res (fun acc o => match get_decision_bucket (o_decision_id o) db with
          | None => Ok acc
          | Some bucket => st <-- fill_stamp o bucket ;;
                           Ok (acc ++ [{| cand_order := o; cand_stamp := st |}])
          end) os acc = Ok l' ->
    (forall c, c ∈ l' -> c ∈ acc \/ cand_order c ∈ os) /\
    (forall c, c ∈ acc -> c ∈ l') /\
    (forall o b s, o ∈ os -> get_decision_bucket (o_decision_id o) db = Some b -> fill_stamp o b = Ok s ->
       {| cand_order := o; cand_stamp := s |} ∈ l')).
  { clear Hf l'. induction os as [|o os IH]; intros acc l'; cbn [fold_res].
    { intros [= <-]. split_and!; try done; [by left|by intros o b s ?%elem_of_nil]. }
    intros Hf. apply res_bind_ok in Hf as (acc1 & Ha & Hf). apply IH in Hf as (H1 & H2 & H3).
    destruct (get_decision_bucket (o_decision_id o) db) as [b0|] eqn:Eb.
    - apply res_bind_ok in Ha as (s0 & Hs0 & [= <-]). split_and!.
      + intros c [Hc|?]%H1; [|right; by right].
        apply elem_of_app in Hc as [?| ->%list_elem_of_singleton]; [by left|right; by left].
      + intros c Hc. apply H2, elem_of_app. by left.
      + intros o' b s [->|Ho]%elem_of_cons Hb Hs; [|by eapply H3].
        rewrite Eb in Hb. injection Hb as <-. rewrite Hs0 in Hs. injection Hs as <-.
        apply H2, elem_of_app. right. by left.
    - injection Ha as <-. split_and!; try done.
      + intros c [?|?]%H1; [by left|right; by right].
      + intros o' b s [->|Ho]%elem_of_cons Hb Hs; [congruence|by eapply H3]. }
  destruct (Hgen _ _ _ Hf) as (H1 & _ & H3). split.
  - by intros c [?%elem_of_nil|?]%H1.
  - intros o b s Ho Hp Hb Hs. eapply H3; [|done|done]. apply elem_of_pending. done.
Qed.

Lemma process_window_spec interval symbol tf cands candles db0 window : forall acc lb saved work,
  ledger_inv work -> evolves db0 work -> (window = [] -> saved = work) ->
  (forall c, c ∈ cands -> cand_order c ∈ orders_paper db0) ->
  (forall t, t ∈ window -> exists b, dget t candles = Some b /\ bar_ts b = t) ->
  exists p db', process_window interval symbol tf cands candles window acc lb saved work = (Ok p, db') /\
    ledger_inv db' /\ evolves work db' /\
    un_bars p = un_bars acc + Z.of_nat (length window) /\ un_depth p = un_depth acc /\
    (forall c, c ∈ cands -> cand_stamp c ∈ window -> fillable (str_upper symbol) db0 c ->
       resolved db' (o_id (cand_order c))).
Proof.
  induction window as [|t window IH]; intros acc lb saved work Hi He Hsv Hc Hw; cbn [process_window].
  { rewrite Hsv by done. eexists _, _. split; [reflexivity|].
    split_and!; try done; [apply evolves_refl|simpl; lia|]. by intros c _ ?%elem_of_nil. }
  destruct (Hw t) as (b & Hb & Hts); [by left|]. unfold dindex. rewrite Hb. cbn [res_bind].
  destruct (process_unit_bar_step interval symbol tf b cands lb db0 work Hi He)
    as (r & lb1 & db1 & Hr & Hi1 & He1 & _ & _ & _ & _ & Hres & _).
  { intros c Hin _. by apply Hc. }
  rewrite Hr. destruct (IH (pass_bar r acc) lb1 db1 db1) as (p & db' & Hp & Hi' & He' & Hn & Hd & Hres').
  - done.
  - by eapply evolves_trans.
  - done.
  - done.
  - intros t' Ht'. apply Hw. by right.
  - exists p, db'. split; [exact Hp|]. split_and!; try done.
    + by eapply evolves_trans.
    + rewrite Hn. simpl. lia.
    + intros c Hin Hst Hf. apply elem_of_cons in Hst as [Hst|Hst]; [|by apply Hres'].
      eapply resolved_evolves; [done|exact He'|]. apply Hres; [done|congruence|done].
Qed.

Lemma instrument_ledger symbol db :
  let '(i, db') := get_or_create_instrument symbol db in
  orders_paper db' = orders_paper db /\ positions db' = positions db /\ candles db' = candles db /\
  (uuids db <= uuids db')%nat /\
  (forall j, find_instrument (str_upper (py_strip symbol)) db = Some j -> i = j).
Proof.
  unfold get_or_create_instrument. destruct (find_instrument _ db); simpl; split_and!; try done; try lia.
  by intros j [= <-].
Qed.

(** What one pass over a unit does to the ledger. *)
Lemma process_unit_spec fresh symbol tf max_bars interval db :
  ledger_inv db ->
  let '(r, db') := _process_unit (Some fresh) symbol tf max_bars interval db in
  ledger_inv db' /\ evolves db db' /\
  (is_ok r = is_ok (pending_candidates db)) /\
  (forall p i lc c all, r = Ok p -> un_depth p = 0 -> pending_candidates db = Ok all ->
     find_instrument (str_upper (py_strip symbol)) db = Some i ->
     last_closed_ts (ins_id i) tf db = Some lc ->
     c ∈ all -> of_unit symbol tf c = true -> cand_stamp c <= lc -> fillable (str_upper symbol) db c ->
     resolved db' (o_id (cand_order c))).
Proof.
  intros Hi. unfold _process_unit. destruct (pending_candidates db) as [all|e] eqn:Ec;
    [|by split_and!; try apply evolves_refl].
  apply pending_candidates_spec in Ec as [Hall _].
  set (cands := List.filter (of_unit symbol tf) all). set (lb := restore_state fresh db).
  pose proof (instrument_ledger symbol db) as Hins.
  destruct (get_or_create_instrument symbol db) as [ins db1]. destruct Hins as (Ho1 & Hp1 & Hc1 & Hu1 & Hf1).
  assert (Hlast : forall j, find_instrument (str_upper (py_strip symbol)) db = Some j ->
            last_closed_ts (ins_id ins) tf db1 = last_closed_ts (ins_id j) tf db)
    by (intros j Hj; unfold last_closed_ts; by rewrite Hc1, (Hf1 j Hj)).
  destruct (last_closed_ts (ins_id ins) tf db1) as [lc|] eqn:Elc.
  2: { split_and!; try done; [apply evolves_refl|]. intros p i lc' c all' _ _ _ Hj Hlc.
       by rewrite <- (Hlast i Hj) in Hlc. }
  set (rows := load_candles _ _ _ _ _ _). set (cs := candle_dict rows).
  assert (Hcs : forall t, t ∈ cs.*1 -> exists b, dget t cs = Some b /\ bar_ts b = t)
    by (apply (candle_dict_spec rows []); done).
  set (doomed := missing_bar_candidates cands cs.*1 lc).
  set (current := lb_open_for symbol lb).
  assert (Hi1 : ledger_inv db1) by by apply (ledger_inv_ext db).
  assert (Hs1 : in_sync lb db1) by (apply (in_sync_ext lb lb db db1); [done..|apply restore_sync]).
  assert (He01 : evolves db db1).
  { split; rewrite ?Ho1, ?Hp1; eexists _, []; rewrite app_nil_r; split; reflexivity. }
  pose proof (cancel_all_spec (map (fun c => o_id (cand_order c)) doomed) 0 lb db1 Hi1 Hs1) as Hcan.
  destruct (cancel_all _ (0, lb, db1)) as [[cancelled lb2] db2] eqn:Ecan.
  destruct Hcan as (Hi2 & Hs2 & He2 & Hres2).
  assert (He02 : evolves db db2) by by eapply evolves_trans.
  set (saved := match doomed with [] => db | _ => db2 end).
  assert (Hsaved : ledger_inv saved /\ evolves db saved)
    by (unfold saved; destruct doomed; [split; [done|apply evolves_refl]|done]).
  assert (Hdoom : forall c, c ∈ cands -> cand_stamp c <= lc -> cand_stamp c ∉ cs.*1 ->
            c ∈ doomed /\ resolved db2 (o_id (cand_order c))).
  { intros c Hc Hle Hn. assert (Hd : c ∈ doomed).
    { apply elem_of_sort_by, list_elem_of_In, List.filter_In. split; [by apply list_elem_of_In|].
      rewrite (proj2 (Z.leb_le _ _) Hle), bool_decide_false by done. done. }
    split; [done|]. apply Hres2; [by apply (list_elem_of_fmap_2 (fun c => o_id (cand_order c)))|].
    apply list_elem_of_In, List.filter_In, proj1, list_elem_of_In in Hc.
    destruct (evolved_order _ _ _ Hi1 He01 (proj1 (Hall c Hc))) as (o & Ho & _). by exists o. }
  destruct (outstanding_spec cands cs current) as [Hout1 Hout2].
  destruct (_outstanding_stamps cands cs current) as [|t0 ts0] eqn:Eo.
  - destruct Hsaved. split_and!; try done.
    intros p i lc' c all' _ _ [= <-] Hj Hlc' Hc Hu Hle Hfc.
    rewrite <- (Hlast i Hj) in Hlc'. injection Hlc' as <-.
    assert (Hcc : c ∈ cands) by (apply list_elem_of_In, List.filter_In; split; [by apply list_elem_of_In|done]).
    destruct (decide (cand_stamp c ∈ cs.*1)) as [Hin|Hn]; [by apply Hout2, elem_of_nil in Hin|].
    destruct (Hdoom c Hcc Hle Hn) as [Hd Hr]. unfold saved. by destruct doomed; [apply elem_of_nil in Hd|].
  - pose proof (catchup_window_spec (t0 :: ts0) max_bars) as Hw.
    destruct (catchup_window (t0 :: ts0) max_bars) as [window depth].
    destruct Hw as (_ & Hsub & _ & Hne & _ & _ & Hdepth).
    destruct (process_window_spec interval symbol tf cands cs db window (pass0 cancelled depth) lb2 saved db2)
      as (p & db' & Hp & Hi' & He' & _ & Hd & Hres).
    + done.
    + done.
    + intros ->. by destruct (Hne ltac:(done)).
    + intros c Hc. apply list_elem_of_In, List.filter_In, proj1, list_elem_of_In in Hc. by apply Hall.
    + intros t Ht. apply Hcs, Hout1, Hsub, Ht.
    + rewrite Hp. split_and!; try done; [by eapply evolves_trans|].
      intros p' i lc' c all' [= <-] Hz [= <-] Hj Hlc' Hc Hu Hle Hfc.
      rewrite <- (Hlast i Hj) in Hlc'. injection Hlc' as <-.
      assert (Hcc : c ∈ cands) by (apply list_elem_of_In, List.filter_In; split; [by apply list_elem_of_In|done]).
      destruct (decide (cand_stamp c ∈ cs.*1)) as [Hin|Hn].
      * apply Hres; [done| |done]. apply Hdepth; [by rewrite Hd in Hz|by apply Hout2].
      * eapply resolved_evolves; [done|exact He'|]. by apply Hdoom.
Qed.

(** C6: a pass that leaves nothing behind resolves every due order.  One pass over a unit
    never fails on a consistent ledger whose candidates can be read, keeps it
    consistent and only moves rows forward; if it reports no remaining depth, every
    pending order of the unit whose fill bar lies at or before the newest stored candle
    is afterwards filled or cancelled for good: filled or superseded at its bar, or
    cancelled because that bar is missing. *)
Theorem unit_pass_resolves (fresh : LedgerBroker) (symbol tf : string) (max_bars : Z)
    (interval : option Z) (db : DB) (all : list PendingCandidate) :
  ledger_inv db -> pending_candidates db = Ok all ->
  exists p db', _process_unit (Some fresh) symbol tf max_bars interval db = (Ok p, db') /\
    ledger_inv db' /\ evolves db db' /\
    (un_depth p = 0 -> forall o b s i lc, o ∈ orders_paper db -> o_status o = PENDING ->
       o_symbol o = symbol -> o_timeframe o = tf -> str_upper symbol = symbol -> o_side o <> FLAT ->
       fle (dec_to_float (o_units o)) f0 = false ->
       get_decision_bucket (o_decision_id o) db = Some b -> fill_stamp o b = Ok s ->
       find_instrument (str_upper (py_strip symbol)) db = Some i ->
       last_closed_ts (ins_id i) tf db = Some lc -> s <= lc ->
       exists o', get_order (o_id o) db' = Some o' /\ o_status o' <> PENDING).
Proof.
  intros Hi Hall. pose proof (process_unit_spec fresh symbol tf max_bars interval db Hi) as Hp.
  destruct (_process_unit _ _ _ _ _ db) as [r db']. rewrite Hall in Hp.
  destruct Hp as (Hi' & He & Hok & Hres). destruct r as [p|e]; [|done].
  exists p, db'. split_and!; try done. intros Hz o b s i lc Ho Hpend Hsy Htf Hup Hd Hu Hb Hs Hins Hlc Hle.
  destruct (pending_candidates_spec _ _ Hall) as [_ Hcomp].
  apply (Hres p i lc {| cand_order := o; cand_stamp := s |} all); try done.
  - by apply (Hcomp o b s).
  - unfold of_unit. simpl. by rewrite Hsy, Htf, !String.eqb_refl.
  - split_and!; simpl; congruence.
Qed.

Section Cycles.
Context (settings : Settings) (worker_now : Z) (accepts : Event -> bool) (fresh : LedgerBroker)
  (why : PyErr -> string).

Lemma cycle_units_spec max_bars interval us : forall r db es,
  ledger_inv db ->
  let '(r', db', _) := foldl (cycle_unit worker_now accepts (Some fresh) why max_bars interval) (r, db, es) us in
  ledger_inv db' /\ evolves db db' /\ lr_reconcile_ok r' = lr_reconcile_ok r /\
  lr_units r' + lr_errors r' = lr_units r + lr_errors r + Z.of_nat (length us).
Proof.
  induction us as [|u us IH]; intros r db es Hi; cbn [foldl].
  { split_and!; try done; [apply evolves_refl|simpl; lia]. }
  pose proof (process_unit_spec fresh u.1 u.2 max_bars interval db Hi) as Hp.
  unfold cycle_unit at 2.
  destruct (_process_unit _ _ _ _ _ db) as [[p|e] db1]; destruct Hp as (Hi1 & He1 & _).
  - specialize (IH (add_pass p r) db1 es Hi1). destruct (foldl _ _ us) as [[r' db'] es'].
    destruct IH as (? & ? & Hr & Hn). split_and!; try done; [by eapply evolves_trans|].
    simpl in *. lia.
  - match goal with |- context [foldl _ (_, db1, ?es1) us] => specialize (IH (add_lifecycle_error r) db1 es1 Hi1) end.
    destruct (foldl _ _ us) as [[r' db'] es'].
    destruct IH as (? & ? & Hr & Hn). split_and!; try done; [by eapply evolves_trans|].
    simpl in *. lia.
Qed.

Lemma expiry_spec now db : ledger_inv db ->
  let '(n, db') := _cancel_expired_pending (Some fresh) now db in
  ledger_inv db' /\ evolves db db' /\ n = Z.of_nat (length (list_pending_expired now db)) /\
  (forall o, o ∈ list_pending_expired now db -> resolved db' (o_id o)).
Proof.
  intros Hi. unfold _cancel_expired_pending.
  pose proof (cancel_all_spec (map o_id (list_pending_expired now db)) 0 (restore_state fresh db) db Hi
    (restore_sync fresh db)) as Hc.
  destruct (cancel_all _ _) as [[n lb] db']. destruct Hc as (? & _ & ? & Hres). split_and!; try done.
  intros o Ho. apply Hres; [by apply (list_elem_of_fmap_2 o_id)|].
  apply elem_of_sort_by, list_elem_of_In, List.filter_In, proj1, list_elem_of_In in Ho.
  destruct (evolved_order db db o Hi (evolves_refl db) Ho) as (o' & Ho' & _). by exists o'.
Qed.

(** C5: a lifecycle cycle is safe.  On a consistent ledger it always completes, leaves the
    ledger consistent, and only moves rows forward (pending orders to filled or
    cancelled, open positions to closed); its reconciliation never fails, because the
    broker it compares with the tables was just restored from them; and it accounts for
    every active unit, as processed or as an error. *)
Theorem lifecycle_cycle_sound (now : Z) (db : DB) :
  ledger_inv db ->
  exists r db' es,
    process_lifecycle settings worker_now accepts (Some fresh) why now db = (Some r, db', es) /\
    ledger_inv db' /\ evolves db db' /\ lr_reconcile_ok r = true /\
    reconcile (restore_state fresh db') db' = true /\
    (forall all, pending_candidates db = Ok all ->
       lr_units r + lr_errors r = Z.of_nat (length (unit_list all db))).
Proof.
  intros Hi. unfold process_lifecycle. rewrite (reconcile_sync _ _ (restore_sync fresh db)). cbn [negb].
  destruct (pending_candidates db) as [all|e] eqn:Ec.
  2: { eexists _, _, _. split; [reflexivity|]. split_and!; try done; [apply evolves_refl|].
       apply reconcile_sync, restore_sync. }
  pose proof (cycle_units_spec (Z.max 1 (paper_catchup_max_bars settings))
    (paper_snapshot_interval_seconds settings) (unit_list all db) lifecycle_start db [] Hi) as Hu.
  destruct (foldl _ _ _) as [[r db1] es]. destruct Hu as (Hi1 & He1 & Hr & Hn).
  pose proof (expiry_spec now db1 Hi1) as Hx.
  destruct (_cancel_expired_pending _ now db1) as [n db2]. destruct Hx as (Hi2 & He2 & _).
  eexists _, _, _. split; [reflexivity|]. split_and!; try done.
  - by eapply evolves_trans.
  - apply reconcile_sync, restore_sync.
  - intros all' [= <-]. simpl in *. lia.
Qed.
End Cycles.
End Sound.

(** ** The catch-up window of an open position *)

Lemma strictly_sorted_ext (a b : list Z) :
  StronglySorted Z.lt a -> StronglySorted Z.lt b -> (forall x, x ∈ a <-> x ∈ b) -> a = b.
Proof.
  revert b. induction a as [|x a IH]; intros b Ha Hb Hab.
  - destruct b as [|y b]; [done|]. exfalso. apply (elem_of_nil y), Hab. by left.
  - inversion Ha as [|? ? Ha' Hx]; subst. rewrite Forall_forall in Hx.
    destruct b as [|y b]; [exfalso; apply (elem_of_nil x), Hab; by left|].
    inversion Hb as [|? ? Hb' Hy]; subst. rewrite Forall_forall in Hy.
    assert (x = y) as <-.
    { assert (Hx' : x ∈ y :: b) by (apply Hab; by left). assert (Hy' : y ∈ x :: a) by (apply Hab; by left).
      apply elem_of_cons in Hx' as [?|Hx'], Hy' as [?|Hy']; try done.
      specialize (Hx _ Hy'). specialize (Hy _ Hx'). lia. }
    f_equal. apply IH; [done..|]. intros z. split; intros Hz.
    + assert (Hz' : z ∈ x :: b) by (apply Hab; by right). apply elem_of_cons in Hz' as [->|?]; [|done].
      specialize (Hx _ Hz). lia.
    + assert (Hz' : z ∈ x :: a) by (apply Hab; by right). apply elem_of_cons in Hz' as [->|?]; [|done].
      specialize (Hy _ Hz). lia.
Qed.

Lemma sorted_set_app l1 l2 : (forall x y, x ∈ l1 -> y ∈ l2 -> x < y) ->
  sorted_set (l1 ++ l2) = sorted_set l1 ++ sorted_set l2.
Proof.
  intros Hlt. apply strictly_sorted_ext; [apply sorted_set_strict| |].
  - apply StronglySorted_app. split_and!; try apply sorted_set_strict.
    intros x y Hx Hy. apply Hlt; by apply elem_of_sorted_set.
  - intros x. rewrite elem_of_app, !elem_of_sorted_set. by rewrite elem_of_app.
Qed.

(** The catch-up window of a long-open position never advances.  Once a position has
    been open for at least [max_bars] stored bars, the window that each cycle processes
    is always the same oldest [max_bars] bars from its entry: bars that close later are
    never processed, so their closes can never trigger its stop-loss or take-profit.
    (No progress marker survives a cycle, while the window keeps the oldest bars.) *)
Theorem catchup_never_advances (p : Position) (candles newer : dict Z Bar) (max_bars : Z) :
  1 <= max_bars ->
  (forall t0 t, t0 ∈ candles.*1 -> t ∈ newer.*1 -> t0 < t) ->
  max_bars <= Z.of_nat (length (sorted_set (_outstanding_stamps [] candles (Some p)))) ->
  let w := (catchup_window (_outstanding_stamps [] (candles ++ newer) (Some p)) max_bars).1 in
  w = (catchup_window (_outstanding_stamps [] candles (Some p)) max_bars).1 /\
  forall t, t ∈ newer.*1 -> t ∉ w.
Proof.
  intros Hm Hlt Hlen w.
  assert (Hw : w = (catchup_window (_outstanding_stamps [] candles (Some p)) max_bars).1).
  { unfold w, catchup_window, _outstanding_stamps in *. cbn [map List.filter sort_by foldr app list_min fst] in *.
    rewrite fmap_app, List.filter_app, sorted_set_app.
    - apply take_app_le. lia.
    - intros x y Hx%list_elem_of_In Hy%list_elem_of_In.
      apply List.filter_In in Hx as [Hx _], Hy as [Hy _]. apply Hlt; by apply list_elem_of_In. }
  split; [done|]. rewrite Hw. intros t Ht Hin.
  pose proof (catchup_window_spec (_outstanding_stamps [] candles (Some p)) max_bars) as Hs.
  destruct (catchup_window _ max_bars) as [w' d]. destruct Hs as (_ & Hsub & _).
  apply Hsub in Hin. destruct (outstanding_spec [] candles (Some p)) as [Hout _].
  apply Hout in Hin. specialize (Hlt _ _ Hin Ht). lia.
Qed.

(** ** A concrete cycle *)

Definition demo_position : Position :=
  {| pos_symbol := "EURUSD"; pos_timeframe := "H1"; units := f1; entry_price := f1; entry_ts := 0;
     side := LONG; pos_stop_loss := Some (lit 5 1); pos_take_profit := None; costs := f0 |}.

Definition flat_bar (t : Z) : Z * Bar := (t, {| bar_ts := t; bar_open := f1; bar_close := f1 |}).

Lemma catchup_never_advances_witness :
  (catchup_window (_outstanding_stamps [] (map flat_bar [0; 1; 2] ++ map flat_bar [3; 4]) (Some demo_position)) 2).1
    = [0; 1] /\
  4 ∉ (catchup_window (_outstanding_stamps [] (map flat_bar [0; 1; 2] ++ map flat_bar [3; 4])
         (Some demo_position)) 2).1.
Proof.
  split; [vm_compute; reflexivity|].
  refine (proj2 (catchup_never_advances demo_position (map flat_bar [0; 1; 2]) (map flat_bar [3; 4]) 2 _ _ _) 4 _).
  - lia.
  - intros t0 t H0 H1. apply list_elem_of_In in H0, H1. cbn in H0, H1. lia.
  - vm_compute. discriminate.
  - simpl. right. left.
Defined.

(** The ledger after a PAPER decision for EURUSD H1 at bar 0, and its next candle. *)
Definition next_candle (db : DB) : DB :=
  set_candles (candles db ++ map (fun r => @candle_row demo_platform (cd_instrument r) "H1" "synthetic" 60
                                            3600000000 (sample_candle 0 110)) (candles db)) db.

Lemma next_candle_inv db : @ledger_inv demo_platform db -> @ledger_inv demo_platform (next_candle db).
Proof. intros Hi. by apply (ledger_inv_ext db). Qed.

Notation demo_traded := (next_candle (committed demo_pair)).

Definition no_text (e : PyErr) : string := "".

Notation demo_cycle := (@process_lifecycle demo_platform demo_settings 0 (fun _ => true) (Some demo_lb)
  no_text 0 demo_traded).
Notation demo_unit_pass := (@_process_unit demo_platform (Some demo_lb) "EURUSD" "H1" 24 None demo_traded).

Lemma demo_traded_inv : @ledger_inv demo_platform demo_traded.
Proof.
  pose proof (@process_pair_spec demo_platform demo_platform_ok demo_settings 0 (fun _ => true) (Some demo_lb)
    demo_clock "eurusd" "h1" (demo_db top_level_atr) (proj1 (demo_db_inv _)) (proj2 (demo_db_inv _))) as [Hi _].
  exact (next_candle_inv _ Hi).
Qed.

Lemma lifecycle_cycle_sound_witness :
  exists r db' es, demo_cycle = (Some r, db', es) /\ lr_reconcile_ok r = true.
Proof.
  destruct (@lifecycle_cycle_sound demo_platform demo_platform_ok demo_settings 0 (fun _ => true) demo_lb
    no_text 0 demo_traded demo_traded_inv) as (r & db' & es & Hr & _ & _ & Hok & _).
  exists r, db', es. refine (conj Hr Hok).
Defined.

Definition demo_candidates : list PendingCandidate :=
  match @pending_candidates demo_traded with Ok l => l | Err _ => [] end.

Lemma demo_candidates_ok : pending_candidates demo_traded = Ok demo_candidates /\ length demo_candidates = 1%nat.
Proof. split; vm_compute; reflexivity. Qed.

Lemma demo_pass_fills : match demo_unit_pass with
  | (Ok p, db) => (un_fills p, un_depth p, map o_status (orders_paper db)) | _ => (0, 0, []) end
  = (1, 0, [FILLED]).
Proof. vm_compute. reflexivity. Qed.

Lemma unit_pass_resolves_witness :
  exists p db', demo_unit_pass = (Ok p, db') /\ ledger_inv (H := demo_platform) db'.
Proof.
  destruct (@unit_pass_resolves demo_platform demo_platform_ok demo_lb "EURUSD" "H1" 24 None demo_traded
    demo_candidates demo_traded_inv (proj1 demo_candidates_ok)) as (p & db' & Hp & Hi & _).
  exists p, db'. refine (conj Hp Hi).
Defined.
