(* ===== verification/Backtest.v ===== *)
(** * The backtest replay ([app/backtest/driver.py], [orchestrator_sim.py], [models.py] and
    [agent_runner.py])

    The driver is generic in the runner and candle provider it is given, as in the code:
    a runner is the agents of a registry and the stored signals to replay. *)

From Stdlib Require Import ZArith Lia Sorted.
From stdpp Require Import base list strings sorting.
From S2P Require Import Prelude PyFloat Timeframes Signals Fusion Risk Decision Tables Candles SignalStore Decide Costs Positions Paper Ledger LedgerGate.

Record BacktestConfig := {
  cfg_start : datetime;
  cfg_end : Z;
  cfg_symbols : list string;
  cfg_timeframes : list string;
  cfg_seed : Z;
  cfg_start_equity : float;
  warmup_bars : Z;
  cfg_spread : float;
  cfg_slippage_pct : float;
  require_full_coverage : bool
}.

Record CoverageReport := {
  cov_symbol : string;
  cov_timeframe : string;
  expected_bars : Z;
  cov_technical : Z;
  cov_regime : Z;
  cov_fundamental : Z;
  cov_sentiment : Z;
  degraded : bool
}.

(** ** [agent_runner] *)

Definition REPLAY_AGENTS : list string := ["fundamental"; "sentiment"]%string.

(** What an agent sees of one bar: the candles of the window and the bar's metadata. *)
Record AnalysisContext := {
  ctx_symbol : string;
  ctx_timeframe : string;
  ctx_bucket_ts : Z;
  ctx_candles : list Candle;
  ctx_now : Z;
  ctx_run_id : string;
  ctx_prev_daily : option (dict string float);
  ctx_pip_size : float
}.

Record Agent := { ag_id : string; ag_analyze : AnalysisContext -> Res AgentSignal }.

Definition replay_key : Type := string * string * string * Z.

Record Runner := { registry : list Agent; replay : dict replay_key AgentSignal }.

Definition add_replayed (sigs : list AgentSignal) (r : Runner) : Runner :=
  {| registry := registry r;
     replay := foldl (fun d s => if bool_decide (agent_id s ∈ REPLAY_AGENTS)
                                 then dset (agent_id s, str_upper (symbol s), timeframe s, bucket_ts s) s d
                                 else d) (replay r) sigs |}.

(** [analyze]: the signals by agent id, in registry order. *)
Definition analyze (r : Runner) (sym tf : string) (bucket : Z) (cs : list Candle)
    (now : Z) (prev_daily : option (dict string float)) (pip_size : float)
  : Res (dict string AgentSignal) :=
  let ctx := {| ctx_symbol := sym; ctx_timeframe := tf; ctx_bucket_ts := bucket;
                ctx_candles := cs; ctx_now := now;
                ctx_run_id := "bt|" ++ sym ++ "|" ++ tf ++ "|" ++ isoformat bucket;
                ctx_prev_daily := prev_daily; ctx_pip_size := pip_size |}%string in
  fold_res (fun sigs a =>
    if bool_decide (ag_id a ∈ REPLAY_AGENTS)
    then Ok (match dget (ag_id a, str_upper sym, tf, bucket) (replay r) with
             | Some s => dset (ag_id a) s sigs
             | None => sigs
             end)
    else s <-- ag_analyze a ctx ;; Ok (dset (ag_id a) s sigs)) (registry r) [].

(** ** [orchestrator_sim] *)

Record RecentDecision := {
  rd_direction : Direction;
  rd_confidence : float;
  rd_valid_until : Z;
  rd_bucket_ts : Z
}.

(** [self._last], keyed by (symbol, timeframe). *)
Definition LastDecisions : Type := dict (string * string) RecentDecision.

Definition bt_orch : OrchParams :=
  {| coverage_min := lit 5 1; agreement_min := lit 5 1; op_threshold := lit 15 2;
     op_hysteresis := lit 4 2; op_context_weight := lit 15 2; cooldown_seconds := 0; op_weights := [] |}.

Definition _atr_of (technical : option AgentSignal) : option float :=
  match technical with
  | None => None
  | Some s => numeric_value (dget "atr14"%string (sig_features s))
  end.

(** The first parent timeframe with a valid directional decision. *)
Fixpoint bt_first_parent (sym : string) (parents : list string) (now : Z) (last : LastDecisions)
  : option ContextInput :=
  match parents with
  | [] => None
  | tf :: rest =>
      match dget (sym, tf) last with
      | None => bt_first_parent sym rest now last
      | Some r =>
          if rd_valid_until r <? now then bt_first_parent sym rest now last
          else if bool_decide (rd_direction r = FLAT) || (rd_confidence r <=ᶠ f0)
          then bt_first_parent sym rest now last
          else Some {| ctxin_direction := rd_direction r; ctxin_confidence := rd_confidence r;
                       ctxin_weight := default_context_weight |}
      end
  end.

Definition bt_parent_context (sym tf : string) (configured : list string) (now : Z)
    (last : LastDecisions) : Res (option ContextInput) :=
  ordered <-- sort_by_rank configured ;;
  Ok (match after tf ordered with
      | None => None
      | Some parents => bt_first_parent sym parents now last
      end).

Section Engine.
Context `{Platform}.

Definition bt_decide (sym tf : string) (bucket now : Z) (signals : dict string AgentSignal)
    (price : float) (configured : list string) (gate : GateState) (risk : RiskParams)
    (last : LastDecisions) : Res (DecisionOutcome * LastDecisions) :=
  parent <-- bt_parent_context sym tf configured now last ;;
  let inputs := {| in_symbol := sym; in_timeframe := tf; in_bucket_ts := bucket; in_now := now;
                   in_signals := signals; in_regime := regime_of signals;
                   in_atr := _atr_of (dget "technical"%string signals); in_price := Some price;
                   in_coverage := _coverage signals; in_gate := gate; in_parent_context := parent |} in
  out <-- compute_decision inputs bt_orch risk ;;
  match action out with
  | PERSIST =>
      s <-- seconds tf ;;
      Ok (out, dset (sym, tf)
            {| rd_direction := fused_direction (out_fused out);
               rd_confidence := fused_confidence (out_fused out);
               rd_valid_until := bucket + seconds_td (s * 4); rd_bucket_ts := bucket |} last)
  | SKIP => Ok (out, last)
  end.
End Engine.

(** ** [driver] *)

Definition _LOOKBACK : Z := 320.

Definition CandleProvider : Type := string -> string -> datetime -> Z -> Res (list Candle).

Record PendingFill := {
  close_existing : bool;
  open_direction : Direction;
  pf_units : float;
  pf_stop_loss : option float;
  pf_take_profit : option float
}.

Record Driver := {
  broker : PaperBroker;
  last_decisions : LastDecisions;
  pending_fills : dict string PendingFill;
  equity_points : list (Z * float);
  coverage_reports : list CoverageReport;
  decisions_made : Z;
  paper_intents : Z;
  degraded_runs : Z
}.

Definition new_driver (b : PaperBroker) : Driver :=
  {| broker := b; last_decisions := []; pending_fills := []; equity_points := [];
     coverage_reports := []; decisions_made := 0; paper_intents := 0; degraded_runs := 0 |}.

Definition with_broker (b : PaperBroker) (d : Driver) : Driver :=
  {| broker := b; last_decisions := last_decisions d; pending_fills := pending_fills d;
     equity_points := equity_points d; coverage_reports := coverage_reports d;
     decisions_made := decisions_made d; paper_intents := paper_intents d;
     degraded_runs := degraded_runs d |}.
Definition with_last (l : LastDecisions) (d : Driver) : Driver :=
  {| broker := broker d; last_decisions := l; pending_fills := pending_fills d;
     equity_points := equity_points d; coverage_reports := coverage_reports d;
     decisions_made := decisions_made d; paper_intents := paper_intents d;
     degraded_runs := degraded_runs d |}.
Definition with_pending (p : dict string PendingFill) (d : Driver) : Driver :=
  {| broker := broker d; last_decisions := last_decisions d; pending_fills := p;
     equity_points := equity_points d; coverage_reports := coverage_reports d;
     decisions_made := decisions_made d; paper_intents := paper_intents d;
     degraded_runs := degraded_runs d |}.
Definition with_equity (l : list (Z * float)) (d : Driver) : Driver :=
  {| broker := broker d; last_decisions := last_decisions d; pending_fills := pending_fills d;
     equity_points := l; coverage_reports := coverage_reports d;
     decisions_made := decisions_made d; paper_intents := paper_intents d;
     degraded_runs := degraded_runs d |}.
Definition count_decision (intents : Z) (d : Driver) : Driver :=
  {| broker := broker d; last_decisions := last_decisions d; pending_fills := pending_fills d;
     equity_points := equity_points d; coverage_reports := coverage_reports d;
     decisions_made := decisions_made d + 1; paper_intents := paper_intents d + intents;
     degraded_runs := degraded_runs d |}.

Definition _bucket_of (c : Candle) : Z := instant (bucket_start c).
Definition _open_of (c : Candle) : float := dec_to_float (c_open c).
Definition _close_of (c : Candle) : float := dec_to_float (c_close c).
Definition _high_of (c : Candle) : float := dec_to_float (c_high c).
Definition _low_of (c : Candle) : float := dec_to_float (c_low c).

(** [bars[max(0, i + 1 - _LOOKBACK) : i + 1]]. *)
Definition _window (bars : list Candle) (i : Z) : list Candle :=
  let start := Z.max 0 (i + 1 - _LOOKBACK) in
  firstn (Z.to_nat (i + 1 - start)) (skipn (Z.to_nat start) bars).

Definition _pip_size (sym : string) : float := if ends_jpy sym then lit 1 2 else lit 1 4.

(** [d.pop(k, None)]. *)
Definition dpop (k : string) (d : dict string PendingFill) : option PendingFill * dict string PendingFill :=
  (dget k d, List.filter (fun '(k', _) => negb (String.eqb k' k)) d).

(** The last D1 bar closed by [bucket]; the loop stops at the first that is not. *)
Fixpoint last_closed_daily (bucket : Z) (bars : list Candle) (prev : option Candle) : option Candle :=
  match bars with
  | [] => prev
  | b :: rest => if _bucket_of b + days_td 1 <=? bucket then last_closed_daily bucket rest (Some b)
                 else prev
  end.

Section Driver.
Context `{Platform}.
Context (cfg : BacktestConfig) (risk : RiskParams) (provider : CandleProvider) (runner : Runner).

(** [min(cfg.timeframes, key=Timeframe.rank)]. *)
Definition _fine : Res string :=
  ordered <-- sort_by_rank (cfg_timeframes cfg) ;;
  match ordered with [] => Err ValueError | tf :: _ => Ok tf end.

Definition _load_bars (sym tf : string) : Res (list Candle) :=
  start <-- align_to_bucket (cfg_start cfg) tf ;; provider sym tf start (cfg_end cfg).

Definition _prev_daily (sym : string) (bucket : Z) : Res (option (dict string float)) :=
  if negb (bool_decide ("D1"%string ∈ cfg_timeframes cfg)) then Ok None
  else bars <-- _load_bars sym "D1" ;;
       Ok (match last_closed_daily bucket bars None with
           | None => None
           | Some p => Some [("high", _high_of p); ("low", _low_of p); ("close", _close_of p)]%string
           end).

(** [_daily_loss]: realised results by UTC date, rebuilt from the trades. *)
Definition _sync_daily_loss (b : PaperBroker) : dict string float :=
  foldl (fun d t => let k := date_key (t_exit_ts t) in
                    dset k (dget_or k f0 d +ᶠ t_net_pnl t) d) [] (trades b).

Definition _gate (sym : string) (ts : Z) (b : PaperBroker) : Res GateState :=
  let positions := book b in
  let equity := f_or (total_equity b) (cfg_start_equity cfg) in
  exposure <-- fdiv (total_notional positions) equity ;;
  correlation_pct <-- fdiv (basket_notional sym positions) equity ;;
  let daily_loss := dget_or (date_key ts) f0 (_sync_daily_loss b) in
  Ok {| exposure_used_pct := exposure; correlation_used_pct := correlation_pct;
        daily_loss_used_pct := over_equity (fmax f0 (fneg daily_loss)) (cfg_start_equity cfg);
        drawdown_used_pct := max_drawdown_pct b;
        correlation_triggered := ps_correlation_triggered sym positions |}.

Definition _schedule_fill (sym : string) (total_bars i : Z) (out : DecisionOutcome) (d : Driver) : Driver :=
  if total_bars <=? i + 1 then d
  else
    let sz := match out_risk out with Some r => sizing r | None => None end in
    let units := match sz with Some s => position_size_units s | None => f0 end in
    let current := open_for sym (book (broker d)) in
    let direction := fused_direction (out_fused out) in
    if bool_decide (direction = FLAT) then d
    else if match current with Some p => bool_decide (side p = direction) | None => false end then d
    else with_pending
           (dset sym {| close_existing := match current with Some _ => true | None => false end;
                        open_direction := direction; pf_units := units;
                        pf_stop_loss := stop_loss <$> sz; pf_take_profit := take_profit <$> sz |}
                 (pending_fills d)) d.

Definition _apply_fill (fine sym : string) (act : PendingFill) (price : float) (ts : Z)
    (b : PaperBroker) : PaperBroker :=
  let b := if close_existing act then (close_on_signal sym price ts b).2 else b in
  enter_at_next_open sym fine (open_direction act) price ts (pf_stop_loss act) (pf_take_profit act)
    (Some (pf_units act)) b.

Definition _record_equity (ts : Z) (equity : float) (pts : list (Z * float)) : list (Z * float) :=
  match last pts with
  | Some (t, _) => if t =? ts then removelast pts ++ [(ts, equity)] else pts ++ [(ts, equity)]
  | None => pts ++ [(ts, equity)]
  end.

(** The agents on bar [i], or [None] when the technical signal is missing. *)
Definition bar_signals (sym tf : string) (bars : list Candle) (i : Z) (bar : Candle)
  : Res (dict string AgentSignal) :=
  let bucket := _bucket_of bar in
  prev <-- _prev_daily sym bucket ;;
  analyze runner sym tf bucket (_window bars i) bucket prev (_pip_size sym).

Definition has_technical (signals : dict string AgentSignal) : bool :=
  match dget "technical"%string signals with Some _ => true | None => false end.

(** One bar of a context timeframe. *)
Definition context_step (sym tf : string) (bars : list Candle) (d : Driver) (ib : Z * Candle)
  : Res Driver :=
  let '(i, bar) := ib in
  if i <? warmup_bars cfg then Ok d
  else
    signals <-- bar_signals sym tf bars i bar ;;
    if negb (has_technical signals) then Ok d
    else
      let bucket := _bucket_of bar in
      r <-- bt_decide sym tf bucket bucket signals (_close_of bar) (cfg_timeframes cfg)
              empty_gate_state risk (last_decisions d) ;;
      let '(out, last) := r in
      let d := with_last last d in
      Ok (match action out with PERSIST => count_decision 0 d | SKIP => d end).

(** [enumerate(bars)]. *)
Definition enumerate (bars : list Candle) : list (Z * Candle) :=
  imap (fun i b => (Z.of_nat i, b)) bars.

Definition _run_context_tf (sym tf : string) (d : Driver) : Res Driver :=
  bars <-- _load_bars sym tf ;; fold_res (context_step sym tf bars) (enumerate bars) d.

(** The four agents' tallies of a run. *)
Definition tally : Type := dict string Z.
Definition _tally (signals : dict string AgentSignal) (counts : tally) : tally :=
  foldl (fun c a => match dget a signals with
                    | Some _ => dset a (dget_or a 0 c + 1) c
                    | None => c
                    end) counts AGENT_FAMILIES.

(** The decision made at the close of bar [i]. *)
Definition decide_bar (sym fine : string) (bars : list Candle) (total i : Z) (bar : Candle)
    (st : Driver * tally) : Res (Driver * tally) :=
  let '(d, counts) := st in
  signals <-- bar_signals sym fine bars i bar ;;
  let counts := _tally signals counts in
  if negb (has_technical signals) then Ok (d, counts)
  else
    let bucket := _bucket_of bar in
    g <-- _gate sym bucket (broker d) ;;
    r <-- bt_decide sym fine bucket bucket signals (_close_of bar) (cfg_timeframes cfg) g risk
            (last_decisions d) ;;
    let '(out, last) := r in
    let d := with_last last d in
    Ok (match action out with
        | SKIP => d
        | PERSIST =>
            if bool_decide (status out = Some PAPER)
            then _schedule_fill sym total i out (count_decision 1 d)
            else count_decision 0 d
        end, counts).

(** One bar of the fine timeframe: fill at its open, exits at its close, decision, mark. *)
Definition fine_step (sym fine : string) (bars : list Candle) (total : Z) (st : Driver * tally)
    (ib : Z * Candle) : Res (Driver * tally) :=
  let '(i, bar) := ib in
  let '(d, counts) := st in
  let bucket := _bucket_of bar in
  let '(act, pending) := dpop sym (pending_fills d) in
  let d := with_pending pending d in
  let d := match act with
           | Some a => with_broker (_apply_fill fine sym a (_open_of bar) bucket (broker d)) d
           | None => d
           end in
  let d := with_broker (evaluate_exit sym (_close_of bar) bucket (broker d)).2 d in
  st <-- (if warmup_bars cfg <=? i then decide_bar sym fine bars total i bar (d, counts)
          else Ok (d, counts)) ;;
  let '(d, counts) := st in
  let '(s, b) := broker_state bucket (mark_position sym (_close_of bar) (broker d)) in
  let d := with_broker b d in
  Ok (with_equity (_record_equity bucket (bs_equity s) (equity_points d)) d, counts).

Definition _append_coverage (sym tf : string) (bars : list Candle) (counts : tally) (d : Driver)
  : Driver :=
  let expected := Z.of_nat (length bars) - warmup_bars cfg in
  let n a := dget_or a 0 counts in
  let deg := (n "fundamental" <? expected) || (n "sentiment" <? expected) in
  {| broker := broker d; last_decisions := last_decisions d; pending_fills := pending_fills d;
     equity_points := equity_points d;
     coverage_reports := coverage_reports d ++
       [{| cov_symbol := sym; cov_timeframe := tf; expected_bars := Z.max 0 expected;
           cov_technical := n "technical"; cov_regime := n "regime";
           cov_fundamental := n "fundamental"; cov_sentiment := n "sentiment"; degraded := deg |}];
     decisions_made := decisions_made d; paper_intents := paper_intents d;
     degraded_runs := degraded_runs d + (if deg then 1 else 0) |}%string.

Definition no_counts : tally :=
  [("technical", 0); ("regime", 0); ("fundamental", 0); ("sentiment", 0)]%string.

Definition _run_fine (fine sym : string) (d : Driver) : Res Driver :=
  bars <-- _load_bars sym fine ;;
  match bars with
  | [] => Ok d
  | _ =>
      st <-- fold_res (fine_step sym fine bars (Z.of_nat (length bars))) (enumerate bars) (d, no_counts) ;;
      let '(d, counts) := st in
      Ok (_append_coverage sym fine bars counts d)
  end.

(** Larger timeframes first, longest first; then the fine one, symbol by symbol. *)
Definition run_driver (b : PaperBroker) : Res Driver :=
  fine <-- _fine ;;
  ordered <-- sort_by_rank (cfg_timeframes cfg) ;;
  let contexts := List.filter (fun tf => negb (String.eqb tf fine)) (rev ordered) in
  d <-- fold_res (fun d tf => fold_res (fun d sym => _run_context_tf sym tf d) (cfg_symbols cfg) d)
          contexts (new_driver b) ;;
  fold_res (fun d sym => _run_fine fine sym d) (cfg_symbols cfg) d.
End Driver.

(** ** Lemmas *)

Lemma window_prefix pre r i : 0 <= i < Z.of_nat (length pre) -> _window (pre ++ r) i = _window pre i.
Proof.
  intros Hi. unfold _window. set (s := Z.max 0 (i + 1 - _LOOKBACK)).
  assert (Hs : 0 <= s <= i) by (unfold s, _LOOKBACK; lia).
  rewrite skipn_app. replace (Z.to_nat s - length pre)%nat with O by lia. simpl.
  rewrite firstn_app. replace (Z.to_nat (i + 1 - s) - length (skipn (Z.to_nat s) pre))%nat with O
    by (rewrite length_skipn; lia).
  simpl. by rewrite app_nil_r.
Qed.

Lemma enumerate_app pre r : firstn (length pre) (enumerate (pre ++ r)) = enumerate pre.
Proof.
  unfold enumerate. rewrite imap_app. change (firstn (length pre)) with (@take (Z * Candle) (length pre)).
  by rewrite take_app_length' by (by rewrite length_imap).
Qed.

Lemma fold_res_ext {A S} (f g : S -> A -> Res S) l :
  (forall x s, x ∈ l -> f s x = g s x) -> forall s, fold_res f l s = fold_res g l s.
Proof.
  induction l as [|x l IH]; intros Hfg s; cbn [fold_res]; [done|].
  rewrite Hfg by (by left). destruct (g s x) as [s'|]; simpl; [|done].
  apply IH. intros y s'' Hy. apply Hfg. by right.
Qed.

Lemma elem_of_enumerate i b bars : (i, b) ∈ enumerate bars -> 0 <= i /\ bars !! Z.to_nat i = Some b.
Proof.
  unfold enumerate. intros Hin. apply list_elem_of_lookup in Hin as [n Hn].
  rewrite list_lookup_imap in Hn. apply fmap_Some in Hn as (b' & Hb & [= -> ->]).
  split; [lia|]. by rewrite Nat2Z.id.
Qed.

Lemma sorted_adjacent l k x y :
  StronglySorted Z.lt l -> l !! k = Some x -> l !! S k = Some y -> x < y.
Proof.
  intros Hs. revert k. induction Hs as [|z l Hs IH Hz]; intros k; [done|].
  destruct k as [|k]; simpl; [|apply IH]. intros [= <-] Hy. rewrite Forall_forall in Hz.
  apply Hz. by eapply list_elem_of_lookup_2.
Qed.

Section Properties.
Context `{Platform}.

(** The state of the fine loop after the first [n] bars. *)
Definition fine_prefix (cfg : BacktestConfig) (risk : RiskParams) (provider : CandleProvider)
    (runner : Runner) (sym fine : string) (bars : list Candle) (n : nat) (st : Driver * tally)
  : Res (Driver * tally) :=
  fold_res (fine_step cfg risk provider runner sym fine bars (Z.of_nat (length bars)))
    (firstn n (enumerate bars)) st.

(** C38: within the fine timeframe the replay does not look ahead.  After the first bars of
    a symbol - whatever comes later, as long as something does - the broker, its trades
    and positions, the scheduled fill, the decisions and the equity curve are the same:
    they are functions of those bars, of the previous days' bars and of the state
    before. *)
Theorem fine_loop_no_look_ahead (cfg : BacktestConfig) (risk : RiskParams) (p1 p2 : CandleProvider)
    (runner : Runner) (sym fine : string) (pre r1 r2 : list Candle) (st : Driver * tally) :
  r1 <> [] -> r2 <> [] ->
  (forall b, b ∈ pre -> _prev_daily cfg p1 sym (_bucket_of b) = _prev_daily cfg p2 sym (_bucket_of b)) ->
  fine_prefix cfg risk p1 runner sym fine (pre ++ r1) (length pre) st =
  fine_prefix cfg risk p2 runner sym fine (pre ++ r2) (length pre) st.
Proof.
  intros H1 H2 Hd. unfold fine_prefix. rewrite !enumerate_app. apply fold_res_ext.
  intros [i b] [d counts] Hin. apply elem_of_enumerate in Hin as [Hi0 Hi].
  assert (Hlt : i < Z.of_nat (length pre)) by (apply lookup_lt_Some in Hi; lia).
  assert (Hsig : bar_signals cfg p1 runner sym fine (pre ++ r1) i b
               = bar_signals cfg p2 runner sym fine (pre ++ r2) i b).
  { unfold bar_signals. rewrite !window_prefix by lia. by rewrite Hd by (by eapply list_elem_of_lookup_2). }
  assert (Hl : forall r : list Candle, r <> [] -> (Z.of_nat (length (pre ++ r)) <=? i + 1) = false).
  { intros r Hr. apply Z.leb_gt. rewrite length_app. destruct r; [done|simpl; lia]. }
  unfold fine_step, decide_bar, _schedule_fill. by rewrite Hsig, !Hl by done.
Qed.

(** *** Entries *)

(** A position or trade of the symbol entered at the open of a bar after the warm-up. *)
Definition at_open (sym : string) (warmup : Z) (bars : list Candle) (s : string) (ts : Z) (price : float) : Prop :=
  s = sym /\ exists n bar, bars !! n = Some bar /\ (0 < n)%nat /\ warmup < Z.of_nat n /\
    ts = _bucket_of bar /\ price = _open_of bar.

(** Every position of [b'] is one of [b] or a new one with [P], and every trade closes one. *)
Definition entries_from (P : string -> Z -> float -> Prop) (b b' : PaperBroker) : Prop :=
  (forall p, p ∈ book b' -> p ∈ book b \/ P (pos_symbol p) (entry_ts p) (entry_price p)) /\
  (forall t, t ∈ trades b' -> t ∈ trades b \/
     (exists p, p ∈ book b /\ pos_symbol p = t_symbol t /\ entry_ts p = t_entry_ts t /\
                entry_price p = t_entry_price t) \/
     P (t_symbol t) (t_entry_ts t) (t_entry_price t)).

Lemma entries_refl P b : entries_from P b b.
Proof. split; auto. Qed.

Lemma entries_trans P b1 b2 b3 : entries_from P b1 b2 -> entries_from P b2 b3 -> entries_from P b1 b3.
Proof.
  intros [Hp1 Ht1] [Hp2 Ht2]. split.
  - intros p [Hp|?]%Hp2; auto.
  - intros t [Ht|[(p & Hp & Hs & He & Hpr)|?]]%Ht2; [auto| |auto].
    apply Hp1 in Hp as [Hp|HP]; [right; left; eauto|right; right; congruence].
Qed.

Lemma close_entries P sym pos price reason ts b :
  open_for sym (book b) = Some pos -> entries_from P b (_close sym pos price reason ts b).2.
Proof.
  intros Ho. apply open_for_Some in Ho as [Hin Hs]. split; simpl.
  - intros p Hp. left. by eapply close_position_sub.
  - intros t [?| ->%list_elem_of_singleton]%elem_of_app; [by left|]. right; left.
    exists pos. split_and!; done.
Qed.

Lemma evaluate_exit_entries P sym c ts b : entries_from P b (evaluate_exit sym c ts b).2.
Proof.
  unfold evaluate_exit. destruct (open_for sym (book b)) as [pos|] eqn:E; [|apply entries_refl].
  destruct (exit_price_for _ _ _ _) as [[x r] []]; [|apply entries_refl]. by apply close_entries.
Qed.

Lemma close_on_signal_entries P sym pr ts b : entries_from P b (close_on_signal sym pr ts b).2.
Proof.
  unfold close_on_signal. destruct (open_for sym (book b)) as [pos|] eqn:E; [|apply entries_refl].
  by apply close_entries.
Qed.

Lemma enter_entries (P : string -> Z -> float -> Prop) sym tf d pr ts sl tp u b : P sym ts pr ->
  entries_from P b (enter_at_next_open sym tf d pr ts sl tp u b).
Proof.
  intros HP. unfold enter_at_next_open. destruct u as [n|]; [|apply entries_refl].
  destruct (_ || _); [apply entries_refl|]. destruct (open_for _ _); [apply entries_refl|].
  split; simpl; [|by left]. intros p [?| ->%list_elem_of_singleton]%elem_of_app; [by left|by right].
Qed.

Lemma apply_fill_entries P fine sym act pr ts b : P sym ts pr ->
  entries_from P b (_apply_fill fine sym act pr ts b).
Proof.
  intros HP. unfold _apply_fill. eapply entries_trans; [|by apply enter_entries].
  destruct (close_existing act); [apply close_on_signal_entries|apply entries_refl].
Qed.

Lemma entries_fields P b b' : book b' = book b -> trades b' = trades b -> entries_from P b b'.
Proof. intros Hb Ht. split; rewrite ?Hb, ?Ht; auto. Qed.

(** Between two bars: what the loop may have scheduled, and the equity points so far. *)
Record loop_inv (cfg : BacktestConfig) (sym : string) (bars : list Candle) (d0 d : Driver) (n : nat) : Prop := {
  li_entries : entries_from (at_open sym (warmup_bars cfg) bars) (broker d0) (broker d);
  li_pending : pending_fills d = [] \/
    (exists f, pending_fills d = [(sym, f)]) /\ (0 < n < length bars)%nat /\ warmup_bars cfg < Z.of_nat n;
  li_points : StronglySorted Z.lt (map _bucket_of bars) ->
    (forall t e, last (equity_points d0) = Some (t, e) -> hd_error (map _bucket_of bars) <> Some t) ->
    map fst (equity_points d) = map fst (equity_points d0) ++ map _bucket_of (firstn n bars)
}.

Lemma dpop_single sym (pending : dict string PendingFill) :
  pending = [] \/ (exists f, pending = [(sym, f)]) ->
  (dpop sym pending).2 = [] /\ ((dpop sym pending).1 <> None -> exists f, pending = [(sym, f)]).
Proof.
  intros [->|[f ->]]; unfold dpop; simpl; [done|].
  rewrite String.eqb_refl. simpl. split; [done|eauto].
Qed.

Lemma schedule_pending sym total i out d :
  pending_fills d = [] ->
  broker (_schedule_fill sym total i out d) = broker d /\
  equity_points (_schedule_fill sym total i out d) = equity_points d /\
  (pending_fills (_schedule_fill sym total i out d) = [] \/
   i + 1 < total /\ exists f, pending_fills (_schedule_fill sym total i out d) = [(sym, f)]).
Proof.
  intros Hp. unfold _schedule_fill. destruct (total <=? i + 1) eqn:Et; [auto|]. apply Z.leb_gt in Et.
  destruct (bool_decide _); [auto|].
  destruct (match open_for _ _ with Some _ => _ | None => _ end); [auto|].
  simpl. rewrite Hp. simpl. split_and!; try done. right. split; [done|eauto].
Qed.

Lemma decide_bar_effect cfg risk provider runner sym fine bars total i bar d counts d' counts' :
  decide_bar cfg risk provider runner sym fine bars total i bar (d, counts) = Ok (d', counts') ->
  pending_fills d = [] ->
  broker d' = broker d /\ equity_points d' = equity_points d /\
  (pending_fills d' = [] \/ i + 1 < total /\ exists f, pending_fills d' = [(sym, f)]).
Proof.
  intros Hd Hp. unfold decide_bar in Hd. apply res_bind_ok in Hd as (sigs & _ & Hd).
  destruct (negb _); [simplify_eq; auto|].
  apply res_bind_ok in Hd as (g & _ & Hd). apply res_bind_ok in Hd as ([out lst] & _ & Hd).
  injection Hd as <- _. destruct (action out); [auto|]. case_bool_decide; [|auto].
  by apply (schedule_pending sym total i out (count_decision 1 (with_last lst d))).
Qed.

Lemma record_equity_fst ts e pts :
  map fst (_record_equity ts e pts) =
    match last pts with Some (t, _) => if t =? ts then map fst pts else map fst pts ++ [ts]
                      | None => map fst pts ++ [ts] end.
Proof.
  unfold _record_equity. destruct (last pts) as [[t e0]|] eqn:El; [|by rewrite map_app].
  destruct (t =? ts) eqn:Et; [|by rewrite map_app].
  apply Z.eqb_eq in Et as ->. apply last_Some in El as [l ->].
  rewrite removelast_last, !map_app. done.
Qed.

Lemma fine_step_inv cfg risk provider runner sym fine bars d0 d counts i bar d' counts' :
  loop_inv cfg sym bars d0 d (Z.to_nat i) -> 0 <= i -> bars !! Z.to_nat i = Some bar ->
  fine_step cfg risk provider runner sym fine bars (Z.of_nat (length bars)) (d, counts) (i, bar)
    = Ok (d', counts') ->
  loop_inv cfg sym bars d0 d' (S (Z.to_nat i)).
Proof.
  intros [He Hp Hpt] Hi Hbar Hs. unfold fine_step in Hs.
  destruct (dpop sym (pending_fills d)) as [act pending] eqn:Epop.
  assert (Hpop : pending = [] /\ (act <> None -> (0 < Z.to_nat i)%nat /\ warmup_bars cfg < i)).
  { pose proof (dpop_single sym (pending_fills d)) as Hd. rewrite Epop in Hd. simpl in Hd.
    destruct Hp as [Hp|(Hp & Hn & Hw)]; [|destruct Hd; auto; split; [done|intros; lia]].
    destruct Hd as [Hd1 Hd2]; [by left|]. split; [done|]. intros Ha. destruct (Hd2 Ha) as [f Hf]. congruence. }
  destruct Hpop as [-> Hact].
  set (d1 := with_pending [] d) in *.
  set (d2 := match act with Some a => _ | None => d1 end) in *.
  assert (He2 : entries_from (at_open sym (warmup_bars cfg) bars) (broker d) (broker d2) /\
                pending_fills d2 = [] /\ equity_points d2 = equity_points d).
  { subst d2. destruct act as [a|]; [|split_and!; try done; apply entries_refl]. split_and!; try done.
    apply apply_fill_entries. split; [done|]. exists (Z.to_nat i), bar. destruct Hact as [? ?]; [done|].
    split_and!; try done. lia. }
  destruct He2 as (He2 & Hp2 & Heq2).
  set (d3 := with_broker (evaluate_exit sym _ _ _).2 d2) in *.
  apply res_bind_ok in Hs as ([d4 counts4] & Hdec & Hs).
  assert (H4 : broker d4 = broker d3 /\ equity_points d4 = equity_points d3 /\
    (pending_fills d4 = [] \/ warmup_bars cfg <= i /\ i + 1 < Z.of_nat (length bars) /\
       exists f, pending_fills d4 = [(sym, f)])).
  { destruct (warmup_bars cfg <=? i) eqn:Ew; [|simplify_eq; auto]. apply Z.leb_le in Ew.
    apply decide_bar_effect in Hdec as (? & ? & Hpend); [|done]. split_and!; try done.
    destruct Hpend as [?|[? ?]]; auto. }
  destruct H4 as (Hb4 & Heq4 & Hp4).
  destruct (broker_state _ _) as [s b] eqn:Ebs. injection Hs as <- _.
  assert (Hbk : book b = book (broker d4) /\ trades b = trades (broker d4)).
  { unfold broker_state in Ebs. by injection Ebs as _ <-. }
  split; cbn [broker with_equity with_broker pending_fills equity_points].
  - eapply entries_trans; [exact He|]. eapply entries_trans; [exact He2|].
    eapply entries_trans; [|apply entries_fields; apply Hbk]. rewrite Hb4. apply evaluate_exit_entries.
  - destruct Hp4 as [?|(Hw & Hlt & Hf)]; [by left|]. right. split; [done|]. lia.
  - intros Hsrt Hne. specialize (Hpt Hsrt Hne). rewrite record_equity_fst, Heq4.
    change (equity_points d3) with (equity_points d2). rewrite Heq2.
    rewrite (take_S_r bars _ bar Hbar), map_app, app_assoc. simpl. rewrite <- Hpt.
    destruct (last (equity_points d)) as [[t e]|] eqn:El; [|done].
    replace (t =? _bucket_of bar) with false; [done|]. symmetry. apply Z.eqb_neq. intros ->.
    apply last_Some in El as [l El].
    assert (Hlast : last (map fst (equity_points d)) = Some (_bucket_of bar))
      by (rewrite El, map_app; apply last_snoc).
    rewrite Hpt in Hlast. destruct (Z.to_nat i) as [|k] eqn:Ek.
    + simpl in Hlast. rewrite app_nil_r in Hlast. change (map fst (equity_points d0)) with ((equity_points d0).*1) in Hlast.
      rewrite fmap_last in Hlast. apply fmap_Some in Hlast as ([t0 e0] & Hl0 & Ht0). simpl in Ht0.
      apply (Hne _ _ Hl0). destruct bars as [|b0 bars']; [done|]. simpl in Hbar. injection Hbar as ->.
      simpl. congruence.
    + assert (Hk : is_Some (bars !! k)) by (apply lookup_lt_is_Some; apply lookup_lt_Some in Hbar; lia).
      destruct Hk as [bk Hk]. rewrite (take_S_r bars k bk Hk), map_app, app_assoc in Hlast. simpl in Hlast.
      rewrite last_snoc in Hlast. injection Hlast as Hlast.
      assert (_bucket_of bk < _bucket_of bar); [|lia].
      eapply (sorted_adjacent _ k); [exact Hsrt| |];
        change (map _bucket_of bars) with (_bucket_of <$> bars); rewrite list_lookup_fmap.
      * by rewrite Hk.
      * by rewrite Hbar.
Qed.

Lemma fine_fold_inv cfg risk provider runner sym fine bars d0 suf : forall k d counts d' counts',
  drop k bars = suf -> loop_inv cfg sym bars d0 d k ->
  fold_res (fine_step cfg risk provider runner sym fine bars (Z.of_nat (length bars)))
    (imap (fun i b => (Z.of_nat (k + i), b)) suf) (d, counts) = Ok (d', counts') ->
  loop_inv cfg sym bars d0 d' (k + length suf).
Proof.
  induction suf as [|b suf IH]; intros k d counts d' counts' Hk Hi Hf.
  { simpl in Hf. injection Hf as <- <-. by rewrite Nat.add_0_r. }
  rewrite imap_cons in Hf. cbn [fold_res] in Hf. apply res_bind_ok in Hf as ([d1 counts1] & Hs & Hf).
  rewrite Nat.add_0_r in Hs.
  assert (Hb : bars !! k = Some b) by (rewrite <- (Nat.add_0_r k), <- lookup_drop, Hk; done).
  apply (fine_step_inv _ _ _ _ _ _ _ d0) in Hs; [|by rewrite Nat2Z.id|lia|by rewrite Nat2Z.id].
  rewrite Nat2Z.id in Hs. replace (k + length (b :: suf))%nat with (S k + length suf)%nat by (simpl; lia).
  apply (IH (S k) d1 counts1 d' counts'); [|done|].
  - rewrite <- Nat.add_1_r, <- drop_drop, Hk. done.
  - rewrite <- Hf. f_equal. apply imap_ext. intros i x _. simpl. do 2 f_equal. lia.
Qed.

(** One symbol's fine loop: entries, no fill left over, one equity point per bar. *)
Lemma run_fine_spec cfg risk provider runner fine sym d d' bars :
  _load_bars cfg provider sym fine = Ok bars -> pending_fills d = [] ->
  _run_fine cfg risk provider runner fine sym d = Ok d' ->
  entries_from (at_open sym (warmup_bars cfg) bars) (broker d) (broker d') /\ pending_fills d' = [] /\
  (StronglySorted Z.lt (map _bucket_of bars) ->
   (forall t e, last (equity_points d) = Some (t, e) -> hd_error (map _bucket_of bars) <> Some t) ->
   map fst (equity_points d') = map fst (equity_points d) ++ map _bucket_of bars).
Proof.
  intros Hb Hp Hr. unfold _run_fine in Hr. rewrite Hb in Hr. cbn [res_bind] in Hr.
  destruct bars as [|b0 bars'] eqn:Ebars.
  { injection Hr as <-. split_and!; [apply entries_refl|done|]. intros _ _. by rewrite app_nil_r. }
  rewrite <- Ebars in *. clear Ebars b0 bars'.
  apply res_bind_ok in Hr as ([d1 counts] & Hf & Hr). injection Hr as <-.
  assert (H0 : loop_inv cfg sym bars d d 0).
  { split; [apply entries_refl|by left|]. intros _ _. by rewrite app_nil_r. }
  apply (fine_fold_inv _ _ _ _ _ _ _ d bars 0) in Hf; [|done|done]. simpl in Hf.
  destruct Hf as [He Hpend Hpt]. split_and!; [done| |].
  - destruct Hpend as [?|(_ & ? & _)]; [done|lia].
  - intros Hs Hn. specialize (Hpt Hs Hn). simpl in *. by rewrite take_ge in Hpt by lia.
Qed.

Lemma context_step_keeps cfg risk provider runner sym tf bars d ib d' :
  context_step cfg risk provider runner sym tf bars d ib = Ok d' ->
  broker d' = broker d /\ pending_fills d' = pending_fills d /\ equity_points d' = equity_points d.
Proof.
  unfold context_step. destruct ib as [i bar]. intros Hs. destruct (i <? _); [by simplify_eq|].
  apply res_bind_ok in Hs as (sigs & _ & Hs). destruct (negb _); [by simplify_eq|].
  apply res_bind_ok in Hs as ([out lst] & _ & Hs). injection Hs as <-. by destruct (action out).
Qed.

Lemma contexts_keep cfg risk provider runner tfs : forall d d',
  fold_res (fun d tf => fold_res (fun d sym => _run_context_tf cfg risk provider runner sym tf d)
                          (cfg_symbols cfg) d) tfs d = Ok d' ->
  broker d' = broker d /\ pending_fills d' = pending_fills d /\ equity_points d' = equity_points d.
Proof.
  intros d d' Hf.
  apply (fold_res_inv (fun d' => broker d' = broker d /\ pending_fills d' = pending_fills d /\
    equity_points d' = equity_points d)) in Hf; [done| |done].
  clear. intros d1 tf d2 Hd1 Hf.
  apply (fold_res_inv (fun d' => broker d' = broker d /\ pending_fills d' = pending_fills d /\
    equity_points d' = equity_points d)) in Hf; [done| |done].
  clear. intros d1 sym d2 Hd1 Hc. unfold _run_context_tf in Hc.
  apply res_bind_ok in Hc as (bars & _ & Hc).
  apply (fold_res_inv (fun d' => broker d' = broker d /\ pending_fills d' = pending_fills d /\
    equity_points d' = equity_points d)) in Hc; [done| |done].
  clear. intros d1 ib d2 (H1 & H2 & H3) Hc. apply context_step_keeps in Hc as (? & ? & ?). split_and!; congruence.
Qed.

(** Every backtest entry is filled at the open of a later bar.  In a completed run from
    a fresh broker, each trade and each position still open was entered at the opening
    price and time of a stored bar of its symbol past the warm-up, at least one bar after
    the bar whose close decided it; and no scheduled fill is left over. *)
Theorem backtest_fills_at_open (cfg : BacktestConfig) (risk : RiskParams) (provider : CandleProvider)
    (runner : Runner) (b : PaperBroker) (d : Driver) (fine : string) :
  book b = [] -> trades b = [] -> _fine cfg = Ok fine ->
  run_driver cfg risk provider runner b = Ok d ->
  let P s ts price := exists bars, s ∈ cfg_symbols cfg /\ _load_bars cfg provider s fine = Ok bars /\
                        at_open s (warmup_bars cfg) bars s ts price in
  (forall p, p ∈ book (broker d) -> P (pos_symbol p) (entry_ts p) (entry_price p)) /\
  (forall t, t ∈ trades (broker d) -> P (t_symbol t) (t_entry_ts t) (t_entry_price t)) /\
  pending_fills d = [].
Proof.
  intros Hb Ht Hfine Hr P. unfold run_driver in Hr. rewrite Hfine in Hr. cbn [res_bind] in Hr.
  apply res_bind_ok in Hr as (ordered & _ & Hr). apply res_bind_ok in Hr as (d1 & Hc & Hr).
  apply contexts_keep in Hc as (Hb1 & Hp1 & _).
  assert (Hinv : entries_from P b (broker d) /\ pending_fills d = []).
  { refine (fold_res_inv_in (fun d => entries_from P b (broker d) /\ pending_fills d = []) _ _ _ _ _ _ Hr).
    - intros d2 sym d3 Hin [He Hp] Hf.
      destruct (_load_bars cfg provider sym fine) as [bars|e] eqn:El;
        [|unfold _run_fine in Hf; rewrite El in Hf; done].
      pose proof (run_fine_spec _ _ _ _ _ _ _ _ bars El Hp Hf) as (He' & Hp' & _).
      split; [|done]. eapply entries_trans; [exact He|].
      assert (HP : forall s ts pr, at_open sym (warmup_bars cfg) bars s ts pr -> P s ts pr).
      { intros s ts pr [-> Hx]. exists bars. split_and!; try done. }
      destruct He' as [H1 H2]. split.
      + intros p [?|?]%H1; auto.
      + intros t [?|[?|?]]%H2; auto.
    - rewrite Hb1, Hp1. split; [apply entries_refl|done]. }
  destruct Hinv as [[Hp' Ht'] Hpend]. split_and!; [| |done].
  - intros p [Hin|?]%Hp'; [|done]. rewrite Hb in Hin. by apply elem_of_nil in Hin.
  - intros t [Hin|[(p & Hin & _)|?]]%Ht'; [|rewrite Hb in Hin|done]; [rewrite Ht in Hin|];
      by apply elem_of_nil in Hin.
Qed.

(** The equity curve has one point per bar.  Replaying the fine timeframe of a symbol
    over bars in ascending time appends exactly one equity point per bar, stamped with
    that bar, in order (a first bar at the curve's last instant would update it). *)
Theorem one_point_per_bar (cfg : BacktestConfig) (risk : RiskParams) (provider : CandleProvider)
    (runner : Runner) (fine sym : string) (d d' : Driver) (bars : list Candle) :
  _load_bars cfg provider sym fine = Ok bars -> pending_fills d = [] ->
  StronglySorted Z.lt (map _bucket_of bars) ->
  (forall t e, last (equity_points d) = Some (t, e) -> hd_error (map _bucket_of bars) <> Some t) ->
  _run_fine cfg risk provider runner fine sym d = Ok d' ->
  map fst (equity_points d') = map fst (equity_points d) ++ map _bucket_of bars.
Proof.
  intros Hl Hp Hs Hn Hr. pose proof (run_fine_spec _ _ _ _ _ _ _ _ bars Hl Hp Hr) as (_ & _ & Hpt).
  by apply Hpt.
Qed.
End Properties.

(** ** The gates of replay and live trading *)

Section Parity.
Context `{Platform}.

(** The replay's gate and the live gate agree on the restored account.  On a broker
    just restored from the ledger whose equity is its marked equity, both measure the
    same exposure, basket correlation, drawdown and correlation trigger over the same
    open positions; but the day's loss is divided by the current equity live, and by
    the starting equity in the replay. *)
Theorem gate_parity (cfg : BacktestConfig) (fresh : LedgerBroker) (sym : string) (now : Z) (db : DB) :
  let lb := restore_state fresh db in
  let b := lb_paper lb in
  let v := build_ledger_gate lb sym now db in
  str_upper sym = sym -> ftruthy (equity b) = true -> total_equity b = equity b ->
  exists g, _gate cfg sym now b = Ok g /\
    exposure_used_pct g = exposure_used_pct (gate v) /\
    correlation_used_pct g = correlation_used_pct (gate v) /\
    drawdown_used_pct g = drawdown_used_pct (gate v) /\
    correlation_triggered g = correlation_triggered (gate v) /\
    daily_loss_used_pct (gate v) = over_equity (fmax f0 (fneg (realized_today v))) (equity b) /\
    daily_loss_used_pct g =
      over_equity (fmax f0 (fneg (dget_or (date_key now) f0 (_sync_daily_loss b)))) (cfg_start_equity cfg).
Proof.
  intros lb b v Hup He Ht. unfold v, build_ledger_gate, _gate. rewrite Hup, Ht.
  fold b. unfold f_or. rewrite He. unfold over_equity. rewrite He.
  unfold fdiv. unfold ftruthy in He. apply negb_true_iff in He. rewrite He. cbn [res_bind].
  eexists. split; [reflexivity|]. done.
Qed.
End Parity.

(** ** A concrete replay *)

Definition hour : Z := 3600 * us_per_second.

(** Prices of H1 bars are flat; the last H4 bar closes at [close]. *)
Definition demo_stored (close : Z) (tf : string) : list Candle :=
  if String.eqb tf "H4" then [sample_candle 0 110; sample_candle (4 * hour) close]
  else [sample_candle 0 110; sample_candle hour 110; sample_candle (2 * hour) 110;
        sample_candle (3 * hour) 110; sample_candle (4 * hour) 110].
Definition demo_provider (close : Z) : CandleProvider := fun _ tf _ _ => Ok (demo_stored close tf).

(** H1 bars are weakly long; H4 bars are strongly long or short by the last close. *)
Definition demo_technical (ctx : AnalysisContext) : Res AgentSignal :=
  let dir := match List.last (map c_close (ctx_candles ctx)) dec_zero with
             | Dec c _ => if c <? 110 then SHORT else LONG
             | DSpecial _ => FLAT
             end in
  Ok (with_features top_level_atr
        (if String.eqb (ctx_timeframe ctx) "H4" then sample_signal "technical" dir (lit 8 1)
         else sample_signal "technical" LONG (lit 25 2))).

Definition demo_runner : Runner :=
  {| registry := [{| ag_id := "technical"; ag_analyze := demo_technical |};
                  {| ag_id := "regime"; ag_analyze := fun _ => Ok (sample_signal "regime" FLAT f0) |};
                  {| ag_id := "fundamental"; ag_analyze := fun _ => Err OtherError |}];
     replay := [] |}%string.

Definition demo_cfg (timeframes : list string) : BacktestConfig :=
  {| cfg_start := utc 0; cfg_end := 5 * hour; cfg_symbols := ["EURUSD"]; cfg_timeframes := timeframes;
     cfg_seed := 7; cfg_start_equity := of_Z 100000; warmup_bars := 0; cfg_spread := lit 1 4;
     cfg_slippage_pct := lit 2 5; require_full_coverage := true |}%string.

Definition demo_broker : PaperBroker := new_broker (of_Z 100000) 7 default_cost_params.
Notation demo_replay timeframes close :=
  (@run_driver demo_platform (demo_cfg timeframes) sample_params (demo_provider close) demo_runner demo_broker).

(** When the positions and trades of a run were entered. *)
Definition entry_times (r : Res Driver) : option (list Z) :=
  match r with
  | Ok d => Some (map entry_ts (book (broker d)) ++ map t_entry_ts (trades (broker d)))
  | Err _ => None
  end.

(** Across timeframes the replay does look ahead.  Two histories that agree on every
    bar before hour 4 - and on the whole fine timeframe - can trade differently at hour 1:
    the larger timeframe is replayed to its end first and keeps only its last decision,
    so every fine bar is decided in the context of a parent bar from its future. *)
Theorem parent_context_looks_ahead :
  (forall sym tf start stop, exists bars bars',
     demo_provider 110 sym tf start stop = Ok bars /\ demo_provider 90 sym tf start stop = Ok bars' /\
     List.filter (fun c => _bucket_of c <? 4 * hour) bars = List.filter (fun c => _bucket_of c <? 4 * hour) bars') /\
  (forall sym start stop, demo_provider 110 sym "H1" start stop = demo_provider 90 sym "H1" start stop) /\
  entry_times (demo_replay ["H1"; "H4"]%string 110) = Some [hour] /\
  entry_times (demo_replay ["H1"; "H4"]%string 90) = Some [].
Proof.
  split; [|split; [done|split; vm_compute; reflexivity]].
  intros sym tf start stop. do 2 eexists. split; [reflexivity|]. split; [reflexivity|].
  unfold demo_stored. destruct (String.eqb tf "H4"); vm_compute; reflexivity.
Qed.

Definition demo_bars : list Candle := demo_stored 110 "H1".
Definition demo_start : Driver := new_driver demo_broker.

Lemma fine_loop_no_look_ahead_witness :
  @fine_prefix demo_platform (demo_cfg ["H1"]%string) sample_params (demo_provider 110) demo_runner "EURUSD" "H1"
    (firstn 2 demo_bars ++ [sample_candle (2 * hour) 150]) 2 (demo_start, no_counts) =
  @fine_prefix demo_platform (demo_cfg ["H1"]%string) sample_params (demo_provider 90) demo_runner "EURUSD" "H1"
    (firstn 2 demo_bars ++ [sample_candle (2 * hour) 90; sample_candle (3 * hour) 90]) 2 (demo_start, no_counts).
Proof.
  apply (@fine_loop_no_look_ahead demo_platform (demo_cfg ["H1"]%string) sample_params (demo_provider 110)
    (demo_provider 90) demo_runner "EURUSD" "H1" (firstn 2 demo_bars)); [discriminate|discriminate|].
  intros b _. reflexivity.
Defined.

Definition demo_done : Driver :=
  match demo_replay ["H1"]%string 110 with Ok d => d | Err _ => demo_start end.

Lemma demo_done_ok : demo_replay ["H1"]%string 110 = Ok demo_done.
Proof. vm_compute. reflexivity. Qed.

Lemma backtest_fills_at_open_witness :
  map entry_ts (book (broker demo_done)) = [hour] /\ pending_fills demo_done = [].
Proof.
  split; [vm_compute; reflexivity|].
  exact (proj2 (proj2 (@backtest_fills_at_open demo_platform (demo_cfg ["H1"]%string) sample_params
    (demo_provider 110) demo_runner demo_broker demo_done "H1" eq_refl eq_refl eq_refl demo_done_ok))).
Defined.

Definition demo_fine : Driver :=
  match @_run_fine demo_platform (demo_cfg ["H1"]%string) sample_params (demo_provider 110) demo_runner "H1"
          "EURUSD" demo_start with Ok d => d | Err _ => demo_start end.

Lemma demo_fine_ok : @_run_fine demo_platform (demo_cfg ["H1"]%string) sample_params (demo_provider 110)
  demo_runner "H1" "EURUSD" demo_start = Ok demo_fine.
Proof. vm_compute. reflexivity. Qed.

Lemma one_point_per_bar_witness :
  map fst (equity_points demo_fine) = [0; hour; 2 * hour; 3 * hour; 4 * hour].
Proof.
  refine (@one_point_per_bar demo_platform (demo_cfg ["H1"]%string) sample_params (demo_provider 110) demo_runner
    "H1" "EURUSD" demo_start demo_fine demo_bars _ _ _ _ demo_fine_ok).
  - reflexivity.
  - reflexivity.
  - assert (Hb : map _bucket_of demo_bars = [0; hour; 2 * hour; 3 * hour; 4 * hour]) by reflexivity.
    rewrite Hb. repeat constructor; unfold hour, us_per_second; lia.
  - intros t e H. discriminate H.
Defined.

Lemma gate_parity_witness :
  let lb := restore_state demo_lb empty_db in
  exists g, _gate (demo_cfg ["H1"]%string) "EURUSD" 0 (lb_paper lb) = Ok g /\
    exposure_used_pct g = exposure_used_pct (gate (build_ledger_gate lb "EURUSD" 0 empty_db)).
Proof.
  destruct (gate_parity (demo_cfg ["H1"]%string) demo_lb "EURUSD" 0 empty_db) as (g & Hg & Hx & _);
    [vm_compute; reflexivity..|]. exists g. exact (conj Hg Hx).
Defined.
