(* ===== verification/Report.v ===== *)
(** * Backtest metrics ([app/backtest/report.py], [RunMetrics] of [models.py])

    The statistics of the standard library are exact rational sums rounded once, as
    CPython computes them. *)

From Stdlib Require Import ZArith Lia.
From stdpp Require Import base list strings.
From S2P Require Import Prelude PyFloat Timeframes Signals Risk Decision Tables Costs Positions Paper Backtest.

Record RunMetrics := {
  net_pnl : float;
  gross_pnl : float;
  total_costs : float;
  num_trades : Z;
  win_rate : float;
  profit_factor : float;
  sharpe : float;
  sortino : float;
  m_max_drawdown_pct : float;
  exposure_avg_pct : float;
  m_bars : Z;
  m_degraded_runs : Z;
  m_coverage : list CoverageReport
}.

(** ** [statistics.mean] and [pstdev] *)

(** A finite float as an integer multiple of 2^-1074. *)
Definition units_of (x : float) : Z :=
  match x with
  | S754_finite s m e => (if s then -1 else 1) * (Zpos m * 2 ^ (e + 1074))
  | _ => 0
  end.
Definition unit_scale : positive := Pos.pow 2 1074.

(** Infinities and NaN propagate through a plain float sum. *)
Definition mean (l : list float) : float :=
  if forallb isfinite l
  then of_ratio (foldl Z.add 0 (map units_of l)) (unit_scale * Pos.of_nat (length l))
  else foldl fadd f0 l.

(** [_integer_sqrt_of_frac_rto]: the integer root, its last bit sticky. *)
Definition isqrt_rto (n m : Z) : Z :=
  let a := Z.sqrt (n / m) in Z.lor a (if a * a * m =? n then 0 else 1).

Definition bit_length (n : Z) : Z := if n =? 0 then 0 else Z.log2 (Z.abs n) + 1.

(** [_float_sqrt_of_frac] of a fraction in lowest terms. *)
Definition float_sqrt_of_frac (n m : Z) : float :=
  let q := (bit_length n - bit_length m - 109) / 2 in
  if 0 <=? q then of_Z (Z.shiftl (isqrt_rto n (Z.shiftl m (2 * q))) q)
  else of_ratio (isqrt_rto (Z.shiftl n (-2 * q)) m) (Z.to_pos (Z.shiftl 1 (- q))).

(** The population variance: mean of squares minus square of mean, exactly. *)
Definition pstdev (l : list float) : float :=
  if forallb isfinite l then
    let n := Z.of_nat (length l) in
    let sx := foldl Z.add 0 (map units_of l) in
    let sxx := foldl Z.add 0 (map (fun x => units_of x * units_of x) l) in
    let num := n * sxx - sx * sx in
    let den := n * n * (Zpos unit_scale * Zpos unit_scale) in
    if num =? 0 then f0
    else let g := Z.gcd num den in float_sqrt_of_frac (num / g) (den / g)
  else S754_nan.

(** ** The report *)

Definition SECONDS_PER_YEAR : float := (lit 36525 2 *ᶠ of_Z 24) *ᶠ of_Z 3600.

Definition annualization_factor (timeframe : string) : Res float :=
  s <-- seconds timeframe ;; fdiv SECONDS_PER_YEAR (of_Z s).

Definition _finite (value : float) : float := if isfinite value then value else f0.

(** [(prices[i] - prices[i - 1]) / prices[i - 1]]. *)
Fixpoint returns_of (prices : list float) : Res (list float) :=
  match prices with
  | p :: ((q :: _) as rest) => r <-- fdiv (q -ᶠ p) p ;; rs <-- returns_of rest ;; Ok (r :: rs)
  | _ => Ok []
  end.

Section Report.
(** The C library's [pow(x, 0.5)]. *)
Context (pow_half : float -> float).

Definition _risk_adjusted (points : list (Z * float)) (timeframe : string) : Res (float * float) :=
  if (length points <? 2)%nat then Ok (f0, f0)
  else
    returns <-- returns_of (map snd points) ;;
    ann <-- annualization_factor timeframe ;;
    let mean_r := mean returns in
    let std := pstdev returns in
    sharpe <-- (if std >ᶠ f0 then r <-- fdiv mean_r std ;; Ok (r *ᶠ pow_half ann) else Ok f0) ;;
    let downside_input := List.filter (fun r => r <ᶠ f0) returns in
    let downside := match downside_input with [] => f0 | _ => pstdev downside_input end in
    sortino <-- (if downside >ᶠ f0 then r <-- fdiv mean_r downside ;; Ok (r *ᶠ pow_half ann) else Ok f0) ;;
    Ok (sharpe, sortino).

Definition _avg_exposure (ts : list Trade) (start_equity : float) : Res float :=
  match ts with
  | [] => Ok f0
  | _ =>
      if start_equity <=ᶠ f0 then Ok f0
      else
        let total := fsum (map (fun t => fabs (t_entry_price t *ᶠ t_units t)) ts) in
        per <-- fdiv total (of_Z (Z.of_nat (length ts))) ;; fdiv per start_equity
  end.

Definition build_metrics (cfg : BacktestConfig) (points : list (Z * float)) (ts : list Trade)
    (broker_max_drawdown_pct : float) (degraded : Z) (coverage : list CoverageReport)
  : Res RunMetrics :=
  let start_equity := match points with (_, e) :: _ => e | [] => cfg_start_equity cfg end in
  let end_equity := match last points with Some (_, e) => e | None => start_equity end in
  let net := end_equity -ᶠ start_equity in
  let gross := foldl (fun acc t => acc +ᶠ t_gross_pnl t) f0 ts in
  let costs := foldl (fun acc t => acc +ᶠ t_costs t) f0 ts in
  let wins := List.filter (fun t => t_net_pnl t >ᶠ f0) ts in
  let n := Z.of_nat (length ts) in
  let rate := if n =? 0 then f0 else of_ratio (Z.of_nat (length wins)) (Z.to_pos n) in
  let positive := fsum (map t_net_pnl wins) in
  let negative := fneg (fsum (map t_net_pnl (List.filter (fun t => t_net_pnl t <ᶠ f0) ts))) in
  let factor := if ftruthy negative then fdiv_ieee positive negative
                else if positive >ᶠ f0 then finf else f0 in
  match cfg_timeframes cfg with
  | [] => Err OtherError
  | tf :: _ =>
      rs <-- _risk_adjusted points tf ;;
      exposure <-- _avg_exposure ts start_equity ;;
      Ok {| net_pnl := fround net 6; gross_pnl := fround gross 6; total_costs := fround costs 6;
            num_trades := n; win_rate := fround rate 6; profit_factor := _finite factor;
            sharpe := _finite rs.1; sortino := _finite rs.2;
            m_max_drawdown_pct := fround broker_max_drawdown_pct 8;
            exposure_avg_pct := _finite exposure; m_bars := Z.of_nat (length points);
            m_degraded_runs := degraded; m_coverage := coverage |}
  end.

(** [run], with the report it ends with. *)
Definition run_with_metrics `{Platform} (cfg : BacktestConfig) (risk : RiskParams)
    (provider : CandleProvider) (runner : Runner) (b : PaperBroker) : Res (Driver * RunMetrics) :=
  d <-- run_driver cfg risk provider runner b ;;
  m <-- build_metrics cfg (equity_points d) (trades (broker d)) (max_drawdown_pct (broker d))
          (degraded_runs d) (coverage_reports d) ;;
  Ok (d, m).

Lemma finite_ok x : isfinite (_finite x) = true.
Proof. unfold _finite. by destruct (isfinite x) eqn:E. Qed.

(** The report's ratios are finite numbers, whatever the run did, and its counts are
    those of the run; but a run without a losing trade reports a profit factor of 0,
    the same as a run without trades (the infinite ratio is replaced). *)
Theorem metrics_finite (cfg : BacktestConfig) (points : list (Z * float)) (ts : list Trade) (mdd : float)
    (deg : Z) (cov : list CoverageReport) (m : RunMetrics) :
  build_metrics cfg points ts mdd deg cov = Ok m ->
  isfinite (profit_factor m) = true /\ isfinite (sharpe m) = true /\ isfinite (sortino m) = true /\
  isfinite (exposure_avg_pct m) = true /\
  num_trades m = Z.of_nat (length ts) /\ m_bars m = Z.of_nat (length points) /\
  ((forall t, t ∈ ts -> flt (t_net_pnl t) f0 = false) -> profit_factor m = f0).
Proof.
  unfold build_metrics. destruct (cfg_timeframes cfg) as [|tf tfs]; [done|]. intros Hm.
  apply res_bind_ok in Hm as (rs & _ & Hm). apply res_bind_ok in Hm as (x & _ & [= <-]).
  cbn [profit_factor sharpe sortino exposure_avg_pct num_trades m_bars].
  split_and!; try apply finite_ok; try done. intros Hno.
  replace (List.filter (fun t => flt (t_net_pnl t) f0) ts) with (@nil Trade).
  - simpl. by destruct (flt f0 _).
  - symmetry. clear -Hno. induction ts as [|t ts IH]; simpl; [done|].
    rewrite Hno by (by left). apply IH. intros t' Ht. apply Hno. by right.
Qed.
End Report.

Example pstdev_two : pstdev [of_Z 1; of_Z 3] = of_Z 1.
Proof. vm_compute. reflexivity. Qed.
Example mean_two : mean [of_Z 1; of_Z 2] = lit 15 1.
Proof. vm_compute. reflexivity. Qed.

Definition winning_trade : Trade :=
  {| t_symbol := "EURUSD"; t_timeframe := "H1"; t_side := LONG; t_units := f1; t_entry_ts := 0;
     t_entry_price := f1; t_exit_ts := hour; t_exit_price := f2; t_gross_pnl := f1; t_costs := f0;
     t_net_pnl := f1; t_exit_reason := "take_profit" |}%string.

Lemma metrics_finite_witness :
  exists m, build_metrics (fun x => x) (demo_cfg ["H1"]%string) (equity_points demo_fine) [winning_trade] f0 0 [] = Ok m
    /\ profit_factor m = f0.
Proof.
  destruct (build_metrics (fun x => x) (demo_cfg ["H1"]%string) (equity_points demo_fine) [winning_trade] f0 0 [])
    as [m|e] eqn:E; [|vm_compute in E; discriminate E].
  exists m. split; [reflexivity|].
  apply (metrics_finite _ _ _ _ _ _ _ _ E).
  intros t ->%list_elem_of_singleton. vm_compute. reflexivity.
Defined.
