(* ===== verification/MarketHours.v ===== *)
(** * The FX week ([app/data/market_hours.py])

    Instants are microseconds from the epoch, a Thursday. *)

From Stdlib Require Import ZArith Lia.
From stdpp Require Import base list strings.
From S2P Require Import Prelude Timeframes.

Definition us_per_hour : Z := 3600 * us_per_second.
Definition us_per_week : Z := 7 * us_per_day.

Definition _OPEN_SUNDAY_HOUR : Z := 22.
Definition _CLOSE_FRIDAY_HOUR : Z := 22.

(** [weekday()] (Monday is 0) and [hour] of a UTC instant. *)
Definition weekday (t : Z) : Z := (t / us_per_day + 3) mod 7.
Definition hour_of (t : Z) : Z := (t mod us_per_day) / us_per_hour.

(** The body of [is_market_open] on a UTC instant. *)
Definition open_at (t : Z) : bool :=
  let wd := weekday t in
  if wd =? 6 then _OPEN_SUNDAY_HOUR <=? hour_of t
  else if wd =? 4 then hour_of t <? _CLOSE_FRIDAY_HOUR
  else negb (wd =? 5).

Definition is_market_open (ts : datetime) : Res bool :=
  match tzinfo ts with
  | None => Err ValueError
  | Some _ => Ok (open_at (instant ts))
  end.

(** [while candidate <= after: candidate += timedelta(days=7)]. *)
Fixpoint bump (fuel : nat) (after candidate : Z) : Z :=
  match fuel with
  | O => candidate
  | S n => if candidate <=? after then bump n after (candidate + us_per_week) else candidate
  end.

(** [replace(hour=hour, minute=minute, second=0, microsecond=0)]. *)
Definition replace_time (t hour minute : Z) : Z :=
  t - t mod us_per_day + hour * us_per_hour + minute * seconds_td 60.

Definition _next_boundary (wd hour minute after : Z) : Z :=
  let candidate := replace_time after hour minute in
  let days_ahead := (wd - weekday candidate) mod 7 in
  let days_ahead := if (days_ahead =? 0) && (candidate <=? after) then 7 else days_ahead in
  let candidate := if 0 <? days_ahead then candidate + days_td days_ahead else candidate in
  bump (S (Z.to_nat ((after - candidate) / us_per_week + 1))) after candidate.

Definition next_open (t : Z) : Z :=
  let sunday_open := _next_boundary 6 _OPEN_SUNDAY_HOUR 0 (t - seconds_td 1) in
  let monday_start := _next_boundary 0 0 0 (t - seconds_td 1) in
  if open_at t then t else Z.min sunday_open monday_start.

Definition next_close (t : Z) : Z :=
  let friday_close := _next_boundary 4 _CLOSE_FRIDAY_HOUR 0 t in
  if open_at t then friday_close
  else _next_boundary 4 _CLOSE_FRIDAY_HOUR 0 (next_open t).

(** ** Lemmas *)

Ltac week_consts :=
  unfold days_td, seconds_td, us_per_week, us_per_day, us_per_hour, us_per_second,
    _OPEN_SUNDAY_HOUR, _CLOSE_FRIDAY_HOUR in *.

(** The position in the week, from Monday midnight. *)
Definition pos (t : Z) : Z := (t + 3 * us_per_day) mod us_per_week.
Definition friday_close_pos : Z := 4 * us_per_day + 22 * us_per_hour.
Definition sunday_open_pos : Z := 6 * us_per_day + 22 * us_per_hour.

Lemma pos_parts t : weekday t = pos t / us_per_day /\ t mod us_per_day = pos t mod us_per_day.
Proof.
  unfold weekday, pos. week_consts. Z.to_euclidean_division_equations. lia.
Qed.

Lemma open_at_pos t : open_at t = (pos t <? friday_close_pos) || (sunday_open_pos <=? pos t).
Proof.
  unfold open_at, hour_of. destruct (pos_parts t) as [-> ->].
  assert (Hp : 0 <= pos t < us_per_week) by (apply Z.mod_pos_bound; week_consts; lia).
  unfold friday_close_pos, sunday_open_pos. revert Hp. generalize (pos t) as p. intros p Hp. week_consts.
  repeat match goal with
  | |- context [?a =? ?b] => destruct (Z.eqb_spec a b)
  | |- context [?a <? ?b] => destruct (Z.ltb_spec a b)
  | |- context [?a <=? ?b] => destruct (Z.leb_spec a b)
  end; simpl; try done; exfalso; Z.to_euclidean_division_equations; lia.
Qed.

(** The boundary is the first instant after [after] at its place in the week. *)
Lemma next_boundary_spec wd hour after :
  0 <= wd < 7 -> 0 <= hour < 24 ->
  let b := _next_boundary wd hour 0 after in
  after < b <= after + us_per_week /\ pos b = wd * us_per_day + hour * us_per_hour.
Proof.
  intros Hw Hh. unfold _next_boundary. set (c := replace_time after hour 0).
  assert (Hc : c mod us_per_day = hour * us_per_hour /\ c / us_per_day = after / us_per_day /\
               c - after < us_per_day /\ after - c < us_per_day).
  { unfold c, replace_time. week_consts. Z.to_euclidean_division_equations. lia. }
  set (d0 := (wd - weekday c) mod 7). set (d := if _ && _ then 7 else d0).
  set (c' := if 0 <? d then _ else _).
  assert (Hc' : c' = c + d * us_per_day /\ 0 <= d <= 7 /\ (wd - weekday c) mod 7 = d mod 7 /\
                after < c' <= after + us_per_week).
  { assert (Hd0 : 0 <= d0 < 7) by (apply Z.mod_pos_bound; lia).
    assert (Hd : (d = 7 /\ d0 = 0 /\ c <= after) \/ (d = d0 /\ (d0 = 0 -> after < c))).
    { unfold d. destruct (Z.eqb_spec d0 0), (Z.leb_spec c after); simpl; lia. }
    assert (Hc' : c' = c + d * us_per_day).
    { unfold c'. destruct (Z.ltb_spec 0 d); unfold days_td; week_consts; lia. }
    fold d0. clearbody d d0 c'. week_consts. split; [lia|]. split; [lia|].
    split; [destruct Hd as [(-> & -> & _)|[-> _]]; [done|symmetry; by apply Z.mod_small]|].
    destruct Hd as [(-> & -> & ?)|[-> ?]]; lia. }
  destruct Hc' as (Hc' & Hd & Hmod & Hbounds).
  cbn [bump]. replace (c' <=? after) with false by (symmetry; apply Z.leb_gt; lia).
  split; [done|].
  destruct (pos_parts c') as [Hp1 Hp2]. destruct Hc as (Hc1 & _).
  assert (Hw' : weekday c' = wd).
  { unfold weekday in *. rewrite Hc' in *. week_consts. Z.to_euclidean_division_equations. lia. }
  assert (Ht' : c' mod us_per_day = hour * us_per_hour).
  { rewrite Hc'. week_consts. Z.to_euclidean_division_equations. lia. }
  rewrite Hw' in Hp1. rewrite Ht' in Hp2. revert Hp1 Hp2. generalize (pos c'). week_consts.
  intros p Hp1 Hp2. Z.to_euclidean_division_equations. lia.
Qed.

(** Positions advance with time, modulo the week. *)
Lemma pos_eq t : exists q, t + 3 * us_per_day = us_per_week * q + pos t /\ 0 <= pos t < us_per_week.
Proof.
  exists ((t + 3 * us_per_day) / us_per_week). unfold pos.
  assert (0 < us_per_week) by (week_consts; lia).
  split; [by apply Z.div_mod; lia|by apply Z.mod_pos_bound].
Qed.

Lemma closed_pos t : open_at t = false <-> friday_close_pos <= pos t < sunday_open_pos.
Proof. rewrite open_at_pos, orb_false_iff, Z.ltb_ge, Z.leb_gt. done. Qed.
Lemma opened_pos t : open_at t = true <-> pos t < friday_close_pos \/ sunday_open_pos <= pos t.
Proof. by rewrite open_at_pos, orb_true_iff, Z.ltb_lt, Z.leb_le. Qed.

Ltac week_arith :=
  repeat match goal with
  | H : context [pos ?t] |- _ =>
      lazymatch goal with
      | _ : t + 3 * us_per_day = _ |- _ => fail
      | _ => destruct (pos_eq t) as (? & ? & ?)
      end
  | |- context [pos ?t] =>
      lazymatch goal with
      | _ : t + 3 * us_per_day = _ |- _ => fail
      | _ => destruct (pos_eq t) as (? & ? & ?)
      end
  end; unfold friday_close_pos, sunday_open_pos in *; week_consts; lia.

Lemma next_open_shape t : open_at t = false ->
  let r := next_open t in t < r /\ pos r = sunday_open_pos /\ r - t = sunday_open_pos - pos t.
Proof.
  intros Hc. cbv zeta. unfold next_open. rewrite Hc. apply closed_pos in Hc.
  destruct (next_boundary_spec 6 _OPEN_SUNDAY_HOUR (t - seconds_td 1)) as [Hb1 Hp1];
    [lia|unfold _OPEN_SUNDAY_HOUR; lia|].
  destruct (next_boundary_spec 0 0 (t - seconds_td 1)) as [Hb0 Hp0]; [lia|lia|].
  set (b6 := _next_boundary 6 _ 0 _) in *. set (b0 := _next_boundary 0 _ 0 _) in *. clearbody b6 b0.
  assert (b6 <= b0) by week_arith. rewrite Z.min_l by done.
  repeat split; week_arith.
Qed.

(** The market calendar is exact.  [next_open] is the first instant at or after the
    given one at which the market is open; [next_close] is the first later instant at
    which it closes: the market is closed there, open just before, and does not close at
    any instant in between. *)
Theorem market_week (t : Z) :
  (let r := next_open t in t <= r /\ open_at r = true /\ forall u, t <= u < r -> open_at u = false) /\
  (let r := next_close t in t < r /\ open_at r = false /\ open_at (r - 1) = true /\
     forall u, t < u < r -> open_at (u - 1) = true -> open_at u = true).
Proof.
  split; cbv zeta.
  - destruct (open_at t) eqn:Eo.
    + unfold next_open. rewrite Eo. split; [lia|]. split; [done|]. intros u ?. lia.
    + destruct (next_open_shape t Eo) as (Hlt & Hp & Hd). apply closed_pos in Eo.
      set (r := next_open t) in *. clearbody r. split; [lia|]. split; [apply opened_pos; lia|].
      intros u Hu. apply closed_pos. week_arith.
  - unfold next_close. destruct (open_at t) eqn:Eo.
    + destruct (next_boundary_spec 4 _CLOSE_FRIDAY_HOUR t) as [Hb Hp]; [lia|unfold _CLOSE_FRIDAY_HOUR; lia|].
      set (r := _next_boundary 4 _ 0 t) in *. clearbody r. apply opened_pos in Eo.
      split; [lia|]. split; [apply closed_pos; week_arith|]. split; [apply opened_pos; week_arith|].
      intros u Hu Hprev. apply opened_pos in Hprev. apply opened_pos. week_arith.
    + destruct (next_open_shape t Eo) as (Hlt & Hpo & Hd). apply closed_pos in Eo.
      destruct (next_boundary_spec 4 _CLOSE_FRIDAY_HOUR (next_open t)) as [Hb Hp];
        [lia|unfold _CLOSE_FRIDAY_HOUR; lia|].
      set (o := next_open t) in *. set (r := _next_boundary 4 _ 0 o) in *. clearbody o r.
      split; [lia|]. split; [apply closed_pos; week_arith|]. split; [apply opened_pos; week_arith|].
      intros u Hu Hprev. apply opened_pos in Hprev. apply opened_pos. week_arith.
Qed.
