(* ===== verification/Breaker.v ===== *)
(** * The circuit breaker of provider calls ([app/data/breaker.py])

    Instants are microseconds; every operation reads the clock once. *)

From Stdlib Require Import ZArith Lia.
From stdpp Require Import base list strings.
From S2P Require Import Prelude Timeframes.

Inductive BreakerState := CLOSED | OPEN | HALF_OPEN.
#[export] Instance BreakerState_eq_dec : EqDecision BreakerState.
Proof. solve_decision. Defined.

Definition state_value (s : BreakerState) : string :=
  match s with CLOSED => "closed" | OPEN => "open" | HALF_OPEN => "half_open" end.

Definition from_value (v : option string) : BreakerState :=
  match v with
  | Some "open" => OPEN
  | Some "half_open" => HALF_OPEN
  | _ => CLOSED
  end%string.

Record CircuitBreaker := {
  failure_threshold : Z;
  cooldown_seconds : Z;
  br_state : BreakerState;
  consecutive_failures : Z;
  opened_at : option Z
}.

Definition new_breaker (threshold cooldown : Z) : CircuitBreaker :=
  {| failure_threshold := threshold; cooldown_seconds := cooldown; br_state := CLOSED;
     consecutive_failures := 0; opened_at := None |}.

Definition set_state (s : BreakerState) (b : CircuitBreaker) : CircuitBreaker :=
  {| failure_threshold := failure_threshold b; cooldown_seconds := cooldown_seconds b; br_state := s;
     consecutive_failures := consecutive_failures b; opened_at := opened_at b |}.

(** [max(0, int(cooldown_seconds - elapsed))]: [int] drops the fraction of a second. *)
Definition seconds_until_probe (now : Z) (b : CircuitBreaker) : Z :=
  match br_state b, opened_at b with
  | OPEN, Some t => Z.max 0 (Z.quot (seconds_td (cooldown_seconds b) - (now - t)) us_per_second)
  | _, _ => 0
  end.

Definition before_call (now : Z) (b : CircuitBreaker) : Res CircuitBreaker :=
  match br_state b, opened_at b with
  | OPEN, Some _ => if seconds_until_probe now b <=? 0 then Ok (set_state HALF_OPEN b)
                    else Err BreakerOpenError
  | HALF_OPEN, _ => Err BreakerOpenError
  | _, _ => Ok b
  end.

Definition record_success (b : CircuitBreaker) : CircuitBreaker :=
  {| failure_threshold := failure_threshold b; cooldown_seconds := cooldown_seconds b;
     br_state := CLOSED; consecutive_failures := 0; opened_at := None |}.

(** Whether this failure opened the breaker, and the breaker. *)
Definition record_failure (now : Z) (b : CircuitBreaker) : bool * CircuitBreaker :=
  let n := consecutive_failures b + 1 in
  let opens := bool_decide (br_state b = HALF_OPEN) || (failure_threshold b <=? n) in
  (opens,
   {| failure_threshold := failure_threshold b; cooldown_seconds := cooldown_seconds b;
      br_state := if opens then OPEN else br_state b; consecutive_failures := n;
      opened_at := if opens then Some now else opened_at b |}).

Definition load (state : option string) (failures : Z) (opened : option Z) (b : CircuitBreaker)
  : CircuitBreaker :=
  {| failure_threshold := failure_threshold b; cooldown_seconds := cooldown_seconds b;
     br_state := from_value state; consecutive_failures := failures; opened_at := opened |}.

(** ** The state machine *)

(** A call attempt: refused, or let through and then reported as a success, a failure, or
    not at all. *)
Inductive attempt := Refused | Succeeded | Failed | Unreported.

Inductive breaker_step : Z -> CircuitBreaker -> attempt -> CircuitBreaker -> Prop :=
| step_refused now b : before_call now b = Err BreakerOpenError -> breaker_step now b Refused b
| step_success now b b' : before_call now b = Ok b' -> breaker_step now b Succeeded (record_success b')
| step_failure now b b' : before_call now b = Ok b' -> breaker_step now b Failed (record_failure now b').2
| step_unreported now b b' : before_call now b = Ok b' -> breaker_step now b Unreported b'.

(** Attempts at non-decreasing times. *)
Inductive breaker_run : Z -> CircuitBreaker -> list (Z * attempt) -> CircuitBreaker -> Prop :=
| run_done t b : breaker_run t b [] b
| run_next t now b a b1 rest b' : t <= now -> breaker_step now b a b1 ->
    breaker_run now b1 rest b' -> breaker_run t b ((now, a) :: rest) b'.

(** What every reachable breaker satisfies. *)
Record breaker_inv (b : CircuitBreaker) : Prop := {
  bi_open : br_state b = OPEN -> exists t, opened_at b = Some t;
  bi_closed : br_state b = CLOSED -> opened_at b = None /\ consecutive_failures b < failure_threshold b;
  bi_count : 0 <= consecutive_failures b
}.

Lemma before_call_cases now b :
  match before_call now b with
  | Ok b' => b' = b /\ br_state b <> HALF_OPEN /\ (br_state b = OPEN -> opened_at b = None) \/
             b' = set_state HALF_OPEN b /\ br_state b = OPEN /\
             exists t, opened_at b = Some t /\ seconds_until_probe now b <= 0
  | Err e => e = BreakerOpenError /\ (br_state b = HALF_OPEN \/
             br_state b = OPEN /\ exists t, opened_at b = Some t /\ 0 < seconds_until_probe now b)
  end.
Proof.
  unfold before_call. destruct (br_state b) eqn:Es; [by left; split_and!|destruct (opened_at b) as [t|] eqn:Eo|by split; [|left]].
  - destruct (seconds_until_probe now b <=? 0) eqn:E; [apply Z.leb_le in E|apply Z.leb_gt in E].
    + right. split_and!; eauto.
    + split; [done|]. right. eauto.
  - left. by split_and!.
Qed.

Lemma probe_time now b t : br_state b = OPEN -> opened_at b = Some t ->
  (seconds_until_probe now b <= 0 <-> t + seconds_td (cooldown_seconds b) < now + us_per_second).
Proof.
  intros Hs Ho. unfold seconds_until_probe. rewrite Hs, Ho. unfold seconds_td, us_per_second.
  set (x := cooldown_seconds b * 1000000 - (now - t)).
  assert (Hx : Z.quot x 1000000 <= 0 <-> x < 1000000).
  { pose proof (Z.quot_rem' x 1000000) as Hq. destruct (Z_le_gt_dec 0 x) as [Hp|Hn].
    - pose proof (Z.rem_bound_pos x 1000000 Hp ltac:(lia)). lia.
    - pose proof (Z.rem_bound_pos_neg x 1000000 ltac:(lia) ltac:(lia)). lia. }
  unfold x in *. lia.
Qed.

Lemma attempt_inv now b a b' : 0 < failure_threshold b -> breaker_inv b -> breaker_step now b a b' ->
  breaker_inv b' /\ failure_threshold b' = failure_threshold b /\ cooldown_seconds b' = cooldown_seconds b.
Proof.
  intros Ht [H1 H2 H3] Hs. destruct Hs as [now b _|now b b' Hb|now b b' Hb|now b b' Hb]; [by split|..];
    pose proof (before_call_cases now b) as Hc; rewrite Hb in Hc;
    assert (Hk : failure_threshold b' = failure_threshold b /\ cooldown_seconds b' = cooldown_seconds b /\
                 consecutive_failures b' = consecutive_failures b /\ opened_at b' = opened_at b)
      by (by destruct Hc as [(-> & _)|(-> & _)]); destruct Hk as (Hk1 & Hk2 & Hk3 & Hk4).
  - split; [|done]. split; simpl; [done|intros _; split; [done|lia]|lia].
  - split; [|done]. unfold record_failure. rewrite Hk1, Hk3, Hk4.
    split; simpl; [| |lia].
    + destruct (_ || _) eqn:E; [eauto|]. intros Hopen.
      destruct Hc as [(-> & _)|(-> & _)]; [by apply H1|discriminate Hopen].
    + destruct (_ || _) eqn:E; [done|]. apply orb_false_iff in E as [_ E%Z.leb_gt]. intros Hcl.
      destruct Hc as [(-> & _)|(-> & _)]; [split; [by apply H2|done]|discriminate Hcl].
  - split; [|done]. destruct Hc as [(-> & _)|(-> & _)]; [by split|]. by split.
Qed.

Lemma attempts_inv t b es b' : 0 < failure_threshold b -> breaker_inv b -> breaker_run t b es b' ->
  breaker_inv b' /\ failure_threshold b' = failure_threshold b /\ cooldown_seconds b' = cooldown_seconds b.
Proof.
  intros Ht Hi Hr. induction Hr as [|t now b a b1 rest b' _ Hs _ IH]; [done|].
  destruct (attempt_inv _ _ _ _ Ht Hi Hs) as (Hi1 & Hf1 & Hc1). rewrite Hf1, Hc1 in IH. by apply IH.
Qed.

(** The breaker opens, waits and probes as documented.  From a fresh breaker, after any
    sequence of attempts: a closed breaker has fewer consecutive failures than its
    threshold and lets calls through; an open one refuses them until its cooldown is
    over - up to one second early, the remaining time being truncated to whole
    seconds - and then lets one probe through; a failed probe reopens it at once, a
    success closes it and clears its count. *)
Theorem breaker_cycle (threshold cooldown t now : Z) (es : list (Z * attempt)) (b : CircuitBreaker) :
  0 < threshold -> breaker_run t (new_breaker threshold cooldown) es b ->
  match br_state b with
  | CLOSED => consecutive_failures b < threshold /\ before_call now b = Ok b /\
      br_state (record_failure now b).2 = (if consecutive_failures b + 1 =? threshold then OPEN else CLOSED)
  | OPEN => exists t0, opened_at b = Some t0 /\
      before_call now b = if t0 + seconds_td cooldown <? now + us_per_second
                          then Ok (set_state HALF_OPEN b) else Err BreakerOpenError
  | HALF_OPEN => before_call now b = Err BreakerOpenError /\
      br_state (record_failure now b).2 = OPEN /\ opened_at (record_failure now b).2 = Some now /\
      br_state (record_success b) = CLOSED /\ consecutive_failures (record_success b) = 0
  end.
Proof.
  intros Ht Hr.
  assert (Hi : breaker_inv (new_breaker threshold cooldown)) by (split; simpl; [done|done|lia]).
  destruct (attempts_inv t (new_breaker threshold cooldown) es b Ht Hi Hr) as ([H1 H2 H3] & Hth & Hcd).
  simpl in Hth, Hcd. destruct (br_state b) eqn:Es.
  - destruct (H2 eq_refl) as [Ho Hlt]. rewrite Hth in Hlt. split; [done|]. split.
    + unfold before_call. by rewrite Es.
    + unfold record_failure. simpl. rewrite Es, Hth. simpl.
      destruct (Z.leb_spec threshold (consecutive_failures b + 1)), (Z.eqb_spec (consecutive_failures b + 1) threshold);
        simpl; try done; lia.
  - destruct (H1 eq_refl) as [t0 Ho]. exists t0. split; [done|].
    pose proof (probe_time now b t0 Es Ho) as Hp. rewrite Hcd in Hp.
    unfold before_call. rewrite Es, Ho.
    destruct (Z.leb_spec (seconds_until_probe now b) 0), (Z.ltb_spec (t0 + seconds_td cooldown) (now + us_per_second));
      try done; exfalso; lia.
  - unfold before_call, record_failure. rewrite Es. done.
Qed.

(** Two failures open a breaker of threshold 2; the probe is let through a second early. *)
Definition demo_failures : list (Z * attempt) := [(0, Failed); (1, Failed)].

Definition demo_open : CircuitBreaker :=
  {| failure_threshold := 2; cooldown_seconds := 60; br_state := OPEN; consecutive_failures := 2;
     opened_at := Some 1 |}.

Lemma breaker_cycle_witness :
  breaker_run 0 (new_breaker 2 60) demo_failures demo_open /\
  before_call (59 * us_per_second + 2) demo_open = Ok (set_state HALF_OPEN demo_open).
Proof.
  assert (Hr : breaker_run 0 (new_breaker 2 60) demo_failures demo_open).
  { eapply run_next; [|eapply step_failure; reflexivity|]; [lia|].
    eapply run_next; [|eapply step_failure; reflexivity|]; [lia|]. apply run_done. }
  split; [exact Hr|].
  destruct (breaker_cycle 2 60 0 (59 * us_per_second + 2) demo_failures demo_open ltac:(lia) Hr)
    as (t0 & Ht & Hb).
  injection Ht as <-. exact Hb.
Defined.
