(* ===== verification/Ingest.v ===== *)
(** * The ingest pipeline ([app/data/ingest.py]) *)

From Stdlib Require Import ZArith Lia.
From stdpp Require Import base list strings.
From S2P Require Import Prelude PyFloat Timeframes Signals Fusion Risk Decision Tables Candles Breaker Bus.

(** A provider: whatever implements the [DataProvider] protocol. *)
Record DataProvider := {
  provider_name : string;
  fetch_candles : string -> string -> datetime -> datetime -> Res (list Candle)
}.

Record IngestSettings := { ingest_initial_history_days : Z; ingest_max_bars_per_cycle : Z }.

Record SeriesResult := {
  sr_symbol : string;
  sr_timeframe : string;
  inserted : Z;
  updated : Z;
  gaps_detected : Z;
  skipped_reason : option string
}.

Record ProviderHealth := {
  ph_last_ok_at : option Z;
  ph_failures : Z;
  ph_state : string;
  ph_opened_at : option Z;
  ph_updated_at : Z
}.

(** The service: its breaker, the database, the [provider_health] table, what it sent. *)
Record Ingest := {
  breaker : CircuitBreaker;
  in_db : DB;
  health : dict string ProviderHealth;
  quotes : dict string (dict string pyval);
  published : list Event
}.

Definition set_breaker (b : CircuitBreaker) (s : Ingest) : Ingest :=
  {| breaker := b; in_db := in_db s; health := health s; quotes := quotes s; published := published s |}.
Definition set_in_db (db : DB) (s : Ingest) : Ingest :=
  {| breaker := breaker s; in_db := db; health := health s; quotes := quotes s; published := published s |}.
Definition publish (e : Event) (s : Ingest) : Ingest :=
  {| breaker := breaker s; in_db := in_db s; health := health s; quotes := quotes s;
     published := published s ++ [e] |}.

(** [a - b] of two instants, and [max]/[min] on instants. *)
Definition earlier (a b : datetime) : datetime := if instant b <? instant a then b else a.

(** [_fetch_window]: the half-open window of bucket starts to request. *)
Definition _fetch_window (st : IngestSettings) (last_ts : option Z) (timeframe : string)
    (now : datetime) (forced_start forced_end : option datetime) : Res (datetime * datetime) :=
  s <-- seconds timeframe ;;
  let step := seconds_td s in
  stop <-- (match forced_end with
            | Some e => Ok e
            | None => p <-- previous_closed_bucket now timeframe ;; Ok (add_td p step)
            end) ;;
  match forced_start with
  | Some start => Ok (start, stop)
  | None =>
      let start := match last_ts with
                   | None => earlier (add_td stop (- days_td (ingest_initial_history_days st)))
                                     (add_td stop (- step))
                   | Some t => add_td (utc t) step
                   end in
      let max_span := step * ingest_max_bars_per_cycle st in
      let start := if max_span <? instant stop - instant start then add_td stop (- max_span) else start in
      Ok (start, stop)
  end.

(** [len(set(expected) - returned)]. *)
Definition gap_count (expected : list Z) (cs : list Candle) : Z :=
  let returned := map (fun c => instant (bucket_start c)) cs in
  Z.of_nat (length (List.filter (fun t => negb (bool_decide (t ∈ returned))) (remove_dups expected))).

(** [max(candles, key=lambda c: c.bucket_start)]: the first of the newest. *)
Definition newest (c : Candle) (cs : list Candle) : Candle :=
  foldl (fun m x => if instant (bucket_start m) <? instant (bucket_start x) then x else m) c cs.

Section Service.
Context `{Platform}.
Context (st : IngestSettings) (provider : DataProvider).
(** Whether Redis accepts a quote for a symbol, and the bus an event, rather than raise. *)
Context (caches : string -> bool) (accepts : Event -> bool).

Definition persist_breaker_snapshot (now : Z) (s : Ingest) : Ingest :=
  let b := breaker s in
  let name := provider_name provider in
  let ok := match dget name (health s) with Some r => ph_last_ok_at r | None => None end in
  let row := {| ph_last_ok_at := if bool_decide (br_state b = CLOSED) then Some now else ok;
                ph_failures := consecutive_failures b; ph_state := state_value (br_state b);
                ph_opened_at := Breaker.opened_at b; ph_updated_at := now |} in
  {| breaker := b; in_db := in_db s; health := dset name row (health s); quotes := quotes s;
     published := published s |}.

Definition load_breaker_snapshot (s : Ingest) : Ingest :=
  match dget (provider_name provider) (health s) with
  | Some r => set_breaker (load (Some (ph_state r)) (ph_failures r) (ph_opened_at r) (breaker s)) s
  | None => s
  end.

Definition quote_of (symbol : string) (latest : Candle) : dict string pyval :=
  [("symbol", VStr symbol); ("price", VFloat (dec_to_float (c_close latest)));
   ("bucket_start", VStr (isoformat (instant (bucket_start latest))));
   ("synthetic", VBool (String.eqb (provider_name provider) "synthetic"))]%string.

Definition _cache_quote (symbol : string) (latest : Candle) (now : Z) (s : Ingest) : Ingest :=
  let quote := quote_of symbol latest in
  if caches symbol then
    let s := {| breaker := breaker s; in_db := in_db s; health := health s;
                quotes := dset symbol quote (quotes s); published := published s |} in
    let e := {| event_type := "price.tick"; payload := quote; producer := "ingest"; produced_at := now |}%string in
    if accepts e then publish e s else s
  else s.

Definition bar_event (symbol timeframe : string) (now : Z) (c : Candle) : Event :=
  {| event_type := "bar.closed";
     payload := [("symbol", VStr symbol); ("timeframe", VStr timeframe);
                 ("ts", VStr (isoformat (instant (bucket_start c))));
                 ("open", VFloat (dec_to_float (c_open c))); ("high", VFloat (dec_to_float (c_high c)));
                 ("low", VFloat (dec_to_float (c_low c))); ("close", VFloat (dec_to_float (c_close c)));
                 ("volume", VInt (c_volume c)); ("source", VStr (provider_name provider))];
     producer := "ingest"; produced_at := now |}%string.

(** The loop breaks at the first event the bus refuses. *)
Fixpoint publish_while (es : list Event) (s : Ingest) : Ingest :=
  match es with
  | [] => s
  | e :: rest => if accepts e then publish_while rest (publish e s) else s
  end.

Definition _publish_new_bars (symbol timeframe : string) (cs : list Candle) (now : Z) (s : Ingest) : Ingest :=
  publish_while (map (bar_event symbol timeframe now)
                     (firstn (Z.to_nat (ingest_max_bars_per_cycle st)) cs)) s.

(** The try block, after the breaker let the call through. *)
Definition ingest_body (i : Instrument) (timeframe : string) (now : datetime)
    (forced_start forced_end : option datetime) (s : Ingest) : Res (SeriesResult * Ingest) :=
  let out ins upd gaps why :=
    {| sr_symbol := ins_symbol i; sr_timeframe := timeframe; inserted := ins; updated := upd;
       gaps_detected := gaps; skipped_reason := why |} in
  w <-- _fetch_window st (last_closed_ts (ins_id i) timeframe (in_db s)) timeframe now forced_start forced_end ;;
  let '(start, stop) := w in
  if instant stop <=? instant start
  then Ok (out 0 0 0 (Some "up_to_date"%string), set_breaker (record_success (breaker s)) s)
  else
    fetched <-- fetch_candles provider (ins_symbol i) timeframe start stop ;;
    let cs := List.filter complete fetched in
    expected <-- iterate_buckets start stop timeframe ;;
    r <-- upsert_candles (ins_id i) cs (provider_name provider) timeframe (in_db s) ;;
    let '((ins, upd), db) := r in
    let s := set_in_db db s in
    let s := match cs with
             | [] => s
             | c :: rest => _publish_new_bars (ins_symbol i) timeframe cs (instant now)
                              (_cache_quote (ins_symbol i) (newest c rest) (instant now) s)
             end in
    Ok (out ins upd (gap_count expected cs) None, set_breaker (record_success (breaker s)) s).

(** The texts of the skip reasons: an exception's own text is the platform's. *)
Context (text : PyErr -> string).

Definition skipped (i : Instrument) (timeframe why : string) : SeriesResult :=
  {| sr_symbol := ins_symbol i; sr_timeframe := timeframe; inserted := 0; updated := 0;
     gaps_detected := 0; skipped_reason := Some why |}.

Definition opened_suffix (opened : bool) : string := if opened then " (breaker opened)" else "".

(** A reported failure: counted and persisted. *)
Definition fail_series (kind : string) (e : PyErr) (i : Instrument) (timeframe : string) (now : Z) (s : Ingest)
  : SeriesResult * Ingest :=
  let '(opened, b) := record_failure now (breaker s) in
  (skipped i timeframe (kind ++ ":" ++ text e ++ opened_suffix opened)%string,
   persist_breaker_snapshot now (set_breaker b s)).

Definition _ingest_series (i : Instrument) (timeframe : string) (now : datetime)
    (forced_start forced_end : option datetime) (s : Ingest) : SeriesResult * Ingest :=
  match before_call (instant now) (breaker s) with
  | Err e => (skipped i timeframe ("breaker:" ++ text e)%string, s)
  | Ok b =>
      let s := set_breaker b s in
      match ingest_body i timeframe now forced_start forced_end s with
      | Ok r => r
      | Err ProviderTransientError => fail_series "transient" ProviderTransientError i timeframe (instant now) s
      | Err ProviderError => fail_series "provider" ProviderError i timeframe (instant now) s
      | Err BreakerOpenError => fail_series "provider" BreakerOpenError i timeframe (instant now) s
      | Err e => (skipped i timeframe ("error:" ++ text e)%string, s)
      end
  end.

(** [run_cycle] and [run_backfill]; the clock is read anew for each series. *)
Definition run_series (clock : nat -> datetime) (forced_start forced_end : option datetime)
    (acc : list SeriesResult * Ingest) (x : nat * (Instrument * string)) : list SeriesResult * Ingest :=
  let '(results, s) := acc in
  let '(n, (i, tf)) := x in
  let '(r, s) := _ingest_series i tf (clock n) forced_start forced_end s in
  (results ++ [r], s).

Definition run_all (clock : nat -> datetime) (forced_start forced_end : option datetime)
    (instruments : list Instrument) (timeframes : list string) (s : Ingest) : list SeriesResult * Ingest :=
  foldl (run_series clock forced_start forced_end) ([], s)
        (imap (fun n x => (n, x)) (list_prod instruments timeframes)).

Definition run_cycle (clock : nat -> datetime) (instruments : list Instrument) (timeframes : list string)
    (s : Ingest) : list SeriesResult * Ingest := run_all clock None None instruments timeframes s.

Definition run_backfill (clock : nat -> datetime) (instruments : list Instrument)
    (timeframes : list string) (start stop : datetime) (s : Ingest) : Res (list SeriesResult * Ingest) :=
  if instant stop <=? instant start then Err ValueError
  else Ok (run_all clock (Some start) (Some stop) instruments timeframes s).
End Service.

(** ** Properties *)

Section Properties.
Context `{Platform}.

Lemma half_open_refuses now b : br_state b = HALF_OPEN -> before_call now b = Err BreakerOpenError.
Proof. intros Hs. unfold before_call. by rewrite Hs. Qed.

Lemma half_open_series st provider caches accepts text i tf now fs fe s :
  br_state (breaker s) = HALF_OPEN ->
  _ingest_series st provider caches accepts text i tf now fs fe s =
    (skipped i tf ("breaker:" ++ text BreakerOpenError)%string, s).
Proof. intros Hs. unfold _ingest_series. by rewrite half_open_refuses. Qed.

Lemma half_open_all st provider caches accepts text clock fs fe l : forall results s,
  br_state (breaker s) = HALF_OPEN ->
  (foldl (run_series st provider caches accepts text clock fs fe) (results, s) l).2 = s.
Proof.
  induction l as [|[n [i tf]] l IH]; intros results s Hs; [done|]. cbn [foldl run_series].
  rewrite half_open_series by done. by apply IH.
Qed.

(** A probe that fails unexpectedly disables ingestion for good.  If the call let
    through after the cooldown raises anything but a provider error, the breaker stays
    half-open; from then on every cycle and backfill is refused without contacting the
    provider, whatever it would answer and however long one waits, and nothing changes. *)
Theorem lost_probe_disables_ingest (st : IngestSettings) (provider : DataProvider) (caches : string -> bool)
    (accepts : Event -> bool) (text : PyErr -> string) (i : Instrument) (tf : string) (now : datetime)
    (fs fe : option datetime) (s : Ingest) (b : CircuitBreaker) (e : PyErr) :
  br_state (breaker s) = OPEN -> before_call (instant now) (breaker s) = Ok b -> br_state b = HALF_OPEN ->
  ingest_body st provider caches accepts i tf now fs fe (set_breaker b s) = Err e ->
  e <> ProviderTransientError -> e <> ProviderError -> e <> BreakerOpenError ->
  let s' := (_ingest_series st provider caches accepts text i tf now fs fe s).2 in
  br_state (breaker s') = HALF_OPEN /\
  (forall provider' clock instruments tfs,
     (run_cycle st provider' caches accepts text clock instruments tfs s').2 = s') /\
  (forall provider' clock instruments tfs start stop r,
     run_backfill st provider' caches accepts text clock instruments tfs start stop s' = Ok r -> r.2 = s').
Proof.
  intros _ Hb Hh Hbody H1 H2 H3 s'.
  assert (Hs' : s' = set_breaker b s).
  { subst s'. unfold _ingest_series. rewrite Hb, Hbody. by destruct e. }
  rewrite Hs'. split; [done|]. split.
  - intros. unfold run_cycle, run_all. by apply half_open_all.
  - intros until r. unfold run_backfill. destruct (_ <=? _); [done|]. intros [= <-].
    unfold run_all. by apply half_open_all.
Qed.

Lemma previous_closed_instant now tf p : previous_closed_bucket now tf = Ok p ->
  exists s, seconds tf = Ok s /\ 0 < s.
Proof.
  unfold previous_closed_bucket. intros Hp. apply res_bind_ok in Hp as (a & _ & Hp).
  apply res_bind_ok in Hp as (s & Hs & _). exists s. split; [done|]. by apply seconds_pos in Hs.
Qed.

(** After an outage longer than the per-cycle cap the oldest missing bars are never
    fetched.  The window always ends at the last closed bucket; when more bars are
    missing than the cap, it starts at the cap's distance from that end, past the first
    missing bar.  Once a bar of that window is stored, every later window starts after
    it, so the bars skipped in between are in no later window either. *)
Theorem backlog_is_skipped (st : IngestSettings) (tf : string) (now later : datetime) (last new_last s : Z)
    (w w' : datetime * datetime) :
  seconds tf = Ok s -> 1 <= ingest_max_bars_per_cycle st ->
  _fetch_window st (Some last) tf now None None = Ok w ->
  last + seconds_td s + seconds_td s * ingest_max_bars_per_cycle st < instant w.2 ->
  instant w.1 <= new_last ->
  _fetch_window st (Some new_last) tf later None None = Ok w' ->
  instant w.1 = instant w.2 - seconds_td s * ingest_max_bars_per_cycle st /\
  last + seconds_td s < instant w.1 /\ instant w.1 < instant w'.1.
Proof.
  intros Hs Hm Hw Hlong Hnew Hw'. pose proof (seconds_pos _ _ Hs) as Hpos.
  assert (Hstep : 0 < seconds_td s) by (by apply seconds_td_pos).
  unfold _fetch_window in Hw, Hw'. rewrite Hs in Hw, Hw'. cbn [res_bind] in Hw, Hw'.
  apply res_bind_ok in Hw as (stop & _ & [= <-]). apply res_bind_ok in Hw' as (stop' & _ & [= <-]).
  cbn in Hlong, Hnew |- *. revert Hlong Hnew.
  destruct (Z.ltb_spec (seconds_td s * ingest_max_bars_per_cycle st)
              (instant stop - (last + seconds_td s))) as [Hl|Hl];
    cbn; intros Hlong Hnew; [|nia].
  split; [lia|]. split; [lia|].
  destruct (Z.ltb_spec (seconds_td s * ingest_max_bars_per_cycle st)
              (instant stop' - (new_last + seconds_td s))); cbn; lia.
Qed.
End Properties.

(** A provider that answers the first request with something it should not raise. *)
Definition demo_provider : DataProvider :=
  {| provider_name := "demo"; fetch_candles := fun _ _ _ _ => Err OtherError |}.
Definition demo_ingest_settings : IngestSettings :=
  {| ingest_initial_history_days := 30; ingest_max_bars_per_cycle := 48 |}.
Definition demo_instrument : Instrument :=
  {| ins_id := 1; ins_symbol := "EURUSD"; ins_base := "EUR"; ins_quote := "USD"; pip_size := Dec 1 (-4);
     price_decimals := 5; active := true |}.
Definition demo_tripped : CircuitBreaker := (record_failure 0 (new_breaker 1 60)).2.
Definition demo_ingest (b : CircuitBreaker) : Ingest :=
  {| breaker := b; in_db := empty_db; health := []; quotes := []; published := [] |}.

Lemma lost_probe_disables_ingest_witness :
  let s' := (@_ingest_series demo_platform demo_ingest_settings demo_provider (fun _ => true) (fun _ => true)
               (fun _ => "") demo_instrument "H1" (utc (seconds_td 18000)) None None (demo_ingest demo_tripped)).2 in
  br_state (breaker s') = HALF_OPEN.
Proof.
  pose proof (@lost_probe_disables_ingest demo_platform demo_ingest_settings demo_provider (fun _ => true)
    (fun _ => true) (fun _ => "") demo_instrument "H1" (utc (seconds_td 18000)) None None (demo_ingest demo_tripped)
    (set_state HALF_OPEN demo_tripped) OtherError) as H.
  apply H; [reflexivity|vm_compute; reflexivity|reflexivity|vm_compute; reflexivity|discriminate..].
Defined.

Lemma backlog_is_skipped_witness :
  let last := 0 in
  exists w, @_fetch_window demo_ingest_settings (Some last) "H1" (utc (seconds_td 363600)) None None = Ok w /\
    last + seconds_td 3600 < instant w.1.
Proof.
  exists (utc (seconds_td 190800), utc (seconds_td 363600)). split; [vm_compute; reflexivity|].
  destruct (@backlog_is_skipped demo_ingest_settings "H1" (utc (seconds_td 363600)) (utc (seconds_td 367200)) 0
    (seconds_td 190800) 3600 (utc (seconds_td 190800), utc (seconds_td 363600)) (utc (seconds_td 194400), utc (seconds_td 367200)))
    as (_ & H & _); [reflexivity|discriminate|vm_compute; reflexivity|reflexivity|discriminate|vm_compute; reflexivity|exact H].
Defined.
