(* ===== verification/Alerts.v ===== *)
(** * Alerts: translation, persistence and the alert worker
    ([app/alerts/translate.py], [app/data/alerts_repository.py],
    [app/models/alert_event.py], [app/workers/alert_worker.py])

    Texts are one byte a character; the character of code 133 stands for the ellipsis.
    Timestamps are in UTC, as every producer writes them. *)

From Stdlib Require Import ZArith Lia.
From stdpp Require Import base list strings.
From S2P Require Import Prelude PyFloat Timeframes Signals Fusion Risk Decision Tables Decide Bus Orchestrator PaperCycle.

Record AlertIn := {
  al_event_id : string;
  al_event_type : pyval;
  al_source : pyval;
  al_severity : string;
  al_title : string;
  al_message : option string;
  al_symbol : option string;
  al_timeframe : option string;
  al_producer : pyval;
  al_correlation_id : option pyval;
  al_occurred_at : Z;
  al_payload : dict string pyval
}.

(** A row of [alert_events]. *)
Record AlertRow := {
  ar_id : Z;
  ar_alert : AlertIn;
  ar_acknowledged_at : option Z;
  ar_acknowledged_by : option string
}.

Definition row_event_id (r : AlertRow) : string := al_event_id (ar_alert r).

(** ** Texts *)

(** [sub in s]. *)
Fixpoint contains (sub s : string) : bool :=
  String.prefix sub s || match s with EmptyString => false | String _ s' => contains sub s' end.

(** [s.split(".")[-1]]. *)
Fixpoint last_part (s acc : string) : string :=
  match s with
  | EmptyString => String.rev acc
  | String c s' => last_part s' (if Ascii.eqb c (Ascii.ascii_of_nat 46) then EmptyString else String c acc)
  end.

Definition _TITLE_MAX : nat := 255.
Definition ellipsis : string := String (Ascii.ascii_of_nat 133) EmptyString.
Definition _truncate (value : string) (length : nat) : string :=
  if Nat.leb (String.length value) length then value else (str_take (length - 1) value ++ ellipsis)%string.

(** [x or y] on strings. *)
Definition or_str (x y : string) : string := if String.eqb x "" then y else x.

Definition severity_for (event_type : string) : string :=
  let lowered := str_lower event_type in
  if contains "critical" lowered then "critical"
  else if contains "breach" lowered || contains "staleness" lowered || contains "veto" lowered
          || contains "blocked" lowered || contains "budget" lowered || contains "brake" lowered
  then "warning" else "info".

(** ** [translate] *)

Section Translate.
Context `{Platform}.
(** [hashlib.sha256(text.encode()).hexdigest()]. *)
Context (sha256_hex : string -> string).

Definition _s (payload : dict string pyval) (key default : string) : string :=
  match dget key payload with
  | None | Some VNone => default
  | Some v => py_str v
  end.

(** [event.payload.get], which only a dict has. *)
Definition payload_dict (event : RawEvent) : Res (dict string pyval) :=
  match raw_payload event with VDict d => Ok d | _ => Err OtherError end.

(** ["|".join] of parts that must be strings. *)
Definition str_part (v : pyval) : Res string :=
  match v with VStr s => Ok s | _ => Err OtherError end.

Definition digest_event_id (event : RawEvent) : Res string :=
  payload <-- payload_dict event ;;
  let provided := _s payload "event_id" "" in
  if negb (String.eqb provided "") then Ok (_truncate provided 64)
  else
    ty <-- str_part (raw_type event) ;;
    producer <-- str_part (raw_producer event) ;;
    Ok (str_take 32 (sha256_hex (String.concat "|"
          [ty; producer; isoformat (raw_produced_at event); _s payload "symbol" ""; _s payload "timeframe" ""]))).

(** [_TITLES.get(event_type, ...)] filled in. *)
Definition _TITLES (event_type symbol timeframe subject : string) : string :=
  match event_type with
  | "alert.staleness" => "Stale market data: " ++ symbol ++ " " ++ timeframe
  | "alert.risk_brake" => "Risk brake tripped: " ++ subject
  | "alert.llm_budget" => "LLM daily budget guard: " ++ subject
  | "alert.orchestrator" => "Orchestrator/system alert: " ++ subject
  | "alert.system" => "System alert: " ++ subject
  | _ => "Alert: " ++ subject
  end%string.

Definition title_of (event_type : pyval) (symbol timeframe subject : string) : Res string :=
  match event_type with
  | VStr ty => Ok (_TITLES ty symbol timeframe subject)
  | VList _ | VDict _ => Err OtherError           (* not hashable *)
  | _ => Ok ("Alert: " ++ subject)%string
  end.

(** [payload.get(k) or None]. *)
Definition get_truthy (k : string) (d : dict string pyval) : option pyval :=
  match dget k d with Some v => if truthy v then Some v else None | None => None end.

Definition shown (v : option pyval) : string :=
  match v with Some v => py_str v | None => "n/a" end.

Definition translate (event : RawEvent) (default_source : pyval) : Res AlertIn :=
  payload <-- payload_dict event ;;
  let symbol := match get_truthy "symbol" payload with Some v => Some v | None => get_truthy "pair" payload end in
  let timeframe := get_truthy "timeframe" payload in
  subject <-- (match or_str (_s payload "subject" "") (_s payload "reason" "") with
               | EmptyString => ty <-- str_part (raw_type event) ;; Ok (last_part ty "")
               | s => Ok s
               end) ;;
  title <-- title_of (raw_type event) (shown symbol) (shown timeframe) subject ;;
  id <-- digest_event_id event ;;
  severity <-- (match _s payload "severity" "" with
                | EmptyString => ty <-- str_part (raw_type event) ;; Ok (severity_for ty)
                | s => Ok s
                end) ;;
  let source := _s payload "source" "" in
  Ok {| al_event_id := id; al_event_type := raw_type event;
        al_source := if negb (String.eqb source "") then VStr source
                     else if truthy (raw_producer event) then raw_producer event else default_source;
        al_severity := severity; al_title := _truncate title _TITLE_MAX;
        al_message := match _s payload "message" "" with EmptyString => None | m => Some m end;
        al_symbol := (fun v => str_take 12 (py_str v)) <$> symbol;
        al_timeframe := (fun v => str_take 8 (py_str v)) <$> timeframe;
        al_producer := raw_producer event;
        al_correlation_id := if truthy (raw_correlation event) then Some (raw_correlation event) else None;
        al_occurred_at := raw_produced_at event; al_payload := payload |}.
End Translate.

(** ** Persistence *)

(** The open transaction of a session: its rows, and whether PostgreSQL has aborted it. *)
Record Tx := { tx_rows : list AlertRow; tx_aborted : bool }.

(** The driver encodes a text column from a string only, before it sends anything. *)
Definition is_str (v : pyval) : bool := match v with VStr _ => true | _ => false end.
Definition driver_ok (a : AlertIn) : bool :=
  is_str (al_event_type a) && is_str (al_source a) && is_str (al_producer a)
  && match al_correlation_id a with Some v => is_str v | None => true end.

Fixpoint has_nul (s : string) : bool :=
  match s with EmptyString => false | String c s' => Ascii.eqb c Ascii.zero || has_nul s' end.

(** What a [JSONB] column takes: no NUL character, no NaN or infinity. *)
Fixpoint json_ok (v : pyval) : bool :=
  match v with
  | VFloat x => isfinite x
  | VStr s => negb (has_nul s)
  | VList l => (fix go l := match l with [] => true | x :: l' => json_ok x && go l' end) l
  | VDict d => (fix go d := match d with
                            | [] => true
                            | (k, x) :: d' => negb (has_nul k) && json_ok x && go d'
                            end) d
  | _ => true
  end.

(** A [String(n)] column. *)
Definition fits (n : nat) (s : string) : bool := Nat.leb (String.length s) n && negb (has_nul s).
Definition text_of (v : pyval) : string := match v with VStr s => s | _ => EmptyString end.

(** The column types and the check constraint of [alert_events]. *)
Definition server_ok (a : AlertIn) : bool :=
  fits 64 (al_event_id a) && fits 64 (text_of (al_event_type a)) && fits 32 (text_of (al_source a))
  && bool_decide (al_severity a ∈ ["info"; "warning"; "critical"]%string)
  && fits 255 (al_title a) && negb (has_nul (default EmptyString (al_message a)))
  && fits 12 (default EmptyString (al_symbol a)) && fits 8 (default EmptyString (al_timeframe a))
  && fits 64 (text_of (al_producer a))
  && fits 64 (match al_correlation_id a with Some v => text_of v | None => EmptyString end)
  && json_ok (VDict (al_payload a)).

Definition get_alert (event_id : string) (rows : list AlertRow) : option AlertRow :=
  List.find (fun r => String.eqb (row_event_id r) event_id) rows.

Section Repository.
(** The primary key of a new row. *)
Context (new_id : list AlertRow -> Z).

Definition new_row (a : AlertIn) (rows : list AlertRow) : AlertRow :=
  {| ar_id := new_id rows; ar_alert := a; ar_acknowledged_at := None; ar_acknowledged_by := None |}.

(** [INSERT ... ON CONFLICT (event_id) DO NOTHING RETURNING id].  A statement the server
    rejects aborts the transaction, and an aborted one rejects every statement. *)
Definition save_alert (a : AlertIn) (tx : Tx) : Res bool * Tx :=
  if negb (driver_ok a) then (Err OtherError, tx)
  else if tx_aborted tx then (Err OtherError, tx)
  else if negb (server_ok a) then (Err IntegrityError, {| tx_rows := tx_rows tx; tx_aborted := true |})
  else match get_alert (al_event_id a) (tx_rows tx) with
       | Some _ => (Ok false, tx)
       | None => (Ok true, {| tx_rows := tx_rows tx ++ [new_row a (tx_rows tx)]; tx_aborted := false |})
       end.

(** [COMMIT]: of an aborted transaction, a rollback. *)
Definition commit (before : list AlertRow) (tx : Tx) : list AlertRow :=
  if tx_aborted tx then before else tx_rows tx.

Definition pending (r : AlertRow) : bool := bool_decide (ar_acknowledged_at r = None).

Definition acknowledge (by_ : string) (at_ : Z) (r : AlertRow) : AlertRow :=
  {| ar_id := ar_id r; ar_alert := ar_alert r; ar_acknowledged_at := Some at_; ar_acknowledged_by := Some by_ |}.

Definition ack_alert (event_id acknowledged_by : string) (at_ : Z) (rows : list AlertRow)
  : bool * list AlertRow :=
  let hit r := String.eqb (row_event_id r) event_id && pending r in
  (existsb hit rows, map (fun r => if hit r then acknowledge acknowledged_by at_ r else r) rows).

Definition count_pending (rows : list AlertRow) : Z := Z.of_nat (length (List.filter pending rows)).

(** [ORDER BY occurred_at DESC, id DESC]. *)
Definition newest_first (a b : AlertRow) : bool :=
  let ta := al_occurred_at (ar_alert a) in
  let tb := al_occurred_at (ar_alert b) in
  (tb <? ta) || ((ta =? tb) && (ar_id b <=? ar_id a)).

(** A filter that is [None] or, for a text, empty is no filter. *)
Definition text_filter (f : option string) (v : pyval) : bool :=
  match f with
  | None | Some EmptyString => true
  | Some s => match v with VStr t => String.eqb t s | _ => false end
  end.

Definition list_alerts (source event_type : option string) (acknowledged : option bool)
    (limit offset : nat) (rows : list AlertRow) : list AlertRow :=
  let keep r := text_filter source (al_source (ar_alert r)) && text_filter event_type (al_event_type (ar_alert r))
                && match acknowledged with Some b => Bool.eqb (negb (pending r)) b | None => true end in
  firstn limit (skipn offset (sort_by newest_first (List.filter keep rows))).
End Repository.

(** ** The worker *)

Record AlertBatchResult := {
  ab_processed : Z;
  ab_replayed : Z;
  ab_errors : Z;
  ab_inserted : dict string Z
}.

Section Worker.
Context `{Platform}.
Context (sha256_hex : string -> string) (new_id : list AlertRow -> Z).
Context (json_loads : string -> option pyval) (fromisoformat : pyval -> option Z)
  (py_int : pyval -> option Z).

Definition _decode_event (fields : dict string string) : option RawEvent :=
  match dget_or "data"%string EmptyString fields with
  | EmptyString => None
  | raw => from_json json_loads fromisoformat py_int raw
  end.

(** The batch so far, the transaction and the entries to acknowledge. *)
Record AlertState := { as_result : AlertBatchResult; as_tx : Tx; as_acks : list (string * string) }.

Definition count (processed replayed errors : Z) (src : option string) (r : AlertBatchResult)
  : AlertBatchResult :=
  {| ab_processed := ab_processed r + processed; ab_replayed := ab_replayed r + replayed;
     ab_errors := ab_errors r + errors;
     ab_inserted := match src with
                    | Some s => dset s (dget_or s 0 (ab_inserted r) + 1) (ab_inserted r)
                    | None => ab_inserted r
                    end |}.

(** [translate] and [save_alert] of one decoded event. *)
Definition persist_event (event : RawEvent) (tx : Tx) : Res (AlertIn * bool) * Tx :=
  let default_source := if truthy (raw_producer event) then raw_producer event else VStr "monitor" in
  match translate sha256_hex event default_source with
  | Err e => (Err e, tx)
  | Ok alert => let '(r, tx) := save_alert new_id alert tx in (inserted <-- r ;; Ok (alert, inserted), tx)
  end.

(** An alert that was saved has a text for its source. *)
Definition source_label (a : AlertIn) : string := or_str (text_of (al_source a)) "unknown".

Definition alert_entry (s : AlertState) (entry : (string * string) * dict string string) : AlertState :=
  let '(ack, fields) := entry in
  let done r tx := {| as_result := r; as_tx := tx; as_acks := as_acks s ++ [ack] |} in
  match _decode_event fields with
  | None => done (count 0 1 0 None (as_result s)) (as_tx s)
  | Some event =>
      let '(r, tx) := persist_event event (as_tx s) in
      done (match r with
            | Ok (alert, true) => count 1 0 0 (Some (source_label alert)) (as_result s)
            | Ok (alert, false) => count 0 1 0 (Some (source_label alert)) (as_result s)
            | Err _ => count 0 0 1 None (as_result s)
            end) tx
  end.

Definition empty_alert_batch : AlertBatchResult :=
  {| ab_processed := 0; ab_replayed := 0; ab_errors := 0; ab_inserted := [] |}.

Definition alert_entries (entries : list ((string * string) * dict string string)) (rows : list AlertRow)
  : AlertState :=
  foldl alert_entry {| as_result := empty_alert_batch; as_tx := {| tx_rows := rows; tx_aborted := false |};
                       as_acks := [] |} entries.

(** The result, the rows after the commit, the entries acknowledged. *)
Definition alert_poll_once (entries : list ((string * string) * dict string string)) (rows : list AlertRow)
  : AlertBatchResult * list AlertRow * list (string * string) :=
  let s := alert_entries entries rows in
  (as_result s, commit rows (as_tx s), as_acks s).
End Worker.

(** The envelope a consumer decodes from [to_json] of a published event. *)
Definition received (e : Event) : RawEvent :=
  {| raw_type := VStr (event_type e); raw_payload := VDict (payload e); raw_producer := VStr (producer e);
     raw_produced_at := produced_at e; raw_version := 1; raw_correlation := VStr "" |}.

(** ** Properties *)

Definition ids_unique (rows : list AlertRow) : Prop := NoDup (map row_event_id rows).

Lemma get_alert_None id rows : get_alert id rows = None <-> id ∉ map row_event_id rows.
Proof.
  unfold get_alert. induction rows as [|r rows IH]; simpl.
  - split; [intros _ H; by apply elem_of_nil in H|done].
  - rewrite not_elem_of_cons. destruct (String.eqb_spec (row_event_id r) id) as [E|E];
      [split; [done|]; intros [Hne _]; by destruct Hne|].
    rewrite IH. naive_solver.
Qed.

Lemma get_alert_Some id rows r : get_alert id rows = Some r -> r ∈ rows /\ row_event_id r = id.
Proof.
  unfold get_alert. intros [Hin E]%find_some. split; [by apply list_elem_of_In|by apply String.eqb_eq].
Qed.

(** What one statement does to the transaction. *)
Inductive save_effect (new_id : list AlertRow -> Z) (a : AlertIn) (tx : Tx) : Res bool -> Tx -> Prop :=
| save_undriven e : driver_ok a = false -> save_effect new_id a tx (Err e) tx
| save_in_aborted e : driver_ok a = true -> tx_aborted tx = true -> save_effect new_id a tx (Err e) tx
| save_rejected e : driver_ok a = true -> tx_aborted tx = false -> server_ok a = false ->
    save_effect new_id a tx (Err e) {| tx_rows := tx_rows tx; tx_aborted := true |}
| save_duplicate r : driver_ok a = true -> tx_aborted tx = false -> server_ok a = true ->
    get_alert (al_event_id a) (tx_rows tx) = Some r -> save_effect new_id a tx (Ok false) tx
| save_inserted : driver_ok a = true -> tx_aborted tx = false -> server_ok a = true ->
    get_alert (al_event_id a) (tx_rows tx) = None ->
    save_effect new_id a tx (Ok true) {| tx_rows := tx_rows tx ++ [new_row new_id a (tx_rows tx)]; tx_aborted := false |}.

Lemma save_alert_effect new_id a tx :
  save_effect new_id a tx (save_alert new_id a tx).1 (save_alert new_id a tx).2.
Proof.
  unfold save_alert. destruct (driver_ok a) eqn:Ed; [|by constructor]. cbn [negb].
  destruct (tx_aborted tx) eqn:Ea; [by constructor|].
  destruct (server_ok a) eqn:Es; [|by constructor]. cbn [negb].
  destruct (get_alert _ _) as [r|] eqn:Eg; [by econstructor|by constructor].
Qed.

Section Batch.
Context `{Platform}.
Context (sha256_hex : string -> string) (new_id : list AlertRow -> Z).
Context (json_loads : string -> option pyval) (fromisoformat : pyval -> option Z)
  (py_int : pyval -> option Z).

Notation alert_entry := (alert_entry sha256_hex new_id json_loads fromisoformat py_int).
Notation alert_entries := (alert_entries sha256_hex new_id json_loads fromisoformat py_int).
Notation alert_poll_once := (alert_poll_once sha256_hex new_id json_loads fromisoformat py_int).

(** The alert an entry translates to, if it does. *)
Definition alert_of (fields : dict string string) : option AlertIn :=
  match _decode_event json_loads fromisoformat py_int fields with
  | None => None
  | Some event =>
      match translate sha256_hex event
              (if truthy (raw_producer event) then raw_producer event else VStr "monitor") with
      | Ok a => if driver_ok a then Some a else None
      | Err _ => None
      end
  end.

(** The server rejects the alert of an entry. *)
Definition poisons (entry : (string * string) * dict string string) : bool :=
  match alert_of entry.2 with Some a => negb (server_ok a) | None => false end.

(** The alerts that reach the database. *)
Definition alerts_of (entries : list ((string * string) * dict string string)) : list AlertIn :=
  omap (fun e => alert_of e.2) entries.

Lemma alert_entry_tx s e :
  as_acks (alert_entry s e) = as_acks s ++ [e.1] /\
  match alert_of e.2 with
  | Some a => as_tx (alert_entry s e) = (save_alert new_id a (as_tx s)).2
  | None => as_tx (alert_entry s e) = as_tx s
  end.
Proof.
  destruct e as [ack fields]. unfold alert_entry, alert_of, persist_event. cbn [fst snd].
  destruct (_decode_event _ _ _ fields) as [ev|]; [|done].
  destruct (translate _ _ _) as [a|x]; [|done].
  unfold save_alert. destruct (driver_ok a) eqn:Ed; [|done]. rewrite ?Ed. cbn [negb].
  destruct (tx_aborted (as_tx s)); [done|]. destruct (server_ok a); [|done]. cbn [negb].
  by destruct (get_alert _ _).
Qed.

Lemma alert_entries_acks entries : forall s,
  as_acks (foldl alert_entry s entries) = as_acks s ++ map fst entries.
Proof.
  induction entries as [|e entries IH]; intros s; simpl; [by rewrite app_nil_r|].
  rewrite IH. destruct (alert_entry_tx s e) as [-> _]. by rewrite <- app_assoc.
Qed.

(** The transaction after the entries: aborted exactly when one poisons it, otherwise one
    row more for each event id that is new. *)
Definition insert_new (rows : list AlertRow) (a : AlertIn) : list AlertRow :=
  match get_alert (al_event_id a) rows with Some _ => rows | None => rows ++ [new_row new_id a rows] end.

Lemma aborted_stays entries : forall s, tx_aborted (as_tx s) = true ->
  tx_aborted (as_tx (foldl alert_entry s entries)) = true.
Proof.
  induction entries as [|e entries IH]; intros s Hs; [done|]. simpl. apply IH.
  destruct (alert_entry_tx s e) as [_ Ht]. destruct (alert_of e.2) as [a|]; rewrite Ht; [|done].
  destruct (save_alert_effect new_id a (as_tx s)); simpl; congruence.
Qed.

Lemma alert_entries_tx entries : forall s, tx_aborted (as_tx s) = false ->
  if existsb poisons entries then tx_aborted (as_tx (foldl alert_entry s entries)) = true
  else as_tx (foldl alert_entry s entries) =
         {| tx_rows := foldl insert_new (tx_rows (as_tx s)) (alerts_of entries); tx_aborted := false |}.
Proof.
  induction entries as [|e entries IH]; intros s Hs.
  { cbn. destruct (as_tx s). cbn in *. by subst. }
  cbn [foldl existsb]. destruct (alert_entry_tx s e) as [_ Ht].
  unfold alerts_of. cbn [omap list_omap]. unfold poisons at 1.
  destruct (alert_of e.2) as [a|] eqn:Ea; cbn [orb];
    [|specialize (IH (alert_entry s e)); rewrite Ht in IH; by apply IH].
  assert (Hd : driver_ok a = true).
  { unfold alert_of in Ea. repeat dmatch_in Ea; congruence. }
  unfold save_alert in Ht. rewrite Hd, Hs in Ht. cbn [negb] in Ht.
  destruct (server_ok a); cbn [negb orb] in *; [|by apply aborted_stays; rewrite Ht].
  specialize (IH (alert_entry s e)). cbn [foldl]. unfold insert_new at 2.
  destruct (get_alert _ _) as [r|]; rewrite Ht in IH; by apply IH.
Qed.

(** What a poll does to the table. *)
Lemma alert_poll_rows entries rows :
  (alert_poll_once entries rows).1.2 =
    if existsb poisons entries then rows else foldl insert_new rows (alerts_of entries).
Proof.
  unfold alert_poll_once, alert_entries, commit. cbn [fst snd].
  pose proof (alert_entries_tx entries
    {| as_result := empty_alert_batch; as_tx := {| tx_rows := rows; tx_aborted := false |}; as_acks := [] |}
    eq_refl) as Ht.
  destruct (existsb poisons entries); rewrite Ht; [done|]. done.
Qed.

Lemma insert_new_keeps rows a : ids_unique rows ->
  ids_unique (insert_new rows a) /\ rows `prefix_of` insert_new rows a /\
  (forall id, id ∈ map row_event_id (insert_new rows a) <-> id ∈ map row_event_id rows \/ id = al_event_id a).
Proof.
  intros Hu. unfold insert_new, ids_unique. destruct (get_alert (al_event_id a) rows) as [r|] eqn:Eg.
  - split_and!; [done..|]. intros id. split; [by left|intros [?| ->]; [done|]].
    apply get_alert_Some in Eg as [Hin <-]. apply list_elem_of_fmap. by exists r.
  - apply get_alert_None in Eg. rewrite map_app.
    change (map row_event_id [new_row new_id a rows]) with [al_event_id a]. split_and!.
    + apply NoDup_app. split_and!; [done| |apply NoDup_singleton].
      intros x Hx Hx'%list_elem_of_singleton. by subst.
    + by apply prefix_app_r.
    + intros id. by rewrite elem_of_app, list_elem_of_singleton.
Qed.

Lemma inserts_keep l : forall rows, ids_unique rows ->
  ids_unique (foldl insert_new rows l) /\ rows `prefix_of` foldl insert_new rows l /\
  (forall id, id ∈ map row_event_id (foldl insert_new rows l) <->
              id ∈ map row_event_id rows \/ id ∈ map al_event_id l).
Proof.
  induction l as [|a l IH]; intros rows Hu; cbn [foldl map].
  { split_and!; [done..|]. intros id. rewrite elem_of_nil. tauto. }
  destruct (insert_new_keeps rows a Hu) as (H1 & H2 & H3).
  destruct (IH _ H1) as (I1 & I2 & I3). split_and!; [done|by etrans|].
  intros id. rewrite I3, H3, elem_of_cons. tauto.
Qed.

Lemma inserts_known l : forall rows, (forall id, id ∈ map al_event_id l -> id ∈ map row_event_id rows) ->
  foldl insert_new rows l = rows.
Proof.
  induction l as [|a l IH]; intros rows Hk; cbn [foldl map] in *; [done|].
  assert (insert_new rows a = rows) as ->; [|apply IH; intros; apply Hk; by right].
  unfold insert_new. destruct (get_alert _ _) eqn:Eg; [done|].
  apply get_alert_None in Eg. exfalso. apply Eg, Hk. by left.
Qed.

(** What one poll of the alerts stream does.  Every entry is acknowledged, whatever
    became of it.  If the server rejects one alert of the batch (a severity outside the
    three, a source over 32 characters, a NUL or NaN in the payload) nothing of the batch
    is kept, the valid alerts included.  Otherwise the alerts are appended, one row for each
    event id, existing rows are untouched, and delivering the batch again changes nothing. *)
Theorem alert_batch (entries : list ((string * string) * dict string string)) (rows : list AlertRow) :
  ids_unique rows ->
  let '(_, rows', acks) := alert_poll_once entries rows in
  acks = map fst entries /\
  if existsb poisons entries then rows' = rows
  else ids_unique rows' /\ rows `prefix_of` rows' /\
       (forall id, id ∈ map row_event_id rows' <->
                   id ∈ map row_event_id rows \/ id ∈ map al_event_id (alerts_of entries)) /\
       (alert_poll_once entries rows').1.2 = rows'.
Proof.
  intros Hu. pose proof (alert_poll_rows entries rows) as Hr.
  pose proof (alert_poll_rows entries (alert_poll_once entries rows).1.2) as Hr2.
  assert (Hacks : (alert_poll_once entries rows).2 = map fst entries)
    by (unfold alert_poll_once, alert_entries; cbn [snd]; by rewrite alert_entries_acks).
  destruct (alert_poll_once entries rows) as [[res rows'] acks]. cbn [fst snd] in *. split; [done|].
  destruct (existsb poisons entries); [done|].
  destruct (inserts_keep (alerts_of entries) rows Hu) as (H1 & H2 & H3).
  rewrite <- Hr in H1, H2, H3. split_and!; [done..|].
  rewrite Hr2. apply inserts_known. intros id Hid. apply H3. by right.
Qed.
End Batch.

(** ** Acknowledging *)

Definition hits (event_id : string) (r : AlertRow) : bool :=
  String.eqb (row_event_id r) event_id && pending r.
Definition acked_row (event_id by_ : string) (at_ : Z) (r : AlertRow) : AlertRow :=
  if hits event_id r then acknowledge by_ at_ r else r.

Lemma hits_acked id by_ at_ r : hits id (acked_row id by_ at_ r) = false.
Proof.
  unfold acked_row. destruct (hits id r) eqn:E; [|done]. unfold hits, pending. cbn. by rewrite andb_false_r.
Qed.

Lemma no_hits id by_ at_ rows : existsb (hits id) rows = false -> map (acked_row id by_ at_) rows = rows.
Proof.
  induction rows as [|r rows IH]; [done|]. cbn. intros [Hr Hrows]%orb_false_iff.
  rewrite IH by done. unfold acked_row. by rewrite Hr.
Qed.

Lemma no_hits_acked id by_ at_ rows : existsb (hits id) (map (acked_row id by_ at_) rows) = false.
Proof. induction rows as [|r rows IH]; [done|]. cbn. by rewrite hits_acked. Qed.

Lemma other_ids id rows : id ∉ map row_event_id rows -> existsb (hits id) rows = false.
Proof.
  induction rows as [|r rows IH]; [done|]. cbn. rewrite not_elem_of_cons. intros [Hne Hn].
  rewrite IH by done. unfold hits. by rewrite (proj2 (String.eqb_neq _ _)) by congruence.
Qed.

Lemma pending_acked id by_ at_ rows : ids_unique rows ->
  count_pending (map (acked_row id by_ at_) rows) =
    count_pending rows - (if existsb (hits id) rows then 1 else 0).
Proof.
  unfold ids_unique, count_pending. induction rows as [|r rows IH]; [done|]. cbn [map List.filter existsb].
  intros [Hn Hu]%NoDup_cons. specialize (IH Hu). unfold acked_row at 1 2. destruct (hits id r) eqn:Eh; cbn [orb].
  - unfold hits in Eh. apply andb_true_iff in Eh as [E%String.eqb_eq Ep]. rewrite <- E in *.
    rewrite Ep, no_hits by (by apply other_ids). cbn. lia.
  - destruct (pending r); cbn [length]; destruct (existsb (hits id) rows); lia.
Qed.

Lemma existsb_hits id rows : ids_unique rows ->
  existsb (hits id) rows = true <-> exists r, get_alert id rows = Some r /\ ar_acknowledged_at r = None.
Proof.
  unfold ids_unique, get_alert. induction rows as [|r rows IH]; cbn.
  - intros _. split; [done|]. by intros (r & ? & _).
  - intros [Hn Hu]%NoDup_cons. unfold hits at 1. destruct (String.eqb_spec (row_event_id r) id) as [<-|Hne]; cbn.
    + rewrite other_ids, orb_false_r by done. unfold pending. rewrite bool_decide_eq_true. naive_solver.
    + by apply IH.
Qed.

(** ** Identity *)

(** What the digest of an event without an [event_id] of its own depends on. *)
Lemma digest_of_parts `{Platform} sha256_hex (e : Event) :
  dget "event_id"%string (payload e) = None ->
  digest_event_id sha256_hex (received e) =
    Ok (str_take 32 (sha256_hex (String.concat "|"
          [event_type e; producer e; isoformat (produced_at e); _s (payload e) "symbol" "";
           _s (payload e) "timeframe" ""])))%string.
Proof. intros Hn. unfold digest_event_id. cbn [payload_dict received raw_payload res_bind]. by unfold _s at 1; rewrite Hn. Qed.

Section Identity.
Context `{Platform}.
Context (sha256_hex : string -> string) (new_id : list AlertRow -> Z).

Lemma translate_id ev d a :
  translate sha256_hex ev d = Ok a -> digest_event_id sha256_hex ev = Ok (al_event_id a).
Proof. unfold translate. intros Ht. inv_res. done. Qed.

(** A second alert of an id already stored changes nothing. *)
Lemma persist_known ev tx id r :
  digest_event_id sha256_hex ev = Ok id -> tx_aborted tx = false -> get_alert id (tx_rows tx) = Some r ->
  tx_rows (persist_event sha256_hex new_id ev tx).2 = tx_rows tx.
Proof.
  intros Hid Ha Hg. unfold persist_event. set (d := if truthy _ then _ else _).
  destruct (translate sha256_hex ev d) as [a|x] eqn:Et; [|done].
  apply translate_id in Et. rewrite Hid in Et. injection Et as Et.
  pose proof (save_alert_effect new_id a tx) as He.
  destruct (save_alert new_id a tx) as [r' tx']. cbn [fst snd] in *.
  inversion He; subst; try done. congruence.
Qed.

(** The orchestrator's alerts collide.  All events of one worker carry the instant the
    worker was built, and no [event_id]; so every risk-brake alert of the same symbol and
    timeframe, for whatever bucket and veto, has the id of the first one, and every
    lifecycle alert of the same kind has one id whatever its subject and message.  The
    worker stores the first and drops the others as duplicates. *)
Theorem orchestrator_alerts_collide (worker_now : Z) (e e' : Event) (tx : Tx) (id : string) (row : AlertRow) :
  (exists r r', e = risk_brake_event worker_now r /\ e' = risk_brake_event worker_now r' /\
                res_symbol r = res_symbol r' /\ res_timeframe r = res_timeframe r') \/
  (exists ty s d s' d', e = paper_alert_event worker_now ty s d /\ e' = paper_alert_event worker_now ty s' d') ->
  digest_event_id sha256_hex (received e) = Ok id ->
  tx_aborted tx = false -> get_alert id (tx_rows tx) = Some row ->
  digest_event_id sha256_hex (received e') = Ok id /\
  tx_rows (persist_event sha256_hex new_id (received e') tx).2 = tx_rows tx.
Proof.
  intros He Hid Ha Hg.
  assert (Hid' : digest_event_id sha256_hex (received e') = Ok id).
  { rewrite <- Hid. destruct He as [(r & r' & -> & -> & Hs & Ht)|(ty & s & d & s' & d' & -> & ->)];
      rewrite !digest_of_parts by done; [|done]. unfold _s. cbn. by rewrite Hs, Ht. }
  split; [done|]. by eapply persist_known.
Qed.

(** Acknowledging.  The call reports whether an unacknowledged row of that id existed;
    then that row alone is stamped, the pending count falls by one, and a second
    acknowledgement reports false and changes nothing, the first stamp included. *)
Theorem ack_alert_once (event_id by_ : string) (at_ : Z) (rows : list AlertRow) :
  ids_unique rows ->
  let '(hit, rows') := ack_alert event_id by_ at_ rows in
  (hit = true <-> exists r, get_alert event_id rows = Some r /\ ar_acknowledged_at r = None) /\
  map ar_alert rows' = map ar_alert rows /\
  (forall r, r ∈ rows -> row_event_id r <> event_id -> r ∈ rows') /\
  count_pending rows' = count_pending rows - (if hit then 1 else 0) /\
  (forall by2 at2, ack_alert event_id by2 at2 rows' = (false, rows')).
Proof.
  intros Hu. change (ack_alert event_id by_ at_ rows) with
    (existsb (hits event_id) rows, map (acked_row event_id by_ at_) rows).
  split_and!.
  - by apply existsb_hits.
  - rewrite map_map. apply map_ext. intros r. unfold acked_row. by destruct (hits event_id r).
  - intros r Hr Hne. apply list_elem_of_fmap. exists r. split; [|done].
    unfold acked_row, hits. by rewrite (proj2 (String.eqb_neq _ _)).
  - by apply pending_acked.
  - intros by2 at2. change (ack_alert event_id by2 at2 ?rs) with
      (existsb (hits event_id) rs, map (acked_row event_id by2 at2) rs).
    by rewrite no_hits_acked, no_hits by apply no_hits_acked.
Qed.
End Identity.

(** A risk brake of the orchestrator, as its worker publishes it. *)
Definition demo_brake (bucket : Z) : Event :=
  risk_brake_event 0
    {| res_symbol := "EURUSD"; res_timeframe := "H1"; res_bucket_ts := bucket; res_action := PERSIST;
       created := true; res_status := Some BLOCKED; res_direction := Some LONG; res_confidence := f0;
       res_agreement := f0; res_coverage := f0; res_veto_code := Some "daily_loss"%string;
       res_skip_reason := None; res_inputs_hash := "" |}.
Definition demo_sha (s : string) : string := s.
Definition demo_row : AlertRow :=
  {| ar_id := 1; ar_acknowledged_at := None; ar_acknowledged_by := None;
     ar_alert := {| al_event_id := "alert.risk_brake|orchestrator|19"; al_event_type := VStr "alert.risk_brake";
                    al_source := VStr "risk"; al_severity := "warning"; al_title := ""; al_message := None;
                    al_symbol := None; al_timeframe := None; al_producer := VStr "orchestrator";
                    al_correlation_id := None; al_occurred_at := 0; al_payload := [] |} |}%string.

Lemma orchestrator_alerts_collide_witness :
  @digest_event_id demo_platform demo_sha (received (demo_brake 3600000000))
    = @digest_event_id demo_platform demo_sha (received (demo_brake 7200000000)).
Proof.
  destruct (@orchestrator_alerts_collide demo_platform demo_sha (fun _ => 0) 0 (demo_brake 3600000000)
    (demo_brake 7200000000) {| tx_rows := [demo_row]; tx_aborted := false |}
    "alert.risk_brake|orchestrator|19" demo_row) as [H _].
  - left. eexists _, _. split; [reflexivity|]. split; [reflexivity|]. split; reflexivity.
  - vm_compute. reflexivity.
  - reflexivity.
  - reflexivity.
  - rewrite H. vm_compute. reflexivity.
Defined.

Lemma ack_alert_once_witness :
  count_pending (ack_alert "alert.risk_brake|orchestrator|19" "ops" 5 [demo_row]).2 = 0.
Proof.
  destruct (ack_alert_once "alert.risk_brake|orchestrator|19" "ops" 5 [demo_row]) as (_ & _ & _ & H & _).
  - apply NoDup_singleton.
  - exact H.
Defined.

(** A stream entry whose text is its own event, with a severity of the caller's choice. *)
Definition demo_loads (raw : string) : option pyval :=
  Some (VDict [("event_type", VStr "alert.system"); ("produced_at", VStr ""); ("producer", VStr "ops");
               ("payload", VDict [("event_id", VStr raw); ("severity", VStr (str_drop 1 raw))])])%string.
Definition demo_entry (raw : string) : (string * string) * dict string string :=
  (("alerts.stream", raw), [("data", raw)])%string.

Lemma alert_batch_witness :
  let entries := [demo_entry "1info"; demo_entry "2loud"] in
  let '(_, rows, acks) := @alert_poll_once demo_platform demo_sha (fun _ => 0) demo_loads (fun _ => Some 0)
                            (fun _ => Some 1) entries [] in
  acks = map fst entries /\ rows = [].
Proof.
  intros entries.
  pose proof (@alert_batch demo_platform demo_sha (fun _ => 0) demo_loads (fun _ => Some 0)
    (fun _ => Some 1) entries [] ltac:(constructor)) as H.
  destruct (alert_poll_once _ _ _ _ _ entries []) as [[res rows] acks] eqn:E.
  destruct H as [H1 H2]. split; [exact H1|]. revert H2.
  assert (existsb (poisons demo_sha demo_loads (fun _ => Some 0) (fun _ => Some 1)) entries = true) as ->
    by (vm_compute; reflexivity).
  intros H2. exact H2.
Defined.
