(* ===== verification/Accounts.v ===== *)
(** * Accounts and sessions ([app/services/auth_service.py], [app/core/security.py],
    [app/api/v1/users.py], [get_current_user] and [require_role] of [app/api/deps.py])

    An operation returns its result and what its request leaves in the database:
    [get_db] commits on success and rolls back when the handler raises, so an operation
    that raises leaves the tables as they were, except for what it committed itself. *)

From Stdlib Require Import ZArith Lia.
From stdpp Require Import base list strings pretty.
From S2P Require Import Prelude PyFloat Timeframes Signals Fusion Risk Decision Tables.

Inductive UserRole := VIEWER | TRADER | ADMIN.
#[export] Instance UserRole_eq_dec : EqDecision UserRole.
Proof. solve_decision. Defined.

Definition role_value (r : UserRole) : string :=
  match r with VIEWER => "viewer" | TRADER => "trader" | ADMIN => "admin" end.

Definition ROLE_RANK : dict string Z := [("viewer", 0); ("trader", 1); ("admin", 2)]%string.

Definition role_at_least (role required : string) : bool :=
  match dget role ROLE_RANK, dget required ROLE_RANK with
  | Some a, Some b => b <=? a
  | _, _ => false
  end.

Record User := {
  u_id : Z;
  u_email : string;
  hashed_password : string;
  u_role : UserRole;
  is_active : bool;
  last_login_at : option Z
}.

Record RefreshToken := {
  rt_user : Z;
  jti : string;
  family_id : Z;
  expires_at : Z;
  revoked_at : option Z;
  replaced_by_jti : option string;
  created_ip : option string;
  user_agent : option string
}.

Definition is_revoked (t : RefreshToken) : bool := bool_decide (revoked_at t <> None).

Record AuditLog := {
  au_actor : string;
  au_action : string;
  au_entity_type : option string;
  au_entity_id : option string;
  au_before : option (dict string pyval);
  au_after : option (dict string pyval);
  au_ip : option string
}.

Definition USER_REGISTERED : string := "auth.user_registered".
Definition LOGIN_SUCCEEDED : string := "auth.login_succeeded".
Definition LOGIN_FAILED : string := "auth.login_failed".
Definition TOKEN_REFRESHED : string := "auth.token_refreshed".
Definition TOKEN_REUSE_DETECTED : string := "auth.token_reuse_detected".
Definition LOGGED_OUT : string := "auth.logged_out".
Definition USER_UPDATED : string := "admin.user_updated".

(** The tables, and how many random draws (uuids, salts) the program has made. *)
Record Accounts := {
  users : list User;
  refresh_tokens : list RefreshToken;
  audit_log : list AuditLog;
  draws : nat
}.

Definition set_users (v : list User) (s : Accounts) : Accounts :=
  {| users := v; refresh_tokens := refresh_tokens s; audit_log := audit_log s; draws := draws s |}.
Definition set_tokens (v : list RefreshToken) (s : Accounts) : Accounts :=
  {| users := users s; refresh_tokens := v; audit_log := audit_log s; draws := draws s |}.
Definition add_audit (a : AuditLog) (s : Accounts) : Accounts :=
  {| users := users s; refresh_tokens := refresh_tokens s; audit_log := audit_log s ++ [a];
     draws := draws s |}.
Definition add_draws (n : nat) (s : Accounts) : Accounts :=
  {| users := users s; refresh_tokens := refresh_tokens s; audit_log := audit_log s;
     draws := (n + draws s)%nat |}.

Record AuthSettings := { access_token_expire_minutes : Z; refresh_token_expire_days : Z }.

Record TokenPair := {
  access_token : string;
  access_expires_at : Z;
  refresh_token : string;
  refresh_jti : Z;
  refresh_family_id : Z;
  refresh_expires_at : Z
}.

(** What a request attaches to the rows it writes. *)
Record Client := { cl_ip : option string; cl_agent : option string }.

(** [(user_agent or "")[:512] or None]. *)
Definition clip_agent (a : option string) : option string :=
  match a with
  | None | Some EmptyString => None
  | Some s => Some (str_take 512 s)
  end.

(** [int(t.timestamp())]. *)
Definition timestamp (t : Z) : Z := t / us_per_second.

Section Service.
Context `{Platform}.
Context (settings : AuthSettings).
(** [str] and [hex] of a uuid, and Argon2 with the n-th salt drawn. *)
Context (uuid_str uuid_hex : Z -> string) (argon2_hash : nat -> string -> string)
  (argon2_verify : string -> string -> bool) (argon2_needs_rehash : string -> bool).
(** Signing with the secret key, and [jwt.decode] at an instant: the signature, the
    algorithm and [exp] with its leeway are checked there. *)
Context (jwt_encode : dict string pyval -> string) (jwt_decode : Z -> string -> option (dict string pyval)).

(** ** Lookups *)

Definition normalize_email (email : string) : string := str_lower (py_strip email).

Definition get_user_by_email (email : string) (s : Accounts) : option User :=
  List.find (fun u => String.eqb (u_email u) (normalize_email email)) (users s).
Definition get_user (id : Z) (s : Accounts) : option User :=
  List.find (fun u => u_id u =? id) (users s).
Definition count_users (s : Accounts) : Z := Z.of_nat (length (users s)).
Definition get_refresh_row (j : string) (s : Accounts) : option RefreshToken :=
  List.find (fun t => String.eqb (jti t) j) (refresh_tokens s).

(** The ORM updates the row of a loaded object by its key. *)
Definition put_user (u : User) (s : Accounts) : Accounts :=
  set_users (map (fun x => if u_id x =? u_id u then u else x) (users s)) s.

(** ** Registration and login *)

Definition register_user (email password : string) (ip : option string) (role_override : option UserRole)
    (s : Accounts) : Res User * Accounts :=
  let normalized := normalize_email email in
  match get_user_by_email normalized s with
  | Some _ => (Err ConflictError, s)
  | None =>
      let role := match role_override with
                  | Some r => r
                  | None => if count_users s =? 0 then ADMIN else VIEWER
                  end in
      let user := {| u_id := uuid4 (S (draws s)); u_email := normalized;
                     hashed_password := argon2_hash (draws s) password; u_role := role;
                     is_active := true; last_login_at := None |} in
      (Ok user,
       add_audit {| au_actor := normalized; au_action := USER_REGISTERED; au_entity_type := Some "user"%string;
                    au_entity_id := Some (uuid_str (u_id user)); au_before := None;
                    au_after := Some [("role"%string, VStr (role_value role))]; au_ip := ip |}
         (add_draws 2 (set_users (users s ++ [user]) s)))
  end.

Definition user_audit (u : User) (action : string) (after : option (dict string pyval)) (ip : option string)
  : AuditLog :=
  {| au_actor := u_email u; au_action := action; au_entity_type := Some "user"%string;
     au_entity_id := Some (uuid_str (u_id u)); au_before := None; au_after := after; au_ip := ip |}.

(** A failed login commits its audit row before it raises. *)
Definition authenticate_user (now : Z) (email password : string) (ip : option string) (s : Accounts)
  : Res User * Accounts :=
  match get_user_by_email email s with
  | Some user =>
      if negb (argon2_verify (hashed_password user) password) then
        (Err AuthenticationError,
         add_audit {| au_actor := normalize_email email; au_action := LOGIN_FAILED; au_entity_type := None;
                      au_entity_id := None; au_before := None; au_after := None; au_ip := ip |} s)
      else if negb (is_active user) then
        (Err AuthenticationError,
         add_audit (user_audit user LOGIN_FAILED (Some [("reason", VStr "inactive")]%string) ip) s)
      else
        let rehash := argon2_needs_rehash (hashed_password user) in
        let user' := {| u_id := u_id user; u_email := u_email user;
                        hashed_password := if rehash then argon2_hash (draws s) password
                                           else hashed_password user;
                        u_role := u_role user; is_active := is_active user; last_login_at := Some now |} in
        (Ok user', add_audit (user_audit user LOGIN_SUCCEEDED None ip)
                     (add_draws (if rehash then 1 else 0) (put_user user' s)))
  | None =>
      (Err AuthenticationError,
       add_audit {| au_actor := normalize_email email; au_action := LOGIN_FAILED; au_entity_type := None;
                    au_entity_id := None; au_before := None; au_after := None; au_ip := ip |} s)
  end.

(** ** Tokens *)

Definition create_access_token (now user_id : Z) (role : string) (jti_hex : string) : string * Z :=
  let expires := now + seconds_td (60 * access_token_expire_minutes settings) in
  (jwt_encode [("sub", VStr (uuid_str user_id)); ("role", VStr role); ("type", VStr "access");
               ("jti", VStr jti_hex); ("iat", VInt (timestamp now)); ("exp", VInt (timestamp expires))]%string,
   expires).

(** [family_id or uuid4()]: a login draws a family before the [jti]. *)
Definition create_refresh_token (now user_id jti family : Z) : string * Z :=
  let expires := now + days_td (refresh_token_expire_days settings) in
  (jwt_encode [("sub", VStr (uuid_str user_id)); ("type", VStr "refresh"); ("jti", VStr (uuid_str jti));
               ("fam", VStr (uuid_str family)); ("iat", VInt (timestamp now));
               ("exp", VInt (timestamp expires))]%string,
   expires).

Definition decode_token (now : Z) (token expected_type : string) : Res (dict string pyval) :=
  match jwt_decode now token with
  | None => Err AuthenticationError
  | Some payload =>
      if negb (match dget "type"%string payload with
               | Some (VStr t) => String.eqb t expected_type
               | _ => false
               end) then Err AuthenticationError
      else match dget "sub"%string payload with
           | Some v => if truthy v then Ok payload else Err AuthenticationError
           | None => Err AuthenticationError
           end
  end.

(** The clock is read once for each of the two tokens.  The first draw is the access
    token's [jti]. *)
Definition issue_token_pair (t_access t_refresh : Z) (user : User) (client : Client) (family : option Z)
    (s : Accounts) : TokenPair * Accounts :=
  let n := draws s in
  let access_jti := uuid4 n in
  let '(fam, j, used) := match family with
                         | Some f => (f, uuid4 (S n), 2%nat)
                         | None => (uuid4 (S n), uuid4 (S (S n)), 3%nat)
                         end in
  let '(access, access_exp) := create_access_token t_access (u_id user) (role_value (u_role user))
                                 (uuid_hex access_jti) in
  let '(refresh, refresh_exp) := create_refresh_token t_refresh (u_id user) j fam in
  let row := {| rt_user := u_id user; jti := uuid_str j; family_id := fam; expires_at := refresh_exp;
                revoked_at := None; replaced_by_jti := None; created_ip := cl_ip client;
                user_agent := clip_agent (cl_agent client) |} in
  ({| access_token := access; access_expires_at := access_exp; refresh_token := refresh; refresh_jti := j;
      refresh_family_id := fam; refresh_expires_at := refresh_exp |},
   add_draws used (set_tokens (refresh_tokens s ++ [row]) s)).

Definition revoked_now (now : Z) (replaced : option string) (t : RefreshToken) : RefreshToken :=
  {| rt_user := rt_user t; jti := jti t; family_id := family_id t; expires_at := expires_at t;
     revoked_at := Some now; replaced_by_jti := replaced; created_ip := created_ip t;
     user_agent := user_agent t |}.

(** Revoke every active token of a family; how many there were. *)
Definition revoke_family (now family : Z) (s : Accounts) : Z * Accounts :=
  let hit t := (family_id t =? family) && negb (is_revoked t) in
  (Z.of_nat (length (List.filter hit (refresh_tokens s))),
   set_tokens (map (fun t => if hit t then revoked_now now (replaced_by_jti t) t else t) (refresh_tokens s)) s).

(** What [rotate_refresh] reads: the row of the presented token and its user. *)
Inductive RotateCheck :=
| Reused (row : RefreshToken)
| Fresh (row : RefreshToken) (user : User)
| Refused (e : PyErr).

Definition rotate_read (now : Z) (raw : string) (s : Accounts) : RotateCheck :=
  match decode_token now raw "refresh" with
  | Err e => Refused e
  | Ok payload =>
      match get_refresh_row (py_str (dget_or "jti" (VStr "") payload)) s with
      | None => Refused AuthenticationError
      | Some row =>
          if is_revoked row then Reused row
          else match get_user (rt_user row) s with
               | Some user => if is_active user then Fresh row user else Refused AuthenticationError
               | None => Refused AuthenticationError
               end
      end
  end%string.

(** Reuse: the family is revoked and the event audited and committed before raising. *)
Definition reuse_detected (now : Z) (row : RefreshToken) (ip : option string) (s : Accounts) : Accounts :=
  add_audit {| au_actor := uuid_str (rt_user row); au_action := TOKEN_REUSE_DETECTED;
               au_entity_type := Some "refresh_token"%string; au_entity_id := Some (jti row); au_before := None;
               au_after := Some [("family_id", VStr (uuid_str (family_id row)));
                                 ("action", VStr "family_revoked")]%string; au_ip := ip |}
    (revoke_family now (family_id row) s).2.

(** The new pair is inserted and the loaded row written back, by its key. *)
Definition rotate_write (t_access t_refresh t_revoke : Z) (row : RefreshToken) (user : User) (client : Client)
    (s : Accounts) : TokenPair * Accounts :=
  let '(tp, s) := issue_token_pair t_access t_refresh user client (Some (family_id row)) s in
  let s := set_tokens (map (fun t => if String.eqb (jti t) (jti row)
                                     then revoked_now t_revoke (Some (uuid_str (refresh_jti tp))) t else t)
                           (refresh_tokens s)) s in
  (tp, add_audit (user_audit user TOKEN_REFRESHED None (cl_ip client)) s).

(** [clk n]: the n-th reading of the clock in the call. *)
Definition rotate_refresh (clk : nat -> Z) (raw : string) (client : Client) (s : Accounts)
  : Res (TokenPair * User) * Accounts :=
  match rotate_read (clk 0%nat) raw s with
  | Refused e => (Err e, s)
  | Reused row => (Err AuthenticationError, reuse_detected (clk 1%nat) row (cl_ip client) s)
  | Fresh row user =>
      let '(tp, s) := rotate_write (clk 1%nat) (clk 2%nat) (clk 3%nat) row user client s in
      (Ok (tp, user), s)
  end.

(** Logout. *)
Definition revoke_refresh (clk : nat -> Z) (raw actor : string) (s : Accounts) : bool * Accounts :=
  match decode_token (clk 0%nat) raw "refresh" with
  | Err _ => (false, s)
  | Ok payload =>
      match get_refresh_row (py_str (dget_or "jti" (VStr "") payload)) s with
      | None => (false, s)
      | Some row =>
          if is_revoked row then (false, s)
          else (true,
                add_audit {| au_actor := actor; au_action := LOGGED_OUT;
                             au_entity_type := Some "refresh_token"%string; au_entity_id := Some (jti row);
                             au_before := None; au_after := None; au_ip := None |}
                  (set_tokens (map (fun t => if String.eqb (jti t) (jti row)
                                             then revoked_now (clk 1%nat) (replaced_by_jti t) t else t)
                                   (refresh_tokens s)) s))
      end
  end%string.

(** ** Endpoints *)

(** [POST /auth/login]. *)
Definition login (clk : nat -> Z) (email password : string) (client : Client) (s : Accounts)
  : Res TokenPair * Accounts :=
  let '(r, s) := authenticate_user (clk 0%nat) email password (cl_ip client) s in
  match r with
  | Err e => (Err e, s)
  | Ok user => let '(tp, s) := issue_token_pair (clk 1%nat) (clk 2%nat) user client None s in (Ok tp, s)
  end.

(** [uuid.UUID(text)]. *)
Context (parse_uuid : string -> option Z).

Definition get_current_user (now : Z) (bearer : option string) (s : Accounts) : Res User :=
  match bearer with
  | None => Err AuthenticationError
  | Some token =>
      payload <-- decode_token now token "access" ;;
      match parse_uuid (py_str (dget_or "sub" VNone payload)) with
      | None => Err AuthenticationError
      | Some id =>
          match get_user id s with
          | Some user => if is_active user then Ok user else Err AuthenticationError
          | None => Err AuthenticationError
          end
      end
  end%string.

Definition require_role (required : string) (now : Z) (bearer : option string) (s : Accounts) : Res User :=
  user <-- get_current_user now bearer s ;;
  if role_at_least (role_value (u_role user)) required then Ok user else Err PermissionDeniedError.

(** [PATCH /users/{user_id}]. *)
Definition update_user (admin : User) (user_id : Z) (role : option UserRole) (active : option bool)
    (ip : option string) (s : Accounts) : Res User * Accounts :=
  if (user_id =? u_id admin) && match role with Some r => bool_decide (r <> u_role admin) | None => false end
  then (Err PermissionDeniedError, s)
  else match get_user user_id s with
       | None => (Err NotFoundError, s)
       | Some user =>
           let user' := {| u_id := u_id user; u_email := u_email user; hashed_password := hashed_password user;
                           u_role := match role with Some r => r | None => u_role user end;
                           is_active := match active with Some a => a | None => is_active user end;
                           last_login_at := last_login_at user |} in
           let view u := [("role", VStr (role_value (u_role u))); ("is_active", VBool (is_active u))]%string in
           (Ok user',
            add_audit {| au_actor := u_email admin; au_action := USER_UPDATED;
                         au_entity_type := Some "user"%string; au_entity_id := Some (uuid_str (u_id user));
                         au_before := Some (view user); au_after := Some (view user'); au_ip := ip |}
              (put_user user' s))
       end.
End Service.

Lemma normalize_idem e : normalize_email (normalize_email e) = normalize_email e.
Proof. unfold normalize_email. by rewrite py_strip_lower, py_strip_idem, str_lower_idem. Qed.

(** ** Sessions: the abstract machine

    What a refresh-token family promises: it is opened with one live token, rotation
    replaces that token, and once closed it never comes back. *)

Inductive Session := NoSession | Live (j : string) | Dead.

Inductive session_step : Session -> Session -> Prop :=
| session_stutter x : session_step x x
| session_opened j : session_step NoSession (Live j)
| session_rotated j j' : j <> j' -> session_step (Live j) (Live j')
| session_closed j : session_step (Live j) Dead.

Definition of_family (f : Z) (t : RefreshToken) : bool := family_id t =? f.
Definition live_token (f : Z) (t : RefreshToken) : bool := of_family f t && negb (is_revoked t).

(** The session a family's rows stand for. *)
Definition session (f : Z) (l : list RefreshToken) : Session :=
  match List.filter (live_token f) l with
  | t :: _ => Live (jti t)
  | [] => if existsb (of_family f) l then Dead else NoSession
  end.

(** At most one token of a family is live. *)
Definition single (l : list RefreshToken) : Prop :=
  forall t t', t ∈ l -> t' ∈ l -> family_id t = family_id t' ->
    revoked_at t = None -> revoked_at t' = None -> t = t'.

Lemma is_revoked_false t : is_revoked t = false <-> revoked_at t = None.
Proof. unfold is_revoked. rewrite bool_decide_eq_false. split; [by intros ?%dec_stable|by intros -> ?]. Qed.

Lemma live_token_true f t : live_token f t = true <-> family_id t = f /\ revoked_at t = None.
Proof. unfold live_token, of_family. by rewrite andb_true_iff, Z.eqb_eq, negb_true_iff, is_revoked_false. Qed.

Lemma live_tokens f t l : t ∈ List.filter (live_token f) l <-> t ∈ l /\ family_id t = f /\ revoked_at t = None.
Proof. by rewrite list_elem_of_In, filter_In, live_token_true, <- list_elem_of_In. Qed.

Lemma session_live f j l : single l ->
  session f l = Live j <-> exists t, t ∈ l /\ family_id t = f /\ revoked_at t = None /\ jti t = j.
Proof.
  intros Hs. unfold session. destruct (List.filter (live_token f) l) as [|t l'] eqn:E.
  - split; [by destruct (existsb _ _)|]. intros (t & Hin & Hf & Hr & _).
    assert (Ht : t ∈ List.filter (live_token f) l) by (by apply live_tokens).
    rewrite E in Ht. by apply elem_of_nil in Ht.
  - assert (Ht : t ∈ List.filter (live_token f) l) by (rewrite E; by left).
    apply live_tokens in Ht as (Hin & Hf & Hr). split; [intros [= <-]; eauto 10|].
    intros (t' & Hin' & Hf' & Hr' & <-). do 2 f_equal. apply Hs; congruence.
Qed.

Lemma session_dead f l :
  session f l = Dead <-> (exists t, t ∈ l /\ family_id t = f) /\
                         (forall t, t ∈ l -> family_id t = f -> revoked_at t <> None).
Proof.
  unfold session. destruct (List.filter (live_token f) l) as [|t l'] eqn:E.
  - assert (Hn : forall t, t ∈ l -> family_id t = f -> revoked_at t <> None).
    { intros t Hin Hf Hr. assert (Ht : t ∈ List.filter (live_token f) l) by (by apply live_tokens).
      rewrite E in Ht. by apply elem_of_nil in Ht. }
    destruct (existsb (of_family f) l) eqn:Ex.
    + apply existsb_exists in Ex as (t & Hin & Hf). apply list_elem_of_In in Hin. apply Z.eqb_eq in Hf.
      split; [intros _; eauto|done].
    + split; [done|]. intros [(t & Hin & Hf) _]. exfalso. apply not_true_iff_false in Ex. apply Ex.
      apply existsb_exists. exists t. rewrite <- list_elem_of_In. split; [done|]. by apply Z.eqb_eq.
  - split; [done|]. intros [_ Hn]. exfalso.
    assert (Ht : t ∈ List.filter (live_token f) l) by (rewrite E; by left).
    apply live_tokens in Ht as (Hin & Hf & Hr). by eapply Hn.
Qed.

Lemma session_none f l : session f l = NoSession <-> forall t, t ∈ l -> family_id t <> f.
Proof.
  unfold session. destruct (List.filter (live_token f) l) as [|t l'] eqn:E.
  - destruct (existsb (of_family f) l) eqn:Ex.
    + split; [done|]. intros Hn. apply existsb_exists in Ex as (t & Hin & Hf). apply list_elem_of_In in Hin.
      apply Z.eqb_eq in Hf. by destruct (Hn t).
    + split; [|done]. intros _ t Hin Hf. apply not_true_iff_false in Ex. apply Ex.
      apply existsb_exists. exists t. rewrite <- list_elem_of_In. split; [done|]. by apply Z.eqb_eq.
  - split; [done|]. intros Hn. exfalso.
    assert (Ht : t ∈ List.filter (live_token f) l) by (rewrite E; by left).
    apply live_tokens in Ht as (Hin & Hf & Hr). by eapply Hn.
Qed.

(** Marking rows of a table as revoked, which keeps their identity. *)
Section Marking.
Context (hit : RefreshToken -> bool) (now : Z) (next : RefreshToken -> option string).

Definition marked (t : RefreshToken) : RefreshToken :=
  if hit t then revoked_now now (next t) t else t.

Lemma marked_same t :
  jti (marked t) = jti t /\ family_id (marked t) = family_id t /\ rt_user (marked t) = rt_user t.
Proof. unfold marked. by destruct (hit t). Qed.

Lemma marked_live t : revoked_at (marked t) = None <-> hit t = false /\ revoked_at t = None.
Proof. unfold marked. destruct (hit t); simpl; naive_solver. Qed.

Lemma marked_jtis l : map jti (map marked l) = map jti l.
Proof. rewrite map_map. apply map_ext. intros t. apply marked_same. Qed.

Lemma elem_of_marked t l : t ∈ map marked l <-> exists t0, t0 ∈ l /\ t = marked t0.
Proof. rewrite list_elem_of_In, in_map_iff. setoid_rewrite <- list_elem_of_In. naive_solver. Qed.

Lemma marked_single l : single l -> single (map marked l).
Proof.
  intros Hs t t' (t0 & Hin & ->)%elem_of_marked (t0' & Hin' & ->)%elem_of_marked.
  destruct (marked_same t0) as (_ & -> & _), (marked_same t0') as (_ & -> & _).
  intros Hf [_ Hr]%marked_live [_ Hr']%marked_live. f_equal. by apply Hs.
Qed.

(** Revocation leaves a session alone, or closes it. *)
Lemma marked_session f l : single l ->
  session f (map marked l) =
    match session f l with
    | Live j => if existsb (fun t => live_token f t && hit t) l then Dead else Live j
    | x => x
    end.
Proof.
  intros Hs. pose proof (marked_single l Hs) as Hm. destruct (session f l) as [|j|] eqn:E.
  - apply session_none. intros t (t0 & Hin & ->)%elem_of_marked.
    destruct (marked_same t0) as (_ & -> & _). by apply (proj1 (session_none f l)).
  - apply session_live in E as (t & Hin & Hf & Hr & Hj); [|done].
    destruct (existsb (fun t => live_token f t && hit t) l) eqn:Ex.
    + apply existsb_exists in Ex as (t1 & Hin1 & [[Hf1 Hr1]%live_token_true Hh]%andb_true_iff).
      apply list_elem_of_In in Hin1. apply session_dead. split.
      * exists (marked t). destruct (marked_same t) as (_ & -> & _). split; [|done]. apply elem_of_marked. eauto.
      * intros t2 (t0 & Hin0 & ->)%elem_of_marked. destruct (marked_same t0) as (_ & -> & _).
        intros Hf0 [Hh0 Hr0]%marked_live.
        assert (t0 = t1) as -> by (apply Hs; congruence). congruence.
    + apply session_live; [done|]. exists (marked t). destruct (marked_same t) as (-> & -> & _).
      split_and!; try done; [apply elem_of_marked; eauto|]. apply marked_live. split; [|done].
      destruct (hit t) eqn:Eh; [|done]. apply not_true_iff_false in Ex. exfalso. apply Ex.
      apply existsb_exists. exists t. rewrite <- list_elem_of_In, andb_true_iff, live_token_true. done.
  - apply session_dead in E as [(t & Hin & Hf) Hn]. apply session_dead. split.
    + exists (marked t). destruct (marked_same t) as (_ & -> & _). split; [|done]. apply elem_of_marked. eauto.
    + intros t2 (t0 & Hin0 & ->)%elem_of_marked. destruct (marked_same t0) as (_ & -> & _).
      intros Hf0 [_ Hr0]%marked_live. by eapply Hn.
Qed.
End Marking.

Section Sound.
Context `{PlatformOk}.
Context (settings : AuthSettings) (uuid_str uuid_hex : Z -> string) (argon2_hash : nat -> string -> string)
  (argon2_verify : string -> string -> bool) (argon2_needs_rehash : string -> bool)
  (jwt_encode : dict string pyval -> string) (jwt_decode : Z -> string -> option (dict string pyval))
  (parse_uuid : string -> option Z).
(** Distinct uuids print differently. *)
Context (uuid_str_inj : forall a b, uuid_str a = uuid_str b -> a = b).

Notation register_user := (register_user uuid_str argon2_hash).
Notation authenticate_user := (authenticate_user uuid_str argon2_hash argon2_verify argon2_needs_rehash).
Notation issue_token_pair := (issue_token_pair settings uuid_str uuid_hex jwt_encode).
Notation rotate_read := (rotate_read jwt_decode).
Notation rotate_write := (rotate_write settings uuid_str uuid_hex jwt_encode).
Notation rotate_refresh := (rotate_refresh settings uuid_str uuid_hex jwt_encode jwt_decode).
Notation revoke_refresh := (revoke_refresh jwt_decode).
Notation login := (login settings uuid_str uuid_hex argon2_hash argon2_verify argon2_needs_rehash jwt_encode).
Notation update_user := (update_user uuid_str).
Notation reuse_detected := (reuse_detected uuid_str).
Notation get_current_user := (get_current_user jwt_decode parse_uuid).
Notation require_role := (require_role jwt_decode parse_uuid).

(** What every history of requests keeps. *)
Record acc_inv (s : Accounts) : Prop := {
  ai_single : single (refresh_tokens s);
  ai_jtis : NoDup (map jti (refresh_tokens s));
  ai_drawn : forall t, t ∈ refresh_tokens s -> exists a b,
    (a < draws s)%nat /\ (b < draws s)%nat /\ jti t = uuid_str (uuid4 a) /\ family_id t = uuid4 b;
  ai_owner : forall t, t ∈ refresh_tokens s -> rt_user t ∈ map u_id (users s);
  ai_users : NoDup (map u_id (users s));
  ai_user_drawn : forall u, u ∈ users s -> exists a, (a < draws s)%nat /\ u_id u = uuid4 a;
  ai_emails : NoDup (map u_email (users s))
}.

(** Requests, one at a time. *)
Inductive auth_op :=
| Register (email password : string) (ip : option string) (role_override : option UserRole)
| Login (clk : nat -> Z) (email password : string) (client : Client)
| Refresh (clk : nat -> Z) (raw : string) (client : Client)
| Logout (clk : nat -> Z) (raw actor : string)
| Update (admin : User) (user_id : Z) (role : option UserRole) (active : option bool) (ip : option string).

Definition auth_step (s : Accounts) (op : auth_op) : Accounts :=
  match op with
  | Register email password ip role => (register_user email password ip role s).2
  | Login clk email password client => (login clk email password client s).2
  | Refresh clk raw client => (rotate_refresh clk raw client s).2
  | Logout clk raw actor => (revoke_refresh clk raw actor s).2
  | Update admin user_id role active ip => (update_user admin user_id role active ip s).2
  end.

Definition no_accounts : Accounts := {| users := []; refresh_tokens := []; audit_log := []; draws := O |}.

Lemma no_accounts_inv : acc_inv no_accounts.
Proof. split; simpl; try constructor; try (intros ? Hin; by apply elem_of_nil in Hin). by intros t t' ?%elem_of_nil. Qed.

(** The audit trail is in nobody's way. *)
Lemma add_audit_inv a s : acc_inv s -> acc_inv (add_audit a s).
Proof. by intros []. Qed.

Lemma add_draws_inv n s : acc_inv s -> acc_inv (add_draws n s).
Proof.
  intros [H1 H2 H3 H4 H5 H6 H7]. split; try done; simpl.
  - intros t Ht. destruct (H3 t Ht) as (a & b & ? & ? & ? & ?). exists a, b. split_and!; [lia|lia|done|done].
  - intros u Hu. destruct (H6 u Hu) as (a & ? & ?). exists a. split; [lia|done].
Qed.

Lemma marked_inv hit now next s : acc_inv s ->
  acc_inv (set_tokens (map (marked hit now next) (refresh_tokens s)) s).
Proof.
  intros [H1 H2 H3 H4 H5 H6 H7]. split; try done; simpl.
  - by apply marked_single.
  - by rewrite marked_jtis.
  - intros t (t0 & Hin & ->)%elem_of_marked. destruct (marked_same hit now next t0) as (-> & -> & _). by apply H3.
  - intros t (t0 & Hin & ->)%elem_of_marked. destruct (marked_same hit now next t0) as (_ & _ & ->). by apply H4.
Qed.

(** A new token of a family that has no live one. *)
Lemma append_inv row n a b s : acc_inv s ->
  (draws s <= a < n + draws s)%nat -> jti row = uuid_str (uuid4 a) ->
  (b < n + draws s)%nat -> family_id row = uuid4 b -> rt_user row ∈ map u_id (users s) ->
  (forall j, session (family_id row) (refresh_tokens s) <> Live j) ->
  acc_inv (add_draws n (set_tokens (refresh_tokens s ++ [row]) s)).
Proof.
  intros Hi Ha Hj Hb Hf Ho Hl. pose proof (add_draws_inv n s Hi) as [_ _ H3 _ _ H6 _].
  destruct Hi as [H1 H2 H3' H4 H5 _ H7]. split; try done; simpl.
  - assert (Hnew : forall t, t ∈ refresh_tokens s -> family_id t = family_id row -> revoked_at t <> None).
    { intros t Hin Hft Hr. apply (Hl (jti t)). apply session_live; eauto. }
    intros t t' [Ht|Ht%list_elem_of_singleton]%elem_of_app [Ht'|Ht'%list_elem_of_singleton]%elem_of_app Hft Hr Hr';
      subst; [by apply H1| | |done].
    + by destruct (Hnew t).
    + by destruct (Hnew t').
  - rewrite map_app. apply NoDup_app. split_and!; [done| |apply NoDup_singleton].
    intros j (t & -> & Hin)%list_elem_of_fmap Hin'%list_elem_of_singleton.
    destruct (H3' t Hin) as (k & _ & Hk & _ & Hkj & _). rewrite Hkj, Hj in Hin'.
    apply uuid_str_inj, uuid4_inj in Hin'. lia.
  - intros t [Ht|Ht%list_elem_of_singleton]%elem_of_app; [by apply H3|subst]. exists a, b. split_and!; [lia|lia|done|done].
  - intros t [Ht|Ht%list_elem_of_singleton]%elem_of_app; [by apply H4|by subst].
Qed.

Lemma append_session row f l : single l ->
  (forall j, session (family_id row) l <> Live j) -> revoked_at row = None ->
  session f (l ++ [row]) = if decide (family_id row = f) then Live (jti row) else session f l.
Proof.
  intros Hs Hl Hr.
  unfold session. rewrite List.filter_app, existsb_app. cbn [List.filter existsb].
  replace (live_token f row) with (of_family f row)
    by (unfold live_token; rewrite (proj2 (is_revoked_false row) Hr); by rewrite andb_true_r).
  unfold of_family at 1 3. destruct (decide (family_id row = f)) as [<-|Hne].
  - rewrite Z.eqb_refl. destruct (List.filter _ l) as [|t l'] eqn:E; [done|].
    exfalso. apply (Hl (jti t)). unfold session. by rewrite E.
  - rewrite (proj2 (Z.eqb_neq _ _) Hne). by rewrite app_nil_r, !orb_false_r.
Qed.

Lemma put_user_inv u u' s : acc_inv s -> get_user (u_id u) s = Some u ->
  u_id u' = u_id u -> u_email u' = u_email u -> acc_inv (put_user u' s).
Proof.
  intros [H1 H2 H3 H4 H5 H6 H7] Hu Hid Hem. unfold get_user in Hu. apply find_some in Hu as [Hin _].
  apply list_elem_of_In in Hin.
  assert (Hids : map u_id (users (put_user u' s)) = map u_id (users s)).
  { simpl. rewrite map_map. apply map_ext. intros x. destruct (u_id x =? u_id u') eqn:E; [|done].
    apply Z.eqb_eq in E. congruence. }
  assert (Hems : map u_email (users (put_user u' s)) = map u_email (users s)).
  { simpl. rewrite map_map. apply map_ext_in. intros x Hx%list_elem_of_In.
    destruct (u_id x =? u_id u') eqn:E; [|done]. apply Z.eqb_eq in E.
    rewrite (unique_by u_id (users s) x u) by congruence. done. }
  split; try done.
  - intros t Ht. rewrite Hids. by apply H4.
  - by rewrite Hids.
  - intros x Hx. assert (Hx' : u_id x ∈ map u_id (users (put_user u' s))) by (by apply list_elem_of_fmap_2).
    rewrite Hids in Hx'. apply list_elem_of_fmap in Hx' as (y & -> & Hy). by apply H6.
  - by rewrite Hems.
Qed.

(** ** Each request refines the session machine *)

Definition refines (s s' : Accounts) : Prop :=
  acc_inv s' /\ forall f, session_step (session f (refresh_tokens s)) (session f (refresh_tokens s')).

Lemma refines_same s s' : acc_inv s' -> refresh_tokens s' = refresh_tokens s -> refines s s'.
Proof. intros Hi Ht. split; [done|]. intros f. rewrite Ht. constructor. Qed.

Lemma get_user_Some id s u : get_user id s = Some u -> u ∈ users s /\ u_id u = id.
Proof. intros [Hin Hid]%find_some. split; [by apply list_elem_of_In|by apply Z.eqb_eq]. Qed.

Lemma get_user_self id s u : get_user id s = Some u -> get_user (u_id u) s = Some u.
Proof. intros Hu. by destruct (get_user_Some _ _ _ Hu) as [_ ->]. Qed.

Lemma email_user s e u : acc_inv s -> get_user_by_email e s = Some u ->
  get_user (u_id u) s = Some u /\ u_email u = normalize_email e.
Proof.
  intros Hi [Hin He]%find_some. apply list_elem_of_In in Hin. apply String.eqb_eq in He. split; [|done].
  destruct (get_user (u_id u) s) as [u'|] eqn:E.
  - destruct (get_user_Some _ _ _ E) as [Hin' Hid']. f_equal.
    by apply (unique_by u_id (users s)); [apply (ai_users s Hi)| | |].
  - apply list_elem_of_In in Hin. apply (find_none _ _ E) in Hin. by rewrite Z.eqb_refl in Hin.
Qed.

Lemma refresh_row_Some j s t : get_refresh_row j s = Some t -> t ∈ refresh_tokens s /\ jti t = j.
Proof. intros [Hin Hj]%find_some. split; [by apply list_elem_of_In|by apply String.eqb_eq]. Qed.

Lemma register_refines email password ip role s : acc_inv s ->
  refines s (register_user email password ip role s).2.
Proof.
  intros Hi. unfold register_user. destruct (get_user_by_email _ s) as [u|] eqn:E; [by apply refines_same|].
  apply refines_same; [|done]. apply add_audit_inv. pose proof (add_draws_inv 2 s Hi) as [H1 H2 H3 H4 H5 H6 H7].
  set (new := {| u_email := _ |}). split; try done; simpl.
  - intros t Ht. rewrite map_app. apply elem_of_app. left. by apply H4.
  - rewrite map_app. apply NoDup_app. split_and!; [done| |apply NoDup_singleton].
    intros x (u & -> & Hu)%list_elem_of_fmap Hx%list_elem_of_singleton.
    destruct (ai_user_drawn s Hi u Hu) as (a & Ha & Hid). rewrite Hid in Hx. apply uuid4_inj in Hx. lia.
  - intros u [Hu|Hu%list_elem_of_singleton]%elem_of_app; [by apply H6|]. exists (S (draws s)). subst. split; [lia|done].
  - rewrite map_app. apply NoDup_app. split_and!; [done| |apply NoDup_singleton].
    intros x (u & -> & Hu)%list_elem_of_fmap Hx%list_elem_of_singleton. simpl in Hx.
    apply list_elem_of_In in Hu. apply (find_none _ _ E) in Hu.
    apply String.eqb_neq in Hu. apply Hu. by rewrite Hx, normalize_idem.
Qed.

Lemma authenticate_spec now email password ip s r s' : acc_inv s ->
  authenticate_user now email password ip s = (r, s') ->
  acc_inv s' /\ refresh_tokens s' = refresh_tokens s /\
  (forall u, r = Ok u -> u_id u ∈ map u_id (users s')).
Proof.
  intros Hi. unfold authenticate_user.
  destruct (get_user_by_email email s) as [u|] eqn:Eu;
    [|intros [= <- <-]; split_and!; [by apply add_audit_inv|done|done]].
  destruct (email_user s email u Hi Eu) as [Hu He].
  destruct (negb _); [intros [= <- <-]; split_and!; [by apply add_audit_inv|done|done]|].
  destruct (negb _); [intros [= <- <-]; split_and!; [by apply add_audit_inv|done|done]|].
  set (u' := {| u_id := u_id u |}). intros [= <- <-].
  assert (Hp : acc_inv (put_user u' s)) by by apply (put_user_inv u).
  split_and!; [by apply add_audit_inv, add_draws_inv|done|].
  intros ? [= <-]. simpl. apply list_elem_of_fmap. exists u'. split; [done|].
  apply list_elem_of_fmap. exists u. change (u_id u') with (u_id u). rewrite Z.eqb_refl.
  by destruct (get_user_Some _ _ _ Hu).
Qed.

(** The row a new pair stores. *)
Lemma issue_spec ta tr user client family s :
  exists row n b, (issue_token_pair ta tr user client family s).2 =
      add_draws n (set_tokens (refresh_tokens s ++ [row]) s) /\
    jti row = uuid_str (uuid4 b) /\ (draws s < b < n + draws s)%nat /\ rt_user row = u_id user /\
    revoked_at row = None /\ refresh_jti (issue_token_pair ta tr user client family s).1 = uuid4 b /\
    refresh_family_id (issue_token_pair ta tr user client family s).1 = family_id row /\
    match family with
    | Some f => family_id row = f
    | None => family_id row = uuid4 (S (draws s))
    end.
Proof.
  destruct family as [f|]; unfold Accounts.issue_token_pair; simpl.
  - eexists _, 2%nat, (S (draws s)). split_and!; try done; simpl; lia.
  - eexists _, 3%nat, (S (S (draws s))). split_and!; try done; simpl; lia.
Qed.

Lemma fresh_family s k : acc_inv s -> (draws s <= k)%nat -> session (uuid4 k) (refresh_tokens s) = NoSession.
Proof.
  intros Hi Hk. apply session_none. intros t Ht Hf. destruct (ai_drawn s Hi t Ht) as (_ & b & _ & Hb & _ & E).
  rewrite E in Hf. apply uuid4_inj in Hf. lia.
Qed.

Lemma login_refines clk email password client s : acc_inv s ->
  refines s (login clk email password client s).2.
Proof.
  intros Hi. unfold Accounts.login.
  destruct (authenticate_user _ _ _ _ s) as [r s1] eqn:Ea.
  destruct (authenticate_spec _ _ _ _ _ _ _ Hi Ea) as (Hi1 & Ht & Hu).
  destruct r as [user|e]; [|by apply refines_same]. specialize (Hu user eq_refl).
  destruct (issue_spec (clk 1%nat) (clk 2%nat) user client None s1)
    as (row & n & b & Hs & Hj & Hb & Ho & Hr & _ & _ & Hf).
  destruct (issue_token_pair _ _ _ _ _ s1) as [tp s2]. simpl in Hs |- *. subst s2.
  pose proof (fresh_family s1 (S (draws s1)) Hi1 ltac:(lia)) as Hno. rewrite <- Hf in Hno.
  assert (Hl : forall j, session (family_id row) (refresh_tokens s1) <> Live j) by (intros j; by rewrite Hno).
  split; [apply (append_inv row n b (S (draws s1))); try done; [lia|lia|by rewrite Ho]|].
  intros f. simpl. rewrite <- Ht, append_session by (done || apply (ai_single s1 Hi1)).
  destruct (decide (family_id row = f)) as [<-|]; [rewrite Hno|]; constructor.
Qed.

Lemma rotate_read_fresh now raw s row user : rotate_read now raw s = Fresh row user ->
  row ∈ refresh_tokens s /\ revoked_at row = None /\ get_user (rt_user row) s = Some user /\ is_active user = true.
Proof.
  unfold Accounts.rotate_read. destruct (decode_token _ _ _ _) as [p|]; [|done].
  destruct (get_refresh_row _ s) as [r|] eqn:Er; [|done].
  destruct (is_revoked r) eqn:Ev; [done|]. destruct (get_user _ s) as [u|] eqn:Eu; [|done].
  destruct (is_active u) eqn:Ea; [|done]. intros [= <- <-].
  apply refresh_row_Some in Er as [Hin _]. by apply is_revoked_false in Ev.
Qed.

Lemma rotate_read_reused now raw s row : rotate_read now raw s = Reused row ->
  row ∈ refresh_tokens s /\ revoked_at row <> None.
Proof.
  unfold Accounts.rotate_read. destruct (decode_token _ _ _ _) as [p|]; [|done].
  destruct (get_refresh_row _ s) as [r|] eqn:Er; [|done].
  destruct (is_revoked r) eqn:Ev; [|by destruct (get_user _ s) as [u|]; [destruct (is_active u)|]].
  intros [= <-]. apply refresh_row_Some in Er as [Hin _]. split; [done|]. intros Hr.
  apply is_revoked_false in Hr. congruence.
Qed.

(** Whether the presented row is the live one of its family. *)
Lemma live_row s row : acc_inv s -> row ∈ refresh_tokens s -> revoked_at row = None ->
  session (family_id row) (refresh_tokens s) = Live (jti row).
Proof. intros Hi Hin Hr. apply session_live; [apply (ai_single s Hi)|]. eauto. Qed.

(** Writing the rotation of the row just read: the live token is replaced. *)
Lemma rotate_write_spec ta tr tv row user client s :
  acc_inv s -> row ∈ refresh_tokens s -> revoked_at row = None -> get_user (rt_user row) s = Some user ->
  let r := rotate_write ta tr tv row user client s in
  let j := uuid_str (refresh_jti r.1) in
  acc_inv r.2 /\ jti row <> j /\ (draws s <= draws r.2)%nat /\
  forall f, session f (refresh_tokens r.2) =
            if decide (family_id row = f) then Live j else session f (refresh_tokens s).
Proof.
  intros Hi Hin Hr Hu. cbv zeta. unfold Accounts.rotate_write.
  destruct (issue_spec ta tr user client (Some (family_id row)) s)
    as (new & n & b & Hs & Hj & Hb & Ho & Hrn & Hp & Hpf & Hf).
  destruct (issue_token_pair _ _ _ _ _ s) as [tp s2]. simpl in Hs, Hp, Hpf. subst s2. simpl.
  rewrite Hp, <- Hj. set (hit t := String.eqb (jti t) (jti row)).
  destruct (ai_drawn s Hi row Hin) as (a & c & Ha & Hc & Hja & Hfc).
  assert (Hne : jti row <> jti new).
  { rewrite Hja, Hj. intros E%uuid_str_inj%uuid4_inj. lia. }
  set (g := marked hit tv (fun _ => Some (jti new))).
  assert (Hg : map (fun t => if String.eqb (jti t) (jti row) then revoked_now tv (Some (jti new)) t else t)
                 (refresh_tokens s ++ [new]) = map g (refresh_tokens s) ++ [new]).
  { rewrite map_app. f_equal. simpl. by rewrite (proj2 (String.eqb_neq _ _)) by congruence. }
  rewrite Hg.
  pose proof (marked_inv hit tv (fun _ => Some (jti new)) s Hi) as Him. fold g in Him.
  assert (Hd : session (family_id row) (map g (refresh_tokens s)) = Dead).
  { unfold g. rewrite marked_session by apply (ai_single s Hi). rewrite (live_row s row Hi Hin Hr).
    rewrite (proj2 (existsb_exists _ _)); [done|]. exists row. rewrite <- list_elem_of_In, andb_true_iff, live_token_true.
    unfold hit. by rewrite String.eqb_refl. }
  destruct (get_user_Some _ _ _ Hu) as [Hui Huid]. split_and!; [|done|simpl; lia|].
  - apply add_audit_inv.
    apply (append_inv new n b c (set_tokens (map g (refresh_tokens s)) s)); try done; simpl; [lia|lia|congruence| |].
    + rewrite Ho. by apply list_elem_of_fmap_2.
    + intros j. by rewrite Hf, Hd.
  - intros f. rewrite append_session; [|apply (ai_single _ Him)|intros j; by rewrite Hf, Hd|done].
    rewrite Hf. destruct (decide (family_id row = f)) as [|Hnf]; [done|].
    unfold g. rewrite marked_session by apply (ai_single s Hi).
    destruct (session f (refresh_tokens s)) as [|j|]; try done.
    rewrite (proj1 (not_true_iff_false _)); [done|]. intros (t & Ht & [[Hft _]%live_token_true Hht]%andb_true_iff)%existsb_exists.
    apply list_elem_of_In in Ht. apply String.eqb_eq in Hht. apply Hnf. rewrite <- Hft. symmetry. f_equal.
    by apply (unique_by jti (refresh_tokens s)); [apply (ai_jtis s Hi)| | |].
Qed.

(** Reuse closes the family, and only it. *)
Lemma reuse_spec now row ip s : acc_inv s -> row ∈ refresh_tokens s ->
  acc_inv (reuse_detected now row ip s) /\
  forall f, session f (refresh_tokens (reuse_detected now row ip s)) =
            if decide (family_id row = f) then Dead else session f (refresh_tokens s).
Proof.
  intros Hi Hin. unfold Accounts.reuse_detected, revoke_family. simpl.
  set (hit t := (family_id t =? family_id row) && negb (is_revoked t)).
  change (map _ (refresh_tokens s)) with (map (marked hit now replaced_by_jti) (refresh_tokens s)).
  split; [by apply add_audit_inv, marked_inv|]. intros f.
  rewrite marked_session by apply (ai_single s Hi).
  destruct (decide (family_id row = f)) as [<-|Hne].
  - destruct (session _ _) as [|j|] eqn:Es; [|rewrite (proj2 (existsb_exists _ _)); [done|]|done].
    + exfalso. by apply (proj1 (session_none _ _) Es row).
    + apply session_live in Es as (t & Ht & Hf & Hr & _); [|apply (ai_single s Hi)]. exists t.
      rewrite <- list_elem_of_In, andb_true_iff, live_token_true. unfold hit.
      by rewrite Hf, Z.eqb_refl, (proj2 (is_revoked_false t) Hr).
  - destruct (session f _) as [|j|]; try done. rewrite (proj1 (not_true_iff_false _)); [done|].
    intros (t & _ & [[Hf _]%live_token_true [Hh%Z.eqb_eq _]%andb_true_iff]%andb_true_iff)%existsb_exists. congruence.
Qed.

Lemma refresh_refines clk raw client s : acc_inv s -> refines s (rotate_refresh clk raw client s).2.
Proof.
  intros Hi. unfold Accounts.rotate_refresh. destruct (rotate_read _ raw s) as [row|row user|e] eqn:Er.
  - apply rotate_read_reused in Er as [Hin Hr]. destruct (reuse_spec (clk 1%nat) row (cl_ip client) s Hi Hin) as [Hi' Hs].
    split; [done|]. intros f. simpl. rewrite Hs. destruct (decide _) as [<-|]; [|constructor].
    destruct (session _ (refresh_tokens s)) as [|j|] eqn:Es; [|constructor..].
    exfalso. by apply (proj1 (session_none _ _) Es row).
  - apply rotate_read_fresh in Er as (Hin & Hr & Hu & _).
    destruct (rotate_write_spec (clk 1%nat) (clk 2%nat) (clk 3%nat) row user client s Hi Hin Hr Hu) as (Hi' & Hne & _ & Hs).
    destruct (rotate_write _ _ _ row user client s) as [tp s']. simpl in *. split; [done|]. intros f. rewrite Hs.
    destruct (decide _) as [<-|]; [|constructor]. rewrite (live_row s row Hi Hin Hr). by constructor.
  - by apply refines_same.
Qed.

Lemma logout_refines clk raw actor s : acc_inv s -> refines s (revoke_refresh clk raw actor s).2.
Proof.
  intros Hi. unfold Accounts.revoke_refresh. destruct (decode_token _ _ _ _) as [p|]; [|by apply refines_same].
  destruct (get_refresh_row _ s) as [row|]; [|by apply refines_same].
  destruct (is_revoked row); [by apply refines_same|]. simpl.
  set (hit t := String.eqb (jti t) (jti row)).
  change (map _ (refresh_tokens s)) with (map (marked hit (clk 1%nat) replaced_by_jti) (refresh_tokens s)).
  split; [by apply add_audit_inv, marked_inv|]. intros f. simpl.
  rewrite marked_session by apply (ai_single s Hi).
  destruct (session f _) as [|j|]; [constructor| |constructor]. destruct (existsb _ _); constructor.
Qed.

Lemma update_refines admin id role active ip s : acc_inv s -> refines s (update_user admin id role active ip s).2.
Proof.
  intros Hi. unfold Accounts.update_user. destruct (_ && _); [by apply refines_same|].
  destruct (get_user id s) as [u|] eqn:Eu; [|by apply refines_same]. simpl.
  apply refines_same; [|done]. apply add_audit_inv. apply get_user_self in Eu. by apply (put_user_inv u).
Qed.

Lemma auth_step_refines s op : acc_inv s -> refines s (auth_step s op).
Proof.
  intros Hi. destruct op; simpl;
    [by apply register_refines|by apply login_refines|by apply refresh_refines|by apply logout_refines|by apply update_refines].
Qed.

Lemma auth_run_inv ops : forall s, acc_inv s -> acc_inv (foldl auth_step s ops).
Proof. induction ops as [|op ops IH]; intros s Hi; [done|]. simpl. apply IH. by apply auth_step_refines. Qed.

(** A closed family stays closed. *)
Lemma dead_forever f ops : forall s, acc_inv s -> session f (refresh_tokens s) = Dead ->
  session f (refresh_tokens (foldl auth_step s ops)) = Dead.
Proof.
  induction ops as [|op ops IH]; intros s Hi Hd; [done|]. simpl.
  destruct (auth_step_refines s op Hi) as [Hi' Hs]. apply IH; [done|].
  specialize (Hs f). rewrite Hd in Hs. by inversion Hs.
Qed.

(** ** Properties *)

(** A request presents the token of a row. *)
Definition presents (now : Z) (raw : string) (t : RefreshToken) : Prop :=
  exists payload, decode_token jwt_decode now raw "refresh" = Ok payload /\
    py_str (dget_or "jti"%string (VStr "") payload) = jti t.

Lemma presented_row now raw t s : acc_inv s -> t ∈ refresh_tokens s -> presents now raw t ->
  rotate_read now raw s =
    if is_revoked t then Reused t
    else match get_user (rt_user t) s with
         | Some user => if is_active user then Fresh t user else Refused AuthenticationError
         | None => Refused AuthenticationError
         end.
Proof.
  intros Hi Hin (p & Hp & Hj). unfold Accounts.rotate_read. rewrite Hp, Hj.
  destruct (get_refresh_row (jti t) s) as [r|] eqn:Er.
  - apply refresh_row_Some in Er as [Hr Hrj].
    by rewrite (unique_by jti (refresh_tokens s) r t (ai_jtis s Hi) Hr Hin Hrj).
  - exfalso. apply list_elem_of_In in Hin. apply (find_none _ _ Er) in Hin. by rewrite String.eqb_refl in Hin.
Qed.

(** C13: Sessions behave like the abstract machine.  After any sequence of registrations,
    logins, refreshes, logouts and admin updates, ids, e-mail addresses and token ids are
    unique, every token belongs to an account, a family has at most one live token; and
    whatever request comes next, every family is left alone, opened with one live token,
    has its live token replaced by a new one, or is closed - never reopened. *)
Theorem session_refinement (ops : list auth_op) (op : auth_op) (f : Z) :
  let s := foldl auth_step no_accounts ops in
  acc_inv s /\
  session_step (session f (refresh_tokens s)) (session f (refresh_tokens (auth_step s op))).
Proof.
  intros s. assert (Hi : acc_inv s) by (apply auth_run_inv, no_accounts_inv).
  split; [done|]. by apply auth_step_refines.
Qed.

(** A stolen family is closed for good.  Presenting a token that was rotated or
    revoked before is refused, closes its family and no other, and is audited, although
    the request fails; and whatever requests follow, presenting any token of that family
    is refused and issues nothing. *)
Theorem reuse_closes_family (clk : nat -> Z) (raw : string) (client : Client) (s : Accounts) (t : RefreshToken) :
  acc_inv s -> t ∈ refresh_tokens s -> revoked_at t <> None -> presents (clk 0%nat) raw t ->
  exists s', rotate_refresh clk raw client s = (Err AuthenticationError, s') /\
    (forall f, session f (refresh_tokens s') =
               if decide (family_id t = f) then Dead else session f (refresh_tokens s)) /\
    users s' = users s /\ length (refresh_tokens s') = length (refresh_tokens s) /\
    (exists a, audit_log s' = audit_log s ++ [a] /\ au_action a = TOKEN_REUSE_DETECTED /\
               au_entity_id a = Some (jti t)) /\
    (forall ops clk' raw' client' t', let s2 := foldl auth_step s' ops in
       t' ∈ refresh_tokens s2 -> family_id t' = family_id t -> presents (clk' 0%nat) raw' t' ->
       (rotate_refresh clk' raw' client' s2).1 = Err AuthenticationError /\
       session (family_id t) (refresh_tokens (rotate_refresh clk' raw' client' s2).2) = Dead).
Proof.
  intros Hi Hin Hr Hp. exists (reuse_detected (clk 1%nat) t (cl_ip client) s).
  destruct (reuse_spec (clk 1%nat) t (cl_ip client) s Hi Hin) as [Hi' Hs].
  assert (Hrev : is_revoked t = true) by (by apply bool_decide_eq_true).
  split_and!; [|done|done|by simpl; rewrite length_map|by eexists|].
  - unfold Accounts.rotate_refresh. by rewrite (presented_row _ _ t s), Hrev.
  - intros ops clk' raw' client' t' s2 Hin' Hf Hp'.
    assert (Hi2 : acc_inv s2) by by apply auth_run_inv.
    assert (Hd : session (family_id t) (refresh_tokens s2) = Dead)
      by (apply dead_forever; [done|]; rewrite Hs; by destruct (decide _)).
    assert (Hr' : is_revoked t' = true).
    { apply bool_decide_eq_true. by apply session_dead in Hd as [_ Hn]; apply Hn. }
    unfold Accounts.rotate_refresh. rewrite (presented_row _ _ t' s2 Hi2 Hin' Hp'), Hr'. split; [done|].
    cbn [snd]. destruct (reuse_spec (clk' 1%nat) t' (cl_ip client') s2 Hi2 Hin') as [_ Hs2]. rewrite Hs2.
    by destruct (decide (family_id t' = family_id t)).
Qed.

(** Two refreshes of one token that overlap fork the session.  If both requests read
    the token's row before either writes - nothing locks the row - both succeed, and the
    family then has two live tokens: the reuse is not detected, now or when either of the
    two is presented next. *)
Theorem concurrent_refresh_forks (now ta tr tv ta' tr' tv' : Z) (raw : string) (row : RefreshToken) (user : User)
    (c c' : Client) (s : Accounts) :
  acc_inv s -> rotate_read now raw s = Fresh row user ->
  let '(p, s1) := rotate_write ta tr tv row user c s in
  let '(p', s2) := rotate_write ta' tr' tv' row user c' s1 in
  exists t t', t ∈ refresh_tokens s2 /\ t' ∈ refresh_tokens s2 /\
    jti t = uuid_str (refresh_jti p) /\ jti t' = uuid_str (refresh_jti p') /\ jti t <> jti t' /\
    family_id t = family_id row /\ family_id t' = family_id row /\
    revoked_at t = None /\ revoked_at t' = None.
Proof.
  intros Hi Hread. apply rotate_read_fresh in Hread as (Hin & Hr & Hu & _).
  pose proof (rotate_write_spec ta tr tv row user c s Hi Hin Hr Hu) as (Hi1 & Hne & Hd & Hs1).
  destruct (rotate_write ta tr tv row user c s) as [p s1]. cbn [fst snd] in *.
  specialize (Hs1 (family_id row)). rewrite decide_True in Hs1 by done.
  apply session_live in Hs1 as (t & Ht & Hft & Hrt & Hjt); [|apply (ai_single s1 Hi1)].
  unfold Accounts.rotate_write.
  destruct (issue_spec ta' tr' user c' (Some (family_id row)) s1)
    as (new & n & b & Hs & Hj & Hb & _ & Hrn & Hp & _ & Hf).
  destruct (issue_token_pair _ _ _ _ _ s1) as [p' s2]. cbn [fst snd] in Hs, Hp. subst s2. simpl.
  rewrite Hp, <- Hj. set (hit t := String.eqb (jti t) (jti row)).
  change (fun t => if String.eqb (jti t) (jti row) then _ else t) with
    (marked hit tv' (fun _ => Some (jti new))).
  destruct (ai_drawn s1 Hi1 t Ht) as (a & _ & Ha & _ & Hja & _).
  assert (Hn : jti t <> jti new) by (rewrite Hja, Hj; intros E%uuid_str_inj%uuid4_inj; lia).
  assert (Hk : forall x, x ∈ refresh_tokens s1 ++ [new] -> jti x <> jti row ->
            x ∈ map (marked hit tv' (fun _ => Some (jti new))) (refresh_tokens s1 ++ [new])).
  { intros x Hx Hxj. apply elem_of_marked. exists x. split; [done|]. unfold marked, hit.
    by rewrite (proj2 (String.eqb_neq _ _)). }
  assert (Hnr : jti new <> jti row).
  { destruct (ai_drawn s Hi row Hin) as (k & _ & Hk' & _ & Hkj & _). rewrite Hj, Hkj.
    intros E%uuid_str_inj%uuid4_inj. lia. }
  exists t, new. split_and!; try done.
  - apply Hk; [apply elem_of_app; by left|congruence].
  - apply Hk; [|done]. apply elem_of_app. right. by left.
Qed.

(** Later requests that do not re-activate an account. *)
Definition keeps_disabled (id : Z) (op : auth_op) : Prop :=
  match op with Update _ i _ (Some true) _ => i <> id | _ => True end.

Definition disabled (id : Z) (s : Accounts) : Prop :=
  exists u, get_user id s = Some u /\ is_active u = false.

Lemma get_put_user id u s : get_user id (put_user u s) =
  match get_user id s with Some x => Some (if u_id x =? u_id u then u else x) | None => None end.
Proof.
  unfold get_user, put_user. simpl. induction (users s) as [|x l IH]; [done|]. simpl.
  destruct (u_id x =? u_id u) eqn:E.
  - apply Z.eqb_eq in E. rewrite <- E. destruct (u_id x =? id); [by rewrite E, Z.eqb_refl|by rewrite E].
  - destruct (u_id x =? id); [by rewrite E|done].
Qed.

Lemma issue_users ta tr user client family s :
  users (issue_token_pair ta tr user client family s).2 = users s.
Proof. by destruct family. Qed.

Lemma rotate_users clk raw client s : users (rotate_refresh clk raw client s).2 = users s.
Proof. unfold Accounts.rotate_refresh. by destruct (rotate_read _ raw s). Qed.

Lemma logout_users clk raw actor s : users (revoke_refresh clk raw actor s).2 = users s.
Proof. unfold Accounts.revoke_refresh. by repeat dmatch. Qed.

(** A login writes an active account only, which stays active. *)
Lemma authenticate_users now email password ip s : acc_inv s ->
  let '(r, s') := authenticate_user now email password ip s in
  match r with
  | Ok u' => exists u, get_user_by_email email s = Some u /\ get_user (u_id u) s = Some u /\
      argon2_verify (hashed_password u) password = true /\ is_active u = true /\ is_active u' = true /\
      u_id u' = u_id u /\ users s' = users (put_user u' s)
  | Err e => e = AuthenticationError /\ users s' = users s
  end.
Proof.
  intros Hi. unfold Accounts.authenticate_user. destruct (get_user_by_email email s) as [u|] eqn:Eu; [|done].
  destruct (email_user s email u Hi Eu) as [Hu He].
  destruct (argon2_verify (hashed_password u) password) eqn:Ev; [|done].
  destruct (is_active u) eqn:Ea; [|done]. simpl. exists u. by split_and!.
Qed.

Lemma disabled_step id op s : acc_inv s -> disabled id s -> keeps_disabled id op -> disabled id (auth_step s op).
Proof.
  intros Hi (u & Hu & Ha) Hk.
  assert (Hsame : forall s', users s' = users s -> disabled id s') by (intros s' E; exists u; unfold get_user; by rewrite E).
  assert (Hput : forall x s', users s' = users (put_user x s) -> (u_id x = id -> is_active x = false) -> disabled id s').
  { intros x s' E Hx. unfold disabled. replace (get_user id s') with (get_user id (put_user x s)) by (unfold get_user; by rewrite E).
    rewrite get_put_user, Hu. destruct (get_user_Some _ _ _ Hu) as [_ Hid].
    destruct (Z.eqb_spec (u_id u) (u_id x)); [|by exists u]. exists x. split; [done|]. apply Hx. congruence. }
  destruct op as [email password ip role|clk email password client|clk raw client|clk raw actor|admin i role active ip]; simpl.
  - unfold Accounts.register_user. destruct (get_user_by_email _ s); [by apply Hsame|].
    exists u. split; [|done]. unfold get_user in *. by apply find_app_Some.
  - unfold Accounts.login. pose proof (authenticate_users (clk 0%nat) email password (cl_ip client) s Hi) as Hx.
    destruct (authenticate_user _ _ _ _ s) as [[x'|e] s1]; [|by apply Hsame, Hx].
    destruct Hx as (x & _ & Hx & _ & Hax & Hax' & Hid & Hus).
    pose proof (issue_users (clk 1%nat) (clk 2%nat) x' client None s1) as Hiu.
    destruct (issue_token_pair _ _ _ _ _ s1) as [tp s2]. apply (Hput x'); [simpl in *; congruence|].
    intros E. exfalso. rewrite Hid in E. rewrite E in Hx. congruence.
  - apply Hsame, rotate_users.
  - apply Hsame, logout_users.
  - unfold Accounts.update_user. destruct (_ && _); [by apply Hsame|].
    destruct (get_user i s) as [x|] eqn:Ex; [|by apply Hsame]. eapply Hput; [done|]. simpl.
    destruct (get_user_Some _ _ _ Ex) as [_ Hid]. intros E.
    assert (i = id) as -> by congruence. assert (x = u) as -> by congruence. by destruct active as [[]|].
Qed.

Lemma disabled_run id ops : forall s, acc_inv s -> disabled id s -> Forall (keeps_disabled id) ops ->
  disabled id (foldl auth_step s ops).
Proof.
  induction ops as [|op ops IH]; intros s Hi Hd Hf; [done|]. inversion_clear Hf. simpl.
  apply IH; [by apply auth_step_refines|by apply disabled_step|done].
Qed.

(** The rotated row stays, revoked. *)
Lemma rotate_write_old ta tr tv row user client s : row ∈ refresh_tokens s ->
  let r := rotate_write ta tr tv row user client s in
  exists t, t ∈ refresh_tokens r.2 /\ jti t = jti row /\ revoked_at t <> None /\
            refresh_family_id r.1 = family_id row.
Proof.
  intros Hin. cbv zeta. unfold Accounts.rotate_write.
  destruct (issue_spec ta tr user client (Some (family_id row)) s) as (new & n & b & Hs & _ & _ & _ & _ & _ & Hf & Hf').
  destruct (issue_token_pair _ _ _ _ _ s) as [tp s2]. cbn [fst snd] in *. subst s2. simpl.
  exists (revoked_now tv (Some (uuid_str (refresh_jti tp))) row). split_and!; [|done|done|congruence].
  apply list_elem_of_fmap. exists row. rewrite String.eqb_refl. split; [done|]. apply elem_of_app. by left.
Qed.

(** Disabling an account is immediate and lasting.  Once an admin update has
    disabled an account, and until another one enables it, no bearer token resolves to
    it - whatever role the token carries - its password opens no session, and its refresh
    tokens are refused and replaced by none. *)
Theorem disabled_account_locked_out (admin : User) (id : Z) (role : option UserRole) (ip : option string)
    (s s' : Accounts) (u : User) (ops : list auth_op) :
  acc_inv s -> update_user admin id role (Some false) ip s = (Ok u, s') -> Forall (keeps_disabled id) ops ->
  let s2 := foldl auth_step s' ops in
  (forall now bearer x, get_current_user now bearer s2 = Ok x -> u_id x <> id) /\
  (forall clk email password client,
     (exists x, get_user_by_email email s2 = Some x /\ u_id x = id) ->
     (login clk email password client s2).1 = Err AuthenticationError) /\
  (forall clk raw client t, t ∈ refresh_tokens s2 -> rt_user t = id -> presents (clk 0%nat) raw t ->
     (rotate_refresh clk raw client s2).1 = Err AuthenticationError /\
     length (refresh_tokens (rotate_refresh clk raw client s2).2) = length (refresh_tokens s2)).
Proof.
  intros Hi Hup Hf s2.
  assert (Hi' : acc_inv s') by (destruct (update_refines admin id role (Some false) ip s Hi) as [Hi' _]; by rewrite Hup in Hi').
  assert (Hd' : disabled id s').
  { unfold Accounts.update_user in Hup. destruct (_ && _); [done|]. destruct (get_user id s) as [x|] eqn:Ex; [|done].
    injection Hup as <- <-. set (x' := {| u_id := _; is_active := _ |}). exists x'. split; [|done].
    change (get_user id (put_user x' s) = Some x'). rewrite get_put_user, Ex. simpl. by rewrite Z.eqb_refl. }
  assert (Hi2 : acc_inv s2) by by apply auth_run_inv.
  destruct (disabled_run id ops s' Hi' Hd' Hf) as (x & Hx & Hax). fold s2 in Hx.
  split_and!.
  - intros now bearer y. unfold Accounts.get_current_user. destruct bearer as [tok|]; [|done].
    intros (p & _ & Hy)%res_bind_ok. destruct (parse_uuid _) as [i|]; [|done].
    destruct (get_user i s2) as [z|] eqn:Ez; [|done]. destruct (is_active z) eqn:Eaz; [|done]. injection Hy as <-.
    intros E. destruct (get_user_Some _ _ _ Ez) as [_ Hiz]. congruence.
  - intros clk email password client (y & Hy & Hidy). unfold Accounts.login.
    pose proof (authenticate_users (clk 0%nat) email password (cl_ip client) s2 Hi2) as Ha.
    destruct (authenticate_user _ _ _ _ s2) as [[y'|e] s3]; [|by destruct Ha as [-> _]].
    destruct Ha as (z & Hz & Hgz & _ & Haz & _). exfalso. congruence.
  - intros clk raw client t Hin Ho Hp. unfold Accounts.rotate_refresh. rewrite (presented_row _ _ t s2 Hi2 Hin Hp), Ho, Hx, Hax.
    destruct (is_revoked t); [|done]. split; [done|]. simpl. by rewrite length_map.
Qed.

(** A session that was opened can be continued.  The refresh token a login or a
    rotation returned, presented while its account is active and nobody has used or
    revoked it - its family's session still has it live - yields a new pair of the same
    family, whose token is live in turn. *)
Theorem live_session_continues (clk : nat -> Z) (raw : string) (client : Client) (s : Accounts)
    (t : RefreshToken) (u : User) :
  acc_inv s -> t ∈ refresh_tokens s -> session (family_id t) (refresh_tokens s) = Live (jti t) ->
  presents (clk 0%nat) raw t -> get_user (rt_user t) s = Some u -> is_active u = true ->
  exists p s', rotate_refresh clk raw client s = (Ok (p, u), s') /\
    session (family_id t) (refresh_tokens s') = Live (uuid_str (refresh_jti p)) /\
    refresh_family_id p = family_id t /\
    (forall f, f <> family_id t -> session f (refresh_tokens s') = session f (refresh_tokens s)) /\
    (rotate_refresh clk raw client s').1 = Err AuthenticationError.
Proof.
  intros Hi Hin Hl Hp Hu Ha.
  assert (Hr : revoked_at t = None).
  { apply session_live in Hl as (t' & Hin' & _ & Hr & Hj); [|apply (ai_single s Hi)].
    by rewrite (unique_by jti (refresh_tokens s) t t' (ai_jtis s Hi)). }
  unfold Accounts.rotate_refresh at 1. rewrite (presented_row _ _ t s Hi Hin Hp), Hu, Ha.
  rewrite (proj2 (is_revoked_false t) Hr).
  pose proof (rotate_write_spec (clk 1%nat) (clk 2%nat) (clk 3%nat) t u client s Hi Hin Hr Hu) as (Hi' & _ & _ & Hs).
  destruct (rotate_write_old (clk 1%nat) (clk 2%nat) (clk 3%nat) t u client s Hin) as (t' & Hin' & Hj' & Hr' & Hfam).
  destruct (rotate_write _ _ _ t u client s) as [p s']. cbn [fst snd] in *.
  exists p, s'. split_and!; [done|by rewrite Hs, decide_True|done|intros f Hf; by rewrite Hs, decide_False|].
  unfold Accounts.rotate_refresh. rewrite (presented_row _ _ t' s' Hi' Hin') by (by destruct Hp as (q & ? & ?); exists q; rewrite Hj').
  by rewrite (proj2 (bool_decide_eq_true _) Hr' : is_revoked t' = true).
Qed.
End Sound.

(** ** A concrete history: the demo's tokens are their own [jti]s. *)

Definition demo_auth_settings : AuthSettings :=
  {| access_token_expire_minutes := 30; refresh_token_expire_days := 7 |}.
Definition demo_jwt (now : Z) (raw : string) : option (dict string pyval) :=
  Some [("type", VStr "refresh"); ("sub", VStr "u"); ("jti", VStr raw)]%string.
Definition demo_client : Client := {| cl_ip := None; cl_agent := None |}.
Definition demo_clk (n : nat) : Z := Z.of_nat n * 1000.

Lemma demo_str_inj (a b : Z) : (pretty a : string) = pretty b -> a = b.
Proof. apply (inj pretty). Qed.

Notation demo_run ops := (foldl (@auth_step demo_platform demo_auth_settings pretty pretty (fun _ p => p) String.eqb
  (fun _ => false) (fun _ => EmptyString) demo_jwt) no_accounts ops) (only parsing).
Notation demo_opened := ([Register "a@b.c" "secret" None None; Login demo_clk "A@b.c " "secret" demo_client]%string)
  (only parsing).
Notation demo_rotated := ([Register "a@b.c" "secret" None None; Login demo_clk "A@b.c " "secret" demo_client;
  Refresh demo_clk "4" demo_client]%string) (only parsing).
Notation demo_rotate s := (@rotate_refresh demo_platform demo_auth_settings pretty pretty (fun _ => EmptyString) demo_jwt
  demo_clk "4"%string demo_client s) (only parsing).

(** The token the login opened, before and after its rotation. *)
Definition demo_token (revoked : option Z) (next : option string) : RefreshToken :=
  {| rt_user := 1; jti := "4"; family_id := 3; expires_at := 604800002000; revoked_at := revoked;
     replaced_by_jti := next; created_ip := None; user_agent := None |}.
Definition demo_user : User :=
  {| u_id := 1; u_email := "a@b.c"; hashed_password := "secret"; u_role := ADMIN; is_active := true;
     last_login_at := Some 0 |}.

Lemma demo_run_inv ops : @acc_inv demo_platform pretty (demo_run ops).
Proof.
  apply (@auth_run_inv demo_platform demo_platform_ok); [apply demo_str_inj|apply (@no_accounts_inv demo_platform)].
Qed.

Lemma demo_live_in : demo_token None None ∈ refresh_tokens (demo_run demo_opened).
Proof. vm_compute. left. Qed.
Lemma demo_spent_in : demo_token (Some 3000) (Some "6"%string) ∈ refresh_tokens (demo_run demo_rotated).
Proof. vm_compute. left. Qed.

Lemma demo_presents now t : jti t = "4"%string -> @presents demo_platform demo_jwt now "4" t.
Proof. intros Hj. eexists. split; [reflexivity|]. by rewrite Hj. Qed.

Lemma session_refinement_witness :
  session_step (session 3 (refresh_tokens (demo_run demo_opened)))
               (session 3 (refresh_tokens (demo_run demo_rotated))).
Proof.
  exact (proj2 (@session_refinement demo_platform demo_platform_ok demo_auth_settings pretty pretty (fun _ p => p) String.eqb
    (fun _ => false) (fun _ => EmptyString) demo_jwt demo_str_inj demo_opened (Refresh demo_clk "4" demo_client) 3)).
Defined.

Lemma reuse_closes_family_witness :
  exists s', demo_rotate (demo_run demo_rotated) = (Err AuthenticationError, s') /\
    session 3 (refresh_tokens s') = Dead.
Proof.
  destruct (@reuse_closes_family demo_platform demo_platform_ok demo_auth_settings pretty pretty (fun _ p => p) String.eqb
    (fun _ => false) (fun _ => EmptyString) demo_jwt demo_str_inj demo_clk "4" demo_client (demo_run demo_rotated)
    (demo_token (Some 3000) (Some "6"%string)) (demo_run_inv demo_rotated) demo_spent_in ltac:(discriminate)
    (demo_presents 0 (demo_token (Some 3000) (Some "6"%string)) eq_refl)) as (s' & H1 & H2 & _).
  exists s'. split; [exact H1|]. exact (H2 3).
Defined.

Lemma demo_read : @rotate_read demo_platform demo_jwt 0 "4" (demo_run demo_opened) = Fresh (demo_token None None) demo_user.
Proof. vm_compute. reflexivity. Qed.

Lemma concurrent_refresh_forks_witness :
  exists s t t', t ∈ refresh_tokens s /\ t' ∈ refresh_tokens s /\ jti t <> jti t' /\ family_id t = 3 /\
    family_id t' = 3 /\ revoked_at t = None /\ revoked_at t' = None.
Proof.
  pose proof (@concurrent_refresh_forks demo_platform demo_platform_ok demo_auth_settings pretty pretty
    (fun _ => EmptyString) demo_jwt demo_str_inj 0 1 2 3 4 5 6 "4" (demo_token None None) demo_user demo_client
    demo_client (demo_run demo_opened) (demo_run_inv demo_opened) demo_read) as H.
  destruct (rotate_write _ _ _ _ _ _ _ _ _ _ (demo_run demo_opened)) as [p s1].
  destruct (rotate_write _ _ _ _ _ _ _ _ _ _ s1) as [p' s2].
  destruct H as (t & t' & H1 & H2 & _ & _ & H3 & H4 & H5 & H6 & H7).
  exists s2, t, t'. exact (conj H1 (conj H2 (conj H3 (conj H4 (conj H5 (conj H6 H7)))))).
Defined.

Lemma demo_session : session 3 (refresh_tokens (demo_run demo_opened)) = Live "4".
Proof. vm_compute. reflexivity. Qed.
Lemma demo_owner : get_user 1 (demo_run demo_opened) = Some demo_user.
Proof. vm_compute. reflexivity. Qed.

Lemma live_session_continues_witness :
  exists p s', demo_rotate (demo_run demo_opened) = (Ok (p, demo_user), s').
Proof.
  destruct (@live_session_continues demo_platform demo_platform_ok demo_auth_settings pretty pretty
    (fun _ => EmptyString) demo_jwt demo_str_inj demo_clk "4" demo_client (demo_run demo_opened)
    (demo_token None None) demo_user (demo_run_inv demo_opened) demo_live_in demo_session
    (demo_presents 0 (demo_token None None) eq_refl) demo_owner eq_refl) as (p & s' & H & _).
  exists p, s'. exact H.
Defined.

Definition demo_disabled : User :=
  {| u_id := 1; u_email := "a@b.c"; hashed_password := "secret"; u_role := ADMIN; is_active := false;
     last_login_at := Some 0 |}.

Lemma disabled_account_locked_out_witness :
  exists s', (forall clk email password client,
    (exists x, get_user_by_email email s' = Some x /\ u_id x = 1) ->
    (@login demo_platform demo_auth_settings pretty pretty (fun _ p => p) String.eqb (fun _ => false)
       (fun _ => EmptyString) clk email password client s').1 = Err AuthenticationError).
Proof.
  destruct (update_user pretty demo_user 1 None (Some false) None (demo_run demo_opened)) as [r s'] eqn:E.
  exists s'.
  assert (Hr : r = Ok demo_disabled) by (apply (f_equal fst) in E; vm_compute in E; exact (eq_sym E)).
  rewrite Hr in E.
  exact (proj1 (proj2 (@disabled_account_locked_out demo_platform demo_platform_ok demo_auth_settings pretty pretty
    (fun _ p => p) String.eqb (fun _ => false) (fun _ => EmptyString) demo_jwt (fun _ => None) demo_str_inj demo_user 1 None None
    (demo_run demo_opened) s' demo_disabled [] (demo_run_inv demo_opened) E ltac:(constructor)))).
Defined.
