(* ===== verification/Realtime.v ===== *)
(** * The live feed: one-time tickets, topics and forwarding
    ([app/ws/tickets.py], [app/ws/hub.py], [app/api/v1/realtime.py]) *)

From Stdlib Require Import ZArith Ascii Lia.
From stdpp Require Import base list strings pretty.
From S2P Require Import Prelude PyFloat Timeframes Signals Fusion Risk Decision Tables Bus Alerts Accounts.

(** ** Tickets *)

Definition TICKET_TTL_SECONDS : Z := 30.
Definition _key (ticket : string) : string := "ws:ticket:" ++ ticket.

Record TicketPayload := { tk_ticket : string; tk_sub : string; tk_role : string; tk_ttl : Z; tk_issued_at : Z }.

(** The keys in Redis with their expiry, and how many tickets were drawn. *)
Record TicketStore := { keys : dict string (string * Z); drawn_tickets : nat }.

Section Tickets.
Context `{Platform}.
(** [secrets.token_urlsafe], its n-th draw; [json.dumps] and [json.loads]; [str] of a uuid. *)
Context (token_urlsafe : nat -> string) (json_dumps : pyval -> string) (json_loads : string -> option pyval)
  (uuid_str : Z -> string).

Definition ticket_claims (now user_id : Z) (role : string) : pyval :=
  VDict [("sub", VStr (uuid_str user_id)); ("role", VStr role); ("iat", VStr (isoformat now))]%string.

Definition issue_ticket (now user_id : Z) (role : string) (ttl_seconds : Z) (s : TicketStore)
  : TicketPayload * TicketStore :=
  let ticket := token_urlsafe (drawn_tickets s) in
  ({| tk_ticket := ticket; tk_sub := uuid_str user_id; tk_role := role; tk_ttl := ttl_seconds; tk_issued_at := now |},
   {| keys := dset (_key ticket) (json_dumps (ticket_claims now user_id role), now + seconds_td ttl_seconds) (keys s);
      drawn_tickets := S (drawn_tickets s) |}).

(** [GETDEL]: an expired key is not there. *)
Definition getdel (now : Z) (k : string) (s : TicketStore) : option string * TicketStore :=
  (match dget k (keys s) with Some (v, e) => if now <? e then Some v else None | None => None end,
   {| keys := ddel k (keys s); drawn_tickets := drawn_tickets s |}).

(** A stored text that is no object has no [get]: that error is not caught. *)
Definition redeem_ticket (now : Z) (ticket : string) (s : TicketStore) : Res TicketPayload * TicketStore :=
  if String.eqb ticket "" then (Err AuthenticationError, s)
  else
    let '(raw, s) := getdel now (_key ticket) s in
    match raw with
    | None | Some EmptyString => (Err AuthenticationError, s)
    | Some raw =>
        (match json_loads raw with
         | None => Err AuthenticationError
         | Some (VDict payload) =>
             let role := py_str (dget_or "role"%string (VStr "") payload) in
             let sub := py_str (dget_or "sub"%string (VStr "") payload) in
             if String.eqb sub "" || negb (bool_decide (is_Some (dget role ROLE_RANK))) then Err AuthenticationError
             else Ok {| tk_ticket := ticket; tk_sub := sub; tk_role := role; tk_ttl := 0; tk_issued_at := now |}
         | Some _ => Err OtherError
         end, s)
    end.
End Tickets.

(** ** Topics *)

Definition role_rank (role : string) : Z := dget_or role (-1) ROLE_RANK.

Definition _TOPIC_MIN_ROLE : dict string string :=
  [("alerts", "viewer"); ("signals", "viewer"); ("decisions", "viewer")]%string.

Definition check_topic_access (role topic : string) : bool :=
  match dget topic _TOPIC_MIN_ROLE with
  | None => false
  | Some required => role_rank required <=? role_rank role
  end.

Definition TOPIC_STREAMS : dict string string :=
  [("alerts", "alerts.stream"); ("signals", "signals.stream"); ("decisions", "decisions.stream")]%string.
Definition ALLOWED_TOPICS : list string := TOPIC_STREAMS.*1.

Definition topic_for_stream (stream_name : string) : option string :=
  match List.find (fun '(_, stream) => String.eqb stream stream_name) TOPIC_STREAMS with
  | Some (topic, _) => Some topic
  | None => None
  end.

Definition origin_allowed (origin : option string) (allowed : list string) : bool :=
  match origin with
  | None | Some EmptyString => true
  | Some o => bool_decide (o ∈ allowed)
  end.

(** ** Control frames *)

Definition _MAX_CONTROL_BYTES : nat := Z.to_nat 4096.

Inductive ControlError := Reason (text : string) | NotPermitted (refused : list string).

Section Control.
Context (json_loads : string -> option pyval).

Definition parse_subscribe (text : string) : dict string pyval + string :=
  if String.eqb text "" || Nat.ltb _MAX_CONTROL_BYTES (String.length text) then inr "control frame too large"
  else match json_loads text with
       | None => inr "malformed JSON"
       | Some (VDict msg) =>
           if negb (match dget "type" msg with Some (VStr t) => String.eqb t "subscribe" | _ => false end)
           then inr "unsupported control type"
           else match dget "topics" msg with
                | Some (VList l) => if forallb is_str l then inl msg else inr "topics must be a list of strings"
                | _ => inr "topics must be a list of strings"
                end
       | Some _ => inr "control frame must be an object"
       end%string.

Definition requested_topics (msg : dict string pyval) : list string :=
  match dget "topics"%string msg with Some (VList l) => map (fun v => str_lower (text_of v)) l | _ => [] end.

(** One requested topic: refused, or added to the connection's set. *)
Definition request_topic (role : string) (acc : list string * list string) (topic : string)
  : list string * list string :=
  let '(topics, refused) := acc in
  if negb (bool_decide (topic ∈ ALLOWED_TOPICS)) || negb (check_topic_access role topic)
  then (topics, refused ++ [topic])
  else (if bool_decide (topic ∈ topics) then topics else topics ++ [topic], refused).

Definition _handle_control (text role : string) (topics : list string)
  : option ControlError * list string :=
  match parse_subscribe text with
  | inr e => (Some (Reason e), topics)
  | inl msg =>
      let requested := requested_topics msg in
      let '(topics, refused) := foldl (request_topic role) (topics, []) requested in
      (match refused with
       | [] => match requested with
               | [] => Some (Reason "subscribe requires at least one topic"%string)
               | _ => None
               end
       | _ => Some (NotPermitted (sort_by String.leb refused))
       end, topics)
  end.
End Control.

(** ** Forwarding *)

Section Feed.
Context `{Platform}.
Context (sha256_hex : string -> string) (json_loads : string -> option pyval) (fromisoformat : pyval -> option Z)
  (py_int : pyval -> option Z).

(** An entry whose text is no event keeps its id. *)
Definition decode_entry (entry : string * dict string string) : string * option RawEvent :=
  let '(id, fields) := entry in (id, _decode_event json_loads fromisoformat py_int fields).

Definition decode_stream_entries (entries : list (string * dict string string))
  : list (string * option RawEvent) := map decode_entry entries.

(** What [XREAD] answered; [None] when it raised. *)
Definition Response := option (list (string * list (string * dict string string))).

Definition read_step (acc : dict string (list (string * option RawEvent)) * dict string string)
    (x : string * list (string * dict string string))
  : dict string (list (string * option RawEvent)) * dict string string :=
  let '(by_topic, since) := acc in
  let '(stream_name, entries) := x in
  match topic_for_stream stream_name with
  | None => acc
  | Some topic =>
      let decoded := decode_stream_entries entries in
      (dset topic decoded by_topic,
       match last decoded with Some (id, _) => dset topic id since | None => since end)
  end.

(** The positions a read asks for. *)
Definition asked (since : dict string string) (topics : list string) : dict string string :=
  omap (fun t => s ← dget t TOPIC_STREAMS; Some (s, dget_or t "0-0"%string since)) topics.

Definition read_once (xread : dict string string -> Response) (since : dict string string) (topics : list string)
  : dict string (list (string * option RawEvent)) * dict string string :=
  match topics with
  | [] => ([], since)
  | _ => match xread (asked since topics) with
         | None => ([], since)
         | Some response => foldl read_step ([], since) response
         end
  end.

(** [d.setdefault(k, v)]. *)
Definition setdefault (k : string) (v : pyval) (d : dict string pyval) : dict string pyval :=
  match dget k d with Some _ => d | None => dset k v d end.

(** [dict(event.payload or {})], and the digest of the event: each raises on a payload
    that is no object. *)
Definition _event_frame (event : RawEvent) : Res (dict string pyval) :=
  payload <-- payload_dict event ;;
  let d := setdefault "event_type" (raw_type event) payload in
  let d := setdefault "produced_at" (VStr (isoformat (raw_produced_at event))) d in
  id <-- digest_event_id sha256_hex event ;;
  let d := setdefault "event_id" (VStr id) d in
  Ok (dset "produced_at" (VStr (isoformat (raw_produced_at event))) d)%string.

(** The frames of one read, up to the first event whose frame cannot be built: that
    exception ends the connection. *)
Fixpoint frames (topic : string) (entries : list (string * option RawEvent))
  : list (string * dict string pyval) * option PyErr :=
  match entries with
  | [] => ([], None)
  | (_, None) :: rest => frames topic rest
  | (_, Some event) :: rest =>
      match _event_frame event with
      | Err e => ([], Some e)
      | Ok d => let '(fs, e) := frames topic rest in ((topic, d) :: fs, e)
      end
  end.

Fixpoint all_frames (by_topic : dict string (list (string * option RawEvent)))
  : list (string * dict string pyval) * option PyErr :=
  match by_topic with
  | [] => ([], None)
  | (topic, entries) :: rest =>
      match frames topic entries with
      | (fs, Some e) => (fs, Some e)
      | (fs, None) => let '(fs', e) := all_frames rest in (fs ++ fs', e)
      end
  end.

(** A connection: who it is, what it subscribed to, its cursors, what it was sent, and
    the exception that ended it. *)
Record Connection := {
  cn_role : string;
  cn_topics : list string;
  cn_since : dict string string;
  cn_sent : list (string * dict string pyval);
  cn_closed : option PyErr
}.

Definition accepted (ident : TicketPayload) : Connection :=
  {| cn_role := tk_role ident; cn_topics := []; cn_since := []; cn_sent := []; cn_closed := None |}.

(** A topic is baselined at the head of its stream when it is first polled. *)
Definition baseline (head_of : string -> string) (since : dict string string) (topic : string) : dict string string :=
  match dget topic since with
  | Some _ => since
  | None => match dget topic TOPIC_STREAMS with
            | Some stream => dset topic (head_of stream) since
            | None => since
            end
  end.

(** One turn of the loop: forward what is new, then at most one control frame. *)
Definition ws_turn (head_of : string -> string) (xread : dict string string -> Response) (text : option string)
    (c : Connection) : Connection :=
  match cn_closed c with
  | Some _ => c
  | None =>
      let '(since, sent, closed) :=
        match cn_topics c with
        | [] => (cn_since c, [], None)
        | _ => let since := foldl (baseline head_of) (cn_since c) (cn_topics c) in
               let '(by_topic, since) := read_once xread since (cn_topics c) in
               let '(fs, e) := all_frames by_topic in (since, fs, e)
        end in
      {| cn_role := cn_role c;
         cn_topics := match closed, text with
                      | None, Some text => (_handle_control json_loads text (cn_role c) (cn_topics c)).2
                      | _, _ => cn_topics c
                      end;
         cn_since := since; cn_sent := cn_sent c ++ sent; cn_closed := closed |}
  end.
End Feed.

(** ** Properties *)

Section TicketUse.
Context `{Platform}.
Context (token_urlsafe : nat -> string) (json_dumps : pyval -> string) (json_loads : string -> option pyval)
  (uuid_str : Z -> string).
(** Tickets do not repeat, and what [json.dumps] wrote reads back. *)
Context (token_inj : forall m n, token_urlsafe m = token_urlsafe n -> m = n)
  (json_reads : forall now user role,
     json_loads (json_dumps (ticket_claims uuid_str now user role)) = Some (ticket_claims uuid_str now user role)).

Inductive ticket_op :=
| Issue (now user_id : Z) (role : string) (ttl_seconds : Z)
| Redeem (now : Z) (ticket : string).

Definition ticket_step (s : TicketStore) (op : ticket_op) : TicketStore :=
  match op with
  | Issue now user role ttl => (issue_ticket token_urlsafe json_dumps uuid_str now user role ttl s).2
  | Redeem now ticket => (redeem_ticket json_loads now ticket s).2
  end.

Definition no_tickets : TicketStore := {| keys := []; drawn_tickets := O |}.
Notation run ops := (foldl ticket_step no_tickets ops).

Lemma key_inj a b : _key a = _key b -> a = b.
Proof. unfold _key. intros E. by injection E. Qed.

Lemma redeem_keys now ticket s : (redeem_ticket json_loads now ticket s).2 =
  if String.eqb ticket "" then s else {| keys := ddel (_key ticket) (keys s); drawn_tickets := drawn_tickets s |}.
Proof.
  unfold redeem_ticket, getdel. destruct (String.eqb ticket ""); [done|].
  by repeat dmatch.
Qed.

(** Every stored key was issued, and is there once. *)
Record tickets_ok (ops : list ticket_op) : Prop := {
  to_nodup : NoDup (keys (run ops)).*1;
  to_issued : forall k v e, dget k (keys (run ops)) = Some (v, e) ->
    exists pre post now user role ttl, ops = pre ++ Issue now user role ttl :: post /\
      k = _key (token_urlsafe (drawn_tickets (run pre))) /\
      v = json_dumps (ticket_claims uuid_str now user role) /\ e = now + seconds_td ttl;
  to_drawn : forall pre post, ops = pre ++ post -> (drawn_tickets (run pre) <= drawn_tickets (run ops))%nat
}.

Lemma drawn_step s op : (drawn_tickets s <= drawn_tickets (ticket_step s op))%nat.
Proof. destruct op; simpl; [lia|]. rewrite redeem_keys. by destruct (String.eqb _ _). Qed.

Lemma drawn_run ops : forall s, (drawn_tickets s <= drawn_tickets (foldl ticket_step s ops))%nat.
Proof. induction ops as [|op ops IH]; intros s; simpl; [done|]. etrans; [apply drawn_step|apply IH]. Qed.

Lemma tickets_ok_all ops : tickets_ok ops.
Proof.
  induction ops as [|op ops IH] using rev_ind.
  { split; [constructor|done|]. intros [|x pre] post E; [done|]. by destruct post. }
  assert (Hd : forall pre post, ops ++ [op] = pre ++ post ->
             (drawn_tickets (run pre) <= drawn_tickets (run (ops ++ [op])))%nat).
  { intros pre post ->. rewrite foldl_app. apply drawn_run. }
  split; [| |exact Hd].
  - rewrite foldl_app. destruct op; simpl; [by apply dset_NoDup, IH|]. rewrite redeem_keys.
    destruct (String.eqb _ _); [apply IH|by apply ddel_NoDup, IH].
  - intros k v e. rewrite foldl_app. cbn [foldl].
    assert (Hold : dget k (keys (run ops)) = Some (v, e) ->
      exists pre post now user role ttl, ops ++ [op] = pre ++ Issue now user role ttl :: post /\
      k = _key (token_urlsafe (drawn_tickets (run pre))) /\
      v = json_dumps (ticket_claims uuid_str now user role) /\ e = now + seconds_td ttl).
    { intros Hk. destruct (to_issued ops IH k v e Hk) as (pre & post & now & user & role & ttl & -> & Hrest).
      exists pre, (post ++ [op]), now, user, role, ttl. split; [by rewrite <- app_assoc|done]. }
    destruct op as [now user role ttl|now ticket]; simpl.
    + rewrite dget_dset. destruct (decide _) as [->|]; [|done]. intros [= <- <-].
      by exists ops, [], now, user, role, ttl.
    + rewrite redeem_keys. destruct (String.eqb _ _); [done|]. simpl.
      rewrite dget_ddel by apply IH. by destruct (decide _).
Qed.

(** A drawn ticket whose key is gone stays gone. *)
Lemma gone_stays n ops : forall s, (n < drawn_tickets s)%nat -> NoDup (keys s).*1 ->
  dget (_key (token_urlsafe n)) (keys s) = None ->
  dget (_key (token_urlsafe n)) (keys (foldl ticket_step s ops)) = None.
Proof.
  induction ops as [|op ops IH]; intros s Hn Hd Hg; [done|]. cbn [foldl].
  apply IH; [pose proof (drawn_step s op); lia| |].
  - destruct op; simpl; [by apply dset_NoDup|]. rewrite redeem_keys.
    destruct (String.eqb _ _); [done|by apply ddel_NoDup].
  - destruct op as [now user role ttl|now ticket]; simpl.
    + rewrite dget_dset_ne; [done|]. intros E%key_inj%token_inj. lia.
    + rewrite redeem_keys. destruct (String.eqb _ _); [done|]. simpl. rewrite dget_ddel by done.
      by destruct (decide _).
Qed.

(** A ticket is good once, briefly, and for its owner.  In any sequence of issues and
    redemptions, a redemption that succeeds is of a ticket that was issued, before it
    expired, and yields the identity and role it was issued for; from then on every
    redemption of that ticket is refused. *)
Theorem ticket_single_use (ops : list ticket_op) (now : Z) (ticket : string) (p : TicketPayload) (s' : TicketStore) :
  redeem_ticket json_loads now ticket (run ops) = (Ok p, s') ->
  (exists pre post t0 user role ttl, ops = pre ++ Issue t0 user role ttl :: post /\
     ticket = token_urlsafe (drawn_tickets (run pre)) /\ now < t0 + seconds_td ttl /\
     tk_sub p = uuid_str user /\ tk_role p = role /\ is_Some (dget role ROLE_RANK)) /\
  (forall ops' now', (redeem_ticket json_loads now' ticket (foldl ticket_step s' ops')).1 = Err AuthenticationError).
Proof.
  intros Hr. pose proof (tickets_ok_all ops) as [Hn Hi Hd].
  pose proof (redeem_keys now ticket (run ops)) as Hs. rewrite Hr in Hs. cbn [snd] in Hs.
  unfold redeem_ticket in Hr. destruct (String.eqb ticket "") eqn:Et; [done|].
  unfold getdel in Hr. destruct (dget (_key ticket) (keys (run ops))) as [[v e]|] eqn:Ek; [|done].
  destruct (Hi _ _ _ Ek) as (pre & post & t0 & user & role & ttl & Hops & Hkey%key_inj & Hv & He).
  destruct (now <? e) eqn:El; [|done]. apply Z.ltb_lt in El. split.
  - exists pre, post, t0, user, role, ttl. split_and!; [done|done|lia|..];
      (destruct v as [|ch v]; [done|]; rewrite Hv, json_reads in Hr; simpl in Hr;
       destruct (_ || negb _) eqn:Eb in Hr; [done|]; injection Hr as <- _; try done).
    apply orb_false_iff in Eb as [_ Eb]. apply negb_false_iff, bool_decide_eq_true in Eb. done.
  - intros ops' now'. unfold redeem_ticket. rewrite Et. unfold getdel.
    rewrite Hkey, gone_stays; [done|..].
    + rewrite Hs. change (drawn_tickets (run pre) < drawn_tickets (run ops))%nat. rewrite Hops, foldl_app. cbn [foldl].
      pose proof (drawn_run post (ticket_step (run pre) (Issue t0 user role ttl))) as Hm.
      assert (drawn_tickets (ticket_step (run pre) (Issue t0 user role ttl)) = S (drawn_tickets (run pre))) by done.
      lia.
    + rewrite Hs. simpl. by apply ddel_NoDup.
    + rewrite Hs, <- Hkey. simpl. rewrite dget_ddel by done. by rewrite decide_True.
Qed.
End TicketUse.

(** ** Topics and frames *)

Lemma stream_topic t s : dget t TOPIC_STREAMS = Some s -> topic_for_stream s = Some t.
Proof. unfold TOPIC_STREAMS. simpl. repeat case_decide; intros [= <-]; by subst. Qed.

Lemma topic_stream t s : topic_for_stream s = Some t -> dget t TOPIC_STREAMS = Some s.
Proof.
  unfold topic_for_stream, TOPIC_STREAMS. cbn [List.find].
  repeat (match goal with |- context [String.eqb ?a s] => destruct (String.eqb_spec a s) as [<-|] end;
          [by intros [= <-]|]). done.
Qed.

Lemma request_topics role l : forall topics refused t,
  t ∈ (foldl (request_topic role) (topics, refused) l).1 ->
  t ∈ topics \/ t ∈ ALLOWED_TOPICS /\ check_topic_access role t = true.
Proof.
  induction l as [|x l IH]; intros topics refused t; [by left|]. cbn [foldl]. unfold request_topic at 2.
  destruct (bool_decide_reflect (x ∈ ALLOWED_TOPICS)) as [Ha|]; cbn [negb orb]; [|apply IH].
  destruct (check_topic_access role x) eqn:Ec; cbn [negb]; [|apply IH].
  intros [Ht|Ht]%IH; [|by right]. case_bool_decide; [by left|].
  apply elem_of_app in Ht as [Ht|Ht%list_elem_of_singleton]; [by left|]. subst. by right.
Qed.

Lemma request_keeps role l : forall topics refused t,
  t ∈ topics -> t ∈ (foldl (request_topic role) (topics, refused) l).1.
Proof.
  induction l as [|x l IH]; intros topics refused t Ht; [done|]. cbn [foldl]. unfold request_topic at 2.
  destruct (_ || _); apply IH; [done|]. case_bool_decide; [done|]. apply elem_of_app. by left.
Qed.

Lemma control_topics jl text role topics t :
  t ∈ (_handle_control jl text role topics).2 -> t ∈ topics \/ t ∈ ALLOWED_TOPICS /\ check_topic_access role t = true.
Proof.
  unfold _handle_control. destruct (parse_subscribe jl text) as [msg|]; [|by left].
  pose proof (request_topics role (requested_topics msg) topics [] t) as Hr. by destruct (foldl _ _ _).
Qed.

Lemma control_keeps jl text role topics t : t ∈ topics -> t ∈ (_handle_control jl text role topics).2.
Proof.
  unfold _handle_control. destruct (parse_subscribe jl text) as [msg|]; [|done]. intros Ht.
  pose proof (request_keeps role (requested_topics msg) topics [] t Ht) as Hr. by destruct (foldl _ _ _).
Qed.

Section FeedProperties.
Context `{Platform}.
Context (sha256_hex : string -> string) (json_loads : string -> option pyval) (fromisoformat : pyval -> option Z)
  (py_int : pyval -> option Z).

Notation read_step := (read_step json_loads fromisoformat py_int).
Notation decode_stream_entries := (decode_stream_entries json_loads fromisoformat py_int).
Notation frames := (frames sha256_hex).
Notation all_frames := (all_frames sha256_hex).
Notation _event_frame := (_event_frame sha256_hex).
Notation read_once := (read_once json_loads fromisoformat py_int).

Record Turn := { tn_head : string -> string; tn_read : dict string string -> Response; tn_text : option string }.
Definition turn (c : Connection) (t : Turn) : Connection :=
  ws_turn sha256_hex json_loads fromisoformat py_int (tn_head t) (tn_read t) (tn_text t) c.

(** [XREAD] answers for the streams it was asked for, each at most once. *)
Definition answers_asked (xread : dict string string -> Response) : Prop :=
  forall q r, xread q = Some r -> NoDup r.*1 /\ forall x, x ∈ r -> x.1 ∈ q.*1.

Lemma asked_stream since topics s : s ∈ (asked since topics).*1 -> exists t, t ∈ topics /\ dget t TOPIC_STREAMS = Some s.
Proof.
  intros ([s' pos] & -> & Hin)%list_elem_of_fmap. unfold asked in Hin.
  apply list_elem_of_omap in Hin as (t & Ht & E). exists t. split; [done|].
  destruct (dget t TOPIC_STREAMS); simpl in E; [by injection E as -> _|done].
Qed.

Lemma read_topics r : forall acc t es, (t, es) ∈ (foldl read_step acc r).1 ->
  (t, es) ∈ acc.1 \/ exists s es', (s, es') ∈ r /\ topic_for_stream s = Some t.
Proof.
  induction r as [|[s es0] r IH]; intros [d since] t es; [by left|]. cbn [foldl]. intros [Hin|(s' & es' & Hin & Ht)]%IH.
  - unfold Realtime.read_step in Hin. destruct (topic_for_stream s) as [t'|] eqn:Es; [|by left]. cbn [fst] in Hin.
    assert (Hk : t ∈ (dset t' (decode_stream_entries es0) d).*1) by (apply list_elem_of_fmap; by exists (t, es)).
    destruct (decide (t = t')) as [->|Hne]; [right; exists s, es0; split; [by left|done]|]. left.
    clear -Hin Hne. cbn [fst]. induction d as [|[k v] d IH]; simpl in *.
    + apply list_elem_of_singleton in Hin. congruence.
    + destruct (decide (t' = k)) as [->|]; apply elem_of_cons in Hin as [Hin|Hin]; simplify_eq;
        rewrite elem_of_cons; auto.
  - right. exists s', es'. split; [by right|done].
Qed.

Lemma frames_topic topic es f : f ∈ (frames topic es).1 -> f.1 = topic.
Proof.
  induction es as [|[id [ev|]] es IH]; simpl; [by intros ?%elem_of_nil| |done].
  destruct (_event_frame ev) as [d|]; [|by intros ?%elem_of_nil].
  destruct (frames topic es) as [fs e]. intros [->|Hin]%elem_of_cons; [done|by apply IH].
Qed.

Lemma all_frames_topic d f : f ∈ (all_frames d).1 -> exists es, (f.1, es) ∈ d.
Proof.
  induction d as [|[t es] d IH]; simpl; [by intros ?%elem_of_nil|].
  pose proof (frames_topic t es f) as Hf. destruct (frames t es) as [fs [e|]]; cbn [fst] in *.
  - intros Hin. exists es. rewrite (Hf Hin). by left.
  - destruct (all_frames d) as [fs' e']. intros [Hin|Hin]%elem_of_app; [exists es; rewrite (Hf Hin); by left|].
    destruct (IH Hin) as [es' ?]. exists es'. by right.
Qed.

(** The frames of a turn belong to topics the connection has subscribed to. *)
Lemma read_once_topics xread since topics t es : answers_asked xread ->
  (t, es) ∈ (read_once xread since topics).1 -> t ∈ topics.
Proof.
  intros Hx. unfold Realtime.read_once. destruct topics as [|t0 topics]; [by intros ?%elem_of_nil|].
  destruct (xread _) as [r|] eqn:Er; [|by intros ?%elem_of_nil].
  destruct (Hx _ _ Er) as [_ Hasked]. intros [Hin|(s & es' & Hin & Ht)]%read_topics; [by apply elem_of_nil in Hin|].
  apply Hasked in Hin. cbn [fst] in Hin. apply asked_stream in Hin as (t' & Ht' & Hd).
  apply stream_topic in Hd. congruence.
Qed.

Definition isolated (role : string) (c : Connection) : Prop :=
  cn_role c = role /\
  (forall t, t ∈ cn_topics c -> t ∈ ALLOWED_TOPICS /\ check_topic_access role t = true) /\
  (forall f, f ∈ cn_sent c -> f.1 ∈ cn_topics c).

Lemma turn_isolated role t c : answers_asked (tn_read t) -> isolated role c -> isolated role (turn c t).
Proof.
  intros Hx (Hr & Ht & Hs). unfold turn, ws_turn. destruct (cn_closed c) as [e|]; [done|].
  set (x := match cn_topics c with [] => _ | _ => _ end).
  assert (Hsent : forall f, f ∈ x.1.2 -> f.1 ∈ cn_topics c).
  { subst x. intros f. destruct (cn_topics c) as [|t0 ts] eqn:Et; [by intros ?%elem_of_nil|]. rewrite <- Et.
    set (since := foldl _ _ _). pose proof (read_once_topics (tn_read t) since (cn_topics c)) as Hro.
    destruct (read_once (tn_read t) since (cn_topics c)) as [d since'].
    pose proof (all_frames_topic d f) as Hf. destruct (all_frames d) as [fs e].
    intros Hin. destruct (Hf Hin) as [es Hes]. by eapply Hro. }
  destruct x as [[since sent] closed]. cbn [fst snd] in Hsent. unfold isolated. cbn. split; [done|].
  destruct closed as [e|], (tn_text t) as [text|]; cbn;
    (split; [|intros f [Hf|Hf]%elem_of_app; [apply Hs in Hf|apply Hsent in Hf]]); try done; try (by apply control_keeps).
  intros u [Hu|Hu]%control_topics; [by apply Ht|by rewrite <- Hr].
Qed.

(** A connection sees what its role may see.  Whatever control frames it sends and
    whatever the streams hold, a connection's topics are always allowed ones that its
    ticket's role may subscribe to, and every frame it was sent is of a topic it is
    subscribed to; the reserved topic of fills is never among them. *)
Theorem topic_isolation (ident : TicketPayload) (turns : list Turn) :
  Forall (fun t => answers_asked (tn_read t)) turns ->
  let c := foldl turn (accepted ident) turns in
  (forall t, t ∈ cn_topics c -> t ∈ ALLOWED_TOPICS /\ check_topic_access (tk_role ident) t = true) /\
  (forall f, f ∈ cn_sent c -> f.1 ∈ cn_topics c) /\ "fills"%string ∉ cn_topics c.
Proof.
  intros Hx c. assert (Hi : isolated (tk_role ident) c).
  { subst c. assert (H0 : isolated (tk_role ident) (accepted ident)) by (split_and!; [done|by intros ? ?%elem_of_nil..]).
    revert H0. generalize (accepted ident). induction Hx as [|t turns Ht Hx IH]; intros c Hc; [done|].
    cbn [foldl]. apply IH. by apply turn_isolated. }
  destruct Hi as (_ & Ht & Hs). split_and!; [done|done|]. intros [Hf _]%Ht. revert Hf. unfold ALLOWED_TOPICS.
  simpl. rewrite !elem_of_cons, elem_of_nil. naive_solver.
Qed.

Lemma frames_poison topic es id ev : (id, Some ev) ∈ es -> is_ok (payload_dict ev) = false ->
  (frames topic es).2 <> None.
Proof.
  intros Hin Hp. induction es as [|[i [e|]] es IH]; [by apply elem_of_nil in Hin| |].
  - simpl. destruct (_event_frame e) as [d|] eqn:Ee; [|done]. apply elem_of_cons in Hin as [E|Hin].
    + injection E as -> ->. unfold Realtime._event_frame in Ee. by destruct (payload_dict e).
    + specialize (IH Hin). by destruct (frames topic es).
  - apply elem_of_cons in Hin as [E|Hin]; [done|]. by apply IH.
Qed.

Lemma all_frames_poison d t es : (t, es) ∈ d -> (frames t es).2 <> None -> (all_frames d).2 <> None.
Proof.
  intros Hin He. induction d as [|[t' es'] d IH]; [by apply elem_of_nil in Hin|]. simpl.
  apply elem_of_cons in Hin as [E|Hin].
  - injection E as <- <-. by destruct (frames t es) as [fs [e|]].
  - specialize (IH Hin). destruct (frames t' es') as [fs [e|]]; [done|]. by destruct (all_frames d).
Qed.

Lemma read_holds r : NoDup r.*1 -> forall s es t acc, (s, es) ∈ r -> topic_for_stream s = Some t ->
  (t, decode_stream_entries es) ∈ (foldl read_step acc r).1.
Proof.
  intros Hn s es t acc Hin Ht. apply dget_Some_in. revert Hn acc Hin.
  induction r as [|[s' es'] r IH] using rev_ind; intros Hn acc Hin; [by apply elem_of_nil in Hin|].
  rewrite foldl_app. cbn [foldl]. destruct (foldl read_step acc r) as [d since] eqn:Ed.
  rewrite fmap_app in Hn. apply NoDup_app in Hn as (Hn & Hd & _).
  apply elem_of_app in Hin as [Hin|Hin%list_elem_of_singleton].
  - assert (Hne : s <> s').
    { intros ->. apply (Hd s'); [apply list_elem_of_fmap; by exists (s', es)|by left]. }
    specialize (IH Hn acc Hin). rewrite Ed in IH. unfold Realtime.read_step. destruct (topic_for_stream s') as [t'|] eqn:Et'; [|done].
    cbn [fst]. rewrite dget_dset_ne; [done|]. intros <-. apply topic_stream in Ht, Et'. congruence.
  - injection Hin as -> ->. unfold Realtime.read_step. rewrite Ht. cbn [fst]. apply dget_dset_eq.
Qed.

(** One event with a payload that is no object closes the feed.  The reader skips an
    entry that does not decode; but an event that decodes and whose payload is null, a
    list or a text raises while its frame is built, which ends every connection that is
    subscribed to its topic. *)
Theorem poison_payload_closes_feed (t : Turn) (c : Connection) (r : list (string * list (string * dict string string)))
    (topic stream id : string) (es : list (string * dict string string)) (ev : RawEvent) :
  cn_closed c = None -> answers_asked (tn_read t) ->
  tn_read t (asked (foldl (baseline (tn_head t)) (cn_since c) (cn_topics c)) (cn_topics c)) = Some r ->
  (stream, es) ∈ r -> topic_for_stream stream = Some topic ->
  (id, Some ev) ∈ decode_stream_entries es -> is_ok (payload_dict ev) = false ->
  cn_closed (turn c t) <> None /\ cn_topics (turn c t) = cn_topics c /\
  (forall t', turn (turn c t) t' = turn c t).
Proof.
  intros Hc Hx Hr Hin Ht Hev Hp.
  assert (Hclosed : cn_closed (turn c t) <> None /\ cn_topics (turn c t) = cn_topics c).
  { unfold turn, ws_turn. rewrite Hc. destruct (Hx _ _ Hr) as [Hn Hasked].
    destruct (cn_topics c) as [|t0 ts] eqn:Et.
    { exfalso. apply Hasked in Hin. by apply elem_of_nil in Hin. }
    unfold Realtime.read_once. rewrite Hr.
    pose proof (read_holds r Hn stream es topic ([], foldl (baseline (tn_head t)) (cn_since c) (t0 :: ts)) Hin Ht) as Hh.
    destruct (foldl read_step _ r) as [d since]. cbn [fst] in Hh.
    pose proof (all_frames_poison d topic _ Hh (frames_poison topic _ id ev Hev Hp)) as Hbad.
    destruct (all_frames d) as [fs [e|]]; [|done]. done. }
  destruct Hclosed as [H1 H2]. split_and!; [done|done|]. intros t'. unfold turn at 1, ws_turn.
  by destruct (cn_closed (turn c t)).
Qed.

Lemma dget_setdefault k k' v d : dget k (setdefault k' v d) =
  if decide (k = k') then Some (match dget k d with Some x => x | None => v end) else dget k d.
Proof.
  unfold setdefault. destruct (decide (k = k')) as [->|Hne].
  - destruct (dget k' d) eqn:E; [done|apply dget_dset_eq].
  - destruct (dget k' d); [done|by apply dget_dset_ne].
Qed.

Lemma string_length_app (x y : string) : String.length (x ++ y) = (String.length x + String.length y)%nat.
Proof. induction x as [|ch x IH]; simpl; [done|by rewrite IH]. Qed.

Lemma str_take_length n : forall x, (n <= String.length x)%nat -> String.length (str_take n x) = n.
Proof. induction n as [|n IH]; intros [|ch x]; simpl; intros; try lia; [done..|]. rewrite IH; lia. Qed.

(** The live id of an alert against its stored one.  A frame's [event_id] is the id
    under which the alert worker stores the event if the payload brings none, or a text of
    at most 64 characters; but a longer text, or an id that is no text, is forwarded as
    it is while the stored id is truncated or printed - so the two differ. *)
Theorem live_event_id (ev : RawEvent) (source : pyval) (d : dict string pyval) (a : AlertIn) :
  _event_frame ev = Ok d -> translate sha256_hex ev source = Ok a ->
  exists v, dget "event_id"%string d = Some v /\
    match dget "event_id"%string (al_payload a) with
    | None => v = VStr (al_event_id a)
    | Some (VStr s) => s <> EmptyString -> (v = VStr (al_event_id a) <-> (String.length s <= 64)%nat)
    | Some _ => v <> VStr (al_event_id a)
    end.
Proof.
  intros Hf Ht. pose proof (translate_id _ _ _ _ Ht) as Hid.
  assert (Hp : payload_dict ev = Ok (al_payload a)).
  { unfold translate in Ht. inv_res. done. }
  unfold Realtime._event_frame in Hf. rewrite Hp in Hf. cbn [res_bind] in Hf.
  apply res_bind_ok in Hf as (id & Hid' & Hf). injection Hf as <-.
  assert (id = al_event_id a) as -> by congruence.
  eexists. split; [rewrite dget_dset_ne by done; rewrite dget_setdefault, decide_True by done; done|].
  rewrite !dget_setdefault, !decide_False by done.
  destruct (dget "event_id"%string (al_payload a)) as [v|] eqn:Ev; [|done].
  unfold digest_event_id in Hid. rewrite Hp in Hid. cbn [res_bind] in Hid.
  destruct v as [| | | |s| |]; try done.
  assert (Hv : _s (al_payload a) "event_id" "" = s) by (unfold _s; by rewrite Ev).
  intros Hs. rewrite Hv in Hid. apply String.eqb_neq in Hs. rewrite Hs in Hid. cbn [negb] in Hid. injection Hid as Hid.
  unfold _truncate in Hid. rewrite <- Hid. destruct (Nat.leb_spec (String.length s) 64); [by split|].
  split; [|lia]. intros E. exfalso.
  apply (f_equal (fun v => String.length (text_of v))) in E. cbn [text_of] in E. rewrite string_length_app, str_take_length in E by lia. simpl in E. lia.
Qed.
End FeedProperties.

(** ** Witnesses *)

#[local] Existing Instance demo_platform.

(** Three texts in one, each character marked and each text ended. *)
Fixpoint demo_put (s rest : string) : string :=
  match s with EmptyString => String "0"%char rest | String c s => String "1"%char (String c (demo_put s rest)) end.
Fixpoint demo_take (s : string) : string * string :=
  match s with
  | String "1"%char (String c r) => let '(a, r) := demo_take r in (String c a, r)
  | String _ r => (EmptyString, r)
  | EmptyString => (EmptyString, EmptyString)
  end.

Lemma demo_take_put s rest : demo_take (demo_put s rest) = (s, rest).
Proof. induction s as [|c s IH]; simpl; [done|by rewrite IH]. Qed.

Definition demo_dumps (v : pyval) : string :=
  match v with
  | VDict [(_, VStr a); (_, VStr b); (_, VStr c)] => demo_put a (demo_put b (demo_put c EmptyString))
  | _ => EmptyString
  end.
Definition demo_claims (raw : string) : option pyval :=
  let '(a, r) := demo_take raw in
  let '(b, r) := demo_take r in
  Some (VDict [("sub", VStr a); ("role", VStr b); ("iat", VStr (demo_take r).1)])%string.

Lemma demo_reads now user role :
  demo_claims (demo_dumps (ticket_claims pretty now user role)) = Some (ticket_claims pretty now user role).
Proof. unfold demo_claims, ticket_claims. cbn [demo_dumps]. rewrite demo_take_put. cbv beta iota. by rewrite !demo_take_put. Qed.

Definition demo_token_urlsafe (n : nat) : string := pretty n.
Definition demo_ops : list ticket_op := [Issue 0 1 "viewer" 30; Issue 5 2 "admin" 30].

Lemma ticket_single_use_witness :
  exists p s', redeem_ticket demo_claims 7 "1" (foldl (ticket_step demo_token_urlsafe demo_dumps demo_claims pretty)
                                                   no_tickets demo_ops) = (Ok p, s') /\ tk_role p = "admin"%string /\
    forall now', (redeem_ticket demo_claims now' "1" s').1 = Err AuthenticationError.
Proof.
  destruct (redeem_ticket demo_claims 7 "1" (foldl (ticket_step demo_token_urlsafe demo_dumps demo_claims pretty)
                                                   no_tickets demo_ops)) as [r s'] eqn:E.
  assert (Hr : exists p, r = Ok p /\ tk_role p = "admin"%string)
    by (apply (f_equal fst) in E; vm_compute in E; rewrite <- E; eexists; split; reflexivity).
  destruct Hr as (p & -> & Hp). exists p, s'. split; [reflexivity|]. split; [exact Hp|].
  destruct (@ticket_single_use demo_platform demo_token_urlsafe demo_dumps demo_claims pretty
    ltac:(intros m n; apply (inj pretty)) demo_reads demo_ops 7 "1" p s' E) as [_ H].
  exact (H []).
Defined.

(** A text that starts with [S] subscribes; any other is an event whose id is the text,
    or, when it starts with [N], whose payload is null. *)
Definition demo_frame (raw : string) : option pyval :=
  match raw with
  | String "S"%char _ => Some (VDict [("type", VStr "subscribe"); ("topics", VList [VStr "Alerts"; VStr "fills"])])
  | _ => Some (VDict [("event_type", VStr "alert.system"); ("produced_at", VStr ""); ("producer", VStr "ops");
                      ("payload", match raw with String "N"%char _ => VNone | _ => VDict [("event_id", VStr raw)] end)])
  end%string.
Definition demo_ident : TicketPayload :=
  {| tk_ticket := "1"; tk_sub := "2"; tk_role := "viewer"; tk_ttl := 0; tk_issued_at := 7 |}.
Definition demo_read (raw : string) (q : dict string string) : Response :=
  match q with
  | (s, _) :: _ => Some [(s, [("1-0", [("data", raw)])])]
  | [] => Some []
  end%string.
Definition demo_turn (raw : string) : Turn :=
  {| tn_head _ := "0-0"; tn_read := demo_read raw; tn_text := Some "S" |}%string.
Notation demo_conn turns :=
  (foldl (turn demo_sha demo_frame (fun _ => Some 0) (fun _ => Some 1)) (accepted demo_ident) turns).

Lemma demo_answers raw : answers_asked (tn_read (demo_turn raw)).
Proof.
  intros [|[s pos] q] r Hr; cbn in Hr; injection Hr as <-.
  - split; [constructor|]. intros x Hx. by apply elem_of_nil in Hx.
  - split; [apply NoDup_singleton|]. intros x Hx%list_elem_of_singleton. subst x. by left.
Qed.

Lemma demo_sent : map fst (cn_sent (demo_conn [demo_turn "a"; demo_turn "b"])) = ["alerts"]%string.
Proof. vm_compute. reflexivity. Qed.

Lemma topic_isolation_witness :
  map fst (cn_sent (demo_conn [demo_turn "a"; demo_turn "b"])) = ["alerts"]%string /\
  "fills"%string ∉ cn_topics (demo_conn [demo_turn "a"; demo_turn "b"]).
Proof.
  split; [exact demo_sent|].
  exact (proj2 (proj2 (topic_isolation demo_sha demo_frame (fun _ => Some 0) (fun _ => Some 1) demo_ident
    [demo_turn "a"; demo_turn "b"]
    ltac:(repeat apply Forall_cons_2; [apply demo_answers..|apply Forall_nil_2])))).
Defined.

Definition demo_null : RawEvent :=
  {| raw_type := VStr "alert.system"; raw_payload := VNone; raw_producer := VStr "ops"; raw_produced_at := 0;
     raw_version := 1; raw_correlation := VStr "" |}%string.

Lemma poison_payload_closes_feed_witness :
  cn_closed (demo_conn [demo_turn "a"]) = None /\ cn_closed (demo_conn [demo_turn "a"; demo_turn "N"]) <> None.
Proof.
  split; [vm_compute; reflexivity|].
  apply (proj1 (poison_payload_closes_feed demo_sha demo_frame (fun _ => Some 0) (fun _ => Some 1)
    (demo_turn "N") (demo_conn [demo_turn "a"]) [("alerts.stream", [("1-0", [("data", "N")])])]%string
    "alerts" "alerts.stream" "1-0" [("1-0", [("data", "N")])]%string demo_null
    ltac:(vm_compute; reflexivity) (demo_answers "N") ltac:(vm_compute; reflexivity)
    ltac:(left) ltac:(vm_compute; reflexivity) ltac:(vm_compute; left) ltac:(vm_compute; reflexivity))).
Defined.

(** An id of 65 characters. *)
Definition demo_long : string := String.concat "" (repeat "12345" 13).
Definition demo_event (id : string) : RawEvent :=
  {| raw_type := VStr "alert.system"; raw_payload := VDict [("event_id", VStr id)]; raw_producer := VStr "ops";
     raw_produced_at := 0; raw_version := 1; raw_correlation := VNone |}%string.

Lemma live_event_id_witness :
  exists d a, _event_frame demo_sha (demo_event demo_long) = Ok d /\
    translate demo_sha (demo_event demo_long) (VStr "ops") = Ok a /\
    dget "event_id"%string d <> Some (VStr (al_event_id a)).
Proof.
  destruct (_event_frame demo_sha (demo_event demo_long)) as [d|] eqn:Ed; [|vm_compute in Ed; discriminate].
  destruct (translate demo_sha (demo_event demo_long) (VStr "ops")) as [a|] eqn:Ea; [|vm_compute in Ea; discriminate].
  destruct (live_event_id demo_sha (demo_event demo_long) (VStr "ops") d a Ed Ea) as (v & Hv & Hd).
  exists d, a. split; [reflexivity|]. split; [reflexivity|]. rewrite Hv. intros [= ->].
  assert (Hp : dget "event_id"%string (al_payload a) = Some (VStr demo_long)).
  { apply (f_equal (fun r => match r with Ok a => al_payload a | Err _ => [] end)) in Ea. cbn [al_payload] in Ea.
    rewrite <- Ea. vm_compute. reflexivity. }
  rewrite Hp in Hd. destruct (Hd ltac:(discriminate)) as [H _]. specialize (H eq_refl).
  vm_compute in H. apply Nat.leb_le in H. vm_compute in H. discriminate.
Defined.
