(* ===== verification/Access.v ===== *)
(** * Who is calling, and how often ([app/core/ratelimit.py], [client_ip] and
    [enforce_rate_limit] of [app/api/deps.py], the endpoints of [app/api/v1/auth.py])

    The monotonic clock is a float.  IP literals and networks are those of Python's
    [ipaddress]: parsing and membership are parameters. *)

From Stdlib Require Import ZArith Ascii Lia Sorted.
From stdpp Require Import base list strings.
From S2P Require Import Prelude PyFloat Timeframes Signals Fusion Risk Decision Tables Accounts.

(** ** The sliding window *)

Record RateLimitResult := { allowed : bool; retry_after_seconds : Z }.

(** [defaultdict(deque)]: the recorded hits of each key, oldest first. *)
Definition Hits := dict string (list float).

(** [math.ceil]; infinities and NaN have none. *)
Definition math_ceil (x : float) : Res Z :=
  match x with
  | S754_zero _ => Ok 0
  | S754_finite s m e => let '(n, d) := ratio_of m e in Ok (if s then - (n / Zpos d) else - ((- n) / Zpos d))
  | _ => Err OtherError
  end.

Fixpoint popleft_expired (cutoff : float) (window : list float) : list float :=
  match window with
  | t :: rest => if t <=ᶠ cutoff then popleft_expired cutoff rest else window
  | [] => []
  end.

(** With a limit of zero an empty window has no first hit to wait for. *)
Definition check (now : float) (key : string) (limit : Z) (window_seconds : float) (hits : Hits)
  : Res RateLimitResult * Hits :=
  let window := popleft_expired (now -ᶠ window_seconds) (dget_or key [] hits) in
  if limit <=? Z.of_nat (length window) then
    (match window with
     | [] => Err OtherError
     | first :: _ =>
         wait <-- math_ceil ((first +ᶠ window_seconds) -ᶠ now) ;;
         Ok {| allowed := false; retry_after_seconds := Z.max 1 wait |}
     end, dset key window hits)
  else (Ok {| allowed := true; retry_after_seconds := 0 |}, dset key (window ++ [now]) hits).

Definition reset (key : option string) (hits : Hits) : Hits :=
  match key with
  | None => []
  | Some k => ddel k hits
  end.

(** ** The caller's address *)

(** [text.split(c)]. *)
Fixpoint split_char (c : ascii) (s : string) : list string :=
  match s with
  | EmptyString => [EmptyString]
  | String a s =>
      if Ascii.eqb a c then EmptyString :: split_char c s
      else match split_char c s with
           | p :: rest => String a p :: rest
           | [] => [String a EmptyString]
           end
  end.

(** The socket peer and the headers, names in lower case. *)
Record Request := { rq_client : option string; rq_headers : dict string string }.

Record AccessSettings {Net : Type} := {
  trusted_proxy_cidrs : list Net;
  rate_limit_login_per_minute : Z;
  rate_limit_register_per_minute : Z;
  rate_limit_refresh_per_minute : Z
}.
Arguments AccessSettings Net : clear implicits.

Section Caller.
Context {Ip Net : Type} (ip_address : string -> option Ip) (in_network : Ip -> Net -> bool).
Context (settings : AccessSettings Net).

Definition is_ip (s : string) : bool := bool_decide (is_Some (ip_address s)).

Definition _is_trusted_peer (peer : option string) : bool :=
  match peer with
  | None | Some EmptyString => false
  | Some p => match ip_address p with
              | None => false
              | Some addr => existsb (in_network addr) (trusted_proxy_cidrs settings)
              end
  end.

(** The entries of a forwarded header, the last one first. *)
Definition forwarded_candidates (header : string) : list string :=
  rev (List.filter (fun p => negb (String.eqb p "")) (map py_strip (split_char "," header))).

Definition client_ip (request : Request) : option string :=
  let peer := rq_client request in
  if negb (_is_trusted_peer peer) then peer
  else
    let from_forwarded :=
      match dget "x-forwarded-for"%string (rq_headers request) with
      | None | Some EmptyString => peer
      | Some forwarded => match List.find is_ip (forwarded_candidates forwarded) with
                          | Some candidate => Some candidate
                          | None => peer
                          end
      end in
    match dget "x-real-ip"%string (rq_headers request) with
    | None | Some EmptyString => from_forwarded
    | Some real => if is_ip real then Some real else from_forwarded
    end.

Definition limit_by_scope : dict string Z :=
  [("login", rate_limit_login_per_minute settings); ("register", rate_limit_register_per_minute settings);
   ("refresh", rate_limit_refresh_per_minute settings)]%string.

Definition limiter_key (scope : string) (request : Request) : string :=
  (scope ++ ":" ++ match client_ip request with None | Some EmptyString => "unknown" | Some ip => ip end)%string.

(** The default window of [check]. *)
Definition window_default : float := of_Z 60.

Definition enforce_rate_limit (scope : string) (now : float) (request : Request) (hits : Hits) : Res unit * Hits :=
  match dget scope limit_by_scope with
  | None => (Ok tt, hits)
  | Some limit =>
      let '(result, hits) := check now (limiter_key scope request) limit window_default hits in
      (match result with
       | Err e => Err e
       | Ok r => if allowed r then Ok tt else Err RateLimitError
       end, hits)
  end.

(** An endpoint behind the limiter: the handler runs when the dependency let it. *)
Definition guarded {A S} (scope : string) (now : float) (request : Request) (handler : S -> Res A * S)
    (state : S * Hits) : Res A * (S * Hits) :=
  let '(s, hits) := state in
  let '(r, hits) := enforce_rate_limit scope now request hits in
  match r with
  | Err e => (Err e, (s, hits))
  | Ok _ => let '(res, s) := handler s in (res, (s, hits))
  end.
End Caller.

(** ** The endpoints of [auth.py] *)

Section Endpoints.
Context `{Platform}.
Context {Ip Net : Type} (ip_address : string -> option Ip) (in_network : Ip -> Net -> bool)
  (access : AccessSettings Net) (auth : AuthSettings).
Context (uuid_str uuid_hex : Z -> string) (argon2_hash : nat -> string -> string)
  (argon2_verify : string -> string -> bool) (argon2_needs_rehash : string -> bool)
  (jwt_encode : dict string pyval -> string) (jwt_decode : Z -> string -> option (dict string pyval)).

Definition client_of (request : Request) : Client :=
  {| cl_ip := client_ip ip_address in_network access request;
     cl_agent := dget "user-agent"%string (rq_headers request) |}.

Notation guarded := (guarded ip_address in_network access).

Definition register_endpoint (now : float) (request : Request) (email password : string)
  : Accounts * Hits -> Res User * (Accounts * Hits) :=
  guarded "register" now request
    (register_user uuid_str argon2_hash email password (cl_ip (client_of request)) None).

Definition login_endpoint (now : float) (request : Request) (clk : nat -> Z) (username password : string)
  : Accounts * Hits -> Res TokenPair * (Accounts * Hits) :=
  guarded "login" now request
    (login auth uuid_str uuid_hex argon2_hash argon2_verify argon2_needs_rehash jwt_encode
       clk username password (client_of request)).

Definition refresh_endpoint (now : float) (request : Request) (cookie : option string) (clk : nat -> Z)
  : Accounts * Hits -> Res TokenPair * (Accounts * Hits) :=
  guarded "refresh" now request
    (fun s => match cookie with
              | None | Some EmptyString => (Err AuthenticationError, s)
              | Some raw =>
                  let '(r, s) := rotate_refresh auth uuid_str uuid_hex jwt_encode jwt_decode
                                   clk raw (client_of request) s in
                  (match r with Ok (tp, _) => Ok tp | Err e => Err e end, s)
              end).

(** The logout of an authenticated caller. *)
Definition logout_endpoint (current_user : User) (cookie : option string) (clk : nat -> Z) (s : Accounts) : Accounts :=
  match cookie with
  | None | Some EmptyString => s
  | Some raw => (revoke_refresh jwt_decode clk raw (u_email current_user) s).2
  end.
End Endpoints.

(** ** Properties *)

(** The reference: the hits that are not older than the window, and the new one if there
    is room. *)
Definition newer (cutoff : float) (h : list float) : list float := List.filter (fun t => negb (t <=ᶠ cutoff)) h.
Definition slide (limit : Z) (w : float) (h : list float) (now : float) : list float :=
  let h := newer (now -ᶠ w) h in if Z.of_nat (length h) <? limit then h ++ [now] else h.

Notation ascending := (StronglySorted (fun a b => fle a b = true)).

Lemma popleft_newer cutoff w : ascending w -> popleft_expired cutoff w = newer cutoff w.
Proof.
  induction 1 as [|t w Hs IH Ht]; [done|]. simpl. destruct (t <=ᶠ cutoff) eqn:E; [done|]. simpl. f_equal.
  unfold newer. clear IH Hs. induction Ht as [|u w Hu Ht IHt]; [done|]. simpl.
  destruct (u <=ᶠ cutoff) eqn:Eu; [|by rewrite <- IHt].
  rewrite (fle_trans _ _ _ Hu Eu) in E. done.
Qed.

Lemma newer_in cutoff h u : u ∈ newer cutoff h <-> u ∈ h /\ (u <=ᶠ cutoff) = false.
Proof. unfold newer. by rewrite !list_elem_of_In, filter_In, negb_true_iff. Qed.

Lemma newer_ascending cutoff w : ascending w -> ascending (newer cutoff w).
Proof.
  induction 1 as [|t w Hs IH Ht]; [constructor|]. simpl. destruct (negb _); [|done]. constructor; [done|].
  apply Forall_forall. intros u [Hu _]%newer_in. rewrite Forall_forall in Ht. by apply Ht.
Qed.

Definition Call : Type := float * string.

Section Window.
Context (limit_of : string -> Z) (w : float).

Definition run_calls (calls : list Call) : Hits :=
  foldl (fun hits '(now, key) => (check now key (limit_of key) w hits).2) [] calls.
Definition times (key : string) (calls : list Call) : list float :=
  omap (fun '(now, k) => if decide (k = key) then Some now else None) calls.
Definition reference (key : string) (calls : list Call) : list float :=
  foldl (slide (limit_of key) w) [] (times key calls).

Lemma check_state now key hits :
  let window := popleft_expired (now -ᶠ w) (dget_or key [] hits) in
  (check now key (limit_of key) w hits).2 =
    dset key (if Z.of_nat (length window) <? limit_of key then window ++ [now] else window) hits.
Proof.
  intros window. unfold check. fold window. rewrite Z.ltb_antisym.
  by destruct (limit_of key <=? _).
Qed.

(** The table holds, for every key, exactly the reference window; it is ascending, no
    longer than the limit, and made of past calls. *)
Record limiter_inv (calls : list Call) : Prop := {
  li_window : forall key, dget_or key [] (run_calls calls) = reference key calls;
  li_sorted : forall key, ascending (reference key calls);
  li_length : forall key, Z.of_nat (length (reference key calls)) <= Z.max 0 (limit_of key);
  li_past : forall key t, t ∈ reference key calls -> t ∈ calls.*1;
  li_keys : forall key, key ∈ (run_calls calls).*1 <-> key ∈ calls.*2
}.

Lemma reference_snoc key calls c : reference key (calls ++ [c]) =
  if decide (c.2 = key) then slide (limit_of key) w (reference key calls) c.1 else reference key calls.
Proof.
  unfold reference, times. rewrite omap_app, foldl_app. destruct c as [now k]. simpl.
  by destruct (decide (k = key)).
Qed.

Lemma slide_in limit h now t : t ∈ slide limit w h now -> t ∈ h \/ t = now.
Proof.
  unfold slide. cbv zeta. destruct (_ <? _).
  - intros [[? _]%newer_in|?%list_elem_of_singleton]%elem_of_app; auto.
  - intros [? _]%newer_in; auto.
Qed.

Lemma ascending_snoc h t : ascending h -> Forall (fun u => fle u t = true) h -> ascending (h ++ [t]).
Proof.
  induction 1 as [|u h Hs IH Hu]; intros Ht; simpl; [repeat constructor|].
  inversion_clear Ht as [|? ? H1 H2]. constructor; [by apply IH|].
  apply Forall_app. split; [done|by repeat constructor].
Qed.

Lemma ascending_last h t : ascending (h ++ [t]) -> ascending h /\ Forall (fun u => fle u t = true) h.
Proof.
  induction h as [|u h IH]; simpl; [repeat constructor|]. inversion_clear 1 as [|? ? Hs Ht].
  apply Forall_app in Ht as [Ht Hl]. inversion_clear Hl as [|? ? Hut _].
  destruct (IH Hs) as [H1 H2]. by split; constructor.
Qed.

Lemma length_newer cutoff h : (length (newer cutoff h) <= length h)%nat.
Proof. unfold newer. apply filter_length_le. Qed.

Lemma limiter_inv_all calls : ascending calls.*1 -> limiter_inv calls.
Proof.
  induction calls as [|[now k] calls IH] using rev_ind; intros Hc.
  { split; intros key; [done|constructor|simpl; lia|by intros t ?%elem_of_nil|done]. }
  rewrite fmap_app in Hc. apply ascending_last in Hc as [Hc Hnow]. destruct (IH Hc) as [Hw Hs Hl Hp Hk].
  split.
  - intros key. unfold run_calls. rewrite foldl_app. cbn [foldl]. fold (run_calls calls).
    rewrite check_state. cbv zeta. unfold dget_or. rewrite dget_dset, reference_snoc. cbn [fst snd].
    destruct (decide (key = k)) as [->|Hne]; [rewrite decide_True by done|rewrite decide_False by done; apply Hw].
    specialize (Hw k). unfold dget_or in Hw. rewrite Hw, popleft_newer by done. done.
  - intros key. rewrite reference_snoc. cbn [fst snd]. destruct (decide _) as [->|]; [|done].
    unfold slide. cbv zeta. destruct (_ <? _); [|by apply newer_ascending].
    apply ascending_snoc; [by apply newer_ascending|]. apply Forall_forall. intros u [Hu _]%newer_in.
    rewrite Forall_forall in Hnow. by apply Hnow, (Hp key).
  - intros key. rewrite reference_snoc. cbn [fst snd]. destruct (decide _) as [->|]; [|done].
    unfold slide. cbv zeta. pose proof (length_newer (now -ᶠ w) (reference key calls)).
    specialize (Hl key). destruct (_ <? _) eqn:E; [apply Z.ltb_lt in E; rewrite length_app; simpl; lia|lia].
  - intros key t. rewrite reference_snoc, fmap_app, elem_of_app. cbn [fst snd].
    destruct (decide _) as [->|]; [|intros Ht; left; by apply (Hp key)].
    intros [Ht| ->]%slide_in; [left; by apply (Hp key)|right; by left].
  - intros key. unfold run_calls. rewrite foldl_app. cbn [foldl]. fold (run_calls calls).
    rewrite check_state. cbv zeta. rewrite dset_keys, Hk, fmap_app, elem_of_app. simpl.
    rewrite elem_of_cons, elem_of_nil. naive_solver.
Qed.
End Window.

(** C37: The limiter is a sliding window.  While the clock does not go back, a call is
    allowed exactly when fewer than the limit of the hits allowed for its key are newer
    than the window, whatever other keys did in between; a refused call waits at least a
    second; no key ever holds more hits than its limit; and a key once seen is never
    dropped, so the table grows with the number of callers. *)
Theorem limiter_window (limit_of : string -> Z) (w : float) (calls : list Call) (now : float) (key : string) :
  ascending (calls ++ [(now, key)]).*1 ->
  let hits := run_calls limit_of w calls in
  let recorded := reference limit_of w key calls in
  let '(r, hits') := check now key (limit_of key) w hits in
  dget_or key [] hits = recorded /\
  (r = Ok {| allowed := true; retry_after_seconds := 0 |} <->
     Z.of_nat (length (newer (now -ᶠ w) recorded)) < limit_of key) /\
  (forall res, r = Ok res -> allowed res = false -> 1 <= retry_after_seconds res) /\
  Z.of_nat (length (dget_or key [] hits')) <= Z.max 0 (limit_of key) /\
  (forall k, k ∈ hits'.*1 <-> k = key \/ k ∈ calls.*2).
Proof.
  intros Hc hits recorded. pose proof (limiter_inv_all limit_of w _ Hc) as Hinv'.
  rewrite fmap_app in Hc. apply ascending_last in Hc as [Hc _].
  destruct (limiter_inv_all limit_of w _ Hc) as [Hw Hs Hl Hp Hk].
  destruct Hinv' as [Hw' _ Hl' _ Hk'].
  assert (Hrun : run_calls limit_of w (calls ++ [(now, key)]) = (check now key (limit_of key) w hits).2)
    by (unfold run_calls; by rewrite foldl_app).
  destruct (check now key (limit_of key) w hits) as [r hits'] eqn:E. cbn [snd] in Hrun.
  rewrite Hrun in Hw', Hk'. split_and!.
  - apply Hw.
  - specialize (Hw key). fold hits in Hw. unfold check in E. rewrite Hw, popleft_newer in E by apply Hs.
    fold recorded in E. destruct (Z.leb_spec (limit_of key) (Z.of_nat (length (newer (now -ᶠ w) recorded)))) as [Hle|Hlt];
      injection E as <- _; [|done].
    split; [|lia]. destruct (newer _ _); [done|]. unfold res_bind. by destruct (math_ceil _).
  - intros res -> Ha. unfold check in E. destruct (_ <=? _); injection E as E _; [|by subst res].
    destruct (popleft_expired _ _); [done|]. apply res_bind_ok in E as (wait & _ & [= <-]). simpl. lia.
  - rewrite Hw'. apply Hl'.
  - intros k. rewrite Hk', fmap_app, elem_of_app. simpl. rewrite elem_of_cons, elem_of_nil. naive_solver.
Qed.

(** A run of requests to endpoints behind the limiter. *)
Section Throttle.
Context {Ip Net : Type} (ip_address : string -> option Ip) (in_network : Ip -> Net -> bool)
  (settings : AccessSettings Net).
Context {A S : Type}.

Record Attempt := { at_now : float; at_request : Request; at_handler : S -> Res A * S }.

Definition attempt (scope : string) (st : S * Hits) (a : Attempt) : S * Hits :=
  (guarded ip_address in_network settings scope (at_now a) (at_request a) (at_handler a) st).2.
Definition handle (s : S) (a : Attempt) : S := (at_handler a s).2.

(** Nothing in the list is a whole window older than something after it. *)
Definition within_window (l : list float) : Prop :=
  forall l1 t l2 u l3, l = l1 ++ t :: l2 ++ u :: l3 -> (t <=ᶠ (u -ᶠ window_default)) = false.

Lemma within_window_init l t : within_window (l ++ [t]) -> within_window l.
Proof. intros H l1 a l2 b l3 ->. apply (H l1 a l2 b (l3 ++ [t])). by rewrite <- !app_assoc, <- app_comm_cons, <- app_assoc. Qed.

Lemma fresh_not_popped cutoff w : Forall (fun t => (t <=ᶠ cutoff) = false) w -> popleft_expired cutoff w = w.
Proof. intros H. destruct H as [|t w Ht _]; simpl; [done|by rewrite Ht]. Qed.

Notation key_of scope a := (limiter_key ip_address in_network settings scope (at_request a)).

(** The attempts that were let through, of one key: as many as the table has hits. *)
Record let_through (scope key : string) (limit : Z) (attempts passed : list Attempt) (s : S) : Prop := {
  lt_sub : passed `sublist_of` attempts;
  lt_state : (foldl (attempt scope) (s, []) attempts).1 = foldl handle s passed;
  lt_hits : length (dget_or key [] (foldl (attempt scope) (s, []) attempts).2)
            = length (List.filter (fun a => String.eqb (key_of scope a) key) passed);
  lt_limit : Z.of_nat (length (List.filter (fun a => String.eqb (key_of scope a) key) passed)) <= Z.max 0 limit;
  lt_past : forall t, t ∈ dget_or key [] (foldl (attempt scope) (s, []) attempts).2 -> t ∈ map at_now attempts
}.

Lemma attempt_cases scope limit a s hits : dget scope (limit_by_scope settings) = Some limit ->
  let window := popleft_expired (at_now a -ᶠ window_default) (dget_or (key_of scope a) [] hits) in
  attempt scope (s, hits) a =
    if Z.of_nat (length window) <? limit then (handle s a, dset (key_of scope a) (window ++ [at_now a]) hits)
    else (s, dset (key_of scope a) window hits).
Proof.
  intros Hs window. unfold attempt, guarded, enforce_rate_limit. rewrite Hs. unfold check. cbv zeta. fold window.
  rewrite Z.ltb_antisym. destruct (limit <=? _); cbn [negb].
  - destruct window; [done|]. unfold res_bind. by destruct (math_ceil _).
  - unfold handle. by destruct (at_handler a s).
Qed.

Lemma dget_or_dset (key : string) (v : list float) hits : dget_or key [] (dset key v hits) = v.
Proof. unfold dget_or. by rewrite dget_dset_eq. Qed.

Lemma let_through_all scope key limit attempts s : dget scope (limit_by_scope settings) = Some limit ->
  within_window (map at_now attempts) -> exists passed, let_through scope key limit attempts passed s.
Proof.
  intros Hscope. induction attempts as [|a attempts IH] using rev_ind; intros Hw.
  { exists []. split; [constructor|done|done|simpl; lia|by intros t ?%elem_of_nil]. }
  rewrite map_app in Hw. destruct (IH (within_window_init _ _ Hw)) as [passed [Hsub Hst Hh Hl Hp]].
  pose proof (attempt_cases scope limit a (foldl (attempt scope) (s, []) attempts).1
                (foldl (attempt scope) (s, []) attempts).2 Hscope) as Hstep.
  rewrite <- surjective_pairing in Hstep. cbv zeta in Hstep.
  set (st := foldl (attempt scope) (s, []) attempts) in *.
  assert (Hkeep : key_of scope a = key -> forall t, t ∈ dget_or key [] st.2 -> (t <=ᶠ (at_now a -ᶠ window_default)) = false).
  { intros _ t (l1 & l2 & E)%Hp%list_elem_of_split. apply (Hw l1 t l2 (at_now a) []). by rewrite E, <- app_assoc. }
  assert (Hfold : foldl (attempt scope) (s, []) (attempts ++ [a]) = attempt scope st a) by (by rewrite foldl_app).
  destruct (decide (key_of scope a = key)) as [Hk|Hk].
  - rewrite Hk, (fresh_not_popped _ (dget_or key [] st.2)) in Hstep by (apply Forall_forall; by apply Hkeep).
    destruct (Z.ltb_spec (Z.of_nat (length (dget_or key [] st.2))) limit) as [Hlt|Hge].
    + exists (passed ++ [a]). split; rewrite ?Hfold, ?Hstep; cbn [fst snd];
        rewrite ?List.filter_app, ?length_app; cbn [List.filter]; rewrite ?(proj2 (String.eqb_eq _ _) Hk);
        rewrite ?dget_or_dset, ?length_app; cbn [length].
      * by apply sublist_app.
      * by rewrite foldl_app, Hst.
      * by rewrite Hh.
      * lia.
      * intros t. rewrite map_app, !elem_of_app. cbn [map]. naive_solver.
    + exists passed. split; rewrite ?Hfold, ?Hstep; cbn [fst snd]; rewrite ?dget_or_dset; try done.
      * by apply sublist_inserts_r.
      * intros t. rewrite map_app, elem_of_app. auto.
  - set (window := popleft_expired _ _) in Hstep.
    assert (Hother : forall v, dget_or key [] (dset (key_of scope a) v st.2) = dget_or key [] st.2)
      by (intros v; unfold dget_or; rewrite dget_dset_ne by (by apply not_eq_sym); done).
    destruct (Z.of_nat (length window) <? limit).
    + exists (passed ++ [a]). split; rewrite ?Hfold, ?Hstep; cbn [fst snd]; rewrite ?Hother;
        rewrite ?List.filter_app; cbn [List.filter]; rewrite ?(proj2 (String.eqb_neq _ _) Hk), ?app_nil_r; try done.
      * by apply sublist_app.
      * by rewrite foldl_app, Hst.
      * intros t. rewrite map_app, elem_of_app. auto.
    + exists passed. split; rewrite ?Hfold, ?Hstep; cbn [fst snd]; rewrite ?Hother; try done.
      * by apply sublist_inserts_r.
      * intros t. rewrite map_app, elem_of_app. auto.
Qed.

(** A direct caller cannot outrun the limiter.  Of the requests a peer that is no
    trusted proxy sends to a limited endpoint within one window, at most the limit reach
    the handler, whatever forwarding headers they carry and whatever requests of others
    come in between; the state is as if only those had been made. *)
Theorem direct_caller_throttled (scope peer : string) (limit : Z) (attempts : list Attempt) (s : S) :
  dget scope (limit_by_scope settings) = Some limit -> 0 < limit ->
  _is_trusted_peer ip_address in_network settings (Some peer) = false -> peer <> EmptyString ->
  within_window (map at_now attempts) ->
  exists passed, passed `sublist_of` attempts /\
    (foldl (attempt scope) (s, []) attempts).1 = foldl handle s passed /\
    Z.of_nat (length (List.filter (fun a => bool_decide (rq_client (at_request a) = Some peer)) passed)) <= limit.
Proof.
  intros Hscope Hpos Hpeer Hne Hw.
  destruct (let_through_all scope (scope ++ ":" ++ peer)%string limit attempts s Hscope Hw) as [passed [Hsub Hst _ Hl _]].
  exists passed. split_and!; [done|done|]. etrans; [|rewrite Z.max_r in Hl by lia; exact Hl].
  apply Nat2Z.inj_le. clear -Hpeer Hne. induction passed as [|a passed IH]; [done|]. cbn [List.filter].
  case_bool_decide as Hc; cycle 1.
  { destruct (String.eqb _ _); simpl; lia. }
  assert (Hk : key_of scope a = (scope ++ ":" ++ peer)%string).
  { unfold limiter_key, client_ip. rewrite Hc, Hpeer. cbn [negb]. by destruct peer. }
  rewrite Hk, String.eqb_refl. simpl. lia.
Qed.
End Throttle.

(** ** Witnesses *)

Definition demo_calls : list Call := [(of_Z 0, "login:a"); (of_Z 1, "login:a")]%string.

Lemma limiter_window_witness :
  exists res, (check (of_Z 2) "login:a" 2 (of_Z 60) (run_calls (fun _ => 2) (of_Z 60) demo_calls)).1 = Ok res /\
    allowed res = false /\ 1 <= retry_after_seconds res.
Proof.
  pose proof (limiter_window (fun _ => 2) (of_Z 60) demo_calls (of_Z 2) "login:a"
    ltac:(repeat constructor; vm_compute; reflexivity)) as H.
  destruct (check (of_Z 2) "login:a" 2 (of_Z 60) (run_calls (fun _ => 2) (of_Z 60) demo_calls)) as [r h] eqn:E.
  cbv beta zeta in H. rewrite E in H.
  assert (Hr : exists res, r = Ok res /\ allowed res = false)
    by (apply (f_equal fst) in E; vm_compute in E; rewrite <- E; eexists; split; reflexivity).
  destruct Hr as (res & -> & Ha). exists res. split; [reflexivity|]. split; [exact Ha|].
  exact (proj1 (proj2 (proj2 H)) res eq_refl Ha).
Defined.

(** One proxy, known by its address; every attempt counts. *)
Definition demo_access : AccessSettings string :=
  {| trusted_proxy_cidrs := ["10.0.0.1"]%string; rate_limit_login_per_minute := 1;
     rate_limit_register_per_minute := 5; rate_limit_refresh_per_minute := 30 |}.
Definition demo_attempt (t : Z) (header : string) : Attempt (A := unit) (S := nat) :=
  {| at_now := of_Z t; at_request := {| rq_client := Some "9.9.9.9"; rq_headers := [("x-real-ip", header)] |};
     at_handler := fun n => (Ok tt, S n) |}%string.
Definition demo_attempts : list (Attempt (A := unit) (S := nat)) :=
  [demo_attempt 0 "1.1.1.1"; demo_attempt 1 "2.2.2.2"].

Lemma direct_caller_throttled_witness :
  exists passed, passed `sublist_of` demo_attempts /\
    (foldl (attempt Some String.eqb demo_access "login") (0%nat, []) demo_attempts).1 = foldl handle 0%nat passed /\
    Z.of_nat (length (List.filter (fun a => bool_decide (rq_client (at_request a) = Some "9.9.9.9"%string)) passed)) <= 1.
Proof.
  apply (direct_caller_throttled Some String.eqb demo_access "login" "9.9.9.9" 1 demo_attempts 0%nat).
  - vm_compute. reflexivity.
  - lia.
  - vm_compute. reflexivity.
  - discriminate.
  - intros l1 t l2 u l3 E. destruct l1 as [|x l1]; simpl in E.
    + injection E as <- E. destruct l2 as [|y l2]; [injection E as <- _; vm_compute; reflexivity|].
      destruct l2; discriminate.
    + injection E as _ E. destruct l1 as [|y l1]; [|destruct l1; discriminate].
      injection E as _ E. destruct l2; discriminate.
Defined.
