(* ===== verification/Staleness.v ===== *)
(** * Staleness watchdog ([app/monitor/staleness.py]) *)

From Stdlib Require Import ZArith Lia.
From stdpp Require Import base list strings.
From S2P Require Import Prelude PyFloat Timeframes Signals Fusion Risk Decision Tables Candles Bus MarketHours.

Definition _MIN_THRESHOLD_SECONDS : Z := 900.

Definition staleness_threshold_seconds (timeframe : string) : Res Z :=
  s <-- seconds timeframe ;; Ok (Z.max (s * 3) _MIN_THRESHOLD_SECONDS).

Record StalenessFinding := {
  sf_symbol : string;
  sf_timeframe : string;
  age_seconds : option Z;
  threshold_seconds : Z;
  market_open : bool
}.

Definition breached (f : StalenessFinding) : bool :=
  if negb (market_open f) then false
  else match age_seconds f with
       | None => true
       | Some age => threshold_seconds f <? age
       end.

(** [int((now - last_ts).total_seconds())]: towards zero. *)
Definition whole_seconds (d : Z) : Z := Z.quot d us_per_second.

Definition staleness_event (f : StalenessFinding) (now : Z) : Event :=
  {| event_type := "alert.staleness";
     payload := [("symbol", VStr (sf_symbol f)); ("timeframe", VStr (sf_timeframe f));
                 ("age_seconds", match age_seconds f with Some a => VInt a | None => VNone end);
                 ("threshold_seconds", VInt (threshold_seconds f)); ("market_open", VBool (market_open f))];
     producer := "monitor"; produced_at := now |}%string.

Section Monitor.
(** The events the bus accepts; a refused alert is dropped. *)
Context (accepts : Event -> bool).

Definition _emit_alert (f : StalenessFinding) (now : Z) : list Event :=
  let e := staleness_event f now in if accepts e then [e] else [].

Definition finding_of (db : DB) (now : Z) (opened : bool) (i : Instrument) (timeframe : string)
  : Res StalenessFinding :=
  let age := (fun last => whole_seconds (now - last)) <$> last_closed_ts (ins_id i) timeframe db in
  threshold <-- staleness_threshold_seconds timeframe ;;
  Ok {| sf_symbol := ins_symbol i; sf_timeframe := timeframe; age_seconds := age;
        threshold_seconds := threshold; market_open := opened |}.

(** The findings so far and the alerts sent; an unknown timeframe raises and keeps the
    alerts already sent. *)
Fixpoint check_series (db : DB) (now : Z) (opened : bool) (series : list (Instrument * string))
  : Res (list StalenessFinding) * list Event :=
  match series with
  | [] => (Ok [], [])
  | (i, timeframe) :: rest =>
      match finding_of db now opened i timeframe with
      | Err e => (Err e, [])
      | Ok f =>
          let sent := if breached f then _emit_alert f now else [] in
          let '(r, events) := check_series db now opened rest in
          (fs <-- r ;; Ok (f :: fs), sent ++ events)
      end
  end.

Definition check (instruments : list Instrument) (timeframes : list string) (now : datetime) (db : DB)
  : Res (list StalenessFinding) * list Event :=
  match is_market_open now with
  | Err e => (Err e, [])
  | Ok opened => check_series db (instant now) opened (i ← instruments; tf ← timeframes; [(i, tf)])
  end.

(** ** Properties *)

(** When a series is reported: the market is open and it has no bar, or its newest is
    more than three intervals and a quarter of an hour old. *)
Definition stale (db : DB) (now : Z) (i : Instrument) (timeframe : string) : Prop :=
  open_at now = true /\
  match last_closed_ts (ins_id i) timeframe db with
  | None => True
  | Some last => exists s, seconds timeframe = Ok s /\ Z.max (s * 3) 900 < whole_seconds (now - last)
  end.

Lemma finding_breached db now i tf f :
  finding_of db now (open_at now) i tf = Ok f -> (breached f = true <-> stale db now i tf).
Proof.
  unfold finding_of, staleness_threshold_seconds, stale. intros H.
  destruct (seconds tf) as [s|]; [|done]. cbn [res_bind] in H. injection H as <-.
  unfold breached. cbn. destruct (open_at now); cbn [negb]; [|naive_solver].
  destruct (last_closed_ts (ins_id i) tf db) as [last|]; cbn; [|naive_solver].
  unfold _MIN_THRESHOLD_SECONDS. rewrite Z.ltb_lt. split; [intros; split; [done|by exists s]|].
  intros [_ (s' & [= <-] & ?)]. done.
Qed.

Lemma check_series_ok db now series : Forall (fun x => is_valid x.2 = true) series ->
  exists fs, check_series db now (open_at now) series =
    (Ok fs, List.filter accepts (map (fun f => staleness_event f now) (List.filter breached fs))) /\
    Forall2 (fun x f => finding_of db now (open_at now) x.1 x.2 = Ok f) series fs.
Proof.
  induction 1 as [|[i tf] series Hv _ (fs & E & HF)]; [by exists []|]. cbn [fst snd] in Hv.
  destruct (finding_of db now (open_at now) i tf) as [f|] eqn:Ef; cycle 1.
  { exfalso. unfold finding_of, staleness_threshold_seconds, seconds in Ef. unfold is_valid in Hv.
    by destruct (dget tf _SECONDS). }
  exists (f :: fs). cbn [check_series]. rewrite Ef, E. split; [|by constructor]. cbn [res_bind]. f_equal.
  unfold _emit_alert. cbn [List.filter]. destruct (breached f); cbn [map List.filter]; [|done].
  by destruct (accepts _).
Qed.

(** An alert for every stale series and for no other.  A check of known timeframes
    reports each series of the configured universe once, sends the alerts of the breached
    findings in that order, as far as the bus takes them, and a finding is breached
    exactly when its series is stale; a naive time raises before anything is sent. *)
Theorem staleness_check (instruments : list Instrument) (timeframes : list string) (now : datetime) (db : DB) :
  Forall (fun tf => is_valid tf = true) timeframes ->
  match tzinfo now with
  | None => check instruments timeframes now db = (Err ValueError, [])
  | Some _ => exists fs,
      check instruments timeframes now db =
        (Ok fs, List.filter accepts (map (fun f => staleness_event f (instant now)) (List.filter breached fs))) /\
      length fs = (length instruments * length timeframes)%nat /\
      Forall2 (fun x f => sf_symbol f = ins_symbol x.1 /\ sf_timeframe f = x.2 /\
                 (breached f = true <-> stale db (instant now) x.1 x.2))
        (i ← instruments; tf ← timeframes; [(i, tf)]) fs
  end.
Proof.
  intros Hv. unfold check, is_market_open. destruct (tzinfo now); [|done].
  assert (Hs : Forall (fun x : Instrument * string => is_valid x.2 = true) (i ← instruments; tf ← timeframes; [(i, tf)])).
  { apply Forall_forall. intros [i tf] (i' & Hin & _)%list_elem_of_bind.
    apply list_elem_of_bind in Hin as (tf' & [= -> ->]%list_elem_of_singleton & Hin).
    rewrite Forall_forall in Hv. by apply Hv. }
  destruct (check_series_ok db (instant now) _ Hs) as (fs & E & HF). exists fs. split; [done|]. split.
  - rewrite <- (Forall2_length _ _ _ HF). clear. induction instruments as [|i l IH]; [done|].
    rewrite bind_cons, length_app, IH. cbn [length Nat.mul]. f_equal. clear.
    induction timeframes as [|tf tfs IHt]; [done|]. by rewrite bind_cons, length_app, IHt.
  - eapply Forall2_impl; [exact HF|]. intros [i tf] f Hf. cbn [fst snd] in *.
    split_and!; [..|by apply finding_breached]; unfold finding_of in Hf;
      destruct (staleness_threshold_seconds tf); [|done| |done]; by injection Hf as <-.
Qed.

(** The market opens with an alarm.  On a Sunday evening every series whose newest
    bar is from before the Friday close is reported stale from the minute the market
    opens, unless three of its intervals span the weekend (only daily bars do): nothing
    could have been stored in between. *)
Theorem reopening_alarm (db : DB) (now last : Z) (i : Instrument) (timeframe : string) (s : Z) :
  weekday now = 6 -> open_at now = true ->
  last_closed_ts (ins_id i) timeframe db = Some last ->
  last < now - now mod us_per_day - 26 * us_per_hour ->
  seconds timeframe = Ok s ->
  stale db now i timeframe \/ timeframe = "D1"%string.
Proof.
  intros Hw Ho Hl Hlast Hs. destruct (decide (timeframe = "D1"%string)) as [|Hne]; [by right|left].
  split; [done|]. rewrite Hl. exists s. split; [done|].
  assert (Hb : s * 3 <= 43200).
  { unfold seconds, _SECONDS in Hs. simpl in Hs. repeat case_decide; simplify_eq; lia. }
  unfold open_at in Ho. rewrite Hw in Ho. cbn in Ho. apply Z.leb_le in Ho.
  unfold hour_of, _OPEN_SUNDAY_HOUR, whole_seconds in *. week_consts. apply Z.max_lub_lt; [|];
  Z.to_euclidean_division_equations; lia.
Qed.
End Monitor.

(** Hourly bars up to the Friday close, looked at five minutes after the Sunday open. *)
Definition demo_eurusd : Instrument :=
  {| ins_id := 7; ins_symbol := "EURUSD"; ins_base := "EUR"; ins_quote := "USD"; pip_size := Dec 1 (-4);
     price_decimals := 5; active := true |}%string.
Definition demo_friday : CandleRow :=
  {| cd_instrument := 7; cd_timeframe := "H1"; cd_ts := days_td 1 + seconds_td (21 * 3600); cd_open := Dec 1 0;
     cd_high := Dec 1 0; cd_low := Dec 1 0; cd_close := Dec 1 0; cd_volume := 1; cd_source := "synthetic";
     cd_complete := true; cd_tf_minutes := 60 |}%string.
Definition demo_weekend : DB :=
  {| instruments := [demo_eurusd]; candles := [demo_friday]; agent_signals := []; decisions := [];
     risk_evaluations := []; risk_state := []; orders_paper := []; positions := []; account_snapshots := [];
     system_settings := []; db_now := 0; uuids := 0%nat |}.
Definition demo_sunday : Z := days_td 3 + seconds_td (22 * 3600 + 300).

Lemma staleness_check_witness :
  exists fs, check (fun _ => true) [demo_eurusd] ["H1"; "D1"]%string (utc demo_sunday) demo_weekend =
    (Ok fs, List.filter (fun _ => true) (map (fun f => staleness_event f demo_sunday) (List.filter breached fs))) /\
    length fs = 2%nat.
Proof.
  destruct (staleness_check (fun _ => true) [demo_eurusd] ["H1"; "D1"]%string (utc demo_sunday) demo_weekend
    ltac:(repeat constructor)) as (fs & E & L & _).
  exists fs. split; [exact E|exact L].
Defined.

Lemma reopening_alarm_witness : stale demo_weekend demo_sunday demo_eurusd "H1".
Proof.
  destruct (reopening_alarm demo_weekend demo_sunday (days_td 1 + seconds_td (21 * 3600)) demo_eurusd "H1" 3600
    eq_refl eq_refl eq_refl ltac:(vm_compute; reflexivity) eq_refl) as [H|H]; [exact H|discriminate].
Defined.
