(* ===== verification/PyFormat.v ===== *)
(** * Floats as text and as durations: f"{x:.2f}", f"{x:+.2f}", [timedelta(hours=x)],
    [td.total_seconds()] *)

From Stdlib Require Import ZArith Ascii Lia.
From stdpp Require Import base list strings pretty.
From S2P Require Import Prelude PyFloat Timeframes.

Fixpoint zeros (n : nat) : string := match n with O => EmptyString | S n => String "0"%char (zeros n) end.
Definition pad_zeros (width : nat) (s : string) : string := (zeros (width - String.length s) ++ s)%string.

(** [n / d] to [k] decimals, ties to even. *)
Definition fixed_digits (k : nat) (n : Z) (d : positive) : string :=
  let q := rne_div (n * Zpos (p10 k)) d in
  match k with
  | O => pretty q
  | _ => (pretty (q / Zpos (p10 k)) ++ "." ++ pad_zeros k (pretty (q mod Zpos (p10 k))))%string
  end.

Definition fmt (plus : bool) (k : nat) (x : float) : string :=
  let sign (s : bool) := if s then "-" else if plus then "+" else "" in
  match x with
  | S754_zero s => sign s ++ fixed_digits k 0 1
  | S754_infinity s => sign s ++ "inf"
  | S754_nan => sign false ++ "nan"
  | S754_finite s m e => let '(n, d) := ratio_of m e in sign s ++ fixed_digits k n d
  end%string.

Example fmt_plus : fmt true 2 (lit 15 2) = "+0.15"%string. Proof. reflexivity. Qed.
Example fmt_half : fmt false 0 (lit 25 1) = "2"%string. Proof. reflexivity. Qed.
Example fmt_small : fmt true 3 (fneg (lit 4 4)) = "-0.000"%string. Proof. reflexivity. Qed.

(** The exact value of a finite float. *)
Definition float_ratio (x : float) : option (Z * positive) :=
  match x with
  | S754_zero _ => Some (0, 1%positive)
  | S754_finite s m e => let '(n, d) := ratio_of m e in Some (if s then - n else n, d)
  | _ => None
  end.

(** [math.floor(x)] and [int(x)]; infinities and NaN have none. *)
Definition math_floor (x : float) : Res Z :=
  match float_ratio x with Some (n, d) => Ok (n / Zpos d) | None => Err OtherError end.
Definition int_of_float (x : float) : Res Z :=
  match float_ratio x with Some (n, d) => Ok (Z.quot n (Zpos d)) | None => Err OtherError end.

(** [td.total_seconds()]. *)
Definition total_seconds (d : Z) : float := of_ratio d (Z.to_pos us_per_second).

(** [timedelta(unit=x)] of a float [x], with [unit] microseconds: the whole part counts
    exactly, the fraction is multiplied in floating point, the sum is rounded half even. *)
Definition td_of_float (unit : Z) (x : float) : Res Z :=
  match float_ratio x with
  | None => Err OtherError
  | Some (n, d) =>
      let whole := Z.quot n (Zpos d) in
      let part := of_ratio (n - whole * Zpos d) d *ᶠ of_Z unit in
      match float_ratio part with
      | None => Err OtherError
      | Some (pn, pd) => Ok (rne_div (whole * unit * Zpos pd + pn) pd)
      end
  end.

Example td_third : td_of_float us_per_second (fdiv_ieee f1 (of_Z 3)) = Ok 333333. Proof. reflexivity. Qed.
Example td_minus_half : td_of_float 1 (fneg (lit 25 1)) = Ok (-2). Proof. reflexivity. Qed.
