(* ===== verification/Indicators.v ===== *)
(** * Technical indicators ([app/agents/indicators.py])

    A pandas [Series] over the bars of the frame is the list of its values, NaN where it
    is missing; the frame's index has no duplicates.  Elementwise arithmetic is IEEE.
    The window reductions of pandas, which choose their own order of summation, are the
    class [Pandas]; minima and maxima are exact and written out. *)

From Stdlib Require Import ZArith Lia.
From stdpp Require Import base list.
From S2P Require Import Prelude PyFloat.

Abbreviation series := (list float).
Definition nan : float := S754_nan.

(** One row of the frame. *)
Record Bar := { b_open : float; b_high : float; b_low : float; b_close : float; b_volume : Z }.
Definition frame := list Bar.

(** [rolling(n, min_periods=n).mean()] and [.std(ddof=0)], [ewm(alpha, adjust=False,
    min_periods=m).mean()], and [mean()], which skips missing values. *)
Class Pandas := {
  rolling_mean : nat -> series -> series;
  rolling_std : nat -> series -> series;
  ewm_mean : float -> nat -> series -> series;
  series_mean : series -> float
}.

(** ** Elementwise operations *)

Definition shift1 (s : series) : series := take (length s) (nan :: s).
Definition lift2 (op : float -> float -> float) (a b : series) : series := zip_with op a b.
Definition sub (a b : series) : series := lift2 fsub a b.
Definition diff (s : series) : series := sub s (shift1 s).
Definition scale (k : float) (s : series) : series := map (fmul k) s.
(** [s.clip(lower=0.0)] and [s.replace(0.0, nan)]. *)
Definition clip0 (s : series) : series := map (fun x => if x <ᶠ f0 then f0 else x) s.
Definition zero_to_nan (s : series) : series := map (fun x => if x =ᶠ f0 then nan else x) s.
Definition dropna (s : series) : series := List.filter (fun x => negb (is_nan x)) s.
(** [t.reindex(index)] of a series [t] over the rows where [s] has a value. *)
Fixpoint reindex (s t : series) : series :=
  match s with
  | [] => []
  | x :: s => if is_nan x then nan :: reindex s t
              else match t with v :: t => v :: reindex s t | [] => nan :: reindex s [] end
  end.

(** A trailing window of [n] values, none of them missing. *)
Definition rolling (f : series -> float) (n : nat) (s : series) : series :=
  imap (fun i _ => let w := drop (S i - n) (take (S i) s) in
                   if Nat.leb n (S i) && negb (existsb is_nan w) then f w else nan) s.
Definition min_of (w : series) : float := match w with [] => nan | x :: w => foldl fmin x w end.
Definition max_of (w : series) : float := match w with [] => nan | x :: w => foldl fmax x w end.
Definition rolling_min (n : nat) (s : series) : series := rolling min_of n s.
Definition rolling_max (n : nat) (s : series) : series := rolling max_of n s.

(** ** The indicators *)

Section Indicators.
Context `{Pandas}.

Definition sma (s : series) (length : nat) : series := rolling_mean length s.

(** [2.0 / (length + 1)]. *)
Definition ema_alpha (length : nat) : float := fdiv_ieee f2 (of_Z (Z.of_nat length + 1)).
Definition ema (s : series) (length : nat) : series := ewm_mean (ema_alpha length) length s.

(** The loop: [result[i] = alpha * raw[i] + (1 - alpha) * result[i - 1]]. *)
Fixpoint wilder_loop (alpha previous : float) (raw : series) : series :=
  match raw with
  | [] => []
  | x :: raw => let y := (alpha *ᶠ x) +ᶠ ((f1 -ᶠ alpha) *ᶠ previous) in y :: wilder_loop alpha y raw
  end.

Definition _wilder_smooth (values : series) (n : nat) : series :=
  if Nat.ltb (length values) n then replicate (length values) nan
  else let seed := series_mean (take n values) in
       let alpha := fdiv_ieee f1 (of_Z (Z.of_nat n)) in
       replicate (n - 1) nan ++ seed :: wilder_loop alpha seed (drop n values).

(** [_compute]: 100 when nothing was lost and something gained. *)
Definition rsi_of (ag al : float) : float :=
  let rs := fdiv_ieee ag (if al =ᶠ f0 then nan else al) in
  let out := of_Z 100 -ᶠ fdiv_ieee (of_Z 100) (f1 +ᶠ rs) in
  if (al =ᶠ f0) && (ag >ᶠ f0) then of_Z 100 else out.

Definition rsi (close : series) (n : nat) : series :=
  let delta := diff close in
  let gain := clip0 delta in
  let loss := clip0 (map fneg delta) in
  lift2 rsi_of (_wilder_smooth gain n) (_wilder_smooth loss n).

Definition macd (close : series) (fast slow signal_len : nat) : series * series * series :=
  let macd_line := sub (ema close fast) (ema close slow) in
  let signal_line := ewm_mean (ema_alpha signal_len) 0 macd_line in
  (macd_line, signal_line, sub macd_line signal_line).

Definition bollinger (close : series) (n : nat) (num_std : float) : series * series * series :=
  let mid := sma close n in
  let std := rolling_std n close in
  (mid, lift2 fadd mid (scale num_std std), lift2 fsub mid (scale num_std std)).

Definition highs (data : frame) : series := map b_high data.
Definition lows (data : frame) : series := map b_low data.
Definition closes (data : frame) : series := map b_close data.

(** [DataFrame.max(axis=1)] skips missing values. *)
Definition nanmax (a b : float) : float := if is_nan a then b else if is_nan b then a else fmax a b.

Definition set_first (v : float) (s : series) : series := match s with [] => [] | _ :: s => v :: s end.

(** The first row has no previous close.  (No row: [iloc[0]] raises; every caller checks
    the length first.) *)
Definition true_range (high low close : series) : series :=
  let prev_close := shift1 close in
  let ranges := lift2 nanmax (lift2 nanmax (map fabs (sub high low)) (map fabs (sub high prev_close)))
                  (map fabs (sub low prev_close)) in
  match high, low with
  | h :: _, l :: _ => set_first (h -ᶠ l) ranges
  | _, _ => ranges
  end.

Definition atr (data : frame) (n : nat) : series :=
  _wilder_smooth (true_range (highs data) (lows data) (closes data)) n.

Definition stochastic (data : frame) (k_length k_smooth d_smooth : nat) : series * series :=
  let lowest := rolling_min k_length (lows data) in
  let highest := rolling_max k_length (highs data) in
  let denom := zero_to_nan (sub highest lowest) in
  let raw_k := lift2 fdiv_ieee (scale (of_Z 100) (sub (closes data) lowest)) denom in
  let slow_k := rolling_mean k_smooth raw_k in
  (slow_k, rolling_mean d_smooth slow_k).

(** [np.where((a > b) & (a > 0), a, 0.0)]. *)
Definition dm_of (a b : float) : float := if (a >ᶠ b) && (a >ᶠ f0) then a else f0.

Definition directional_movement (data : frame) (n : nat) : series * series * series :=
  let high := highs data in
  let low := lows data in
  let up_move := diff high in
  let down_move := map fneg (diff low) in
  let plus_dm := lift2 dm_of up_move down_move in
  let minus_dm := lift2 dm_of down_move up_move in
  let atr_smooth := _wilder_smooth (true_range high low (closes data)) n in
  let plus_di := lift2 fdiv_ieee (scale (of_Z 100) (_wilder_smooth plus_dm n)) atr_smooth in
  let minus_di := lift2 fdiv_ieee (scale (of_Z 100) (_wilder_smooth minus_dm n)) atr_smooth in
  let di_sum := lift2 fadd plus_di minus_di in
  let dx := lift2 fdiv_ieee (scale (of_Z 100) (map fabs (sub plus_di minus_di))) (zero_to_nan di_sum) in
  (reindex dx (_wilder_smooth (dropna dx) n), plus_di, minus_di).

Definition adx (data : frame) (n : nat) : series * series * series := directional_movement data n.

Definition donchian (data : frame) (n : nat) : series * series * series :=
  let upper := rolling_max n (highs data) in
  let lower := rolling_min n (lows data) in
  (upper, map (fun x => fdiv_ieee x f2) (lift2 fadd upper lower), lower).

Record PivotLevels := { pivot : float; r1 : float; r2 : float; r3 : float; s1 : float; s2 : float; s3 : float }.

Definition floor_pivots (prev_high prev_low prev_close : float) : PivotLevels :=
  let p := fdiv_ieee ((prev_high +ᶠ prev_low) +ᶠ prev_close) (of_Z 3) in
  let hl := prev_high -ᶠ prev_low in
  {| pivot := p;
     r1 := (f2 *ᶠ p) -ᶠ prev_low; r2 := p +ᶠ hl; r3 := prev_high +ᶠ (f2 *ᶠ (p -ᶠ prev_low));
     s1 := (f2 *ᶠ p) -ᶠ prev_high; s2 := p -ᶠ hl; s3 := prev_low -ᶠ (f2 *ᶠ (prev_high -ᶠ p)) |}.

Definition last_valid (s : series) : option float := last (dropna s).
End Indicators.

(** ** No look-ahead *)

(** One value for every row, and none that depends on a later row. *)
Record causal {A} (f : list A -> series) : Prop := {
  causal_length : forall l, length (f l) = length l;
  causal_take : forall k l, f (take k l) = take k (f l)
}.

(** The window reductions of pandas trail; its mean skips what is missing. *)
Class PandasOk `{Pandas} : Prop := {
  rolling_mean_causal : forall n, causal (rolling_mean n);
  rolling_std_causal : forall n, causal (rolling_std n);
  ewm_mean_causal : forall alpha m, causal (ewm_mean alpha m);
  series_mean_dropna : forall s, series_mean s = series_mean (dropna s)
}.

Lemma causal_map {A} (g : A -> float) : causal (map g).
Proof. split; intros; [apply length_map|by rewrite firstn_map]. Qed.

Lemma causal_comp {A} (F : series -> series) (f : list A -> series) :
  causal F -> causal f -> causal (fun l => F (f l)).
Proof. intros [HL HT] [hl ht]. split; intros; [by rewrite HL, hl|by rewrite ht, HT]. Qed.

Lemma causal_lift2 {A} op (f g : list A -> series) :
  causal f -> causal g -> causal (fun l => lift2 op (f l) (g l)).
Proof.
  intros [fl ft] [gl gt]. split; intros; unfold lift2.
  - by rewrite length_zip_with, fl, gl, Nat.min_id.
  - by rewrite ft, gt, zip_with_take.
Qed.

Lemma causal_shift1 : causal shift1.
Proof.
  split; intros; unfold shift1.
  - rewrite length_take. simpl. lia.
  - rewrite length_take, take_take. destruct (Nat.min k (length l)) eqn:E; simpl; [done|].
    rewrite take_take, Nat.min_l by lia. done.
Qed.

Lemma causal_diff {A} (f : list A -> series) : causal f -> causal (fun l => diff (f l)).
Proof. intros Hf. unfold diff, sub. apply causal_lift2; [done|by apply causal_comp; [apply causal_shift1|]]. Qed.

Lemma causal_rolling f n : causal (rolling f n).
Proof.
  split; intros; unfold rolling; [apply length_imap|].
  apply list_eq. intros i. rewrite list_lookup_imap.
  destruct (decide (i < k)%nat) as [Hi|Hi].
  - rewrite !lookup_take_lt, list_lookup_imap by done. by rewrite take_take, Nat.min_l by lia.
  - rewrite !lookup_take_ge by lia. done.
Qed.

Lemma wilder_loop_length alpha p raw : length (wilder_loop alpha p raw) = length raw.
Proof. revert p. induction raw as [|x raw IH]; intros p; simpl; [done|by rewrite IH]. Qed.

Lemma wilder_loop_take alpha k raw : forall p, wilder_loop alpha p (take k raw) = take k (wilder_loop alpha p raw).
Proof. revert raw. induction k as [|k IH]; intros [|x raw] p; simpl; [done..|by rewrite IH]. Qed.

Section Causality.
Context `{PandasOk}.

Lemma causal_wilder n : (1 <= n)%nat -> causal (fun s => _wilder_smooth s n).
Proof.
  intros Hn. split; intros; unfold _wilder_smooth; cbv zeta.
  - destruct (Nat.ltb_spec (length l) n); [apply length_replicate|].
    rewrite length_app, length_replicate. simpl. rewrite wilder_loop_length, length_drop. lia.
  - rewrite length_take. destruct (Nat.ltb_spec (length l) n), (Nat.ltb_spec (Nat.min k (length l)) n); try lia.
    + by rewrite take_replicate.
    + rewrite take_app, take_replicate, length_replicate.
      replace (k - (n - 1))%nat with 0%nat by lia. rewrite take_0, app_nil_r. f_equal. lia.
    + rewrite take_take, Nat.min_l by lia. rewrite take_app, take_replicate, length_replicate.
      replace (Nat.min k (n - 1)) with (n - 1)%nat by lia. f_equal.
      replace (k - (n - 1))%nat with (S (k - n)) by lia. simpl. f_equal.
      rewrite <- wilder_loop_take. f_equal. rewrite skipn_firstn_comm. done.
Qed.

Lemma reindex_length s : forall t, length (reindex s t) = length s.
Proof.
  induction s as [|x s IH]; intros t; simpl; [done|].
  destruct (is_nan x); [|destruct t]; simpl; by rewrite IH.
Qed.

(** A prefix of the rows has a prefix of the values. *)
Lemma dropna_take s : forall k, exists j, dropna (take k s) = take j (dropna s) /\
  forall t, take k (reindex s t) = reindex (take k s) (take j t).
Proof.
  induction s as [|x s IH]; intros k.
  { exists 0%nat. rewrite take_nil. split; [done|]. intros t. simpl. by rewrite take_nil. }
  destruct k as [|k]; [by exists 0%nat|]. destruct (IH k) as (j & Hd & Hr). simpl.
  destruct (is_nan x); simpl.
  - exists j. split; [done|]. intros t. by rewrite Hr.
  - exists (S j). split; [by rewrite Hd|]. intros [|v t]; simpl; rewrite Hr; [by rewrite take_nil|done].
Qed.

Lemma causal_reindex F : causal F -> causal (fun s => reindex s (F (dropna s))).
Proof.
  intros [HL HT]. split; intros; [apply reindex_length|].
  destruct (dropna_take l k) as (j & Hd & Hr). by rewrite Hr, Hd, HT.
Qed.

Lemma causal_set_first {A} (f : list A -> series) (v : A -> float) : causal f ->
  causal (fun l => match l with [] => [] | x :: _ => set_first (v x) (f l) end).
Proof.
  intros [HL HT]. split; intros.
  - destruct l as [|x l]; [done|]. pose proof (HL (x :: l)) as Hl. by destruct (f (x :: l)).
  - destruct k as [|k], l as [|x l]; simpl; try done.
    pose proof (HT (S k) (x :: l)) as Hk. simpl in Hk. rewrite Hk. by destruct (f (x :: l)).
Qed.

Lemma causal_true_range : causal (fun data => true_range (highs data) (lows data) (closes data)).
Proof.
  set (ranges data := lift2 nanmax (lift2 nanmax (map fabs (sub (highs data) (lows data)))
          (map fabs (sub (highs data) (shift1 (closes data))))) (map fabs (sub (lows data) (shift1 (closes data))))).
  assert (Hr : causal ranges).
  { unfold ranges, sub, highs, lows, closes. repeat first
      [ apply causal_lift2 | apply (causal_map b_high) | apply (causal_map b_low)
      | apply (causal_comp shift1); [apply causal_shift1|apply (causal_map b_close)]
      | apply (causal_comp (map fabs)); [apply causal_map|] ]. }
  pose proof (causal_set_first ranges (fun b => b_high b -ᶠ b_low b) Hr) as [HL HT].
  assert (Heq : forall data, true_range (highs data) (lows data) (closes data) =
            match data with [] => [] | x :: _ => set_first (b_high x -ᶠ b_low x) (ranges data) end)
    by (by intros [|x data]).
  split; intros; rewrite !Heq; [apply HL|apply HT].
Qed.

Lemma causal_dx_smooth {A} (f : list A -> series) n : (1 <= n)%nat -> causal f ->
  causal (fun l => reindex (f l) (_wilder_smooth (dropna (f l)) n)).
Proof.
  intros Hn. apply (causal_comp (fun s => reindex s (_wilder_smooth (dropna s) n))).
  apply (causal_reindex (fun s => _wilder_smooth s n)). by apply causal_wilder.
Qed.

(** Decomposes an indicator into the operations it is made of. *)
Ltac causal_step :=
  lazymatch goal with
  | |- causal (fun d => lift2 ?op (@?f d) (@?g d)) => apply (causal_lift2 op f g)
  | |- causal (fun d => true_range (map b_high d) (map b_low d) (map b_close d)) => apply causal_true_range
  | |- causal (fun d => reindex (@?f d) (_wilder_smooth (dropna (@?f d)) ?n)) => apply (causal_dx_smooth f n)
  | |- causal (fun d => _wilder_smooth (@?f d) ?n) =>
      apply (causal_comp (fun s => _wilder_smooth s n) f); [apply causal_wilder|]
  | |- causal (fun d => rolling ?g ?n (@?f d)) => apply (causal_comp (rolling g n) f); [apply causal_rolling|]
  | |- causal (fun d => rolling_mean ?n (@?f d)) => apply (causal_comp (rolling_mean n) f); [apply rolling_mean_causal|]
  | |- causal (fun d => rolling_std ?n (@?f d)) => apply (causal_comp (rolling_std n) f); [apply rolling_std_causal|]
  | |- causal (fun d => ewm_mean ?a ?n (@?f d)) => apply (causal_comp (ewm_mean a n) f); [apply ewm_mean_causal|]
  | |- causal (fun d => shift1 (@?f d)) => apply (causal_comp shift1 f); [apply causal_shift1|]
  | |- causal (fun d => map ?g d) => apply (causal_map g)
  | |- causal (fun d => map ?g (@?f d)) => apply (causal_comp (map g) f); [apply causal_map|]
  end.
Ltac causal_tac :=
  cbv beta delta [sma ema rsi macd bollinger stochastic adx directional_movement atr donchian diff sub scale clip0
    zero_to_nan rolling_min rolling_max highs lows closes fst snd] zeta iota; cbv beta iota; repeat causal_step; try lia.

(** No indicator looks ahead.  Every series the agents read has one value per bar,
    and its values on the first bars are those it has on these bars alone: what an agent
    sees at a bar does not depend on later bars. *)
Theorem indicators_causal (n k m : nat) (num_std : float) : (1 <= n)%nat ->
  Forall causal
    [ (fun d => sma (closes d) n); (fun d => ema (closes d) n); (fun d => rsi (closes d) n);
      (fun d => (macd (closes d) n k m).1.1); (fun d => (macd (closes d) n k m).1.2); (fun d => (macd (closes d) n k m).2);
      (fun d => (bollinger (closes d) n num_std).1.1); (fun d => (bollinger (closes d) n num_std).1.2);
      (fun d => (bollinger (closes d) n num_std).2); (fun d => atr d n);
      (fun d => (stochastic d n k m).1); (fun d => (stochastic d n k m).2);
      (fun d => (adx d n).1.1); (fun d => (adx d n).1.2); (fun d => (adx d n).2);
      (fun d => (donchian d n).1.1); (fun d => (donchian d n).1.2); (fun d => (donchian d n).2) ].
Proof. intros Hn. repeat (apply Forall_cons_2; [causal_tac|]). apply Forall_nil_2. Qed.
End Causality.

Lemma wilder_loop_lookup alpha raw : forall p i x, raw !! i = Some x ->
  exists prev, (p :: wilder_loop alpha p raw) !! i = Some prev /\
    (p :: wilder_loop alpha p raw) !! S i = Some ((alpha *ᶠ x) +ᶠ ((f1 -ᶠ alpha) *ᶠ prev)).
Proof.
  induction raw as [|x0 raw IH]; intros p i x Hi; [done|]. destruct i as [|i]; simpl in Hi.
  - injection Hi as ->. by exists p.
  - destruct (IH ((alpha *ᶠ x0) +ᶠ ((f1 -ᶠ alpha) *ᶠ p)) i x Hi) as (prev & H1 & H2). by exists prev.
Qed.

(** The smoothing of RSI, ATR and ADX is Wilder's.  Nothing before a full window; the
    window's mean there; from then on every value is [alpha] of the new one and the rest
    of the previous one.  A series shorter than the window has no value at all. *)
Theorem wilder_recurrence `{Pandas} (s : series) (n : nat) : (1 <= n)%nat ->
  let smooth := _wilder_smooth s n in
  let alpha := fdiv_ieee f1 (of_Z (Z.of_nat n)) in
  length smooth = length s /\
  (forall i, (i < length s)%nat -> (i < n - 1)%nat -> smooth !! i = Some nan) /\
  ((length s < n)%nat -> dropna smooth = []) /\
  ((n <= length s)%nat ->
     smooth !! (n - 1)%nat = Some (series_mean (take n s)) /\
     forall i x, (n <= i)%nat -> s !! i = Some x -> exists previous, smooth !! (i - 1)%nat = Some previous /\
       smooth !! i = Some ((alpha *ᶠ x) +ᶠ ((f1 -ᶠ alpha) *ᶠ previous))).
Proof.
  intros Hn. cbv zeta. unfold _wilder_smooth. destruct (Nat.ltb_spec (length s) n) as [Hs|Hs].
  - split_and!; [apply length_replicate|intros; by apply lookup_replicate_2| |lia].
    intros _. generalize (length s) as k. intros k. by induction k.
  - set (alpha := fdiv_ieee _ _). set (L := series_mean (take n s) :: _).
    split_and!; [| |lia|intros _; split].
    + unfold L. rewrite length_app, length_replicate. simpl. rewrite wilder_loop_length, length_drop. lia.
    + intros i _ Hi. rewrite lookup_app_l by (rewrite length_replicate; lia). by apply lookup_replicate_2.
    + rewrite lookup_app_r by (rewrite length_replicate; lia). by rewrite length_replicate, Nat.sub_diag.
    + intros i x Hi Hx. rewrite !lookup_app_r by (rewrite length_replicate; lia). rewrite length_replicate.
      assert (Hd : drop n s !! (i - n)%nat = Some x) by (rewrite lookup_drop; by replace (n + (i - n))%nat with i by lia).
      destruct (wilder_loop_lookup alpha (drop n s) (series_mean (take n s)) (i - n) x Hd) as (prev & H1 & H2).
      exists prev. replace (i - 1 - (n - 1))%nat with (i - n)%nat by lia.
      replace (i - (n - 1))%nat with (S (i - n)) by lia. done.
Qed.

(** ** A concrete pandas: plain sums *)

Definition demo_mean (w : series) : float := fdiv_ieee (foldl fadd f0 w) (of_Z (Z.of_nat (length w))).
Fixpoint demo_ewm (alpha : float) (prev : option float) (s : series) : series :=
  match s with
  | [] => []
  | x :: s => let y := match prev with None => x | Some p => (alpha *ᶠ x) +ᶠ ((f1 -ᶠ alpha) *ᶠ p) end in
              y :: demo_ewm alpha (Some y) s
  end.
Definition demo_pandas : Pandas :=
  {| rolling_mean := rolling demo_mean; rolling_std := rolling (fun _ => f1);
     ewm_mean alpha m s := imap (fun i x => if Nat.ltb (S i) m then nan else x) (demo_ewm alpha None s);
     series_mean s := demo_mean (dropna s) |}.

Lemma dropna_idem s : dropna (dropna s) = dropna s.
Proof. induction s as [|x s IH]; [done|]. unfold dropna in *. simpl. destruct (negb _) eqn:E; simpl; rewrite ?E, ?IH; done. Qed.

Lemma demo_ewm_causal alpha : forall p, causal (demo_ewm alpha p).
Proof.
  intros p. split; intros.
  - revert p. induction l as [|x l IH]; intros p; simpl; [done|by rewrite IH].
  - revert k p. induction l as [|x l IH]; intros [|k] p; simpl; [done..|by rewrite IH].
Qed.

Lemma causal_imap (g : nat -> float -> float) : causal (imap g).
Proof.
  split; intros; [apply length_imap|]. apply list_eq. intros i. rewrite list_lookup_imap.
  destruct (decide (i < k)%nat); [by rewrite !lookup_take_lt, list_lookup_imap by done|].
  by rewrite !lookup_take_ge by lia.
Qed.

Lemma demo_pandas_ok : @PandasOk demo_pandas.
Proof.
  split; simpl.
  - intros n. apply causal_rolling.
  - intros n. apply causal_rolling.
  - intros alpha m. apply (causal_comp (imap _)); [apply causal_imap|apply demo_ewm_causal].
  - intros s. by rewrite dropna_idem.
Qed.

Definition demo_bar (x : Z) : Bar :=
  {| b_open := of_Z x; b_high := of_Z (x + 1); b_low := of_Z (x - 1); b_close := of_Z x; b_volume := 1 |}.

Lemma indicators_causal_witness :
  let data := map demo_bar [1; 2; 4; 3; 5] in
  @atr demo_pandas (take 3 data) 2 = take 3 (@atr demo_pandas data 2) /\ length (@atr demo_pandas data 2) = 5%nat.
Proof.
  intros data.
  pose proof (@indicators_causal demo_pandas demo_pandas_ok 2 3 3 f2 ltac:(lia)) as H.
  do 9 apply Forall_inv_tail in H. apply Forall_inv in H as [HL HT]. split; [apply HT|apply HL].
Defined.

Lemma wilder_recurrence_witness :
  @_wilder_smooth demo_pandas (map of_Z [1; 3; 5]) 2 !! 1%nat = Some f2.
Proof.
  destruct (@wilder_recurrence demo_pandas (map of_Z [1; 3; 5]) 2 ltac:(lia)) as (_ & _ & _ & H).
  destruct (H ltac:(simpl; lia)) as [E _]. exact E.
Defined.
