(* ===== verification/Technical.v ===== *)
(** * The price agents ([app/agents/technical.py], [app/agents/regime.py])

    The frame of an analysis context and the entry [prev_daily] of its [meta] are
    arguments besides the fields that [build_signal] reads. *)

From Stdlib Require Import ZArith Lia.
From stdpp Require Import base list strings pretty.
From S2P Require Import Prelude PyFloat PyFormat Timeframes MarketHours Signals Fusion Risk Decision Tables Indicators.

(** ** Votes *)

Definition _MIN_BARS : nat := 34.
Definition _DIRECTION_THRESHOLD : float := lit 15 2.
Definition _ADX_TREND_FLOOR : float := of_Z 25.
Definition _GATE_FLOOR : float := lit 3 1.

Record Vote := { v_name : string; v_weight : float; v_vote : Z; v_gated : bool }.

Definition _sign_deadzone (value deadzone : float) : Z :=
  if value >ᶠ deadzone then 1 else if value <ᶠ fneg deadzone then -1 else 0.

Definition _rsi_extreme (rsi_value : option float) : Z :=
  match rsi_value with
  | None => 0
  | Some r => if r >=ᶠ of_Z 70 then -1 else if r <=ᶠ of_Z 30 then 1 else 0
  end.

Definition _threshold (value : option float) (level : float) : Z :=
  match value with
  | None => 0
  | Some v => if v =ᶠ level then 0 else if v >ᶠ level then 1 else -1
  end.

Definition _breakout (value upper lower : option float) : Z :=
  match value, upper, lower with
  | Some v, Some u, Some l => if v >=ᶠ u then 1 else if v <=ᶠ l then -1 else 0
  | _, _, _ => 0
  end.

Definition _stoch_vote (k d : option float) : Z :=
  match k, d with
  | Some k, Some d => if (k >ᶠ d) && (k <ᶠ of_Z 80) then 1 else if (k <ᶠ d) && (k >ᶠ of_Z 20) then -1 else 0
  | _, _ => 0
  end.

Section Agents.
Context `{Platform} `{Pandas}.

(** [float(v)]; [None] is a TypeError or a ValueError. *)
Definition to_float (v : pyval) : option float :=
  match v with
  | VFloat x => Some x
  | VInt n => Some (of_Z n)
  | VBool b => Some (if b then f1 else f0)
  | VStr s => parse_float s
  | _ => None
  end.

Definition _pivot_vote (close : option float) (prev_daily : pyval) : Z :=
  match close, prev_daily with
  | Some close, VDict d =>
      let get k := v ← dget k d; to_float v in
      match get "high", get "low", get "close" with
      | Some h, Some l, Some c => if close >ᶠ pivot (floor_pivots h l c) then 1 else -1
      | _, _, _ => 0
      end
  | _, _ => 0
  end%string.

(** ** The readings of the last bar *)

Record Readings := {
  f_ema_fast : option float; f_ema_slow : option float; f_sma50 : option float; f_hist : option float;
  f_rsi : option float; f_bb_u : option float; f_bb_l : option float; f_k : option float; f_d : option float;
  f_adx : option float; f_plus_di : option float; f_minus_di : option float; f_atr : option float;
  prev_don_up : option float; prev_don_low : option float; f_c : option float
}.

Definition readings (data : frame) : Readings :=
  let close := closes data in
  let '(_, _, histogram) := macd close 12 26 9 in
  let '(_, bb_upper, bb_lower) := bollinger close 20 f2 in
  let '(stoch_k, stoch_d) := stochastic data 14 3 3 in
  let '(adx_line, plus_di, minus_di) := adx data 14 in
  let '(don_upper, _, don_lower) := donchian data 20 in
  {| f_ema_fast := last_valid (ema close 9); f_ema_slow := last_valid (ema close 21);
     f_sma50 := last_valid (sma close 50); f_hist := last_valid histogram; f_rsi := last_valid (rsi close 14);
     f_bb_u := last_valid bb_upper; f_bb_l := last_valid bb_lower;
     f_k := last_valid stoch_k; f_d := last_valid stoch_d; f_adx := last_valid adx_line;
     f_plus_di := last_valid plus_di; f_minus_di := last_valid minus_di; f_atr := last_valid (atr data 14);
     prev_don_up := last_valid (shift1 don_upper); prev_don_low := last_valid (shift1 don_lower);
     f_c := last_valid close |}.

(** [x or 0.0]. *)
Definition or_zero (x : option float) : float := match x with Some v => f_or v f0 | None => f0 end.

Definition gate_of (r : Readings) : float :=
  match f_adx r with
  | Some a => if a <ᶠ _ADX_TREND_FLOOR then fmax _GATE_FLOOR (fdiv_ieee a _ADX_TREND_FLOOR) else f1
  | None => f1
  end.

Definition deadzone_of (r : Readings) : float :=
  match f_atr r with Some a => lit 5 2 *ᶠ a | None => lit 1 12 end.

Definition votes_of (r : Readings) (prev_daily : pyval) : list Vote :=
  let deadzone := deadzone_of r in
  let vote n w v g := {| v_name := n; v_weight := w; v_vote := v; v_gated := g |} in
  [ vote "ema_cross" (lit 18 2) (_sign_deadzone (or_zero (f_ema_fast r) -ᶠ or_zero (f_ema_slow r)) deadzone) true;
    vote "close_vs_sma50" (lit 12 2)
      (_sign_deadzone (or_zero (f_c r) -ᶠ (match f_sma50 r with Some s => s | None => or_zero (f_c r) end)) deadzone)
      true;
    vote "macd_histogram" (lit 15 2) (_sign_deadzone (or_zero (f_hist r)) deadzone) true;
    vote "rsi_midline" (lit 8 2) (_threshold (f_rsi r) (of_Z 50)) false;
    vote "rsi_extreme" (lit 12 2) (_rsi_extreme (f_rsi r)) false;
    vote "bollinger_breakout" (lit 10 2) (_breakout (f_c r) (f_bb_u r) (f_bb_l r)) false;
    vote "stochastic" (lit 10 2) (_stoch_vote (f_k r) (f_d r)) false;
    vote "donchian_breakout" (lit 12 2) (_breakout (f_c r) (prev_don_up r) (prev_don_low r)) true;
    vote "pivot_position" (lit 10 2) (_pivot_vote (f_c r) prev_daily) false ]%string.

(** [vote.weight * (gate if vote.gated else 1.0) * vote.vote]. *)
Definition contribution (gate : float) (v : Vote) : float :=
  (v_weight v *ᶠ (if v_gated v then gate else f1)) *ᶠ of_Z (v_vote v).

Definition score_step (gate : float) (acc : float * dict string float) (v : Vote) : float * dict string float :=
  let c := contribution gate v in (acc.1 +ᶠ c, dset (v_name v) (fround c 4) acc.2).

Definition score_of (r : Readings) (prev_daily : pyval) : float * dict string float :=
  foldl (score_step (gate_of r)) (f0, []) (votes_of r prev_daily).

Definition technical_direction (score : float) : Direction :=
  if score >=ᶠ _DIRECTION_THRESHOLD then LONG
  else if score <=ᶠ fneg _DIRECTION_THRESHOLD then SHORT else FLAT.

Definition technical_confidence (score : float) : float := fround (fmin (lit 99 2) (fabs score)) 4.

Definition direction_text (d : Direction) : string :=
  match d with LONG => "LONG" | SHORT => "SHORT" | FLAT => "FLAT" end.

Definition technical_rationale (r : Readings) (score : float) (breakdown : dict string float) : string :=
  let top := take 3 (sort_by (fun a b => fabs a.2 >=ᶠ fabs b.2) breakdown) in
  (direction_text (technical_direction score) ++ " score=" ++ fmt true 2 score ++ " gate=" ++ fmt false 2 (gate_of r)
   ++ "; " ++ String.concat ", " (map (fun x => x.1 ++ fmt true 2 x.2) top)
   ++ "; adx=" ++ fmt false 1 (match f_adx r with Some a => a | None => nan end))%string.

Definition opt_float (x : option float) : pyval := match x with Some v => VFloat v | None => VNone end.

Definition technical_features (r : Readings) (score : float) (breakdown : dict string float) : features :=
  [("score", VFloat (fround score 4)); ("gate", VFloat (fround (gate_of r) 4));
   ("votes", VDict (map (fun '(n, v) => (n, VFloat v)) breakdown));
   ("indicators", VDict
      [("ema9", opt_float (f_ema_fast r)); ("ema21", opt_float (f_ema_slow r)); ("sma50", opt_float (f_sma50 r));
       ("macd_hist", opt_float (f_hist r)); ("rsi14", opt_float (f_rsi r)); ("bb_upper", opt_float (f_bb_u r));
       ("bb_lower", opt_float (f_bb_l r)); ("stoch_k", opt_float (f_k r)); ("stoch_d", opt_float (f_d r));
       ("adx14", opt_float (f_adx r)); ("plus_di", opt_float (f_plus_di r)); ("minus_di", opt_float (f_minus_di r));
       ("atr14", opt_float (f_atr r)); ("donchian_prev_upper", opt_float (prev_don_up r));
       ("donchian_prev_lower", opt_float (prev_don_low r)); ("close", opt_float (f_c r))])]%string.

Definition insufficient (bars floor : nat) : string :=
  ("insufficient_history (" ++ pretty (Z.of_nat bars) ++ " < " ++ pretty (Z.of_nat floor) ++ " bars)")%string.

(** [TechnicalAgent.analyze]. *)
Definition technical_analyze (ctx : AnalysisContext) (data : frame) (prev_daily : pyval) : Res AgentSignal :=
  if Nat.ltb (length data) _MIN_BARS then
    build_signal "technical" "1" ctx FLAT f0 (insufficient (length data) _MIN_BARS) [("score", VFloat f0)]%string
  else
    let r := readings data in
    let '(score, breakdown) := score_of r prev_daily in
    build_signal "technical" "1" ctx (technical_direction score) (technical_confidence score)
      (technical_rationale r score breakdown) (technical_features r score breakdown).

(** ** Regime *)

Definition _REGIME_MIN_BARS : nat := 40.
Definition _SLOPE_LOOKBACK : nat := 4.
Definition _PERCENTILE_WINDOW : nat := 100.

Definition classify_regime (adx_value slope : float) : string :=
  if adx_value >=ᶠ of_Z 25 then (if slope >=ᶠ f0 then "trending" else "weakening_trend")
  else if adx_value <ᶠ of_Z 20 then "range" else "transitional".

Definition volatility_bucket (percentile : float) : string :=
  if percentile <ᶠ fdiv_ieee f1 (of_Z 3) then "low"
  else if percentile <ᶠ fdiv_ieee f2 (of_Z 3) then "normal" else "high".

Definition session_bucket (hour_utc : Z) : string :=
  if (22 <=? hour_utc) || (hour_utc <=? 6) then "asia"
  else if hour_utc <=? 11 then "london"
  else if hour_utc <=? 15 then "overlap"
  else if hour_utc <=? 20 then "newyork" else "late".

Definition unknown_features : features :=
  [("regime", VStr "unknown"); ("volatility", VStr "unknown"); ("session", VStr "unknown")]%string.

Definition _unknown (ctx : AnalysisContext) : Res AgentSignal :=
  build_signal "regime" "1" ctx FLAT f0 "indicator inputs unavailable" unknown_features.

(** The ADX some bars ago, or the current one. *)
Definition slope_base (dropped : series) (adx_value : float) : float :=
  default adx_value (dropped !! (length dropped - 1 - _SLOPE_LOOKBACK)%nat).

(** The share of the trailing ATR percentages below the last one. *)
Definition percentile_of (trailing : series) (x : float) : float :=
  match trailing with
  | [] => lit 5 1
  | _ => fdiv_ieee (of_Z (Z.of_nat (length (List.filter (fun y => y <ᶠ x) trailing)))) (of_Z (Z.of_nat (length trailing)))
  end.

(** [RegimeAgent.analyze].  (No ATR percentage at all: [iloc[-1]] raises.) *)
Definition regime_analyze (ctx : AnalysisContext) (data : frame) : Res AgentSignal :=
  if Nat.ltb (length data) _REGIME_MIN_BARS then
    build_signal "regime" "1" ctx FLAT f0 (insufficient (length data) _REGIME_MIN_BARS) unknown_features
  else
    let close := closes data in
    let '(adx_line, plus_di, minus_di) := adx data 14 in
    let atr14 := atr data 14 in
    match last_valid adx_line, last_valid atr14, last_valid close with
    | Some adx_value, Some _, Some close_value =>
        if close_value =ᶠ f0 then _unknown ctx
        else
          let slope := adx_value -ᶠ slope_base (dropna adx_line) adx_value in
          let atr_pct_series := dropna (map (fun x => x *ᶠ of_Z 100) (lift2 fdiv_ieee atr14 close)) in
          let trailing := drop (length atr_pct_series - _PERCENTILE_WINDOW) atr_pct_series in
          match last trailing with
          | None => Err OtherError
          | Some atr_pct =>
              let percentile := percentile_of trailing atr_pct in
              let regime := classify_regime adx_value slope in
              let volatility := volatility_bucket percentile in
              let session := session_bucket (hour_of (ctx_now ctx)) in
              build_signal "regime" "1" ctx FLAT f0
                ("regime=" ++ regime ++ " vol=" ++ volatility ++ " session=" ++ session ++ " (adx="
                 ++ fmt false 1 adx_value ++ ", slope=" ++ fmt true 1 slope ++ ", atrpct=" ++ fmt false 2 atr_pct
                 ++ "@p" ++ fmt false 0 percentile ++ ")")%string
                [("regime", VStr regime); ("volatility", VStr volatility); ("session", VStr session);
                 ("adx", VFloat (fround adx_value 4)); ("adx_slope_4bar", VFloat (fround slope 4));
                 ("plus_di", VFloat (fround (or_zero (last_valid plus_di)) 4));
                 ("minus_di", VFloat (fround (or_zero (last_valid minus_di)) 4));
                 ("atr_pct", VFloat (fround atr_pct 4)); ("atr_percentile", VFloat (fround percentile 4))]%string
          end
    | _, _, _ => _unknown ctx
    end.
End Agents.

(** ** Properties *)

Lemma known_upper tf s : seconds tf = Ok s -> is_valid (str_upper tf) = true.
Proof. unfold seconds, is_valid, _SECONDS. simpl. repeat case_decide; intros [= <-]; by subst. Qed.

(** A context the worker can build a signal in. *)
Definition analysable (ctx : AnalysisContext) : Prop :=
  is_ok (seconds (ctx_timeframe ctx)) = true /\ len_between 6 12 (ctx_symbol ctx) = true.

(** In such a context [build_signal] cannot fail, whatever the analysis says. *)
Lemma build_signal_total id ver ctx dir conf rat feats :
  len_between 1 32 id = true -> len_between 1 16 ver = true -> analysable ctx ->
  exists s, build_signal id ver ctx dir conf rat feats = Ok s /\
    agent_id s = id /\ symbol s = ctx_symbol ctx /\ timeframe s = str_upper (ctx_timeframe ctx) /\
    bucket_ts s = ctx_bucket_ts ctx /\ direction s = dir /\ sig_features s = feats /\ confidence s = clamp01 conf /\
    fle f0 (confidence s) = true /\ fle (confidence s) f1 = true.
Proof.
  intros Hi Hv [Ht Hs]. unfold build_signal, valid_until_for.
  destruct (seconds (ctx_timeframe ctx)) as [sec|] eqn:Esec; [|done]. cbn [res_bind].
  destruct (clamp01_range conf) as [H0 H1]. unfold validate_signal.
  cbn -[fle clamp01 is_valid len_between str_upper f0 f1].
  rewrite Hi, Hv, Hs, H0, H1, (known_upper _ _ Esec). cbn [andb].
  eexists. by split_and!.
Qed.

Lemma build_signal_from id ver ctx dir conf rat feats s :
  build_signal id ver ctx dir conf rat feats = Ok s ->
  direction s = dir /\ sig_features s = feats /\ agent_id s = id /\ confidence s = clamp01 conf.
Proof.
  unfold build_signal. intros H. apply res_bind_ok in H as (vu & _ & H).
  by apply validate_signal_ok in H as (Hd & Hc & _ & _ & Hf & Ha & _).
Qed.

(** ** Arithmetic that yields no NaN *)

Lemma shr_fexp_nonneg m e l : 0 <= m -> 0 <= shr_m (shr_fexp prec emax m e l).1.
Proof.
  intros Hm. unfold shr_fexp, shr. assert (Hr : shr_m (shr_record_of_loc m l) = m) by (by destruct l as [|[]]).
  destruct (_ - e); cbn [fst]; [by rewrite Hr| |by rewrite Hr].
  rewrite iter_shr; rewrite Hr; [|done]. apply Z.div_pos; lia.
Qed.

Lemma round_aux_number sx m e l : 0 <= m -> is_nan (binary_round_aux prec emax sx m e l) = false.
Proof.
  intros Hm. unfold binary_round_aux. pose proof (shr_fexp_nonneg m e l Hm) as H1.
  destruct (shr_fexp prec emax m e l) as [r1 e1]. cbn [fst] in H1.
  assert (H2 : 0 <= round_nearest_even (shr_m r1) (loc_of_shr_record r1)).
  { unfold round_nearest_even. repeat case_match; lia. }
  pose proof (shr_fexp_nonneg _ e1 loc_Exact H2) as H3. destruct (shr_fexp _ _ _ e1 loc_Exact) as [r2 e2].
  cbn [fst] in H3. destruct (shr_m r2); [done|by destruct (_ <=? _)|lia].
Qed.

Definition is_finite_nonzero (x : float) : bool := match x with S754_finite _ _ _ => true | _ => false end.

Lemma fdiv_number x y : is_nan x = false -> is_finite_nonzero y = true -> is_nan (fdiv_ieee x y) = false.
Proof.
  destruct x as [|[]| |sx mx ex], y as [| | |sy my ey]; try done. intros _ _.
  unfold fdiv_ieee, SFdiv, SFdiv_core_binary. set (e' := Z.min _ _). set (m' := match _ with Zpos _ => _ | _ => _ end).
  assert (Hm : 0 <= m').
  { unfold m'. destruct (_ - e'); try lia. rewrite Z.shiftl_nonneg. lia. }
  pose proof (Z.div_pos m' (Zpos my) Hm) as Hq. unfold Z.div in Hq.
  destruct (Z.div_eucl m' (Zpos my)) as [q r]. apply round_aux_number. lia.
Qed.

Lemma fmul_number x y : is_nan x = false -> is_finite_nonzero y = true -> is_nan (x *ᶠ y) = false.
Proof. destruct x as [|[]| |sx mx ex], y as [| | |sy my ey]; try done. intros _ _. by apply round_aux_number. Qed.

Lemma length_wilder `{Pandas} s n : (1 <= n)%nat -> length (_wilder_smooth s n) = length s.
Proof.
  intros Hn. unfold _wilder_smooth. destruct (Nat.ltb_spec (length s) n); [apply length_replicate|].
  rewrite length_app, length_replicate. simpl. rewrite wilder_loop_length, length_drop. lia.
Qed.

Lemma last_valid_in s x : last_valid s = Some x -> exists i, s !! i = Some x /\ is_nan x = false.
Proof.
  unfold last_valid. intros Hl. apply last_Some in Hl as [l' Hl].
  assert (Hin : x ∈ dropna s) by (rewrite Hl; apply elem_of_app; right; by left).
  apply list_elem_of_In, filter_In in Hin as [Hin Hx]. apply list_elem_of_In, list_elem_of_lookup in Hin as [i Hi].
  exists i. split; [done|]. by apply negb_true_iff.
Qed.

Section PriceAgents.
Context `{Platform} `{Pandas}.

(** No feature of the technical agent is called [atr14] at the top level. *)
Lemma technical_no_atr14 ctx data prev_daily s :
  technical_analyze ctx data prev_daily = Ok s -> agent_id s = "technical"%string /\ dget "atr14"%string (sig_features s) = None.
Proof.
  unfold technical_analyze. destruct (Nat.ltb _ _).
  - intros (_ & -> & -> & _)%build_signal_from. done.
  - destruct (score_of _ _) as [score breakdown]. intros (_ & -> & -> & _)%build_signal_from. done.
Qed.

(** The technical agent always answers with a valid signal.  Whatever the bars, in a
    context with a known timeframe and a pair, it returns a signal of its own whose
    confidence lies in [0, 1]; the direction is LONG or SHORT exactly when there are
    enough bars and the score reaches the threshold on that side; the ATR is found under
    [indicators] and never at the top level. *)
Theorem technical_signal_valid (ctx : AnalysisContext) (data : frame) (prev_daily : pyval) : analysable ctx ->
  exists s, technical_analyze ctx data prev_daily = Ok s /\
    agent_id s = "technical"%string /\ bucket_ts s = ctx_bucket_ts ctx /\ timeframe s = str_upper (ctx_timeframe ctx) /\
    fle f0 (confidence s) = true /\ fle (confidence s) f1 = true /\
    dget "atr14"%string (sig_features s) = None /\
    ((length data < 34)%nat -> direction s = FLAT /\ confidence s = f0) /\
    ((34 <= length data)%nat ->
       let score := (score_of (readings data) prev_daily).1 in
       (direction s = LONG <-> fle (lit 15 2) score = true) /\
       (direction s = SHORT <-> fle score (fneg (lit 15 2)) = true) /\
       dget "score"%string (sig_features s) = Some (VFloat (fround score 4)) /\
       exists ind, dget "indicators"%string (sig_features s) = Some (VDict ind) /\
         dget "atr14"%string ind = Some (opt_float (last_valid (atr data 14)))).
Proof.
  intros Hc. unfold technical_analyze, _MIN_BARS. destruct (Nat.ltb_spec (length data) 34) as [Hn|Hn].
  - destruct (build_signal_total "technical" "1" ctx FLAT f0 (insufficient (length data) 34) [("score", VFloat f0)]%string
      eq_refl eq_refl Hc) as (s & E & Ha & _ & Ht & Hb & Hd & Hf & Hconf & Hlo & Hhi).
    exists s. rewrite Hf, Hd, Hconf. split_and!; try done; try (by rewrite <- Hconf); lia.
  - destruct (score_of (readings data) prev_daily) as [score breakdown] eqn:Es. cbn [fst].
    destruct (build_signal_total "technical" "1" ctx (technical_direction score) (technical_confidence score)
      (technical_rationale (readings data) score breakdown) (technical_features (readings data) score breakdown)
      eq_refl eq_refl Hc) as (s & E & Ha & _ & Ht & Hb & Hd & Hf & Hconf & Hlo & Hhi).
    exists s. rewrite Hf, Hd. split_and!; try done; [lia|]. intros _. unfold technical_direction, _DIRECTION_THRESHOLD.
    split_and!; [| |done|].
    + destruct (fle (lit 15 2) score); [done|]. by destruct (fle score _).
    + destruct (fle (lit 15 2) score) eqn:E1; [|by destruct (fle score _)]. split; [done|]. intros E2.
      assert (Hx : fle (lit 15 2) (fneg (lit 15 2)) = true) by (by eapply fle_trans). done.
    + eexists. split; [done|]. unfold readings.
      destruct (macd _ _ _ _) as [[? ?] ?], (bollinger _ _ _) as [[? ?] ?], (stochastic _ _ _ _) as [? ?],
        (adx _ _) as [[? ?] ?], (donchian _ _) as [[? ?] ?]. done.
Qed.

(** The regime agent conditions and never votes. *)
Lemma regime_never_directional ctx data s : regime_analyze ctx data = Ok s ->
  agent_id s = "regime"%string /\ direction s = FLAT /\ confidence s = f0.
Proof.
  unfold regime_analyze, _unknown. intros Hr.
  assert (Hb : exists rat feats, build_signal "regime" "1" ctx FLAT f0 rat feats = Ok s).
  { destruct (Nat.ltb _ _); [eauto|]. destruct (adx _ _) as [[adx_line ?] ?].
    destruct (last_valid adx_line), (last_valid (atr data 14)), (last_valid (closes data)); eauto.
    destruct (feq _ _); [eauto|]. destruct (last _); [eauto|done]. }
  destruct Hb as (rat & feats & (-> & _ & -> & ->)%build_signal_from). done.
Qed.

(** The regime agent always answers, and never votes.  On bars whose closes are
    numbers other than zero it returns a FLAT signal of confidence zero in every
    analysable context: no input makes it raise. *)
Theorem regime_signal_total (ctx : AnalysisContext) (data : frame) :
  analysable ctx -> Forall (fun b => is_finite_nonzero (b_close b) = true) data ->
  exists s, regime_analyze ctx data = Ok s /\ agent_id s = "regime"%string /\ direction s = FLAT /\ confidence s = f0 /\
    exists regime, dget "regime"%string (sig_features s) = Some (VStr regime) /\
      regime ∈ ["trending"; "weakening_trend"; "transitional"; "range"; "unknown"]%string.
Proof.
  intros Hc Hcl.
  assert (Hb : forall rat feats regime, dget "regime"%string feats = Some (VStr regime) ->
    regime ∈ ["trending"; "weakening_trend"; "transitional"; "range"; "unknown"]%string ->
    exists s, build_signal "regime" "1" ctx FLAT f0 rat feats = Ok s /\ agent_id s = "regime"%string /\
      direction s = FLAT /\ confidence s = f0 /\
      exists regime, dget "regime"%string (sig_features s) = Some (VStr regime) /\
        regime ∈ ["trending"; "weakening_trend"; "transitional"; "range"; "unknown"]%string).
  { intros rat feats regime Hd Hin.
    destruct (build_signal_total "regime" "1" ctx FLAT f0 rat feats eq_refl eq_refl Hc)
      as (s & E & Ha & _ & _ & _ & Hdir & Hf & Hconf & _).
    exists s. rewrite Hf. split_and!; try done. by exists regime. }
  assert (Hu : forall rat, exists s, build_signal "regime" "1" ctx FLAT f0 rat unknown_features = Ok s /\
      agent_id s = "regime"%string /\ direction s = FLAT /\ confidence s = f0 /\
      exists regime, dget "regime"%string (sig_features s) = Some (VStr regime) /\
        regime ∈ ["trending"; "weakening_trend"; "transitional"; "range"; "unknown"]%string).
  { intros rat. apply (Hb rat unknown_features "unknown"%string); [done|]. do 4 apply list_elem_of_further. by left. }
  unfold regime_analyze, _unknown. destruct (Nat.ltb _ _); [apply Hu|].
  destruct (adx _ _) as [[adx_line ?] ?]. destruct (last_valid adx_line) as [a|]; [|apply Hu].
  destruct (last_valid (atr data 14)) as [v|] eqn:Ev; [|apply Hu].
  destruct (last_valid (closes data)); [|apply Hu]. destruct (feq _ f0); [apply Hu|].
  set (pct := dropna _). assert (Hne : pct <> []).
  { apply last_valid_in in Ev as (i & Hi & Hv).
    assert (Hlen : (i < length data)%nat).
    { apply lookup_lt_Some in Hi. unfold atr in Hi. rewrite length_wilder in Hi by lia.
      by rewrite (causal_length _ causal_true_range) in Hi. }
    destruct (lookup_lt_is_Some_2 _ _ Hlen) as [b Hbar].
    assert (Hf : is_finite_nonzero (b_close b) = true) by (rewrite Forall_lookup in Hcl; by eapply Hcl).
    intros Hnil. assert (Hin : (fdiv_ieee v (b_close b) *ᶠ of_Z 100) ∈ pct); [|rewrite Hnil in Hin; by apply elem_of_nil in Hin].
    unfold pct. apply list_elem_of_In, filter_In. split.
    - apply in_map_iff. exists (fdiv_ieee v (b_close b)). split; [done|]. apply list_elem_of_In, list_elem_of_lookup.
      exists i. unfold lift2. rewrite lookup_zip_with, Hi. cbn. unfold closes. by rewrite list_lookup_fmap, Hbar.
    - rewrite fmul_number; [done| |done]. by apply fdiv_number. }
  destruct (last (drop _ pct)) as [p|] eqn:El; cycle 1.
  { apply last_None in El. apply (f_equal length) in El. rewrite length_drop in El. simpl in El.
    unfold _PERCENTILE_WINDOW in El. destruct pct; [done|]. simpl in El. lia. }
  eapply Hb; [done|]. unfold classify_regime. destruct (fle _ a); [destruct (fle f0 _)|destruct (flt a _)];
    rewrite !elem_of_cons; auto 10.
Qed.
End PriceAgents.

(** ** Witness *)

Definition demo_ctx : AnalysisContext :=
  {| ctx_symbol := "EURUSD"; ctx_timeframe := "H1"; ctx_bucket_ts := 0; ctx_now := 0; ctx_run_id := "r" |}%string.
Definition demo_rise : frame := map demo_bar (seqZ 100 40).

Lemma technical_signal_valid_witness :
  exists s, @technical_analyze demo_platform demo_pandas demo_ctx demo_rise VNone = Ok s /\ fle (confidence s) f1 = true.
Proof.
  destruct (@technical_signal_valid demo_platform demo_pandas demo_ctx demo_rise VNone ltac:(split; reflexivity))
    as (s & E & _ & _ & _ & _ & H1 & _).
  exists s. split; [exact E|exact H1].
Defined.

Lemma regime_signal_total_witness :
  exists s, @regime_analyze demo_pandas demo_ctx demo_rise = Ok s /\ direction s = FLAT.
Proof.
  destruct (@regime_signal_total demo_pandas demo_ctx demo_rise ltac:(split; reflexivity)
    ltac:(apply Forall_forall; intros b Hb; revert b Hb; apply Forall_forall; repeat constructor))
    as (s & E & _ & Hd & _).
  exists s. split; [exact E|exact Hd].
Defined.
