(* ===== verification/News.v ===== *)
(** * The content agents ([app/agents/fundamental.py], [app/agents/sentiment.py]) and the
    fallbacks they score with ([app/llm/fallback/finance_lexicon.py],
    [app/llm/fallback/calendar_proximity.py])

    A news item or event is what the agent worker puts into [meta], with the cases of a
    timestamp the agents tell apart. *)

From Stdlib Require Import ZArith Ascii Lia.
From stdpp Require Import base list strings pretty.
From S2P Require Import Prelude PyFloat PyFormat Timeframes Signals Fusion Risk Decision Tables Bus Alerts Indicators Technical.

(** ** Finance lexicon *)

Definition _POSITIVE : dict string float :=
  [("beat", lit 7 1); ("beats", lit 7 1); ("surge", lit 8 1); ("surges", lit 8 1); ("rally", lit 7 1);
   ("rallies", lit 7 1); ("gain", lit 6 1); ("gains", lit 6 1); ("rose", lit 6 1); ("rise", lit 5 1);
   ("strong", lit 5 1); ("boost", lit 6 1); ("boosted", lit 6 1); ("growth", lit 5 1);
   ("above forecast", lit 7 1); ("above forecasts", lit 7 1); ("hawkish", lit 5 1); ("tightening", lit 4 1);
   ("expansion", lit 5 1); ("recovery", lit 5 1); ("upside", lit 5 1)]%string.

Definition _NEGATIVE : dict string float :=
  map (fun '(w, x) => (w, fneg x))
  [("miss", lit 7 1); ("misses", lit 7 1); ("plunge", lit 8 1); ("plunges", lit 8 1); ("drop", lit 6 1);
   ("falls", lit 6 1); ("fell", lit 6 1); ("weak", lit 5 1); ("weakness", lit 55 2); ("slump", lit 75 2);
   ("slumps", lit 75 2); ("below forecast", lit 7 1); ("below forecasts", lit 7 1); ("dovish", lit 5 1);
   ("cut", lit 5 1); ("cuts", lit 5 1); ("recession", lit 8 1); ("contraction", lit 6 1); ("downside", lit 5 1);
   ("unemployment", lit 4 1); ("inflation", lit 3 1)]%string.

Definition _INTENSIFIERS : dict string float :=
  [("sharply", lit 3 1); ("strongly", lit 25 2); ("significantly", lit 2 1)]%string.
Definition _NEGATOR_PHRASES : list string := ["does not"; "did not"; "won't"; "no significant"]%string.

Record HeadlineScore := { hs_score : float; hs_confidence : float; matched_terms : list string; hs_label : string }.

Definition _label (score : float) : string :=
  if score >ᶠ lit 15 2 then "positive" else if score <ᶠ fneg (lit 15 2) then "negative" else "neutral".

(** [max(-1.0, min(1.0, x))]. *)
Definition clamp11 (x : float) : float := fmax (fneg f1) (fmin f1 x).

Definition normalize (h : HeadlineScore) : HeadlineScore :=
  let score := clamp11 (hs_score h) in
  {| hs_score := score; hs_confidence := hs_confidence h; matched_terms := matched_terms h; hs_label := _label score |}.

(** [text.split()]: the words between runs of white space. *)
Fixpoint words_from (s : string) : string * list string :=
  match s with
  | EmptyString => (EmptyString, [])
  | String c s =>
      let '(w, rest) := words_from s in
      if is_space c then (EmptyString, if String.eqb w "" then rest else w :: rest) else (String c w, rest)
  end.
Definition split_words (s : string) : list string :=
  let '(w, rest) := words_from s in if String.eqb w "" then rest else w :: rest.

(** One phrase of a lexicon: the matches and the running score. *)
Definition match_step (text : string) (acc : list string * float) (entry : string * float) : list string * float :=
  let '(matched, score) := acc in
  let '(phrase, weight) := entry in
  if contains phrase text then (matched ++ [phrase], score +ᶠ weight) else acc.

Definition intensify (text : string) (score : float) (entry : string * float) : float :=
  let '(word, weight) := entry in
  if contains word text then score +ᶠ (if score >=ᶠ f0 then weight else fneg weight) else score.

Definition lexicon_sum (text : string) : list string * float :=
  foldl (match_step text) (foldl (match_step text) ([], f0) _POSITIVE) _NEGATIVE.

(** The two negations: a phrase, then the bare word. *)
Definition negate (text : string) (score : float) : float :=
  let score := if existsb (fun neg => contains neg text) _NEGATOR_PHRASES then fneg score else score in
  if bool_decide ("not"%string ∈ split_words text) && negb (score =ᶠ f0) then fneg score else score.

Definition unique_sorted (l : list string) : list string := sort_by String.leb (remove_dups l).

Definition finance_lexicon_score (headline : string) : HeadlineScore :=
  let text := str_lower headline in
  match text with
  | EmptyString => {| hs_score := f0; hs_confidence := f0; matched_terms := []; hs_label := "neutral" |}
  | _ =>
      let '(matched, score) := lexicon_sum text in
      let score := negate text (foldl (intensify text) score _INTENSIFIERS) in
      {| hs_score := fround score 4;
         hs_confidence := fround (fmin f1 (lit 3 1 +ᶠ (lit 5 2 *ᶠ of_Z (Z.of_nat (length matched))))) 4;
         matched_terms := unique_sorted matched; hs_label := _label score |}
  end.

Definition finance_lexicon_score_clean (headline : string) : dict string pyval :=
  let r := finance_lexicon_score headline in
  [("score", VFloat (hs_score r)); ("confidence", VFloat (hs_confidence r)); ("label", VStr (hs_label r));
   ("matched_terms", VList (map VStr (matched_terms r)))]%string.

(** ** Calendar proximity *)

Definition _WINDOW_MINUTES : dict string Z := [("low", 0); ("medium", 45); ("high", 90)]%string.

Record EventImpact := { ei_impact : float; window_minutes : Z; within_window : bool; ei_reason : string }.

Definition event_impact (event_ts now : Z) (importance : string) (half_window_minutes : option Z)
  : option EventImpact :=
  let half := match half_window_minutes with Some h => h | None => dget_or importance 0 _WINDOW_MINUTES end in
  if half <=? 0 then None
  else
    let delta := fdiv_ieee (fabs (total_seconds (now - event_ts))) (of_Z 60) in
    if delta >ᶠ of_Z half then None
    else
      let impact := fmax f0 (f1 -ᶠ fdiv_ieee delta (of_Z half)) in
      Some {| ei_impact := fround impact 4; window_minutes := half; within_window := delta <=ᶠ of_Z half;
              ei_reason := importance ++ " impact event '" ++ isoformat event_ts ++ "' " ++ fmt false 0 delta
                           ++ "min from reference; impact " ++ fmt false 2 impact |}%string.

(** The strongest impact so far; of equal ones the nearest. *)
Definition proximity_step (now : Z) (best : option (float * Z * string)) (event : Z * string)
  : option (float * Z * string) :=
  let '(event_ts, importance) := event in
  match event_impact event_ts now importance None with
  | None => best
  | Some imp =>
      let delta := fabs (total_seconds (now - event_ts)) in
      match best with
      | None => Some (ei_impact imp, event_ts, importance)
      | Some (i, ts, _) =>
          if (ei_impact imp >ᶠ i) || ((ei_impact imp =ᶠ i) && (delta <ᶠ fabs (total_seconds (now - ts))))
          then Some (ei_impact imp, event_ts, importance) else best
      end
  end.

Record Proximity := { px_impact : float; nearest_ts : option Z; px_importance : option string; px_window : Z }.

Definition proximity_bucket (events : list (Z * string)) (now : Z) : Proximity :=
  match foldl (proximity_step now) None events with
  | None => {| px_impact := f0; nearest_ts := None; px_importance := None; px_window := 0 |}
  | Some (i, ts, importance) =>
      {| px_impact := i; nearest_ts := Some ts; px_importance := Some importance;
         px_window := dget_or importance 0 _WINDOW_MINUTES * 2 |}
  end.

Definition event_window (importance : string) (now event_ts : Z) : option Z :=
  imp ← event_impact event_ts now importance None; Some (seconds_td (60 * window_minutes imp)).

(** ** What the worker puts into [meta] *)

(** A timestamp as the agents see it: none, a text, or an instant. *)
Inductive Stamp := NoStamp | TextStamp (s : string) | TimeStamp (t : Z).

Record NewsMeta := { nm_headline : option string; nm_published : Stamp; nm_symbols : option (list string) }.
Record EventMeta := {
  em_timestamp : Stamp;
  em_importance : string;
  em_currency : string;
  em_actual : option string;
  em_forecast : option string
}.

(** [EURUSD -> (EUR, USD)]. *)
Definition currencies_of (symbol : string) : string * string :=
  (str_upper (str_take 3 symbol), str_upper (str_drop 3 symbol)).

(** ** Fundamental agent *)

Definition _IMPACT_WINDOW_MIN : Z := 90.
Definition _IMPORTANCE_IMPACT : dict string float := [("low", lit 2 1); ("medium", lit 5 1); ("high", lit 8 1)]%string.

Fixpoint str_replace (a b : ascii) (s : string) : string :=
  match s with
  | EmptyString => EmptyString
  | String c s => String (if Ascii.eqb c a then b else c) (str_replace a b s)
  end.

Definition surprise_direction (actual forecast : option float) : Z :=
  match actual, forecast with
  | Some a, Some f => if a >ᶠ f then 1 else if a <ᶠ f then -1 else 0
  | _, _ => 0
  end.

Section Agents.
Context `{Platform}.
(** [datetime.fromisoformat] of a text. *)
Context (fromisoformat : string -> option Z).
(** [math.exp], and [math.log(2)]. *)
Context (math_exp : float -> float) (math_log2 : float).

Definition parse_number (raw : option string) : option float :=
  match raw with
  | None | Some EmptyString => None
  | Some raw =>
      match split_words (py_strip (str_replace "%" " " (str_replace "," "." raw))) with
      | [] => None
      | w :: _ => parse_float w
      end
  end.

Definition stamp_of (s : Stamp) : option Z :=
  match s with NoStamp => None | TextStamp text => fromisoformat text | TimeStamp t => Some t end.

Definition impact_step (now : Z) (peak : float) (event : EventMeta) : float :=
  match stamp_of (em_timestamp event) with
  | None => peak
  | Some ts => match event_impact ts now (em_importance event) (Some _IMPACT_WINDOW_MIN) with
               | Some imp => fmax peak (ei_impact imp)
               | None => peak
               end
  end.
Definition _max_impact (events : list EventMeta) (now : Z) : float := fround (foldl (impact_step now) f0 events) 4.

Definition bias_step (currency : string) (acc : float * float) (event : EventMeta) : float * float :=
  let '(total, weight_sum) := acc in
  if negb (String.eqb (str_upper (em_currency event)) currency) then acc
  else
    let sign := surprise_direction (parse_number (em_actual event)) (parse_number (em_forecast event)) in
    if sign =? 0 then acc
    else let w := dget_or (em_importance event) (lit 5 1) _IMPORTANCE_IMPACT in
         (total +ᶠ (of_Z sign *ᶠ w), weight_sum +ᶠ w).

Definition weighted_mean (acc : float * float) : float :=
  if acc.2 =ᶠ f0 then f0 else clamp11 (fdiv_ieee acc.1 acc.2).

Definition _currency_bias (events : list EventMeta) (currency : string) : float :=
  weighted_mean (foldl (bias_step currency) (f0, f0) events).

Definition fundamental_decide (impact differential : float) (event_count : nat) : Direction * float :=
  match event_count with
  | O => (FLAT, f0)
  | _ =>
      if impact >=ᶠ lit 85 2 then (FLAT, lit 1 1)
      else if fabs differential <ᶠ lit 25 2 then (FLAT, f0)
      else
        let direction := if differential >ᶠ f0 then LONG else SHORT in
        let confidence := (lit 2 1 +ᶠ (lit 5 1 *ᶠ fabs differential))
                          +ᶠ (lit 1 1 *ᶠ fmin f1 (fdiv_ieee (of_Z (Z.of_nat event_count)) (of_Z 6))) in
        let confidence := if impact >=ᶠ lit 5 1 then confidence *ᶠ lit 8 1 else confidence in
        (direction, fround (fmin f1 confidence) 4)
  end.

Definition fundamental_rationale (base quote : string) (impact base_bias quote_bias differential : float) : string :=
  let window := ("high-impact event window active (impact=" ++ fmt false 2 impact ++ ")")%string in
  let surprise := ("surprise bias " ++ base ++ "=" ++ fmt true 2 base_bias ++ " vs " ++ quote ++ "="
                   ++ fmt true 2 quote_bias ++ " (differential=" ++ fmt true 2 differential ++ ")")%string in
  let parts := (if impact >=ᶠ lit 5 1 then [window] else [])
               ++ (if ftruthy base_bias || ftruthy quote_bias then [surprise] else []) in
  match parts with
  | [] => "no fundamental events within window; neutral"
  | _ => String.concat "; " (take 3 parts)
  end%string.

(** [FundamentalAgent.analyze]. *)
Definition fundamental_analyze (ctx : AnalysisContext) (events : list EventMeta) : Res AgentSignal :=
  let '(base, quote) := currencies_of (ctx_symbol ctx) in
  let impact := _max_impact events (ctx_now ctx) in
  let base_bias := _currency_bias events base in
  let quote_bias := _currency_bias events quote in
  let differential := base_bias -ᶠ quote_bias in
  let '(direction, confidence) := fundamental_decide impact differential (length events) in
  build_signal "fundamental" "1" ctx direction confidence
    (fundamental_rationale base quote impact base_bias quote_bias differential)
    [("impact", VFloat impact); ("base_bias", VFloat (fround base_bias 4));
     ("quote_bias", VFloat (fround quote_bias 4)); ("differential", VFloat (fround differential 4));
     ("event_count", VInt (Z.of_nat (length events))); ("currency_base", VStr base);
     ("currency_quote", VStr quote)]%string.

(** ** Sentiment agent *)

Definition _DECAY_HALF_LIFE_HOURS : float := of_Z 6.
Definition _CONFIDENCE_PER_ITEM : float := lit 5 2.
Definition _MAX_CONFIDENCE : float := lit 8 1.

Definition decay_weight (published_utc now : Z) (half_life_hours : float) : float :=
  let age_hours := fmax f0 (fdiv_ieee (total_seconds (now - published_utc)) (of_Z 3600)) in
  if half_life_hours <=ᶠ f0 then f1
  else math_exp (fdiv_ieee (fneg math_log2 *ᶠ age_hours) half_life_hours).

Record Scored := { sc_score : float; sc_weight : float; sc_currency : list string }.

(** The symbols of an item are cut to the first. *)
Definition score_item (now : Z) (item : NewsMeta) : Scored :=
  let weight := match stamp_of (nm_published item) with
                | Some t => decay_weight t now _DECAY_HALF_LIFE_HOURS
                | None => f1
                end in
  {| sc_score := hs_score (finance_lexicon_score (default EmptyString (nm_headline item)));
     sc_weight := fround weight 4; sc_currency := take 1 (default [] (nm_symbols item)) |}.
Definition _score_items (news : list NewsMeta) (now : Z) : list Scored := map (score_item now) news.

Definition _has_currency (symbols : list string) (currency : string) : bool :=
  existsb (fun s => Nat.eqb (String.length s) 6
                    && (String.eqb currency (str_take 3 s) || String.eqb currency (str_drop 3 s))) symbols.

Definition aggregate_step (currency : string) (acc : float * float) (item : Scored) : float * float :=
  if negb (_has_currency (sc_currency item) currency) then acc
  else (acc.1 +ᶠ (sc_score item *ᶠ sc_weight item), acc.2 +ᶠ sc_weight item).

Definition _currency_aggregate (scored : list Scored) (currency : string) : float :=
  weighted_mean (foldl (aggregate_step currency) (f0, f0) scored).

Definition sentiment_decide (differential weighted_count : float) : Direction * float :=
  let confident direction :=
    let magnitude := fmin f1 (fabs differential) in
    let confidence := fmin _MAX_CONFIDENCE
                        ((lit 15 2 +ᶠ (lit 5 1 *ᶠ magnitude)) +ᶠ (_CONFIDENCE_PER_ITEM *ᶠ weighted_count)) in
    (direction, fround (fmin f1 confidence) 4) in
  if differential >ᶠ lit 12 2 then confident LONG
  else if differential <ᶠ fneg (lit 12 2) then confident SHORT
  else (FLAT, f0).

Definition sentiment_rationale (differential base quote : float) (count : nat) (now : Z) : string :=
  match count with
  | O => "no news items within window; neutral sentiment"
  | _ => "sentiment differential=" ++ fmt true 3 differential ++ " (base=" ++ fmt true 3 base ++ " vs quote="
         ++ fmt true 3 quote ++ ") from " ++ pretty (Z.of_nat count) ++ " scored headline(s) decayed to " ++ isoformat now
  end%string.

(** [SentimentAgent.analyze]. *)
Definition sentiment_analyze (ctx : AnalysisContext) (news : list NewsMeta) : Res AgentSignal :=
  let '(base, quote) := currencies_of (ctx_symbol ctx) in
  let per_item := _score_items news (ctx_now ctx) in
  let base_agg := _currency_aggregate per_item base in
  let quote_agg := _currency_aggregate per_item quote in
  let differential := base_agg -ᶠ quote_agg in
  let weighted_count := fsum (map (fun i => fmax f0 (sc_weight i)) per_item) in
  let '(direction, confidence) := sentiment_decide differential weighted_count in
  build_signal "sentiment" "1" ctx direction confidence
    (sentiment_rationale differential base_agg quote_agg (length per_item) (ctx_now ctx))
    [("differential", VFloat (fround differential 4)); ("base_agg", VFloat (fround base_agg 4));
     ("quote_agg", VFloat (fround quote_agg 4)); ("item_count", VInt (Z.of_nat (length per_item)));
     ("weighted_count", VFloat (fround weighted_count 4))]%string.
End Agents.

(** ** Properties *)

Lemma clamp11_not_nan x : is_nan (clamp11 x) = false.
Proof. unfold clamp11, fmax, fmin. feval_lits. fcases; done || (destruct x; done). Qed.

Lemma clamp11_finite x : is_nan (clamp11 x) = false /\ fabs (clamp11 x) <> finf.
Proof.
  split; [apply clamp11_not_nan|]. unfold clamp11, fmax, fmin. feval_lits.
  destruct (flt x _) eqn:E1; [|by destruct (flt _ _)]. destruct (flt _ x) eqn:E2; [|done].
  by destruct x as [|[]| |].
Qed.

(** A finite float less itself is plus zero. *)
Lemma fsub_self x : is_nan x = false -> fabs x <> finf -> x -ᶠ x = f0.
Proof.
  destruct x as [[]|[]| |s m e]; try done. intros _ _. unfold fsub, SFsub.
  by rewrite Z.sub_diag.
Qed.

Lemma weighted_mean_self acc : weighted_mean acc -ᶠ weighted_mean acc = f0.
Proof.
  unfold weighted_mean. destruct (feq _ _); [done|]. apply fsub_self; apply clamp11_finite.
Qed.

Lemma aggregate_same scored c1 c2 : (forall x, x ∈ scored -> _has_currency (sc_currency x) c1 = _has_currency (sc_currency x) c2) ->
  _currency_aggregate scored c1 = _currency_aggregate scored c2.
Proof.
  intros Hx. unfold _currency_aggregate. f_equal. generalize (f0, f0) as acc.
  induction scored as [|x scored IH]; intros acc; [done|]. cbn [foldl]. unfold aggregate_step at 2 4.
  rewrite (Hx x) by (by left). apply IH. intros y Hy. apply Hx. by right.
Qed.

Lemma upper_take n s : str_upper (str_take n s) = str_take n (str_upper s).
Proof. revert s. induction n as [|n IH]; intros [|c s]; simpl; [done..|by rewrite IH]. Qed.
Lemma upper_drop n s : str_upper (str_drop n s) = str_drop n (str_upper s).
Proof. revert s. induction n as [|n IH]; intros [|c s]; simpl; [done..|by rewrite IH]. Qed.

Section ContentAgents.
Context `{Platform}.
Context (fromisoformat : string -> option Z) (math_exp : float -> float) (math_log2 : float).

Notation sentiment_analyze := (sentiment_analyze fromisoformat math_exp math_log2).
Notation fundamental_analyze := (fundamental_analyze fromisoformat).

(** News about a pair never moves the pair.  An item counts for a currency when its
    first symbol contains it; an item filed under the pair itself counts for both sides
    alike, so when every item is filed under the pair or under none, base and quote
    aggregates are equal, their difference is zero, and the signal is FLAT with
    confidence zero - however strong the headlines. *)
Theorem sentiment_pair_cancels (ctx : AnalysisContext) (news : list NewsMeta) :
  analysable ctx -> str_upper (ctx_symbol ctx) = ctx_symbol ctx ->
  (forall item, item ∈ news -> take 1 (default [] (nm_symbols item)) ∈ [[]; [ctx_symbol ctx]]) ->
  exists s, sentiment_analyze ctx news = Ok s /\ direction s = FLAT /\ confidence s = f0 /\
    dget "differential"%string (sig_features s) = Some (VFloat f0).
Proof.
  intros Hc Hup Hitems. unfold News.sentiment_analyze, currencies_of. cbv zeta.
  set (scored := _score_items _ _ _ news _).
  assert (Hsame : _currency_aggregate scored (str_upper (str_drop 3 (ctx_symbol ctx))) =
                  _currency_aggregate scored (str_upper (str_take 3 (ctx_symbol ctx)))).
  { apply aggregate_same. intros x Hx. unfold scored, _score_items in Hx.
    apply list_elem_of_fmap in Hx as (item & -> & Hin). cbn [sc_currency score_item].
    rewrite upper_take, upper_drop, Hup. apply Hitems in Hin. rewrite !elem_of_cons, elem_of_nil in Hin.
    destruct Hin as [->|[->|[]]]; [done|]. unfold _has_currency. cbn [existsb].
    destruct (Nat.eqb _ _); [|done]. rewrite !String.eqb_refl. by rewrite orb_true_r. }
  rewrite Hsame. set (agg := _currency_aggregate _ _).
  assert (agg -ᶠ agg = f0) as -> by apply weighted_mean_self.
  set (wc := fsum _). replace (sentiment_decide f0 wc) with (FLAT, f0) by done.
  edestruct (build_signal_total "sentiment" "1" ctx FLAT f0) as (s & E & _ & _ & _ & _ & Hd & Hf & Hconf & _);
    [done|done|done|].
  exists s. split; [exact E|]. by rewrite Hd, Hf, Hconf.
Qed.

(** The same event, unimportant. *)
Definition unimportant (e : EventMeta) : EventMeta :=
  {| em_timestamp := em_timestamp e; em_importance := "low"; em_currency := em_currency e;
     em_actual := em_actual e; em_forecast := em_forecast e |}.

Lemma impact_unimportant events now : _max_impact fromisoformat (map unimportant events) now = _max_impact fromisoformat events now.
Proof.
  unfold _max_impact. f_equal. generalize f0 as peak. induction events as [|e events IH]; intros peak; [done|].
  cbn [map foldl]. rewrite IH. f_equal. unfold impact_step. cbn [em_timestamp unimportant em_importance].
  destruct (stamp_of _ _) as [ts|]; [|done]. unfold event_impact, _IMPACT_WINDOW_MIN. cbv zeta.
  change (90 <=? 0) with false. cbv iota. by destruct (flt _ _).
Qed.

(** Importance does not matter to the event window.  The fundamental agent passes a
    fixed window for every event, so the impact of a calendar is that of the same calendar
    with every event made unimportant; and an impact of 0.85 suppresses any direction. *)
Theorem event_window_ignores_importance (ctx : AnalysisContext) (events : list EventMeta) :
  analysable ctx -> events <> [] -> fle (lit 85 2) (_max_impact fromisoformat events (ctx_now ctx)) = true ->
  forall events', events' ∈ [events; map unimportant events] ->
  exists s, fundamental_analyze ctx events' = Ok s /\ direction s = FLAT /\ confidence s = lit 1 1.
Proof.
  intros Hc Hne Hi events' Hin.
  assert (Hi' : fle (lit 85 2) (_max_impact fromisoformat events' (ctx_now ctx)) = true /\ events' <> []).
  { rewrite !elem_of_cons, elem_of_nil in Hin. destruct Hin as [->|[->|[]]]; [done|]. rewrite impact_unimportant.
    split; [done|]. by destruct events. }
  destruct Hi' as [Hi' Hne']. unfold News.fundamental_analyze. destruct (currencies_of _) as [base quote]. cbv zeta.
  unfold fundamental_decide at 1. destruct (length events') eqn:El; [by destruct events'|]. rewrite Hi'.
  edestruct build_signal_total as (s & E & _ & _ & _ & _ & Hd & _ & Hconf & _);
    [| |exact Hc|exists s; split; [exact E|split; [exact Hd|rewrite Hconf; reflexivity]]]; reflexivity.
Qed.

(** Both agents answer with a valid signal whatever the content. *)
Theorem content_signal_valid (ctx : AnalysisContext) (events : list EventMeta) (news : list NewsMeta) :
  analysable ctx ->
  exists f s, fundamental_analyze ctx events = Ok f /\ sentiment_analyze ctx news = Ok s /\
    agent_id f = "fundamental"%string /\ agent_id s = "sentiment"%string /\
    fle f0 (confidence f) = true /\ fle (confidence f) f1 = true /\
    fle f0 (confidence s) = true /\ fle (confidence s) f1 = true /\
    (events = [] -> direction f = FLAT /\ confidence f = f0) /\
    (news = [] -> direction s = FLAT /\ confidence s = f0).
Proof.
  intros Hc. unfold News.fundamental_analyze, News.sentiment_analyze.
  destruct (currencies_of _) as [base quote]. cbv zeta.
  destruct (fundamental_decide _ _ _) as [df cf] eqn:Ef. destruct (sentiment_decide _ _) as [ds cs] eqn:Es.
  edestruct (build_signal_total "fundamental" "1" ctx df cf) as (f & E1 & Ha1 & _ & _ & _ & Hd1 & _ & Hc1 & Hl1 & Hh1);
    [done|done|done|].
  edestruct (build_signal_total "sentiment" "1" ctx ds cs) as (s & E2 & Ha2 & _ & _ & _ & Hd2 & _ & Hc2 & Hl2 & Hh2);
    [done|done|done|].
  exists f, s. split; [exact E1|]. split; [exact E2|]. split_and!; try done.
  - intros ->. cbn in Ef. injection Ef as <- <-. by rewrite Hd1, Hc1.
  - intros ->. cbn in Es. injection Es as <- <-. by rewrite Hd2, Hc2.
Qed.
End ContentAgents.

Lemma fneg_fneg x : fneg (fneg x) = x.
Proof. by destruct x as [[]|[]| |[]]. Qed.

Lemma feq_fneg0 x : feq (fneg x) f0 = feq x f0.
Proof. by destruct x as [[]|[]| |[]]. Qed.

(** Two negations cancel.  The lexicon negates once for a negating phrase and once
    more for the word "not", so a headline that says "did not" or "does not" scores as if
    it were not negated at all. *)
Theorem negation_cancels (text phrase : string) (score : float) :
  phrase ∈ _NEGATOR_PHRASES -> contains phrase text = true -> "not"%string ∈ split_words text ->
  feq score f0 = false -> negate text score = score.
Proof.
  intros Hp Hc Hn Hs. unfold negate.
  assert (existsb (fun neg => contains neg text) _NEGATOR_PHRASES = true) as ->.
  { apply existsb_exists. exists phrase. by rewrite <- list_elem_of_In. }
  rewrite bool_decide_eq_true_2 by done. rewrite feq_fneg0, Hs. cbn [negb andb]. apply fneg_fneg.
Qed.

(** The range of the lexicon is not [-1, 1]: "beats" also contains "beat". *)
Example lexicon_exceeds_one : flt f1 (hs_score (finance_lexicon_score "GDP beats")) = true.
Proof. vm_compute. reflexivity. Qed.

(** ** Witnesses *)

Definition demo_news : list NewsMeta :=
  [{| nm_headline := Some "Euro surges"; nm_published := NoStamp; nm_symbols := Some ["EURUSD"; "GBPUSD"] |}]%string.
Definition demo_events : list EventMeta :=
  [{| em_timestamp := TimeStamp 0; em_importance := "low"; em_currency := "EUR"; em_actual := Some "3.2%";
      em_forecast := Some "3.0%" |}]%string.

Lemma sentiment_pair_cancels_witness :
  fle (lit 8 1) (hs_score (finance_lexicon_score "Euro surges")) = true /\
  exists s, sentiment_analyze (fun _ => None) (fun x => x) f1 demo_ctx demo_news = Ok s /\ direction s = FLAT.
Proof.
  split; [vm_compute; reflexivity|].
  destruct (sentiment_pair_cancels (fun _ => None) (fun x => x) f1 demo_ctx demo_news
    ltac:(split; reflexivity) eq_refl
    ltac:(intros item Hi; apply list_elem_of_singleton in Hi; subst item; right; left)) as (s & E & Hd & _).
  exists s. split; [exact E|exact Hd].
Defined.

Lemma event_window_ignores_importance_witness :
  exists s, @fundamental_analyze demo_platform (fun _ => None) demo_ctx demo_events = Ok s /\ confidence s = lit 1 1.
Proof.
  destruct (@event_window_ignores_importance demo_platform (fun _ => None) demo_ctx demo_events
    ltac:(split; reflexivity) ltac:(discriminate) ltac:(vm_compute; reflexivity) demo_events ltac:(left))
    as (s & E & _ & Hc).
  exists s. split; [exact E|exact Hc].
Defined.

Lemma content_signal_valid_witness :
  exists f, @fundamental_analyze demo_platform (fun _ => None) demo_ctx demo_events = Ok f /\ fle (confidence f) f1 = true.
Proof.
  destruct (@content_signal_valid demo_platform (fun _ => None) (fun x => x) f1 demo_ctx demo_events demo_news
    ltac:(split; reflexivity)) as (f & s & E & _ & _ & _ & _ & H1 & _).
  exists f. split; [exact E|exact H1].
Defined.

Lemma negation_cancels_witness :
  negate "the fed did not surge" (lit 8 1) = lit 8 1.
Proof.
  apply (negation_cancels "the fed did not surge" "did not" (lit 8 1)).
  - right. left.
  - reflexivity.
  - vm_compute. right. right. right. left.
  - reflexivity.
Defined.
