(* ===== verification/Content.v ===== *)
(** * News and calendar storage ([app/data/content_types.py], [app/data/content_hash.py],
    [app/data/content_repository.py], [app/models/news_item.py],
    [app/models/economic_event.py], the cycle of [app/workers/content_runtime.py])

    Titles, addresses and the rest are texts as the adapters hand them over; the sanitised
    [raw_payload] kept for audit is left out. *)

From Stdlib Require Import ZArith Ascii Lia Sorted.
From stdpp Require Import base list strings sorting.
From S2P Require Import Prelude PyFloat Timeframes Signals Fusion Risk Decision Tables.

(** ** Normalised values *)

Definition IMPORTANCE_LEVELS : list string := ["low"; "medium"; "high"]%string.

Record NormalizedEconomicEvent := {
  ev_provider : string;
  ev_title : string;
  ev_timestamp : datetime;
  ev_importance : string;
  ev_currency : string;
  ev_symbols : list string;
  ev_actual : option string;
  ev_forecast : option string;
  ev_previous : option string;
  ev_surprise_score : option float;
  ev_external_id : option string
}.

Record NormalizedNewsItem := {
  ni_provider : string;
  ni_headline : string;
  ni_published : datetime;
  ni_url : option string;
  ni_summary : option string;
  ni_symbols : list string;
  ni_external_id : option string
}.

(** [ts.isoformat()] in the timestamp's own zone, whose offset is whole minutes. *)
Definition offset_text (off : Z) : string :=
  let m := Z.abs off / (60 * us_per_second) in
  ((if (off <? 0)%Z then "-" else "+") ++ two_digits (m / 60) ++ ":" ++ two_digits (m mod 60))%string.
Definition isoformat_at (d : datetime) : string :=
  let shown off := let s := isoformat (instant d + off) in str_take (String.length s - 6) s in
  match tzinfo d with
  | None => shown 0
  | Some off => (shown off ++ offset_text off)%string
  end.

Section Values.
(** The UTC offset of the host's own time zone at an instant. *)
Context (local_offset : Z -> Z).

(** [ts.astimezone()] converts to the zone of the host. *)
Definition _ensure_utc (ts : datetime) : Res datetime :=
  match tzinfo ts with
  | None => Err ValueError
  | Some _ => Ok {| instant := instant ts; tzinfo := Some (local_offset (instant ts)) |}
  end.

Definition event_post_init (e : NormalizedEconomicEvent) : Res NormalizedEconomicEvent :=
  ts <-- _ensure_utc (ev_timestamp e) ;;
  if bool_decide (ev_importance e ∈ IMPORTANCE_LEVELS) then
    Ok {| ev_provider := ev_provider e; ev_title := ev_title e; ev_timestamp := ts; ev_importance := ev_importance e;
          ev_currency := ev_currency e; ev_symbols := ev_symbols e; ev_actual := ev_actual e;
          ev_forecast := ev_forecast e; ev_previous := ev_previous e; ev_surprise_score := ev_surprise_score e;
          ev_external_id := ev_external_id e |}
  else Err ValueError.

Definition news_post_init (n : NormalizedNewsItem) : Res NormalizedNewsItem :=
  ts <-- _ensure_utc (ni_published n) ;;
  Ok {| ni_provider := ni_provider n; ni_headline := ni_headline n; ni_published := ts; ni_url := ni_url n;
        ni_summary := ni_summary n; ni_symbols := ni_symbols n; ni_external_id := ni_external_id n |}.
End Values.

(** ** Keys *)

Definition canonical (parts : list string) : string := String.concat "|" parts.

Section Keys.
Context (sha256_hex : string -> string).

Definition _hash_canonical (parts : list string) : string := sha256_hex (canonical parts).

Definition calendar_dedup_key (e : NormalizedEconomicEvent) : string :=
  match ev_external_id e with
  | Some (String _ _ as id) => _hash_canonical ["ext"; str_lower (ev_provider e); id]
  | _ => _hash_canonical ["fields"; str_lower (ev_provider e); str_lower (py_strip (ev_title e));
                          isoformat_at (ev_timestamp e); str_upper (ev_currency e)]
  end%string.

Definition or_empty (s : option string) : string := default EmptyString s.

Definition news_parts (n : NormalizedNewsItem) : list string :=
  ["news"; str_lower (ni_provider n); or_empty (ni_external_id n); str_lower (py_strip (or_empty (ni_url n)));
   str_lower (py_strip (ni_headline n)); isoformat_at (ni_published n)]%string.
Definition news_item_hash (n : NormalizedNewsItem) : string := _hash_canonical (news_parts n).

(** ** Tables *)

Record NewsItem := {
  nw_id : Z;
  item_hash : string;
  nw_provider : string;
  nw_external_id : option string;
  nw_url : option string;
  nw_headline : string;
  nw_summary : option string;
  nw_symbols : list string;
  nw_published : Z
}.

Record EconomicEvent := {
  ee_id : Z;
  dedup_key : string;
  ee_provider : string;
  ee_external_id : option string;
  ee_title : string;
  ee_currency : string;
  ee_symbols : list string;
  ee_importance : string;
  ee_timestamp : Z;
  ee_actual : option string;
  ee_forecast : option string;
  ee_previous : option string;
  ee_surprise_score : option Decimal
}.

(** [INSERT ... ON CONFLICT (key) DO NOTHING RETURNING id]. *)
Definition insert_unique {Row} (key : Row -> string) (row : Row) (rows : list Row) : bool * list Row :=
  if existsb (fun r => String.eqb (key r) (key row)) rows then (false, rows) else (true, rows ++ [row]).

Section Repository.
Context `{Platform}.

Definition _news_values (n : NormalizedNewsItem) (id : Z) : NewsItem :=
  {| nw_id := id; item_hash := news_item_hash n; nw_provider := ni_provider n; nw_external_id := ni_external_id n;
     nw_url := ni_url n; nw_headline := ni_headline n; nw_summary := ni_summary n; nw_symbols := ni_symbols n;
     nw_published := instant (ni_published n) |}.

(** The surprise goes through [Decimal(str(x))] into a [Numeric(8, 4)] column. *)
Definition _event_values (e : NormalizedEconomicEvent) (id : Z) : EconomicEvent :=
  {| ee_id := id; dedup_key := calendar_dedup_key e; ee_provider := ev_provider e; ee_external_id := ev_external_id e;
     ee_title := ev_title e; ee_currency := ev_currency e; ee_symbols := ev_symbols e;
     ee_importance := ev_importance e; ee_timestamp := instant (ev_timestamp e); ee_actual := ev_actual e;
     ee_forecast := ev_forecast e; ee_previous := ev_previous e;
     ee_surprise_score := (fun x => numeric 8 4 (dec_of_float x)) <$> ev_surprise_score e |}.

(** The rows of both tables, and the uuids drawn. *)
Record ContentDB := { news_items : list NewsItem; economic_events : list EconomicEvent; content_uuids : nat }.

Definition save_news_item (acc : Z * ContentDB) (n : NormalizedNewsItem) : Z * ContentDB :=
  let '(inserted, db) := acc in
  let '(fresh, rows) := insert_unique item_hash (_news_values n (uuid4 (content_uuids db))) (news_items db) in
  (if fresh : bool then inserted + 1 else inserted,
   {| news_items := rows; economic_events := economic_events db; content_uuids := S (content_uuids db) |}).
Definition save_news (items : list NormalizedNewsItem) (db : ContentDB) : Z * ContentDB :=
  foldl save_news_item (0, db) items.

Definition save_event (acc : Z * ContentDB) (e : NormalizedEconomicEvent) : Z * ContentDB :=
  let '(inserted, db) := acc in
  let '(fresh, rows) := insert_unique dedup_key (_event_values e (uuid4 (content_uuids db))) (economic_events db) in
  (if fresh : bool then inserted + 1 else inserted,
   {| news_items := news_items db; economic_events := rows; content_uuids := S (content_uuids db) |}).
Definition save_events (events : list NormalizedEconomicEvent) (db : ContentDB) : Z * ContentDB :=
  foldl save_event (0, db) events.

(** Newest first; the order of equal times is the server's. *)
Definition newest_first {Row} (at_ : Row -> Z) (a b : Row) : bool := at_ b <=? at_ a.

Definition load_recent_news (symbols : list string) (limit : nat) (since : option Z) (db : ContentDB) : list NewsItem :=
  take limit (sort_by (newest_first nw_published)
    (List.filter (fun r => (match symbols with [] => true | _ => existsb (fun s => bool_decide (s ∈ symbols)) (nw_symbols r) end)
                           && match since with Some t => t <=? nw_published r | None => true end) (news_items db))).

Definition load_events (currencies : list string) (limit : nat) (since until : option Z) (db : ContentDB)
  : list EconomicEvent :=
  take limit (sort_by (newest_first ee_timestamp)
    (List.filter (fun r => (match currencies with [] => true | _ => bool_decide (ee_currency r ∈ currencies) end)
                           && match since with Some t => t <=? ee_timestamp r | None => true end
                           && match until with Some t => ee_timestamp r <? t | None => true end) (economic_events db))).

(** ** The content cycle *)

(** What a provider answers for a window, and the synthetic one to which the worker
    degrades on a [ContentProviderError].  Any other error ends the worker. *)
Context (fetch_events synthetic_events : Z -> Z -> Res (list NormalizedEconomicEvent))
  (fetch_news synthetic_news : Z -> Z -> Res (list NormalizedNewsItem)).

Definition is_content_error (e : PyErr) : bool :=
  match e with
  | ContentProviderAuthError | ContentProviderRateLimitError | ContentProviderTransientError => true
  | _ => false
  end.
Definition degrade {A} (r fallback : Res A) : Res A :=
  match r with Err e => if is_content_error e then fallback else r | Ok _ => r end.

Definition hours_td (n : Z) : Z := seconds_td (n * 3600).

Definition _safe_calendar (lookback_hours now : Z) (db : ContentDB) : Res (Z * ContentDB) :=
  let since := now - hours_td lookback_hours in
  events <-- degrade (fetch_events since now) (synthetic_events since now) ;;
  Ok (save_events events db).

Definition _safe_news (since until : Z) (db : ContentDB) : Res (Z * ContentDB) :=
  items <-- degrade (fetch_news since until) (synthetic_news since until) ;;
  Ok (save_news items db).

(** The calendar is committed before the news is fetched. *)
Definition _cycle (calendar_lookback news_lookback now : Z) (db : ContentDB) : Res unit * ContentDB :=
  match _safe_calendar calendar_lookback now db with
  | Err e => (Err e, db)
  | Ok (_, db) => match _safe_news (now - hours_td news_lookback) now db with
                  | Err e => (Err e, db)
                  | Ok (_, db) => (Ok tt, db)
                  end
  end.
End Repository.
End Keys.

(** ** Properties *)

Lemma insert_unique_spec {Row} (key : Row -> string) row rows :
  insert_unique key row rows =
    if decide (key row ∈ map key rows) then (false, rows) else (true, rows ++ [row]).
Proof.
  unfold insert_unique. destruct (existsb _ rows) eqn:E, (decide (key row ∈ map key rows)) as [Hi|Hi]; try done; exfalso.
  - apply Hi. apply existsb_exists in E as (r & Hr & Hk%String.eqb_eq). rewrite <- Hk.
    apply list_elem_of_fmap. exists r. by rewrite list_elem_of_In.
  - apply list_elem_of_fmap in Hi as (r & Hk & Hr). apply not_true_iff_false in E. apply E, existsb_exists.
    exists r. rewrite <- list_elem_of_In, String.eqb_eq. done.
Qed.

(** A batch of inserts: rows are only appended, under new keys, each key once; the count
    is how many. *)
Section Batch.
Context {Item Row DB : Type} (key : Row -> string) (item_key : Item -> string) (rows_of : DB -> list Row)
  (save : Z * DB -> Item -> Z * DB).
Context (save_spec : forall n db x,
  let '(n', db') := save (n, db) x in
  if decide (item_key x ∈ map key (rows_of db)) then n' = n /\ rows_of db' = rows_of db
  else n' = n + 1 /\ exists row, rows_of db' = rows_of db ++ [row] /\ key row = item_key x).

Lemma batch_spec items : forall n db, NoDup (map key (rows_of db)) ->
  let '(n', db') := foldl save (n, db) items in
  exists new, rows_of db' = rows_of db ++ new /\ n' = n + Z.of_nat (length new) /\
    NoDup (map key (rows_of db')) /\ (forall x, x ∈ items -> item_key x ∈ map key (rows_of db')) /\
    (forall row, row ∈ new -> exists x, x ∈ items /\ key row = item_key x).
Proof.
  induction items as [|x items IH]; intros n db Hn; cbn [foldl].
  { exists []. rewrite app_nil_r. split_and!; try done; [simpl; lia|intros ? ?%elem_of_nil; done|intros ? ?%elem_of_nil; done]. }
  pose proof (save_spec n db x) as Hs. destruct (save (n, db) x) as [n1 db1].
  destruct (decide (item_key x ∈ map key (rows_of db))) as [Hi|Hi].
  - destruct Hs as [-> Hr]. specialize (IH n db1). rewrite Hr in IH. specialize (IH Hn).
    destruct (foldl save (n, db1) items) as [n' db']. destruct IH as (new & E & Hc & Hd & Hall & Hnew).
    exists new. split_and!; try done.
    + intros y [->|Hy]%elem_of_cons; [|by apply Hall]. rewrite E, map_app, elem_of_app. by left.
    + intros row Hrow. destruct (Hnew row Hrow) as (y & ? & ?). exists y. split; [by right|done].
  - destruct Hs as [-> (row & Hr & Hk)]. specialize (IH (n + 1) db1). rewrite Hr, map_app in IH.
    assert (Hn1 : NoDup (map key (rows_of db) ++ map key [row])).
    { apply NoDup_app. split_and!; [done| |apply NoDup_singleton]. cbn [map]. rewrite Hk.
      intros k Hkin ->%list_elem_of_singleton. done. }
    specialize (IH Hn1). destruct (foldl save (n + 1, db1) items) as [n' db'].
    destruct IH as (new & E & Hc & Hd & Hall & Hnew). exists (row :: new).
    rewrite <- app_assoc in E. split_and!; try done; [cbn [length]; lia| |].
    + intros y [->|Hy]%elem_of_cons; [|by apply Hall]. rewrite E, map_app, elem_of_app. right. rewrite <- Hk. by left.
    + intros r [->|Hy]%elem_of_cons; [exists x; split; [by left|done]|].
      destruct (Hnew r Hy) as (y & ? & ?). exists y. split; [by right|done].
Qed.

Lemma batch_again items : forall n db, (forall x, x ∈ items -> item_key x ∈ map key (rows_of db)) ->
  (foldl save (n, db) items).1 = n /\ rows_of (foldl save (n, db) items).2 = rows_of db.
Proof.
  induction items as [|x items IH]; intros n db Hx; [done|]. cbn [foldl]. pose proof (save_spec n db x) as Hs.
  destruct (save (n, db) x) as [n1 db1]. rewrite decide_True in Hs by (apply Hx; by left). destruct Hs as [-> Hr].
  destruct (IH n db1) as [H1 H2]; [intros y Hy; rewrite Hr; apply Hx; by right|]. by rewrite H1, H2, Hr.
Qed.
End Batch.

Section Storage.
Context `{Platform} (sha256_hex : string -> string).

Notation save_news := (save_news sha256_hex).
Notation save_events := (save_events sha256_hex).
Notation calendar_dedup_key := (calendar_dedup_key sha256_hex).
Notation news_item_hash := (news_item_hash sha256_hex).

Definition keys_unique (db : ContentDB) : Prop :=
  NoDup (map item_hash (news_items db)) /\ NoDup (map dedup_key (economic_events db)).

Lemma news_step n db x :
  let '(n', db') := save_news_item sha256_hex (n, db) x in
  if decide (news_item_hash x ∈ map item_hash (news_items db)) then n' = n /\ news_items db' = news_items db
  else n' = n + 1 /\ exists row, news_items db' = news_items db ++ [row] /\ item_hash row = news_item_hash x.
Proof.
  unfold save_news_item. rewrite insert_unique_spec. cbn [item_hash _news_values].
  destruct (decide _); [done|]. split; [done|]. by eexists.
Qed.

Lemma event_step n db x :
  let '(n', db') := save_event sha256_hex (n, db) x in
  if decide (calendar_dedup_key x ∈ map dedup_key (economic_events db)) then n' = n /\ economic_events db' = economic_events db
  else n' = n + 1 /\ exists row, economic_events db' = economic_events db ++ [row] /\ dedup_key row = calendar_dedup_key x.
Proof.
  unfold save_event. rewrite insert_unique_spec. cbn [dedup_key _event_values].
  destruct (decide _); [done|]. split; [done|]. by eexists.
Qed.

Lemma save_news_spec items db : keys_unique db ->
  let '(n, db') := save_news items db in
  keys_unique db' /\ economic_events db' = economic_events db /\
  exists new, news_items db' = news_items db ++ new /\ n = Z.of_nat (length new) /\
    (forall x, x ∈ items -> news_item_hash x ∈ map item_hash (news_items db')).
Proof.
  intros [Hn He]. unfold Content.save_news.
  assert (Hev : economic_events (foldl (save_news_item sha256_hex) (0, db) items).2 = economic_events db).
  { generalize 0 as n. clear Hn He. revert db. induction items as [|x items IH]; intros db n; [done|]. cbn [foldl].
    unfold save_news_item at 2. destruct (insert_unique _ _ _) as [fresh rows]. by rewrite IH. }
  pose proof (batch_spec item_hash news_item_hash news_items (save_news_item sha256_hex) news_step items 0 db Hn) as Hb. destruct (foldl _ (0, db) items) as [n db']. cbn [snd] in Hev.
  destruct Hb as (new & E & Hc & Hd & Hall & _). split_and!; [split; [done|by rewrite Hev]|done|].
  exists new. split_and!; [done|lia|done].
Qed.

Lemma save_events_spec events db : keys_unique db ->
  let '(n, db') := save_events events db in
  keys_unique db' /\ news_items db' = news_items db /\
  exists new, economic_events db' = economic_events db ++ new /\ n = Z.of_nat (length new) /\
    (forall x, x ∈ events -> calendar_dedup_key x ∈ map dedup_key (economic_events db')).
Proof.
  intros [Hn He]. unfold Content.save_events.
  assert (Hnw : news_items (foldl (save_event sha256_hex) (0, db) events).2 = news_items db).
  { generalize 0 as n. clear Hn He. revert db. induction events as [|x events IH]; intros db n; [done|]. cbn [foldl].
    unfold save_event at 2. destruct (insert_unique _ _ _) as [fresh rows]. by rewrite IH. }
  pose proof (batch_spec dedup_key calendar_dedup_key economic_events (save_event sha256_hex) event_step events 0 db He) as Hb. destruct (foldl _ (0, db) events) as [n db']. cbn [snd] in Hnw.
  destruct Hb as (new & E & Hc & Hd & Hall & _). split_and!; [split; [by rewrite Hnw|done]|done|].
  exists new. split_and!; [done|lia|done].
Qed.

(** A save, of either kind. *)
Inductive content_op := SaveNews (items : list NormalizedNewsItem) | SaveEvents (events : list NormalizedEconomicEvent).
Definition content_step (db : ContentDB) (op : content_op) : ContentDB :=
  match op with SaveNews items => (save_news items db).2 | SaveEvents events => (save_events events db).2 end.
Definition empty_content : ContentDB := {| news_items := []; economic_events := []; content_uuids := O |}.

Lemma content_steps ops : forall db, keys_unique db ->
  let db' := foldl content_step db ops in
  keys_unique db' /\ (exists n, news_items db' = news_items db ++ n) /\ (exists e, economic_events db' = economic_events db ++ e).
Proof.
  induction ops as [|op ops IH]; intros db Hu; cbv zeta; cbn [foldl].
  { split_and!; [done|exists []; by rewrite app_nil_r..]. }
  assert (H1 : keys_unique (content_step db op) /\ (exists n, news_items (content_step db op) = news_items db ++ n) /\
    (exists e, economic_events (content_step db op) = economic_events db ++ e)).
  { destruct op as [items|events]; simpl.
    - pose proof (save_news_spec items db Hu) as Hs. destruct (save_news items db) as [n db'].
      destruct Hs as (? & He & new & Hn & _). cbn [snd]. split_and!; [done|by exists new|exists []; by rewrite app_nil_r].
    - pose proof (save_events_spec events db Hu) as Hs. destruct (save_events events db) as [n db'].
      destruct Hs as (? & Hn & new & He & _). cbn [snd]. split_and!; [done|exists []; by rewrite app_nil_r|by exists new]. }
  destruct H1 as (Hu1 & [n1 Hn1] & [e1 He1]). destruct (IH _ Hu1) as (Hu2 & [n2 Hn2] & [e2 He2]).
  split_and!; [done|exists (n1 ++ n2)|exists (e1 ++ e2)]; by rewrite ?Hn2, ?Hn1, ?He2, ?He1, <- app_assoc.
Qed.

(** Content is stored once and as it was first seen.  Over any sequence of polls the
    keys of both tables stay unique and a stored row never changes or goes; saving a
    batch again stores nothing; and since the key of an event ignores its [actual], a
    value published after the event was first stored is never taken over. *)
Theorem content_first_write (ops : list content_op) (items : list NormalizedNewsItem)
    (e : NormalizedEconomicEvent) (actual : option string) :
  let db := foldl content_step empty_content ops in
  keys_unique db /\
  (forall ops', let db' := foldl content_step db ops' in
     (exists n, news_items db' = news_items db ++ n) /\ (exists c, economic_events db' = economic_events db ++ c)) /\
  (let '(n, db') := save_news items db in
   Z.of_nat (length (news_items db')) = Z.of_nat (length (news_items db)) + n /\
   (save_news items db').1 = 0 /\ news_items (save_news items db').2 = news_items db') /\
  (let released := {| ev_provider := ev_provider e; ev_title := ev_title e; ev_timestamp := ev_timestamp e;
                      ev_importance := ev_importance e; ev_currency := ev_currency e; ev_symbols := ev_symbols e;
                      ev_actual := actual; ev_forecast := ev_forecast e; ev_previous := ev_previous e;
                      ev_surprise_score := ev_surprise_score e; ev_external_id := ev_external_id e |} in
   let db' := (save_events [e] db).2 in
   (save_events [released] db').1 = 0 /\ economic_events (save_events [released] db').2 = economic_events db').
Proof.
  intros db. assert (Hu : keys_unique db).
  { apply (content_steps ops empty_content). split; constructor. }
  split_and!; [done| | |].
  - intros ops'. by apply content_steps.
  - pose proof (save_news_spec items db Hu) as Hs. destruct (save_news items db) as [n db'].
    destruct Hs as (_ & _ & new & E & -> & Hall). split; [by rewrite E, length_app, Nat2Z.inj_add|].
    apply (batch_again item_hash news_item_hash news_items (save_news_item sha256_hex) news_step), Hall.
  - intros released db'. pose proof (save_events_spec [e] db Hu) as Hs. unfold db'. destruct (save_events [e] db) as [n d].
    destruct Hs as (_ & _ & new & _ & _ & Hall).
    apply (batch_again dedup_key calendar_dedup_key economic_events (save_event sha256_hex) event_step).
    intros x ->%list_elem_of_singleton. change (calendar_dedup_key released) with (calendar_dedup_key e). apply Hall. by left.
Qed.

End Storage.

(** Different articles can share a key.  The parts of a key are joined with a bar that
    they may contain themselves, so an article is dropped when another one with a
    different headline and address was stored before it. *)
Theorem news_hash_ambiguous (sha256_hex : string -> string) :
  exists a b, ni_provider a = ni_provider b /\ ni_headline a <> ni_headline b /\ ni_url a <> ni_url b /\
    news_item_hash sha256_hex a = news_item_hash sha256_hex b.
Proof.
  exists {| ni_provider := "rss"; ni_headline := "b|c"; ni_published := utc 0; ni_url := Some "a"; ni_summary := None;
            ni_symbols := []; ni_external_id := None |}%string,
         {| ni_provider := "rss"; ni_headline := "c"; ni_published := utc 0; ni_url := Some "a|b"; ni_summary := None;
            ni_symbols := []; ni_external_id := None |}%string.
  split_and!; [done|done|done|]. reflexivity.
Qed.

(** The time in a key is written in the zone of the host. *)
Example key_depends_on_host :
  isoformat_at {| instant := 0; tzinfo := Some 0 |} = "1970-01-01T00:00:00+00:00"%string /\
  isoformat_at {| instant := 0; tzinfo := Some (7200 * us_per_second) |} = "1970-01-01T02:00:00+02:00"%string.
Proof. split; reflexivity. Qed.
