(* ===== verification/AgentWork.v ===== *)
(** * The agent worker ([app/workers/agent_worker.py], [default_registry] of
    [app/agents/registry.py])

    Redis and the database do not fail here except where a parameter says so: an event the
    bus refuses raises.  The clock is read once per agent and once per event. *)

From Stdlib Require Import ZArith Ascii Lia.
From stdpp Require Import base list strings relations.
From S2P Require Import Prelude PyFloat Timeframes Signals Fusion Risk Decision Tables Candles SignalStore Decide Bus Indicators Technical News Content.

Definition LOOKBACK_BARS : nat := 150.

Record AgentBatchResult := { processed : Z; skipped_stale : Z; signals_written : Z; errors : Z }.

(** What [meta] holds besides the run id. *)
Record Meta := { m_prev_daily : pyval; m_news : list NewsMeta; m_events : list EventMeta }.

Record Agent := { ag_id : string; ag_analyze : AnalysisContext -> frame -> Meta -> Res AgentSignal }.

Definition bars_closed_topic (timeframe : string) : string := ("bars.closed." ++ timeframe)%string.

Definition direction_name (d : Direction) : string :=
  match d with LONG => "LONG" | SHORT => "SHORT" | FLAT => "FLAT" end.

(** [str(fields.get(key) or "")]. *)
Definition _field (fields : dict string string) (key : string) : string := dget_or key EmptyString fields.

Definition _symbols_touch (symbols : list string) (pair : string) : bool :=
  existsb (fun s => Nat.eqb (String.length s) 6
                    && (String.eqb (str_take 3 s) (str_take 3 pair) || String.eqb (str_drop 3 s) (str_drop 3 pair)))
    symbols.

Section Worker.
Context `{Platform} `{Pandas}.
(** [json.loads], [datetime.fromisoformat], [int] and [uuid.hex]. *)
Context (json_loads : string -> option pyval) (fromisoformat : pyval -> option Z) (py_int : pyval -> option Z)
  (uuid_hex : Z -> string).
(** The events the bus accepts. *)
Context (accepts : Event -> bool).

(** A payload that is no object has no [items]: that is not caught. *)
Definition _unwrap (fields : dict string string) : Res (option (dict string string)) :=
  match _field fields "data" with
  | EmptyString => Ok None
  | raw =>
      match from_json json_loads fromisoformat py_int raw with
      | None => Ok None
      | Some event =>
          match raw_type event with
          | VStr "bar.closed" =>
              match raw_payload event with
              | VDict [] => Ok None
              | VDict payload => Ok (Some (map (fun '(k, v) => (k, py_str v)) payload))
              | _ => Err OtherError
              end
          | _ => Ok None
          end
      end
  end%string.

(** ** Building the context *)

Definition bar_of (r : CandleRow) : Bar :=
  {| b_open := dec_to_float (cd_open r); b_high := dec_to_float (cd_high r); b_low := dec_to_float (cd_low r);
     b_close := dec_to_float (cd_close r); b_volume := cd_volume r |}.

(** An instrument created here is rolled back with its session; its id is used all the
    same. *)
Definition _load_series (symbol timeframe : string) (db : DB) : list CandleRow * Instrument * DB :=
  let '(instrument, created) := get_or_create_instrument symbol db in
  (load_candles (ins_id instrument) timeframe None None LOOKBACK_BARS created, instrument, set_uuids (uuids created) db).

Definition _prev_daily (instrument_id : Z) (db : DB) : pyval :=
  match latest_by cd_ts (Candles.series instrument_id "D1" (candles db)) with
  | None => VNone
  | Some r => VDict [("high", VFloat (dec_to_float (cd_high r))); ("low", VFloat (dec_to_float (cd_low r)));
                     ("close", VFloat (dec_to_float (cd_close r)))]
  end%string.

Definition news_meta (r : NewsItem) : NewsMeta :=
  {| nm_headline := Some (nw_headline r); nm_published := TimeStamp (nw_published r); nm_symbols := Some (nw_symbols r) |}.
Definition event_meta (r : EconomicEvent) : EventMeta :=
  {| em_timestamp := TimeStamp (ee_timestamp r); em_importance := ee_importance r; em_currency := ee_currency r;
     em_actual := ee_actual r; em_forecast := ee_forecast r |}.

Definition _load_content (symbol : string) (bucket_ts : Z) (content : ContentDB) : list NewsMeta * list EventMeta :=
  let base := str_take 3 symbol in
  let quote := str_drop 3 symbol in
  let window := hours_td 12 in
  let since := bucket_ts - window in
  let until := bucket_ts + window in
  let news_rows := take 50 (sort_by (newest_first nw_published)
                     (List.filter (fun r => since - days_td 2 <=? nw_published r) (news_items content))) in
  let event_rows := take 50 (sort_by (newest_first ee_timestamp)
                      (List.filter (fun r => (since <=? ee_timestamp r) && (ee_timestamp r <? until)
                                             && bool_decide (ee_currency r ∈ [base; quote])) (economic_events content))) in
  (map news_meta (List.filter (fun r => match nw_symbols r with [] => true | l => _symbols_touch l symbol end) news_rows),
   map event_meta event_rows).

(** ** One bar *)

Definition signal_event (run_id : string) (now : Z) (s : AgentSignal) : Event :=
  {| event_type := "signal.emitted";
     payload := [("agent_id", VStr (agent_id s)); ("version", VStr (version s)); ("symbol", VStr (symbol s));
                 ("timeframe", VStr (timeframe s)); ("direction", VStr (direction_name (direction s)));
                 ("confidence", VFloat (confidence s)); ("bucket_ts", VStr (isoformat (bucket_ts s)));
                 ("valid_until", VStr (isoformat (valid_until s))); ("rationale", VStr (rationale s))];
     producer := "agents"; produced_at := now |}%string.

(** Events are sent until one is refused. *)
Fixpoint publish_all (events : list Event) : Res unit * list Event :=
  match events with
  | [] => (Ok tt, [])
  | e :: rest => if accepts e then let '(r, sent) := publish_all rest in (r, e :: sent) else (Err OtherError, [])
  end.

(** The signals are committed before the first event is sent. *)
Definition process_bar (agents : list Agent) (content : ContentDB) (clk : nat -> Z) (fields : dict string string)
    (db : DB) : Res Z * DB * list Event :=
  let symbol := str_upper (_field fields "symbol") in
  let timeframe := _field fields "timeframe" in
  match fromisoformat (VStr (_field fields "ts")) with
  | None => (Err ValueError, db, [])
  | Some bucket_ts =>
      let '(run, db) := new_uuid db in
      let run_id := uuid_hex run in
      let '(rows, instrument, db) := _load_series symbol timeframe db in
      let data := map bar_of rows in
      let '(news, events) := _load_content symbol bucket_ts content in
      let meta := {| m_prev_daily := _prev_daily (ins_id instrument) db; m_news := news; m_events := events |} in
      let context i := {| ctx_symbol := symbol; ctx_timeframe := timeframe; ctx_bucket_ts := bucket_ts;
                          ctx_now := clk i; ctx_run_id := run_id |} in
      match map_res (fun '(i, a) => ag_analyze a (context i) data meta) (zip (seq 0 (length agents)) agents) with
      | Err e => (Err e, db, [])
      | Ok signals =>
          let '(written, db) := save_signals signals db in
          let '(r, sent) := publish_all (imap (fun j s => signal_event run_id (clk (length agents + j)%nat) s) signals) in
          (_ <-- r ;; Ok written, db, sent)
      end
  end%string.

(** ** One batch *)

(** The entries to acknowledge, the newest bar per key, and how many were skipped. *)
Record Selection := {
  se_acks : list (string * string);
  se_selected : dict (string * string) (string * string * dict string string);
  se_skipped : Z
}.

(** [str(payload.get("ts"))]. *)
Definition ts_text (payload : dict string string) : string := dget_or "ts" "None" payload.

(** One entry of a stream.  A replaced bar is acknowledged on the stream of the bar that
    replaces it. *)
Definition select_entry (stream : string) (acc : Selection) (entry : string * dict string string) : Res Selection :=
  let '(entry_id, fields) := entry in
  let skip ack := {| se_acks := se_acks acc ++ [ack]; se_selected := se_selected acc; se_skipped := se_skipped acc + 1 |} in
  p <-- _unwrap fields ;;
  match p with
  | None => Ok (skip (stream, entry_id))
  | Some payload =>
      let key := (_field payload "symbol", _field payload "timeframe") in
      match dget key (se_selected acc) with
      | None => Ok {| se_acks := se_acks acc; se_selected := dset key (entry_id, stream, payload) (se_selected acc);
                      se_skipped := se_skipped acc |}
      | Some (previous_id, _, previous) =>
          if String.leb (ts_text previous) (ts_text payload)
          then let acc := skip (stream, previous_id) in
               Ok {| se_acks := se_acks acc; se_selected := dset key (entry_id, stream, payload) (se_selected acc);
                     se_skipped := se_skipped acc |}
          else Ok (skip (stream, entry_id))
      end
  end%string.

Definition select_stream (acc : Selection) (x : string * list (string * dict string string)) : Res Selection :=
  fold_res (select_entry x.1) x.2 acc.

Definition no_selection : Selection := {| se_acks := []; se_selected := []; se_skipped := 0 |}.

(** The batch so far, the database, the events sent and the entries to acknowledge. *)
Record Work := { wk_result : AgentBatchResult; wk_db : DB; wk_sent : list Event; wk_acks : list (string * string) }.

Definition work_bar (agents : list Agent) (content : ContentDB) (clk : nat -> nat -> Z) (w : Work)
    (x : nat * (string * string * dict string string)) : Work :=
  let '(n, (entry_id, stream, fields)) := x in
  let '(r, db, sent) := process_bar agents content (clk n) fields (wk_db w) in
  let b := wk_result w in
  {| wk_result := match r with
                  | Ok written => {| processed := processed b + 1; skipped_stale := skipped_stale b;
                                     signals_written := signals_written b + written; errors := errors b |}
                  | Err _ => {| processed := processed b; skipped_stale := skipped_stale b;
                                signals_written := signals_written b; errors := errors b + 1 |}
                  end;
     wk_db := db; wk_sent := wk_sent w ++ sent; wk_acks := wk_acks w ++ [(stream, entry_id)] |}.

(** [clk n]: the readings of the clock for the n-th selected bar. *)
Definition poll_once (agents : list Agent) (content : ContentDB) (clk : nat -> nat -> Z)
    (response : list (string * list (string * dict string string))) (db : DB) : Res Work :=
  sel <-- fold_res select_stream response no_selection ;;
  let w := {| wk_result := {| processed := 0; skipped_stale := se_skipped sel; signals_written := 0; errors := 0 |};
              wk_db := db; wk_sent := []; wk_acks := se_acks sel |} in
  let bars := (se_selected sel).*2 in
  Ok (foldl (work_bar agents content clk) w (zip (seq 0 (length bars)) bars)).

(** ** The shipped registry *)

Context (math_exp : float -> float) (math_log2 : float).

Definition text_stamp (s : string) : option Z := fromisoformat (VStr s).

Definition default_registry : list Agent :=
  [{| ag_id := "technical"; ag_analyze ctx data m := technical_analyze ctx data (m_prev_daily m) |};
   {| ag_id := "regime"; ag_analyze ctx data _ := regime_analyze ctx data |};
   {| ag_id := "fundamental"; ag_analyze ctx _ m := fundamental_analyze text_stamp ctx (m_events m) |};
   {| ag_id := "sentiment"; ag_analyze ctx _ m := sentiment_analyze text_stamp math_exp math_log2 ctx (m_news m) |}]%string.
End Worker.

(** ** Properties *)

Lemma insert_by_app {A} (leb : A -> A -> bool) x l1 l2 : (forall y, y ∈ l2 -> leb x y = true) ->
  insert_by leb x (l1 ++ l2) = insert_by leb x l1 ++ l2.
Proof.
  intros Hx. induction l1 as [|y l1 IH]; simpl; [|destruct (leb x y); [done|by rewrite IH]].
  destruct l2 as [|y l2]; [done|]. simpl. by rewrite (Hx y) by (by left).
Qed.

(** Rows that come after all others are sorted after them. *)
Lemma sort_by_app {A} (leb : A -> A -> bool) l1 l2 : (forall x y, x ∈ l1 -> y ∈ l2 -> leb x y = true) ->
  sort_by leb (l1 ++ l2) = sort_by leb l1 ++ sort_by leb l2.
Proof.
  unfold sort_by. induction l1 as [|x l1 IH]; intros Hx; [done|]. simpl.
  rewrite IH by (intros; apply Hx; [by right|done]). apply insert_by_app.
  intros y Hy. apply Hx; [by left|]. revert Hy. fold (sort_by leb l2). by rewrite elem_of_sort_by.
Qed.

Lemma filter_all {A} (f : A -> bool) l : (forall x, f x = true) -> List.filter f l = l.
Proof. intros Hf. induction l as [|x l IH]; simpl; [done|]. by rewrite Hf, IH. Qed.

Section Properties.
Context `{Platform} `{Pandas}.
Context (json_loads : string -> option pyval) (fromisoformat : pyval -> option Z) (py_int : pyval -> option Z)
  (uuid_hex : Z -> string) (accepts : Event -> bool) (math_exp : float -> float) (math_log2 : float).

Notation process_bar := (process_bar fromisoformat uuid_hex accepts).
Notation _unwrap := (_unwrap json_loads fromisoformat py_int).
Notation select_entry := (select_entry json_loads fromisoformat py_int).
Notation select_stream := (select_stream json_loads fromisoformat py_int).
Notation work_bar := (work_bar fromisoformat uuid_hex accepts).
Notation poll_once := (poll_once json_loads fromisoformat py_int uuid_hex accepts).
Notation default_registry := (default_registry fromisoformat math_exp math_log2).

Lemma technical_depends ctx ctx' data prev s s' :
  technical_analyze ctx data prev = Ok s -> technical_analyze ctx' data prev = Ok s' ->
  direction s' = direction s /\ confidence s' = confidence s /\ sig_features s' = sig_features s.
Proof.
  unfold technical_analyze. destruct (Nat.ltb _ _).
  - intros (-> & -> & _ & ->)%build_signal_from (-> & -> & _ & ->)%build_signal_from. done.
  - destruct (score_of _ _). intros (-> & -> & _ & ->)%build_signal_from (-> & -> & _ & ->)%build_signal_from. done.
Qed.

(** Once the lookback is full the agents see no new bar.  The worker loads the first
    150 bars of a series, so when a series has that many, whatever newer bars arrive, the
    frame stays the same and all its bars are older than they are; the technical agent
    repeats its direction, confidence and features for ever. *)
Theorem agents_stuck_on_oldest (db db' : DB) (symbol timeframe : string) (i : Instrument) (new : list CandleRow) :
  find_instrument (str_upper (py_strip symbol)) db = Some i ->
  instruments db' = instruments db -> candles db' = candles db ++ new ->
  let old := Candles.series (ins_id i) timeframe (candles db) in
  (150 <= length old)%nat ->
  (forall r o, r ∈ new -> in_series (ins_id i) timeframe r = true -> o ∈ old -> cd_ts o < cd_ts r) ->
  let rows := (_load_series symbol timeframe db).1.1 in
  (_load_series symbol timeframe db').1.1 = rows /\ length rows = 150%nat /\
  (forall r o, r ∈ new -> in_series (ins_id i) timeframe r = true -> o ∈ rows -> cd_ts o < cd_ts r) /\
  (forall ctx ctx' prev s s', technical_analyze ctx (map bar_of rows) prev = Ok s ->
     technical_analyze ctx' (map bar_of (_load_series symbol timeframe db').1.1) prev = Ok s' ->
     direction s' = direction s /\ confidence s' = confidence s /\ sig_features s' = sig_features s).
Proof.
  intros Hi Hins Hc old Hn Hnew rows.
  assert (Hrows : rows = take 150 (sort_by (asc_leb cd_ts) old)).
  { unfold rows, _load_series, get_or_create_instrument. rewrite Hi. cbn [fst snd].
    unfold load_candles. fold old. rewrite (filter_all (fun r => in_window None None (cd_ts r))) by done. done. }
  assert (Hi' : find_instrument (str_upper (py_strip symbol)) db' = Some i) by (unfold find_instrument in *; by rewrite Hins).
  assert (Hrows' : (_load_series symbol timeframe db').1.1 = rows).
  { rewrite Hrows. unfold _load_series, get_or_create_instrument. rewrite Hi'. cbn [fst snd].
    unfold load_candles. rewrite (filter_all (fun r => in_window None None (cd_ts r))) by done.
    unfold Candles.series. rewrite Hc, List.filter_app. fold (Candles.series (ins_id i) timeframe (candles db)). fold old.
    rewrite sort_by_app.
    - rewrite take_app_le; [done|]. by rewrite length_sort_by.
    - intros x y Hx Hy. apply list_elem_of_In, filter_In in Hy as [Hy Hs]. unfold asc_leb. apply Z.leb_le.
      apply list_elem_of_In in Hy. pose proof (Hnew y x Hy Hs Hx). lia. }
  split_and!; [done| | |].
  - rewrite Hrows, length_take, length_sort_by. lia.
  - intros r o Hr Hs Ho. apply (Hnew r o Hr Hs). rewrite Hrows in Ho.
    apply (elem_of_sort_by (asc_leb cd_ts)). rewrite <- (take_drop 150 (sort_by _ _)). apply elem_of_app. by left.
  - intros ctx ctx' prev s s'. rewrite Hrows'. apply technical_depends.
Qed.

(** ** What a batch acknowledges *)

Lemma dset_values {K V} `{EqDecision K} (k : K) (v v0 : V) (d : dict K V) : dget k d = Some v0 ->
  exists rest, d.*2 ≡ₚ v0 :: rest /\ (dset k v d).*2 ≡ₚ v :: rest.
Proof.
  induction d as [|[k' v'] d IH]; simpl; [done|]. destruct (decide (k = k')) as [->|].
  - intros [= ->]. by exists d.*2.
  - intros (rest & H1 & H2)%IH. exists (v' :: rest). simpl. rewrite H1, H2. split; apply Permutation_swap.
Qed.

Lemma dset_values_new {K V} `{EqDecision K} (k : K) (v : V) (d : dict K V) : dget k d = None -> (dset k v d).*2 = d.*2 ++ [v].
Proof.
  induction d as [|[k' v'] d IH]; [done|]. cbn [dget dset]. destruct (decide (k = k')); [done|].
  intros Hd. by rewrite fmap_cons, IH.
Qed.

Definition bar_id (v : string * string * dict string string) : string := v.1.1.

(** Every entry seen is acknowledged already or selected, once. *)
Record selection_ok (ids : list string) (a : Selection) : Prop := {
  so_perm : map snd (se_acks a) ++ map bar_id (se_selected a).*2 ≡ₚ ids;
  so_skipped : se_skipped a = Z.of_nat (length (se_acks a))
}.

Lemma select_entry_ok stream ids a e a' : selection_ok ids a -> select_entry stream a e = Ok a' ->
  selection_ok (ids ++ [e.1]) a'.
Proof.
  destruct e as [id fields]. intros [Hp Hs] H1. unfold AgentWork.select_entry in H1.
  apply res_bind_ok in H1 as (p & _ & H1). cbn [fst].
  assert (Hskip : forall x sel, map bar_id sel.*2 ++ [x] ≡ₚ map bar_id (se_selected a).*2 ++ [id] ->
    forall st, selection_ok (ids ++ [id]) {| se_acks := se_acks a ++ [(st, x)]; se_selected := sel; se_skipped := se_skipped a + 1 |}).
  { intros x sel Hx st. split; cbn; [|rewrite length_app, Hs; simpl; lia].
    rewrite map_app. cbn [map snd]. rewrite <- Hp, <- !app_assoc. apply Permutation_app_head.
    rewrite <- Hx. apply Permutation_app_comm. }
  destruct p as [payload|]; [|injection H1 as <-; by apply Hskip].
  destruct (dget _ (se_selected a)) as [[[pid pstream] previous]|] eqn:Ed.
  - destruct (String.leb _ _); injection H1 as <-; [|by apply Hskip]. apply Hskip. cbn [se_selected].
    destruct (dset_values _ (id, stream, payload) _ _ Ed) as (rest & H2 & H3). rewrite H2, H3. simpl.
    rewrite <- !Permutation_cons_append. apply Permutation_swap.
  - injection H1 as <-. split; cbn; [|done]. rewrite (dset_values_new _ _ _ Ed), map_app, app_assoc, Hp. done.
Qed.

Lemma select_stream_ok stream entries : forall ids a a', selection_ok ids a ->
  select_stream a (stream, entries) = Ok a' -> selection_ok (ids ++ map fst entries) a'.
Proof.
  unfold AgentWork.select_stream. cbn [fst snd]. induction entries as [|e entries IH]; intros ids a a' Ha Hf; cbn [fold_res] in Hf.
  - injection Hf as <-. by rewrite app_nil_r.
  - apply res_bind_ok in Hf as (a1 & H1 & Hf). cbn [map].
    rewrite cons_middle, app_assoc. eapply IH; [|exact Hf]. by eapply select_entry_ok.
Qed.

Lemma select_all_ok response : forall ids a a', selection_ok ids a ->
  fold_res select_stream response a = Ok a' -> selection_ok (ids ++ map fst (concat (map snd response))) a'.
Proof.
  induction response as [|[stream entries] response IH]; intros ids a a' Ha Hf; cbn [fold_res] in Hf.
  - injection Hf as <-. by rewrite app_nil_r.
  - apply res_bind_ok in Hf as (a1 & H1 & Hf). cbn [map snd concat]. rewrite map_app, app_assoc.
    eapply IH; [|exact Hf]. by eapply select_stream_ok.
Qed.

(** A selection fails only on a payload that is no object. *)
Lemma select_err response a e : fold_res select_stream response a = Err e ->
  exists x entry, x ∈ response /\ entry ∈ x.2 /\ is_ok (_unwrap entry.2) = false.
Proof.
  revert a. induction response as [|[stream entries] response IH]; intros a Hf; cbn [fold_res] in Hf; [done|].
  destruct (select_stream a (stream, entries)) as [a1|e1] eqn:E1; cbn [res_bind] in Hf.
  { destruct (IH _ Hf) as (x & entry & Hx & Hrest). exists x, entry. split; [by right|done]. }
  clear IH Hf. revert a E1. unfold AgentWork.select_stream. cbn [fst snd]. intros a E1.
  assert (Hin : exists entry, entry ∈ entries /\ is_ok (_unwrap entry.2) = false).
  { revert a E1. induction entries as [|[id fields] entries IH]; intros a E1; cbn [fold_res] in E1; [done|].
    destruct (select_entry stream a (id, fields)) as [a1'|] eqn:E2; cbn [res_bind] in E1.
    - destruct (IH _ E1) as (entry & Hi & Hu). exists entry. split; [by right|done].
    - exists (id, fields). split; [by left|]. unfold AgentWork.select_entry in E2. cbn [snd].
      destruct (_unwrap fields) as [[payload|]|]; cbn [res_bind] in E2; [|done|done].
      destruct (dget _ _) as [[[? ?] ?]|]; [|done]. by destruct (String.leb _ _). }
  destruct Hin as (entry & Hi & Hu). exists (stream, entries), entry. split; [by left|done].
Qed.

(** ** What a bar stores *)

(** A row an agent of the list is answerable for. *)
Definition written_by (agents : list Agent) (row : AgentSignalRow) : Prop :=
  exists a ctx data m s id, a ∈ agents /\ ag_analyze a ctx data m = Ok s /\ row = _to_row_values s id.

Lemma process_bar_rows agents content clk fields db :
  NoDup (map signal_key (agent_signals db)) ->
  let '(r, db', _) := process_bar agents content clk fields db in
  exists new, agent_signals db' = agent_signals db ++ new /\ NoDup (map signal_key (agent_signals db')) /\
    (forall row, row ∈ new -> written_by agents row) /\
    match r with Ok n => n = Z.of_nat (length new) | Err _ => True end.
Proof.
  intros Hn. unfold AgentWork.process_bar. destruct (fromisoformat _) as [ts|]; cycle 1.
  { exists []. rewrite app_nil_r. split_and!; try done. by intros ? ?%elem_of_nil. }
  destruct (new_uuid db) as [run db1] eqn:E1. unfold _load_series.
  destruct (get_or_create_instrument _ _) as [i dbc]. destruct (_load_content _ _ _) as [news events].
  injection E1 as <- <-. destruct (map_res _ _) as [signals|] eqn:Es; cycle 1.
  { exists []. cbn. rewrite app_nil_r. split_and!; try done. by intros ? ?%elem_of_nil. }
  unfold save_signals. match goal with |- context [foldl _ (0, ?d) signals] => set (db2 := d) end.
  pose proof (save_signals_fold signals 0 db2) as Hf. specialize (Hf Hn).
  destruct (foldl _ (0, db2) signals) as [n db']. destruct Hf as (new & Hdb & Hnd & -> & Hnew & _).
  destruct (publish_all _ _) as [r sent]. exists new. split_and!; [done|done| |by destruct r].
  intros row Hrow. destruct (Hnew row Hrow) as (s & id & Hs & ->).
  apply map_res_Forall2 in Es. apply list_elem_of_lookup in Hs as [j Hj].
  destruct (Forall2_lookup_r _ _ _ _ _ Es Hj) as ([k a] & Hk & Ha).
  exists a. do 3 eexists. exists s, id. split; [|split; [exact Ha|done]].
  apply list_elem_of_lookup. apply lookup_zip_with_Some in Hk as (x & y & [= <- <-] & _ & Hy). by exists j.
Qed.

Lemma work_bars_ok agents content clk bars : forall w, NoDup (map signal_key (agent_signals (wk_db w))) ->
  let w' := foldl (work_bar agents content clk) w bars in
  exists new, agent_signals (wk_db w') = agent_signals (wk_db w) ++ new /\
    NoDup (map signal_key (agent_signals (wk_db w'))) /\ (forall row, row ∈ new -> written_by agents row) /\
    map snd (wk_acks w') = map snd (wk_acks w) ++ map (fun x => bar_id x.2) bars /\
    processed (wk_result w') + errors (wk_result w') = processed (wk_result w) + errors (wk_result w) + Z.of_nat (length bars) /\
    skipped_stale (wk_result w') = skipped_stale (wk_result w) /\
    signals_written (wk_result w') - signals_written (wk_result w) <= Z.of_nat (length new).
Proof.
  induction bars as [|[n [[id stream] fields]] bars IH]; intros w Hn; cbv zeta; cbn [foldl].
  { exists []. rewrite !app_nil_r. split_and!; try done; [by intros ? ?%elem_of_nil|simpl; lia|simpl; lia]. }
  pose proof (process_bar_rows agents content (clk n) fields (wk_db w) Hn) as Hp.
  set (w1 := work_bar agents content clk w (n, (id, stream, fields))).
  destruct (process_bar agents content (clk n) fields (wk_db w)) as [[r db1] sent] eqn:Ep.
  destruct Hp as (new1 & Hdb & Hnd & Hnew & Hr).
  assert (Hw : wk_db w1 = db1 /\ wk_acks w1 = wk_acks w ++ [(stream, id)] /\
    processed (wk_result w1) + errors (wk_result w1) = processed (wk_result w) + errors (wk_result w) + 1 /\
    skipped_stale (wk_result w1) = skipped_stale (wk_result w) /\
    signals_written (wk_result w1) - signals_written (wk_result w) <= Z.of_nat (length new1)).
  { unfold w1, AgentWork.work_bar. rewrite Ep. destruct r; cbn; split_and!; try done; lia. }
  destruct Hw as (Wdb & Wacks & Wc & Ws & Ww). rewrite <- Wdb in Hnd.
  destruct (IH w1 Hnd) as (new2 & H1 & H2 & H3 & H4 & H5 & H6 & H7).
  exists (new1 ++ new2). split_and!.
  - by rewrite H1, Wdb, Hdb, app_assoc.
  - exact H2.
  - intros row [Hrow|Hrow]%elem_of_app; auto.
  - by rewrite H4, Wacks, map_app, <- app_assoc.
  - rewrite H5, Wc. cbn [length]. lia.
  - by rewrite H6.
  - rewrite length_app. lia.
Qed.

(** Every entry of a batch is acknowledged once.  A poll either fails - on an event
    whose payload is no object, and then nothing of the batch is acknowledged - or each
    entry read is acknowledged exactly once, whether its bar was superseded, analysed or
    failed; the counters add up to the entries; rows are only appended, each by an agent
    of the registry. *)
Theorem agent_poll_accounts (agents : list Agent) (content : ContentDB) (clk : nat -> nat -> Z)
    (response : list (string * list (string * dict string string))) (db : DB) :
  NoDup (map signal_key (agent_signals db)) ->
  let entries := concat (map snd response) in
  match poll_once agents content clk response db with
  | Err _ => exists x entry, x ∈ response /\ entry ∈ x.2 /\ is_ok (_unwrap entry.2) = false
  | Ok w =>
      map snd (wk_acks w) ≡ₚ map fst entries /\
      processed (wk_result w) + errors (wk_result w) + skipped_stale (wk_result w) = Z.of_nat (length entries) /\
      exists new, agent_signals (wk_db w) = agent_signals db ++ new /\
        signals_written (wk_result w) <= Z.of_nat (length new) /\ forall row, row ∈ new -> written_by agents row
  end.
Proof.
  intros Hn entries. unfold AgentWork.poll_once. destruct (fold_res select_stream response no_selection) as [sel|e] eqn:Es;
    cbn [res_bind]; [|by eapply select_err].
  assert (Hstart : selection_ok [] no_selection) by done.
  pose proof (select_all_ok response [] _ _ Hstart Es) as [Hp Hs]. cbn [app] in Hp. fold entries in Hp.
  set (w0 := {| wk_result := _; wk_db := db; wk_sent := []; wk_acks := _ |}).
  set (bars := zip _ _).
  assert (Hb2 : bars.*2 = (se_selected sel).*2) by (unfold bars; rewrite snd_zip; [done|rewrite length_seq; lia]).
  destruct (work_bars_ok agents content clk bars w0 Hn) as (new & H1 & _ & H3 & H4 & H5 & H6 & H7).
  assert (Hlen : length bars = length (se_selected sel)).
  { rewrite <- (length_fmap snd bars), Hb2. apply length_fmap. }
  split_and!.
  - rewrite H4. unfold w0. cbn [wk_acks]. rewrite <- Hp. f_equiv.
    rewrite <- Hb2. by rewrite <- (map_map snd bar_id).
  - rewrite H6, H5. unfold w0. cbn. apply Permutation_length in Hp.
    rewrite length_app, !length_map in Hp. rewrite Hs. lia.
  - exists new. split_and!; [exact H1|change (signals_written (wk_result w0)) with 0 in H7; lia|done].
Qed.

(** ** The shipped agents and the decisions made on their signals *)

Lemma shipped_no_atr14 row : written_by default_registry row ->
  sr_agent_id row = "technical"%string -> dget "atr14"%string (sr_features row) = None.
Proof.
  intros (a & ctx & data & m & s & id & Ha & Hs & ->) Hid. cbn [sr_agent_id _to_row_values sr_features] in *.
  unfold AgentWork.default_registry in Ha. rewrite !elem_of_cons, elem_of_nil in Ha.
  destruct Ha as [->|[->|[->|[->|[]]]]]; cbn [ag_analyze] in Hs.
  - by apply technical_no_atr14 in Hs as [_ Hs].
  - apply regime_never_directional in Hs as (Hr & _). congruence.
  - unfold fundamental_analyze in Hs. destruct (currencies_of _), (fundamental_decide _ _ _).
    apply build_signal_from in Hs as (_ & _ & Hr & _). congruence.
  - unfold sentiment_analyze in Hs. destruct (currencies_of _), (sentiment_decide _ _).
    apply build_signal_from in Hs as (_ & _ & Hr & _). congruence.
Qed.

(** What happens to the database: a poll of the shipped agents, or anything that does not
    touch their table. *)
Inductive world_step (db : DB) : DB -> Prop :=
| agents_polled content clk response w :
    poll_once default_registry content clk response db = Ok w -> world_step db (wk_db w)
| others db' : agent_signals db' = agent_signals db -> world_step db db'.

Definition shipped_rows (db : DB) : Prop :=
  NoDup (map signal_key (agent_signals db)) /\
  forall r, r ∈ agent_signals db -> sr_agent_id r = "technical"%string -> dget "atr14"%string (sr_features r) = None.

Lemma world_step_shipped db db' : world_step db db' -> shipped_rows db -> shipped_rows db'.
Proof.
  intros [content clk response w Hw|d Hd] [Hn Hr]; [|by unfold shipped_rows; rewrite Hd].
  unfold AgentWork.poll_once in Hw. apply res_bind_ok in Hw as (sel & _ & Hw). injection Hw as <-.
  match goal with |- shipped_rows (wk_db (foldl _ ?w0 ?bars)) =>
    destruct (work_bars_ok default_registry content clk bars w0 Hn) as (new & H1 & H2 & H3 & _) end.
  split; [exact H2|]. intros r Hin Ht. rewrite H1 in Hin. apply elem_of_app in Hin as [Hin|Hin]; [by apply Hr|].
  apply shipped_no_atr14; [by apply H3|done].
Qed.

(** C3: The shipped system never trades, not even on paper.  Whatever bars, news and
    events the shipped agents are run on, however often, and whatever else happens to the
    database in between, no decision is ever PAPER: the engine looks for the ATR where no
    shipped agent puts it, so no position can be sized. *)
Theorem shipped_agents_never_paper (db db' : DB) (now started : Z) (settings risk : RiskParams) (symbol tf : string)
    (configured : list string) (crafts : OrchParams) (gate : option GateState) (live : option RiskLive)
    (res : DecideResult) :
  rtc world_step empty_db db ->
  DecisionEngine_decide now started settings symbol tf configured crafts risk gate live db = Ok (res, db') ->
  res_status res <> Some PAPER.
Proof.
  intros Hw. assert (Hs : shipped_rows db).
  { assert (H0' : shipped_rows empty_db) by (split; [constructor|by intros r ?%elem_of_nil]).
    revert H0'. induction Hw as [|x y z Hxy _ IH]; [done|]. intros Hx. apply IH. by eapply world_step_shipped. }
  apply no_paper_without_atr14, Hs.
Qed.
End Properties.

(** ** Witnesses *)

(** A stream entry whose text is the time of a closed EURUSD hour. *)
Definition demo_bar_closed (raw : string) : option pyval :=
  match raw with
  | String "X"%char _ => Some (VDict [("event_type", VStr "bar.closed"); ("produced_at", VStr ""); ("producer", VStr "i");
                                      ("payload", VNone)])
  | _ => Some (VDict [("event_type", VStr "bar.closed"); ("produced_at", VStr ""); ("producer", VStr "ingest");
                      ("payload", VDict [("symbol", VStr "EURUSD"); ("timeframe", VStr "H1"); ("ts", VStr raw)])])
  end%string.
Definition demo_entry_of (id ts : string) : string * dict string string := (id, [("data", ts)])%string.
Definition demo_response : list (string * list (string * dict string string)) :=
  [("bars.closed.H1", [demo_entry_of "1-0" "a"; demo_entry_of "2-0" "b"])]%string.
Notation demo_poll_once response db :=
  (@poll_once demo_platform demo_bar_closed (fun _ => Some 0) (fun _ => Some 1) (fun _ => "r"%string) (fun _ => true)
     (@default_registry demo_platform demo_pandas (fun _ => Some 0) (fun x => x) f1)
     empty_content (fun _ _ => 0) response db).

Lemma demo_poll_acks : exists w, demo_poll_once demo_response empty_db = Ok w /\ errors (wk_result w) = 0 /\
  processed (wk_result w) = 1.
Proof. eexists. split; [vm_compute; reflexivity|]. split; vm_compute; reflexivity. Qed.

Lemma agent_poll_accounts_witness : exists w,
  demo_poll_once demo_response empty_db = Ok w /\ map snd (wk_acks w) ≡ₚ map fst (concat (map snd demo_response)).
Proof.
  pose proof (@agent_poll_accounts demo_platform demo_bar_closed (fun _ => Some 0) (fun _ => Some 1)
    (fun _ => "r"%string) (fun _ => true)
    (@default_registry demo_platform demo_pandas (fun _ => Some 0) (fun x => x) f1)
    empty_content (fun _ _ => 0) demo_response empty_db ltac:(constructor)) as H.
  destruct demo_poll_acks as (w & Hw & _). cbv zeta in H. rewrite Hw in H.
  exists w. split; [exact Hw|]. destruct H as [H _]. exact H.
Defined.

(** A hundred and fifty hourly bars, and one more. *)
Definition demo_hour (n : Z) : CandleRow :=
  {| cd_instrument := 7; cd_timeframe := "H1"; cd_ts := n; cd_open := Dec 1 0; cd_high := Dec 1 0; cd_low := Dec 1 0;
     cd_close := Dec 1 0; cd_volume := 1; cd_source := "synthetic"; cd_complete := true; cd_tf_minutes := 60 |}%string.
Definition demo_pair : Instrument :=
  {| ins_id := 7; ins_symbol := "EURUSD"; ins_base := "EUR"; ins_quote := "USD"; pip_size := Dec 1 (-4);
     price_decimals := 5; active := true |}%string.
Definition demo_full : DB := set_candles (map demo_hour (seqZ 0 150)) (set_instruments [demo_pair] empty_db).
Definition demo_next : DB := set_candles (map demo_hour (seqZ 0 150) ++ [demo_hour 150]) demo_full.

Lemma demo_full_times o : o ∈ map demo_hour (seqZ 0 150) -> cd_ts o < 150.
Proof. intros (n & -> & Hn%elem_of_seqZ)%list_elem_of_fmap. cbn. lia. Qed.
Lemma demo_full_series : Candles.series 7 "H1" (candles demo_full) = map demo_hour (seqZ 0 150).
Proof. vm_compute. reflexivity. Qed.

Lemma agents_stuck_on_oldest_witness :
  (@_load_series demo_platform "EURUSD" "H1" demo_next).1.1 = (@_load_series demo_platform "EURUSD" "H1" demo_full).1.1.
Proof.
  apply (@agents_stuck_on_oldest demo_platform demo_pandas demo_full demo_next "EURUSD" "H1" demo_pair [demo_hour 150]).
  - vm_compute. reflexivity.
  - reflexivity.
  - reflexivity.
  - change (ins_id demo_pair) with 7. rewrite demo_full_series. apply Nat.leb_le. vm_compute. reflexivity.
  - intros r o Hr _ Ho. apply list_elem_of_singleton in Hr. subst r. change (ins_id demo_pair) with 7 in Ho.
    rewrite demo_full_series in Ho. exact (demo_full_times o Ho).
Defined.

Definition demo_world : DB :=
  match demo_poll_once demo_response empty_db with Ok w => wk_db w | Err _ => empty_db end.

Lemma demo_world_reached :
  rtc (@world_step demo_platform demo_pandas demo_bar_closed (fun _ => Some 0) (fun _ => Some 1) (fun _ => "r"%string)
         (fun _ => true) (fun x => x) f1) empty_db demo_world.
Proof.
  unfold demo_world. destruct (demo_poll_once demo_response empty_db) as [w|] eqn:E; [|apply rtc_refl].
  eapply rtc_l; [|apply rtc_refl]. by eapply agents_polled.
Qed.

Lemma demo_world_decided : exists res db', @DecisionEngine_decide demo_platform 0 0 sample_params "EURUSD" "H1"
    ["H1"; "H4"]%string sample_orch sample_params (Some empty_gate_state) None demo_world = Ok (res, db').
Proof. eexists _, _. vm_compute. reflexivity. Qed.

Lemma shipped_agents_never_paper_witness :
  length (agent_signals demo_world) = 4%nat /\
  exists res db', @DecisionEngine_decide demo_platform 0 0 sample_params "EURUSD" "H1"
    ["H1"; "H4"]%string sample_orch sample_params (Some empty_gate_state) None demo_world = Ok (res, db') /\
    res_status res <> Some PAPER.
Proof.
  split; [vm_compute; reflexivity|].
  destruct demo_world_decided as (res & db' & E). exists res, db'. split; [exact E|].
  exact (@shipped_agents_never_paper demo_platform demo_pandas demo_bar_closed (fun _ => Some 0) (fun _ => Some 1)
    (fun _ => "r"%string) (fun _ => true) (fun x => x) f1 demo_world db' 0 0 sample_params sample_params "EURUSD" "H1"
    ["H1"; "H4"]%string sample_orch (Some empty_gate_state) None res demo_world_reached E).
Defined.
