(* ===== verification/Portfolio.v ===== *)
(** * Portfolio reader ([app/data/portfolio_reader.py])

    The read side of the paper ledger.  A query is a function of the database: none of
    them writes.  A limit is a natural number, as the API validates it. *)

From Stdlib Require Import ZArith Lia Sorted.
From stdpp Require Import base list strings sorting gmap.
From S2P Require Import Prelude PyFloat Timeframes Signals Risk Decision Tables Costs Positions Paper Ledger.

Record PortfolioPosition := {
  pp_id : Z;
  pp_order_id : Z;
  pp_decision_id : option Z;
  pp_symbol : string;
  pp_timeframe : string;
  pp_side : Direction;
  pp_units : float;
  pp_entry_price : float;
  pp_entry_ts : Z;
  pp_stop_loss : option float;
  pp_take_profit : option float;
  pp_status : string;
  pp_exit_price : option float;
  pp_exit_ts : option Z;
  pp_exit_reason : option string;
  pp_gross_pnl : option float;
  pp_net_pnl : option float
}.

Record PortfolioOrder := {
  po_id : Z;
  po_decision_id : option Z;
  po_symbol : string;
  po_timeframe : string;
  po_side : Direction;
  po_status : string;
  po_units : float;
  po_requested_price : option float;
  po_filled_price : option float;
  po_costs : float;
  po_stop_loss : option float;
  po_take_profit : option float;
  po_filled_at : option Z;
  po_created_at : Z
}.

Record PortfolioEquityPoint := {
  eq_ts : Z;
  eq_cash : float;
  eq_equity : float;
  eq_open_pnl : float;
  eq_realized_pnl : float;
  eq_peak_equity : float;
  eq_drawdown_pct : float;
  eq_margin_used : float
}.

Record PortfolioSummary := {
  as_of : option Z;
  ps_cash : float;
  ps_equity : float;
  ps_open_pnl : float;
  ps_realized_pnl : float;
  ps_peak_equity : float;
  ps_drawdown_pct : float;
  ps_margin_used : float;
  open_positions : Z;
  open_orders : Z
}.

(** The values of the status enumerations. *)
Definition position_status_value (s : PaperPositionStatus) : string :=
  match s with OPEN => "OPEN" | CLOSED => "CLOSED" end.
Definition order_status_value (s : PaperOrderStatus) : string :=
  match s with PENDING => "PENDING" | FILLED => "FILLED" | CANCELLED => "CANCELLED" | REJECTED => "REJECTED" end.

Definition _POSITION_STATUSES : list string := map position_status_value [OPEN; CLOSED].
Definition _ORDER_STATUSES : list string := map order_status_value [PENDING; FILLED; CANCELLED; REJECTED].

Definition _f (value : option Decimal) : option float := dec_to_float <$> value.

Definition _checked_status (status : option string) (allowed : list string) : Res (option string) :=
  match status with
  | None => Ok None
  | Some s => if bool_decide (s ∈ allowed) then Ok (Some s) else Err ValueError
  end.

Definition _position (row : PaperPositionRow) (decision_id : option Z) : PortfolioPosition :=
  {| pp_id := p_id row; pp_order_id := p_order_id row; pp_decision_id := decision_id; pp_symbol := p_symbol row;
     pp_timeframe := p_timeframe row; pp_side := p_side row; pp_units := dec_to_float (p_units row);
     pp_entry_price := dec_to_float (p_entry_price row); pp_entry_ts := p_entry_ts row;
     pp_stop_loss := _f (p_stop_loss row); pp_take_profit := _f (p_take_profit row);
     pp_status := position_status_value (p_status row); pp_exit_price := _f (p_exit_price row);
     pp_exit_ts := p_exit_ts row; pp_exit_reason := p_exit_reason row; pp_gross_pnl := _f (p_gross_pnl row);
     pp_net_pnl := _f (p_net_pnl row) |}.

Definition _order (row : PaperOrderRow) : PortfolioOrder :=
  {| po_id := o_id row; po_decision_id := o_decision_id row; po_symbol := o_symbol row; po_timeframe := o_timeframe row;
     po_side := o_side row; po_status := order_status_value (o_status row); po_units := dec_to_float (o_units row);
     po_requested_price := _f (o_requested_price row); po_filled_price := _f (o_filled_price row);
     po_costs := dec_to_float (o_costs row); po_stop_loss := _f (o_stop_loss row);
     po_take_profit := _f (o_take_profit row); po_filled_at := o_filled_at row; po_created_at := o_created_at row |}.

Definition _equity_point (row : AccountSnapshotRow) : PortfolioEquityPoint :=
  {| eq_ts := sn_ts row; eq_cash := dec_to_float (sn_cash row); eq_equity := dec_to_float (sn_equity row);
     eq_open_pnl := dec_to_float (sn_open_pnl row); eq_realized_pnl := dec_to_float (sn_realized_pnl row);
     eq_peak_equity := dec_to_float (sn_peak_equity row); eq_drawdown_pct := dec_to_float (sn_drawdown_pct row);
     eq_margin_used := dec_to_float (sn_margin_used row) |}.

Definition _empty_summary : PortfolioSummary :=
  {| as_of := None; ps_cash := f0; ps_equity := f0; ps_open_pnl := f0; ps_realized_pnl := f0; ps_peak_equity := f0;
     ps_drawdown_pct := f0; ps_margin_used := f0; open_positions := 0; open_orders := 0 |}.

(** [WHERE status = ...], when a status is asked for. *)
Definition has_status {Row} (value : Row -> string) (status : option string) (r : Row) : bool :=
  match status with None => true | Some s => String.eqb (value r) s end.

(** Each position with the decision of its order: the inner join on the order id. *)
Definition joined (db : DB) : list (PaperPositionRow * option Z) :=
  r ← positions db;
  map (fun o => (r, o_decision_id o)) (List.filter (fun o => o_id o =? p_order_id r) (orders_paper db)).

Definition list_positions (status : option string) (limit : nat) (db : DB) : Res (list PortfolioPosition) :=
  status <-- _checked_status status _POSITION_STATUSES ;;
  let rows := List.filter (fun x => has_status (fun r => position_status_value (p_status r)) status x.1) (joined db) in
  Ok (map (fun x => _position x.1 x.2) (take limit (sort_by (desc_leb (fun x => p_entry_ts x.1)) rows))).

Definition list_orders (status : option string) (limit : nat) (db : DB) : Res (list PortfolioOrder) :=
  status <-- _checked_status status _ORDER_STATUSES ;;
  let rows := List.filter (has_status (fun r => order_status_value (o_status r)) status) (orders_paper db) in
  Ok (map _order (take limit (sort_by (desc_leb o_created_at) rows))).

Definition load_equity_history (limit : nat) (db : DB) : list PortfolioEquityPoint :=
  map _equity_point (rev (take limit (sort_by (desc_leb sn_ts) (account_snapshots db)))).

Definition load_portfolio_summary (db : DB) : PortfolioSummary :=
  match latest_by sn_ts (account_snapshots db) with
  | None => _empty_summary
  | Some s =>
      let counted {Row} (f : Row -> bool) (l : list Row) := Z.of_nat (length (List.filter f l)) in
      {| as_of := Some (sn_ts s); ps_cash := dec_to_float (sn_cash s); ps_equity := dec_to_float (sn_equity s);
         ps_open_pnl := dec_to_float (sn_open_pnl s); ps_realized_pnl := dec_to_float (sn_realized_pnl s);
         ps_peak_equity := dec_to_float (sn_peak_equity s); ps_drawdown_pct := dec_to_float (sn_drawdown_pct s);
         ps_margin_used := dec_to_float (sn_margin_used s);
         open_positions := counted (fun p => bool_decide (p_status p = OPEN)) (positions db);
         open_orders := counted (fun o => bool_decide (o_status o = PENDING)) (orders_paper db) |}
  end.

(** ** Properties *)

Lemma filter_unique_key {A} (key : A -> Z) (l : list A) (x : A) :
  NoDup (map key l) -> x ∈ l -> List.filter (fun y => key y =? key x) l = [x].
Proof.
  induction l as [|y l IH]; [by intros _ ?%elem_of_nil|].
  cbn [map List.filter]. rewrite NoDup_cons, elem_of_cons. intros [Hy Hn] [->|Hx].
  - rewrite Z.eqb_refl. f_equal. clear IH Hn. induction l as [|z l IH]; [done|].
    cbn [map List.filter] in *. rewrite not_elem_of_cons in Hy. destruct Hy as [Hz Hy].
    destruct (Z.eqb_spec (key z) (key y)) as [E|_]; [by rewrite E in Hz|by apply IH].
  - destruct (Z.eqb_spec (key y) (key x)) as [E|_]; [|by apply IH].
    exfalso. apply Hy. rewrite E. by apply list_elem_of_fmap_2.
Qed.

Section Properties.
Context `{Platform}.

(** Every position has one order, so the join keeps every position once. *)
Lemma joined_rows db : ledger_inv db -> map fst (joined db) = positions db.
Proof.
  intros Hi. unfold joined. pose proof (inv_filled _ Hi) as Hf. revert Hf.
  generalize (positions db) as rows. induction rows as [|r rows IH]; intros Hf; [done|].
  cbn [mbind list_bind]. rewrite map_app, IH by (intros p Hp; apply Hf; by right). clear IH.
  destruct (Hf r) as (o & Ho & <- & _); [by left|].
  by rewrite (filter_unique_key o_id (orders_paper db) o (inv_order_ids _ Hi) Ho).
Qed.

(** The decision shown is that of the filled order of the position. *)
Lemma joined_decision db x : ledger_inv db -> x ∈ joined db ->
  exists o, o ∈ orders_paper db /\ o_id o = p_order_id x.1 /\ o_status o = FILLED /\ o_decision_id o = x.2.
Proof.
  intros Hi Hx. unfold joined in Hx. apply list_elem_of_bind in Hx as (r & Hx & Hr).
  destruct (inv_filled _ Hi r Hr) as (o & Ho & Eo & Hs & _). rewrite <- Eo in Hx.
  rewrite (filter_unique_key o_id (orders_paper db) o (inv_order_ids _ Hi) Ho) in Hx.
  apply list_elem_of_singleton in Hx. subst x. exists o. by rewrite Eo.
Qed.

Lemma list_positions_all status n db :
  ledger_inv db -> _checked_status status _POSITION_STATUSES = Ok status -> (length (positions db) <= n)%nat ->
  let rows := List.filter (fun x => has_status (fun r => position_status_value (p_status r)) status x.1) (joined db) in
  list_positions status n db = Ok (map (fun x => _position x.1 x.2) (sort_by (desc_leb (fun x => p_entry_ts x.1)) rows)).
Proof.
  intros Hi Hs Hn rows. unfold list_positions. rewrite Hs. cbn [res_bind]. fold rows.
  rewrite take_ge; [done|]. rewrite length_sort_by. etrans; [|exact Hn].
  rewrite <- (joined_rows db Hi), length_map. unfold rows. apply filter_length_le.
Qed.

(** The reader shows the ledger.  On a consistent ledger mirrored by a broker, a
    listing long enough shows every position once, newest first, each with the decision
    of its filled order, and the OPEN listing has exactly the positions of the broker's
    book; an unknown status is a ValueError. *)
Theorem portfolio_shows_ledger (lb : LedgerBroker) (db : DB) (n : nat) :
  ledger_inv db -> in_sync lb db -> (length (positions db) <= n)%nat ->
  (exists shown, list_positions None n db = Ok shown /\
     map pp_id shown ≡ₚ map p_id (positions db) /\
     StronglySorted (fun a b => pp_entry_ts b <= pp_entry_ts a) shown /\
     (forall pp, pp ∈ shown -> exists o, o ∈ orders_paper db /\ o_id o = pp_order_id pp /\
        o_status o = FILLED /\ o_decision_id o = pp_decision_id pp)) /\
  (exists opened, list_positions (Some "OPEN"%string) n db = Ok opened /\ map pp_symbol opened ≡ₚ open_symbols lb) /\
  (forall s, s <> "OPEN"%string -> s <> "CLOSED"%string -> list_positions (Some s) n db = Err ValueError).
Proof.
  intros Hi Hsync Hn. split_and!.
  - eexists. split; [by apply (list_positions_all None)|]. split_and!.
    + rewrite map_map. etrans; [apply Permutation_map, sort_by_perm|].
      assert (Hall : forall l : list (PaperPositionRow * option Z), List.filter (fun x => has_status (fun r => position_status_value (p_status r)) None x.1) l = l)
        by (induction l as [|y l IHl]; [done|simpl; by f_equal]).
      rewrite Hall, <- (joined_rows db Hi), map_map. done.
    + match goal with |- StronglySorted _ (map _ (sort_by ?leb ?l)) => pose proof (sort_by_sorted leb l) as Hs end.
      unfold sorted_by in Hs. induction Hs as [|x l _ IH Hx]; [constructor|]. cbn [map]. constructor; [exact IH|].
      apply Forall_map. eapply Forall_impl; [exact Hx|]. intros y Hy%Z.leb_le. exact Hy.
    + intros pp Hpp. apply list_elem_of_fmap in Hpp as (x & -> & Hx). apply elem_of_sort_by in Hx.
      apply list_elem_of_In, filter_In in Hx as [Hx _]. apply list_elem_of_In in Hx.
      by apply (joined_decision db x Hi).
  - eexists. split; [by apply (list_positions_all (Some "OPEN"%string))|].
    rewrite map_map. etrans; [apply Permutation_map, sort_by_perm|]. rewrite (sync_open _ _ Hsync).
    unfold list_open_positions. rewrite <- (joined_rows db Hi).
    generalize (joined db) as l. induction l as [|[r d] l IH]; [done|]. cbn [map List.filter fst].
    unfold is_open at 1. cbn [has_status]. destruct (p_status r); cbn; [by rewrite IH|exact IH].
  - intros s H1 H2. unfold list_positions, _checked_status. rewrite bool_decide_eq_false_2; [done|].
    cbn. rewrite !elem_of_cons, elem_of_nil. naive_solver.
Qed.

(** The summary is the account.  Right after a snapshot newer than all others the
    summary holds the broker's cash, equity, peak and drawdown as the columns kept them,
    and it counts the positions of the broker's book and its pending orders. *)
Theorem summary_after_snapshot (ts : Z) (lb : LedgerBroker) (db : DB) :
  ledger_inv db -> in_sync lb db -> (forall s, s ∈ account_snapshots db -> sn_ts s < ts) ->
  let '(lb', db') := equity_snapshot ts lb db in
  let b := lb_paper lb' in
  let s := load_portfolio_summary db' in
  as_of s = Some ts /\
  ps_cash s = dec_to_float (numeric 20 6 (_d (cash b))) /\
  ps_equity s = dec_to_float (numeric 20 6 (_d (equity b))) /\
  ps_peak_equity s = dec_to_float (numeric 20 6 (_d (peak_equity b))) /\
  ps_drawdown_pct s = dec_to_float (numeric 12 8 (_d (max_drawdown_pct b))) /\
  open_positions s = Z.of_nat (length (book b)) /\
  open_orders s = Z.of_nat (size (list_to_set (lb_pending lb') : gset Z)).
Proof.
  intros Hi Hsync Hnew. destruct (equity_snapshot ts lb db) as [lb' db'] eqn:E.
  unfold equity_snapshot in E. destruct (broker_state ts (lb_paper lb)) as [st paper] eqn:Est.
  injection E as <- <-. cbv zeta. unfold save_snapshot. set (sn := stored_snapshot _).
  pose proof (latest_snapshot_appended sn db Hnew) as Hl. unfold latest_snapshot in Hl.
  unfold load_portfolio_summary. rewrite Hl. cbn [as_of ps_cash ps_equity ps_peak_equity ps_drawdown_pct
    Portfolio.open_positions open_orders positions orders_paper set_account_snapshots lb_paper set_paper lb_pending].
  assert (Hst : bs_cash st = cash paper /\ bs_equity st = equity paper /\ book paper = book (lb_paper lb))
    by (unfold broker_state in Est; by injection Est as <- <-).
  destruct Hst as (Hc & He & Hb). unfold sn. cbn [stored_snapshot sn_ts sn_cash sn_equity sn_peak_equity sn_drawdown_pct].
  rewrite Hc, He. split_and!; try done.
  - f_equal. rewrite Hb, <- (length_map pos_symbol). change (map pos_symbol _) with (open_symbols lb).
    rewrite (sync_open _ _ Hsync), length_map. done.
  - f_equal. pose proof (inv_order_ids _ Hi) as Hn.
    rewrite <- (length_map o_id), <- (size_list_to_set (C := gset Z)).
    + f_equal. apply set_eq. intros id. rewrite !elem_of_list_to_set, (sync_pending _ _ Hsync), list_elem_of_fmap.
      setoid_rewrite list_elem_of_In. setoid_rewrite filter_In. setoid_rewrite bool_decide_eq_true. naive_solver.
    + clear -Hn. induction (orders_paper db) as [|o l IH]; [constructor|]. cbn [map List.filter] in *.
      apply NoDup_cons in Hn as [Ho Hn]. destruct (bool_decide _); [|by apply IH]. cbn [map]. constructor; [|by apply IH].
      intros (x & Ex & Hx%list_elem_of_In%filter_In)%list_elem_of_fmap. apply Ho. rewrite Ex.
      apply list_elem_of_fmap_2, list_elem_of_In, Hx.
Qed.
End Properties.

(** ** Witnesses *)

(** A long position is open, and an order waits for its fill. *)
Definition demo_book_ops : list ledger_op :=
  take 2 demo_ops ++ [Submit "GBPUSD" "H1" SHORT (lit 13 1) 3600000000 (of_Z 500) (Some 43) None None]%string.
Definition demo_held : LedgerBroker * DB :=
  match @ledger_run demo_platform demo_book_ops demo_lb empty_db with
  | Ok r => r | Err _ => (demo_lb, empty_db) end.

Lemma demo_held_ok : @ledger_inv demo_platform demo_held.2 /\ in_sync demo_held.1 demo_held.2.
Proof.
  pose proof (@ledger_run_spec demo_platform demo_platform_ok demo_book_ops demo_lb empty_db
                empty_ledger_inv empty_in_sync) as Hr.
  unfold demo_held. destruct (ledger_run _ _ _) as [[lb db]|e].
  - by destruct Hr as (Hi & Hs & _).
  - split; [apply empty_ledger_inv|apply empty_in_sync].
Qed.

Lemma demo_held_shape : length (positions demo_held.2) = 1%nat /\ open_symbols demo_held.1 = ["EURUSD"%string] /\
  length (lb_pending demo_held.1) = 1%nat /\ account_snapshots demo_held.2 = [].
Proof. vm_compute. auto. Qed.

(** The waiting order is not in the summary of an account without a snapshot. *)
Example pending_before_first_snapshot : open_orders (load_portfolio_summary demo_held.2) = 0.
Proof. reflexivity. Qed.

Lemma portfolio_shows_ledger_witness :
  exists opened, list_positions (Some "OPEN"%string) 1 demo_held.2 = Ok opened /\ map pp_symbol opened ≡ₚ ["EURUSD"%string].
Proof.
  destruct demo_held_ok as [Hi Hs]. destruct demo_held_shape as (Hn & Ho & _). rewrite <- Ho.
  apply (@portfolio_shows_ledger demo_platform demo_held.1 demo_held.2 1 Hi Hs). rewrite Hn. exact (le_n 1).
Defined.

Lemma summary_after_snapshot_witness :
  open_positions (load_portfolio_summary (@equity_snapshot demo_platform 3600000000 demo_held.1 demo_held.2).2) = 1.
Proof.
  destruct demo_held_ok as [Hi Hs].
  assert (Hnew : forall s, s ∈ account_snapshots demo_held.2 -> sn_ts s < 3600000000).
  { rewrite (proj2 (proj2 (proj2 demo_held_shape))). intros s Hin%elem_of_nil. destruct Hin. }
  pose proof (@summary_after_snapshot demo_platform 3600000000 demo_held.1 demo_held.2 Hi Hs Hnew) as H.
  destruct (@equity_snapshot demo_platform 3600000000 demo_held.1 demo_held.2) as [lb' db'] eqn:E. cbn [snd].
  rewrite (proj1 (proj2 (proj2 (proj2 (proj2 (proj2 H)))))).
  assert (Hb : length (book (lb_paper (lb', db').1)) = 1%nat) by (rewrite <- E; vm_compute; reflexivity).
  cbn [fst] in Hb. rewrite Hb. reflexivity.
Defined.
