(* ===== verification/Synthetic.v ===== *)
(** * Deterministic market data ([app/data/providers/synthetic.py],
    [Candle.validate] of [app/data/providers/base.py],
    [synthetic_candle_provider] of [app/backtest/service.py])

    The transcendental functions of the C library are the class [Libm]. *)

From Stdlib Require Import ZArith Lia Sorted.
From stdpp Require Import base list strings pretty sorting.
From S2P Require Import Prelude PyFloat Timeframes PyFormat Signals Fusion Risk Decision Tables Candles.

(** [math.cos], [math.log], [math.exp]. *)
Class Libm := { math_cos : float -> float; math_log : float -> float; math_exp : float -> float }.

Definition math_pi : float := lit 3141592653589793 15.
Definition math_sqrt : float -> float := SFsqrt prec emax.

Definition PAIR_SPECS : dict string (float * float) :=
  [("EURUSD", (lit 10850 4, lit 1 4)); ("GBPUSD", (lit 12700 4, lit 1 4)); ("USDJPY", (lit 155250 3, lit 1 2));
   ("AUDUSD", (lit 6550 4, lit 1 4)); ("USDCAD", (lit 13700 4, lit 1 4)); ("USDCHF", (lit 8800 4, lit 1 4));
   ("NZDUSD", (lit 5900 4, lit 1 4))]%string.

(** [PAIR_SPECS.get(pair, PAIR_SPECS["EURUSD"])]. *)
Definition pair_spec (pair : string) : float * float := dget_or pair (lit 10850 4, lit 1 4) PAIR_SPECS.

(** The decimals of a pip size. *)
Definition _PIP_DECIMALS : list (float * nat) := [(lit 1 4, 5%nat); (lit 1 2, 3%nat)].
Definition pip_decimals (pip : float) : Res nat :=
  match List.find (fun x => x.1 =ᶠ pip) _PIP_DECIMALS with Some (_, k) => Ok k | None => Err KeyError end.

Definition _OCTAVES : list (Z * float) := [(288, f1); (48, lit 55 2); (8, lit 30 2); (2, lit 15 2)].

(** The swing of each timeframe. *)
Definition tf_scales : dict string float :=
  [("M5", lit 35 2); ("M15", lit 5 1); ("H1", lit 75 2); ("H4", f1); ("D1", lit 135 2)]%string.

(** [Candle.validate]; a special value compares with nothing. *)
Definition dec_leb (a b : Decimal) : Res bool :=
  match a, b with
  | Dec c1 e1, Dec c2 e2 => let e := Z.min e1 e2 in Ok (c1 * 10 ^ (e1 - e) <=? c2 * 10 ^ (e2 - e))
  | _, _ => Err OtherError
  end.
Definition validate (c : Candle) : Res unit :=
  a <-- dec_leb (c_low c) (c_open c) ;; b <-- dec_leb (c_open c) (c_high c) ;;
  d <-- dec_leb (c_low c) (c_close c) ;; e <-- dec_leb (c_close c) (c_high c) ;;
  if a && b && d && e then Ok tt else Err ValueError.

(** [d.quantize(Decimal(1).scaleb(-k))]: half even, at most 28 digits. *)
Definition quantize (k : nat) (d : Decimal) : Res Decimal :=
  match d with
  | DSpecial _ => Err OtherError
  | Dec c e =>
      let shift := e + Z.of_nat k in
      let c' := if 0 <=? shift then c * 10 ^ shift else rne_div c (Z.to_pos (10 ^ (- shift))) in
      if 28 <? ndigits 2000 (Z.abs c') then Err OtherError else Ok (Dec c' (- Z.of_nat k))
  end.

Section Generator.
Context `{Platform} `{Libm}.

(** [float(raw) / float(1 << 64)] of the key's digest. *)
Definition _hash_uniform (key : string) : float := fdiv_ieee (of_Z (blake2b_64 key)) (of_Z (2 ^ 64)).

Definition _smooth (t : float) : float := fdiv_ieee (f1 -ᶠ math_cos (math_pi *ᶠ t)) f2.

Definition noise_key (pair : string) (octave_period i : Z) : string :=
  ("forex-ai|" ++ pair ++ "|" ++ pretty octave_period ++ "|" ++ pretty i)%string.

Definition _noise (pair : string) (octave_period : Z) (x : float) : Res float :=
  i <-- math_floor x ;;
  let frac := x -ᶠ of_Z i in
  let a := _hash_uniform (noise_key pair octave_period i) in
  let b := _hash_uniform (noise_key pair octave_period (i + 1)) in
  Ok (((a +ᶠ ((b -ᶠ a) *ᶠ _smooth frac)) *ᶠ f2) -ᶠ f1).

(** 2024-01-01T00:00 in a zone. *)
Definition epoch_2024 (offset : Z) : Z := days_td 19723 - offset.

(** One octave of the log price. *)
Definition octave_step (pair : string) (amplitude_base minutes_since : float) (log_price : float) (octave : Z * float)
  : Res float :=
  let '(period, amp_share) := octave in
  let octave_amp := fdiv_ieee (amplitude_base *ᶠ amp_share) (fmax f1 (math_sqrt (fdiv_ieee (of_Z period) (of_Z 8)))) in
  n <-- _noise pair period (fdiv_ieee minutes_since (of_Z period)) ;;
  Ok (log_price +ᶠ (octave_amp *ᶠ n)).

Definition _price_at (pair timeframe : string) (ts offset : Z) : Res float :=
  let minutes_since := fdiv_ieee (total_seconds (ts - epoch_2024 offset)) (of_Z 60) in
  tf_scale <-- dindex timeframe tf_scales ;;
  let amplitude_base := lit 28 4 *ᶠ tf_scale in
  log_price <-- fold_res (octave_step pair amplitude_base minutes_since) _OCTAVES (math_log (pair_spec pair).1) ;;
  Ok (math_exp log_price).

Definition _quantize (pair : string) (value : float) : Res Decimal :=
  decimals <-- pip_decimals (pair_spec pair).2 ;;
  quantize decimals (dec_of_float (fround value decimals)).

(** The moments of a bar that are sampled, as shares of it. *)
Definition fractions : list float := [f0; fdiv_ieee f1 (of_Z 3); fdiv_ieee f2 (of_Z 3); f1].

Definition volume_key (symbol timeframe : string) (at_ : Z) : string :=
  ("forex-ai|vol|" ++ symbol ++ "|" ++ timeframe ++ "|" ++ pretty at_)%string.

(** [bucket_start] is a moment of a zone with an offset. *)
Definition generate_candle (symbol timeframe : string) (bucket offset : Z) : Res Candle :=
  s <-- seconds timeframe ;;
  let step := seconds_td s in
  samples <-- map_res (fun f => td <-- td_of_float us_per_second (total_seconds step *ᶠ f) ;;
                                _price_at symbol timeframe (bucket + td) offset) fractions ;;
  let open_p := default f0 (head samples) in
  let close_p := default f0 (last samples) in
  let body_high := foldl fmax open_p (tail samples) in
  let body_low := foldl fmin open_p (tail samples) in
  mid <-- _price_at symbol timeframe (bucket + rne_div step 2) offset ;;
  let wick := (fabs (open_p -ᶠ close_p) +ᶠ (body_high -ᶠ body_low)) +ᶠ (mid *ᶠ lit 8 5) in
  let high := body_high +ᶠ (wick *ᶠ lit 25 2) in
  let low := body_low -ᶠ (wick *ᶠ lit 25 2) in
  at_ <-- int_of_float (total_seconds bucket) ;;
  volume <-- int_of_float (of_Z 800 +ᶠ (_hash_uniform (volume_key symbol timeframe at_) *ᶠ of_Z 4200)) ;;
  aligned <-- align_to_bucket {| instant := bucket; tzinfo := Some offset |} timeframe ;;
  o <-- _quantize symbol open_p ;; h <-- _quantize symbol high ;;
  l <-- _quantize symbol low ;; c <-- _quantize symbol close_p ;;
  let candle := {| c_symbol := symbol; c_timeframe := timeframe; bucket_start := aligned; c_open := o; c_high := h;
                   c_low := l; c_close := c; c_volume := volume; complete := true |} in
  _ <-- validate candle ;; Ok candle.

(** [min(a, b)] of two times. *)
Definition earliest (a b : Z) : Z := if b <? a then b else a.

(** [start] and [end] share their zone. *)
Definition synthetic_candles (symbol timeframe : string) (start end_ offset : Z) : Res (list Candle) :=
  let at_ t := {| instant := t; tzinfo := Some offset |} in
  previous <-- previous_closed_bucket (at_ end_) timeframe ;;
  s <-- seconds timeframe ;;
  let closed_end := earliest end_ (instant previous + seconds_td s) in
  buckets <-- iterate_buckets (at_ start) (at_ closed_end) timeframe ;;
  map_res (fun b => generate_candle symbol timeframe b offset)
    (List.filter (fun b => b + seconds_td s <=? end_) buckets).

(** The bars of a backtest: every bucket that starts before the end, closed or not. *)
Definition synthetic_candle_provider (symbol timeframe : string) (start : datetime) (end_ : Z) : Res (list Candle) :=
  aligned_start <-- align_to_bucket start timeframe ;;
  buckets <-- iterate_buckets aligned_start {| instant := end_; tzinfo := tzinfo start |} timeframe ;;
  map_res (fun b => generate_candle symbol timeframe b (default 0 (tzinfo start))) buckets.
End Generator.

(** ** Properties *)

(** The buckets of adjoining ranges. *)
Lemma bucket_loop_split c step mid stop :
  0 < step -> c <= mid <= stop -> (mid - c) mod step = 0 ->
  bucket_loop (loop_fuel c step stop) c step stop =
  bucket_loop (loop_fuel c step mid) c step mid ++ bucket_loop (loop_fuel mid step stop) mid step stop.
Proof.
  intros Hs Hm Ha.
  pose proof (bucket_loop_spec (loop_fuel c step stop) c step stop Hs (le_n _)) as Sa.
  pose proof (bucket_loop_spec (loop_fuel c step mid) c step mid Hs (le_n _)) as Sb.
  pose proof (bucket_loop_spec (loop_fuel mid step stop) mid step stop Hs (le_n _)) as Sc.
  pose proof (bucket_loop_ascending (loop_fuel c step stop) c step stop Hs) as La.
  pose proof (bucket_loop_ascending (loop_fuel c step mid) c step mid Hs) as Lb.
  pose proof (bucket_loop_ascending (loop_fuel mid step stop) mid step stop Hs) as Lc.
  set (A := bucket_loop _ c step stop) in *. set (B := bucket_loop _ c step mid) in *.
  set (C := bucket_loop _ mid step stop) in *.
  assert (Hbc : StronglySorted Z.lt (B ++ C)).
  { apply StronglySorted_app_2; [|done|done]. intros x y Hx Hy. apply Sb in Hx as [? _]. apply Sc in Hy as [? _]. lia. }
  assert (Hnd : forall l, StronglySorted Z.lt l -> NoDup l).
  { clear. induction 1 as [|x l _ IH Hx]; constructor; [|done]. intros Hin. rewrite Forall_forall in Hx.
    apply Hx in Hin. lia. }
  apply (StronglySorted_unique_strong Z.lt); [intros; lia|done|done|].
  apply NoDup_Permutation; [by apply Hnd|by apply Hnd|]. intros x. rewrite elem_of_app, Sa, Sb, Sc.
  assert (Hmod : (x - c) mod step = (x - mid) mod step).
  { replace (x - c) with ((x - mid) + (mid - c)) by lia. rewrite Zplus_mod, Ha, Z.add_0_r, Z.mod_mod by lia. done. }
  rewrite Hmod. split; [|intuition lia]. intros [Hx Hd]. destruct (Z.lt_ge_cases x mid); [left|right]; (split; [lia|done]).
Qed.

Section Properties.
Context `{Platform} `{Libm}.

(** The closed end of a range is the start of the bucket its end lies in. *)
Lemma closed_end_floor (t offset : Z) (timeframe : string) (s : Z) : seconds timeframe = Ok s ->
  exists p, previous_closed_bucket {| instant := t; tzinfo := Some offset |} timeframe = Ok p /\
    earliest t (instant p + seconds_td s) = t - (t + offset) mod seconds_td s.
Proof.
  intros Hs. unfold previous_closed_bucket, align_to_bucket. cbn [tzinfo instant]. rewrite Hs. cbn [res_bind add_td instant].
  eexists. split; [done|]. cbn [instant add_td]. pose proof (seconds_td_pos _ (seconds_pos _ _ Hs)) as Hp.
  replace (t - - offset) with (t + offset) by lia.
  pose proof (Z.mod_pos_bound (t + offset) (seconds_td s) Hp). unfold earliest.
  destruct (Z.ltb_spec (t - (t + offset) mod seconds_td s + - seconds_td s + seconds_td s) t); lia.
Qed.

Lemma aligned_mod (t offset step : Z) : 0 < step -> (t - (t + offset) mod step + offset) mod step = 0.
Proof.
  intros Hp. replace (t - (t + offset) mod step + offset) with ((t + offset) - (t + offset) mod step) by lia.
  by rewrite Zminus_mod, Z.mod_mod, Z.sub_diag, Zmod_0_l by lia.
Qed.

(** The buckets between the first of a range and the floor of its end. *)
Lemma range_bucket (start end_ offset step b : Z) : 0 < step ->
  let first := start - (start + offset) mod step in
  let stop := end_ - (end_ + offset) mod step in
  b ∈ bucket_loop (loop_fuel first step stop) first step stop ->
  start - step < b /\ b + step <= end_ /\ (b + offset) mod step = 0.
Proof.
  intros Hp first stop [Hb Hd]%bucket_loop_spec; [|done|done].
  pose proof (Z.mod_pos_bound (start + offset) step Hp). pose proof (Z.mod_pos_bound (end_ + offset) step Hp).
  pose proof (aligned_mod start offset step Hp) as Hf. pose proof (aligned_mod end_ offset step Hp) as Hst.
  fold first in Hf. fold stop in Hst.
  assert (Hbo : (b + offset) mod step = 0).
  { replace (b + offset) with ((b - first) + (first + offset)) by lia. rewrite Zplus_mod, Hd, Hf. by rewrite Zmod_0_l. }
  split_and!; [unfold first in *; lia| |done].
  apply Z.mod_divide in Hbo as [k Hk]; [|lia]. apply Z.mod_divide in Hst as [j Hj]; [|lia].
  assert (k < j) by nia. assert (b + step <= stop) by nia. unfold stop in *. lia.
Qed.

(** The buckets a range asks for, all of them closed by its end. *)
Lemma synthetic_buckets (symbol timeframe : string) (start end_ offset s : Z) : seconds timeframe = Ok s ->
  start <= end_ - (end_ + offset) mod seconds_td s ->
  let step := seconds_td s in
  let first := start - (start + offset) mod step in
  let stop := end_ - (end_ + offset) mod step in
  synthetic_candles symbol timeframe start end_ offset =
    map_res (fun b => generate_candle symbol timeframe b offset) (bucket_loop (loop_fuel first step stop) first step stop).
Proof.
  intros Hs Hle step first stop. unfold synthetic_candles.
  destruct (closed_end_floor end_ offset timeframe s Hs) as (p & -> & He). cbn [res_bind]. rewrite Hs. cbn [res_bind].
  rewrite He. fold step stop. unfold iterate_buckets. cbn [instant]. destruct (Z.ltb_spec stop start); [unfold stop, step in *; lia|].
  rewrite Hs. cbn [res_bind]. unfold align_to_bucket. cbn [tzinfo]. rewrite Hs. cbn [res_bind instant].
  replace (start - - offset) with (start + offset) by lia. fold step first. f_equal.
  pose proof (seconds_td_pos _ (seconds_pos _ _ Hs)) as Hp. fold step in Hp.
  pose proof (fun b => range_bucket start end_ offset step b Hp) as Hall. cbv zeta in Hall. fold first stop in Hall.
  induction (bucket_loop (loop_fuel first step stop) first step stop) as [|b l IH]; [done|]. cbn [List.filter].
  destruct (Hall b) as (_ & Hb & _); [by left|]. apply Z.leb_le in Hb. rewrite Hb.
  f_equal. apply IH. intros x Hx. apply Hall. by right.
Qed.

Lemma generate_candle_start symbol timeframe b offset s c : seconds timeframe = Ok s ->
  (b + offset) mod seconds_td s = 0 -> generate_candle symbol timeframe b offset = Ok c ->
  instant (bucket_start c) = b /\ complete c = true.
Proof.
  intros Hs Hb H1. unfold generate_candle in H1. inv_res. cbn [bucket_start complete].
  match goal with Ha : align_to_bucket _ _ = Ok _ |- _ => apply align_inv in Ha as (off & s' & [= <-] & Hs' & _ & Ha) end.
  rewrite Hs in Hs'. injection Hs' as <-. cbn [instant] in *. split; [|done]. lia.
Qed.

(** History can be fetched in pieces.  The bars of a range are the bars up to any
    bucket boundary within it followed by the bars from there on, whatever the ends: a
    backfill in pieces, in any order, yields exactly the bars of one fetch, and every bar
    is complete and closed by the end of the range. *)
Theorem synthetic_windows_compose (symbol timeframe : string) (start mid end_ offset s : Z) :
  seconds timeframe = Ok s -> (mid + offset) mod seconds_td s = 0 -> start <= mid <= end_ ->
  synthetic_candles symbol timeframe start end_ offset =
    (xs <-- synthetic_candles symbol timeframe start mid offset ;;
     ys <-- synthetic_candles symbol timeframe mid end_ offset ;; Ok (xs ++ ys)) /\
  (forall cs c, synthetic_candles symbol timeframe start end_ offset = Ok cs -> c ∈ cs ->
     complete c = true /\ instant (bucket_start c) + seconds_td s <= end_ /\
     start - seconds_td s < instant (bucket_start c)).
Proof.
  intros Hs Ha Hm. pose proof (seconds_td_pos _ (seconds_pos _ _ Hs)) as Hp.
  pose proof (Z.mod_pos_bound (end_ + offset) (seconds_td s) Hp) as Hb.
  assert (Hmid : mid <= end_ - (end_ + offset) mod seconds_td s).
  { pose proof (aligned_mod end_ offset _ Hp) as He. apply Z.mod_divide in Ha as [k Hk]; [|lia].
    apply Z.mod_divide in He as [j Hj]; [|lia].
    assert (k < j + 1) by nia. assert (k * seconds_td s <= j * seconds_td s) by nia. lia. }
  rewrite (synthetic_buckets symbol timeframe start end_ offset s Hs) by lia. cbv zeta. split.
  - rewrite (synthetic_buckets symbol timeframe mid end_ offset s Hs) by lia.
    rewrite (synthetic_buckets symbol timeframe start mid offset s Hs) by lia. cbv zeta.
    rewrite Ha, Z.sub_0_r, <- map_res_app. f_equal. apply bucket_loop_split; [done| |].
    + pose proof (Z.mod_pos_bound (start + offset) (seconds_td s) Hp). lia.
    + pose proof (aligned_mod start offset _ Hp) as Hf.
      match goal with |- ?x mod _ = 0 => replace x with ((mid + offset) - (start - (start + offset) mod seconds_td s + offset)) by lia end.
      by rewrite Zminus_mod, Ha, Hf.
  - intros cs c Hcs Hc. apply map_res_Forall2 in Hcs. apply list_elem_of_lookup in Hc as [j Hj].
    destruct (Forall2_lookup_r _ _ _ _ _ Hcs Hj) as (b & Hbj & Hg).
    apply list_elem_of_lookup_2, range_bucket in Hbj as (Hb1 & Hb2 & Hb3); [|done].
    by apply (generate_candle_start _ _ _ _ s) in Hg as [-> ->].
Qed.
End Properties.

(** ** Witness *)

(** The demonstration platform with a constant hash: every bar is flat. *)
Definition demo_flat : Platform :=
  {| uuid4 := @uuid4 demo_platform; blake2b_64 _ := 0; numeric := @numeric demo_platform; fnumeric := @fnumeric demo_platform;
     sha256_json := @sha256_json demo_platform; parse_float := @parse_float demo_platform; py_repr := @py_repr demo_platform |}.

Definition demo_libm : Libm := {| math_cos _ := f1; math_log x := x; math_exp x := x |}.
Definition demo_hours (start end_ : Z) : Res (list Candle) :=
  @synthetic_candles demo_flat demo_libm "EURUSD" "H1" (start * 3600 * us_per_second) (end_ * 3600 * us_per_second) 0.

Definition count_of (r : Res (list Candle)) : nat := match r with Ok cs => length cs | Err _ => O end.
Lemma demo_hours_count : count_of (demo_hours 473352 473354) = 2%nat.
Proof. vm_compute. reflexivity. Qed.

Lemma synthetic_windows_compose_witness :
  demo_hours 473352 473354 = (xs <-- demo_hours 473352 473353 ;; ys <-- demo_hours 473353 473354 ;; Ok (xs ++ ys)) /\
  is_ok (demo_hours 473352 473354) = true.
Proof.
  split.
  - apply (@synthetic_windows_compose demo_flat demo_libm "EURUSD" "H1" (473352 * 3600 * us_per_second)
      (473353 * 3600 * us_per_second) (473354 * 3600 * us_per_second) 0 3600); vm_compute; [reflexivity|reflexivity|split; discriminate].
  - pose proof demo_hours_count as H. destruct (demo_hours 473352 473354); [reflexivity|discriminate].
Defined.
