(* ===== verification/BacktestRun.v ===== *)
(** * Backtest runs ([app/backtest/service.py], [app/backtest/repository.py],
    [app/models/backtest.py])

    A run reads the signals of the main database and writes the three tables of its own.
    A transaction that fails leaves nothing behind. *)

From Stdlib Require Import ZArith Ascii Lia Sorted.
From stdpp Require Import base list strings sorting.
From S2P Require Import Prelude PyFloat Timeframes PyFormat Signals Fusion Risk Decision Tables Candles SignalStore Decide Costs Positions Paper Ledger LedgerGate Backtest Report Indicators Technical News Content AgentWork Synthetic.

(** ** Rows *)

Inductive BacktestStatus := RUNNING | COMPLETED | FAILED.

(** The metrics of a row are those of its report; [{}] until there is one. *)
Record BacktestRunRow := {
  br_id : Z;
  br_config : dict string pyval;
  br_data_range : dict string string;
  br_seed : Z;
  br_code_versions : dict string string;
  br_status : BacktestStatus;
  br_error : option string;
  br_metrics : option RunMetrics;
  br_started_at : Z;
  br_finished_at : option Z
}.

Record BacktestTradeRow := {
  bt_id : Z;
  bt_run_id : Z;
  bt_symbol : string;
  bt_timeframe : string;
  bt_side : Direction;
  bt_units : Decimal;
  bt_entry_ts : Z;
  bt_entry_price : Decimal;
  bt_exit_ts : Z;
  bt_exit_price : Decimal;
  bt_gross_pnl : Decimal;
  bt_costs : Decimal;
  bt_net_pnl : Decimal;
  bt_exit_reason : string
}.

Record BacktestEquityRow := {
  be_id : Z;
  be_run_id : Z;
  be_ts : Z;
  be_equity : Decimal;
  be_drawdown_pct : Decimal
}.

Record BacktestDB := {
  runs : list BacktestRunRow;
  run_trades : list BacktestTradeRow;
  run_equity : list BacktestEquityRow;
  run_uuids : nat
}.

(** [cfg.to_jsonable()]. *)
Definition to_jsonable (cfg : BacktestConfig) : dict string pyval :=
  [("start", VStr (isoformat_at (cfg_start cfg))); ("end", VStr (isoformat (cfg_end cfg)));
   ("symbols", VList (map VStr (cfg_symbols cfg))); ("timeframes", VList (map VStr (cfg_timeframes cfg)));
   ("seed", VInt (cfg_seed cfg)); ("start_equity", VFloat (cfg_start_equity cfg));
   ("warmup_bars", VInt (warmup_bars cfg)); ("spread", VFloat (cfg_spread cfg));
   ("slippage_pct", VFloat (cfg_slippage_pct cfg)); ("require_full_coverage", VBool (require_full_coverage cfg))]%string.

Definition _code_versions : dict string string :=
  [("technical", "1"); ("regime", "1"); ("fundamental", "1"); ("sentiment", "1"); ("engine", "Phase5");
   ("backtest", "Phase6")]%string.

(** ** [repository] *)

Section Repository.
Context `{Platform}.

Definition create_run (cfg : BacktestConfig) (code_versions : dict string string) (now : Z) (db : BacktestDB)
  : Z * BacktestDB :=
  let id := uuid4 (run_uuids db) in
  let row := {| br_id := id; br_config := to_jsonable cfg;
                br_data_range := [("start", isoformat_at (cfg_start cfg)); ("end", isoformat (cfg_end cfg))]%string;
                br_seed := cfg_seed cfg; br_code_versions := code_versions; br_status := RUNNING; br_error := None;
                br_metrics := None; br_started_at := now; br_finished_at := None |} in
  (id, {| runs := runs db ++ [row]; run_trades := run_trades db; run_equity := run_equity db;
          run_uuids := S (run_uuids db) |}).

(** The row of a run, when there is one, is changed. *)
Definition update_run (id : Z) (f : BacktestRunRow -> BacktestRunRow) (db : BacktestDB) : BacktestDB :=
  {| runs := map (fun r => if br_id r =? id then f r else r) (runs db); run_trades := run_trades db;
     run_equity := run_equity db; run_uuids := run_uuids db |}.

Definition mark_completed (run_id : Z) (metrics : RunMetrics) (now : Z) : BacktestDB -> BacktestDB :=
  update_run run_id (fun r =>
    {| br_id := br_id r; br_config := br_config r; br_data_range := br_data_range r; br_seed := br_seed r;
       br_code_versions := br_code_versions r; br_status := COMPLETED; br_error := br_error r;
       br_metrics := Some metrics; br_started_at := br_started_at r; br_finished_at := Some now |}).

Definition mark_failed (run_id : Z) (error : string) (now : Z) : BacktestDB -> BacktestDB :=
  update_run run_id (fun r =>
    {| br_id := br_id r; br_config := br_config r; br_data_range := br_data_range r; br_seed := br_seed r;
       br_code_versions := br_code_versions r; br_status := FAILED; br_error := Some error;
       br_metrics := br_metrics r; br_started_at := br_started_at r; br_finished_at := Some now |}).

Definition trade_row (run_id id : Z) (t : Trade) : BacktestTradeRow :=
  {| bt_id := id; bt_run_id := run_id; bt_symbol := t_symbol t; bt_timeframe := t_timeframe t; bt_side := t_side t;
     bt_units := numeric 20 6 (dec_of_float (t_units t)); bt_entry_ts := t_entry_ts t;
     bt_entry_price := numeric 18 8 (dec_of_float (t_entry_price t)); bt_exit_ts := t_exit_ts t;
     bt_exit_price := numeric 18 8 (dec_of_float (t_exit_price t));
     bt_gross_pnl := numeric 20 6 (dec_of_float (t_gross_pnl t)); bt_costs := numeric 20 6 (dec_of_float (t_costs t));
     bt_net_pnl := numeric 20 6 (dec_of_float (t_net_pnl t)); bt_exit_reason := t_exit_reason t |}.

Definition add_trade (run_id : Z) (db : BacktestDB) (t : Trade) : BacktestDB :=
  {| runs := runs db; run_trades := run_trades db ++ [trade_row run_id (uuid4 (run_uuids db)) t];
     run_equity := run_equity db; run_uuids := S (run_uuids db) |}.
Definition save_trades (run_id : Z) (trades : list Trade) (db : BacktestDB) : BacktestDB :=
  foldl (add_trade run_id) db trades.

(** One point; [uq_backtest_equity_run_ts] allows one per run and time.  The drawdown is
    always written as zero. *)
Definition add_point (run_id : Z) (db : BacktestDB) (point : Z * float) : Res BacktestDB :=
  if existsb (fun e => (be_run_id e =? run_id) && (be_ts e =? point.1)) (run_equity db) then Err IntegrityError
  else Ok {| runs := runs db; run_trades := run_trades db;
             run_equity := run_equity db ++
               [{| be_id := uuid4 (run_uuids db); be_run_id := run_id; be_ts := point.1;
                   be_equity := numeric 20 6 (dec_of_float point.2); be_drawdown_pct := dec_zero |}];
             run_uuids := S (run_uuids db) |}.
Definition save_equity_curve (run_id : Z) (points : list (Z * float)) (db : BacktestDB) : Res BacktestDB :=
  fold_res (add_point run_id) points db.

Definition list_runs (limit : nat) (db : BacktestDB) : list BacktestRunRow :=
  take limit (sort_by (desc_leb br_started_at) (runs db)).
Definition get_run (run_id : Z) (db : BacktestDB) : option BacktestRunRow :=
  List.find (fun r => br_id r =? run_id) (runs db).
Definition get_trades (run_id : Z) (db : BacktestDB) : list BacktestTradeRow :=
  List.filter (fun t => bt_run_id t =? run_id) (run_trades db).
Definition get_equity (run_id : Z) (db : BacktestDB) : list BacktestEquityRow :=
  sort_by (asc_leb be_ts) (List.filter (fun e => be_run_id e =? run_id) (run_equity db)).

(** ** The shipped agents in a replay *)

(** [BacktestAgentRunner._frame]. *)
Definition _frame (cs : list Candle) : frame :=
  map (fun c => {| b_open := dec_to_float (c_open c); b_high := dec_to_float (c_high c); b_low := dec_to_float (c_low c);
                   b_close := dec_to_float (c_close c); b_volume := c_volume c |}) cs.

(** The context of the replay, for an agent of the live registry; its [meta] has neither
    news nor events. *)
Definition replay_agent (a : AgentWork.Agent) : Backtest.Agent :=
  {| Backtest.ag_id := AgentWork.ag_id a;
     Backtest.ag_analyze ctx :=
       AgentWork.ag_analyze a
         {| Signals.ctx_symbol := ctx_symbol ctx; Signals.ctx_timeframe := ctx_timeframe ctx;
            Signals.ctx_bucket_ts := ctx_bucket_ts ctx; Signals.ctx_now := ctx_now ctx;
            Signals.ctx_run_id := ctx_run_id ctx |}
         (_frame (ctx_candles ctx))
         {| m_prev_daily := match ctx_prev_daily ctx with
                            | None => VNone
                            | Some d => VDict (map (fun '(k, x) => (k, VFloat x)) d)
                            end;
            m_news := []; m_events := [] |} |}.
Definition shipped_runner (agents : list AgentWork.Agent) : Runner :=
  {| registry := map replay_agent agents; replay := [] |}.

(** ** [service] *)

Definition replayable (cfg : BacktestConfig) (s : AgentSignal) : bool :=
  bool_decide (agent_id s ∈ ["fundamental"; "sentiment"]%string)
  && (instant (cfg_start cfg) <=? bucket_ts s) && (bucket_ts s <? cfg_end cfg).

(** The stored signals of every series of the run; one row that is no valid signal raises. *)
Definition load_replayed_signals (agents : list AgentWork.Agent) (cfg : BacktestConfig) (db : DB) : Res Runner :=
  fold_res (fun runner '(symbol, timeframe) =>
      signals <-- map_res row_to_signal (load_history symbol timeframe (Z.to_nat 100000) None db) ;;
      Ok (add_replayed (List.filter (replayable cfg) signals) runner))
    (symbol ← cfg_symbols cfg; timeframe ← cfg_timeframes cfg; [(symbol, timeframe)]) (shipped_runner agents).

Definition cost_params_of (cfg : BacktestConfig) : CostParams :=
  {| spread := cfg_spread cfg; commission_per_side := commission_per_side default_cost_params;
     slippage_pct := cfg_slippage_pct cfg; slippage_notional_scale := slippage_notional_scale default_cost_params |}.

(** The candle source of the run, the text of an exception, the C library's [pow(x, 0.5)]
    and the clock when the run starts and ends. *)
Context (provider : CandleProvider) (str_of : PyErr -> string) (pow_half : float -> float).
Context (agents : list AgentWork.Agent).

Definition run_body (cfg : BacktestConfig) (risk : RiskParams) (run_id finished : Z) (db : DB) (bdb : BacktestDB)
  : Res BacktestDB :=
  runner <-- load_replayed_signals agents cfg db ;;
  result <-- run_with_metrics pow_half cfg risk provider runner
               (new_broker (cfg_start_equity cfg) (cfg_seed cfg) (cost_params_of cfg)) ;;
  let '(d, metrics) := result in
  saved <-- save_equity_curve run_id (equity_points d) (save_trades run_id (trades (broker d)) bdb) ;;
  Ok (mark_completed run_id metrics finished saved).

Definition run_backtest (cfg : BacktestConfig) (risk : RiskParams) (started finished : Z) (db : DB) (bdb : BacktestDB)
  : Res Z * BacktestDB :=
  let '(run_id, created) := create_run cfg _code_versions started bdb in
  match run_body cfg risk run_id finished db created with
  | Ok saved => (Ok run_id, saved)
  | Err e => (Err e, mark_failed run_id (str_of e) finished created)
  end.
End Repository.

(** ** Requests *)

Section Requests.
(** [datetime.fromisoformat], [float(text)] and [int(value)]; [None] is an exception.  The
    lists of a request hold texts, as its schema has checked. *)
Context (fromisoformat : string -> option datetime) (parse_float : string -> option float) (py_int : pyval -> option Z).

(** [raw.replace("Z", "+00:00")]. *)
Fixpoint replace_zulu (s : string) : string :=
  match s with
  | EmptyString => EmptyString
  | String c s => if Ascii.eqb c "Z" then ("+00:00" ++ replace_zulu s)%string else String c (replace_zulu s)
  end.

(** A naive time is taken for UTC. *)
Definition _parse_dt (raw : string) : Res datetime :=
  match fromisoformat (replace_zulu raw) with Some value => Ok (utc (instant value)) | None => Err ValueError end.

Definition req_text (v : pyval) : Res string := match v with VStr s => Ok s | _ => Err OtherError end.
Definition req_texts (v : pyval) : Res (list string) := match v with VList l => map_res req_text l | _ => Err OtherError end.

(** [int(data.get(key, default))] and [float(data.get(key, default))]. *)
Definition req_int (key : string) (dflt : Z) (data : dict string pyval) : Res Z :=
  match dget key data with
  | None => Ok dflt
  | Some v => match py_int v with Some n => Ok n | None => Err ValueError end
  end.
Definition req_float (key : string) (dflt : float) (data : dict string pyval) : Res float :=
  match dget key data with
  | None => Ok dflt
  | Some v => py_float parse_float v
  end.

Definition config_from_dict (data : dict string pyval) : Res BacktestConfig :=
  symbols <-- (v <-- dindex "symbols" data ;; req_texts v) ;;
  timeframes <-- (v <-- dindex "timeframes" data ;; req_texts v) ;;
  start <-- (v <-- dindex "start" data ;; t <-- req_text v ;; _parse_dt t) ;;
  stop <-- (v <-- dindex "end" data ;; t <-- req_text v ;; _parse_dt t) ;;
  seed <-- req_int "seed" 0 data ;;
  start_equity <-- req_float "start_equity" (of_Z 100000) data ;;
  warmup <-- req_int "warmup_bars" 80 data ;;
  spread <-- req_float "spread" (lit 1 4) data ;;
  slippage <-- req_float "slippage_pct" (lit 2 5) data ;;
  Ok {| cfg_start := start; cfg_end := instant stop; cfg_symbols := sort_by String.leb (map str_upper symbols);
        cfg_timeframes := map str_upper timeframes; cfg_seed := seed; cfg_start_equity := start_equity;
        warmup_bars := warmup; cfg_spread := spread; cfg_slippage_pct := slippage;
        require_full_coverage := match dget "require_full_coverage" data with Some v => truthy v | None => true end |}%string.
End Requests.

(** The provider of [run_backtest]. *)
Definition service_provider `{Platform} `{Libm} : CandleProvider := synthetic_candle_provider.

(** ** Properties *)

Section Properties.
Context `{Platform}.
Context (provider : CandleProvider) (str_of : PyErr -> string) (pow_half : float -> float)
  (agents : list AgentWork.Agent).
Notation run_backtest := (run_backtest provider str_of pow_half agents).
Notation run_body := (run_body provider pow_half agents).

(** Run ids are unique and none is still to be drawn. *)
Record runs_inv (db : BacktestDB) : Prop := {
  runs_unique : NoDup (map br_id (runs db));
  runs_fresh : forall n, (run_uuids db <= n)%nat -> uuid4 n ∉ map br_id (runs db)
}.

Lemma save_trades_adds run_id ts : forall db, exists new,
  run_trades (save_trades run_id ts db) = run_trades db ++ new /\ length new = length ts /\
  (forall t, t ∈ new -> bt_run_id t = run_id) /\
  runs (save_trades run_id ts db) = runs db /\ run_equity (save_trades run_id ts db) = run_equity db /\
  (run_uuids db <= run_uuids (save_trades run_id ts db))%nat.
Proof.
  unfold save_trades. induction ts as [|t ts IH]; intros db; cbn [foldl].
  - exists []. rewrite app_nil_r. split_and!; try done. by intros t ?%elem_of_nil.
  - destruct (IH (add_trade run_id db t)) as (new & E & Hl & Hr & Er & Ee & Hu).
    eexists (_ :: new). rewrite E, cons_middle, app_assoc. cbn [add_trade run_trades]. split_and!.
    + done.
    + cbn [length]. by rewrite Hl.
    + intros x [->|Hx]%elem_of_cons; [done|by apply Hr].
    + done.
    + done.
    + cbn in Hu. lia.
Qed.

Lemma save_equity_adds run_id points : forall db db', save_equity_curve run_id points db = Ok db' ->
  exists new, run_equity db' = run_equity db ++ new /\ map be_ts new = map fst points /\
    (forall e, e ∈ new -> be_run_id e = run_id) /\ runs db' = runs db /\ run_trades db' = run_trades db.
Proof.
  unfold save_equity_curve. induction points as [|p points IH]; intros db db' Hf; cbn [fold_res] in Hf.
  - injection Hf as <-. exists []. rewrite app_nil_r. split_and!; try done. by intros t ?%elem_of_nil.
  - apply res_bind_ok in Hf as (db1 & H1 & Hf). unfold add_point in H1. dmatch_in H1; [done|]. injection H1 as <-.
    destruct (IH _ _ Hf) as (new & E & Ht & Hr & Er & Etr). cbn [run_equity run_uuids runs run_trades] in *.
    eexists (_ :: new). rewrite cons_middle, app_assoc. split; [exact E|]. split; [by cbn; rewrite <- Ht|].
    split; [|done]. intros x [->|Hx]%elem_of_cons; [done|by apply Hr].
Qed.

(** A curve with two points at one time cannot be saved. *)
Lemma save_equity_distinct run_id points : forall db db', save_equity_curve run_id points db = Ok db' ->
  NoDup (map fst points) /\
  forall p e, p ∈ points -> e ∈ run_equity db -> be_run_id e = run_id -> be_ts e <> p.1.
Proof.
  unfold save_equity_curve. induction points as [|p points IH]; intros db db' Hf; cbn [fold_res] in Hf.
  - split; [constructor|]. by intros p e ?%elem_of_nil.
  - apply res_bind_ok in Hf as (db1 & H1 & Hf). unfold add_point in H1. dmatch_in H1; [done|].
    match goal with Hx : existsb _ _ = false |- _ => rename Hx into Hex end. injection H1 as <-.
    destruct (IH _ _ Hf) as [Hn Hd]. cbn [run_equity] in Hd. split.
    + cbn [map]. constructor; [|done]. intros (q & E & Hq)%list_elem_of_fmap.
      eapply (Hd q); [done|apply elem_of_app; right; by left|done|done].
    + intros q e [->|Hq]%elem_of_cons He Hid; [|apply (Hd q e Hq); [apply elem_of_app; by left|done]].
      intros Ht. apply not_true_iff_false in Hex. apply Hex, existsb_exists. exists e.
      split; [by apply list_elem_of_In|]. by rewrite Hid, Ht, !Z.eqb_refl.
Qed.

(** A completed body changed its own row and added rows of its own. *)
Lemma run_body_ok cfg risk id finished db bdb bdb' : run_body cfg risk id finished db bdb = Ok bdb' ->
  exists runner d metrics ts es,
    load_replayed_signals agents cfg db = Ok runner /\
    run_with_metrics pow_half cfg risk provider runner
      (new_broker (cfg_start_equity cfg) (cfg_seed cfg) (cost_params_of cfg)) = Ok (d, metrics) /\
    runs bdb' = runs (mark_completed id metrics finished bdb) /\
    run_trades bdb' = run_trades bdb ++ ts /\ length ts = length (trades (broker d)) /\ (forall t, t ∈ ts -> bt_run_id t = id) /\
    run_equity bdb' = run_equity bdb ++ es /\ map be_ts es = map fst (equity_points d) /\ (forall e, e ∈ es -> be_run_id e = id) /\
    NoDup (map fst (equity_points d)).
Proof.
  unfold BacktestRun.run_body. intros Hb. apply res_bind_ok in Hb as (runner & Hl & Hb).
  apply res_bind_ok in Hb as ([d metrics] & Hr & Hb). apply res_bind_ok in Hb as (saved & Hs & Hb). injection Hb as <-.
  destruct (save_trades_adds id (trades (broker d)) bdb) as (ts & Et & Hlt & Hit & Er & Ee & _).
  destruct (save_equity_distinct _ _ _ _ Hs) as [Hn _].
  apply save_equity_adds in Hs as (es & E & Hts & Hie & Er' & Et').
  exists runner, d, metrics, ts, es. unfold mark_completed, update_run. cbn [runs run_trades run_equity].
  by rewrite Er', Er, Et', Et, E, Ee.
Qed.

(** Marking the run just created changes its row and no other. *)
Lemma mark_created (f : BacktestRunRow -> BacktestRunRow) cfg cv now (bdb : BacktestDB) : runs_inv bdb ->
  let '(id, created) := create_run cfg cv now bdb in
  exists row, runs (update_run id f created) = runs bdb ++ [f row] /\ br_id row = id /\ br_config row = to_jsonable cfg /\
    br_error row = None /\ id = uuid4 (run_uuids bdb).
Proof.
  intros [_ Hf]. unfold create_run, update_run. cbn [runs].
  match goal with |- context [runs bdb ++ [?x]] => exists x end.
  split; [|done]. rewrite map_app. cbn [map br_id]. rewrite Z.eqb_refl. f_equal. specialize (Hf (run_uuids bdb) (le_n _)).
  induction (runs bdb) as [|r l IH]; [done|]. cbn [map] in *. rewrite not_elem_of_cons in Hf. destruct Hf as [Hr Hf].
  rewrite IH by done. by destruct (Z.eqb_spec (br_id r) (uuid4 (run_uuids bdb))).
Qed.


(** ** The equity curve of several symbols *)

Lemma decide_bar_keeps cfg risk prov runner sym fine bars total i bar d counts d' counts' :
  decide_bar cfg risk prov runner sym fine bars total i bar (d, counts) = Ok (d', counts') ->
  equity_points d' = equity_points d.
Proof.
  intros Hd. unfold decide_bar in Hd. apply res_bind_ok in Hd as (sigs & _ & Hd).
  destruct (negb _); [by simplify_eq|].
  apply res_bind_ok in Hd as (g & _ & Hd). apply res_bind_ok in Hd as ([out lst] & _ & Hd).
  injection Hd as <- _. destruct (action out); [done|]. case_bool_decide; [|done].
  unfold _schedule_fill. by repeat case_match.
Qed.

(** Points are only appended, or the last one updated. *)
Lemma fine_step_times cfg risk prov runner sym fine bars total d counts ib d' counts' :
  fine_step cfg risk prov runner sym fine bars total (d, counts) ib = Ok (d', counts') ->
  exists more, map fst (equity_points d') = map fst (equity_points d) ++ more.
Proof.
  destruct ib as [i bar]. intros Hs. unfold fine_step in Hs. destruct (dpop _ _) as [act pending].
  set (d1 := with_broker _ _) in Hs. apply res_bind_ok in Hs as ([d2 counts2] & Hd & Hs).
  destruct (broker_state _ _) as [st b]. injection Hs as <- _. cbn [equity_points with_equity with_broker].
  assert (E : equity_points d2 = equity_points d).
  { transitivity (equity_points d1); [|by unfold d1; destruct act].
    destruct (warmup_bars cfg <=? i); [by eapply decide_bar_keeps|by simplify_eq]. }
  rewrite record_equity_fst, E. destruct (last (equity_points d)) as [[t e]|]; [|by eexists].
  destruct (t =? _); [exists []; by rewrite app_nil_r|by eexists].
Qed.

Lemma run_fine_times cfg risk prov runner fine sym d d' :
  _run_fine cfg risk prov runner fine sym d = Ok d' ->
  exists more, map fst (equity_points d') = map fst (equity_points d) ++ more.
Proof.
  unfold _run_fine. intros Hr. apply res_bind_ok in Hr as (bars & _ & Hr).
  destruct bars as [|b0 bars']; [injection Hr as <-; exists []; by rewrite app_nil_r|].
  apply res_bind_ok in Hr as ([d1 counts] & Hf & Hr). injection Hr as <-.
  apply (fold_res_inv (fun st => exists more, map fst (equity_points st.1) = map fst (equity_points d) ++ more)) in Hf.
  - exact Hf.
  - intros [d2 c2] ib [d3 c3] [more Hm] Hs. apply fine_step_times in Hs as [more' Hm']. exists (more ++ more').
    cbn [fst] in *. by rewrite Hm', Hm, app_assoc.
  - exists []. by rewrite app_nil_r.
Qed.

(** Two symbols with the same bar times put every time on the curve twice. *)
Lemma driver_times_twice cfg risk prov runner b fine s1 s2 rest b1 b2 d :
  cfg_symbols cfg = s1 :: s2 :: rest -> _fine cfg = Ok fine ->
  _load_bars cfg prov s1 fine = Ok b1 -> _load_bars cfg prov s2 fine = Ok b2 ->
  map _bucket_of b1 = map _bucket_of b2 -> StronglySorted Z.lt (map _bucket_of b1) -> (2 <= length b1)%nat ->
  run_driver cfg risk prov runner b = Ok d -> ~ NoDup (map fst (equity_points d)).
Proof.
  intros Hsy Hfine H1 H2 Heq Hasc Hlen Hr Hn. unfold run_driver in Hr. rewrite Hfine in Hr. cbn [res_bind] in Hr.
  apply res_bind_ok in Hr as (ordered & _ & Hr). apply res_bind_ok in Hr as (d0 & Hc & Hr).
  apply contexts_keep in Hc as (_ & Hp0 & He0). cbn [pending_fills equity_points new_driver] in Hp0, He0.
  rewrite Hsy in Hr. cbn [fold_res] in Hr. apply res_bind_ok in Hr as (d1 & Hf1 & Hr).
  apply res_bind_ok in Hr as (d2 & Hf2 & Hr).
  destruct (run_fine_spec _ _ _ _ _ _ _ _ _ H1 Hp0 Hf1) as (_ & Hp1 & Ht1).
  specialize (Ht1 Hasc). rewrite He0 in Ht1. specialize (Ht1 ltac:(done)). cbn [map app] in Ht1.
  destruct (run_fine_spec _ _ _ _ _ _ _ _ _ H2 Hp1 Hf2) as (_ & _ & Ht2). rewrite <- Heq in Ht2. specialize (Ht2 Hasc).
  destruct b1 as [|x [|y b1]]; [simpl in Hlen; lia|simpl in Hlen; lia|].
  rewrite Ht1 in Ht2.
  assert (Hmore : exists more, map fst (equity_points d) = map fst (equity_points d2) ++ more).
  { revert Hr. apply (fold_res_inv (fun d' => exists more, map fst (equity_points d') = map fst (equity_points d2) ++ more)).
    - intros da s db [more Hm] [more' Hm']%run_fine_times. exists (more ++ more'). by rewrite Hm', Hm, app_assoc.
    - exists []. by rewrite app_nil_r. }
  destruct Hmore as [more Hm]. rewrite Hm in Hn. apply NoDup_app in Hn as (Hn & _ & _).
  rewrite Ht2 in Hn.
  - apply NoDup_app in Hn as (_ & Hx & _). apply (Hx (_bucket_of x)); by left.
  - intros t e Hl. cbn [map hd_error]. intros [= E]. rewrite <- E in Hl. clear t E.
    assert (Hlast : last (map fst (equity_points d1)) = Some (_bucket_of x)).
    { change (map fst (equity_points d1)) with ((equity_points d1).*1). by rewrite fmap_last, Hl. }
    rewrite Ht1 in Hlast. cbn [map] in Hlast. inversion Hasc as [|? ? _ Hall]; subst.
    rewrite last_cons_cons in Hlast. apply last_Some_elem_of in Hlast. rewrite Forall_forall in Hall.
    apply Hall in Hlast. lia.
Qed.
End Properties.

(** The service's bars of a series: one per bucket, whatever the symbol. *)
Lemma service_buckets `{Platform} `{Libm} sym tf start end_ offset s bars :
  seconds tf = Ok s -> tzinfo start = Some offset -> synthetic_candle_provider sym tf start end_ = Ok bars ->
  let step := seconds_td s in
  let first := instant start - (instant start + offset) mod step in
  map _bucket_of bars = if end_ <? first then [] else bucket_loop (loop_fuel first step end_) first step end_.
Proof.
  intros Hs Hz Hp step first. pose proof (seconds_td_pos _ (seconds_pos _ _ Hs)) as Hpos. fold step in Hpos.
  unfold synthetic_candle_provider in Hp. unfold align_to_bucket in Hp at 1. rewrite Hz, Hs in Hp. cbn [res_bind] in Hp.
  replace (instant start - - offset) with (instant start + offset) in Hp by lia. fold step first in Hp.
  unfold iterate_buckets in Hp. cbn [instant] in Hp. destruct (end_ <? first).
  { cbn [res_bind map_res] in Hp. by injection Hp as <-. }
  rewrite Hs in Hp. cbn [res_bind] in Hp. unfold align_to_bucket in Hp. cbn [tzinfo] in Hp. rewrite Hs in Hp. cbn [res_bind instant] in Hp.
  assert (Hal : (first + offset) mod step = 0) by (apply aligned_mod; done).
  replace (first - - offset) with (first + offset) in Hp by lia. fold step in Hp. rewrite Hal, Z.sub_0_r in Hp.
  apply map_res_Forall2 in Hp. cbn [default] in Hp.
  assert (Hb : forall b, b ∈ bucket_loop (loop_fuel first step end_) first step end_ -> (b + offset) mod step = 0).
  { intros b [_ Hd]%bucket_loop_spec; [|done|done].
    replace (b + offset) with ((b - first) + (first + offset)) by lia. by rewrite Zplus_mod, Hd, Hal, Zmod_0_l. }
  revert Hb. induction Hp as [|b c bs cs Hg _ IH]; intros Hb; [done|]. cbn [map].
  rewrite IH by (intros; apply Hb; by right). f_equal.
  apply (generate_candle_start _ _ _ _ s) in Hg as [Hg _]; [exact Hg|done|apply Hb; by left].
Qed.

(** A backtest of several symbols never completes.  The equity curve has a point per
    symbol and bar, one symbol after the other, but the table admits one point per run and
    time: with two symbols or more - the default configuration - and two bars or more in
    range, every run ends FAILED, whatever was traded. *)
Theorem multi_symbol_backtest_fails `{Platform} `{Libm} (str_of : PyErr -> string) (pow_half : float -> float)
    (agents : list AgentWork.Agent) (cfg : BacktestConfig) (risk : RiskParams) (started finished : Z) (db : DB)
    (bdb : BacktestDB) (fine s1 s2 : string) (rest : list string) (s offset : Z) :
  cfg_symbols cfg = s1 :: s2 :: rest -> _fine cfg = Ok fine -> seconds fine = Ok s ->
  tzinfo (cfg_start cfg) = Some offset -> instant (cfg_start cfg) + seconds_td s < cfg_end cfg ->
  exists e, (run_backtest service_provider str_of pow_half agents cfg risk started finished db bdb).1 = Err e.
Proof.
  intros Hsy Hfine Hs Hz Hlt. unfold run_backtest.
  destruct (create_run cfg _code_versions started bdb) as [id created].
  destruct (run_body _ _ _ _ _ _ _ _ _) as [saved|e] eqn:Eb; [|by exists e].
  exfalso. apply run_body_ok in Eb as (runner & d & metrics & ts & es & _ & Hr & _ & _ & _ & _ & _ & _ & _ & Hn).
  unfold run_with_metrics in Hr. apply res_bind_ok in Hr as (d' & Hd & Hr). apply res_bind_ok in Hr as (m & _ & Hr).
  injection Hr as <- <-.
  assert (Hload : forall sym, sym ∈ [s1; s2] -> exists bars, _load_bars cfg service_provider sym fine = Ok bars).
  { intros sym Hin. unfold run_driver in Hd. rewrite Hfine in Hd. cbn [res_bind] in Hd.
    apply res_bind_ok in Hd as (ordered & _ & Hd). apply res_bind_ok in Hd as (d0 & _ & Hd).
    rewrite Hsy in Hd. cbn [fold_res] in Hd. apply res_bind_ok in Hd as (d1 & Hf1 & Hd).
    apply res_bind_ok in Hd as (d2 & Hf2 & _). unfold _run_fine in Hf1, Hf2.
    apply res_bind_ok in Hf1 as (x1 & Hx1 & _). apply res_bind_ok in Hf2 as (x2 & Hx2 & _).
    rewrite !elem_of_cons, elem_of_nil in Hin. destruct Hin as [->|[->|[]]]; eauto. }
  destruct (Hload s1) as [b1 HB1]; [by left|]. destruct (Hload s2) as [b2 HB2]; [by right; left|].
  assert (Htimes : forall sym bars, _load_bars cfg service_provider sym fine = Ok bars ->
    map _bucket_of bars = let step := seconds_td s in
      let first := instant (cfg_start cfg) - (instant (cfg_start cfg) + offset) mod step in
      bucket_loop (loop_fuel first step (cfg_end cfg)) first step (cfg_end cfg)).
  { intros sym bars Hb. unfold _load_bars in Hb. apply res_bind_ok in Hb as (st & Ha & Hb).
    apply align_inv in Ha as (off & s' & Hoff & Hs' & Hzs & Hi). rewrite Hz in Hoff. injection Hoff as <-.
    rewrite Hs in Hs'. injection Hs' as <-.
    pose proof (seconds_td_pos _ (seconds_pos _ _ Hs)) as Hpos.
    pose proof (Z.mod_pos_bound (instant (cfg_start cfg) + offset) (seconds_td s) Hpos).
    rewrite (service_buckets sym fine st (cfg_end cfg) offset s bars Hs Hzs Hb). cbv zeta. rewrite Hi.
    rewrite aligned_mod, Z.sub_0_r by done. by destruct (Z.ltb_spec (cfg_end cfg) (instant (cfg_start cfg) - (instant (cfg_start cfg) + offset) mod seconds_td s)); [lia|]. }
  pose proof (Htimes _ _ HB1) as T1. pose proof (Htimes _ _ HB2) as T2. cbv zeta in T1, T2.
  pose proof (seconds_td_pos _ (seconds_pos _ _ Hs)) as Hpos.
  set (first := instant (cfg_start cfg) - _) in *. set (l := bucket_loop _ _ _ _) in *.
  assert (Hfirst : first + seconds_td s < cfg_end cfg).
  { pose proof (Z.mod_pos_bound (instant (cfg_start cfg) + offset) (seconds_td s) Hpos). unfold first. lia. }
  refine (driver_times_twice cfg risk service_provider runner _ fine s1 s2 rest b1 b2 d' Hsy Hfine HB1 HB2 _ _ _ Hd Hn).
  - by rewrite T1, T2.
  - rewrite T1. by apply bucket_loop_ascending.
  - rewrite <- (length_map _bucket_of), T1. unfold l.
    assert (Hin : forall b, b = first \/ b = first + seconds_td s -> b ∈ bucket_loop (loop_fuel first (seconds_td s) (cfg_end cfg)) first (seconds_td s) (cfg_end cfg)).
    { intros b Hb. apply bucket_loop_spec; [done|done|]. destruct Hb as [->| ->]; (split; [lia|]).
      - by rewrite Z.sub_diag, Zmod_0_l.
      - replace (first + seconds_td s - first) with (seconds_td s) by lia. by rewrite Z_mod_same_full. }
    pose proof (Hin first ltac:(by left)) as I1. pose proof (Hin (first + seconds_td s) ltac:(by right)) as I2.
    destruct (bucket_loop _ _ _ _) as [|x [|y k]]; [by apply elem_of_nil in I1| |simpl; lia].
    apply list_elem_of_singleton in I1, I2. lia.
Qed.

(** ** The shipped agents do not trade *)

Section Silent.
Context `{Platform} `{Pandas}.
Context (fromisoformat : pyval -> option Z) (math_exp : float -> float) (math_log2 : float).
Notation agents := (default_registry fromisoformat math_exp math_log2).

(** The technical signals of a runner have no ATR at the top level. *)
Definition no_top_level_atr (r : Runner) : Prop := forall sym tf bucket cs now prev pip sigs s,
  analyze r sym tf bucket cs now prev pip = Ok sigs -> dget "technical"%string sigs = Some s ->
  dget "atr14"%string (sig_features s) = None.

Lemma shipped_no_top_level_atr r : registry r = registry (shipped_runner agents) -> no_top_level_atr r.
Proof.
  intros Hreg sym tf bucket cs now prev pip sigs s Ha Hd. unfold analyze in Ha. rewrite Hreg in Ha.
  cbn [shipped_runner registry AgentWork.default_registry map replay_agent fold_res] in Ha.
  unfold replay_agent in Ha. cbn [Backtest.ag_id Backtest.ag_analyze AgentWork.ag_id AgentWork.ag_analyze] in Ha.
  change (bool_decide ("technical"%string ∈ REPLAY_AGENTS)) with false in Ha.
  change (bool_decide ("regime"%string ∈ REPLAY_AGENTS)) with false in Ha.
  change (bool_decide ("fundamental"%string ∈ REPLAY_AGENTS)) with true in Ha.
  change (bool_decide ("sentiment"%string ∈ REPLAY_AGENTS)) with true in Ha.
  apply res_bind_ok in Ha as (sg1 & H1 & Ha). apply res_bind_ok in H1 as (t & Ht & H1). injection H1 as <-.
  apply res_bind_ok in Ha as (sg2 & H2 & Ha). apply res_bind_ok in H2 as (g & _ & H2). injection H2 as <-.
  cbn [res_bind] in Ha.
  assert (E : dget "technical"%string sigs = Some t).
  { repeat (dmatch_in Ha; cbn [res_bind] in Ha); injection Ha as <-; rewrite ?dget_dset_ne by done; done. }
  rewrite E in Hd. injection Hd as <-. by apply technical_no_atr14 in Ht as [_ ?].
Qed.

Definition idle (d : Driver) : Prop := pending_fills d = [] /\ book (broker d) = [] /\ trades (broker d) = [].

Lemma decide_bar_idle cfg risk prov runner sym fine bars total i bar d counts d' counts' :
  no_top_level_atr runner -> idle d ->
  decide_bar cfg risk prov runner sym fine bars total i bar (d, counts) = Ok (d', counts') -> idle d'.
Proof.
  intros Hno Hi Hd. unfold decide_bar in Hd. apply res_bind_ok in Hd as (sigs & Hs & Hd).
  destruct (negb _); [by injection Hd as <- _|].
  apply res_bind_ok in Hd as (g & _ & Hd). apply res_bind_ok in Hd as ([out lst] & Hb & Hd).
  assert (Hst : status out <> Some PAPER).
  { unfold bt_decide in Hb. apply res_bind_ok in Hb as (parent & _ & Hb). apply res_bind_ok in Hb as (out' & Hc & Hb).
    assert (out' = out) as -> by (destruct (action out'); [by injection Hb as <- _|]; apply res_bind_ok in Hb as (? & _ & Hb); by injection Hb as <- _).
    eapply compute_decision_unsized; [|exact Hc]. cbn [in_atr]. unfold _atr_of.
    destruct (dget "technical"%string sigs) as [s|] eqn:Et; [|done].
    unfold bar_signals in Hs. apply res_bind_ok in Hs as (prev & _ & Hs). by rewrite (Hno _ _ _ _ _ _ _ _ _ Hs Et). }
  injection Hd as <- _. destruct (action out); [done|]. by rewrite bool_decide_eq_false_2.
Qed.

Lemma fine_step_idle cfg risk prov runner sym fine bars total d counts ib d' counts' :
  no_top_level_atr runner -> idle d ->
  fine_step cfg risk prov runner sym fine bars total (d, counts) ib = Ok (d', counts') -> idle d'.
Proof.
  destruct ib as [i bar]. intros Hno (Hp & Hb & Ht) Hs. unfold fine_step in Hs. rewrite Hp in Hs. cbn [dpop dget List.filter] in Hs.
  unfold evaluate_exit in Hs. cbn [broker with_pending] in Hs. rewrite Hb in Hs. cbn [open_for List.find] in Hs.
  apply res_bind_ok in Hs as ([d2 c2] & Hd & Hs).
  assert (Hi2 : idle d2).
  { set (d1 := with_broker _ _) in Hd. assert (Hi1 : idle d1) by (by unfold d1).
    destruct (warmup_bars cfg <=? i); [by eapply decide_bar_idle|by injection Hd as <- _]. }
  destruct Hi2 as (Hp2 & Hb2 & Ht2). destruct (broker_state _ _) as [st b] eqn:Eb. injection Hs as <- _.
  unfold broker_state in Eb. injection Eb as _ <-. by unfold idle.
Qed.

Lemma run_driver_idle cfg risk prov runner b d : no_top_level_atr runner -> book b = [] -> trades b = [] ->
  run_driver cfg risk prov runner b = Ok d -> idle d.
Proof.
  intros Hno Hb Ht Hr. unfold run_driver in Hr. apply res_bind_ok in Hr as (fine & _ & Hr).
  apply res_bind_ok in Hr as (ordered & _ & Hr). apply res_bind_ok in Hr as (d0 & Hc & Hr).
  apply contexts_keep in Hc as (Hb0 & Hp0 & _).
  apply (fold_res_inv idle) in Hr; [done| |unfold idle; rewrite Hb0, Hp0; cbn; done].
  intros d1 sym d2 Hi Hf. unfold _run_fine in Hf. apply res_bind_ok in Hf as (bars & _ & Hf).
  destruct bars as [|x xs]; [by injection Hf as <-|]. apply res_bind_ok in Hf as ([d3 c3] & Hf & Hd). injection Hd as <-.
  apply (fold_res_inv (fun st => idle st.1)) in Hf; [done| |done].
  intros [da ca] ib [db cb] Hia Hs. by eapply fine_step_idle.
Qed.

Lemma load_replayed_registry l cfg db r : load_replayed_signals l cfg db = Ok r -> registry r = registry (shipped_runner l).
Proof.
  unfold load_replayed_signals. intros Hf. apply (fold_res_inv (fun r => registry r = registry (shipped_runner l))) in Hf; [done| |done].
  intros r1 [sym tf] r2 Hr1 Hs. apply res_bind_ok in Hs as (sigs & _ & Hs). by injection Hs as <-.
Qed.

(** A backtest of the shipped agents never trades.  Whatever the bars and the stored
    signals it replays, a run of the registry the system ships opens no position and
    reports no trade: the simulator, like the live engine, looks for the ATR where the
    technical agent does not put it. *)
Theorem shipped_backtest_never_trades (provider : CandleProvider) (str_of : PyErr -> string) (pow_half : float -> float)
    (cfg : BacktestConfig) (risk : RiskParams) (started finished : Z) (db : DB) (bdb : BacktestDB) :
  let '(r, bdb') := run_backtest provider str_of pow_half agents cfg risk started finished db bdb in
  run_trades bdb' = run_trades bdb /\
  forall runner d, load_replayed_signals agents cfg db = Ok runner ->
    run_driver cfg risk provider runner (new_broker (cfg_start_equity cfg) (cfg_seed cfg) (cost_params_of cfg)) = Ok d ->
    book (broker d) = [] /\ trades (broker d) = [].
Proof.
  assert (Hidle : forall runner d, load_replayed_signals agents cfg db = Ok runner ->
    run_driver cfg risk provider runner (new_broker (cfg_start_equity cfg) (cfg_seed cfg) (cost_params_of cfg)) = Ok d -> idle d).
  { intros runner d Hl Hd. eapply run_driver_idle; [|..|exact Hd]; [|done|done].
    by apply shipped_no_top_level_atr, (load_replayed_registry _ cfg db). }
  unfold run_backtest. destruct (create_run cfg _code_versions started bdb) as [id created] eqn:Ec.
  assert (Hct : run_trades created = run_trades bdb) by (by injection Ec as _ <-).
  destruct (run_body _ _ _ _ _ _ _ _ _) as [saved|e] eqn:Eb; (split; [|intros runner d Hl Hd; apply (Hidle runner d Hl Hd)]); [|done].
  apply run_body_ok in Eb as (runner & d & metrics & ts & es & Hl & Hr & _ & Htr & Hlen & _).
  unfold run_with_metrics in Hr. apply res_bind_ok in Hr as (d' & Hd & Hr). apply res_bind_ok in Hr as (m & _ & Hr).
  injection Hr as <- <-. destruct (Hidle runner d' Hl Hd) as (_ & _ & Ht). rewrite Ht in Hlen.
  destruct ts; [|discriminate Hlen]. by rewrite Htr, app_nil_r.
Qed.
End Silent.

(** ** Witnesses *)

Definition no_runs : BacktestDB := {| runs := []; run_trades := []; run_equity := []; run_uuids := O |}.
Lemma no_runs_inv : @runs_inv demo_flat no_runs.
Proof. split; [constructor|]. by intros n _ ?%elem_of_nil. Qed.

Definition demo_hour_at (n : Z) : Z := n * 3600 * us_per_second.
Definition demo_run_cfg (symbols : list string) : BacktestConfig :=
  {| cfg_start := utc (demo_hour_at 473352); cfg_end := demo_hour_at 473354; cfg_symbols := symbols;
     cfg_timeframes := ["H1"]%string; cfg_seed := 7; cfg_start_equity := of_Z 100000; warmup_bars := 0;
     cfg_spread := lit 1 4; cfg_slippage_pct := lit 2 5; require_full_coverage := true |}.
Notation demo_agents := (@default_registry demo_flat demo_pandas (fun _ => Some 0) (fun x => x) f1).
Notation demo_run symbols :=
  (@run_backtest demo_flat (@service_provider demo_flat demo_libm) (fun _ => "error"%string) (fun x => x) demo_agents
     (demo_run_cfg symbols) sample_params 5 6 empty_db no_runs).

Definition ended (r : Res Z * BacktestDB) : bool * list BacktestStatus * nat :=
  (is_ok r.1, map br_status (runs r.2), length (run_equity r.2)).
Lemma demo_one_symbol : ended (demo_run ["EURUSD"]%string) = (true, [COMPLETED], 2%nat).
Proof. vm_compute. reflexivity. Qed.
Lemma demo_two_symbols : ended (demo_run ["EURUSD"; "GBPUSD"]%string) = (false, [FAILED], 0%nat).
Proof. vm_compute. reflexivity. Qed.


Lemma multi_symbol_backtest_fails_witness :
  ended (demo_run ["EURUSD"; "GBPUSD"]%string) = (false, [FAILED], 0%nat) /\
  exists e, (demo_run ["EURUSD"; "GBPUSD"]%string).1 = Err e.
Proof.
  split; [exact demo_two_symbols|].
  apply (@multi_symbol_backtest_fails demo_flat demo_libm (fun _ => "error"%string) (fun x => x)
    demo_agents (demo_run_cfg ["EURUSD"; "GBPUSD"]%string) sample_params 5 6 empty_db no_runs "H1" "EURUSD" "GBPUSD" [] 3600 0);
    vm_compute; reflexivity.
Defined.

Lemma shipped_backtest_never_trades_witness :
  ended (demo_run ["EURUSD"]%string) = (true, [COMPLETED], 2%nat) /\ run_trades (demo_run ["EURUSD"]%string).2 = [].
Proof.
  split; [exact demo_one_symbol|].
  pose proof (@shipped_backtest_never_trades demo_flat demo_pandas (fun _ => Some 0) (fun x => x) f1
    (@service_provider demo_flat demo_libm) (fun _ => "error"%string) (fun x => x) (demo_run_cfg ["EURUSD"]%string)
    sample_params 5 6 empty_db no_runs) as H.
  destruct (demo_run ["EURUSD"]%string) as [r bdb']. destruct H as [H _]. exact H.
Defined.
