(* ===== verification/Heartbeat.v ===== *)
(** * Worker heartbeats ([app/monitor/heartbeat.py])

    Redis hashes that expire: a key whose time is up is gone for every command.  The
    worker, Redis and the reader share one clock; an age is kept in microseconds, on which
    the comparison of [total_seconds()] with a number of seconds is decided. *)

From Stdlib Require Import ZArith Lia Sorted.
From stdpp Require Import base list strings pretty.
From S2P Require Import Prelude PyFloat Timeframes.

Definition DEFAULT_HEARTBEAT_TTL_SECONDS : Z := 60.
Definition WORKER_ROLES : list string := ["ingest"; "agents"; "content"; "orchestrator"; "alerts"]%string.

Definition worker_heartbeat_key (role : string) : string := ("worker:heartbeat:" ++ role)%string.

(** ** Redis *)

(** The hash under each key and when it expires. *)
Definition Redis := dict string (dict string string * option Z).

Definition live_entry (key : string) (now : Z) (r : Redis) : option (dict string string * option Z) :=
  match dget key r with
  | Some (h, Some until) => if now <? until then Some (h, Some until) else None
  | e => e
  end.
Definition hset (key : string) (mapping : dict string string) (now : Z) (r : Redis) : Redis :=
  let '(h, until) := default ([], None) (live_entry key now r) in
  dset key (foldl (fun h '(k, v) => dset k v h) h mapping, until) r.
Definition expire (key : string) (seconds now : Z) (r : Redis) : Redis :=
  match live_entry key now r with
  | Some (h, _) => dset key (h, Some (now + seconds_td seconds)) r
  | None => r
  end.
Definition hgetall (key : string) (now : Z) (r : Redis) : dict string string :=
  match live_entry key now r with Some (h, _) => h | None => [] end.
Definition delete_key (key : string) (r : Redis) : Redis := ddel key r.

(** ** [WorkerHeartbeat] *)

Record WorkerHeartbeat := { hb_role : string; hb_ttl : Z; hb_started_at : Z; hb_pid : Z }.

Definition new_heartbeat (role : string) (ttl_seconds started_at pid : Z) : WorkerHeartbeat :=
  {| hb_role := role; hb_ttl := Z.max 1 ttl_seconds; hb_started_at := started_at; hb_pid := pid |}.

Definition hb_fields (hb : WorkerHeartbeat) (now : Z) : dict string string :=
  [("last_seen", isoformat now); ("started_at", isoformat (hb_started_at hb)); ("pid", pretty (hb_pid hb));
   ("ttl_seconds", pretty (hb_ttl hb))]%string.

Definition touch (hb : WorkerHeartbeat) (now : Z) (r : Redis) : Redis :=
  let key := worker_heartbeat_key (hb_role hb) in
  expire key (hb_ttl hb) now (hset key (hb_fields hb now) now r).

(** An error of Redis is suppressed. *)
Definition clear (hb : WorkerHeartbeat) (reachable : bool) (r : Redis) : Redis :=
  if reachable then delete_key (worker_heartbeat_key (hb_role hb)) r else r.

(** ** Reading *)

Record WorkerHealth := {
  wh_role : string;
  wh_status : string;
  wh_last_seen : option Z;
  wh_started_at : option Z;
  wh_age : option Z;
  wh_ttl : Z
}.

Definition heartbeat_status (age : option Z) (ttl_seconds : Z) : string :=
  match age with
  | None => "down"
  | Some a => if seconds_td ttl_seconds <? a then "stale" else "up"
  end.

Definition heartbeat_ttl_for_loop (loop_period_seconds min_ttl_seconds : Z) : Z :=
  Z.max min_ttl_seconds (Z.max 1 loop_period_seconds * 3).

Section Reading.
(** [datetime.fromisoformat] and [int] of a text. *)
Context (fromisoformat : string -> option Z) (int_of_text : string -> option Z).

Definition _parse_ts (raw : option string) : option Z :=
  match raw with None | Some EmptyString => None | Some s => fromisoformat s end.

Definition role_health (r : Redis) (now ttl_seconds : Z) (role : string) : WorkerHealth :=
  let raw := hgetall (worker_heartbeat_key role) now r in
  let last_seen := _parse_ts (dget "last_seen"%string raw) in
  let declared := match dget "ttl_seconds"%string raw with
                  | None => ttl_seconds
                  | Some t => default ttl_seconds (int_of_text t)
                  end in
  let effective := Z.max 1 declared in
  let age := (fun t => now - t) <$> last_seen in
  {| wh_role := role; wh_status := heartbeat_status age effective; wh_last_seen := last_seen;
     wh_started_at := _parse_ts (dget "started_at"%string raw); wh_age := age; wh_ttl := effective |}.

Definition read_worker_health (roles : list string) (now ttl_seconds : Z) (r : Redis) : list WorkerHealth :=
  map (role_health r now ttl_seconds) roles.
End Reading.

(** ** Properties *)

(** What the workers do, and when. *)
Inductive beat := Touched (hb : WorkerHeartbeat) (t : Z) | Cleared (hb : WorkerHeartbeat) (t : Z).
Definition beat_time (b : beat) : Z := match b with Touched _ t | Cleared _ t => t end.
Definition beat_role (b : beat) : string := match b with Touched hb _ | Cleared hb _ => hb_role hb end.
Definition beat_step (r : Redis) (b : beat) : Redis :=
  match b with Touched hb t => touch hb t r | Cleared hb _ => clear hb true r end.

(** The last thing a role's worker did. *)
Definition last_beat (role : string) (beats : list beat) : option beat :=
  last (List.filter (fun b => String.eqb (beat_role b) role) beats).

Lemma heartbeat_key_inj a b : worker_heartbeat_key a = worker_heartbeat_key b -> a = b.
Proof. unfold worker_heartbeat_key. by intros [=]. Qed.

(** The entry a touch writes. *)
Definition touched_entry (hb : WorkerHeartbeat) (t : Z) (e : option (dict string string * option Z)) : Prop :=
  exists h, e = Some (h, Some (t + seconds_td (hb_ttl hb))) /\ dget "last_seen"%string h = Some (isoformat t) /\
    dget "started_at"%string h = Some (isoformat (hb_started_at hb)) /\ dget "ttl_seconds"%string h = Some (pretty (hb_ttl hb)).

Lemma touch_entry hb t r : touched_entry hb t (dget (worker_heartbeat_key (hb_role hb)) (touch hb t r)).
Proof.
  unfold touch, expire. set (key := worker_heartbeat_key _). unfold hset.
  destruct (default ([], None) (live_entry key t r)) as [h u] eqn:E.
  assert (Hu : match u with Some x => (t <? x) = true | None => True end).
  { unfold live_entry in E. destruct (dget key r) as [[h0 [u0|]]|]; cbn in E; [|by injection E as _ <-|by injection E as _ <-].
    destruct (t <? u0) eqn:Eu; cbn in E; by injection E as _ <-. }
  match goal with |- context [foldl ?f h ?m] => set (h' := foldl f h m) end.
  assert (Hl : live_entry key t (dset key (h', u) r) = Some (h', u)).
  { unfold live_entry. rewrite dget_dset_eq. by destruct u as [u|]; [rewrite Hu|]. }
  rewrite Hl, dget_dset_eq. exists h'. split; [done|]. unfold h', hb_fields. cbn [foldl].
  rewrite !dget_dset. repeat split.
Qed.

Lemma touch_other hb t r key : key <> worker_heartbeat_key (hb_role hb) -> dget key (touch hb t r) = dget key r.
Proof.
  intros Hk. unfold touch, expire, hset. destruct (default _ _) as [h u].
  destruct (live_entry _ _ (dset _ _ _)) as [[h' u']|]; by rewrite ?dget_dset_ne by done.
Qed.

Lemma beats_nodup beats : forall r, NoDup r.*1 -> NoDup (foldl beat_step r beats).*1.
Proof.
  induction beats as [|b beats IH]; intros r Hr; [done|]. cbn [foldl]. apply IH. destruct b as [hb t|hb t]; cbn [beat_step].
  - unfold touch, expire, hset. destruct (default _ _). destruct (live_entry _ _ _) as [[h' u']|]; auto.
  - by apply ddel_NoDup.
Qed.

(** What the beats left under a role's key: the entry of the last touch, unless it was
    cleared. *)
Lemma beats_left role beats :
  let e := dget (worker_heartbeat_key role) (foldl beat_step [] beats) in
  match last_beat role beats with
  | Some (Touched hb t) => touched_entry hb t e
  | _ => e = None
  end.
Proof.
  cbv zeta. induction beats as [|b beats IH] using rev_ind; [done|]. unfold last_beat in *.
  rewrite List.filter_app, foldl_app. cbn [foldl List.filter].
  destruct (String.eqb_spec (beat_role b) role) as [<-|Hne].
  - rewrite last_snoc. destruct b as [hb t|hb t]; cbn [beat_role beat_step]; [apply touch_entry|].
    unfold clear, delete_key. rewrite dget_ddel; [by rewrite decide_True|]. apply beats_nodup. constructor.
  - rewrite app_nil_r. assert (Hk : worker_heartbeat_key role <> worker_heartbeat_key (beat_role b))
      by (intros ?%heartbeat_key_inj; congruence).
    assert (E : dget (worker_heartbeat_key role) (beat_step (foldl beat_step [] beats) b) =
                dget (worker_heartbeat_key role) (foldl beat_step [] beats)).
    { destruct b as [hb t|hb t]; cbn [beat_step beat_role] in *; [by apply touch_other|].
      unfold clear, delete_key. rewrite dget_ddel; [by rewrite decide_False|]. apply beats_nodup. constructor. }
    by rewrite E.
Qed.

(** A worker is up while it beats, and never stale.  Whatever the workers did, a role
    is reported up exactly when its worker's last act was a touch less than its TTL ago,
    and down otherwise; a worker whose loop keeps the period its TTL was chosen for is
    always up; no role is ever reported stale, for the key is gone the moment it would
    be. *)
Theorem heartbeat_reports (fromisoformat : string -> option Z) (int_of_text : string -> option Z)
    (role : string) (beats : list beat) (now ttl_seconds : Z) :
  (forall hb t, Touched hb t ∈ beats -> 1 <= hb_ttl hb /\ int_of_text (pretty (hb_ttl hb)) = Some (hb_ttl hb) /\
     fromisoformat (isoformat t) = Some t /\ fromisoformat (isoformat (hb_started_at hb)) = Some (hb_started_at hb)) ->
  let h := role_health fromisoformat int_of_text (foldl beat_step [] beats) now ttl_seconds role in
  (wh_status h = "up"%string <->
     exists hb t, last_beat role beats = Some (Touched hb t) /\ now < t + seconds_td (hb_ttl hb)) /\
  (wh_status h <> "up"%string -> wh_status h = "down"%string) /\
  (forall hb t period min_ttl, last_beat role beats = Some (Touched hb t) ->
     hb_ttl hb = heartbeat_ttl_for_loop period min_ttl -> now - t < seconds_td (3 * Z.max 1 period) -> wh_status h = "up"%string) /\
  (forall hb t, last_beat role beats = Some (Touched hb t) -> now < t + seconds_td (hb_ttl hb) ->
     wh_last_seen h = Some t /\ wh_started_at h = Some (hb_started_at hb) /\ wh_ttl h = hb_ttl hb).
Proof.
  intros Httl h. pose proof (beats_left role beats) as Hl. cbv zeta in Hl.
  assert (Hne : forall t, isoformat t <> EmptyString).
  { intros t. unfold isoformat, date_key. destruct (civil _) as [[y m] d]. unfold four_digits, two_digits. discriminate. }
  assert (Hin : forall hb t, last_beat role beats = Some (Touched hb t) -> Touched hb t ∈ beats).
  { intros hb t E. unfold last_beat in E. apply last_Some_elem_of, list_elem_of_In, filter_In in E as [E _].
    by apply list_elem_of_In. }
  assert (Hup : forall hb t, last_beat role beats = Some (Touched hb t) -> now < t + seconds_td (hb_ttl hb) ->
    wh_status h = "up"%string /\ wh_last_seen h = Some t /\ wh_started_at h = Some (hb_started_at hb) /\ wh_ttl h = hb_ttl hb).
  { intros hb t E Hlt. rewrite E in Hl. destruct Hl as (f & Hd & H1 & H2 & H3). destruct (Httl hb t (Hin hb t E)) as (Hpos & Hint & Hiso & Hiso').
    unfold h, role_health, hgetall, live_entry. rewrite Hd. apply Z.ltb_lt in Hlt as Hlt'. rewrite Hlt', H1, H2, H3, Hint.
    cbn [default wh_status wh_last_seen wh_started_at wh_ttl].
    assert (Hp : forall u, fromisoformat (isoformat u) = Some u -> _parse_ts fromisoformat (Some (isoformat u)) = Some u).
    { intros u Hu. unfold _parse_ts. destruct (isoformat u) eqn:Eu; [by apply Hne in Eu|done]. }
    rewrite !Hp by done. unfold id. replace (Z.max 1 (hb_ttl hb)) with (hb_ttl hb) by lia. split_and!; try done.
    cbn. destruct (Z.ltb_spec (seconds_td (hb_ttl hb)) (now - t)); [lia|done]. }
  assert (Hdown : ~ (exists hb t, last_beat role beats = Some (Touched hb t) /\ now < t + seconds_td (hb_ttl hb)) ->
    wh_status h = "down"%string).
  { intros Hno. unfold h, role_health.
    assert (E : hgetall (worker_heartbeat_key role) now (foldl beat_step [] beats) = []).
    { unfold hgetall, live_entry. destruct (last_beat role beats) as [[hb t|hb t]|].
      - destruct Hl as (f & -> & _). destruct (Z.ltb_spec now (t + seconds_td (hb_ttl hb))); [|done]. exfalso. apply Hno. eauto.
      - by rewrite Hl.
      - by rewrite Hl. }
    by rewrite E. }
  assert (Hdec : (exists hb t, last_beat role beats = Some (Touched hb t) /\ now < t + seconds_td (hb_ttl hb)) \/
               ~ (exists hb t, last_beat role beats = Some (Touched hb t) /\ now < t + seconds_td (hb_ttl hb))).
  { destruct (last_beat role beats) as [[hb t|hb t]|]; [|right; naive_solver|right; naive_solver].
    destruct (Z.lt_ge_cases now (t + seconds_td (hb_ttl hb))); [left; eauto|]. right. intros (hb' & t' & [= <- <-] & ?). lia. }
  split_and!.
  - destruct Hdec as [Hy|Hn]; [destruct Hy as (hb & t & E & Hlt); split; [eauto|intros _; by apply (Hup hb t)]|].
    rewrite (Hdown Hn). split; [done|]. by intros ?%Hn.
  - intros Hnu. apply Hdown. intros (hb & t & E & Hlt). by apply Hnu, (Hup hb t).
  - intros hb t period min_ttl E Ht Hp. apply (Hup hb t E). unfold heartbeat_ttl_for_loop in Ht.
    unfold seconds_td, us_per_second in *. lia.
  - intros hb t E Hlt. by apply (Hup hb t E).
Qed.

(** ** Witness *)

(** The clock texts of the example are its two times. *)
Definition demo_worker : WorkerHeartbeat := new_heartbeat "ingest" (heartbeat_ttl_for_loop 10 60) 0 1.
Definition demo_beats : list beat := [Touched demo_worker 0; Touched demo_worker (seconds_td 10)].

Lemma heartbeat_reports_witness :
  let health now := role_health (fun s => if String.eqb s (isoformat 0) then Some 0 else Some (seconds_td 10))
                      (fun _ => Some 60) (foldl beat_step [] demo_beats) now 60 "ingest" in
  wh_status (health (seconds_td 69)) = "up"%string /\ wh_status (health (seconds_td 70)) = "down"%string.
Proof.
  assert (Hb : forall hb t, Touched hb t ∈ demo_beats ->
    1 <= hb_ttl hb /\ Some 60 = Some (hb_ttl hb) /\
    (if String.eqb (isoformat t) (isoformat 0) then Some 0 else Some (seconds_td 10)) = Some t /\
    (if String.eqb (isoformat (hb_started_at hb)) (isoformat 0) then Some 0 else Some (seconds_td 10)) = Some (hb_started_at hb)).
  { intros hb t Hin. unfold demo_beats in Hin. rewrite !elem_of_cons, elem_of_nil in Hin.
    destruct Hin as [[= -> ->]|[[= -> ->]|[]]]; vm_compute; repeat split; discriminate. }
  pose proof (fun now => heartbeat_reports (fun s => if String.eqb s (isoformat 0) then Some 0 else Some (seconds_td 10))
    (fun _ => Some 60) "ingest" demo_beats now 60 Hb) as H. cbv zeta in *.
  assert (Hl : last_beat "ingest" demo_beats = Some (Touched demo_worker (seconds_td 10))) by (vm_compute; reflexivity).
  split.
  - apply (proj1 (H (seconds_td 69))). exists demo_worker, (seconds_td 10). split; [exact Hl|vm_compute; reflexivity].
  - apply (proj1 (proj2 (H (seconds_td 70)))). intros Hup. apply (proj1 (H (seconds_td 70))) in Hup.
    destruct Hup as (hb & t & E & Hlt). rewrite Hl in E. injection E as <- <-. vm_compute in Hlt. discriminate Hlt.
Defined.
