(* ===== verification/ContentSources.v ===== *)
(** * Where news and calendar events come from ([app/data/providers/synthetic_content.py],
    [synthetic_calendar.py], [synthetic_news.py], [finnhub_client.py], [finnhub_calendar.py],
    [finnhub_news.py], [content_factory.py], [content_base.py])

    Windows are given by UTC instants, as the content worker passes them; a window's start
    carries the offset its zone had, which fixes the synthetic epoch.  The sanitised
    [raw_payload] is left out, as in Content. *)

From Stdlib Require Import ZArith Ascii Lia.
From stdpp Require Import base list strings pretty.
From S2P Require Import Prelude PyFloat Timeframes Signals Fusion Risk Decision Tables Decide MarketConfig Bus Alerts Access PyFormat Synthetic News Content.

Open Scope string_scope.
Open Scope Z_scope.

(** ** The interface of the providers *)

Record CalendarProvider := {
  calendar_name : string;
  fetch_events : Z -> Z -> Res (list NormalizedEconomicEvent)
}.
Record NewsProvider := {
  news_name : string;
  fetch_news : Z -> Z -> Res (list NormalizedNewsItem)
}.

(** ** Deterministic demo content *)

Definition _CURRENCY_PAIRS : dict string (list string) :=
  [("EUR", ["EURUSD"]); ("GBP", ["GBPUSD"]);
   ("USD", ["EURUSD"; "GBPUSD"; "USDJPY"; "AUDUSD"; "USDCAD"; "USDCHF"; "NZDUSD"]);
   ("JPY", ["USDJPY"]); ("AUD", ["AUDUSD"]); ("CAD", ["USDCAD"]); ("CHF", ["USDCHF"]); ("NZD", ["NZDUSD"])].

Definition _CALENDAR_TEMPLATES : list (string * string) :=
  [("CPI YoY", "high"); ("Core CPI MoM", "medium"); ("GDP QoQ", "high"); ("Interest Rate Decision", "high");
   ("Unemployment Rate", "high"); ("Non-Farm Employment Change", "high"); ("PMI Composite", "medium");
   ("Retail Sales MoM", "medium"); ("Trade Balance", "low"); ("CB Policy Meeting Minutes", "medium")].

(** [enumerate(l)]. *)
Definition enumerate {A} (l : list A) : list (Z * A) := imap (fun i x => (Z.of_nat i, x)) l.

Definition slot_hours : Z := 6.

(** [x // n] of a float, as an integer: the floor of the exact quotient. *)
Definition floor_div (x : float) (n : positive) : Res Z :=
  match float_ratio x with Some (m, d) => Ok (m / Zpos (d * n)) | None => Err OtherError end.

Definition hours_of (x : float) : Res Z := td_of_float (seconds_td 3600) x.

Section Synthetic.
Context `{Platform} (local_offset : Z -> Z).

(** [_hash_uniform(key)]; every caller passes one part. *)
Definition content_uniform (key : string) : float :=
  fdiv_ieee (of_Z (blake2b_64 (canonical ["forex-ai-synthetic-content"; key]))) (of_Z (2 ^ 64)).

Definition slot_key (currency : string) (template_idx slot : Z) : string :=
  currency ++ "|" ++ pretty template_idx ++ "|" ++ pretty slot.

Definition _pct (kind currency : string) (template_idx slot scale offset : Z) : string :=
  let value := (content_uniform (kind ++ "|" ++ slot_key currency template_idx slot) *ᶠ of_Z scale) -ᶠ of_Z offset in
  fmt false 2 (fround value 2) ++ "%".

(** The body of the innermost loop: no event, or one. *)
Definition slot_event (ts slot : Z) (currency : string) (symbols : list string) (template : Z * (string * string))
  : Res (list NormalizedEconomicEvent) :=
  let '(template_idx, (slug, importance)) := template in
  let r := content_uniform (slot_key currency template_idx slot) in
  if r >ᶠ lit 35 2 then Ok []
  else
    let actual := if r <ᶠ lit 3 1 then None else Some (_pct "a" currency template_idx slot 8 4) in
    d <-- hours_of (content_uniform ("t|" ++ slot_key currency template_idx slot) *ᶠ of_Z slot_hours) ;;
    e <-- event_post_init local_offset
      {| ev_provider := "synthetic"; ev_title := currency ++ " " ++ slug; ev_timestamp := utc (ts + d);
         ev_importance := importance; ev_currency := currency; ev_symbols := symbols; ev_actual := actual;
         ev_forecast := Some (_pct "f" currency template_idx slot 6 3);
         ev_previous := Some (_pct "p" currency template_idx slot 6 3); ev_surprise_score := None;
         ev_external_id := Some ("synthetic-" ++ pretty slot ++ "-" ++ currency ++ "-" ++ pretty template_idx) |} ;;
    Ok [e].

Definition slot_events (ts slot : Z) : Res (list NormalizedEconomicEvent) :=
  per <-- map_res (fun '(currency, symbols) =>
                     l <-- map_res (slot_event ts slot currency symbols) (enumerate _CALENDAR_TEMPLATES) ;; Ok (concat l))
                  _CURRENCY_PAIRS ;;
  Ok (concat per).

(** [for slot in range(slot, slot + n)], until a slot starts at the end of the window. *)
Fixpoint slots_from (n : nat) (epoch slot until : Z) : Res (list NormalizedEconomicEvent) :=
  match n with
  | O => Ok []
  | S n =>
      let ts := epoch + hours_td (slot * slot_hours) in
      if until <=? ts then Ok []
      else l <-- slot_events ts slot ;; rest <-- slots_from n epoch (slot + 1) until ;; Ok (l ++ rest)%list
  end.

Definition synthetic_calendar_events (offset since until : Z) : Res (list NormalizedEconomicEvent) :=
  if until <=? since then Ok []
  else
    let epoch := epoch_2024 offset in
    first_slot <-- floor_div (total_seconds (since - epoch)) 21600 ;;
    slots_from 12 epoch first_slot until.

Definition prefixes : list string :=
  ["Central bank signals cautious tone"; "Sector data beats forecasts"; "Inflation prints mixed";
   "Markets eye upcoming rate decision"; "Reserve update rattles sentiment"].
Definition story_currencies : list string := ["EUR"; "GBP"; "USD"; "JPY"; "AUD"].

(** Story [story_idx] of a day, when the window holds it. *)
Definition day_story (epoch since until day : Z) (story_idx : nat) : Res (list NormalizedNewsItem) :=
  let day_ord := (day - epoch) / us_per_day in
  let slug := nth (story_idx mod 5) prefixes "" in
  let currency := nth (story_idx mod 5) story_currencies "" in
  let published := day + hours_td (8 + Z.of_nat story_idx * 4) in
  if (since <=? published) && (published <? until) then
    symbols <-- dindex currency _CURRENCY_PAIRS ;;
    n <-- news_post_init local_offset
      {| ni_provider := "synthetic"; ni_headline := slug ++ ": " ++ currency; ni_published := utc published;
         ni_url := Some ("https://demo.example/news/" ++ pretty day_ord ++ "/" ++ pretty story_idx);
         ni_summary := Some ("Deterministic demo summary for " ++ currency ++ " (internal fixture, not real news).");
         ni_symbols := symbols;
         ni_external_id := Some ("synthetic-news-" ++ pretty day_ord ++ "-" ++ pretty story_idx) |} ;;
    Ok [n]
  else Ok [].

(** [while day <= end_day]. *)
Fixpoint days_from (fuel : nat) (epoch since until day end_day : Z) : Res (list NormalizedNewsItem) :=
  match fuel with
  | O => Ok []
  | S fuel =>
      if day <=? end_day then
        l <-- map_res (day_story epoch since until day) [0%nat; 1%nat; 2%nat] ;;
        rest <-- days_from fuel epoch since until (day + us_per_day) end_day ;;
        Ok (concat l ++ rest)%list
      else Ok []
  end.

Definition synthetic_news_items (offset since until : Z) : Res (list NormalizedNewsItem) :=
  if until <=? since then Ok []
  else
    let day := since - since mod us_per_day in
    let end_day := until - seconds_td 60 in
    days_from (S (Z.to_nat ((end_day - day) / us_per_day + 1))) (epoch_2024 offset) since until day end_day.

Definition SyntheticCalendarProvider : CalendarProvider :=
  {| calendar_name := "synthetic"; fetch_events := synthetic_calendar_events 0 |}.
Definition SyntheticNewsProvider : NewsProvider :=
  {| news_name := "synthetic"; fetch_news := synthetic_news_items 0 |}.
End Synthetic.

(** ** The Finnhub client *)

(** What [httpx] makes of one request: a [TransportError]; any other error, which none of the
    clients catches (too many redirects, a body that cannot be decompressed or nests too deep
    to be parsed, an address it refuses); or a status and the parsed body, [None] when it is
    not JSON. *)
Inductive HttpResult :=
| TransportError
| RequestFailed
| Response (status : Z) (json : option pyval).

Definition _classify (status_code : Z) : PyErr :=
  if (status_code =? 401) || (status_code =? 403) then ContentProviderAuthError
  else if status_code =? 429 then ContentProviderRateLimitError
  else ContentProviderTransientError.

(** [response.is_error]. *)
Definition is_error (status : Z) : bool := (400 <=? status) && (status <=? 599).

(** One attempt of [get_json]. *)
Definition get_once (r : HttpResult) : Res pyval :=
  match r with
  | TransportError => Err ContentProviderTransientError
  | RequestFailed => Err OtherError
  | Response status json =>
      if is_error status then Err (_classify status)
      else match json with Some v => Ok v | None => Err ContentProviderTransientError end
  end.

Record FinnhubClient := { _token : string }.
Definition make_client (api_token : string) : Res FinnhubClient :=
  if String.eqb api_token "" then Err ContentProviderAuthError else Ok {| _token := api_token |}.

Section Client.
(** The service: its answer to the n-th request, for a path and a query. *)
Context (http : nat -> string -> dict string string -> HttpResult).

(** Only a transient error is tried again, at most [attempts] times in all; the last error
    is raised.  Also the requests made. *)
Definition is_transient (e : PyErr) : bool := bool_decide (e = ContentProviderTransientError).
Definition retrying (attempts n : nat) (path : string) (query : dict string string) : Res pyval * nat :=
  retry is_transient (fun k => get_once (http k path query)) attempts n.

Definition get_json (client : FinnhubClient) (path : string) (params : dict string string) : Res pyval * nat :=
  retrying 3 0 path (dset "token"%string (_token client) params).

Definition get_json_list (client : FinnhubClient) (path : string) (params : dict string string)
  : Res (list pyval) * nat :=
  let '(data, n) := get_json client path params in
  ((data <-- data ;;
    match data with VList l => Ok l | VDict _ => Ok [] | _ => Err ContentProviderTransientError end), n).
End Client.

(** ** The Finnhub adapters *)

(** [d.get(key)] and [d.get(key) or ""], which must then be a text for [strip] and
    [upper] to exist. *)
Definition get_field (key : string) (d : dict string pyval) : pyval := match dget key d with Some v => v | None => VNone end.
Definition text_or_empty (v : pyval) : Res string :=
  match v with VStr s => Ok s | _ => if truthy v then Err OtherError else Ok "" end.
Definition stripped_field (key : string) (d : dict string pyval) : Res string :=
  s <-- text_or_empty (get_field key d) ;; Ok (py_strip s).

(** [s or None]. *)
Definition or_none (s : string) : option string := if String.eqb s "" then None else Some s.

(** [s.replace(old, "")] of one character. *)
Fixpoint remove_char (old : ascii) (s : string) : string :=
  match s with
  | EmptyString => EmptyString
  | String c s => if Ascii.eqb c old then remove_char old s else String c (remove_char old s)
  end.

Definition _DEFAULT_IMPORTANCE : string := "medium".
Definition high_tokens : list string :=
  ["cpi"; "gdp"; "rate decision"; "unemployment"; "employment"; "non-farm"; "fed"].
Definition low_tokens : list string :=
  ["trade balance"; "minutes"; "building permits"; "michigan sentiment"; "api weekly"].

Definition _classify_importance (title : string) : string :=
  let title_l := str_lower title in
  if existsb (fun tok => contains tok title_l) high_tokens then "high"
  else if existsb (fun tok => contains tok title_l) low_tokens then "low"
  else _DEFAULT_IMPORTANCE.

(** [for x in v]: a list, the keys of a dict, the characters of a text. *)
Definition py_iter (v : pyval) : Res (list pyval) :=
  match v with
  | VList l => Ok l
  | VDict d => Ok (map (fun kv => VStr kv.1) d)
  | VStr s => Ok (map (fun c => VStr (String c EmptyString)) (chars s))
  | _ => Err OtherError
  end.

Section Finnhub.
Context `{Platform} (local_offset : Z -> Z).
(** [datetime.fromisoformat(text)] and [int(text)]; [None] is a [ValueError]. *)
Context (fromisoformat : string -> option datetime) (int_of_text : string -> option Z).
Context (http : nat -> string -> dict string string -> HttpResult).

(** [value.astimezone()]. *)
Definition astimezone (d : datetime) : datetime :=
  {| instant := instant d; tzinfo := Some (local_offset (instant d)) |}.

(** Finnhub's naive times are taken for UTC. *)
Definition _parse_iso (raw : string) : Res datetime :=
  let cleaned := remove_char "Z" (py_strip raw) in
  match fromisoformat (if contains "T" cleaned then cleaned else str_replace " " "T" cleaned) with
  | None => Err ValueError
  | Some value => Ok (astimezone (match tzinfo value with None => utc (instant value) | Some _ => value end))
  end.

Definition _opt_str (value : pyval) : option string :=
  match value with VNone => None | _ => or_none (py_strip (py_str value)) end.

(** [currency or country], three letters or nothing. *)
Definition event_currency (item : dict string pyval) : Res string :=
  country <-- stripped_field "country" item ;;
  let v := get_field "currency" item in
  s <-- (if truthy v then text_or_empty v else Ok (str_upper country)) ;;
  let currency := str_upper s in
  Ok (if negb (Nat.eqb (String.length currency) 3) || negb (isalpha currency) then ""%string else currency).

Definition normalize_event (item : pyval) : Res (option NormalizedEconomicEvent) :=
  match item with
  | VDict item =>
      title <-- stripped_field "event" item ;;
      let raw_date := get_field "date" item in
      if String.eqb title "" || negb (truthy raw_date) then Ok None
      else match _parse_iso (py_str raw_date) with
           | Err ValueError => Ok None
           | Err e => Err e
           | Ok ts =>
               currency <-- event_currency item ;;
               let importance := _classify_importance title in
               let importance := if bool_decide (importance ∈ IMPORTANCE_LEVELS) then importance
                                 else _DEFAULT_IMPORTANCE in
               let external_id := match get_field "id" item with VNone => None | v => Some (py_str v) end in
               e <-- event_post_init local_offset
                 {| ev_provider := "finnhub"; ev_title := title; ev_timestamp := ts; ev_importance := importance;
                    ev_currency := currency; ev_symbols := []; ev_actual := _opt_str (get_field "actual" item);
                    ev_forecast := _opt_str (get_field "forecast" item);
                    ev_previous := _opt_str (get_field "prev" item); ev_surprise_score := None;
                    ev_external_id := external_id |} ;;
               Ok (Some e)
           end
  | _ => Ok None
  end%string.

(** The window is asked for by its dates, and cut to its instants here. *)
Fixpoint events_in (since until : Z) (items : list pyval) : Res (list NormalizedEconomicEvent) :=
  match items with
  | [] => Ok []
  | item :: items =>
      event <-- normalize_event item ;;
      rest <-- events_in since until items ;;
      Ok (match event with
          | Some e => if (since <=? instant (ev_timestamp e)) && (instant (ev_timestamp e) <? until) then e :: rest else rest
          | None => rest
          end)
  end.

Definition finnhub_fetch_events (client : FinnhubClient) (since until : Z) : Res (list NormalizedEconomicEvent) :=
  let params := [("from", date_key since); ("to", date_key until)]%string in
  data <-- (get_json http client "/calendar/economic" params).1 ;;
  items <-- match data with
            | VDict d => py_iter (match dget "economicCalendar"%string d with Some v => v | None => VList [] end)
            | _ => Ok []
            end ;;
  events_in since until items.

(** [datetime.fromtimestamp(seconds, tz=UTC)], years 1 to 9999. *)
Definition fromtimestamp (seconds : Z) : Res datetime :=
  if (-62135596800 <=? seconds) && (seconds <=? 253402300799) then Ok (utc (seconds_td seconds)) else Err ValueError.

Definition _parse_epoch (value : pyval) : Res (option datetime) :=
  let at_ n := d <-- fromtimestamp n ;; Ok (Some d) in
  match value with
  | VInt n => at_ n
  | VFloat x => if is_nan x then Ok None else n <-- int_of_float x ;; at_ n
  | VStr s => match int_of_text s with Some n => at_ n | None => Ok None end
  | _ => Ok None
  end.

Definition _related_symbols (item : dict string pyval) : list string :=
  let v := get_field "related" item in
  let related := if truthy v then py_str v else ""%string in
  List.filter (fun p => negb (String.eqb p "")) (map py_strip (split_char "," related)).

Definition _looks_fx (symbol : string) : bool := Nat.eqb (String.length symbol) 6 && isalpha symbol.

Definition normalize_item (item : pyval) : Res (option NormalizedNewsItem) :=
  match item with
  | VDict item =>
      headline <-- stripped_field "headline" item ;;
      if String.eqb headline "" then Ok None
      else
        published <-- _parse_epoch (get_field "datetime" item) ;;
        match published with
        | None => Ok None
        | Some published =>
            let symbols := map str_upper (List.filter _looks_fx (_related_symbols item)) in
            let external_id := match get_field "id" item with VNone => None | v => Some (py_str v) end in
            url <-- stripped_field "url" item ;;
            summary <-- stripped_field "summary" item ;;
            n <-- news_post_init local_offset
              {| ni_provider := "finnhub"; ni_headline := headline; ni_published := published; ni_url := or_none url;
                 ni_summary := or_none summary; ni_symbols := symbols; ni_external_id := external_id |} ;;
            Ok (Some n)
        end
  | _ => Ok None
  end%string.

Fixpoint news_in (since until : Z) (items : list pyval) : Res (list NormalizedNewsItem) :=
  match items with
  | [] => Ok []
  | item :: items =>
      normalized <-- normalize_item item ;;
      rest <-- news_in since until items ;;
      Ok (match normalized with
          | Some n => if (since <=? instant (ni_published n)) && (instant (ni_published n) <? until) then n :: rest else rest
          | None => rest
          end)
  end.

Definition finnhub_fetch_news (client : FinnhubClient) (since until : Z) : Res (list NormalizedNewsItem) :=
  raw <-- (get_json_list http client "/news" [("category", "forex")]%string).1 ;;
  news_in since until raw.

(** ** Selection *)

Record ContentSettings := {
  calendar_provider : string;
  news_provider : string;
  finnhub_api_token : string;
  calendar_lookback_hours : Z;
  news_lookback_hours : Z
}.

Definition wants_finnhub (provider_name : string) (settings : ContentSettings) : bool :=
  String.eqb (str_lower (py_strip provider_name)) "finnhub" && negb (String.eqb (finnhub_api_token settings) "").

Definition build_calendar_provider (settings : ContentSettings) : Res CalendarProvider :=
  if wants_finnhub (calendar_provider settings) settings then
    client <-- make_client (finnhub_api_token settings) ;;
    Ok {| calendar_name := "finnhub"; fetch_events := finnhub_fetch_events client |}
  else Ok (SyntheticCalendarProvider local_offset).

Definition build_news_provider (settings : ContentSettings) : Res NewsProvider :=
  if wants_finnhub (news_provider settings) settings then
    client <-- make_client (finnhub_api_token settings) ;;
    Ok {| news_name := "finnhub"; fetch_news := finnhub_fetch_news client |}
  else Ok (SyntheticNewsProvider local_offset).
End Finnhub.

(** ** Properties *)

Section Adapters.
Context `{Platform} (local_offset : Z -> Z) (fromisoformat : string -> option datetime) (int_of_text : string -> option Z).

Definition in_window (since until : Z) (t : datetime) : Prop := since <= instant t < until.

(** A calendar entry as the Finnhub adapter may pass it on. *)
Record finnhub_event (e : NormalizedEconomicEvent) : Prop := {
  fe_provider : ev_provider e = "finnhub"%string;
  fe_title : ev_title e <> ""%string;
  fe_importance : ev_importance e ∈ IMPORTANCE_LEVELS;
  fe_currency : ev_currency e = ""%string \/ String.length (ev_currency e) = 3%nat /\ isalpha (ev_currency e) = true
}.

Record finnhub_story (n : NormalizedNewsItem) : Prop := {
  fs_provider : ni_provider n = "finnhub"%string;
  fs_headline : ni_headline n <> ""%string;
  fs_symbols : Forall (fun s => String.length s = 6%nat) (ni_symbols n)
}.

Lemma event_currency_ok item c : event_currency item = Ok c ->
  c = ""%string \/ String.length c = 3%nat /\ isalpha c = true.
Proof.
  unfold event_currency. intros Hc. inv_res. destruct (_ || _) eqn:E; [by left|right].
  apply orb_false_iff in E as [E1%negb_false_iff%Nat.eqb_eq E2%negb_false_iff]. done.
Qed.

Lemma normalize_event_ok item e : normalize_event local_offset fromisoformat item = Ok (Some e) -> finnhub_event e.
Proof.
  unfold normalize_event. destruct item as [| | | | | |d]; try done. intros Hn. apply res_bind_ok in Hn as (title & _ & Hn).
  destruct (String.eqb title "") eqn:Et; [done|]. destruct (negb _); [done|]. cbn [orb] in Hn.
  destruct (_parse_iso _ _ _) as [ts|[]]; try done. apply res_bind_ok in Hn as (c & Hc%event_currency_ok & Hn).
  apply res_bind_ok in Hn as (e1 & He & [= ->]). unfold event_post_init in He.
  apply res_bind_ok in He as (t & _ & He). cbn in He. case_bool_decide as Hi; [|done]. injection He as <-.
  constructor; cbn; try done. by apply String.eqb_neq.
Qed.

Lemma events_in_ok since until items : forall l, events_in local_offset fromisoformat since until items = Ok l ->
  Forall (fun e => finnhub_event e /\ in_window since until (ev_timestamp e)) l.
Proof.
  induction items as [|item items IH]; intros l; cbn [events_in]; [by intros [= <-]|]. intros Hl.
  apply res_bind_ok in Hl as (event & He & Hl). apply res_bind_ok in Hl as (rest & Hr & [= <-]).
  specialize (IH _ Hr). destruct event as [e|]; [|done]. destruct (_ && _) eqn:E; [|done].
  apply andb_true_iff in E as [E1%Z.leb_le E2%Z.ltb_lt]. constructor; [|done].
  split; [by eapply normalize_event_ok|done].
Qed.

Lemma length_str_upper s : String.length (str_upper s) = String.length s.
Proof. induction s; simpl; congruence. Qed.

Lemma normalize_item_ok item n : normalize_item local_offset int_of_text item = Ok (Some n) -> finnhub_story n.
Proof.
  unfold normalize_item. destruct item as [| | | | | |d]; try done. intros Hn. apply res_bind_ok in Hn as (headline & _ & Hn).
  destruct (String.eqb headline "") eqn:Et; [done|]. apply res_bind_ok in Hn as ([published|] & _ & Hn); [|done].
  apply res_bind_ok in Hn as (url & _ & Hn). apply res_bind_ok in Hn as (summary & _ & Hn).
  apply res_bind_ok in Hn as (n1 & He & [= ->]). unfold news_post_init in He.
  apply res_bind_ok in He as (t & _ & [= <-]). constructor; cbn; [done|by apply String.eqb_neq|].
  apply Forall_forall. intros s (s' & -> & Hs)%list_elem_of_fmap. rewrite length_str_upper.
  apply list_elem_of_In, filter_In in Hs as [_ Hs]. unfold _looks_fx in Hs. by apply andb_true_iff in Hs as [?%Nat.eqb_eq _].
Qed.

Lemma news_in_ok since until items : forall l, news_in local_offset int_of_text since until items = Ok l ->
  Forall (fun n => finnhub_story n /\ in_window since until (ni_published n)) l.
Proof.
  induction items as [|item items IH]; intros l; cbn [news_in]; [by intros [= <-]|]. intros Hl.
  apply res_bind_ok in Hl as (normalized & He & Hl). apply res_bind_ok in Hl as (rest & Hr & [= <-]).
  specialize (IH _ Hr). destruct normalized as [n|]; [|done]. destruct (_ && _) eqn:E; [|done].
  apply andb_true_iff in E as [E1%Z.leb_le E2%Z.ltb_lt]. constructor; [|done].
  split; [by eapply normalize_item_ok|done].
Qed.

Definition transient (r : HttpResult) : bool := wants_retry is_transient (get_once r).

Lemma retrying_spec http path query attempts n : (attempts > 0)%nat ->
  exists k, (k < attempts)%nat /\ retrying http attempts n path query = (get_once (http (n + k)%nat path query), (n + S k)%nat) /\
    (forall j, (j < k)%nat -> transient (http (n + j)%nat path query) = true) /\
    (transient (http (n + k)%nat path query) = true -> S k = attempts).
Proof. apply retry_spec. Qed.

(** What Finnhub sends is checked at the adapter.  At most three requests are made, more
    than one only while the answers are transient failures; a calendar that is answered
    holds events of the asked window only, each with a title, an importance of the three
    and a three-letter currency or none; a story list likewise.  But the fields are
    taken for texts: an entry whose title or headline is a number fails the batch with an
    error that the worker does not degrade on. *)
Theorem finnhub_adapter_sound (http : nat -> string -> dict string string -> HttpResult) (client : FinnhubClient)
    (since until : Z) (events : list NormalizedEconomicEvent) (stories : list NormalizedNewsItem) :
  (forall path params, let '(_, n) := get_json http client path params in
     (1 <= n <= 3)%nat /\
     forall j, (S j < n)%nat -> transient (http j path (dset "token"%string (_token client) params)) = true) /\
  (finnhub_fetch_events local_offset fromisoformat http client since until = Ok events ->
   Forall (fun e => finnhub_event e /\ in_window since until (ev_timestamp e)) events) /\
  (finnhub_fetch_news local_offset int_of_text http client since until = Ok stories ->
   Forall (fun n => finnhub_story n /\ in_window since until (ni_published n)) stories) /\
  (forall key n d items, n <> 0 -> dget key d = Some (VInt n) ->
     (key = "event"%string -> events_in local_offset fromisoformat since until (VDict d :: items) = Err OtherError) /\
     (key = "headline"%string -> news_in local_offset int_of_text since until (VDict d :: items) = Err OtherError)) /\
  is_content_error OtherError = false.
Proof.
  split_and!; [| | | |done].
  - intros path params. unfold get_json.
    destruct (retrying_spec http path (dset "token"%string (_token client) params) 3 0) as (k & Hk & -> & Hall & _); [lia|].
    split; [lia|]. intros j Hj. apply Hall. lia.
  - unfold finnhub_fetch_events. intros He. apply res_bind_ok in He as (data & _ & He).
    apply res_bind_ok in He as (items & _ & He). by eapply events_in_ok.
  - unfold finnhub_fetch_news. intros He. apply res_bind_ok in He as (raw & _ & He). by eapply news_in_ok.
  - intros key n d items Hn Hd. split; intros ->; cbn [events_in news_in normalize_event normalize_item].
    all: unfold stripped_field, get_field; rewrite Hd; cbn [text_or_empty truthy].
    all: by replace (negb (n =? 0)) with true by lia.
Qed.
End Adapters.

(** ** The content worker with the providers of its settings *)

Section Worker.
Context `{Platform} (sha256_hex : string -> string) (local_offset : Z -> Z).
Context (fromisoformat : string -> option datetime) (int_of_text : string -> option Z) (settings : ContentSettings).

(** One turn of the loop: its time, and how Finnhub answers then. *)
Record Poll := { po_now : Z; po_http : nat -> string -> dict string string -> HttpResult }.

Definition content_turn (db : ContentDB) (p : Poll) : Res unit * ContentDB :=
  match build_calendar_provider local_offset fromisoformat (po_http p) settings,
        build_news_provider local_offset int_of_text (po_http p) settings with
  | Ok calendar, Ok news =>
      _cycle sha256_hex (fetch_events calendar) (fetch_events (SyntheticCalendarProvider local_offset))
        (fetch_news news) (fetch_news (SyntheticNewsProvider local_offset))
        (calendar_lookback_hours settings) (news_lookback_hours settings) (po_now p) db
  | Err e, _ | _, Err e => (Err e, db)
  end.

Lemma map_res_Forall {A B} (f : A -> Res B) (P : B -> Prop) l ys :
  (forall x y, f x = Ok y -> P y) -> map_res f l = Ok ys -> Forall P ys.
Proof. intros Hf Hl%map_res_Forall2. induction Hl; constructor; eauto. Qed.

Definition is_synthetic (e : NormalizedEconomicEvent) : Prop := ev_provider e = "synthetic"%string.

Lemma slot_event_synthetic ts slot currency symbols template l :
  slot_event local_offset ts slot currency symbols template = Ok l -> Forall is_synthetic l.
Proof.
  destruct template as [i [slug importance]]. unfold slot_event. intros He.
  destruct (flt _ _); [injection He as <-; constructor|].
  apply res_bind_ok in He as (d & _ & He). apply res_bind_ok in He as (e & He & [= <-]).
  unfold event_post_init in He. apply res_bind_ok in He as (t & _ & He). case_bool_decide; [|done].
  injection He as <-. by constructor.
Qed.

Lemma slot_events_synthetic ts slot l : slot_events local_offset ts slot = Ok l -> Forall is_synthetic l.
Proof.
  unfold slot_events. intros Hl. apply res_bind_ok in Hl as (per & Hp & [= <-]).
  apply Forall_concat. eapply map_res_Forall, Hp. intros [currency symbols] evs He.
  apply res_bind_ok in He as (ls & Hls & [= <-]). apply Forall_concat.
  eapply map_res_Forall, Hls. intros template one. apply slot_event_synthetic.
Qed.

Lemma synthetic_events_synthetic offset since until l :
  synthetic_calendar_events local_offset offset since until = Ok l -> Forall is_synthetic l.
Proof.
  unfold synthetic_calendar_events. destruct (until <=? since); [intros [= <-]; constructor|].
  intros Hl. apply res_bind_ok in Hl as (first & _ & Hl). revert first l Hl. generalize 12%nat as n, (epoch_2024 offset) as epoch.
  induction n as [|n IH]; intros epoch slot l; cbn [slots_from]; [intros [= <-]; constructor|].
  destruct (until <=? _); [intros [= <-]; constructor|]. intros Hl. apply res_bind_ok in Hl as (a & Ha & Hl).
  apply res_bind_ok in Hl as (b & Hb & [= <-]). apply Forall_app. split; [by eapply slot_events_synthetic|by eapply IH].
Qed.

Lemma save_events_rows events : forall n db r, r ∈ economic_events (foldl (save_event sha256_hex) (n, db) events).2 ->
  r ∈ economic_events db \/
  exists e, e ∈ events /\ ee_timestamp r = instant (ev_timestamp e) /\ ee_provider r = ev_provider e.
Proof.
  induction events as [|e events IH]; intros n db r; [by left|]. cbn [foldl]. unfold save_event at 2.
  unfold insert_unique. intros Hr.
  destruct (existsb _ _); apply IH in Hr as [Hr|(x & Hx & Ht)]; cbn [economic_events] in *; auto.
  - right. exists x. split; [by right|done].
  - apply elem_of_app in Hr as [Hr| ->%list_elem_of_singleton]; [by left|right]. exists e. split; [by left|done].
  - right. exists x. split; [by right|done].
Qed.

Lemma save_news_events items : forall n db,
  economic_events (foldl (save_news_item sha256_hex) (n, db) items).2 = economic_events db.
Proof.
  induction items as [|x items IH]; intros n db; [done|]. cbn [foldl]. unfold save_news_item at 2.
  destruct (insert_unique _ _ _). by rewrite IH.
Qed.

Lemma degrade_ok {A} (r fallback : Res A) x : degrade r fallback = Ok x -> r = Ok x \/ fallback = Ok x.
Proof. unfold degrade. destruct r as [a|e]; [by left|]. destruct (is_content_error e); [by right|done]. Qed.

(** What a cycle stores of the calendar. *)
Lemma cycle_events fe se fn sn cl nl now db db' r : _cycle sha256_hex fe se fn sn cl nl now db = (r, db') ->
  economic_events db' = economic_events db \/
  exists l, (fe (now - hours_td cl) now = Ok l \/ se (now - hours_td cl) now = Ok l) /\
    economic_events db' = economic_events (save_events sha256_hex l db).2.
Proof.
  unfold _cycle, _safe_calendar. destruct (degrade (fe _ _) _) as [l|] eqn:Ed; cbn [res_bind]; [|intros [= _ <-]; by left].
  intros Hc. right. exists l. split; [by apply degrade_ok|]. destruct (save_events sha256_hex l db) as [n db1]. cbn [snd].
  revert Hc. unfold _safe_news. destruct (degrade (fn _ _) _) as [items|]; cbn [res_bind]; [|by intros [= _ <-]].
  pose proof (save_news_events items 0 db1) as Hn. unfold Content.save_news.
  destruct (foldl _ (0, db1) items). by intros [= _ <-].
Qed.

(** The calendar never knows what is to come.  However Finnhub answers and however many
    turns fail, each stored event lies before the turn that stored it or comes from the demo
    generator: the worker asks for the past only, so the agents' window around an upcoming
    event can open no earlier than the event itself. *)
Theorem calendar_never_ahead (polls : list Poll) (r : EconomicEvent) (now : Z) :
  Forall (fun p => po_now p <= now) polls ->
  r ∈ economic_events (foldl (fun db p => (content_turn db p).2) empty_content polls) ->
  ee_timestamp r < now \/ ee_provider r = "synthetic"%string.
Proof.
  intros Hp. induction polls as [|p polls IH] using rev_ind; [by intros ?%elem_of_nil|].
  apply Forall_app in Hp as [Hp [Hnow _]%Forall_cons]. specialize (IH Hp).
  rewrite foldl_app. cbn [foldl]. set (db := foldl _ empty_content polls) in *.
  unfold content_turn. destruct (build_calendar_provider _ _ _ _) as [calendar|] eqn:Ec; [|done].
  destruct (build_news_provider _ _ _ _) as [news|]; [|done].
  destruct (_cycle _ _ _ _ _ _ _ _ _) as [ok db'] eqn:Ecy. cbn [snd].
  destruct (cycle_events _ _ _ _ _ _ _ _ _ _ Ecy) as [->|(l & Hl & ->)]; [done|].
  intros [Hr|(e & He & -> & ->)]%save_events_rows; [by apply IH|].
  assert (Hs : fetch_events (SyntheticCalendarProvider local_offset) (po_now p - hours_td (calendar_lookback_hours settings)) (po_now p) = Ok l ->
    ev_provider e = "synthetic"%string).
  { intros Hf%synthetic_events_synthetic. rewrite Forall_forall in Hf. by apply Hf. }
  destruct Hl as [Hl|Hl]; [|by right; apply Hs]. unfold build_calendar_provider in Ec.
  destruct (wants_finnhub _ _); [|injection Ec as <-; by right; apply Hs]. left.
  apply res_bind_ok in Ec as (client & _ & [= <-]). cbn [fetch_events] in Hl. unfold finnhub_fetch_events in Hl.
  apply res_bind_ok in Hl as (data & _ & Hl). apply res_bind_ok in Hl as (items & _ & Hl).
  apply events_in_ok in Hl. rewrite Forall_forall in Hl. destruct (Hl e He) as [_ [_ ?]]. lia.
Qed.
End Worker.

(** The demo generator breaks the interface: an event of the slot that begins before the
    end of the window may lie after it.  Here the hash favours one template. *)
Definition demo_sparse : Platform :=
  {| uuid4 := @uuid4 demo_platform;
     blake2b_64 s := if String.prefix "forex-ai-synthetic-content|EUR|0|" s then 0 else 2 ^ 63;
     numeric := @numeric demo_platform; fnumeric := @fnumeric demo_platform; sha256_json := @sha256_json demo_platform;
     parse_float := @parse_float demo_platform; py_repr := @py_repr demo_platform |}.
Example synthetic_event_after_window :
  match @synthetic_calendar_events demo_sparse (fun _ => 0) 0 (days_td 19800) (days_td 19800 + seconds_td 3600) with
  | Ok [e] => days_td 19800 + seconds_td 3600 <? instant (ev_timestamp e)
  | _ => false
  end = true.
Proof. lazy. reflexivity. Qed.

(** ** Witnesses *)

(** A service whose first answer is a gateway error. *)
Definition demo_http (n : nat) (path : string) (query : dict string string) : HttpResult :=
  match n with
  | O => Response 502 None
  | S _ =>
      if String.eqb path "/news"
      then Response 200 (Some (VList [VDict [("headline", VStr "ECB holds"); ("datetime", VInt 60);
                                             ("related", VStr "eurusd,AAPL")]]))
      else Response 200 (Some (VDict [("economicCalendar",
             VList [VDict [("event", VStr "CPI YoY"); ("date", VStr "1970-01-01 00:01:00"); ("currency", VStr "usd")]])]))
  end%string.
Definition demo_iso (s : string) : option datetime :=
  if String.eqb s "1970-01-01T00:01:00" then Some {| instant := seconds_td 60; tzinfo := None |} else None.
Definition demo_content : ContentSettings :=
  {| calendar_provider := "Finnhub "; news_provider := "finnhub"; finnhub_api_token := "k";
     calendar_lookback_hours := 48; news_lookback_hours := 24 |}%string.
Notation demo_client := {| _token := "k"%string |}.
Notation demo_events := (@finnhub_fetch_events demo_platform (fun _ => 0) demo_iso demo_http demo_client 0 (seconds_td 3600)).
Notation demo_stories :=
  (@finnhub_fetch_news demo_platform (fun _ => 0) (fun _ => None) demo_http demo_client 0 (seconds_td 3600)).

Lemma demo_fetched : exists es ns, demo_events = Ok es /\ demo_stories = Ok ns /\ length es = 1%nat /\ length ns = 1%nat.
Proof. do 2 eexists. split_and!; vm_compute; reflexivity. Qed.

Lemma finnhub_adapter_sound_witness : exists es ns, length es = 1%nat /\ length ns = 1%nat /\
  Forall (fun e => finnhub_event e /\ in_window 0 (seconds_td 3600) (ev_timestamp e)) es /\
  Forall (fun n => finnhub_story n /\ in_window 0 (seconds_td 3600) (ni_published n)) ns.
Proof.
  destruct demo_fetched as (es & ns & He & Hn & Le & Ln). exists es, ns. split; [exact Le|]. split; [exact Ln|].
  destruct (@finnhub_adapter_sound demo_platform (fun _ => 0) demo_iso (fun _ => None) demo_http demo_client 0
    (seconds_td 3600) es ns) as (_ & H1 & H2 & _).
  split; [exact (H1 He)|exact (H2 Hn)].
Defined.

Notation demo_calendar := (economic_events (foldl (fun db p =>
  (@content_turn demo_platform (fun s => s) (fun _ => 0) demo_iso (fun _ => None) demo_content db p).2)
  empty_content [{| po_now := seconds_td 3600; po_http := demo_http |}])).

Lemma demo_one_event : map ee_timestamp demo_calendar = [seconds_td 60].
Proof. lazy. reflexivity. Qed.

Lemma calendar_never_ahead_witness : map ee_timestamp demo_calendar = [seconds_td 60] /\
  forall r, r ∈ demo_calendar -> ee_timestamp r < seconds_td 3600 \/ ee_provider r = "synthetic"%string.
Proof.
  split; [exact demo_one_event|]. intros r.
  apply (@calendar_never_ahead demo_platform (fun s => s) (fun _ => 0) demo_iso (fun _ => None) demo_content
    [{| po_now := seconds_td 3600; po_http := demo_http |}] r (seconds_td 3600)).
  constructor; [apply Z.le_refl|constructor].
Defined.
