(* ===== verification/Admin.v ===== *)
(** * The admin interface and the backfill queue ([app/api/v1/admin.py],
    [update_risk_params] of [app/api/v1/risk.py], [acknowledge_alert] of
    [app/api/v1/alerts.py], the backfill jobs of [app/workers/ingest_worker.py])

    Bodies are already validated by their schemas; symbols of a job are the texts given. *)

From Stdlib Require Import ZArith Ascii Lia.
From stdpp Require Import base list strings pretty.
From S2P Require Import Prelude PyFloat Timeframes Signals Fusion Risk Decision Tables Candles SignalStore Decide MarketConfig Breaker Bus Ingest Alerts Accounts Access Content.

Definition MARKET_CONFIG_UPDATED : string := "admin.market_config_updated".
Definition BACKFILL_TRIGGERED : string := "admin.backfill_triggered".
Definition RISK_PARAMS_UPDATED : string := "admin.risk_params_updated".
Definition DECISION_REPLAY_TRIGGERED : string := "admin.decision_replay_triggered".
Definition ALERT_ACKNOWLEDGED : string := "admin.alert_acknowledged".

Definition _MAX_BACKFILL_DAYS : Z := 90.

(** ** Redis and the database *)

(** What a handler may change: three groups of tables, the list [jobs:backfill], its left
    end first, and the stream [signals.stream]. *)
Record Admin := {
  ad_accounts : Accounts;
  ad_db : DB;
  ad_alerts : list AlertRow;
  ad_queue : list string;
  ad_stream : list Event
}.

Definition set_ad_db (db : DB) (s : Admin) : Admin :=
  {| ad_accounts := ad_accounts s; ad_db := db; ad_alerts := ad_alerts s; ad_queue := ad_queue s; ad_stream := ad_stream s |}.
Definition set_ad_alerts (v : list AlertRow) (s : Admin) : Admin :=
  {| ad_accounts := ad_accounts s; ad_db := ad_db s; ad_alerts := v; ad_queue := ad_queue s; ad_stream := ad_stream s |}.
Definition add_log (a : AuditLog) (s : Admin) : Admin :=
  {| ad_accounts := add_audit a (ad_accounts s); ad_db := ad_db s; ad_alerts := ad_alerts s; ad_queue := ad_queue s;
     ad_stream := ad_stream s |}.
Definition lpush (x : string) (s : Admin) : Admin :=
  {| ad_accounts := ad_accounts s; ad_db := ad_db s; ad_alerts := ad_alerts s; ad_queue := x :: ad_queue s;
     ad_stream := ad_stream s |}.
Definition xadd (e : Event) (s : Admin) : Admin :=
  {| ad_accounts := ad_accounts s; ad_db := ad_db s; ad_alerts := ad_alerts s; ad_queue := ad_queue s;
     ad_stream := ad_stream s ++ [e] |}.

(** The columns of [audit_log]: the server refuses a longer text, a NUL character, and a
    JSON value with a NUL, a NaN or an infinity. *)
Definition opt_fits (n : nat) (s : option string) : bool := match s with Some s => fits n s | None => true end.
Definition opt_json (d : option (dict string pyval)) : bool := match d with Some d => json_ok (VDict d) | None => true end.
Definition audit_ok (a : AuditLog) : bool :=
  fits 128 (au_actor a) && fits 128 (au_action a) && opt_fits 128 (au_entity_type a)
  && opt_fits 128 (au_entity_id a) && opt_json (au_before a) && opt_json (au_after a) && opt_fits 64 (au_ip a).

(** The audit rows a handler added to its session are ones the server takes; the other
    rows it writes it has flushed, or they are in their columns' bounds. *)
Definition pending_ok (before after : Admin) : bool :=
  forallb audit_ok (drop (length (audit_log (ad_accounts before))) (audit_log (ad_accounts after))).

(** [await session.commit()] at the end of a handler. *)
Definition session_commit {A} (before : Admin) (a : A) (after : Admin) : Res A * Admin :=
  if pending_ok before after then (Ok a, after) else (Err OtherError, after).

Definition rolled_back (before after : Admin) : Admin :=
  {| ad_accounts := ad_accounts before; ad_db := ad_db before; ad_alerts := ad_alerts before;
     ad_queue := ad_queue after; ad_stream := ad_stream after |}.

(** [get_db] around a handler.  A handler that raises is rolled back.  One that returns is
    answered: the dependency commits when the response has been sent, so a commit that
    fails undoes the tables under an answer of success.  What was sent to Redis stays sent. *)
Definition transaction {A} (handler : Admin -> Res A * Admin) (s : Admin) : Res A * Admin :=
  let '(r, s') := handler s in
  match r with
  | Err e => (Err e, rolled_back s s')
  | Ok a => (Ok a, if pending_ok s s' then s' else rolled_back s s')
  end.

(** ** Texts *)

(** [repr] of a printable text, and [str] of a list of texts. *)
Definition quote1 : ascii := "'"%char.
Definition quote2 : ascii := ascii_of_nat 34.
Definition backslash : ascii := ascii_of_nat 92.
Fixpoint has_char (c : ascii) (s : string) : bool :=
  match s with EmptyString => false | String a s => Ascii.eqb a c || has_char c s end.
Fixpoint escape (q : ascii) (s : string) : string :=
  match s with
  | EmptyString => EmptyString
  | String a s => if Ascii.eqb a q || Ascii.eqb a backslash then String backslash (String a (escape q s))
                  else String a (escape q s)
  end.
Definition repr_text (s : string) : string :=
  let q := if has_char quote1 s && negb (has_char quote2 s) then quote2 else quote1 in
  String q (escape q s ++ String q EmptyString)%string.

Section Endpoints.
Context `{Platform}.

Definition repr_value (v : pyval) : string :=
  match v with VStr s => repr_text s | VList _ | VDict _ => py_repr v | _ => py_str v end.
Definition list_text (l : list pyval) : string := ("[" ++ String.concat ", " (map repr_value l) ++ "]")%string.

(** [json.dumps]; the settings of the environment; the caller's address. *)
Context (json_dumps : pyval -> string) (parse_float : string -> option float).
Context (default_symbols default_timeframes : list string) (market_data_provider : string) (risk_settings : RiskParams).
Context (client_ip : Request -> option string).

Definition audit (admin : User) (action entity_type entity_id : string) (after : dict string pyval) (request : Request)
  : AuditLog :=
  {| au_actor := u_email admin; au_action := action; au_entity_type := Some entity_type;
     au_entity_id := Some entity_id; au_before := None; au_after := Some after; au_ip := client_ip request |}.

Record MarketConfigOut := {
  mc_provider : string;
  mc_symbols : list string;
  mc_timeframes : list string;
  mc_supported : list string
}.

(** The response model takes lists of texts. *)
Definition as_text (v : pyval) : Res string := match v with VStr s => Ok s | _ => Err OtherError end.
Definition market_config_out (symbols timeframes : list pyval) : Res MarketConfigOut :=
  ss <-- map_res as_text symbols ;;
  ts <-- map_res as_text timeframes ;;
  Ok {| mc_provider := market_data_provider; mc_symbols := ss; mc_timeframes := ts; mc_supported := _ORDERED |}.

Definition read_market_config (s : Admin) : Res MarketConfigOut :=
  let '(symbols, timeframes) := get_market_config default_symbols default_timeframes (ad_db s) in
  market_config_out symbols timeframes.

(** The flush of rows of [system_settings]: the columns [updated_by_user_id] and [value]. *)
Definition setting_flush (admin : User) (values : list pyval) : Res unit :=
  if fits 64 (u_email admin) && forallb json_ok values then Ok tt else Err OtherError.

Definition update_market_config (symbols timeframes : option (list string)) (request : Request) (admin : User) (s : Admin)
  : Res MarketConfigOut * Admin :=
  match set_market_config default_symbols default_timeframes symbols timeframes (ad_db s) with
  | Err ValueError => (Err InvalidInputError, s)
  | Err e => (Err e, s)
  | Ok ((new_symbols, new_timeframes), db) =>
      match setting_flush admin [VDict [("value", VList new_symbols)]; VDict [("value", VList new_timeframes)]] with
      | Err e => (Err e, s)
      | Ok _ =>
          (market_config_out new_symbols new_timeframes,
           add_log (audit admin MARKET_CONFIG_UPDATED "system_setting" (SYMBOLS_KEY ++ "+" ++ TIMEFRAMES_KEY)
                      [("symbols", VList new_symbols); ("timeframes", VList new_timeframes)] request)
                   (set_ad_db db s))
      end
  end%string.

Record BackfillRequest := {
  bf_symbols : option (list string);
  bf_timeframes : option (list string);
  bf_start : datetime;
  bf_end : datetime
}.

(** [x or y] of an optional list. *)
Definition given_or (given : option (list string)) (effective : list pyval) : list pyval :=
  match given with None | Some [] => effective | Some l => map VStr l end.

Definition backfill_job (body : BackfillRequest) (s : Admin) : list pyval * list pyval * pyval :=
  let '(effective_symbols, effective_timeframes) := get_market_config default_symbols default_timeframes (ad_db s) in
  let symbols := given_or (bf_symbols body) effective_symbols in
  let timeframes := given_or (bf_timeframes body) effective_timeframes in
  (symbols, timeframes,
   VDict [("symbols", VList symbols); ("timeframes", VList timeframes);
          ("start", VStr (isoformat_at (bf_start body))); ("end", VStr (isoformat_at (bf_end body)))]%string).

(** A naive and an aware time cannot be compared. *)
Definition comparable (a b : datetime) : bool :=
  match tzinfo a, tzinfo b with None, None | Some _, Some _ => true | _, _ => false end.

Definition trigger_backfill (body : BackfillRequest) (request : Request) (admin : User) (s : Admin) : Res Z * Admin :=
  if negb (comparable (bf_start body) (bf_end body)) then (Err OtherError, s)
  else if instant (bf_end body) <=? instant (bf_start body) then (Err InvalidInputError, s)
  else if _MAX_BACKFILL_DAYS <? (instant (bf_end body) - instant (bf_start body)) / us_per_day then (Err InvalidInputError, s)
  else
    let '(symbols, timeframes, job) := backfill_job body s in
    (Ok 1,
     add_log (audit admin BACKFILL_TRIGGERED "backfill_job" (list_text symbols ++ "|" ++ list_text timeframes)
                [("start", VStr (isoformat_at (bf_start body))); ("end", VStr (isoformat_at (bf_end body)))] request)
             (lpush (json_dumps job) s))%string.

Definition replay_event (symbol timeframe : string) (now : Z) : Event :=
  {| event_type := "signal.emitted";
     payload := [("agent_id", VStr "replay"); ("symbol", VStr symbol); ("timeframe", VStr timeframe)];
     producer := "admin"; produced_at := now |}%string.

Definition replay_decision (symbol timeframe : string) (now : Z) (request : Request) (admin : User) (s : Admin)
  : Res (string * string) * Admin :=
  let symbol := str_upper (py_strip symbol) in
  let timeframe := str_upper (py_strip timeframe) in
  session_commit s (symbol, timeframe)
   (add_log (audit admin DECISION_REPLAY_TRIGGERED "decision" (symbol ++ "|" ++ timeframe)
              [("symbol", VStr symbol); ("timeframe", VStr timeframe)] request)
           (xadd (replay_event symbol timeframe now) s))%string.

(** [RiskParams.to_dict]. *)
Definition risk_dict (p : RiskParams) : dict string pyval :=
  map (fun '(key, _) => (key, VFloat (get_param key p))) _EDITABLE
  ++ [("risk_enabled", VBool (risk_enabled p)); ("paper_equity", VFloat (paper_equity p))]%string.

Definition RISK_SETTING_KEY : string := "risk.params".

(** [updates] are the fields of the body that are not [None]. *)
Definition update_risk_params (updates : dict string pyval) (request : Request) (admin : User) (s : Admin)
  : Res RiskParams * Admin :=
  let row := dget RISK_SETTING_KEY (system_settings (ad_db s)) in
  match (x <-- set_risk_params parse_float risk_settings row updates ;; _ <-- setting_flush admin [x.2] ;; Ok x) with
  | Err e => (Err e, s)
  | Ok (resolved, stored) =>
      session_commit s resolved
       (add_log (audit admin RISK_PARAMS_UPDATED "system_setting" RISK_SETTING_KEY
                  [("updates", VDict updates); ("resolved", VDict (risk_dict resolved))] request)
               (set_ad_db (set_system_settings (dset RISK_SETTING_KEY stored (system_settings (ad_db s))) (ad_db s)) s))%string
  end.

Definition acknowledge_alert (event_id : string) (now : Z) (request : Request) (admin : User) (s : Admin)
  : Res AlertRow * Admin :=
  let '(hit, rows) := ack_alert event_id (u_email admin) now (ad_alerts s) in
  if has_nul event_id || hit && negb (fits 128 (u_email admin)) then (Err OtherError, s)
  else match get_alert event_id rows with
       | None => (Err NotFoundError, set_ad_alerts rows s)
       | Some row =>
           (Ok row,
            add_log (audit admin ALERT_ACKNOWLEDGED "alert_event" event_id
                       [("acknowledged_at", match ar_acknowledged_at row with Some t => VStr (isoformat t) | None => VNone end)]
                       request)
                    (set_ad_alerts rows s))%string
       end.
End Endpoints.

(** ** An admin request *)

Section Requests.
Context `{Platform} (uuid_str : Z -> string) (jwt_decode : Z -> string -> option (dict string pyval))
  (parse_uuid : string -> option Z).
Context (json_dumps : pyval -> string) (parse_float : string -> option float).
Context (default_symbols default_timeframes : list string) (market_data_provider : string) (risk_settings : RiskParams).
Context (client_ip : Request -> option string).

Inductive AdminCall :=
| UpdateMarketConfig (symbols timeframes : option (list string))
| TriggerBackfill (body : BackfillRequest)
| ReplayDecision (symbol timeframe : string)
| UpdateRiskParams (updates : dict string pyval)
| AcknowledgeAlert (event_id : string)
| UpdateUser (user_id : Z) (role : option UserRole) (active : option bool).

Definition ignore {A S} (r : Res A * S) : Res unit * S := ((_ <-- r.1 ;; Ok tt), r.2).

Definition handler (call : AdminCall) (now : Z) (request : Request) (admin : User) (s : Admin) : Res unit * Admin :=
  match call with
  | UpdateMarketConfig symbols timeframes =>
      ignore (update_market_config default_symbols default_timeframes market_data_provider client_ip symbols timeframes
                request admin s)
  | TriggerBackfill body =>
      ignore (trigger_backfill json_dumps default_symbols default_timeframes client_ip body request admin s)
  | ReplayDecision symbol timeframe => ignore (replay_decision client_ip symbol timeframe now request admin s)
  | UpdateRiskParams updates => ignore (update_risk_params parse_float risk_settings client_ip updates request admin s)
  | AcknowledgeAlert event_id => ignore (acknowledge_alert client_ip event_id now request admin s)
  | UpdateUser user_id role active =>
      let '(r, accounts) := update_user uuid_str admin user_id role active (client_ip request) (ad_accounts s) in
      ((_ <-- r ;; Ok tt),
       {| ad_accounts := accounts; ad_db := ad_db s; ad_alerts := ad_alerts s; ad_queue := ad_queue s; ad_stream := ad_stream s |})
  end.

(** The dependency [AdminUser], then the handler in its transaction. *)
Definition admin_request (call : AdminCall) (now : Z) (bearer : option string) (request : Request) (s : Admin)
  : Res unit * Admin :=
  match require_role jwt_decode parse_uuid "admin" now bearer (ad_accounts s) with
  | Err e => (Err e, s)
  | Ok admin => transaction (handler call now request admin) s
  end.
End Requests.

(** ** The backfill queue *)

(** [RPOP]: the right end of the list. *)
Definition rpop (q : list string) : option (string * list string) :=
  match rev q with [] => None | raw :: rest => Some (raw, rev rest) end.

Section Queue.
Context (json_loads : string -> option pyval).

(** [drain_backfill_queue]; each turn pops one entry, so the queue's length bounds them. *)
Fixpoint drain_loop (fuel limit : nat) (jobs : list pyval) (q : list string) : list pyval * list string :=
  match fuel with
  | O => (jobs, q)
  | S fuel =>
      if Nat.ltb (length jobs) limit then
        match rpop q with
        | None => (jobs, q)
        | Some (raw, q) => drain_loop fuel limit (match json_loads raw with Some j => jobs ++ [j] | None => jobs end) q
        end
      else (jobs, q)
  end.
Definition drain_backfill_queue (limit : nat) (q : list string) : list pyval * list string :=
  drain_loop (S (length q)) limit [] q.
End Queue.

Section Worker.
Context `{Platform}.
Context (json_loads : string -> option pyval) (fromisoformat : string -> option datetime).
Context (st : IngestSettings) (provider : DataProvider) (caches : string -> bool) (accepts : Event -> bool) (text : PyErr -> string).

(** A list of texts, as every job of the API holds; anything else fails the job. *)
Definition texts (v : pyval) : Res (list string) :=
  match v with VList l => map_res as_text l | _ => Err OtherError end.

Definition job_field (key : string) (dflt : Res pyval) (job : pyval) : Res pyval :=
  match job with VDict d => match dget key d with Some v => Ok v | None => dflt end | _ => Err OtherError end.

Definition job_time (key : string) (job : pyval) : Res datetime :=
  v <-- job_field key (Err KeyError) job ;;
  match v with
  | VStr s => match fromisoformat s with Some t => Ok t | None => Err ValueError end
  | _ => Err OtherError
  end.

(** The instruments the worker knows, and the service's state. *)
Definition WorkerState : Type := dict string Instrument * Ingest.

(** Instruments not known yet are stored and remembered. *)
Definition unknown_symbols (symbols : list string) (known : dict string Instrument) : list string :=
  List.filter (fun s => match dget s known with None => true | Some _ => false end) symbols.
Definition seed_unknown (symbols : list string) (w : WorkerState) : WorkerState :=
  let '(known, s) := w in
  match unknown_symbols symbols known with
  | [] => (known, s)
  | unknown => let '(newly, db) := ensure_instruments unknown (in_db s) in
               (foldl (fun d '(k, i) => dset k i d) known newly, set_in_db db s)
  end.

(** The body of the try block of [drain_backfills]: what it did before it raised, or all. *)
Definition run_job (clock : nat -> datetime) (job : pyval) (w : WorkerState) : Res (list SeriesResult) * WorkerState :=
  match (v <-- job_field "symbols" (Ok (VList [])) job ;; texts v) with
  | Err e => (Err e, w)
  | Ok given =>
      let symbols := map str_upper given in
      let '(known, s) := seed_unknown symbols w in
      let instruments := omap (fun s => dget s known) symbols in
      match (v <-- job_field "timeframes" (Ok (VList [])) job ;; tfs <-- texts v ;;
             start <-- job_time "start" job ;; stop <-- job_time "end" job ;; Ok (tfs, start, stop)) with
      | Err e => (Err e, (known, s))
      | Ok (tfs, start, stop) =>
          match run_backfill st provider caches accepts text clock instruments tfs start stop s with
          | Err e => (Err e, (known, s))
          | Ok (results, s) => (Ok results, (known, s))
          end
      end
  end.

Definition drain_limit : nat := 5.

(** [drain_backfills]: one bad job must not stop the others. *)
Definition drain_backfills (clock : nat -> nat -> datetime) (q : list string) (w : WorkerState)
  : list (Res (list SeriesResult)) * WorkerState * list string :=
  let '(jobs, q) := drain_backfill_queue json_loads drain_limit q in
  let '(out, w) := foldl (fun '(out, w) '(n, job) => let '(r, w) := run_job (clock n) job w in (out ++ [r], w))
                         ([], w) (imap (fun n job => (n, job)) jobs) in
  (out, w, q).
End Worker.

(** ** Properties *)

Section Audited.
Context `{Platform} (uuid_str : Z -> string) (jwt_decode : Z -> string -> option (dict string pyval))
  (parse_uuid : string -> option Z).
Context (json_dumps : pyval -> string) (parse_float : string -> option float).
Context (default_symbols default_timeframes : list string) (market_data_provider : string) (risk_settings : RiskParams).
Context (client_ip : Request -> option string).

Notation handler := (handler uuid_str json_dumps parse_float default_symbols default_timeframes market_data_provider risk_settings client_ip).
Notation admin_request := (admin_request uuid_str jwt_decode parse_uuid json_dumps parse_float default_symbols default_timeframes
  market_data_provider risk_settings client_ip).

Definition action_of (call : AdminCall) : string :=
  match call with
  | UpdateMarketConfig _ _ => MARKET_CONFIG_UPDATED
  | TriggerBackfill _ => BACKFILL_TRIGGERED
  | ReplayDecision _ _ => DECISION_REPLAY_TRIGGERED
  | UpdateRiskParams _ => RISK_PARAMS_UPDATED
  | AcknowledgeAlert _ => ALERT_ACKNOWLEDGED
  | UpdateUser _ _ _ => USER_UPDATED
  end.

(** One row, by the caller, of the call's kind. *)
Definition logged (call : AdminCall) (request : Request) (admin : User) (s s' : Admin) : Prop :=
  exists a, audit_log (ad_accounts s') = audit_log (ad_accounts s) ++ [a] /\
    au_actor a = u_email admin /\ au_action a = action_of call /\ au_ip a = client_ip request.

Definition tables_kept (s s' : Admin) : Prop :=
  ad_accounts s' = ad_accounts s /\ ad_db s' = ad_db s /\ ad_alerts s' = ad_alerts s.
Definition redis_kept (s s' : Admin) : Prop := ad_queue s' = ad_queue s /\ ad_stream s' = ad_stream s.

(** The calls that commit before they are answered, and those that send to Redis. *)
Definition commits_itself (call : AdminCall) : bool :=
  match call with ReplayDecision _ _ | UpdateRiskParams _ => true | _ => false end.
Definition sends (call : AdminCall) : bool :=
  match call with TriggerBackfill _ | ReplayDecision _ _ => true | _ => false end.

Lemma handler_logged call now request admin s : (handler call now request admin s).1 = Ok tt ->
  logged call request admin s (handler call now request admin s).2 /\
  (commits_itself call = true -> pending_ok s (handler call now request admin s).2 = true).
Proof.
  unfold logged. destruct call; cbn [handler action_of commits_itself]; unfold ignore; cbn [fst snd].
  - unfold update_market_config. destruct (set_market_config _ _ _ _ _) as [[[ns nt] db]|[]]; try done.
    destruct (setting_flush admin _); [|done]. cbn [fst snd]. intros _. split; [by eexists|done].
  - unfold trigger_backfill. repeat (case_match; try done). intros _. split; [by eexists|done].
  - unfold replay_decision, session_commit. destruct (pending_ok _ _) eqn:E; [|done]. cbn [fst snd]. intros _.
    split; [by eexists|done].
  - unfold update_risk_params. destruct (set_risk_params _ _ _ _) as [[resolved stored]|]; cbn [res_bind snd]; [|done].
    destruct (setting_flush _ _); cbn [res_bind]; [|done].
    unfold session_commit. destruct (pending_ok _ _) eqn:E; [|done]. cbn [fst snd]. intros _. split; [by eexists|done].
  - unfold acknowledge_alert. repeat (case_match; try done); intros _; (split; [by eexists|done]).
  - unfold update_user. repeat (case_match; simplify_eq; try done); intros _; (split; [by eexists|done]).
Qed.

(** A handler that raises has sent nothing to Redis, but for a replay whose own commit failed;
    the calls that send nothing never do. *)
Lemma handler_redis call now request admin s :
  let x := handler call now request admin s in
  redis_kept s x.2 \/
  sends call = true /\ (is_ok x.1 = true \/ commits_itself call = true /\ pending_ok s x.2 = false).
Proof.
  unfold redis_kept. destruct call; cbn [handler sends commits_itself]; unfold ignore; cbn [fst snd].
  - left. unfold update_market_config. repeat (case_match; simplify_eq; try done).
  - unfold trigger_backfill. repeat (case_match; simplify_eq; try by left). right. by auto.
  - right. split; [done|]. unfold replay_decision, session_commit. destruct (pending_ok _ _) eqn:E; [by left|by right].
  - left. unfold update_risk_params. destruct (set_risk_params _ _ _ _) as [[resolved stored]|]; cbn [res_bind snd]; [|done].
    destruct (setting_flush _ _); cbn [res_bind]; [|done].
    unfold session_commit. by destruct (pending_ok _ _).
  - left. unfold acknowledge_alert. repeat (case_match; simplify_eq; try done).
  - left. by destruct (update_user _ _ _ _ _ _ _).
Qed.

Lemma admin_role now bearer accounts admin :
  require_role jwt_decode parse_uuid "admin" now bearer accounts = Ok admin -> u_role admin = ADMIN /\ is_active admin = true.
Proof.
  unfold require_role. intros Er. apply res_bind_ok in Er as (user & Hu & Er).
  destruct (role_at_least _ _) eqn:Eu; [|done]. injection Er as ->. split; [by destruct (u_role admin)|].
  unfold get_current_user in Hu. destruct bearer; [|done]. apply res_bind_ok in Hu as (payload & _ & Hu).
  destruct (parse_uuid _); [|done]. destruct (get_user _ _) as [u|]; [|done].
  destruct (is_active u) eqn:Ei; [|done]. by injection Hu as ->.
Qed.

Lemma not_logged call request admin s s' : ad_accounts s' = ad_accounts s -> ~ logged call request admin s s'.
Proof.
  intros E (a & Ha & _). rewrite E in Ha. apply (f_equal length) in Ha. rewrite length_app in Ha. cbn [length] in Ha. lia.
Qed.

(** C35: nothing an administrator does to the tables goes unrecorded, and nobody else does
    anything.  A request whose caller is no active administrator changes nothing.  Any other
    either adds exactly one audit row, with the caller's e-mail and address and the action's
    name, or leaves every table as it was; and then it has sent nothing to Redis either,
    except a backfill or a replay whose audit row the database refused.  A request that
    fails leaves every table as it was.  One that is answered with success is recorded
    exactly when the database takes its audit row; when it does not, the answer was sent
    before the commit failed and nothing was done, which cannot happen to a replay or to an
    update of the risk parameters: these commit before they answer. *)
Theorem admin_action_audited (call : AdminCall) (now : Z) (bearer : option string) (request : Request) (s : Admin) :
  let '(r, s') := admin_request call now bearer request s in
  match require_role jwt_decode parse_uuid "admin" now bearer (ad_accounts s) with
  | Err e => r = Err e /\ s' = s
  | Ok admin =>
      let refused := negb (pending_ok s (handler call now request admin s).2) in
      u_role admin = ADMIN /\ is_active admin = true /\
      (logged call request admin s s' \/
       tables_kept s s' /\ (redis_kept s s' \/ sends call = true /\ refused = true)) /\
      (forall e, r = Err e -> tables_kept s s') /\
      (r = Ok tt -> (logged call request admin s s' <-> refused = false) /\
                    (refused = true -> commits_itself call = false))
  end.
Proof.
  unfold Admin.admin_request. destruct (require_role _ _ _ _ _ _) as [admin|e] eqn:Er; [|done].
  apply admin_role in Er as [Hadm Hact]. unfold transaction. cbv zeta.
  pose proof (handler_logged call now request admin s) as Hl. pose proof (handler_redis call now request admin s) as Hr.
  destruct (handler call now request admin s) as [r s1]. cbn [fst snd] in *.
  destruct r as [[]|e]; (split; [done|]); (split; [done|]).
  - destruct (Hl eq_refl) as [Hlog Hc]. destruct (pending_ok s s1) eqn:Ep; cbn [negb].
    + split; [by left|]. split; [done|]. done.
    + split; [|split; [done|]].
      * right. split; [done|]. destruct Hr as [Hr|[Hr _]]; [by left|by right].
      * intros _. split; [|intros _; destruct (commits_itself call) eqn:Eci; [by discriminate (Hc eq_refl)|done]]. split; [|done]. intros H'. by apply not_logged in H'.
  - split; [|done]. right. split; [done|]. destruct Hr as [Hr|[Hr [Hk|[_ ->]]]]; [by left|discriminate Hk|by right].
Qed.

(** A backfill of many symbols runs unrecorded.  When the symbols and timeframes of an
    accepted request spell more than the 128 characters of the audit row's column (eleven
    symbols do), the caller is answered that the job is queued, and it is, for the ingest
    worker to run; but the commit that follows the answer fails, and no audit row is
    written. *)
Theorem long_backfill_unaudited (body : BackfillRequest) (now : Z) (bearer : option string) (request : Request)
    (s : Admin) (admin : User) (symbols timeframes : list pyval) (job : pyval) :
  require_role jwt_decode parse_uuid "admin" now bearer (ad_accounts s) = Ok admin ->
  comparable (bf_start body) (bf_end body) = true -> instant (bf_start body) < instant (bf_end body) ->
  (instant (bf_end body) - instant (bf_start body)) / us_per_day <= _MAX_BACKFILL_DAYS ->
  backfill_job default_symbols default_timeframes body s = (symbols, timeframes, job) ->
  (128 < String.length (list_text symbols ++ "|" ++ list_text timeframes)%string)%nat ->
  let '(r, s') := admin_request (TriggerBackfill body) now bearer request s in
  r = Ok tt /\ audit_log (ad_accounts s') = audit_log (ad_accounts s) /\
  ad_queue s' = json_dumps job :: ad_queue s.
Proof.
  intros Hadm Hc Hlt Hd Hj Hlong. unfold Admin.admin_request. rewrite Hadm. unfold transaction. cbn [Admin.handler].
  unfold ignore, trigger_backfill. rewrite Hc. replace (instant (bf_end body) <=? instant (bf_start body)) with false by lia.
  replace (_MAX_BACKFILL_DAYS <? _) with false by lia. cbn [negb]. rewrite Hj. cbn [fst snd res_bind].
  replace (pending_ok _ _) with false; [done|]. symmetry. unfold pending_ok. cbn [ad_accounts add_log lpush audit_log add_audit].
  rewrite drop_app_length. cbn [forallb]. apply andb_false_iff. left. unfold audit_ok.
  cbn [au_actor au_action au_entity_type au_entity_id au_before au_after au_ip audit opt_fits]. unfold fits at 4.
  replace (Nat.leb _ 128) with false; [by rewrite !andb_false_r, ?andb_false_l|].
  symmetry. apply Nat.leb_gt. exact Hlong.
Qed.
End Audited.

(** ** The queue *)

Lemma rpop_app q raw : rpop (raw :: q) = match rpop q with Some (x, r) => Some (x, raw :: r) | None => Some (raw, []) end.
Proof.
  unfold rpop. cbn [rev]. destruct (rev q) as [|x l]; [done|]. cbn [app]. by rewrite rev_app_distr.
Qed.

Lemma rpop_snoc q raw : rpop (q ++ [raw]) = Some (raw, q).
Proof. unfold rpop. rewrite rev_app_distr. cbn. by rewrite rev_involutive. Qed.

Section Drained.
Context (json_loads : string -> option pyval).

(** The loop takes entries from the right until it has enough jobs or none is left. *)
Lemma drain_loop_spec limit : forall fuel jobs q, (length q < fuel)%nat -> (length jobs <= limit)%nat ->
  let '(jobs', q') := drain_loop json_loads fuel limit jobs q in
  exists taken, rev q = taken ++ rev q' /\ jobs' = jobs ++ omap json_loads taken /\ (length jobs' <= limit)%nat /\
    ((length jobs' < limit)%nat -> q' = []).
Proof.
  induction fuel as [|fuel IH]; intros jobs q Hf Hj; [lia|]. cbn [drain_loop].
  destruct (Nat.ltb_spec (length jobs) limit) as [Hlt|Hge].
  - destruct (rpop q) as [[raw q1]|] eqn:Ep; unfold rpop in Ep.
    + destruct (rev q) as [|x l] eqn:Eq; [done|]. injection Ep as -> <-.
      assert (Hlen : length q = S (length l)) by (rewrite <- (length_rev q), Eq; done).
      specialize (IH (match json_loads raw with Some j => jobs ++ [j] | None => jobs end) (rev l)).
      destruct (drain_loop _ _ _ _ _) as [jobs' q']. destruct IH as (taken & Et & -> & Hl & Hq).
      * rewrite length_rev. lia.
      * destruct (json_loads raw); rewrite ?length_app; cbn [length]; lia.
      * exists (raw :: taken). rewrite rev_involutive in Et. rewrite Et. cbn [omap list_omap app].
        destruct (json_loads raw); [rewrite <- app_assoc in *|]; done.
    + exists []. rewrite app_nil_r. destruct (rev q) as [|x l] eqn:Eq; [|done].
      assert (q = []) as -> by (rewrite <- (rev_involutive q), Eq; done). split_and!; try done.
  - exists []. rewrite app_nil_r. split_and!; try done. lia.
Qed.

(** Backfill jobs are served in the order they were queued.  Draining always ends; it
    takes the oldest entries, drops those that do not parse, leaves the rest in place, and
    stops early only on an empty queue; so jobs that parse are handed out first come, first
    served, each once, at most [limit] at a time. *)
Theorem backfill_fifo (json_dumps : pyval -> string) (limit : nat) (q : list string) (jobs : list pyval) :
  Forall (fun j => json_loads (json_dumps j) = Some j) jobs ->
  (let '(out, q') := drain_backfill_queue json_loads limit q in
   exists taken, rev q = taken ++ rev q' /\ out = omap json_loads taken /\ (length out <= limit)%nat /\
     ((length out < limit)%nat -> q' = [])) /\
  drain_backfill_queue json_loads limit (rev (map json_dumps jobs)) =
    (take limit jobs, rev (map json_dumps (drop limit jobs))).
Proof.
  intros Hj. split.
  - pose proof (drain_loop_spec limit (S (length q)) [] q) as Hd. unfold drain_backfill_queue.
    destruct (drain_loop _ _ _ _ _) as [out q']. apply Hd; simpl; lia.
  - unfold drain_backfill_queue. rewrite length_rev, length_map.
    assert (Hgen : forall js fuel acc, Forall (fun j => json_loads (json_dumps j) = Some j) js ->
      (length js < fuel)%nat -> (length acc <= limit)%nat ->
      drain_loop json_loads fuel limit acc (rev (map json_dumps js)) =
        (acc ++ take (limit - length acc) js, rev (map json_dumps (drop (limit - length acc) js)))).
    { induction js as [|j js IH]; intros fuel acc Hp Hf Ha; (destruct fuel as [|fuel]; [simpl in Hf; lia|]); cbn [drain_loop map rev].
      - rewrite take_nil, drop_nil, app_nil_r. by destruct (Nat.ltb _ _).
      - apply Forall_cons in Hp as [Hj0 Hp]. destruct (Nat.ltb_spec (length acc) limit) as [Hlt|Hge].
        + rewrite rpop_snoc, Hj0, IH; [|done|simpl in Hf; lia|rewrite length_app; cbn [length]; lia].
          rewrite length_app. cbn [length]. replace (limit - length acc)%nat with (S (limit - (length acc + 1))) by lia.
          cbn [take drop]. by rewrite <- app_assoc.
        + replace (limit - length acc)%nat with 0%nat by lia. cbn [take drop map rev]. by rewrite app_nil_r. }
    rewrite Hgen; [|done|lia|simpl; lia]. cbn [length app]. by rewrite Nat.sub_0_r.
Qed.
End Drained.

(** ** Witnesses *)

Definition demo_admin : User :=
  {| u_id := 7; u_email := "ops@example.com"; hashed_password := ""; u_role := ADMIN; is_active := true;
     last_login_at := None |}%string.
Definition demo_token (now : Z) (raw : string) : option (dict string pyval) :=
  if String.eqb raw "key" then Some [("sub", VStr "7"); ("type", VStr "access"); ("iat", VInt 0); ("exp", VInt 100)]%string
  else None.
Definition demo_admin_state : Admin :=
  {| ad_accounts := {| users := [demo_admin]; refresh_tokens := []; audit_log := []; draws := O |}; ad_db := empty_db;
     ad_alerts := []; ad_queue := []; ad_stream := [] |}.
Definition demo_pairs : list string :=
  ["EURUSD"; "GBPUSD"; "USDJPY"; "AUDUSD"; "USDCAD"; "USDCHF"; "NZDUSD"; "EURGBP"; "EURJPY"; "GBPJPY"; "AUDJPY"]%string.
Definition demo_backfill : BackfillRequest :=
  {| bf_symbols := Some demo_pairs; bf_timeframes := None; bf_start := utc 0; bf_end := utc (days_td 7) |}.
Definition demo_request : Request := {| rq_client := None; rq_headers := [] |}.
Definition demo_dumps (v : pyval) : string := match v with VStr s => s | _ => "{}"%string end.
Notation demo_job := (backfill_job ["EURUSD"]%string ["M15"; "H1"; "H4"]%string demo_backfill demo_admin_state).

Lemma demo_caller : @require_role demo_platform demo_token (fun s => if String.eqb s "7" then Some 7 else None) "admin" 0 (Some "key"%string)
  (ad_accounts demo_admin_state) = Ok demo_admin.
Proof. vm_compute. reflexivity. Qed.

Lemma demo_long : (128 < String.length (@list_text demo_platform demo_job.1.1 ++ "|" ++ @list_text demo_platform demo_job.1.2)%string)%nat.
Proof. vm_compute. lia. Qed.

Lemma long_backfill_unaudited_witness :
  exists r s', @admin_request demo_platform pretty demo_token (fun s => if String.eqb s "7" then Some 7 else None) demo_dumps
    (fun _ => None) ["EURUSD"]%string ["M15"; "H1"; "H4"]%string "synthetic"%string sample_params rq_client
    (TriggerBackfill demo_backfill) 0 (Some "key"%string) demo_request demo_admin_state = (r, s') /\
  r = Ok tt /\ audit_log (ad_accounts s') = [] /\ ad_queue s' = ["{}"%string].
Proof.
  pose proof (@long_backfill_unaudited demo_platform pretty demo_token (fun s => if String.eqb s "7" then Some 7 else None) demo_dumps
    (fun _ => None) ["EURUSD"]%string ["M15"; "H1"; "H4"]%string "synthetic"%string sample_params rq_client
    demo_backfill 0 (Some "key"%string) demo_request demo_admin_state demo_admin demo_job.1.1 demo_job.1.2 demo_job.2
    demo_caller eq_refl eq_refl ltac:(vm_compute; discriminate) eq_refl demo_long) as Hw.
  destruct (admin_request _ _ _ _ _ _ _ _ _ _ _ _ _ _ _) as [r s']. exists r, s'. split; [reflexivity|]. exact Hw.
Defined.

Lemma backfill_fifo_witness :
  drain_backfill_queue (fun s => Some (VStr s)) 5 (rev (map demo_dumps [VStr "a"; VStr "b"]))%string =
    ([VStr "a"; VStr "b"], [])%string.
Proof.
  refine (proj2 (backfill_fifo (fun s => Some (VStr s)) demo_dumps 5 [] [VStr "a"; VStr "b"]%string _)).
  repeat constructor.
Defined.
