(* ===== verification/Oanda.v ===== *)
(** * The practice adapter of OANDA ([app/data/providers/oanda.py], [Tick] of
    [app/data/providers/base.py], [app/data/providers/factory.py])

    The service is what it answers to the n-th request; the stream is the lines it sends
    before it ends.  [Decimal] of a text is written out for ASCII digits. *)

From Stdlib Require Import ZArith Ascii Lia.
From stdpp Require Import base list strings pretty.
From S2P Require Import Prelude PyFloat Timeframes Signals Fusion Risk Decision Tables Candles Breaker Bus Ingest PyFormat Synthetic News Content ContentSources Config.

Open Scope Z_scope.

Definition _GRANULARITY : dict string string :=
  [("M5", "M5"); ("M15", "M15"); ("H1", "H1"); ("H4", "H4"); ("D1", "D")]%string.
Definition _MAX_CANDLES_PER_REQUEST : Z := 5000.

(** ** Texts *)

Definition to_oanda_symbol (symbol : string) : string := (str_take 3 symbol ++ "_" ++ str_drop 3 symbol)%string.

(** [s.partition(sep)]: what precedes the first separator, and what follows it. *)
Fixpoint partition (sep : ascii) (s : string) : string * option string :=
  match s with
  | EmptyString => (EmptyString, None)
  | String c s => if Ascii.eqb c sep then (EmptyString, Some s)
                  else let '(a, b) := partition sep s in (String c a, b)
  end.

(** [s.ljust(n, "0")]. *)
Definition ljust_zeros (n : nat) (s : string) : string := (s ++ zeros (n - String.length s))%string.

(** [Decimal(text)]; [None] is [InvalidOperation].  White space around the number and
    underscores are ignored, and the value is exact. *)
Definition digit_value (c : ascii) : option Z :=
  let n := Z.of_nat (nat_of_ascii c) in if (48 <=? n) && (n <=? 57) then Some (n - 48) else None.

Fixpoint span_digits (acc : Z) (count : nat) (s : string) : Z * nat * string :=
  match s with
  | String c rest => match digit_value c with
                     | Some d => span_digits (10 * acc + d) (S count) rest
                     | None => (acc, count, s)
                     end
  | EmptyString => (acc, count, s)
  end.

Definition signed_text (s : string) : Z * string :=
  match s with
  | String "-" s => (-1, s)
  | String "+" s => (1, s)
  | _ => (1, s)
  end.

(** [e] or [E], a sign and digits, then the end. *)
Definition exponent_text (s : string) : option Z :=
  match s with
  | EmptyString => Some 0
  | String c s =>
      if Ascii.eqb (ascii_lower c) "e" then
        let '(sign, s) := signed_text s in
        match span_digits 0 0 s with
        | (e, S _, EmptyString) => Some (sign * e)
        | _ => None
        end
      else None
  end.

(** The largest exponent of a number, and the least of its last digit. *)
Definition MAX_EMAX : Z := 999999999999999999.
Definition MIN_ETINY : Z := -1999999999999999997.
Definition exact_dec (c e : Z) : option Decimal :=
  let top := if c =? 0 then e else e + ndigits 2000 (Z.abs c) - 1 in
  if (top <=? MAX_EMAX) && (MIN_ETINY <=? e) then Some (Dec c e) else None.

Definition finite_text (sign : Z) (s : string) : option Decimal :=
  let '(v, n, s) := span_digits 0 0 s in
  let '(v, f, s) := match s with String "." s => span_digits v 0 s | _ => (v, O, s) end in
  if Nat.eqb (n + f) 0 then None
  else match exponent_text s with
       | Some e => exact_dec (sign * v) (e - Z.of_nat f)
       | None => None
       end.

Definition all_digits (s : string) : bool := match span_digits 0 0 s with (_, _, EmptyString) => true | _ => false end.

Definition decimal_of_text (text : string) : option Decimal :=
  let '(sign, s) := signed_text (remove_char "_" (py_strip text)) in
  let l := str_lower s in
  if String.eqb l "inf" || String.eqb l "infinity" then
    Some (DSpecial (S754_infinity (sign <? 0)))
  else if String.eqb (str_take 3 l) "nan" && all_digits (str_drop 3 l)
          || String.eqb (str_take 4 l) "snan" && all_digits (str_drop 4 l) then Some (DSpecial S754_nan)
  else finite_text sign s.

Example decimal_price : decimal_of_text " 1.08_512 " = Some (Dec 108512 (-5)). Proof. reflexivity. Qed.
Example decimal_exp : decimal_of_text "-.5E+3" = Some (Dec (-5) 2). Proof. reflexivity. Qed.
Example decimal_bad : decimal_of_text "1,5" = None. Proof. reflexivity. Qed.

(** [Decimal(value)] of a JSON value: a list is no triple of sign, digits and exponent. *)
Definition decimal_of (v : pyval) : Res Decimal :=
  match v with
  | VStr s => match decimal_of_text s with Some d => Ok d | None => Err OtherError end
  | VInt n => Ok (Dec n 0)
  | VBool b => Ok (Dec (if b then 1 else 0) 0)
  | VFloat x => Ok (dec_of_float x)
  | VList _ => Err ValueError
  | VNone | VDict _ => Err OtherError
  end.

(** ** The client *)

Definition _classify_status (status_code : Z) : PyErr :=
  if (status_code =? 429) || ((500 <=? status_code) && (status_code <? 600)) then ProviderTransientError
  else ProviderError.

Record OandaClient := { oc_token : string }.
Definition make_oanda (api_token : string) : Res OandaClient :=
  if String.eqb api_token "" then Err ValueError else Ok {| oc_token := api_token |}.

(** One attempt of [_get_candles_page]; the body is parsed outside the try block. *)
Definition oanda_once (r : HttpResult) : Res pyval :=
  match r with
  | TransportError => Err ProviderTransientError
  | RequestFailed => Err OtherError
  | Response status json =>
      if negb (status =? 200) then Err (_classify_status status)
      else match json with Some v => Ok v | None => Err ValueError end
  end.

Definition provider_transient (e : PyErr) : bool := bool_decide (e = ProviderTransientError).

Record Tick := { tk_symbol : string; tk_bid : Decimal; tk_ask : Decimal; tk_ts : Z; tk_source : string }.

Section Oanda.
Context `{Platform}.
(** [json.loads], [datetime.fromisoformat] and [int(value)]; [None] is an exception. *)
Context (json_loads : string -> option pyval) (fromisoformat : string -> option datetime) (py_int : pyval -> option Z).

(** Nanoseconds are cut to microseconds. *)
Definition parse_oanda_time (raw : string) : Res datetime :=
  let base := remove_char "Z" (py_strip raw) in
  let text := match partition "." base with
              | (head, Some frac) => (head ++ "." ++ ljust_zeros 6 (str_take 6 frac) ++ "+00:00")%string
              | (_, None) => (base ++ "+00:00")%string
              end in
  match fromisoformat text with Some t => Ok t | None => Err ValueError end.

(** [mid[key]]. *)
Definition subscript (key : string) (v : pyval) : Res pyval :=
  match v with VDict d => dindex key d | _ => Err OtherError end.

Definition price_of (decimals : nat) (mid : pyval) (key : string) : Res Decimal :=
  v <-- subscript key mid ;; d <-- decimal_of v ;; quantize decimals d.

Definition decimals_for (symbol : string) : nat :=
  if bool_decide (pip_size_for symbol = Dec 1 (-2)) then 3%nat else 5%nat.

(** The body of the loop: no bar, or one. *)
Definition oanda_candle (symbol timeframe : string) (start end_ : datetime) (raw : pyval) : Res (option Candle) :=
  match raw with
  | VDict d =>
      let completed := truthy (default (VBool false) (dget "complete"%string d)) in
      if negb completed then Ok None
      else
        raw_time <-- dindex "time"%string d ;;
        text <-- match raw_time with VStr s => Ok s | _ => Err OtherError end ;;
        t <-- parse_oanda_time text ;;
        bucket <-- align_to_bucket t timeframe ;;
        closed <-- is_bar_closed bucket end_ timeframe ;;
        if negb closed then Ok None
        else if negb ((instant start <=? instant bucket) && (instant bucket <? instant end_)) then Ok None
        else
          let mid := default (VDict []) (dget "mid"%string d) in
          let k := decimals_for symbol in
          o <-- price_of k mid "o"%string ;; h <-- price_of k mid "h"%string ;; l <-- price_of k mid "l"%string ;; c <-- price_of k mid "c"%string ;;
          volume <-- match py_int (default (VInt 0) (dget "volume"%string d)) with Some n => Ok n | None => Err ValueError end ;;
          let candle := {| c_symbol := symbol; c_timeframe := timeframe; bucket_start := bucket; c_open := o;
                           c_high := h; c_low := l; c_close := c; c_volume := volume; complete := completed |} in
          _ <-- validate candle ;; Ok (Some candle)
  | _ => Err OtherError
  end.

(** [for raw in body.get("candles", [])]. *)
Definition candles_of (symbol timeframe : string) (start end_ : datetime) (body : pyval) : Res (list Candle) :=
  match body with
  | VDict d =>
      raws <-- py_iter (default (VList []) (dget "candles"%string d)) ;;
      l <-- map_res (oanda_candle symbol timeframe start end_) raws ;;
      Ok (omap id l)
  | _ => Err OtherError
  end.

(** [_parse_stream_line]: inside the try block anything may fail. *)
Definition quote_fields (payload : string) : option (pyval * (Z * (Decimal * Decimal))) :=
  let price side d := match dget side d with
                      | Some (VList (VDict q :: _)) => v ← dget "price"%string q; decimal_of_text (py_str v)
                      | _ => None
                      end in
  match json_loads payload with
  | Some (VDict d) =>
      instrument ← dget "instrument"%string d;
      time_raw ← dget "time"%string d;
      text ← match time_raw with VStr s => Some s | _ => None end;
      ts ← match parse_oanda_time text with Ok t => Some (instant t) | Err _ => None end;
      bid ← price "bids"%string d;
      ask ← price "asks"%string d;
      Some (instrument, (ts, (bid, ask)))
  | _ => None
  end.

Definition _parse_stream_line (line : string) : Res (option Tick) :=
  let stripped := py_strip line in
  if String.eqb stripped "" then Ok None
  else
    let '(msg_type, payload) := partition " " stripped in
    if negb (String.eqb msg_type "PRICE") then Ok None
    else match quote_fields (default ""%string payload) with
         | None => Ok None
         | Some (VStr instrument, (ts, (bid, ask))) =>
             Ok (Some {| tk_symbol := remove_char "_" instrument; tk_bid := bid; tk_ask := ask; tk_ts := ts;
                         tk_source := "oanda" |})
         | Some _ => Err OtherError
         end.

(** What a stream answers: nothing, or a status and lines up to an end or a failure. *)
Inductive StreamResult :=
| StreamRefused
| Stream (status : Z) (lines : list string) (broken : bool).

(** The ticks yielded, and how the generator ends. *)
Fixpoint yield_lines (lines : list string) (broken : bool) : list Tick * Res unit :=
  match lines with
  | [] => ([], if broken then Err ProviderTransientError else Ok tt)
  | line :: lines =>
      match _parse_stream_line line with
      | Ok tick => let '(ticks, r) := yield_lines lines broken in
                   (match tick with Some t => t :: ticks | None => ticks end, r)
      | Err e => ([], Err e)
      end
  end.

Definition stream_quotes (r : StreamResult) : list Tick * Res unit :=
  match r with
  | StreamRefused => ([], Err ProviderTransientError)
  | Stream status lines broken =>
      if negb (status =? 200) then ([], Err (_classify_status status)) else yield_lines lines broken
  end.

Definition stream_params (symbols : list string) : dict string string :=
  [("instruments", String.concat "," (map to_oanda_symbol symbols))]%string.

Section Requests.
Context (http : nat -> string -> dict string string -> HttpResult).

Definition page_params (granularity : string) (start end_ : datetime) : dict string string :=
  [("granularity", granularity); ("price", "M"); ("from", isoformat_at start); ("to", isoformat_at end_);
   ("count", pretty _MAX_CANDLES_PER_REQUEST)]%string.

(** Also the number of requests made. *)
Definition _get_candles_page (oanda_symbol timeframe : string) (start end_ : datetime) : Res pyval * nat :=
  match dindex timeframe _GRANULARITY with
  | Err e => (Err e, O)
  | Ok granularity =>
      retry provider_transient
        (fun n => oanda_once (http n ("/v3/instruments/" ++ oanda_symbol ++ "/candles")%string
                                (page_params granularity start end_))) 3 0
  end.

Definition oanda_fetch_candles (client : OandaClient) (symbol timeframe : string) (start end_ : datetime)
  : Res (list Candle) :=
  body <-- (_get_candles_page (to_oanda_symbol symbol) timeframe start end_).1 ;;
  candles_of symbol timeframe start end_ body.

Definition OandaPracticeProvider (client : OandaClient) : DataProvider :=
  {| provider_name := "oanda"; Ingest.fetch_candles := oanda_fetch_candles client |}.
End Requests.

(** ** Selection *)

Context `{Libm}.

(** Both bounds are in one zone, as the service passes them. *)
Definition SyntheticProvider : DataProvider :=
  {| provider_name := "synthetic";
     Ingest.fetch_candles := fun symbol timeframe start end_ =>
       match tzinfo end_ with
       | Some offset => synthetic_candles symbol timeframe (instant start) (instant end_) offset
       | None => Err ValueError
       end |}.

Definition build_provider (http : nat -> string -> dict string string -> HttpResult) (settings : Settings)
  : Res DataProvider :=
  let provider_name := market_data_provider settings in
  if String.eqb provider_name "synthetic" then Ok SyntheticProvider
  else if String.eqb provider_name "oanda" then
    client <-- make_oanda (oanda_api_token settings) ;; Ok (OandaPracticeProvider http client)
  else Err ProviderError.
End Oanda.

(** ** Properties *)

Section Properties.
Context `{Platform} `{Libm}.
Context (json_loads : string -> option pyval) (fromisoformat : string -> option datetime) (py_int : pyval -> option Z).

(** A bar the adapter may hand on: closed, aligned, inside the window, exact to the pair's
    precision and sound. *)
Record oanda_bar (symbol timeframe : string) (start end_ : datetime) (c : Candle) : Prop := {
  ob_series : c_symbol c = symbol /\ c_timeframe c = timeframe;
  ob_complete : complete c = true;
  ob_window : instant start <= instant (bucket_start c) < instant end_;
  ob_closed : is_bar_closed (bucket_start c) end_ timeframe = Ok true;
  ob_aligned : align_to_bucket (bucket_start c) timeframe = Ok (bucket_start c);
  ob_precise : Forall (fun p => exists n, p = Dec n (- Z.of_nat (decimals_for symbol))) [c_open c; c_high c; c_low c; c_close c];
  ob_valid : validate c = Ok tt
}.

Lemma price_of_precise k mid key d : price_of k mid key = Ok d -> exists n, d = Dec n (- Z.of_nat k).
Proof.
  unfold price_of, quantize. intros Hp. apply res_bind_ok in Hp as (v & _ & Hp). apply res_bind_ok in Hp as ([c e|x] & _ & Hp); [|done].
  cbv zeta in Hp. destruct (28 <? _); [done|]. injection Hp as <-. by eexists.
Qed.

Lemma align_stable ts tf r : align_to_bucket ts tf = Ok r -> align_to_bucket r tf = Ok r.
Proof.
  intros Ha. pose proof (align_to_bucket_floor ts tf) as Hf.
  destruct (align_inv _ _ _ Ha) as (off & s & Hz & Hs & _). rewrite Hz, Hs in Hf.
  destruct Hf as (r' & Hr & _ & Hf). rewrite Ha in Hr. injection Hr as <-. by repeat destruct Hf as [? Hf].
Qed.

Lemma oanda_candle_ok symbol tf start end_ raw c :
  oanda_candle fromisoformat py_int symbol tf start end_ raw = Ok (Some c) -> oanda_bar symbol tf start end_ c.
Proof.
  unfold oanda_candle. destruct raw as [| | | | | |d]; try done. set (completed := truthy _).
  destruct completed; [|done]. cbn [negb]. intros Hc.
  apply res_bind_ok in Hc as (raw_time & _ & Hc). apply res_bind_ok in Hc as (text & _ & Hc). apply res_bind_ok in Hc as (t & _ & Hc).
  apply res_bind_ok in Hc as (bucket & Hb & Hc). apply res_bind_ok in Hc as (closed & Hcl & Hc).
  destruct closed; [|done]. cbn [negb] in Hc. destruct (_ && _) eqn:Ew; [|done]. cbn [negb] in Hc.
  apply res_bind_ok in Hc as (o & Ho%price_of_precise & Hc). apply res_bind_ok in Hc as (h & Hh%price_of_precise & Hc).
  apply res_bind_ok in Hc as (l & Hl%price_of_precise & Hc). apply res_bind_ok in Hc as (cl & Hk%price_of_precise & Hc).
  apply res_bind_ok in Hc as (volume & _ & Hc). apply res_bind_ok in Hc as ([] & Hv & [= <-]).
  apply andb_true_iff in Ew as [E1%Z.leb_le E2%Z.ltb_lt].
  constructor; cbn; try done; [by eapply align_stable|]. by repeat constructor.
Qed.

Definition oanda_answer (http : nat -> string -> dict string string -> HttpResult) (symbol granularity : string)
    (start end_ : datetime) (n : nat) : Res pyval :=
  oanda_once (http n ("/v3/instruments/" ++ to_oanda_symbol symbol ++ "/candles")%string (page_params granularity start end_)).

(** C24: The adapter keeps the contract of a provider.  Whatever the service answers, one to
    three requests are made, another one only after a timeout, a broken connection, a 429 or
    a server error, and the outcome is that of the last; a bar that is handed on belongs to
    the asked series, is complete and closed by the end of the window, starts in the
    window at a bucket boundary, has prices of the pair's precision and passes validation.
    No other granularity than the five of the program is ever requested. *)
Theorem oanda_adapter_sound (http : nat -> string -> dict string string -> HttpResult) (client : OandaClient)
    (symbol timeframe : string) (start end_ : datetime) :
  let fetched := oanda_fetch_candles fromisoformat py_int http client symbol timeframe start end_ in
  let '(body, n) := _get_candles_page http (to_oanda_symbol symbol) timeframe start end_ in
  match dget timeframe _GRANULARITY with
  | None => fetched = Err KeyError /\ n = O
  | Some granularity =>
      let answer := oanda_answer http symbol granularity start end_ in
      (1 <= n <= 3)%nat /\ body = answer (n - 1)%nat /\
      (forall j, (S j < n)%nat -> answer j = Err ProviderTransientError) /\
      ((n < 3)%nat -> body <> Err ProviderTransientError) /\
      (forall e, body = Err e -> fetched = Err e) /\
      (forall cs, fetched = Ok cs -> Forall (oanda_bar symbol timeframe start end_) cs)
  end.
Proof.
  cbv zeta. unfold oanda_fetch_candles, _get_candles_page, dindex.
  destruct (dget timeframe _GRANULARITY) as [g|]; [|done].
  change (fun n => oanda_once _) with (oanda_answer http symbol g start end_). set (answer := oanda_answer _ _ _ _ _).
  destruct (retry_spec provider_transient answer 3 0) as (k & Hk & -> & Hall & Hlast); [lia|]. cbn [Nat.add] in *.
  assert (Ht : forall j, wants_retry provider_transient (answer j) = true <-> answer j = Err ProviderTransientError).
  { intros j. unfold wants_retry, provider_transient. destruct (answer j) as [v|e]; [done|]. rewrite bool_decide_eq_true. naive_solver. }
  split_and!; [lia|lia|by rewrite Nat.sub_1_r|intros j Hj; apply Ht, Hall; lia| | |].
  - intros Hn He%Ht. apply Hlast in He. lia.
  - by intros e ->.
  - intros cs Hf. apply res_bind_ok in Hf as (body & _ & Hf). unfold candles_of in Hf. destruct body as [| | | | | |d]; try done.
    apply res_bind_ok in Hf as (raws & _ & Hf). apply res_bind_ok in Hf as (l & Hl%map_res_Forall2 & [= <-]).
    apply Forall_forall. intros c (x & Hx & Hc)%list_elem_of_omap. cbn in Hc. subst x.
    apply list_elem_of_lookup in Hx as [i Hx]. destruct (Forall2_lookup_r _ _ _ _ _ Hl Hx) as (raw & _ & Hr).
    by eapply oanda_candle_ok.
Qed.

(** An answer that is no JSON is no failure of the provider: the breaker does not count it,
    and as the outcome of the probe after an outage it disables ingestion for good. *)
Theorem malformed_answer_disables_ingest (http : nat -> string -> dict string string -> HttpResult) (client : OandaClient)
    (st : IngestSettings) (caches : string -> bool) (accepts : Event -> bool) (text : PyErr -> string) (i : Instrument)
    (tf : string) (now : datetime) (fs fe : option datetime) (s : Ingest) (b : CircuitBreaker) (w : datetime * datetime) :
  br_state (breaker s) = OPEN -> before_call (instant now) (breaker s) = Ok b -> br_state b = HALF_OPEN ->
  _fetch_window st (last_closed_ts (ins_id i) tf (in_db s)) tf now fs fe = Ok w -> instant w.1 < instant w.2 ->
  (forall path params, http O path params = Response 200 None) ->
  let provider := OandaPracticeProvider fromisoformat py_int http client in
  let s' := (_ingest_series st provider caches accepts text i tf now fs fe s).2 in
  br_state (breaker s') = HALF_OPEN /\ consecutive_failures (breaker s') = consecutive_failures b /\
  forall provider' clock instruments tfs, (run_cycle st provider' caches accepts text clock instruments tfs s').2 = s'.
Proof.
  intros Ho Hb Hh Hw Hlt Hhttp provider s'.
  assert (Hs : exists x, seconds tf = Ok x).
  { unfold _fetch_window in Hw. apply res_bind_ok in Hw as (x & Hx & _). by exists x. }
  assert (Hbody : exists e, ingest_body st provider caches accepts i tf now fs fe (set_breaker b s) = Err e /\
                    e <> ProviderTransientError /\ e <> ProviderError /\ e <> BreakerOpenError).
  { exists (if decide (is_Some (dget tf _GRANULARITY)) then ValueError else KeyError).
    split; [|by case_decide]. unfold ingest_body. change (in_db (set_breaker b s)) with (in_db s). rewrite Hw. cbn [res_bind].
    destruct w as [start stop]. cbn [fst snd] in *. rewrite (proj2 (Z.leb_gt _ _) Hlt). cbn [Ingest.fetch_candles provider OandaPracticeProvider].
    unfold oanda_fetch_candles, _get_candles_page, dindex. destruct (dget tf _GRANULARITY) as [g|] eqn:Eg.
    - rewrite decide_True by done. cbn [retry]. by rewrite Hhttp.
    - rewrite decide_False by (by intros []). done. }
  destruct Hbody as (e & Hbody & H1 & H2 & H3).
  destruct (lost_probe_disables_ingest st provider caches accepts text i tf now fs fe s b e Ho Hb Hh Hbody H1 H2 H3) as (Hst & Hcyc & _).
  split; [done|]. split; [|done]. subst s'. unfold _ingest_series. rewrite Hb, Hbody. by destruct e.
Qed.

(** ** Quotes *)

Notation parse_line := (_parse_stream_line json_loads fromisoformat).

(** The tick of a line, if it has one. *)
Definition tick_of (line : string) : option Tick := match parse_line line with Ok t => t | Err _ => None end.

Lemma yield_app l1 l2 broken : Forall (fun l => is_ok (parse_line l) = true) l1 ->
  yield_lines json_loads fromisoformat (l1 ++ l2)%list broken =
    ((omap tick_of l1 ++ (yield_lines json_loads fromisoformat l2 broken).1)%list,
     (yield_lines json_loads fromisoformat l2 broken).2).
Proof.
  induction 1 as [|l l1 Hl _ IH]; [cbn [app omap list_omap fst snd]; by destruct (yield_lines _ _ l2 broken)|]. cbn [app yield_lines omap list_omap].
  unfold tick_of at 1. destruct (parse_line l) as [t|]; [|done]. rewrite IH. by destruct t.
Qed.

(** A line of the price stream is skipped unless it is a quote, with one exception.  The
    stream yields the quotes of its lines in order and ends as the connection does, up to
    the first line that is a complete quote for an instrument which is no text: that line
    raises, and the quotes after it are lost.  No line of another type, no text that is
    not JSON and no quote without a time, a bid or an ask ends the stream. *)
Theorem stream_quotes_sound (lines : list string) (broken : bool) :
  let ending := if broken then Err ProviderTransientError else Ok tt in
  let stream := stream_quotes json_loads fromisoformat (Stream 200 lines broken) in
  (Forall (fun l => is_ok (parse_line l) = true) lines -> stream = (omap tick_of lines, ending)) /\
  (forall before line after e, lines = (before ++ line :: after)%list ->
     Forall (fun l => is_ok (parse_line l) = true) before -> parse_line line = Err e ->
     stream = (omap tick_of before, Err e) /\
     exists payload instrument quote, partition " " (py_strip line) = ("PRICE"%string, payload) /\
       quote_fields json_loads fromisoformat (default ""%string payload) = Some (instrument, quote) /\
       (forall s, instrument <> VStr s)) /\
  (forall status, status <> 200 ->
     stream_quotes json_loads fromisoformat (Stream status lines broken) = ([], Err (_classify_status status))).
Proof.
  cbv zeta. unfold stream_quotes. cbn [Z.eqb Pos.eqb negb]. split_and!.
  - intros Hl. rewrite <- (app_nil_r lines) at 1. rewrite yield_app by done. cbn [yield_lines fst snd]. by rewrite app_nil_r.
  - intros before line after e -> Hb He. rewrite yield_app by done. cbn [yield_lines]. rewrite He. cbn [fst snd]. rewrite app_nil_r.
    split; [done|]. unfold _parse_stream_line in He. destruct (String.eqb _ ""); [done|].
    destruct (partition " " (py_strip line)) as [ty payload]. destruct (String.eqb_spec ty "PRICE") as [->|]; [|done]. cbn [negb] in He.
    destruct (quote_fields json_loads fromisoformat (default ""%string payload)) as [[instrument quote]|] eqn:Eq; [|done].
    exists payload, instrument, quote. split_and!; [done|done|]. intros s ->. by destruct quote as [? [? ?]].
  - intros status Hs. by rewrite (proj2 (Z.eqb_neq _ _) Hs).
Qed.

Lemma remove_char_id c s : ~ c ∈ chars s -> remove_char c s = s.
Proof.
  induction s as [|a s IH]; [done|]. cbn [remove_char chars]. intros Hc. destruct (Ascii.eqb_spec a c) as [->|_].
  - exfalso. apply Hc. by left.
  - rewrite IH; [done|]. intros Hs. apply Hc. by right.
Qed.

Lemma remove_char_app c s t : remove_char c (s ++ t) = (remove_char c s ++ remove_char c t)%string.
Proof.
  induction s as [|a s IH]; [done|]. change (String a s ++ t)%string with (String a (s ++ t)%string).
  cbn [remove_char]. rewrite IH. by destruct (Ascii.eqb a c).
Qed.

Lemma take_drop_text n : forall s, (str_take n s ++ str_drop n s)%string = s.
Proof.
  induction n as [|n IH]; intros [|a s]; [done..|]. cbn [str_take str_drop].
  change (String a (str_take n s) ++ str_drop n s)%string with (String a (str_take n s ++ str_drop n s)%string). by rewrite IH.
Qed.

(** A symbol survives the trip to the service and back. *)
Lemma oanda_symbol_roundtrip symbol : ~ "_"%char ∈ chars symbol -> remove_char "_" (to_oanda_symbol symbol) = symbol.
Proof.
  intros Hs. unfold to_oanda_symbol. rewrite !remove_char_app.
  change (remove_char "_" (str_take 3 symbol) ++ remove_char "_" (str_drop 3 symbol) = symbol)%string.
  rewrite <- remove_char_app, take_drop_text. by apply remove_char_id.
Qed.

(** Settings that load select a provider, or fail for an empty token of OANDA. *)
Lemma build_provider_total http raw s : load_settings raw = Ok s ->
  match build_provider fromisoformat py_int http s with
  | Ok p => provider_name p = market_data_provider s
  | Err e => e = ValueError /\ market_data_provider s = "oanda"%string /\ oanda_api_token s = ""%string
  end.
Proof.
  intros [_ _ Hp]%load_settings_ok. apply one_of_ok in Hp as [Hp _]. unfold build_provider.
  apply elem_of_cons in Hp as [->| ->%list_elem_of_singleton]; [done|]. cbn [String.eqb]. unfold make_oanda.
  cbn. destruct (String.eqb_spec (oanda_api_token s) "") as [->|]; done.
Qed.
End Properties.

(** ** Examples *)

(** A service that is down once and then answers with an unfinished and a finished bar. *)
Definition demo_bar (complete : bool) : pyval :=
  VDict [("complete", VBool complete); ("volume", VInt 40); ("time", VStr "1970-01-01T00:00:00.000000000Z");
         ("mid", VDict [("o", VStr "1.08500"); ("h", VStr "1.0861"); ("l", VStr "1.0842"); ("c", VStr "1.08555")])]%string.
Definition demo_service (n : nat) (path : string) (params : dict string string) : HttpResult :=
  match n with
  | O => Response 503 None
  | _ => Response 200 (Some (VDict [("candles", VList [demo_bar false; demo_bar true])]%string))
  end.
Definition demo_fromiso (s : string) : option datetime :=
  if String.eqb s "1970-01-01T00:00:00.000000+00:00" then Some (utc 0) else None.
Definition demo_int (v : pyval) : option Z := match v with VInt n => Some n | _ => None end.

Example demo_fetch :
  oanda_fetch_candles demo_fromiso demo_int demo_service {| oc_token := "token" |} "EURUSD" "M15" (utc 0) (utc (seconds_td 900)) =
    Ok [{| c_symbol := "EURUSD"; c_timeframe := "M15"; bucket_start := utc 0; c_open := Dec 108500 (-5);
           c_high := Dec 108610 (-5); c_low := Dec 108420 (-5); c_close := Dec 108555 (-5); c_volume := 40; complete := true |}].
Proof. vm_compute. reflexivity. Qed.

Definition demo_quote (instrument : pyval) : pyval :=
  VDict [("instrument", instrument); ("time", VStr "1970-01-01T00:00:00.000000000Z");
         ("bids", VList [VDict [("price", VStr "1.08500")]]); ("asks", VList [VDict [("price", VStr "1.08512")]])]%string.
Definition demo_loads (s : string) : option pyval :=
  if String.eqb s "good" then Some (demo_quote (VStr "EUR_USD")) else if String.eqb s "bad" then Some (demo_quote (VInt 7)) else None.

Example demo_stream :
  @stream_quotes demo_platform demo_loads demo_fromiso
    (Stream 200 [""; "HEARTBEAT good"; "PRICE good"; "PRICE {"; "PRICE bad"; "PRICE good"]%string false) =
    ([{| tk_symbol := "EURUSD"; tk_bid := Dec 108500 (-5); tk_ask := Dec 108512 (-5); tk_ts := 0; tk_source := "oanda" |}],
     Err OtherError).
Proof. vm_compute. reflexivity. Qed.

Lemma malformed_answer_disables_ingest_witness :
  let provider := OandaPracticeProvider demo_fromiso demo_int (fun _ _ _ => Response 200 None) {| oc_token := "token" |} in
  let s' := (@_ingest_series demo_platform demo_ingest_settings provider (fun _ => true) (fun _ => true)
               (fun _ => "") demo_instrument "H1" (utc (seconds_td 18000)) None None (demo_ingest demo_tripped)).2 in
  br_state (breaker s') = HALF_OPEN.
Proof.
  destruct (@malformed_answer_disables_ingest demo_platform demo_fromiso demo_int (fun _ _ _ => Response 200 None)
    {| oc_token := "token" |} demo_ingest_settings (fun _ => true) (fun _ => true) (fun _ => ""%string) demo_instrument "H1"
    (utc (seconds_td 18000)) None None (demo_ingest demo_tripped) (set_state HALF_OPEN demo_tripped)
    (utc (seconds_td (-154800)), utc (seconds_td 18000))) as [H _];
    [reflexivity|vm_compute; reflexivity|reflexivity|vm_compute; reflexivity|reflexivity|reflexivity|exact H].
Defined.
