(* ===== verification/Runtime.v ===== *)
(** * The workers' processes ([app/worker_main.py], [app/workers/orchestrator_runtime.py],
    [agent_runtime.py], [alert_runtime.py], [content_runtime.py], [app/core/shutdown.py],
    [app/monitor/worker_metrics.py], [app/worker_healthcheck.py])

    A process acts on a world it shares with Redis, the database, the clock and the other
    processes.  Its operations are functions on that world, which may also change it in ways
    of their own: time passes and others act while an operation runs.  The interface of
    these operations is the class [Runtime]; what is asked of a lease is the class [Lease],
    and the lease of [Lock] is an instance.

    A run is a state monad with exceptions that also keeps the process's metrics and, for
    the statements, the operations it performed with the worlds around them.  An endless
    loop is unfolded a given number of times. *)

From Stdlib Require Import ZArith Ascii Lia.
From stdpp Require Import base list strings pretty gmap.
From S2P Require Import Prelude PyFloat Timeframes Tables Lock Heartbeat Alerts Access Config.

Open Scope Z_scope.

(** ** [ShutdownCoordinator]: a flag that SIGINT and SIGTERM set for good *)

Record ShutdownCoordinator := { event_set : bool; handlers : list string }.

(** Platforms without signal handlers have none of the two. *)
Definition install_handlers (supported : string -> bool) : ShutdownCoordinator :=
  {| event_set := false; handlers := List.filter supported ["SIGINT"; "SIGTERM"]%string |}.
Definition deliver (signal : string) (c : ShutdownCoordinator) : ShutdownCoordinator :=
  if bool_decide (signal ∈ handlers c) then {| event_set := true; handlers := handlers c |} else c.
Definition close_handlers (c : ShutdownCoordinator) : ShutdownCoordinator :=
  {| event_set := event_set c; handlers := [] |}.

(** ** [WorkerMetrics] *)

Record WorkerMetrics := { wm_up : Z; wm_heartbeat_ts : Z; wm_cycles : Z; wm_errors : Z }.
Definition build_worker_metrics : WorkerMetrics := {| wm_up := 0; wm_heartbeat_ts := 0; wm_cycles := 0; wm_errors := 0 |}.

Definition mark_heartbeat (now : Z) (m : WorkerMetrics) : WorkerMetrics :=
  {| wm_up := 1; wm_heartbeat_ts := now; wm_cycles := wm_cycles m; wm_errors := wm_errors m |}.
Definition count_cycle (errors : Z) (m : WorkerMetrics) : WorkerMetrics :=
  {| wm_up := wm_up m; wm_heartbeat_ts := wm_heartbeat_ts m; wm_cycles := wm_cycles m + 1;
     wm_errors := if 0 <? errors then wm_errors m + errors else wm_errors m |}.
Definition count_error (m : WorkerMetrics) : WorkerMetrics :=
  {| wm_up := wm_up m; wm_heartbeat_ts := wm_heartbeat_ts m; wm_cycles := wm_cycles m; wm_errors := wm_errors m + 1 |}.

Definition DEFAULT_WORKER_METRICS_PORTS : dict string Z :=
  [("ingest", 9101); ("agents", 9102); ("orchestrator", 9103); ("alerts", 9104); ("content", 9105)]%string.

(** [raw] is the environment's value, [int] of a text is [int_of_text]. *)
Definition port_for_worker (int_of_text : string -> option Z) (raw : string) (worker : string) : Res Z :=
  let raw := py_strip raw in
  let parsed := if String.eqb raw "" then 0 else default 0 (int_of_text raw) in
  if (0 <? parsed) && (parsed <? 65536) then Ok parsed else dindex worker DEFAULT_WORKER_METRICS_PORTS.

(** ** [worker_main] *)

Inductive Role := RoleIngest | RoleAgents | RoleContent | RoleOrchestrator | RoleAlerts.

(** [WORKER_ROLE], if it is set; [None] is the exit with code 2. *)
Definition select_role (value : option string) : option Role :=
  dget (str_lower (py_strip (default "ingest"%string value)))
    [("ingest", RoleIngest); ("agents", RoleAgents); ("content", RoleContent); ("orchestrator", RoleOrchestrator);
     ("alerts", RoleAlerts)]%string.

(** ** [worker_healthcheck] *)

Definition is_worker_healthy (cmdline : string) : bool :=
  if String.eqb cmdline "" then false
  else if contains "alembic" cmdline then false
  else contains "app.worker_main" cmdline.

(** [raw] is the content of the file, [None] when it cannot be read. *)
Definition nul : ascii := Ascii.zero.
Fixpoint nul_to_space (s : string) : string :=
  match s with
  | EmptyString => EmptyString
  | String c s => String (if Ascii.eqb c nul then " "%char else c) (nul_to_space s)
  end.
Definition read_pid1_cmdline (raw : option string) : string :=
  match raw with Some s => py_strip (nul_to_space (py_strip s)) | None => ""%string end.
Definition healthcheck_exit (raw : option string) : Z := if is_worker_healthy (read_pid1_cmdline raw) then 0 else 1.

(** ** The operations of a process *)

Class Runtime (W : Type) := {
  metrics_port_env : string;                (* [WORKER_METRICS_PORT], empty if it is not set *)
  int_of_text : string -> option Z;         (* [int] of a text *)
  construct : W -> Res unit * W;            (* session factory, Redis client, providers and worker *)
  start_http_server : Z -> W -> Res unit * W;   (* [prometheus_client]; the port may be taken *)
  should_stop : W -> bool;
  clock : W -> Z;                           (* microseconds of a monotonic clock *)
  wait_stop : Z -> W -> W;                  (* [shutdown.wait(timeout)] *)
  pause : Z -> W -> W;                      (* [asyncio.sleep] *)
  close_signals : W -> W;
  touch_heartbeat : W -> Res unit * W;
  clear_heartbeat : W -> W;                 (* suppresses every error *)
  ensure_groups : W -> Res unit * W;
  acquire : W -> Res bool * W;
  renew : W -> bool * W;                    (* an error is a lost lease *)
  release : W -> W;                         (* suppresses every error *)
  publish_alert : string -> W -> W;         (* suppresses every error *)
  poll : W -> Res Z * W;                    (* the errors of the batch *)
  lifecycle : W -> Res unit * W;
  scan : W -> Res unit * W;
  content_cycle : W -> Res unit * W;
  close_providers : W -> Res unit * W
}.

Inductive Act :=
| Construct (ok : bool) | StartMetrics (ok : bool)
| Wait | Sleep | CloseSignals | Clear | Groups (ok : bool) | Release | Alert (subject : string)
| Touch (ok : bool)                        (* it did not raise *)
| Acquire (ok : bool) | Renew (ok : bool)  (* it answered true *)
| Poll (errors : option Z)                 (* what the batch counted, if it did not raise *)
| Lifecycle (ok : bool) | Scan (ok : bool) | Content (ok : bool) | CloseProviders (ok : bool).
#[export] Instance Act_eq_dec : EqDecision Act.
Proof. solve_decision. Defined.

Section Monad.
Context {W : Type}.

Record Run := { world : W; wm : WorkerMetrics; trace : list (Act * W * W) }.
Definition M (A : Type) : Type := Run -> Res A * Run.

Definition ret {A} (a : A) : M A := fun s => (Ok a, s).
Definition bind {A B} (m : M A) (k : A -> M B) : M B :=
  fun s => match m s with (Ok a, s) => k a s | (Err e, s) => (Err e, s) end.

Definition raise {A} (e : PyErr) : M A := fun s => (Err e, s).

(** [try: m / except Exception as e: h(e)]. *)
Definition catch {A} (m : M A) (h : PyErr -> M A) : M A :=
  fun s => match m s with (Ok a, s) => (Ok a, s) | (Err e, s) => h e s end.

Definition gets {A} (f : W -> A) : M A := fun s => (Ok (f (world s)), s).
Definition count (f : WorkerMetrics -> WorkerMetrics) : M unit :=
  fun s => (Ok tt, {| world := world s; wm := f (wm s); trace := trace s |}).

Definition answered (r : Res bool) : bool := match r with Ok b => b | Err _ => false end.
Definition res_option {A} (r : Res A) : option A := match r with Ok a => Some a | Err _ => None end.

(** One operation, named after its outcome. *)
Definition op {A} (name : Res A -> Act) (f : W -> Res A * W) : M A :=
  fun s => let '(r, w) := f (world s) in
           (r, {| world := w; wm := wm s; trace := trace s ++ [(name r, world s, w)] |}).
Definition op_ (name : Act) (f : W -> W) : M unit := op (fun _ => name) (fun w => (Ok tt, f w)).

Lemma bind_op {A B} name (f : W -> Res A * W) (k : A -> M B) s :
  bind (op name f) k s =
    let '(r, w) := f (world s) in
    let s' := {| world := w; wm := wm s; trace := trace s ++ [(name r, world s, w)] |} in
    match r with Ok a => k a s' | Err e => (Err e, s') end.
Proof. unfold bind, op. by destruct (f (world s)) as [[a|e] w]. Qed.
End Monad.
Arguments Run : clear implicits.
Arguments M : clear implicits.

Declare Scope run_scope.
Delimit Scope run_scope with run.
Notation "x <- c ; k" := (bind c (fun x => k)) (at level 100, c at next level, right associativity) : run_scope.

Section Workers.
Context {W : Type} `{Runtime W}.
Local Open Scope run_scope.

(** [while not shutdown.should_stop: body], at most [fuel] times.  [body] answers the
    variables of the next turn, or [None] to leave the loop; the result is whether the loop
    ended. *)
Fixpoint while_running {L} (fuel : nat) (body : L -> M W (option L)) (l : L) : M W bool :=
  match fuel with
  | O => ret false
  | S fuel =>
      stop <- gets should_stop ;
      if stop then ret true
      else next <- body l ;
           match next with Some l => while_running fuel body l | None => ret true end
  end.

(** [try: loop / finally: cleanup]: nothing is cleaned up while the loop still runs. *)
Definition finally (loop : M W bool) (cleanup : M W unit) : M W bool :=
  fun s => match loop s with
           | (Ok false, s) => (Ok false, s)
           | (r, s) => match cleanup s with (Ok _, s) => (r, s) | (Err e, s) => (Err e, s) end
           end.

Definition beat : M W unit :=
  _ <- op (fun r => Touch (is_ok r)) touch_heartbeat ; now <- gets clock ; count (mark_heartbeat now).

(** What a process needs before it serves. *)
Definition build_all : M W unit := op (fun r => Construct (is_ok r)) construct.

(** The exporter of a process, on the port its role or the environment gives.  It is started
    once, when the metrics of the run are still zero. *)
Definition start_worker_metrics (worker : string) : M W unit :=
  match port_for_worker int_of_text metrics_port_env worker with
  | Err e => raise e
  | Ok port => op (fun r => StartMetrics (is_ok r)) (start_http_server port)
  end.

(** ** The orchestrator *)

Definition SCAN_EVERY_CYCLES : Z := 120.

(** The poll survives every error. *)
Definition guarded_poll : M W unit :=
  catch (errors <- op (fun r => Poll (res_option r)) poll ; count (count_cycle errors)) (fun _ => count count_error).

(** The lifecycle, when its interval has elapsed; the time it ended if it did not fail. *)
Definition lifecycle_turn (interval last : Z) : M W Z :=
  now <- gets clock ;
  if interval <=? now - last then
    catch (_ <- op (fun r => Lifecycle (is_ok r)) lifecycle ; gets clock) (fun _ => _ <- count count_error ; ret last)
  else ret last.

(** What follows the renewal in a turn. *)
Definition work_turn (interval poll_us cycle last : Z) : M W (option (Z * Z)) :=
  _ <- guarded_poll ;
  last <- lifecycle_turn interval last ;
  _ <- (if (cycle + 1) mod SCAN_EVERY_CYCLES =? 0 then op (fun r => Scan (is_ok r)) scan else ret tt) ;
  _ <- op_ Sleep (pause poll_us) ;
  ret (Some (cycle + 1, last)).

(** One turn; its variables are [cycle] and [last_lifecycle]. *)
Definition orchestrator_cycle (interval poll_us : Z) (l : Z * Z) : M W (option (Z * Z)) :=
  let '(cycle, last) := l in
  _ <- beat ;
  ok <- op (fun r => Renew (answered r)) (fun w => let '(b, w) := renew w in (Ok b, w)) ;
  if negb ok then _ <- op_ (Alert "lock_lost") (publish_alert "lock_lost") ; ret None
  else work_turn interval poll_us cycle last.

Definition try_acquire : M W bool :=
  op (fun r => Acquire (answered r)) acquire.

(** [while not acquired and not shutdown.should_stop], within the window.  [None] when the
    fuel is spent, [Some None] when the window is over, [Some (Some acquired)] otherwise. *)
Fixpoint acquire_loop (fuel : nat) (window started : Z) (acquired : bool) : M W (option (option bool)) :=
  match fuel with
  | O => ret None
  | S fuel =>
      stop <- gets should_stop ;
      if acquired || stop then ret (Some (Some acquired))
      else
        now <- gets clock ;
        let remaining := window - (now - started) in
        if remaining <=? 0 then ret (Some None)
        else
          _ <- op_ Wait (wait_stop (Z.min remaining (seconds_td 1))) ;
          stop <- gets should_stop ;
          acquired <- (if stop then ret acquired else try_acquire) ;
          acquire_loop fuel window started acquired
  end.

Definition acquire_phase (lock_ttl : Z) : M W (option (option bool)) :=
  started <- gets clock ;
  acquired <- try_acquire ;
  acquire_loop (S (Z.to_nat lock_ttl)) (seconds_td lock_ttl) started acquired.

(** [lock_ttl] and [interval] in seconds, [poll_ms] in milliseconds.  Answers whether the
    process ended. *)
Definition run_orchestrator (lock_ttl interval poll_ms : Z) (fuel : nat) : M W bool :=
  _ <- build_all ;
  r <- acquire_phase lock_ttl ;
  match r with
  | None => ret false
  | Some None => _ <- op_ CloseSignals close_signals ; ret true
  | Some (Some _) =>
      stop <- gets should_stop ;
      if stop then _ <- op_ CloseSignals close_signals ; ret true
      else
        _ <- op (fun r => Groups (is_ok r)) ensure_groups ;
        _ <- start_worker_metrics "orchestrator" ;
        finally (while_running fuel (orchestrator_cycle (seconds_td (Z.max 1 interval)) (poll_ms * 1000)) (0, 0))
                (_ <- op_ Release release ; _ <- op_ Clear clear_heartbeat ; op_ CloseSignals close_signals)
  end.

(** ** The agents, the alerts, the content *)

Definition stop_beating : M W unit := _ <- op_ Clear clear_heartbeat ; op_ CloseSignals close_signals.

(** Nothing is caught: an error of the poll ends the process. *)
Definition agents_cycle (_ : unit) : M W (option unit) :=
  _ <- beat ;
  errors <- op (fun r => Poll (res_option r)) poll ; _ <- count (count_cycle errors) ;
  _ <- op_ Sleep (pause 500000) ; ret (Some tt).
Definition run_agents_worker (fuel : nat) : M W bool :=
  _ <- build_all ;
  _ <- op (fun r => Groups (is_ok r)) ensure_groups ;
  _ <- start_worker_metrics "agents" ;
  finally (while_running fuel agents_cycle tt) stop_beating.

Definition alerts_cycle (poll_us : Z) (_ : unit) : M W (option unit) :=
  _ <- beat ; _ <- guarded_poll ; _ <- op_ Sleep (pause poll_us) ; ret (Some tt).
Definition run_alerts_worker (poll_us : Z) (fuel : nat) : M W bool :=
  _ <- build_all ;
  _ <- op (fun r => Groups (is_ok r)) ensure_groups ;
  _ <- start_worker_metrics "alerts" ;
  finally (while_running fuel (alerts_cycle poll_us) tt) stop_beating.

(** The error is counted and raised again. *)
Definition reraise {A} (m : M W A) : M W A :=
  catch m (fun e => _ <- count count_error ; raise e).
Definition content_turn (poll_us : Z) (_ : unit) : M W (option unit) :=
  _ <- beat ; _ <- reraise (op (fun r => Content (is_ok r)) content_cycle) ; _ <- count (count_cycle 0) ;
  _ <- op_ Sleep (pause poll_us) ; ret (Some tt).
Definition run_content_worker (news_poll_seconds calendar_poll_seconds : Z) (fuel : nat) : M W bool :=
  let poll_us := seconds_td (Z.min news_poll_seconds calendar_poll_seconds) in
  _ <- build_all ;
  _ <- start_worker_metrics "content" ;
  finally (while_running fuel (content_turn poll_us) tt)
          (_ <- stop_beating ; op (fun r => CloseProviders (is_ok r)) close_providers).
End Workers.

(** Every role has a port, whatever the environment says. *)
Lemma port_ok int raw role : role ∈ WORKER_ROLES -> exists p, port_for_worker int raw role = Ok p /\ 0 < p < 65536.
Proof.
  intros Hr. unfold port_for_worker. destruct (_ && _) eqn:E.
  - apply andb_true_iff in E as [E1%Z.ltb_lt E2%Z.ltb_lt]. by eexists.
  - unfold dindex. repeat (apply elem_of_cons in Hr as [->|Hr]; [eexists; split; [reflexivity|lia]|]). by apply elem_of_nil in Hr.
Qed.

(** ** Reasoning about runs *)

Section Good.
Context {W : Type}.
Notation entry := (Act * W * W)%type.

(** A relation between the runs before and after, and what was done in between, that
    composes. *)
Class Composes (G : Run W -> list entry -> Run W -> Prop) : Prop := {
  comp_nil : forall s, G s [] s;
  comp_app : forall s t s1 t' s2, G s t s1 -> G s1 t' s2 -> G s (t ++ t') s2
}.

Context (G : Run W -> list entry -> Run W -> Prop) `{!Composes G}.

Definition good {A} (m : M W A) : Prop :=
  forall s, exists t, trace (m s).2 = trace s ++ t /\ G s t (m s).2.

Lemma good_ret {A} (a : A) : good (ret a).
Proof. intros s. exists []. cbn. split; [by rewrite app_nil_r|apply comp_nil]. Qed.

Lemma good_gets {A} (f : W -> A) : good (gets f).
Proof. intros s. exists []. cbn. split; [by rewrite app_nil_r|apply comp_nil]. Qed.
Lemma good_raise {A} e : good (@raise W A e).
Proof. intros s. exists []. cbn. split; [by rewrite app_nil_r|apply comp_nil]. Qed.

Lemma good_seq {A B} (m : M W A) (k : A -> M W B) s :
  good m -> (forall a, (m s).1 = Ok a -> exists t, trace (k a (m s).2).2 = trace (m s).2 ++ t /\ G (m s).2 t (k a (m s).2).2) ->
  exists t, trace (bind m k s).2 = trace s ++ t /\ G s t (bind m k s).2.
Proof.
  intros Hm Hk. destruct (Hm s) as (t & Ht & HG). unfold bind. destruct (m s) as [[a|e] s1]; cbn [fst snd] in *; [|by exists t].
  destruct (Hk a eq_refl) as (t' & Ht' & HG'). exists (t ++ t'). rewrite Ht', Ht, app_assoc. split; [done|by eapply comp_app].
Qed.

Lemma good_bind {A B} (m : M W A) (k : A -> M W B) : good m -> (forall a, good (k a)) -> good (bind m k).
Proof. intros Hm Hk s. apply good_seq; [done|]. intros a _. apply Hk. Qed.

Lemma good_catch {A} (m : M W A) h : good m -> (forall e, good (h e)) -> good (catch m h).
Proof.
  intros Hm Hh s. destruct (Hm s) as (t & Ht & HG). unfold catch. destruct (m s) as [[a|e] s1]; cbn [snd] in *; [by exists t|].
  destruct (Hh e s1) as (t' & Ht' & HG'). exists (t ++ t'). rewrite Ht', Ht, app_assoc. split; [done|by eapply comp_app].
Qed.

Lemma good_op {A} name (f : W -> Res A * W) :
  (forall s, G s [(name (f (world s)).1, world s, (f (world s)).2)]
               {| world := (f (world s)).2; wm := wm s; trace := trace s ++ [(name (f (world s)).1, world s, (f (world s)).2)] |}) ->
  good (op name f).
Proof. intros Hf s. specialize (Hf s). unfold op. destruct (f (world s)) as [r w]. cbn in *. by eexists. Qed.

Lemma good_op_ name (f : W -> W) :
  (forall s, G s [(name, world s, f (world s))]
               {| world := f (world s); wm := wm s; trace := trace s ++ [(name, world s, f (world s))] |}) ->
  good (op_ name f).
Proof. intros Hf. by apply good_op. Qed.

Lemma good_finally loop cleanup : good loop -> good cleanup -> good (finally loop cleanup).
Proof.
  intros Hl Hc s. destruct (Hl s) as (t & Ht & HG). unfold finally. destruct (loop s) as [r s1]. cbn [snd] in *.
  assert (Hboth : forall s2, s2 = (cleanup s1).2 -> exists t', trace s2 = trace s ++ t' /\ G s t' s2).
  { intros s2 ->. destruct (Hc s1) as (t' & Ht' & HG'). exists (t ++ t'). rewrite Ht', Ht, app_assoc. split; [done|by eapply comp_app]. }
  destruct r as [b|e']; [destruct b; [|by exists t]|]; apply Hboth; by destruct (cleanup s1) as [[]].
Qed.

Lemma good_while `{Runtime W} {L} (body : L -> M W (option L)) : (forall l, good (body l)) ->
  forall fuel l, good (while_running fuel body l).
Proof.
  intros Hb. induction fuel as [|fuel IH]; intros l; [apply good_ret|]. cbn [while_running].
  apply good_bind; [apply good_gets|]. intros [|]; [apply good_ret|].
  apply good_bind; [done|]. intros [l'|]; [apply IH|apply good_ret].
Qed.
End Good.

Lemma good_start {W} (G : Run W -> list (Act * W * W) -> Run W -> Prop) `{!Composes G} `{Runtime W} worker :
  worker ∈ WORKER_ROLES ->
  (forall port, 0 < port < 65536 -> good G (op (fun r => StartMetrics (is_ok r)) (start_http_server port))) ->
  good G (start_worker_metrics worker).
Proof.
  intros Hw Hs. unfold start_worker_metrics. destruct (port_ok int_of_text metrics_port_env worker Hw) as (port & -> & Hp). by apply Hs.
Qed.

(** Down to operations and counters. *)
Ltac decompose_good :=
  repeat first
    [ apply good_gets; apply _ | apply good_ret; apply _
    | apply good_bind; [apply _| |intros ?] | apply good_catch; [apply _| |intros ?]
    | match goal with |- good _ (if ?b then _ else _) => destruct b end ].

(** ** The orchestrator works under its lease *)

Section Safety.
Context {W : Type} `{Runtime W}.
Notation entry := (Act * W * W)%type.

(** What an orchestrator does to the decisions and the ledger. *)
Definition works (a : Act) : bool := match a with Poll _ | Lifecycle _ | Scan _ => true | _ => false end.

(** A scan of the operations: whether a renewal was the last that was no work, and [None]
    when there was work otherwise. *)
Fixpoint leased (held : bool) (t : list entry) : option bool :=
  match t with
  | [] => Some held
  | (a, _, _) :: t =>
      if works a then if held then leased true t else None
      else leased (match a with Renew true => true | _ => false end) t
  end.

Lemma leased_app t1 t2 : forall b, leased b (t1 ++ t2) = leased b t1 ≫= fun b' => leased b' t2.
Proof.
  induction t1 as [|[[a u] v] t1 IH]; intros b; [done|]. cbn [app leased]. destruct (works a); [destruct b; [apply IH|done]|apply IH].
Qed.

Definition safe (_ : Run W) (t : list entry) (_ : Run W) : Prop := forall b, is_Some (leased b t).
#[export] Instance safe_composes : Composes safe.
Proof.
  split; [intros s b; by eexists|]. intros s t s1 t' s2 H1 H2 b. destruct (H1 b) as [b' Hb]. rewrite leased_app, Hb. apply H2.
Qed.

(** Since the renewal there was only work. *)
Lemma leased_held t : forall b b', leased b t = Some b' -> b' = true ->
  (b = true /\ Forall (fun x => works x.1.1 = true) t) \/
  exists pre v v' mid, t = pre ++ (Renew true, v, v') :: mid /\ Forall (fun x => works x.1.1 = true) mid.
Proof.
  induction t as [|[[a u] v] t IH]; intros b b' Hl Hb; cbn [leased] in Hl; [injection Hl as ->; auto|].
  destruct (works a) eqn:Ea.
  - destruct b; [|done]. destruct (IH _ _ Hl Hb) as [[_ Hf]|(pre & x & y & mid & -> & Hf)]; [left; split; [done|by constructor]|].
    right. by exists ((a, u, v) :: pre), x, y, mid.
  - destruct (IH _ _ Hl Hb) as [[Hr Hf]|(pre & x & y & mid & -> & Hf)]; right.
    + destruct a; try done. destruct ok; [|done]. by exists [], u, v, t.
    + by exists ((a, u, v) :: pre), x, y, mid.
Qed.

Lemma safe_covered t pre a u u' post : (exists b, leased false t = Some b) -> t = pre ++ (a, u, u') :: post -> works a = true ->
  exists pre1 v v' mid, pre = pre1 ++ (Renew true, v, v') :: mid /\ Forall (fun x => works x.1.1 = true) mid.
Proof.
  intros [b Hl] -> Ha. rewrite leased_app in Hl. destruct (leased false pre) as [b1|] eqn:Hp; [|done]. cbn [mbind option_bind leased] in Hl.
  rewrite Ha in Hl. destruct b1; [|done]. destruct (leased_held _ _ _ Hp eq_refl) as [[? _]|Hx]; [done|exact Hx].
Qed.

(** Operations that are no work are safe. *)
Lemma safe_op {A} (name : Res A -> Act) f : (forall r, works (name r) = false) -> good safe (op name f).
Proof. intros Hn. apply good_op. intros s b. cbn [leased]. rewrite Hn. by eexists. Qed.
Lemma safe_op_ name f : works name = false -> good safe (@op_ W name f).
Proof. intros Hn. by apply safe_op. Qed.
Lemma safe_count f : good safe (@count W f).
Proof. intros s. exists []. cbn. split; [by rewrite app_nil_r|intros b; by eexists]. Qed.

(** After a renewal: only work. *)
Definition under_lease (_ : Run W) (t : list entry) (_ : Run W) : Prop := leased true t = Some true.
#[export] Instance under_composes : Composes under_lease.
Proof. split; [done|]. unfold under_lease. intros s t s1 t' s2 H1 H2. by rewrite leased_app, H1. Qed.

Lemma under_op {A} (name : Res A -> Act) f : (forall r, works (name r) = true) -> good under_lease (op name f).
Proof. intros Hn. apply good_op. intros s. unfold under_lease. cbn [leased]. by rewrite Hn. Qed.
Lemma under_count f : good under_lease (@count W f).
Proof. intros s. exists []. cbn. split; [by rewrite app_nil_r|done]. Qed.

Lemma under_poll : good under_lease guarded_poll.
Proof. unfold guarded_poll. decompose_good; [by apply under_op|apply under_count..]. Qed.

Lemma under_lifecycle interval last : good under_lease (lifecycle_turn interval last).
Proof.
  unfold lifecycle_turn. decompose_good; [by apply under_op|apply under_count].
Qed.

Lemma under_then {A B} (m : M W A) (k : A -> M W B) : good under_lease m ->
  (forall a s, exists t, trace (k a s).2 = trace s ++ t /\ is_Some (leased true t)) ->
  forall s, exists t, trace (bind m k s).2 = trace s ++ t /\ is_Some (leased true t).
Proof.
  intros Hm Hk s. destruct (Hm s) as (t & Ht & Hu). unfold bind. destruct (m s) as [[a|e] s1]; cbn [snd] in *.
  - destruct (Hk a s1) as (t' & Ht' & Hs). exists (t ++ t'). rewrite Ht', Ht, app_assoc, leased_app, Hu. by split.
  - exists t. rewrite Hu. by split.
Qed.

Lemma work_turn_leased interval poll_us cycle last s : exists t,
  trace (work_turn interval poll_us cycle last s).2 = trace s ++ t /\ is_Some (leased true t).
Proof.
  revert s. apply under_then; [apply under_poll|]. intros _. apply under_then; [apply under_lifecycle|]. intros last'.
  apply under_then; [destruct (_ =? _); [by apply under_op|apply good_ret, _]|]. intros _ s.
  cbn. exists [(Sleep, world s, pause poll_us (world s))]. by split; [|eexists].
Qed.

Lemma safe_beat : good safe beat.
Proof. unfold beat. decompose_good; [by apply safe_op|apply safe_count]. Qed.

Lemma orchestrator_cycle_safe interval poll_us l : good safe (orchestrator_cycle interval poll_us l).
Proof.
  destruct l as [cycle last]. unfold orchestrator_cycle. apply good_bind; [apply _|apply safe_beat|]. intros _ s.
  rewrite bind_op. destruct (renew (world s)) as [ok w] eqn:Er. cbn [answered].
  destruct ok; cbn [negb].
  - destruct (work_turn_leased interval poll_us cycle last
      {| world := w; wm := wm s; trace := trace s ++ [(Renew true, world s, w)] |}) as (t & Ht & Hl).
    rewrite Ht. cbn [trace]. rewrite <- app_assoc. eexists. split; [done|].
    intros b. cbn [app leased works]. done.
  - cbn. eexists. split; [by rewrite <- app_assoc|]. intros b. by eexists.
Qed.

Lemma acquire_loop_good (G : Run W -> list entry -> Run W -> Prop) `{!Composes G} :
  (forall d, good G (op_ Wait (wait_stop d))) -> good G try_acquire ->
  forall fuel window started acquired, good G (acquire_loop fuel window started acquired).
Proof.
  intros Hw Ha. induction fuel as [|fuel IH]; intros window started acquired; [apply good_ret, _|]. cbn [acquire_loop].
  apply good_bind; [apply _|apply good_gets, _|]. intros stop. destruct (acquired || stop); [apply good_ret, _|].
  apply good_bind; [apply _|apply good_gets, _|]. intros now. destruct (_ <=? 0); [apply good_ret, _|].
  apply good_bind; [apply _|apply Hw|]. intros _. apply good_bind; [apply _|apply good_gets, _|]. intros stop'.
  apply good_bind; [apply _|destruct stop'; [apply good_ret, _|apply Ha]|]. intros acq. apply IH.
Qed.

(** A composing relation that every operation outside the loop has, and every turn. *)
Lemma run_orchestrator_good (G : Run W -> list entry -> Run W -> Prop) `{!Composes G} :
  good G build_all -> (forall port, 0 < port < 65536 -> good G (op (fun r => StartMetrics (is_ok r)) (start_http_server port))) ->
  (forall d, good G (op_ Wait (wait_stop d))) -> good G try_acquire -> good G (op (fun r => Groups (is_ok r)) ensure_groups) ->
  good G (op_ Release release) -> good G (op_ Clear clear_heartbeat) -> good G (op_ CloseSignals close_signals) ->
  (forall interval poll_us l, good G (orchestrator_cycle interval poll_us l)) ->
  forall lock_ttl interval poll_ms fuel, good G (run_orchestrator lock_ttl interval poll_ms fuel).
Proof.
  intros Hb Hm Hw Ha Hg Hr Hc Hs Ht lock_ttl interval poll_ms fuel. unfold run_orchestrator, acquire_phase.
  apply good_bind; [apply _|apply Hb|]. intros _. apply good_bind; [apply _| |].
  - apply good_bind; [apply _|apply good_gets, _|]. intros started. apply good_bind; [apply _|apply Ha|].
    intros acquired. by apply acquire_loop_good.
  - intros [[acquired|]|]; [| |apply good_ret, _].
    + apply good_bind; [apply _|apply good_gets, _|]. intros [|].
      * apply good_bind; [apply _|apply Hs|]. intros _. apply good_ret, _.
      * apply good_bind; [apply _|apply Hg|]. intros _. apply good_bind; [apply _|by apply good_start; [apply _|set_solver|]|]. intros _. apply good_finally; [apply _| |].
        -- apply good_while; [apply _|]. intros l. apply Ht.
        -- apply good_bind; [apply _|apply Hr|]. intros _. apply good_bind; [apply _|apply Hc|]. intros _. apply Hs.
    + apply good_bind; [apply _|apply Hs|]. intros _. apply good_ret, _.
Qed.

Lemma orchestrator_safe lock_ttl interval poll_ms fuel : good safe (run_orchestrator lock_ttl interval poll_ms fuel).
Proof.
  apply run_orchestrator_good; [apply _| | | | | | | | |]; try (by intros; apply safe_op).
  intros. apply orchestrator_cycle_safe.
Qed.

(** Each entry is what the operation did. *)
Definition happened (x : entry) : Prop :=
  match x with
  | (Renew b, u, v) => renew u = (b, v)
  | (Acquire b, u, v) => answered (acquire u).1 = b /\ v = (acquire u).2
  | (Touch b, u, v) => is_ok (touch_heartbeat u).1 = b /\ v = (touch_heartbeat u).2
  | (Poll e, u, v) => res_option (poll u).1 = e /\ v = (poll u).2
  | (Lifecycle b, u, v) => is_ok (lifecycle u).1 = b /\ v = (lifecycle u).2
  | (Scan b, u, v) => is_ok (scan u).1 = b /\ v = (scan u).2
  | (Construct b, u, v) => is_ok (construct u).1 = b /\ v = (construct u).2
  | (StartMetrics b, u, v) => exists port, 0 < port < 65536 /\ is_ok (start_http_server port u).1 = b /\ v = (start_http_server port u).2
  | (Groups b, u, v) => is_ok (ensure_groups u).1 = b /\ v = (ensure_groups u).2
  | (Release, u, v) => v = release u
  | _ => True
  end.
Definition faithful (_ : Run W) (t : list entry) (_ : Run W) : Prop := Forall happened t.
#[export] Instance faithful_composes : Composes faithful.
Proof. split; [constructor|]. intros s t s1 t' s2 H1 H2. by apply Forall_app. Qed.

Lemma faithful_op {A} (name : Res A -> Act) f : (forall u, happened (name (f u).1, u, (f u).2)) -> good faithful (op name f).
Proof. intros Hn. apply good_op. intros s. constructor; [apply Hn|constructor]. Qed.
Lemma faithful_count f : good faithful (@count W f).
Proof. intros s. exists []. cbn. split; [by rewrite app_nil_r|constructor]. Qed.

Lemma work_turn_faithful interval poll_us cycle last : good faithful (work_turn interval poll_us cycle last).
Proof.
  unfold work_turn, guarded_poll, lifecycle_turn. decompose_good.
  all: try apply faithful_count; by apply faithful_op.
Qed.

Lemma orchestrator_cycle_faithful interval poll_us l : good faithful (orchestrator_cycle interval poll_us l).
Proof.
  destruct l as [cycle last]. unfold orchestrator_cycle, beat. decompose_good; try apply work_turn_faithful.
  all: try apply faithful_count; apply faithful_op; intros u; try done. cbn. by destruct (renew u).
Qed.

Lemma orchestrator_faithful lock_ttl interval poll_ms fuel : good faithful (run_orchestrator lock_ttl interval poll_ms fuel).
Proof.
  apply run_orchestrator_good; [apply _| | | | | | | | |]; try (by intros; apply faithful_op); [by intros; apply faithful_op; intros u; exists port|].
  intros. apply orchestrator_cycle_faithful.
Qed.

(** ** A lost lease ends the loop *)

Definition kept (t : list entry) : Prop := Forall (fun x => x.1.1 <> Renew false) t.
Definition no_loss (_ : Run W) (t : list entry) (_ : Run W) : Prop := kept t.
#[export] Instance no_loss_composes : Composes no_loss.
Proof. split; [constructor|]. intros s t s1 t' s2 H1 H2. by apply Forall_app. Qed.
Lemma no_loss_op {A} (name : Res A -> Act) f : (forall r, name r <> Renew false) -> good no_loss (op name f).
Proof. intros Hn. apply good_op. intros s. constructor; [apply Hn|constructor]. Qed.
Lemma no_loss_count f : good no_loss (@count W f).
Proof. intros s. exists []. cbn. split; [by rewrite app_nil_r|constructor]. Qed.

Definition lost_exit (x y : entry) : Prop := x.1.1 = Renew false /\ y.1.1 = Alert "lock_lost".

Lemma kept_renewed u v t : kept t -> kept ((Renew true, u, v) :: t).
Proof. intros Ht. apply Forall_cons. split; [cbn; congruence|done]. Qed.

(** A turn that ends the loop does it for a lost lease, after the alert. *)
Definition exits (m : M W (option (Z * Z))) : Prop := forall s, exists t,
  trace (m s).2 = trace s ++ t /\
  match (m s).1 with
  | Ok None => exists t' x y, t = t' ++ [x; y] /\ lost_exit x y /\ kept t'
  | _ => kept t
  end.

Lemma exits_bind {A} (m : M W A) k : good no_loss m -> (forall a, exits (k a)) -> exits (bind m k).
Proof.
  intros Hm Hk s. destruct (Hm s) as (t & Ht & Hn). unfold bind. destruct (m s) as [[a|e] s1]; cbn [fst snd] in *; [|by exists t].
  destruct (Hk a s1) as (t' & Ht' & He). exists (t ++ t'). rewrite Ht', Ht, app_assoc. split; [done|].
  destruct (k a s1).1 as [[l|]|e]; [by apply Forall_app| |by apply Forall_app].
  destruct He as (t1 & x & y & -> & Hx & Hk1). exists (t ++ t1), x, y. rewrite app_assoc. split; [done|]. split; [done|]. by apply Forall_app.
Qed.

Lemma exits_some l : exits (ret (Some l)).
Proof. intros s. exists []. rewrite app_nil_r. split; [done|constructor]. Qed.

Lemma turn_exit interval poll_us l : exits (orchestrator_cycle interval poll_us l).
Proof.
  destruct l as [cycle last]. unfold orchestrator_cycle. apply exits_bind.
  { unfold beat. decompose_good; [by apply no_loss_op|apply no_loss_count]. }
  intros _ s. rewrite bind_op. destruct (renew (world s)) as [ok w]. cbn [answered]. destruct ok; cbn [negb].
  - assert (Hw : exits (work_turn interval poll_us cycle last)).
    { unfold work_turn, guarded_poll, lifecycle_turn. do 4 (apply exits_bind; [decompose_good; try apply no_loss_count; by apply no_loss_op|intros ?]).
      apply exits_some. }
    destruct (Hw {| world := w; wm := wm s; trace := trace s ++ [(Renew true, world s, w)] |}) as (t & Ht & He). cbn [trace] in Ht.
    exists ((Renew true, world s, w) :: t). rewrite Ht, <- app_assoc. split; [done|].
    destruct (work_turn _ _ _ _ _).1 as [[l|]|e]; [by apply kept_renewed| |by apply kept_renewed].
    destruct He as (t1 & x & y & -> & Hx & Hk1). exists ((Renew true, world s, w) :: t1), x, y. split; [done|]. split; [done|by apply kept_renewed].
  - cbn. exists [(Renew false, world s, w); (Alert "lock_lost", w, publish_alert "lock_lost" w)]. rewrite <- app_assoc. split; [done|].
    exists [], (Renew false, world s, w), (Alert "lock_lost", w, publish_alert "lock_lost" w). split; [done|]. split; [done|constructor].
Qed.

(** The loop: the lease was never lost, or it was and that was the end. *)
Lemma loop_exit interval poll_us fuel : forall l s, exists t,
  let '(r, s') := while_running fuel (orchestrator_cycle interval poll_us) l s in
  trace s' = trace s ++ t /\
  (kept t \/ r = Ok true /\ exists t' x y, t = t' ++ [x; y] /\ lost_exit x y /\ kept t').
Proof.
  induction fuel as [|fuel IH]; intros l s; [exists []; cbn; rewrite app_nil_r; split; [done|left; constructor]|].
  cbn [while_running]. unfold bind, gets. destruct (should_stop (world s)).
  { exists []. cbn. rewrite app_nil_r. split; [done|left; constructor]. }
  destruct (turn_exit interval poll_us l s) as (t & Ht & He). destruct (orchestrator_cycle interval poll_us l s) as [[[l'|]|e] s1]; cbn [fst snd] in *.
  - destruct (IH l' s1) as (t' & Hx). exists (t ++ t'). destruct (while_running _ _ l' s1) as [r s2]. destruct Hx as [Ht' Hk].
    rewrite Ht', Ht, app_assoc. split; [done|]. destruct Hk as [Hk|(-> & t1 & x & y & -> & Hl & Hk)]; [left; by apply Forall_app|right].
    split; [done|]. exists (t ++ t1), x, y. rewrite app_assoc. split_and!; try done. by apply Forall_app.
  - exists t. cbn. split; [done|]. by right.
  - exists t. cbn. split; [done|]. by left.
Qed.

(** The process is over. *)
Definition ended (r : Res bool) : bool := match r with Ok false => false | _ => true end.
Definition acts (s : Run W) : list Act := map (fun x => x.1.1) (trace s).

(** How the loop with its cleanup ends. *)
Lemma served interval poll_us fuel l s :
  let '(r, s') := finally (while_running fuel (orchestrator_cycle interval poll_us) l)
                    (bind (op_ Release release) (fun _ => bind (op_ Clear clear_heartbeat) (fun _ => op_ CloseSignals close_signals))) s in
  exists t, acts s' = acts s ++ t ++ (if ended r then [Release; Clear; CloseSignals] else []) /\
    (Renew false ∉ t \/ r = Ok true /\ exists t', t = t' ++ [Renew false; Alert "lock_lost"] /\ Renew false ∉ t').
Proof.
  assert (Hkept : forall t, kept t -> Renew false ∉ map (fun x => x.1.1) t).
  { intros t Hk (x & Hx & Hin)%list_elem_of_fmap. unfold kept in Hk. rewrite Forall_forall in Hk. by apply (Hk x). }
  destruct (loop_exit interval poll_us fuel l s) as (t & Hl). unfold finally.
  destruct (while_running fuel (orchestrator_cycle interval poll_us) l s) as [r s1]. destruct Hl as [Ht Hk].
  assert (Ha : acts s1 = acts s ++ map (fun x => x.1.1) t) by (unfold acts; by rewrite Ht, map_app).
  assert (Hk' : Renew false ∉ map (fun x => x.1.1) t \/ r = Ok true /\ exists t',
                  map (fun x => x.1.1) t = t' ++ [Renew false; Alert "lock_lost"] /\ Renew false ∉ t').
  { destruct Hk as [Hk|(-> & t' & x & y & -> & [Hx Hy] & Hk)]; [left; by apply Hkept|right]. split; [done|].
    exists (map (fun x => x.1.1) t'). rewrite map_app. cbn. rewrite Hx, Hy. split; [done|by apply Hkept]. }
  assert (Hend : ended r = true -> exists t0, acts {| world := close_signals (clear_heartbeat (release (world s1))); wm := wm s1;
      trace := ((trace s1 ++ [(Release, world s1, release (world s1))]) ++ [(Clear, release (world s1), clear_heartbeat (release (world s1)))])
               ++ [(CloseSignals, clear_heartbeat (release (world s1)), close_signals (clear_heartbeat (release (world s1))))] |} =
    acts s ++ t0 ++ (if ended r then [Release; Clear; CloseSignals] else []) /\
    (Renew false ∉ t0 \/ r = Ok true /\ exists t', t0 = t' ++ [Renew false; Alert "lock_lost"] /\ Renew false ∉ t')).
  { intros Hr. exists (map (fun x => x.1.1) t). rewrite Hr. split; [|done].
    unfold acts at 1. cbn [trace]. rewrite !map_app. cbn [map fst]. fold (acts s1). rewrite Ha, <- !app_assoc. done. }
  destruct r as [[|]|e]; [by apply Hend| |by apply Hend].
  exists (map (fun x => x.1.1) t). cbn [ended]. rewrite app_nil_r. split; [done|exact Hk'].
Qed.
End Safety.

(** Neither turns nor a loss. *)
Section Before.
Context {W : Type} `{Runtime W}.
Definition early (a : Act) : bool := match a with Renew _ | Touch _ => false | _ => true end.
Definition before_loop (_ : Run W) (t : list (Act * W * W)) (_ : Run W) : Prop := Forall (fun x => early x.1.1 = true) t.
#[export] Instance before_composes : Composes before_loop.
Proof. split; [constructor|]. intros s t s1 t' s2 H1 H2. by apply Forall_app. Qed.
Lemma before_op {A} (name : Res A -> Act) (f : W -> Res A * W) : (forall r, early (name r) = true) -> good before_loop (op name f).
Proof. intros Hn. apply good_op. intros s. constructor; [apply Hn|constructor]. Qed.
Lemma early_not t : Forall (fun x : Act * W * W => early x.1.1 = true) t ->
  Renew false ∉ map (fun x => x.1.1) t /\ forall b, Touch b ∉ map (fun x => x.1.1) t.
Proof.
  intros Hf. rewrite Forall_forall in Hf. split; [|intros b]; intros (x & Hx & Hin)%list_elem_of_fmap.
  all: specialize (Hf _ Hin); by rewrite <- Hx in Hf.
Qed.
End Before.

(** What is asked of the lease: success means ownership at that moment. *)
Class Lease (W : Type) `{Runtime W} := {
  owned : W -> bool;
  acquire_owned : forall w w', acquire w = (Ok true, w') -> owned w' = true;
  renew_owned : forall w w', renew w = (true, w') -> owned w' = true
}.

Section Orchestrator.
Context {W : Type} `{Lease W}.

Lemma acquire_phase_early lock_ttl : good before_loop (acquire_phase lock_ttl).
Proof.
  unfold acquire_phase. apply good_bind; [apply _|apply good_gets, _|]. intros started.
  apply good_bind; [apply _|by apply before_op|]. intros acquired.
  apply acquire_loop_good; [apply _|intros; by apply before_op|by apply before_op].
Qed.

Lemma early_one a : early a = true -> Renew false ∉ [a] /\ forall b, Touch b ∉ [a].
Proof. intros Ha. split; [|intros b]; intros <-%list_elem_of_singleton; done. Qed.

(** A process that never reached its loop, and one that did. *)
Definition unserved (l : list Act) : Prop := Renew false ∉ l /\ forall b, Touch b ∉ l.
Lemma unserved_app l1 l2 : unserved l1 -> unserved l2 -> unserved (l1 ++ l2).
Proof. intros [H1 H2] [H3 H4]. split; [|intros b]; rewrite elem_of_app; naive_solver. Qed.
Definition loss_last (r : Res bool) (t : list Act) : Prop :=
  Renew false ∉ t \/ r = Ok true /\ exists t', t = t' ++ [Renew false; Alert "lock_lost"] /\ Renew false ∉ t'.

Lemma run_shape lock_ttl interval poll_ms fuel s0 : trace s0 = [] ->
  let '(r, s) := run_orchestrator lock_ttl interval poll_ms fuel s0 in
  unserved (acts s) \/
  exists pre t, acts s = pre ++ t ++ (if ended r then [Release; Clear; CloseSignals] else []) /\ Renew false ∉ pre /\ loss_last r t.
Proof.
  intros Hnil. unfold run_orchestrator, build_all. rewrite bind_op, Hnil. cbn [app].
  destruct (construct (world s0)) as [[[]|e] wc]; [|by left; apply early_one]. cbv beta iota zeta.
  match goal with |- context [bind (acquire_phase lock_ttl) _ ?x] => set (s1 := x) end.
  destruct (acquire_phase_early lock_ttl s1) as (ta & Hta & Hearly).
  assert (He : unserved (Construct true :: map (fun x => x.1.1) ta)).
  { apply (unserved_app [Construct true]); [by apply early_one|]. by apply early_not. }
  unfold bind at 1. destruct (acquire_phase lock_ttl s1) as [ra sa]. cbn [snd] in *.
  assert (Ha : unserved (acts sa)) by (unfold acts; by rewrite Hta).
  assert (Hone : forall a u v w m, early a = true -> unserved (acts {| world := w; wm := m; trace := trace sa ++ [(a, u, v)] |})).
  { intros a u v w m Hea. unfold acts. cbn [trace]. rewrite map_app. apply unserved_app; [done|by apply early_one]. }
  assert (Htwo : forall a b u v u' v' w m, early a = true -> early b = true ->
    unserved (acts {| world := w; wm := m; trace := (trace sa ++ [(a, u, v)]) ++ [(b, u', v')] |})).
  { intros a b u v u' v' w m Hea Heb. unfold acts. cbn [trace]. rewrite !map_app.
    repeat apply unserved_app; [done|by apply early_one..]. }
  destruct ra as [[[acquired|]|]|e]; [|by left; apply Hone|by left|by left].
  unfold bind at 1, gets. destruct (should_stop (world sa)); [by left; apply Hone|]. rewrite bind_op.
  destruct (ensure_groups (world sa)) as [[[]|e] wg]; [|by left; apply Hone]. cbv beta iota zeta.
  unfold start_worker_metrics. destruct (port_ok int_of_text metrics_port_env "orchestrator" ltac:(set_solver)) as (port & -> & _).
  rewrite bind_op. cbn [world wm trace]. destruct (start_http_server port wg) as [[[]|e] wp]; [|by left; apply Htwo]. cbv beta iota zeta.
  match goal with |- context [finally _ _ ?x] => pose proof (served (seconds_td (Z.max 1 interval)) (poll_ms * 1000) fuel (0, 0) x) as Hs; set (sg := x) in * end.
  destruct (finally _ _ sg) as [r s]. destruct Hs as (t & Hacts & Hloss). right. exists (acts sg), t. split; [done|]. split; [|done].
  by apply Htwo.
Qed.

(** C16: The orchestrator acts only on a lease it has just confirmed.  Whatever the other
    processes do and whatever fails, every poll, lifecycle pass and scan of its process
    follows a renewal that succeeded, at which the lease was its own, with nothing but work
    in between; a renewal that fails is the last thing before the alert, the release, the
    end of the heartbeat and the end of the process; and a process that served and ended
    has released. *)
Theorem orchestrator_works_under_lease (lock_ttl interval poll_ms : Z) (fuel : nat) (w0 : W) :
  let '(r, s) := run_orchestrator lock_ttl interval poll_ms fuel
                   {| world := w0; wm := build_worker_metrics; trace := [] |} in
  (forall pre a u u' post, trace s = pre ++ (a, u, u') :: post -> works a = true ->
     exists pre' v v' mid, pre = pre' ++ (Renew true, v, v') :: mid /\ renew v = (true, v') /\ owned v' = true /\
       Forall (fun x => works x.1.1 = true) mid) /\
  (Renew false ∈ acts s -> r = Ok true /\
     exists pre, acts s = pre ++ [Renew false; Alert "lock_lost"; Release; Clear; CloseSignals] /\ Renew false ∉ pre) /\
  (ended r = true -> (exists b, Touch b ∈ acts s) -> exists pre, acts s = pre ++ [Release; Clear; CloseSignals]).
Proof.
  set (s0 := {| world := w0; wm := _; trace := [] |}).
  destruct (orchestrator_safe lock_ttl interval poll_ms fuel s0) as (t & Ht & Hs).
  destruct (orchestrator_faithful lock_ttl interval poll_ms fuel s0) as (t' & Ht' & Hf).
  pose proof (run_shape lock_ttl interval poll_ms fuel s0 eq_refl) as Hshape.
  destruct (run_orchestrator lock_ttl interval poll_ms fuel s0) as [r s]. cbn [snd] in *.
  change (trace s0) with (@nil (Act * W * W)) in *. cbn [app] in *. subst t t'. split_and!.
  - intros pre a u u' post He Ha. destruct (safe_covered (trace s) pre a u u' post) as (pre' & v & v' & mid & -> & Hm); [apply Hs|done|done|].
    assert (Hv : happened (Renew true, v, v')).
    { unfold faithful in Hf. rewrite He in Hf. apply Forall_app in Hf as [Hf _]. by apply Forall_app in Hf as [_ [? _]%Forall_cons]. }
    exists pre', v, v', mid. split_and!; try done. by eapply renew_owned.
  - intros Hin. destruct Hshape as [[Hno _]|(pre & t & Hacts & Hpre & [Hno|(-> & t' & -> & Hno)])]; [done| |].
    + exfalso. rewrite Hacts, !elem_of_app in Hin. destruct Hin as [?|[?|Hin]]; try done.
      destruct (ended r); [|by apply elem_of_nil in Hin]. repeat (apply elem_of_cons in Hin as [?|Hin]; [done|]). by apply elem_of_nil in Hin.
    + split; [done|]. exists (pre ++ t'). rewrite Hacts, <- !app_assoc. split; [done|]. rewrite elem_of_app. naive_solver.
  - intros Hr [b Hb]. destruct Hshape as [[_ Hno]|(pre & t & Hacts & _ & _)]; [by apply Hno in Hb|].
    exists (pre ++ t). by rewrite Hacts, Hr, <- app_assoc.
Qed.
End Orchestrator.

(** ** What ends a process *)

Section Endings.
Context {W : Type} `{Runtime W} (fatal : list Act).
Notation entry := (Act * W * W)%type.

Definition struck (t : list entry) : Prop := exists x, x ∈ t /\ x.1.1 ∈ fatal.
Lemma struck_app t1 t2 : struck (t1 ++ t2) <-> struck t1 \/ struck t2.
Proof. unfold struck. setoid_rewrite elem_of_app. naive_solver. Qed.
Lemma struck_nil : ~ struck [].
Proof. by intros (x & Hx%elem_of_nil & _). Qed.
Lemma struck_one x : struck [x] <-> x.1.1 ∈ fatal.
Proof. unfold struck. setoid_rewrite list_elem_of_singleton. naive_solver. Qed.

(** It fails just when a fatal operation was among those it performed. *)
Definition errs {A} (m : M W A) : Prop := forall s, exists t,
  trace (m s).2 = trace s ++ t /\ (is_ok (m s).1 = false <-> struck t).

Lemma errs_pure {A} (m : M W A) : (forall s, trace (m s).2 = trace s /\ is_ok (m s).1 = true) -> errs m.
Proof.
  intros Hm s. destruct (Hm s) as [Ht Ho]. exists []. rewrite app_nil_r, Ho. split; [done|].
  split; [done|by intros ?%struck_nil].
Qed.
Lemma errs_ret {A} (a : A) : errs (ret a).
Proof. by apply errs_pure. Qed.
Lemma errs_gets {A} (f : W -> A) : errs (gets f).
Proof. by apply errs_pure. Qed.
Lemma errs_count f : errs (@count W f).
Proof. by apply errs_pure. Qed.

Lemma errs_op {A} (name : Res A -> Act) (f : W -> Res A * W) :
  (forall u, is_ok (f u).1 = false <-> name (f u).1 ∈ fatal) -> errs (op name f).
Proof.
  intros Hf s. unfold op. specialize (Hf (world s)). destruct (f (world s)) as [r w]. eexists. split; [done|].
  by rewrite struck_one.
Qed.
Lemma errs_op_ name (f : W -> W) : name ∉ fatal -> errs (op_ name f).
Proof. intros Hn. apply errs_op. intros u. split; done. Qed.

Lemma errs_bind {A B} (m : M W A) (k : A -> M W B) : errs m -> (forall a, errs (k a)) -> errs (bind m k).
Proof.
  intros Hm Hk s. destruct (Hm s) as (t & Ht & Hi). unfold bind. destruct (m s) as [[a|e] s1]; cbn [fst snd is_ok] in *.
  - destruct (Hk a s1) as (t' & Ht' & Hi'). exists (t ++ t'). rewrite Ht', Ht, app_assoc, struck_app. split; [done|].
    rewrite Hi'. split; [auto|]. intros [Hs|]; [by apply Hi in Hs|done].
  - by exists t.
Qed.

(** An operation none of whose outcomes is fatal, with its errors caught. *)
Lemma errs_caught {A B} (name : Res A -> Act) (f : W -> Res A * W) (k : A -> M W B) (h : PyErr -> M W B) :
  (forall r, name r ∉ fatal) ->
  (forall a s, trace (k a s).2 = trace s /\ is_ok (k a s).1 = true) ->
  (forall e s, trace (h e s).2 = trace s /\ is_ok (h e s).1 = true) -> errs (catch (bind (op name f) k) h).
Proof.
  intros Hn Hk Hh s. exists [(name (f (world s)).1, world s, (f (world s)).2)]. unfold catch. rewrite bind_op.
  destruct (f (world s)) as [[a|e] w]; cbn [fst snd].
  - match goal with |- context [k a ?x] => destruct (Hk a x) as [Ht Ho]; destruct (k a x) as [[b|e'] s2] end; [|done].
    cbn [snd] in *. rewrite Ht. split; [done|]. rewrite struck_one. split; [done|by intros ?%Hn].
  - match goal with |- context [h e ?x] => destruct (Hh e x) as [Ht Ho]; destruct (h e x) as [r s2] end.
    cbn [fst snd] in *. rewrite Ht, Ho. split; [done|]. rewrite struck_one. split; [done|by intros ?%Hn].
Qed.

Lemma errs_while {L} (body : L -> M W (option L)) : (forall l, errs (body l)) -> forall fuel l, errs (while_running fuel body l).
Proof.
  intros Hb. induction fuel as [|fuel IH]; intros l; [apply errs_ret|]. cbn [while_running].
  apply errs_bind; [apply errs_gets|]. intros [|]; [apply errs_ret|].
  apply errs_bind; [done|]. intros [l'|]; [apply IH|apply errs_ret].
Qed.

Lemma errs_finally loop cleanup : errs loop -> errs cleanup -> errs (finally loop cleanup).
Proof.
  intros Hl Hc s. destruct (Hl s) as (t & Ht & Hi). unfold finally. destruct (loop s) as [r s1]. cbn [fst snd] in *.
  destruct (Hc s1) as (t' & Ht' & Hi'). destruct (cleanup s1) as [rc s2]. cbn [fst snd] in *.
  assert (Hboth : exists t0, trace s2 = trace s ++ t0 /\ (is_ok r = false \/ is_ok rc = false <-> struck t0)).
  { exists (t ++ t'). rewrite Ht', Ht, app_assoc, struck_app, Hi, Hi'. done. }
  destruct Hboth as (t0 & Ht0 & Hb). destruct r as [[|]|e]; [|by exists t|].
  all: exists t0; destruct rc as [u|e']; cbn [fst snd is_ok] in *; rewrite <- Hb; intuition congruence.
Qed.

Lemma errs_guarded : (forall e, Poll e ∉ fatal) -> errs guarded_poll.
Proof. intros Hp. by apply errs_caught. Qed.

Lemma errs_beat : (forall b, Touch b ∈ fatal <-> b = false) -> errs beat.
Proof.
  intros Ht. unfold beat. apply errs_bind; [apply errs_op; intros u; by rewrite Ht|]. intros _.
  apply errs_bind; [apply errs_gets|]. intros now. apply errs_count.
Qed.

Lemma errs_lifecycle interval last : (forall b, Lifecycle b ∉ fatal) -> errs (lifecycle_turn interval last).
Proof.
  intros Hl. unfold lifecycle_turn. apply errs_bind; [apply errs_gets|]. intros now. destruct (_ <=? _); [|apply errs_ret].
  by apply errs_caught.
Qed.

Lemma errs_stop_beating : Clear ∉ fatal -> CloseSignals ∉ fatal -> errs stop_beating.
Proof. intros H1 H2. unfold stop_beating. apply errs_bind; [by apply errs_op_|]. intros _. by apply errs_op_. Qed.
End Endings.

Section Processes.
Context {W : Type} `{Runtime W}.

Definition fatal_alerts : list Act := [Construct false; Groups false; StartMetrics false; Touch false].
Definition fatal_agents : list Act := [Construct false; Groups false; StartMetrics false; Touch false; Poll None].
Definition fatal_content : list Act := [Construct false; StartMetrics false; Touch false; Content false; CloseProviders false].
Definition fatal_orchestrator : list Act := [Construct false; Groups false; StartMetrics false; Touch false; Scan false].

Lemma acquire_loop_errs fuel : (forall w, is_ok (acquire w).1 = true) -> forall window started acquired,
  errs fatal_orchestrator (acquire_loop fuel window started acquired).
Proof.
  intros Ha. induction fuel as [|fuel IH]; intros window started acquired; [apply errs_ret|]. cbn [acquire_loop].
  apply errs_bind; [apply errs_gets|]. intros stop. destruct (acquired || stop); [apply errs_ret|].
  apply errs_bind; [apply errs_gets|]. intros now. destruct (_ <=? 0); [apply errs_ret|].
  apply errs_bind; [apply errs_op_; unfold fatal_orchestrator; set_solver|]. intros _. apply errs_bind; [apply errs_gets|]. intros stop'.
  apply errs_bind; [|intros acq; apply IH]. destruct stop'; [apply errs_ret|]. apply errs_op.
  intros u. rewrite Ha. split; [done|]. unfold fatal_orchestrator. set_solver.
Qed.

Ltac fatal := intros; repeat match goal with b : bool |- _ => destruct b end;
  unfold fatal_alerts, fatal_agents, fatal_content, fatal_orchestrator; set_solver.

Lemma orchestrator_cycle_errs interval poll_us l : errs fatal_orchestrator (orchestrator_cycle interval poll_us l).
Proof.
  destruct l as [cycle last]. unfold orchestrator_cycle. apply errs_bind; [apply errs_beat; fatal|]. intros _.
  apply errs_bind; [apply errs_op; intros u; destruct (renew u) as [b w]; fatal|]. intros ok. destruct ok; cbn [negb].
  - unfold work_turn. apply errs_bind; [apply errs_guarded; fatal|]. intros _. apply errs_bind; [apply errs_lifecycle; fatal|].
    intros last'. apply errs_bind.
    { destruct (_ =? 0); [|apply errs_ret]. apply errs_op. intros u. destruct (scan u) as [[[]|e] w]; fatal. }
    intros _. apply errs_bind; [apply errs_op_; fatal|]. intros _. apply errs_ret.
  - apply errs_bind; [apply errs_op_; fatal|]. intros _. apply errs_ret.
Qed.

Lemma build_errs F : (forall b, Construct b ∈ F <-> b = false) -> errs F build_all.
Proof. intros HF. apply errs_op. intros u. by rewrite HF. Qed.

Lemma start_errs F worker : worker ∈ WORKER_ROLES -> (forall b, StartMetrics b ∈ F <-> b = false) -> errs F (start_worker_metrics worker).
Proof.
  intros Hw HF. unfold start_worker_metrics. destruct (port_ok int_of_text metrics_port_env worker Hw) as (port & -> & _).
  apply errs_op. intros u. by rewrite HF.
Qed.

Lemma groups_errs F : (forall b, Groups b ∈ F <-> b = false) -> errs F (op (fun r => Groups (is_ok r)) ensure_groups).
Proof. intros HF. apply errs_op. intros u. by rewrite HF. Qed.

Lemma run_orchestrator_errs lock_ttl interval poll_ms fuel : (forall w, is_ok (acquire w).1 = true) ->
  errs fatal_orchestrator (run_orchestrator lock_ttl interval poll_ms fuel).
Proof.
  intros Ha. assert (Hclose : errs fatal_orchestrator (op_ CloseSignals close_signals)) by (apply errs_op_; fatal).
  unfold run_orchestrator. apply errs_bind; [apply build_errs; fatal|]. intros _. apply errs_bind.
  - unfold acquire_phase. apply errs_bind; [apply errs_gets|]. intros started. apply errs_bind; [|intros; by apply acquire_loop_errs].
    apply errs_op. intros u. rewrite Ha. fatal.
  - intros [[acquired|]|]; [|apply errs_bind; [done|intros _; apply errs_ret]|apply errs_ret].
    apply errs_bind; [apply errs_gets|]. intros [|]; [apply errs_bind; [done|intros _; apply errs_ret]|].
    apply errs_bind; [apply groups_errs; fatal|]. intros _. apply errs_bind; [apply start_errs; [set_solver|fatal]|]. intros _.
    apply errs_finally; [apply errs_while, orchestrator_cycle_errs|].
    apply errs_bind; [apply errs_op_; fatal|]. intros _. apply errs_bind; [apply errs_op_; fatal|]. intros _. exact Hclose.
Qed.

Lemma run_alerts_errs poll_us fuel : errs fatal_alerts (run_alerts_worker poll_us fuel).
Proof.
  unfold run_alerts_worker. apply errs_bind; [apply build_errs; fatal|]. intros _. apply errs_bind; [apply groups_errs; fatal|]. intros _.
  apply errs_bind; [apply start_errs; [set_solver|fatal]|]. intros _.
  apply errs_finally; [apply errs_while|apply errs_stop_beating; fatal]. intros l. unfold alerts_cycle.
  apply errs_bind; [apply errs_beat; fatal|]. intros _. apply errs_bind; [apply errs_guarded; fatal|]. intros _.
  apply errs_bind; [apply errs_op_; fatal|]. intros _. apply errs_ret.
Qed.

Lemma run_agents_errs fuel : errs fatal_agents (run_agents_worker fuel).
Proof.
  unfold run_agents_worker. apply errs_bind; [apply build_errs; fatal|]. intros _. apply errs_bind; [apply groups_errs; fatal|]. intros _.
  apply errs_bind; [apply start_errs; [set_solver|fatal]|]. intros _.
  apply errs_finally; [apply errs_while|apply errs_stop_beating; fatal]. intros l. unfold agents_cycle.
  apply errs_bind; [apply errs_beat; fatal|]. intros _.
  apply errs_bind; [apply errs_op; intros u; destruct (poll u) as [[n|e] w]; fatal|]. intros n.
  apply errs_bind; [apply errs_count|]. intros _. apply errs_bind; [apply errs_op_; fatal|]. intros _. apply errs_ret.
Qed.

Lemma reraise_errs {A} F (m : M W A) : errs F m -> errs F (reraise m).
Proof.
  intros Hm s. destruct (Hm s) as (t & Ht & Hi). exists t. unfold reraise, catch, bind, count. by destruct (m s) as [[a|e] s1].
Qed.

Lemma run_content_errs news calendar fuel : errs fatal_content (run_content_worker news calendar fuel).
Proof.
  unfold run_content_worker. apply errs_bind; [apply build_errs; fatal|]. intros _.
  apply errs_bind; [apply start_errs; [set_solver|fatal]|]. intros _. apply errs_finally.
  - apply errs_while. intros l. unfold content_turn. apply errs_bind; [apply errs_beat; fatal|]. intros _.
    apply errs_bind; [apply reraise_errs, errs_op; intros u; destruct (content_cycle u) as [[n|e] w]; fatal|]. intros _.
    apply errs_bind; [apply errs_count|]. intros _. apply errs_bind; [apply errs_op_; fatal|]. intros _. apply errs_ret.
  - apply errs_bind; [apply errs_stop_beating; fatal|]. intros _. apply errs_op. intros u. destruct (close_providers u) as [[n|e] w]; fatal.
Qed.

Definition failed_with (F : list Act) (x : Res bool * Run W) : Prop := is_ok x.1 = false <-> exists a, a ∈ acts x.2 /\ a ∈ F.

Lemma errs_failed F (m : M W bool) s : errs F m -> trace s = [] -> failed_with F (m s).
Proof.
  intros Hm Hs. destruct (Hm s) as (t & Ht & Hi). rewrite Hs in Ht. cbn [app] in Ht. unfold failed_with, acts. rewrite Hi, Ht.
  unfold struck. setoid_rewrite list_elem_of_fmap. naive_solver.
Qed.

End Processes.

(** ** The exported metrics *)

Section Metrics.
Context {W : Type} `{Runtime W}.
Notation entry := (Act * W * W)%type.

(** What each operation does to the metrics; [counted] says whether a failed poll is. *)
Definition measure (counted : bool) (m : WorkerMetrics) (x : entry) : WorkerMetrics :=
  match x with
  | (Touch true, _, v) => mark_heartbeat (clock v) m
  | (Poll (Some n), _, _) => count_cycle n m
  | (Poll None, _, _) => if counted then count_error m else m
  | (Lifecycle false, _, _) | (Content false, _, _) => count_error m
  | (Content true, _, _) => count_cycle 0 m
  | _ => m
  end.
Definition measured (counted : bool) (s : Run W) (t : list entry) (s' : Run W) : Prop :=
  wm s' = foldl (measure counted) (wm s) t.
#[export] Instance measured_composes counted : Composes (measured counted).
Proof. split; [done|]. unfold measured. intros s t s1 t' s2 H1 H2. by rewrite H2, H1, foldl_app. Qed.

Lemma measured_op {A} counted (name : Res A -> Act) f :
  (forall u m, measure counted m (name (f u).1, u, (f u).2) = m) -> good (measured counted) (op name f).
Proof. intros Hn. apply good_op. intros s. unfold measured. cbn [foldl wm]. by rewrite Hn. Qed.

Lemma measured_beat counted : good (measured counted) beat.
Proof.
  intros s. unfold beat. rewrite bind_op. destruct (touch_heartbeat (world s)) as [[[]|e] w]; cbn; eexists; split; done.
Qed.

Lemma measured_poll : good (measured true) guarded_poll.
Proof.
  intros s. unfold guarded_poll, catch. rewrite bind_op. destruct (poll (world s)) as [[n|e] w]; cbn; eexists; split; done.
Qed.

Lemma measured_lifecycle interval last : good (measured true) (lifecycle_turn interval last).
Proof.
  unfold lifecycle_turn. apply good_bind; [apply _|apply good_gets, _|]. intros now. destruct (_ <=? _); [|apply good_ret, _].
  intros s. unfold catch. rewrite bind_op. destruct (lifecycle (world s)) as [[[]|e] w]; cbn; eexists; split; done.
Qed.

Lemma measured_orchestrator lock_ttl interval poll_ms fuel : good (measured true) (run_orchestrator lock_ttl interval poll_ms fuel).
Proof.
  apply run_orchestrator_good; [apply _| | | | | | | | |]; try (by intros; apply measured_op).
  intros interval' poll_us [cycle last]. unfold orchestrator_cycle. apply good_bind; [apply _|apply measured_beat|]. intros _.
  apply good_bind; [apply _|by apply measured_op|]. intros ok. destruct (negb ok).
  { apply good_bind; [apply _|by apply measured_op|]. intros _. apply good_ret, _. }
  unfold work_turn. apply good_bind; [apply _|apply measured_poll|]. intros _.
  apply good_bind; [apply _|apply measured_lifecycle|]. intros last'. decompose_good; by apply measured_op.
Qed.

Lemma measured_alerts poll_us fuel : good (measured true) (run_alerts_worker poll_us fuel).
Proof.
  unfold run_alerts_worker, stop_beating. apply good_bind; [apply _|by apply measured_op|]. intros _.
  apply good_bind; [apply _|by apply measured_op|]. intros _.
  apply good_bind; [apply _|by apply good_start; [apply _|set_solver|intros; apply measured_op]|]. intros _. apply good_finally; [apply _| |].
  - apply good_while; [apply _|]. intros l. unfold alerts_cycle. apply good_bind; [apply _|apply measured_beat|]. intros _.
    apply good_bind; [apply _|apply measured_poll|]. intros _. decompose_good; by apply measured_op.
  - decompose_good; by apply measured_op.
Qed.

Lemma measured_agents fuel : good (measured false) (run_agents_worker fuel).
Proof.
  unfold run_agents_worker, stop_beating. apply good_bind; [apply _|by apply measured_op|]. intros _.
  apply good_bind; [apply _|by apply measured_op|]. intros _.
  apply good_bind; [apply _|by apply good_start; [apply _|set_solver|intros; apply measured_op]|]. intros _. apply good_finally; [apply _| |].
  - apply good_while; [apply _|]. intros l. unfold agents_cycle. apply good_bind; [apply _|apply measured_beat|]. intros _ s.
    rewrite bind_op. destruct (poll (world s)) as [[n|e] w]; cbn.
    + exists [(Poll (Some n), world s, w); (Sleep, w, pause 500000 w)]. by rewrite <- app_assoc.
    + by eexists.
  - decompose_good; by apply measured_op.
Qed.

(** The exported metrics tell what the process did.  Of the orchestrator and the alert
    worker they are its operations added up: a beat of the heartbeat sets the gauge, a poll
    that answered counts a cycle and the errors of its batch, a failed poll or lifecycle
    pass counts an error.  The agent worker does not count the failed poll it dies of.  And
    the gauge of a live loop, once set, is never taken back, not at the end either. *)
Theorem exported_metrics (w : W) (fuel : nat) :
  let s := {| world := w; wm := build_worker_metrics; trace := [] |} in
  let sums counted (s' : Run W) := wm s' = foldl (measure counted) build_worker_metrics (trace s') in
  (forall lock_ttl interval poll_ms, sums true (run_orchestrator lock_ttl interval poll_ms fuel s).2) /\
  (forall poll_us, sums true (run_alerts_worker poll_us fuel s).2) /\
  sums false (run_agents_worker fuel s).2 /\
  (forall counted t m, (exists u v, (Touch true, u, v) ∈ t) \/ wm_up m = 1 -> wm_up (foldl (measure counted) m t) = 1).
Proof.
  cbv zeta. set (s := {| world := w; wm := _; trace := [] |}).
  assert (Hg : forall counted (m : M W bool), good (measured counted) m ->
    wm (m s).2 = foldl (measure counted) build_worker_metrics (trace (m s).2)).
  { intros counted m Hm. destruct (Hm s) as (t & -> & Hw). exact Hw. }
  split_and!; [intros; apply Hg, measured_orchestrator|intros; apply Hg, measured_alerts|apply Hg, measured_agents|].
  intros counted t. induction t as [|[[a u] v] t IH]; intros m Hm; cbn [foldl].
  - destruct Hm as [(u & v & Hx%elem_of_nil)|Hm]; done.
  - apply IH. destruct Hm as [(u' & v' & [Hx|Hx]%elem_of_cons)|Hm].
    + injection Hx as <- <- <-. by right.
    + left. by exists u', v'.
    + right. destruct a as [| | | | | | | | |[]| | |[]|[]| |[]|]; try done. by destruct counted.
Qed.
End Metrics.

(** ** The lease of [Lock] *)

Section LeaseWorld.
Context `{Platform}.

(** The key and the clock of the Redis server, and the orchestrator's token; milliseconds. *)
Record LeaseWorld := {
  lw_key : option LockKey;
  lw_token : option Z;
  lw_ms : Z;
  lw_drawn : nat;
  lw_stop : bool
}.

(** The process's [lock_ttl_seconds]; what happens until an operation takes effect, and
    while it works; whether a renewal is lost, the groups can be made and the port of the
    metrics is free. *)
Context (ttl_seconds : Z) (elapse work : LeaseWorld -> LeaseWorld) (lost groups_ok port_free : LeaseWorld -> bool).

Definition lease_worker (token : option Z) : LockWorker :=
  {| owner_token := token; lock_ttl := lock_ttl (new_lock_worker ttl_seconds) |}.
Definition set_lw_key (k : option LockKey) (w : LeaseWorld) : LeaseWorld :=
  {| lw_key := k; lw_token := lw_token w; lw_ms := lw_ms w; lw_drawn := lw_drawn w; lw_stop := lw_stop w |}.
Definition advance (d : Z) (w : LeaseWorld) : LeaseWorld :=
  {| lw_key := lw_key w; lw_token := lw_token w; lw_ms := lw_ms w + (d + 999) / 1000; lw_drawn := lw_drawn w; lw_stop := lw_stop w |}.

Definition lease_acquire (w : LeaseWorld) : Res bool * LeaseWorld :=
  let w := elapse w in
  let '(ok, worker, k) := acquire_lock (uuid4 (lw_drawn w)) (lw_ms w) (lease_worker (lw_token w)) (lw_key w) in
  (Ok ok, {| lw_key := k; lw_token := owner_token worker; lw_ms := lw_ms w; lw_drawn := S (lw_drawn w); lw_stop := lw_stop w |}).
Definition lease_renew (w : LeaseWorld) : bool * LeaseWorld :=
  let w := elapse w in
  let '(ok, k) := renew_lock (lost w) (lw_ms w) (lease_worker (lw_token w)) (lw_key w) in (ok, set_lw_key k w).
Definition lease_release (w : LeaseWorld) : LeaseWorld :=
  let w := elapse w in set_lw_key (release_lock (lost w) (lw_ms w) (lease_worker (lw_token w)) (lw_key w)) w.
Definition lease_wait (d : Z) (w : LeaseWorld) : LeaseWorld := let w := elapse w in if lw_stop w then w else advance d w.

#[export] Instance lease_runtime : Runtime LeaseWorld := {|
  metrics_port_env := EmptyString;
  int_of_text _ := None;
  construct w := (Ok tt, w);
  start_http_server _ w := (if port_free w then Ok tt else Err OtherError, elapse w);
  should_stop := lw_stop;
  clock w := lw_ms w * 1000;
  wait_stop := lease_wait;
  pause d w := advance d (elapse w);
  close_signals w := w;
  touch_heartbeat w := (Ok tt, elapse w);
  clear_heartbeat w := elapse w;
  ensure_groups w := (if groups_ok w then Ok tt else Err OtherError, elapse w);
  acquire := lease_acquire;
  renew := lease_renew;
  release := lease_release;
  publish_alert _ w := elapse w;
  poll w := (Ok 0, work w);
  lifecycle w := (Ok tt, work w);
  scan w := (Ok tt, work w);
  content_cycle w := (Ok tt, work w);
  close_providers w := (Ok tt, w)
|}.

Definition lease_owned (w : LeaseWorld) : bool :=
  match live (lw_ms w) (lw_key w), lw_token w with Some l, Some t => lk_token l =? t | _, _ => false end.

Lemma ttl_pos : 0 < lock_ttl (new_lock_worker ttl_seconds).
Proof. cbn. lia. Qed.

Lemma lease_acquire_owned w w' : lease_acquire w = (Ok true, w') -> lease_owned w' = true.
Proof.
  unfold lease_acquire, acquire_lock. destruct (live _ _) as [l|]; [done|]. intros [= <-]. unfold lease_owned. cbn [lw_key lw_token lw_ms owner_token lease_worker].
  erewrite live_of; [|reflexivity|cbn [lk_expires]; pose proof ttl_pos; cbn [lock_ttl lease_worker] in *; lia]. apply Z.eqb_refl.
Qed.

Lemma lease_renew_owned w w' : lease_renew w = (true, w') -> lease_owned w' = true.
Proof.
  unfold lease_renew. destruct (renew_lock _ _ _ _) as [ok k] eqn:Er. intros [= -> <-]. apply renew_cases in Er as (l & _ & Ht & ->).
  unfold lease_owned. cbn [lw_key lw_token lw_ms set_lw_key]. cbn [owner_token lease_worker] in Ht.
  erewrite live_of; [|reflexivity|cbn [lk_expires]; pose proof ttl_pos; cbn [lock_ttl lease_worker] in *; lia]. rewrite Ht. apply Z.eqb_refl.
Qed.

#[export] Instance lease_of_lock : Lease LeaseWorld :=
  {| owned := lease_owned; acquire_owned := lease_acquire_owned; renew_owned := lease_renew_owned |}.

(** ** Taking over *)

(** Nobody else touches the key and no signal arrives. *)
Definition alone : Prop := forall w,
  lw_key (elapse w) = lw_key w /\ lw_stop (elapse w) = lw_stop w /\ lw_ms w <= lw_ms (elapse w).

Notation run_at w := {| world := w; wm := build_worker_metrics; trace := [] |}.

(** The two outcomes of an attempt while nobody interferes. *)
Lemma attempt (s : Run LeaseWorld) (k : LockKey) : alone -> lw_key (world s) = Some k -> lw_stop (world s) = false ->
  let '(r, s') := try_acquire s in
  lw_stop (world s') = false /\ lw_ms (world s) <= lw_ms (world s') /\
  (r = Ok true /\ lease_owned (world s') = true \/
   r = Ok false /\ lw_key (world s') = Some k /\ lw_ms (world s') < lk_expires k).
Proof.
  intros Ha Hk Hs. destruct (Ha (world s)) as (Hk' & Hs' & Ht). unfold try_acquire, op. cbn [acquire lease_runtime].
  destruct (lease_acquire (world s)) as [r w'] eqn:Er. unfold lease_acquire, acquire_lock in Er. rewrite Hk', Hk in Er.
  destruct (live (lw_ms (elapse (world s))) (Some k)) as [l|] eqn:El; injection Er as <- <-; cbn [world lw_stop lw_ms lw_key].
  - rewrite Hs', Hs. split; [done|]. split; [done|]. right. apply live_some in El as [[= <-] El]. done.
  - split; [by rewrite Hs', Hs|]. split; [done|]. left. split; [done|]. eapply lease_acquire_owned with (w := world s).
    unfold lease_acquire, acquire_lock. by rewrite Hk', Hk, El.
Qed.

Lemma acquire_loop_takes fuel (k : LockKey) (ttl start : Z) : alone -> lk_expires k <= start + ttl * 1000 ->
  forall s acquired, start <= lw_ms (world s) -> lw_stop (world s) = false ->
  (if acquired : bool then lease_owned (world s) = true
   else lw_key (world s) = Some k /\ lw_ms (world s) < lk_expires k /\ start + ttl * 1000 - lw_ms (world s) <= 1000 * (Z.of_nat fuel)) ->
  let '(r, s') := acquire_loop (S fuel) (seconds_td ttl) (start * 1000) acquired s in
  r = Ok (Some (Some true)) /\ lease_owned (world s') = true.
Proof.
  intros Ha He. assert (Hclk : forall w, clock w = lw_ms w * 1000) by done. assert (Hst : forall w, should_stop w = lw_stop w) by done.
  induction fuel as [|fuel IH]; intros s acquired Hstart Hstop Hinv; cbn [acquire_loop]; unfold bind at 1, gets at 1; rewrite Hst, Hstop.
  all: destruct acquired; cbn [orb]; [done|]; destruct Hinv as (Hk & Hlt & Hf); try (exfalso; lia).
  unfold bind at 1, gets at 1. rewrite Hclk. cbv zeta. unfold seconds_td, us_per_second in *.
  set (remaining := ttl * 1000000 - (lw_ms (world s) * 1000 - start * 1000)) in *.
  destruct (Z.leb_spec remaining 0) as [Hr|Hr]; [lia|]. unfold op_ at 1. rewrite bind_op. cbv beta iota zeta.
  set (d := Z.min remaining (1 * 1000000)). set (s1 := {| world := wait_stop d (world s); wm := _; trace := _ |}).
  destruct (Ha (world s)) as (Hk1 & Hs1 & Ht1).
  assert (Hw1 : wait_stop d (world s) = advance d (elapse (world s))) by (cbn [wait_stop lease_runtime]; unfold lease_wait; by rewrite Hs1, Hstop).
  assert (Hd : (d + 999) / 1000 = Z.min (start + ttl * 1000 - lw_ms (world s)) 1000).
  { replace (d + 999) with (Z.min (start + ttl * 1000 - lw_ms (world s)) 1000 * 1000 + 999) by (unfold d, remaining; lia).
    rewrite Z.div_add_l by lia. change (999 / 1000) with 0. lia. }
  assert (Hstop1 : lw_stop (world s1) = false) by (unfold s1; cbn [world]; rewrite Hw1; cbn; by rewrite Hs1).
  unfold bind at 1, gets at 1. rewrite Hst, Hstop1. unfold bind at 1.
  pose proof (attempt s1 k Ha) as Hatt. destruct (try_acquire s1) as [r s2].
  destruct Hatt as (Hstop2 & Ht2 & Hcase); [unfold s1; cbn [world]; rewrite Hw1; cbn; by rewrite Hk1|done|].
  assert (Hms : lw_ms (world s) + Z.min (start + ttl * 1000 - lw_ms (world s)) 1000 <= lw_ms (world s2)).
  { etrans; [|exact Ht2]. unfold s1. cbn [world]. rewrite Hw1. cbn [lw_ms advance]. rewrite Hd. lia. }
  destruct Hcase as [[-> Ho]|(-> & Hk2 & Hlt2)]; apply IH; try done; [lia|lia|]. split; [done|]. split; [done|lia].
Qed.

(** C17: A crashed owner is succeeded within one lease.  If nobody else takes the key, no
    signal arrives and the lease that was left expires within the time to live of the
    starter, the starter ends up owning the lease; it never runs out of attempts and never
    gives up first. *)
Theorem takeover_within_lease (w : LeaseWorld) (k : LockKey) : alone -> 1 <= ttl_seconds ->
  lw_key w = Some k -> lw_stop w = false -> lk_expires k <= lw_ms w + ttl_seconds * 1000 ->
  let '(r, s) := acquire_phase ttl_seconds (run_at w) in
  r = Ok (Some (Some true)) /\ owned (world s) = true.
Proof.
  intros Ha Hpos Hk Hs He. unfold acquire_phase. unfold bind at 1, gets at 1. unfold bind at 1.
  pose proof (attempt (run_at w) k Ha Hk Hs) as Hatt. change (clock (world (run_at w))) with (lw_ms w * 1000).
  destruct (try_acquire (run_at w)) as [r s1]. destruct Hatt as (Hs1 & Ht1 & Hcase). cbn [world] in Ht1.
  change (owned (W := LeaseWorld)) with lease_owned.
  destruct Hcase as [[-> Ho]|(-> & Hk1 & Hlt)].
  all: eapply acquire_loop_takes; try done. split; [done|]. split; [done|]. rewrite Z2Nat.id by lia. lia.
Qed.

(** A signal that arrives while the lease is taken, groups that cannot be made, and a port of
    the metrics that is taken end the process without releasing: the lease stays its own for its whole time to live, and no
    successor can start before. *)
Theorem lease_left_behind (w : LeaseWorld) (interval poll_ms : Z) (fuel : nat) :
  live (lw_ms (elapse w)) (lw_key (elapse w)) = None ->
  let taken := (lease_acquire w).2 in
  let '(r, s) := run_orchestrator ttl_seconds interval poll_ms (S fuel) (run_at w) in
  (lw_stop (elapse w) = true -> r = Ok true /\ world s = taken /\ acts s = [Construct true; Acquire true; CloseSignals]) /\
  (lw_stop (elapse w) = false -> groups_ok taken = false -> elapse taken = taken ->
     r = Err OtherError /\ world s = taken /\ acts s = [Construct true; Acquire true; Groups false]) /\
  (lw_stop (elapse w) = false -> groups_ok taken = true -> port_free taken = false -> elapse taken = taken ->
     r = Err OtherError /\ world s = taken /\ acts s = [Construct true; Acquire true; Groups true; StartMetrics false]) /\
  owned taken = true /\ exists l, lw_key taken = Some l /\ lk_expires l = lw_ms taken + Z.max 1 ttl_seconds * 1000.
Proof.
  intros Hl taken. assert (Ht : lease_acquire w = (Ok true, taken)).
  { unfold taken, lease_acquire, acquire_lock. by rewrite Hl. }
  assert (Hstop : lw_stop taken = lw_stop (elapse w)).
  { unfold taken, lease_acquire, acquire_lock. by rewrite Hl. }
  assert (Hphase : acquire_phase ttl_seconds {| world := w; wm := build_worker_metrics; trace := [(Construct true, w, w)] |} =
    (Ok (Some (Some true)), {| world := taken; wm := build_worker_metrics; trace := [(Construct true, w, w); (Acquire true, w, taken)] |})).
  { unfold acquire_phase. unfold bind at 1, gets at 1. unfold try_acquire. rewrite bind_op. cbn [acquire lease_runtime world trace wm app].
    rewrite Ht. reflexivity. }
  destruct (run_orchestrator _ _ _ _ _) as [r s] eqn:Er. unfold run_orchestrator, build_all in Er. rewrite bind_op in Er.
  cbn [construct lease_runtime world wm trace app is_ok] in Er. unfold bind at 1 in Er. rewrite Hphase in Er.
  unfold bind at 1, gets at 1 in Er. cbn [world should_stop lease_runtime] in Er. rewrite Hstop in Er. split; [|split; [|split]].
  - intros Hs. rewrite Hs in Er. injection Er as <- <-. done.
  - intros Hs Hg He. rewrite Hs in Er. rewrite bind_op in Er. cbn [world ensure_groups lease_runtime] in Er. rewrite Hg in Er.
    injection Er as <- <-. split; [done|]. split; [exact He|done].
  - intros Hs Hg Hp He. rewrite Hs in Er. rewrite bind_op in Er. cbn [world ensure_groups lease_runtime] in Er. rewrite Hg, He in Er.
    unfold start_worker_metrics in Er. cbn [port_for_worker metrics_port_env lease_runtime] in Er.
    change (port_for_worker _ _ _) with (Ok (A := Z) 9103) in Er. cbv beta iota in Er. rewrite bind_op in Er. cbn [world start_http_server lease_runtime] in Er.
    rewrite Hp, He in Er. injection Er as <- <-. done.
  - split; [by eapply lease_acquire_owned|]. unfold taken, lease_acquire, acquire_lock. rewrite Hl. by eexists.
Qed.
End LeaseWorld.

(** ** Examples *)

(** Another orchestrator takes the lease, when it has lapsed, during a poll of two minutes. *)
Definition slow_work (w : LeaseWorld) : LeaseWorld :=
  {| lw_key := match live (lw_ms w + 121000) (lw_key w) with
               | Some l => Some l
               | None => Some {| lk_token := 999; lk_expires := lw_ms w + 241000 |}
               end;
     lw_token := lw_token w; lw_ms := lw_ms w + 121000; lw_drawn := lw_drawn w; lw_stop := lw_stop w |}.
Definition fresh_world : LeaseWorld :=
  {| lw_key := None; lw_token := None; lw_ms := 0; lw_drawn := 0; lw_stop := false |}.

(** The renewal comes before the work, not during it: a poll longer than the lease is
    followed by a lifecycle pass of a process that no longer owns it, while its successor
    does. *)
Theorem turn_outlives_lease :
  let s := (@run_orchestrator LeaseWorld (@lease_runtime demo_platform 120 (fun w => w) slow_work (fun _ => false) (fun _ => true) (fun _ => true))
              120 1 1000 1 {| world := fresh_world; wm := build_worker_metrics; trace := [] |}).2 in
  exists u v l, (Lifecycle true, u, v) ∈ trace s /\ live (lw_ms u) (lw_key u) = Some l /\ lw_token u <> Some (lk_token l).
Proof.
  match goal with |- let s := ?x in _ => let t := eval vm_compute in x in change x with t end. cbv zeta. cbn [trace].
  do 3 eexists. split; [do 7 right; left|]. split; [reflexivity|discriminate].
Qed.

Definition demo_crashed : LeaseWorld :=
  {| lw_key := Some {| lk_token := 77; lk_expires := 90000 |}; lw_token := None; lw_ms := 0; lw_drawn := 0; lw_stop := false |}.

Lemma takeover_within_lease_witness :
  exists r s, @acquire_phase LeaseWorld (@lease_runtime demo_platform 120 (fun w => w) slow_work (fun _ => false) (fun _ => true) (fun _ => true)) 120
    {| world := demo_crashed; wm := build_worker_metrics; trace := [] |} = (r, s) /\ r = Ok (Some (Some true)).
Proof.
  destruct (acquire_phase 120 _) as [r s] eqn:E. exists r, s. split; [reflexivity|].
  pose proof (@takeover_within_lease demo_platform 120 (fun w => w) slow_work (fun _ => false) (fun _ => true) (fun _ => true) demo_crashed
    {| lk_token := 77; lk_expires := 90000 |}) as Ht. rewrite E in Ht.
  refine (proj1 (Ht _ _ _ _ _)); [intros w; split; [reflexivity|split; [reflexivity|reflexivity]]|discriminate|reflexivity|reflexivity|discriminate].
Defined.

Lemma lease_left_behind_witness :
  let stopped (w : LeaseWorld) := {| lw_key := lw_key w; lw_token := lw_token w; lw_ms := lw_ms w; lw_drawn := lw_drawn w; lw_stop := true |} in
  exists l, lw_key (@lease_acquire demo_platform 120 stopped fresh_world).2 = Some l /\ lk_expires l = 120000.
Proof.
  intros stopped.
  pose proof (@lease_left_behind demo_platform 120 stopped slow_work (fun _ => false) (fun _ => true) (fun _ => true) fresh_world 1 1000 1 eq_refl) as H.
  cbv zeta in H. destruct (run_orchestrator _ _ _ _ _) as [r s]. destruct H as (_ & _ & _ & _ & l & Hl & He).
  exists l. split; [exact Hl|]. rewrite He. reflexivity.
Defined.

(** The health check of a container. *)
Example healthy : healthcheck_exit (Some "python -m app.worker_main") = 0. Proof. reflexivity. Qed.
Example migrating : healthcheck_exit (Some "sh -c alembic upgrade head && exec python -m app.worker_main") = 1. Proof. reflexivity. Qed.

(** The roles a process can have are those whose heartbeat is watched, and each has a port
    for its metrics whatever the environment says. *)
Theorem roles_in_sync (int_of_text : string -> option Z) (raw : string) (value : string) :
  (is_Some (select_role (Some value)) <-> str_lower (py_strip value) ∈ WORKER_ROLES) /\
  forall role, role ∈ WORKER_ROLES -> exists p, port_for_worker int_of_text raw role = Ok p /\ 0 < p < 65536.
Proof.
  split.
  - unfold select_role, WORKER_ROLES. change (default "ingest"%string (Some value)) with value. generalize (str_lower (py_strip value)) as v. intros v.
    match goal with |- context [dget v ?d] => destruct (dget v d) as [r|] eqn:E end.
    + split; [intros _|by intros _; eexists]. apply dget_Some_in in E.
      repeat (apply elem_of_cons in E as [[= -> _]|E]; [set_solver|]). by apply elem_of_nil in E.
    + split; [by intros [? [=]]|]. intros Hv. apply dget_None in E. exfalso. apply E. cbn. set_solver.
  - intros role. apply port_ok.
Qed.
