(* ===== verification/IngestWorker.v ===== *)
(** * The ingest worker's loop ([app/workers/ingest_worker.py], [seed_instruments] of
    [app/data/ingest.py])

    One turn of the process: the configured universe is read, its new symbols become
    instruments, every series is ingested, the breaker is saved, the series are checked for
    staleness every so often, and queued backfills run.  Seeding at the start is the same
    operation.  The settings table holds lists of texts, as its writers store them; a turn
    that finds anything else fails. *)

From Stdlib Require Import ZArith Lia.
From stdpp Require Import base list strings.
From S2P Require Import Prelude PyFloat Timeframes Signals Fusion Risk Decision Tables Candles Decide MarketConfig Bus Breaker Ingest Staleness MarketHours News Accounts Admin.

Open Scope Z_scope.

(** The process: what it knows and stores, the backfill queue, its count of turns, and the
    staleness picture in Redis. *)
Record IngestProcess := {
  ip_worker : WorkerState;
  ip_queue : list string;
  ip_iteration : Z;
  ip_latest : option (dict string pyval)
}.

(** The clock at the points of one turn. *)
Record TurnClock := {
  tc_series : nat -> datetime;
  tc_saved : Z;
  tc_checked : datetime;
  tc_jobs : nat -> nat -> datetime
}.

(** What the log line and the counters of a turn are made of. *)
Definition failed_series (r : SeriesResult) : bool :=
  match skipped_reason r with
  | Some why => negb (String.eqb why "up_to_date") && negb (String.prefix "breaker:" why)
  | None => false
  end.

Definition staleness_every (staleness_poll_seconds ingest_interval_seconds : Z) : Z :=
  Z.max 1 (staleness_poll_seconds / ingest_interval_seconds).

(** [_publish_staleness_latest]. *)
Definition staleness_payload (findings : list StalenessFinding) : dict string pyval :=
  let n := Z.of_nat (length (List.filter breached findings)) in
  [("breached", VInt n); ("checked", VInt (Z.of_nat (length findings)));
   ("max_age_seconds", VInt (match omap age_seconds findings with [] => 0 | a :: l => foldl Z.max a l end));
   ("timeframes", VList (map VStr (unique_sorted (map sf_timeframe findings))))]%string.

Section Turn.
Context `{Platform}.
Context (json_loads : string -> option pyval) (fromisoformat : string -> option datetime).
Context (st : IngestSettings) (provider : DataProvider) (caches : string -> bool) (accepts : Event -> bool) (text : PyErr -> string).
(** The environment's universe, how often to check, and whether Redis takes the picture. *)
Context (default_symbols default_timeframes : list string) (every : Z) (latest_ok : bool).

Definition set_worker (w : WorkerState) (p : IngestProcess) : IngestProcess :=
  {| ip_worker := w; ip_queue := ip_queue p; ip_iteration := ip_iteration p; ip_latest := ip_latest p |}.

(** The staleness check of a turn that has one: alerts are sent even when it raises. *)
Definition staleness_turn (instruments : list Instrument) (timeframes : list string) (now : datetime) (p : IngestProcess)
  : Res unit * IngestProcess :=
  if ip_iteration p mod every =? 0 then
    let '(known, s) := ip_worker p in
    let '(findings, alerts) := check accepts instruments timeframes now (in_db s) in
    let p := set_worker (known, foldl (fun s e => publish e s) s alerts) p in
    match findings with
    | Err e => (Err e, p)
    | Ok findings => (Ok tt, {| ip_worker := ip_worker p; ip_queue := ip_queue p; ip_iteration := ip_iteration p;
                                ip_latest := if latest_ok then Some (staleness_payload findings) else ip_latest p |})
    end
  else (Ok tt, p).

(** The body of the loop; the results of the cycle, and of the backfills. *)
Definition ingest_turn (tc : TurnClock) (p : IngestProcess)
  : Res (list SeriesResult * list (Res (list SeriesResult))) * IngestProcess :=
  let '(symbols, timeframes) := get_market_config default_symbols default_timeframes (in_db (ip_worker p).2) in
  match map_res as_text symbols, map_res as_text timeframes with
  | Ok symbols, Ok timeframes =>
      let '(known, s) := seed_unknown symbols (ip_worker p) in
      let instruments := omap (fun s => dget s known) symbols in
      let '(results, s) := run_cycle st provider caches accepts text (tc_series tc) instruments timeframes s in
      let s := persist_breaker_snapshot provider (tc_saved tc) s in
      let p := {| ip_worker := (known, s); ip_queue := ip_queue p; ip_iteration := ip_iteration p + 1; ip_latest := ip_latest p |} in
      let '(r, p) := staleness_turn instruments timeframes (tc_checked tc) p in
      match r with
      | Err e => (Err e, p)
      | Ok _ =>
          let '(jobs, w, q) := drain_backfills json_loads fromisoformat st provider caches accepts text (tc_jobs tc)
                                 (ip_queue p) (ip_worker p) in
          (Ok (results, jobs), {| ip_worker := w; ip_queue := q; ip_iteration := ip_iteration p; ip_latest := ip_latest p |})
      end
  | Err e, _ | _, Err e => (Err e, p)
  end.

(** ** Properties *)

(** What is remembered under a name is the instrument of that name. *)
Definition known_ok (known : dict string Instrument) : Prop :=
  forall s i, dget s known = Some i -> ins_symbol i = str_upper (py_strip s).

Lemma get_or_create_symbol symbol db : ins_symbol (get_or_create_instrument symbol db).1 = str_upper (py_strip symbol).
Proof.
  unfold get_or_create_instrument. destruct (find_instrument _ _) as [i|] eqn:E; cbn [fst].
  - unfold find_instrument in E. apply find_some in E as [_ E]. by apply String.eqb_eq in E.
  - by destruct (new_uuid db) as [id db'].
Qed.

Lemma ensure_from symbols : forall d db, known_ok d ->
  let '(d', db') := foldl (fun '(d, db) s => let '(i, db) := get_or_create_instrument s db in (dset s i d, db)) (d, db) symbols in
  known_ok d' /\ (forall s, s ∈ d'.*1 <-> s ∈ d.*1 \/ s ∈ symbols).
Proof.
  induction symbols as [|x symbols IH]; intros d db Hd; cbn [foldl].
  - split; [done|]. intros s. rewrite elem_of_nil. tauto.
  - pose proof (get_or_create_symbol x db) as Hx. destruct (get_or_create_instrument x db) as [i db1]. cbn [fst] in Hx.
    specialize (IH (dset x i d) db1). destruct (foldl _ _ symbols) as [d' db']. destruct IH as [Hk Hin].
    + intros s j. rewrite dget_dset. case_decide as E; [intros [= <-]; by rewrite Hx, E|apply Hd].
    + split; [done|]. intros s. rewrite Hin, dset_keys, elem_of_cons. tauto.
Qed.

Lemma merge_known newly : forall known, known_ok known -> (forall s i, (s, i) ∈ newly -> ins_symbol i = str_upper (py_strip s)) ->
  let known' := foldl (fun d '(k, i) => dset k i d) known newly in
  known_ok known' /\ forall s, s ∈ known'.*1 <-> s ∈ known.*1 \/ s ∈ newly.*1.
Proof.
  induction newly as [|[k i] newly IH]; intros known Hk Hn; cbn [foldl].
  - split; [done|]. intros s. rewrite elem_of_nil. tauto.
  - destruct (IH (dset k i known)) as [Hk' Hin].
    + intros s j. rewrite dget_dset. case_decide as E; [intros [= <-]; subst s; apply Hn; by left|apply Hk].
    + intros s j Hs. apply Hn. by right.
    + split; [exact Hk'|]. intros s. rewrite Hin, dset_keys. rewrite fmap_cons, elem_of_cons. cbn [fst]. tauto.
Qed.

Lemma ensured_NoDup symbols : forall d db, NoDup d.*1 ->
  NoDup (foldl (fun '(d, db) s => let '(i, db) := get_or_create_instrument s db in (dset s i d, db)) (d, db) symbols).1.*1.
Proof.
  induction symbols as [|x symbols IH]; intros d db Hd; cbn [foldl]; [done|].
  destruct (get_or_create_instrument x db) as [i db1]. apply IH. by apply dset_NoDup.
Qed.

(** After seeding every asked symbol is known, and nothing is forgotten. *)
Lemma seed_unknown_spec symbols w : known_ok w.1 ->
  known_ok (seed_unknown symbols w).1 /\
  (forall s, s ∈ w.1.*1 \/ s ∈ symbols <-> s ∈ (seed_unknown symbols w).1.*1).
Proof.
  destruct w as [known s]. cbn [fst]. intros Hk. unfold seed_unknown.
  assert (Hu : forall x, x ∈ symbols -> x ∈ known.*1 \/ x ∈ unknown_symbols symbols known).
  { intros x Hx. destruct (dget x known) as [i|] eqn:E.
    - left. apply dget_Some_in in E. apply list_elem_of_fmap. by exists (x, i).
    - right. apply list_elem_of_In, filter_In. rewrite E. split; [by apply list_elem_of_In|done]. }
  assert (Hu' : forall x, x ∈ unknown_symbols symbols known -> x ∈ symbols).
  { intros x Hx%list_elem_of_In. apply filter_In in Hx as [Hx _]. by apply list_elem_of_In. }
  destruct (unknown_symbols symbols known) as [|u us] eqn:Eu.
  - cbn [fst]. split; [done|]. intros x. split; [|tauto]. intros [?|Hx]; [done|]. destruct (Hu x Hx) as [?|Hn]; [done|]. by apply elem_of_nil in Hn.
  - unfold ensure_instruments. pose proof (ensure_from (u :: us) [] (in_db s)) as He. pose proof (ensured_NoDup (u :: us) [] (in_db s)) as Hnd.
    destruct (foldl _ _ (u :: us)) as [newly db]. cbn [fst] in *. destruct He as [Hnk Hnin]; [by intros ? ? [=]|].
    specialize (Hnd (NoDup_nil_2)).
    destruct (merge_known newly known Hk) as [Hk' Hin].
    { intros x i Hx. apply Hnk. by apply dget_In. }
    split; [done|]. intros x. rewrite Hin, Hnin. change (@nil (string * Instrument)).*1 with (@nil string). rewrite elem_of_nil.
    split; [intros [?|Hx]; [by left|]|].
    + destruct (Hu x Hx) as [?|?]; [by left|right; by right].
    + intros [?|[?|?]]; [by left|done|right; by apply Hu'].
Qed.

Lemma run_series_names clock fs fe l : forall acc s,
  map (fun r => (sr_symbol r, sr_timeframe r))
    (foldl (run_series st provider caches accepts text clock fs fe) (acc, s) l).1 =
  map (fun r => (sr_symbol r, sr_timeframe r)) acc ++ map (fun x : nat * (Instrument * string) => (ins_symbol x.2.1, x.2.2)) l.
Proof.
  induction l as [|[n [i tf]] l IH]; intros acc s; cbn [foldl]; [by rewrite app_nil_r|].
  unfold run_series at 2. destruct (_ingest_series _ _ _ _ _ i tf (clock n) fs fe s) as [r s1] eqn:E.
  rewrite IH, map_app, <- app_assoc. f_equal. cbn [map app fst snd]. f_equal.
  assert (Hr : r = (_ingest_series st provider caches accepts text i tf (clock n) fs fe s).1) by (by rewrite E). rewrite Hr. clear.
  unfold _ingest_series. destruct (before_call _ _) as [b|]; [|done].
  destruct (ingest_body _ _ _ _ i tf (clock n) fs fe (set_breaker b s)) as [[r s']|e] eqn:Eb.
  - unfold ingest_body in Eb. apply res_bind_ok in Eb as ([a z] & _ & Eb). destruct (_ <=? _); [by injection Eb as <- <-|].
    apply res_bind_ok in Eb as (f & _ & Eb). apply res_bind_ok in Eb as (ex & _ & Eb). apply res_bind_ok in Eb as ([[ins upd] db] & _ & Eb).
    by injection Eb as <- <-.
  - destruct e; try done; unfold fail_series; by destruct (record_failure _ _).
Qed.

Lemma imap_snd {A} (l : list A) : (imap (fun n x => (n, x)) l).*2 = l.
Proof. rewrite fmap_imap. etrans; [exact (imap_const id l)|]. by rewrite list_fmap_id. Qed.

(** The results of a cycle, series by series in order. *)
Lemma run_cycle_names clock instruments tfs s :
  map (fun r => (sr_symbol r, sr_timeframe r)) (run_cycle st provider caches accepts text clock instruments tfs s).1 =
  map (fun x : Instrument * string => (ins_symbol x.1, x.2)) (list_prod instruments tfs).
Proof.
  unfold run_cycle, run_all. rewrite run_series_names. cbn [map app]. rewrite <- (imap_snd (list_prod instruments tfs)) at 2.
  by rewrite map_map.
Qed.

Notation drain := (drain_backfills json_loads fromisoformat st provider caches accepts text).
Notation job := (run_job fromisoformat st provider caches accepts text).

(** A backfill job only adds to what is known. *)
Lemma run_job_known clock j w : known_ok w.1 ->
  known_ok (job clock j w).2.1 /\ (forall s, s ∈ w.1.*1 -> s ∈ (job clock j w).2.1.*1).
Proof.
  intros Hk. unfold run_job. destruct (res_bind _ _) as [given|]; [|done].
  destruct (seed_unknown_spec (map str_upper given) w Hk) as [Hk' Hin]. destruct (seed_unknown _ w) as [known s]. cbn [fst] in *.
  assert (Hgoal : known_ok known /\ (forall s, s ∈ w.1.*1 -> s ∈ known.*1)) by (split; [done|]; intros x Hx; apply Hin; by left).
  destruct (res_bind _ _) as [[[tfs start] stop]|]; [|done]. by destruct (run_backfill _ _ _ _ _ _ _ _ _ _ _) as [[]|].
Qed.

Lemma drain_known clock q w : known_ok w.1 ->
  let '(_, w', _) := drain clock q w in known_ok w'.1 /\ (forall s, s ∈ w.1.*1 -> s ∈ w'.1.*1).
Proof.
  intros Hk. unfold drain_backfills. destruct (drain_backfill_queue _ _ q) as [jobs q'].
  generalize (imap (fun n job => (n, job)) jobs) as l. intros l.
  assert (Hgen : forall out w, known_ok w.1 ->
    let '(_, w') := foldl (fun '(out, w) '(n, j) => let '(r, w) := job (clock n) j w in (out ++ [r], w)) (out, w) l in
    known_ok w'.1 /\ (forall s, s ∈ w.1.*1 -> s ∈ w'.1.*1)).
  { clear Hk w. induction l as [|[n j] l IH]; intros out w Hk; cbn [foldl]; [by split|].
    destruct (run_job_known (clock n) j w Hk) as [Hk1 Hin1]. destruct (job (clock n) j w) as [r w1]. cbn [snd] in *.
    specialize (IH (out ++ [r]) w1 Hk1). destruct (foldl _ _ l) as [out' w']. destruct IH as [? Hin]. split; [done|]. auto. }
  specialize (Hgen [] w Hk). by destruct (foldl _ _ l) as [out w'].
Qed.

Lemma known_instruments known syms : known_ok known -> (forall s, s ∈ syms -> s ∈ known.*1 /\ str_upper (py_strip s) = s) ->
  map ins_symbol (omap (fun s => dget s known) syms) = syms.
Proof.
  intros Hk. induction syms as [|x syms IH]; intros Hs; [done|]. cbn [omap list_omap].
  destruct (Hs x) as [Hx Hu]; [by left|]. destruct (dget x known) as [i|] eqn:E; [|by apply dget_None in E].
  cbn [map]. rewrite (Hk _ _ E), Hu. f_equal. apply IH. intros y Hy. apply Hs. by right.
Qed.

Lemma texts_of l : map_res as_text (map VStr l) = Ok l.
Proof. induction l as [|x l IH]; [done|]. cbn [map map_res as_text res_bind]. by rewrite IH. Qed.

Lemma product_names (l : list Instrument) (tfs : list string) :
  map (fun x : Instrument * string => (ins_symbol x.1, x.2)) (list_prod l tfs) = list_prod (map ins_symbol l) tfs.
Proof. induction l as [|i l IH]; [done|]. cbn [list_prod map]. by rewrite map_app, IH, map_map. Qed.

(** The picture a check leaves in Redis. *)
Definition picture_of (latest : option (dict string pyval)) (checked : nat) : Prop :=
  exists fs : list StalenessFinding, length fs = checked /\ latest = Some (staleness_payload fs).

Lemma staleness_turn_ok instruments tfs now p : Forall (fun tf => is_valid tf = true) tfs -> tzinfo now <> None ->
  exists p', staleness_turn instruments tfs now p = (Ok tt, p') /\ (ip_worker p').1 = (ip_worker p).1 /\
    in_db (ip_worker p').2 = in_db (ip_worker p).2 /\ ip_queue p' = ip_queue p /\ ip_iteration p' = ip_iteration p /\
    (ip_iteration p mod every = 0 -> latest_ok = true -> picture_of (ip_latest p') (length instruments * length tfs)) /\
    (ip_iteration p mod every <> 0 -> ip_latest p' = ip_latest p).
Proof.
  intros Hv Hz. unfold staleness_turn. destruct (Z.eqb_spec (ip_iteration p mod every) 0) as [E|E]; [|by exists p].
  destruct p as [[known s] q it latest]. cbn [ip_worker] in *.
  pose proof (staleness_check accepts instruments tfs now (in_db s) Hv) as Hc. destruct (tzinfo now) as [off|]; [|done].
  destruct Hc as (fs & -> & Hlen & _). eexists. split; [reflexivity|]. cbn [ip_worker ip_queue ip_iteration ip_latest set_worker fst snd].
  split_and!; try done.
  - generalize (List.filter accepts (map (fun f => staleness_event f (instant now)) (List.filter breached fs))) as es. clear.
    intros es. revert s. induction es as [|e es IH]; intros s; [done|]. cbn [foldl]. by rewrite IH.
  - intros _ ->. by exists fs.
Qed.

(** A turn serves the whole universe.  When the configuration holds well-formed symbols
    and known timeframes, the turn completes whatever the provider, Redis and the queued
    jobs do; it answers one result for every configured pair and timeframe in order, also
    for symbols configured since the last turn; no instrument is forgotten; the staleness
    picture is renewed exactly on every n-th turn and covers every series. *)
Theorem ingest_turn_complete (tc : TurnClock) (p : IngestProcess) (syms tfs : list string) :
  known_ok (ip_worker p).1 ->
  get_market_config default_symbols default_timeframes (in_db (ip_worker p).2) = (map VStr syms, map VStr tfs) ->
  (forall s, s ∈ syms -> str_upper (py_strip s) = s) -> Forall (fun tf => is_valid tf = true) tfs ->
  tzinfo (tc_checked tc) <> None ->
  exists results jobs p', ingest_turn tc p = (Ok (results, jobs), p') /\
    map (fun r => (sr_symbol r, sr_timeframe r)) results = list_prod syms tfs /\
    known_ok (ip_worker p').1 /\ (forall s, s ∈ (ip_worker p).1.*1 \/ s ∈ syms -> s ∈ (ip_worker p').1.*1) /\
    ip_iteration p' = ip_iteration p + 1 /\
    (ip_iteration p' mod every = 0 -> latest_ok = true -> picture_of (ip_latest p') (length syms * length tfs)) /\
    (ip_iteration p' mod every <> 0 -> ip_latest p' = ip_latest p).
Proof.
  intros Hk Hc Hu Hv Hz. unfold ingest_turn. rewrite Hc, !texts_of.
  destruct (seed_unknown_spec syms (ip_worker p) Hk) as [Hk1 Hin]. destruct (seed_unknown syms (ip_worker p)) as [known s]. cbn [fst] in *.
  set (instruments := omap (fun s => dget s known) syms).
  assert (Hi : map ins_symbol instruments = syms).
  { apply known_instruments; [done|]. intros x Hx. split; [apply Hin; by right|by apply Hu]. }
  pose proof (run_cycle_names (tc_series tc) instruments tfs s) as Hr. destruct (run_cycle _ _ _ _ _ _ _ _ s) as [results s1]. cbn [fst] in Hr.
  rewrite product_names, Hi in Hr.
  set (p1 := {| ip_worker := (known, persist_breaker_snapshot provider (tc_saved tc) s1); ip_queue := ip_queue p;
                ip_iteration := ip_iteration p + 1; ip_latest := ip_latest p |}).
  destruct (staleness_turn_ok instruments tfs (tc_checked tc) p1 Hv Hz) as (p2 & -> & Hw & _ & _ & Hit & Hl1 & Hl2).
  pose proof (drain_known (tc_jobs tc) (ip_queue p2) (ip_worker p2)) as Hd. destruct (drain _ _ _) as [[jobs w] q].
  rewrite Hw in Hd. destruct Hd as [Hk2 Hin2]; [done|]. exists results, jobs. eexists. split; [reflexivity|].
  cbn [ip_worker ip_iteration ip_latest]. rewrite Hit. split_and!; try done.
  - intros x Hx. apply Hin2. by apply Hin.
  - intros He Ho. rewrite <- Hi at 1. rewrite length_map. by apply Hl1.
Qed.
End Turn.

(** ** Example *)

Definition demo_process : IngestProcess :=
  {| ip_worker := ([], demo_ingest (new_breaker 5 60)); ip_queue := ["junk"%string]; ip_iteration := 9; ip_latest := None |}.
Definition demo_turn_clock : TurnClock :=
  {| tc_series := fun _ => utc (seconds_td 18000); tc_saved := 0; tc_checked := utc (seconds_td 18000);
     tc_jobs := fun _ _ => utc (seconds_td 18000) |}.

Lemma ingest_turn_complete_witness :
  exists results jobs p',
    @ingest_turn demo_platform (fun _ => None) (fun _ => None) demo_ingest_settings demo_provider (fun _ => true) (fun _ => true)
      (fun _ => ""%string) ["EURUSD"; "USDJPY"]%string ["M15"; "H1"]%string 10 true demo_turn_clock demo_process = (Ok (results, jobs), p') /\
    length results = 4%nat /\ picture_of (ip_latest p') 4.
Proof.
  destruct (@ingest_turn_complete demo_platform (fun _ => None) (fun _ => None) demo_ingest_settings demo_provider (fun _ => true) (fun _ => true)
    (fun _ => ""%string) ["EURUSD"; "USDJPY"]%string ["M15"; "H1"]%string 10 true demo_turn_clock demo_process
    ["EURUSD"; "USDJPY"]%string ["M15"; "H1"]%string) as (results & jobs & p' & Ht & Hn & _ & _ & Hit & Hl & _).
  - intros s i [=].
  - reflexivity.
  - intros s Hs. repeat (apply elem_of_cons in Hs as [->|Hs]; [reflexivity|]). by apply elem_of_nil in Hs.
  - repeat constructor.
  - discriminate.
  - exists results, jobs, p'. split; [exact Ht|]. split; [rewrite <- (length_map (fun r => (sr_symbol r, sr_timeframe r))), Hn; reflexivity|].
    apply Hl; [rewrite Hit; reflexivity|reflexivity].
Defined.
