(* ===== verification/Llm.v ===== *)
(** * Language-model clients ([app/llm/client.py], [app/llm/opencode_zen.py])

    No agent calls one yet.  A call comes with its time and with what the service would
    answer; the failures of the connection that [httpx] calls so are [TransportError], its
    other errors [RequestFailed]. *)

From Stdlib Require Import ZArith Ascii Lia.
From stdpp Require Import base list strings.
From S2P Require Import Prelude PyFloat Timeframes Signals Bus ContentSources Config.

Open Scope Z_scope.

(** ** [DailyBudgetBreaker] *)

Definition _DOLLARS_PER_TOKEN : float := lit 5 6.

Record DailyBudgetBreaker := { _budget : float; _day : Z; _spent : float }.
Definition new_budget (budget_usd : float) : DailyBudgetBreaker :=
  {| _budget := fmax f0 budget_usd; _day := 0; _spent := f0 |}.

Definition day_of (now : Z) : Z := now / us_per_day.
Definition _rollover (now : Z) (b : DailyBudgetBreaker) : DailyBudgetBreaker :=
  if day_of now =? _day b then b else {| _budget := _budget b; _day := day_of now; _spent := f0 |}.

Definition remaining (now : Z) (b : DailyBudgetBreaker) : float * DailyBudgetBreaker :=
  if _budget b <=ᶠ f0 then (f0, b)
  else let b := _rollover now b in (fmax f0 (_budget b -ᶠ _spent b), b).

Definition token_cost (tokens : Z) : float := of_Z tokens *ᶠ _DOLLARS_PER_TOKEN.

(** The cost is a product of an [int] and a float: an [int] no float can hold overflows. *)
Definition reserve (tokens now : Z) (b : DailyBudgetBreaker) : Res unit * DailyBudgetBreaker :=
  if _budget b <=ᶠ f0 then (Err LLMUnavailable, b)
  else
    let b := _rollover now b in
    let total := _spent b +ᶠ token_cost tokens in
    if is_infinite (of_Z tokens) then (Err OverflowError, b)
    else if total >ᶠ _budget b then (Err LLMUnavailable, b)
    else (Ok tt, {| _budget := _budget b; _day := _day b; _spent := total |}).

Definition authorize (tokens now : Z) (b : DailyBudgetBreaker) : Res unit * DailyBudgetBreaker := reserve tokens now b.

(** ** [OpenCodeZenClient] *)

(** [s.rstrip("/")]. *)
Fixpoint rstrip_slash (s : string) : string :=
  match s with
  | EmptyString => EmptyString
  | String c s => let r := rstrip_slash s in
                  if Ascii.eqb c "/" && String.eqb r "" then EmptyString else String c r
  end.

Record OpenCodeZenClient := {
  _api_key : string;
  _model : string;
  _base_url : string;
  _max_tokens : Z;
  _breaker : DailyBudgetBreaker;
  _budget_alerted : bool
}.
Definition make_zen (api_key model base_url : string) (budget_usd : float) (max_tokens : Z) : OpenCodeZenClient :=
  {| _api_key := api_key; _model := model; _base_url := rstrip_slash base_url; _max_tokens := Z.max 16 max_tokens;
     _breaker := new_budget budget_usd; _budget_alerted := false |}.

Definition zen_enabled (now : Z) (c : OpenCodeZenClient) : bool :=
  negb (String.eqb (_api_key c) "") && ((remaining now (_breaker c)).1 >ᶠ f0).

(** A request that was sent: its address, headers and body. *)
Record SentRequest := { sq_url : string; sq_headers : dict string string; sq_json : pyval }.

(** What is asked, when, and what would be answered. *)
Record LlmCall := { lc_system : string; lc_prompt : string; lc_max_tokens : Z; lc_now : Z; lc_answer : HttpResult }.

Record LlmOutcome := { lo_result : Res string; lo_request : option SentRequest; lo_alerts : list Event }.

Definition budget_event (now : Z) : Event :=
  {| event_type := "alert.llm_budget";
     payload := [("source", VStr "llm"); ("severity", VStr "warning"); ("state", VStr "budget_exhausted")];
     producer := "llm"; produced_at := now |}%string.

Definition set_breaker (b : DailyBudgetBreaker) (alerted : bool) (c : OpenCodeZenClient) : OpenCodeZenClient :=
  {| _api_key := _api_key c; _model := _model c; _base_url := _base_url c; _max_tokens := _max_tokens c;
     _breaker := b; _budget_alerted := alerted |}.

Definition zen_request (c : OpenCodeZenClient) (system prompt : string) (tokens : Z) : SentRequest :=
  {| sq_url := _base_url c ++ "/v1/chat/completions";
     sq_headers := [("Authorization", "Bearer " ++ _api_key c); ("Content-Type", "application/json")];
     sq_json := VDict [("model", VStr (_model c));
                       ("messages", VList [VDict [("role", VStr "system"); ("content", VStr system)];
                                           VDict [("role", VStr "user"); ("content", VStr prompt)]]);
                       ("max_tokens", VInt tokens)] |}%string.

(** [body["choices"][0]["message"]["content"]]; every failure is one the caller catches. *)
Definition choice_content (body : pyval) : option pyval :=
  choices ← getitem "choices" body;
  first ← match choices with VList (x :: _) => Some x | _ => None end;
  message ← getitem "message" first;
  getitem "content" message.

(** Only a [TransportError] is translated. *)
Definition read_answer (r : HttpResult) : Res string :=
  match r with
  | TransportError => Err LLMUnavailable
  | RequestFailed => Err OtherError
  | Response status json =>
      if is_error status then Err LLMUnavailable
      else match json with
           | None => Err LLMUnavailable
           | Some body => match choice_content body with
                          | Some (VStr content) => Ok (py_strip content)
                          | _ => Err LLMUnavailable
                          end
           end
  end.

Definition call_tokens (c : OpenCodeZenClient) (max_tokens : Z) : Z := Z.min (Z.max 16 max_tokens) (_max_tokens c).

Section Client.
(** The events the bus accepts; a refused alert is dropped. *)
Context (accepts : Event -> bool).

(** [_emit_budget_alert]: once in the life of the client. *)
Definition _emit_budget_alert (now : Z) (c : OpenCodeZenClient) : list Event :=
  if _budget_alerted c then [] else List.filter accepts [budget_event now].

Definition zen_complete (call : LlmCall) (c : OpenCodeZenClient) : LlmOutcome * OpenCodeZenClient :=
  if String.eqb (_api_key c) "" then ({| lo_result := Err LLMUnavailable; lo_request := None; lo_alerts := [] |}, c)
  else
    let tokens := call_tokens c (lc_max_tokens call) in
    let '(r, b) := authorize tokens (lc_now call) (_breaker c) in
    match r with
    | Err LLMUnavailable =>
        ({| lo_result := Err LLMUnavailable; lo_request := None; lo_alerts := _emit_budget_alert (lc_now call) c |},
         set_breaker b true c)
    | Err e => ({| lo_result := Err e; lo_request := None; lo_alerts := [] |}, set_breaker b (_budget_alerted c) c)
    | Ok _ => ({| lo_result := read_answer (lc_answer call);
                  lo_request := Some (zen_request c (lc_system call) (lc_prompt call) tokens); lo_alerts := [] |},
               set_breaker b (_budget_alerted c) c)
    end.

(** The clients [build_llm_client] chooses from. *)
Inductive LLMClient := Disabled | Zen (c : OpenCodeZenClient).

Definition build_llm_client (s : Settings) : LLMClient :=
  let provider := if String.eqb (llm_provider s) "" then "none"%string else llm_provider s in
  if String.eqb (str_lower (py_strip provider)) "opencode_zen" then
    Zen (make_zen (opencode_zen_api_key s) (opencode_zen_model s) (opencode_zen_base_url s) (llm_daily_budget_usd s) (llm_max_tokens s))
  else Disabled.

Definition enabled (now : Z) (c : LLMClient) : bool := match c with Disabled => false | Zen c => zen_enabled now c end.
Definition complete (call : LlmCall) (c : LLMClient) : LlmOutcome * LLMClient :=
  match c with
  | Disabled => ({| lo_result := Err LLMUnavailable; lo_request := None; lo_alerts := [] |}, c)
  | Zen z => let '(o, z) := zen_complete call z in (o, Zen z)
  end.

(** One call after the other. *)
Fixpoint converse (calls : list LlmCall) (c : LLMClient) : list LlmOutcome * LLMClient :=
  match calls with
  | [] => ([], c)
  | call :: calls => let '(o, c) := complete call c in let '(os, c) := converse calls c in (o :: os, c)
  end.

(** ** Properties *)

(** What was paid on a day: the costs of the requests sent then, added up. *)
Definition paid (tokens : Z -> Z) (day : Z) (x : LlmCall * LlmOutcome) : option float :=
  match lo_request x.2 with
  | Some _ => if day_of (lc_now x.1) =? day then Some (token_cost (tokens (lc_max_tokens x.1))) else None
  | None => None
  end.
Definition add_paid (tokens : Z -> Z) (day : Z) (acc : float) (x : LlmCall * LlmOutcome) : float :=
  match paid tokens day x with Some c => acc +ᶠ c | None => acc end.

Definition solvent (b : DailyBudgetBreaker) : Prop := flt (_budget b) f0 = false /\ flt (_budget b) (_spent b) = false.

Lemma new_budget_solvent x : solvent (new_budget x).
Proof.
  unfold solvent, new_budget, fmax. cbn [_budget _spent]. destruct (flt f0 x) eqn:E; [|done].
  by rewrite (flt_asym _ _ E).
Qed.

Lemma reserve_keeps tokens now b : solvent b ->
  let '(r, b') := reserve tokens now b in
  _budget b' = _budget b /\ solvent b' /\
  ((r = Err LLMUnavailable \/ r = Err OverflowError /\ is_infinite (of_Z tokens) = true) /\ (b' = b \/ b' = _rollover now b) \/
   r = Ok tt /\ _day b' = day_of now /\ _spent b' = _spent (_rollover now b) +ᶠ token_cost tokens).
Proof.
  intros [H1 H2]. unfold reserve. destruct (fle (_budget b) f0); [split; [done|]; split; [done|]; left; split; [by left|by left]|].
  assert (Hr : _budget (_rollover now b) = _budget b /\ solvent (_rollover now b) /\ _day (_rollover now b) = day_of now).
  { unfold _rollover, solvent. destruct (Z.eqb_spec (day_of now) (_day b)) as [E|E]; cbn; auto. }
  destruct Hr as (Hb & Hs & Hd). cbv zeta. rewrite Hb.
  destruct (is_infinite (of_Z tokens)); [split; [done|]; split; [done|]; left; split; [by right|by right]|].
  destruct (flt (_budget b) (_spent (_rollover now b) +ᶠ token_cost tokens)) eqn:E; [split; [done|]; split; [done|]; left; split; [by left|by right]|].
  cbn [_budget _spent _day]. split; [done|]. split; [split; cbn [_budget _spent]; [done|exact E]|]. right. auto.
Qed.

(** The day's total so far. *)
Definition carried (b : DailyBudgetBreaker) (day : Z) : float := if day =? _day b then _spent b else f0.

Lemma carried_solvent b day : solvent b -> flt (_budget b) (carried b day) = false.
Proof. intros [H1 H2]. unfold carried. by destruct (_ =? _). Qed.

Lemma rollover_carried now b day : _day b <= day_of now -> day_of now <= day -> carried (_rollover now b) day = carried b day.
Proof.
  intros H1 H2. unfold _rollover, carried. destruct (Z.eqb_spec (day_of now) (_day b)) as [E|E]; [done|]. cbn [_day _spent].
  destruct (Z.eqb_spec day (day_of now)), (Z.eqb_spec day (_day b)); done || lia.
Qed.

(** Nothing is paid on a day that is over. *)
Lemma add_paid_past tokens day l : forall acc, Forall (fun x : LlmCall * LlmOutcome => day < day_of (lc_now x.1)) l ->
  foldl (add_paid tokens day) acc l = acc.
Proof.
  induction l as [|x l IH]; intros acc Hl; [done|]. apply Forall_cons in Hl as [Hx Hl]. cbn [foldl]. rewrite IH by done.
  unfold add_paid, paid. destruct (lo_request x.2); [|done]. by rewrite (proj2 (Z.eqb_neq _ _)) by lia.
Qed.

(** Times do not go back, from a day on. *)
Fixpoint days_from (day : Z) (calls : list LlmCall) : Prop :=
  match calls with [] => True | c :: calls => day <= day_of (lc_now c) /\ days_from (day_of (lc_now c)) calls end.

Lemma days_from_le calls : forall d d', d' <= d -> days_from d calls -> days_from d' calls.
Proof. destruct calls as [|c calls]; intros d d' Hd; [done|]. cbn. intros [? ?]. split; [lia|done]. Qed.

Lemma days_from_all calls : forall d, days_from d calls -> Forall (fun c => d <= day_of (lc_now c)) calls.
Proof.
  induction calls as [|c calls IH]; intros d; [constructor|]. cbn [days_from]. intros [Hc Hd]. constructor; [done|].
  eapply Forall_impl; [by apply IH|]. intros x Hx. cbn in Hx. lia.
Qed.

Lemma converse_length calls : forall c, length (converse calls c).1 = length calls.
Proof.
  induction calls as [|call calls IH]; intros c; [done|]. cbn [converse]. destruct (complete call c) as [o c1].
  specialize (IH c1). destruct (converse calls c1). cbn in *. by f_equal.
Qed.

Lemma zip_fst_Forall (P : LlmCall -> Prop) calls outs : Forall P calls -> Forall (fun x : LlmCall * LlmOutcome => P x.1) (zip calls outs).
Proof.
  intros Hc. apply Forall_forall. intros [x o] Hx. rewrite Forall_forall in Hc. apply Hc. by eapply elem_of_zip_l.
Qed.

(** What a client may still pay from here on, on any day from its current one. *)
Lemma converse_paid calls : forall z, solvent (_breaker z) -> days_from (_day (_breaker z)) calls ->
  forall day, flt (_budget (_breaker z))
    (foldl (add_paid (call_tokens z) day) (carried (_breaker z) day) (zip calls (converse calls (Zen z)).1)) = false.
Proof.
  induction calls as [|call calls IH]; intros z Hs Hd day; [by apply carried_solvent|]. cbn [days_from] in Hd. destruct Hd as [Hday Hd].
  cbn [converse complete]. destruct (zen_complete call z) as [o z1] eqn:Ez. destruct (converse calls (Zen z1)) as [os c2] eqn:Ec.
  cbn [fst zip_with zip foldl].
  assert (Hos : os = (converse calls (Zen z1)).1) by (by rewrite Ec). rewrite Hos. clear Ec Hos c2 os.
  unfold zen_complete in Ez. destruct (String.eqb (_api_key z) "").
  { injection Ez as <- <-. unfold add_paid at 2, paid. cbn [lo_request fst snd]. apply IH; [done|]. by eapply days_from_le. }
  unfold authorize in Ez. pose proof (reserve_keeps (call_tokens z (lc_max_tokens call)) (lc_now call) (_breaker z) Hs) as Hr.
  destruct (reserve _ _ _) as [r b]. destruct Hr as (Hb & Hsb & Hcase).
  assert (Hstep : forall acc al, solvent b -> _day b <= day_of (lc_now call) ->
    (forall d, day_of (lc_now call) <= d -> acc d = carried b d) -> (forall d, d < day_of (lc_now call) -> acc d = carried (_breaker z) d) ->
    flt (_budget (_breaker z)) (foldl (add_paid (call_tokens z) day) (acc day) (zip calls (converse calls (Zen (set_breaker b al z))).1)) = false).
  { intros acc al Hsolv Hle Hge Hlt. destruct (Z_lt_dec day (day_of (lc_now call))) as [Hp|Hp].
    - rewrite add_paid_past; [rewrite Hlt by done; by apply carried_solvent|].
      apply (zip_fst_Forall (fun c => day < day_of (lc_now c))). eapply Forall_impl; [by eapply days_from_all|]. intros c Hc. cbn in Hc. lia.
    - rewrite Hge by lia. rewrite <- Hb. change (call_tokens z) with (call_tokens (set_breaker b al z)).
      apply (IH (set_breaker b al z)); cbn [_breaker set_breaker]; [done|by eapply days_from_le]. }
  destruct Hcase as [[Hr Hbb]|(-> & Hbd & Hbs)].
  - assert (Ho : lo_request o = None /\ exists al, z1 = set_breaker b al z)
      by (destruct Hr as [->|[-> _]]; injection Ez as <- <-; (split; [done|by eexists])).
    destruct Ho as [Ho [al ->]]. unfold add_paid at 2, paid. cbn [fst snd]. rewrite Ho.
    assert (Hle : _day b <= day_of (lc_now call)).
    { destruct Hbb as [->| ->]; [done|]. unfold _rollover. destruct (Z.eqb_spec (day_of (lc_now call)) (_day (_breaker z))); cbn; lia. }
    apply (Hstep (carried (_breaker z))); [done|done| |done]. intros d Hd2. destruct Hbb as [->| ->]; [done|]. by rewrite rollover_carried.
  - injection Ez as <- <-. unfold add_paid at 2, paid. cbn [lo_request fst snd].
    set (acc := fun d => if day_of (lc_now call) =? d then carried (_breaker z) d +ᶠ token_cost (call_tokens z (lc_max_tokens call)) else carried (_breaker z) d).
    replace (match (if day_of (lc_now call) =? day then _ else None) with Some c => _ | None => _ end) with (acc day)
      by (unfold acc; by destruct (_ =? day)).
    apply (Hstep acc); [done|lia| |].
    + intros d Hd2. unfold acc, carried at 2 3. rewrite Hbd, Hbs. destruct (Z.eqb_spec (day_of (lc_now call)) d) as [<-|Hne].
      * rewrite Z.eqb_refl. f_equal. unfold carried, _rollover. destruct (Z.eqb_spec (day_of (lc_now call)) (_day (_breaker z))); done.
      * rewrite (proj2 (Z.eqb_neq d _)) by lia. unfold carried. rewrite (proj2 (Z.eqb_neq d _)) by lia. done.
    + intros d Hd2. unfold acc. by rewrite (proj2 (Z.eqb_neq _ _)) by lia.
Qed.

(** What a failed call raises: the error callers fall back on; or, after the request, an error
    of [httpx] that is no [TransportError]; or, before it, the overflow of its cost. *)
Definition failure_of (z : OpenCodeZenClient) (call : LlmCall) (o : LlmOutcome) : Prop :=
  forall e, lo_result o = Err e -> e = LLMUnavailable \/
    e = OtherError /\ lc_answer call = RequestFailed /\ is_Some (lo_request o) \/
    e = OverflowError /\ is_infinite (of_Z (call_tokens z (lc_max_tokens call))) = true /\ lo_request o = None.

Lemma read_answer_err r e : read_answer r = Err e -> e = LLMUnavailable \/ e = OtherError /\ r = RequestFailed.
Proof. unfold read_answer. intros. repeat case_match; simplify_eq; auto. Qed.
Lemma reserve_err tokens now b e : (reserve tokens now b).1 = Err e ->
  e = LLMUnavailable \/ e = OverflowError /\ is_infinite (of_Z tokens) = true.
Proof. unfold reserve. intros. repeat case_match; cbn in *; simplify_eq; auto. Qed.

Lemma zen_failure call z : failure_of z call (zen_complete call z).1.
Proof.
  intros e. unfold zen_complete, authorize. destruct (String.eqb _ ""); [intros [= <-]; by left|].
  pose proof (reserve_err (call_tokens z (lc_max_tokens call)) (lc_now call) (_breaker z)) as Hr.
  destruct (reserve _ _ _) as [[[]|e'] b]; cbn in Hr |- *.
  - intros [->|[-> ?]]%read_answer_err; [by left|]. right; left. by split_and!.
  - specialize (Hr _ eq_refl). destruct Hr as [->|[-> ?]]; intros [= <-]; [by left|right; right; by split_and!].
Qed.

Lemma complete_max call z : exists z', (complete call (Zen z)).2 = Zen z' /\ _max_tokens z' = _max_tokens z.
Proof.
  cbn [complete]. unfold zen_complete. destruct (String.eqb _ ""); [by exists z|].
  destruct (authorize _ _ _) as [[[]|[]] b]; by eexists.
Qed.

Lemma converse_err calls : forall z, Forall2 (failure_of z) calls (converse calls (Zen z)).1.
Proof.
  induction calls as [|call calls IH]; intros z; [constructor|]. cbn [converse].
  pose proof (zen_failure call z) as Hf. destruct (complete_max call z) as (z' & Hz & Hm). cbn [complete] in *.
  destruct (zen_complete call z) as [o z1]. cbn [fst snd] in *. injection Hz as ->. specialize (IH z').
  destruct (converse calls (Zen z')) as [os c2]. constructor; [exact Hf|].
  eapply Forall2_impl; [exact IH|]. intros c o'. unfold failure_of, call_tokens. by rewrite Hm.
Qed.

(** A client without a key or a budget, and one that has alerted. *)
Definition barred (z : OpenCodeZenClient) : Prop := _api_key z = ""%string \/ fle (_budget (_breaker z)) f0 = true.
Lemma converse_barred calls : forall z, barred z -> Forall (fun o => lo_request o = None) (converse calls (Zen z)).1.
Proof.
  induction calls as [|call calls IH]; intros z Hz; [constructor|]. cbn [converse complete]. unfold zen_complete.
  destruct (String.eqb_spec (_api_key z) "") as [E|E].
  - specialize (IH z Hz). destruct (converse calls (Zen z)) as [os c2]. by constructor.
  - destruct Hz as [?|Hb]; [done|]. unfold authorize, reserve. rewrite Hb.
    assert (Hz1 : barred (set_breaker (_breaker z) true z)) by (by right).
    specialize (IH _ Hz1). destruct (converse calls _) as [os c2]. by constructor.
Qed.

Lemma converse_alerts calls : forall z,
  (length (concat (map lo_alerts (converse calls (Zen z)).1)) <= if _budget_alerted z then 0 else 1)%nat.
Proof.
  induction calls as [|call calls IH]; intros z; [cbn; lia|]. cbn [converse complete]. destruct (zen_complete call z) as [o z1] eqn:Ez.
  specialize (IH z1). destruct (converse calls (Zen z1)) as [os c2]. cbn [fst map concat] in *. rewrite length_app.
  unfold zen_complete in Ez. destruct (String.eqb _ ""); [injection Ez as <- <-; cbn [lo_alerts]; exact IH|].
  destruct (authorize _ _ _) as [[[]|[]] b]; injection Ez as <- <-; cbn [lo_alerts _budget_alerted set_breaker length] in *; try exact IH.
  unfold _emit_budget_alert. destruct (_budget_alerted z); cbn [length List.filter]; [lia|]. destruct (accepts _); cbn [length]; lia.
Qed.

(** C23: The model never costs more than the day's budget.  Whatever is asked and answered,
    while the clock's days do not go back, the estimated costs of the requests sent on any one
    day add up to no more than the configured budget; without a key or a budget nothing is
    ever sent; and the budget alert is sent at most once.  A failure of the configuration, of
    the budget, of the connection, of the status or of the answer's shape is the one error
    callers fall back on; it is not what else [httpx] raises once the request is sent, which
    only [TransportError] would be translated from, nor the overflow of a number of tokens
    that no float can hold: these two escape. *)
Theorem llm_within_budget (api_key model base_url : string) (budget_usd : float) (max_tokens : Z) (calls : list LlmCall) :
  days_from 0 calls ->
  let z := make_zen api_key model base_url budget_usd max_tokens in
  let outs := (converse calls (Zen z)).1 in
  (forall day, flt (fmax f0 budget_usd) (foldl (add_paid (call_tokens z) day) f0 (zip calls outs)) = false) /\
  (api_key = ""%string \/ fle (fmax f0 budget_usd) f0 = true -> Forall (fun o => lo_request o = None) outs) /\
  Forall2 (failure_of z) calls outs /\
  (length (concat (map lo_alerts outs)) <= 1)%nat.
Proof.
  intros Hd z outs. split_and!.
  - intros day. pose proof (converse_paid calls z (new_budget_solvent budget_usd) Hd day) as Hp.
    assert (Hc : carried (_breaker z) day = f0) by (unfold carried; by destruct (_ =? _)). rewrite Hc in Hp. exact Hp.
  - intros Hb. by apply converse_barred.
  - apply converse_err.
  - apply (converse_alerts calls z).
Qed.

(** The same outcome for another key, up to the authorisation header. *)
Definition alike (o1 o2 : LlmOutcome) : Prop :=
  lo_result o1 = lo_result o2 /\ lo_alerts o1 = lo_alerts o2 /\
  match lo_request o1, lo_request o2 with
  | Some r1, Some r2 => sq_url r1 = sq_url r2 /\ sq_json r1 = sq_json r2 /\
      forall h, h <> "Authorization"%string -> dget h (sq_headers r1) = dget h (sq_headers r2)
  | None, None => True
  | _, _ => False
  end.
Definition with_key (key : string) (z : OpenCodeZenClient) : OpenCodeZenClient :=
  {| _api_key := key; _model := _model z; _base_url := _base_url z; _max_tokens := _max_tokens z; _breaker := _breaker z;
     _budget_alerted := _budget_alerted z |}.

(** The key only ever appears in the authorisation header: with another key the same calls
    have the same results, alerts, addresses, bodies and other headers. *)
Theorem key_confined (calls : list LlmCall) (key1 key2 : string) : key1 <> ""%string -> key2 <> ""%string ->
  forall z, Forall2 alike (converse calls (Zen (with_key key1 z))).1 (converse calls (Zen (with_key key2 z))).1.
Proof.
  intros H1 H2. induction calls as [|call calls IH]; intros z; [constructor|]. cbn [converse complete].
  unfold zen_complete. cbn [_api_key with_key]. rewrite !(proj2 (String.eqb_neq _ _)) by done.
  change (_breaker (with_key _ z)) with (_breaker z). change (call_tokens (with_key _ z)) with (call_tokens z).
  destruct (authorize _ _ _) as [[[]|e] b].
  - specialize (IH (set_breaker b (_budget_alerted z) z)). unfold with_key, set_breaker in *. cbn in IH |- *.
    destruct (converse calls _) as [os1 c1], (converse calls _) as [os2 c2]. constructor; [|exact IH].
    split; [done|]. split; [done|]. cbn [lo_request]. split; [done|]. split; [done|]. intros h Hh. cbn [sq_headers zen_request dget]. by repeat (case_decide; try done).
  - assert (Hgo : forall al o, alike o o -> Forall2 alike
      (o :: (converse calls (Zen (set_breaker b al (with_key key1 z)))).1) (o :: (converse calls (Zen (set_breaker b al (with_key key2 z)))).1)).
    { intros al o Ho. constructor; [done|]. exact (IH (set_breaker b al z)). }
    specialize (fun al o => Hgo al o). change (_budget_alerted (with_key _ z)) with (_budget_alerted z).
    change (_emit_budget_alert _ (with_key _ z)) with (_emit_budget_alert (lc_now call) z).
    destruct e;
      (match goal with |- context [set_breaker b ?al (with_key key1 z)] =>
         match goal with |- context [{| lo_result := ?r; lo_request := ?q; lo_alerts := ?l |}] =>
           specialize (Hgo al {| lo_result := r; lo_request := q; lo_alerts := l |}) end end;
       destruct (converse calls (Zen (set_breaker b _ (with_key key1 z)))) as [os1 c1],
                (converse calls (Zen (set_breaker b _ (with_key key2 z)))) as [os2 c2]; by apply Hgo).
Qed.
End Client.

(** ** Examples *)

Definition demo_reply : HttpResult :=
  Response 200 (Some (VDict [("choices", VList [VDict [("message", VDict [("content", VStr " calm ")])]])]))%string.
Definition demo_call (day : Z) : LlmCall :=
  {| lc_system := "s"; lc_prompt := "p"; lc_max_tokens := 256; lc_now := days_td day; lc_answer := demo_reply |}.
(** A budget of two calls of 256 tokens. *)
Definition demo_zen : OpenCodeZenClient := make_zen "key" "ox" "https://zen.example//" (lit 3 3) 512.

Notation demo_outs := ((converse (fun _ => true) [demo_call 1; demo_call 1; demo_call 1; demo_call 2] (Zen demo_zen)).1).

Lemma llm_within_budget_witness :
  map lo_result demo_outs = [Ok "calm"; Ok "calm"; Err LLMUnavailable; Ok "calm"]%string /\
  (length (concat (map lo_alerts demo_outs)) <= 1)%nat.
Proof.
  split; [vm_compute; reflexivity|].
  refine (proj2 (proj2 (proj2 (llm_within_budget (fun _ => true) "key" "ox" "https://zen.example//" (lit 3 3) 512
    [demo_call 1; demo_call 1; demo_call 1; demo_call 2] _)))).
  repeat split; vm_compute; discriminate.
Defined.

Lemma key_confined_witness :
  Forall2 alike (converse (fun _ => true) [demo_call 1] (Zen (with_key "a" demo_zen))).1
                (converse (fun _ => true) [demo_call 1] (Zen (with_key "b" demo_zen))).1.
Proof. apply (key_confined (fun _ => true) [demo_call 1] "a" "b"); discriminate. Defined.

(** The budget is daily but its alert is not: exhausted on two days, it is reported once. *)
Example budget_alerted_once_ever :
  let outs := (converse (fun _ => true) [demo_call 1; demo_call 1; demo_call 1; demo_call 2; demo_call 2; demo_call 2] (Zen demo_zen)).1 in
  map (fun o => is_ok (lo_result o)) outs = [true; true; false; true; true; false] /\
  map (fun o => length (lo_alerts o)) outs = [0; 0; 1; 0; 0; 0]%nat.
Proof. vm_compute. split; reflexivity. Qed.

(** A redirect loop is no [TransportError]: its error reaches the caller as it is. *)
Example redirects_escape :
  let call := {| lc_system := "s"; lc_prompt := "p"; lc_max_tokens := 256; lc_now := days_td 1; lc_answer := RequestFailed |}%string in
  lo_result (zen_complete (fun _ => true) call demo_zen).1 = Err OtherError.
Proof. vm_compute. reflexivity. Qed.

(** [authorize] is documented as idempotent, but every call reserves anew. *)
Example authorize_reserves_twice :
  let b := new_budget (lit 2 3) in
  (authorize 256 0 b).1 = Ok tt /\ (authorize 256 0 (authorize 256 0 b).2).1 = Err LLMUnavailable.
Proof. vm_compute. split; reflexivity. Qed.
