(* ===== verification/Problems.v ===== *)
(** * Error answers, log redaction and request metrics ([app/core/errors.py],
    [app/core/logging.py], [MetricsMiddleware] of [app/core/metrics.py])

    The framework decides which exception reaches which handler by its class; the body of an
    answer is its JSON value.  The correlation id is what the context of the handler holds. *)

From Stdlib Require Import ZArith Ascii Lia.
From stdpp Require Import base list strings pretty.
From S2P Require Import Prelude PyFloat Signals Alerts.

Open Scope Z_scope.

(** ** The errors of the application *)

Definition PROBLEM_MEDIA_TYPE : string := "application/problem+json".
Definition PROBLEM_TYPE_BASE : string := "https://forex-ai.dev/problems/".

Inductive AppErrorClass :=
| AppErrorBase | NotFound | Authentication | PermissionDenied | Conflict | InvalidInput | RateLimit | ServiceUnavailable.
#[export] Instance AppErrorClass_eq_dec : EqDecision AppErrorClass.
Proof. solve_decision. Defined.

Definition status_code (c : AppErrorClass) : Z :=
  match c with
  | AppErrorBase => 500 | NotFound => 404 | Authentication => 401 | PermissionDenied => 403 | Conflict => 409
  | InvalidInput => 400 | RateLimit => 429 | ServiceUnavailable => 503
  end.
Definition code (c : AppErrorClass) : string :=
  match c with
  | AppErrorBase => "internal_error" | NotFound => "not_found" | Authentication => "unauthorized"
  | PermissionDenied => "forbidden" | Conflict => "conflict" | InvalidInput => "invalid_input"
  | RateLimit => "rate_limited" | ServiceUnavailable => "service_unavailable"
  end.
Definition title (c : AppErrorClass) : string :=
  match c with
  | AppErrorBase => "Internal server error" | NotFound => "Resource not found" | Authentication => "Authentication required"
  | PermissionDenied => "Permission denied" | Conflict => "Conflicting resource" | InvalidInput => "Invalid input"
  | RateLimit => "Too many requests" | ServiceUnavailable => "Service unavailable"
  end.

Record AppError := {
  ae_class : AppErrorClass;
  ae_detail : string;
  ae_extras : dict string pyval;
  ae_headers : option (dict string string)
}.

Definition new_app_error (c : AppErrorClass) (detail : option string) (extras : option (dict string pyval))
  (headers : option (dict string string)) : AppError :=
  {| ae_class := c; ae_detail := or_str (default ""%string detail) (title c); ae_extras := default [] extras; ae_headers := headers |}.

Definition new_authentication_error (detail : string) : AppError :=
  new_app_error Authentication (Some detail) None (Some [("WWW-Authenticate", "Bearer")]%string).
Definition new_rate_limit_error (retry_after_seconds : Z) : AppError :=
  new_app_error RateLimit (Some "Rate limit exceeded; retry later."%string)
    (Some [("retry_after", VInt retry_after_seconds)]%string) (Some [("Retry-After", pretty (Z.max 1 retry_after_seconds))]%string).

(** ** Problems *)

(** [d.update(extras)]. *)
Definition update {V} (d extras : dict string V) : dict string V := foldl (fun d '(k, v) => dset k v d) d extras.

Definition opt_text (o : option string) : pyval := match o with Some s => VStr s | None => VNone end.

Definition base_problem (path : string) (correlation_id : option string) (status : Z) (code title detail : string) : dict string pyval :=
  [("type", VStr (PROBLEM_TYPE_BASE ++ code)); ("title", VStr title); ("status", VInt status); ("detail", VStr detail);
   ("instance", VStr path); ("correlation_id", opt_text correlation_id)]%string.
Definition build_problem (path : string) (correlation_id : option string) (status : Z) (code title detail : string)
  (extras : dict string pyval) : dict string pyval :=
  update (base_problem path correlation_id status code title detail) extras.

Record JSONResponse := {
  rs_status : Z;
  rs_content : dict string pyval;
  rs_media_type : string;
  rs_headers : option (dict string string)
}.

Definition _problem_response (path : string) (correlation_id : option string) (status : Z) (code title detail : string)
  (extras : dict string pyval) (headers : option (dict string string)) : JSONResponse :=
  {| rs_status := status; rs_content := build_problem path correlation_id status code title detail extras;
     rs_media_type := PROBLEM_MEDIA_TYPE; rs_headers := headers |}.

(** One failed field of a request: where, by names and positions, and why. *)
Record FieldError := { fe_loc : option (list (string + Z)); fe_msg : option pyval; fe_type : option pyval }.

(** What can be raised: an error of the application, one of the framework with the text of
    its detail, a request that does not fit its schema, anything else with its text. *)
Inductive Raised :=
| RaisedApp (e : AppError)
| RaisedHTTP (status : Z) (detail : string) (exc_title : option string) (headers : option (dict string string))
| RaisedValidation (errors : list FieldError)
| RaisedOther (text : string).

Section Handlers.
Context (path : string) (correlation_id : option string).

Definition handle_app_error (e : AppError) : JSONResponse :=
  _problem_response path correlation_id (status_code (ae_class e)) (code (ae_class e)) (title (ae_class e)) (ae_detail e)
    (ae_extras e) (ae_headers e).

Definition handle_http_exception (status : Z) (detail : string) (exc_title : option string) (headers : option (dict string string))
  : JSONResponse :=
  _problem_response path correlation_id status ("http_" ++ pretty status)%string (or_str (default ""%string exc_title) "Request failed")
    detail [] headers.

Definition field_error (e : FieldError) : pyval :=
  VDict [("loc", VList (map (fun l => VStr match l with inl s => s | inr n => pretty n end) (default [] (fe_loc e))));
         ("msg", default (VStr "") (fe_msg e)); ("type", default (VStr "") (fe_type e))]%string.

Definition handle_validation_error (errors : list FieldError) : JSONResponse :=
  _problem_response path correlation_id 422 "validation_error" "Request validation failed" "One or more fields are invalid."
    [("errors"%string, VList (map field_error errors))] None.

(** The log record, then the answer. *)
Definition unexpected_log (method text : string) : dict string pyval :=
  [("event", VStr "unhandled_exception"); ("path", VStr path); ("method", VStr method); ("error", VStr text)]%string.
Definition handle_unexpected_error : JSONResponse :=
  _problem_response path correlation_id 500 "internal_error" "Internal server error"
    "An unexpected error occurred. Reference the correlation id in logs." [] None.

Definition register_exception_handlers (method : string) (exc : Raised) : JSONResponse * option (dict string pyval) :=
  match exc with
  | RaisedApp e => (handle_app_error e, None)
  | RaisedHTTP status detail t headers => (handle_http_exception status detail t headers, None)
  | RaisedValidation errors => (handle_validation_error errors, None)
  | RaisedOther text => (handle_unexpected_error, Some (unexpected_log method text))
  end.
End Handlers.

(** ** Redaction *)

Definition _REDACTED : string := "[REDACTED]".
Definition SENSITIVE_KEY_SUBSTRINGS : list string :=
  ["password"; "passwd"; "secret"; "token"; "authorization"; "api_key"; "apikey"; "cookie"; "credential"]%string.
Definition _MAX_REDACTION_DEPTH : nat := 6.

Definition _is_sensitive_key (key : string) : bool :=
  existsb (fun marker => contains marker (str_lower key)) SENSITIVE_KEY_SUBSTRINGS.

(** [levels] is what is left of the depth: [_redact_value value depth] with
    [levels = _MAX_REDACTION_DEPTH + 1 - depth]. *)
Fixpoint redact_levels (levels : nat) (value : pyval) : pyval :=
  match levels with
  | O => value
  | S levels =>
      match value with
      | VDict d => VDict (map (fun '(k, v) => (k, if _is_sensitive_key k then VStr _REDACTED else redact_levels levels v)) d)
      | VList l => VList (map (redact_levels levels) l)
      | v => v
      end
  end.
Definition _redact_value (value : pyval) (depth : nat) : pyval := redact_levels (S _MAX_REDACTION_DEPTH - depth) value.

Definition redact_entry (e : string * pyval) : string * pyval :=
  let '(key, v) := e in
  (key, if negb (String.eqb key "event") && _is_sensitive_key key then VStr _REDACTED else _redact_value v 0).
Definition redact_sensitive (event_dict : dict string pyval) : dict string pyval := map redact_entry event_dict.

Definition add_correlation_id (correlation_id : option string) (event_dict : dict string pyval) : dict string pyval :=
  match correlation_id with Some cid => dset "correlation_id"%string (VStr cid) event_dict | None => event_dict end.

(** ** Request metrics *)

(** The observations of the latency per method and path, and the requests counted per
    method, path and status. *)
Record HttpMetrics := { latency : dict (string * string) nat; requests : dict (string * string * Z) nat }.
Definition no_metrics : HttpMetrics := {| latency := []; requests := [] |}.

Definition _UNMATCHED : string := "<unmatched>".

(** [.labels(...)] alone makes a child without observations. *)
Definition labels (k : string * string) (m : HttpMetrics) : HttpMetrics :=
  match dget k (latency m) with
  | Some _ => m
  | None => {| latency := dset k O (latency m); requests := requests m |}
  end.
Definition observe (k : string * string) (m : HttpMetrics) : HttpMetrics :=
  {| latency := dset k (S (dget_or k O (latency m))) (latency m); requests := requests m |}.
Definition inc (k : string * string * Z) (m : HttpMetrics) : HttpMetrics :=
  {| latency := latency m; requests := dset k (S (dget_or k O (requests m))) (requests m) |}.

(** A request: its method, the template of the route that matched, and the status it was
    answered with, or [None] when an exception left the application. *)
Record Served := { sv_method : string; sv_route : option string; sv_status : option Z }.

Definition dispatch (r : Served) (m : HttpMetrics) : HttpMetrics :=
  let m := observe (sv_method r, _UNMATCHED) m in
  match sv_status r with
  | None => m
  | Some status =>
      let path := default _UNMATCHED (sv_route r) in
      let m := if String.eqb path _UNMATCHED then m else labels (sv_method r, path) m in
      inc (sv_method r, path, status) m
  end.

(** ** Properties *)

Definition members : list string := ["type"; "title"; "status"; "detail"; "instance"; "correlation_id"]%string.

Lemma update_other {V} (extras : dict string V) : forall d k, k ∉ extras.*1 -> dget k (update d extras) = dget k d.
Proof.
  unfold update. induction extras as [|[k' v] extras IH]; intros d k Hk; [done|]. rewrite fmap_cons, not_elem_of_cons in Hk. cbn [fst] in Hk.
  cbn [foldl]. rewrite IH by tauto. apply dget_dset_ne. tauto.
Qed.

Lemma update_given {V} (extras : dict string V) : forall d k v, NoDup extras.*1 -> dget k extras = Some v -> dget k (update d extras) = Some v.
Proof.
  unfold update. induction extras as [|[k' v'] extras IH]; intros d k v Hn Hk; [done|]. rewrite fmap_cons, NoDup_cons in Hn. destruct Hn as [Hk' Hn]. cbn [fst] in Hk'.
  cbn [dget] in Hk. cbn [foldl]. destruct (decide (k = k')) as [->|Hne]; [|by apply IH].
  injection Hk as ->. pose proof (update_other extras (dset k' v d) k' Hk') as Hu. unfold update in Hu. by rewrite Hu, dget_dset_eq.
Qed.

Lemma dset_key_order {V} (k : string) (v : V) (d : dict string V) : d.*1 `prefix_of` (dset k v d).*1.
Proof.
  induction d as [|[k' v'] d IH]; [apply prefix_nil|]. cbn [dset]. destruct (decide (k = k')) as [->|]; cbn; [done|by apply prefix_cons].
Qed.

Lemma update_key_order {V} (extras : dict string V) : forall d, d.*1 `prefix_of` (update d extras).*1.
Proof.
  unfold update. induction extras as [|[k v] extras IH]; intros d; [done|]. cbn [foldl]. etrans; [apply dset_key_order|apply IH].
Qed.

(** The members every problem begins with; [extra] are the keys of the added ones. *)
Record problem_for (path : string) (correlation_id : option string) (extra : list string) (r : JSONResponse) : Prop := {
  pf_media : rs_media_type r = PROBLEM_MEDIA_TYPE;
  pf_members : members `prefix_of` (rs_content r).*1;
  pf_status : "status"%string ∉ extra -> dget "status"%string (rs_content r) = Some (VInt (rs_status r));
  pf_instance : "instance"%string ∉ extra -> dget "instance"%string (rs_content r) = Some (VStr path);
  pf_correlation : "correlation_id"%string ∉ extra -> dget "correlation_id"%string (rs_content r) = Some (opt_text correlation_id)
}.

Lemma problem_response_for path cid status c t detail extras headers :
  problem_for path cid extras.*1 (_problem_response path cid status c t detail extras headers).
Proof. constructor; cbn; [done|apply (update_key_order extras (base_problem _ _ _ _ _ _))|..];
  intros Hk; unfold build_problem; by rewrite update_other.
Qed.

Definition extra_of (exc : Raised) : list string :=
  match exc with RaisedApp e => (ae_extras e).*1 | RaisedValidation _ => ["errors"%string] | _ => [] end.

(** Every error is answered in one shape.  Whatever is raised, the answer is a problem
    document that begins with the six members in their order, with the status it is sent
    with, the path and the correlation id, unless the raiser's own extras, which it carries
    too, replace one of them; a refused rate names the seconds to wait both in the body and, at least one, in
    its header; an invalid request gets one entry per failed field, in order, naming where;
    and of an unexpected exception the client learns nothing, while the log has its text. *)
Theorem problem_answers (path method : string) (correlation_id : option string) (exc : Raised) :
  let '(r, log) := register_exception_handlers path correlation_id method exc in
  problem_for path correlation_id (extra_of exc) r /\
  (forall e k v, exc = RaisedApp e -> NoDup (ae_extras e).*1 -> dget k (ae_extras e) = Some v -> dget k (rs_content r) = Some v) /\
  (forall n, exc = RaisedApp (new_rate_limit_error n) ->
     rs_status r = 429 /\ dget "retry_after"%string (rs_content r) = Some (VInt n) /\
     rs_headers r = Some [("Retry-After", pretty (Z.max 1 n))]%string) /\
  (forall errors, exc = RaisedValidation errors ->
     rs_status r = 422 /\ exists l, dget "errors"%string (rs_content r) = Some (VList l) /\
       Forall2 (fun e v => exists fields, v = VDict fields /\ dget "loc"%string fields =
         Some (VList (map (fun x => VStr match x with inl s => s | inr n => pretty n end) (default [] (fe_loc e))))) errors l) /\
  (forall text, exc = RaisedOther text ->
     log = Some (unexpected_log path method text) /\
     forall method' text', (register_exception_handlers path correlation_id method' (RaisedOther text')).1 = r) /\
  (log <> None -> rs_status r = 500).
Proof.
  destruct exc as [e|status detail t headers|errors|text]; cbn [register_exception_handlers];
    (split; [first [apply problem_response_for|apply (problem_response_for _ _ _ _ _ _ [])|apply (problem_response_for _ _ _ _ _ _ [("errors"%string, _)])]|]); split_and!; try done.
  - intros e' k v [= <-]. apply update_given.
  - by intros n [= ->].
  - intros errors' [= <-]. split; [done|]. exists (map field_error errors). split; [done|].
    induction errors as [|e errors IH]; constructor; [by eexists|done].
  - by intros text' [= <-].
Qed.

(** Whether two values differ at most under sensitive keys, [levels] deep. *)
Fixpoint same_public (levels : nat) (v w : pyval) : Prop :=
  match levels with
  | O => v = w
  | S levels =>
      match v, w with
      | VDict d, VDict d' => Forall2 (fun e e' => e.1 = e'.1 /\ (_is_sensitive_key e.1 = true \/ same_public levels e.2 e'.2)) d d'
      | VList l, VList l' => Forall2 (same_public levels) l l'
      | _, _ => v = w
      end
  end.
Definition same_event (d d' : dict string pyval) : Prop :=
  Forall2 (fun e e' => e.1 = e'.1 /\ (_is_sensitive_key e.1 = true \/ same_public (S _MAX_REDACTION_DEPTH) e.2 e'.2)) d d'.

Lemma map_eq_Forall2 {A B} (f : A -> B) (l l' : list A) : map f l = map f l' <-> Forall2 (fun x y => f x = f y) l l'.
Proof.
  revert l'. induction l as [|x l IH]; intros [|y l']; cbn [map].
  - split; [constructor|done].
  - split; [done|intros Hf; inversion Hf].
  - split; [done|intros Hf; inversion Hf].
  - rewrite Forall2_cons, <- IH. split; [by intros [= -> ->]|by intros [-> ->]].
Qed.

Lemma Forall2_iff {A B} (P Q : A -> B -> Prop) l l' : (forall x y, P x y <-> Q x y) -> Forall2 P l l' <-> Forall2 Q l l'.
Proof. intros HPQ. split; intros Hf; (eapply Forall2_impl; [exact Hf|apply HPQ]). Qed.

Lemma redact_levels_same levels : forall v w, redact_levels levels v = redact_levels levels w <-> same_public levels v w.
Proof.
  induction levels as [|levels IH]; intros v w; [done|].
  destruct v as [| | | | |l|d], w as [| | | | |l'|d']; cbn [redact_levels same_public]; try (split; congruence).
  - rewrite <- (Forall2_iff _ _ l l' IH), <- map_eq_Forall2. split; [by intros [= ?]|by intros ->].
  - transitivity (Forall2 (fun e e' : string * pyval => (fun '(k, v) => (k, if _is_sensitive_key k then VStr _REDACTED else redact_levels levels v)) e =
      (fun '(k, v) => (k, if _is_sensitive_key k then VStr _REDACTED else redact_levels levels v)) e') d d').
    + rewrite <- map_eq_Forall2. split; [by intros [= ?]|by intros ->].
    + apply Forall2_iff. intros [k v] [k' v']. cbn [fst snd]. rewrite <- IH. split.
      * intros [= -> Hv]. split; [done|]. destruct (_is_sensitive_key k'); auto.
      * intros [-> Hv]. f_equal. destruct (_is_sensitive_key k'); [done|]. destruct Hv as [?|?]; done.
Qed.

Lemma same_public_redact levels : forall v, same_public levels v (redact_levels levels v).
Proof.
  induction levels as [|levels IH]; intros v; [done|]. destruct v as [| | | | |l|d]; cbn [redact_levels same_public]; try done.
  - induction l; constructor; auto.
  - induction d as [|[k v] d IHd]; constructor; [|done]. cbn [fst snd]. split; [done|]. destruct (_is_sensitive_key k); auto.
Qed.

(** The key the code spares is no sensitive one. *)
Lemma redact_entry_key k v : redact_entry (k, v) = (k, if _is_sensitive_key k then VStr _REDACTED else _redact_value v 0).
Proof. unfold redact_entry. destruct (String.eqb_spec k "event") as [->|_]; [reflexivity|done]. Qed.

Lemma redact_same d d' : redact_sensitive d = redact_sensitive d' <-> same_event d d'.
Proof.
  unfold redact_sensitive, same_event. etrans; [apply map_eq_Forall2|]. apply Forall2_iff. intros [k v] [k' v'].
  rewrite !redact_entry_key. cbn [fst snd]. rewrite <- redact_levels_same. unfold _redact_value. rewrite Nat.sub_0_r. split.
  - intros [= -> Hv]. split; [done|]. destruct (_is_sensitive_key k'); auto.
  - intros [-> Hv]. f_equal. destruct (_is_sensitive_key k'); [done|]. by destruct Hv as [?|?].
Qed.

Lemma redact_keeps_public d : same_event d (redact_sensitive d).
Proof.
  unfold same_event, redact_sensitive. induction d as [|[k v] d IH]; cbn [map]; constructor; [|done].
  rewrite redact_entry_key. cbn [fst snd]. split; [done|]. destruct (_is_sensitive_key k); [by left|right].
  unfold _redact_value. rewrite Nat.sub_0_r. apply same_public_redact.
Qed.

Lemma redact_idempotent d : redact_sensitive (redact_sensitive d) = redact_sensitive d.
Proof. symmetry. apply redact_same, redact_keeps_public. Qed.

(** C29: A log record shows nothing that is kept under a sensitive key, and all the rest.
    Two records are the same after redaction exactly when they differ only in values under
    keys that contain one of the markers in any case, down to the depth the code looks at;
    redaction changes nothing else, so redacting twice is redacting once.  Below that depth
    a value is compared, and shown, as it is. *)
Theorem redaction_exact (d d' : dict string pyval) :
  (redact_sensitive d = redact_sensitive d' <-> same_event d d') /\
  same_event d (redact_sensitive d) /\
  redact_sensitive (redact_sensitive d) = redact_sensitive d.
Proof. split; [apply redact_same|]. split; [apply redact_keeps_public|apply redact_idempotent]. Qed.

(** A password seven dictionaries deep is shown. *)
Fixpoint nest (n : nat) (v : pyval) : pyval := match n with O => v | S n => VDict [("a"%string, nest n v)] end.
Example deep_secret_shown :
  redact_sensitive [("event", VStr "x"); ("context", nest 7 (VDict [("password", VStr "hunter2")]))]%string =
    [("event", VStr "x"); ("context", nest 7 (VDict [("password", VStr "hunter2")]))]%string /\
  redact_sensitive [("context", nest 6 (VDict [("password", VStr "hunter2")]))]%string =
    [("context", nest 6 (VDict [("password", VStr _REDACTED)]))]%string.
Proof. split; reflexivity. Qed.

Definition counted (P : Served -> bool) (l : list Served) : nat := length (List.filter P l).
Definition answered_as (method path : string) (status : Z) (r : Served) : bool :=
  String.eqb (sv_method r) method && String.eqb (default _UNMATCHED (sv_route r)) path &&
  match sv_status r with Some s => s =? status | None => false end.

Lemma dget_or_dset_eqb {K V} `{EqDecision K} (k k' : K) (v v0 : V) (d : dict K V) :
  dget_or k v0 (dset k' v d) = if decide (k = k') then v else dget_or k v0 d.
Proof. unfold dget_or. rewrite dget_dset. by destruct (decide _). Qed.

Lemma counted_snoc P l r : counted P (l ++ [r]) = (counted P l + if P r then 1 else 0)%nat.
Proof. unfold counted. rewrite List.filter_app, length_app. cbn. by destruct (P r). Qed.

(** Making a child observes nothing. *)
Lemma labels_latency k k' m : dget_or k O (latency (labels k' m)) = dget_or k O (latency m).
Proof.
  unfold labels. destruct (dget k' (latency m)) as [n|] eqn:E; [done|]. cbn [latency]. rewrite dget_or_dset_eqb.
  destruct (decide (k = k')) as [->|]; [unfold dget_or; by rewrite E|done].
Qed.

Lemma dispatch_latency r m k : dget_or k O (latency (dispatch r m)) =
  (dget_or k O (latency m) + if decide (k = (sv_method r, _UNMATCHED)) then 1 else 0)%nat.
Proof.
  assert (Ho : dget_or k O (latency (observe (sv_method r, _UNMATCHED) m)) =
               (dget_or k O (latency m) + if decide (k = (sv_method r, _UNMATCHED)) then 1 else 0)%nat).
  { cbn [observe latency]. rewrite dget_or_dset_eqb. destruct (decide _) as [->|]; lia. }
  unfold dispatch. destruct (sv_status r) as [s|]; [|done]. cbn [inc latency]. destruct (String.eqb _ _); [done|]. by rewrite labels_latency.
Qed.

Lemma dispatch_requests r m method path status : dget_or (method, path, status) O (requests (dispatch r m)) =
  (dget_or (method, path, status) O (requests m) + if answered_as method path status r then 1 else 0)%nat.
Proof.
  assert (Hl : forall k m', requests (labels k m') = requests m') by (intros; unfold labels; by destruct (dget _ _)).
  unfold dispatch, answered_as. destruct (sv_status r) as [s|]; [|rewrite andb_false_r; cbn [observe requests]; lia].
  set (m1 := if String.eqb _ _ then _ else _).
  assert (Hm : requests m1 = requests m) by (unfold m1; destruct (String.eqb _ _); [done|by rewrite Hl]).
  cbn [inc requests]. rewrite dget_or_dset_eqb, Hm.
  destruct (String.eqb_spec (sv_method r) method) as [E1|E1], (String.eqb_spec (default _UNMATCHED (sv_route r)) path) as [E2|E2],
    (Z.eqb_spec s status) as [E3|E3]; cbn [andb]; destruct (decide _) as [E|E]; try congruence; try lia; injection E as -> -> ->; done || lia.
Qed.

(** Requests are counted where they were routed, but timed in one bucket.  After any
    requests the counter of a method, route and status is the number of requests answered
    so, an exception that left the application not being counted at all; every latency is
    observed under the unmatched path, and the latency of each route has no observation. *)
Theorem request_metrics (l : list Served) (method path : string) (status : Z) :
  let m := foldl (fun m r => dispatch r m) no_metrics l in
  dget_or (method, path, status) O (requests m) = counted (answered_as method path status) l /\
  dget_or (method, path) O (latency m) =
    if String.eqb path _UNMATCHED then counted (fun r => String.eqb (sv_method r) method) l else O.
Proof.
  cbv zeta. induction l as [|r l [IH1 IH2]] using rev_ind; [split; [done|by destruct (String.eqb _ _)]|].
  rewrite foldl_app. cbn [foldl]. rewrite dispatch_requests, dispatch_latency, IH1, IH2, !counted_snoc. split; [done|].
  destruct (String.eqb_spec path _UNMATCHED) as [->|Hne].
  - destruct (String.eqb_spec (sv_method r) method) as [->|E]; [by rewrite decide_True|rewrite decide_False by congruence; lia].
  - rewrite decide_False by congruence. lia.
Qed.
