(* ===== verification/System.v ===== *)
(** * Probes, the status matrix and the scrape ([app/api/v1/system.py], [app/schemas/common.py])

    A check of a component comes with what it found, the text of the exception or a value,
    and with the milliseconds it took. *)

From Stdlib Require Import ZArith Lia.
From stdpp Require Import base list strings pretty.
From S2P Require Import Prelude PyFloat Timeframes Signals Tables News PyFormat Heartbeat Staleness Ingest IngestWorker Admin Config Problems.

Open Scope Z_scope.

Definition APP_NAME : string := "forex-ai-api".
Definition APP_VERSION : string := "0.1.0".

(** ** Checks *)

Record ComponentStatus := { cs_ok : bool; cs_latency_ms : option float; cs_detail : option string }.

(** An exception's text, or a value. *)
Definition Found (A : Type) : Type := string + A.

(** [_check_db] and [_check_redis]. *)
Definition component_check (found : Found unit) (latency_ms : float) : ComponentStatus :=
  match found with
  | inr _ => {| cs_ok := true; cs_latency_ms := Some latency_ms; cs_detail := None |}
  | inl text => {| cs_ok := false; cs_latency_ms := Some latency_ms; cs_detail := Some text |}
  end.

(** What the checks of one request found. *)
Record Probes := {
  pr_db : Found unit; pr_db_ms : float;
  pr_redis : Found unit; pr_redis_ms : float;
  pr_heads : Found (list string);             (* the heads of the migration scripts *)
  pr_applied : Found (option string)          (* the revision in the database *)
}.

(** Reading a number: it is there, it raises a [ValueError] or a [TypeError], or it raises
    anything else. *)
Inductive Reading (A : Type) := Read (a : A) | Malformed | Escapes.
Arguments Read {A} a.
Arguments Malformed {A}.
Arguments Escapes {A}.
Definition reading_bind {A B} (r : Reading A) (k : A -> Reading B) : Reading B :=
  match r with Read a => k a | Malformed => Malformed | Escapes => Escapes end.

Section Checks.
Context `{Platform}.

Definition migrations_component (p : Probes) : ComponentStatus :=
  let status ok detail := {| cs_ok := ok; cs_latency_ms := None; cs_detail := detail |} in
  match pr_heads p with
  | inl text => status false (Some ("alembic config unavailable: " ++ text)%string)
  | inr heads =>
      match pr_applied p with
      | inl text => status false (Some ("alembic_version unreadable: " ++ text)%string)
      | inr current =>
          let ok := match current with Some v => bool_decide (v ∈ heads) | None => false end in
          status ok (if ok then None
                     else Some ("applied=" ++ repr_value (opt_text current) ++ " heads=" ++ list_text (map VStr (unique_sorted heads)))%string)
      end
  end.

Definition collect_status (p : Probes) (settings : Settings) : dict string ComponentStatus :=
  [("database", component_check (pr_db p) (pr_db_ms p)); ("redis", component_check (pr_redis p) (pr_redis_ms p));
   ("migrations", migrations_component p);
   ("safe_mode", {| cs_ok := String.eqb (trading_mode settings) SAFE_TRADING_MODE; cs_latency_ms := None;
                    cs_detail := Some (trading_mode settings) |})]%string.

Definition root (settings : Settings) : dict string string :=
  [("name", APP_NAME); ("version", APP_VERSION); ("mode", trading_mode settings); ("docs", "/docs")]%string.
Definition health_live (settings : Settings) : dict string string := [("status", "ok"); ("mode", trading_mode settings)]%string.

Definition failed_components (components : dict string ComponentStatus) : list string :=
  (List.filter (fun e => negb (cs_ok e.2)) components).*1.

Definition health_ready (p : Probes) (settings : Settings) : AppError + dict string string :=
  match failed_components (collect_status p settings) with
  | [] => inr [("status", "ok"); ("mode", trading_mode settings)]%string
  | failed => inl (new_app_error ServiceUnavailable (Some "Readiness checks failed"%string)
                     (Some [("failed_components", VList (map VStr failed))]%string) None)
  end.

(** ** Workers *)

Context (fromisoformat : string -> option Z) (int_of_text : string -> option Z).

Record WorkerHealthOut := {
  wo_status : string; wo_last_seen : option Z; wo_started_at : option Z; wo_age_seconds : option float; wo_ttl_seconds : Z
}.

(** The heartbeats Redis holds, or the text of its exception. *)
Definition _collect_workers (redis : Found Redis) (now ttl_seconds : Z) : Found (dict string WorkerHealthOut) :=
  match redis with
  | inl text => inl text
  | inr r =>
      inr (foldl (fun results h =>
        dset (wh_role h) {| wo_status := wh_status h; wo_last_seen := wh_last_seen h; wo_started_at := wh_started_at h;
                            wo_age_seconds := total_seconds <$> wh_age h; wo_ttl_seconds := wh_ttl h |} results)
        [] (read_worker_health fromisoformat int_of_text WORKER_ROLES now ttl_seconds r))
  end.

Record SystemStatusOut := {
  so_name : string; so_version : string; so_app_env : string; so_trading_mode : string; so_safe_mode : bool; so_time_utc : Z;
  so_components : dict string ComponentStatus; so_workers : dict string WorkerHealthOut
}.

Definition system_status (p : Probes) (redis : Found Redis) (now : Z) (settings : Settings) : Found SystemStatusOut :=
  let components := collect_status p settings in
  match _collect_workers redis now (heartbeat_ttl_seconds settings) with
  | inl text => inl text
  | inr workers =>
      inr {| so_name := APP_NAME; so_version := APP_VERSION; so_app_env := app_env settings; so_trading_mode := trading_mode settings;
             so_safe_mode := match dget "safe_mode"%string components with Some c => cs_ok c | None => false end;
             so_time_utc := now; so_components := components; so_workers := workers |}
  end.

(** ** The scrape *)

Record Gauges := {
  WORKER_UP : dict string Z;
  WORKER_HEARTBEAT_AGE_SECONDS : dict string float;
  STALENESS_BREACH_COUNT : float;
  STALENESS_MAX_AGE_SECONDS : float
}.
Definition set_staleness (breaches age : float) (g : Gauges) : Gauges :=
  {| WORKER_UP := WORKER_UP g; WORKER_HEARTBEAT_AGE_SECONDS := WORKER_HEARTBEAT_AGE_SECONDS g;
     STALENESS_BREACH_COUNT := breaches; STALENESS_MAX_AGE_SECONDS := age |}.

Definition set_worker_gauges (g : Gauges) (h : WorkerHealth) : Gauges :=
  {| WORKER_UP := dset (wh_role h) (if String.eqb (wh_status h) "up" then 1 else 0) (WORKER_UP g);
     WORKER_HEARTBEAT_AGE_SECONDS := match wh_age h with
                                     | Some a => dset (wh_role h) (total_seconds a) (WORKER_HEARTBEAT_AGE_SECONDS g)
                                     | None => WORKER_HEARTBEAT_AGE_SECONDS g
                                     end;
     STALENESS_BREACH_COUNT := STALENESS_BREACH_COUNT g; STALENESS_MAX_AGE_SECONDS := STALENESS_MAX_AGE_SECONDS g |}.

(** A number of any size as a float. *)
Definition float_of_int (n : Z) : Reading float :=
  match of_Z n with S754_infinity _ => Escapes | x => Read x end.
Definition reading_int (v : pyval) : Reading Z :=
  match v with
  | VInt n => Read n
  | VBool b => Read (if b then 1 else 0)
  | VFloat x => match int_of_float x with Ok n => Read n | Err _ => if is_nan x then Malformed else Escapes end
  | VStr s => match int_of_text s with Some n => Read n | None => Malformed end
  | VNone | VList _ | VDict _ => Malformed
  end.
Definition reading_float (v : pyval) : Reading float :=
  match v with
  | VInt n => float_of_int n
  | VBool b => Read (if b then of_Z 1 else f0)
  | VFloat x => Read x
  | VStr s => match parse_float s with Some x => Read x | None => Malformed end
  | VNone | VList _ | VDict _ => Malformed
  end.
(** [latest.get(key, 0)]. *)
Definition reading_get (key : string) (latest : pyval) : Reading pyval :=
  match latest with VDict d => Read (dget_or key (VInt 0) d) | _ => Escapes end.

Context (json_loads : string -> option pyval).

(** The first gauge is set before the second value is read. *)
Definition staleness_gauges (raw : string) (g : Gauges) : Res unit * Gauges :=
  let malformed := (Ok tt, set_staleness f0 f0 g) in
  match json_loads raw with
  | None => malformed
  | Some latest =>
      match reading_bind (reading_bind (reading_get "breached" latest) reading_int) float_of_int with
      | Malformed => malformed
      | Escapes => (Err OtherError, g)
      | Read breaches =>
          match reading_bind (reading_get "max_age_seconds" latest) reading_float with
          | Malformed => malformed
          | Escapes => (Err OtherError, set_staleness breaches (STALENESS_MAX_AGE_SECONDS g) g)
          | Read age => (Ok tt, set_staleness breaches age g)
          end
      end
  end.

(** [raw] is the staleness picture, if Redis has one and answers. *)
Definition _refresh_runtime_gauges (redis : Found Redis) (raw : option string) (now ttl_seconds : Z) (g : Gauges) : Res unit * Gauges :=
  let g := match redis with
           | inl _ => g
           | inr r => foldl set_worker_gauges g (read_worker_health fromisoformat int_of_text WORKER_ROLES now ttl_seconds r)
           end in
  match raw with
  | None | Some EmptyString => (Ok tt, g)
  | Some raw => staleness_gauges raw g
  end.
End Checks.

(** ** Properties *)

Section Properties.
Context `{Platform}.
Context (fromisoformat : string -> option Z) (int_of_text : string -> option Z) (json_loads : string -> option pyval).

Definition migrated (p : Probes) : Prop := exists heads v, pr_heads p = inr heads /\ pr_applied p = inr (Some v) /\ v ∈ heads.

Lemma migrations_ok p : cs_ok (migrations_component p) = true <-> migrated p.
Proof.
  unfold migrations_component, migrated. destruct (pr_heads p) as [t|heads]; [split; [done|naive_solver]|].
  destruct (pr_applied p) as [t|[v|]]; [split; [done|naive_solver]| |split; [done|naive_solver]]. cbn [cs_ok].
  rewrite bool_decide_eq_true. naive_solver.
Qed.

Lemma check_ok f ms : cs_ok (component_check f ms) = true <-> f = inr tt.
Proof. destruct f as [t|[]]; cbn; naive_solver. Qed.

(** What has to hold for each component, in the order they are reported. *)
Definition requirements (p : Probes) (s : Settings) : list (string * Prop) :=
  [("database", pr_db p = inr tt); ("redis", pr_redis p = inr tt); ("migrations", migrated p);
   ("safe_mode", trading_mode s = SAFE_TRADING_MODE)]%string.

Lemma collect_requirements p s :
  Forall2 (fun c r => c.1 = r.1 /\ (cs_ok c.2 = true <-> r.2)) (collect_status p s) (requirements p s).
Proof.
  unfold collect_status, requirements. repeat constructor; cbn [fst snd cs_ok]; try apply check_ok; try apply migrations_ok.
  - by intros ?%String.eqb_eq.
  - by intros ?%String.eqb_eq.
Qed.

Lemma failed_spec components reqs : Forall2 (fun c r => c.1 = r.1 /\ (cs_ok c.2 = true <-> r.2)) components reqs ->
  (forall name, name ∈ failed_components components <-> exists P, (name, P) ∈ reqs /\ ~ P).
Proof.
  induction 1 as [|[n c] [n' P] l l' [Hn Hc] _ IH]; intros name; [split; [by intros ?%elem_of_nil|intros (? & ?%elem_of_nil & _); done]|].
  cbn [fst snd] in *. subst n'. unfold failed_components in *. cbn [List.filter snd].
  assert (Hcons : (exists P', (name, P') ∈ (n, P) :: l' /\ ~ P') <-> (name = n /\ ~ P) \/ exists P', (name, P') ∈ l' /\ ~ P').
  { split; [intros (P' & [[= -> ->]|Hin]%elem_of_cons & HP); [left; by split|right; by exists P']|].
    intros [[-> HP]|(P' & Hin & HP)]; [exists P|exists P']; (split; [rewrite elem_of_cons; auto|done]). }
  rewrite Hcons. destruct (cs_ok c) eqn:Ec; cbn [negb].
  - rewrite IH. naive_solver.
  - rewrite fmap_cons, elem_of_cons. cbn [fst]. rewrite IH. split; [|naive_solver]. intros [->|?]; [left|by right].
    split; [done|]. intros HP%Hc. congruence.
Qed.

Lemma none_failed components reqs : Forall2 (fun c r => c.1 = r.1 /\ (cs_ok c.2 = true <-> r.2)) components reqs ->
  failed_components components = [] <-> Forall (fun r : string * Prop => r.2) reqs.
Proof.
  unfold failed_components. induction 1 as [|[n c] [n' P] l l' [_ Hc] _ IH]; [by split|]. cbn [fst snd List.filter] in *. rewrite Forall_cons. cbn [snd].
  destruct (cs_ok c) eqn:E; cbn [negb]; [rewrite IH; naive_solver|]. rewrite fmap_cons. split; [done|]. intros [HP%Hc _]. congruence.
Qed.

(** The readiness probe is the truth.  It answers ok exactly when the database and
    Redis answer, the applied revision is a head of the migrations and trading is in safe
    mode; otherwise it is a 503 that names exactly the components whose requirement fails,
    and with settings that load the mode is never among them. *)
Theorem readiness_truthful (p : Probes) (s : Settings) :
  ((exists answer, health_ready p s = inr answer) <-> Forall (fun r => r.2) (requirements p s)) /\
  (forall e, health_ready p s = inl e -> status_code (ae_class e) = 503 /\
     exists failed, ae_extras e = [("failed_components", VList (map VStr failed))]%string /\ failed <> [] /\
       forall name, name ∈ failed <-> exists P, (name, P) ∈ requirements p s /\ ~ P) /\
  (forall raw, load_settings raw = Ok s -> "safe_mode"%string ∉ failed_components (collect_status p s)).
Proof.
  pose proof (collect_requirements p s) as Hc. pose proof (failed_spec _ _ Hc) as Hf. apply none_failed in Hc. unfold health_ready.
  set (failed := failed_components (collect_status p s)) in *. split_and!.
  - rewrite <- Hc. destruct failed as [|x l]; [by split; [|eexists]|]. split; [by intros [? ?]|done].
  - intros e He. destruct failed as [|x l] eqn:E; [done|]. injection He as <-. split; [done|]. exists (x :: l). split; [done|]. by split.
  - intros raw Hl%load_settings_ok. pose proof (ld_mode _ _ Hl) as Hm. apply one_of_ok in Hm as [Hm%list_elem_of_singleton _].
    intros (P & Hin & HP)%Hf. unfold requirements in Hin.
    repeat (apply elem_of_cons in Hin as [[=]|Hin]); [by subst|by apply elem_of_nil in Hin].
Qed.

(** ** The scrape *)

Definition up_gauge (h : WorkerHealth) : Z := if String.eqb (wh_status h) "up" then 1 else 0.

Lemma worker_gauges hs : forall g, NoDup (map wh_role hs) ->
  let g' := foldl set_worker_gauges g hs in
  (forall h, h ∈ hs -> dget (wh_role h) (WORKER_UP g') = Some (up_gauge h) /\
     dget (wh_role h) (WORKER_HEARTBEAT_AGE_SECONDS g') =
       match wh_age h with Some a => Some (total_seconds a) | None => dget (wh_role h) (WORKER_HEARTBEAT_AGE_SECONDS g) end) /\
  (forall role, role ∉ map wh_role hs -> dget role (WORKER_UP g') = dget role (WORKER_UP g) /\
     dget role (WORKER_HEARTBEAT_AGE_SECONDS g') = dget role (WORKER_HEARTBEAT_AGE_SECONDS g)) /\
  STALENESS_BREACH_COUNT g' = STALENESS_BREACH_COUNT g /\ STALENESS_MAX_AGE_SECONDS g' = STALENESS_MAX_AGE_SECONDS g.
Proof.
  induction hs as [|h hs IH]; intros g Hn; cbn [map foldl] in *; [split; [by intros h ?%elem_of_nil|done]|].
  apply NoDup_cons in Hn as [Hh Hn]. destruct (IH (set_worker_gauges g h) Hn) as (H1 & H2 & H3 & H4). split_and!; try done.
  - intros h0 [->|Hin]%elem_of_cons.
    + destruct (H2 _ Hh) as [-> ->]. cbn [set_worker_gauges WORKER_UP WORKER_HEARTBEAT_AGE_SECONDS]. rewrite dget_dset_eq. split; [done|].
      destruct (wh_age h); [by rewrite dget_dset_eq|done].
    + destruct (H1 _ Hin) as [-> ->]. split; [done|]. destruct (wh_age h0); [done|]. cbn [set_worker_gauges WORKER_HEARTBEAT_AGE_SECONDS].
      destruct (wh_age h); [|done]. apply dget_dset_ne. intros E. apply Hh. rewrite <- E. by apply list_elem_of_fmap_2.
  - intros role Hr. rewrite not_elem_of_cons in Hr. destruct Hr as [Hr1 Hr2]. destruct (H2 _ Hr2) as [-> ->].
    cbn [set_worker_gauges WORKER_UP WORKER_HEARTBEAT_AGE_SECONDS]. rewrite dget_dset_ne by done. split; [done|].
    destruct (wh_age h); [by rewrite dget_dset_ne|done].
Qed.

Lemma staleness_gauges_workers raw g : let '(_, g') := staleness_gauges int_of_text json_loads raw g in
  WORKER_UP g' = WORKER_UP g /\ WORKER_HEARTBEAT_AGE_SECONDS g' = WORKER_HEARTBEAT_AGE_SECONDS g.
Proof. unfold staleness_gauges. destruct (json_loads raw); [|done]. destruct (reading_bind _ _); [|done..]. by destruct (reading_bind _ _). Qed.

Notation refresh := (_refresh_runtime_gauges fromisoformat int_of_text json_loads).

(** The oldest age among the findings, or 0. *)
Definition oldest (findings : list StalenessFinding) : Z :=
  match omap age_seconds findings with [] => 0 | a :: l => foldl Z.max a l end.
Definition breaches (findings : list StalenessFinding) : Z := Z.of_nat (length (List.filter breached findings)).

Lemma payload_breached findings :
  reading_bind (reading_bind (reading_get "breached" (VDict (staleness_payload findings))) (reading_int int_of_text)) float_of_int =
  float_of_int (breaches findings).
Proof. reflexivity. Qed.
Lemma payload_oldest findings :
  reading_bind (reading_get "max_age_seconds" (VDict (staleness_payload findings))) reading_float = float_of_int (oldest findings).
Proof. reflexivity. Qed.

(** A scrape shows what the workers left in Redis.  For every role the gauge is 1
    exactly when the role is up and the age is the heartbeat's; a role without a readable
    heartbeat keeps the age last shown, and without Redis every worker gauge keeps its
    value.  The staleness picture the ingest worker writes is shown as it was counted; one
    that is no JSON counts as no breach; one that is no object fails the scrape. *)
Theorem scrape_shows_workers (redis : Found Redis) (raw : option string) (now ttl_seconds : Z) (g : Gauges) :
  let '(r, g') := refresh redis raw now ttl_seconds g in
  (forall role, role ∈ WORKER_ROLES ->
     match redis with
     | inl _ => dget role (WORKER_UP g') = dget role (WORKER_UP g) /\
                dget role (WORKER_HEARTBEAT_AGE_SECONDS g') = dget role (WORKER_HEARTBEAT_AGE_SECONDS g)
     | inr db => let h := role_health fromisoformat int_of_text db now ttl_seconds role in
                 dget role (WORKER_UP g') = Some (up_gauge h) /\
                 dget role (WORKER_HEARTBEAT_AGE_SECONDS g') =
                   match wh_age h with Some a => Some (total_seconds a) | None => dget role (WORKER_HEARTBEAT_AGE_SECONDS g) end
     end) /\
  (forall text findings, raw = Some text -> text <> ""%string -> json_loads text = Some (VDict (staleness_payload findings)) ->
     forall n a, float_of_int (breaches findings) = Read n -> float_of_int (oldest findings) = Read a ->
     r = Ok tt /\ STALENESS_BREACH_COUNT g' = n /\ STALENESS_MAX_AGE_SECONDS g' = a) /\
  (forall text, raw = Some text -> text <> ""%string -> json_loads text = None ->
     r = Ok tt /\ STALENESS_BREACH_COUNT g' = f0 /\ STALENESS_MAX_AGE_SECONDS g' = f0) /\
  (forall text v, raw = Some text -> text <> ""%string -> json_loads text = Some v -> (forall d, v <> VDict d) -> is_ok r = false) /\
  (raw = None -> r = Ok tt /\ STALENESS_BREACH_COUNT g' = STALENESS_BREACH_COUNT g /\
     STALENESS_MAX_AGE_SECONDS g' = STALENESS_MAX_AGE_SECONDS g).
Proof.
  unfold _refresh_runtime_gauges. set (g1 := match redis with inl _ => g | inr _ => _ end).
  assert (Hw : forall role, role ∈ WORKER_ROLES -> match redis with
     | inl _ => dget role (WORKER_UP g1) = dget role (WORKER_UP g) /\
                dget role (WORKER_HEARTBEAT_AGE_SECONDS g1) = dget role (WORKER_HEARTBEAT_AGE_SECONDS g)
     | inr db => let h := role_health fromisoformat int_of_text db now ttl_seconds role in
                 dget role (WORKER_UP g1) = Some (up_gauge h) /\
                 dget role (WORKER_HEARTBEAT_AGE_SECONDS g1) =
                   match wh_age h with Some a => Some (total_seconds a) | None => dget role (WORKER_HEARTBEAT_AGE_SECONDS g) end
     end).
  { intros role Hr. subst g1. destruct redis as [t|db]; [done|]. cbv zeta.
    apply (proj1 (worker_gauges (read_worker_health fromisoformat int_of_text WORKER_ROLES now ttl_seconds db) g ltac:(by apply (bool_decide_unpack _)))
      (role_health fromisoformat int_of_text db now ttl_seconds role)). by apply list_elem_of_fmap_2. }
  assert (Hs : STALENESS_BREACH_COUNT g1 = STALENESS_BREACH_COUNT g /\ STALENESS_MAX_AGE_SECONDS g1 = STALENESS_MAX_AGE_SECONDS g).
  { subst g1. destruct redis as [t|db]; [done|].
    apply (worker_gauges (read_worker_health fromisoformat int_of_text WORKER_ROLES now ttl_seconds db) g ltac:(by apply (bool_decide_unpack _))). }
  assert (Hraw : forall text, text <> ""%string -> match Some text with None | Some EmptyString => (Ok tt, g1) | Some raw => staleness_gauges int_of_text json_loads raw g1 end =
    staleness_gauges int_of_text json_loads text g1) by (by intros [|c text]).
  clearbody g1. destruct (match raw with None | Some EmptyString => (Ok tt, g1) | Some raw => _ end) as [r g'] eqn:Er.
  assert (Hg : WORKER_UP g' = WORKER_UP g1 /\ WORKER_HEARTBEAT_AGE_SECONDS g' = WORKER_HEARTBEAT_AGE_SECONDS g1).
  { destruct raw as [[|c text]|]; [by injection Er as <- <-| |by injection Er as <- <-].
    pose proof (staleness_gauges_workers (String c text) g1) as Hg. by rewrite Er in Hg. }
  destruct Hg as [-> ->]. split; [exact Hw|]. split_and!.
  - intros text findings -> Hne Hj n a Hn Ha. rewrite Hraw in Er by done. unfold staleness_gauges in Er. rewrite Hj in Er.
    rewrite payload_breached, payload_oldest, Hn in Er.
    rewrite Ha in Er. by injection Er as <- <-.
  - intros text -> Hne Hj. rewrite Hraw in Er by done. unfold staleness_gauges in Er. rewrite Hj in Er. by injection Er as <- <-.
  - intros text v -> Hne Hj Hv. rewrite Hraw in Er by done. unfold staleness_gauges in Er. rewrite Hj in Er.
    destruct v as [| | | | | |d]; [by injection Er as <- <-..|]. by destruct (Hv d).
  - intros ->. by injection Er as <- <-.
Qed.

(** The matrix is documented to be answered always; without Redis it is not. *)
Lemma status_needs_redis (p : Probes) (text : string) (now : Z) (s : Settings) :
  system_status fromisoformat int_of_text p (inl text) now s = inl text.
Proof. done. Qed.

End Properties.
