(* ===== verification/ReadApi.v ===== *)
(** * The read endpoints ([app/api/v1/market.py], [portfolio.py], [decisions.py], [signals.py],
    [content.py], [backtests.py] and the list of [alerts.py], with their schemas)

    A query is one value of [ReadCall]; the constraints on its parameters are [query_ok],
    what they are converted to is the endpoint's own code.  Times of a query are compared as
    instants, a naive one taken for UTC.  A schema that copies a record field by field is
    that record. *)

From Stdlib Require Import ZArith Lia Sorted.
From stdpp Require Import base list strings sorting.
From S2P Require Import Prelude PyFloat Timeframes Signals Fusion Risk Decision Tables Candles SignalStore Decide Costs Positions Paper Backtest Report Bus Ingest Accounts Alerts Content ContentSources Portfolio BacktestRun Admin Oanda.

Open Scope Z_scope.

(** ** Market data *)

Record CandleOut := {
  co_symbol : string; co_timeframe : string; co_ts : Z; co_open : Decimal; co_high : Decimal; co_low : Decimal;
  co_close : Decimal; co_volume : Z
}.
Definition _candle_out (symbol : string) (row : CandleRow) : CandleOut :=
  {| co_symbol := symbol; co_timeframe := cd_timeframe row; co_ts := cd_ts row; co_open := cd_open row; co_high := cd_high row;
     co_low := cd_low row; co_close := cd_close row; co_volume := cd_volume row |}.

Record LatestPriceOut := { lp_symbol : string; lp_price : Decimal; lp_bucket_start : option datetime; lp_synthetic : bool }.

(** [Decimal(str(price))]; [None] is one of the exceptions that skip the entry. *)
Definition decimal_of_str (price : pyval) : option Decimal :=
  match price with
  | VStr s => decimal_of_text s
  | VInt n => Some (Dec n 0)
  | VFloat x => Some (dec_of_float x)
  | VNone | VBool _ | VList _ | VDict _ => None
  end.

(** The schema's decimals are finite. *)
Definition new_latest_price (symbol : string) (price : Decimal) (bucket : option datetime) (synthetic : bool) : Res LatestPriceOut :=
  match price with
  | Dec _ _ => Ok {| lp_symbol := symbol; lp_price := price; lp_bucket_start := bucket; lp_synthetic := synthetic |}
  | DSpecial _ => Err ValueError
  end.

(** The server refuses a text with a NUL character, and no stored text has one. *)
Definition _resolve_instrument (symbol : string) (db : DB) : Res Instrument :=
  match find_instrument symbol db with
  | Some i => Ok i
  | None => if has_nul symbol then Err OtherError else Err NotFoundError
  end.

Definition latest_price_key (symbol : string) : string := ("prices.latest:" ++ symbol)%string.

Section Market.
Context (json_loads : string -> option pyval) (fromisoformat : string -> option datetime).

Definition _parse_price (symbol raw : string) : Res (option LatestPriceOut) :=
  match json_loads raw with
  | Some (VDict data) =>
      match dget_or "price"%string VNone data with
      | VNone => Ok None
      | price =>
          match decimal_of_str price with
          | None => Ok None
          | Some parsed =>
              let bucket := match dget "bucket_start"%string data with Some (VStr s) => fromisoformat s | _ => None end in
              out <-- new_latest_price symbol parsed bucket (truthy (dget_or "synthetic"%string (VBool false) data)) ;;
              Ok (Some out)
          end
      end
  | _ => Ok None
  end.
End Market.

(** ** Decisions and signals *)

Record DecisionOut := {
  do_id : Z; do_run_id : string; do_symbol : string; do_timeframe : string; do_bucket_ts : Z; do_fused_direction : Direction;
  do_confidence : float; do_agreement : float; do_status : DecisionStatus; do_veto : option (string * Detail);
  do_inputs_hash : string; do_weights : dict string float; do_code_versions : dict string string; do_decision_at : Z;
  do_valid_until : option Z
}.
Definition _decision_out (row : DecisionRow) : DecisionOut :=
  {| do_id := dr_id row; do_run_id := dr_run_id row; do_symbol := dr_symbol row; do_timeframe := dr_timeframe row;
     do_bucket_ts := dr_bucket_ts row; do_fused_direction := dr_fused_direction row; do_confidence := dec_to_float (dr_confidence row);
     do_agreement := dec_to_float (dr_agreement row); do_status := dr_status row; do_veto := dr_veto row;
     do_inputs_hash := dr_inputs_hash row; do_weights := dr_weights row; do_code_versions := dr_code_versions row;
     do_decision_at := dr_decision_at row; do_valid_until := dr_valid_until row |}.

Record RiskEvaluationOut := {
  ro_id : Z; ro_symbol : string; ro_timeframe : string; ro_bucket_ts : Z; ro_units : option float; ro_price : option float;
  ro_atr : option float; ro_stop_loss : option float; ro_take_profit : option float; ro_rr_ratio : option float;
  ro_risk_pct : option float; ro_exposure_ok : bool; ro_correlation_ok : bool; ro_daily_loss_ok : bool; ro_drawdown_ok : bool;
  ro_passed : bool; ro_reasons : list GateReason; ro_evaluated_at : Z
}.
Definition _risk_out (row : RiskEvaluationRow) : RiskEvaluationOut :=
  let num (x : option Decimal) := dec_to_float <$> x in
  {| ro_id := re_id row; ro_symbol := re_symbol row; ro_timeframe := re_timeframe row; ro_bucket_ts := re_bucket_ts row;
     ro_units := num (re_units row); ro_price := num (re_price row); ro_atr := num (re_atr row);
     ro_stop_loss := num (re_stop_loss row); ro_take_profit := num (re_take_profit row); ro_rr_ratio := num (re_rr_ratio row);
     ro_risk_pct := num (re_risk_pct row); ro_exposure_ok := re_exposure_ok row; ro_correlation_ok := re_correlation_ok row;
     ro_daily_loss_ok := re_daily_loss_ok row; ro_drawdown_ok := re_drawdown_ok row; ro_passed := re_passed row;
     ro_reasons := re_reasons row; ro_evaluated_at := re_evaluated_at row |}.

Definition SignalOut : Type := AgentSignal.
Definition _to_out (row : AgentSignalRow) : Res SignalOut := row_to_signal row.

(** ** The ledger *)

(** The side of a position or an order is one of two. *)
Definition side_ok (d : Direction) : bool := match d with FLAT => false | _ => true end.

Definition PortfolioPositionOut : Type := PortfolioPosition.
Definition PortfolioOrderOut : Type := PortfolioOrder.
Definition PortfolioEquityPointOut : Type := PortfolioEquityPoint.
Definition PortfolioSummaryOut : Type := PortfolioSummary.
Definition _position_out (row : PortfolioPosition) : Res PortfolioPositionOut :=
  if side_ok (pp_side row) && bool_decide (pp_status row ∈ ["OPEN"; "CLOSED"]%string) then Ok row else Err ValueError.
Definition _order_out (row : PortfolioOrder) : Res PortfolioOrderOut :=
  if side_ok (po_side row) && bool_decide (po_status row ∈ ["PENDING"; "FILLED"; "CANCELLED"; "REJECTED"]%string) then Ok row
  else Err ValueError.
Definition _equity_out (point : PortfolioEquityPoint) : PortfolioEquityPointOut := point.
Definition _summary_out (summary : PortfolioSummary) : PortfolioSummaryOut := summary.

Definition POSITION_LIMIT : Z := 100.
Definition ORDER_LIMIT : Z := 50.
Definition EQUITY_LIMIT : Z := 500.
Definition MAX_LIMIT : Z := 1000.

(** ** Backtests *)

Record BacktestRunOut := {
  bo_id : Z; bo_status : BacktestStatus; bo_metrics : option RunMetrics; bo_error : option string; bo_seed : Z;
  bo_started_at : Z; bo_finished_at : option Z
}.
Definition _run_out (row : BacktestRunRow) : BacktestRunOut :=
  {| bo_id := br_id row; bo_status := br_status row; bo_metrics := br_metrics row; bo_error := br_error row; bo_seed := br_seed row;
     bo_started_at := br_started_at row; bo_finished_at := br_finished_at row |}.

Record BacktestTradeOut := {
  to_id : Z; to_symbol : string; to_timeframe : string; to_side : Direction; to_units : float; to_entry_ts : Z; to_entry_price : float;
  to_exit_ts : Z; to_exit_price : float; to_gross_pnl : float; to_costs : float; to_net_pnl : float; to_exit_reason : string
}.
Definition _trade (row : BacktestTradeRow) : Res BacktestTradeOut :=
  if side_ok (bt_side row) then
    Ok {| to_id := bt_id row; to_symbol := bt_symbol row; to_timeframe := bt_timeframe row; to_side := bt_side row;
          to_units := dec_to_float (bt_units row); to_entry_ts := bt_entry_ts row; to_entry_price := dec_to_float (bt_entry_price row);
          to_exit_ts := bt_exit_ts row; to_exit_price := dec_to_float (bt_exit_price row);
          to_gross_pnl := dec_to_float (bt_gross_pnl row); to_costs := dec_to_float (bt_costs row);
          to_net_pnl := dec_to_float (bt_net_pnl row); to_exit_reason := bt_exit_reason row |}
  else Err ValueError.

Record BacktestEquityOut := { qo_id : Z; qo_ts : Z; qo_equity : float; qo_drawdown_pct : float }.
Definition equity_row_out (r : BacktestEquityRow) : BacktestEquityOut :=
  {| qo_id := be_id r; qo_ts := be_ts r; qo_equity := dec_to_float (be_equity r); qo_drawdown_pct := dec_to_float (be_drawdown_pct r) |}.

(** ** Content and alerts *)

Definition NewsOut : Type := NewsItem.
Definition EconomicEventOut : Type := EconomicEvent.
Definition AlertOut : Type := AlertRow.
Record AlertListOut := { ao_items : list AlertOut; ao_total : Z; ao_limit : Z; ao_offset : Z }.

(** ** Queries *)

Inductive ReadCall :=
| ListCandles (symbol timeframe : string) (start stop : option datetime) (limit : Z)
| LatestPrices (symbol : option string)
| GetSummary
| GetPositions (status : option string) (limit : Z)
| GetOrders (status : option string) (limit : Z)
| GetEquity (limit : Z)
| LatestDecision (symbol timeframe : string) (fresh_only : bool)
| DecisionHistory (symbol timeframe : string) (limit : Z) (order : string)
| RiskEvaluations (symbol timeframe : string) (limit : Z)
| LatestSignals (symbol timeframe : string) (fresh_only : bool)
| SignalHistory (symbol timeframe : string) (agent_id : option string) (limit : Z) (order : string)
| ListNews (symbol : option string) (since : option datetime) (limit : Z)
| ListEvents (currency : option string) (since until : option datetime) (limit : Z)
| ListBacktests (limit : Z)
| GetBacktest (run_id : Z)
| BacktestTrades (run_id : Z)
| BacktestEquity (run_id : Z)
| ReadAlerts (source event_type : option string) (acknowledged : option bool) (limit offset : Z).

Definition in_limits (hi limit : Z) : bool := (1 <=? limit) && (limit <=? hi).
Definition symbol_query_ok (symbol : string) : bool := len_between 6 12 symbol.
Definition timeframe_query_ok (timeframe : string) : bool := bool_decide (timeframe ∈ ["M5"; "M15"; "H1"; "H4"; "D1"]%string).
Definition pair_ok (symbol timeframe : string) : bool := symbol_query_ok symbol && timeframe_query_ok timeframe.
Definition optional {A} (f : A -> bool) (o : option A) : bool := match o with Some x => f x | None => true end.
Definition order_ok (order : string) : bool := bool_decide (order ∈ ["asc"; "desc"]%string).

(** An integer of a query has at most 4300 digits. *)
Definition MAX_DIGITS : Z := 4300.
Definition int_query_ok (n : Z) : bool := Z.abs n <? 10 ^ MAX_DIGITS.

(** What the signatures of the endpoints accept; anything else is answered 422.  A filter of
    the alerts is any text, and a time is any time. *)
Definition query_ok (call : ReadCall) : bool :=
  match call with
  | ListCandles symbol timeframe _ _ limit => pair_ok symbol timeframe && in_limits 1000 limit
  | LatestPrices symbol => optional symbol_query_ok symbol
  | GetPositions status limit => optional (fun s => bool_decide (s ∈ ["OPEN"; "CLOSED"]%string)) status && in_limits MAX_LIMIT limit
  | GetOrders status limit =>
      optional (fun s => bool_decide (s ∈ ["PENDING"; "FILLED"; "CANCELLED"; "REJECTED"]%string)) status && in_limits MAX_LIMIT limit
  | GetEquity limit => in_limits MAX_LIMIT limit
  | LatestDecision symbol timeframe _ | LatestSignals symbol timeframe _ => pair_ok symbol timeframe
  | DecisionHistory symbol timeframe limit order | SignalHistory symbol timeframe _ limit order =>
      pair_ok symbol timeframe && in_limits 200 limit && order_ok order
  | RiskEvaluations symbol timeframe limit => pair_ok symbol timeframe && in_limits 200 limit
  | ListNews symbol _ limit => optional symbol_query_ok symbol && in_limits 200 limit
  | ListEvents currency _ _ limit => optional (len_between 3 3) currency && in_limits 200 limit
  | ListBacktests limit => in_limits 100 limit
  | ReadAlerts _ _ _ limit offset => int_query_ok limit && int_query_ok offset
  | GetSummary | GetBacktest _ | BacktestTrades _ | BacktestEquity _ => true
  end.

Inductive ReadAnswer :=
| Candles (l : list CandleOut) | Prices (l : list LatestPriceOut)
| Summary (s : PortfolioSummaryOut) | Positions (l : list PortfolioPositionOut) | Orders (l : list PortfolioOrderOut)
| EquityHistory (l : list PortfolioEquityPointOut)
| Decision (d : option DecisionOut) | Decisions (l : list DecisionOut) | Evaluations (l : list RiskEvaluationOut)
| Signals (l : list SignalOut)
| News (l : list NewsOut) | Events (l : list EconomicEventOut)
| Backtest (r : BacktestRunOut) | Backtests (l : list BacktestRunOut) | Trades (l : list BacktestTradeOut)
| Equity (l : list BacktestEquityOut)
| AlertPage (p : AlertListOut).

(** Everything that is read.  The price cache answers [None] when Redis fails. *)
Record Stores := {
  st_db : DB;
  st_content : ContentDB;
  st_backtests : BacktestDB;
  st_alerts : list AlertRow;
  st_prices : string -> option (option string);
  st_accounts : Accounts
}.

(** ** What the database takes of a query

    The driver sends a time in UTC, where a time near the ends of the calendar has no
    representation, and an offset in 64 bits; the server refuses a NUL character. *)

Definition FIRST_INSTANT : Z := seconds_td (-62135596800).
Definition LAST_INSTANT : Z := seconds_td 253402300800 - 1.
Definition encodable (t : datetime) : bool := (FIRST_INSTANT <=? instant t) && (instant t <=? LAST_INSTANT).
Definition in_bigint (n : Z) : bool := (- 2 ^ 63 <=? n) && (n <? 2 ^ 63).

Definition params_refused (texts : list string) (times : list (option datetime)) : bool :=
  existsb has_nul texts || negb (forallb (optional encodable) times).
Definition send_params (texts : list string) (times : list (option datetime)) : Res unit :=
  if params_refused texts times then Err OtherError else Ok tt.

(** A filter that is absent or empty is not sent. *)
Definition filter_text (o : option string) : list string := match o with Some (String _ _ as s) => [s] | _ => [] end.

Section Endpoints.
Context `{Platform}.
Context (json_loads : string -> option pyval) (fromisoformat : string -> option datetime) (market_symbols : list string).

Definition instants (o : option datetime) : option Z := instant <$> o.

Definition list_candles (symbol timeframe : string) (start stop : option datetime) (limit : Z) (db : DB) : Res (list CandleOut) :=
  let in_order := match start, stop with
                  | Some a, Some b => if comparable a b then if instant b <=? instant a then Err InvalidInputError else Ok tt
                                      else Err OtherError
                  | _, _ => Ok tt
                  end in
  _ <-- in_order ;;
  let symbol := str_upper symbol in
  i <-- _resolve_instrument symbol db ;;
  Ok (map (_candle_out symbol) (load_candles (ins_id i) (str_upper timeframe) (instants start) (instants stop) (Z.to_nat limit) db)).

(** The loop over the symbols: the first failure ends it. *)
Definition price_step (prices : string -> option (option string)) (quotes : list LatestPriceOut) (sym : string) : Res (list LatestPriceOut) :=
  match prices (latest_price_key sym) with
  | None => Err ServiceUnavailableError
  | Some None => Ok quotes
  | Some (Some raw) =>
      quote <-- _parse_price json_loads fromisoformat sym raw ;;
      Ok (match quote with Some q => (quotes ++ [q])%list | None => quotes end)
  end.
Definition latest_prices (symbol : option string) (prices : string -> option (option string)) : Res (list LatestPriceOut) :=
  let symbols := match symbol with Some (String _ _ as s) => [str_upper s] | _ => market_symbols end in
  fold_res (price_step prices) symbols [].

Definition portfolio_summary (db : DB) : PortfolioSummaryOut := _summary_out (load_portfolio_summary db).
Definition portfolio_positions (status : option string) (limit : Z) (db : DB) : Res (list PortfolioPositionOut) :=
  rows <-- list_positions status (Z.to_nat limit) db ;; map_res _position_out rows.
Definition portfolio_orders (status : option string) (limit : Z) (db : DB) : Res (list PortfolioOrderOut) :=
  rows <-- list_orders status (Z.to_nat limit) db ;; map_res _order_out rows.
Definition portfolio_equity (limit : Z) (db : DB) : list PortfolioEquityPointOut := map _equity_out (load_equity_history (Z.to_nat limit) db).

Definition if_fresh (fresh_only : bool) (now : Z) : option Z := if fresh_only then Some now else None.

Definition latest_decision (symbol timeframe : string) (fresh_only : bool) (now : Z) (db : DB) : option DecisionOut :=
  _decision_out <$> load_latest_decision symbol (str_upper timeframe) (if_fresh fresh_only now) db.
Definition decision_history (symbol timeframe : string) (limit : Z) (order : string) (db : DB) : list DecisionOut :=
  map _decision_out (load_decisions symbol (str_upper timeframe) (Z.to_nat limit) order db).
Definition risk_evaluations_out (symbol timeframe : string) (limit : Z) (db : DB) : list RiskEvaluationOut :=
  map _risk_out (load_risk_evaluations symbol (str_upper timeframe) (Z.to_nat limit) db).

Definition latest_signals (symbol timeframe : string) (fresh_only : bool) (now : Z) (db : DB) : Res (list SignalOut) :=
  map_res _to_out (load_latest_per_agent symbol (str_upper timeframe) None (if_fresh fresh_only now) db).
Definition signal_history (symbol timeframe : string) (agent_id : option string) (limit : Z) (order : string) (db : DB)
  : Res (list SignalOut) :=
  outs <-- map_res _to_out (load_history symbol (str_upper timeframe) (Z.to_nat limit) agent_id db) ;;
  Ok (if String.eqb order "asc" then rev outs else outs).

Definition list_news (symbol : option string) (since : option datetime) (limit : Z) (db : ContentDB) : list NewsOut :=
  load_recent_news (filter_text symbol) (Z.to_nat limit) (instants since) db.
Definition list_events (currency : option string) (since until : option datetime) (limit : Z) (db : ContentDB) : list EconomicEventOut :=
  load_events (filter_text currency) (Z.to_nat limit) (instants since) (instants until) db.

Definition list_backtests (limit : Z) (db : BacktestDB) : list BacktestRunOut := map _run_out (list_runs (Z.to_nat limit) db).
Definition get_backtest (run_id : Z) (db : BacktestDB) : Res BacktestRunOut :=
  match get_run run_id db with Some row => Ok (_run_out row) | None => Err NotFoundError end.
Definition backtest_trades (run_id : Z) (db : BacktestDB) : Res (list BacktestTradeOut) := map_res _trade (get_trades run_id db).
Definition backtest_equity (run_id : Z) (db : BacktestDB) : list BacktestEquityOut := map equity_row_out (get_equity run_id db).

Definition read_alerts (source event_type : option string) (acknowledged : option bool) (limit offset : Z) (rows : list AlertRow)
  : Res AlertListOut :=
  if (limit <? 1) || (500 <? limit) then Err InvalidInputError
  else if offset <? 0 then Err InvalidInputError
  else
    _ <-- send_params (filter_text source ++ filter_text event_type) [] ;;
    _ <-- (if in_bigint offset then Ok tt else Err OtherError) ;;
    let items := list_alerts source event_type acknowledged (Z.to_nat limit) (Z.to_nat offset) rows in
    Ok {| ao_items := items; ao_total := Z.of_nat (length items); ao_limit := limit; ao_offset := offset |}.

(** Each endpoint makes its query; that of [ListCandles] comes after its own checks. *)
Definition endpoint (call : ReadCall) (now : Z) (s : Stores) : Res ReadAnswer :=
  match call with
  | ListCandles symbol timeframe start stop limit => l <-- list_candles symbol timeframe start stop limit (st_db s) ;; _ <-- send_params [] [start; stop] ;; Ok (Candles l)
  | LatestPrices symbol => l <-- latest_prices symbol (st_prices s) ;; Ok (Prices l)
  | GetSummary => Ok (Summary (portfolio_summary (st_db s)))
  | GetPositions status limit => l <-- portfolio_positions status limit (st_db s) ;; Ok (Positions l)
  | GetOrders status limit => l <-- portfolio_orders status limit (st_db s) ;; Ok (Orders l)
  | GetEquity limit => Ok (EquityHistory (portfolio_equity limit (st_db s)))
  | LatestDecision symbol timeframe fresh => _ <-- send_params [symbol] [] ;; Ok (Decision (latest_decision symbol timeframe fresh now (st_db s)))
  | DecisionHistory symbol timeframe limit order => _ <-- send_params [symbol] [] ;; Ok (Decisions (decision_history symbol timeframe limit order (st_db s)))
  | RiskEvaluations symbol timeframe limit => _ <-- send_params [symbol] [] ;; Ok (Evaluations (risk_evaluations_out symbol timeframe limit (st_db s)))
  | LatestSignals symbol timeframe fresh => _ <-- send_params [symbol] [] ;; l <-- latest_signals symbol timeframe fresh now (st_db s) ;; Ok (Signals l)
  | SignalHistory symbol timeframe agent limit order =>
      _ <-- send_params (symbol :: filter_text agent) [] ;; l <-- signal_history symbol timeframe agent limit order (st_db s) ;; Ok (Signals l)
  | ListNews symbol since limit => _ <-- send_params (filter_text symbol) [since] ;; Ok (News (list_news symbol since limit (st_content s)))
  | ListEvents currency since until limit => _ <-- send_params (filter_text currency) [since; until] ;; Ok (Events (list_events currency since until limit (st_content s)))
  | ListBacktests limit => Ok (Backtests (list_backtests limit (st_backtests s)))
  | GetBacktest run_id => r <-- get_backtest run_id (st_backtests s) ;; Ok (Backtest r)
  | BacktestTrades run_id => l <-- backtest_trades run_id (st_backtests s) ;; Ok (Trades l)
  | BacktestEquity run_id => Ok (Equity (backtest_equity run_id (st_backtests s)))
  | ReadAlerts source event_type acknowledged limit offset =>
      p <-- read_alerts source event_type acknowledged limit offset (st_alerts s) ;; Ok (AlertPage p)
  end.

Context (jwt_decode : Z -> string -> option (dict string pyval)) (parse_uuid : string -> option Z).

(** A request: its caller is resolved first, then its parameters; [None] is the 422. *)
Definition read_request (call : ReadCall) (now : Z) (bearer : option string) (s : Stores) : option (Res ReadAnswer) :=
  match get_current_user jwt_decode parse_uuid now bearer (st_accounts s) with
  | Err e => Some (Err e)
  | Ok _ => if query_ok call then Some (endpoint call now s) else None
  end.
End Endpoints.

(** ** Properties *)

Section Properties.
Context `{Platform}.
Context (json_loads : string -> option pyval) (fromisoformat : string -> option datetime) (market_symbols : list string).
Context (jwt_decode : Z -> string -> option (dict string pyval)) (parse_uuid : string -> option Z).
Notation endpoint := (endpoint json_loads fromisoformat market_symbols).
Notation read_request := (read_request json_loads fromisoformat market_symbols jwt_decode parse_uuid).

(** What the writers keep: no flat side, valid signals, readable quotes. *)
Record stores_ok (s : Stores) : Prop := {
  so_positions : Forall (fun r => p_side r <> FLAT) (positions (st_db s));
  so_orders : Forall (fun r => o_side r <> FLAT) (orders_paper (st_db s));
  so_trades : Forall (fun r => bt_side r <> FLAT) (run_trades (st_backtests s));
  so_signals : Forall (fun r => is_ok (row_to_signal r) = true) (agent_signals (st_db s));
  so_prices : forall sym raw, st_prices s (latest_price_key sym) = Some (Some raw) ->
    is_ok (_parse_price json_loads fromisoformat sym raw) = true
}.

Lemma is_ok_ex {A} (r : Res A) : is_ok r = true -> exists a, r = Ok a.
Proof. destruct r; [by eexists|done]. Qed.

Lemma map_res_is_ok {A B} (f : A -> Res B) l : Forall (fun x => is_ok (f x) = true) l -> is_ok (map_res f l) = true.
Proof.
  intros Hf. destruct (map_res_ok f l) as [ys ->]; [|done]. intros x Hx. apply is_ok_ex. by eapply Forall_forall in Hf.
Qed.

Lemma elem_take_sorted {A} (leb : A -> A -> bool) n l x : x ∈ take n (sort_by leb l) -> x ∈ l.
Proof. intros Hx. apply (elem_of_sort_by leb). apply elem_of_take in Hx as (i & Hx & _). by eapply list_elem_of_lookup_2. Qed.

Lemma side_ok_true d : d <> FLAT -> side_ok d = true.
Proof. by destruct d. Qed.

Lemma position_status_ok s : bool_decide (position_status_value s ∈ ["OPEN"; "CLOSED"]%string) = true.
Proof. by destruct s. Qed.
Lemma order_status_ok s : bool_decide (order_status_value s ∈ ["PENDING"; "FILLED"; "CANCELLED"; "REJECTED"]%string) = true.
Proof. by destruct s. Qed.

Lemma positions_answer status limit s : stores_ok s ->
  optional (fun s => bool_decide (s ∈ ["OPEN"; "CLOSED"]%string)) status = true ->
  is_ok (portfolio_positions status limit (st_db s)) = true.
Proof.
  intros Hs Hq. unfold portfolio_positions, list_positions, _checked_status.
  assert (Hc : match status with None => Ok None | Some x => if bool_decide (x ∈ _POSITION_STATUSES) then Ok (Some x) else Err ValueError end = Ok status).
  { destruct status as [x|]; [|done]. cbn [optional] in Hq. change _POSITION_STATUSES with ["OPEN"; "CLOSED"]%string. by rewrite Hq. }
  rewrite Hc. cbn [res_bind]. apply map_res_is_ok, Forall_forall. intros x Hx. apply list_elem_of_fmap in Hx as ([r d] & -> & Hx).
  apply elem_take_sorted, list_elem_of_In, filter_In in Hx as [Hx%list_elem_of_In _]. unfold joined in Hx.
  apply list_elem_of_bind in Hx as (r' & Hx & Hr). apply list_elem_of_fmap in Hx as (o & [= -> ->] & _).
  pose proof (so_positions _ Hs) as Hp. eapply Forall_forall in Hp; [|exact Hr]. unfold _position_out. cbn [fst snd _position pp_side pp_status].
  by rewrite side_ok_true, position_status_ok.
Qed.

Lemma orders_answer status limit s : stores_ok s ->
  optional (fun s => bool_decide (s ∈ ["PENDING"; "FILLED"; "CANCELLED"; "REJECTED"]%string)) status = true ->
  is_ok (portfolio_orders status limit (st_db s)) = true.
Proof.
  intros Hs Hq. unfold portfolio_orders, list_orders, _checked_status.
  assert (Hc : match status with None => Ok None | Some x => if bool_decide (x ∈ _ORDER_STATUSES) then Ok (Some x) else Err ValueError end = Ok status).
  { destruct status as [x|]; [|done]. cbn [optional] in Hq. change _ORDER_STATUSES with ["PENDING"; "FILLED"; "CANCELLED"; "REJECTED"]%string. by rewrite Hq. }
  rewrite Hc. cbn [res_bind]. apply map_res_is_ok, Forall_forall. intros x Hx. apply list_elem_of_fmap in Hx as (r & -> & Hx).
  apply elem_take_sorted, list_elem_of_In, filter_In in Hx as [Hx%list_elem_of_In _].
  pose proof (so_orders _ Hs) as Hp. eapply Forall_forall in Hp; [|exact Hx]. unfold _order_out. cbn [_order po_side po_status].
  by rewrite side_ok_true, order_status_ok.
Qed.

Lemma trades_answer run_id s : stores_ok s -> is_ok (backtest_trades run_id (st_backtests s)) = true.
Proof.
  intros Hs. apply map_res_is_ok, Forall_forall. intros r Hr. apply list_elem_of_In, filter_In in Hr as [Hr%list_elem_of_In _].
  pose proof (so_trades _ Hs) as Ht. eapply Forall_forall in Ht; [|exact Hr]. unfold _trade. by rewrite side_ok_true.
Qed.

Lemma signals_answer l s : stores_ok s -> (forall r, r ∈ l -> r ∈ agent_signals (st_db s)) -> is_ok (map_res _to_out l) = true.
Proof.
  intros Hs Hl. apply map_res_is_ok, Forall_forall. intros r Hr. pose proof (so_signals _ Hs) as Hg. eapply Forall_forall in Hg; [|by apply Hl]. done.
Qed.

Lemma load_latest_stored symbol tf id now db r : r ∈ load_latest_per_agent symbol tf id now db -> r ∈ agent_signals db.
Proof.
  intros Hr. assert (Hn : r ∈ load_latest_per_agent symbol tf id None db) 
    by (destruct now; [by apply load_latest_elem in Hr as [_ Hr]|exact Hr]).
  apply load_latest_spec in Hn as [a Ha]. destruct (newest_fold (List.filter (signal_matches symbol tf id) (agent_signals db))) as (_ & Hd & _).
  apply Hd in Ha as [Ha _]. apply list_elem_of_In, filter_In in Ha as [Ha _]. by apply list_elem_of_In.
Qed.

Lemma price_step_cases prices quotes sym :
  (forall raw, prices (latest_price_key sym) = Some (Some raw) -> is_ok (_parse_price json_loads fromisoformat sym raw) = true) ->
  let r := price_step json_loads fromisoformat prices quotes sym in is_ok r = true \/ r = Err ServiceUnavailableError.
Proof.
  intros Hp. unfold price_step. destruct (prices _) as [[raw|]|]; [|by left|by right]. left.
  destruct (is_ok_ex _ (Hp raw eq_refl)) as [q ->]. done.
Qed.

Lemma prices_answer symbol s : stores_ok s ->
  let r := latest_prices json_loads fromisoformat market_symbols symbol (st_prices s) in is_ok r = true \/ r = Err ServiceUnavailableError.
Proof.
  intros Hs. unfold latest_prices. set (symbols := match symbol with Some (String _ _) => _ | _ => _ end). clearbody symbols.
  cbv zeta. generalize (@nil LatestPriceOut). induction symbols as [|sym symbols IH]; intros quotes; [by left|]. cbn [fold_res].
  destruct (price_step_cases (st_prices s) quotes sym (so_prices _ Hs sym)) as [[q Hq]%is_ok_ex|Hq]; rewrite Hq; [apply IH|by right].
Qed.

(** The parameters of a query that the database or its driver refuse, and times that cannot
    be compared. *)
Definition refused (call : ReadCall) : bool :=
  match call with
  | ListCandles symbol _ start stop _ =>
      params_refused [str_upper symbol] [start; stop]
      || match start, stop with Some a, Some b => negb (comparable a b) | _, _ => false end
  | LatestDecision symbol _ _ | DecisionHistory symbol _ _ _ | RiskEvaluations symbol _ _ | LatestSignals symbol _ _ =>
      params_refused [symbol] []
  | SignalHistory symbol _ agent _ _ => params_refused (symbol :: filter_text agent) []
  | ListNews symbol since _ => params_refused (filter_text symbol) [since]
  | ListEvents currency since until _ => params_refused (filter_text currency) [since; until]
  | ReadAlerts source event_type _ _ offset =>
      params_refused (filter_text source ++ filter_text event_type) [] || negb (in_bigint offset)
  | _ => false
  end.

(** The errors an endpoint answers on purpose. *)
Definition expected (call : ReadCall) (s : Stores) (e : PyErr) : Prop :=
  match call with
  | ListCandles symbol _ start stop _ =>
      e = InvalidInputError /\ (exists a b, start = Some a /\ stop = Some b /\ instant b <= instant a) \/
      e = NotFoundError /\ find_instrument (str_upper symbol) (st_db s) = None
  | LatestPrices _ => e = ServiceUnavailableError
  | GetBacktest run_id => e = NotFoundError /\ get_run run_id (st_backtests s) = None
  | ReadAlerts _ _ _ limit offset => e = InvalidInputError /\ (limit < 1 \/ 500 < limit \/ offset < 0)
  | _ => False
  end.

Lemma send_cases texts times :
  send_params texts times = Ok tt /\ params_refused texts times = false \/
  send_params texts times = Err OtherError /\ params_refused texts times = true.
Proof. unfold send_params. destruct (params_refused _ _); [by right|by left]. Qed.

(** A body that comes after its parameters were sent. *)
Lemma sent_first {A} texts times (k : Res A) e : (_ <-- send_params texts times ;; k) = Err e ->
  e = OtherError /\ params_refused texts times = true \/ k = Err e.
Proof. destruct (send_cases texts times) as [[-> _]|[-> ->]]; cbn [res_bind]; [by right|]. intros [= <-]. by left. Qed.

Lemma refused_texts symbol times : has_nul symbol = true -> params_refused [symbol] times = true.
Proof. intros Hn. unfold params_refused. cbn [existsb]. by rewrite Hn. Qed.
Lemma refused_times symbol times : params_refused [] times = true -> params_refused [symbol] times = true.
Proof. unfold params_refused. cbn [existsb orb]. intros ->. by rewrite orb_true_r. Qed.

Lemma candles_errors symbol tf start stop limit now s e :
  endpoint (ListCandles symbol tf start stop limit) now s = Err e ->
  expected (ListCandles symbol tf start stop limit) s e \/ e = OtherError /\ refused (ListCandles symbol tf start stop limit) = true.
Proof.
  cbn [ReadApi.endpoint expected refused]. intros He.
  assert (Hrest : forall r : Res (list CandleOut), (forall e, r = Err e -> e = NotFoundError /\ find_instrument (str_upper symbol) (st_db s) = None \/
      e = OtherError /\ has_nul (str_upper symbol) = true) ->
    (l <-- r ;; _ <-- send_params [] [start; stop] ;; Ok (Candles l)) = Err e ->
    e = NotFoundError /\ find_instrument (str_upper symbol) (st_db s) = None \/
    e = OtherError /\ params_refused [str_upper symbol] [start; stop] = true).
  { intros r Hr. destruct r as [l|e']; cbn [res_bind].
    - intros [[-> Hp]|?]%sent_first; [|done]. right. split; [done|by apply refused_times].
    - intros [= ->]. destruct (Hr e eq_refl) as [?|[-> Hn]]; [by left|]. right. split; [done|by apply refused_texts]. }
  assert (Hlook : forall k : Instrument -> list CandleOut, forall e, (i <-- _resolve_instrument (str_upper symbol) (st_db s) ;; Ok (k i)) = Err e ->
    e = NotFoundError /\ find_instrument (str_upper symbol) (st_db s) = None \/ e = OtherError /\ has_nul (str_upper symbol) = true).
  { intros k e'. unfold _resolve_instrument. destruct (find_instrument _ _); [done|]. destruct (has_nul _); intros [= <-]; auto. }
  unfold list_candles in He. destruct start as [a|], stop as [b|].
  1: destruct (comparable a b) eqn:Ec; cbn [res_bind negb] in He; [|right; rewrite orb_true_r; by injection He as <-];
     destruct (Z.leb_spec (instant b) (instant a)); cbn [res_bind] in He; [left; left; split; [by injection He as <-|by exists a, b]|].
  all: cbn [res_bind] in He; apply Hrest in He as [?|[-> ->]]; [by left; right|by right|intros e'; by apply Hlook].
Qed.

Lemma alerts_errors source ty ack limit offset rows e (k : AlertListOut -> ReadAnswer) :
  (p <-- read_alerts source ty ack limit offset rows ;; Ok (k p)) = Err e ->
  e = InvalidInputError /\ (limit < 1 \/ 500 < limit \/ offset < 0) \/
  e = OtherError /\ params_refused (filter_text source ++ filter_text ty) [] || negb (in_bigint offset) = true.
Proof.
  unfold read_alerts. destruct ((limit <? 1) || (500 <? limit)) eqn:El.
  { intros [= <-]. left. split; [done|]. apply orb_true_iff in El as [?%Z.ltb_lt|?%Z.ltb_lt]; auto. }
  destruct (Z.ltb_spec offset 0); [intros [= <-]; left; split; [done|auto]|].
  destruct (send_cases (filter_text source ++ filter_text ty) []) as [[-> ->]|[-> ->]]; cbn [res_bind]; [|intros [= <-]; by right].
  destruct (in_bigint offset); cbn [res_bind negb]; [done|]. intros [= <-]. by right.
Qed.

(** C21: A read is answered.  Nobody reads without the access token of an active account;
    with one, a query within the declared bounds is answered by its endpoint alone, whoever
    asks, and over the rows and quotes the writers keep it is answered with data, with the
    error that says why (an empty window, an unknown instrument or run, a page out of range,
    an unreachable cache), or, unexpectedly, because the declared bounds admit what the
    database does not take and what cannot be compared: a NUL character in a text, an offset
    beyond 64 bits, a time at the ends of the calendar, a naive and an aware end of one
    window.  It fails in no other way. *)
Theorem reads_answered (call : ReadCall) (now : Z) (bearer : option string) (s : Stores) :
  stores_ok s ->
  (forall r, read_request call now bearer s = Some (Ok r) -> exists user, is_active user = true /\ user ∈ users (st_accounts s)) /\
  (forall user, get_current_user jwt_decode parse_uuid now bearer (st_accounts s) = Ok user ->
     read_request call now bearer s = (if query_ok call then Some (endpoint call now s) else None)) /\
  (query_ok call = true -> forall e, endpoint call now s = Err e ->
     expected call s e \/ e = OtherError /\ refused call = true).
Proof.
  intros Hs. unfold read_request. split_and!.
  - intros r Hr. destruct (get_current_user _ _ _ _ _) as [u|] eqn:Hu; [|done]. exists u. unfold get_current_user in Hu.
    destruct bearer as [token|]; [|done]. apply res_bind_ok in Hu as (payload & _ & Hu). destruct (parse_uuid _) as [id|]; [|done].
    destruct (get_user id (st_accounts s)) as [u'|] eqn:Eg; [|done]. destruct (is_active u') eqn:Ea; [|done]. injection Hu as <-.
    split; [done|]. unfold get_user in Eg. by apply List.find_some in Eg as [Eg%list_elem_of_In _].
  - by intros user ->.
  - intros Hq e He. destruct call as [symbol tf start stop limit|symbol| |status limit|status limit|limit|symbol tf fresh|symbol tf limit order|symbol tf limit|
      symbol tf fresh|symbol tf agent limit order|symbol since limit|currency since until limit|limit|run_id|run_id|run_id|source ty ack limit offset];
      try (by apply candles_errors in He); cbn [ReadApi.endpoint expected query_ok refused] in *; try done;
      try (apply sent_first in He as [?|He]; [by right|]); try done; [left..|by apply alerts_errors in He].
    + destruct (prices_answer symbol s Hs) as [[q Hq']%is_ok_ex|Hq']; rewrite Hq' in He; [done|]. by injection He as <-.
    + apply andb_true_iff in Hq as [Hq _]. destruct (is_ok_ex _ (positions_answer status limit s Hs Hq)) as [l Hl]. by rewrite Hl in He.
    + apply andb_true_iff in Hq as [Hq _]. destruct (is_ok_ex _ (orders_answer status limit s Hs Hq)) as [l Hl]. by rewrite Hl in He.
    + unfold latest_signals in He. destruct (is_ok_ex (map_res _to_out (load_latest_per_agent symbol (str_upper tf) None (if_fresh fresh now) (st_db s)))) as [l Hl]; [|by rewrite Hl in He].
      apply (signals_answer _ s Hs). intros r Hr. by eapply load_latest_stored.
    + unfold signal_history in He. destruct (is_ok_ex (map_res _to_out (load_history symbol (str_upper tf) (Z.to_nat limit) agent (st_db s)))) as [l Hl]; [|by rewrite Hl in He].
      apply (signals_answer _ s Hs). intros r Hr. apply elem_take_sorted, list_elem_of_In, filter_In in Hr as [Hr _]. by apply list_elem_of_In.
    + unfold get_backtest in He. destruct (get_run run_id _); [done|]. by injection He as <-.
    + destruct (is_ok_ex _ (trades_answer run_id s Hs)) as [l Hl]. by rewrite Hl in He.
Qed.
End Properties.

(** ** Following the pages *)

Section Pages.
Context `{Platform}.

(** A client that goes on after the last bar it was given. *)
Fixpoint walk (fuel : nat) (symbol timeframe : string) (start : option datetime) (limit : Z) (db : DB) : Res (list CandleOut) :=
  match fuel with
  | O => Ok []
  | S fuel =>
      page <-- list_candles symbol timeframe start None limit db ;;
      match last page with
      | None => Ok []
      | Some c => rest <-- walk fuel symbol timeframe (Some (utc (co_ts c + 1))) limit db ;; Ok (page ++ rest)%list
      end
  end.

Definition all_from (i : Z) (tf : string) (start : option Z) (db : DB) : list CandleRow :=
  sort_by (asc_leb cd_ts) (List.filter (fun r => Candles.in_window start None (cd_ts r)) (series i tf (candles db))).

Lemma all_from_elem i tf start db r :
  r ∈ all_from i tf start db <-> r ∈ candles db /\ in_series i tf r = true /\ Candles.in_window start None (cd_ts r) = true.
Proof. unfold all_from, series. rewrite elem_of_sort_by, !list_elem_of_In, !List.filter_In. tauto. Qed.

Lemma all_from_sorted i tf start db : StronglySorted (fun a b => cd_ts a <= cd_ts b) (all_from i tf start db).
Proof.
  pose proof (sort_by_sorted (asc_leb cd_ts) (List.filter (fun r => Candles.in_window start None (cd_ts r)) (series i tf (candles db)))) as Hs.
  unfold sorted_by in Hs. fold (all_from i tf start db) in Hs. induction Hs as [|x xs Hs IH Hx]; constructor; [done|].
  eapply List.Forall_impl; [|exact Hx]. intros y. apply Z.leb_le.
Qed.

Lemma filter_NoDup {A} (f : A -> bool) l : NoDup l -> NoDup (List.filter f l).
Proof.
  induction 1 as [|x l Hx _ IH]; [constructor|]. cbn. destruct (f x); [|done]. constructor; [|done].
  intros [Hin _]%list_elem_of_In%filter_In. by apply Hx, list_elem_of_In.
Qed.

Lemma all_from_NoDup i tf start db : NoDup (map key_of (candles db)) -> NoDup (all_from i tf start db).
Proof.
  intros Hn. unfold all_from. rewrite sort_by_perm. apply filter_NoDup, filter_NoDup. by apply NoDup_fmap_1 in Hn.
Qed.

(** In one series a bar is determined by its time. *)
Lemma series_ts i tf db r r' : NoDup (map key_of (candles db)) -> r ∈ candles db -> r' ∈ candles db ->
  in_series i tf r = true -> in_series i tf r' = true -> cd_ts r = cd_ts r' -> r = r'.
Proof.
  intros Hn Hr Hr' Hs Hs' Ht. eapply unique_by; [exact Hn|done|done|].
  unfold in_series in Hs, Hs'. apply andb_true_iff in Hs as [H1%Z.eqb_eq H2%String.eqb_eq], Hs' as [H3%Z.eqb_eq H4%String.eqb_eq].
  unfold key_of. congruence.
Qed.

(** After a page the rest begins. *)
Lemma all_from_next i tf start db n r : NoDup (map key_of (candles db)) -> last (take n (all_from i tf start db)) = Some r ->
  all_from i tf (Some (cd_ts r + 1)) db = drop n (all_from i tf start db).
Proof.
  intros Hn Hl. set (l := all_from i tf start db) in *. pose proof (all_from_sorted i tf start db) as Hs. fold l in Hs.
  rewrite <- (take_drop n l) in Hs. apply StronglySorted_app in Hs as (Hcross & Hst & Hsd).
  assert (Hmem : forall x, x ∈ take n l \/ x ∈ drop n l <-> x ∈ l) by (intros x; by rewrite <- elem_of_app, take_drop).
  apply last_Some in Hl as [pre Hpre].
  assert (Hlast : forall x, x ∈ take n l -> cd_ts x <= cd_ts r).
  { intros x Hx. rewrite Hpre in Hx, Hst. apply StronglySorted_app in Hst as (Hc & _ & _). apply elem_of_app in Hx as [Hx|Hx%list_elem_of_singleton].
    - apply Hc; [done|by apply list_elem_of_singleton].
    - by subst. }
  assert (Hrt : r ∈ take n l) by (rewrite Hpre; apply elem_of_app; right; by apply list_elem_of_singleton).
  assert (Hrl : r ∈ l) by (apply Hmem; by left).
  assert (Hnl : NoDup (take n l ++ drop n l)%list) by (rewrite take_drop; by apply all_from_NoDup).
  apply NoDup_app in Hnl as (_ & Hdis & Hnd).
  assert (Helem : forall x, x ∈ all_from i tf (Some (cd_ts r + 1)) db <-> x ∈ drop n l).
  { intros x. rewrite all_from_elem. unfold Candles.in_window. rewrite andb_true_r, Z.leb_le. split.
    - intros (Hx & Hsx & Hge). assert (Hxl : x ∈ l).
      { apply all_from_elem in Hrl as (_ & _ & Hw). apply all_from_elem. split; [done|]. split; [done|].
        unfold Candles.in_window in *. rewrite andb_true_r in *. destruct start; [|done]. apply Z.leb_le. apply Z.leb_le in Hw. lia. }
      apply Hmem in Hxl as [Hxl|Hxl]; [|done]. apply Hlast in Hxl. lia.
    - intros Hx. assert (Hxl : x ∈ l) by (apply Hmem; by right). pose proof (Hcross r x Hrt Hx) as Hle.
      pose proof Hxl as Hxl'. apply all_from_elem in Hxl as (Hxc & Hsx & _), Hrl as (Hrc & Hsr & _).
      split; [done|]. split; [done|]. enough (cd_ts r <> cd_ts x) by lia. intros E. apply (Hdis r Hrt).
      by rewrite (series_ts i tf db r x Hn Hrc Hxc Hsr Hsx E). }
  apply (StronglySorted_unique_strong (fun a b => cd_ts a <= cd_ts b)); [|apply all_from_sorted|done|].
  - intros x y Hx Hy H1 H2. apply all_from_elem in Hx as (Hxc & Hsx & _). assert (Hyl : y ∈ l) by (apply Hmem; by right).
    apply all_from_elem in Hyl as (Hyc & Hsy & _). apply (series_ts i tf db); try done. lia.
  - apply NoDup_Permutation; [by apply all_from_NoDup|done|done].
Qed.

(** C22: No stored bar is out of reach.  A client that asks for an instrument's bars from
    some time on and repeats the query after the last bar it was given, in pages of any
    admitted size, receives every stored bar of the series from that time on, once, in
    ascending order. *)
Theorem candle_pages_complete (symbol timeframe : string) (start : option datetime) (limit : Z) (db : DB) (i : Instrument) (fuel : nat) :
  find_instrument (str_upper symbol) db = Some i -> NoDup (map key_of (candles db)) -> 1 <= limit ->
  (length (candles db) < fuel)%nat ->
  exists rows, walk fuel symbol timeframe start limit db = Ok (map (_candle_out (str_upper symbol)) rows) /\
    StronglySorted (fun a b => cd_ts a < cd_ts b) rows /\
    forall r, r ∈ rows <-> r ∈ candles db /\ in_series (ins_id i) (str_upper timeframe) r = true /\
                           match start with Some t => instant t <= cd_ts r | None => True end.
Proof.
  intros Hi Hn Hlim Hfuel. set (tf := str_upper timeframe). exists (all_from (ins_id i) tf (instants start) db). split_and!.
  - assert (Hlen : (length (all_from (ins_id i) tf (instants start) db) < fuel)%nat).
    { eapply Nat.le_lt_trans; [|exact Hfuel]. unfold all_from. rewrite length_sort_by. etrans; apply List.filter_length_le. }
    revert start Hlen. clear Hfuel. induction fuel as [|fuel IH]; intros start Hlen; [lia|]. cbn [walk].
    assert (Hpage : list_candles symbol timeframe start None limit db =
      Ok (map (_candle_out (str_upper symbol)) (take (Z.to_nat limit) (all_from (ins_id i) tf (instants start) db)))).
    { unfold list_candles, _resolve_instrument. destruct start; cbn [res_bind]; by rewrite Hi. }
    rewrite Hpage. cbn [res_bind]. set (l := all_from _ _ _ _) in *. rewrite fmap_last.
    destruct (last (take (Z.to_nat limit) l)) as [r|] eqn:El; cbn [fmap option_fmap option_map].
    + pose proof (all_from_next _ _ _ _ _ _ Hn El) as Hnext. fold l in Hnext. rewrite (IH (Some (utc (co_ts (_candle_out (str_upper symbol) r) + 1)))).
      * cbn [res_bind instants fmap option_fmap option_map instant utc co_ts _candle_out]. rewrite Hnext, <- map_app. by rewrite take_drop.
      * cbn [instants fmap option_fmap option_map instant utc co_ts _candle_out]. rewrite Hnext, length_drop.
        destruct l as [|x l']; [by rewrite take_nil in El|]. cbn [length] in *. lia.
    + apply last_None in El. destruct l as [|x l'] eqn:E; [done|]. destruct (Z.to_nat limit) eqn:En; [lia|done].
  - pose proof (all_from_sorted (ins_id i) tf (instants start) db) as Hs. pose proof (all_from_NoDup (ins_id i) tf (instants start) db Hn) as Hd.
    assert (Hin : forall x, x ∈ all_from (ins_id i) tf (instants start) db -> x ∈ candles db /\ in_series (ins_id i) tf x = true)
      by (intros x (? & ? & _)%all_from_elem; done).
    induction Hs as [|x xs Hs IH Hx]; constructor; [apply NoDup_cons in Hd as [_ Hd]; apply IH; [done|]; intros y Hy; apply Hin; by right|].
    apply Forall_forall. intros y Hy. rewrite Forall_forall in Hx. pose proof (Hx y Hy) as Hle. apply NoDup_cons in Hd as [Hd _].
    enough (cd_ts x <> cd_ts y) by lia. intros E. apply Hd. destruct (Hin x) as [H1 H2]; [by left|]. destruct (Hin y) as [H3 H4]; [by right|].
    by rewrite (series_ts _ _ _ _ _ Hn H1 H3 H2 H4 E).
  - intros r. rewrite all_from_elem. unfold Candles.in_window, instants. rewrite andb_true_r. destruct start as [t|]; cbn; [by rewrite Z.leb_le|tauto].
Qed.
End Pages.

(** The pages of the alerts are the alerts.  For every admitted page size and every filter
    and offset the database takes, the first pages, put together, are the beginning of the whole filtered list, newest first, and
    enough of them are all of it; what a page calls its total is the number on the page. *)
Theorem alert_pages (source event_type : option string) (acknowledged : option bool) (limit : Z) (rows : list AlertRow) (k : nat) :
  1 <= limit <= 500 -> limit * Z.of_nat k <= 2 ^ 63 -> existsb has_nul (filter_text source ++ filter_text event_type)%list = false ->
  let all := list_alerts source event_type acknowledged (length rows) 0 rows in
  exists pages,
    map_res (fun j => read_alerts source event_type acknowledged limit (limit * Z.of_nat j) rows) (seq 0 k) = Ok pages /\
    concat (map ao_items pages) = take (Z.to_nat limit * k) all /\
    (Z.of_nat (length all) <= limit * Z.of_nat k -> concat (map ao_items pages) = all) /\
    Forall (fun p => ao_total p = Z.of_nat (length (ao_items p)) /\ (length (ao_items p) <= Z.to_nat limit)%nat) pages.
Proof.
  intros Hlim Hbig Hnul all.
  assert (Hsend : send_params (filter_text source ++ filter_text event_type)%list [] = Ok tt)
    by (unfold send_params, params_refused; by rewrite Hnul).
  set (keep := List.filter (fun r => text_filter source (al_source (ar_alert r)) && text_filter event_type (al_event_type (ar_alert r))
                && match acknowledged with Some b => Bool.eqb (negb (pending r)) b | None => true end) rows).
  assert (Hall : all = sort_by Alerts.newest_first keep).
  { unfold all, list_alerts. fold keep. rewrite drop_0, take_ge; [done|]. rewrite length_sort_by. apply List.filter_length_le. }
  assert (Hpage : forall j, (j < k)%nat -> read_alerts source event_type acknowledged limit (limit * Z.of_nat j) rows =
    Ok {| ao_items := take (Z.to_nat limit) (drop (Z.to_nat limit * j) all);
          ao_total := Z.of_nat (length (take (Z.to_nat limit) (drop (Z.to_nat limit * j) all)));
          ao_limit := limit; ao_offset := limit * Z.of_nat j |}).
  { intros j Hj. unfold read_alerts. rewrite (proj2 (Z.ltb_ge limit 1)), (proj2 (Z.ltb_ge 500 limit)), (proj2 (Z.ltb_ge (limit * Z.of_nat j) 0)) by lia.
    assert (in_bigint (limit * Z.of_nat j) = true) as -> by (unfold in_bigint; apply andb_true_iff; rewrite Z.leb_le, Z.ltb_lt; nia).
    cbn [orb]. rewrite Hsend. cbn [res_bind]. unfold list_alerts. fold keep. rewrite Hall, Z2Nat.inj_mul, Nat2Z.id by lia. done. }
  assert (Hpages : forall n m, (m + n <= k)%nat -> exists pages,
    map_res (fun j => read_alerts source event_type acknowledged limit (limit * Z.of_nat j) rows) (seq m n) = Ok pages /\
    concat (map ao_items pages) = take (Z.to_nat limit * n) (drop (Z.to_nat limit * m) all) /\
    Forall (fun p => ao_total p = Z.of_nat (length (ao_items p)) /\ (length (ao_items p) <= Z.to_nat limit)%nat) pages).
  { clear Hall. induction n as [|n IH]; intros m Hm; [exists []; by rewrite Nat.mul_0_r, take_0|].
    destruct (IH (S m)) as (pages & Hp & Hc & Hf); [lia|].
    cbn [seq map_res]. rewrite Hpage by lia. cbn [res_bind]. rewrite Hp. cbn [res_bind]. eexists. split; [done|]. split.
    - cbn [map concat ao_items]. rewrite Hc. replace (Z.to_nat limit * S m)%nat with (Z.to_nat limit * m + Z.to_nat limit)%nat by lia.
      replace (Z.to_nat limit * S n)%nat with (Z.to_nat limit + Z.to_nat limit * n)%nat by lia.
      rewrite <- drop_drop. rewrite <- take_take_drop. done.
    - constructor; [|done]. cbn. split; [done|]. rewrite length_take. lia. }
  destruct (Hpages k O) as (pages & Hp & Hc & Hf); [lia|]. rewrite Nat.mul_0_r, drop_0 in Hc. exists pages. split_and!; try done.
  intros Hlen. rewrite Hc. apply take_ge. apply Nat2Z.inj_le. rewrite Nat2Z.inj_mul, Z2Nat.id by lia. exact Hlen.
Qed.

(** ** The price cache *)

Section Prices.
Context (provider : DataProvider) (json_loads : string -> option pyval) (json_dumps : pyval -> string)
  (fromisoformat : string -> option datetime).

(** What the ingest worker caches: quotes of bars with finite prices. *)
Definition quotes_ok (s : Ingest) : Prop :=
  forall sym q, dget sym (quotes s) = Some q ->
    exists c n e, q = quote_of provider sym c /\ dec_of_float (dec_to_float (c_close c)) = Dec n e.

Definition price_of_bar (sym : string) (c : Candle) : LatestPriceOut :=
  {| lp_symbol := sym; lp_price := dec_of_float (dec_to_float (c_close c));
     lp_bucket_start := fromisoformat (isoformat (instant (bucket_start c)));
     lp_synthetic := String.eqb (provider_name provider) "synthetic" |}.

Lemma parse_quote sym c n e raw : json_loads raw = Some (VDict (quote_of provider sym c)) ->
  dec_of_float (dec_to_float (c_close c)) = Dec n e ->
  _parse_price json_loads fromisoformat sym raw = Ok (Some (price_of_bar sym c)).
Proof.
  intros Hj Hd. unfold _parse_price. rewrite Hj. unfold quote_of, price_of_bar.
  change (dget_or "price"%string VNone _) with (VFloat (dec_to_float (c_close c))).
  cbv iota zeta beta. unfold decimal_of_str. rewrite Hd. done.
Qed.

(** The price list is what ingestion cached last.  When the cache holds the quotes of
    the ingest worker, every configured symbol that has one is listed once per mention, in
    the configured order, with the close of the cached bar, its time and whether it is
    synthetic, and symbols without a quote are left out. *)
Theorem prices_shown (s : Ingest) (market_symbols : list string) (prices : string -> option (option string)) :
  (forall sym q, dget sym (quotes s) = Some q -> json_loads (json_dumps (VDict q)) = Some (VDict q)) -> quotes_ok s ->
  (forall sym, prices (latest_price_key sym) = Some ((fun q => json_dumps (VDict q)) <$> dget sym (quotes s))) ->
  exists l, latest_prices json_loads fromisoformat market_symbols None prices = Ok l /\
    map lp_symbol l = List.filter (fun sym => bool_decide (is_Some (dget sym (quotes s)))) market_symbols /\
    Forall (fun o => exists c, dget (lp_symbol o) (quotes s) = Some (quote_of provider (lp_symbol o) c) /\ o = price_of_bar (lp_symbol o) c) l.
Proof.
  intros Hj Hq Hp. unfold latest_prices.
  assert (Hstep : forall acc sym, price_step json_loads fromisoformat prices acc sym =
    match dget sym (quotes s) with
    | Some q => quote <-- _parse_price json_loads fromisoformat sym (json_dumps (VDict q)) ;;
                Ok (match quote with Some q => (acc ++ [q])%list | None => acc end)
    | None => Ok acc
    end) by (intros acc sym; unfold price_step; rewrite Hp; by destruct (dget sym (quotes s))).
  assert (Hgen : forall acc, exists l, fold_res (price_step json_loads fromisoformat prices) market_symbols acc = Ok (acc ++ l)%list /\
    map lp_symbol l = List.filter (fun sym => bool_decide (is_Some (dget sym (quotes s)))) market_symbols /\
    Forall (fun o => exists c, dget (lp_symbol o) (quotes s) = Some (quote_of provider (lp_symbol o) c) /\ o = price_of_bar (lp_symbol o) c) l).
  { induction market_symbols as [|sym syms IH]; intros acc; [exists []; split; [by rewrite app_nil_r|by split]|].
    cbn [fold_res List.filter]. rewrite Hstep. destruct (dget sym (quotes s)) as [q|] eqn:Eq.
    - destruct (Hq sym q Eq) as (c & n & e & -> & Hd). rewrite (parse_quote sym c n e _ (Hj sym _ Eq) Hd). cbn [res_bind].
      destruct (IH (acc ++ [price_of_bar sym c])%list) as (l & -> & Hl & Hf). exists (price_of_bar sym c :: l). rewrite <- app_assoc.
      split; [done|]. rewrite bool_decide_true by done. cbn [map]. rewrite Hl. split; [done|]. constructor; [|done]. by exists c.
    - cbn [res_bind]. destruct (IH acc) as (l & -> & Hl & Hf). exists l. split; [done|]. rewrite bool_decide_false; [by split|].
      by intros [? ?]. }
  by apply (Hgen []).
Qed.
End Prices.

(** ** Examples *)

(** One entry whose price is not a number fails the whole list, although malformed entries
    are to be skipped. *)
Example poisoned_price :
  latest_prices (fun raw => if String.eqb raw "nan" then Some (VDict [("price", VFloat S754_nan)]%string)
                            else Some (VDict [("price", VStr "1.08")]%string)) (fun _ => None) ["EURUSD"; "GBPUSD"]%string None
    (fun key => Some (Some (if String.eqb key "prices.latest:GBPUSD" then "nan" else "good")%string)) = Err ValueError.
Proof. reflexivity. Qed.

Notation demo_stores := {| st_db := empty_db; st_content := {| news_items := []; economic_events := []; content_uuids := O |};
  st_backtests := {| runs := []; run_trades := []; run_equity := []; run_uuids := O |}; st_alerts := [demo_row];
  st_prices := fun _ => None; st_accounts := no_accounts |}.

Lemma reads_answered_witness :
  endpoint (fun _ => None) (fun _ => None) ["EURUSD"%string] (GetBacktest 5) 0 demo_stores = Err NotFoundError.
Proof.
  assert (He : exists e, endpoint (fun _ => None) (fun _ => None) ["EURUSD"%string] (GetBacktest 5) 0 demo_stores = Err e)
    by (eexists; reflexivity).
  destruct He as [e He]. destruct (@reads_answered demo_platform (fun _ => None) (fun _ => None) ["EURUSD"%string] (fun _ _ => None) (fun _ => None)
    (GetBacktest 5) 0 None demo_stores) as (_ & _ & H).
  - split; cbn; try constructor.
  - destruct (H eq_refl e He) as [[-> _]|[_ Hr]]; [exact He|discriminate Hr].
Defined.

Lemma alert_pages_witness :
  exists pages, map_res (fun j => read_alerts None None None 1 (1 * Z.of_nat j) [demo_row; demo_row]) (seq 0 2) = Ok pages /\
    length (concat (map ao_items pages)) = 2%nat.
Proof.
  destruct (alert_pages None None None 1 [demo_row; demo_row] 2) as (pages & H1 & _ & H2 & _); [lia|lia|reflexivity|].
  exists pages. split; [exact H1|]. rewrite H2; [reflexivity|]. vm_compute. discriminate.
Defined.

Notation demo_bars := (set_candles (map (fun t => @candle_row demo_platform 1 "H1" "synthetic" 60 t (sample_candle t 111)) [7200000000; 3600000000])
  (set_instruments [demo_instrument] empty_db)).

Lemma demo_bars_series : List.filter (fun r => in_series 1 "H1" r) (candles demo_bars) = candles demo_bars /\
  NoDup (map key_of (candles demo_bars)).
Proof. split; [reflexivity|]. by apply (bool_decide_unpack _). Qed.

Lemma candle_pages_complete_witness :
  exists rows, walk 3 "EURUSD" "H1" None 1 demo_bars = Ok (map (_candle_out "EURUSD") rows) /\
    forall r, r ∈ candles demo_bars -> r ∈ rows.
Proof.
  destruct (@candle_pages_complete "EURUSD" "H1" None 1 demo_bars demo_instrument 3) as (rows & H1 & _ & H2).
  - reflexivity.
  - apply demo_bars_series.
  - lia.
  - cbn. lia.
  - exists rows. split; [exact H1|]. intros r Hr. apply H2. split; [exact Hr|]. split; [|exact I].
    rewrite <- (proj1 demo_bars_series) in Hr. apply list_elem_of_In, filter_In in Hr as [_ Hr]. exact Hr.
Defined.

Notation demo_close := (quote_of demo_provider "EURUSD" (sample_candle 3600000000 111)).
Notation demo_cached := {| breaker := demo_tripped; in_db := empty_db; health := []; quotes := [("EURUSD"%string, demo_close)]; published := [] |}.

Lemma demo_close_finite : dec_of_float (dec_to_float (c_close (sample_candle 3600000000 111))) = Dec 111 (-2).
Proof. vm_compute. reflexivity. Qed.

Lemma demo_quotes sym q : dget sym (quotes demo_cached) = Some q -> sym = "EURUSD"%string /\ q = demo_close.
Proof. cbn [dget quotes]. destruct (decide (sym = "EURUSD"%string)) as [->|]; [|done]. by intros [= <-]. Qed.

Lemma demo_quotes_ok : quotes_ok demo_provider demo_cached.
Proof. intros sym q [-> ->]%demo_quotes. exists (sample_candle 3600000000 111), 111, (-2). split; [done|apply demo_close_finite]. Qed.

Lemma prices_shown_witness :
  exists l, latest_prices (fun _ => Some (VDict demo_close)) (fun _ => None) ["EURUSD"; "GBPUSD"]%string None
    (fun key => Some (if String.eqb key "prices.latest:EURUSD" then Some "quote"%string else None)) = Ok l /\ map lp_symbol l = ["EURUSD"%string].
Proof.
  destruct (prices_shown demo_provider (fun _ => Some (VDict demo_close)) (fun _ => "quote"%string) (fun _ => None) demo_cached
    ["EURUSD"; "GBPUSD"]%string (fun key => Some (if String.eqb key "prices.latest:EURUSD" then Some "quote"%string else None)))
    as (l & H1 & H2 & _).
  - intros sym q [_ ->]%demo_quotes. reflexivity.
  - apply demo_quotes_ok.
  - intros sym. cbn [dget quotes]. f_equal. destruct (decide (sym = "EURUSD"%string)) as [->|Hne]; [reflexivity|]. cbn [fmap option_fmap option_map].
    destruct (String.eqb_spec (latest_price_key sym) "prices.latest:EURUSD") as [E|]; [|reflexivity]. exfalso. apply Hne. unfold latest_price_key in E. by injection E.
  - exists l. split; [exact H1|]. rewrite H2. reflexivity.
Defined.
