(* ===== verification/Cli.v ===== *)
(** * The command line ([app/cli.py])

    A command answers an exit code and the lines it prints, each on the output or on the
    error stream; an exception that no command catches is an [Err].  The parsing and
    prompting of options is the option library's. *)

From Stdlib Require Import ZArith Ascii Lia.
From stdpp Require Import base list strings pretty.
From S2P Require Import Prelude PyFloat Timeframes Signals Fusion Risk Decision Tables Candles Breaker Bus Ingest Accounts PyFormat Costs Positions Paper Backtest Report Synthetic News Access BacktestRun Admin Config Problems System.

Open Scope Z_scope.

Record CliOut := { exit_code : Z; lines : list (bool * string) }.
Definition out (text : string) : bool * string := (false, text).
Definition fail_with (exit : Z) (text : string) : CliOut := {| exit_code := exit; lines := [(true, text)] |}.

(** [[s.strip().upper() for s in text.split(",") if s.strip()]]. *)
Definition names (text : string) : list string :=
  map str_upper (List.filter (fun s => negb (String.eqb s "")) (map py_strip (split_char "," text))).

Section Cli.
Context `{Platform}.
(** The text of an exception. *)
Context (str_of : PyErr -> string).

(** ** Accounts *)

Context (uuid_str : Z -> string) (argon2_hash : nat -> string -> string).

Definition bootstrap_role (role : UserRole) (s : Accounts) : UserRole :=
  if (0 <? count_users s) || bool_decide (role = ADMIN) then role else ADMIN.

(** Committed at the end: a failure leaves nothing. *)
Definition _create_user (email password : string) (role : UserRole) (s : Accounts) : Res (string * string) * Accounts :=
  match register_user uuid_str argon2_hash email password None (Some (bootstrap_role role s)) s with
  | (Ok user, s') => (Ok (uuid_str (u_id user), role_value (u_role user)), s')
  | (Err e, _) => (Err e, s)
  end.

Definition createuser (email password : string) (role : UserRole) (s : Accounts) : CliOut * Accounts :=
  match _create_user email password role s with
  | (Ok (user_id, effective_role), s) =>
      ({| exit_code := 0; lines := [out ("created user " ++ email ++ " id=" ++ user_id ++ " role=" ++ effective_role)%string] |}, s)
  | (Err e, s) => (fail_with 1 ("error: " ++ str_of e)%string, s)
  end.

(** What [SELECT 1] answers. *)
Definition check_db (found : Found Z) : CliOut :=
  match found with
  | inl text => fail_with 1 ("database unreachable: " ++ text)%string
  | inr n => {| exit_code := 0; lines := if n =? 1 then [out "database ok"] else [] |}
  end.

(** ** Backtests *)

(** [text.split("..")]. *)
Fixpoint split_dots (s : string) : list string :=
  match s with
  | EmptyString => [EmptyString]
  | String "." (String "." s) => EmptyString :: split_dots s
  | String c s => match split_dots s with
                  | x :: rest => String c x :: rest
                  | [] => [String c EmptyString]
                  end
  end.

Definition range_of (text : string) : option (string * string) :=
  match map py_strip (split_dots text) with [a; b] => Some (a, b) | _ => None end.

Definition backtest_request (pairs timeframes start stop : string) (seed : Z) (start_equity : float) (warmup : Z) : dict string pyval :=
  [("symbols", VList (map VStr (names pairs))); ("timeframes", VList (map VStr (names timeframes))); ("start", VStr start); ("end", VStr stop);
   ("seed", VInt seed); ("start_equity", VFloat start_equity); ("warmup_bars", VInt warmup)]%string.

(** [config] reads a request, [run] is the service's [run_backtest]: the id of the run. *)
Definition backtest_run (config : dict string pyval -> Res BacktestConfig) (run : BacktestConfig -> BacktestDB -> Res Z * BacktestDB)
  (range pairs timeframes : string) (seed : Z) (start_equity : float) (warmup : Z) (db : BacktestDB) : Res CliOut * BacktestDB :=
  match range_of range with
  | None => (Ok (fail_with 2 "error: --range must be START..END"), db)
  | Some (start, stop) =>
      match config (backtest_request pairs timeframes start stop seed start_equity warmup) with
      | Err e => (Err e, db)
      | Ok cfg => match run cfg db with
                  | (Ok run_id, db) => (Ok {| exit_code := 0; lines := [out ("backtest run " ++ uuid_str run_id ++ " persisted")%string] |}, db)
                  | (Err e, db) => (Ok (fail_with 1 ("error: " ++ str_of e)%string), db)
                  end
      end
  end.

Definition status_value (s : BacktestStatus) : string :=
  match s with RUNNING => "RUNNING" | COMPLETED => "COMPLETED" | FAILED => "FAILED" end.

Definition backtest_line (r : BacktestRunRow) : string :=
  (uuid_str (br_id r) ++ "  " ++ status_value (br_status r) ++ "  " ++ isoformat (br_started_at r) ++ "  net=" ++
   fmt false 2 (match br_metrics r with Some m => net_pnl m | None => f0 end))%string.
Definition backtest_list (limit : nat) (db : BacktestDB) : CliOut :=
  {| exit_code := 0; lines := map (fun r => out (backtest_line r)) (list_runs limit db) |}.

Definition coverage_dict (c : CoverageReport) : pyval :=
  VDict [("symbol", VStr (cov_symbol c)); ("timeframe", VStr (cov_timeframe c)); ("expected_bars", VInt (expected_bars c));
         ("technical", VInt (cov_technical c)); ("regime", VInt (cov_regime c)); ("fundamental", VInt (cov_fundamental c));
         ("sentiment", VInt (cov_sentiment c)); ("degraded", VBool (degraded c))]%string.
(** [RunMetrics.to_dict]. *)
Definition metrics_dict (m : RunMetrics) : dict string pyval :=
  [("net_pnl", VFloat (net_pnl m)); ("gross_pnl", VFloat (gross_pnl m)); ("total_costs", VFloat (total_costs m));
   ("num_trades", VInt (num_trades m)); ("win_rate", VFloat (win_rate m)); ("profit_factor", VFloat (profit_factor m));
   ("sharpe", VFloat (sharpe m)); ("sortino", VFloat (sortino m)); ("max_drawdown_pct", VFloat (m_max_drawdown_pct m));
   ("exposure_avg_pct", VFloat (exposure_avg_pct m)); ("bars", VInt (m_bars m)); ("degraded_runs", VInt (m_degraded_runs m));
   ("coverage", VList (map coverage_dict (m_coverage m)))]%string.

(** [uuid.UUID(text)]; [None] is a [ValueError]. *)
Context (parse_uuid : string -> option Z).

Definition backtest_show (run_id : string) (db : BacktestDB) : CliOut :=
  match parse_uuid run_id with
  | None => fail_with 1 ("error: " ++ str_of ValueError)%string
  | Some id =>
      match get_run id db with
      | None => fail_with 1 ("error: run " ++ run_id ++ " not found")%string
      | Some row =>
          {| exit_code := 0;
             lines := out ("run " ++ uuid_str (br_id row) ++ " status=" ++ status_value (br_status row) ++ " seed=" ++ pretty (br_seed row))%string
                      :: map (fun '(k, v) => out ("  " ++ k ++ ": " ++ py_str v)%string)
                             (match br_metrics row with Some m => metrics_dict m | None => [] end) |}
      end
  end.

(** ** Backfill *)

Context (fromisoformat : string -> option datetime).

(** The first timeframe that is none, and the window. *)
Definition backfill_end (end_ : string) (now : datetime) : Res datetime :=
  if String.eqb end_ "" then Ok now
  else match fromisoformat (replace_zulu end_) with Some t => Ok t | None => Err ValueError end.

Definition backfill_line (r : SeriesResult) : string :=
  (sr_symbol r ++ " " ++ sr_timeframe r ++ ": +" ++ pretty (inserted r) ++ " bars" ++
   (if (gaps_detected r =? 0)%Z then "" else " (" ++ pretty (gaps_detected r) ++ " provider gaps)"))%string.

(** The service of one command: a breaker of its own, and a publisher that does nothing. *)
Definition cli_service (threshold cooldown : Z) (db : DB) (health : dict string ProviderHealth) : Ingest :=
  {| breaker := new_breaker threshold cooldown; in_db := db; Ingest.health := health; quotes := []; published := [] |}.

Definition backfill (st : IngestSettings) (threshold cooldown : Z) (provider : Res DataProvider) (text : PyErr -> string)
  (clock : nat -> datetime) (now : datetime) (pairs timeframes start end_ : string) (db : DB) (health : dict string ProviderHealth)
  : Res CliOut * (DB * dict string ProviderHealth) :=
  let tfs := names timeframes in
  match List.find (fun tf => negb (is_valid tf)) tfs with
  | Some tf => (Ok (fail_with 2 ("error: unsupported timeframe " ++ repr_text tf)%string), (db, health))
  | None =>
      match match fromisoformat (replace_zulu start) with
            | None => Err ValueError
            | Some start_ts => end_ts <-- backfill_end end_ now ;; Ok (start_ts, end_ts)
            end with
      | Err e => (Err e, (db, health))
      | Ok (start_ts, end_ts) =>
          if negb (comparable start_ts end_ts) then (Err OtherError, (db, health))
          else if instant end_ts <=? instant start_ts then (Ok (fail_with 2 "error: end must be after start"), (db, health))
          else
            match provider with
            | Err e => (Ok (fail_with 1 ("error: " ++ str_of e)%string), (db, health))
            | Ok provider =>
                let '(seeded, db) := ensure_instruments (names pairs) db in
                match run_backfill st provider (fun _ => true) (fun _ => true) text clock seeded.*2 tfs start_ts end_ts
                        (cli_service threshold cooldown db health) with
                | Err e => (Ok (fail_with 1 ("error: " ++ str_of e)%string), (db, health))
                | Ok (results, s) => (Ok {| exit_code := 0; lines := map (fun r => out (backfill_line r)) results |}, (in_db s, Ingest.health s))
                end
            end
      end
  end.
End Cli.

(** ** Properties *)

Example range_example : range_of "2026-01-01T00:00:00.5Z .. 2026-02-01" = Some ("2026-01-01T00:00:00.5Z", "2026-02-01")%string. Proof. reflexivity. Qed.
Example range_one_dot : range_of "2026-01-01.2026-02-01" = None. Proof. reflexivity. Qed.
Example names_example : names " eurusd,, GbpUsd " = ["EURUSD"; "GBPUSD"]%string. Proof. reflexivity. Qed.

Section Properties.
Context `{Platform}.
Context (str_of : PyErr -> string) (uuid_str : Z -> string) (argon2_hash : nat -> string -> string)
  (fromisoformat : string -> option datetime).

(** The command creates exactly the account it reports.  It succeeds if and only if
    the address is not taken; then one active account is added with the asked role, or as an
    administrator when it is the first one, and the line names that role; otherwise the exit
    code is 1 and nothing changes. *)
Theorem createuser_bootstraps (email password : string) (role : UserRole) (s : Accounts) :
  let '(o, s') := createuser str_of uuid_str argon2_hash email password role s in
  (exit_code o = 0 <-> get_user_by_email (normalize_email email) s = None) /\
  (exit_code o <> 0 -> exit_code o = 1 /\ s' = s) /\
  (exit_code o = 0 -> exists user, users s' = users s ++ [user] /\ u_email user = normalize_email email /\ is_active user = true /\
     u_role user = (match users s with [] => ADMIN | _ => role end) /\
     lines o = [out ("created user " ++ email ++ " id=" ++ uuid_str (u_id user) ++ " role=" ++ role_value (u_role user))%string]).
Proof.
  unfold createuser, _create_user, register_user. destruct (get_user_by_email (normalize_email email) s) as [u|] eqn:E; cbn.
  - split; [split; [done|intros Hc; congruence]|]. split; [done|done].
  - split; [done|]. split; [done|]. intros _. eexists. split; [done|]. split; [done|]. split; [done|]. split; [|done].
    cbn. unfold bootstrap_role, count_users. destruct (users s) as [|u us]; cbn [length]; [|by rewrite (proj2 (Z.ltb_lt _ _)) by lia].
    cbn. by destruct role.
Qed.

(** Every series is reported, in order. *)
Lemma series_named st provider caches accepts text i tf now fs fe s :
  let r := (_ingest_series st provider caches accepts text i tf now fs fe s).1 in sr_symbol r = ins_symbol i /\ sr_timeframe r = tf.
Proof.
  unfold _ingest_series. destruct (before_call _ _) as [b|e]; [|done].
  destruct (ingest_body _ _ _ _ _ _ _ _ _ _) as [[r s']|e] eqn:Eb.
  - unfold ingest_body in Eb. apply res_bind_ok in Eb as ([start stop] & _ & Eb). destruct (_ <=? _); [by injection Eb as <- <-|].
    apply res_bind_ok in Eb as (f & _ & Eb). apply res_bind_ok in Eb as (ex & _ & Eb). apply res_bind_ok in Eb as ([[ins upd] db] & _ & Eb).
    by injection Eb as <- <-.
  - by destruct e; try done; cbn; unfold fail_series; destruct (record_failure _ _).
Qed.

Lemma run_all_names st provider caches accepts text clock fs fe instr tfs s :
  map (fun r => (sr_symbol r, sr_timeframe r)) (run_all st provider caches accepts text clock fs fe instr tfs s).1 =
  map (fun x => (ins_symbol x.1, x.2)) (list_prod instr tfs).
Proof.
  unfold run_all. generalize (list_prod instr tfs) as l. intros l.
  assert (Hg : forall f acc, (forall n x, (f n x : nat * (Instrument * string)).2 = x) ->
    map (fun r => (sr_symbol r, sr_timeframe r)) (foldl (run_series st provider caches accepts text clock fs fe) acc (imap f l)).1 =
    map (fun r => (sr_symbol r, sr_timeframe r)) acc.1 ++ map (fun x => (ins_symbol x.1, x.2)) l).
  { induction l as [|x l IH]; intros f [rs s0] Hf; cbn [imap foldl map fst]; [by rewrite app_nil_r|].
    rewrite IH by (intros n y; apply (Hf (S n) y)). unfold run_series. pose proof (Hf O x) as Hx. destruct (f O x) as [n [i tf]]. cbn [snd] in Hx. subst x.
    pose proof (series_named st provider caches accepts text i tf (clock n) fs fe s0) as Hn. destruct (_ingest_series _ _ _ _ _ _ _ _ _ _ _) as [r s1].
    cbn [fst] in *. destruct Hn as [H1 H2]. rewrite map_app. cbn [map]. rewrite H1, H2, <- app_assoc. done. }
  by apply (Hg (fun n x => (n, x)) ([], s)).
Qed.

(** A provider that never answers. *)
Definition unreachable (name : string) : DataProvider :=
  {| provider_name := name; fetch_candles := fun _ _ _ _ => Err ProviderTransientError |}.

Lemma unreachable_series st name caches accepts text i tf now fs fe s :
  let '(r, s') := _ingest_series st (unreachable name) caches accepts text i tf now fs fe s in
  inserted r = 0 /\ gaps_detected r = 0 /\ in_db s' = in_db s.
Proof.
  unfold _ingest_series. destruct (before_call _ _) as [b|e]; [|done].
  destruct (ingest_body _ _ _ _ _ _ _ _ _ _) as [[r s']|e] eqn:Eb.
  - unfold ingest_body in Eb. apply res_bind_ok in Eb as ([start stop] & _ & Eb). destruct (_ <=? _); [by injection Eb as <- <-|].
    apply res_bind_ok in Eb as (f & Hf & _). done.
  - by destruct e; try done; cbn; unfold fail_series; destruct (record_failure _ _).
Qed.

(** A backfill that got nothing looks like one that had nothing to get.  A command
    with a window and valid timeframes prints one line per instrument and timeframe, in
    order, and exits with 0 whatever happened; with a provider that never answers every line
    reports 0 bars without a gap, as if the series were complete, and no bar is stored. *)
Theorem backfill_hides_failures (st : IngestSettings) (threshold cooldown : Z) (provider : DataProvider) (text : PyErr -> string)
    (clock : nat -> datetime) (now a b : datetime) (pairs timeframes start end_ : string) (db : DB) (health : dict string ProviderHealth) :
  Forall (fun tf => is_valid tf = true) (names timeframes) ->
  fromisoformat (replace_zulu start) = Some a -> end_ <> ""%string -> fromisoformat (replace_zulu end_) = Some b ->
  comparable a b = true -> instant a < instant b ->
  let run p := backfill str_of fromisoformat st threshold cooldown (Ok p) text clock now pairs timeframes start end_ db health in
  let '(seeded, db1) := ensure_instruments (names pairs) db in
  (exists results s, run provider = (Ok {| exit_code := 0; lines := map (fun r => out (backfill_line r)) results |}, s) /\
     map (fun r => (sr_symbol r, sr_timeframe r)) results = map (fun x => (ins_symbol x.1, x.2)) (list_prod seeded.*2 (names timeframes))) /\
  (exists s, run (unreachable (provider_name provider)) =
     (Ok {| exit_code := 0; lines := map (fun x => out (ins_symbol x.1 ++ " " ++ x.2 ++ ": +0 bars")%string) (list_prod seeded.*2 (names timeframes)) |}, s) /\
     candles s.1 = candles db1).
Proof.
  intros Htf Ha Hne Hb Hc Hlt run. destruct (ensure_instruments (names pairs) db) as [seeded db1] eqn:Ee.
  assert (Hrun : forall p, run p =
    let '(results, s) := run_all st p (fun _ => true) (fun _ => true) text clock (Some a) (Some b) seeded.*2 (names timeframes)
                           (cli_service threshold cooldown db1 health) in
    (Ok {| exit_code := 0; lines := map (fun r => out (backfill_line r)) results |}, (in_db s, Ingest.health s))).
  { intros p. unfold run, backfill. destruct (List.find _ (names timeframes)) as [tf|] eqn:Ef.
    { apply List.find_some in Ef as [Hin Hn]. rewrite Forall_forall in Htf. rewrite (Htf tf) in Hn by by apply list_elem_of_In. done. }
    rewrite Ha. unfold backfill_end. rewrite (proj2 (String.eqb_neq _ _) Hne), Hb. cbn [res_bind]. rewrite Hc. cbn [negb].
    rewrite (proj2 (Z.leb_gt _ _) Hlt), Ee. unfold run_backfill. rewrite (proj2 (Z.leb_gt _ _) Hlt). by destruct (run_all _ _ _ _ _ _ _ _ _ _ _). }
  split.
  - rewrite Hrun. pose proof (run_all_names st provider (fun _ => true) (fun _ => true) text clock (Some a) (Some b) seeded.*2 (names timeframes)
      (cli_service threshold cooldown db1 health)) as Hn. destruct (run_all _ _ _ _ _ _ _ _ _ _ _) as [results s]. by exists results, (in_db s, Ingest.health s).
  - rewrite Hrun. set (p := unreachable _).
    pose proof (run_all_names st p (fun _ => true) (fun _ => true) text clock (Some a) (Some b) seeded.*2 (names timeframes)
      (cli_service threshold cooldown db1 health)) as Hn.
    assert (Hz : let '(results, s) := run_all st p (fun _ => true) (fun _ => true) text clock (Some a) (Some b) seeded.*2 (names timeframes)
                   (cli_service threshold cooldown db1 health) in
      Forall (fun r => inserted r = 0 /\ gaps_detected r = 0) results /\ in_db s = db1).
    { unfold run_all. generalize (imap (fun n x => (n, x)) (list_prod seeded.*2 (names timeframes))) as l. intros l.
      assert (Hg : forall acc, Forall (fun r => inserted r = 0 /\ gaps_detected r = 0) acc.1 -> in_db acc.2 = db1 ->
        let '(results, s) := foldl (run_series st p (fun _ => true) (fun _ => true) text clock (Some a) (Some b)) acc l in
        Forall (fun r => inserted r = 0 /\ gaps_detected r = 0) results /\ in_db s = db1).
      { induction l as [|[n [i tf]] l IH]; intros [rs s0] H1 H2; [by split|]. cbn [foldl fst snd] in *. unfold run_series at 2.
        pose proof (unreachable_series st (provider_name provider) (fun _ => true) (fun _ => true) text i tf (clock n) (Some a) (Some b) s0) as Hu.
        fold p in Hu. destruct (_ingest_series _ _ _ _ _ _ _ _ _ _ _) as [r s1]. destruct Hu as (Hi & Hgp & Hdb). apply IH; cbn [fst snd].
        - apply Forall_app. split; [done|]. by constructor.
        - congruence. }
      apply Hg; [constructor|done]. }
    destruct (run_all _ _ _ _ _ _ _ _ _ _ _) as [results s]. destruct Hz as [Hz Hdb]. cbn [fst] in Hn. exists (in_db s, Ingest.health s). split.
    + do 3 f_equal. clear -Hn Hz. revert Hn. generalize (list_prod seeded.*2 (names timeframes)). induction Hz as [|r rs [H1 H2] _ IH]; intros [|[i tf] l]; try done.
      cbn [map]. intros [= E1 E2 E3]. f_equal; [|by apply IH]. unfold backfill_line. rewrite H1, H2, E1, E2. done.
    + cbn [fst]. by rewrite Hdb.
Qed.
End Properties.

Lemma backfill_hides_failures_witness :
  let run p := @backfill demo_platform (fun _ => "down"%string) (fun s => if String.eqb s "a" then Some (utc 0) else Some (utc 7200000000)) demo_ingest_settings 5 60
                 (Ok p) (fun _ => "down"%string) (fun _ => utc 7200000000) (utc 7200000000) "EURUSD" "H1" "a" "b" empty_db [] in
  exists s, run (unreachable "demo") = (Ok {| exit_code := 0; lines := [out "EURUSD H1: +0 bars"] |}, s).
Proof.
  destruct (@backfill_hides_failures demo_platform (fun _ => "down"%string) (fun s => if String.eqb s "a" then Some (utc 0) else Some (utc 7200000000))
    demo_ingest_settings 5 60 Ingest.demo_provider (fun _ => "down"%string) (fun _ => utc 7200000000) (utc 7200000000) (utc 0) (utc 7200000000) "EURUSD" "H1" "a" "b" empty_db [])
    as [_ (s & Hs & _)].
  - by repeat constructor.
  - reflexivity.
  - discriminate.
  - reflexivity.
  - reflexivity.
  - reflexivity.
  - exists s. exact Hs.
Defined.
