(* ===== verification/Schema.v ===== *)
(** * Tables as the data definition language declares them

    What [op.create_table], [op.create_index] and their inverses of a migration script do
    to a PostgreSQL schema ([app/db/base.py] and the calls of [migrations/versions/]), and
    what a declarative model declares.  A statement PostgreSQL refuses has no result.
    Python-side defaults and [onupdate] are not part of a schema. *)

From stdpp Require Import base list strings.
From S2P Require Import Prelude.

(** ** Columns *)

Inductive SqlType :=
| UUID | VARCHAR (length : option nat) | TEXT | NUMERIC (precision scale : nat) | BOOLEAN
| TIMESTAMPTZ | INTEGER | SMALLINT | BIGINT | JSONB | VARCHAR_ARRAY (length : nat)
| ENUM (name : string) (labels : list string).

Record Reference := { ref_table : string; ref_column : string; ondelete : string }.

Record ColumnDef := {
  cd_name : string;
  cd_type : SqlType;
  cd_nullable : bool;
  cd_primary_key : bool;
  cd_server_default : option string;
  cd_reference : option Reference;
  cd_allowed : option (list string);     (* the list of a check [c IN (...)] *)
  cd_indexed : option bool               (* [index=True], with [unique] *)
}.

#[export] Instance SqlType_eq_dec : EqDecision SqlType.
Proof. solve_decision. Defined.
#[export] Instance Reference_eq_dec : EqDecision Reference.
Proof. solve_decision. Defined.
#[export] Instance ColumnDef_eq_dec : EqDecision ColumnDef.
Proof. solve_decision. Defined.

(** The keyword arguments and nested constraints of a column. *)
Inductive ColumnOption :=
| primary_key | not_null | null
| server_default (value : string)
| ForeignKey (table column on_delete : string)
| IN_list (values : list string)
| indexed (unique : bool).

Definition apply_option (c : ColumnDef) (o : ColumnOption) : ColumnDef :=
  let '{| cd_name := n; cd_type := ty; cd_nullable := nl; cd_primary_key := pk; cd_server_default := d;
          cd_reference := r; cd_allowed := a; cd_indexed := i |} := c in
  let mk nl pk d r a i :=
    {| cd_name := n; cd_type := ty; cd_nullable := nl; cd_primary_key := pk; cd_server_default := d;
       cd_reference := r; cd_allowed := a; cd_indexed := i |} in
  match o with
  | primary_key => mk false true d r a i
  | not_null => mk false pk d r a i
  | null => mk true pk d r a i
  | server_default v => mk nl pk (Some v) r a i
  | ForeignKey t col act => mk nl pk d (Some {| ref_table := t; ref_column := col; ondelete := act |}) a i
  | IN_list vs => mk nl pk d r (Some vs) i
  | indexed u => mk nl pk d r a (Some u)
  end.

Definition Column (name : string) (ty : SqlType) (options : list ColumnOption) : ColumnDef :=
  foldl apply_option
    {| cd_name := name; cd_type := ty; cd_nullable := true; cd_primary_key := false; cd_server_default := None;
       cd_reference := None; cd_allowed := None; cd_indexed := None |} options.

(** ** Tables and indexes *)

Record Unique := { uq_name : string; uq_columns : list string }.
Record TableDef := { td_name : string; td_columns : list ColumnDef; td_uniques : list Unique }.
Record IndexDef := {
  ix_name : string; ix_table : string; ix_columns : list string; ix_unique : bool; ix_where : option string
}.

#[export] Instance Unique_eq_dec : EqDecision Unique.
Proof. solve_decision. Defined.
#[export] Instance TableDef_eq_dec : EqDecision TableDef.
Proof. solve_decision. Defined.
#[export] Instance IndexDef_eq_dec : EqDecision IndexDef.
Proof. solve_decision. Defined.

Record SchemaDef := {
  sd_types : list (string * list string);
  sd_tables : list TableDef;
  sd_indexes : list IndexDef
}.
#[export] Instance SchemaDef_eq_dec : EqDecision SchemaDef.
Proof. solve_decision. Defined.

Definition empty_schema : SchemaDef := {| sd_types := []; sd_tables := []; sd_indexes := [] |}.

Definition find_table (s : SchemaDef) (name : string) : option TableDef :=
  List.find (fun t => bool_decide (td_name t = name)) (sd_tables s).
Definition find_column (t : TableDef) (name : string) : option ColumnDef :=
  List.find (fun c => bool_decide (cd_name c = name)) (td_columns t).
Definition column_names (t : TableDef) : list string := map cd_name (td_columns t).
Definition primary_columns (t : TableDef) : list string := map cd_name (List.filter cd_primary_key (td_columns t)).

(** Tables, indexes and unique constraints share one name space; ["pk"] of the naming
    convention names the index of the primary key. *)
Definition table_relations (t : TableDef) : list string :=
  [td_name t; "pk_" +:+ td_name t]%string ++ map uq_name (td_uniques t).
Definition relations (s : SchemaDef) : list string :=
  concat (map table_relations (sd_tables s)) ++ map ix_name (sd_indexes s) ++ map fst (sd_types s).

(** The keys of a table a row may violate: its primary key, its unique constraints and its
    unique indexes on all rows. *)
Definition unique_keys (s : SchemaDef) (t : TableDef) : list (list string) :=
  primary_columns t :: map uq_columns (td_uniques t)
  ++ map ix_columns (List.filter (fun i => bool_decide (ix_table i = td_name t) && ix_unique i
                                           && bool_decide (ix_where i = None)) (sd_indexes s)).

Definition same_columns (xs ys : list string) : bool :=
  forallb (fun x => bool_decide (x ∈ ys)) xs && forallb (fun y => bool_decide (y ∈ xs)) ys.

(** ** Statements *)

Inductive Op :=
| create_table (name : string) (columns : list ColumnDef) (uniques : list Unique)
| create_index (name table : string) (columns : list string) (unique : bool) (postgresql_where : option string)
| drop_index (name table : string)
| drop_table (name : string)
| drop_enum (name : string).              (* [checkfirst=True] *)

Definition UniqueConstraint (columns : list string) (name : string) : Unique :=
  {| uq_name := name; uq_columns := columns |}.

(** A reference needs a key of the table it names. *)
Definition reference_ok (s : SchemaDef) (c : ColumnDef) : bool :=
  match cd_reference c with
  | None => true
  | Some r => match find_table s (ref_table r) with
              | Some t => existsb (same_columns [ref_column r]) (unique_keys s t)
              | None => false
              end
  end.

Definition enums (columns : list ColumnDef) : list (string * list string) :=
  omap (fun c => match cd_type c with ENUM n labels => Some (n, labels) | _ => None end) columns.

Definition references (name : string) (t : TableDef) : bool :=
  existsb (fun c => match cd_reference c with Some r => bool_decide (ref_table r = name) | None => false end)
          (td_columns t).

Definition when {A} (b : bool) (x : A) : option A := if b then Some x else None.

Definition apply_op (s : SchemaDef) (o : Op) : option SchemaDef :=
  let fresh names := forallb (fun n => negb (bool_decide (n ∈ relations s))) names && bool_decide (NoDup names) in
  match o with
  | create_table name columns uniques =>
      let t := {| td_name := name; td_columns := columns; td_uniques := uniques |} in
      when (fresh (table_relations t ++ (enums columns).*1) && bool_decide (NoDup (column_names t))
            && forallb (reference_ok s) columns
            && forallb (fun u => forallb (fun c => bool_decide (c ∈ column_names t)) (uq_columns u)) uniques)
           {| sd_types := sd_types s ++ enums columns; sd_tables := sd_tables s ++ [t]; sd_indexes := sd_indexes s |}
  | create_index name table columns unique postgresql_where =>
      match find_table s table with
      | None => None
      | Some t =>
          when (fresh [name] && forallb (fun c => bool_decide (c ∈ column_names t)) columns)
               {| sd_types := sd_types s; sd_tables := sd_tables s;
                  sd_indexes := sd_indexes s ++ [{| ix_name := name; ix_table := table; ix_columns := columns;
                                                    ix_unique := unique; ix_where := postgresql_where |}] |}
      end
  | drop_index name _ =>
      when (existsb (fun i => bool_decide (ix_name i = name)) (sd_indexes s))
           {| sd_types := sd_types s; sd_tables := sd_tables s;
              sd_indexes := List.filter (fun i => negb (bool_decide (ix_name i = name))) (sd_indexes s) |}
  | drop_table name =>
      let others := List.filter (fun t => negb (bool_decide (td_name t = name))) (sd_tables s) in
      when (existsb (fun t => bool_decide (td_name t = name)) (sd_tables s)
            && negb (existsb (references name) others))
           {| sd_types := sd_types s; sd_tables := others;
              sd_indexes := List.filter (fun i => negb (bool_decide (ix_table i = name))) (sd_indexes s) |}
  | drop_enum name =>
      when (negb (existsb (fun t => existsb (fun e => bool_decide (e.1 = name)) (enums (td_columns t))) (sd_tables s)))
           {| sd_types := List.filter (fun e => negb (bool_decide (e.1 = name))) (sd_types s);
              sd_tables := sd_tables s; sd_indexes := sd_indexes s |}
  end.

Fixpoint apply_ops (s : SchemaDef) (ops : list Op) : option SchemaDef :=
  match ops with
  | [] => Some s
  | o :: ops => s ← apply_op s o; apply_ops s ops
  end.

(** ** What a column takes *)

(** A text, or [NULL], bound to a column. *)
Definition column_accepts (c : ColumnDef) (v : option string) : bool :=
  match v with
  | None => cd_nullable c
  | Some x =>
      match cd_type c with
      | VARCHAR (Some n) => Nat.leb (String.length x) n
      | ENUM _ labels => bool_decide (x ∈ labels)
      | _ => true
      end
      && match cd_allowed c with Some values => bool_decide (x ∈ values) | None => true end
  end.

Definition column_of (s : SchemaDef) (table column : string) : option ColumnDef :=
  t ← find_table s table; find_column t column.

(** The texts of a row, by column, against a table of the schema. *)
Definition row_accepted (s : SchemaDef) (table : string) (row : dict string (option string)) : bool :=
  forallb (fun e => match column_of s table e.1 with Some c => column_accepts c e.2 | None => false end) row.

(** [ON CONFLICT (columns)] needs a key of exactly these columns. *)
Definition arbiter (s : SchemaDef) (target : string * list string) : bool :=
  match find_table s target.1 with
  | None => false
  | Some t => existsb (same_columns target.2) (unique_keys s t)
  end.

(** ** Declarative models *)

Inductive TableArg :=
| UniqueArg (columns : list string) (name : string)
| CheckArg (column : string) (values : list string)       (* [CheckConstraint("c IN (...)")] *)
| IndexArg (name : string) (columns : list string) (unique : bool) (postgresql_where : option string).

Definition check_column (args : list TableArg) (c : ColumnDef) : ColumnDef :=
  foldl (fun c a => match a with
                    | CheckArg column values => if bool_decide (column = cd_name c) then apply_option c (IN_list values) else c
                    | _ => c
                    end) c args.

(** The table and the indexes of a mapped class; [index=True] names its index by the
    ["ix"] convention. *)
Definition declare (tablename : string) (columns : list ColumnDef) (args : list TableArg) : TableDef * list IndexDef :=
  ({| td_name := tablename; td_columns := map (check_column args) columns;
      td_uniques := omap (fun a => match a with UniqueArg cs n => Some (UniqueConstraint cs n) | _ => None end) args |},
   omap (fun c => (fun u => {| ix_name := ("ix_" +:+ tablename +:+ "_" +:+ cd_name c)%string; ix_table := tablename;
                               ix_columns := [cd_name c]; ix_unique := u; ix_where := None |}) <$> cd_indexed c) columns
   ++ omap (fun a => match a with
                     | IndexArg n cs u w => Some {| ix_name := n; ix_table := tablename; ix_columns := cs;
                                                   ix_unique := u; ix_where := w |}
                     | _ => None
                     end) args).

(** ** Comparing declarations with a schema *)

Inductive Drift :=
| TableMissing (table : string) | ColumnMissing (table column : string)
| TypeDiffers (table column : string) | NullableDiffers (table column : string)
| KeyDiffers (table column : string) | DefaultDiffers (table column : string)
| ReferenceDiffers (table column : string) | CheckDiffers (table column : string)
| UniqueDiffers (table : string) | IndexDiffers (table : string).

Definition column_drift (table : string) (a b : ColumnDef) : list Drift :=
  let test (same : bool) d := if same then [] else [d table (cd_name a)] in
  test (bool_decide (cd_type a = cd_type b)) TypeDiffers
  ++ test (Bool.eqb (cd_nullable a) (cd_nullable b)) NullableDiffers
  ++ test (Bool.eqb (cd_primary_key a) (cd_primary_key b)) KeyDiffers
  ++ test (bool_decide (cd_server_default a = cd_server_default b)) DefaultDiffers
  ++ test (bool_decide (cd_reference a = cd_reference b)) ReferenceDiffers
  ++ test (bool_decide (cd_allowed a = cd_allowed b)) CheckDiffers.

Definition columns_drift (a b : TableDef) : list Drift :=
  concat (map (fun c => match find_column b (cd_name c) with
                        | Some d => column_drift (td_name a) c d
                        | None => [ColumnMissing (td_name a) (cd_name c)]
                        end) (td_columns a)).

Definition same_members {A} `{EqDecision A} (xs ys : list A) : bool :=
  forallb (fun x => bool_decide (x ∈ ys)) xs && forallb (fun y => bool_decide (y ∈ xs)) ys.

Definition table_drift (s : SchemaDef) (m : TableDef * list IndexDef) : list Drift :=
  let name := td_name m.1 in
  match find_table s name with
  | None => [TableMissing name]
  | Some t =>
      columns_drift m.1 t
      ++ concat (map (fun c => if bool_decide (cd_name c ∈ column_names m.1) then []
                               else [ColumnMissing name (cd_name c)]) (td_columns t))
      ++ (if same_members (td_uniques m.1) (td_uniques t) then [] else [UniqueDiffers name])
      ++ (if same_members m.2 (List.filter (fun i => bool_decide (ix_table i = name)) (sd_indexes s)) then []
          else [IndexDiffers name])
  end.

Definition drift (models : list (TableDef * list IndexDef)) (s : SchemaDef) : list Drift :=
  concat (map (table_drift s) models)
  ++ concat (map (fun t => if bool_decide (td_name t ∈ map (fun m => td_name m.1) models) then []
                           else [TableMissing (td_name t)]) (sd_tables s)).
