(* ===== verification/Migrations.v ===== *)
(** * Migrations and mapped classes ([migrations/versions/], [app/models/], [app/db/base.py])

    A script is its revision, the revision it follows and the statements of its [upgrade]
    and [downgrade].  [alembic] runs the scripts of one command in one transaction, and
    moves the revision recorded in the database from the one a script follows to the one it
    makes, or refuses when another is recorded.  The mapped classes are declared as the
    models declare them and compared with the schema the scripts build. *)

From stdpp Require Import base list strings.
From S2P Require Import Prelude PyFloat Timeframes Signals Decision Tables Positions Accounts BacktestRun Orchestrator Portfolio Alerts News Problems System Cli Schema.

Open Scope string_scope.
Open Scope list_scope.

(** ** The scripts *)

Record Migration := {
  revision : string;
  down_revision : option string;
  upgrade : list Op;
  downgrade : list Op
}.

Definition Varchar (n : nat) : SqlType := VARCHAR (Some n).
Definition user_role_enum : SqlType := ENUM "user_role" ["viewer"; "trader"; "admin"].

Definition upgrade_0001 : list Op :=
  [create_table "users"
     [Column "id" UUID [primary_key];
      Column "email" (Varchar 320) [not_null];
      Column "hashed_password" (Varchar 512) [not_null];
      Column "role" user_role_enum [not_null];
      Column "is_active" BOOLEAN [not_null];
      Column "last_login_at" TIMESTAMPTZ [null];
      Column "created_at" TIMESTAMPTZ [server_default "now()"; not_null];
      Column "updated_at" TIMESTAMPTZ [server_default "now()"; not_null]]
     [];
   create_index "ix_users_email" "users" ["email"] true None;
   create_table "refresh_tokens"
     [Column "id" UUID [primary_key];
      Column "user_id" UUID [ForeignKey "users" "id" "CASCADE"; not_null];
      Column "jti" (Varchar 64) [not_null];
      Column "family_id" UUID [not_null];
      Column "expires_at" TIMESTAMPTZ [not_null];
      Column "revoked_at" TIMESTAMPTZ [null];
      Column "replaced_by_jti" (Varchar 64) [null];
      Column "created_ip" (Varchar 64) [null];
      Column "user_agent" (Varchar 512) [null];
      Column "created_at" TIMESTAMPTZ [server_default "now()"; not_null]]
     [];
   create_index "ix_refresh_tokens_user_id" "refresh_tokens" ["user_id"] false None;
   create_index "ix_refresh_tokens_jti" "refresh_tokens" ["jti"] true None;
   create_index "ix_refresh_tokens_family_id" "refresh_tokens" ["family_id"] false None;
   create_index "ix_refresh_tokens_family_active" "refresh_tokens" ["family_id"; "user_id"] false None;
   create_table "audit_log"
     [Column "id" UUID [primary_key];
      Column "actor" (Varchar 128) [not_null];
      Column "action" (Varchar 128) [not_null];
      Column "entity_type" (Varchar 128) [null];
      Column "entity_id" (Varchar 128) [null];
      Column "before" JSONB [null];
      Column "after" JSONB [null];
      Column "ip_address" (Varchar 64) [null];
      Column "created_at" TIMESTAMPTZ [server_default "now()"; not_null]]
     [];
   create_index "ix_audit_log_created_at" "audit_log" ["created_at"] false None;
   create_index "ix_audit_log_actor_action" "audit_log" ["actor"; "action"] false None;
   create_table "system_settings"
     [Column "key" (Varchar 128) [primary_key];
      Column "value" JSONB [not_null];
      Column "description" (Varchar 512) [null];
      Column "updated_by_user_id" (Varchar 64) [null];
      Column "updated_at" TIMESTAMPTZ [server_default "now()"; not_null]]
     []].

Definition downgrade_0001 : list Op :=
  [drop_table "system_settings";
   drop_index "ix_audit_log_actor_action" "audit_log";
   drop_index "ix_audit_log_created_at" "audit_log";
   drop_table "audit_log";
   drop_index "ix_refresh_tokens_family_active" "refresh_tokens";
   drop_index "ix_refresh_tokens_family_id" "refresh_tokens";
   drop_index "ix_refresh_tokens_jti" "refresh_tokens";
   drop_index "ix_refresh_tokens_user_id" "refresh_tokens";
   drop_table "refresh_tokens";
   drop_index "ix_users_email" "users";
   drop_table "users";
   drop_enum "user_role"].

Definition migration_0001 : Migration :=
  {| revision := "0001"; down_revision := None; upgrade := upgrade_0001; downgrade := downgrade_0001 |}.

Definition upgrade_0002 : list Op :=
  [create_table "instruments"
     [Column "id" UUID [primary_key];
      Column "symbol" (Varchar 12) [not_null];
      Column "base" (Varchar 8) [not_null];
      Column "quote" (Varchar 8) [not_null];
      Column "pip_size" (NUMERIC 12 8) [not_null];
      Column "price_decimals" SMALLINT [not_null];
      Column "active" BOOLEAN [not_null];
      Column "created_at" TIMESTAMPTZ [server_default "now()"; not_null];
      Column "updated_at" TIMESTAMPTZ [server_default "now()"; not_null]]
     [];
   create_index "ix_instruments_symbol" "instruments" ["symbol"] true None;
   create_table "candles"
     [Column "instrument_id" UUID [ForeignKey "instruments" "id" "CASCADE"; primary_key];
      Column "timeframe" (Varchar 4) [primary_key];
      Column "ts" TIMESTAMPTZ [primary_key];
      Column "open" (NUMERIC 18 8) [not_null];
      Column "high" (NUMERIC 18 8) [not_null];
      Column "low" (NUMERIC 18 8) [not_null];
      Column "close" (NUMERIC 18 8) [not_null];
      Column "volume" BIGINT [not_null];
      Column "source" (Varchar 24) [not_null];
      Column "complete" BOOLEAN [not_null];
      Column "tf_minutes" SMALLINT [not_null]]
     [];
   create_table "provider_health"
     [Column "provider" (Varchar 32) [primary_key];
      Column "last_ok_at" TIMESTAMPTZ [null];
      Column "consecutive_failures" INTEGER [not_null];
      Column "breaker_state" (Varchar 12) [not_null];
      Column "breaker_opened_at" TIMESTAMPTZ [null];
      Column "updated_at" TIMESTAMPTZ [null]]
     []].

Definition downgrade_0002 : list Op :=
  [drop_table "provider_health";
   drop_table "candles";
   drop_index "ix_instruments_symbol" "instruments";
   drop_table "instruments"].

Definition migration_0002 : Migration :=
  {| revision := "0002"; down_revision := Some "0001"; upgrade := upgrade_0002; downgrade := downgrade_0002 |}.

Definition upgrade_0003 : list Op :=
  [create_table "agent_signals"
     [Column "id" UUID [primary_key];
      Column "run_id" (Varchar 64) [not_null];
      Column "agent_id" (Varchar 32) [not_null];
      Column "agent_version" (Varchar 16) [not_null];
      Column "symbol" (Varchar 12) [not_null];
      Column "timeframe" (Varchar 4) [not_null];
      Column "direction" (Varchar 8) [IN_list ["LONG"; "SHORT"; "FLAT"]; not_null];
      Column "confidence" (NUMERIC 6 4) [not_null];
      Column "bucket_ts" TIMESTAMPTZ [not_null];
      Column "rationale" TEXT [null];
      Column "features" JSONB [not_null];
      Column "created_at" TIMESTAMPTZ [server_default "now()"; not_null];
      Column "valid_until" TIMESTAMPTZ [null]]
     [UniqueConstraint ["agent_id"; "symbol"; "timeframe"; "bucket_ts"] "uq_agent_signals_identity"];
   create_index "ix_agent_signals_symbol_tf_created" "agent_signals" ["symbol"; "timeframe"; "created_at"] false None].

Definition downgrade_0003 : list Op :=
  [drop_index "ix_agent_signals_symbol_tf_created" "agent_signals";
   drop_table "agent_signals"].

Definition migration_0003 : Migration :=
  {| revision := "0003"; down_revision := Some "0002"; upgrade := upgrade_0003; downgrade := downgrade_0003 |}.

Definition upgrade_0004 : list Op :=
  [create_table "economic_events"
     [Column "id" UUID [primary_key];
      Column "dedup_key" (Varchar 64) [not_null];
      Column "provider" (Varchar 32) [not_null];
      Column "external_id" (Varchar 128) [null];
      Column "title" TEXT [not_null];
      Column "currency" (Varchar 8) [not_null];
      Column "symbols" (VARCHAR_ARRAY 12) [not_null];
      Column "importance" (Varchar 8) [IN_list ["low"; "medium"; "high"]; not_null];
      Column "timestamp_utc" TIMESTAMPTZ [not_null];
      Column "actual" TEXT [null];
      Column "forecast" TEXT [null];
      Column "previous" TEXT [null];
      Column "surprise_score" (NUMERIC 8 4) [null];
      Column "raw_payload" JSONB [not_null];
      Column "created_at" TIMESTAMPTZ [server_default "now()"; not_null];
      Column "updated_at" TIMESTAMPTZ [server_default "now()"; null]]
     [UniqueConstraint ["dedup_key"] "uq_economic_events_dedup"];
   create_index "ix_economic_events_ts" "economic_events" ["timestamp_utc"] false None;
   create_index "ix_economic_events_currency_ts" "economic_events" ["currency"; "timestamp_utc"] false None;
   create_table "news_items"
     [Column "id" UUID [primary_key];
      Column "item_hash" (Varchar 64) [not_null];
      Column "provider" (Varchar 32) [not_null];
      Column "external_id" (Varchar 128) [null];
      Column "url" TEXT [null];
      Column "headline" TEXT [not_null];
      Column "summary" TEXT [null];
      Column "symbols" (VARCHAR_ARRAY 12) [not_null];
      Column "published_utc" TIMESTAMPTZ [not_null];
      Column "raw_payload" JSONB [not_null];
      Column "created_at" TIMESTAMPTZ [server_default "now()"; not_null]]
     [UniqueConstraint ["item_hash"] "uq_news_items_hash"];
   create_index "ix_news_items_published" "news_items" ["published_utc"] false None;
   create_index "ix_news_items_symbols_published" "news_items" ["symbols"; "published_utc"] false None].

Definition downgrade_0004 : list Op :=
  [drop_index "ix_news_items_symbols_published" "news_items";
   drop_index "ix_news_items_published" "news_items";
   drop_table "news_items";
   drop_index "ix_economic_events_currency_ts" "economic_events";
   drop_index "ix_economic_events_ts" "economic_events";
   drop_table "economic_events"].

Definition migration_0004 : Migration :=
  {| revision := "0004"; down_revision := Some "0003"; upgrade := upgrade_0004; downgrade := downgrade_0004 |}.

Definition upgrade_0005 : list Op :=
  [create_table "decisions"
     [Column "id" UUID [primary_key];
      Column "run_id" (Varchar 64) [not_null];
      Column "symbol" (Varchar 12) [not_null];
      Column "timeframe" (Varchar 4) [not_null];
      Column "bucket_ts" TIMESTAMPTZ [not_null];
      Column "fused_direction" (Varchar 8) [IN_list ["LONG"; "SHORT"; "FLAT"]; not_null];
      Column "confidence" (NUMERIC 6 4) [not_null];
      Column "agreement" (NUMERIC 6 4) [not_null];
      Column "status" (Varchar 12) [IN_list ["ANALYSIS"; "PAPER"; "BLOCKED"]; not_null];
      Column "veto_code" (Varchar 32) [null];
      Column "veto_reason" TEXT [null];
      Column "inputs_hash" (Varchar 64) [not_null];
      Column "weights" JSONB [not_null];
      Column "code_versions" JSONB [not_null];
      Column "rationale" TEXT [null];
      Column "decision_at" TIMESTAMPTZ [server_default "now()"; not_null];
      Column "valid_until" TIMESTAMPTZ [null]]
     [UniqueConstraint ["symbol"; "timeframe"; "bucket_ts"] "uq_decisions_identity"];
   create_index "ix_decisions_symbol_tf_dt" "decisions" ["symbol"; "timeframe"; "decision_at"] false None;
   create_table "risk_evaluations"
     [Column "id" UUID [primary_key];
      Column "decision_id" UUID [ForeignKey "decisions" "id" "SET NULL"; null];
      Column "symbol" (Varchar 12) [not_null];
      Column "timeframe" (Varchar 4) [not_null];
      Column "bucket_ts" TIMESTAMPTZ [not_null];
      Column "position_size_units" (NUMERIC 20 6) [null];
      Column "price" (NUMERIC 18 8) [null];
      Column "atr" (NUMERIC 18 8) [null];
      Column "stop_loss" (NUMERIC 18 8) [null];
      Column "take_profit" (NUMERIC 18 8) [null];
      Column "rr_ratio" (NUMERIC 8 4) [null];
      Column "risk_pct_account" (NUMERIC 8 4) [null];
      Column "exposure_ok" BOOLEAN [not_null];
      Column "correlation_ok" BOOLEAN [not_null];
      Column "daily_loss_ok" BOOLEAN [not_null];
      Column "drawdown_ok" BOOLEAN [not_null];
      Column "passed" BOOLEAN [not_null];
      Column "reasons" JSONB [not_null];
      Column "evaluated_at" TIMESTAMPTZ [server_default "now()"; not_null]]
     [UniqueConstraint ["symbol"; "timeframe"; "bucket_ts"] "uq_risk_evaluations_identity"];
   create_table "risk_state"
     [Column "id" UUID [primary_key];
      Column "scope" (Varchar 32) [not_null];
      Column "period_key" (Varchar 64) [not_null];
      Column "realized_loss" (NUMERIC 18 8) [not_null];
      Column "peak_equity" (NUMERIC 18 8) [not_null];
      Column "max_drawdown" (NUMERIC 18 8) [not_null];
      Column "exposure" (NUMERIC 20 6) [not_null];
      Column "updated_at" TIMESTAMPTZ [server_default "now()"; not_null]]
     [UniqueConstraint ["scope"; "period_key"] "uq_risk_state_scope_period"]].

Definition downgrade_0005 : list Op :=
  [drop_table "risk_state";
   drop_table "risk_evaluations";
   drop_index "ix_decisions_symbol_tf_dt" "decisions";
   drop_table "decisions"].

Definition migration_0005 : Migration :=
  {| revision := "0005"; down_revision := Some "0004"; upgrade := upgrade_0005; downgrade := downgrade_0005 |}.

Definition upgrade_0006 : list Op :=
  [create_table "backtest_runs"
     [Column "id" UUID [primary_key];
      Column "config" JSONB [not_null];
      Column "data_range" JSONB [not_null];
      Column "seed" INTEGER [not_null];
      Column "code_versions" JSONB [not_null];
      Column "status" (Varchar 16) [IN_list ["RUNNING"; "COMPLETED"; "FAILED"]; not_null];
      Column "error" TEXT [null];
      Column "metrics" JSONB [not_null];
      Column "created_at" TIMESTAMPTZ [server_default "now()"; not_null];
      Column "started_at" TIMESTAMPTZ [server_default "now()"; not_null];
      Column "finished_at" TIMESTAMPTZ [null]]
     [];
   create_index "ix_backtest_runs_created" "backtest_runs" ["created_at"] false None;
   create_table "backtest_trades"
     [Column "id" UUID [primary_key];
      Column "run_id" UUID [ForeignKey "backtest_runs" "id" "CASCADE"; not_null];
      Column "symbol" (Varchar 12) [not_null];
      Column "timeframe" (Varchar 4) [not_null];
      Column "side" (Varchar 8) [IN_list ["LONG"; "SHORT"]; not_null];
      Column "units" (NUMERIC 20 6) [not_null];
      Column "entry_ts" TIMESTAMPTZ [not_null];
      Column "entry_price" (NUMERIC 18 8) [not_null];
      Column "exit_ts" TIMESTAMPTZ [not_null];
      Column "exit_price" (NUMERIC 18 8) [not_null];
      Column "gross_pnl" (NUMERIC 20 6) [not_null];
      Column "costs" (NUMERIC 20 6) [not_null];
      Column "net_pnl" (NUMERIC 20 6) [not_null];
      Column "exit_reason" (Varchar 16) [not_null]]
     [];
   create_index "ix_backtest_trades_run_symbol" "backtest_trades" ["run_id"; "symbol"] false None;
   create_table "backtest_equity"
     [Column "id" UUID [primary_key];
      Column "run_id" UUID [ForeignKey "backtest_runs" "id" "CASCADE"; not_null];
      Column "ts" TIMESTAMPTZ [not_null];
      Column "equity" (NUMERIC 20 6) [not_null];
      Column "drawdown_pct" (NUMERIC 12 8) [not_null]]
     [UniqueConstraint ["run_id"; "ts"] "uq_backtest_equity_run_ts"]].

Definition downgrade_0006 : list Op :=
  [drop_table "backtest_equity";
   drop_table "backtest_trades";
   drop_index "ix_backtest_runs_created" "backtest_runs";
   drop_table "backtest_runs"].

Definition migration_0006 : Migration :=
  {| revision := "0006"; down_revision := Some "0005"; upgrade := upgrade_0006; downgrade := downgrade_0006 |}.

Definition upgrade_0007 : list Op :=
  [create_table "alert_events"
     [Column "id" UUID [primary_key];
      Column "event_id" (Varchar 64) [not_null];
      Column "event_type" (Varchar 64) [not_null];
      Column "source" (Varchar 32) [not_null; server_default "unknown"];
      Column "severity" (Varchar 16)
        [IN_list ["info"; "warning"; "critical"]; not_null; server_default "info"];
      Column "title" (Varchar 255) [not_null];
      Column "message" TEXT [null];
      Column "symbol" (Varchar 12) [null];
      Column "timeframe" (Varchar 8) [null];
      Column "producer" (Varchar 64) [not_null; server_default ""];
      Column "correlation_id" (Varchar 64) [null];
      Column "occurred_at" TIMESTAMPTZ [not_null];
      Column "payload" JSONB [not_null];
      Column "acknowledged_at" TIMESTAMPTZ [null];
      Column "acknowledged_by" (Varchar 128) [null];
      Column "created_at" TIMESTAMPTZ [server_default "now()"; not_null]]
     [];
   create_index "ix_alert_events_occurred_at" "alert_events" ["occurred_at"] false None;
   create_index "ix_alert_events_type_created" "alert_events" ["event_type"; "created_at"] false None;
   create_index "ix_alert_events_event_id" "alert_events" ["event_id"] true None].

Definition downgrade_0007 : list Op :=
  [drop_index "ix_alert_events_event_id" "alert_events";
   drop_index "ix_alert_events_type_created" "alert_events";
   drop_index "ix_alert_events_occurred_at" "alert_events";
   drop_table "alert_events"].

Definition migration_0007 : Migration :=
  {| revision := "0007"; down_revision := Some "0006"; upgrade := upgrade_0007; downgrade := downgrade_0007 |}.

Definition upgrade_0008 : list Op :=
  [create_table "orders_paper"
     [Column "id" UUID [primary_key];
      Column "decision_id" UUID [ForeignKey "decisions" "id" "SET NULL"; null];
      Column "symbol" (Varchar 12) [not_null];
      Column "timeframe" (Varchar 4) [not_null];
      Column "side" (Varchar 8) [IN_list ["LONG"; "SHORT"]; not_null];
      Column "order_type" (Varchar 16) [IN_list ["NEXT_OPEN"]; not_null];
      Column "status" (Varchar 16) [IN_list ["PENDING"; "FILLED"; "CANCELLED"; "REJECTED"]; not_null];
      Column "units" (NUMERIC 20 6) [not_null];
      Column "requested_price" (NUMERIC 18 8) [null];
      Column "filled_price" (NUMERIC 18 8) [null];
      Column "costs" (NUMERIC 20 6) [not_null];
      Column "stop_loss" (NUMERIC 18 8) [null];
      Column "take_profit" (NUMERIC 18 8) [null];
      Column "seed" INTEGER [not_null];
      Column "created_at" TIMESTAMPTZ [server_default "now()"; not_null];
      Column "updated_at" TIMESTAMPTZ [server_default "now()"; not_null];
      Column "filled_at" TIMESTAMPTZ [null]]
     [UniqueConstraint ["decision_id"] "uq_orders_paper_decision_id"];
   create_index "ix_orders_paper_status_created" "orders_paper" ["status"; "created_at"] false None;
   create_index "ix_orders_paper_symbol" "orders_paper" ["symbol"] false None;
   create_table "positions"
     [Column "id" UUID [primary_key];
      Column "order_id" UUID [ForeignKey "orders_paper" "id" "RESTRICT"; not_null];
      Column "symbol" (Varchar 12) [not_null];
      Column "timeframe" (Varchar 4) [not_null];
      Column "side" (Varchar 8) [IN_list ["LONG"; "SHORT"]; not_null];
      Column "units" (NUMERIC 20 6) [not_null];
      Column "entry_price" (NUMERIC 18 8) [not_null];
      Column "entry_ts" TIMESTAMPTZ [not_null];
      Column "stop_loss" (NUMERIC 18 8) [null];
      Column "take_profit" (NUMERIC 18 8) [null];
      Column "costs" (NUMERIC 20 6) [not_null];
      Column "status" (Varchar 16) [IN_list ["OPEN"; "CLOSED"]; not_null];
      Column "exit_price" (NUMERIC 18 8) [null];
      Column "exit_ts" TIMESTAMPTZ [null];
      Column "exit_reason" (Varchar 16) [null];
      Column "gross_pnl" (NUMERIC 20 6) [null];
      Column "net_pnl" (NUMERIC 20 6) [null];
      Column "created_at" TIMESTAMPTZ [server_default "now()"; not_null];
      Column "updated_at" TIMESTAMPTZ [server_default "now()"; not_null]]
     [];
   create_index "ix_positions_symbol" "positions" ["symbol"] false None;
   create_index "uq_positions_open_symbol" "positions" ["symbol"] true (Some "status = 'OPEN'");
   create_table "account_snapshots"
     [Column "id" UUID [primary_key];
      Column "ts" TIMESTAMPTZ [not_null];
      Column "cash" (NUMERIC 20 6) [not_null];
      Column "equity" (NUMERIC 20 6) [not_null];
      Column "open_pnl" (NUMERIC 20 6) [not_null];
      Column "realized_pnl" (NUMERIC 20 6) [not_null];
      Column "peak_equity" (NUMERIC 20 6) [not_null];
      Column "drawdown_pct" (NUMERIC 12 8) [not_null];
      Column "margin_used" (NUMERIC 20 6) [not_null];
      Column "extra" JSONB [not_null];
      Column "created_at" TIMESTAMPTZ [server_default "now()"; not_null];
      Column "updated_at" TIMESTAMPTZ [server_default "now()"; not_null]]
     [];
   create_index "ix_account_snapshots_ts" "account_snapshots" ["ts"] false None].

Definition downgrade_0008 : list Op :=
  [drop_index "ix_account_snapshots_ts" "account_snapshots";
   drop_table "account_snapshots";
   drop_index "uq_positions_open_symbol" "positions";
   drop_index "ix_positions_symbol" "positions";
   drop_table "positions";
   drop_index "ix_orders_paper_symbol" "orders_paper";
   drop_index "ix_orders_paper_status_created" "orders_paper";
   drop_table "orders_paper"].

Definition migration_0008 : Migration :=
  {| revision := "0008"; down_revision := Some "0007"; upgrade := upgrade_0008; downgrade := downgrade_0008 |}.


Definition scripts : list Migration :=
  [migration_0001; migration_0002; migration_0003; migration_0004; migration_0005; migration_0006; migration_0007;
   migration_0008].

(** ** Running them *)

Record Database := { schema : SchemaDef; version_num : option string }.
#[export] Instance Database_eq_dec : EqDecision Database.
Proof. solve_decision. Defined.

Definition empty_database : Database := {| schema := empty_schema; version_num := None |}.

Inductive Way := Up | Down.

(** One script: its statements, then the move of the recorded revision. *)
Definition run_script (db : Database) (step : Migration * Way) : option Database :=
  let '(m, way) := step in
  let '(ops, from, to) := match way with
                          | Up => (upgrade m, down_revision m, Some (revision m))
                          | Down => (downgrade m, Some (revision m), down_revision m)
                          end in
  s ← apply_ops (schema db) ops;
  when (bool_decide (version_num db = from)) {| schema := s; version_num := to |}.

Fixpoint run_scripts (db : Database) (steps : list (Migration * Way)) : option Database :=
  match steps with
  | [] => Some db
  | step :: steps => db ← run_script db step; run_scripts db steps
  end.

(** The heads of the script directory: the revisions no script follows. *)
Definition get_heads : list string :=
  List.filter (fun r => negb (existsb (fun m => bool_decide (down_revision m = Some r)) scripts))
    (map revision scripts).

Fixpoint upgrade_path (fuel : nat) (from : option string) : list Migration :=
  match fuel with
  | O => []
  | S fuel => match List.find (fun m => bool_decide (down_revision m = from)) scripts with
              | Some m => m :: upgrade_path fuel (Some (revision m))
              | None => []
              end
  end.

Fixpoint downgrade_path (fuel : nat) (from : option string) : list Migration :=
  match fuel with
  | O => []
  | S fuel => match List.find (fun m => bool_decide (Some (revision m) = from)) scripts with
              | Some m => m :: downgrade_path fuel (down_revision m)
              | None => []
              end
  end.

(** [upgrade head], [downgrade base], [upgrade +1], [downgrade -1]. *)
Inductive Command := UpgradeHead | DowngradeBase | UpgradeOne | DowngradeOne.

Definition plan (c : Command) (from : option string) : list (Migration * Way) :=
  let n := length scripts in
  match c with
  | UpgradeHead => map (fun m => (m, Up)) (upgrade_path n from)
  | DowngradeBase => map (fun m => (m, Down)) (downgrade_path n from)
  | UpgradeOne => map (fun m => (m, Up)) (firstn 1 (upgrade_path n from))
  | DowngradeOne => map (fun m => (m, Down)) (firstn 1 (downgrade_path n from))
  end.

(** A command plans from the revision it reads, [seen]; another container that migrates at
    the same time may have moved it since.  A script that is refused rolls all back. *)
Definition perform (db : Database) (e : Command * option (option string)) : Database :=
  let seen := default (version_num db) e.2 in
  default db (run_scripts db (plan e.1 seen)).

Definition deployments (history : list (Command * option (option string))) : Database :=
  foldl perform empty_database history.

(** A first install that stops after [n] scripts. *)
Definition fresh_install (n : nat) : option Database :=
  run_scripts empty_database (map (fun m => (m, Up)) (firstn n scripts)).

(** ** Mapped classes *)

Definition UUIDPrimaryKeyMixin : list ColumnDef := [Column "id" UUID [primary_key]].
Definition TimestampMixin : list ColumnDef :=
  [Column "created_at" TIMESTAMPTZ [server_default "now()"; not_null];
   Column "updated_at" TIMESTAMPTZ [server_default "now()"; not_null]].
Definition user_role_type : SqlType := ENUM "user_role" (map role_value [VIEWER; TRADER; ADMIN]).

Definition users_model : TableDef * list IndexDef :=
  declare "users"
    (UUIDPrimaryKeyMixin ++ TimestampMixin ++
     [Column "email" (Varchar 320) [not_null; indexed true];
      Column "hashed_password" (Varchar 512) [not_null];
      Column "role" user_role_type [not_null];
      Column "is_active" BOOLEAN [not_null];
      Column "last_login_at" TIMESTAMPTZ [null]])
    [].

Definition refresh_tokens_model : TableDef * list IndexDef :=
  declare "refresh_tokens"
    (UUIDPrimaryKeyMixin ++
     [Column "user_id" UUID [ForeignKey "users" "id" "CASCADE"; not_null; indexed false];
      Column "jti" (Varchar 64) [not_null; indexed true];
      Column "family_id" UUID [not_null; indexed false];
      Column "expires_at" TIMESTAMPTZ [not_null];
      Column "revoked_at" TIMESTAMPTZ [null];
      Column "replaced_by_jti" (Varchar 64) [null];
      Column "created_ip" (Varchar 64) [null];
      Column "user_agent" (Varchar 512) [null];
      Column "created_at" TIMESTAMPTZ [not_null; server_default "now()"]])
    [IndexArg "ix_refresh_tokens_family_active" ["family_id"; "user_id"] false None].

Definition audit_log_model : TableDef * list IndexDef :=
  declare "audit_log"
    [Column "id" UUID [primary_key];
      Column "actor" (Varchar 128) [not_null];
      Column "action" (Varchar 128) [not_null];
      Column "entity_type" (Varchar 128) [null];
      Column "entity_id" (Varchar 128) [null];
      Column "before" JSONB [null];
      Column "after" JSONB [null];
      Column "ip_address" (Varchar 64) [null];
      Column "created_at" TIMESTAMPTZ [not_null; server_default "now()"]]
    [IndexArg "ix_audit_log_created_at" ["created_at"] false None;
     IndexArg "ix_audit_log_actor_action" ["actor"; "action"] false None].

Definition system_settings_model : TableDef * list IndexDef :=
  declare "system_settings"
    [Column "key" (Varchar 128) [primary_key];
      Column "value" JSONB [not_null];
      Column "description" (Varchar 512) [null];
      Column "updated_by_user_id" (Varchar 64) [null];
      Column "updated_at" TIMESTAMPTZ [not_null; server_default "now()"]]
    [].

Definition instruments_model : TableDef * list IndexDef :=
  declare "instruments"
    (UUIDPrimaryKeyMixin ++ TimestampMixin ++
     [Column "symbol" (Varchar 12) [not_null; indexed true];
      Column "base" (Varchar 8) [not_null];
      Column "quote" (Varchar 8) [not_null];
      Column "pip_size" (NUMERIC 12 8) [not_null];
      Column "price_decimals" INTEGER [not_null];
      Column "active" BOOLEAN [not_null]])
    [].

Definition candles_model : TableDef * list IndexDef :=
  declare "candles"
    [Column "instrument_id" UUID [ForeignKey "instruments" "id" "CASCADE"; primary_key];
      Column "timeframe" (Varchar 4) [primary_key];
      Column "ts" TIMESTAMPTZ [primary_key];
      Column "open" (NUMERIC 18 8) [not_null];
      Column "high" (NUMERIC 18 8) [not_null];
      Column "low" (NUMERIC 18 8) [not_null];
      Column "close" (NUMERIC 18 8) [not_null];
      Column "volume" BIGINT [not_null];
      Column "source" (Varchar 24) [not_null];
      Column "complete" BOOLEAN [not_null];
      Column "tf_minutes" SMALLINT [not_null]]
    [].

Definition provider_health_model : TableDef * list IndexDef :=
  declare "provider_health"
    [Column "provider" (Varchar 32) [primary_key];
      Column "last_ok_at" TIMESTAMPTZ [null];
      Column "consecutive_failures" INTEGER [not_null];
      Column "breaker_state" (Varchar 12) [not_null];
      Column "breaker_opened_at" TIMESTAMPTZ [null];
      Column "updated_at" TIMESTAMPTZ [null]]
    [].

Definition agent_signals_model : TableDef * list IndexDef :=
  declare "agent_signals"
    [Column "id" UUID [primary_key];
      Column "run_id" (Varchar 64) [not_null];
      Column "agent_id" (Varchar 32) [not_null];
      Column "agent_version" (Varchar 16) [not_null];
      Column "symbol" (Varchar 12) [not_null];
      Column "timeframe" (Varchar 4) [not_null];
      Column "direction" (Varchar 8) [not_null];
      Column "confidence" (NUMERIC 6 4) [not_null];
      Column "bucket_ts" TIMESTAMPTZ [not_null];
      Column "rationale" (VARCHAR None) [null];
      Column "features" JSONB [not_null];
      Column "created_at" TIMESTAMPTZ [not_null; server_default "now()"];
      Column "valid_until" TIMESTAMPTZ [null]]
    [UniqueArg ["agent_id"; "symbol"; "timeframe"; "bucket_ts"] "uq_agent_signals_identity";
     IndexArg "ix_agent_signals_symbol_tf_created" ["symbol"; "timeframe"; "created_at"] false None].

Definition economic_events_model : TableDef * list IndexDef :=
  declare "economic_events"
    [Column "id" UUID [primary_key];
      Column "dedup_key" (Varchar 64) [not_null];
      Column "provider" (Varchar 32) [not_null];
      Column "external_id" (Varchar 128) [null];
      Column "title" TEXT [not_null];
      Column "currency" (Varchar 8) [not_null];
      Column "symbols" (VARCHAR_ARRAY 12) [not_null];
      Column "importance" (Varchar 8) [not_null];
      Column "timestamp_utc" TIMESTAMPTZ [not_null];
      Column "actual" TEXT [null];
      Column "forecast" TEXT [null];
      Column "previous" TEXT [null];
      Column "surprise_score" (NUMERIC 8 4) [null];
      Column "raw_payload" JSONB [not_null];
      Column "created_at" TIMESTAMPTZ [not_null; server_default "now()"];
      Column "updated_at" TIMESTAMPTZ [null; server_default "now()"]]
    [UniqueArg ["dedup_key"] "uq_economic_events_dedup";
     IndexArg "ix_economic_events_ts" ["timestamp_utc"] false None;
     IndexArg "ix_economic_events_currency_ts" ["currency"; "timestamp_utc"] false None;
     CheckArg "importance" ["low"; "medium"; "high"]].

Definition news_items_model : TableDef * list IndexDef :=
  declare "news_items"
    [Column "id" UUID [primary_key];
      Column "item_hash" (Varchar 64) [not_null];
      Column "provider" (Varchar 32) [not_null];
      Column "external_id" (Varchar 128) [null];
      Column "url" TEXT [null];
      Column "headline" TEXT [not_null];
      Column "summary" TEXT [null];
      Column "symbols" (VARCHAR_ARRAY 12) [not_null];
      Column "published_utc" TIMESTAMPTZ [not_null];
      Column "raw_payload" JSONB [not_null];
      Column "created_at" TIMESTAMPTZ [not_null; server_default "now()"]]
    [UniqueArg ["item_hash"] "uq_news_items_hash";
     IndexArg "ix_news_items_published" ["published_utc"] false None;
     IndexArg "ix_news_items_symbols_published" ["symbols"; "published_utc"] false None].

Definition decisions_model : TableDef * list IndexDef :=
  declare "decisions"
    [Column "id" UUID [primary_key];
      Column "run_id" (Varchar 64) [not_null];
      Column "symbol" (Varchar 12) [not_null];
      Column "timeframe" (Varchar 4) [not_null];
      Column "bucket_ts" TIMESTAMPTZ [not_null];
      Column "fused_direction" (Varchar 8) [not_null];
      Column "confidence" (NUMERIC 6 4) [not_null];
      Column "agreement" (NUMERIC 6 4) [not_null];
      Column "status" (Varchar 12) [not_null];
      Column "veto_code" (Varchar 32) [null];
      Column "veto_reason" TEXT [null];
      Column "inputs_hash" (Varchar 64) [not_null];
      Column "weights" JSONB [not_null];
      Column "code_versions" JSONB [not_null];
      Column "rationale" TEXT [null];
      Column "decision_at" TIMESTAMPTZ [not_null; server_default "now()"];
      Column "valid_until" TIMESTAMPTZ [null]]
    [UniqueArg ["symbol"; "timeframe"; "bucket_ts"] "uq_decisions_identity";
     IndexArg "ix_decisions_symbol_tf_dt" ["symbol"; "timeframe"; "decision_at"] false None;
     CheckArg "status" ["ANALYSIS"; "PAPER"; "BLOCKED"];
     CheckArg "fused_direction" ["LONG"; "SHORT"; "FLAT"]].

Definition risk_evaluations_model : TableDef * list IndexDef :=
  declare "risk_evaluations"
    [Column "id" UUID [primary_key];
      Column "decision_id" UUID [ForeignKey "decisions" "id" "SET NULL"; null];
      Column "symbol" (Varchar 12) [not_null];
      Column "timeframe" (Varchar 4) [not_null];
      Column "bucket_ts" TIMESTAMPTZ [not_null];
      Column "position_size_units" (NUMERIC 20 6) [null];
      Column "price" (NUMERIC 18 8) [null];
      Column "atr" (NUMERIC 18 8) [null];
      Column "stop_loss" (NUMERIC 18 8) [null];
      Column "take_profit" (NUMERIC 18 8) [null];
      Column "rr_ratio" (NUMERIC 8 4) [null];
      Column "risk_pct_account" (NUMERIC 8 4) [null];
      Column "exposure_ok" BOOLEAN [not_null];
      Column "correlation_ok" BOOLEAN [not_null];
      Column "daily_loss_ok" BOOLEAN [not_null];
      Column "drawdown_ok" BOOLEAN [not_null];
      Column "passed" BOOLEAN [not_null];
      Column "reasons" JSONB [not_null];
      Column "evaluated_at" TIMESTAMPTZ [not_null; server_default "now()"]]
    [UniqueArg ["symbol"; "timeframe"; "bucket_ts"] "uq_risk_evaluations_identity"].

Definition risk_state_model : TableDef * list IndexDef :=
  declare "risk_state"
    [Column "id" UUID [primary_key];
      Column "scope" (Varchar 32) [not_null];
      Column "period_key" (Varchar 64) [not_null];
      Column "realized_loss" (NUMERIC 18 8) [not_null];
      Column "peak_equity" (NUMERIC 18 8) [not_null];
      Column "max_drawdown" (NUMERIC 18 8) [not_null];
      Column "exposure" (NUMERIC 20 6) [not_null];
      Column "updated_at" TIMESTAMPTZ [not_null; server_default "now()"]]
    [UniqueArg ["scope"; "period_key"] "uq_risk_state_scope_period"].

Definition backtest_runs_model : TableDef * list IndexDef :=
  declare "backtest_runs"
    [Column "id" UUID [primary_key];
      Column "config" JSONB [not_null];
      Column "data_range" JSONB [not_null];
      Column "seed" INTEGER [not_null];
      Column "code_versions" JSONB [not_null];
      Column "status" (Varchar 16) [not_null];
      Column "error" TEXT [null];
      Column "metrics" JSONB [not_null];
      Column "created_at" TIMESTAMPTZ [not_null; server_default "now()"];
      Column "started_at" TIMESTAMPTZ [not_null; server_default "now()"];
      Column "finished_at" TIMESTAMPTZ [null]]
    [CheckArg "status" ["RUNNING"; "COMPLETED"; "FAILED"];
     IndexArg "ix_backtest_runs_created" ["created_at"] false None].

Definition backtest_trades_model : TableDef * list IndexDef :=
  declare "backtest_trades"
    [Column "id" UUID [primary_key];
      Column "run_id" UUID [ForeignKey "backtest_runs" "id" "CASCADE"; not_null];
      Column "symbol" (Varchar 12) [not_null];
      Column "timeframe" (Varchar 4) [not_null];
      Column "side" (Varchar 8) [not_null];
      Column "units" (NUMERIC 20 6) [not_null];
      Column "entry_ts" TIMESTAMPTZ [not_null];
      Column "entry_price" (NUMERIC 18 8) [not_null];
      Column "exit_ts" TIMESTAMPTZ [not_null];
      Column "exit_price" (NUMERIC 18 8) [not_null];
      Column "gross_pnl" (NUMERIC 20 6) [not_null];
      Column "costs" (NUMERIC 20 6) [not_null];
      Column "net_pnl" (NUMERIC 20 6) [not_null];
      Column "exit_reason" (Varchar 16) [not_null]]
    [IndexArg "ix_backtest_trades_run_symbol" ["run_id"; "symbol"] false None].

Definition backtest_equity_model : TableDef * list IndexDef :=
  declare "backtest_equity"
    [Column "id" UUID [primary_key];
      Column "run_id" UUID [ForeignKey "backtest_runs" "id" "CASCADE"; not_null];
      Column "ts" TIMESTAMPTZ [not_null];
      Column "equity" (NUMERIC 20 6) [not_null];
      Column "drawdown_pct" (NUMERIC 12 8) [not_null]]
    [UniqueArg ["run_id"; "ts"] "uq_backtest_equity_run_ts"].

Definition alert_events_model : TableDef * list IndexDef :=
  declare "alert_events"
    [Column "id" UUID [primary_key];
      Column "event_id" (Varchar 64) [not_null; indexed true];
      Column "event_type" (Varchar 64) [not_null];
      Column "source" (Varchar 32) [not_null];
      Column "severity" (Varchar 16) [IN_list ["info"; "warning"; "critical"]; not_null];
      Column "title" (Varchar 255) [not_null];
      Column "message" TEXT [null];
      Column "symbol" (Varchar 12) [null];
      Column "timeframe" (Varchar 8) [null];
      Column "producer" (Varchar 64) [not_null];
      Column "correlation_id" (Varchar 64) [null];
      Column "occurred_at" TIMESTAMPTZ [not_null];
      Column "payload" JSONB [not_null];
      Column "acknowledged_at" TIMESTAMPTZ [null];
      Column "acknowledged_by" (Varchar 128) [null];
      Column "created_at" TIMESTAMPTZ [not_null; server_default "now()"]]
    [IndexArg "ix_alert_events_occurred_at" ["occurred_at"] false None;
     IndexArg "ix_alert_events_type_created" ["event_type"; "created_at"] false None].

Definition orders_paper_model : TableDef * list IndexDef :=
  declare "orders_paper"
    (UUIDPrimaryKeyMixin ++ TimestampMixin ++
     [Column "decision_id" UUID [ForeignKey "decisions" "id" "SET NULL"; null];
      Column "symbol" (Varchar 12) [not_null];
      Column "timeframe" (Varchar 4) [not_null];
      Column "side" (Varchar 8) [not_null];
      Column "order_type" (Varchar 16) [not_null];
      Column "status" (Varchar 16) [not_null];
      Column "units" (NUMERIC 20 6) [not_null];
      Column "requested_price" (NUMERIC 18 8) [null];
      Column "filled_price" (NUMERIC 18 8) [null];
      Column "costs" (NUMERIC 20 6) [not_null];
      Column "stop_loss" (NUMERIC 18 8) [null];
      Column "take_profit" (NUMERIC 18 8) [null];
      Column "seed" INTEGER [not_null];
      Column "filled_at" TIMESTAMPTZ [null]])
    [CheckArg "side" ["LONG"; "SHORT"];
     CheckArg "order_type" ["NEXT_OPEN"];
     CheckArg "status" ["PENDING"; "FILLED"; "CANCELLED"; "REJECTED"];
     UniqueArg ["decision_id"] "uq_orders_paper_decision_id";
     IndexArg "ix_orders_paper_status_created" ["status"; "created_at"] false None;
     IndexArg "ix_orders_paper_symbol" ["symbol"] false None].

Definition positions_model : TableDef * list IndexDef :=
  declare "positions"
    (UUIDPrimaryKeyMixin ++ TimestampMixin ++
     [Column "order_id" UUID [ForeignKey "orders_paper" "id" "RESTRICT"; not_null];
      Column "symbol" (Varchar 12) [not_null];
      Column "timeframe" (Varchar 4) [not_null];
      Column "side" (Varchar 8) [not_null];
      Column "units" (NUMERIC 20 6) [not_null];
      Column "entry_price" (NUMERIC 18 8) [not_null];
      Column "entry_ts" TIMESTAMPTZ [not_null];
      Column "stop_loss" (NUMERIC 18 8) [null];
      Column "take_profit" (NUMERIC 18 8) [null];
      Column "costs" (NUMERIC 20 6) [not_null];
      Column "status" (Varchar 16) [not_null];
      Column "exit_price" (NUMERIC 18 8) [null];
      Column "exit_ts" TIMESTAMPTZ [null];
      Column "exit_reason" (Varchar 16) [null];
      Column "gross_pnl" (NUMERIC 20 6) [null];
      Column "net_pnl" (NUMERIC 20 6) [null]])
    [CheckArg "side" ["LONG"; "SHORT"];
     CheckArg "status" ["OPEN"; "CLOSED"];
     IndexArg "ix_positions_symbol" ["symbol"] false None;
     IndexArg "uq_positions_open_symbol" ["symbol"] true (Some "status = 'OPEN'")].

Definition account_snapshots_model : TableDef * list IndexDef :=
  declare "account_snapshots"
    (UUIDPrimaryKeyMixin ++ TimestampMixin ++
     [Column "ts" TIMESTAMPTZ [not_null];
      Column "cash" (NUMERIC 20 6) [not_null];
      Column "equity" (NUMERIC 20 6) [not_null];
      Column "open_pnl" (NUMERIC 20 6) [not_null];
      Column "realized_pnl" (NUMERIC 20 6) [not_null];
      Column "peak_equity" (NUMERIC 20 6) [not_null];
      Column "drawdown_pct" (NUMERIC 12 8) [not_null];
      Column "margin_used" (NUMERIC 20 6) [not_null];
      Column "extra" JSONB [not_null]])
    [IndexArg "ix_account_snapshots_ts" ["ts"] false None].

Definition metadata : list (TableDef * list IndexDef) :=
  [users_model; refresh_tokens_model; audit_log_model; system_settings_model; instruments_model; candles_model;
   provider_health_model; agent_signals_model; economic_events_model; news_items_model; decisions_model;
   risk_evaluations_model; risk_state_model; backtest_runs_model; backtest_trades_model; backtest_equity_model;
   alert_events_model; orders_paper_model; positions_model; account_snapshots_model].

(** ** What the writers name *)

(** The targets of [INSERT ... ON CONFLICT]. *)
Definition upsert_candles_target : string * list string := ("candles", ["instrument_id"; "timeframe"; "ts"]).
Definition save_signals_target : string * list string := ("agent_signals", ["agent_id"; "symbol"; "timeframe"; "bucket_ts"]).
Definition save_news_target : string * list string := ("news_items", ["item_hash"]).
Definition save_events_target : string * list string := ("economic_events", ["dedup_key"]).
Definition save_decision_target : string * list string := ("decisions", ["symbol"; "timeframe"; "bucket_ts"]).
Definition save_risk_evaluation_target : string * list string := ("risk_evaluations", ["symbol"; "timeframe"; "bucket_ts"]).
Definition upsert_risk_state_target : string * list string := ("risk_state", ["scope"; "period_key"]).
Definition save_alert_target : string * list string := ("alert_events", ["event_id"]).

Definition conflict_targets : list (string * list string) :=
  [upsert_candles_target; save_signals_target; save_news_target; save_events_target; save_decision_target;
   save_risk_evaluation_target; upsert_risk_state_target; save_alert_target].

(** The texts of a row of [alert_events]. *)
Definition alert_texts (a : AlertIn) : dict string (option string) :=
  [("event_id", Some (al_event_id a)); ("event_type", Some (text_of (al_event_type a)));
   ("source", Some (text_of (al_source a))); ("severity", Some (al_severity a)); ("title", Some (al_title a));
   ("message", al_message a); ("symbol", al_symbol a); ("timeframe", al_timeframe a);
   ("producer", Some (text_of (al_producer a))); ("correlation_id", text_of <$> al_correlation_id a)].

(** PostgreSQL's texts hold no NUL, whatever their column. *)
Definition no_nul (row : dict string (option string)) : bool :=
  forallb (fun e => negb (has_nul (default "" e.2))) row.

(** A status, direction, side or reason the code writes, bound to its column. *)
Definition column_takes (s : SchemaDef) (table column value : string) : bool :=
  row_accepted s table [(column, Some value)].

(** ** Properties *)

Definition checkpoints : list Database := omap fresh_install (seq 0 (S (length scripts))).
Definition head_database : Database := default empty_database (fresh_install (length scripts)).

Definition stays (db : Database) (step : Migration * Way) : bool :=
  match run_script db step with Some db' => bool_decide (db' ∈ checkpoints) | None => true end.

Definition all_steps : list (Migration * Way) :=
  map (fun m => (m, Up)) scripts ++ map (fun m => (m, Down)) scripts.

Lemma steps_stay : forallb (fun db => forallb (stays db) all_steps) checkpoints = true.
Proof. by vm_compute. Qed.

Lemma commands_arrive :
  forallb (fun db => bool_decide (perform db (UpgradeHead, None) = head_database)
                     && bool_decide (perform db (DowngradeBase, None) = empty_database)) checkpoints = true.
Proof. by vm_compute. Qed.

Lemma heads_recorded :
  forallb (fun db => Bool.eqb (match version_num db with Some v => bool_decide (v ∈ get_heads) | None => false end)
                              (bool_decide (db = head_database))) checkpoints = true.
Proof. by vm_compute. Qed.

Lemma arbiters_throughout :
  forallb (fun db => forallb (fun t => match find_table (schema db) t.1 with
                                       | Some _ => arbiter (schema db) t
                                       | None => negb (bool_decide (db = head_database))
                                       end) conflict_targets) checkpoints = true.
Proof. by vm_compute. Qed.

Lemma checkpoint_installed db : db ∈ checkpoints -> exists n, (n <= length scripts)%nat /\ fresh_install n = Some db.
Proof. unfold checkpoints. intros (n & H & E)%list_elem_of_omap. apply elem_of_seq in H. exists n. split; [lia|done]. Qed.

Lemma scripts_steps m way : m ∈ scripts -> (m, way) ∈ all_steps.
Proof. unfold all_steps. intros Hm. destruct way; apply elem_of_app; [left|right]; by apply list_elem_of_fmap_2 with (f := fun x => (x, _)). Qed.

Lemma empty_checkpoint : empty_database ∈ checkpoints.
Proof. apply list_elem_of_In. left. by vm_compute. Qed.

#[local] Opaque checkpoints scripts all_steps run_script head_database.

Lemma checkpoint_stays db step db' :
  db ∈ checkpoints -> step ∈ all_steps -> run_script db step = Some db' -> db' ∈ checkpoints.
Proof.
  intros Hdb Hs E. pose proof steps_stay as H. rewrite forallb_forall in H.
  specialize (H db (proj1 (list_elem_of_In _ _) Hdb)). rewrite forallb_forall in H.
  specialize (H step (proj1 (list_elem_of_In _ _) Hs)). unfold stays in H. rewrite E in H.
  by apply bool_decide_eq_true in H.
Qed.

Lemma run_scripts_stay steps db db' :
  Forall (fun s => s ∈ all_steps) steps -> db ∈ checkpoints -> run_scripts db steps = Some db' -> db' ∈ checkpoints.
Proof.
  intros Hs. revert db. induction Hs as [|s steps Hs _ IH]; intros db Hdb; [by intros [= <-]|].
  cbn [run_scripts]. destruct (run_script db s) as [db1|] eqn:E; [|done]. cbn.
  apply IH. by apply (checkpoint_stays db s).
Qed.

Lemma upgrade_path_scripts n from : Forall (fun m => m ∈ scripts) (upgrade_path n from).
Proof.
  revert from. induction n as [|n IH]; intros from; [constructor|]. cbn [upgrade_path].
  destruct (List.find _ scripts) as [m|] eqn:E; [|constructor].
  constructor; [|apply IH]. by apply find_some in E as [?%list_elem_of_In _].
Qed.

Lemma downgrade_path_scripts n from : Forall (fun m => m ∈ scripts) (downgrade_path n from).
Proof.
  revert from. induction n as [|n IH]; intros from; [constructor|]. cbn [downgrade_path].
  destruct (List.find _ scripts) as [m|] eqn:E; [|constructor].
  constructor; [|apply IH]. by apply find_some in E as [?%list_elem_of_In _].
Qed.

Lemma steps_of way ms : Forall (fun m => m ∈ scripts) ms -> Forall (fun s => s ∈ all_steps) (map (fun m => (m, way)) ms).
Proof.
  intros H. apply Forall_map. eapply Forall_impl; [exact H|]. intros m Hm. by apply scripts_steps.
Qed.

Lemma plan_steps c from : Forall (fun s => s ∈ all_steps) (plan c from).
Proof.
  destruct c; cbn [plan]; apply steps_of; auto using Forall_take, upgrade_path_scripts, downgrade_path_scripts.
Qed.

Lemma deployments_checkpoint history : deployments history ∈ checkpoints.
Proof.
  unfold deployments. pose proof empty_checkpoint as H. revert H. generalize empty_database. induction history as [|[c seen] history IH]; intros db H; [done|].
  cbn [foldl]. apply IH. unfold perform. cbn [fst snd].
  destruct (run_scripts db _) as [db'|] eqn:E; [|done]. by eapply run_scripts_stay; [apply plan_steps| |exact E].
Qed.

Ltac at_checkpoint H history :=
  pose proof H as HH; rewrite forallb_forall in HH;
  specialize (HH _ (proj1 (list_elem_of_In _ _) (deployments_checkpoint history))); cbv beta in HH.

(** The probe of a database that was migrated, the other components aside. *)
Definition probed (db : Database) (p : Probes) : Probes :=
  {| pr_db := pr_db p; pr_db_ms := pr_db_ms p; pr_redis := pr_redis p; pr_redis_ms := pr_redis_ms p;
     pr_heads := inr get_heads; pr_applied := inr (version_num db) |}.

(** C19: Whatever commands were run against an empty database, in whatever order, complete
    or one script at a time, up or down, and even when a command planned its scripts from a
    revision another container had moved meanwhile, the database holds exactly the schema of
    a first install that stopped at the recorded revision: a downgrade undoes its upgrade
    and a command that is late is rolled back whole.  From there [upgrade head] reaches the
    one head and [downgrade base] the empty schema, and the readiness probe reports the
    migrations current exactly when the schema is the head's. *)
Theorem schema_follows_revision `{Platform} history p :
  let db := deployments history in
  (exists n, (n <= length scripts)%nat /\ fresh_install n = Some db) /\
  perform db (UpgradeHead, None) = head_database /\
  perform db (DowngradeBase, None) = empty_database /\
  get_heads = ["0008"] /\
  (cs_ok (migrations_component (probed db p)) = true <-> db = head_database).
Proof.
  intros db. refine (conj _ (conj _ (conj _ (conj _ _)))).
  - apply checkpoint_installed, deployments_checkpoint.
  - at_checkpoint commands_arrive history. apply andb_true_iff in HH as [HH _]. by apply bool_decide_eq_true in HH.
  - at_checkpoint commands_arrive history. apply andb_true_iff in HH as [_ HH]. by apply bool_decide_eq_true in HH.
  - by vm_compute.
  - at_checkpoint heads_recorded history. fold db in HH. apply eqb_prop in HH.
    rewrite <- (bool_decide_eq_true (db = head_database)), <- HH. cbn [migrations_component probed pr_heads pr_applied cs_ok].
    destruct (version_num db); reflexivity.
Qed.

(** C26: At every revision a database can be left in, each table that exists has, for the
    [ON CONFLICT] target of the repository that writes it, a key of exactly those columns on
    all rows, and at the head every such table exists: no idempotent insert can be refused
    for want of an arbiter. *)
Theorem upserts_have_keys history target :
  target ∈ conflict_targets ->
  let db := deployments history in
  (forall t, find_table (schema db) target.1 = Some t -> arbiter (schema db) target = true) /\
  (db = head_database -> arbiter (schema db) target = true).
Proof.
  intros Ht db. at_checkpoint arbiters_throughout history. fold db in HH. clearbody db.
  rewrite forallb_forall in HH.
  specialize (HH target (proj1 (list_elem_of_In _ _) Ht)).
  destruct (find_table (schema db) target.1) as [t|] eqn:E; [naive_solver|].
  split; [done|]. intros Hd. rewrite (bool_decide_eq_true_2 _ Hd) in HH. discriminate HH.
Qed.

Lemma upserts_have_keys_witness :
  arbiter (schema (deployments [(UpgradeHead, None)])) save_signals_target = true.
Proof.
  refine (proj2 (upserts_have_keys [(UpgradeHead, None)] save_signals_target _) _).
  - apply list_elem_of_In. cbn. auto.
  - by vm_compute.
Defined.

(** ** Mapped classes against the head *)

Lemma head_installed : fresh_install (length scripts) = Some head_database.
Proof. by vm_compute. Qed.

(** The text columns of [alert_events] at the head. *)
Definition alert_columns : dict string ColumnDef :=
  map (fun c => (cd_name c, c))
    [Column "event_id" (Varchar 64) [not_null]; Column "event_type" (Varchar 64) [not_null];
     Column "source" (Varchar 32) [not_null; server_default "unknown"];
     Column "severity" (Varchar 16) [IN_list ["info"; "warning"; "critical"]; not_null; server_default "info"];
     Column "title" (Varchar 255) [not_null]; Column "message" TEXT [null];
     Column "symbol" (Varchar 12) [null]; Column "timeframe" (Varchar 8) [null];
     Column "producer" (Varchar 64) [not_null; server_default ""];
     Column "correlation_id" (Varchar 64) [null]].

Lemma alert_columns_head :
  Forall (fun e => column_of (schema head_database) "alert_events" e.1 = Some e.2) alert_columns.
Proof. repeat constructor. Qed.

Lemma alert_row_accepted a :
  row_accepted (schema head_database) "alert_events" (alert_texts a)
  = forallb (fun e => column_accepts e.1.2 e.2.2) (zip alert_columns (alert_texts a)).
Proof.
  pose proof alert_columns_head as H. cbn [alert_columns map cd_name Column foldl apply_option] in H.
  repeat apply Forall_cons in H as [?%(eq_trans (eq_refl _)) H]. unfold row_accepted, alert_texts.
  cbn [forallb fst snd]. cbn [fst snd] in *.
  repeat match goal with E : column_of _ _ _ = _ |- _ => rewrite E; clear E end. reflexivity.
Qed.

Lemma severities_fit s : s ∈ ["info"; "warning"; "critical"] -> Nat.leb (String.length s) 16 = true /\ has_nul s = false.
Proof. rewrite !elem_of_cons. intros [->|[->|[->|[]%elem_of_nil]]]; by vm_compute. Qed.

Lemma fits_text n s : fits n s = Nat.leb (String.length s) n && negb (has_nul s).
Proof. done. Qed.

Lemma forallb_both {A} (f g : A -> bool) l : forallb f l && forallb g l = forallb (fun x => f x && g x) l.
Proof. induction l as [|x l IH]; [done|]. cbn [forallb]. rewrite <- IH. by destruct (f x), (g x), (forallb f l). Qed.

Lemma server_ok_columns a :
  server_ok a = row_accepted (schema head_database) "alert_events" (alert_texts a) && no_nul (alert_texts a)
                && json_ok (VDict (al_payload a)).
Proof.
  rewrite alert_row_accepted. unfold server_ok.
  change (no_nul (alert_texts a))
    with (forallb (fun e => negb (has_nul (default "" e.2.2))) (zip alert_columns (alert_texts a))).
  rewrite forallb_both. f_equal. unfold alert_texts, alert_columns. rewrite !fits_text.
  cbn [map zip zip_with forallb fst snd cd_name cd_type cd_nullable cd_allowed Column Varchar foldl apply_option
       column_accepts from_option id].
  destruct (bool_decide_reflect (al_severity a ∈ ["info"; "warning"; "critical"])) as [Hs|Hs].
  - apply severities_fit in Hs as [-> ->]. rewrite <- !andb_assoc, !andb_true_l, ?andb_true_r.
    destruct (al_message a), (al_symbol a), (al_timeframe a), (al_correlation_id a); cbn;
      rewrite ?andb_true_r; reflexivity.
  - by rewrite !andb_false_r, ?andb_false_l, ?andb_false_r.
Qed.

Notation head_takes := (column_takes (schema head_database)).

(** C27: The schema at the head and the values the program writes agree.  The row the alert
    worker inserts is accepted exactly under the condition the model of its repository puts
    on an alert, which is therefore read off the scripts and not assumed; a decision's status
    and direction, the side and status of an order, a position and a trade, the status of a
    backtest run, the reason of an exit and a user's role pass the checks and widths of their
    columns; and a flat side is refused wherever a position is stored. *)
Theorem writes_fit_columns :
  (forall a, server_ok a = row_accepted (schema head_database) "alert_events" (alert_texts a)
                           && no_nul (alert_texts a) && json_ok (VDict (al_payload a))) /\
  (forall s, head_takes "decisions" "status" (Orchestrator.status_value s) = true) /\
  (forall d, head_takes "decisions" "fused_direction" (direction_value d) = true /\
             head_takes "agent_signals" "direction" (direction_value d) = true /\
             Forall (fun t => head_takes t "side" (direction_value d) = negb (bool_decide (d = FLAT)))
                    ["orders_paper"; "positions"; "backtest_trades"]) /\
  (forall s, head_takes "orders_paper" "status" (order_status_value s) = true) /\
  (forall s, head_takes "positions" "status" (position_status_value s) = true) /\
  (forall s, head_takes "backtest_runs" "status" (Cli.status_value s) = true) /\
  Forall (fun r => head_takes "positions" "exit_reason" r && head_takes "backtest_trades" "exit_reason" r = true)
         [EXIT_SIGNAL; EXIT_SL; EXIT_TP] /\
  (forall r, head_takes "users" "role" (role_value r) = true).
Proof.
  split; [exact server_ok_columns|].
  repeat match goal with |- _ /\ _ => split end; try (intros []; by vm_compute).
  - intros []; repeat split; try (by vm_compute); repeat constructor; by vm_compute.
  - repeat constructor; by vm_compute.
Qed.

(** The mapped classes declare the schema the scripts build, table by table, column by
    column, key by key and index by index, but for seven columns: [price_decimals] is an
    [INTEGER] in the class and a [SMALLINT] in the table, the rationale of a signal an
    unbounded [VARCHAR] and a [TEXT], the checks on the direction of a signal and the side of
    a backtest trade are in the scripts alone, as are the server defaults of three columns of
    [alert_events]. *)
Theorem models_declare_head :
  fresh_install (length scripts) = Some head_database /\
  drift metadata (schema head_database) =
    [TypeDiffers "instruments" "price_decimals"; CheckDiffers "agent_signals" "direction";
     TypeDiffers "agent_signals" "rationale"; CheckDiffers "backtest_trades" "side";
     DefaultDiffers "alert_events" "source"; DefaultDiffers "alert_events" "severity";
     DefaultDiffers "alert_events" "producer"].
Proof. split; [exact head_installed|by vm_compute]. Qed.
