(* ===== verification/App.v ===== *)
(** * The assembled application ([app/main.py], the routers of [app/api/v1/], [app/db/session.py])

    [create_app] puts the routers together in order and wraps them in middleware, the layer
    added last outermost.  The router and what the third-party layers do to a handler are the class
    [Framework], with their documented behaviour as laws. *)

From Stdlib Require Import ZArith Ascii Lia.
From stdpp Require Import base list strings.
From S2P Require Import Prelude PyFloat Timeframes Signals Tables Access Accounts News Problems System Config.

Open Scope string_scope.
Open Scope list_scope.

(** ** Routes *)

(** What a route asks of its caller: nothing, a live access token, an administrator's, or
    (the live feed) a ticket. *)
Inductive Guard := Anyone | SignedIn | AdminOnly | TicketHolder.
#[export] Instance Guard_eq_dec : EqDecision Guard.
Proof. solve_decision. Defined.

Inductive Segment := Literal (text : string) | Param.
#[export] Instance Segment_eq_dec : EqDecision Segment.
Proof. solve_decision. Defined.

(** [scope] is the rate limit of the route. *)
Record Route := { method : string; path : string; guarded : Guard; scope : option string }.
#[export] Instance Route_eq_dec : EqDecision Route.
Proof. solve_decision. Defined.

(** ["/a/{b}"] as its segments; the root is one empty segment. *)
Definition segment_of (s : string) : Segment := match s with String "{"%char _ => Param | _ => Literal s end.
Definition compile_path (path : string) : list Segment := map segment_of (tail (split_char "/" path)).
Definition template (r : Route) : list Segment := compile_path (path r).

Record Router := { prefix : string; routes : list (string * string * Guard * option string) }.
Definition include_router (prefix1 : string) (r : Router) : list Route :=
  map (fun '(m, p, g, sc) => {| method := m; path := prefix1 ++ prefix r ++ p; guarded := g; scope := sc |}%string) (routes r).

Definition API_V1_PREFIX : string := "/api/v1".

Definition system_router : Router :=
  {| prefix := "";
     routes := [("GET", "/", Anyone, None); ("GET", "/health/live", Anyone, None); ("GET", "/health/ready", Anyone, None);
                ("GET", "/system/status", Anyone, None); ("GET", "/metrics", Anyone, None)] |}.
Definition auth_router : Router :=
  {| prefix := "/auth";
     routes := [("POST", "/register", Anyone, Some "register"); ("POST", "/login", Anyone, Some "login");
                ("POST", "/refresh", Anyone, Some "refresh"); ("POST", "/logout", SignedIn, None);
                ("GET", "/me", SignedIn, None)] |}.
Definition users_router : Router :=
  {| prefix := "/users";
     routes := [("GET", "", AdminOnly, None); ("PATCH", "/{user_id}", AdminOnly, None); ("GET", "/count", AdminOnly, None)] |}.
Definition admin_router : Router :=
  {| prefix := "/admin";
     routes := [("GET", "/market-config", AdminOnly, None); ("PUT", "/market-config", AdminOnly, None);
                ("POST", "/backfill", AdminOnly, None); ("POST", "/decisions/replay", AdminOnly, None)] |}.
Definition signals_router : Router :=
  {| prefix := "/signals"; routes := [("GET", "/latest", SignedIn, None); ("GET", "", SignedIn, None)] |}.
Definition content_router : Router :=
  {| prefix := ""; routes := [("GET", "/news", SignedIn, None); ("GET", "/calendar/events", SignedIn, None)] |}.
Definition decisions_router : Router :=
  {| prefix := "/decisions";
     routes := [("GET", "/latest", SignedIn, None); ("GET", "", SignedIn, None); ("GET", "/risk-evaluations", SignedIn, None)] |}.
Definition risk_router : Router :=
  {| prefix := "/risk";
     routes := [("GET", "/state", AdminOnly, None); ("GET", "/params", AdminOnly, None); ("PUT", "/params", AdminOnly, None)] |}.
Definition market_router : Router :=
  {| prefix := "/market"; routes := [("GET", "/candles", SignedIn, None); ("GET", "/prices/latest", SignedIn, None)] |}.
Definition backtests_router : Router :=
  {| prefix := "/backtests";
     routes := [("GET", "", SignedIn, None); ("GET", "/{run_id}", SignedIn, None); ("GET", "/{run_id}/trades", SignedIn, None);
                ("GET", "/{run_id}/equity", SignedIn, None)] |}.
Definition portfolio_router : Router :=
  {| prefix := "/portfolio";
     routes := [("GET", "/summary", SignedIn, None); ("GET", "/positions", SignedIn, None); ("GET", "/orders", SignedIn, None);
                ("GET", "/equity", SignedIn, None)] |}.
Definition alerts_router : Router :=
  {| prefix := "/alerts"; routes := [("GET", "", SignedIn, None); ("POST", "/{event_id}/ack", AdminOnly, None)] |}.
Definition realtime_router : Router :=
  {| prefix := "/ws"; routes := [("POST", "/ticket", SignedIn, None); ("WEBSOCKET", "/stream", TicketHolder, None)] |}.

(** The description of the API and its pages, which [FastAPI(...)] adds by itself, and first,
    since [create_app] passes none of the arguments that would turn them off; for anyone. *)
Definition fastapi_router : Router :=
  {| prefix := "";
     routes := [("GET", "/openapi.json", Anyone, None); ("HEAD", "/openapi.json", Anyone, None);
                ("GET", "/docs", Anyone, None); ("HEAD", "/docs", Anyone, None);
                ("GET", "/docs/oauth2-redirect", Anyone, None); ("HEAD", "/docs/oauth2-redirect", Anyone, None);
                ("GET", "/redoc", Anyone, None); ("HEAD", "/redoc", Anyone, None)] |}.

(** The routes of [create_app], in the order they are tried. *)
Definition app_routes : list Route :=
  include_router "" fastapi_router
  ++ include_router "" system_router
  ++ concat (map (include_router API_V1_PREFIX)
       [auth_router; users_router; admin_router; signals_router; content_router; decisions_router; risk_router;
        market_router; backtests_router; portfolio_router; alerts_router; realtime_router]).

(** A parameter stands for one segment that is not empty. *)
Fixpoint path_matches (t : list Segment) (path : list string) : bool :=
  match t, path with
  | [], [] => true
  | Literal s :: t, p :: path => if String.eqb s p then path_matches t path else false
  | Param :: t, p :: path => if String.eqb p "" then false else path_matches t path
  | _, _ => false
  end.

Inductive Resolution := Matched (r : Route) | MethodNotAllowed (r : Route) | Redirected | NoRoute.

Section Guards.
Context `{Platform}.
Context (jwt_decode : Z -> string -> option (dict string pyval)) (parse_uuid : string -> option Z).

(** The dependencies [CurrentUser] and [AdminUser] of a route; the ticket of the live feed
    is checked by its own handler. *)
Definition check_guard (g : Guard) (now : Z) (bearer : option string) (s : Accounts) : Res (option User) :=
  match g with
  | Anyone | TicketHolder => Ok None
  | SignedIn => user <-- get_current_user jwt_decode parse_uuid now bearer s ;; Ok (Some user)
  | AdminOnly => user <-- require_role jwt_decode parse_uuid "admin" now bearer s ;; Ok (Some user)
  end.
End Guards.

(** ** Middleware *)

Record HttpRequest := {
  rq_method : string;
  rq_path : string;
  rq_origin : option string;            (* [Origin] *)
  rq_asks_method : option string;       (* [Access-Control-Request-Method] *)
  rq_id : option string                 (* [X-Request-ID] *)
}.

Definition is_preflight (rq : HttpRequest) : bool :=
  String.eqb (rq_method rq) "OPTIONS" && bool_decide (is_Some (rq_origin rq)) && bool_decide (is_Some (rq_asks_method rq)).

(** What became of a request, given the correlation id of the context it runs in: an answer
    or an exception, and the requests counted by the metrics meanwhile. *)
Definition Handler : Type := option string -> HttpRequest -> (Raised + JSONResponse) * list Served.

Definition with_header (k v : string) (r : JSONResponse) : JSONResponse :=
  {| rs_status := rs_status r; rs_content := rs_content r; rs_media_type := rs_media_type r;
     rs_headers := Some (dset k v (default [] (rs_headers r))) |}.
Definition header (k : string) (r : JSONResponse) : option string := dget k (default [] (rs_headers r)).

Definition CORS_METHODS : list string := ["GET"; "POST"; "PATCH"; "DELETE"].
Definition CORS_HEADERS : list string := ["Authorization"; "Content-Type"; "X-Requested-With"].
Definition REQUEST_ID : string := "X-Request-ID".

Class Framework := {
  (** The router over [app_routes]: what it finds is a route of that method, and the first
      whose path and method match is found. *)
  resolve : string -> list string -> Resolution;
  resolve_sound : forall m p r, resolve m p = Matched r -> r ∈ app_routes /\ method r = m;
  resolve_first : forall m p r,
    List.find (fun r => path_matches (template r) p && String.eqb (method r) m) app_routes = Some r -> resolve m p = Matched r;
  (** Whether the router leaves a route it matched in the scope of the request: those of the
      application's own routers it does. *)
  route_in_scope : Route -> bool;
  in_scope_law : forall r, r ∈ app_routes -> r ∉ include_router "" fastapi_router -> route_in_scope r = true;
  (** [CorrelationIdMiddleware]: the identity is the caller's, if well-formed, or a new one;
      it is put into the context of what is wrapped and onto its answer. *)
  request_id : option string -> string;
  CorrelationIdMiddleware : Handler -> Handler;
  correlation_law : forall h ctx rq,
    CorrelationIdMiddleware h ctx rq =
      let '(o, l) := h (Some (request_id (rq_id rq))) rq in
      (match o with inr r => inr (with_header REQUEST_ID (request_id (rq_id rq)) r) | inl e => inl e end, l);
  (** [CORSMiddleware]: anything but a preflight reaches what is wrapped; an exception passes
      and an answer keeps its status, its body and the headers of the application. *)
  CORSMiddleware : list string -> list string -> list string -> Handler -> Handler;
  cors_law : forall origins methods headers h ctx rq, is_preflight rq = false ->
    exists f : JSONResponse -> JSONResponse,
      CORSMiddleware origins methods headers h ctx rq =
        (let '(o, l) := h ctx rq in (match o with inr r => inr (f r) | inl e => inl e end, l)) /\
      (forall r, rs_status (f r) = rs_status r /\ rs_content (f r) = rs_content r /\
                 header REQUEST_ID (f r) = header REQUEST_ID r)
}.

Section Assembly.
Context `{Framework}.
(** An endpoint with its dependencies, in the context of its request. *)
Context (endpoint : Route -> option string -> HttpRequest -> Raised + JSONResponse).

(** The router raises for what it does not find. *)
Definition route_request : Handler := fun ctx rq =>
  (match resolve (rq_method rq) (tail (split_char "/" (rq_path rq))) with
   | Matched r => endpoint r ctx rq
   | MethodNotAllowed _ => inl (RaisedHTTP 405 "Method Not Allowed" None None)
   | Redirected => inr {| rs_status := 307; rs_content := []; rs_media_type := ""; rs_headers := None |}
   | NoRoute => inl (RaisedHTTP 404 "Not Found" None None)
   end, []).

(** The handlers of the expected errors; anything else passes. *)
Definition expected (e : Raised) : bool := match e with RaisedOther _ => false | _ => true end.
Definition ExceptionMiddleware (h : Handler) : Handler := fun ctx rq =>
  match h ctx rq with
  | (inl e, l) => if expected e then (inr (register_exception_handlers (rq_path rq) ctx (rq_method rq) e).1, l) else (inl e, l)
  | o => o
  end.

(** The template of the route that matched, be it under another method. *)
Definition route_label (rq : HttpRequest) : option string :=
  match resolve (rq_method rq) (tail (split_char "/" (rq_path rq))) with
  | Matched r | MethodNotAllowed r => if route_in_scope r then Some (path r) else None
  | _ => None
  end.

Definition MetricsMiddleware (h : Handler) : Handler := fun ctx rq =>
  let '(o, l) := h ctx rq in
  (o, l ++ [{| sv_method := rq_method rq; sv_route := route_label rq;
               sv_status := match o with inr r => Some (rs_status r) | inl _ => None end |}]).

Definition add_middleware (m : Handler -> Handler) (stack : list (Handler -> Handler)) : list (Handler -> Handler) := m :: stack.

Definition user_middleware (origins : list string) : list (Handler -> Handler) :=
  let stack := [] in
  let stack := match origins with
               | [] => stack
               | _ => add_middleware (CORSMiddleware origins CORS_METHODS CORS_HEADERS) stack
               end in
  let stack := add_middleware CorrelationIdMiddleware stack in
  add_middleware MetricsMiddleware stack.

Definition middleware_stack (origins : list string) : Handler :=
  foldr (fun m h => m h) (ExceptionMiddleware route_request) (user_middleware origins).

(** The server's own error handler is around everything, outside of any correlation id:
    the metrics middleware runs what it wraps in a task of its own, whose context is lost. *)
Definition serve (settings : Settings) (rq : HttpRequest) : JSONResponse * option (dict string pyval) * list Served :=
  match middleware_stack (cors_origin_list settings) None rq with
  | (inr r, l) => (r, None, l)
  | (inl e, l) => (register_exception_handlers (rq_path rq) None (rq_method rq) e, l)
  end.
End Assembly.

(** ** Properties of the routes *)

Definition public_routes : list (string * string) :=
  [("GET", "/openapi.json"); ("HEAD", "/openapi.json"); ("GET", "/docs"); ("HEAD", "/docs");
   ("GET", "/docs/oauth2-redirect"); ("HEAD", "/docs/oauth2-redirect"); ("GET", "/redoc"); ("HEAD", "/redoc"); ("GET", "/"); ("GET", "/health/live"); ("GET", "/health/ready"); ("GET", "/system/status"); ("GET", "/metrics");
   ("POST", "/api/v1/auth/register"); ("POST", "/api/v1/auth/login"); ("POST", "/api/v1/auth/refresh")].
Definition own_session : list (string * string) :=
  [("POST", "/api/v1/auth/logout"); ("POST", "/api/v1/ws/ticket")].

Definition changes (r : Route) : bool := negb (bool_decide (method r ∈ ["GET"; "HEAD"; "WEBSOCKET"])).

(** What holds of the declaration of a route. *)
Definition route_ok (r : Route) : bool :=
  Bool.eqb (bool_decide (guarded r = Anyone)) (bool_decide ((method r, path r) ∈ public_routes))
  && Bool.eqb (changes r && bool_decide (guarded r = SignedIn)) (bool_decide ((method r, path r) ∈ own_session))
  && Bool.eqb (changes r && bool_decide (guarded r = Anyone)) (bool_decide (is_Some (scope r)))
  && Bool.eqb (bool_decide (method r ∈ "WEBSOCKET" :: "HEAD" :: CORS_METHODS))
       (negb (bool_decide ((method r, path r) ∈ [("PUT", "/api/v1/admin/market-config"); ("PUT", "/api/v1/risk/params")]))).

Lemma routes_ok : forallb route_ok app_routes = true.
Proof. by vm_compute. Qed.

Lemma ticket_holders r : r ∈ app_routes -> guarded r = TicketHolder -> method r = "WEBSOCKET".
Proof.
  assert (H : forallb (fun r => negb (bool_decide (guarded r = TicketHolder)) || String.eqb (method r) "WEBSOCKET") app_routes = true)
    by (by vm_compute).
  intros Hr%list_elem_of_In Hg. pose proof (proj1 (forallb_forall _ _) H r Hr) as Hm. cbv beta in Hm.
  rewrite Hg in Hm. by apply String.eqb_eq.
Qed.

Lemma eqb_iff a b : Bool.eqb a b = true -> (a = true <-> b = true).
Proof. by destruct a, b. Qed.

Lemma route_facts r : r ∈ app_routes ->
  (guarded r = Anyone <-> (method r, path r) ∈ public_routes) /\
  (changes r = true /\ guarded r = SignedIn <-> (method r, path r) ∈ own_session) /\
  (changes r = true /\ guarded r = Anyone <-> is_Some (scope r)) /\
  (method r ∈ "WEBSOCKET" :: "HEAD" :: CORS_METHODS <->
     (method r, path r) ∉ [("PUT", "/api/v1/admin/market-config"); ("PUT", "/api/v1/risk/params")]).
Proof.
  intros Hr%list_elem_of_In. pose proof (proj1 (forallb_forall _ _) routes_ok r Hr) as H.
  unfold route_ok in H. rewrite !andb_true_iff in H. destruct H as [[[H1 H2] H3] H4].
  apply eqb_iff in H1, H2, H3, H4. rewrite ?andb_true_iff, ?negb_true_iff, ?bool_decide_eq_true, ?bool_decide_eq_false in *. done.
Qed.

Section RouteProperties.
Context `{Platform} `{Framework}.
Context (jwt_decode : Z -> string -> option (dict string pyval)) (parse_uuid : string -> option Z).
Notation current now bearer s := (get_current_user jwt_decode parse_uuid now bearer s).
Notation check_guard := (check_guard jwt_decode parse_uuid).

Lemma current_user_active now bearer s u : current now bearer s = Ok u -> is_active u = true /\ u ∈ users s.
Proof.
  unfold get_current_user. destruct bearer as [token|]; [|done]. intros (payload & _ & Hu)%res_bind_ok.
  destruct (parse_uuid _) as [id|]; [|done]. destruct (get_user id s) as [u'|] eqn:Eg; [|done].
  destruct (is_active u') eqn:Ea; [|done]. injection Hu as <-. split; [done|].
  by apply List.find_some in Eg as [Eg%list_elem_of_In _].
Qed.

Lemma admin_rank u : role_at_least (role_value (u_role u)) "admin" = bool_decide (u_role u = ADMIN).
Proof. by destruct (u_role u). Qed.

(** C20: Who may do what, over the whole application.  Whatever request a route is found
    for, its guard lets through, unless the route is one of those anyone may call (the probes
    and metrics, the description of the API with its pages, and registering, logging in and
    refreshing) or the live feed, only an active user of the database, and an administrator where one is asked
    for; whoever is signed in but no administrator, trader or viewer alike, is refused there.
    Whatever changes state is for administrators, but for registering, logging in and
    refreshing, the only routes anyone may call that do and each rate limited, and for
    logging out and drawing a ticket, which are the caller's own. *)
Theorem routes_guarded now bearer s m p r :
  resolve m p = Matched r ->
  (forall u, check_guard (guarded r) now bearer s = Ok u ->
     (method r, path r) ∈ public_routes \/ guarded r = TicketHolder \/
     exists user, u = Some user /\ is_active user = true /\ user ∈ users s /\ (guarded r = AdminOnly -> u_role user = ADMIN)) /\
  (forall user, current now bearer s = Ok user -> guarded r = AdminOnly -> u_role user <> ADMIN ->
     check_guard (guarded r) now bearer s = Err PermissionDeniedError) /\
  (changes r = true ->
     guarded r = AdminOnly \/ (method r, path r) ∈ own_session \/
     ((method r, path r) ∈ public_routes /\ is_Some (scope r))).
Proof.
  intros (Hin & _)%resolve_sound. destruct (route_facts r Hin) as (Hpub & Hown & Hlim & _). split_and!.
  - intros u. destruct (guarded r) eqn:Eg; cbn [App.check_guard]; [naive_solver| | |naive_solver].
    + intros (user & [Ha Hu]%current_user_active & [= <-])%res_bind_ok. right; right. by exists user.
    + intros (user & Hr & [= <-])%res_bind_ok. apply res_bind_ok in Hr as (user' & [Ha Hu]%current_user_active & Hr).
      rewrite admin_rank in Hr. destruct (bool_decide_reflect (u_role user' = ADMIN)) as [Hrole|]; [|done].
      injection Hr as <-. right; right. by exists user'.
  - intros user Hu -> Hn. cbn [App.check_guard]. unfold require_role. rewrite Hu. cbn [res_bind].
    by rewrite admin_rank, bool_decide_eq_false_2.
  - intros Hc. destruct (guarded r) eqn:Eg; [|naive_solver|by left|].
    + right; right. split; [naive_solver|]. by apply Hlim.
    + exfalso. unfold changes in Hc. rewrite negb_true_iff, bool_decide_eq_false in Hc.
      apply Hc. rewrite (ticket_holders r Hin Eg). right. right. left.
Qed.
End RouteProperties.

(** The segments of a path with its parameters filled in. *)
Fixpoint fill (t : list Segment) (args : list string) : option (list string) :=
  match t, args with
  | [], [] => Some []
  | Literal s :: t, _ => cons s <$> fill t args
  | Param :: t, a :: args => if String.eqb a "" then None else cons a <$> fill t args
  | _, _ => None
  end.

(** Templates that differ in length or in a literal. *)
Fixpoint apart (t1 t2 : list Segment) : bool :=
  match t1, t2 with
  | [], [] => false
  | Literal a :: t1, Literal b :: t2 => negb (String.eqb a b) || apart t1 t2
  | _ :: t1, _ :: t2 => apart t1 t2
  | _, _ => true
  end.

Lemma fill_matches t : forall args p, fill t args = Some p -> path_matches t p = true.
Proof.
  induction t as [|[s|] t IH]; intros [|a args] p E; cbn [fill] in E; try done; try (by injection E as <-).
  1,2: apply fmap_Some in E as (p' & E & ->); cbn [path_matches]; rewrite String.eqb_refl; by eapply IH.
  destruct (String.eqb a "") eqn:Ea; [done|]. apply fmap_Some in E as (p' & E & ->). cbn [path_matches]. rewrite Ea. by eapply IH.
Qed.

Lemma apart_no_match t1 : forall t2 args p, apart t1 t2 = true -> fill t2 args = Some p -> path_matches t1 p = false.
Proof.
  induction t1 as [|s1 t1 IH]; intros [|s2 t2] args p Ha E; cbn [apart] in Ha.
  - done.
  - cbn [fill] in E. destruct s2; [|destruct args as [|a args]; [done|]; destruct (String.eqb a ""); [done|]];
      by apply fmap_Some in E as (p' & _ & ->).
  - destruct args; [injection E as <-|done]. by destruct s1.
  - cbn [fill] in E. destruct s2 as [b|].
    + apply fmap_Some in E as (p' & E & ->). destruct s1 as [a|]; cbn [path_matches].
      * destruct (String.eqb a b); [cbn in Ha; by eapply IH|done].
      * destruct (String.eqb b ""); [done|]. by eapply IH.
    + destruct args as [|x args]; [done|]. destruct (String.eqb x "") eqn:Ex; [done|].
      apply fmap_Some in E as (p' & E & ->). destruct s1 as [a|]; cbn [path_matches].
      * destruct (String.eqb a x); [by eapply IH|done].
      * rewrite Ex. by eapply IH.
Qed.

Lemma routes_apart :
  forallb (fun r1 => forallb (fun r2 => bool_decide (r1 = r2) || negb (String.eqb (method r1) (method r2))
                                        || apart (template r1) (template r2)) app_routes) app_routes = true.
Proof. by vm_compute. Qed.

(** No route hides another.  For every route the application declares, a request by its
    method for its path, whatever its parameters, is resolved to that very route; and a
    browser on another origin may use every route but two ([HEAD] needs no preflight), since
    [PUT] is not among the methods allowed across origins: the market configuration and the risk parameters. *)
Theorem routes_reached `{Framework} r args p :
  r ∈ app_routes -> fill (template r) args = Some p ->
  resolve (method r) p = Matched r /\
  (method r ∈ "WEBSOCKET" :: "HEAD" :: CORS_METHODS <->
     (method r, path r) ∉ [("PUT", "/api/v1/admin/market-config"); ("PUT", "/api/v1/risk/params")]).
Proof.
  intros Hr Hp. split; [|by apply route_facts]. apply resolve_first.
  destruct (List.find _ app_routes) as [r'|] eqn:E.
  - apply find_some in E as [Hin [Hm Heq%String.eqb_eq]%andb_true_iff]. f_equal.
    pose proof (proj1 (forallb_forall _ _) routes_apart r' Hin) as Hall. cbv beta in Hall.
    pose proof (proj1 (forallb_forall _ _) Hall r (proj1 (list_elem_of_In _ _) Hr)) as Ha. cbv beta in Ha.
    rewrite Heq, String.eqb_refl, orb_false_r in Ha. apply orb_true_iff in Ha as [Ha|Ha]; [by apply bool_decide_eq_true in Ha|].
    by rewrite (apart_no_match _ _ _ _ Ha Hp) in Hm.
  - apply List.find_none with (x := r) in E; [|by apply list_elem_of_In].
    by rewrite (fill_matches _ _ _ Hp), String.eqb_refl in E.
Qed.

(** ** Properties of the middleware *)

Section ServeProperties.
Context `{Platform} `{Framework}.
Context (endpoint : Route -> option string -> HttpRequest -> Raised + JSONResponse).
Notation serve := (serve endpoint).
Notation inner := (route_request endpoint).

(** What reaches the correlation layer. *)
Lemma stack_inner origins ctx rq :
  is_preflight rq = false ->
  exists f : JSONResponse -> JSONResponse,
    (let id := request_id (rq_id rq) in
     middleware_stack endpoint origins ctx rq =
       MetricsMiddleware (fun _ _ =>
         (match (ExceptionMiddleware inner (Some id) rq).1 with
          | inr r => inr (with_header REQUEST_ID id (f r))
          | inl e => inl e
          end, [])) ctx rq) /\
    (forall r, rs_status (f r) = rs_status r /\ rs_content (f r) = rs_content r).
Proof.
  intros Hp.
  assert (Hn : forall id, (ExceptionMiddleware inner (Some id) rq).2 = []).
  { intros id. unfold ExceptionMiddleware, App.route_request. destruct (match resolve _ _ with Matched _ => _ | _ => _ end) as [e|r]; [|done].
    by destruct (expected e). }
  unfold middleware_stack, user_middleware, add_middleware.
  destruct origins as [|o origins]; cbn [foldr].
  - exists id. split; [|done]. cbv zeta. unfold MetricsMiddleware. rewrite correlation_law.
    specialize (Hn (request_id (rq_id rq))). destruct (ExceptionMiddleware inner _ rq) as [out l]. cbn [fst snd] in *. by subst l.
  - destruct (cors_law (o :: origins) CORS_METHODS CORS_HEADERS (ExceptionMiddleware inner) (Some (request_id (rq_id rq))) rq Hp)
      as (f & Hf & Hs). exists f. split; [|intros r; split; apply Hs]. cbv zeta. unfold MetricsMiddleware. rewrite correlation_law, Hf.
    specialize (Hn (request_id (rq_id rq))). destruct (ExceptionMiddleware inner _ rq) as [out l]. cbn [fst snd] in *. subst l.
    by destruct out.
Qed.

Lemma problem_correlation e path method cid :
  "correlation_id" ∉ extra_of e ->
  dget "correlation_id" (rs_content (register_exception_handlers path cid method e).1) = Some (opt_text cid).
Proof.
  destruct e; cbn [register_exception_handlers fst]; intros Hk.
  - by apply (pf_correlation _ _ _ _ (problem_response_for path cid _ _ _ _ _ _)).
  - by apply (pf_correlation _ _ _ _ (problem_response_for path cid _ _ _ _ [] _)).
  - by apply (pf_correlation _ _ _ _ (problem_response_for path cid _ _ _ _ [_] _)).
  - by apply (pf_correlation _ _ _ _ (problem_response_for path cid _ _ _ _ [] _)).
Qed.

Lemma header_with k v r : header k (with_header k v r) = Some v.
Proof. unfold header, with_header. cbn. by rewrite dget_dset_eq. Qed.

End ServeProperties.

Definition demo_cors : JSONResponse -> JSONResponse := with_header "Access-Control-Allow-Credentials" "true".

#[export, refine] Instance demo_framework : Framework := {
  resolve := fun m p =>
    match List.find (fun r => path_matches (template r) p && String.eqb (method r) m) app_routes with Some r => Matched r | None => NoRoute end;
  route_in_scope := fun _ => true;
  request_id := fun given => default "4b0c" given;
  CorrelationIdMiddleware := fun h _ rq =>
    let id := default "4b0c" (rq_id rq) in
    let '(o, l) := h (Some id) rq in (match o with inr r => inr (with_header REQUEST_ID id r) | inl e => inl e end, l);
  CORSMiddleware := fun _ _ _ h ctx rq =>
    let '(o, l) := h ctx rq in (match o with inr r => inr (demo_cors r) | inl e => inl e end, l)
}.
Proof.
  - intros m p r. destruct (List.find _ app_routes) as [r'|] eqn:E; [|done]. intros [= ->].
    apply find_some in E as [Hin [_ Hm%String.eqb_eq]%andb_true_iff]. by rewrite list_elem_of_In.
  - by intros m p r ->.
  - done.
  - intros h ctx rq. reflexivity.
  - intros origins methods headers h ctx rq _. exists demo_cors. split; [done|]. intros r. split; [done|]. split; [done|].
    unfold header, demo_cors, with_header. cbn [rs_headers default]. by apply dget_dset_ne.
Defined.

Lemma routes_reached_witness :
  resolve "GET" ["api"; "v1"; "backtests"; "count"; "trades"]
  = Matched {| method := "GET"; path := "/api/v1/backtests/{run_id}/trades"; guarded := SignedIn; scope := None |}.
Proof.
  refine (proj1 (routes_reached {| method := "GET"; path := "/api/v1/backtests/{run_id}/trades"; guarded := SignedIn; scope := None |}
                   ["count"] _ _ _)).
  - apply list_elem_of_In. vm_compute. tauto.
  - by vm_compute.
Defined.

Notation patch_user := {| method := "PATCH"; path := "/api/v1/users/{user_id}"; guarded := AdminOnly; scope := None |}.

Lemma routes_guarded_witness :
  resolve "PATCH" ["api"; "v1"; "users"; "7"] = Matched patch_user /\
  (guarded patch_user = AdminOnly \/ (method patch_user, path patch_user) ∈ own_session \/
   ((method patch_user, path patch_user) ∈ public_routes /\ is_Some (scope patch_user))).
Proof.
  assert (E : resolve "PATCH" ["api"; "v1"; "users"; "7"] = Matched patch_user) by (by vm_compute).
  split; [exact E|].
  refine (proj2 (proj2 (@routes_guarded demo_platform demo_framework (fun _ _ => None) (fun _ => None) 0 None no_accounts "PATCH"
                          ["api"; "v1"; "users"; "7"] patch_user E)) _).
  by vm_compute.
Defined.

(** A request whose endpoint divides by zero. *)
Notation failing_request :=
  {| rq_method := "GET"; rq_path := "/api/v1/auth/me"; rq_origin := Some "http://localhost:3000"; rq_asks_method := None;
     rq_id := Some "a1" |}.

