(* ===== verification/DbSession.v ===== *)
(** * Engines, session factories and Redis clients ([app/db/session.py])

    The accessors are memoised by [lru_cache(maxsize=1)]: one entry, under the arguments as
    they were written, so that a call without an argument and a call with [None] are two
    keys.  An engine and a client are the number of their creation. *)

From Stdlib Require Import Lia.
From stdpp Require Import base list strings.
From S2P Require Import Prelude Alerts.

(** The arguments of a call: none, or one that may be [None]. *)
Definition Args : Type := option (option string).

(** One entry of [lru_cache(maxsize=1)]. *)
Definition Cache : Type := option (Args * nat).
Definition cached (args : Args) (c : Cache) : option nat :=
  match c with Some (key, v) => if decide (key = args) then Some v else None | None => None end.

Record Sessions := {
  engines : list (string * bool);      (* the address of each, and whether it was disposed of *)
  clients : list (string * bool);      (* the address of each, and whether it was closed *)
  engine_cache : Cache;
  maker_cache : Cache;                 (* a factory is the engine it is bound to *)
  client_cache : Cache;
  bound : list nat                     (* the engines factories were handed out for *)
}.

Definition fresh_process : Sessions :=
  {| engines := []; clients := []; engine_cache := None; maker_cache := None; client_cache := None; bound := [] |}.

Section Accessors.
Context (settings_database_url settings_redis_url : string).

(** [url or get_settings()...]. *)
Definition address (args : Args) (configured : string) : string :=
  or_str (default EmptyString (default None args)) configured.

Definition get_engine (args : Args) (s : Sessions) : nat * Sessions :=
  match cached args (engine_cache s) with
  | Some e => (e, s)
  | None => let e := length (engines s) in
            (e, {| engines := engines s ++ [(address args settings_database_url, false)]; clients := clients s;
                   engine_cache := Some (args, e); maker_cache := maker_cache s; client_cache := client_cache s; bound := bound s |})
  end.

Definition get_sessionmaker (args : Args) (s : Sessions) : nat * Sessions :=
  match cached args (maker_cache s) with
  | Some e => (e, s)
  | None => let '(e, s) := get_engine (Some (default None args)) s in
            (e, {| engines := engines s; clients := clients s; engine_cache := engine_cache s; maker_cache := Some (args, e);
                   client_cache := client_cache s; bound := bound s ++ [e] |})
  end.

Definition get_redis_client (args : Args) (s : Sessions) : nat * Sessions :=
  match cached args (client_cache s) with
  | Some c => (c, s)
  | None => let c := length (clients s) in
            (c, {| engines := engines s; clients := clients s ++ [(address args settings_redis_url, false)];
                   engine_cache := engine_cache s; maker_cache := maker_cache s; client_cache := Some (args, c); bound := bound s |})
  end.

Definition shut (n : nat) (l : list (string * bool)) : list (string * bool) := alter (fun e => (e.1, true)) n l.

Definition dispose_engine (s : Sessions) : Sessions :=
  let '(e, s) := get_engine None s in
  {| engines := shut e (engines s); clients := clients s; engine_cache := None; maker_cache := None;
     client_cache := client_cache s; bound := bound s |}.

Definition dispose_redis (s : Sessions) : Sessions :=
  let '(c, s) := get_redis_client None s in
  {| engines := engines s; clients := shut c (clients s); engine_cache := engine_cache s; maker_cache := maker_cache s;
     client_cache := None; bound := bound s |}.

(** What the program does: a request or a worker opens a session, a command opens one at an
    explicit address, a request or a worker takes the Redis client, the application ends. *)
Inductive SessionOp := OpenSession | OpenSessionAt (url : string) | TakeRedis | Shutdown.

Definition session_op (s : Sessions) (o : SessionOp) : Sessions :=
  match o with
  | OpenSession => (get_sessionmaker None s).2
  | OpenSessionAt url => (get_sessionmaker (Some (Some url)) s).2
  | TakeRedis => (get_redis_client None s).2
  | Shutdown => dispose_redis (dispose_engine s)
  end.

(** ** Properties *)

Record sessions_ok (s : Sessions) : Prop := {
  so_cache : forall e, engine_cache s <> Some (None, e);
  so_makers : forall a e, maker_cache s = Some (a, e) -> e ∈ bound s;
  so_bound : forall e, e ∈ bound s -> exists url, engines s !! e = Some (url, false);
  so_engine : forall a e, engine_cache s = Some (a, e) -> exists url, engines s !! e = Some (url, false);
  so_clients : forall c u, clients s !! c = Some (u, false) -> client_cache s = Some (None, c);
  so_client : forall a c, client_cache s = Some (a, c) -> exists u, clients s !! c = Some (u, false)
}.

Lemma fresh_ok : sessions_ok fresh_process.
Proof. constructor; cbn; try done; try (intros e He; by apply elem_of_nil in He). Qed.

Lemma lookup_kept {A} (l : list A) x n y : l !! n = Some y -> (l ++ [x]) !! n = Some y.
Proof. intros H. by apply lookup_app_l_Some. Qed.

Lemma made (l : list (string * bool)) url : exists u, (l ++ [(url, false)]) !! length l = Some (u, false).
Proof. exists url. by rewrite lookup_app_r, Nat.sub_diag by lia. Qed.

Lemma get_engine_ok u s : sessions_ok s ->
  let '(e, s') := get_engine (Some u) s in
  sessions_ok s' /\ (exists url, engines s' !! e = Some (url, false)) /\ bound s' = bound s /\ maker_cache s' = maker_cache s.
Proof.
  intros Hs. pose proof Hs as [H1 H2 H3 H4 H5 H6]. unfold get_engine, cached.
  destruct (engine_cache s) as [[k e]|] eqn:Ec.
  - destruct (decide (k = Some u)) as [->|Hn]; [split; [done|]; split; [by eapply H4|done]|].
    split; [|split; [apply made|done]]. constructor; cbn; try done.
    + intros e' He. destruct (H3 e' He) as [url Hu]. exists url. by apply lookup_kept.
    + intros a e' [= <- <-]. apply made.
  - split; [|split; [apply made|done]]. constructor; cbn; try done.
    + intros e' He. destruct (H3 e' He) as [url Hu]. exists url. by apply lookup_kept.
    + intros a e' [= <- <-]. apply made.
Qed.

Lemma get_sessionmaker_ok a s : sessions_ok s -> sessions_ok (get_sessionmaker a s).2.
Proof.
  intros Hs. unfold get_sessionmaker. destruct (cached a (maker_cache s)); [done|].
  pose proof (get_engine_ok (default None a) s Hs) as He. destruct (get_engine _ s) as [e s'].
  destruct He as ([H1 H2 H3 H4 H5 H6] & Hurl & Hb & Hm). constructor; cbn; try done.
  - intros a' e' [= <- <-]. rewrite elem_of_app, list_elem_of_singleton. by right.
  - intros e'. rewrite elem_of_app, list_elem_of_singleton. intros [He| ->]; [by apply H3|done].
Qed.

Lemma take_redis_ok s : sessions_ok s -> sessions_ok (get_redis_client None s).2.
Proof.
  intros Hs. pose proof Hs as [H1 H2 H3 H4 H5 H6]. unfold get_redis_client, cached.
  destruct (client_cache s) as [[k c]|] eqn:Ec.
  - destruct (H6 k c eq_refl) as [u Hu]. pose proof (H5 c u Hu) as E. injection E as ->.
    by rewrite decide_True by done.
  - constructor; cbn; try done.
    + intros c u Hc. apply lookup_app_Some in Hc as [Hc|[Hl Hc]]; [by apply H5 in Hc|].
      apply list_lookup_singleton_Some in Hc as [Hc _]. do 2 f_equal. lia.
    + intros a c [= <- <-]. apply made.
Qed.

(** Ending the application disposes of an engine made for the purpose. *)
Lemma dispose_engine_spec s : sessions_ok s ->
  engines (dispose_engine s) = engines s ++ [(settings_database_url, true)] /\ sessions_ok (dispose_engine s) /\
  bound (dispose_engine s) = bound s.
Proof.
  intros [H1 H2 H3 H4 H5 H6]. unfold dispose_engine.
  assert (Hc : cached None (engine_cache s) = None).
  { unfold cached. destruct (engine_cache s) as [[k e]|]; [|done]. destruct (decide (k = None)) as [->|]; [|done].
    by destruct (H1 e). }
  unfold get_engine. rewrite Hc. cbn [engines clients engine_cache maker_cache client_cache bound].
  assert (He : shut (length (engines s)) (engines s ++ [(address None settings_database_url, false)])
               = engines s ++ [(settings_database_url, true)]).
  { unfold shut. rewrite alter_app_r_alt by lia. by rewrite Nat.sub_diag. }
  rewrite He. split; [done|]. split; [|done]. constructor; cbn; try done.
  intros e Hb. destruct (H3 e Hb) as [url Hu]. exists url. by apply lookup_kept.
Qed.

Lemma dispose_redis_spec s : sessions_ok s ->
  Forall (fun c => c.2 = true) (clients (dispose_redis s)) /\ sessions_ok (dispose_redis s) /\
  engines (dispose_redis s) = engines s /\ bound (dispose_redis s) = bound s.
Proof.
  intros Hs. pose proof (take_redis_ok s Hs) as Ht. unfold dispose_redis.
  assert (Hk : engines (get_redis_client None s).2 = engines s /\ bound (get_redis_client None s).2 = bound s)
    by (unfold get_redis_client; by destruct (cached None (client_cache s))).
  assert (Hc : client_cache (get_redis_client None s).2 = Some (None, (get_redis_client None s).1)).
  { unfold get_redis_client. destruct (cached None (client_cache s)) as [c|] eqn:E; [|done].
    unfold cached in E. destruct (client_cache s) as [[k c']|] eqn:Ec; [|done]. destruct (decide (k = None)) as [->|]; [|done].
    cbn. by injection E as ->. }
  destruct (get_redis_client None s) as [c s']. cbn [fst snd] in *. destruct Ht as [H1 H2 H3 H4 H5 H6].
  assert (Hall : forall i u b, shut c (clients s') !! i = Some (u, b) -> b = true).
  { intros i u b Hi. unfold shut in Hi. destruct (decide (i = c)) as [->|Hn].
    - rewrite list_lookup_alter, decide_True in Hi by done. apply fmap_Some in Hi as ([u' b'] & _ & [= -> ->]). done.
    - rewrite list_lookup_alter_ne in Hi by done. destruct b; [done|]. apply H5 in Hi. rewrite Hc in Hi. by injection Hi as ->. }
  split.
  - apply Forall_lookup. intros i [u b] Hi. by apply Hall in Hi.
  - split; [|done]. constructor; cbn; try done. intros i u Hi. by apply Hall in Hi.
Qed.

Notation ran ops := (foldl session_op fresh_process ops).

Lemma session_op_ok s o : sessions_ok s -> sessions_ok (session_op s o).
Proof.
  intros Hs. destruct o; cbn [session_op].
  - by apply get_sessionmaker_ok.
  - by apply get_sessionmaker_ok.
  - by apply take_redis_ok.
  - apply dispose_redis_spec, dispose_engine_spec, Hs.
Qed.

Lemma ran_ok ops : sessions_ok (ran ops).
Proof.
  pose proof fresh_ok as H. revert H. generalize fresh_process.
  induction ops as [|o ops IH]; intros s Hs; [done|]. cbn [foldl]. by apply IH, session_op_ok.
Qed.

(** Ending the application closes the Redis client and not the database.  After any
    sequence of sessions, clients and endings, an ending leaves every Redis client closed;
    but no engine a session was ever opened on is disposed of: the accessor called without
    its argument has an entry of its own, so that each ending creates one more engine for
    the configured address, disposes of that one, and the connections of those in use
    remain. *)
Theorem shutdown_keeps_engines ops :
  let s := ran ops in
  let s' := session_op s Shutdown in
  Forall (fun c => c.2 = true) (clients s') /\
  engines s' = engines s ++ [(settings_database_url, true)] /\
  (forall e, e ∈ bound s' -> exists url, engines s' !! e = Some (url, false)).
Proof.
  intros s s'. pose proof (ran_ok ops) as Hs. fold s in Hs. unfold s'. cbn [session_op].
  destruct (dispose_engine_spec s Hs) as (He & Hs1 & Hb1). destruct (dispose_redis_spec _ Hs1) as (Hc & Hs2 & He2 & Hb2).
  split; [done|]. split; [by rewrite He2|]. apply so_bound, Hs2.
Qed.
End Accessors.

(** A request, a background task on the same factory, the end. *)
Example one_request_engine :
  let s := foldl (session_op "db" "redis") fresh_process [OpenSession; TakeRedis; OpenSession; Shutdown] in
  engines s = [("db", false); ("db", true)]%string /\ clients s = [("redis", true)]%string /\ bound s = [0%nat].
Proof. by vm_compute. Qed.
