(* ===== verification/Publisher.v ===== *)
(** * Publishing on the bus ([app/bus/publisher.py], [Event.to_json] of [app/bus/events.py],
    [app/bus/topics.py])

    [EventPublisher] is the interface the producers are written against, and its two
    implementations are instances of it.  Redis trims a stream approximately: how many
    entries an append drops is a parameter, by its documentation never one of the newest
    [MAXLEN]. *)

From Stdlib Require Import ZArith Lia.
From stdpp Require Import base list strings.
From S2P Require Import Prelude PyFloat Timeframes Signals Bus Alerts AgentWork ReadApi.

Open Scope Z_scope.

(** ** Names *)

Definition SCHEMA_VERSION : Z := 1.
Definition PRICES_LIVE_CHANNEL : string := "prices.live".
Definition SIGNALS_STREAM : string := "signals.stream".
Definition DECISIONS_STREAM : string := "decisions.stream".
Definition ALERTS_STREAM : string := "alerts.stream".
Definition STREAM_MAXLEN_APPROX : nat := 100000.

(** ** The envelope on the wire *)

Section Envelope.
Context (json_dumps : pyval -> string) (isoformat : Z -> string).

(** [asdict(self)] with its time as text. *)
Definition envelope (e : Event) : pyval :=
  VDict [("event_type", VStr (event_type e)); ("payload", VDict (payload e)); ("producer", VStr (producer e));
         ("produced_at", VStr (isoformat (produced_at e))); ("schema_version", VInt SCHEMA_VERSION);
         ("correlation_id", VStr "")]%string.
Definition to_json (e : Event) : string := json_dumps (envelope e).

(** ** The interface *)

Class EventPublisher (B : Type) := {
  publish_bar_closed : Event -> string -> B -> B;
  publish_price : Event -> B -> B;
  publish_alert : Event -> B -> B;
  publish_signal : Event -> B -> B;
  publish_decision : Event -> B -> B;
  set_latest_price : string -> string -> B -> B
}.

(** What the producers ask of a publisher. *)
Inductive Publication :=
| BarClosed (e : Event) (timeframe : string) | Price (e : Event) | Alert (e : Event) | Signal (e : Event)
| Decided (e : Event) | LatestPrice (symbol quote_json : string).

Definition publish `{EventPublisher B} (b : B) (p : Publication) : B :=
  match p with
  | BarClosed e timeframe => publish_bar_closed e timeframe b
  | Price e => publish_price e b
  | Alert e => publish_alert e b
  | Signal e => publish_signal e b
  | Decided e => publish_decision e b
  | LatestPrice symbol quote => set_latest_price symbol quote b
  end.

(** ** Redis *)

(** The streams with their entries, the messages of the channels, the plain keys. *)
Record RedisBus := {
  streams : dict string (list (dict string string));
  messages : list (string * string);
  values : dict string string
}.
Definition empty_bus : RedisBus := {| streams := []; messages := []; values := [] |}.

(** How many of [n] entries an append to a stream drops. *)
Context (trimmed : nat -> nat).

Definition xadd (stream : string) (fields : dict string string) (b : RedisBus) : RedisBus :=
  let entries := dget_or stream [] (streams b) ++ [fields] in
  {| streams := dset stream (drop (trimmed (length entries)) entries) (streams b); messages := messages b; values := values b |}.

#[export] Instance RedisEventPublisher : EventPublisher RedisBus := {
  publish_bar_closed e timeframe := xadd (bars_closed_topic timeframe) [("data"%string, to_json e)];
  publish_price e b := {| streams := streams b; messages := messages b ++ [(PRICES_LIVE_CHANNEL, to_json e)]; values := values b |};
  publish_alert e := xadd ALERTS_STREAM [("data"%string, to_json e)];
  publish_signal e := xadd SIGNALS_STREAM [("data"%string, to_json e)];
  publish_decision e := xadd DECISIONS_STREAM [("data"%string, to_json e)];
  set_latest_price symbol quote b :=
    {| streams := streams b; messages := messages b; values := dset (latest_price_key symbol) quote (values b) |}
}.

(** The publisher of dry runs. *)
Definition NullEventPublisher (B : Type) : EventPublisher B := {|
  publish_bar_closed _ _ b := b; publish_price _ b := b; publish_alert _ b := b; publish_signal _ b := b;
  publish_decision _ b := b; set_latest_price _ _ b := b |}.

(** ** The abstract bus: what was published, for ever *)

(** The stream an event goes to. *)
Definition stream_of (p : Publication) : option (string * Event) :=
  match p with
  | BarClosed e timeframe => Some (bars_closed_topic timeframe, e)
  | Alert e => Some (ALERTS_STREAM, e)
  | Signal e => Some (SIGNALS_STREAM, e)
  | Decided e => Some (DECISIONS_STREAM, e)
  | Price _ | LatestPrice _ _ => None
  end.

Definition log_of (stream : string) (h : list Publication) : list Event :=
  omap (fun p => '(s, e) ← stream_of p; if decide (s = stream) then Some e else None) h.

Definition price_messages (h : list Publication) : list Event :=
  omap (fun p => match p with Price e => Some e | _ => None end) h.

Definition last_quote (symbol : string) (h : list Publication) : option string :=
  foldl (fun q p => match p with LatestPrice s quote => if decide (s = symbol) then Some quote else q | _ => q end) None h.

Definition entry_of (e : Event) : dict string string := [("data"%string, to_json e)].

Notation after h := (foldl publish empty_bus h).

(** ** Properties *)

Definition trims_oldest : Prop := forall n, (trimmed n <= n - STREAM_MAXLEN_APPROX)%nat.

Lemma xadd_streams s fields b k :
  dget_or k [] (streams (xadd s fields b)) =
  if decide (s = k) then drop (trimmed (S (length (dget_or k [] (streams b))))) (dget_or k [] (streams b) ++ [fields])
  else dget_or k [] (streams b).
Proof.
  unfold xadd, dget_or. cbn [streams]. destruct (decide (s = k)) as [->|Hn].
  - rewrite dget_dset_eq, length_app. cbn [length]. by rewrite Nat.add_1_r.
  - by rewrite dget_dset_ne by congruence.
Qed.

Lemma publish_streams b p k :
  dget_or k [] (streams (publish b p)) =
  match stream_of p with
  | Some (s, e) => if decide (s = k) then drop (trimmed (S (length (dget_or k [] (streams b))))) (dget_or k [] (streams b) ++ [entry_of e])
                   else dget_or k [] (streams b)
  | None => dget_or k [] (streams b)
  end.
Proof. destruct p; cbn [publish stream_of]; try done; apply xadd_streams. Qed.

Lemma log_of_snoc k h p :
  log_of k (h ++ [p]) = log_of k h ++ match stream_of p with Some (s, e) => if decide (s = k) then [e] else [] | None => [] end.
Proof.
  unfold log_of. rewrite omap_app. f_equal. cbn. destruct (stream_of p) as [[s e]|]; [|done]. cbn. by destruct (decide (s = k)).
Qed.

Lemma stream_suffix k h : trims_oldest ->
  exists n, dget_or k [] (streams (after h)) = drop n (map entry_of (log_of k h)) /\
            (n <= length (log_of k h) - STREAM_MAXLEN_APPROX)%nat.
Proof.
  intros Ht. induction h as [|p h IH] using rev_ind.
  - exists 0%nat. split; [done|apply Nat.le_0_l].
  - destruct IH as (n & Hn & Hle). rewrite foldl_app. cbn [foldl]. rewrite publish_streams, log_of_snoc.
    destruct (stream_of p) as [[s e]|].
    2: { exists n. rewrite app_nil_r. done. }
    destruct (decide (s = k)) as [_|_]; [|exists n; rewrite app_nil_r; done].
    rewrite Hn, length_drop, length_map, length_app, map_app. cbn [length map].
    set (L := length (log_of k h)) in *. set (M := STREAM_MAXLEN_APPROX) in *.
    pose proof (Ht (S (L - n))) as Hk. fold M in Hk. set (d := trimmed (S (L - n))) in *.
    exists (n + d)%nat. split; [|lia].
    rewrite <- drop_drop. f_equal. rewrite drop_app_le; [done|]. rewrite length_map. fold L. lia.
Qed.

Lemma latest_price_key_inj a b : latest_price_key a = latest_price_key b -> a = b.
Proof. unfold latest_price_key. intros E. injection E as E. exact E. Qed.

Lemma values_last h symbol : dget (latest_price_key symbol) (values (after h)) = last_quote symbol h.
Proof.
  induction h as [|p h IH] using rev_ind; [done|]. unfold last_quote in *. rewrite !foldl_app. cbn [foldl]. rewrite <- IH.
  destruct p; cbn [publish publish_bar_closed publish_price publish_alert publish_signal publish_decision set_latest_price
                   RedisEventPublisher values xadd]; try done.
  destruct (decide (symbol0 = symbol)) as [->|Hn]; [by rewrite dget_dset_eq|].
  rewrite dget_dset_ne; [done|]. intros E%latest_price_key_inj. congruence.
Qed.

Lemma messages_all h : messages (after h) = map (fun e => (PRICES_LIVE_CHANNEL, to_json e)) (price_messages h).
Proof.
  induction h as [|p h IH] using rev_ind; [done|]. unfold price_messages in *. rewrite foldl_app, omap_app, map_app, <- IH. cbn [foldl].
  by destruct p; cbn; rewrite ?app_nil_r.
Qed.

Context (json_loads : string -> option pyval) (fromisoformat : pyval -> option Z) (py_int : pyval -> option Z).

(** A consumer's view of an entry. *)
Definition decode_entry (fields : dict string string) : option RawEvent :=
  raw ← dget "data"%string fields; from_json json_loads fromisoformat py_int raw.

(** Reading back what was rendered: the JSON of an envelope, a time, the version. *)
Record codec_ok (e : Event) : Prop := {
  co_json : json_loads (to_json e) = Some (envelope e);
  co_time : fromisoformat (VStr (isoformat (produced_at e))) = Some (produced_at e);
  co_version : py_int (VInt SCHEMA_VERSION) = Some SCHEMA_VERSION
}.

Lemma decode_entry_of e : codec_ok e -> decode_entry (entry_of e) = Some (received e).
Proof.
  intros [Hj Ht Hv]. unfold decode_entry, entry_of. cbn [dget]. rewrite decide_True by done. cbn [mbind option_bind].
  unfold from_json. rewrite Hj. cbn [mbind option_bind].
  change (getitem "produced_at" (envelope e)) with (Some (VStr (isoformat (produced_at e)))). cbn [mbind option_bind].
  rewrite Ht. cbn [mbind option_bind].
  change (getitem "event_type" (envelope e)) with (Some (VStr (event_type e))).
  change (getitem "payload" (envelope e)) with (Some (VDict (payload e))).
  change (getitem "producer" (envelope e)) with (Some (VStr (producer e))).
  change (getitem "schema_version" (envelope e)) with (Some (VInt SCHEMA_VERSION)). cbn [mbind option_bind].
  rewrite Hv. reflexivity.
Qed.

(** C25: The bus delivers what was published, and only that.  Whatever the producers
    published, a stream holds, in order, the events that were published to it, from some
    point on that leaves at least the newest [STREAM_MAXLEN_APPROX] of them, and every
    worker's decoder reads each of them back as it was; the price channel carried exactly
    the prices, and the key of a symbol holds its last quote.  The publisher of dry runs
    changes nothing. *)
Theorem published_events_delivered h stream :
  trims_oldest -> Forall codec_ok (log_of stream h) ->
  (exists n, (n <= length (log_of stream h) - STREAM_MAXLEN_APPROX)%nat /\
     map decode_entry (dget_or stream [] (streams (after h))) = map (fun e => Some (received e)) (drop n (log_of stream h))) /\
  messages (after h) = map (fun e => (PRICES_LIVE_CHANNEL, to_json e)) (price_messages h) /\
  (forall symbol, dget (latest_price_key symbol) (values (after h)) = last_quote symbol h) /\
  (forall b : RedisBus, foldl (@publish _ (NullEventPublisher RedisBus)) b h = b).
Proof.
  intros Ht Hc. split; [|split; [apply messages_all|split; [apply values_last|]]].
  - destruct (stream_suffix stream h Ht) as (n & -> & Hn). exists n. split; [done|].
    rewrite List.skipn_map, List.map_map. apply List.map_ext_in. intros e He%list_elem_of_In.
    apply decode_entry_of. rewrite Forall_forall in Hc. apply Hc. rewrite <- (take_drop n (log_of stream h)).
    apply elem_of_app. by right.
  - intros b. clear Hc. induction h as [|p h IH]; [done|]. cbn [foldl]. destruct p; apply IH.
Qed.
End Envelope.

Notation demo_event :=
  {| event_type := "alert.system"; payload := [("subject", VStr "disk")]%string; producer := "monitor"; produced_at := 0 |}.
Notation demo_iso := (fun _ : Z => "1970-01-01T00:00:00+00:00"%string).
Notation demo_dumps := (fun _ : pyval => "{}"%string).

Lemma published_events_delivered_witness :
  map (decode_entry (fun _ => Some (envelope demo_iso demo_event)) (fun _ => Some 0) (fun _ => Some 1))
    (dget_or ALERTS_STREAM []
       (streams (foldl (@publish _ (RedisEventPublisher demo_dumps demo_iso (fun n => n - STREAM_MAXLEN_APPROX)%nat)) empty_bus [Alert demo_event])))
  = [Some (received demo_event)].
Proof.
  destruct (published_events_delivered demo_dumps demo_iso (fun n => n - STREAM_MAXLEN_APPROX)%nat
    (fun _ => Some (envelope demo_iso demo_event)) (fun _ => Some 0) (fun _ => Some 1) [Alert demo_event] ALERTS_STREAM) as [(n & Hn & E) _].
  - intros n. lia.
  - constructor; [by constructor|constructor].
  - rewrite E. change (log_of ALERTS_STREAM [Alert demo_event]) with [demo_event] in Hn |- *.
    assert (E0 : (1 - STREAM_MAXLEN_APPROX)%nat = 0%nat) by (vm_compute; reflexivity). cbn [length] in Hn. rewrite E0 in Hn.
    apply Nat.le_0_r in Hn. subst n. reflexivity.
Defined.
