(* ===== verification/Feed.v ===== *)
(** * The live feed over the streams ([ws_stream] of [app/api/v1/realtime.py],
    [current_stream_id] and [read_once] of [app/ws/hub.py])

    A connection is opened by its origin and its ticket, and then polls.  What the streams
    hold from poll to poll, whether Redis answers and what the client sends are given; the
    place of an entry among the entries of its stream is a number its id stands for. *)

From Stdlib Require Import ZArith Lia Ascii Sorting.Sorted.
From stdpp Require Import base list strings.
From S2P Require Import Prelude PyFloat Timeframes Signals Tables Bus Alerts Accounts Realtime.

Open Scope Z_scope.

Definition Entry : Type := string * dict string string.

(** What a poll gets: the answer to [XREVRANGE + - COUNT 1] on each stream ([None]: the call
    raised), the answer to [XREAD], the frame the client sent; and what the streams hold then,
    [None] when Redis does not answer. *)
Record Poll := {
  po_xrevrange : string -> option (list Entry);
  po_xread : dict string string -> Response;
  po_text : option string;
  po_store : option (string -> list Entry)
}.

Definition READ_COUNT : nat := 50.

Section Feed.
Context `{Platform}.
Context (sha256_hex : string -> string) (json_loads : string -> option pyval) (fromisoformat : pyval -> option Z)
  (py_int : pyval -> option Z).
(** The order of entry ids. *)
Context (pos : string -> Z).

Definition current_stream_id (p : Poll) (stream : string) : string :=
  match po_xrevrange p stream with Some (newest :: _) => newest.1 | _ => "0-0" end.

Definition feed_turn (c : Connection) (p : Poll) : Connection :=
  ws_turn sha256_hex json_loads fromisoformat py_int (current_stream_id p) (po_xread p) (po_text p) c.

(** The handshake, then the polls until the client leaves; [None] is the refusal with
    [WS_AUTH_CLOSE_CODE].  A foreign origin does not use the ticket up. *)
Definition ws_stream (origin : option string) (cors_origin_list : list string) (now : Z) (ticket : string) (polls : list Poll)
    (s : TicketStore) : option Connection * TicketStore :=
  if negb (origin_allowed origin cors_origin_list) then (None, s)
  else match redeem_ticket json_loads now ticket s with
       | (Err _, s) => (None, s)
       | (Ok ident, s) => (Some (foldl feed_turn (accepted ident) polls), s)
       end.

(** ** Redis

    The entries of a stream after a cursor; what [XREAD COUNT 50] documents: of each stream
    asked for that has any, the first of them. *)
Definition unread (cursor : string) (entries : list Entry) : list Entry :=
  List.filter (fun e => pos cursor <? pos e.1) entries.
Definition batch (store : string -> list Entry) (stream cursor : string) : list Entry :=
  firstn READ_COUNT (unread cursor (store stream)).
Definition answer (store : string -> list Entry) (q : dict string string) : dict string (list Entry) :=
  List.filter (fun x => negb (bool_decide (x.2 = []))) (map (fun '(stream, cursor) => (stream, batch store stream cursor)) q).

(** The two commands answer from what the streams hold, or both fail. *)
Record truthful (p : Poll) : Prop := {
  tr_xrevrange : forall stream,
    po_xrevrange p stream = (fun store => match last (store stream) with Some e => [e] | None => [] end) <$> po_store p;
  tr_xread : forall q, po_xread p q = (fun store => answer store q) <$> po_store p
}.

(** ** One poll *)

Notation decoded es := (decode_stream_entries json_loads fromisoformat py_int es).
Notation frames := (frames sha256_hex).
Notation all_frames := (all_frames sha256_hex).
Notation read_step := (read_step json_loads fromisoformat py_int).

Definition of_topic (topic : string) (fs : list (string * dict string pyval)) : list (string * dict string pyval) :=
  List.filter (fun f => String.eqb f.1 topic) fs.

Lemma of_topic_app t a b : of_topic t (a ++ b) = of_topic t a ++ of_topic t b.
Proof. apply List.filter_app. Qed.

Lemma frames_topics t es : of_topic t (frames t es).1 = (frames t es).1.
Proof.
  induction es as [|[id [ev|]] es IH]; [done| |done]. cbn [Realtime.frames].
  destruct (_event_frame sha256_hex ev) as [d|]; [|done]. destruct (frames t es) as [fs e]. cbn. rewrite String.eqb_refl. by f_equal.
Qed.

Lemma frames_other t t' es : t <> t' -> of_topic t (frames t' es).1 = [].
Proof.
  intros Hne. induction es as [|[id [ev|]] es IH]; [done| |done]. cbn [Realtime.frames].
  destruct (_event_frame sha256_hex ev) as [d|]; [|done]. destruct (frames t' es) as [fs e]. cbn.
  destruct (String.eqb_spec t' t); [congruence|done].
Qed.

Lemma frames_app t a b : (frames t a).2 = None -> frames t (a ++ b) = ((frames t a).1 ++ (frames t b).1, (frames t b).2).
Proof.
  induction a as [|[id [ev|]] a IH]; cbn [app Realtime.frames]; [by destruct (frames t b)| |done].
  destruct (_event_frame sha256_hex ev) as [d|]; [|done]. destruct (frames t a) as [fs e] eqn:Ea. cbn [fst snd]. intros ->.
  by rewrite IH.
Qed.

Lemma all_frames_of t d : NoDup d.*1 -> (all_frames d).2 = None ->
  of_topic t (all_frames d).1 = (frames t (dget_or t [] d)).1 /\ (frames t (dget_or t [] d)).2 = None.
Proof.
  induction d as [|[t' es] d IH]; [done|]. rewrite fmap_cons, NoDup_cons. intros [Hnin Hn]. cbn [Realtime.all_frames fst] in *.
  unfold dget_or in *. cbn [dget]. destruct (frames t' es) as [fs [e|]] eqn:Ef; [done|].
  specialize (IH Hn). destruct (all_frames d) as [fs' e'] eqn:Ea. cbn [fst snd] in *. intros ->. specialize (IH eq_refl).
  rewrite of_topic_app. destruct (decide (t = t')) as [->|Hne].
  - rewrite Ef. cbn [default fst snd]. split; [|done]. destruct IH as [IH _].
    rewrite (proj2 (dget_None t' d) Hnin) in IH. cbn in IH. rewrite IH, app_nil_r.
    pose proof (frames_topics t' es) as Ht. by rewrite Ef in Ht.
  - pose proof (frames_other t t' es Hne) as Ht. rewrite Ef in Ht. cbn [fst] in Ht. rewrite Ht. exact IH.
Qed.

Lemma baseline_keeps head_of topics t cur : forall since, dget t since = Some cur ->
  dget t (foldl (baseline head_of) since topics) = Some cur.
Proof.
  induction topics as [|t' topics IH]; intros since E; [done|]. cbn [foldl]. apply IH. unfold baseline.
  destruct (dget t' since) eqn:E'; [done|]. destruct (dget t' TOPIC_STREAMS); [|done]. rewrite dget_dset_ne; [done|]. congruence.
Qed.

Lemma asked_has since topics t s : t ∈ topics -> dget t TOPIC_STREAMS = Some s ->
  (s, dget_or t "0-0"%string since) ∈ asked since topics.
Proof. intros Ht Hs. unfold asked. apply list_elem_of_omap. exists t. split; [done|]. by rewrite Hs. Qed.

Lemma asked_streams since topics : (asked since topics).*1 = omap (fun t => dget t TOPIC_STREAMS) topics.
Proof.
  unfold asked. generalize TOPIC_STREAMS as S. intros S. induction topics as [|t topics IH]; [done|]. cbn. destruct (dget t S); [cbn; f_equal; exact IH|exact IH].
Qed.

Lemma asked_NoDup since topics : NoDup topics -> NoDup (asked since topics).*1.
Proof.
  assert (Hinj : forall t t' s, dget t TOPIC_STREAMS = Some s -> dget t' TOPIC_STREAMS = Some s -> t = t')
    by (intros t t' s Ht%stream_topic Ht'%stream_topic; congruence).
  rewrite asked_streams. revert Hinj. generalize TOPIC_STREAMS as S. intros S Hinj.
  induction 1 as [|t topics Hnin Hn IH]; [constructor|]. cbn. destruct (dget t S) as [s|] eqn:Es; [|exact IH]. constructor; [|exact IH].
  intros (t' & Ht' & E)%list_elem_of_omap. apply Hnin. by rewrite (Hinj _ _ _ Es E).
Qed.

(** A read of distinct streams: what each topic gets, and where its cursor goes. *)
Lemma read_of t s r : NoDup r.*1 -> dget t TOPIC_STREAMS = Some s -> forall by_topic since,
  let '(by_topic', since') := foldl read_step (by_topic, since) r in
  dget t by_topic' = match dget s r with Some es => Some (decoded es) | None => dget t by_topic end /\
  dget t since' = match dget s r with
                  | Some es => match last (decoded es) with Some (id, _) => Some id | None => dget t since end
                  | None => dget t since
                  end /\
  (NoDup by_topic.*1 -> NoDup by_topic'.*1).
Proof.
  intros Hn Hs. induction r as [|[s' es] r IH]; intros by_topic since; [done|].
  rewrite fmap_cons, NoDup_cons in Hn. destruct Hn as [Hnin Hn]. cbn [foldl fst] in *.
  unfold Realtime.read_step at 2. destruct (topic_for_stream s') as [t'|] eqn:Et'.
  2: { cbn [dget]. rewrite decide_False; [by apply IH|]. intros ->. apply stream_topic in Hs. congruence. }
  specialize (IH Hn (dset t' (decoded es) by_topic) (match last (decoded es) with Some (id, _) => dset t' id since | None => since end)).
  destruct (foldl read_step _ r) as [by_topic' since']. destruct IH as (Hb & Hc & Hd).
  rewrite Hb, Hc. cbn [dget]. apply topic_stream in Et'. destruct (decide (s = s')) as [->|Hne].
  - rewrite (proj2 (dget_None s' r) Hnin). assert (t' = t) as -> by (apply stream_topic in Hs, Et'; congruence).
    split; [apply dget_dset_eq|]. split; [|intros; by apply Hd, dset_NoDup].
    destruct (last (decoded es)) as [[id ev]|]; [apply dget_dset_eq|done].
  - assert (Htt : t <> t') by (intros <-; congruence).
    split; [|split; [|intros; by apply Hd, dset_NoDup]].
    + destruct (dget s r); [done|]. by apply dget_dset_ne.
    + destruct (last (decoded es)) as [[id ev]|]; [|done]. by rewrite !dget_dset_ne.
Qed.

Lemma last_decoded es : last (decoded es) = decode_entry json_loads fromisoformat py_int <$> last es.
Proof. unfold Realtime.decode_stream_entries. apply fmap_last. Qed.

Lemma decode_id e : (decode_entry json_loads fromisoformat py_int e).1 = e.1.
Proof. by destruct e. Qed.

Lemma last_moved (l : list Entry) (o : option string) cur : o = Some cur ->
  match last (decoded l) with Some (id, _) => Some id | None => o end = Some (match last l with Some e => e.1 | None => cur end).
Proof.
  intros ->. unfold Realtime.decode_stream_entries, Entry in *. destruct l as [|[id raw] l _] using rev_ind; [done|].
  rewrite map_app. cbn [map]. by rewrite !last_snoc.
Qed.

(** What [XREAD] answers for one stream. *)
Lemma dget_filter_nonempty s (q : dict string (list Entry)) : NoDup q.*1 ->
  dget s (List.filter (fun x => negb (bool_decide (x.2 = []))) q) =
  match dget s q with Some [] => None | o => o end.
Proof.
  intros Hn. induction q as [|[s' es] q IH]; [done|]. rewrite fmap_cons, NoDup_cons in Hn. destruct Hn as [Hnin Hn].
  cbn [List.filter snd dget fst] in *. destruct (decide (s = s')) as [->|Hne].
  - destruct es as [|e es]; cbn.
    + apply IH in Hn. rewrite Hn. by rewrite (proj2 (dget_None s' q) Hnin).
    + by rewrite decide_True.
  - destruct es as [|e es]; cbn; [by apply IH|]. rewrite decide_False by done. by apply IH.
Qed.

Lemma filter_keys (f : string * list Entry -> bool) q : (List.filter f q).*1 `sublist_of` q.*1.
Proof.
  induction q as [|x q IH]; [constructor|]. cbn. destruct (f x); cbn; [by apply sublist_skip|by apply sublist_cons].
Qed.

Lemma answer_keys store (q : dict string string) : (map (fun '(stream, cursor) => (stream, batch store stream cursor)) q).*1 = q.*1.
Proof. induction q as [|[s c] q IH]; [done|]. cbn. by f_equal. Qed.

Lemma dget_map_answer store (q : dict string string) s :
  dget s (map (fun '(stream, cursor) => (stream, batch store stream cursor)) q) = batch store s <$> dget s q.
Proof. induction q as [|[s' c] q IH]; [done|]. cbn. by destruct (decide (s = s')) as [->|]. Qed.

Definition cursor (t : string) (c : Connection) : string := dget_or t "0-0"%string (cn_since c).

(** What a poll delivers of a stream to a reader at a cursor. *)
Definition delivered (p : Poll) (s cur : string) : list Entry :=
  match po_store p with Some store => batch store s cur | None => [] end.
Definition moved (p : Poll) (s cur : string) : string := match last (delivered p s cur) with Some e => e.1 | None => cur end.

Lemma read_once_of p since topics t s cur : truthful p ->
  NoDup topics -> t ∈ topics -> dget t TOPIC_STREAMS = Some s -> dget t since = Some cur ->
  let '(by_topic, since') := read_once json_loads fromisoformat py_int (po_xread p) since topics in
  dget_or t [] by_topic = decoded (delivered p s cur) /\ NoDup by_topic.*1 /\ dget t since' = Some (moved p s cur).
Proof.
  intros Htr Hn Ht Hs Hc. unfold read_once, moved, delivered. destruct topics as [|t0 topics']; [by apply elem_of_nil in Ht|].
  remember (t0 :: topics') as topics. clear Heqtopics t0 topics'. rewrite (tr_xread _ Htr).
  destruct (po_store p) as [store|]; [|split; [done|split; [constructor|exact Hc]]].
  cbn [fmap option_fmap option_map]. unfold answer. set (q := asked since topics). set (r := List.filter _ _).
  assert (Hq : NoDup q.*1) by (by apply asked_NoDup).
  assert (Hr : NoDup r.*1).
  { eapply sublist_NoDup; [|apply filter_keys]. by rewrite answer_keys. }
  assert (Hd : dget s r = match batch store s cur with [] => None | es => Some es end).
  { unfold r. rewrite dget_filter_nonempty by (by rewrite answer_keys). rewrite dget_map_answer.
    assert (Hin : (s, cur) ∈ q) by (pose proof (asked_has since topics t s Ht Hs) as Hin; unfold dget_or in Hin; by rewrite Hc in Hin).
    rewrite (dget_In s cur q Hq Hin). cbn. by destruct (batch store s cur). }
  pose proof (read_of t s r Hr Hs [] since) as Hread. destruct (foldl _ _ r) as [by_topic since'].
  destruct Hread as (Hb & Hs' & Hnd). unfold dget_or. rewrite Hb, Hs'. unfold Entry in *. rewrite Hd. split; [|split; [apply Hnd; constructor|]].
  - by destruct (batch store s cur).
  - destruct (batch store s cur) as [|e es]; [done|]. by apply last_moved.
Qed.

Lemma control_NoDup text role topics : NoDup topics -> NoDup (_handle_control json_loads text role topics).2.
Proof.
  intros Hn. unfold _handle_control. destruct (parse_subscribe json_loads text) as [msg|]; [|done].
  assert (Hf : forall l ts refused, NoDup ts -> NoDup (foldl (request_topic role) (ts, refused) l).1).
  { induction l as [|x l IH]; intros ts refused Hts; [done|]. cbn [foldl request_topic].
    destruct (negb _ || negb _); [by apply IH|]. apply IH. case_bool_decide; [done|].
    apply NoDup_app. split; [done|]. split; [|apply NoDup_singleton]. intros y Hy ->%list_elem_of_singleton. done. }
  specialize (Hf (requested_topics msg) topics [] Hn). by destruct (foldl _ _ _).
Qed.

Lemma baseline_sets head_of topics t s : t ∈ topics -> dget t TOPIC_STREAMS = Some s -> forall since, dget t since = None ->
  dget t (foldl (baseline head_of) since topics) = Some (head_of s).
Proof.
  intros Hin Hs. induction topics as [|t' topics IH]; intros since E; [by apply elem_of_nil in Hin|]. cbn [foldl].
  destruct (decide (t = t')) as [<-|Hne].
  - apply baseline_keeps. unfold baseline. rewrite E, Hs. apply dget_dset_eq.
  - apply IH; [by apply elem_of_cons in Hin as [|]|]. unfold baseline. destruct (dget t' since); [done|].
    destruct (dget t' TOPIC_STREAMS); [|done]. by rewrite dget_dset_ne.
Qed.

(** A connection that reads a topic at a cursor; one that has just subscribed to it reads from
    where its next poll finds the stream. *)
Record reading (t : string) (c : Connection) : Prop := {
  re_topics : NoDup (cn_topics c);
  re_topic : t ∈ cn_topics c
}.
Definition starts (t s : string) (c : Connection) (p : Poll) : string := default (current_stream_id p s) (dget t (cn_since c)).

Lemma feed_turn_closed p c : cn_closed (feed_turn c p) = None -> cn_closed c = None.
Proof. unfold feed_turn, ws_turn. by destruct (cn_closed c) eqn:E; [rewrite E|]. Qed.

Lemma feed_turns_closed ps : forall c, cn_closed (foldl feed_turn c ps) = None -> cn_closed c = None.
Proof. induction ps as [|p ps IH]; intros c E; [done|]. cbn in E. apply IH in E. by apply feed_turn_closed in E. Qed.

Lemma feed_turn_reads t s c p : reading t c -> dget t TOPIC_STREAMS = Some s -> truthful p -> cn_closed (feed_turn c p) = None ->
  let es := delivered p s (starts t s c p) in
  of_topic t (cn_sent (feed_turn c p)) = of_topic t (cn_sent c) ++ (frames t (decoded es)).1 /\
  (frames t (decoded es)).2 = None /\
  reading t (feed_turn c p) /\ dget t (cn_since (feed_turn c p)) = Some (moved p s (starts t s c p)).
Proof.
  intros [Hn Ht] Hs Htr Hcl es. pose proof (feed_turn_closed p c Hcl) as Hc0. revert Hcl.
  assert (Hc : dget t (foldl (baseline (current_stream_id p)) (cn_since c) (cn_topics c)) = Some (starts t s c p)).
  { unfold starts. destruct (dget t (cn_since c)) eqn:E; [by apply baseline_keeps|by apply baseline_sets]. }
  unfold feed_turn, ws_turn. rewrite Hc0. set (f := match cn_topics c with [] => _ | _ => _ end).
  assert (Hf : f = (let since := foldl (baseline (current_stream_id p)) (cn_since c) (cn_topics c) in
               let '(by_topic, since) := read_once json_loads fromisoformat py_int (po_xread p) since (cn_topics c) in
               let '(fs, e) := all_frames by_topic in (since, fs, e)))
    by (unfold f; by destruct (cn_topics c); [apply elem_of_nil in Ht|]).
  rewrite Hf. clear f Hf. cbv zeta.
  pose proof (read_once_of p _ _ t s _ Htr Hn Ht Hs Hc) as Hr. destruct (read_once _ _ _ _ _ _) as [by_topic since'].
  destruct Hr as (Hb & Hnd & Hcur). pose proof (all_frames_of t by_topic Hnd) as Haf.
  destruct (all_frames by_topic) as [fs e]. cbn [cn_closed cn_sent cn_topics cn_since fst snd] in *. intros ->.
  destruct (Haf eq_refl) as [Hfs Hnone]. rewrite Hb in Hfs, Hnone. fold es in Hfs, Hnone.
  rewrite of_topic_app, Hfs. split; [done|]. split; [done|]. split; [|exact Hcur].
  constructor; cbn [cn_topics]; destruct (po_text p) as [text|]; try done.
  - by apply control_NoDup.
  - by apply control_keeps.
Qed.

(** ** A log

    The log of a stream, oldest first; a poll finds a stretch of it, the entries trimmed away
    being ones the reader has passed. *)
Definition retains (L : list Entry) (cur : string) (es : list Entry) : Prop :=
  exists k n, es = drop k (take n L) /\ Forall (fun e => pos e.1 <= pos cur) (take k (take n L)).
Definition in_order (L : list Entry) : Prop := StronglySorted (fun a b => pos a.1 < pos b.1) L.

Lemma unread_app cur a b : unread cur (a ++ b) = unread cur a ++ unread cur b.
Proof. apply List.filter_app. Qed.

Lemma unread_cons cur e es : unread cur (e :: es) = if pos cur <? pos e.1 then e :: unread cur es else unread cur es.
Proof. done. Qed.

Lemma unread_none cur es : Forall (fun e => pos e.1 <= pos cur) es -> unread cur es = [].
Proof. induction 1 as [|e es He _ IH]; [done|]. rewrite unread_cons. destruct (Z.ltb_spec (pos cur) (pos e.1)); [lia|done]. Qed.

Lemma unread_all cur es : Forall (fun e => pos cur < pos e.1) es -> unread cur es = es.
Proof. induction 1 as [|e es He _ IH]; [done|]. rewrite unread_cons. destruct (Z.ltb_spec (pos cur) (pos e.1)); [by rewrite IH|lia]. Qed.

Lemma unread_twice cur cur' es : pos cur <= pos cur' -> unread cur' (unread cur es) = unread cur' es.
Proof.
  intros Hle. induction es as [|e es IH]; [done|]. rewrite !unread_cons.
  destruct (Z.ltb_spec (pos cur) (pos e.1)); rewrite ?unread_cons; destruct (Z.ltb_spec (pos cur') (pos e.1)); try lia; by rewrite ?IH.
Qed.

Lemma unread_after cur L : Forall (fun e => pos cur < pos e.1) (unread cur L).
Proof. apply Forall_forall. intros e He. apply list_elem_of_In, List.filter_In in He as [_ He]. lia. Qed.

Lemma unread_sorted cur L : in_order L -> in_order (unread cur L).
Proof.
  induction 1 as [|e L Hs IH Hf]; [constructor|]. rewrite unread_cons. destruct (_ <? _); [|done]. constructor; [done|].
  apply Forall_forall. intros x Hx. apply list_elem_of_In, List.filter_In in Hx as [Hx%list_elem_of_In _]. by apply (proj1 (Forall_forall _ _) Hf).
Qed.

Lemma retained_unread L cur es : retains L cur es -> exists rest, unread cur L = unread cur es ++ rest.
Proof.
  intros (k & n & -> & Hf). exists (unread cur (drop n L)).
  rewrite <- (take_drop n L) at 1. rewrite unread_app. f_equal.
  rewrite <- (take_drop k (take n L)) at 1. by rewrite unread_app, unread_none.
Qed.

(** What is left once a stretch of it has been read. *)
Lemma unread_next cur U A B e : in_order U -> Forall (fun x => pos cur < pos x.1) U -> U = A ++ B -> last A = Some e ->
  unread e.1 U = B /\ pos cur < pos e.1.
Proof.
  intros Hs Hf -> He. apply last_Some in He as [A' ->]. rewrite !unread_app. rewrite <- app_assoc in Hs.
  assert (Hmid : in_order ([e] ++ B) /\ Forall (fun x => pos x.1 <= pos e.1) A').
  { clear Hf. induction A' as [|a A' IH]; [done|]. cbn in Hs. apply StronglySorted_inv in Hs as [Hs Hf]. destruct (IH Hs) as [Hb Ha].
    split; [done|]. constructor; [|done]. apply Forall_app in Hf as [_ Hf]. inversion Hf; subst. lia. }
  destruct Hmid as [Hb Ha]. cbn in Hb. apply StronglySorted_inv in Hb as [_ Hb]. rewrite (unread_none e.1 A') by done.
  rewrite (unread_none e.1 [e]) by (constructor; [lia|constructor]). rewrite (unread_all _ B) by done. split; [done|].
  apply Forall_app in Hf as [Hf _]. apply Forall_app in Hf as [_ Hf]. by inversion Hf.
Qed.

Lemma moved_unread L s cur p : in_order L ->
  (forall store, po_store p = Some store -> retains L cur (store s)) ->
  delivered p s cur = take (length (delivered p s cur)) (unread cur L) /\
  unread (moved p s cur) L = drop (length (delivered p s cur)) (unread cur L).
Proof.
  intros Hs Hret. unfold moved. destruct (last (delivered p s cur)) as [e|] eqn:El.
  2: { apply last_None in El. rewrite El. done. }
  unfold delivered in *. destruct (po_store p) as [store|]; [|done]. destruct (retained_unread L cur _ (Hret _ eq_refl)) as [rest E].
  set (A := batch store s cur) in *. assert (HU : unread cur L = A ++ drop READ_COUNT (unread cur (store s)) ++ rest).
  { rewrite E, app_assoc. f_equal. unfold A, batch. by rewrite take_drop. }
  rewrite HU at 1. rewrite take_app_length. split; [done|]. destruct (unread_next cur _ A _ e (unread_sorted cur L Hs) (unread_after cur L) HU El) as [Hn Hlt].
  rewrite <- (unread_twice cur e.1) by lia. by rewrite Hn, HU, drop_app_length.
Qed.

(** The polls of a reader that keeps up: Redis answers truthfully or not at all, and what it
    has trimmed away the reader has passed; and of one that finds, each time, all that is
    after it. *)
Fixpoint keeps_up (L : list Entry) (s cur : string) (ps : list Poll) : Prop :=
  match ps with
  | [] => True
  | p :: ps =>
      truthful p /\ (forall store, po_store p = Some store -> retains L cur (store s)) /\ keeps_up L s (moved p s cur) ps
  end.
Fixpoint finds_all (L : list Entry) (s cur : string) (ps : list Poll) : Prop :=
  match ps with
  | [] => True
  | p :: ps =>
      (exists store, po_store p = Some store /\ unread cur (store s) = unread cur L) /\ finds_all L s (moved p s cur) ps
  end.

(** Where the polls leave the reader. *)
Definition ends (s cur : string) (ps : list Poll) : string := foldl (fun cur p => moved p s cur) cur ps.

Lemma found_length L s cur p store : po_store p = Some store -> unread cur (store s) = unread cur L ->
  length (delivered p s cur) = Nat.min READ_COUNT (length (unread cur L)).
Proof. intros Hp E. unfold delivered, batch. rewrite Hp, E. apply length_take. Qed.

Lemma feed_run t s L ps : dget t TOPIC_STREAMS = Some s -> in_order L -> forall c cur,
  reading t c -> (forall p ps', ps = p :: ps' -> starts t s c p = cur) -> keeps_up L s cur ps ->
  cn_closed (foldl feed_turn c ps) = None ->
  exists M, let c' := foldl feed_turn c ps in
    of_topic t (cn_sent c') = of_topic t (cn_sent c) ++ (frames t (decoded (take M (unread cur L)))).1 /\
    (frames t (decoded (take M (unread cur L)))).2 = None /\
    unread (ends s cur ps) L = drop M (unread cur L) /\
    (ps <> [] -> dget t (cn_since c') = Some (ends s cur ps)) /\
    (finds_all L s cur ps -> M = Nat.min (READ_COUNT * length ps) (length (unread cur L))).
Proof.
  intros Hs HL. induction ps as [|p ps IH]; intros c cur Hr Hst Hk Hcl.
  { exists 0%nat. rewrite take_0. cbn [foldl]. rewrite app_nil_r. do 4 (split; [done|]). cbn [length]. lia. }
  destruct Hk as (Htr & Hret & Hk). cbn [foldl] in *. pose proof (feed_turns_closed ps _ Hcl) as Hcl1.
  pose proof (feed_turn_reads t s c p Hr Hs Htr Hcl1) as (Hsent & Hok & Hr' & Hcur). rewrite (Hst p ps eq_refl) in *.
  destruct (moved_unread L s cur p HL Hret) as [Hd Hn]. set (m := length (delivered p s cur)) in *.
  destruct (IH (feed_turn c p) (moved p s cur) Hr') as (M & Hsent' & Hok' & Hend & Hat & Hall); [|done|done|].
  { intros p' ps' _. unfold starts. by rewrite Hcur. }
  rewrite Hn in *. exists (m + M)%nat. rewrite <- take_take_drop. unfold Realtime.decode_stream_entries in *.
  rewrite map_app, frames_app by (by rewrite <- Hd). cbn [fst snd]. rewrite <- Hd, Hsent', Hsent, app_assoc. split; [done|]. split; [done|].
  unfold ends in *. cbn [foldl]. rewrite <- drop_drop. split; [done|]. split.
  - intros _. destruct ps as [|p' ps]; [exact Hcur|by apply Hat].
  - intros [(store & Hp & E) Hf]. specialize (Hall Hf). pose proof (found_length L s cur p store Hp E) as Hm. fold m in Hm.
    rewrite length_drop in Hall. cbn [length]. unfold READ_COUNT in *. lia.
Qed.

(** The newest entry a poll finds on a stream; [0-0] when there is none, or no answer. *)
Definition newest (p : Poll) (s : string) : string :=
  match po_store p with Some store => from_option fst "0-0"%string (last (store s)) | None => "0-0" end.

Lemma current_newest p s : truthful p -> current_stream_id p s = newest p s.
Proof.
  intros Htr. unfold current_stream_id, newest. rewrite (tr_xrevrange _ Htr). destruct (po_store p) as [store|]; [|done].
  cbn [fmap option_fmap option_map]. by destruct (last (store s)).
Qed.

(** A reader that subscribes while Redis does not answer is sent the whole log. *)
Lemma outage_replays L p s : truthful p -> po_store p = None -> Forall (fun e => pos "0-0" < pos e.1) L ->
  unread (current_stream_id p s) L = L.
Proof. intros Htr Hp HL. rewrite (current_newest _ _ Htr). unfold newest. rewrite Hp. by apply unread_all. Qed.

(** C31: the live feed loses nothing, repeats nothing and keeps the order.  A connection has
    just subscribed to a topic and has no cursor for it; its next poll fixes where it starts,
    the newest entry of the topic's stream then ([0-0], before all, when Redis does not
    answer).  Through any polls - each with Redis
    answering as documented or not at all, the stream growing between them and trimmed behind
    the reader only - that end with the connection open, the frames of the topic the client
    has been sent are the events of the entries of the log after that start, the first [M] of
    them, undecodable ones left out, each once and in the log's order; the cursor stands right
    after the [M]th; and polls that each find all that is after the cursor deliver fifty
    entries each, or all that is left.  A poll that fails only delays. *)
Theorem feed_delivers_log t s L c p ps : dget t TOPIC_STREAMS = Some s -> in_order L ->
  reading t c -> dget t (cn_since c) = None ->
  let start := newest p s in
  keeps_up L s start (p :: ps) -> cn_closed (foldl feed_turn c (p :: ps)) = None ->
  exists M, let c' := foldl feed_turn c (p :: ps) in
    of_topic t (cn_sent c') = of_topic t (cn_sent c) ++ (frames t (decoded (take M (unread start L)))).1 /\
    (exists cur, dget t (cn_since c') = Some cur /\ unread cur L = drop M (unread start L)) /\
    (finds_all L s start (p :: ps) -> M = Nat.min (READ_COUNT * length (p :: ps)) (length (unread start L))).
Proof.
  intros Hs HL Hr Hc start Hk Hcl.
  destruct (feed_run t s L (p :: ps) Hs HL c start Hr) as (M & Hsent & _ & Hend & Hat & Hall); [|done|done|].
  { intros p' ps' E. injection E as <- <-. unfold starts. rewrite Hc. apply current_newest, Hk. }
  exists M. split; [exact Hsent|]. split; [|exact Hall]. exists (ends s start (p :: ps)). split; [by apply Hat|exact Hend].
Qed.
End Feed.

(** ** Witnesses *)

#[local] Existing Instance demo_platform.

Notation demo_log :=
  [("1-0", [("data", "a")]); ("2-0", [("data", "b")]); ("3-0", [("junk", "c")]); ("4-0", [("data", "d")])]%string.
Notation demo_pos :=
  (fun id : string => match id with String "1"%char _ => 1 | String "2"%char _ => 2 | String "3"%char _ => 3 | String "4"%char _ => 4 | _ => 0 end).
Notation demo_poll found :=
  {| po_xrevrange := fun stream => (fun store => match last (store stream) with Some e => [e] | None => [] end) <$> found;
     po_xread := fun q => (fun store => answer demo_pos store q) <$> found;
     po_text := None; po_store := found |}.
Notation demo_reader :=
  {| cn_role := "viewer"; cn_topics := ["alerts"]; cn_since := []; cn_sent := []; cn_closed := None |}%string.

(** The topic is subscribed with one entry on the stream; a poll fails, and the next finds
    three more, one of them without an event. *)
Lemma feed_delivers_log_witness :
  map (fun f => dget "event_id"%string f.2)
    (of_topic "alerts" (cn_sent (foldl (feed_turn demo_sha demo_frame (fun _ => Some 0) (fun _ => Some 1)) demo_reader
       [demo_poll (Some (fun _ => take 1 demo_log)); demo_poll None; demo_poll (Some (fun _ => demo_log))])))
  = [Some (VStr "b"); Some (VStr "d")]%string.
Proof.
  destruct (feed_delivers_log demo_sha demo_frame (fun _ => Some 0) (fun _ => Some 1) demo_pos "alerts" "alerts.stream" demo_log
    demo_reader (demo_poll (Some (fun _ => take 1 demo_log))) [demo_poll None; demo_poll (Some (fun _ => demo_log))])
    as (M & Hsent & (cur & Hcur & Hleft) & _).
  - reflexivity.
  - repeat constructor.
  - constructor; [apply NoDup_singleton|by left].
  - reflexivity.
  - repeat split; try reflexivity; intros store; cbn [po_store]; intros E; try discriminate E; injection E as <-.
    + exists 0%nat, 1%nat. split; [reflexivity|constructor].
    + exists 0%nat, 4%nat. split; [reflexivity|constructor].
  - vm_compute. reflexivity.
  - apply (eq_trans (f_equal (map (fun f => dget "event_id"%string f.2)) Hsent)).
    vm_compute in Hcur. injection Hcur as <-. vm_compute in Hleft.
    destruct M as [|[|[|[|M]]]]; try discriminate Hleft; vm_compute; reflexivity.
Defined.
