(* ===== verification/Delivery.v ===== *)
(** * Delivery to a worker through its consumer group ([ensure_group] and [poll_once] of
    [app/workers/alert_worker.py], [ensure_groups] and [poll_once] of
    [app/workers/orchestrator_worker.py])

    A worker creates its group, reads what is new for it and acknowledges what it has dealt
    with.  The commands of Redis are the class [ConsumerGroup], with their documented
    behaviour as laws; when a worker dies, and which commands fail, is given. *)

From Stdlib Require Import ZArith Lia.
From stdpp Require Import base list strings.
From S2P Require Import Prelude PyFloat Timeframes Signals Tables Bus Ledger Decide Orchestrator Alerts.

Definition Entry : Type := string * dict string string.

(** ** Redis *)

(** A stream with one group.  [Weather] is how a command fares: it may be carried out,
    refused, or carried out with its answer lost. *)
Class ConsumerGroup := {
  Stream : Type;
  Weather : Type;
  log : Stream -> list Entry;                    (** every entry ever added, oldest first *)
  undelivered : Stream -> option (list Entry);   (** what is after the group's last delivered id; [None] without a group *)
  pending : Stream -> list string;               (** the ids delivered and not acknowledged *)
  no_stream : Stream;
  no_stream_law : log no_stream = [] /\ undelivered no_stream = None /\ pending no_stream = [];
  (** [XADD] trims from the front. *)
  xadd : Entry -> Stream -> Stream;
  xadd_law : forall e s,
    log (xadd e s) = log s ++ [e] /\ pending (xadd e s) = pending s /\
    match undelivered s with
    | None => undelivered (xadd e s) = None
    | Some r => exists k, undelivered (xadd e s) = Some (drop k (r ++ [e]))
    end;
  (** [XGROUP CREATE ... 0 MKSTREAM]: the text of what was raised, if anything. *)
  xgroup_create : Weather -> Stream -> option string * Stream;
  xgroup_create_law : forall w s,
    let s' := (xgroup_create w s).2 in
    s' = s \/
    (undelivered s = None /\ log s' = log s /\ pending s' = pending s /\ exists k, undelivered s' = Some (drop k (log s)));
  (** [XREADGROUP ... COUNT n STREAMS s >]: only what no consumer of the group was ever given. *)
  xreadgroup : Weather -> nat -> Stream -> option (list Entry) * Stream;
  xreadgroup_law : forall w n s,
    let '(answer, s') := xreadgroup w n s in
    (answer = None /\ s' = s) \/
    exists r, undelivered s = Some r /\ (answer = None \/ answer = Some (take n r)) /\
      log s' = log s /\ undelivered s' = Some (drop n r) /\ pending s' = pending s ++ (take n r).*1;
  xack : Weather -> string -> Stream -> bool * Stream;
  xack_law : forall w id s,
    let s' := (xack w id s).2 in
    s' = s \/
    (log s' = log s /\ undelivered s' = undelivered s /\
     pending s' = List.filter (fun i => negb (String.eqb i id)) (pending s))
}.

(** ** The workers *)

Section Workers.
Context `{ConsumerGroup}.

Fixpoint contains (needle s : string) : bool :=
  String.prefix needle s || match s with EmptyString => false | String _ s => contains needle s end.

(** [ensure_group], [ensure_groups]: that the group exists is no error. *)
Definition ensure_group (w : Weather) (s : Stream) : option string * Stream :=
  match xgroup_create w s with
  | (Some text, s) => if contains "BUSYGROUP" text then (None, s) else (Some text, s)
  | o => o
  end.

(** The acknowledgements of the alert worker, each failure of which is passed over, and
    those of the orchestrator, which the first failure ends. *)
Fixpoint ack_each (ws : nat -> Weather) (acks : list (string * string)) (s : Stream) : Stream :=
  match acks with
  | [] => s
  | (_, id) :: acks => ack_each (fun n => ws (S n)) acks (xack (ws O) id s).2
  end.
Fixpoint ack_all (ws : nat -> Weather) (acks : list (string * string)) (s : Stream) : Stream :=
  match acks with
  | [] => s
  | (_, id) :: acks => let '(ok, s) := xack (ws O) id s in if ok then ack_all (fun n => ws (S n)) acks s else s
  end.

(** What becomes of a batch once it is read: the worker ends before anything of it is
    committed but what it did for the first entries, or it comes to its acknowledgements. *)
Inductive Fate := Dies (after : nat) | Finishes (ws : nat -> Weather).
Definition finishes (f : Fate) : bool := match f with Dies _ => false | Finishes _ => true end.

(** Entries as the poll loops see them. *)
Definition from_stream (stream : string) (es : list Entry) : list ((string * string) * dict string string) :=
  map (fun e => ((stream, e.1), e.2)) es.

Inductive Op := Added (e : Entry) | Started (w : Weather) | Polled (w : Weather) (f : Fate).

(** A worker of state [W]; [handle] is its dealing with a batch that is not empty, and
    whether it came to its acknowledgements.  The batches it was given are kept. *)
Section Run.
Context {W : Type} (COUNT : nat) (handle : Fate -> list Entry -> W -> Stream -> Stream * W * bool) (w0 : W).

Record Run := { ru_stream : Stream; ru_world : W; ru_batches : list (list Entry * bool) }.

Definition poll (w : Weather) (f : Fate) (s : Run) : Run :=
  match xreadgroup w COUNT (ru_stream s) with
  | (None, st) | (Some [], st) => {| ru_stream := st; ru_world := ru_world s; ru_batches := ru_batches s |}
  | (Some es, st) =>
      let '(st, world, finished) := handle f es (ru_world s) st in
      {| ru_stream := st; ru_world := world; ru_batches := ru_batches s ++ [(es, finished)] |}
  end.

Definition step (s : Run) (o : Op) : Run :=
  match o with
  | Added e => {| ru_stream := xadd e (ru_stream s); ru_world := ru_world s; ru_batches := ru_batches s |}
  | Started w => {| ru_stream := (ensure_group w (ru_stream s)).2; ru_world := ru_world s; ru_batches := ru_batches s |}
  | Polled w f => poll w f s
  end.

Definition run (ops : list Op) : Run := foldl step {| ru_stream := no_stream; ru_world := w0; ru_batches := [] |} ops.

(** A handler touches the stream by acknowledging entries of its batch, and only when it
    comes to that. *)
Definition acks_only (ids : list string) (st st' : Stream) : Prop :=
  log st' = log st /\ undelivered st' = undelivered st /\ forall id, id ∉ ids -> id ∈ pending st -> id ∈ pending st'.
Definition handle_ok : Prop := forall f es w st,
  let '(st', _, finished) := handle f es w st in acks_only es.*1 st st' /\ (finished = false -> st' = st).

(** Every entry is given to the worker once at most, in the order of the stream; what the
    worker was given and did not come to acknowledge stays pending. *)
Record delivered_once (s : Run) : Prop := {
  do_order : concat (ru_batches s).*1 ++ default [] (undelivered (ru_stream s)) `sublist_of` log (ru_stream s);
  do_start : undelivered (ru_stream s) = None -> ru_batches s = [];
  do_pending : NoDup (log (ru_stream s)).*1 ->
    forall es, (es, false) ∈ ru_batches s -> forall e, e ∈ es -> e.1 ∈ pending (ru_stream s)
}.

Lemma no_run : delivered_once {| ru_stream := no_stream; ru_world := w0; ru_batches := [] |}.
Proof.
  destruct no_stream_law as (Hl & Hu & _). split; cbn [ru_stream ru_batches]; [rewrite Hu; apply sublist_nil_l|done|].
  intros _ es He. by apply elem_of_nil in He.
Qed.

Lemma sublist_trimmed {A} (a r l : list A) k : a ++ r `sublist_of` l -> a ++ drop k r `sublist_of` l.
Proof. intros Hs. etrans; [|exact Hs]. apply sublist_app; [done|]. apply sublist_drop. Qed.

Lemma NoDup_prefix_keys (l l' : list Entry) : l `prefix_of` l' -> NoDup l'.*1 -> NoDup l.*1.
Proof. intros [k ->]. rewrite fmap_app, NoDup_app. tauto. Qed.

Lemma added_ok s e : delivered_once s -> delivered_once (step s (Added e)).
Proof.
  intros [Ho Hs Hp]. pose proof (xadd_law e (ru_stream s)) as (Hl & Hpe & Hu). split; cbn [step ru_stream ru_batches]; rewrite ?Hl, ?Hpe.
  - destruct (undelivered (ru_stream s)) as [r|]; cbn [default] in *.
    + destruct Hu as [k ->]. apply sublist_trimmed. rewrite app_assoc. by apply sublist_app.
    + rewrite Hu. cbn [default] in *. rewrite app_nil_r in *. by apply sublist_inserts_r.
  - intros E. destruct (undelivered (ru_stream s)) as [r|]; [destruct Hu as [k Hu]; congruence|by apply Hs].
  - intros Hn. apply Hp. eapply NoDup_prefix_keys; [|exact Hn]. by apply prefix_app_r.
Qed.

Lemma started_ok s w : delivered_once s -> delivered_once (step s (Started w)).
Proof.
  intros Hd. cbn [step]. assert (Hst : (ensure_group w (ru_stream s)).2 = (xgroup_create w (ru_stream s)).2).
  { unfold ensure_group. destruct (xgroup_create _ _) as [[text|] st]; [|done]. by destruct (contains _ _). }
  rewrite Hst. destruct (xgroup_create_law w (ru_stream s)) as [->|(Hu & Hl & Hpe & k & Hk)]; [by destruct s|].
  destruct Hd as [Ho Hs Hp]. specialize (Hs Hu). split; cbn [ru_stream ru_batches]; rewrite ?Hl, ?Hpe, ?Hk; [|done|exact Hp].
  rewrite Hs. cbn [default fmap list_fmap concat app]. apply sublist_drop.
Qed.

Lemma polled_ok s w f : handle_ok -> delivered_once s -> delivered_once (step s (Polled w f)).
Proof.
  intros Hh [Ho Hs Hp]. cbn [step]. unfold poll. pose proof (xreadgroup_law w COUNT (ru_stream s)) as Hr.
  destruct (xreadgroup w COUNT (ru_stream s)) as [answer st]. destruct Hr as [[-> ->]|(r & Hu & Ha & Hl & Hu' & Hpe)]; [by split|].
  rewrite Hu in Ho. cbn [default] in Ho.
  assert (Hlost : delivered_once {| ru_stream := st; ru_world := ru_world s; ru_batches := ru_batches s |}).
  { split; cbn [ru_stream ru_batches]; rewrite ?Hl, ?Hu', ?Hpe; [by apply sublist_trimmed|done|].
    intros Hn es He e Hin. apply elem_of_app. left. by eapply Hp. }
  destruct Ha as [->| ->]; [done|]. destruct (take COUNT r) as [|e0 es0] eqn:Et; [done|]. set (es := e0 :: es0) in *. clear Hlost.
  pose proof (Hh f es (ru_world s) st) as Hf. destruct (handle f es (ru_world s) st) as [[st' world] finished].
  destruct Hf as [(Hl' & Hu'' & Hk) Hq]. rewrite <- (take_drop COUNT r), Et in Ho. fold es in Ho.
  split; cbn [ru_stream ru_batches]; rewrite ?Hl', ?Hl, ?Hu'', ?Hu'.
  - rewrite fmap_app, concat_app. cbn [fmap list_fmap fst concat default]. by rewrite app_nil_r, <- app_assoc.
  - done.
  - intros Hn es' He e Hin.
    assert (Hd : NoDup (concat (ru_batches s).*1 ++ es ++ drop COUNT r).*1).
    { eapply sublist_NoDup; [exact Hn|]. by apply fmap_sublist. }
    apply elem_of_app in He as [He|He%list_elem_of_singleton].
    + assert (Hpend : e.1 ∈ pending st) by (rewrite Hpe; apply elem_of_app; left; by eapply Hp).
      apply Hk; [|exact Hpend]. intros Hx. rewrite !fmap_app in Hd. apply NoDup_app in Hd as (_ & Hd & _). apply (Hd e.1).
      * apply list_elem_of_fmap_2, list_elem_of_In, in_concat. exists es'. split; [|by apply list_elem_of_In].
        apply list_elem_of_In, list_elem_of_fmap. by exists (es', false).
      * apply elem_of_app. by left.
    + injection He as -> <-. rewrite (Hq eq_refl), Hpe. apply elem_of_app. right. by apply list_elem_of_fmap_2.
Qed.

Lemma run_delivered ops : handle_ok -> delivered_once (run ops).
Proof.
  intros Hh. unfold run. pose proof no_run as Hs. revert Hs. generalize {| ru_stream := no_stream; ru_world := w0; ru_batches := [] |}.
  induction ops as [|o ops IH]; intros s Hs; [done|]. cbn [foldl]. apply IH.
  destruct o; [by apply added_ok|by apply started_ok|by apply polled_ok].
Qed.

(** What the batches of a worker that finished did to its state. *)
Lemma run_world (after : list Entry -> W -> W) (ops : list Op) :
  (forall f es w st, (handle f es w st).1.2 = if (handle f es w st).2 then after es w else w) ->
  ru_world (run ops) = foldl (fun w (b : list Entry * bool) => if b.2 then after b.1 w else w) w0 (ru_batches (run ops)).
Proof.
  intros Hw. induction ops as [|o ops IH] using rev_ind; [done|]. unfold run in *. rewrite foldl_app. cbn [foldl].
  set (s := foldl _ _ ops) in *. destruct o as [e|w|w f]; cbn [step ru_world ru_batches]; [exact IH..|].
  unfold poll. destruct (xreadgroup w COUNT (ru_stream s)) as [[[|e0 es]|] st]; cbn [ru_world ru_batches]; [exact IH| |exact IH].
  specialize (Hw f (e0 :: es) (ru_world s) st). destruct (handle f (e0 :: es) (ru_world s) st) as [[st' world] fin]. cbn [fst snd ru_world ru_batches] in *.
  rewrite foldl_app. cbn [foldl fst snd]. by rewrite <- IH, <- Hw.
Qed.
End Run.

Lemma xack_only w id ids st : id ∈ ids -> acks_only ids st (xack w id st).2.
Proof.
  intros Hin. destruct (xack_law w id st) as [->|(Hl & Hu & Hp)]; [done|]. split; [done|]. split; [done|]. rewrite Hp.
  intros i Hi Hpend. apply list_elem_of_In, List.filter_In. split; [by apply list_elem_of_In|].
  destruct (String.eqb_spec i id) as [->|]; [by destruct Hi|done].
Qed.

Lemma acks_only_trans ids st st' st'' : acks_only ids st st' -> acks_only ids st' st'' -> acks_only ids st st''.
Proof. intros (H1 & H2 & H3) (H4 & H5 & H6). split_and!; [congruence..|]. intros id Hi Hp. by apply H6, H3. Qed.

Lemma ack_each_only ids acks : acks.*2 ⊆ ids -> forall ws st, acks_only ids st (ack_each ws acks st).
Proof.
  induction acks as [|[stream id] acks IH]; intros Hs ws st; [done|]. cbn [ack_each]. cbn in Hs.
  eapply acks_only_trans; [apply xack_only, Hs; left|]. apply IH. intros x Hx. apply Hs. by right.
Qed.

Lemma ack_all_only ids acks : acks.*2 ⊆ ids -> forall ws st, acks_only ids st (ack_all ws acks st).
Proof.
  induction acks as [|[stream id] acks IH]; intros Hs ws st; [done|]. cbn [ack_all]. cbn in Hs.
  pose proof (xack_only (ws O) id ids st ltac:(apply Hs; left)) as Ha. destruct (xack (ws O) id st) as [ok st']. cbn [snd] in Ha.
  destruct ok; [|done]. eapply acks_only_trans; [exact Ha|]. apply IH. intros x Hx. apply Hs. by right.
Qed.

(** ** The alert worker *)

Section Alerting.
Context `{Platform}.
Context (sha256_hex : string -> string) (new_id : list AlertRow -> Z).
Context (json_loads : string -> option pyval) (fromisoformat : pyval -> option Z) (py_int : pyval -> option Z).
Notation alert_poll_once := (alert_poll_once sha256_hex new_id json_loads fromisoformat py_int).
Notation alert_of := (alert_of sha256_hex json_loads fromisoformat py_int).
Notation poisons := (poisons sha256_hex json_loads fromisoformat py_int).

Definition alert_COUNT : nat := 100.

(** The rows of a batch and those before it are one transaction. *)
Definition alert_handle (f : Fate) (es : list Entry) (rows : list AlertRow) (st : Stream) : Stream * list AlertRow * bool :=
  match f with
  | Dies _ => (st, rows, false)
  | Finishes ws =>
      let '(_, rows, acks) := alert_poll_once (from_stream "alerts.stream" es) rows in (ack_each ws acks st, rows, true)
  end.
Notation alert_run := (run alert_COUNT alert_handle []).

Lemma from_stream_ids stream es : (map fst (from_stream stream es)).*2 = es.*1.
Proof. unfold from_stream. induction es as [|e es IH]; [done|]. cbn. by f_equal. Qed.

Lemma alert_handle_ok : handle_ok alert_handle.
Proof.
  intros f es rows st. destruct f as [n|ws]; [done|]. cbn [alert_handle].
  assert (Ha : (alert_poll_once (from_stream "alerts.stream" es) rows).2 = map fst (from_stream "alerts.stream" es))
    by (unfold Alerts.alert_poll_once, alert_entries; cbn [snd]; by rewrite alert_entries_acks).
  destruct (alert_poll_once _ rows) as [[r rows'] acks]. cbn [snd] in Ha. split; [|done].
  apply ack_each_only. by rewrite Ha, from_stream_ids.
Qed.

(** The ids of the alerts of a batch, unless the server rejects one of them. *)
Definition stored_ids (es : list Entry) : list string :=
  if existsb poisons (from_stream "alerts.stream" es) then [] else omap (fun e => al_event_id <$> alert_of e.2) es.
Definition alert_after (es : list Entry) (rows : list AlertRow) : list AlertRow :=
  (alert_poll_once (from_stream "alerts.stream" es) rows).1.2.

Lemma alert_handle_rows f es rows st :
  (alert_handle f es rows st).1.2 = if (alert_handle f es rows st).2 then alert_after es rows else rows.
Proof. destruct f; [done|]. unfold alert_after. cbn [alert_handle]. by destruct (alert_poll_once _ rows) as [[? ?] ?]. Qed.

Lemma alert_after_ids es rows : ids_unique rows ->
  ids_unique (alert_after es rows) /\
  forall id, id ∈ map row_event_id (alert_after es rows) <-> id ∈ map row_event_id rows \/ id ∈ stored_ids es.
Proof.
  intros Hu. unfold alert_after, stored_ids. rewrite alert_poll_rows. destruct (existsb _ _).
  { split; [done|]. intros id. rewrite elem_of_nil. tauto. }
  destruct (inserts_keep sha256_hex new_id json_loads (alerts_of sha256_hex json_loads fromisoformat py_int (from_stream "alerts.stream" es)) rows Hu) as (H1 & _ & H3).
  split; [exact H1|]. intros id. rewrite H3. apply or_iff_compat_l.
  assert (E : map al_event_id (alerts_of sha256_hex json_loads fromisoformat py_int (from_stream "alerts.stream" es))
            = omap (fun e => al_event_id <$> alert_of e.2) es); [|by rewrite E].
  clear. unfold alerts_of, from_stream. induction es as [|[i fields] es IH]; [done|]. cbn. destruct (alert_of fields); cbn; [f_equal|]; exact IH.
Qed.

Lemma alert_rows (bs : list (list Entry * bool)) : forall rows, ids_unique rows ->
  let rows' := foldl (fun w (b : list Entry * bool) => if b.2 then alert_after b.1 w else w) rows bs in
  ids_unique rows' /\
  forall id, id ∈ map row_event_id rows' <-> id ∈ map row_event_id rows \/ exists es, (es, true) ∈ bs /\ id ∈ stored_ids es.
Proof.
  induction bs as [|[es fin] bs IH]; intros rows Hu; cbn [foldl fst snd].
  { split; [done|]. intros id. split; [by left|]. intros [?|(es & He & _)]; [done|by apply elem_of_nil in He]. }
  destruct fin.
  - destruct (alert_after_ids es rows Hu) as [Hu' Hi]. destruct (IH _ Hu') as [IHu IHi]. split; [exact IHu|].
    intros id. rewrite IHi, Hi. setoid_rewrite elem_of_cons. split.
    + intros [[?|?]|(es' & ? & ?)]; [by left|right; exists es; by split; [left|]|right; exists es'; by split; [right|]].
    + intros [?|(es' & [[= <-]|?] & ?)]; [by left; left|by left; right|right; by exists es'].
  - destruct (IH _ Hu) as [IHu IHi]. split; [exact IHu|]. intros id. rewrite IHi. setoid_rewrite elem_of_cons. split.
    + intros [?|(es' & ? & ?)]; [by left|right; exists es'; by split; [right|]].
    + intros [?|(es' & [[=]|?] & ?)]; [by left|right; by exists es'].
Qed.

Lemma batch_of_entry (bs : list (list Entry * bool)) es es' b b' e e' :
  NoDup (concat bs.*1).*1 -> (es, b) ∈ bs -> (es', b') ∈ bs -> e ∈ es -> e' ∈ es' -> e.1 = e'.1 -> b = b'.
Proof.
  intros Hn H1 H2 He He' E.
  assert (Hc : forall (bs : list (list Entry * bool)) es b e, (es, b) ∈ bs -> e ∈ es -> e.1 ∈ (concat bs.*1).*1).
  { intros l es0 b0 e0 Hl He0. apply list_elem_of_fmap_2, list_elem_of_In, in_concat. exists es0.
    split; [|by apply list_elem_of_In]. apply list_elem_of_In, list_elem_of_fmap. by exists (es0, b0). }
  induction bs as [|[es0 b0] bs IH]; [by apply elem_of_nil in H1|]. cbn [fmap list_fmap fst concat] in Hn.
  rewrite fmap_app, NoDup_app in Hn. destruct Hn as (_ & Hd & Hn).
  apply elem_of_cons in H1 as [[= -> ->]|H1], H2 as [[= -> ->]|H2]; [done| | |by apply IH].
  - destruct (Hd e.1); [by apply list_elem_of_fmap_2|]. rewrite E. by eapply Hc.
  - destruct (Hd e'.1); [by apply list_elem_of_fmap_2|]. rewrite <- E. by eapply Hc.
Qed.

(** C40: alerts are delivered at most once.  Take any history of a stream and its worker:
    entries are added and old ones trimmed, the worker starts and starts again, polls, fails
    to reach Redis, loses an answer, dies before the commit of a batch or between its
    acknowledgements.  What it was given, followed by what it was not yet given, is in the
    order of the stream and repeats nothing, so that no batch is ever given again; there is
    one row for each event id, and the ids are those of the batches that were committed,
    batches with an alert the server rejects excepted.  A batch that was read and not
    committed stays pending for ever, through restarts too: its alert has no row unless it
    was published a second time.  The documented replay of unacknowledged entries on a
    restart does not take place, as every read asks for new entries only. *)
Theorem alerts_delivered_at_most_once ops :
  let s := alert_run ops in
  concat (ru_batches s).*1 ++ default [] (undelivered (ru_stream s)) `sublist_of` log (ru_stream s) /\
  ids_unique (ru_world s) /\
  (forall id, id ∈ map row_event_id (ru_world s) <-> exists es, (es, true) ∈ ru_batches s /\ id ∈ stored_ids es) /\
  (NoDup (log (ru_stream s)).*1 -> forall es e, (es, false) ∈ ru_batches s -> e ∈ es ->
     e.1 ∈ pending (ru_stream s) /\
     forall a, alert_of e.2 = Some a -> al_event_id a ∈ map row_event_id (ru_world s) ->
       exists e' a', e' ∈ log (ru_stream s) /\ e'.1 <> e.1 /\ alert_of e'.2 = Some a' /\ al_event_id a' = al_event_id a).
Proof.
  intros s. destruct (run_delivered alert_COUNT alert_handle [] ops alert_handle_ok) as [Ho _ Hp]. fold s in Ho, Hp.
  pose proof (run_world alert_COUNT alert_handle [] alert_after ops alert_handle_rows) as Hw. fold s in Hw.
  destruct (alert_rows (ru_batches s) [] ltac:(constructor)) as [Hu Hi]. rewrite <- Hw in Hu, Hi.
  assert (Hids : forall id, id ∈ map row_event_id (ru_world s) <-> exists es, (es, true) ∈ ru_batches s /\ id ∈ stored_ids es).
  { intros id. rewrite Hi. split; [intros [Hx|?]; [by apply elem_of_nil in Hx|done]|by right]. }
  split; [exact Ho|]. split; [exact Hu|]. split; [exact Hids|]. intros Hn es e He Hin. split; [by eapply Hp|].
  intros a Ha Hrow. apply Hids in Hrow as (es' & He' & Hid). unfold stored_ids in Hid.
  destruct (existsb _ _); [by apply elem_of_nil in Hid|]. apply list_elem_of_omap in Hid as (e' & Hin' & Hid).
  destruct (alert_of e'.2) as [a'|] eqn:Ea'; [|done]. injection Hid as Hid. exists e', a'.
  assert (Hlog : e' ∈ log (ru_stream s)).
  { eapply elem_of_sublist; [|exact Ho]. apply elem_of_app. left. apply list_elem_of_In, in_concat. exists es'.
    split; [|by apply list_elem_of_In]. apply list_elem_of_In, list_elem_of_fmap. by exists (es', true). }
  split; [exact Hlog|]. split; [|by split]. intros E.
  assert (Hd : NoDup (concat (ru_batches s).*1).*1).
  { eapply sublist_NoDup; [exact Hn|]. apply fmap_sublist. etrans; [|exact Ho]. by apply sublist_inserts_r. }
  pose proof (batch_of_entry _ _ _ _ _ _ _ Hd He He' Hin Hin' (eq_sym E)). done.
Qed.
End Alerting.

(** ** The orchestrator *)

Section Triggers.
Context `{Platform}.
Context (settings : Settings) (worker_now : Z) (accepts : Event -> bool) (broker_factory : option LedgerBroker).
Context (json_loads : string -> option pyval) (fromisoformat : pyval -> option Z) (py_int : pyval -> option Z).
(** The clocks of the n-th batch. *)
Context (clocks : nat -> nat -> Clock).
Notation poll_once n :=
  (Orchestrator.poll_once settings worker_now accepts broker_factory json_loads fromisoformat py_int (clocks n)).

Definition trigger_COUNT : nat := 50.

(** Each pair is a transaction of its own, so that a worker that dies leaves those it came
    to.  The state counts the batches. *)
Definition trigger_handle (f : Fate) (es : list Entry) (w : nat * DB) (st : Stream) : Stream * (nat * DB) * bool :=
  let '(n, db) := w in
  match f with
  | Dies after => (st, (S n, ps_db (poll_once n [("signals.stream", firstn after es)] db).2), false)
  | Finishes ws =>
      let r := poll_once n [("signals.stream", es)] db in
      match r.1 with
      | None => (ack_all ws (acked r) st, (S n, ps_db r.2), true)
      | Some _ => (st, (S n, ps_db r.2), false)
      end
  end.

Notation poll_loop n := (poll_loop settings worker_now accepts broker_factory json_loads fromisoformat py_int (clocks n)).

(** A batch acknowledges its entries and calls for a pair at most once each. *)
Lemma poll_loop_acks n entries : forall s,
  ((poll_loop n entries s).1 = None -> ps_acks (poll_loop n entries s).2 = ps_acks s ++ map fst entries) /\
  (ps_calls (poll_loop n entries s).2 <= ps_calls s + length entries)%nat.
Proof.
  induction entries as [|[ack fields] entries IH]; intros s; cbn [Orchestrator.poll_loop map length fst snd]; [rewrite app_nil_r; split; [done|lia]|].
  destruct (poll_entry _ _ _ _ _ _ _ _ s _) as [s'|] eqn:E; cbn [fst snd]; [|split; [done|lia]].
  assert (Hs : ps_acks s' = ps_acks s ++ [ack] /\ (ps_calls s' <= S (ps_calls s))%nat).
  { unfold poll_entry in E. apply res_bind_ok in E as ([pl|] & _ & [= <-]); [|cbn; split; [done|lia]].
    destruct (_ || _); [cbn; split; [done|lia]|]. case_bool_decide; cbn; (split; [done|lia]). }
  destruct Hs as [Ha Hc]. destruct (IH s') as [IHa IHc]. split; [|lia]. intros Hn. by rewrite (IHa Hn), Ha, <- app_assoc.
Qed.

Lemma flatten_one stream es : flatten_response [(stream, es)] = from_stream stream es.
Proof.
  unfold flatten_response, from_stream. cbn [flat_map]. rewrite app_nil_r. apply map_ext. by intros [id fields].
Qed.

Lemma trigger_handle_ok : handle_ok trigger_handle.
Proof.
  intros f es [n db] st. destruct f as [after|ws]; [done|]. cbn [trigger_handle].
  destruct (poll_loop_acks n (flatten_response [("signals.stream"%string, es)]) (poll_start db)) as [Ha _].
  unfold acked, Orchestrator.poll_once. destruct (poll_loop n _ _) as [[e|] r]; cbn [fst snd] in *; [done|]. split; [|done].
  apply ack_all_only. rewrite (Ha eq_refl), flatten_one. cbn [poll_start ps_acks app]. by rewrite from_stream_ids.
Qed.

(** What a worker may do to the tables in [k] calls. *)
Record tables_after (k : nat) (db db' : DB) : Prop := {
  ta_ledger : ledger_inv db';
  ta_owned : evaluations_owned db';
  ta_positions : positions db' = positions db;
  ta_orders : exists os, orders_paper db' = orders_paper db ++ os /\ (length os <= k)%nat /\ Forall (fun o => o_status o = PENDING) os
}.

Lemma poll_tables `{!PlatformOk} n es db : ledger_inv db -> evaluations_owned db ->
  tables_after (length es) db (ps_db (poll_once n [("signals.stream"%string, es)] db).2).
Proof.
  intros Hi Ho. unfold Orchestrator.poll_once. rewrite flatten_one. set (entries := from_stream _ es).
  assert (H0' : batch_inv db (poll_start db)).
  { split; simpl; try done; try lia; [|constructor]. exists []. rewrite app_nil_r. split_and!; done. }
  destruct (poll_loop_spec settings worker_now accepts broker_factory json_loads fromisoformat py_int (clocks n) db entries (poll_start db) H0') as (Hb & _).
  destruct (poll_loop_acks n entries (poll_start db)) as [_ Hc]. destruct Hb as [B1 B2 B3 (os & B4 & B5 & B6) _ _ _ _].
  split; [done..|]. exists os. split_and!; [done| |done].
  etrans; [exact B5|]. etrans; [exact Hc|]. unfold entries, from_stream. by rewrite length_map.
Qed.

Lemma handle_tables `{!PlatformOk} f es w st : ledger_inv w.2 -> evaluations_owned w.2 ->
  tables_after (length es) w.2 (trigger_handle f es w st).1.2.2.
Proof.
  destruct w as [n db]. cbn [snd]. intros Hi Ho. destruct f as [after|ws]; cbn [trigger_handle fst snd].
  - destruct (poll_tables n (firstn after es) db Hi Ho) as [T1 T2 T3 (os & T4 & T5 & T6)]. split; [done..|]. exists os.
    split_and!; [done| |done]. rewrite length_firstn in T5. lia.
  - pose proof (poll_tables n es db Hi Ho) as Ht. by destruct (poll_once n _ db) as [[e|] r].
Qed.

Lemma tables_trans k k' db db' db'' : tables_after k db db' -> tables_after k' db' db'' -> tables_after (k + k') db db''.
Proof.
  intros [_ _ T3 (os & T4 & T5 & T6)] [U1 U2 U3 (os' & U4 & U5 & U6)]. split; [done..|congruence|].
  exists (os ++ os'). rewrite U4, T4, app_assoc, length_app. split_and!; [done|lia|by apply Forall_app].
Qed.

Lemma tables_same db : ledger_inv db -> evaluations_owned db -> tables_after 0 db db.
Proof. intros Hi Ho. split; [done..|]. exists []. rewrite app_nil_r. by split_and!. Qed.

Notation trigger_run db0 := (run trigger_COUNT trigger_handle (O, db0)).

Lemma trigger_tables `{!PlatformOk} db0 ops : ledger_inv db0 -> evaluations_owned db0 ->
  tables_after (length (concat (ru_batches (trigger_run db0 ops)).*1)) db0 (ru_world (trigger_run db0 ops)).2.
Proof.
  intros Hi Ho. induction ops as [|o ops IH] using rev_ind; [by apply tables_same|].
  unfold run in *. rewrite foldl_app. cbn [foldl]. set (s := foldl _ _ ops) in *.
  destruct o as [e|w|w f]; cbn [step ru_world ru_batches]; [exact IH..|].
  unfold poll. destruct (xreadgroup w trigger_COUNT (ru_stream s)) as [[[|e0 es]|] st]; cbn [ru_world ru_batches]; [exact IH| |exact IH].
  pose proof (handle_tables f (e0 :: es) (ru_world s) st (ta_ledger _ _ _ IH) (ta_owned _ _ _ IH)) as Ht.
  destruct (trigger_handle f (e0 :: es) (ru_world s) st) as [[st' world] fin]. cbn [fst snd ru_world ru_batches] in *.
  rewrite fmap_app, concat_app, length_app. cbn [fmap list_fmap fst concat]. rewrite app_nil_r. by eapply tables_trans.
Qed.

(** Triggers are delivered at most once, and never order twice.  Whatever history the
    signals' stream and the orchestrator have - restarts, lost answers, a worker that dies
    within a batch or within its acknowledgements, batches that raise - the triggers given to
    it are in the order of the stream without repetition; a batch that raised, or that it
    died in, stays pending for ever and is not given again, so that what it triggers is left
    to the periodic scan; all the while the ledger is consistent, the positions are those it
    began with, and the orders are those it began with and at most one new pending order for
    each trigger it was given. *)
Theorem triggers_delivered_at_most_once `{!PlatformOk} db0 ops : ledger_inv db0 -> evaluations_owned db0 ->
  let s := trigger_run db0 ops in
  let given := concat (ru_batches s).*1 in
  let db := (ru_world s).2 in
  given ++ default [] (undelivered (ru_stream s)) `sublist_of` log (ru_stream s) /\
  (NoDup (log (ru_stream s)).*1 -> forall es e, (es, false) ∈ ru_batches s -> e ∈ es -> e.1 ∈ pending (ru_stream s)) /\
  ledger_inv db /\ evaluations_owned db /\ positions db = positions db0 /\
  exists os, orders_paper db = orders_paper db0 ++ os /\ (length os <= length given)%nat /\ Forall (fun o => o_status o = PENDING) os.
Proof.
  intros Hi Ho s given db. destruct (run_delivered trigger_COUNT trigger_handle (O, db0) ops trigger_handle_ok) as [Hs _ Hp].
  destruct (trigger_tables db0 ops Hi Ho) as [T1 T2 T3 T4]. split; [exact Hs|]. split; [|by split_and!].
  intros Hn es e He. by apply (Hp Hn es He).
Qed.
End Triggers.
End Workers.

(** ** Witnesses *)

(** A stream kept as it is; a command is carried out in fair weather. *)
Record DemoStream := { dm_log : list Entry; dm_left : option (list Entry); dm_pending : list string }.

#[export, refine] Instance demo_group : ConsumerGroup := {
  Stream := DemoStream;
  Weather := bool;
  log := dm_log;
  undelivered := dm_left;
  pending := dm_pending;
  no_stream := {| dm_log := []; dm_left := None; dm_pending := [] |};
  xadd := fun e s => {| dm_log := dm_log s ++ [e]; dm_left := (fun r => r ++ [e]) <$> dm_left s; dm_pending := dm_pending s |};
  xgroup_create := fun w s =>
    match dm_left s with
    | Some _ => (Some "BUSYGROUP Consumer Group name already exists"%string, s)
    | None => if w then (None, {| dm_log := dm_log s; dm_left := Some (dm_log s); dm_pending := dm_pending s |})
              else (Some "Connection refused"%string, s)
    end;
  xreadgroup := fun w n s =>
    match dm_left s with
    | Some r => if w then (Some (take n r), {| dm_log := dm_log s; dm_left := Some (drop n r); dm_pending := dm_pending s ++ (take n r).*1 |})
                else (None, s)
    | None => (None, s)
    end;
  xack := fun w id s =>
    if w then (true, {| dm_log := dm_log s; dm_left := dm_left s; dm_pending := List.filter (fun i => negb (String.eqb i id)) (dm_pending s) |})
    else (false, s)
}.
Proof.
  - done.
  - intros e s. split; [done|]. split; [done|]. cbn. destruct (dm_left s) as [r|]; [|done]. by exists O.
  - intros w s. cbv zeta. destruct (dm_left s) as [r|] eqn:E; [by left|]. destruct w; [right|by left]. do 3 (split; [done|]). by exists O.
  - intros w n s. destruct (dm_left s) as [r|] eqn:E; [|by left]. destruct w; [right|by left]. exists r. do 2 (split; [by try right|]). done.
  - intros w id s. cbv zeta. destruct w; [right|by left]. done.
Defined.

Notation demo_alert id raw := (id, [("data", raw)])%string.
Notation demo_run ops :=
  (@run demo_group _ alert_COUNT
     (@alert_handle demo_group demo_platform demo_sha (fun _ => 0) Alerts.demo_loads (fun _ => Some 0) (fun _ => Some 1)) [] ops).

(** The worker reads the first alert and dies; it starts again, and gets the second only. *)
Notation demo_ops :=
  [Started true; Added (demo_alert "1-0" "1info"); Polled true (Dies 0);
   Started true; Added (demo_alert "2-0" "2info"); Polled true (Finishes (fun _ => true)); Polled true (Finishes (fun _ => true))].

Lemma alerts_delivered_at_most_once_witness :
  map row_event_id (ru_world (demo_run demo_ops)) = ["2info"]%string /\
  "1-0"%string ∈ pending (ru_stream (demo_run demo_ops)) /\ "1info"%string ∉ map row_event_id (ru_world (demo_run demo_ops)).
Proof.
  pose proof (@alerts_delivered_at_most_once demo_group demo_platform demo_sha (fun _ => 0) Alerts.demo_loads (fun _ => Some 0)
    (fun _ => Some 1) demo_ops) as (_ & _ & _ & Hl).
  assert (Er : map row_event_id (ru_world (demo_run demo_ops)) = ["2info"]%string) by (vm_compute; reflexivity).
  split; [exact Er|].
  destruct (Hl ltac:(apply (bool_decide_unpack _); vm_compute; exact I) [demo_alert "1-0" "1info"] (demo_alert "1-0" "1info")
              ltac:(vm_compute; left) ltac:(left)) as [Hp _].
  split; [exact Hp|]. rewrite Er. intros Hin%list_elem_of_singleton. discriminate Hin.
Defined.

Notation demo_triggers ops :=
  (@run demo_group _ trigger_COUNT
     (@trigger_handle demo_group demo_platform demo_settings 0 (fun _ => true) (Some demo_lb) Orchestrator.demo_loads
        (fun _ => Some 0) (fun _ => Some 1) (fun _ _ => demo_clock)) (O, demo_db top_level_atr) ops).

(** A batch raises, the next is dealt with. *)
Notation demo_trigger_ops :=
  [Added (demo_alert "1-0" "ok"); Added (demo_alert "2-0" "bad"); Started true; Polled true (Finishes (fun _ => true));
   Started true; Added (demo_alert "3-0" "ok"); Polled true (Finishes (fun _ => true))].

Lemma triggers_delivered_at_most_once_witness :
  pending (ru_stream (demo_triggers demo_trigger_ops)) = ["1-0"; "2-0"]%string /\
  @ledger_inv demo_platform (ru_world (demo_triggers demo_trigger_ops)).2.
Proof.
  pose proof (@triggers_delivered_at_most_once demo_group demo_platform demo_settings 0 (fun _ => true) (Some demo_lb)
    Orchestrator.demo_loads (fun _ => Some 0) (fun _ => Some 1) (fun _ _ => demo_clock) demo_platform_ok (demo_db top_level_atr)
    demo_trigger_ops (proj1 (demo_db_inv _)) (proj2 (demo_db_inv _))) as (_ & _ & Hi & _).
  split; [vm_compute; reflexivity|exact Hi].
Defined.
