(* ===== verification/Adapter.v ===== *)
(** * The broker adapter ([app/broker/adapter.py])

    [BrokerAdapter] is the protocol: the eight operations every broker has.  [PaperContract]
    is what its documentation promises of them, in terms of the tables; the theorems about a
    client are proved against it, and [LedgerBroker] of [Ledger] is shown to keep it. *)

From Stdlib Require Import ZArith Lia.
From stdpp Require Import base list strings.
From S2P Require Import Prelude PyFloat Timeframes Signals Costs Positions Paper Tables Ledger.

Open Scope Z_scope.

Class BrokerAdapter (B : Type) := {
  ba_submit_paper_order : string -> string -> Direction -> float -> Z -> float -> option Z -> option float -> option float ->
    B -> DB -> Res (option PaperOrderRow * B * DB);
  ba_fill_pending : Z -> float -> Z -> B -> DB -> Res (option PaperPositionRow * B * DB);
  ba_cancel_pending : Z -> B -> DB -> option PaperOrderRow * B * DB;
  ba_evaluate_exit : string -> float -> Z -> B -> DB -> option Trade * B * DB;
  ba_close_on_signal : string -> float -> Z -> B -> DB -> option Trade * B * DB;
  ba_mark_position : string -> float -> B -> B;
  ba_equity_snapshot : Z -> B -> DB -> B * DB;
  ba_restore_state : B -> DB -> B
}.

(** Paper only: of the database an operation changes the three tables of the ledger. *)
Record paper_only (db db' : DB) : Prop := {
  po_instruments : instruments db' = instruments db;
  po_candles : candles db' = candles db;
  po_signals : agent_signals db' = agent_signals db;
  po_decisions : decisions db' = decisions db;
  po_evaluations : risk_evaluations db' = risk_evaluations db;
  po_risk_state : risk_state db' = risk_state db;
  po_settings : system_settings db' = system_settings db
}.

Lemma paper_only_refl db : paper_only db db.
Proof. by split. Qed.
Lemma paper_only_trans db1 db2 db3 : paper_only db1 db2 -> paper_only db2 db3 -> paper_only db1 db3.
Proof. intros [] []. split; congruence. Qed.
#[export] Hint Resolve paper_only_refl : core.

Definition order_ids (db : DB) : list Z := map o_id (orders_paper db).
Definition position_ids (db : DB) : list Z := map p_id (positions db).
Definition open_count (db : DB) : nat := length (list_open_positions db).

(** What an operation may do to the tables, given the orders and the positions it reports as
    new, and how many positions it reports as opened and closed. *)
Record reported (db db' : DB) (orders : list Z) (positions : list Z) (opened closed : nat) : Prop := {
  rp_evolves : evolves db db';
  rp_paper : paper_only db db';
  rp_orders : order_ids db' = order_ids db ++ orders;
  rp_positions : position_ids db' = position_ids db ++ positions;
  rp_open : (open_count db' + closed = open_count db + opened)%nat
}.

(** The contract.  [ready] is what a broker relies on between its operations. *)
Class PaperContract (B : Type) `{BrokerAdapter B} := {
  ready : B -> DB -> Prop;
  (** An order is persisted as PENDING, or rejected: always when FLAT or of no units. *)
  submit_law : forall s tf d ref ts u id sl tp b db, ready b db ->
    match ba_submit_paper_order s tf d ref ts u id sl tp b db with
    | Ok (Some o, b', db') =>
        ready b' db' /\ reported db db' [o_id o] [] 0 0 /\ d <> FLAT /\ (u <=ᶠ f0) = false /\
        o ∈ orders_paper db' /\ o_status o = PENDING /\ o_decision_id o = id /\ o_side o = d /\ o_symbol o = str_upper s
    | Ok (None, b', db') => b' = b /\ db' = db
    | Err e => e = IntegrityError /\ exists i, id = Some i /\ decision_taken id db = true
    end;
  (** A PENDING order becomes FILLED together with its position, or nothing is persisted. *)
  fill_law : forall id price ts b db, ready b db ->
    match ba_fill_pending id price ts b db with
    | Ok (Some p, b', db') =>
        ready b' db' /\ reported db db' [] [p_id p] 1 0 /\ p_status p = OPEN /\ p_order_id p = id /\ p ∈ positions db' /\
        (exists o, o ∈ orders_paper db /\ o_id o = id /\ o_status o = PENDING) /\
        (forall o, o ∈ orders_paper db' -> o_id o = id -> o_status o = FILLED)
    | Ok (None, b', db') => ready b' db' /\ db' = db
    | Err _ => False
    end;
  cancel_law : forall id b db, ready b db ->
    match ba_cancel_pending id b db with
    | (Some o, b', db') =>
        ready b' db' /\ reported db db' [] [] 0 0 /\ o_id o = id /\ o_status o = CANCELLED /\
        (exists o', o' ∈ orders_paper db /\ o_id o' = id /\ o_status o' = PENDING)
    | (None, b', db') => b' = b /\ db' = db
    end;
  (** An exit closes one position of the symbol it reports, or nothing. *)
  exit_law : forall s c ts b db, ready b db ->
    match ba_evaluate_exit s c ts b db with
    | (Some t, b', db') => ready b' db' /\ reported db db' [] [] 0 1 /\ t_symbol t ∈ map p_symbol (list_open_positions db)
    | (None, b', db') => ready b' db' /\ db' = db
    end;
  close_law : forall s p ts b db, ready b db ->
    match ba_close_on_signal s p ts b db with
    | (Some t, b', db') => ready b' db' /\ reported db db' [] [] 0 1 /\ t_symbol t ∈ map p_symbol (list_open_positions db)
    | (None, b', db') => ready b' db' /\ db' = db
    end;
  mark_law : forall s p b db, ready b db -> ready (ba_mark_position s p b) db;
  snapshot_law : forall ts b db, ready b db ->
    let '(b', db') := ba_equity_snapshot ts b db in
    ready b' db' /\ reported db db' [] [] 0 0 /\
    exists sn, account_snapshots db' = account_snapshots db ++ [sn] /\ sn_ts sn = ts;
  restore_law : forall b db, ready b db -> ready (ba_restore_state b db) db
}.

(** ** A client *)

Lemma reported_refl db : reported db db [] [] 0 0.
Proof. split; [apply evolves_refl|done|by rewrite app_nil_r..|lia]. Qed.

Lemma reported_trans db1 db2 db3 os ps n m os' ps' n' m' :
  reported db1 db2 os ps n m -> reported db2 db3 os' ps' n' m' -> reported db1 db3 (os ++ os') (ps ++ ps') (n + n') (m + m').
Proof.
  intros [E1 P1 O1 Q1 C1] [E2 P2 O2 Q2 C2]. split.
  - by eapply evolves_trans.
  - by eapply paper_only_trans.
  - by rewrite O2, O1, app_assoc.
  - by rewrite Q2, Q1, app_assoc.
  - lia.
Qed.

(** What a client is told. *)
Inductive Answer := Submitted (o : PaperOrderRow) | Filled (p : PaperPositionRow) | Cancelled (o : PaperOrderRow) | Closed (t : Trade) | Nothing.
Definition submitted_id (a : Answer) : option Z := match a with Submitted o => Some (o_id o) | _ => None end.
Definition filled_id (a : Answer) : option Z := match a with Filled p => Some (p_id p) | _ => None end.
Definition closes (a : Answer) : nat := match a with Closed _ => 1 | _ => 0 end.

Section Client.
Context {B : Type} `{PaperContract B}.

Definition told {A} (f : A -> Answer) (a : option A) : Answer := match a with Some a => f a | None => Nothing end.

Definition adapter_step (op : ledger_op) (b : B) (db : DB) : Res (Answer * B * DB) :=
  match op with
  | Submit s tf d ref ts u id sl tp =>
      r <-- ba_submit_paper_order s tf d ref ts u id sl tp b db ;; let '(o, b, db) := r in Ok (told Submitted o, b, db)
  | Fill id price ts => r <-- ba_fill_pending id price ts b db ;; let '(p, b, db) := r in Ok (told Filled p, b, db)
  | Cancel id => let '(o, b, db) := ba_cancel_pending id b db in Ok (told Cancelled o, b, db)
  | ExitAt s c ts => let '(t, b, db) := ba_evaluate_exit s c ts b db in Ok (told Closed t, b, db)
  | CloseAt s p ts => let '(t, b, db) := ba_close_on_signal s p ts b db in Ok (told Closed t, b, db)
  | MarkAt s p => Ok (Nothing, ba_mark_position s p b, db)
  | SnapshotAt ts => let '(b, db) := ba_equity_snapshot ts b db in Ok (Nothing, b, db)
  | RestoreState => Ok (Nothing, ba_restore_state b db, db)
  end.

Fixpoint adapter_run (ops : list ledger_op) (b : B) (db : DB) : Res (list Answer * B * DB) :=
  match ops with
  | [] => Ok ([], b, db)
  | op :: ops =>
      r <-- adapter_step op b db ;; let '(a, b, db) := r in
      rest <-- adapter_run ops b db ;; let '(l, b, db) := rest in Ok (a :: l, b, db)
  end.

(** The tables account for one answer. *)
Definition accounted (db db' : DB) (l : list Answer) : Prop :=
  reported db db' (omap submitted_id l) (omap filled_id l) (length (omap filled_id l)) (sum_list_with closes l).

Lemma adapter_step_ok op b db : ready b db ->
  match adapter_step op b db with
  | Ok (a, b', db') => ready b' db' /\ accounted db db' [a]
  | Err e => e = IntegrityError /\ exists s tf d ref ts u i sl tp, op = Submit s tf d ref ts u (Some i) sl tp /\ decision_taken (Some i) db = true
  end.
Proof.
  intros Hr. destruct op as [s tf d ref ts u id sl tp|id p ts|id|s c ts|s p ts|s p|ts|]; cbn [adapter_step].
  - pose proof (submit_law s tf d ref ts u id sl tp b db Hr) as Hl.
    destruct (ba_submit_paper_order _ _ _ _ _ _ _ _ _ b db) as [[[[o|] b'] db']|e]; cbn.
    + by destruct Hl as (? & ? & _).
    + destruct Hl as [-> ->]. split; [done|apply reported_refl].
    + destruct Hl as (-> & i & -> & Ht). split; [done|]. by eexists _, _, _, _, _, _, _, _, _.
  - pose proof (fill_law id p ts b db Hr) as Hl. destruct (ba_fill_pending id p ts b db) as [[[[q|] b'] db']|e]; cbn; [| |done].
    + by destruct Hl as (? & ? & _).
    + destruct Hl as [? ->]. split; [done|apply reported_refl].
  - pose proof (cancel_law id b db Hr) as Hl. destruct (ba_cancel_pending id b db) as [[[o|] b'] db']; cbn.
    + by destruct Hl as (? & ? & _).
    + destruct Hl as [-> ->]. split; [done|apply reported_refl].
  - pose proof (exit_law s c ts b db Hr) as Hl. destruct (ba_evaluate_exit s c ts b db) as [[[t|] b'] db']; cbn.
    + by destruct Hl as (? & ? & _).
    + destruct Hl as [? ->]. split; [done|apply reported_refl].
  - pose proof (close_law s p ts b db Hr) as Hl. destruct (ba_close_on_signal s p ts b db) as [[[t|] b'] db']; cbn.
    + by destruct Hl as (? & ? & _).
    + destruct Hl as [? ->]. split; [done|apply reported_refl].
  - split; [by apply mark_law|apply reported_refl].
  - pose proof (snapshot_law ts b db Hr) as Hl. destruct (ba_equity_snapshot ts b db) as [b' db']. by destruct Hl as (? & ? & _).
  - split; [by apply restore_law|apply reported_refl].
Qed.

Lemma adapter_run_ok ops : forall b db, ready b db ->
  match adapter_run ops b db with
  | Ok (l, b', db') => ready b' db' /\ accounted db db' l
  | Err e => e = IntegrityError
  end.
Proof.
  induction ops as [|op ops IH]; intros b db Hr; cbn [adapter_run]; [split; [done|apply reported_refl]|].
  pose proof (adapter_step_ok op b db Hr) as Hs. destruct (adapter_step op b db) as [[[a b1] db1]|e]; cbn [res_bind]; [|by destruct Hs].
  destruct Hs as [Hr1 Ha]. specialize (IH b1 db1 Hr1). destruct (adapter_run ops b1 db1) as [[[l b'] db']|e]; cbn [res_bind]; [|done].
  destruct IH as [Hr' Hl]. split; [done|]. unfold accounted in *.
  pose proof (reported_trans _ _ _ _ _ _ _ _ _ _ _ Ha Hl) as Ht.
  change (a :: l) with ([a] ++ l). by rewrite !omap_app, length_app, sum_list_with_app.
Qed.
End Client.

(** ** The ledger broker *)

#[export] Instance LedgerAdapter `{Platform} : BrokerAdapter LedgerBroker := {
  ba_submit_paper_order := submit_paper_order;
  ba_fill_pending := fill_pending;
  ba_cancel_pending := cancel_pending;
  ba_evaluate_exit := lb_evaluate_exit;
  ba_close_on_signal := lb_close_on_signal;
  ba_mark_position := lb_mark_position;
  ba_equity_snapshot := equity_snapshot;
  ba_restore_state := restore_state
}.

Section Ledger.
Context `{PlatformOk}.

Definition mirrors (lb : LedgerBroker) (db : DB) : Prop := ledger_inv db /\ in_sync lb db.

Lemma order_ids_updated id f db : keeps_identity f -> order_ids (update_order id f db) = order_ids db.
Proof. intros Hf. unfold order_ids, update_order. cbn [orders_paper set_orders_paper]. by apply updated_ids. Qed.

Lemma remove_first_length s l : s ∈ l -> S (length (remove_first s l)) = length l.
Proof.
  induction l as [|x l IH]; intros Hin; [by apply elem_of_nil in Hin|]. cbn. destruct (String.eqb_spec x s) as [|Hne]; [done|].
  cbn. f_equal. apply IH. apply elem_of_cons in Hin as [->|]; [done|done].
Qed.

Lemma ledger_submit s tf d ref ts u id sl tp lb db : mirrors lb db ->
  match submit_paper_order s tf d ref ts u id sl tp lb db with
  | Ok (Some o, b', db') =>
      mirrors b' db' /\ reported db db' [o_id o] [] 0 0 /\ d <> FLAT /\ (u <=ᶠ f0) = false /\
      o ∈ orders_paper db' /\ o_status o = PENDING /\ o_decision_id o = id /\ o_side o = d /\ o_symbol o = str_upper s
  | Ok (None, b', db') => b' = lb /\ db' = db
  | Err e => e = IntegrityError /\ exists i, id = Some i /\ decision_taken id db = true
  end.
Proof.
  intros [Hi Hs]. destruct (submit_paper_order s tf d ref ts u id sl tp lb db) as [[[[o|] b'] db']|e] eqn:E.
  - destruct (submit_step _ _ _ _ _ _ _ _ _ _ _ _ _ _ E Hi Hs) as (Hi' & Hs' & He & _ & Hp & Hst & Hsd & Hsy & Hd & Ho & _).
    assert (Hx : paper_only db db' /\ d <> FLAT /\ (u <=ᶠ f0) = false).
    { unfold submit_paper_order in E. destruct (bool_decide_reflect (d = FLAT)) as [|Hf]; [done|]. destruct (u <=ᶠ f0); [done|]. cbn [orb] in E.
      destruct (match open_for _ _ with Some _ => _ | None => _ end); [done|].
      destruct (match id with Some _ => _ | None => _ end); [done|].
      cbn [new_uuid] in E. apply res_bind_ok in E as (db1 & Hsave & [= _ _ <-]). unfold save_order in Hsave.
      destruct (decision_taken _ _); [done|]. injection Hsave as <-. split; [by split|done]. }
    destruct Hx as (Hpo & Hf & Hu). split; [done|]. split; [|split_and!; try done; rewrite Ho; apply elem_of_app; right; by left].
    split; [done|done| | |].
    + unfold order_ids. by rewrite Ho, map_app.
    + unfold position_ids. by rewrite Hp, app_nil_r.
    + unfold open_count, list_open_positions. rewrite Hp. lia.
  - by destruct (submit_step _ _ _ _ _ _ _ _ _ _ _ _ _ _ E Hi Hs) as (_ & _ & _ & _ & _ & -> & ->).
  - pose proof (ledger_step_spec (Submit s tf d ref ts u id sl tp) lb db Hi Hs) as Hl. cbn [ledger_step] in Hl. rewrite E in Hl.
    cbn in Hl. destruct Hl as (-> & s' & tf' & d' & r' & t' & u' & i & sl' & tp' & [= <- <- <- <- <- <- -> <- <-] & Ht).
    split; [done|]. by exists i.
Qed.

Lemma ledger_fill id price ts lb db : mirrors lb db ->
  match fill_pending id price ts lb db with
  | Ok (Some p, b', db') =>
      mirrors b' db' /\ reported db db' [] [p_id p] 1 0 /\ p_status p = OPEN /\ p_order_id p = id /\ p ∈ positions db' /\
      (exists o, o ∈ orders_paper db /\ o_id o = id /\ o_status o = PENDING) /\
      (forall o, o ∈ orders_paper db' -> o_id o = id -> o_status o = FILLED)
  | Ok (None, b', db') => mirrors b' db' /\ db' = db
  | Err _ => False
  end.
Proof.
  intros [Hi Hs]. destruct (fill_step id price ts lb db Hi Hs) as (r & b' & db' & E & Hi' & Hs' & He & Hr).
  assert (Hx : paper_only db db' /\ order_ids db' = order_ids db /\ (r = None -> db' = db)).
  { unfold fill_pending in E. destruct (get_order id db) as [o|]; [|by injection E as <- <- <-].
    destruct (negb _); [by injection E as <- <- <-|]. destruct (open_for _ _); [by injection E as <- <- <-|].
    destruct (open_for _ _) as [pos|]; [|by injection E as <- <- <-]. cbn [new_uuid] in E.
    apply res_bind_ok in E as (db1 & Hsave & [= <- <- <-]). unfold save_position in Hsave. destruct (_ && _); [done|]. injection Hsave as <-.
    split; [by split|]. split; [|done].
    change (order_ids (update_order id (mark_filled pos ts) (set_uuids (S (uuids db)) db)) = order_ids db).
    by rewrite order_ids_updated. }
  rewrite E. destruct Hx as (Hpo & Hids & Hnone). destruct r as [p|].
  - destruct Hr as (o & Ho & Hst & Hpid & Hop & _ & _ & _ & Hps & Hfilled). split; [done|]. split.
    + split; [done|done|by rewrite app_nil_r| |].
      * unfold position_ids. by rewrite Hps, map_app.
      * unfold open_count, list_open_positions. rewrite Hps, List.filter_app, length_app. cbn [List.filter].
        unfold is_open at 2. rewrite Hop, bool_decide_true by done. cbn [length]. lia.
    + split; [done|]. split; [done|]. split; [rewrite Hps; apply elem_of_app; right; by left|]. split; [|exact Hfilled].
      apply get_order_Some in Ho as [Hin Hid]. by exists o.
  - rewrite Hnone in * by done. done.
Qed.

Lemma ledger_cancel id lb db : mirrors lb db ->
  match cancel_pending id lb db with
  | (Some o, b', db') =>
      mirrors b' db' /\ reported db db' [] [] 0 0 /\ o_id o = id /\ o_status o = CANCELLED /\
      (exists o', o' ∈ orders_paper db /\ o_id o' = id /\ o_status o' = PENDING)
  | (None, b', db') => b' = lb /\ db' = db
  end.
Proof.
  intros [Hi Hs]. pose proof (cancel_step id lb db Hi Hs) as Hc. unfold cancel_pending in *.
  destruct (get_order id db) as [o|] eqn:Eo; [|done]. destruct (is_pending o) eqn:Ep; cbn [negb] in *; [|done].
  destruct Hc as (Hi' & Hs' & He). apply get_order_Some in Eo as [Hin Hid]. apply is_pending_true in Ep.
  split; [done|]. split; [|split; [done|]; split; [done|]; by exists o].
  split; [done|by split|by rewrite app_nil_r, order_ids_updated by apply mark_cancelled_keeps|by rewrite app_nil_r|]. unfold open_count, list_open_positions. cbn. lia.
Qed.

Lemma ledger_exit r lb db : exit_shape r (lb_paper lb) -> mirrors lb db ->
  match persist_trade r lb db with
  | (Some t, b', db') => mirrors b' db' /\ reported db db' [] [] 0 1 /\ t_symbol t ∈ map p_symbol (list_open_positions db)
  | (None, b', db') => mirrors b' db' /\ db' = db
  end.
Proof.
  intros Hx [Hi Hs]. pose proof (persist_trade_step r lb db Hx Hi Hs) as Hp. destruct r as [[t|] paper]; unfold persist_trade in *.
  2: { by destruct Hp as (? & ? & _). }
  destruct Hp as (Hi' & Hs' & He). unfold exit_shape in Hx. cbn in Hx. destruct Hx as [[pos Hpos] _].
  assert (Hin : t_symbol t ∈ map p_symbol (list_open_positions db)).
  { rewrite <- (sync_open _ _ Hs). apply open_for_Some in Hpos as [Hp Hsym]. rewrite <- Hsym. by apply list_elem_of_fmap_2. }
  destruct (persist_close_step t db Hi Hin) as (_ & _ & Ho & Hop). split; [done|]. split; [|done].
  assert (Hk : paper_only db (_persist_close (t_symbol t) t db) /\ position_ids (_persist_close (t_symbol t) t db) = position_ids db).
  { unfold _persist_close. destruct (get_open_position _ _) as [row|]; [|done]. split; [by split|].
    unfold position_ids, update_position. cbn [positions set_positions]. apply closed_rows_keys. }
  destruct Hk as [Hpo Hpids]. split; [done|done|unfold order_ids; by rewrite Ho, app_nil_r|by rewrite app_nil_r|].
  pose proof (remove_first_length _ _ Hin) as Hl. rewrite <- Hop, !length_map in Hl. unfold open_count. lia.
Qed.
End Ledger.

(** [LedgerBroker] keeps the contract while it mirrors a consistent ledger. *)
#[export, refine] Instance LedgerContract `{PlatformOk} : PaperContract LedgerBroker := { ready := mirrors }.
Proof.
  - intros. by apply ledger_submit.
  - intros. by apply ledger_fill.
  - intros. by apply ledger_cancel.
  - intros s c ts lb db Hr. apply ledger_exit; [apply evaluate_exit_shape|done].
  - intros s p ts lb db Hr. apply ledger_exit; [apply close_on_signal_shape|done].
  - intros s p lb db [Hi [Ho Hp]]. by split; [|split].
  - intros ts lb db [Hi Hs]. pose proof (ledger_step_spec (SnapshotAt ts) lb db Hi Hs) as Hl. cbn [ledger_step] in Hl.
    cbn [ba_equity_snapshot LedgerAdapter]. unfold equity_snapshot in *. destruct (broker_state ts (lb_paper lb)) as [st paper].
    destruct Hl as (Hi' & Hs' & He). split; [done|]. split; [|by eexists].
    split; [done|by split|by rewrite app_nil_r|by rewrite app_nil_r|]. unfold open_count, list_open_positions. cbn. lia.
  - intros lb db [Hi _]. split; [done|apply restore_sync].
Defined.

(** C28: a client of any broker that keeps the contract of the adapter can account for the
    tables by the answers it got.  After any calls, the orders are those there were and then
    the ones it was told were submitted, in that order; the positions those there were and
    then the ones it was told were opened; and the open ones are as many more as it was told
    were opened less those it was told were closed.  Orders move only from PENDING to FILLED
    or CANCELLED and positions only from OPEN to CLOSED, nothing outside the ledger changes,
    and the only call that can fail is to submit for a decision that has an order. *)
Theorem clients_accounted {B : Type} `{PaperContract B} (ops : list ledger_op) (b : B) (db : DB) :
  ready b db ->
  match adapter_run ops b db with
  | Ok (answers, b', db') =>
      ready b' db' /\ evolves db db' /\ paper_only db db' /\
      order_ids db' = order_ids db ++ omap submitted_id answers /\
      position_ids db' = position_ids db ++ omap filled_id answers /\
      (open_count db' + sum_list_with closes answers = open_count db + length (omap filled_id answers))%nat
  | Err e => e = IntegrityError
  end.
Proof.
  intros Hr. pose proof (adapter_run_ok ops b db Hr) as Ho. destruct (adapter_run ops b db) as [[[l b'] db']|e]; [|done].
  destruct Ho as [Hr' [H1 H2 H3 H4 H5]]. by split_and!.
Qed.

(** The ledger broker through its whole life, from an empty ledger. *)
Lemma clients_accounted_witness :
  match @adapter_run LedgerBroker (@LedgerAdapter demo_platform) demo_ops demo_lb empty_db with
  | Ok (answers, _, db') => open_count db' + sum_list_with closes answers = length (omap filled_id answers)
  | Err _ => False
  end%nat.
Proof.
  pose proof (@clients_accounted LedgerBroker _ (@LedgerContract demo_platform demo_platform_ok) demo_ops demo_lb empty_db
    (conj empty_ledger_inv empty_in_sync)) as Hc.
  assert (Ho : match @adapter_run LedgerBroker (@LedgerAdapter demo_platform) demo_ops demo_lb empty_db with Ok _ => True | Err _ => False end)
    by (vm_compute; exact I).
  destruct (@adapter_run LedgerBroker _ demo_ops demo_lb empty_db) as [[[l b'] db']|e]; [|exact Ho].
  exact (proj2 (proj2 (proj2 (proj2 (proj2 Hc))))).
Defined.
