(* ===== verification/CycleReport.v ===== *)
(** * What a lifecycle cycle reports against what it did

    [process_lifecycle] (app/workers/orchestrator_worker.py) and [process_unit_bar]
    (app/broker/lifecycle.py) count fills, exits, cancellations and snapshots as they go: the
    counts are logged and are the increments of the paper counters of app/core/metrics.py.
    Here they are compared with the rows of the ledger before and after. *)

From Stdlib Require Import ZArith Lia.
From stdpp Require Import base list strings.
From S2P Require Import Prelude PyFloat Timeframes Signals Fusion Risk Decision Tables Candles SignalStore Decide Costs Positions Paper Ledger Lifecycle MarketConfig LedgerGate Bus Orchestrator PaperCycle.

(** ** Counting rows *)

Definition count {A} (P : A -> bool) (l : list A) : Z := Z.of_nat (length (List.filter P l)).

Lemma count_app {A} (P : A -> bool) l k : count P (l ++ k) = count P l + count P k.
Proof. unfold count. rewrite List.filter_app, length_app. lia. Qed.

Lemma count_cons {A} (P : A -> bool) x l : count P (x :: l) = Z.b2z (P x) + count P l.
Proof. unfold count. simpl. destruct (P x); simpl; lia. Qed.

Lemma NoDup_map_filter {A B} (key : A -> B) (P : A -> bool) l : NoDup (map key l) -> NoDup (map key (List.filter P l)).
Proof.
  induction l as [|x l IH]; [done|]. cbn [map List.filter]. rewrite NoDup_cons. intros [Hx Hn].
  destruct (P x); [|by apply IH]. cbn [map]. apply NoDup_cons. split; [|by apply IH].
  intros (y & E & Hy)%list_elem_of_fmap. apply list_elem_of_In, List.filter_In in Hy as [Hy _].
  apply Hx. rewrite E. by apply list_elem_of_fmap_2, list_elem_of_In.
Qed.

(** Rewriting the one row of a key. *)
Lemma count_update {A} (key : A -> Z) (g : A -> A) (P : A -> bool) l x :
  NoDup (map key l) -> x ∈ l ->
  count P (map (fun y => if key y =? key x then g y else y) l) = count P l - Z.b2z (P x) + Z.b2z (P (g x)).
Proof.
  assert (Hout : forall l0, key x ∉ map key l0 -> map (fun y => if key y =? key x then g y else y) l0 = l0).
  { induction l0 as [|y l0 IH]; [done|]. cbn [map]. rewrite not_elem_of_cons. intros [Hy Hl].
    rewrite IH by done. by destruct (Z.eqb_spec (key y) (key x)). }
  induction l as [|y l IH]; [by intros _ ?%elem_of_nil|]. cbn [map]. rewrite NoDup_cons. intros [Hy Hn].
  rewrite !count_cons. intros [<-|Hx]%elem_of_cons.
  - rewrite Z.eqb_refl, Hout by done. lia.
  - destruct (Z.eqb_spec (key y) (key x)) as [E|E]; [|rewrite IH by done; lia].
    exfalso. apply Hy. rewrite E. by apply list_elem_of_fmap_2.
Qed.

Definition in_status (st : PaperOrderStatus) (o : PaperOrderRow) : bool := bool_decide (o_status o = st).
Definition orders_in (st : PaperOrderStatus) (db : DB) : Z := count (in_status st) (orders_paper db).

(** Closed by a stop or a target, and closed by an opposite signal. *)
Definition closed_for (signal : bool) (p : PaperPositionRow) : bool :=
  bool_decide (p_status p = CLOSED) && eqb (bool_decide (p_exit_reason p = Some EXIT_SIGNAL)) signal.
Definition closes (signal : bool) (db : DB) : Z := count (closed_for signal) (positions db).

(** From [db] to [db'] there are [f] fills, [c] cancellations, [x] exits at a stop or target,
    [k] closes by a signal and [s] snapshots. *)
Record counted (f c x k s : Z) (db db' : DB) : Prop := {
  ct_filled : orders_in FILLED db' = orders_in FILLED db + f;
  ct_cancelled : orders_in CANCELLED db' = orders_in CANCELLED db + c;
  ct_pending : orders_in PENDING db' = orders_in PENDING db - f - c;
  ct_positions : Z.of_nat (length (positions db')) = Z.of_nat (length (positions db)) + f;
  ct_exits : closes false db' = closes false db + x;
  ct_signals : closes true db' = closes true db + k;
  ct_snapshots : Z.of_nat (length (account_snapshots db')) = Z.of_nat (length (account_snapshots db)) + s
}.

Lemma counted_refl db : counted 0 0 0 0 0 db db.
Proof. split; lia. Qed.

Lemma counted_same db db' : orders_paper db' = orders_paper db -> positions db' = positions db ->
  account_snapshots db' = account_snapshots db -> counted 0 0 0 0 0 db db'.
Proof. intros Ho Hp Hs. split; unfold orders_in, closes; rewrite ?Ho, ?Hp, ?Hs; lia. Qed.

Lemma counted_trans f c x k s f' c' x' k' s' db1 db2 db3 :
  counted f c x k s db1 db2 -> counted f' c' x' k' s' db2 db3 ->
  counted (f + f') (c + c') (x + x') (k + k') (s + s') db1 db3.
Proof. intros [] []. split; lia. Qed.

Lemma counted_eq f c x k s f' c' x' k' s' db db' : counted f c x k s db db' ->
  f' = f -> c' = c -> x' = x -> k' = k -> s' = s -> counted f' c' x' k' s' db db'.
Proof. by intros ? -> -> -> -> ->. Qed.

(** Deciding the statuses of rows that are known. *)
Ltac statuses :=
  unfold in_status; cbn; repeat case_bool_decide; try discriminate; try contradiction; cbn.

Section Report.
Context `{PlatformOk}.

(** ** The operations of the broker *)

Lemma ended_orders (id : Z) (f : PaperOrderRow -> PaperOrderRow) (o : PaperOrderRow) (db : DB) (st : PaperOrderStatus) :
  ledger_inv db -> get_order id db = Some o -> o_status o = PENDING -> o_status (f o) <> PENDING ->
  orders_in st (update_order id f db) =
    orders_in st db - (if bool_decide (st = PENDING) then 1 else 0) + Z.b2z (in_status st (f o)).
Proof.
  intros Hi [Hin <-]%get_order_Some Hp Hf. unfold orders_in, update_order. cbn [orders_paper set_orders_paper].
  rewrite (count_update o_id (fun o => stored_order (f o)) _ _ o) by (done || apply Hi).
  change (in_status st (stored_order (f o))) with (in_status st (f o)).
  replace (Z.b2z (in_status st o)) with (if bool_decide (st = PENDING) then 1 else 0); [done|].
  unfold in_status. rewrite Hp. destruct st; reflexivity.
Qed.

Lemma cancel_counted id lb db : ledger_inv db ->
  let '(r, _, db') := cancel_pending id lb db in
  counted 0 (match r with Some _ => 1 | None => 0 end) 0 0 0 db db'.
Proof.
  intros Hi. unfold cancel_pending. destruct (get_order id db) as [o|] eqn:Eo; [|apply counted_refl].
  destruct (is_pending o) eqn:Ep; [|apply counted_refl]. apply is_pending_true in Ep. cbn [negb].
  pose proof (fun st => ended_orders id mark_cancelled o db st Hi Eo Ep ltac:(done)) as Hc.
  split; [rewrite Hc; statuses; lia..| | | |]; unfold closes, update_order; cbn [positions account_snapshots set_orders_paper]; lia.
Qed.

Lemma fill_counted id price ts lb db r lb' db' : ledger_inv db -> in_sync lb db ->
  fill_pending id price ts lb db = Ok (r, lb', db') ->
  counted (match r with Some _ => 1 | None => 0 end) 0 0 0 0 db db'.
Proof.
  intros Hi Hs Hf. unfold fill_pending in Hf. destruct (get_order id db) as [o|] eqn:Eo; [|simplify_eq; apply counted_refl].
  destruct (is_pending o) eqn:Ep; cbn [negb] in Hf; [|simplify_eq; apply counted_refl]. apply is_pending_true in Ep.
  destruct (open_for _ _); [simplify_eq; apply counted_refl|].
  destruct (open_for _ _) as [pos|]; [|simplify_eq; apply counted_refl]. cbn [new_uuid] in Hf.
  apply res_bind_ok in Hf as (db2 & Hsv & Hf). unfold save_position in Hsv. destruct (_ && _); [done|].
  injection Hsv as <-. injection Hf as <- _ <-.
  assert (Hi' : ledger_inv (set_uuids (S (uuids db)) db)) by (apply (ledger_inv_ext db); [done|done|cbn; lia|done]).
  pose proof (fun st => ended_orders id (mark_filled pos ts) o (set_uuids (S (uuids db)) db) st Hi' Eo Ep ltac:(done)) as Hc.
  unfold orders_in, closes in *. cbn [orders_paper positions account_snapshots set_positions set_uuids] in *.
  assert (Hnew : forall b, count (closed_for b) [stored_position (position_row (uuid4 (uuids db)) id (db_now db) pos)] = 0)
    by reflexivity.
  split; unfold orders_in, closes; cbn [orders_paper positions account_snapshots set_positions];
    rewrite ?Hc, ?count_app, ?Hnew, ?length_app.
  all: statuses; lia.
Qed.

(** A close is counted by its reason. *)
Lemma trade_counted r lb db : ledger_inv db -> in_sync lb db -> exit_shape r (lb_paper lb) ->
  counted 0 0 (match r.1 with Some t => Z.b2z (negb (bool_decide (t_exit_reason t = EXIT_SIGNAL))) | None => 0 end)
              (match r.1 with Some t => Z.b2z (bool_decide (t_exit_reason t = EXIT_SIGNAL)) | None => 0 end) 0
          db (persist_trade r lb db).2.
Proof.
  intros Hi Hs Hr. destruct r as [[t|] paper]; [|apply counted_refl]. unfold exit_shape in Hr. cbn [fst] in Hr.
  destruct Hr as [[pos Hpos] _].
  assert (Hin : t_symbol t ∈ map p_symbol (list_open_positions db)).
  { rewrite <- (sync_open _ _ Hs). apply open_for_Some in Hpos as [Hp Hsym]. rewrite <- Hsym. by apply list_elem_of_fmap_2. }
  destruct (get_open_row _ _ Hi Hin) as (p & Hp & _ & Hpin & Hopen & _).
  unfold persist_trade, _persist_close. cbn [snd]. rewrite Hp.
  assert (Hc : forall b, closes b (update_position (p_id p) (mark_closed t (db_now db)) db) =
            closes b db + Z.b2z (eqb (bool_decide (t_exit_reason t = EXIT_SIGNAL)) b)).
  { intros b. unfold closes, update_position. cbn [positions set_positions].
    rewrite (count_update p_id (fun p => stored_position (mark_closed t (db_now db) p)) _ _ p) by (done || apply Hi).
    assert (H1 : closed_for b p = false) by (unfold closed_for; by rewrite Hopen).
    assert (H2 : closed_for b (stored_position (mark_closed t (db_now db) p)) = eqb (bool_decide (t_exit_reason t = EXIT_SIGNAL)) b).
    { unfold closed_for. cbn [p_status p_exit_reason stored_position mark_closed]. rewrite bool_decide_true by done. cbn [andb].
      rewrite (bool_decide_ext _ (t_exit_reason t = EXIT_SIGNAL)); [done|]. split; [congruence|by intros ->]. }
    rewrite H1, H2. cbn. lia. }
  split; rewrite ?Hc; unfold orders_in, update_position; cbn [orders_paper positions account_snapshots set_positions fst];
    rewrite ?length_map; try lia; by destruct (bool_decide _).
Qed.

Lemma exit_counted sym close ts lb db : ledger_inv db -> in_sync lb db ->
  let '(t, _, db') := lb_evaluate_exit sym close ts lb db in
  counted 0 0 (match t with Some _ => 1 | None => 0 end) 0 0 db db'.
Proof.
  intros Hi Hs. unfold lb_evaluate_exit.
  pose proof (trade_counted _ lb db Hi Hs (evaluate_exit_shape sym close ts (lb_paper lb))) as Hc.
  assert (Hr : match (evaluate_exit sym close ts (lb_paper lb)).1 with Some t => t_exit_reason t <> EXIT_SIGNAL | None => True end).
  { assert (Hx : forall pos p sl tp x rr, exit_price_for pos p sl tp = (x, rr, true) -> rr <> EXIT_SIGNAL)
      by (intros pos p sl tp x rr; unfold exit_price_for; repeat case_match; intros E; simplify_eq; discriminate).
    unfold evaluate_exit. destruct (open_for _ _) as [pos|]; [|done].
    destruct (exit_price_for _ _ _ _) as [[x rr] []] eqn:E; [by apply Hx in E|done]. }
  destruct (evaluate_exit sym close ts (lb_paper lb)) as [[t|] paper]; unfold persist_trade in *; cbn [fst snd] in *.
  - by rewrite bool_decide_false in Hc by done.
  - done.
Qed.

Lemma signal_counted sym price ts lb db : ledger_inv db -> in_sync lb db ->
  let '(t, _, db') := lb_close_on_signal sym price ts lb db in
  counted 0 0 0 (match t with Some _ => 1 | None => 0 end) 0 db db'.
Proof.
  intros Hi Hs. unfold lb_close_on_signal.
  pose proof (trade_counted _ lb db Hi Hs (close_on_signal_shape sym price ts (lb_paper lb))) as Hc.
  assert (Hr : match (close_on_signal sym price ts (lb_paper lb)).1 with Some t => t_exit_reason t = EXIT_SIGNAL | None => True end)
    by (unfold close_on_signal; by destruct (open_for _ _)).
  destruct (close_on_signal sym price ts (lb_paper lb)) as [[t|] paper]; unfold persist_trade in *; cbn [fst snd] in *.
  - by rewrite Hr in Hc.
  - done.
Qed.
(** ** Bars *)

Lemma fill_then bar id lb db nf ns nf' ns' lb' db' : ledger_inv db -> in_sync lb db ->
  (r <-- fill_pending id (bar_open bar) (bar_ts bar) lb db ;;
   let '(row, lb, db) := r in Ok (lb, db, (match row with Some _ => nf + 1 | None => nf end, ns))) = Ok (lb', db', (nf', ns')) ->
  ledger_inv db' /\ in_sync lb' db' /\ counted (nf' - nf) (ns' - ns) 0 0 0 db db'.
Proof.
  intros Hi Hs Hf. destruct (fill_step id (bar_open bar) (bar_ts bar) lb db Hi Hs) as (r & lb1 & db1 & Hr & Hi1 & Hs1 & _).
  rewrite Hr in Hf. cbn [res_bind] in Hf. pose proof (fill_counted _ _ _ _ _ _ _ _ Hi Hs Hr) as Hc. simplify_eq.
  split; [done|]. split; [done|]. eapply counted_eq; [exact Hc| | | | |]; destruct r; lia.
Qed.

Lemma act_counted sym bar lb db nf ns ca lb' db' nf' ns' : ledger_inv db -> in_sync lb db ->
  act sym bar (lb, db, (nf, ns)) ca = Ok (lb', db', (nf', ns')) ->
  ledger_inv db' /\ in_sync lb' db' /\ exists k, 0 <= k /\ counted (nf' - nf) (ns' - ns) 0 k 0 db db'.
Proof.
  intros Hi Hs. destruct ca as [cand action]. unfold act. set (id := o_id (cand_order cand)). destruct action.
  - intros Hf. apply fill_then in Hf as (H1 & H2 & H3); [|done..]. split; [done|]. split; [done|]. by exists 0.
  - pose proof (signal_counted sym (bar_open bar) (bar_ts bar) lb db Hi Hs) as Hc.
    pose proof (persist_trade_step _ lb db (close_on_signal_shape sym (bar_open bar) (bar_ts bar) (lb_paper lb)) Hi Hs) as Hp.
    unfold lb_close_on_signal in *. destruct (persist_trade _ lb db) as [[t lb1] db1]. destruct Hp as (Hi1 & Hs1 & _).
    intros Hf. apply fill_then in Hf as (H1 & H2 & H3); [|done..]. split; [done|]. split; [done|].
    exists (match t with Some _ => 1 | None => 0 end). split; [by destruct t|].
    eapply counted_eq; [eapply counted_trans; [exact Hc|exact H3]|lia..].
  - pose proof (cancel_counted id lb db Hi) as Hc. pose proof (cancel_step id lb db Hi Hs) as Hst.
    destruct (cancel_pending id lb db) as [[c lb1] db1]. destruct Hst as (Hi1 & Hs1 & _). intros Hf. simplify_eq.
    split; [done|]. split; [done|]. exists 0. split; [done|]. eapply counted_eq; [exact Hc|destruct c; lia..].
Qed.

Lemma acts_counted sym bar l : forall lb db nf ns lb' db' nf' ns', ledger_inv db -> in_sync lb db ->
  fold_res (act sym bar) l (lb, db, (nf, ns)) = Ok (lb', db', (nf', ns')) ->
  ledger_inv db' /\ in_sync lb' db' /\ exists k, 0 <= k /\ counted (nf' - nf) (ns' - ns) 0 k 0 db db'.
Proof.
  induction l as [|ca l IH]; intros lb db nf ns lb' db' nf' ns' Hi Hs; cbn [fold_res].
  { intros [= <- <- <- <-]. split; [done|]. split; [done|]. exists 0. split; [done|]. eapply counted_eq; [apply counted_refl|lia..]. }
  intros ([[lb1 db1] [nf1 ns1]] & Ha & Hl)%res_bind_ok. apply act_counted in Ha as (Hi1 & Hs1 & k1 & Hk1 & Hc1); [|done..].
  apply IH in Hl as (Hi2 & Hs2 & k2 & Hk2 & Hc2); [|done..]. split; [done|]. split; [done|]. exists (k1 + k2). split; [lia|].
  eapply counted_eq; [eapply counted_trans; [exact Hc1|exact Hc2]|lia..].
Qed.

Definition written (b : bool) : Z := if b then 1 else 0.

Lemma bar_counted interval symbol tf bar cands lb db r lb' db' : ledger_inv db ->
  process_unit_bar interval symbol tf bar cands lb db = Ok (r, lb', db') ->
  ledger_inv db' /\ exists k, 0 <= k /\ counted (filled r) (superseded r) (exits r) k (written (snapshot_written r)) db db'.
Proof.
  intros Hi. unfold process_unit_bar. set (lb0 := restore_state lb db). pose proof (restore_sync lb db) as Hs. fold lb0 in Hs. clearbody lb0.
  intros ([[lb1 db1] [nf ns]] & Ha & Hr)%res_bind_ok. apply acts_counted in Ha as (Hi1 & Hs1 & k & Hk & Hc1); [|done..].
  pose proof (exit_counted (str_upper symbol) (bar_close bar) (bar_ts bar) lb1 db1 Hi1 Hs1) as Hc2.
  pose proof (persist_trade_step _ lb1 db1 (evaluate_exit_shape (str_upper symbol) (bar_close bar) (bar_ts bar) (lb_paper lb1)) Hi1 Hs1) as Hp.
  unfold lb_evaluate_exit in *. destruct (persist_trade _ lb1 db1) as [[t lb2] db2]. destruct Hp as (Hi2 & _ & _).
  assert (Hc : counted nf ns (match t with Some _ => 1 | None => 0 end) k 0 db db2)
    by (eapply counted_eq; [eapply counted_trans; [exact Hc1|exact Hc2]|lia..]).
  match type of Hr with (let '(_, _) := if ?b then _ else _ in _) = _ => set (snap := b) in *; destruct snap end.
  - destruct (equity_snapshot (bar_ts bar) _ db2) as [lb4 db4] eqn:Esn. unfold equity_snapshot in Esn.
    destruct (broker_state _ _) as [st paper]. injection Esn as _ <-. injection Hr as <- _ <-. cbn [filled superseded exits snapshot_written].
    split; [by apply (ledger_inv_ext db2)|]. exists k. split; [done|]. destruct Hc as [C1 C2 C3 C4 C5 C6 C7].
    split; try done. cbn. rewrite length_app. cbn. lia.
  - injection Hr as <- _ <-. split; [done|]. by exists k.
Qed.
(** ** Units *)

Lemma cancels_counted ids : forall n lb db, ledger_inv db -> in_sync lb db ->
  let '(n', lb', db') := cancel_all ids (n, lb, db) in counted 0 (n' - n) 0 0 0 db db'.
Proof.
  induction ids as [|id ids IH]; intros n lb db Hi Hs.
  { eapply counted_eq; [apply counted_refl|lia..]. }
  unfold cancel_all. cbn [foldl]. pose proof (cancel_counted id lb db Hi) as Hc. pose proof (cancel_step id lb db Hi Hs) as Hst.
  destruct (cancel_pending id lb db) as [[c lb1] db1]. destruct Hst as (Hi1 & Hs1 & _).
  specialize (IH (match c with Some _ => n + 1 | None => n end) lb1 db1 Hi1 Hs1). unfold cancel_all in IH.
  destruct (foldl _ _ ids) as [[n' lb'] db']. eapply counted_eq; [eapply counted_trans; [exact Hc|exact IH]|destruct c; lia..].
Qed.

(** Distinct pending orders are all cancelled. *)
Lemma cancels_all_of ids : forall n lb db, NoDup ids ->
  (forall id, id ∈ ids -> exists o, get_order id db = Some o /\ o_status o = PENDING) ->
  (cancel_all ids (n, lb, db)).1.1 = n + Z.of_nat (length ids).
Proof.
  assert (Hother : forall (db : DB) id id', id <> id' -> get_order id' (update_order id mark_cancelled db) = get_order id' db).
  { intros db id id' Hne. unfold get_order, update_order. cbn [orders_paper set_orders_paper].
    induction (orders_paper db) as [|o l IH]; [done|]. cbn [map List.find].
    destruct (Z.eqb_spec (o_id o) id) as [E|]; cbn [o_id stored_order mark_cancelled]; [|by rewrite IH].
    destruct (Z.eqb_spec (o_id o) id'); [congruence|done]. }
  induction ids as [|id ids IH]; intros n lb db Hn Hp; [cbn; lia|]. unfold cancel_all. cbn [foldl].
  apply NoDup_cons in Hn as [Hnin Hn]. destruct (Hp id) as (o & Ho & Hst); [by left|].
  unfold cancel_pending at 2. rewrite Ho. apply is_pending_true in Hst. rewrite Hst. cbn [negb].
  fold (cancel_all ids (n + 1, set_pending (drop_pending id (lb_pending lb)) lb, update_order id mark_cancelled db)).
  rewrite IH; [cbn [length]; lia|done|]. intros id' Hid'. rewrite Hother by congruence. apply Hp. by right.
Qed.

Lemma window_counted interval symbol tf cands candles window : forall acc lb saved work p db',
  ledger_inv work -> (window = [] -> saved = work) ->
  process_window interval symbol tf cands candles window acc lb saved work = (Ok p, db') ->
  un_cancelled p = un_cancelled acc /\ exists k, 0 <= k /\
  counted (un_fills p - un_fills acc) (un_superseded p - un_superseded acc) (un_exits p - un_exits acc) k
          (un_snapshots p - un_snapshots acc) work db'.
Proof.
  induction window as [|t window IH]; intros acc lb saved work p db' Hi Hsv; cbn [process_window].
  { intros [= <- <-]. rewrite Hsv by done. split; [done|]. exists 0. split; [done|]. eapply counted_eq; [apply counted_refl|lia..]. }
  destruct (bar <-- dindex t candles ;; process_unit_bar interval symbol tf bar cands lb work) as [[[r lb1] db1]|e] eqn:E; [|done].
  apply res_bind_ok in E as (bar & _ & E). apply bar_counted in E as (Hi1 & k1 & Hk1 & Hc1); [|done]. intros Hw.
  apply IH in Hw as (Hcan & k2 & Hk2 & Hc2); [|done|done]. split; [by rewrite Hcan|]. exists (k1 + k2). split; [lia|].
  eapply counted_eq; [eapply counted_trans; [exact Hc1|exact Hc2]|unfold pass_bar, written; cbn; try lia..].
Qed.

Lemma unit_counted fresh symbol tf max_bars interval db : ledger_inv db ->
  let '(r, db') := _process_unit (Some fresh) symbol tf max_bars interval db in
  match r with
  | Ok p => exists k, 0 <= k /\
      counted (un_fills p) (un_superseded p + un_cancelled p) (un_exits p) k (un_snapshots p) db db'
  | Err _ => db' = db
  end.
Proof.
  intros Hi. pose proof (process_unit_spec fresh symbol tf max_bars interval db Hi) as Hspec.
  unfold _process_unit in *. destruct (pending_candidates db) as [all|e] eqn:Ec; [|done].
  set (cands := List.filter (of_unit symbol tf) all) in *. set (lb := restore_state fresh db) in *.
  assert (Hnone : forall c, c = 0 -> exists k, 0 <= k /\ counted (un_fills (pass0 c 0)) (un_superseded (pass0 c 0) + un_cancelled (pass0 c 0))
      (un_exits (pass0 c 0)) k (un_snapshots (pass0 c 0)) db db).
  { intros c ->. exists 0. split; [done|]. eapply counted_eq; [apply counted_refl|done..]. }
  pose proof (instrument_ledger symbol db) as Hins.
  assert (Hsn : account_snapshots (get_or_create_instrument symbol db).2 = account_snapshots db)
    by (unfold get_or_create_instrument; by destruct (find_instrument _ db)).
  destruct (get_or_create_instrument symbol db) as [ins db1]. destruct Hins as (Ho1 & Hp1 & _ & Hu1 & _). cbn [snd] in Hsn.
  destruct (last_closed_ts (ins_id ins) tf db1) as [lc|]; [|by apply Hnone]. cbv zeta in *.
  set (cs := candle_dict _) in *. set (doomed := missing_bar_candidates cands cs.*1 lc) in *.
  assert (Hi1 : ledger_inv db1) by by apply (ledger_inv_ext db).
  assert (Hs1 : in_sync lb db1) by (apply (in_sync_ext lb lb db db1); [done..|apply restore_sync]).
  pose proof (cancels_counted (map (fun c => o_id (cand_order c)) doomed) 0 lb db1 Hi1 Hs1) as Hcan.
  pose proof (cancel_all_spec (map (fun c => o_id (cand_order c)) doomed) 0 lb db1 Hi1 Hs1) as Hcs.
  destruct (cancel_all (map (fun c => o_id (cand_order c)) doomed) (0, lb, db1)) as [[cancelled lb2] db2] eqn:Ecan.
  destruct Hcs as (Hi2 & _).
  assert (Hc2 : counted 0 cancelled 0 0 0 db db2)
    by (eapply counted_eq; [eapply counted_trans; [by apply counted_same|exact Hcan]|lia..]).
  set (current := lb_open_for symbol lb) in *.
  destruct (_outstanding_stamps cands cs current) as [|t0 ts0].
  - destruct doomed; [|exists 0; split; [done|eapply counted_eq; [exact Hc2|cbn; lia..]]].
    injection Ecan as <- <- <-. by apply Hnone.
  - pose proof (catchup_window_spec (t0 :: ts0) max_bars) as Hw.
    destruct (catchup_window (t0 :: ts0) max_bars) as [window depth]. destruct Hw as (_ & _ & _ & Hne & _).
    destruct (process_window interval symbol tf cands cs window (pass0 cancelled depth) lb2 _ db2) as [[p|e] db'] eqn:Ew.
    + apply window_counted in Ew as (Hcn & k & Hk & Hc); [|done|intros ->; by destruct (Hne ltac:(done))].
      exists k. split; [done|]. rewrite Hcn. eapply counted_eq; [eapply counted_trans; [exact Hc2|exact Hc]|cbn; lia..].
    + by destruct Hspec as (_ & _ & Hspec & _).
Qed.
(** ** Cycles *)

Lemma expiry_counted fresh now db : ledger_inv db ->
  let '(n, db') := _cancel_expired_pending (Some fresh) now db in counted 0 n 0 0 0 db db'.
Proof.
  intros Hi. unfold _cancel_expired_pending. set (l := list_pending_expired now db). set (lb := restore_state fresh db).
  pose proof (cancels_counted (map o_id l) 0 lb db Hi (restore_sync fresh db)) as Hc.
  assert (Hl : forall o, o ∈ l -> o ∈ orders_paper db /\ o_status o = PENDING).
  { intros o Ho. apply elem_of_sort_by, list_elem_of_In, List.filter_In in Ho as [Ho Hb].
    apply andb_prop in Hb as [Hb _]. split; [by apply list_elem_of_In|by apply is_pending_true]. }
  assert (Hnd : NoDup (map o_id l)).
  { unfold l, list_pending_expired. rewrite (sort_by_perm order_leb _). apply NoDup_map_filter, Hi. }
  pose proof (cancels_all_of (map o_id l) 0 lb db Hnd) as Hn.
  destruct (cancel_all (map o_id l) (0, lb, db)) as [[n lb'] db']. cbn [fst] in Hn.
  eapply counted_eq; [exact Hc|done| |done..]. rewrite Hn, length_map; [lia|].
  intros id (o & -> & Ho)%list_elem_of_fmap. apply Hl in Ho as [Ho Hp].
  destruct (evolved_order db db o Hi (evolves_refl db) Ho) as (o' & Ho' & _). exists o'. split; [done|].
  apply get_order_Some in Ho' as [Hin Hid]. by rewrite (unique_by o_id (orders_paper db) o' o (inv_order_ids _ Hi) Hin Ho Hid).
Qed.

Lemma units_counted worker_now accepts fresh why max_bars interval us : forall r db es, ledger_inv db ->
  let '(r', db', _) := foldl (cycle_unit worker_now accepts (Some fresh) why max_bars interval) (r, db, es) us in
  lr_expired r' = lr_expired r /\ exists k, 0 <= k /\
  counted (lr_fills r' - lr_fills r) (lr_superseded r' + lr_cancelled_missing r' - lr_superseded r - lr_cancelled_missing r)
          (lr_exits r' - lr_exits r) k (lr_snapshots r' - lr_snapshots r) db db'.
Proof.
  induction us as [|u us IH]; intros r db es Hi; cbn [foldl].
  { split; [done|]. exists 0. split; [done|]. eapply counted_eq; [apply counted_refl|lia..]. }
  pose proof (process_unit_spec fresh u.1 u.2 max_bars interval db Hi) as Hp.
  pose proof (unit_counted fresh u.1 u.2 max_bars interval db Hi) as Hu.
  unfold cycle_unit at 2. destruct (_process_unit _ _ _ _ _ db) as [[p|e] db1]; destruct Hp as (Hi1 & _).
  - destruct Hu as (k1 & Hk1 & Hc1). specialize (IH (add_pass p r) db1 es Hi1). destruct (foldl _ _ us) as [[r' db'] es'].
    destruct IH as (Hx & k2 & Hk2 & Hc2). split; [done|]. exists (k1 + k2). split; [lia|].
    eapply counted_eq; [eapply counted_trans; [exact Hc1|exact Hc2]|unfold add_pass; cbn; lia..].
  - subst db1. match goal with |- context [foldl _ (_, db, ?es1) us] => specialize (IH (add_lifecycle_error r) db es1 Hi1) end.
    destruct (foldl _ _ us) as [[r' db'] es']. exact IH.
Qed.

(** C7: the report of a lifecycle cycle is exact.  On a consistent ledger, however many
    units and bars the cycle works through and whichever of them fail: the orders filled are
    as many as the report says, and each brought one position; the orders cancelled are the
    superseded, the ones without a bar and the expired ones; nothing else left the pending
    orders; and the positions closed at a stop or target and the snapshots are those it
    counts.  Positions closed because an opposite signal filled are counted nowhere. *)
Theorem cycle_report_exact (settings : Settings) (worker_now : Z) (accepts : Event -> bool) (fresh : LedgerBroker)
    (why : PyErr -> string) (now : Z) (db : DB) :
  ledger_inv db ->
  let '(r, db', _) := process_lifecycle settings worker_now accepts (Some fresh) why now db in
  exists r', r = Some r' /\
  orders_in FILLED db' = orders_in FILLED db + lr_fills r' /\
  Z.of_nat (length (positions db')) = Z.of_nat (length (positions db)) + lr_fills r' /\
  orders_in CANCELLED db' = orders_in CANCELLED db + (lr_superseded r' + lr_cancelled_missing r' + lr_expired r') /\
  orders_in PENDING db' =
    orders_in PENDING db - lr_fills r' - (lr_superseded r' + lr_cancelled_missing r' + lr_expired r') /\
  closes false db' = closes false db + lr_exits r' /\
  closes true db <= closes true db' /\
  Z.of_nat (length (account_snapshots db')) = Z.of_nat (length (account_snapshots db)) + lr_snapshots r'.
Proof.
  intros Hi. unfold process_lifecycle. rewrite (reconcile_sync _ _ (restore_sync fresh db)). cbn [negb].
  destruct (pending_candidates db) as [all|e]; [|exists lifecycle_start; cbn; split_and!; lia || done].
  set (mb := Z.max 1 _). set (iv := paper_snapshot_interval_seconds settings).
  pose proof (cycle_units_spec worker_now accepts fresh why mb iv (unit_list all db) lifecycle_start db [] Hi) as Hu.
  pose proof (units_counted worker_now accepts fresh why mb iv (unit_list all db) lifecycle_start db [] Hi) as Hc.
  destruct (foldl _ _ _) as [[r db1] es]. destruct Hu as (Hi1 & _), Hc as (_ & k & Hk & Hc).
  pose proof (expiry_counted fresh now db1 Hi1) as Hx. destruct (_cancel_expired_pending _ now db1) as [n db2].
  destruct (counted_trans _ _ _ _ _ _ _ _ _ _ _ _ _ Hc Hx) as [C1 C2 C3 C4 C5 C6 C7]. cbn in C1, C2, C3, C4, C5, C6, C7.
  exists (set_expired n r). cbn. split_and!; lia || done.
Qed.
End Report.

(** ** Concrete cycles *)

Lemma cycle_report_exact_witness :
  orders_in FILLED demo_traded = 0 /\ exists r db' es, demo_cycle = (Some r, db', es) /\ lr_fills r = 1 /\
  orders_in FILLED db' = orders_in FILLED demo_traded + lr_fills r.
Proof.
  split; [vm_compute; reflexivity|].
  pose proof (@cycle_report_exact demo_platform demo_platform_ok demo_settings 0 (fun _ => true) demo_lb no_text 0 demo_traded
    demo_traded_inv) as H.
  assert (Hf : match demo_cycle.1.1 with Some r => lr_fills r | None => 0 end = 1) by (vm_compute; reflexivity).
  destruct demo_cycle as [[r db'] es]. destruct H as (r' & -> & H & _). exists r', db', es. exact (conj eq_refl (conj Hf H)).
Defined.

(** The ledger after that cycle, with a decision the other way, its order and the bar after. *)
Definition opposite_decision (d : DecisionRow) : DecisionRow :=
  {| dr_id := -1; dr_run_id := dr_run_id d; dr_symbol := dr_symbol d; dr_timeframe := dr_timeframe d;
     dr_bucket_ts := dr_bucket_ts d + 3600000000; dr_fused_direction := SHORT; dr_confidence := dr_confidence d;
     dr_agreement := dr_agreement d; dr_status := dr_status d; dr_veto := dr_veto d; dr_inputs_hash := dr_inputs_hash d;
     dr_weights := dr_weights d; dr_code_versions := dr_code_versions d; dr_decision_at := dr_decision_at d;
     dr_valid_until := dr_valid_until d |}.
Definition opposite_order (o : PaperOrderRow) : PaperOrderRow :=
  {| o_id := -2; o_decision_id := Some (-1); o_symbol := o_symbol o; o_timeframe := o_timeframe o; o_side := SHORT;
     o_status := PENDING; o_units := o_units o; o_requested_price := o_requested_price o; o_filled_price := None;
     o_costs := o_costs o; o_stop_loss := o_take_profit o; o_take_profit := o_stop_loss o; o_seed := o_seed o;
     o_filled_at := None; o_created_at := o_created_at o |}.
Definition demo_reversal (db : DB) : DB :=
  let bars := map (fun r => @candle_row demo_platform (cd_instrument r) "H1" "synthetic" 60 7200000000 (sample_candle 0 110))
                  (firstn 1 (candles db)) in
  set_candles (candles db ++ bars)
    (set_decisions (decisions db ++ map opposite_decision (decisions db))
       (set_orders_paper (orders_paper db ++ map opposite_order (orders_paper db)) db)).

(** An opposite signal fills and closes the open position: one fill reported, no exit. *)
Example signal_close_unreported :
  let db := demo_reversal demo_cycle.1.2 in
  let '(r, db', _) := @process_lifecycle demo_platform demo_settings 0 (fun _ => true) (Some demo_lb) no_text 0 db in
  option_map (fun r => (lr_fills r, lr_exits r, lr_errors r)) r = Some (1, 0, 0) /\
  closes true db' = closes true db + 1 /\ map p_exit_reason (list_closed_positions db') = [Some "signal"%string].
Proof. vm_compute. auto. Qed.
