(* ===== verification/Metrics.v ===== *)
(** * The metrics of the processes ([app/core/metrics.py], [app/monitor/worker_metrics.py])

    The collectors of core/metrics.py are made when the module is imported, in the default
    registry of the process that imports it; each worker also makes four of its own in a
    registry it then serves.  The API serves its default registry.  prometheus_client is the
    class [Prometheus]. *)

From Stdlib Require Import ZArith Lia Sorted.
From stdpp Require Import base list strings.
From S2P Require Import Prelude PyFloat Timeframes Tables Runtime.

Open Scope Z_scope.

(** ** The collectors *)

Inductive Kind := Counter | Gauge | Histogram.

(** The upper bounds of the buckets in thousandths. *)
Record Collector := { mc_kind : Kind; mc_name : string; mc_labels : list string; mc_buckets : list Z }.

Definition counter name labels : Collector :=
  {| mc_kind := Counter; mc_name := name; mc_labels := labels; mc_buckets := [] |}.
Definition gauge name labels : Collector :=
  {| mc_kind := Gauge; mc_name := name; mc_labels := labels; mc_buckets := [] |}.
Definition histogram name labels buckets : Collector :=
  {| mc_kind := Histogram; mc_name := name; mc_labels := labels; mc_buckets := buckets |}.

Section Collectors.
Local Open Scope string_scope.

Definition REQUEST_COUNT : Collector := counter "http_requests_total" ["method"; "path"; "status"].
Definition REQUEST_LATENCY : Collector := histogram "http_request_latency_seconds" ["method"; "path"]
  [5; 10; 25; 50; 100; 250; 500; 1000; 2500; 5000; 10000].
Definition AGENT_BAR_LATENCY : Collector := histogram "agent_bar_latency_seconds" ["agent"]
  [1; 5; 10; 25; 50; 100; 250; 500; 1000; 2000].
Definition AGENT_SIGNALS_TOTAL : Collector := counter "agent_signals_total" ["agent"; "outcome"].
Definition AGENT_SIGNALS_STORED : Collector := counter "agent_signals_stored_total" [].
Definition AGENT_BARS_SKIPPED_STALE : Collector := counter "agent_bars_skipped_stale_total" [].
Definition ORCH_CYCLE_COUNT : Collector := counter "orch_cycles_total" ["outcome"].
Definition ORCH_DECISIONS_TOTAL : Collector := counter "orch_decisions_total" ["status"].
Definition ORCH_DECISIONS_REPLAYED : Collector := counter "orch_decisions_replayed_total" [].
Definition ORCH_DECISION_LATENCY : Collector := histogram "orch_decision_latency_seconds" []
  [5; 10; 25; 50; 100; 250; 500; 1000; 2000].
Definition RISK_BLOCKED_TOTAL : Collector := counter "risk_blocked_total" ["gate"].
Definition RISK_PAPER_TOTAL : Collector := counter "risk_paper_total" [].
Definition WORKER_UP : Collector := gauge "worker_up" ["role"].
Definition WORKER_HEARTBEAT_AGE_SECONDS : Collector := gauge "worker_heartbeat_age_seconds" ["role"].
Definition STALENESS_BREACH_COUNT : Collector := gauge "staleness_breach_count" [].
Definition STALENESS_MAX_AGE_SECONDS : Collector := gauge "staleness_max_age_seconds" [].
Definition ALERT_EVENTS_TOTAL : Collector := counter "alert_events_total" ["source"].
Definition ALERTS_PENDING : Collector := gauge "alerts_pending" [].
Definition WS_CONNECTIONS : Collector := gauge "ws_connections_active" [].
Definition WS_CONNECTIONS_TOTAL : Collector := counter "ws_connections_total" [].
Definition WS_MESSAGES_TOTAL : Collector := counter "ws_messages_total" ["topic"].
Definition WS_ERROR_TOTAL : Collector := counter "ws_errors_total" ["reason"].
Definition PAPER_LIFECYCLE_CYCLES_TOTAL : Collector := counter "paper_lifecycle_cycles_total" ["outcome"].
Definition PAPER_LIFECYCLE_ERRORS_TOTAL : Collector := counter "paper_lifecycle_errors_total" [].
Definition PAPER_FILLS_TOTAL : Collector := counter "paper_fills_total" [].
Definition PAPER_EXITS_TOTAL : Collector := counter "paper_exits_total" ["reason"].
Definition PAPER_ORDERS_CANCELLED_TOTAL : Collector := counter "paper_orders_cancelled_total" ["reason"].
Definition PAPER_SNAPSHOTS_TOTAL : Collector := counter "paper_snapshots_total" [].
Definition PAPER_OPEN_POSITIONS : Collector := gauge "paper_open_positions" [].
Definition PAPER_CATCHUP_BAR_BURST : Collector := histogram "paper_catchup_bar_burst" []
  [1000; 2000; 4000; 8000; 16000; 24000; 32000; 48000; 64000; 96000; 128000; 256000].
Definition PAPER_CATCHUP_BOUND_HITS_TOTAL : Collector := counter "paper_catchup_bound_hits_total" [].
Definition PAPER_CATCHUP_DEPTH_REMAINING : Collector := gauge "paper_catchup_depth_remaining" ["symbol"; "timeframe"].
Definition PAPER_RECONCILE_FAILS_TOTAL : Collector := counter "paper_reconcile_fails_total" [].
Definition PAPER_PENDING_EXPIRED_TOTAL : Collector := counter "paper_pending_expired_total" [].
Definition PAPER_GATE_USED_PCT : Collector := histogram "paper_gate_used_pct" ["gate"]
  [0; 50; 100; 200; 300; 500; 700; 850; 1000].

(** [WorkerMetrics.__init__]. *)
Definition worker_collectors : list Collector :=
  [gauge "forex_worker_up" ["worker"]; gauge "forex_worker_heartbeat_timestamp_seconds" ["worker"];
   counter "forex_worker_cycles_total" ["worker"]; counter "forex_worker_errors_total" ["worker"]].
End Collectors.

(** In the order of the module. *)
Definition core_collectors : list Collector :=
  [REQUEST_COUNT; REQUEST_LATENCY; AGENT_BAR_LATENCY; AGENT_SIGNALS_TOTAL; AGENT_SIGNALS_STORED;
   AGENT_BARS_SKIPPED_STALE; ORCH_CYCLE_COUNT; ORCH_DECISIONS_TOTAL; ORCH_DECISIONS_REPLAYED;
   ORCH_DECISION_LATENCY; RISK_BLOCKED_TOTAL; RISK_PAPER_TOTAL; WORKER_UP; WORKER_HEARTBEAT_AGE_SECONDS;
   STALENESS_BREACH_COUNT; STALENESS_MAX_AGE_SECONDS; ALERT_EVENTS_TOTAL; ALERTS_PENDING; WS_CONNECTIONS;
   WS_CONNECTIONS_TOTAL; WS_MESSAGES_TOTAL; WS_ERROR_TOTAL; PAPER_LIFECYCLE_CYCLES_TOTAL;
   PAPER_LIFECYCLE_ERRORS_TOTAL; PAPER_FILLS_TOTAL; PAPER_EXITS_TOTAL; PAPER_ORDERS_CANCELLED_TOTAL;
   PAPER_SNAPSHOTS_TOTAL; PAPER_OPEN_POSITIONS; PAPER_CATCHUP_BAR_BURST; PAPER_CATCHUP_BOUND_HITS_TOTAL;
   PAPER_CATCHUP_DEPTH_REMAINING; PAPER_RECONCILE_FAILS_TOTAL; PAPER_PENDING_EXPIRED_TOTAL; PAPER_GATE_USED_PCT].

(** ** Where they are recorded *)

(** The process, the collector and the label names given at the call. *)
Record Emission := { em_process : string; em_collector : Collector; em_labels : list string }.
Definition emits (process : string) (c : Collector) (labels : list string) : Emission :=
  {| em_process := process; em_collector := c; em_labels := labels |}.

Section Emissions.
Local Open Scope string_scope.

(** [MetricsMiddleware.dispatch]. *)
Definition request_emissions : list Emission :=
  [emits "api" REQUEST_LATENCY ["method"; "path"]; emits "api" REQUEST_LATENCY ["method"; "path"];
   emits "api" REQUEST_COUNT ["method"; "path"; "status"]].

(** [_refresh_runtime_gauges]. *)
Definition gauge_emissions : list Emission :=
  [emits "api" WORKER_UP ["role"]; emits "api" WORKER_HEARTBEAT_AGE_SECONDS ["role"];
   emits "api" STALENESS_BREACH_COUNT []; emits "api" STALENESS_MAX_AGE_SECONDS []].

(** [stream] of the realtime router. *)
Definition socket_emissions : list Emission :=
  [emits "api" WS_CONNECTIONS []; emits "api" WS_CONNECTIONS_TOTAL []; emits "api" WS_MESSAGES_TOTAL ["topic"];
   emits "api" WS_ERROR_TOTAL ["reason"]].

(** [list_alerts]. *)
Definition alert_list_emissions : list Emission := [emits "api" ALERTS_PENDING []].

(** [AlertWorker.poll_once]. *)
Definition alert_emissions : list Emission := [emits "alerts" ALERT_EVENTS_TOTAL ["source"]].

(** [AgentWorker.poll_once] and [process_bar]. *)
Definition agent_poll_emissions : list Emission := [emits "agents" AGENT_BARS_SKIPPED_STALE []].
Definition agent_bar_emissions : list Emission :=
  [emits "agents" AGENT_BAR_LATENCY ["agent"]; emits "agents" AGENT_SIGNALS_STORED [];
   emits "agents" AGENT_SIGNALS_TOTAL ["agent"; "outcome"]].

(** [PaperLifecycle.process_unit_bar]. *)
Definition bar_emissions : list Emission :=
  [emits "orchestrator" PAPER_ORDERS_CANCELLED_TOTAL ["reason"]; emits "orchestrator" PAPER_FILLS_TOTAL [];
   emits "orchestrator" PAPER_EXITS_TOTAL ["reason"]; emits "orchestrator" PAPER_SNAPSHOTS_TOTAL []].

(** [build_ledger_gate]. *)
Definition gate_emissions : list Emission := [emits "orchestrator" PAPER_GATE_USED_PCT ["gate"]].

(** [DecisionEngine.decide]. *)
Definition engine_emissions : list Emission :=
  [emits "orchestrator" ORCH_DECISIONS_TOTAL ["status"]; emits "orchestrator" RISK_BLOCKED_TOTAL ["gate"]].

(** [OrchestratorWorker]: [process_pair], [poll_once], [scan_once], [process_lifecycle],
    [_process_unit], [_cancel_expired_pending]. *)
Definition orchestrator_emissions : list Emission :=
  [emits "orchestrator" ORCH_DECISION_LATENCY []; emits "orchestrator" ORCH_DECISIONS_REPLAYED [];
   emits "orchestrator" ORCH_CYCLE_COUNT ["outcome"]].
Definition lifecycle_emissions : list Emission :=
  [emits "orchestrator" PAPER_RECONCILE_FAILS_TOTAL []; emits "orchestrator" PAPER_LIFECYCLE_CYCLES_TOTAL ["outcome"];
   emits "orchestrator" PAPER_LIFECYCLE_ERRORS_TOTAL []; emits "orchestrator" PAPER_CATCHUP_BAR_BURST [];
   emits "orchestrator" PAPER_OPEN_POSITIONS []].
Definition unit_emissions : list Emission :=
  [emits "orchestrator" PAPER_ORDERS_CANCELLED_TOTAL ["reason"];
   emits "orchestrator" PAPER_CATCHUP_DEPTH_REMAINING ["symbol"; "timeframe"];
   emits "orchestrator" PAPER_CATCHUP_BOUND_HITS_TOTAL []].
Definition expiry_emissions : list Emission := [emits "orchestrator" PAPER_PENDING_EXPIRED_TOTAL []].
End Emissions.

Definition emissions : list Emission :=
  request_emissions ++ gauge_emissions ++ socket_emissions ++ alert_list_emissions ++ alert_emissions ++
  agent_poll_emissions ++ agent_bar_emissions ++ bar_emissions ++ gate_emissions ++ engine_emissions ++
  orchestrator_emissions ++ lifecycle_emissions ++ unit_emissions ++ expiry_emissions.

(** ** The library *)

(** prometheus_client: registries, their collectors, what is recorded (with the values of
    the labels), and the text served for one. *)
Class Prometheus := {
  Registry : Type;
  CollectorRegistry : Registry;
  register : Collector -> Registry -> Registry;
  record : Collector -> list string -> Z -> Registry -> Registry;
  generate_latest : Registry -> string
}.

(** ** Processes *)

Section Processes.
Context `{Prometheus}.

(** Importing the module fills the default registry. *)
Definition import_metrics : Registry := foldl (fun r c => register c r) CollectorRegistry core_collectors.

(** A process: its default registry, [_STARTED], and the servers by port. *)
Record Process := {
  default_registry : Registry;
  started : dict string Registry;
  servers : list (Z * string)
}.
Definition process_start : Process := {| default_registry := import_metrics; started := []; servers := [] |}.

Definition worker_registry : Registry := foldl (fun r c => register c r) CollectorRegistry worker_collectors.

(** [port] is the port of the role. *)
Definition start_worker_metrics (port : string -> Res Z) (worker : string) (p : Process) : Res Process :=
  match dget worker (started p) with
  | Some _ => Ok p
  | None =>
      n <-- port worker ;;
      Ok {| default_registry := default_registry p; started := dset worker worker_registry (started p);
            servers := servers p ++ [(n, worker)] |}
  end.

(** What a process does: record in a collector of the module, or in one of its worker's. *)
Inductive Deed :=
| core_record (c : Collector) (labels : list string) (x : Z)
| worker_record (worker : string) (c : Collector) (labels : list string) (x : Z).

Definition perform (d : Deed) (p : Process) : Process :=
  match d with
  | core_record c labels x =>
      {| default_registry := record c labels x (default_registry p); started := started p; servers := servers p |}
  | worker_record w c labels x =>
      {| default_registry := default_registry p;
         started := match dget w (started p) with
                    | Some r => dset w (record c (w :: labels) x r) (started p)
                    | None => started p
                    end;
         servers := servers p |}
  end.

(** [/metrics] of the API, and the page on a port of a worker. *)
Definition metrics (p : Process) : string := generate_latest (default_registry p).
Definition exporter (p : Process) (port : Z) : option string :=
  match List.find (fun s => s.1 =? port) (servers p) with
  | Some (_, worker) => generate_latest <$> dget worker (started p)
  | None => None
  end.
End Processes.

(** ** What is declared and what is recorded agree *)

(** The names of the series a collector exports. *)
Definition series_names (c : Collector) : list string :=
  (match mc_kind c with
   | Gauge => [mc_name c]
   | Counter => [mc_name c; str_take (Nat.sub (String.length (mc_name c)) 6) (mc_name c) ++ "_created"]
   | Histogram => map (fun suffix => mc_name c ++ suffix) ["_bucket"; "_sum"; "_count"; "_created"]
   end)%string.

Fixpoint ascending (l : list Z) : bool :=
  match l with
  | x :: ((y :: _) as rest) => (x <? y) && ascending rest
  | _ => true
  end.

#[export] Instance Kind_eq_dec : EqDecision Kind.
Proof. solve_decision. Defined.
#[export] Instance Collector_eq_dec : EqDecision Collector.
Proof. solve_decision. Defined.

(** No two collectors of a registry export the same series, a histogram has buckets and they
    ascend, and a collector is recorded under exactly the labels it was declared with. *)
Theorem metrics_declared :
  NoDup (concat (map series_names core_collectors)) /\ NoDup (concat (map series_names worker_collectors)) /\
  (forall c, c ∈ core_collectors -> ascending (mc_buckets c) = true /\ (mc_buckets c <> [] <-> mc_kind c = Histogram)) /\
  (forall e, e ∈ emissions -> em_labels e = mc_labels (em_collector e) /\ em_collector e ∈ core_collectors).
Proof.
  split; [apply (bool_decide_unpack _); vm_compute; exact I|].
  split; [apply (bool_decide_unpack _); vm_compute; exact I|]. split; rewrite <- Forall_forall; apply (bool_decide_unpack _).
  - vm_compute. exact I.
  - vm_compute. exact I.
Qed.

(** ** What Prometheus sees *)

(** The rules of infra/prometheus/prometheus-rules.yml on what the orchestrator counts. *)
Definition orchestrator_rules : list (string * Collector) :=
  [("OrchestratorStalled", ORCH_CYCLE_COUNT); ("PaperReconcileFailed", PAPER_LIFECYCLE_CYCLES_TOTAL);
   ("PaperLifecycleDegraded", PAPER_LIFECYCLE_ERRORS_TOTAL); ("PendingExpiryBurst", PAPER_PENDING_EXPIRED_TOTAL);
   ("GatePressureHigh", PAPER_GATE_USED_PCT)]%string.

Section Scrapes.
Context `{Prometheus}.

(** The processes by name, and a history of them: who did what. *)
Definition history : Type := list (string * Deed).
Definition happen (ps : string -> Process) (x : string * Deed) : string -> Process :=
  fun name => if String.eqb name x.1 then perform x.2 (ps name) else ps name.
Definition run (t : history) (ps : string -> Process) : string -> Process := foldl happen ps t.

(** The targets of prometheus.yml: the API, and every port of every other process. *)
Definition scraped (ps : string -> Process) (name : string) (port : Z) : option string :=
  if String.eqb name "api" then Some (metrics (ps name)) else exporter (ps name) port.

(** What a deed can change on a page of its process. *)
Definition visible (x : string * Deed) : bool :=
  match x.2 with core_record _ _ _ => String.eqb x.1 "api" | worker_record _ _ _ _ => negb (String.eqb x.1 "api") end.

(** Two states of the processes that Prometheus cannot tell apart. *)
Definition same_pages (ps qs : string -> Process) : Prop :=
  default_registry (ps "api"%string) = default_registry (qs "api"%string) /\
  forall name, name <> "api"%string -> started (ps name) = started (qs name) /\ servers (ps name) = servers (qs name).

#[export] Instance same_pages_equivalence : Equivalence same_pages.
Proof.
  split.
  - by intros ps.
  - intros ps qs [H1 H2]. split; [done|]. intros name Hn. destruct (H2 name Hn). by split.
  - intros ps qs rs [H1 H2] [H3 H4]. split; [congruence|]. intros name Hn. destruct (H2 name Hn), (H4 name Hn). split; congruence.
Qed.

#[export] Instance scraped_proper : Proper (same_pages ==> eq ==> eq ==> eq) scraped.
Proof.
  intros ps qs [H1 H2] name _ <- port _ <-. unfold scraped. destruct (String.eqb_spec name "api") as [->|Hn].
  - unfold metrics. by rewrite H1.
  - unfold exporter. by destruct (H2 name Hn) as [-> ->].
Qed.

#[export] Instance happen_proper : Proper (same_pages ==> eq ==> same_pages) happen.
Proof.
  intros ps qs [H1 H2] [who d] _ <-. unfold happen. cbn [fst snd]. split.
  - destruct (String.eqb_spec "api" who); [|done]. destruct d; cbn; congruence.
  - intros name Hn. destruct (H2 name Hn) as [E1 E2]. destruct (String.eqb_spec name who); [|done]. destruct d; cbn; by rewrite ?E1, ?E2.
Qed.

Lemma invisible_happen ps x : visible x = false -> same_pages (happen ps x) ps.
Proof.
  destruct x as [who d]. unfold visible, happen. cbn [fst snd]. intros Hv. split.
  - destruct (String.eqb_spec "api" who) as [<-|]; [|done]. by destruct d.
  - intros name Hn. destruct (String.eqb_spec name who) as [<-|]; [|done]. destruct d; [done|].
    apply String.eqb_neq in Hn. by rewrite Hn in Hv.
Qed.

Lemma run_visible t : forall ps qs, same_pages ps qs -> same_pages (run t ps) (run (List.filter visible t) qs).
Proof.
  unfold run. induction t as [|x t IH]; intros ps qs Hs; cbn [foldl List.filter]; [done|].
  destruct (visible x) eqn:Ev; cbn [foldl]; apply IH; [by rewrite Hs|]. by rewrite (invisible_happen ps x Ev).
Qed.

(** A deed the code does. *)
Definition placed (x : string * Deed) : Prop :=
  match x.2 with
  | core_record c _ _ => exists e, e ∈ emissions /\ em_process e = x.1 /\ em_collector e = c
  | worker_record _ _ _ _ => True
  end.

Definition ruled (x : string * Deed) : bool :=
  match x.2 with core_record c _ _ => bool_decide (c ∈ orchestrator_rules.*2) | worker_record _ _ _ _ => false end.

(** Five of the ten alert rules can never fire.  They watch collectors of the module that
    only the orchestrator records; it records them in the default registry of its process,
    while its exporter serves another registry and the API serves the default registry of its
    own process.  So in any history of processes that record where the code does, every page
    Prometheus scrapes is the one it would be had nothing ever been recorded in these
    collectors: no stalled loop, failed reconciliation or expiry shows. *)
Theorem alert_rules_blind (t : history) (ps : string -> Process) (name : string) (port : Z) :
  Forall placed t ->
  scraped (run t ps) name port = scraped (run (List.filter (fun x => negb (ruled x)) t) ps) name port.
Proof.
  intros Hp. rewrite (run_visible t ps ps), (run_visible (List.filter (fun x => negb (ruled x)) t) ps ps) by done.
  replace (List.filter visible (List.filter (fun x => negb (ruled x)) t)) with (List.filter visible t); [done|].
  assert (Hblind : forallb (fun e => negb (bool_decide (em_collector e ∈ orchestrator_rules.*2) && String.eqb (em_process e) "api"))
                     emissions = true) by (vm_compute; reflexivity).
  rewrite forallb_forall in Hblind. clear -Hp Hblind.
  induction Hp as [|x t Hx _ IH]; [done|]. cbn [List.filter]. destruct (ruled x) eqn:Er; cbn [negb List.filter].
  - rewrite <- IH. destruct (visible x) eqn:Ev; [|done]. exfalso. destruct x as [who [c l v|]]; [|done].
    destruct Hx as (e & He & Hwho & Hc). cbn in *. apply list_elem_of_In in He. apply Hblind in He.
    rewrite Hc, Er, Hwho, Ev in He. done.
  - by destruct (visible x); rewrite IH.
Qed.
End Scrapes.

(** A registry as the list of what happened to it. *)
#[local] Instance log_prometheus : Prometheus :=
  {| Registry := list string; CollectorRegistry := []; register := fun c r => mc_name c :: r;
     record := fun c _ _ r => ("+" ++ mc_name c) :: r; generate_latest := String.concat " " |}%string.

Definition demo_processes (name : string) : Process :=
  if String.eqb name "api" then process_start
  else match start_worker_metrics (port_for_worker (fun _ => None) "") name process_start with Ok p => p | Err _ => process_start end.

Definition demo_deeds : history :=
  [("orchestrator", core_record PAPER_LIFECYCLE_CYCLES_TOTAL ["reconcile_failed"] 1);
   ("orchestrator", worker_record "orchestrator" (counter "forex_worker_cycles_total" ["worker"]) [] 1)]%string.

Lemma alert_rules_blind_witness :
  let pages deeds := (scraped (run deeds demo_processes) "api" 8000, scraped (run deeds demo_processes) "orchestrator" 9103) in
  length demo_deeds = 2%nat /\ pages demo_deeds = pages (List.filter (fun x => negb (ruled x)) demo_deeds).
Proof.
  cbv zeta. split; [reflexivity|].
  assert (Hp : Forall placed demo_deeds).
  { constructor; [|constructor; [done|constructor]]. exists (emits "orchestrator" PAPER_LIFECYCLE_CYCLES_TOTAL ["outcome"]%string).
    split; [|done]. apply list_elem_of_In. vm_compute. tauto. }
  rewrite (alert_rules_blind demo_deeds demo_processes "api" 8000 Hp).
  rewrite (alert_rules_blind demo_deeds demo_processes "orchestrator" 9103 Hp). reflexivity.
Defined.
