(* ===== verification/Logging.v ===== *)
(** * The configuration of logging ([configure_logging] of [app/core/logging.py])

    structlog's own processors are parameters, whatever they do to a record; the loggers of
    the standard library are their handlers and whether they hand records on to their
    parent. *)

From Stdlib Require Import ZArith Lia.
From stdpp Require Import base list strings.
From S2P Require Import Prelude PyFloat Signals Alerts Problems.

Section Logging.
(** A processor of records; structlog's own, among them the one that takes its bookkeeping
    keys away again, and the correlation id of the context. *)
Definition Processor : Type := dict string pyval -> dict string pyval.
Context (merge_contextvars add_log_level time_stamper stack_info_renderer set_exc_info : Processor)
  (meta_key : string -> bool) (correlation_id : option string).
Definition remove_processors_meta : Processor := List.filter (fun e => negb (meta_key e.1)).

Definition _shared_processors : list Processor :=
  [merge_contextvars; add_correlation_id correlation_id; add_log_level; time_stamper; stack_info_renderer; set_exc_info;
   redact_sensitive].

Inductive Renderer := JSONRenderer | ConsoleRenderer.

(** A handler with its formatter: what it does to the records of others first, to all
    records, and how it renders them. *)
Record Handler := { foreign_pre_chain : list Processor; fm_processors : list Processor; fm_renderer : option Renderer }.

Record Logger := { lg_handlers : list Handler; lg_propagate : bool }.
Definition new_logger : Logger := {| lg_handlers := []; lg_propagate := true |}.

Record LogState := {
  _configured : bool;
  root_handlers : list Handler;
  root_level : string;
  loggers : dict string Logger;
  structlog_processors : list Processor
}.

(** The module as imported, next to loggers that others have set up. *)
Definition not_configured (handlers : list Handler) (level : string) (others : dict string Logger) (processors : list Processor)
  : LogState :=
  {| _configured := false; root_handlers := handlers; root_level := level; loggers := others; structlog_processors := processors |}.

Definition noisy_loggers : list string := ["uvicorn"; "uvicorn.error"; "uvicorn.access"]%string.
Definition level_names : list string :=
  ["CRITICAL"; "FATAL"; "ERROR"; "WARN"; "WARNING"; "INFO"; "DEBUG"; "NOTSET"]%string.

Definition _handler (json_logs : bool) : Handler :=
  {| foreign_pre_chain := _shared_processors; fm_processors := [remove_processors_meta];
     fm_renderer := Some (if json_logs then JSONRenderer else ConsoleRenderer) |}.

(** An unknown level raises after the root handlers were replaced. *)
Definition configure_logging (log_level : string) (json_logs : bool) (s : LogState) : Res unit * LogState :=
  if _configured s then (Ok tt, s)
  else
    let s := {| _configured := false; root_handlers := [_handler json_logs]; root_level := root_level s;
                loggers := loggers s; structlog_processors := structlog_processors s |} in
    if negb (bool_decide (str_upper log_level ∈ level_names)) then (Err ValueError, s)
    else
      (Ok tt, {| _configured := true; root_handlers := root_handlers s; root_level := str_upper log_level;
                 loggers := foldl (fun d name => dset name {| lg_handlers := []; lg_propagate := true |} d) (loggers s) noisy_loggers;
                 structlog_processors := _shared_processors |}).

(** ** Records *)

Definition process (ps : list Processor) (record : dict string pyval) : dict string pyval :=
  foldl (fun r p => p r) record ps.

(** The handlers that get a record: those of the logger and of its ancestors, as long as it
    is handed on, then those of the root.  [chain] are the names of the logger and its
    ancestors. *)
Fixpoint reached (s : LogState) (chain : list string) : list Handler :=
  match chain with
  | [] => root_handlers s
  | name :: rest =>
      let l := match dget name (loggers s) with Some l => l | None => new_logger end in
      lg_handlers l ++ (if lg_propagate l then reached s rest else [])
  end.

(** What is rendered of a record of structlog's, or of another's. *)
Definition rendered (s : LogState) (structlog : bool) (chain : list string) (record : dict string pyval)
  : list (option Renderer * dict string pyval) :=
  map (fun h => (fm_renderer h, process (fm_processors h)
                   (process (if structlog then structlog_processors s else foreign_pre_chain h) record)))
      (reached s chain).

(** ** Properties *)

Lemma redact_filter (f : string * pyval -> bool) r :
  redact_sensitive r = r -> redact_sensitive (List.filter f r) = List.filter f r.
Proof.
  induction r as [|[k v] r IH]; [done|]. unfold redact_sensitive. cbn [map List.filter]. intros E.
  pose proof (f_equal (hd (k, v)) E) as E1. apply (f_equal tail) in E. cbn [hd tail] in E1, E.
  destruct (f (k, v)); cbn [map]; [|by apply IH]. rewrite E1. f_equal. by apply IH.
Qed.

(** What the last of the shared processors leaves is redacted. *)
Lemma shared_redacted r : exists r', process _shared_processors r = redact_sensitive r'.
Proof. unfold process, _shared_processors. cbn [foldl]. by eexists. Qed.

(** Later calls change nothing. *)
Lemma configured_for_good level json s : _configured s = true -> configure_logging level json s = (Ok tt, s).
Proof. intros Hc. unfold configure_logging. by rewrite Hc. Qed.

(** Once logging is configured, every record of every logger, structlog's or another's, is
    rendered exactly once, by the renderer asked for first, and what is rendered is redacted:
    whatever handlers the root and the loggers of the server had, and whatever structlog's
    processors add.  A level that does not exist raises and leaves other loggers as they
    were. *)
Theorem every_record_redacted (log_level : string) (json_logs : bool) (s : LogState) :
  _configured s = false -> (forall name l, name ∉ noisy_loggers -> dget name (loggers s) = Some l -> l = new_logger) ->
  let '(r, s') := configure_logging log_level json_logs s in
  match r with
  | Ok _ => str_upper log_level ∈ level_names /\ configure_logging log_level json_logs s' = (Ok tt, s') /\
      forall structlog chain record, exists record', rendered s' structlog chain record = [(fm_renderer (_handler json_logs), record')] /\
        redact_sensitive record' = record'
  | Err e => e = ValueError /\ str_upper log_level ∉ level_names /\ loggers s' = loggers s /\
      structlog_processors s' = structlog_processors s
  end.
Proof.
  intros Hc Hn. unfold configure_logging. rewrite Hc. case_bool_decide as Hl; cbn [negb]; [|done].
  split; [done|]. split; [done|]. set (s' := {| _configured := true |}).
  assert (Hget : forall name, match dget name (loggers s') with Some l => l | None => new_logger end = new_logger).
  { intros name. cbn [loggers s' noisy_loggers foldl]. rewrite !dget_dset. repeat case_decide; try done.
    destruct (dget name (loggers s)) as [l|] eqn:E; [|done]. apply (Hn name); [|done].
    unfold noisy_loggers. rewrite !not_elem_of_cons. split_and!; try congruence. apply not_elem_of_nil. }
  intros structlog chain record. assert (Hr : reached s' chain = [_handler json_logs]).
  { induction chain as [|name chain IH]; [done|]. cbn [reached]. by rewrite Hget. }
  unfold rendered. rewrite Hr. cbn [map]. eexists. split; [reflexivity|].
  assert (Hp : process (if structlog then structlog_processors s' else foreign_pre_chain (_handler json_logs)) record =
            process _shared_processors record) by by destruct structlog.
  rewrite Hp. destruct (shared_redacted record) as [r' ->]. cbn. apply redact_filter, redact_idempotent.
Qed.
End Logging.

(** A server that set up its access log before: one line a record all the same. *)
Lemma every_record_redacted_witness :
  let same := fun r : dict string pyval => r in
  let own := {| foreign_pre_chain := []; fm_processors := []; fm_renderer := None |} in
  let s := not_configured [own] "WARNING" [("uvicorn.access", {| lg_handlers := [own]; lg_propagate := false |})]%string [] in
  let '(r, s') := configure_logging same same same same same (fun _ => false) None "info" true s in
  r = Ok tt /\
  exists record, rendered s' false ["uvicorn.access"; "uvicorn"]%string [("event", VStr "login"); ("password", VStr "hunter2")]%string =
    [(Some JSONRenderer, record)] /\ redact_sensitive record = record.
Proof.
  cbv zeta. set (same := fun r : dict string pyval => r). set (s := not_configured _ _ _ _).
  pose proof (every_record_redacted same same same same same (fun _ => false) None "info" true s eq_refl) as H.
  assert (Hn : forall name l, name ∉ noisy_loggers -> dget name (loggers s) = Some l -> l = new_logger).
  { intros name l Hn Hl. apply dget_Some_in in Hl. apply list_elem_of_singleton in Hl. injection Hl as -> _.
    exfalso. apply Hn. right. right. left. }
  specialize (H Hn). assert (Hok : (configure_logging same same same same same (fun _ => false) None "info" true s).1 = Ok tt) by reflexivity.
  destruct (configure_logging _ _ _ _ _ _ _ _ _ _) as [r s']. cbn [fst] in Hok. subst r. split; [reflexivity|].
  destruct H as (_ & _ & H). apply H.
Defined.
