(* ===== verification/World.v ===== *)
(** * The whole system over one database

    Every process works on the database through the transactions of the components: the
    ingest process stores bars, the agents signals, the orchestrator decisions and orders,
    its lifecycle fills and closes, an administrator configures.  [transacts] has one case
    for each, and transactions are taken to be isolated: a history is one after the other.
    What every reachable database satisfies is proved from what each component
    keeps. *)

From Stdlib Require Import ZArith Lia.
From stdpp Require Import base list strings relations pretty.
From S2P Require Import Prelude PyFloat Timeframes Signals Fusion Risk Decision Tables Candles SignalStore Decide Costs Positions Paper Ledger Lifecycle MarketConfig LedgerGate Bus Orchestrator PaperCycle Breaker Ingest Alerts Accounts Access Indicators Content AgentWork Admin.

Open Scope Z_scope.

Section World.
Context `{Platform}.

(** One transaction of one process; [requests] are the calls of administrators there are.
    Any of them may instead be refused by the server, at whatever statement: for a value
    that overflows its numeric column, or a connection that is lost.  It is then rolled
    back as a whole. *)
Inductive transacts (requests : AdminCall -> bool) (db : DB) : DB -> Prop :=
| series_ingested st provider caches accepts text i tf now from until s : in_db s = db ->
    transacts requests db (in_db (_ingest_series st provider caches accepts text i tf now from until s).2)
| instruments_ensured symbols : transacts requests db (ensure_instruments symbols db).2
| bar_analysed fromisoformat uuid_hex accepts agents content clk fields :
    transacts requests db (process_bar fromisoformat uuid_hex accepts agents content clk fields db).1.2
| pair_processed settings worker_now accepts factory clk symbol tf :
    transacts requests db (committed (process_pair settings worker_now accepts factory clk symbol tf db))
| unit_processed factory symbol tf max_bars interval :
    transacts requests db (_process_unit factory symbol tf max_bars interval db).2
| expired_cancelled factory now : transacts requests db (_cancel_expired_pending factory now db).2
| administered uuid_str jwt_decode parse_uuid json_dumps parse_float symbols timeframes provider risk ip call now bearer request s :
    ad_db s = db -> requests call = true ->
    transacts requests db (ad_db (admin_request uuid_str jwt_decode parse_uuid json_dumps parse_float symbols timeframes provider risk ip
                           call now bearer request s).2)
| transaction_refused : transacts requests db db.

Definition any_request (call : AdminCall) : bool := true.

(** The requests that configure the market or the risk parameters, and all others. *)
Definition configuring (call : AdminCall) : bool :=
  match call with UpdateMarketConfig _ _ | UpdateRiskParams _ => true | _ => false end.
Definition not_configuring (call : AdminCall) : bool := negb (configuring call).

(** ** What holds of every database *)

(** An order and what sponsors it: a stored PAPER decision for its symbol, side and
    timeframe, and a stored evaluation of the same key that passed. *)
Record sponsor (db : DB) (o : PaperOrderRow) (d : DecisionRow) (e : RiskEvaluationRow) : Prop := {
  sp_decision : d ∈ decisions db;
  sp_evaluation : e ∈ risk_evaluations db;
  sp_id : o_decision_id o = Some (dr_id d);
  sp_status : dr_status d = PAPER;
  sp_key : evaluation_key e = decision_key d;
  sp_passed : re_passed e = true;
  sp_side : o_side o = dr_fused_direction d;
  sp_symbol : o_symbol o = dr_symbol d;
  sp_timeframe : o_timeframe o = dr_timeframe d
}.

Definition drawn (db : DB) (id : Z) : Prop := exists n, (n < uuids db)%nat /\ id = uuid4 n.

Record sound (db : DB) : Prop := {
  so_candles : NoDup (map key_of (candles db));
  so_signals : NoDup (map signal_key (agent_signals db));
  so_decisions : NoDup (map decision_key (decisions db));
  so_decision_ids : NoDup (map dr_id (decisions db));
  so_drawn : Forall (drawn db) (map dr_id (decisions db));
  so_evaluations : NoDup (map evaluation_key (risk_evaluations db));
  so_owned : evaluations_owned db;
  so_ledger : ledger_inv db;
  so_sponsors : forall o, o ∈ orders_paper db -> exists d e, sponsor db o d e
}.

(** The tables of decisions and of the ledger. *)
Definition trading (db : DB) := (decisions db, risk_evaluations db, orders_paper db, positions db).

Lemma drawn_later db db' ids : (uuids db <= uuids db')%nat -> Forall (drawn db) ids -> Forall (drawn db') ids.
Proof. intros Hu Hf. eapply Forall_impl; [exact Hf|]. intros id (n & Hn & ->). exists n. split; [lia|done]. Qed.

(** A transaction beside the trading tables. *)
Lemma beside_sound db db' : sound db -> trading db' = trading db -> (uuids db <= uuids db')%nat ->
  NoDup (map key_of (candles db')) -> NoDup (map signal_key (agent_signals db')) -> sound db'.
Proof.
  intros [S1 S2 S3 S4 S5 S6 S7 S8 S9] Ht Hu Hc Hs. unfold trading in Ht. injection Ht as Hd He Ho Hp.
  split; rewrite ?Hd, ?He, ?Ho; try done.
  - by eapply drawn_later.
  - unfold evaluations_owned. by rewrite Hd, He.
  - by apply (ledger_inv_ext db).
  - intros o Hin. destruct (S9 o Hin) as (d & e & [? ? ? ? ? ? ? ? ?]). exists d, e. split; rewrite ?Hd, ?He; done.
Qed.

(** A transaction of the ledger alone: rows move forward, none is added to the orders. *)
Record ledger_only (db db' : DB) : Prop := {
  lo_decisions : decisions db' = decisions db;
  lo_evaluations : risk_evaluations db' = risk_evaluations db;
  lo_candles : candles db' = candles db;
  lo_signals : agent_signals db' = agent_signals db;
  lo_orders : length (orders_paper db') = length (orders_paper db);
  lo_settings : system_settings db' = system_settings db;
  lo_uuids : (uuids db <= uuids db')%nat
}.

#[export] Instance ledger_only_preorder : PreOrder ledger_only.
Proof.
  split; [by split|]. intros a b c [] []. split; try congruence. lia.
Qed.

Lemma ledger_sound db db' : sound db -> ledger_only db db' -> ledger_inv db' -> evolves db db' -> sound db'.
Proof.
  intros [S1 S2 S3 S4 S5 S6 S7 S8 S9] [Hd He Hc Hs Hl _ Hu] Hi [(os & new & Ho & Hle) _].
  assert (new = []) as ->.
  { apply length_zero_iff_nil. apply Forall2_length in Hle. rewrite Ho, length_app in Hl. lia. }
  rewrite app_nil_r in Ho. split; rewrite ?Hd, ?He, ?Hc, ?Hs; try done.
  - by eapply drawn_later.
  - unfold evaluations_owned. by rewrite Hd, He.
  - intros o' Hin. rewrite Ho in Hin. apply list_elem_of_lookup in Hin as [i Hi'].
    destruct (Forall2_lookup_r _ _ _ _ _ Hle Hi') as (o & Hoi & Hoo). apply list_elem_of_lookup_2 in Hoi.
    destruct (S9 o Hoi) as (d & e & [? ? ? ? ? ? ? ? ?]). exists d, e.
    destruct Hoo as [->|(_ & _ & _ & E1 & E2 & E3 & E4)]; split; rewrite ?Hd, ?He; try done; congruence.
Qed.

(** ** The transactions of the lifecycle *)

Lemma update_order_only id f db : ledger_only db (update_order id f db).
Proof. split; try done. apply length_map. Qed.

Lemma cancel_only id lb db : ledger_only db (cancel_pending id lb db).2.
Proof.
  unfold cancel_pending. destruct (get_order id db) as [o|]; [|done]. destruct (negb _); [done|]. apply update_order_only.
Qed.

Lemma fill_only id price ts lb db r lb' db' : fill_pending id price ts lb db = Ok (r, lb', db') -> ledger_only db db'.
Proof.
  unfold fill_pending. destruct (get_order id db) as [o|]; [|by intros [= <- <- <-]].
  destruct (negb _); [by intros [= <- <- <-]|]. destruct (open_for _ _); [by intros [= <- <- <-]|].
  destruct (open_for _ _) as [pos|]; [|by intros [= <- <- <-]]. cbn [new_uuid].
  intros (db1 & Hsave & [= <- <- <-])%res_bind_ok. unfold save_position in Hsave. destruct (_ && _); [done|]. injection Hsave as <-.
  split; cbn; try done; [by rewrite length_map|lia].
Qed.

Lemma trade_only r lb db : ledger_only db (persist_trade r lb db).2.
Proof.
  destruct r as [[t|] paper]; [|done]. unfold persist_trade, _persist_close. cbn [snd].
  by destruct (get_open_position _ _).
Qed.

Lemma act_only sym bar lb db c ca lb' db' c' : act sym bar (lb, db, c) ca = Ok (lb', db', c') -> ledger_only db db'.
Proof.
  destruct c as [nf ns], ca as [cand action]. unfold act.
  assert (Hfill : forall lb0 db0 nf0, (r <-- fill_pending (o_id (cand_order cand)) (bar_open bar) (bar_ts bar) lb0 db0 ;;
      let '(row, lb, db) := r in Ok (lb, db, (match row with Some _ => nf0 + 1 | None => nf0 end, ns))) = Ok (lb', db', c') -> ledger_only db0 db').
  { intros lb0 db0 nf0 ([[row lb1] db1] & Hf & [= <- <- <-])%res_bind_ok. by eapply fill_only. }
  destruct action.
  - apply Hfill.
  - pose proof (trade_only (close_on_signal sym (bar_open bar) (bar_ts bar) (lb_paper lb)) lb db) as Ht.
    unfold lb_close_on_signal. destruct (persist_trade _ lb db) as [[t lb1] db1]. intros Hf%Hfill. by etrans.
  - pose proof (cancel_only (o_id (cand_order cand)) lb db) as Hc. destruct (cancel_pending _ lb db) as [[o lb1] db1].
    intros E. injection E as <- <- <-. exact Hc.
Qed.

Lemma acts_only sym bar l : forall lb db c lb' db' c',
  fold_res (act sym bar) l (lb, db, c) = Ok (lb', db', c') -> ledger_only db db'.
Proof.
  induction l as [|ca l IH]; intros lb db c lb' db' c'; cbn [fold_res]; [by intros [= <- <- <-]|].
  intros ([[lb1 db1] c1] & Ha & Hl)%res_bind_ok. etrans; [by eapply act_only|by eapply IH].
Qed.

Lemma bar_only interval symbol tf bar cands lb db r lb' db' :
  process_unit_bar interval symbol tf bar cands lb db = Ok (r, lb', db') -> ledger_only db db'.
Proof.
  unfold process_unit_bar. intros ([[lb1 db1] [nf ns]] & Ha & Hr)%res_bind_ok. apply acts_only in Ha.
  pose proof (trade_only (evaluate_exit (str_upper symbol) (bar_close bar) (bar_ts bar) (lb_paper lb1)) lb1 db1) as Ht.
  unfold lb_evaluate_exit in Hr. destruct (persist_trade _ lb1 db1) as [[t lb2] db2]. etrans; [exact Ha|]. etrans; [exact Ht|].
  match type of Hr with (let '(_, _) := if ?b then _ else _ in _) = _ => destruct b end.
  - unfold equity_snapshot in Hr. destruct (broker_state _ _) as [st paper]. injection Hr as <- <- <-. by split.
  - by injection Hr as <- <- <-.
Qed.

Lemma window_only interval symbol tf cands bars window db0 : forall acc lb saved work,
  ledger_only db0 saved -> ledger_only db0 work ->
  ledger_only db0 (process_window interval symbol tf cands bars window acc lb saved work).2.
Proof.
  induction window as [|ts window IH]; intros acc lb saved work Hs Hw; cbn [process_window]; [done|].
  destruct (bar <-- dindex ts bars ;; process_unit_bar interval symbol tf bar cands lb work) as [[[r lb'] db']|e] eqn:E; [|done].
  apply res_bind_ok in E as (bar & _ & E). apply bar_only in E.
  apply IH; (etrans; [exact Hw|exact E]).
Qed.

Lemma cancels_only ids : forall n lb db, ledger_only db (cancel_all ids (n, lb, db)).2.
Proof.
  unfold cancel_all. induction ids as [|id ids IH]; intros n lb db; [done|]. cbn [foldl].
  pose proof (cancel_only id lb db) as Hc. destruct (cancel_pending id lb db) as [[o lb1] db1]. etrans; [exact Hc|apply IH].
Qed.

Lemma instrument_only symbol db : ledger_only db (get_or_create_instrument symbol db).2.
Proof. unfold get_or_create_instrument. destruct (find_instrument _ db); cbn; [done|]. split; cbn; try done. lia. Qed.

Lemma unit_only factory symbol tf max_bars interval db : ledger_only db (_process_unit factory symbol tf max_bars interval db).2.
Proof.
  unfold _process_unit. destruct factory as [fresh|]; [|done]. destruct (pending_candidates db) as [all|e]; [|done].
  pose proof (instrument_only symbol db) as Hi. destruct (get_or_create_instrument symbol db) as [ins db1]. cbn [snd] in Hi.
  destruct (last_closed_ts _ _ _) as [lc|]; [|done]. cbv zeta.
  match goal with |- context [cancel_all ?ids (0, ?lb, db1)] =>
    pose proof (cancels_only ids 0 lb db1) as Hc; destruct (cancel_all ids (0, lb, db1)) as [[n lb1] db2] end.
  assert (H2 : ledger_only db db2) by (etrans; [exact Hi|exact Hc]).
  destruct (missing_bar_candidates _ _ _); (destruct (_outstanding_stamps _ _ _) as [|t ts]; [done|]);
    destruct (catchup_window _ _) as [window depth]; by apply window_only.
Qed.

Lemma expired_only factory now db : ledger_only db (_cancel_expired_pending factory now db).2.
Proof.
  unfold _cancel_expired_pending. destruct factory as [fresh|]; [|done].
  pose proof (cancels_only (map o_id (list_pending_expired now db)) 0 (restore_state fresh db) db) as Hc.
  by destruct (cancel_all _ _) as [[n lb] db1].
Qed.

(** ** The transactions beside the trading tables *)

(** What these keep of the database, and the keys of the bars. *)
Record beside (db db' : DB) : Prop := {
  be_trading : trading db' = trading db;
  be_uuids : (uuids db <= uuids db')%nat;
  be_candles : NoDup (map key_of (candles db)) -> NoDup (map key_of (candles db'));
  be_signals : agent_signals db' = agent_signals db;
  be_settings : system_settings db' = system_settings db
}.

#[export] Instance beside_preorder : PreOrder beside.
Proof. split; [by split|]. intros a b c [] []. split; [congruence|lia|auto|congruence|congruence]. Qed.

Lemma upsert_beside i cs source tf db r db' : upsert_candles i cs source tf db = Ok (r, db') -> beside db db'.
Proof.
  destruct cs as [|c cs]; [by intros [= <- <-]|]. unfold upsert_candles.
  intros (sec & _ & (unique & _ & [= <- <-])%res_bind_ok)%res_bind_ok. split; try done.
  cbn [candles set_candles]. rewrite upsert_fold. apply upsert_all_keys_NoDup.
Qed.

Lemma publish_db provider caches accepts st symbol tf cs latest now s :
  in_db (_publish_new_bars st provider accepts symbol tf cs now (_cache_quote provider caches accepts symbol latest now s)) = in_db s.
Proof.
  assert (Hp : forall es s, in_db (publish_while accepts es s) = in_db s).
  { induction es as [|e es IH]; intros s0; [done|]. cbn [publish_while]. destruct (accepts e); [by rewrite IH|done]. }
  unfold _publish_new_bars. rewrite Hp. unfold _cache_quote. destruct (caches symbol); [|done]. by destruct (accepts _).
Qed.

Lemma series_beside st provider caches accepts text i tf now from until s :
  beside (in_db s) (in_db (_ingest_series st provider caches accepts text i tf now from until s).2).
Proof.
  assert (Hf : forall kind e s0, in_db (fail_series provider text kind e i tf (instant now) s0).2 = in_db s0).
  { intros kind e s0. unfold fail_series. by destruct (record_failure _ _). }
  unfold _ingest_series. destruct (before_call _ _) as [b|e]; [|done].
  destruct (ingest_body _ _ _ _ _ _ _ _ _ _) as [r|e] eqn:E; [|by destruct e; cbn [snd]; rewrite ?Hf].
  unfold ingest_body in E. apply res_bind_ok in E as ([start stop] & _ & E). destruct (_ <=? _); [by injection E as <-|].
  apply res_bind_ok in E as (fetched & _ & E). apply res_bind_ok in E as (expected & _ & E).
  apply res_bind_ok in E as ([[ins upd] db'] & Hu & E). apply upsert_beside in Hu. injection E as <-. cbn [snd].
  destruct (List.filter complete fetched) as [|c cs]; [exact Hu|]. cbn [in_db set_breaker]. by rewrite publish_db.
Qed.

Lemma instrument_beside symbol db : beside db (get_or_create_instrument symbol db).2.
Proof. unfold get_or_create_instrument. destruct (find_instrument _ db); cbn; [done|]. split; cbn; try done. lia. Qed.

Lemma ensure_beside symbols db : beside db (ensure_instruments symbols db).2.
Proof.
  unfold ensure_instruments. generalize (@nil (string * Instrument)) as d. revert db.
  induction symbols as [|x symbols IH]; intros db d; [done|]. cbn [foldl].
  pose proof (instrument_beside x db) as Hi. destruct (get_or_create_instrument x db) as [i db1]. etrans; [exact Hi|apply IH].
Qed.

(** A request touches nothing but the settings, and these only if it is one to configure. *)
Lemma admin_beside uuid_str jwt_decode parse_uuid json_dumps parse_float symbols timeframes provider risk ip call now bearer request s :
  exists settings, (configuring call = false -> settings = system_settings (ad_db s)) /\
  beside (set_system_settings settings (ad_db s))
    (ad_db (admin_request uuid_str jwt_decode parse_uuid json_dumps parse_float symbols timeframes provider risk ip
              call now bearer request s).2).
Proof.
  assert (Hsame : forall db : DB, beside (set_system_settings (system_settings db) db) db) by (intros db; by split).
  unfold admin_request. destruct (require_role _ _ _ _ _ _) as [admin|e]; [|exists (system_settings (ad_db s)); by split].
  unfold transaction. destruct (handler _ _ _ _ _ _ _ _ _ _ _ _ _) as [r s'] eqn:E.
  assert (Hh : exists settings, (configuring call = false -> settings = system_settings (ad_db s)) /\
    beside (set_system_settings settings (ad_db s)) (ad_db s')).
  { destruct call; cbn [handler] in E; unfold ignore in E; try (injection E as _ <-).
    - unfold update_market_config, set_market_config. destruct (get_market_config _ _ _) as [cs ct].
      destruct (new_symbols <-- _ ;; _) as [[[ns nt] db']|e] eqn:Em;
        [|exists (system_settings (ad_db s)); split; [done|]; destruct e; apply Hsame].
      apply res_bind_ok in Em as (x & _ & (y & _ & [= <- <- <-])%res_bind_ok).
      destruct (setting_flush admin _); cbn [snd]; [|exists (system_settings (ad_db s)); split; [done|apply Hsame]].
      match goal with |- context [set_ad_db ?d s] => exists (system_settings d) end. split; [done|by split].
    - exists (system_settings (ad_db s)). split; [done|]. unfold trigger_backfill. destruct (negb _); [apply Hsame|]. destruct (_ <=? _); [apply Hsame|]. destruct (_ <? _); [apply Hsame|].
      destruct (backfill_job _ _ _ _) as [[? ?] ?]. apply Hsame.
    - exists (system_settings (ad_db s)). split; [done|]. unfold replay_decision, session_commit.
      destruct (pending_ok _ _); apply Hsame.
    - unfold update_risk_params. destruct (set_risk_params _ _ _ _) as [[resolved stored]|]; cbn [res_bind snd];
        [|exists (system_settings (ad_db s)); split; [done|apply Hsame]].
      destruct (setting_flush admin _); cbn [res_bind snd]; [|exists (system_settings (ad_db s)); split; [done|apply Hsame]].
      unfold session_commit.
      exists (dset RISK_SETTING_KEY stored (system_settings (ad_db s))). split; [done|by destruct (pending_ok _ _); split].
    - exists (system_settings (ad_db s)). split; [done|]. unfold acknowledge_alert. repeat case_match; apply Hsame.
    - exists (system_settings (ad_db s)). split; [done|]. destruct (update_user _ _ _ _ _ _) as [r0 accounts]. injection E as _ <-. apply Hsame. }
  destruct r as [a|e]; [|exists (system_settings (ad_db s)); by split].
  destruct (pending_ok _ _); [exact Hh|exists (system_settings (ad_db s)); by split].
Qed.

(** ** Agents *)

Lemma save_signals_beside signals db : trading (save_signals signals db).2 = trading db /\
  candles (save_signals signals db).2 = candles db /\ (uuids db <= uuids (save_signals signals db).2)%nat /\
  system_settings (save_signals signals db).2 = system_settings db.
Proof.
  unfold save_signals. generalize 0 as n. revert db. induction signals as [|x signals IH]; intros db n; [done|]. cbn [foldl].
  assert (Hi : trading (insert_signal x db).2 = trading db /\ candles (insert_signal x db).2 = candles db /\
               (uuids db <= uuids (insert_signal x db).2)%nat /\ system_settings (insert_signal x db).2 = system_settings db).
  { unfold insert_signal. cbn [new_uuid]. destruct (existsb _ _); cbn; (split; [done|]; split; [done|]; split; [lia|done]). }
  destruct (insert_signal x db) as [stored db1]. cbn [snd] in Hi. destruct Hi as (H1 & H2 & H3 & H4).
  destruct (IH db1 (if stored then n + 1 else n)) as (I1 & I2 & I3 & I4). split; [congruence|]. split; [congruence|].
  split; [etrans; [exact H3|exact I3]|congruence].
Qed.

Lemma bar_kept fromisoformat uuid_hex accepts agents content clk fields db :
  let db' := (process_bar fromisoformat uuid_hex accepts agents content clk fields db).1.2 in
  trading db' = trading db /\ candles db' = candles db /\ (uuids db <= uuids db')%nat /\ system_settings db' = system_settings db.
Proof.
  cbv zeta. unfold process_bar. destruct (fromisoformat _) as [ts|]; [|done]. cbn [new_uuid]. unfold _load_series.
  pose proof (instrument_beside (str_upper (_field fields "symbol")) (set_uuids (S (uuids db)) db)) as Hi.
  assert (Hc : candles (get_or_create_instrument (str_upper (_field fields "symbol")) (set_uuids (S (uuids db)) db)).2 = candles db)
    by (unfold get_or_create_instrument; by destruct (find_instrument _ _)).
  destruct (get_or_create_instrument _ _) as [i dbc]. cbn [snd] in Hi, Hc. destruct Hi as [B1 B2 _ _ B5]. cbn in B2.
  destruct (_load_content _ _ _) as [news events].
  destruct (map_res _ _) as [signals|]; [|split; [done|]; split; [done|]; split; [cbn; lia|done]].
  match goal with |- context [save_signals signals ?d] => destruct (save_signals_beside signals d) as (H1 & H2 & H3 & H4); destruct (save_signals signals d) as [n db'] end.
  destruct (publish_all _ _) as [r sent]. cbn [fst snd] in *. split; [by rewrite H1|]. split; [by rewrite H2|].
  split; [etrans; [|exact H3]; cbn; lia|by rewrite H4].
Qed.

Lemma bar_sound fromisoformat uuid_hex accepts agents content clk fields db :
  sound db -> sound (process_bar fromisoformat uuid_hex accepts agents content clk fields db).1.2.
Proof.
  intros Hs. pose proof (process_bar_rows fromisoformat uuid_hex accepts agents content clk fields db (so_signals _ Hs)) as Hr.
  pose proof (bar_kept fromisoformat uuid_hex accepts agents content clk fields db) as (H1 & H2 & H3 & _).
  destruct (process_bar _ _ _ _ _ _ _ _) as [[r db'] sent]. cbn [fst snd] in *. destruct Hr as (new & _ & Hn & _).
  eapply beside_sound; [exact Hs|exact H1|exact H3|rewrite H2; apply Hs|exact Hn].
Qed.

(** ** The engine *)

Lemma persist_ids now settings g live inputs out db res db' :
  persist_outcome now settings g live inputs out db = Ok (res, db') ->
  system_settings db' = system_settings db /\
  (decisions db' = decisions db \/
   exists d, decisions db' = decisions db ++ [d] /\ dr_id d = uuid4 (uuids db) /\ (uuids db < uuids db')%nat).
Proof.
  unfold persist_outcome. cbv zeta. cbn [new_uuid]. intros Hp. apply res_bind_ok in Hp as (sec & _ & Hp).
  set (row := decision_values _ _ _ _ _ _ _ _ _ _ _) in Hp.
  assert (Hu : uuids (save_decision row (set_uuids (S (uuids db)) db)).2 = S (uuids db) /\
               system_settings (save_decision row (set_uuids (S (uuids db)) db)).2 = system_settings db)
    by (unfold save_decision; by destruct (existsb _ _)).
  pose proof (save_decision_spec row (set_uuids (S (uuids db)) db)) as Hs.
  destruct (save_decision row _) as [cr db1]. cbn [snd] in Hu. destruct Hu as [Hu Hse]. destruct Hs as (_ & _ & Hd).
  apply res_bind_ok in Hp as (db2 & Hr & Hp).
  assert (H2 : decisions db2 = decisions db1 /\ (uuids db1 <= uuids db2)%nat /\ system_settings db2 = system_settings db1).
  { destruct (out_risk out) as [r|]; [|by injection Hr as <-]. apply res_bind_ok in Hr as ([stored db3] & Hr & [= <-]).
    pose proof (save_risk_uuids _ _ _ _ _ _ _ Hr) as Hu3.
    assert (Hs3 : system_settings db3 = system_settings db1).
    { unfold save_risk_evaluation in Hr. cbn [new_uuid] in Hr. apply res_bind_ok in Hr as (rw & _ & Hr). by destruct (existsb _ _); injection Hr as _ <-. }
    apply save_risk_evaluation_spec in Hr as (Hd3 & _). cbn [snd] in *. split; [done|]. split; [lia|done]. }
  destruct H2 as (H2 & H3 & H4). apply res_bind_ok in Hp as (db3 & Href & Hp). pose proof (refresh_core _ _ _ _ _ _ Href) as Hc. pose proof (f_equal snd Hc) as Hcs. cbn [core snd] in Hcs.
  apply (f_equal (fun c => c.1.1.1)) in Hc. cbn [core fst] in Hc.
  pose proof (refresh_uuids _ _ _ _ _ _ Href) as Hru. injection Hp as _ <-.
  split; [congruence|]. rewrite Hru, Hc, H2. destruct cr; destruct Hd as [_ Hd]; cbn [decisions set_uuids] in Hd; [right|by left].
  exists row. split; [exact Hd|]. split; [done|lia].
Qed.

(** A transaction that decides: at most one decision and one evaluation more, both of keys
    that were free, the decision under an id drawn meanwhile. *)
Record decides (db db' : DB) : Prop := {
  de_candles : candles db' = candles db;
  de_signals : agent_signals db' = agent_signals db;
  de_uuids : (uuids db <= uuids db')%nat;
  de_settings : system_settings db' = system_settings db;
  de_decisions : decisions db' = decisions db \/
    exists d n, decisions db' = decisions db ++ [d] /\ decision_key d ∉ map decision_key (decisions db) /\
      dr_id d = uuid4 n /\ (uuids db <= n < uuids db')%nat;
  de_evaluations : risk_evaluations db' = risk_evaluations db \/
    exists e, risk_evaluations db' = risk_evaluations db ++ [e] /\ evaluation_key e ∉ map evaluation_key (risk_evaluations db)
}.

Lemma decides_same db : decides db db.
Proof. split; try done; by left. Qed.

Lemma decides_then db db1 db2 : decides db db1 -> candles db2 = candles db1 -> agent_signals db2 = agent_signals db1 ->
  (uuids db1 <= uuids db2)%nat -> system_settings db2 = system_settings db1 ->
  decisions db2 = decisions db1 -> risk_evaluations db2 = risk_evaluations db1 -> decides db db2.
Proof.
  intros [D1 D2 D3 DS D4 D5] Hc Hs Hu Hst Hd He. split; rewrite ?Hd, ?He; [congruence|congruence|lia|congruence| |done].
  destruct D4 as [D4|(d & n & E & Hk & Hi & Hn)]; [by left|]. right. exists d, n. split; [done|]. split; [done|]. split; [done|lia].
Qed.

Context `{!PlatformOk}.

Lemma engine_decides now started settings symbol tf configured crafts risk gate live db res db' :
  DecisionEngine_decide now started settings symbol tf configured crafts risk gate live db = Ok (res, db') -> decides db db'.
Proof.
  intros Hd. pose proof (decide_shape _ _ _ _ _ _ _ _ _ _ _ _ _ Hd) as (Hl & Hu & Hsh).
  unfold ledger_of in Hl. injection Hl as _ _ _ Hs Hc _.
  assert (Hids : system_settings db' = system_settings db /\ (decisions db' = decisions db \/
    exists d n, decisions db' = decisions db ++ [d] /\ dr_id d = uuid4 n /\ (uuids db <= n < uuids db')%nat)).
  { apply decide_cases in Hd as [(Hco & _)|(inputs & db1 & out & Hg & _ & _ & Hp)].
    - split; [exact (f_equal snd Hco)|left]. by apply (f_equal (fun c => c.1.1.1)) in Hco.
    - pose proof (gather_uuids _ _ _ _ _ _ _ _ _ Hg) as Hu1. apply gather_core in Hg. pose proof (f_equal snd Hg) as Hgs. cbn [core snd] in Hgs.
      apply (f_equal (fun c => c.1.1.1)) in Hg. unfold core in Hg. cbn [fst] in Hg.
      apply persist_ids in Hp as (Hps & [Hp|(d & Hp & Hi & Hn)]); (split; [congruence|]); rewrite Hp, Hg; [by left|].
      right. exists d, (uuids db1). split; [done|]. split; [done|lia]. }
  destruct Hids as [Hse Hids].
  split; try done.
  - destruct Hids as [Hids|(d & n & Hids & Hi & Hn)]; [by left|]. right. exists d, n. split; [done|]. split; [|by split].
    destruct (res_action res); [destruct Hsh as [Hsh _]; exfalso; rewrite Hids in Hsh; apply (f_equal length) in Hsh; rewrite length_app in Hsh; cbn in Hsh; lia|].
    destruct Hsh as (_ & _ & (d' & Hk & _ & _ & Hdd) & _). destruct (created res); destruct Hdd as [Hnin Hdd]; rewrite Hids in Hdd.
    + apply app_inv_head in Hdd. injection Hdd as ->. by rewrite Hk.
    + exfalso. apply (f_equal length) in Hdd. rewrite length_app in Hdd. cbn in Hdd. lia.
  - destruct (res_action res); [left; by destruct Hsh|]. destruct Hsh as (_ & _ & _ & (e & Hek & _ & [[He Hn]|[He _]])); [|by left].
    right. exists e. split; [done|]. by rewrite Hek.
Qed.

Lemma submit_beside s tf d ref ts u id sl tp lb db r lb' db' :
  submit_paper_order s tf d ref ts u id sl tp lb db = Ok (r, lb', db') ->
  candles db' = candles db /\ agent_signals db' = agent_signals db /\ (uuids db <= uuids db')%nat /\
  system_settings db' = system_settings db.
Proof.
  unfold submit_paper_order. intros Hs. destruct (_ || _); [by simplify_eq|].
  destruct (match open_for _ _ with Some _ => _ | None => _ end); [by simplify_eq|].
  destruct (match id with Some _ => _ | None => _ end); [by simplify_eq|].
  cbn [new_uuid] in Hs. apply res_bind_ok in Hs as (db1 & Hsv & Hs). unfold save_order in Hsv.
  destruct (decision_taken _ _); [done|]. simplify_eq. cbn. split; [done|]. split; [done|]. split; [lia|done].
Qed.

Lemma sponsor_decides factory result broker db0 db db' : decides db0 db ->
  _sponsor_paper_order factory result broker db = Ok db' -> decides db0 db'.
Proof.
  intros Hd. unfold _sponsor_paper_order. destruct factory as [fresh|]; [|by intros [= <-]]. destruct (_ || _); [by intros [= <-]|].
  destruct (_load_decision_payload result db) as [decision eval]. intros ([order db1] & Hw & [= <-])%res_bind_ok. cbn [snd].
  unfold _wire_paper_decision in Hw. destruct (_ || _); [by injection Hw as <- <-|].
  destruct decision as [decision|]; [|by injection Hw as <- <-]. destruct eval as [eval|]; [|by injection Hw as <- <-].
  destruct (re_units eval); [|by injection Hw as <- <-]. destruct (re_price eval); [|by injection Hw as <- <-].
  destruct (res_direction result); [|by injection Hw as <- <-].
  apply res_bind_ok in Hw as ([[o lb'] db2] & Hsub & [= <- <-]). pose proof (submit_frame _ _ _ _ _ _ _ _ _ _ _ _ _ _ Hsub) as (F1 & F2 & _ & _).
  apply submit_beside in Hsub as (B1 & B2 & B3 & B4). by eapply decides_then.
Qed.

Lemma pair_decides settings worker_now accepts factory clk symbol tf db :
  decides db (committed (process_pair settings worker_now accepts factory clk symbol tf db)).
Proof.
  unfold process_pair. set (db1 := set_db_now (tx_now clk) db). destruct (get_market_config _ _ db1) as [syms tfs].
  destruct (_ || _); [apply decides_same|]. destruct (decide_pair _ _ _ _ _ _ _) as [[result db']|e] eqn:E; [|apply decides_same].
  assert (Hd : decides db db').
  { unfold decide_pair in E. apply res_bind_ok in E as (risk & _ & E). apply res_bind_ok in E as ([res db2] & Hdec & E). apply engine_decides in Hdec.
    assert (Hdec' : decides db db2) by (by destruct Hdec).
    apply res_bind_ok in E as (db3 & Hsp & [= <- <-]). destruct (res_action res); [by injection Hsp as <-|by eapply sponsor_decides]. }
  destruct (res_action result); [exact Hd|]. by destruct (_emit_decision _ _ _).
Qed.

Lemma pair_sound settings worker_now accepts factory clk symbol tf db :
  sound db -> sound (committed (process_pair settings worker_now accepts factory clk symbol tf db)).
Proof.
  intros [S1 S2 S3 S4 S5 S6 S7 S8 S9]. pose proof (pair_decides settings worker_now accepts factory clk symbol tf db) as [D1 D2 D3 _ D4 D5].
  destruct (process_pair_spec settings worker_now accepts factory clk symbol tf db S8 S7) as (Hi & Ho & _ & _ & Hsp & _).
  set (db' := committed _) in *. clearbody db'.
  assert (Hmono : forall o d e, sponsor db o d e -> sponsor db' o d e).
  { intros o d e [? ? ? ? ? ? ? ? ?]. split; try done.
    - destruct D4 as [->|(? & ? & -> & _)]; [done|]. apply elem_of_app. by left.
    - destruct D5 as [->|(? & -> & _)]; [done|]. apply elem_of_app. by left. }
  split; [by rewrite D1|by rewrite D2| | | | |done|done|].
  - destruct D4 as [->|(d & n & -> & Hk & _)]; [done|]. by apply NoDup_snoc.
  - destruct D4 as [->|(d & n & -> & _ & Hid & Hn)]; [done|]. apply NoDup_snoc; [done|]. intros Hin.
    rewrite Forall_forall in S5. destruct (S5 _ Hin) as (m & Hm & E). rewrite Hid in E. apply uuid4_inj in E. lia.
  - pose proof (drawn_later db db' _ D3 S5) as Hdr. destruct D4 as [->|(d & n & -> & _ & Hid & Hn)]; [done|].
    rewrite map_app. apply Forall_app. split; [done|]. constructor; [|constructor]. exists n. split; [lia|done].
  - destruct D5 as [->|(e & -> & Hk)]; [done|]. by apply NoDup_snoc.
  - intros o Hin. destruct Hsp as [Hsame|(d & e & o' & Hd & Hst & He & Hk & Hpass & Hord & _ & Hid & Hside & Hsy & Htf)].
    + rewrite Hsame in Hin. destruct (S9 o Hin) as (d & e & Hs). exists d, e. by apply Hmono.
    + rewrite Hord in Hin. apply elem_of_app in Hin as [Hin|Hin%list_elem_of_singleton].
      * destruct (S9 o Hin) as (d' & e' & Hs). exists d', e'. by apply Hmono.
      * subst o'. exists d, e. split; try done; [rewrite Hd|rewrite He]; apply elem_of_app; right; by left.
Qed.

(** ** Every reachable database *)

Lemma empty_sound : sound empty_db.
Proof.
  split; try (by constructor); try (by intros o ?%elem_of_nil).
  split; simpl; try constructor; try (by intros p ?%elem_of_nil); by intros ?%elem_of_nil.
Qed.

Lemma beside_keeps db db' : sound db -> beside db db' -> sound db'.
Proof.
  intros Hs [B1 B2 B3 B4 _]. eapply beside_sound; [exact Hs|done|done|by apply B3, so_candles|rewrite B4; by apply so_signals].
Qed.

Lemma transacts_sound requests db db' : transacts requests db db' -> sound db -> sound db'.
Proof.
  intros Ht Hs. destruct Ht as [st provider caches accepts text i tf now from until s Hdb|symbols|fr hx accepts agents content clk fields|
    settings wn accepts factory clk symbol tf|factory symbol tf max_bars interval|factory now|
    us jd pu jds pf syms tfs prov risk ip call now bearer request s Hdb _|].
  - subst db. eapply beside_keeps; [exact Hs|apply series_beside].
  - eapply beside_keeps; [exact Hs|apply ensure_beside].
  - by apply bar_sound.
  - by apply pair_sound.
  - eapply ledger_sound; [exact Hs|apply unit_only| |]; (destruct factory as [fresh|]; [|first [apply Hs|apply evolves_refl]]);
      pose proof (process_unit_spec fresh symbol tf max_bars interval db (so_ledger _ Hs)) as Hu;
      destruct (_process_unit (Some fresh) symbol tf max_bars interval db) as [r db']; destruct Hu as (? & ? & _); done.
  - eapply ledger_sound; [exact Hs|apply expired_only| |]; (destruct factory as [fresh|]; [|first [apply Hs|apply evolves_refl]]);
      pose proof (expiry_spec fresh now db (so_ledger _ Hs)) as Hu;
      destruct (_cancel_expired_pending (Some fresh) now db) as [r db']; destruct Hu as (? & ? & _); done.
  - subst db. destruct (admin_beside us jd pu jds pf syms tfs prov risk ip call now bearer request s) as (settings & _ & Hb).
    eapply beside_keeps; [|exact Hb]. by eapply beside_sound; [exact Hs|..|apply Hs|apply Hs].
  - exact Hs.
Qed.

Lemma reached_sound requests db : rtc (transacts requests) empty_db db -> sound db.
Proof.
  intros Hr. pose proof empty_sound as Hs. revert Hs. induction Hr as [|x y z Hxy _ IH]; [done|]. intros Hx. apply IH. by eapply transacts_sound.
Qed.

(** Only a request to configure writes the settings. *)
Lemma transacts_settings db db' : transacts not_configuring db db' -> system_settings db' = system_settings db.
Proof.
  intros Ht. destruct Ht as [st provider caches accepts text i tf now from until s <-|symbols|fr hx accepts agents content clk fields|
    settings wn accepts factory clk symbol tf|factory symbol tf max_bars interval|factory now|
    us jd pu jds pf syms tfs prov risk ip call now bearer request s <- Hcall|].
  - apply series_beside.
  - apply ensure_beside.
  - apply bar_kept.
  - apply pair_decides.
  - apply unit_only.
  - apply expired_only.
  - destruct (admin_beside us jd pu jds pf syms tfs prov risk ip call now bearer request s) as (settings & Hsame & Hb).
    apply negb_true_iff in Hcall. by rewrite (be_settings _ _ Hb), Hsame.
  - done.
Qed.

Lemma history_settings db db' : rtc (transacts not_configuring) db db' -> system_settings db' = system_settings db.
Proof. induction 1 as [|x y z Hxy _ IH]; [done|]. rewrite IH. by apply transacts_settings. Qed.

(** C1: the whole system, from an empty database on.  Whatever transactions its processes
    make, one after the other in whatever order, and whichever of them the server refuses, with whatever agents, providers, brokers,
    settings and requests: every position belongs to a filled order and
    every order to one stored PAPER decision of its symbol, side and timeframe whose stored
    risk evaluation passed; no two orders share a decision and no symbol has two open
    positions; and there is one bar, one signal, one decision and one evaluation for each of
    their keys, and one decision for each id. *)
Theorem every_position_sponsored (db : DB) :
  rtc (transacts any_request) empty_db db ->
  (forall p, p ∈ positions db -> exists o d e, o ∈ orders_paper db /\ o_id o = p_order_id p /\ o_status o = FILLED /\
     str_upper (o_symbol o) = p_symbol p /\ sponsor db o d e) /\
  (forall o, o ∈ orders_paper db -> exists d e, sponsor db o d e /\
     (forall o', o' ∈ orders_paper db -> o_decision_id o' = Some (dr_id d) -> o' = o) /\
     (forall d', d' ∈ decisions db -> dr_id d' = dr_id d -> d' = d)) /\
  NoDup (map p_symbol (list_open_positions db)) /\
  NoDup (map key_of (candles db)) /\ NoDup (map signal_key (agent_signals db)) /\
  NoDup (map decision_key (decisions db)) /\ NoDup (map evaluation_key (risk_evaluations db)).
Proof.
  intros [S1 S2 S3 S4 S5 S6 S7 S8 S9]%reached_sound. split; [|split; [|split_and!; try done; apply S8]].
  - intros p Hp. destruct (inv_filled _ S8 p Hp) as (o & Ho & Hid & Hst & Hsy). destruct (S9 o Ho) as (d & e & Hs). by exists o, d, e.
  - intros o Ho. destruct (S9 o Ho) as (d & e & Hs). exists d, e. split; [exact Hs|]. split.
    + intros o' Ho' Hid. eapply (unique_omap o_decision_id); [apply S8|done|done|exact Hid|apply Hs].
    + intros d' Hd' Hid. eapply (unique_by dr_id); [exact S4|done|apply Hs|done].
Qed.

(** A row of [audit_log] about the market, by an actor and of values that the settings took,
    is refused only for the caller's address. *)
Lemma market_row_ok ip admin rs rt request : setting_flush admin [VDict [("value", VList rs)]; VDict [("value", VList rt)]]%string = Ok tt ->
  audit_ok (audit ip admin MARKET_CONFIG_UPDATED "system_setting" (SYMBOLS_KEY ++ "+" ++ TIMEFRAMES_KEY)
    [("symbols", VList rs); ("timeframes", VList rt)] request)%string = opt_fits 64 (ip request).
Proof.
  unfold setting_flush. destruct (fits 64 (u_email admin)) eqn:Ef; [|done]. destruct (forallb _ _) eqn:Ej; [|done]. intros _.
  cbn [forallb json_ok] in Ej. rewrite !andb_true_r in Ej. apply andb_true_iff in Ej as [Ers Ert].
  apply andb_true_iff in Ers as [_ Ers], Ert as [_ Ert].
  unfold audit_ok. cbn [audit au_actor au_action au_entity_type au_entity_id au_before au_after au_ip opt_json].
  assert (Ha : fits 128 (u_email admin) = true).
  { unfold fits in *. apply andb_true_iff in Ef as [El ->]. apply Nat.leb_le in El. rewrite andb_true_r. apply Nat.leb_le. lia. }
  rewrite Ha. cbn [json_ok]. rewrite Ers, Ert. reflexivity.
Qed.

(** What a request to configure that is answered with success writes: the market's is
    undone after the answer when the caller's address does not fit its column. *)
Lemma configured us jd pu jds pf syms tfs prov risk ip call now bearer request s s' :
  admin_request us jd pu jds pf syms tfs prov risk ip call now bearer request s = (Ok tt, s') ->
  match call with
  | UpdateRiskParams updates => exists q stored,
      set_risk_params pf risk (dget RISK_SETTING_KEY (system_settings (ad_db s))) updates = Ok (q, stored) /\
      system_settings (ad_db s') = dset RISK_SETTING_KEY stored (system_settings (ad_db s))
  | UpdateMarketConfig symbols timeframes =>
      if opt_fits 64 (ip request)
      then exists rs rt, set_market_config syms tfs symbols timeframes (ad_db s) = Ok ((rs, rt), ad_db s')
      else ad_db s' = ad_db s
  | _ => True
  end.
Proof.
  unfold admin_request. destruct (require_role _ _ _ _ _ _) as [admin|e]; [|done]. unfold transaction.
  destruct (handler _ _ _ _ _ _ _ _ _ _ _ _ _) as [r s1] eqn:E. destruct r as [a|e]; [|done].
  intros [= _ <-]. destruct call; cbn [handler] in E; unfold ignore in E; try done.
  - injection E as Er <-. unfold update_market_config in *. destruct (set_market_config _ _ _ _ _) as [[[rs rt] db']|e]; [|by destruct e].
    destruct (setting_flush admin _) as [[]|] eqn:Ef; [|done]. cbn [fst snd]. unfold pending_ok.
    cbn [ad_accounts add_log audit_log add_audit]. rewrite drop_app_length. cbn [forallb].
    rewrite (market_row_ok ip admin rs rt request Ef), andb_true_r. destruct (opt_fits 64 (ip request)); [by exists rs, rt|done].
  - injection E as Er <-. unfold update_risk_params in *. destruct (set_risk_params _ _ _ _) as [[q stored]|]; [|done]. cbn [res_bind snd] in *.
    destruct (setting_flush admin _); [|done]. cbn [res_bind] in *. unfold session_commit in *.
    destruct (pending_ok _ _) eqn:Ep; [|done]. cbn [snd]. rewrite Ep. by exists q, stored.
Qed.

(** C36: what an administrator configures is in force from then on.  After a request that
    sets the risk parameters or the market and is answered with success, and until the next
    such request, whatever the processes and other administrators do meanwhile: the engine
    decides with exactly the parameters the request resolved to (the environment's being in
    their bounds), and the pairs that are decided are exactly those of the universe the
    request stored; a pair outside it changes nothing.  The one exception is a request for
    the market from an address longer than the audit row's 64 characters (an IPv6 address
    with a long scope, from a trusted proxy): its commit fails after the answer, and the
    configuration stays what it was. *)
Theorem configuration_in_force us jd pu jds pf syms tfs prov risk ip call now bearer request s s' (db : DB) :
  admin_request us jd pu jds pf syms tfs prov risk ip call now bearer request s = (Ok tt, s') ->
  rtc (transacts not_configuring) (ad_db s') db ->
  match call with
  | UpdateRiskParams updates =>
      (forall k b, dget k _EDITABLE = Some b -> within b (get_param k risk) = true) ->
      exists q stored,
        set_risk_params pf risk (dget RISK_SETTING_KEY (system_settings (ad_db s))) updates = Ok (q, stored) /\
        load_risk_params pf risk (dget RISK_SETTING_KEY (system_settings db)) = Ok q
  | UpdateMarketConfig symbols timeframes =>
      if opt_fits 64 (ip request) then exists rs rt,
        set_market_config syms tfs symbols timeframes (ad_db s) = Ok ((rs, rt), ad_db s') /\ get_market_config syms tfs db = (rs, rt) /\
        forall settings wn accepts factory clk symbol tf, market_symbols settings = syms -> market_timeframes settings = tfs ->
          has_str (str_upper symbol) rs && has_str (str_upper tf) rt = false ->
          process_pair settings wn accepts factory clk symbol tf db = {| outcome := Ok None; committed := db; sent := [] |}
      else ad_db s' = ad_db s /\ get_market_config syms tfs db = get_market_config syms tfs (ad_db s)
  | _ => True
  end.
Proof.
  intros Ha Hr. apply history_settings in Hr. apply configured in Ha. destruct call; try done.
  - destruct (opt_fits 64 (ip request)).
    2: { split; [exact Ha|]. unfold get_market_config, _read_setting. by rewrite Hr, Ha. }
    destruct Ha as (rs & rt & Hs). exists rs, rt. split; [done|].
    destruct (market_config_roundtrip _ _ _ _ _ _ _ _ Hs) as [Hg _].
    assert (Hget : forall d : DB, system_settings d = system_settings (ad_db s') -> get_market_config syms tfs d = (rs, rt))
      by (intros d Hd; rewrite <- Hg; unfold get_market_config, _read_setting; by rewrite Hd).
    split; [by apply Hget|]. intros settings wn accepts factory clk symbol tf Hm1 Hm2 Hout. unfold process_pair.
    rewrite Hm1, Hm2, (Hget (set_db_now (tx_now clk) db)) by done. rewrite <- negb_andb, Hout. done.
  - intros Hb. destruct Ha as (q & stored & Hq & Hs). exists q, stored. split; [exact Hq|].
    rewrite Hr, Hs, dget_dset_eq. by apply (proj1 (proj2 (risk_params_safe pf risk _ updates)) q stored Hq).
Qed.
End World.

(** ** A concrete history *)

(** Agents that vote for EURUSD H1, a provider of one bar at a time, and a bar per step. *)
Definition demo_voters : list Agent :=
  map (fun s => {| ag_id := agent_id s; ag_analyze := fun _ _ _ => Ok s |}) (demo_signals top_level_atr).
Definition one_bar (t : Z) : DataProvider :=
  {| provider_name := "synthetic"; fetch_candles := fun _ _ _ _ => Ok [sample_candle t 110] |}.
Definition demo_hours (n : Z) : datetime := utc (seconds_td (n * 3600)).

Notation demo_ensured := (@ensure_instruments demo_platform ["EURUSD"%string] empty_db).2.
Notation demo_voted := (@process_bar demo_platform (fun _ => Some 0) (fun _ => "r"%string) (fun _ => true) demo_voters
  empty_content (fun _ => 0) [("symbol", "EURUSD"); ("timeframe", "H1"); ("ts", "t")]%string demo_ensured).1.2.
Notation demo_stored n db := (in_db (@_ingest_series demo_platform demo_ingest_settings (one_bar (n * 3600000000))
  (fun _ => true) (fun _ => true) (fun _ => EmptyString) (@get_or_create_instrument demo_platform "EURUSD" db).1 "H1"
  (demo_hours (n + 1)) None None
  {| breaker := new_breaker 1 60; in_db := db; health := []; quotes := []; published := [] |}).2).
Notation demo_decided := (committed (@process_pair demo_platform demo_settings 0 (fun _ => true) (Some demo_lb)
  demo_clock "EURUSD" "H1" (demo_stored 0 demo_voted))).
Notation demo_filled := (@_process_unit demo_platform (Some demo_lb) "EURUSD" "H1" 24 None (demo_stored 1 demo_decided)).2.

Lemma demo_history : rtc (@transacts demo_platform any_request) empty_db demo_filled.
Proof.
  apply (rtc_l _ _ demo_ensured); [apply instruments_ensured|].
  apply (rtc_l _ _ demo_voted); [apply bar_analysed|].
  apply (rtc_l _ _ (demo_stored 0 demo_voted)); [by apply series_ingested|].
  apply (rtc_l _ _ demo_decided); [apply pair_processed|].
  apply (rtc_l _ _ (demo_stored 1 demo_decided)); [by apply series_ingested|].
  apply rtc_once, unit_processed.
Qed.

Lemma every_position_sponsored_witness :
  length (list_open_positions demo_filled) = 1%nat /\
  forall p, p ∈ positions demo_filled -> exists o d e, sponsor demo_filled o d e /\ o_id o = p_order_id p.
Proof.
  split; [vm_compute; reflexivity|]. intros p Hp.
  destruct (@every_position_sponsored demo_platform demo_platform_ok demo_filled demo_history) as (H & _).
  destruct (H p Hp) as (o & d & e & _ & Ho & _ & _ & Hs). exists o, d, e. exact (conj Hs Ho).
Defined.

(** An administrator sets the market to one pair, and an ingest process starts. *)
Notation demo_configured := (@admin_request demo_platform pretty demo_token (fun s => if String.eqb s "7" then Some 7 else None) demo_dumps
  (fun _ => None) ["EURUSD"]%string ["H1"; "H4"]%string "synthetic"%string sample_params rq_client
  (UpdateMarketConfig (Some ["gbpusd"]%string) None) 0 (Some "key"%string) demo_request demo_admin_state).
Notation demo_started := (@ensure_instruments demo_platform ["EURUSD"%string] (ad_db demo_configured.2)).2.

Lemma demo_configures : demo_configured.1 = Ok tt.
Proof. vm_compute. reflexivity. Qed.

Lemma configuration_in_force_witness :
  get_market_config ["EURUSD"]%string ["H1"; "H4"]%string demo_started = ([VStr "GBPUSD"], [VStr "H1"; VStr "H4"])%string /\
  @process_pair demo_platform demo_settings 0 (fun _ => true) (Some demo_lb) demo_clock "EURUSD" "H1" demo_started =
    {| outcome := Ok None; committed := demo_started; sent := [] |}.
Proof.
  assert (Hg : get_market_config ["EURUSD"]%string ["H1"; "H4"]%string demo_started = ([VStr "GBPUSD"], [VStr "H1"; VStr "H4"])%string)
    by (vm_compute; reflexivity).
  split; [exact Hg|].
  assert (Hr : rtc (@transacts demo_platform not_configuring) (ad_db demo_configured.2) demo_started)
    by apply rtc_once, instruments_ensured.
  destruct (@configuration_in_force demo_platform pretty demo_token (fun s => if String.eqb s "7" then Some 7 else None) demo_dumps
    (fun _ => None) ["EURUSD"]%string ["H1"; "H4"]%string "synthetic"%string sample_params rq_client
    (UpdateMarketConfig (Some ["gbpusd"]%string) None) 0 (Some "key"%string) demo_request demo_admin_state demo_configured.2 demo_started
    (eq_trans (surjective_pairing _) (f_equal (fun r => (r, demo_configured.2)) demo_configures)) Hr) as (rs & rt & _ & H1 & H2).
  assert (Hrs : rs = [VStr "GBPUSD"%string] /\ rt = [VStr "H1"%string; VStr "H4"%string]) by (rewrite H1 in Hg; by injection Hg as -> ->).
  apply H2; [reflexivity|reflexivity|]. destruct Hrs as [-> ->]. vm_compute. reflexivity.
Defined.
